(* ===== verification/_CoqProject ===== *)
-Q . S2P
Prelude.v
GoStrings.v
GitHubErrors.v
Query.v
Rows.v
AccountModel.v
RunnerModel.v
RunnerStore.v
RunnerQueries.v
AccountStore.v
AccountSafety.v
AccountPromises.v
Sponsorship.v
Capacity.v
Catalog.v
Retry.v
Templates.v
DeployModel.v
DeployStore.v
DeployLog.v
DeployInvariant.v
DeployPromises.v
DeployQueries.v
Program.v
Trace.v
ServerCalls.v
ServiceSelection.v
ServiceSafety.v
CacheScopes.v
CacheSafety.v
Sessions.v
SessionSafety.v
RepoAccess.v
RepoAccessSafety.v
UserHandlers.v
Onboarding.v
Confinement.v
SponsorshipHandlers.v
SpecHandlers.v
ProfileHandlers.v
CatalogSafety.v
UserSafety.v
DeployWorker.v
DeployProtocol.v
DeploySafety.v
DeployLifecycle.v
Scheduler.v
Effects.v
Interp.v
Lifecycle.v
LifecycleSafety.v
Handlers.v
HandlersSafety.v
Scenario.v
StopOutcome.v
