(* ===== verification/Prelude.v ===== *)
(** * The Qiniu CI runner

    The program (Go, module qiniu-ci-runner) is a server that runs GitHub Actions jobs and
    preview deployments in sandboxes.  A webhook or an API call admits a runner request; a
    worker claims it, reserves capacity, registers a runner with GitHub and starts it in a
    sandbox; callbacks, webhooks, a sweeper, a reconciler and the recovery after a restart
    bring every request to its end.  A deployment is admitted over HTTP, and a scheduler with
    its workers provisions, monitors and cleans up its sandbox.  Users sign in with GitHub and
    manage the settings, sponsorships and runner specs of their accounts and installations;
    administrators keep the catalog of runner profiles, the default sandbox service and the
    roles.

    ** The parts and their files

    Shared foundations.
    - [Prelude]: record update, the error type ([goerror], [errors_is] for errors.Is),
      [result] with its bind, clock units, automation and generic lemmas.  [GoStrings]: the
      functions of packages strings and strconv in use.  [Query]: SQL on a table.  [Rows]:
      tables with a generated key and a unique index.  [Program]: goroutines as trees of
      events, protocols and their soundness for every interleaving ([protocol_sound]).
      [Trace]: single runs with arbitrary answers, and the obligation [vc] about what a run
      performs.

    Runner requests (internal/state, internal/server).
    - [RunnerModel]: store.go, records.go, conversions.go.  [RunnerStore], [RunnerQueries]:
      runner_requests.go, its writes as functions on a [table] ([store_step] is one of them)
      and its reads.  [Capacity]: server_runner_capacity.go, a ledger with shared counters,
      starts being threads that interleave with store steps.  [Catalog]: catalog.go,
      scoped_catalog.go, profile_policy.go, labelutil.  [Retry], [Templates]: the pure part of
      server_runner_lifecycle.go, server_workflow_job_queue.go and
      server_default_templates.go.
    - [Effects], [Interp]: the language of the lifecycle's handlers ([prog]), what their events
      may answer ([answers]), a weakest precondition that is adequate for every interleaving
      ([sys_step_ok]), the rows a run has held ([held]), and an interpreter.  [Lifecycle],
      [LifecycleSafety]: stop, exit and recovery.  [Handlers], [HandlersSafety]: start,
      admission, webhooks, worker, sweeper, reconciler, administrative retry.  [Scenario],
      [StopOutcome]: concrete runs, and what a stop achieves.

    Accounts and authorization (internal/state, internal/server).
    - [AccountModel], [AccountStore], [AccountSafety], [AccountPromises]: identity_audit.go,
      github_installations.go, account_preferences.go, account_secrets.go,
      sandbox_service_defaults.go.  [Sponsorship]: fork_sponsorships.go.
    - [ServerCalls]: the tables together and the events of the HTTP handlers.  [Sessions],
      [SessionSafety]: server_auth.go, server_auth_helpers.go.  [RepoAccess],
      [RepoAccessSafety]: the cache of server_user_authorization.go.
    - [ServiceSelection], [ServiceSafety]: server_sandbox_service.go.  [CacheScopes],
      [CacheSafety]: cache_sts.go, cache_service.go and the cache part of the start.
    - [GitHubErrors]: how errors of internal/github are told apart.

    HTTP handlers (internal/server).
    - [UserHandlers], [Onboarding], [SponsorshipHandlers], [SpecHandlers]: the routes of users
      for their settings, installations, lists of runners, product tour, fork sponsorships and
      runner specs (server_user_handlers.go, server_user_onboarding.go,
      server_user_fork_sponsorships.go, server_user_runner_specs.go).  [ProfileHandlers]: the
      administrators' routes for runner profiles (server_admin_handlers.go).  [Confinement],
      [CatalogSafety], [UserSafety]: what these routes may touch and show.

    Deployments (internal/state, internal/deployment, internal/server).
    - [DeployModel], [DeployStore], [DeployQueries]: deployments.go,
      deployment_revisions.go.  [DeployLog], [DeployInvariant], [DeployPromises]: what the
      store guarantees.  [DeployWorker], [DeployProtocol], [DeploySafety],
      [DeployLifecycle]: worker.go and runtime/sandbox.go, and every interleaving of them.
      [Scheduler]: scheduler.go.

    ** What is proved

    - The request store: reachable tables are well formed, versions grow, a successful write
      finds the row its caller read up to the lease and [updated_at], a claim takes the first
      runnable request and no claim takes a request whose lease is left and unexpired, queries
      and cursor pages are exact and complete, and the batched access page is the page of one
      query.
    - Capacity: no interleaving of starts exceeds a limit.
    - The catalog: the chosen profile is enabled, fits the job's labels and outranks every
      other that does; label keys are canonical; conditional saves exclude each other; no
      transaction of the catalogs' routes changes what a spec in use runs.
    - Retries: exact delays, a finite budget, terminating polls.
    - The lifecycle, for all interleavings and all answers: statuses follow [status_step];
      queued and creating rows name no sandbox; webhooks, API stops, exits and recovery forget
      a sandbox only once it was reported stopped or gone, and the first three ask for a stop
      only of a sandbox that some row of the run's history was persisted as stopping with.
      The sweeper, the reconciler, starts and administrative retries are exempt from the last
      two: [create_timeout_forgets_sandbox] shows that the first fails for the sweeper.  With
      working services a stop settles the request; a refused stop keeps its sandbox and is
      retried within the budget; a stop for a job the runner is not assigned to stops nothing.
    - Deployments, for all interleavings of workers, handlers, retention and restarts: the
      quota holds, no operation is sent to the provider twice in the life of a deployment,
      rows move along the status machine and lose only sandboxes that are gone; the event log
      refines a bounded log; revisions are a history; the lanes of the scheduler stay within
      their capacity and lose no completion.
    - Accounts: identities and accounts stay paired although sign-ins race, role changes are
      audited and keep an administrator, settings round-trip, revoked access is never served
      from the cache.
    - The choice of the sandbox service follows its documented order and sponsorships are
      authorized; cache credentials write at most one scope, the one of the run.
    - The modelled routes of users, with arbitrary answers: users change only what they manage
      (and owner records of installations as GitHub describes them), and see the settings of
      what they manage only; sign-in and sessions are sound.

    ** Modelling choices

    - Strings are byte strings; ToLower and EqualFold are ASCII, white space is Unicode's.
      Texts are compared bytewise, LIKE works on bytes, [%q] is plain quoting.
    - Times are nanoseconds in Z, zero being Go's zero time; clock readings are arguments or
      events.  An update through the ORM that names its columns sets [updated_at] to its own
      reading unless it names that column.  Durations are bounded by hypotheses where doubling
      could overflow ([delays_ok]); versions are unbounded; the admission counter and the
      epochs of the access cache are wrapping, read correctly in runs of fewer than 2^63
      admissions and 2^64 invalidations.
    - JSON codecs, base64, SHA-256 and HMAC, decryptSecret, url.Parse, time.Parse, deployd's
      plans and its Apply (a list of callbacks) are parameters, with their documented laws as
      hypotheses where a theorem needs them.  JSON columns hold decoded values; webhook bodies
      are decoded payloads after the signature check.
    - A database transaction is atomic and one that fails leaves the tables unchanged.  A
      write of the request store or an update of a deployment may also commit and be reported
      as failed; the request store's error texts are not those of a vanished sandbox.  READ
      COMMITTED snapshots are the arguments [seen] and the [moment]s of retry loops and of the
      scheduler.  A re-read after a write sees the row; rows that compare equal under ORDER BY
      keep the order of the model's table; event ids grow in the order in which insertions
      take effect.  Where the routes of catalogs need it, the hypotheses [dependable] and
      [own_specs] say that a row the store answers is the row asked for.
    - Mutexes around the lifecycle, admissions and sponsorships are left out: goroutines
      interleave at every event, and the checks are those repeated in transactions.  Critical
      sections of caches are single events.  Singleflight is taken at its documentation.
    - Contexts and deadlines show as errors among the answers.  Logs and metrics counters are
      left out, and so are the texts of error responses.
    - A callback of a started runner, the start of a claimed request and a background refresh
      are entry points of their own, possible at any time.
    - The id of a deployment derives from the client's Idempotency-Key and comes back once its
      row was pruned.  The model lets it come back when no goroutine in flight has read or
      written the pruned row ([out_forget]): rows are pruned a retention period of at least a
      day after their last change (config.go), and no goroutine holds a row that long.  A
      sandbox client connects to the sandbox asked for.
    - Fuel: [waiting_delay] has 64, proved enough ([waiting_poll_spec]); the inheritance of
      sandbox settings has 2, proved enough ([inheritance_depth]); the eviction loop of the
      event log has one round more than there are events, proved enough
      ([AppendDeploymentEvent_eq]); the passes of [processQueuedRequests], the attempts of
      retry loops and the rounds of [refreshUserRepositoryAccess] are arguments, the theorems
      hold for every value, and for the last enough fuel gives the result
      ([refresh_loop_ends]); cursor paging is proved to need no more pages than rows.
    - A sandbox counts as released when StopRunner (or resolving its service) returned no
      error, or one [isSandboxGone] recognises.

    ** Not modelled

    The clients of GitHub (all but the handling of its errors) and of the sandbox provider
    with the scripts it runs: their answers are arbitrary.  The routes of users for
    deployments, terminals and single requests, the other administrators' routes, terminals,
    diagnostics, the loading of configuration files and secrets, the construction and routing
    of the server, the commands, the database connection with its schema and data migrations,
    and the user interface.  Most of them are input and output around the modelled state; the
    routes of deployments and terminals and the GitHub client are the next extensions. *)

From stdpp Require Import base gmap list strings sorting pretty.
From Stdlib Require Import Lia.

(** ** Notation scope of the development *)

Declare Scope runner_scope.
Delimit Scope runner_scope with runner.
Open Scope runner_scope.

(** ** Functional record update

    Go code mutates struct fields one at a time; [r <| f := v |>] is the copy
    of the record [r] in which the field [f] holds [v].  A record type opts in
    with one [Rebuild] instance (its eta-expansion). *)

Class Rebuild (R : Type) := rebuild : R -> R.

Class FieldUpdate {R T : Type} (get : R -> T) := field_update : (T -> T) -> R -> R.

Ltac derive_field_update get :=
  lazymatch type of get with
  | ?R -> ?T =>
      let inst := constr:(_ : Rebuild R) in
      let eta := eval red in inst in
      let pat := eval pattern get in eta in
      lazymatch pat with
      | ?F _ =>
          let res := eval cbv beta in
            (fun (f : T -> T) (r : R) => F (fun r => f (get r)) r) in
          exact res
      end
  end.

#[export] Hint Extern 0 (FieldUpdate ?get) => derive_field_update get : typeclass_instances.

Notation "r <| f := v |>" := (field_update (get := f) (fun _ => v) r)
  (at level 1, left associativity, format "r <| f  :=  v |>") : runner_scope.

(** ** Time

    [time.Time] is a number of nanoseconds since Go's zero time, so the zero
    value is [0] and [IsZero] compares with it.  The clock is never read by a
    definition: every [time.Now()] is an argument or an effect. *)

Abbreviation Time := Z (only parsing).

Definition IsZero (t : Time) : bool := bool_decide (t = 0%Z).

(** [zeroTimeToPointer] and [pointerToTime]: nullable time columns. *)
Definition zeroTimeToPointer (t : Time) : option Time :=
  if IsZero t then None else Some t.

Definition pointerToTime (t : option Time) : Time := default 0%Z t.

(** A nullable int64 column and its zero default. *)
Definition pointerToInt64 (v : option Z) : Z := default 0%Z v.

(** Durations in nanoseconds. *)
Definition Millisecond : Z := 1000000.
Definition Second : Z := 1000 * Millisecond.
Definition Minute : Z := 60 * Second.
Definition Hour : Z := 60 * Minute.

(** Two's complement int64, and the uint64 ring. *)
Definition wrap64 (z : Z) : Z := ((z + 2 ^ 63) mod 2 ^ 64 - 2 ^ 63)%Z.
Definition wrapu64 (z : Z) : Z := (z mod 2 ^ 64)%Z.
Definition in_int64 (z : Z) : Prop := (- 2 ^ 63 <= z < 2 ^ 63)%Z.

Lemma wrap64_id z : in_int64 z -> wrap64 z = z.
Proof. unfold in_int64, wrap64. intros H. rewrite Z.mod_small; lia. Qed.

Lemma wrap64_range z : in_int64 (wrap64 z).
Proof.
  unfold in_int64, wrap64.
  pose proof (Z.mod_pos_bound (z + 2 ^ 63) (2 ^ 64) ltac:(lia)). lia.
Qed.

Lemma IsZero_true t : IsZero t = true <-> t = 0%Z.
Proof. unfold IsZero. apply bool_decide_eq_true. Qed.

Lemma IsZero_false t : IsZero t = false <-> t <> 0%Z.
Proof. unfold IsZero. apply bool_decide_eq_false. Qed.

Lemma pointer_time_roundtrip t : pointerToTime (zeroTimeToPointer t) = t.
Proof.
  unfold zeroTimeToPointer. destruct (IsZero t) eqn:E; [|done].
  apply IsZero_true in E. by subst.
Qed.

(** ** Errors

    The sentinel errors of package state are constructors, tested in the code
    with [errors.Is]; [ErrSentinel name] is such an error of another package, by
    its qualified name.  [ErrText] is an error made by [errors.New] or by
    [fmt.Errorf] without [%w]; [ErrWrap pre cause post] is [fmt.Errorf] with
    one [%w], whose text is [pre ++ cause.Error() ++ post], and [ErrBoth] is
    [fmt.Errorf("%w: %w", first, second)].  [ErrAPI] is the [apiError] of package
    github. *)

Inductive goerror :=
| ErrConflict
| ErrNotFound
| ErrRetryNotAllowed
| ErrDeploymentQuotaExceeded
| ErrRunnerProfileNameConflict
| ErrRunnerProfileLabelsConflict
| ErrRecordNotFound
| ErrDeadlineExceeded
| ErrRunnerExitedWithoutJob
| ErrRunnerCreationSuperseded
| ErrForkSponsorshipAtCapacity
| ErrForkSponsorshipPolicyChanged
| ErrSandboxNotFound
| ErrRunnerNotFound
| ErrRunnerApplicationMissing
| ErrRunnerGroupValidation (code : string) (retryable : bool) (msg : string)
| ErrDefaultTemplateResolution (reason msg : string)
| ErrSentinel (name : string)
| ErrAPI (operation : string) (statusCode : Z) (body retryAfter rateLimitRemaining : string)
| ErrText (msg : string)
| ErrWrap (pre : string) (cause : goerror) (post : string)
| ErrBoth (first second : goerror).

#[export] Instance goerror_eq_dec : EqDecision goerror.
Proof. solve_decision. Defined.

(** [err.Error()]. *)
Fixpoint error_text (e : goerror) : string :=
  match e with
  | ErrConflict => "state conflict"
  | ErrNotFound => "state record not found"
  | ErrRetryNotAllowed => "retry not allowed for current state"
  | ErrDeploymentQuotaExceeded => "deployment scope concurrency limit exceeded"
  | ErrRunnerProfileNameConflict => "runner profile name conflicts with enabled global profile"
  | ErrRunnerProfileLabelsConflict => "runner profile labels conflict"
  | ErrRecordNotFound => "record not found"
  | ErrDeadlineExceeded => "context deadline exceeded"
  | ErrRunnerExitedWithoutJob => "runner process exited before accepting a job"
  | ErrRunnerCreationSuperseded => "runner creation attempt superseded"
  | ErrForkSponsorshipAtCapacity => "fork sponsorship is at capacity"
  | ErrForkSponsorshipPolicyChanged => "fork sponsorship policy changed during startup"
  | ErrSandboxNotFound => "sandbox not found"
  | ErrRunnerNotFound => "runner process not found"
  | ErrRunnerApplicationMissing => "github runner applications contain no application"
  | ErrRunnerGroupValidation code _ msg => code +:+ ": " +:+ msg
  | ErrDefaultTemplateResolution _ msg => msg
  | ErrSentinel name => name
  | ErrAPI operation statusCode body _ _ => operation +:+ ": status " +:+ pretty statusCode +:+ ": " +:+ body
  | ErrText msg => msg
  | ErrWrap pre cause post => pre +:+ error_text cause +:+ post
  | ErrBoth first second => error_text first +:+ ": " +:+ error_text second
  end.

(** The error chain that [errors.Is] and [errors.As] walk. *)
Fixpoint error_chain (e : goerror) : list goerror :=
  e :: match e with
       | ErrWrap _ cause _ => error_chain cause
       | ErrBoth first second => error_chain first ++ error_chain second
       | _ => []
       end.

Definition errors_is (e target : goerror) : bool := bool_decide (target ∈ error_chain e).

(** The result of a fallible Go function. *)
Inductive result (A : Type) :=
| Ok (a : A)
| Err (e : goerror).
Arguments Ok {A} _.
Arguments Err {A} _.

Definition result_bind {A B} (m : result A) (f : A -> result B) : result B :=
  match m with Ok a => f a | Err e => Err e end.

Notation "'let?' x := m 'in' k" := (result_bind m (fun x => k))
  (at level 10, x pattern, m at level 100, k at level 200) : runner_scope.

Definition is_ok {A} (m : result A) : bool := match m with Ok _ => true | Err _ => false end.

(** ** Tactics and hint databases *)

Create HintDb runner discriminated.
Create Rewrite HintDb runner.

(** Case analysis on the innermost [match] or [if] of the goal or of a hypothesis. *)
Ltac destruct_match_goal :=
  match goal with
  | |- context [match ?x with _ => _ end] =>
      lazymatch x with
      | context [match _ with _ => _ end] => fail
      | _ => let E := fresh "E" in destruct x eqn:E
      end
  end.

Ltac destruct_match_hyp H :=
  match type of H with
  | context [match ?x with _ => _ end] =>
      lazymatch x with
      | context [match _ with _ => _ end] => fail
      | _ => let E := fresh "E" in destruct x eqn:E
      end
  end.

(** Boolean tests of the code as propositions. *)
Ltac bool_prop :=
  repeat match goal with
  | H : bool_decide _ = true |- _ => apply bool_decide_eq_true_1 in H
  | H : bool_decide _ = false |- _ => apply bool_decide_eq_false_1 in H
  | H : _ && _ = true |- _ => apply andb_true_iff in H as [? ?]
  | H : _ || _ = false |- _ => apply orb_false_iff in H as [? ?]
  | H : negb _ = true |- _ => apply negb_true_iff in H
  | H : negb _ = false |- _ => apply negb_false_iff in H
  | H : _ && _ = false |- _ => apply andb_false_iff in H
  | H : _ || _ = true |- _ => apply orb_true_iff in H
  end.

(** Rewrite with the boolean equations of the context. *)
Ltac rewrite_bools :=
  repeat match goal with
  | H : ?b = true |- context [?b] => rewrite H
  | H : ?b = false |- context [?b] => rewrite H
  end.

(** The guards passed by a function that returned a value. *)
Ltac inv_ok H :=
  repeat match type of H with
  | (if ?b then Err _ else _) = Ok _ => let E := fresh "E" in destruct b eqn:E; [discriminate H|]
  | (if ?b then _ else Err _) = Ok _ => let E := fresh "E" in destruct b eqn:E; [|discriminate H]
  end.

Lemma result_bind_Ok {A B} (m : result A) (f : A -> result B) b :
  result_bind m f = Ok b -> exists a, m = Ok a /\ f a = Ok b.
Proof. destruct m as [a|e]; [|done]. intros H. by exists a. Qed.

#[export] Hint Resolve wrap64_range : runner.
#[export] Hint Rewrite pointer_time_roundtrip : runner.

(** ** Lists *)

(** [countb p l] is SQL's [COUNT] of the rows satisfying [p]. *)
Definition countb {A} (p : A -> bool) (l : list A) : nat := length (List.filter p l).

Lemma countb_nil {A} (p : A -> bool) : countb p [] = 0.
Proof. done. Qed.

Lemma countb_cons {A} (p : A -> bool) x l :
  countb p (x :: l) = (if p x then 1 else 0) + countb p l.
Proof. unfold countb. simpl. by destruct (p x). Qed.

Lemma countb_app {A} (p : A -> bool) l1 l2 : countb p (l1 ++ l2) = countb p l1 + countb p l2.
Proof. unfold countb. by rewrite List.filter_app, length_app. Qed.

Lemma countb_perm {A} (p : A -> bool) l1 l2 : l1 ≡ₚ l2 -> countb p l1 = countb p l2.
Proof. induction 1; rewrite ?countb_cons in *; try done; lia. Qed.

Lemma countb_le {A} (p q : A -> bool) l :
  (forall x, x ∈ l -> p x = true -> q x = true) -> countb p l <= countb q l.
Proof.
  induction l as [|x l IH]; intros H; [done|]. rewrite !countb_cons.
  assert (countb p l <= countb q l) by (apply IH; intros; apply H; [by right|done]).
  destruct (p x) eqn:E; [|lia]. rewrite (H x) by (done || left). lia.
Qed.

Lemma countb_ext {A} (p q : A -> bool) l :
  (forall x, x ∈ l -> p x = q x) -> countb p l = countb q l.
Proof.
  induction l as [|x l IH]; intros H; [done|]. rewrite !countb_cons, (H x) by left.
  f_equal. apply IH. intros; apply H; by right.
Qed.

Lemma countb_split {A} (p q : A -> bool) l :
  countb p l = countb (fun x => p x && q x) l + countb (fun x => p x && negb (q x)) l.
Proof.
  induction l as [|x l IH]; [done|]. rewrite !countb_cons, IH.
  destruct (p x), (q x); simpl; lia.
Qed.

Lemma countb_zero {A} (p : A -> bool) l :
  (forall x, x ∈ l -> p x = false) -> countb p l = 0.
Proof.
  induction l as [|x l IH]; intros H; [done|].
  rewrite countb_cons, (H x) by left. rewrite IH; [done|]. intros; apply H; by right.
Qed.

#[export] Hint Rewrite @countb_nil @countb_cons @countb_app : runner.
