(* ===== verification/GoStrings.v ===== *)
(** * The functions of Go's package strings that the code uses

    A Go string is a byte string; [string] is a list of bytes.  [TrimSpace] is
    exact: it removes the UTF-8 encodings of all Unicode white space
    characters.  [ToLower] and [EqualFold] map the ASCII letters only; the
    case-folded data of the program (repository names, labels, owners, status
    words) are ASCII, and non-ASCII letters are left as they are here. *)

From stdpp Require Import base list strings pretty.
From S2P Require Import Prelude.
From Stdlib Require Import Ascii.

Definition bytes (s : string) : list ascii := String.list_ascii_of_string s.
Definition of_bytes (l : list ascii) : string := String.string_of_list_ascii l.

Lemma bytes_of_bytes l : bytes (of_bytes l) = l.
Proof. apply String.list_ascii_of_string_of_list_ascii. Qed.

Lemma of_bytes_bytes s : of_bytes (bytes s) = s.
Proof. apply String.string_of_list_ascii_of_string. Qed.

Lemma bytes_app a b : bytes (a +:+ b) = bytes a ++ bytes b.
Proof. unfold bytes. induction a as [|c a IH]; [done|]. simpl. by f_equal. Qed.

#[export] Hint Rewrite bytes_of_bytes of_bytes_bytes : runner.

(** ** TrimSpace *)

Definition code (c : ascii) : N := N_of_ascii c.

(** White space runes of one, two and three bytes in UTF-8. *)
Definition ws1 (c : ascii) : bool :=
  ((9 <=? code c) && (code c <=? 13) || (code c =? 32))%N.

Definition ws2 (c d : ascii) : bool :=
  ((code c =? 194) && ((code d =? 133) || (code d =? 160)))%N.

Definition ws3 (c d e : ascii) : bool :=
  ((code c =? 225) && (code d =? 154) && (code e =? 128)
   || (code c =? 226) && (code d =? 128)
      && ((128 <=? code e) && (code e <=? 138) || (code e =? 168) || (code e =? 169) || (code e =? 175))
   || (code c =? 226) && (code d =? 129) && (code e =? 159)
   || (code c =? 227) && (code d =? 128) && (code e =? 128))%N.

Section trim.
Context (w2 : ascii -> ascii -> bool) (w3 : ascii -> ascii -> ascii -> bool).

(** Whether a list starts with a white space rune, in the reading order
    given by [w2] and [w3]. *)
Definition starts_ws (l : list ascii) : bool :=
  match l with
  | [] => false
  | c :: r =>
      ws1 c ||
      match r with
      | [] => false
      | d :: r2 => w2 c d || match r2 with [] => false | e :: _ => w3 c d e end
      end
  end.

Fixpoint trim (l : list ascii) : list ascii :=
  match l with
  | [] => []
  | c :: r =>
      if ws1 c then trim r else
      match r with
      | [] => l
      | d :: r2 =>
          if w2 c d then trim r2 else
          match r2 with
          | [] => l
          | e :: r3 => if w3 c d e then trim r3 else l
          end
      end
  end.

Lemma trim_spec n l :
  length l <= n -> starts_ws (trim l) = false /\ exists p, l = p ++ trim l.
Proof.
  revert l. induction n as [|n IH]; intros l Hl.
  { destruct l; [|simpl in Hl; lia]. simpl. split; [done|by exists []]. }
  assert (Hrec : forall q r, length r <= n -> l = q ++ r ->
            starts_ws (trim r) = false /\ exists p, l = p ++ trim r).
  { intros q r Hr ->. destruct (IH r Hr) as [H1 [p Hp]]. split; [done|].
    exists (q ++ p). rewrite <-app_assoc. by rewrite <-Hp. }
  destruct l as [|c r]; [split; [done|by exists []]|]. simpl in Hl.
  simpl. destruct (ws1 c) eqn:E1.
  { apply (Hrec [c]); [lia|done]. }
  destruct r as [|d r2]; [split; [simpl; by rewrite E1|by exists []]|].
  destruct (w2 c d) eqn:E2.
  { apply (Hrec [c; d]); simpl in *; [lia|done]. }
  destruct r2 as [|e r3]; [split; [simpl; by rewrite E1, E2|by exists []]|].
  destruct (w3 c d e) eqn:E3.
  { apply (Hrec [c; d; e]); simpl in *; [lia|done]. }
  split; [simpl; by rewrite E1, E2, E3|by exists []].
Qed.

Lemma trim_not_ws l : starts_ws (trim l) = false.
Proof. by destruct (trim_spec (length l) l). Qed.

Lemma trim_suffix l : exists p, l = p ++ trim l.
Proof. by destruct (trim_spec (length l) l). Qed.

Lemma trim_id l : starts_ws l = false -> trim l = l.
Proof.
  destruct l as [|c [|d [|e r]]]; simpl; intros H; bool_prop; rewrite_bools; done.
Qed.

(** A prefix of a list that does not start with white space does not either. *)
Lemma starts_ws_prefix p s : starts_ws (p ++ s) = false -> starts_ws p = false.
Proof.
  destruct p as [|c [|d [|e r]]]; simpl; intros H; bool_prop; rewrite_bools; done.
Qed.
End trim.

Definition ws2_rev (d c : ascii) : bool := ws2 c d.
Definition ws3_rev (e d c : ascii) : bool := ws3 c d e.

Definition trim_bytes (l : list ascii) : list ascii :=
  rev (trim ws2_rev ws3_rev (rev (trim ws2 ws3 l))).

Definition TrimSpace (s : string) : string := of_bytes (trim_bytes (bytes s)).

(** A list with no white space at either end. *)
Definition trimmed (l : list ascii) : Prop :=
  starts_ws ws2 ws3 l = false /\ starts_ws ws2_rev ws3_rev (rev l) = false.

Lemma trim_bytes_trimmed l : trimmed (trim_bytes l).
Proof.
  unfold trimmed, trim_bytes. rewrite rev_involutive. split; [|apply trim_not_ws].
  destruct (trim_suffix ws2_rev ws3_rev (rev (trim ws2 ws3 l))) as [p Hp].
  apply (f_equal (@rev _)) in Hp. rewrite rev_involutive, rev_app_distr in Hp.
  eapply starts_ws_prefix. rewrite <-Hp. apply trim_not_ws.
Qed.

Lemma trim_bytes_id l : trimmed l -> trim_bytes l = l.
Proof.
  intros [H1 H2]. unfold trim_bytes. rewrite (trim_id _ _ l H1), trim_id by done.
  apply rev_involutive.
Qed.

Lemma TrimSpace_idem s : TrimSpace (TrimSpace s) = TrimSpace s.
Proof.
  unfold TrimSpace. rewrite bytes_of_bytes. f_equal.
  apply trim_bytes_id, trim_bytes_trimmed.
Qed.

#[export] Hint Rewrite TrimSpace_idem : runner.

(** ** Case mapping *)

Definition lower_byte (c : ascii) : ascii :=
  (if (65 <=? code c) && (code c <=? 90) then ascii_of_N (code c + 32) else c)%N.

Definition ToLower (s : string) : string := of_bytes (map lower_byte (bytes s)).

Definition EqualFold (s t : string) : bool := bool_decide (ToLower s = ToLower t).

Lemma lower_byte_idem c : lower_byte (lower_byte c) = lower_byte c.
Proof. by destruct c as [[] [] [] [] [] [] [] []]. Qed.

Lemma ToLower_idem s : ToLower (ToLower s) = ToLower s.
Proof.
  unfold ToLower. rewrite bytes_of_bytes, map_map. f_equal.
  apply map_ext, lower_byte_idem.
Qed.

#[export] Hint Rewrite ToLower_idem : runner.

(** Lower case neither makes nor removes white space. *)
Lemma code_lower c : code (lower_byte c) = (if (65 <=? code c) && (code c <=? 90) then code c + 32 else code c)%N.
Proof. by destruct c as [[] [] [] [] [] [] [] []]. Qed.

Lemma ws1_lower c : ws1 (lower_byte c) = ws1 c.
Proof. by destruct c as [[] [] [] [] [] [] [] []]. Qed.

Lemma high_lower c n : (122 < n)%N ->
  (code (lower_byte c) =? n)%N = (code c =? n)%N /\ (n <=? code (lower_byte c))%N = (n <=? code c)%N /\
  (code (lower_byte c) <=? n)%N = (code c <=? n)%N.
Proof.
  intros Hn. rewrite code_lower. destruct ((65 <=? code c)%N && _) eqn:E; [|done].
  apply andb_true_iff in E as [_ E%N.leb_le].
  rewrite !(proj2 (N.eqb_neq _ _)), !(proj2 (N.leb_gt _ _)), !(proj2 (N.leb_le _ _)) by lia. done.
Qed.

Lemma ws2_lower c d : ws2 (lower_byte c) (lower_byte d) = ws2 c d.
Proof. unfold ws2. by rewrite !(fun c n H => proj1 (high_lower c n H)) by done. Qed.

Lemma ws3_lower c d e : ws3 (lower_byte c) (lower_byte d) (lower_byte e) = ws3 c d e.
Proof.
  unfold ws3. rewrite !(fun c n H => proj1 (high_lower c n H)) by done.
  by rewrite (proj1 (proj2 (high_lower e 128 eq_refl))), (proj2 (proj2 (high_lower e 138 eq_refl))).
Qed.

Lemma trimmed_lower l : trimmed l -> trimmed (map lower_byte l).
Proof.
  assert (H : forall w2 w3 l, (forall c d, w2 (lower_byte c) (lower_byte d) = w2 c d) ->
     (forall c d e, w3 (lower_byte c) (lower_byte d) (lower_byte e) = w3 c d e) ->
     starts_ws w2 w3 (map lower_byte l) = starts_ws w2 w3 l).
  { intros w2 w3 [|c [|d [|e r]]] H2 H3; simpl; rewrite ?ws1_lower, ?H2, ?H3; done. }
  intros [H1 H2]. split; [|rewrite <-map_rev]; rewrite H; auto using ws2_lower, ws3_lower;
    unfold ws2_rev, ws3_rev; auto using ws2_lower, ws3_lower.
Qed.

(** The normal form of names and keys. *)
Lemma normal_idem s : ToLower (TrimSpace (ToLower (TrimSpace s))) = ToLower (TrimSpace s).
Proof.
  unfold TrimSpace at 1. unfold ToLower at 2. rewrite bytes_of_bytes, trim_bytes_id.
  - apply (ToLower_idem (TrimSpace s)).
  - apply trimmed_lower. unfold TrimSpace. rewrite bytes_of_bytes. apply trim_bytes_trimmed.
Qed.

(** ** Searching *)

Fixpoint prefix_bytes (p l : list ascii) : bool :=
  match p, l with
  | [], _ => true
  | _ :: _, [] => false
  | a :: p', b :: l' => bool_decide (a = b) && prefix_bytes p' l'
  end.

Fixpoint contains_bytes (sub l : list ascii) : bool :=
  prefix_bytes sub l || match l with [] => false | _ :: r => contains_bytes sub r end.

Definition HasPrefix (s p : string) : bool := prefix_bytes (bytes p) (bytes s).
Definition HasSuffix (s p : string) : bool := prefix_bytes (rev (bytes p)) (rev (bytes s)).
Definition Contains (s sub : string) : bool := contains_bytes (bytes sub) (bytes s).

Definition TrimPrefix (s p : string) : string :=
  if HasPrefix s p then of_bytes (drop (String.length p) (bytes s)) else s.

Definition TrimSuffix (s p : string) : string :=
  if HasSuffix s p then of_bytes (take (String.length s - String.length p) (bytes s)) else s.

Lemma prefix_bytes_spec p l : prefix_bytes p l = true <-> exists r, l = p ++ r.
Proof.
  revert l. induction p as [|a p IH]; intros [|b l]; simpl.
  - split; [by exists []|done].
  - split; [by exists (b :: l)|done].
  - split; [done|]. by intros [r ?].
  - rewrite andb_true_iff, bool_decide_eq_true, IH. split.
    + intros [-> [r ->]]. by exists r.
    + intros [r [= -> ->]]. eauto.
Qed.

Lemma contains_bytes_spec sub l :
  contains_bytes sub l = true <-> exists p r, l = p ++ sub ++ r.
Proof.
  induction l as [|c l IH]; simpl; rewrite orb_true_iff, prefix_bytes_spec.
  - split.
    + intros [[r Hr]|]; [|done]. by exists [], r.
    + intros (p & r & H). left. exists r.
      symmetry in H. apply app_nil in H as [-> H]. done.
  - rewrite IH. split.
    + intros [[r Hr]|(p & r & Hr)]; [by exists [], r|].
      exists (c :: p), r. by rewrite Hr.
    + intros (p & r & H). destruct p as [|c' p]; simpl in H; [left; by exists r|].
      injection H as -> H. right. by exists p, r.
Qed.

Lemma not_contains_byte s c : c ∉ bytes s -> contains_bytes [c] (bytes s) = false.
Proof.
  intros H. apply not_true_is_false. intros (p & r & E)%contains_bytes_spec.
  apply H. rewrite E. apply elem_of_app. right. left.
Qed.

(** ** Replacement: [strings.ReplaceAll] for a non-empty old string *)

Fixpoint replace_go (old new : list ascii) (skip : nat) (l : list ascii) : list ascii :=
  match l with
  | [] => []
  | c :: r =>
      match skip with
      | S k => replace_go old new k r
      | O => if prefix_bytes old l then new ++ replace_go old new (pred (length old)) r
             else c :: replace_go old new 0 r
      end
  end.

Definition ReplaceAll (s old new : string) : string :=
  of_bytes (replace_go (bytes old) (bytes new) 0 (bytes s)).

(** ** [strings.Cut] at a one-byte separator *)

Fixpoint cut_bytes (sep : ascii) (l : list ascii) : option (list ascii * list ascii) :=
  match l with
  | [] => None
  | c :: r => if bool_decide (c = sep) then Some ([], r)
              else match cut_bytes sep r with
                   | Some (a, b) => Some (c :: a, b)
                   | None => None
                   end
  end.

(** [before, after, found := strings.Cut(s, sep)]. *)
Definition Cut (s : string) (sep : ascii) : string * string * bool :=
  match cut_bytes sep (bytes s) with
  | Some (a, b) => (of_bytes a, of_bytes b, true)
  | None => (s, "", false)
  end.

Lemma cut_bytes_spec sep l a b :
  cut_bytes sep l = Some (a, b) <-> l = a ++ sep :: b /\ sep ∉ a.
Proof.
  revert a. induction l as [|c l IH]; intros a; simpl.
  - split; [done|]. intros [H _]. by destruct a.
  - case_bool_decide as E; [subst c|].
    + split.
      * intros [= <- <-]. split; [done|]. apply not_elem_of_nil.
      * intros [H Hn]. destruct a as [|x a]; simpl in H; [congruence|].
        injection H as -> _. exfalso. apply Hn. left.
    + destruct (cut_bytes sep l) as [[a0 b0]|] eqn:Ec.
      * split.
        -- intros [= <- <-]. destruct (proj1 (IH a0) eq_refl) as [-> Hn].
           split; [done|]. apply not_elem_of_cons. by split.
        -- intros [H Hn]. destruct a as [|x a]; simpl in H; [congruence|].
           injection H as -> H. apply not_elem_of_cons in Hn as [_ Hn].
           assert (Some (a0, b0) = Some (a, b)) as [= -> ->] by (by apply IH). done.
      * split; [done|]. intros [H Hn]. destruct a as [|x a]; simpl in H; [congruence|].
        injection H as -> H. apply not_elem_of_cons in Hn as [_ Hn].
        assert (None = Some (a, b)) by (by apply IH). done.
Qed.

(** [strconv.FormatInt(n, 10)]. *)
Definition FormatInt (n : Z) : string := pretty n.

(** [strconv.ParseInt(s, 10, 64)]: an optional sign, decimal digits, within an int64. *)
Definition decimal_digit (c : ascii) : bool := ((48 <=? code c) && (code c <=? 57))%N.

Definition decimal (l : list ascii) : Z := foldl (fun n c => n * 10 + Z.of_N (code c - 48))%Z 0%Z l.

Definition ParseInt (s : string) : option Z :=
  let '(negative, digits) := match bytes s with
                             | "-"%char :: r => (true, r)
                             | "+"%char :: r => (false, r)
                             | r => (false, r)
                             end in
  if bool_decide (digits = []) || negb (forallb decimal_digit digits) then None
  else
    let n := if (negative : bool) then (- decimal digits)%Z else decimal digits in
    if (- 2 ^ 63 <=? n)%Z && (n <? 2 ^ 63)%Z then Some n else None.

(** [len(s)]. *)
Definition len (s : string) : Z := Z.of_nat (String.length s).

(** [strings.Split] at a one-byte separator. *)
Fixpoint split_bytes (sep : ascii) (l : list ascii) : list (list ascii) :=
  match l with
  | [] => [[]]
  | c :: r =>
      if bool_decide (c = sep) then [] :: split_bytes sep r
      else match split_bytes sep r with
           | [] => [[c]]
           | p :: ps => (c :: p) :: ps
           end
  end.

Definition Split (s : string) (sep : ascii) : list string := map of_bytes (split_bytes sep (bytes s)).

(** [strings.TrimRight(s, c)] and [strings.Trim(s, c)] for a one-byte cut set, and
    [strings.ContainsAny]. *)
Fixpoint drop_byte (c : ascii) (l : list ascii) : list ascii :=
  match l with [] => [] | x :: r => if bool_decide (x = c) then drop_byte c r else l end.

Definition TrimLeft (s : string) (c : ascii) : string := of_bytes (drop_byte c (bytes s)).
Definition TrimRight (s : string) (c : ascii) : string := of_bytes (rev (drop_byte c (rev (bytes s)))).
Definition Trim (s : string) (c : ascii) : string := TrimRight (TrimLeft s c) c.

Definition ContainsAny (s : string) (chars : list ascii) : bool := existsb (fun c => bool_decide (c ∈ chars)) (bytes s).

Lemma elem_of_split c sep l : c ∈ l -> c = sep \/ exists x, x ∈ split_bytes sep l /\ c ∈ x.
Proof.
  induction l as [|a l IH]; [by intros ?%elem_of_nil|]. intros H. cbn [split_bytes].
  destruct (bool_decide (a = sep)) eqn:E.
  - apply bool_decide_eq_true in E as ->. apply elem_of_cons in H as [->|H]; [by left|].
    destruct (IH H) as [->|(x & Hx & Hc)]; [by left|]. right. exists x. split; [by right|done].
  - apply elem_of_cons in H as [->|H].
    + right. destruct (split_bytes sep l) as [|y r]; eexists; (split; [left|left]).
    + destruct (IH H) as [->|(x & Hx & Hc)]; [by left|]. right.
      destruct (split_bytes sep l) as [|y r]; [by apply elem_of_nil in Hx|].
      apply elem_of_cons in Hx as [->|Hx]; [exists (a :: y); split; [left|by right]|exists x; split; [by right|done]].
Qed.

(** A decimal number has digits only. *)
Lemma pretty_N_go_bytes x s c : c ∈ bytes (pretty_N_go x s) -> c ∈ bytes s \/ exists n, c = pretty_N_char n.
Proof.
  revert s. induction (N.lt_wf_0 x) as [x _ IH]; intros s Hc. destruct (decide (x = 0)%N) as [->|N].
  - rewrite pretty_N_go_0 in Hc. by left.
  - rewrite pretty_N_go_step in Hc by lia. apply IH in Hc; [|apply N.div_lt; lia].
    destruct Hc as [Hc|Hc]; [|by right]. cbn in Hc. apply elem_of_cons in Hc as [->|Hc]; [right; by eexists|by left].
Qed.

Lemma FormatInt_bytes n c : (0 <= n)%Z -> c ∈ bytes (FormatInt n) -> exists m, c = pretty_N_char m.
Proof.
  intros Hn Hc. unfold FormatInt, pretty, pretty_Z in Hc.
  assert (Hp : forall m : N, c ∈ bytes (pretty m) -> exists m, c = pretty_N_char m).
  { intros m H. unfold pretty, pretty_N in H. case_decide.
    - cbn in H. apply list_elem_of_singleton in H as ->. by exists 0%N.
    - apply pretty_N_go_bytes in H as [H|H]; [|done]. by apply not_elem_of_nil in H. }
  destruct n as [|p|p]; [| |lia].
  - cbn in Hc. apply list_elem_of_singleton in Hc as ->. by exists 0%N.
  - by eapply Hp.
Qed.

Lemma bytes_inj s t : bytes s = bytes t -> s = t.
Proof. intros H. by rewrite <-(of_bytes_bytes s), H, of_bytes_bytes. Qed.
