(* ===== verification/GitHubErrors.v ===== *)
(** * Errors of the GitHub API (internal/github/client.go)

    [apiError] is the constructor [ErrAPI] of [goerror]; the code finds it with errors.As. *)

From stdpp Require Import base list strings.
From S2P Require Import Prelude GoStrings.

Definition StatusUnauthorized : Z := 401.
Definition StatusForbidden : Z := 403.
Definition StatusNotFound : Z := 404.
Definition StatusTooManyRequests : Z := 429.

Record apiError := MkApiError {
  api_Operation : string;
  api_StatusCode : Z;
  api_Body : string;
  api_RetryAfter : string;
  api_RateLimitRemaining : string
}.

(** The first [apiError] of the chain. *)
Definition asAPIError (err : goerror) : option apiError :=
  head (omap (fun e => match e with
                       | ErrAPI operation status body retryAfter remaining =>
                           Some (MkApiError operation status body retryAfter remaining)
                       | _ => None
                       end) (error_chain err)).

Definition ErrorStatus (err : goerror) : option Z := api_StatusCode <$> asAPIError err.

Definition isRateLimitAPIError (e : apiError) : bool :=
  if negb (api_StatusCode e =? StatusForbidden)%Z && negb (api_StatusCode e =? StatusTooManyRequests)%Z then false
  else negb (bool_decide (TrimSpace (api_RetryAfter e) = ""))
       || bool_decide (TrimSpace (api_RateLimitRemaining e) = "0")
       || Contains (ToLower (api_Body e)) "rate limit".

Definition IsRateLimitError (err : goerror) : bool :=
  match asAPIError err with Some e => isRateLimitAPIError e | None => false end.

Definition RateLimitRetryAfter (err : goerror) : option string :=
  match asAPIError err with
  | Some e =>
      if isRateLimitAPIError e then
        let retryAfter := TrimSpace (api_RetryAfter e) in
        if bool_decide (retryAfter = "") then None else Some retryAfter
      else None
  | None => None
  end.

(** A rate-limited error carries one of the two statuses. *)
Lemma rate_limit_status err : IsRateLimitError err = true ->
  ErrorStatus err = Some StatusForbidden \/ ErrorStatus err = Some StatusTooManyRequests.
Proof.
  unfold IsRateLimitError, ErrorStatus, isRateLimitAPIError. destruct (asAPIError err) as [e|]; [|done].
  destruct (_ && _) eqn:E; [done|]. intros _. apply andb_false_iff in E as [E|E]; bool_prop;
    [left|right]; simpl; f_equal; lia.
Qed.
