(* ===== verification/Query.v ===== *)
(** * A model of the SQL queries the store issues

    A table is a finite map from primary keys to rows.  WHERE is [filter],
    ORDER BY is a stable sort by a total preorder, LIMIT is [take], OFFSET is
    [drop], COUNT is [countb] and gorm's [First] is the head of the ordered
    selection.  Text columns are compared bytewise. *)

From stdpp Require Import base gmap list strings sorting.
From S2P Require Import Prelude.

Definition rows {R} (t : gmap string R) : list R := (map_to_list t).*2.

Section query.
Context {R : Type} (le : relation R) `{!RelDecision le}.

Definition select (p : R -> bool) (t : gmap string R) : list R :=
  merge_sort le (List.filter p (rows t)).

Definition First (p : R -> bool) (t : gmap string R) : option R := head (select p t).
End query.

Definition Count {R} (p : R -> bool) (t : gmap string R) : nat := countb p (rows t).

(** ** Ordering clauses *)

(** ORDER BY a, b: a lexicographic preorder. *)
Definition lexle {A B} (leA : relation A) (leB : relation B) : relation (A * B) :=
  fun x y => leA x.1 y.1 /\ (leA y.1 x.1 -> leB x.2 y.2).

(** ORDER BY f(row). *)
Definition onle {R A} (f : R -> A) (le : relation A) : relation R := fun x y => le (f x) (f y).

(** ORDER BY ... DESC. *)
Definition desc {A} (le : relation A) : relation A := fun x y => le y x.

#[global] Typeclasses Opaque lexle onle desc.

#[export] Instance lexle_dec {A B} leA leB `{!RelDecision leA, !RelDecision leB} :
  RelDecision (@lexle A B leA leB).
Proof. intros x y. unfold lexle. apply _. Defined.

#[export] Instance onle_dec {R A} (f : R -> A) le `{!RelDecision le} : RelDecision (onle f le).
Proof. intros x y. unfold onle. apply _. Defined.

#[export] Instance desc_dec {A} (le : relation A) `{!RelDecision le} : RelDecision (desc le).
Proof. intros x y. unfold desc. apply _. Defined.

Section orders.
Context {A B : Type} (leA : relation A) (leB : relation B).

#[export] Instance lexle_refl `{!Reflexive leA, !Reflexive leB} : Reflexive (lexle leA leB).
Proof. intros x. split; [reflexivity|]. intros _. reflexivity. Qed.

#[export] Instance lexle_trans `{!Transitive leA, !Transitive leB} : Transitive (lexle leA leB).
Proof.
  intros x y z [H1 H2] [H3 H4]. split; [by etrans|]. intros H.
  etrans; [apply H2|apply H4]; by etrans.
Qed.

#[export] Instance lexle_total `{!RelDecision leA, !Total leA, !Total leB} :
  Total (lexle leA leB).
Proof.
  intros x y. destruct (decide (leA x.1 y.1)), (decide (leA y.1 x.1)).
  - destruct (total leB x.2 y.2); [left|right]; by split.
  - left. by split.
  - right. by split.
  - destruct (total leA x.1 y.1); contradiction.
Qed.

#[export] Instance desc_refl `{!Reflexive leA} : Reflexive (desc leA).
Proof. intros x. unfold desc. reflexivity. Qed.
#[export] Instance desc_trans `{!Transitive leA} : Transitive (desc leA).
Proof. intros x y z H1 H2. unfold desc in *. by etrans. Qed.
#[export] Instance desc_total `{!Total leA} : Total (desc leA).
Proof. intros x y. unfold desc. apply (total leA). Qed.

Context {R : Type} (f : R -> A).
#[export] Instance onle_refl `{!Reflexive leA} : Reflexive (onle f leA).
Proof. intros x. unfold onle. reflexivity. Qed.
#[export] Instance onle_trans `{!Transitive leA} : Transitive (onle f leA).
Proof. intros x y z H1 H2. unfold onle in *. by etrans. Qed.
#[export] Instance onle_total `{!Total leA} : Total (onle f leA).
Proof. intros x y. unfold onle. apply (total leA). Qed.
End orders.

#[export] Instance string_le_total : Total String.le.
Proof.
  intros x y. unfold String.le.
  destruct (String.leb_total x y) as [H|H]; [left|right]; by rewrite H.
Qed.

(** ** Laws of the queries *)

Lemma elem_of_rows {R} (t : gmap string R) r : r ∈ rows t <-> exists id, t !! id = Some r.
Proof.
  unfold rows. rewrite list_elem_of_fmap. split.
  - intros [[id r'] [-> H]]. exists id. by apply elem_of_map_to_list.
  - intros [id H]. exists (id, r). split; [done|]. by apply elem_of_map_to_list.
Qed.

Section query_laws.
Context {R : Type} (le : relation R) `{!RelDecision le}.

Lemma select_perm p (t : gmap string R) : select le p t ≡ₚ List.filter p (rows t).
Proof. apply merge_sort_Permutation. Qed.

Lemma elem_of_select p (t : gmap string R) r :
  r ∈ select le p t <-> (exists id, t !! id = Some r) /\ p r = true.
Proof.
  rewrite select_perm, <-elem_of_rows, !list_elem_of_In, filter_In. done.
Qed.

Lemma select_sorted `{!Total le, !Transitive le} p (t : gmap string R) :
  StronglySorted le (select le p t).
Proof. apply StronglySorted_merge_sort; apply _. Qed.

Lemma First_Some `{!Total le, !Transitive le} p (t : gmap string R) r :
  First le p t = Some r ->
  (exists id, t !! id = Some r) /\ p r = true /\
  (forall id r', t !! id = Some r' -> p r' = true -> le r r').
Proof.
  unfold First. intros H. pose proof (select_sorted p t) as Hs.
  pose proof (elem_of_select p t) as He.
  destruct (select le p t) as [|x l]; simplify_eq/=.
  destruct (proj1 (He r) ltac:(left)) as [Hr Hp]. split; [done|]. split; [done|].
  intros id r' Hid Hr'. apply StronglySorted_inv in Hs as [_ Hall].
  pose proof (proj2 (He r') ltac:(eauto)) as Hin.
  apply elem_of_cons in Hin as [->|Hin]; [destruct (total le r r); done|].
  by eapply Forall_forall in Hall.
Qed.

Lemma First_None p (t : gmap string R) :
  First le p t = None <-> (forall id r, t !! id = Some r -> p r = false).
Proof.
  unfold First. pose proof (elem_of_select p t) as He. split.
  - intros H id r Hr. destruct (select le p t) as [|x l]; [|done].
    destruct (p r) eqn:E; [|done]. exfalso.
    apply (not_elem_of_nil (A:=R) r), He. eauto.
  - intros H. destruct (select le p t) as [|x l]; [done|]. exfalso.
    destruct (proj1 (He x) ltac:(left)) as [[id Hid] Hp]. by rewrite (H _ _ Hid) in Hp.
Qed.
End query_laws.

(** Updating one row changes a count by the difference on that row. *)
Lemma Count_insert_new {R} (p : R -> bool) (t : gmap string R) id r :
  t !! id = None -> Count p (<[id:=r]> t) = (if p r then 1 else 0) + Count p t.
Proof.
  intros H. unfold Count, rows. rewrite <-countb_cons. apply countb_perm.
  change (r :: (map_to_list t).*2) with (((id, r) :: map_to_list t).*2).
  by rewrite (map_to_list_insert t id r H).
Qed.

Lemma Count_insert {R} (p : R -> bool) (t : gmap string R) id r0 r :
  t !! id = Some r0 ->
  (if p r0 then 1 else 0) + Count p (<[id:=r]> t) = (if p r then 1 else 0) + Count p t.
Proof.
  intros H. assert (Ht : t = <[id:=r0]> (delete id t)) by (by rewrite insert_delete_id).
  rewrite Ht at 2. rewrite <-insert_delete_eq.
  rewrite !Count_insert_new by apply lookup_delete_eq. lia.
Qed.

(** ** Sorted selections as lists *)

Lemma StronglySorted_bfilter {A} (R : relation A) (p : A -> bool) l :
  StronglySorted R l -> StronglySorted R (List.filter p l).
Proof.
  induction 1 as [|x l Hl IH Hall]; [constructor|]. simpl. destruct (p x); [|done].
  constructor; [done|]. apply Forall_forall. intros y Hy.
  apply list_elem_of_In, filter_In in Hy as [Hy _]. apply list_elem_of_In in Hy.
  by eapply Forall_forall in Hall.
Qed.

Lemma elem_of_bfilter {A} (p : A -> bool) l x : x ∈ List.filter p l <-> x ∈ l /\ p x = true.
Proof. by rewrite !list_elem_of_In, filter_In. Qed.

Lemma bfilter_perm {A} (p : A -> bool) l1 l2 : l1 ≡ₚ l2 -> List.filter p l1 ≡ₚ List.filter p l2.
Proof.
  induction 1; simpl; repeat match goal with |- context [if ?b then _ else _] => destruct b end;
    eauto using Permutation_refl, perm_skip, perm_swap, Permutation_trans.
Qed.

Lemma bfilter_all {A} (p : A -> bool) l : (forall x, x ∈ l -> p x = true) -> List.filter p l = l.
Proof.
  induction l as [|x l IH]; intros H; [done|]. simpl. rewrite (H x) by left. f_equal.
  apply IH. intros; apply H; by right.
Qed.

Lemma bfilter_none {A} (p : A -> bool) l : (forall x, x ∈ l -> p x = false) -> List.filter p l = [].
Proof.
  induction l as [|x l IH]; intros H; [done|]. simpl. rewrite (H x) by left.
  apply IH. intros; apply H; by right.
Qed.

Lemma bfilter_andb {A} (p q : A -> bool) l :
  List.filter (fun x => p x && q x) l = List.filter q (List.filter p l).
Proof.
  induction l as [|x l IH]; [done|]. simpl.
  destruct (p x) eqn:Ep; simpl; [|done]. destruct (q x); by rewrite IH.
Qed.

Lemma bfilter_ext {A} (p q : A -> bool) l :
  (forall x, x ∈ l -> p x = q x) -> List.filter p l = List.filter q l.
Proof.
  induction l as [|x l IH]; intros H; [done|]. simpl. rewrite (H x), IH; [done| |left].
  intros; apply H; by right.
Qed.

(** The first [n] elements are kept by any selection that contains them. *)
Lemma take_bfilter {A} (p : A -> bool) n l :
  (forall x, x ∈ take n l -> p x = true) -> take n (List.filter p l) = take n l.
Proof.
  intros H. rewrite <-(take_drop n l) at 1. rewrite List.filter_app, (bfilter_all p (take n l)) by done.
  destruct (decide (n <= length l)).
  - rewrite take_app_le by (rewrite length_take; lia). by rewrite take_take, Nat.min_id.
  - rewrite drop_ge by lia. simpl. by rewrite app_nil_r, take_take, Nat.min_id.
Qed.

(** An element among the first [n] is among the first [n] of any selection that has it. *)
Lemma elem_of_take_bfilter {A} (p : A -> bool) n l x :
  x ∈ take n l -> p x = true -> x ∈ take n (List.filter p l).
Proof.
  revert n. induction l as [|y l IH]; intros [|n]; simpl; try (intros H; by apply not_elem_of_nil in H).
  intros [->|H]%elem_of_cons Hp; [rewrite Hp; left|].
  destruct (p y); simpl; [right; by apply IH|].
  assert (x ∈ take n (List.filter p l)) as Hx by by apply IH.
  apply elem_of_take in Hx as (i & ? & ?). apply elem_of_take. exists i. split; [done|lia].
Qed.

Section selections.
Context {R : Type} (le : relation R) `{!RelDecision le, !Total le, !Transitive le}.
Context (t : gmap string R)
  (Hanti : forall id1 id2 x y, t !! id1 = Some x -> t !! id2 = Some y -> le x y -> le y x -> x = y).

Lemma select_refine p q : select le (fun r => p r && q r) t = List.filter q (select le p t).
Proof.
  apply (StronglySorted_unique_strong le).
  - intros x y Hx Hy. apply elem_of_select in Hx as [[i Hi] _].
    apply elem_of_bfilter in Hy as [Hy _]. apply elem_of_select in Hy as [[j Hj] _]. eauto.
  - apply select_sorted; apply _.
  - by apply StronglySorted_bfilter, select_sorted.
  - rewrite (select_perm le). rewrite bfilter_andb. symmetry. apply bfilter_perm, select_perm.
Qed.
End selections.

Lemma length_select {R} (le : relation R) `{!RelDecision le} p (t : gmap string R) :
  length (select le p t) = Count p t.
Proof. unfold Count, countb. by rewrite (select_perm le). Qed.

(** ** Counts as integers *)

Definition cnt {R} (p : R -> bool) (t : gmap string R) : Z := Z.of_nat (Count p t).

Section cnt.
Context {R : Type} (p : R -> bool).

Lemma cnt_insert_new (t : gmap string R) id r :
  t !! id = None -> cnt p (<[id:=r]> t) = (cnt p t + Z.b2z (p r))%Z.
Proof. intros H. unfold cnt. rewrite Count_insert_new by done. destruct (p r); simpl; lia. Qed.

Lemma cnt_insert (t : gmap string R) id r0 r :
  t !! id = Some r0 -> cnt p (<[id:=r]> t) = (cnt p t + Z.b2z (p r) - Z.b2z (p r0))%Z.
Proof.
  intros H. unfold cnt. pose proof (Count_insert p t id r0 r H).
  destruct (p r), (p r0); simpl in *; lia.
Qed.

Lemma cnt_insert_le (t : gmap string R) id r0 r (b : bool) :
  t !! id = Some r0 -> (p r = true -> b = true) -> (cnt p (<[id:=r]> t) <= cnt p t + Z.b2z b)%Z.
Proof.
  intros H Hb. rewrite (cnt_insert t id r0 r H).
  destruct (p r), (p r0), b; simpl; try lia; by discriminate Hb.
Qed.

Lemma cnt_delete (t : gmap string R) id r :
  t !! id = Some r -> cnt p (delete id t) = (cnt p t - Z.b2z (p r))%Z.
Proof.
  intros H. rewrite <-(insert_delete_id t id r H) at 2.
  rewrite cnt_insert_new by apply lookup_delete_eq. lia.
Qed.

Lemma cnt_nonneg (t : gmap string R) : (0 <= cnt p t)%Z.
Proof. unfold cnt. lia. Qed.

Lemma cnt_pos (t : gmap string R) id r : t !! id = Some r -> p r = true -> (1 <= cnt p t)%Z.
Proof.
  intros H Hp. pose proof (cnt_delete t id r H) as E. rewrite Hp in E.
  unfold cnt in *. simpl in *. lia.
Qed.

Lemma cnt_zero (t : gmap string R) : (forall id r, t !! id = Some r -> p r = false) -> cnt p t = 0%Z.
Proof.
  intros H. unfold cnt, Count. rewrite countb_zero; [done|].
  intros r [id Hid]%elem_of_rows. eauto.
Qed.
End cnt.

Lemma cnt_le {R} (p q : R -> bool) (t : gmap string R) :
  (forall id r, t !! id = Some r -> p r = true -> q r = true) -> (cnt p t <= cnt q t)%Z.
Proof.
  intros H. unfold cnt, Count.
  enough (countb p (rows t) <= countb q (rows t)) by lia.
  apply countb_le. intros r [id Hid]%elem_of_rows. eauto.
Qed.

(** A table whose matching rows were matching rows before has no more of them. *)
Lemma cnt_mono {R} (p : R -> bool) (t t' : gmap string R) :
  (forall id r', t' !! id = Some r' -> p r' = true -> exists r, t !! id = Some r /\ p r = true) ->
  (cnt p t' <= cnt p t)%Z.
Proof.
  revert t. induction t' as [|id r' t' Hn IH] using map_ind; intros t H.
  - rewrite (cnt_zero p ∅); [apply cnt_nonneg|]. intros id r. by rewrite lookup_empty.
  - rewrite cnt_insert_new by done. destruct (p r') eqn:Ep; simpl.
    + destruct (H id r') as (r & Hr & Hp); [by rewrite lookup_insert_eq|done|].
      pose proof (cnt_delete p t id r Hr) as Hd. rewrite Hp in Hd. simpl in Hd.
      enough (cnt p t' <= cnt p (delete id t))%Z by lia. apply IH. intros j s Hj Hs.
      assert (j <> id) by congruence.
      destruct (H j s) as (x & Hx & Hpx); [by rewrite lookup_insert_ne|done|].
      exists x. by rewrite lookup_delete_ne.
    + rewrite Z.add_0_r. apply IH. intros j s Hj Hs. apply (H j s); [|done].
      rewrite lookup_insert_ne; [done|]. congruence.
Qed.

(** ** Tables keyed by a column *)

Section keyed.
Context {R : Type} (key : R -> string) (t : gmap string R) (Hkey : forall id r, t !! id = Some r -> key r = id).

Lemma keyed_lookup r : r ∈ rows t -> t !! key r = Some r.
Proof. intros [id H]%elem_of_rows. by rewrite (Hkey _ _ H). Qed.

Lemma NoDup_keyed_rows : NoDup (rows t).
Proof.
  apply NoDup_fmap_2_strong; [|apply NoDup_map_to_list].
  intros [i x] [j y] H1 H2 ?; simplify_eq/=. apply elem_of_map_to_list in H1, H2.
  f_equal. by rewrite <- (Hkey _ _ H1), <- (Hkey _ _ H2).
Qed.

Lemma NoDup_select_key (le : relation R) `{!RelDecision le} p : NoDup (key <$> select le p t).
Proof.
  rewrite (select_perm le). apply NoDup_fmap_2_strong.
  - intros x y [Hx _]%elem_of_bfilter [Hy _]%elem_of_bfilter E. apply keyed_lookup in Hx, Hy. congruence.
  - apply NoDup_ListNoDup, List.NoDup_filter, NoDup_ListNoDup, NoDup_keyed_rows.
Qed.
End keyed.

Lemma NoDup_fmap_take {A B} (f : A -> B) n l : NoDup (f <$> l) -> NoDup (f <$> take n l).
Proof. rewrite fmap_take, <- (take_drop n (f <$> l)) at 1. by intros (? & _)%NoDup_app. Qed.
