(* ===== verification/Rows.v ===== *)
(** * Tables with a generated key and a unique index

    A table whose primary key is an auto-increment column is the list of its rows
    in the order of that key, with the next value of the counter.  [Row] names the
    generated column and [Key] the columns of the unique index.  The statements of the
    store are [append] (INSERT), [create] (INSERT under a unique index, which refuses a
    duplicate key), [upsert] (INSERT ...
    ON CONFLICT DO UPDATE), [update] and [remove] (with the number of rows
    affected) and [find_row] (gorm's First, which orders by the primary key). *)

From stdpp Require Import base list strings sorting.
From S2P Require Import Prelude.

Class Row (R : Type) := {
  row_id : R -> Z;
  with_id : Z -> R -> R;
  row_id_with : forall i r, row_id (with_id i r) = i
}.

Class Key (R K : Type) `{!Row R} := {
  row_key : R -> K;
  row_key_with : forall i r, row_key (with_id i r) = row_key r
}.

Record rowset (R : Type) := MkRows { rs_rows : list R; rs_next : Z }.
Arguments MkRows {R} _ _.
Arguments rs_rows {R} _.
Arguments rs_next {R} _.

Definition no_rows {R} : rowset R := MkRows [] 1.

(** SELECT ... ORDER BY id LIMIT 1. *)
Definition find_row {R} (p : R -> bool) (t : rowset R) : option R := List.find p (rs_rows t).

(** UPDATE ... WHERE and DELETE ... WHERE. *)
Definition update {R} (p : R -> bool) (f : R -> R) (t : rowset R) : rowset R * nat :=
  (MkRows ((fun r => if p r then f r else r) <$> rs_rows t) (rs_next t), countb p (rs_rows t)).

Definition remove {R} (p : R -> bool) (t : rowset R) : rowset R * nat :=
  (MkRows (List.filter (fun r => negb (p r)) (rs_rows t)) (rs_next t), countb p (rs_rows t)).

(** A statement returns the first row it selects: generic facts about [List.find]. *)
Lemma find_Some_in {A} (p : A -> bool) l x : List.find p l = Some x -> x ∈ l /\ p x = true.
Proof. intros [H1 H2]%List.find_some. split; [by apply list_elem_of_In|done]. Qed.

Lemma find_None_all {A} (p : A -> bool) l x : List.find p l = None -> x ∈ l -> p x = false.
Proof. intros H Hx. apply (List.find_none _ _ H). by apply list_elem_of_In. Qed.

Lemma find_app {A} (p : A -> bool) l1 l2 :
  List.find p (l1 ++ l2) = match List.find p l1 with Some x => Some x | None => List.find p l2 end.
Proof. induction l1 as [|x l1 IH]; [done|]. simpl. by destruct (p x). Qed.

Lemma find_map {A} (p : A -> bool) (f : A -> A) l :
  (forall x, x ∈ l -> p (f x) = p x) -> List.find p (f <$> l) = f <$> (List.find p l).
Proof.
  induction l as [|x l IH]; intros H; [done|]. rewrite fmap_cons. simpl. rewrite (H x) by left.
  destruct (p x); [done|]. apply IH. intros y Hy. apply H. by right.
Qed.

Lemma find_filter_other {A} (p q : A -> bool) l :
  (forall x, x ∈ l -> p x = true -> q x = true) -> List.find p (List.filter q l) = List.find p l.
Proof.
  induction l as [|x l IH]; intros H; [done|]. simpl.
  assert (Hl : forall y, y ∈ l -> p y = true -> q y = true) by (intros y Hy; apply H; by right).
  destruct (q x) eqn:Q; simpl; destruct (p x) eqn:P; auto.
  exfalso. rewrite (H x) in Q; [done|left|done].
Qed.

Lemma countb_pos {A} (p : A -> bool) l x : x ∈ l -> p x = true -> 0 < countb p l.
Proof.
  intros Hx Hp. unfold countb. assert (Hin : x ∈ List.filter p l).
  { apply list_elem_of_In, filter_In. split; [by apply list_elem_of_In|done]. }
  destruct (List.filter p l); [by apply elem_of_nil in Hin|simpl; lia].
Qed.

Section rows.
Context {R : Type} `{!Row R}.
Implicit Types (t : rowset R) (r : R).

(** INSERT: the row as stored. *)
Definition append (r : R) (t : rowset R) : rowset R * R :=
  let r := with_id (rs_next t) r in (MkRows (rs_rows t ++ [r]) (rs_next t + 1), r).

Definition get_id (id : Z) (t : rowset R) : option R := find_row (fun r => (row_id r =? id)%Z) t.

(** Ids grow in the order of the rows and stay below the counter. *)
Record ids_ok (t : rowset R) : Prop := {
  ok_order : StronglySorted Z.lt (row_id <$> rs_rows t);
  ok_range : forall r, r ∈ rs_rows t -> (0 < row_id r < rs_next t)%Z;
  ok_next : (0 < rs_next t)%Z
}.

Lemma ids_ok_empty : ids_ok no_rows.
Proof. split; simpl; [constructor|by intros r ?%elem_of_nil|lia]. Qed.

Lemma sorted_snoc (l : list Z) n : StronglySorted Z.lt l -> (forall x, x ∈ l -> (x < n)%Z) -> StronglySorted Z.lt (l ++ [n]).
Proof.
  induction l as [|x l IH]; intros Hs Hl; simpl; [constructor; constructor|].
  apply StronglySorted_cons in Hs as [Hx Hs]. constructor.
  - apply IH; [done|]. intros y Hy. apply Hl. by right.
  - apply Forall_app. split; [done|]. constructor; [apply Hl; left|done].
Qed.

Lemma append_ids_ok t r : ids_ok t -> ids_ok (append r t).1.
Proof.
  intros [Ho Hr Hn]. split; cbn [append fst rs_rows rs_next].
  - rewrite fmap_app. cbn. rewrite row_id_with. apply sorted_snoc; [done|].
    intros x (y & -> & Hy)%list_elem_of_fmap. by apply Hr.
  - intros x [Hx| ->%list_elem_of_singleton]%elem_of_app; [specialize (Hr x Hx); lia|].
    rewrite row_id_with. lia.
  - lia.
Qed.

(** Columns that a change of the selected rows leaves. *)
Lemma fmap_update {X} (g : R -> X) p f t : (forall r, g (f r) = g r) ->
  g <$> rs_rows (update p f t).1 = g <$> rs_rows t.
Proof.
  intros Hg. cbn [update fst rs_rows]. rewrite <-list_fmap_compose. apply list_fmap_ext. intros i x _. simpl.
  destruct (p x); [by apply Hg|done].
Qed.

Lemma update_ids_ok p f t : ids_ok t -> (forall r, row_id (f r) = row_id r) -> ids_ok (update p f t).1.
Proof.
  intros [Ho Hr Hn] Hf. split; [by rewrite fmap_update| |done].
  cbn [update fst rs_rows rs_next]. intros r (x & -> & Hx)%list_elem_of_fmap. specialize (Hr x Hx).
  destruct (p x); [|done]. by rewrite Hf.
Qed.

Lemma sublist_filter {A} (p : A -> bool) l : sublist (List.filter p l) l.
Proof. induction l as [|x l IH]; simpl; [constructor|]. destruct (p x); by constructor. Qed.

Lemma sorted_sublist {A} (le : relation A) l l' : sublist l' l -> StronglySorted le l -> StronglySorted le l'.
Proof.
  induction 1 as [|x l1 l2 Hs IH|x l1 l2 Hs IH]; intros Hl; [done| |].
  - apply StronglySorted_cons in Hl as [Hx Hl]. constructor; [by apply IH|].
    apply Forall_forall. intros y Hy. rewrite Forall_forall in Hx. apply Hx. by eapply elem_of_sublist.
  - apply StronglySorted_cons in Hl as [_ Hl]. by apply IH.
Qed.

Lemma remove_ids_ok p t : ids_ok t -> ids_ok (remove p t).1.
Proof.
  intros [Ho Hr Hn]. pose proof (sublist_filter (fun r => negb (p r)) (rs_rows t)) as Hs.
  split; cbn [remove fst rs_rows rs_next]; [| |done].
  - eapply sorted_sublist; [|done]. by apply fmap_sublist.
  - intros r Hin. apply Hr. by eapply elem_of_sublist.
Qed.

Lemma sorted_NoDup (l : list Z) : StronglySorted Z.lt l -> NoDup l.
Proof.
  induction l as [|x l IH]; intros Hl; [constructor|]. apply StronglySorted_cons in Hl as [Hx Hl].
  constructor; [|by apply IH]. intros Hin. rewrite Forall_forall in Hx. specialize (Hx x Hin). lia.
Qed.

Lemma fmap_NoDup_inj {X} (g : R -> X) (l : list R) r r' :
  NoDup (g <$> l) -> r ∈ l -> r' ∈ l -> g r = g r' -> r = r'.
Proof.
  induction l as [|x l IH]; intros Hk Hr Hr' E; [by apply elem_of_nil in Hr|].
  rewrite fmap_cons in Hk. apply NoDup_cons in Hk as [Hx Hk].
  apply elem_of_cons in Hr as [->|Hr], Hr' as [->|Hr']; [done| | |by apply IH].
  - exfalso. apply Hx. rewrite E. by apply list_elem_of_fmap_2.
  - exfalso. apply Hx. rewrite <-E. by apply list_elem_of_fmap_2.
Qed.

Lemma get_id_Some t id r : get_id id t = Some r -> r ∈ rs_rows t /\ row_id r = id.
Proof. intros [H1 H2]%find_Some_in. split; [done|]. lia. Qed.

Lemma get_id_of t r : ids_ok t -> r ∈ rs_rows t -> get_id (row_id r) t = Some r.
Proof.
  intros [Ho _ _] Hr. destruct (get_id (row_id r) t) as [x|] eqn:E.
  - apply get_id_Some in E as [Hx E]. f_equal. by eapply (fmap_NoDup_inj row_id); [apply sorted_NoDup|..].
  - apply (find_None_all _ _ r) in E; [|done]. cbv beta in E. by rewrite Z.eqb_refl in E.
Qed.

Lemma get_id_update t id p f : (forall r, row_id (f r) = row_id r) ->
  get_id id (update p f t).1 = (fun r => if p r then f r else r) <$> get_id id t.
Proof. intros Hf. apply find_map. intros x _. destruct (p x); [by rewrite Hf|done]. Qed.

Lemma elem_of_append t r x : x ∈ rs_rows (append r t).1 <-> x ∈ rs_rows t \/ x = with_id (rs_next t) r.
Proof. cbn. by rewrite elem_of_app, list_elem_of_singleton. Qed.
End rows.

Section keyed.
Context {R K : Type} `{!EqDecision K} `{!Row R} `{!Key R K}.
Implicit Types (t : rowset R) (r : R) (k : K).

Definition has_key (k : K) (r : R) : bool := bool_decide (row_key r = k).

Definition get_key (k : K) (t : rowset R) : option R := find_row (has_key k) t.

(** INSERT: the row as stored, or nothing on a duplicate key. *)
Definition create (r : R) (t : rowset R) : option (rowset R * R) :=
  match get_key (row_key r) t with
  | Some _ => None
  | None => Some (append r t)
  end.

(** INSERT ... ON CONFLICT (key) DO UPDATE, [merge old new] being the row updated. *)
Definition upsert (merge : R -> R -> R) (r : R) (t : rowset R) : rowset R * R :=
  match get_key (row_key r) t with
  | Some old =>
      (MkRows ((fun x => if has_key (row_key r) x then merge x r else x) <$> rs_rows t) (rs_next t), merge old r)
  | None => append r t
  end.

(** Keys are unique. *)
Record rows_ok (t : rowset R) : Prop := {
  ok_keys : NoDup (row_key <$> rs_rows t);
  ok_ids : ids_ok t
}.

(** A change of a row that leaves its id and its key. *)
Definition keeps (f : R -> R) : Prop := forall r, row_id (f r) = row_id r /\ row_key (f r) = row_key r.

Lemma rows_ok_empty : rows_ok no_rows.
Proof. split; [constructor|apply ids_ok_empty]. Qed.

Lemma get_key_Some t k r : get_key k t = Some r -> r ∈ rs_rows t /\ row_key r = k.
Proof. intros [H1 H2]%find_Some_in. split; [done|]. by apply bool_decide_eq_true in H2. Qed.

Lemma get_key_None t k r : get_key k t = None -> r ∈ rs_rows t -> row_key r <> k.
Proof. intros H Hr. by apply (find_None_all _ _ r) in H; [apply bool_decide_eq_false in H|]. Qed.

Lemma rows_key_inj t r r' : rows_ok t -> r ∈ rs_rows t -> r' ∈ rs_rows t -> row_key r = row_key r' -> r = r'.
Proof. intros [Hk _]. by apply fmap_NoDup_inj. Qed.

Lemma get_key_of t r : rows_ok t -> r ∈ rs_rows t -> get_key (row_key r) t = Some r.
Proof.
  intros Ho Hr. destruct (get_key (row_key r) t) as [x|] eqn:E.
  - apply get_key_Some in E as [Hx E]. f_equal. by apply (rows_key_inj t).
  - by apply (get_key_None _ _ r) in E.
Qed.

Lemma append_rows_ok t r : rows_ok t -> get_key (row_key r) t = None -> rows_ok (append r t).1.
Proof.
  intros [Hk Hi] E. split; [|by apply append_ids_ok]. cbn [append fst rs_rows].
  rewrite fmap_app, NoDup_app. cbn. split; [done|]. split; [|apply NoDup_singleton].
  intros k Hkin ->%list_elem_of_singleton. rewrite row_key_with in Hkin.
  apply list_elem_of_fmap in Hkin as (x & Hx & Hin). by eapply get_key_None.
Qed.

Lemma update_ok p f t : rows_ok t -> keeps f -> rows_ok (update p f t).1.
Proof.
  intros [Hk Hi] Hf. split; [rewrite fmap_update; [done|apply Hf]|]. apply update_ids_ok; [done|apply Hf].
Qed.

Lemma create_ok t r t' r' : rows_ok t -> create r t = Some (t', r') -> rows_ok t'.
Proof.
  unfold create. intros Ho. destruct (get_key _ t) eqn:E; [done|]. intros [= <- _].
  by apply (append_rows_ok t r).
Qed.

Lemma upsert_ok merge t r : rows_ok t -> (forall old, row_id (merge old r) = row_id old /\ row_key (merge old r) = row_key old) ->
  rows_ok (upsert merge r t).1.
Proof.
  intros Ho Hm. unfold upsert. destruct (get_key _ t) eqn:E; [|by apply append_rows_ok].
  apply (update_ok (has_key (row_key r)) (fun x => merge x r)); [done|]. intros x. apply Hm.
Qed.

Lemma remove_ok p t : rows_ok t -> rows_ok (remove p t).1.
Proof.
  intros [Hk Hi]. split; [|by apply remove_ids_ok]. eapply sublist_NoDup; [done|].
  apply fmap_sublist, sublist_filter.
Qed.

(** What a statement does to the row of a key. *)
Lemma get_key_upsert merge t r : rows_ok t -> (forall old, row_key (merge old r) = row_key old) ->
  get_key (row_key r) (upsert merge r t).1 = Some (upsert merge r t).2.
Proof.
  intros Ho Hm. unfold upsert. destruct (get_key (row_key r) t) as [old|] eqn:E; cbn [fst snd].
  - unfold get_key, find_row in *. cbn [rs_rows]. rewrite find_map, E.
    + simpl. unfold has_key. apply find_Some_in in E as [_ E]. unfold has_key in E. by rewrite E.
    + intros x _. destruct (has_key (row_key r) x) eqn:Ex; [|done]. unfold has_key in *. by rewrite Hm.
  - unfold get_key, find_row in *. cbn [append fst rs_rows]. rewrite find_app, E. simpl.
    unfold has_key. rewrite row_key_with, bool_decide_true; done.
Qed.

Lemma get_key_upsert_ne merge t r k : (forall old, row_key (merge old r) = row_key old) -> k <> row_key r ->
  get_key k (upsert merge r t).1 = get_key k t.
Proof.
  intros Hm Hk. unfold upsert. destruct (get_key (row_key r) t) as [old|] eqn:E; cbn [fst];
    unfold get_key, find_row; cbn [rs_rows].
  - rewrite find_map.
    + destruct (List.find _ (rs_rows t)) as [x|] eqn:Ex; [|done]. simpl. f_equal.
      apply find_Some_in in Ex as [_ Ex]. unfold has_key in *. apply bool_decide_eq_true in Ex.
      rewrite bool_decide_false by congruence. done.
    + intros x _. destruct (has_key (row_key r) x); [|done]. unfold has_key. by rewrite Hm.
  - cbn [append fst rs_rows]. rewrite find_app. destruct (List.find _ (rs_rows t)); [done|]. simpl. unfold has_key.
    rewrite row_key_with, bool_decide_false; [done|congruence].
Qed.

Lemma get_key_update p f t k : keeps f -> get_key k (update p f t).1 = (fun r => if p r then f r else r) <$> get_key k t.
Proof.
  intros Hf. apply find_map. intros x _. unfold has_key. destruct (p x); [by rewrite (proj2 (Hf x))|done].
Qed.

Lemma get_key_append t r : get_key (row_key r) t = None -> get_key (row_key r) (append r t).1 = Some (with_id (rs_next t) r).
Proof.
  unfold get_key, find_row. cbn [append fst rs_rows]. intros E. rewrite find_app, E. simpl. unfold has_key.
  by rewrite row_key_with, bool_decide_true.
Qed.

Lemma get_key_remove t k : get_key k (remove (has_key k) t).1 = None.
Proof.
  destruct (get_key k _) as [r|] eqn:E; [|done]. apply find_Some_in in E as [Hr Hk].
  cbn in Hr. apply list_elem_of_In, filter_In in Hr as [_ Hr]. by rewrite Hk in Hr.
Qed.

Lemma get_key_remove_ne t k p : (forall r, p r = true -> row_key r <> k) -> get_key k (remove p t).1 = get_key k t.
Proof.
  intros Hp. apply find_filter_other. intros r _ Hr. apply bool_decide_eq_true in Hr.
  destruct (p r) eqn:E; [|done]. by apply Hp in E.
Qed.

Lemma remove_count t k : rows_ok t -> (remove (has_key k) t).2 = if bool_decide (is_Some (get_key k t)) then 1 else 0.
Proof.
  intros Ho. cbn. case_bool_decide as E.
  - destruct E as [r E]. pose proof (get_key_Some _ _ _ E) as [Hr Hk]. destruct Ho as [Hd _].
    clear E. revert Hd Hr. induction (rs_rows t) as [|x l IH]; intros Hd Hr; [by apply elem_of_nil in Hr|].
    rewrite countb_cons. rewrite fmap_cons in Hd. apply NoDup_cons in Hd as [Hx Hd]. unfold has_key at 1.
    case_bool_decide as Ex.
    + rewrite countb_zero; [done|]. intros y Hy. apply bool_decide_eq_false. intros Ey. apply Hx.
      rewrite Ex, <-Ey. by apply list_elem_of_fmap_2.
    + apply elem_of_cons in Hr as [->|Hr]; [done|]. by apply IH.
  - apply countb_zero. intros x Hx. destruct (get_key k t) as [r|] eqn:Ek; [by destruct E|].
    by apply (find_None_all _ _ x) in Ek.
Qed.

Lemma elem_of_create t r t' r' x : create r t = Some (t', r') -> x ∈ rs_rows t' <-> x ∈ rs_rows t \/ x = r'.
Proof.
  unfold create. destruct (get_key _ t); [done|]. intros [= <- <-]. cbn.
  by rewrite elem_of_app, list_elem_of_singleton.
Qed.

Lemma elem_of_upsert merge t r x : x ∈ rs_rows (upsert merge r t).1 ->
  (x ∈ rs_rows t /\ row_key x <> row_key r) \/ (exists old, old ∈ rs_rows t /\ row_key old = row_key r /\ x = merge old r)
  \/ x = with_id (rs_next t) r.
Proof.
  unfold upsert. destruct (get_key (row_key r) t) as [old|] eqn:E; cbn [append fst rs_rows].
  - intros (y & -> & Hy)%list_elem_of_fmap. unfold has_key. case_bool_decide as Ey; [|by left].
    right; left. by exists y.
  - intros [Hx| ->%list_elem_of_singleton]%elem_of_app; [|by right; right]. left. split; [done|].
    by eapply get_key_None.
Qed.
End keyed.

Lemma elem_of_update {R} (p : R -> bool) f (t : rowset R) x : x ∈ rs_rows (update p f t).1 ->
  (x ∈ rs_rows t /\ p x = false) \/ (exists y, y ∈ rs_rows t /\ p y = true /\ x = f y).
Proof.
  cbn. intros (y & -> & Hy)%list_elem_of_fmap. destruct (p y) eqn:E; [right; by exists y|by left].
Qed.

Lemma elem_of_remove {R} (p : R -> bool) (t : rowset R) x :
  x ∈ rs_rows (remove p t).1 <-> x ∈ rs_rows t /\ p x = false.
Proof.
  cbn. by rewrite list_elem_of_In, filter_In, <-list_elem_of_In, negb_true_iff.
Qed.

#[export] Hint Resolve ids_ok_empty append_ids_ok update_ids_ok remove_ids_ok rows_ok_empty create_ok upsert_ok update_ok remove_ok : runner.
