(* ===== verification/AccountModel.v ===== *)
(** * Accounts, installations, preferences and sponsorships: the data
    (internal/state/store.go, records.go, conversions.go)

    The structs field by field.  Where the row type has the columns of the API type
    (Go converts one into the other) one record stands for both. *)

From stdpp Require Import base gmap list strings.
From S2P Require Import Prelude GoStrings Rows.

Definition AccountScopeTypeAccount := "account".
Definition AccountScopeTypeGitHubInstall := "github_installation".

(** [Account] and [accountRecord]. *)
Record Account := MkAccount {
  ac_ID : Z;
  ac_Role : string;
  ac_CreatedAt : Time;
  ac_UpdatedAt : Time
}.

#[export] Instance rebuild_Account : Rebuild Account := fun r =>
  MkAccount
    (ac_ID r) (ac_Role r) (ac_CreatedAt r) (ac_UpdatedAt r).

(** [OAuthIdentity] and [oauthIdentityRecord]. *)
Record OAuthIdentity := MkOAuthIdentity {
  oi_ID : Z;
  oi_AccountID : Z;
  oi_OAuthProvider : string;
  oi_OAuthSubject : string;
  oi_OAuthLogin : string;
  oi_CreatedAt : Time;
  oi_UpdatedAt : Time
}.

#[export] Instance rebuild_OAuthIdentity : Rebuild OAuthIdentity := fun r =>
  MkOAuthIdentity
    (oi_ID r) (oi_AccountID r) (oi_OAuthProvider r) (oi_OAuthSubject r) (oi_OAuthLogin r)
    (oi_CreatedAt r) (oi_UpdatedAt r).

(** [AuditEvent] and [auditEventRecord]. *)
Record AuditEvent := MkAuditEvent {
  ae_ID : Z;
  ae_Actor : string;
  ae_Action : string;
  ae_ResourceType : string;
  ae_ResourceID : string;
  ae_PayloadJSON : string;
  ae_CreatedAt : Time
}.

#[export] Instance rebuild_AuditEvent : Rebuild AuditEvent := fun r =>
  MkAuditEvent
    (ae_ID r) (ae_Actor r) (ae_Action r) (ae_ResourceType r) (ae_ResourceID r)
    (ae_PayloadJSON r) (ae_CreatedAt r).

(** The arguments of [UpdateAccountRoleWithAudit]. *)
Record AccountRoleUpdate := MkAccountRoleUpdate {
  ru_ActorAccountID : Z;
  ru_AccountID : Z;
  ru_Role : string;
  ru_AuditActor : string
}.

#[export] Instance rebuild_AccountRoleUpdate : Rebuild AccountRoleUpdate := fun r =>
  MkAccountRoleUpdate
    (ru_ActorAccountID r) (ru_AccountID r) (ru_Role r) (ru_AuditActor r).

(** A row of github_installations. *)
Record githubInstallationRecord := MkgithubInstallationRecord {
  gr_ID : Z;
  gr_AccountID : Z;
  gr_InstallationID : Z;
  gr_GitHubAccountID : Z;
  gr_AccountType : string;
  gr_AccountLogin : string;
  gr_AccountName : string;
  gr_AccountAvatar : string;
  gr_CreatedAt : Time;
  gr_UpdatedAt : Time
}.

#[export] Instance rebuild_githubInstallationRecord : Rebuild githubInstallationRecord := fun r =>
  MkgithubInstallationRecord
    (gr_ID r) (gr_AccountID r) (gr_InstallationID r) (gr_GitHubAccountID r)
    (gr_AccountType r) (gr_AccountLogin r) (gr_AccountName r) (gr_AccountAvatar r)
    (gr_CreatedAt r) (gr_UpdatedAt r).

(** An installation with the repositories observed for it. *)
Record GitHubInstallation := MkGitHubInstallation {
  gi_ID : Z;
  gi_AccountID : Z;
  gi_InstallationID : Z;
  gi_GitHubAccountID : Z;
  gi_AccountType : string;
  gi_AccountLogin : string;
  gi_AccountName : string;
  gi_AccountAvatar : string;
  gi_Repositories : list string;
  gi_CreatedAt : Time;
  gi_UpdatedAt : Time
}.

#[export] Instance rebuild_GitHubInstallation : Rebuild GitHubInstallation := fun r =>
  MkGitHubInstallation
    (gi_ID r) (gi_AccountID r) (gi_InstallationID r) (gi_GitHubAccountID r)
    (gi_AccountType r) (gi_AccountLogin r) (gi_AccountName r) (gi_AccountAvatar r)
    (gi_Repositories r) (gi_CreatedAt r) (gi_UpdatedAt r).

(** The GitHub account that owns an installation. *)
Record GitHubInstallationAccount := MkGitHubInstallationAccount {
  ga_GitHubAccountID : Z;
  ga_AccountType : string;
  ga_AccountLogin : string;
  ga_AccountName : string;
  ga_AccountAvatar : string
}.

#[export] Instance rebuild_GitHubInstallationAccount : Rebuild GitHubInstallationAccount := fun r =>
  MkGitHubInstallationAccount
    (ga_GitHubAccountID r) (ga_AccountType r) (ga_AccountLogin r) (ga_AccountName r)
    (ga_AccountAvatar r).

(** A row of github_installation_owners. *)
Record githubInstallationOwnerRecord := MkgithubInstallationOwnerRecord {
  go_InstallationID : Z;
  go_GitHubAccountID : Z;
  go_AccountType : string;
  go_AccountLogin : string;
  go_AccountName : string;
  go_AccountAvatar : string;
  go_CreatedAt : Time;
  go_UpdatedAt : Time
}.

#[export] Instance rebuild_githubInstallationOwnerRecord : Rebuild githubInstallationOwnerRecord := fun r =>
  MkgithubInstallationOwnerRecord
    (go_InstallationID r) (go_GitHubAccountID r) (go_AccountType r) (go_AccountLogin r)
    (go_AccountName r) (go_AccountAvatar r) (go_CreatedAt r) (go_UpdatedAt r).

(** [ForkSponsorshipPolicy] and its row. *)
Record ForkSponsorshipPolicy := MkForkSponsorshipPolicy {
  pol_SponsorInstallationID : Z;
  pol_SourceRepositoryID : Z;
  pol_SourceRepositoryFullName : string;
  pol_Mode : string;
  pol_Enabled : bool;
  pol_MaxConcurrency : Z;
  pol_CreatedAt : Time;
  pol_UpdatedAt : Time
}.

#[export] Instance rebuild_ForkSponsorshipPolicy : Rebuild ForkSponsorshipPolicy := fun r =>
  MkForkSponsorshipPolicy
    (pol_SponsorInstallationID r) (pol_SourceRepositoryID r) (pol_SourceRepositoryFullName r)
    (pol_Mode r) (pol_Enabled r) (pol_MaxConcurrency r) (pol_CreatedAt r) (pol_UpdatedAt r).

(** [ForkSponsorshipApproval] and its row. *)
Record ForkSponsorshipApproval := MkForkSponsorshipApproval {
  apr_SponsorInstallationID : Z;
  apr_SourceRepositoryID : Z;
  apr_ForkRepositoryID : Z;
  apr_ForkRepositoryFullName : string;
  apr_ForkOwnerID : Z;
  apr_ForkOwnerLogin : string;
  apr_CreatedAt : Time;
  apr_UpdatedAt : Time
}.

#[export] Instance rebuild_ForkSponsorshipApproval : Rebuild ForkSponsorshipApproval := fun r =>
  MkForkSponsorshipApproval
    (apr_SponsorInstallationID r) (apr_SourceRepositoryID r) (apr_ForkRepositoryID r)
    (apr_ForkRepositoryFullName r) (apr_ForkOwnerID r) (apr_ForkOwnerLogin r)
    (apr_CreatedAt r) (apr_UpdatedAt r).

(** [sandboxServiceConfigSnapshot]. *)
Record SandboxSnapshot := MkSnapshot {
  snap_APIURL : string;
  snap_EncryptedAPIKey : string;
  snap_Source : string;
  snap_SponsorInstallationID : Z;
  snap_SponsorSourceRepositoryID : Z;
  snap_SponsorSourceRepositoryFullName : string;
  snap_SponsorAuthorizationReason : string;
  snap_ForkRepositoryID : Z;
  snap_ForkRepositoryFullName : string;
  snap_ForkOwnerID : Z;
  snap_ForkOwnerLogin : string
}.

#[export] Instance rebuild_SandboxSnapshot : Rebuild SandboxSnapshot := fun r =>
  MkSnapshot
    (snap_APIURL r) (snap_EncryptedAPIKey r) (snap_Source r) (snap_SponsorInstallationID r)
    (snap_SponsorSourceRepositoryID r) (snap_SponsorSourceRepositoryFullName r) (snap_SponsorAuthorizationReason r)
    (snap_ForkRepositoryID r) (snap_ForkRepositoryFullName r) (snap_ForkOwnerID r) (snap_ForkOwnerLogin r).

(** [AccountSecret] and its row. *)
Record AccountSecret := MkAccountSecret {
  as_ID : Z;
  as_ScopeType : string;
  as_ScopeID : Z;
  as_KeyType : string;
  as_EncryptedValue : string;
  as_CreatedAt : Time;
  as_UpdatedAt : Time
}.

#[export] Instance rebuild_AccountSecret : Rebuild AccountSecret := fun r =>
  MkAccountSecret
    (as_ID r) (as_ScopeType r) (as_ScopeID r) (as_KeyType r) (as_EncryptedValue r)
    (as_CreatedAt r) (as_UpdatedAt r).

(** [AccountPreference] and its row. *)
Record AccountPreference := MkAccountPreference {
  ap_ID : Z;
  ap_ScopeType : string;
  ap_ScopeID : Z;
  ap_Namespace : string;
  ap_Key : string;
  ap_ValueJSON : string;
  ap_CreatedAt : Time;
  ap_UpdatedAt : Time
}.

#[export] Instance rebuild_AccountPreference : Rebuild AccountPreference := fun r =>
  MkAccountPreference
    (ap_ID r) (ap_ScopeType r) (ap_ScopeID r) (ap_Namespace r) (ap_Key r) (ap_ValueJSON r)
    (ap_CreatedAt r) (ap_UpdatedAt r).

(** [SandboxServiceDefault] and its row. *)
Record SandboxServiceDefault := MkSandboxServiceDefault {
  sd_ID : Z;
  sd_Enabled : bool;
  sd_AudienceMode : string;
  sd_APIURL : string;
  sd_APIKeyEncrypted : string;
  sd_APIKeyUpdatedAt : option Time;
  sd_CreatedAt : Time;
  sd_UpdatedAt : Time
}.

#[export] Instance rebuild_SandboxServiceDefault : Rebuild SandboxServiceDefault := fun r =>
  MkSandboxServiceDefault
    (sd_ID r) (sd_Enabled r) (sd_AudienceMode r) (sd_APIURL r) (sd_APIKeyEncrypted r)
    (sd_APIKeyUpdatedAt r) (sd_CreatedAt r) (sd_UpdatedAt r).

(** [SandboxServiceDefaultAudience] and its row. *)
Record SandboxServiceDefaultAudience := MkSandboxServiceDefaultAudience {
  sa_ID : Z;
  sa_GitHubAccountID : Z;
  sa_AccountType : string;
  sa_AccountLogin : string;
  sa_AccountName : string;
  sa_AccountAvatar : string;
  sa_CreatedAt : Time;
  sa_UpdatedAt : Time
}.

#[export] Instance rebuild_SandboxServiceDefaultAudience : Rebuild SandboxServiceDefaultAudience := fun r =>
  MkSandboxServiceDefaultAudience
    (sa_ID r) (sa_GitHubAccountID r) (sa_AccountType r) (sa_AccountLogin r)
    (sa_AccountName r) (sa_AccountAvatar r) (sa_CreatedAt r) (sa_UpdatedAt r).

(** ** Keys

    The generated columns, and the unique indexes of the tables. *)

#[export] Instance row_Account : Row Account := {
  row_id := ac_ID; with_id := fun i r => r <| ac_ID := i |>; row_id_with := fun _ _ => eq_refl
}.

#[export] Instance row_AuditEvent : Row AuditEvent := {
  row_id := ae_ID; with_id := fun i r => r <| ae_ID := i |>; row_id_with := fun _ _ => eq_refl
}.

#[export] Instance row_OAuthIdentity : Row OAuthIdentity := {
  row_id := oi_ID; with_id := fun i r => r <| oi_ID := i |>; row_id_with := fun _ _ => eq_refl
}.

#[export] Instance key_OAuthIdentity : Key OAuthIdentity (string * string) := {
  row_key := fun r => (oi_OAuthProvider r, oi_OAuthSubject r); row_key_with := fun _ _ => eq_refl
}.

#[export] Instance row_githubInstallationRecord : Row githubInstallationRecord := {
  row_id := gr_ID; with_id := fun i r => r <| gr_ID := i |>; row_id_with := fun _ _ => eq_refl
}.

#[export] Instance key_githubInstallationRecord : Key githubInstallationRecord (Z * Z) := {
  row_key := fun r => (gr_AccountID r, gr_InstallationID r); row_key_with := fun _ _ => eq_refl
}.

#[export] Instance row_AccountSecret : Row AccountSecret := {
  row_id := as_ID; with_id := fun i r => r <| as_ID := i |>; row_id_with := fun _ _ => eq_refl
}.

#[export] Instance key_AccountSecret : Key AccountSecret (string * Z * string) := {
  row_key := fun r => (as_ScopeType r, as_ScopeID r, as_KeyType r); row_key_with := fun _ _ => eq_refl
}.

#[export] Instance row_AccountPreference : Row AccountPreference := {
  row_id := ap_ID; with_id := fun i r => r <| ap_ID := i |>; row_id_with := fun _ _ => eq_refl
}.

#[export] Instance key_AccountPreference : Key AccountPreference (string * Z * string * string) := {
  row_key := fun r => (ap_ScopeType r, ap_ScopeID r, ap_Namespace r, ap_Key r); row_key_with := fun _ _ => eq_refl
}.

#[export] Instance row_SandboxServiceDefaultAudience : Row SandboxServiceDefaultAudience := {
  row_id := sa_ID; with_id := fun i r => r <| sa_ID := i |>; row_id_with := fun _ _ => eq_refl
}.

#[export] Instance key_SandboxServiceDefaultAudience : Key SandboxServiceDefaultAudience (string * Z) := {
  row_key := fun r => (sa_AccountType r, sa_GitHubAccountID r); row_key_with := fun _ _ => eq_refl
}.

(** ** Normalisation *)

Definition normalizeOAuthProvider (provider : string) : string := ToLower (TrimSpace provider).
Definition normalizeOAuthSubject (subject : string) : string := TrimSpace subject.
Definition normalizeOAuthLogin (login : string) : string := ToLower (TrimSpace login).

Definition normalizePlatformRole (role : string) : string :=
  let role := ToLower (TrimSpace role) in
  if bool_decide (role = "admin") || bool_decide (role = "user") then role else "".

Definition normalizeAccountScopeType (scopeType : string) : string := ToLower (TrimSpace scopeType).
Definition normalizeAccountSecretKeyType (keyType : string) : string := ToLower (TrimSpace keyType).
Definition normalizeAccountPreferencePart (value : string) : string := ToLower (TrimSpace value).

Definition normalizeGitHubAccountType (value : string) : string :=
  let v := ToLower (TrimSpace value) in
  if bool_decide (v = "user") then "user"
  else if bool_decide (v = "organization") || bool_decide (v = "org") then "organization"
  else "".

Definition SandboxServiceDefaultAudienceModeAll := "all".
Definition SandboxServiceDefaultAudienceModeSelected := "selected".

Definition normalizeSandboxServiceDefaultAudienceMode (value : string) : string :=
  if EqualFold (TrimSpace value) SandboxServiceDefaultAudienceModeSelected
  then SandboxServiceDefaultAudienceModeSelected else SandboxServiceDefaultAudienceModeAll.

(** The repositories kept in their order, without duplicates. *)
Fixpoint normalizeRepositories_from (seen : list string) (repositories : list string) : list string :=
  match repositories with
  | [] => []
  | repository :: rest =>
      let repository := TrimSpace repository in
      if bool_decide (repository = "") || Contains repository "*" || negb (Contains repository "/")
         || bool_decide (repository ∈ seen)
      then normalizeRepositories_from seen rest
      else repository :: normalizeRepositories_from (repository :: seen) rest
  end.

Definition normalizeRepositories : list string -> list string := normalizeRepositories_from [].

Definition recordToGitHubInstallation (record : githubInstallationRecord) (repositories : list string) : GitHubInstallation :=
  MkGitHubInstallation (gr_ID record) (gr_AccountID record) (gr_InstallationID record) (gr_GitHubAccountID record)
    (normalizeGitHubAccountType (gr_AccountType record)) (gr_AccountLogin record) (gr_AccountName record)
    (gr_AccountAvatar record) (normalizeRepositories repositories) (gr_CreatedAt record) (gr_UpdatedAt record).

Definition recordToGitHubInstallationAccount (record : githubInstallationRecord) : GitHubInstallationAccount :=
  MkGitHubInstallationAccount (gr_GitHubAccountID record) (normalizeGitHubAccountType (gr_AccountType record))
    (gr_AccountLogin record) (gr_AccountName record) (gr_AccountAvatar record).

Definition ownerRecordToGitHubInstallationAccount (record : githubInstallationOwnerRecord) : GitHubInstallationAccount :=
  MkGitHubInstallationAccount (go_GitHubAccountID record) (normalizeGitHubAccountType (go_AccountType record))
    (go_AccountLogin record) (go_AccountName record) (go_AccountAvatar record).

Definition recordToSandboxServiceDefault (record : SandboxServiceDefault) : SandboxServiceDefault :=
  record <| sd_AudienceMode := normalizeSandboxServiceDefaultAudienceMode (sd_AudienceMode record) |>.

(** Normalised values are fixed points. *)
Lemma normalizePlatformRole_cases role :
  normalizePlatformRole role = "admin" \/ normalizePlatformRole role = "user" \/ normalizePlatformRole role = "".
Proof. unfold normalizePlatformRole. repeat case_bool_decide; simpl; auto. Qed.

Lemma normalizeGitHubAccountType_cases value :
  normalizeGitHubAccountType value = "user" \/ normalizeGitHubAccountType value = "organization" \/
  normalizeGitHubAccountType value = "".
Proof. unfold normalizeGitHubAccountType. repeat case_bool_decide; simpl; auto. Qed.

Lemma normalizeGitHubAccountType_idem value :
  normalizeGitHubAccountType (normalizeGitHubAccountType value) = normalizeGitHubAccountType value.
Proof. by destruct (normalizeGitHubAccountType_cases value) as [->|[->| ->]]. Qed.

Lemma normalizeSandboxServiceDefaultAudienceMode_idem value :
  normalizeSandboxServiceDefaultAudienceMode (normalizeSandboxServiceDefaultAudienceMode value)
  = normalizeSandboxServiceDefaultAudienceMode value.
Proof. unfold normalizeSandboxServiceDefaultAudienceMode at 2 3. by destruct (EqualFold _ _). Qed.

Lemma elem_of_normalizeRepositories_from seen l r :
  r ∈ normalizeRepositories_from seen l -> (r ∉ seen) /\ r <> "" /\ exists x, x ∈ l /\ r = TrimSpace x.
Proof.
  revert seen. induction l as [|x l IH]; intros seen; simpl; [by intros ?%elem_of_nil|].
  destruct (_ || _) eqn:E.
  - intros (H1 & H2 & y & Hy & ->)%IH. repeat split; [done|done|]. exists y. split; [by right|done].
  - bool_prop. intros [->|Hr]%elem_of_cons; [repeat split; [done|done|]; exists x; split; [left|done]|].
    apply IH in Hr as (H3 & H4 & y & Hy & ->). apply not_elem_of_cons in H3 as [_ H3].
    repeat split; [done|done|]. exists y. split; [by right|done].
Qed.

Lemma normalizeRepositories_NoDup l : NoDup (normalizeRepositories l).
Proof.
  unfold normalizeRepositories. generalize (@nil string). induction l as [|x l IH]; intros seen; simpl; [constructor|].
  destruct (_ || _); [apply IH|]. constructor; [|apply IH].
  intros (H & _)%elem_of_normalizeRepositories_from. apply H. left.
Qed.
