(* ===== verification/RunnerModel.v ===== *)
(** * Data model of runner requests

    The structs and the row type of package state that describe one runner
    request, and the conversions between them (internal/state/store.go,
    records.go and conversions.go).  A column that holds JSON text holds here
    the value it encodes: the label columns the label list, and the legacy
    payload column the part of the webhook payload the code decodes. *)

From stdpp Require Import base list strings pretty.
From S2P Require Import Prelude GoStrings.
From Stdlib Require Import Ascii.

(** ** Status of a runner request: the constants of the code, or any other string *)

Inductive Status :=
| StatusQueued
| StatusCreating
| StatusRunning
| StatusStopping
| StatusCompleted
| StatusFailed
| StatusOther (s : string).

#[export] Instance Status_eq_dec : EqDecision Status.
Proof. solve_decision. Defined.

Definition status_text (s : Status) : string :=
  match s with
  | StatusQueued => "queued"
  | StatusCreating => "creating"
  | StatusRunning => "running"
  | StatusStopping => "stopping"
  | StatusCompleted => "completed"
  | StatusFailed => "failed"
  | StatusOther s => s
  end.

Definition status_is (s t : Status) : bool := bool_decide (s = t).

(** [activeStatuses] and the in-flight statuses the capacity counts use. *)
Definition activeStatuses : list Status :=
  [StatusQueued; StatusCreating; StatusRunning; StatusStopping].
Definition inFlightStatuses : list Status :=
  [StatusCreating; StatusRunning; StatusStopping].

Definition isActiveStatus (s : Status) : bool := bool_decide (s ∈ activeStatuses).
Definition isInFlight (s : Status) : bool := bool_decide (s ∈ inFlightStatuses).

(** [isTerminalRunnerStatus] *)
Definition isTerminalRunnerStatus (s : Status) : bool :=
  match s with StatusCompleted | StatusFailed => true | _ => false end.

(** Termination sources. *)
Definition TerminationSourceProcessExit := "process_exit".
Definition TerminationSourceWorkflowJobWebhook := "workflow_job_webhook".
Definition TerminationSourceManualStop := "manual_stop".
Definition TerminationSourceRecoveryCleanup := "recovery_cleanup".
Definition TerminationSourceFailureCleanup := "failure_cleanup".
Definition TerminationSourceIdleCleanup := "idle_cleanup".

(** ** The decoded part of a GitHub webhook payload *)

Record payloadWorkflowJob := {
  pj_RunID : Z;
  pj_WorkflowName : string;
  pj_RunAttempt : Z;
  pj_HeadBranch : string;
  pj_HeadSHA : string;
  pj_HTMLURL : string;
  pj_PullRequests : list Z;
  pj_WorkflowRunID : Z
}.

Record payloadWorkflowRun := {
  pr_ID : Z;
  pr_Name : string;
  pr_RunAttempt : Z;
  pr_HeadBranch : string;
  pr_HeadSHA : string;
  pr_PullRequests : list Z
}.

Record githubPayload := {
  payload_WorkflowJob : payloadWorkflowJob;
  payload_WorkflowRun : payloadWorkflowRun;
  payload_PullRequestNumber : Z
}.

(** The zero value, which a missing or undecodable payload leaves. *)
Definition empty_payload : githubPayload := {|
  payload_WorkflowJob := {| pj_RunID := 0; pj_WorkflowName := ""; pj_RunAttempt := 0;
    pj_HeadBranch := ""; pj_HeadSHA := ""; pj_HTMLURL := ""; pj_PullRequests := [];
    pj_WorkflowRunID := 0 |};
  payload_WorkflowRun := {| pr_ID := 0; pr_Name := ""; pr_RunAttempt := 0;
    pr_HeadBranch := ""; pr_HeadSHA := ""; pr_PullRequests := [] |};
  payload_PullRequestNumber := 0
|}.

(** ** The structs *)

Record RunnerRequest := MkRunnerRequest {
  req_ID : string;
  req_Source : string;
  req_JobID : Z;
  req_PullRequestNumber : Z;
  req_GitHubInstallationID : Z;
  req_RepositoryFullName : string;
  req_RequestedLabels : list string;
  req_Labels : list string;
  req_ProfileName : string;
  req_ProfileSource : string;
  req_ProfileScopeType : string;
  req_ProfileScopeID : Z;
  req_RunnerGroup : string;
  req_RunnerName : string;
  req_SandboxAPIURL : string;
  req_SandboxAPIKeyEncrypted : string;
  req_SandboxConfigSource : string;
  req_SponsorInstallationID : Z;
  req_SponsorSourceRepositoryID : Z;
  req_SponsorSourceRepositoryFullName : string;
  req_SponsorAuthorizationReason : string;
  req_CreatedAt : Time
}.

#[export] Instance rebuild_RunnerRequest : Rebuild RunnerRequest := fun r =>
  MkRunnerRequest
    (req_ID r) (req_Source r) (req_JobID r) (req_PullRequestNumber r)
    (req_GitHubInstallationID r) (req_RepositoryFullName r) (req_RequestedLabels r)
    (req_Labels r) (req_ProfileName r) (req_ProfileSource r) (req_ProfileScopeType r)
    (req_ProfileScopeID r) (req_RunnerGroup r) (req_RunnerName r) (req_SandboxAPIURL r)
    (req_SandboxAPIKeyEncrypted r) (req_SandboxConfigSource r) (req_SponsorInstallationID r)
    (req_SponsorSourceRepositoryID r) (req_SponsorSourceRepositoryFullName r)
    (req_SponsorAuthorizationReason r) (req_CreatedAt r).

Record RunnerState := MkRunnerState {
  st_ID : string;
  st_Status : Status;
  st_GitHubInstallationID : Z;
  st_RepositoryFullName : string;
  st_RequestedLabels : list string;
  st_ProfileName : string;
  st_ProfileSource : string;
  st_ProfileScopeType : string;
  st_ProfileScopeID : Z;
  st_RunnerGroup : string;
  st_RunnerName : string;
  st_SandboxID : string;
  st_SandboxAPIURL : string;
  st_SandboxAPIKeyEncrypted : string;
  st_SandboxConfigSource : string;
  st_SponsorInstallationID : Z;
  st_SponsorSourceRepositoryID : Z;
  st_SponsorSourceRepositoryFullName : string;
  st_SponsorAuthorizationReason : string;
  st_SandboxRegion : string;
  st_ResolvedTemplateID : string;
  st_TemplateVersion : string;
  st_RunnerVersion : string;
  st_EffectiveRunnerVersion : string;
  st_ProcessPID : Z;
  st_WorkflowJobID : Z;
  st_WorkflowRunID : Z;
  st_WorkflowName : string;
  st_WorkflowRunAttempt : Z;
  st_HeadBranch : string;
  st_HeadSHA : string;
  st_GitHubJobURL : string;
  st_GitHubJobName : string;
  st_GitHubJobStatus : string;
  st_GitHubJobConclusion : string;
  st_GitHubJobRunnerName : string;
  st_GitHubJobObservedAt : Time;
  st_PullRequestNumber : Z;
  st_AssignedJobID : Z;
  st_AssignedJobName : string;
  st_TerminationSource : string;
  st_RunnerExitCode : option Z;
  st_Error : string;
  st_FailureStage : string;
  st_FailureReason : string;
  st_LastErrorCode : string;
  st_LastErrorMessage : string;
  st_LastErrorRetryable : bool;
  st_RetryCount : Z;
  st_UpdatedAt : Time;
  st_CreatedAt : Time;
  st_LastAttemptAt : Time;
  st_NextRetryAt : Time;
  st_CreatingAt : Time;
  st_RunningAt : Time;
  st_StoppingAt : Time;
  st_CompletedAt : Time;
  st_FailedAt : Time;
  st_LeaseOwner : string;
  st_LeaseExpiresAt : Time;
  st_Version : Z
}.

#[export] Instance rebuild_RunnerState : Rebuild RunnerState := fun r =>
  MkRunnerState
    (st_ID r) (st_Status r) (st_GitHubInstallationID r) (st_RepositoryFullName r)
    (st_RequestedLabels r) (st_ProfileName r) (st_ProfileSource r) (st_ProfileScopeType r)
    (st_ProfileScopeID r) (st_RunnerGroup r) (st_RunnerName r) (st_SandboxID r)
    (st_SandboxAPIURL r) (st_SandboxAPIKeyEncrypted r) (st_SandboxConfigSource r)
    (st_SponsorInstallationID r) (st_SponsorSourceRepositoryID r)
    (st_SponsorSourceRepositoryFullName r) (st_SponsorAuthorizationReason r)
    (st_SandboxRegion r) (st_ResolvedTemplateID r) (st_TemplateVersion r)
    (st_RunnerVersion r) (st_EffectiveRunnerVersion r) (st_ProcessPID r) (st_WorkflowJobID r)
    (st_WorkflowRunID r) (st_WorkflowName r) (st_WorkflowRunAttempt r) (st_HeadBranch r)
    (st_HeadSHA r) (st_GitHubJobURL r) (st_GitHubJobName r) (st_GitHubJobStatus r)
    (st_GitHubJobConclusion r) (st_GitHubJobRunnerName r) (st_GitHubJobObservedAt r)
    (st_PullRequestNumber r) (st_AssignedJobID r) (st_AssignedJobName r)
    (st_TerminationSource r) (st_RunnerExitCode r) (st_Error r) (st_FailureStage r)
    (st_FailureReason r) (st_LastErrorCode r) (st_LastErrorMessage r)
    (st_LastErrorRetryable r) (st_RetryCount r) (st_UpdatedAt r) (st_CreatedAt r)
    (st_LastAttemptAt r) (st_NextRetryAt r) (st_CreatingAt r) (st_RunningAt r)
    (st_StoppingAt r) (st_CompletedAt r) (st_FailedAt r) (st_LeaseOwner r)
    (st_LeaseExpiresAt r) (st_Version r).

(** The row of table runner_requests. *)
Record runnerRequestRecord := MkrunnerRequestRecord {
  rec_ID : string;
  rec_Source : string;
  rec_WorkflowJobID : option Z;
  rec_GitHubInstallationID : Z;
  rec_WorkflowRunID : Z;
  rec_WorkflowName : string;
  rec_WorkflowRunAttempt : Z;
  rec_HeadBranch : string;
  rec_HeadSHA : string;
  rec_GitHubJobURL : string;
  rec_GitHubJobName : string;
  rec_GitHubJobStatus : string;
  rec_GitHubJobConclusion : string;
  rec_GitHubJobRunnerName : string;
  rec_GitHubJobObservedAt : option Time;
  rec_PullRequestNumber : Z;
  rec_GitHubContextBackfilled : bool;
  rec_RepositoryFullName : string;
  rec_RequestedLabelsJSON : list string;
  rec_LabelsJSON : list string;
  rec_ProfileName : string;
  rec_ProfileSource : string;
  rec_ProfileScopeType : string;
  rec_ProfileScopeID : Z;
  rec_RunnerGroup : string;
  rec_RunnerName : string;
  rec_Status : Status;
  rec_FailureStage : string;
  rec_FailureReason : string;
  rec_LastErrorCode : string;
  rec_LastErrorMessage : string;
  rec_LastErrorRetryable : bool;
  rec_RetryCount : Z;
  rec_SandboxID : string;
  rec_SandboxAPIURL : string;
  rec_SandboxAPIKeyEncrypted : string;
  rec_SandboxConfigSource : string;
  rec_SponsorInstallationID : Z;
  rec_SponsorSourceRepositoryID : Z;
  rec_SponsorSourceRepositoryFullName : string;
  rec_SponsorAuthorizationReason : string;
  rec_SandboxRegion : string;
  rec_ResolvedTemplateID : string;
  rec_TemplateVersion : string;
  rec_RunnerVersion : string;
  rec_EffectiveRunnerVersion : string;
  rec_ProcessPID : Z;
  rec_AssignedJobID : Z;
  rec_AssignedJobName : string;
  rec_TerminationSource : string;
  rec_RunnerExitCode : option Z;
  rec_Error : string;
  rec_GitHubPayloadJSON : githubPayload;
  rec_QueuedAt : Time;
  rec_LastAttemptAt : option Time;
  rec_NextRetryAt : option Time;
  rec_CreatingAt : option Time;
  rec_RunningAt : option Time;
  rec_StoppingAt : option Time;
  rec_CompletedAt : option Time;
  rec_FailedAt : option Time;
  rec_LeaseOwner : string;
  rec_LeaseExpiresAt : option Time;
  rec_UpdatedAt : Time;
  rec_Version : Z
}.

#[export] Instance rebuild_runnerRequestRecord : Rebuild runnerRequestRecord := fun r =>
  MkrunnerRequestRecord
    (rec_ID r) (rec_Source r) (rec_WorkflowJobID r) (rec_GitHubInstallationID r)
    (rec_WorkflowRunID r) (rec_WorkflowName r) (rec_WorkflowRunAttempt r) (rec_HeadBranch r)
    (rec_HeadSHA r) (rec_GitHubJobURL r) (rec_GitHubJobName r) (rec_GitHubJobStatus r)
    (rec_GitHubJobConclusion r) (rec_GitHubJobRunnerName r) (rec_GitHubJobObservedAt r)
    (rec_PullRequestNumber r) (rec_GitHubContextBackfilled r) (rec_RepositoryFullName r)
    (rec_RequestedLabelsJSON r) (rec_LabelsJSON r) (rec_ProfileName r) (rec_ProfileSource r)
    (rec_ProfileScopeType r) (rec_ProfileScopeID r) (rec_RunnerGroup r) (rec_RunnerName r)
    (rec_Status r) (rec_FailureStage r) (rec_FailureReason r) (rec_LastErrorCode r)
    (rec_LastErrorMessage r) (rec_LastErrorRetryable r) (rec_RetryCount r) (rec_SandboxID r)
    (rec_SandboxAPIURL r) (rec_SandboxAPIKeyEncrypted r) (rec_SandboxConfigSource r)
    (rec_SponsorInstallationID r) (rec_SponsorSourceRepositoryID r)
    (rec_SponsorSourceRepositoryFullName r) (rec_SponsorAuthorizationReason r)
    (rec_SandboxRegion r) (rec_ResolvedTemplateID r) (rec_TemplateVersion r)
    (rec_RunnerVersion r) (rec_EffectiveRunnerVersion r) (rec_ProcessPID r)
    (rec_AssignedJobID r) (rec_AssignedJobName r) (rec_TerminationSource r)
    (rec_RunnerExitCode r) (rec_Error r) (rec_GitHubPayloadJSON r) (rec_QueuedAt r)
    (rec_LastAttemptAt r) (rec_NextRetryAt r) (rec_CreatingAt r) (rec_RunningAt r)
    (rec_StoppingAt r) (rec_CompletedAt r) (rec_FailedAt r) (rec_LeaseOwner r)
    (rec_LeaseExpiresAt r) (rec_UpdatedAt r) (rec_Version r).


(** ** Links derived from the payload (conversions.go) *)

Record githubPayloadLinks := MkLinks {
  workflowRunID : Z;
  workflowName : string;
  workflowRunAttempt : Z;
  headBranch : string;
  headSHA : string;
  jobURL : string;
  pullRequestNumber : Z
}.

Fixpoint firstNonEmpty (values : list string) : string :=
  match values with
  | [] => ""
  | v :: r => let v := TrimSpace v in if bool_decide (v = "") then firstNonEmpty r else v
  end.

Definition firstPullRequestNumber (pulls : list Z) : Z :=
  match pulls with [] => 0 | n :: _ => n end.

Definition githubJobURL (repositoryFullName : string) (runID jobID : Z) : string :=
  if bool_decide (repositoryFullName = "") || (runID <=? 0)%Z || (jobID <=? 0)%Z then ""
  else "https://github.com/" +:+ repositoryFullName +:+ "/actions/runs/"
       +:+ FormatInt runID +:+ "/job/" +:+ FormatInt jobID.

(** [strings.IndexByte], with [None] for -1. *)
Fixpoint index_byte (c : ascii) (l : list ascii) : option nat :=
  match l with
  | [] => None
  | x :: r => if bool_decide (x = c) then Some 0 else S <$> index_byte c r
  end.

(** The loop of [hasRawQueryParameter] over the fields of the raw query. *)
Fixpoint query_has (fuel : nat) (name q : list ascii) : bool :=
  match fuel, q with
  | O, _ | _, [] => false
  | S fuel, _ =>
      let '(field, rest, found) :=
        match cut_bytes "&" q with Some (a, b) => (a, b, true) | None => (q, [], false) end in
      let fieldName := match cut_bytes "=" field with Some (a, _) => a | None => field end in
      if bool_decide (fieldName = name) then true
      else if negb found then false
      else query_has fuel name rest
  end.

Definition has_raw_query (l name : list ascii) : bool :=
  match index_byte "?" l with
  | None => false
  | Some queryStart =>
      let fragmentStart := index_byte "#" l in
      if match fragmentStart with Some f => f <? queryStart | None => false end then false
      else
        let queryEnd := default (length l) fragmentStart in
        let rawQuery := drop (S queryStart) (take queryEnd l) in
        query_has (S (length rawQuery)) name rawQuery
  end.

Definition hasRawQueryParameter (rawURL name : string) : bool :=
  has_raw_query (bytes rawURL) (bytes name).

Definition appendPullRequestQuery (rawURL : string) (prNumber : Z) : string :=
  if bool_decide (rawURL = "") || (prNumber <=? 0)%Z then rawURL
  else if hasRawQueryParameter rawURL "pr" then rawURL
  else
    let separator := if Contains rawURL "?" then "&" else "?" in
    rawURL +:+ separator +:+ "pr=" +:+ FormatInt prNumber.

Definition githubLinksFromPayloadBytes (payload : githubPayload)
    (repositoryFullName : string) (jobID : Z) : githubPayloadLinks :=
  let job := payload_WorkflowJob payload in
  let run := payload_WorkflowRun payload in
  let runID := pj_RunID job in
  let runID := if (runID =? 0)%Z then pj_WorkflowRunID job else runID in
  let runID := if (runID =? 0)%Z then pr_ID run else runID in
  let workflowName := firstNonEmpty [pj_WorkflowName job; pr_Name run] in
  let runAttempt := pj_RunAttempt job in
  let runAttempt := if (runAttempt =? 0)%Z then pr_RunAttempt run else runAttempt in
  let headBranch := firstNonEmpty [pj_HeadBranch job; pr_HeadBranch run] in
  let headSHA := firstNonEmpty [pj_HeadSHA job; pr_HeadSHA run] in
  let prNumber := firstPullRequestNumber (pj_PullRequests job) in
  let prNumber := if (prNumber =? 0)%Z then firstPullRequestNumber (pr_PullRequests run) else prNumber in
  let prNumber := if (prNumber =? 0)%Z then payload_PullRequestNumber payload else prNumber in
  let jobURL := pj_HTMLURL job in
  let jobURL := if bool_decide (jobURL = "") then githubJobURL repositoryFullName runID jobID else jobURL in
  let jobURL := appendPullRequestQuery jobURL prNumber in
  {| workflowRunID := runID; workflowName := workflowName; workflowRunAttempt := runAttempt;
     headBranch := headBranch; headSHA := headSHA; jobURL := jobURL;
     pullRequestNumber := prNumber |}.

Definition effectiveRunnerRequestJobID (record : runnerRequestRecord) : Z :=
  if (rec_AssignedJobID record =? 0)%Z then pointerToInt64 (rec_WorkflowJobID record)
  else rec_AssignedJobID record.

Definition githubLinksFromPayload (record : runnerRequestRecord) : githubPayloadLinks :=
  githubLinksFromPayloadBytes (rec_GitHubPayloadJSON record) (rec_RepositoryFullName record)
    (effectiveRunnerRequestJobID record).

Definition mergeGitHubPayloadLinks (links fallback : githubPayloadLinks) : githubPayloadLinks :=
  let orz a b := if (a =? 0)%Z then b else a in
  let ors a b := if bool_decide (a = "") then b else a in
  {| workflowRunID := orz (workflowRunID links) (workflowRunID fallback);
     workflowName := ors (workflowName links) (workflowName fallback);
     workflowRunAttempt := orz (workflowRunAttempt links) (workflowRunAttempt fallback);
     headBranch := ors (headBranch links) (headBranch fallback);
     headSHA := ors (headSHA links) (headSHA fallback);
     jobURL := ors (jobURL links) (jobURL fallback);
     pullRequestNumber := orz (pullRequestNumber links) (pullRequestNumber fallback) |}.

Definition githubLinksFromRecord (record : runnerRequestRecord) : githubPayloadLinks :=
  let links := {|
    workflowRunID := rec_WorkflowRunID record;
    workflowName := rec_WorkflowName record;
    workflowRunAttempt := rec_WorkflowRunAttempt record;
    headBranch := rec_HeadBranch record;
    headSHA := rec_HeadSHA record;
    jobURL := rec_GitHubJobURL record;
    pullRequestNumber := rec_PullRequestNumber record |} in
  let links := if rec_GitHubContextBackfilled record then links
               else mergeGitHubPayloadLinks links (githubLinksFromPayload record) in
  let url := if bool_decide (jobURL links = "")
             then githubJobURL (rec_RepositoryFullName record) (workflowRunID links)
                    (effectiveRunnerRequestJobID record)
             else jobURL links in
  let url := appendPullRequestQuery url (pullRequestNumber links) in
  {| workflowRunID := workflowRunID links; workflowName := workflowName links;
     workflowRunAttempt := workflowRunAttempt links; headBranch := headBranch links;
     headSHA := headSHA links; jobURL := url; pullRequestNumber := pullRequestNumber links |}.

(** ** Rows to structs *)

Definition recordToRequest (record : runnerRequestRecord) : RunnerRequest := {|
  req_ID := rec_ID record;
  req_Source := rec_Source record;
  req_JobID := pointerToInt64 (rec_WorkflowJobID record);
  req_PullRequestNumber := rec_PullRequestNumber record;
  req_GitHubInstallationID := rec_GitHubInstallationID record;
  req_RepositoryFullName := rec_RepositoryFullName record;
  req_RequestedLabels := rec_RequestedLabelsJSON record;
  req_Labels := rec_LabelsJSON record;
  req_ProfileName := rec_ProfileName record;
  req_ProfileSource := rec_ProfileSource record;
  req_ProfileScopeType := rec_ProfileScopeType record;
  req_ProfileScopeID := rec_ProfileScopeID record;
  req_RunnerGroup := rec_RunnerGroup record;
  req_RunnerName := rec_RunnerName record;
  req_SandboxAPIURL := rec_SandboxAPIURL record;
  req_SandboxAPIKeyEncrypted := rec_SandboxAPIKeyEncrypted record;
  req_SandboxConfigSource := rec_SandboxConfigSource record;
  req_SponsorInstallationID := rec_SponsorInstallationID record;
  req_SponsorSourceRepositoryID := rec_SponsorSourceRepositoryID record;
  req_SponsorSourceRepositoryFullName := rec_SponsorSourceRepositoryFullName record;
  req_SponsorAuthorizationReason := rec_SponsorAuthorizationReason record;
  req_CreatedAt := rec_QueuedAt record
|}.

Definition recordToState (record : runnerRequestRecord) : RunnerState :=
  let githubLinks := githubLinksFromRecord record in {|
  st_ID := rec_ID record;
  st_Status := rec_Status record;
  st_GitHubInstallationID := rec_GitHubInstallationID record;
  st_RepositoryFullName := rec_RepositoryFullName record;
  st_RequestedLabels := rec_RequestedLabelsJSON record;
  st_ProfileName := rec_ProfileName record;
  st_ProfileSource := rec_ProfileSource record;
  st_ProfileScopeType := rec_ProfileScopeType record;
  st_ProfileScopeID := rec_ProfileScopeID record;
  st_RunnerGroup := rec_RunnerGroup record;
  st_RunnerName := rec_RunnerName record;
  st_SandboxID := rec_SandboxID record;
  st_SandboxAPIURL := rec_SandboxAPIURL record;
  st_SandboxAPIKeyEncrypted := rec_SandboxAPIKeyEncrypted record;
  st_SandboxConfigSource := rec_SandboxConfigSource record;
  st_SponsorInstallationID := rec_SponsorInstallationID record;
  st_SponsorSourceRepositoryID := rec_SponsorSourceRepositoryID record;
  st_SponsorSourceRepositoryFullName := rec_SponsorSourceRepositoryFullName record;
  st_SponsorAuthorizationReason := rec_SponsorAuthorizationReason record;
  st_SandboxRegion := rec_SandboxRegion record;
  st_ResolvedTemplateID := rec_ResolvedTemplateID record;
  st_TemplateVersion := rec_TemplateVersion record;
  st_RunnerVersion := rec_RunnerVersion record;
  st_EffectiveRunnerVersion := rec_EffectiveRunnerVersion record;
  st_ProcessPID := rec_ProcessPID record;
  st_WorkflowJobID := pointerToInt64 (rec_WorkflowJobID record);
  st_WorkflowRunID := workflowRunID githubLinks;
  st_WorkflowName := workflowName githubLinks;
  st_WorkflowRunAttempt := workflowRunAttempt githubLinks;
  st_HeadBranch := headBranch githubLinks;
  st_HeadSHA := headSHA githubLinks;
  st_GitHubJobURL := jobURL githubLinks;
  st_GitHubJobName := rec_GitHubJobName record;
  st_GitHubJobStatus := rec_GitHubJobStatus record;
  st_GitHubJobConclusion := rec_GitHubJobConclusion record;
  st_GitHubJobRunnerName := rec_GitHubJobRunnerName record;
  st_GitHubJobObservedAt := pointerToTime (rec_GitHubJobObservedAt record);
  st_PullRequestNumber := pullRequestNumber githubLinks;
  st_AssignedJobID := rec_AssignedJobID record;
  st_AssignedJobName := rec_AssignedJobName record;
  st_TerminationSource := rec_TerminationSource record;
  st_RunnerExitCode := rec_RunnerExitCode record;
  st_Error := rec_Error record;
  st_FailureStage := rec_FailureStage record;
  st_FailureReason := rec_FailureReason record;
  st_LastErrorCode := rec_LastErrorCode record;
  st_LastErrorMessage := rec_LastErrorMessage record;
  st_LastErrorRetryable := rec_LastErrorRetryable record;
  st_RetryCount := rec_RetryCount record;
  st_UpdatedAt := rec_UpdatedAt record;
  st_CreatedAt := rec_QueuedAt record;
  st_LastAttemptAt := pointerToTime (rec_LastAttemptAt record);
  st_NextRetryAt := pointerToTime (rec_NextRetryAt record);
  st_CreatingAt := pointerToTime (rec_CreatingAt record);
  st_RunningAt := pointerToTime (rec_RunningAt record);
  st_StoppingAt := pointerToTime (rec_StoppingAt record);
  st_CompletedAt := pointerToTime (rec_CompletedAt record);
  st_FailedAt := pointerToTime (rec_FailedAt record);
  st_LeaseOwner := rec_LeaseOwner record;
  st_LeaseExpiresAt := pointerToTime (rec_LeaseExpiresAt record);
  st_Version := rec_Version record
|}.

(** ** Identifier sanitising *)

Definition sanitizeID (id : string) : string :=
  let id := TrimSpace id in
  let id := ReplaceAll id "/" "-" in
  let id := ReplaceAll id "\" "-" in
  ReplaceAll id ".." "-".

Definition sanitizeRunnerName (name : string) : string :=
  let name := TrimSpace name in
  let name := ReplaceAll name "/" "-" in
  ReplaceAll name "\" "-".

(** ** De-duplicating normalisers: first occurrence wins, blanks are dropped *)

Fixpoint unique_by {A} `{EqDecision A} (norm : A -> A) (keep : A -> bool)
    (seen : list A) (values : list A) : list A :=
  match values with
  | [] => []
  | v :: r =>
      let v := norm v in
      if negb (keep v) || bool_decide (v ∈ seen) then unique_by norm keep seen r
      else v :: unique_by norm keep (v :: seen) r
  end.

Definition nonempty (s : string) : bool := negb (bool_decide (s = "")).

Definition uniqueTrimmed (values : list string) : list string :=
  unique_by TrimSpace nonempty [] values.

Definition uniqueLowerTrimmed (values : list string) : list string :=
  unique_by (fun s => ToLower (TrimSpace s)) nonempty [] values.

Definition uniquePositiveInt64s (values : list Z) : list Z :=
  unique_by id (fun v => (0 <? v)%Z) [] values.

(** ** Lemmas on sanitising *)

Definition dash : ascii := "-".
Definition dot : ascii := ".".
Definition replace_byte (c d x : ascii) : ascii := if bool_decide (x = c) then d else x.

Lemma replace_single c d l : replace_go [c] [d] 0 l = map (replace_byte c d) l.
Proof.
  induction l as [|x l IH]; [done|]. simpl. unfold replace_byte at 1.
  rewrite andb_true_r. rewrite (bool_decide_ext (c = x) (x = c)) by (by split).
  case_bool_decide; simpl; by rewrite IH.
Qed.

(** Replacing every [..] by a dash. *)
Definition undot (l : list ascii) : list ascii := replace_go [dot; dot] [dash] 0 l.

Lemma undot_cons c r :
  undot (c :: r) =
  match r with
  | d :: r' => if bool_decide (c = dot) && bool_decide (d = dot) then dash :: undot r' else c :: undot r
  | [] => [c]
  end.
Proof.
  unfold undot. destruct r as [|d r']; simpl; [by rewrite andb_false_r|].
  rewrite andb_true_r.
  rewrite (bool_decide_ext (dot = c) (c = dot)), (bool_decide_ext (dot = d) (d = dot)) by (by split).
  by case_bool_decide; case_bool_decide.
Qed.

(** Induction that follows the scan of [undot]. *)
Lemma undot_ind (P : list ascii -> list ascii -> Prop) :
  P [] [] ->
  (forall r, P r (undot r) -> P (dot :: dot :: r) (dash :: undot r)) ->
  (forall c r, ~ (c = dot /\ head r = Some dot) -> P r (undot r) -> P (c :: r) (c :: undot r)) ->
  forall l, P l (undot l).
Proof.
  intros H0 H2 H1 l.
  remember (length l) as n eqn:Hn. revert l Hn.
  induction (lt_wf n) as [n _ IH]; intros l Hn. subst n.
  destruct l as [|c r]; [done|]. rewrite undot_cons. destruct r as [|d r'].
  - apply (H1 c []); [by intros []|]. by apply (IH 0); [simpl; lia|].
  - case_bool_decide; simpl; [case_bool_decide|]; subst.
    + apply H2. eapply IH; [|done]. simpl. lia.
    + apply H1; [|by eapply IH; [|done]; simpl; lia]. intros [_ [= ->]]. done.
    + apply H1; [|by eapply IH; [|done]; simpl; lia]. by intros [-> _].
Qed.

Lemma undot_no_dots l : contains_bytes [dot; dot] (undot l) = false /\
  (head (undot l) = Some dot -> head l = Some dot).
Proof.
  apply (undot_ind (fun l m => contains_bytes [dot; dot] m = false /\
    (head m = Some dot -> head l = Some dot))); clear l.
  - done.
  - intros r [IH _]. simpl. by rewrite IH.
  - intros c r Hc [IH1 IH2]. simpl. rewrite IH1, orb_false_r. split; [|done].
    destruct (undot r) as [|d m] eqn:E; simpl; [by rewrite andb_false_r|].
    rewrite andb_true_r. case_bool_decide; [|done]. case_bool_decide; [|done]. subst.
    exfalso. apply Hc. split; [done|]. by apply IH2.
Qed.

Lemma undot_id l : contains_bytes [dot; dot] l = false -> undot l = l.
Proof.
  apply (undot_ind (fun l m => contains_bytes [dot; dot] l = false -> m = l)); clear l.
  - done.
  - intros r _. done.
  - intros c r _ IH H. simpl in H. apply orb_false_iff in H as [_ H]. by rewrite IH.
Qed.

Lemma undot_elem x l : x ∈ undot l -> x = dash \/ x ∈ l.
Proof.
  apply (undot_ind (fun l m => x ∈ m -> x = dash \/ x ∈ l)); clear l.
  - by right.
  - intros r IH [->|H]%elem_of_cons; [by left|]. destruct (IH H); [by left|right]. by do 2 right.
  - intros c r _ IH [->|H]%elem_of_cons; [right; left|]. destruct (IH H); [by left|right; by right].
Qed.

(** A block without dots and dashes that ends the result ends the input. *)
Definition plain (x : ascii) : Prop := x <> dot /\ x <> dash.

Lemma undot_plain l : Forall plain (undot l) -> undot l = l.
Proof.
  apply (undot_ind (fun l m => Forall plain m -> m = l)); clear l.
  - done.
  - intros r _ H. by apply Forall_cons in H as [[_ []] _].
  - intros c r _ IH H. apply Forall_cons in H as [_ H]. by rewrite IH.
Qed.

Lemma undot_suffix w l p :
  Forall plain w -> undot l = p ++ w -> exists p', l = p' ++ w.
Proof.
  intros Hw. revert p.
  apply (undot_ind (fun l m => forall p, m = p ++ w -> exists p', l = p' ++ w)); clear l.
  - intros p H. symmetry in H. apply app_nil in H as [-> ->]. by exists [].
  - intros r IH p H. destruct p as [|x p]; simpl in H.
    + subst w. by apply Forall_cons in Hw as [[_ []] _].
    + injection H as _ H. destruct (IH p H) as [p' ->]. by exists (dot :: dot :: p').
  - intros c r Hc IH p H. destruct p as [|x p]; simpl in H.
    + exists []. rewrite <-H in Hw. apply Forall_cons in Hw as [_ Hw].
      by rewrite <-H, (undot_plain r Hw).
    + injection H as -> H. destruct (IH p H) as [p' ->]. by exists (x :: p').
Qed.

Lemma undot_prefix w l s :
  Forall plain w -> undot l = w ++ s -> exists s', l = w ++ s'.
Proof.
  intros Hw. revert w s Hw.
  apply (undot_ind (fun l m => forall w s, Forall plain w -> m = w ++ s -> exists s', l = w ++ s')); clear l.
  - intros w s _ H. symmetry in H. apply app_nil in H as [-> ->]. by exists [].
  - intros r IH w s Hw H. destruct w as [|x w]; [by exists (dot :: dot :: r)|].
    simpl in H. injection H as <- H. by apply Forall_cons in Hw as [[_ []] _].
  - intros c r Hc IH w s Hw H. destruct w as [|x w]; [by exists (c :: r)|].
    simpl in H. injection H as -> H. apply Forall_cons in Hw as [_ Hw].
    destruct (IH w s Hw H) as [s' ->]. by exists s'.
Qed.

(** The encodings of white space, and their occurrence at either end. *)
Definition ws_enc (w : list ascii) : Prop :=
  match w with
  | [c] => ws1 c = true
  | [c; d] => ws2 c d = true
  | [c; d; e] => ws3 c d e = true
  | _ => False
  end.

Lemma starts_ws_enc l : starts_ws ws2 ws3 l = true <-> exists w s, ws_enc w /\ l = w ++ s.
Proof.
  split.
  - destruct l as [|c r]; [done|]. simpl. destruct (ws1 c) eqn:E1; [by exists [c], r|].
    destruct r as [|d r]; [done|]. destruct (ws2 c d) eqn:E2; [by exists [c; d], r|].
    destruct r as [|e r]; [done|]. intros E3. by exists [c; d; e], r.
  - intros (w & s & Hw & ->). destruct w as [|c [|d [|e [|]]]]; simpl in *; try done;
      rewrite Hw; by rewrite ?orb_true_r.
Qed.

Lemma ends_ws_enc l :
  starts_ws ws2_rev ws3_rev (rev l) = true <-> exists w p, ws_enc w /\ l = p ++ w.
Proof.
  split.
  - intros H.
    assert (exists w s, ws_enc (rev w) /\ rev l = w ++ s) as (w & s & Hw & Hl).
    { destruct (rev l) as [|c r]; [done|]. simpl in H.
      destruct (ws1 c) eqn:E1; [by exists [c], r|].
      destruct r as [|d r]; [done|]. destruct (ws2_rev c d) eqn:E2; [by exists [c; d], r|].
      destruct r as [|e r]; [done|]. by exists [c; d; e], r. }
    exists (rev w), (rev s). split; [done|].
    by rewrite <-rev_app_distr, <-Hl, rev_involutive.
  - intros (w & p & Hw & ->). rewrite rev_app_distr.
    destruct w as [|c [|d [|e [|]]]]; simpl in *; try done;
      unfold ws2_rev, ws3_rev; rewrite Hw; by rewrite ?orb_true_r.
Qed.

Lemma ws_enc_plain w : ws_enc w -> Forall plain w.
Proof.
  assert (Hp : forall c, (code c <> 46 -> code c <> 45 -> plain c)%N).
  { intros c H1 H2. split; intros ->; [by apply H1|by apply H2]. }
  destruct w as [|c [|d [|e [|]]]]; simpl; try done; unfold ws1, ws2, ws3;
    intros H; repeat constructor; apply Hp; intros Hc; rewrite Hc in H; simpl in H;
    rewrite ?andb_false_r, ?orb_false_r in H; done.
Qed.

Lemma trimmed_undot l : trimmed l -> trimmed (undot l).
Proof.
  intros [H1 H2]. split; apply not_true_is_false; intros H.
  - apply starts_ws_enc in H as (w & s & Hw & Hl).
    destruct (undot_prefix w l s (ws_enc_plain w Hw) Hl) as [s' ->].
    assert (starts_ws ws2 ws3 (w ++ s') = true) by (apply starts_ws_enc; eauto). congruence.
  - apply ends_ws_enc in H as (w & p & Hw & Hl).
    destruct (undot_suffix w l p (ws_enc_plain w Hw) Hl) as [p' ->].
    assert (starts_ws ws2_rev ws3_rev (rev (p' ++ w)) = true) by (apply ends_ws_enc; eauto). congruence.
Qed.

Lemma replace_byte_elem c d x l :
  c <> d -> x ∈ map (replace_byte c d) l -> x <> c /\ (x = d \/ x ∈ l).
Proof.
  intros Hcd H. apply list_elem_of_In, in_map_iff in H as (y & <- & Hy).
  apply list_elem_of_In in Hy. unfold replace_byte. case_bool_decide; subst; [|by eauto].
  split; [done|by left].
Qed.

Lemma replace_byte_id c d l : c ∉ l -> map (replace_byte c d) l = l.
Proof.
  intros H. rewrite <-(map_id l) at 2. apply map_ext_in. intros x Hx.
  unfold replace_byte. rewrite bool_decide_eq_false_2; [done|]. intros ->.
  apply H. by apply list_elem_of_In.
Qed.

(** Mapping [/] or [\] to a dash does not touch white space at the ends. *)
Definition sep_byte (c : ascii) : Prop := c = "/"%char \/ c = "\"%char.

Lemma replace_byte_code c x :
  sep_byte c ->
  code (replace_byte c dash x) = code x \/
  (code (replace_byte c dash x) = 45%N /\ (code x = 47%N \/ code x = 92%N)).
Proof.
  intros Hc. unfold replace_byte. case_bool_decide; [|by left]. subst. right.
  split; [done|]. destruct Hc as [->| ->]; [by left|by right].
Qed.

Lemma ws_replace_byte c (Hc : sep_byte c) :
  (forall x, ws1 (replace_byte c dash x) = ws1 x) /\
  (forall x y, ws2 (replace_byte c dash x) (replace_byte c dash y) = ws2 x y) /\
  (forall x y z, ws3 (replace_byte c dash x) (replace_byte c dash y) (replace_byte c dash z) = ws3 x y z).
Proof.
  unfold ws1, ws2, ws3.
  split; [|split]; intros;
    repeat match goal with |- context [code (replace_byte c dash ?x)] =>
      let H1 := fresh in let H2 := fresh in let H3 := fresh in
      destruct (replace_byte_code c x Hc) as [H1|[H1 [H2|H2]]]; rewrite ?H1, ?H2 end;
    simpl; rewrite ?andb_false_r; done.
Qed.

Lemma trimmed_replace_byte c l : sep_byte c -> trimmed l -> trimmed (map (replace_byte c dash) l).
Proof.
  intros Hc [H1 H2]. destruct (ws_replace_byte c Hc) as (W1 & W2 & W3).
  assert (Hs : forall v2 v3 m,
    (forall x y, v2 (replace_byte c dash x) (replace_byte c dash y) = v2 x y) ->
    (forall x y z, v3 (replace_byte c dash x) (replace_byte c dash y) (replace_byte c dash z) = v3 x y z) ->
    starts_ws v2 v3 (map (replace_byte c dash) m) = starts_ws v2 v3 m).
  { intros v2 v3 m V2 V3. destruct m as [|x [|y [|z m]]]; simpl; by rewrite ?W1, ?V2, ?V3. }
  split; [by rewrite Hs|].
  rewrite <-map_rev, Hs; unfold ws2_rev, ws3_rev; by rewrite ?W2, ?W3 || intros; rewrite ?W2, ?W3.
Qed.

(** [sanitizeID] as a composition of byte maps. *)
Lemma sanitizeID_bytes id :
  bytes (sanitizeID id) =
  undot (map (replace_byte "\" dash) (map (replace_byte "/" dash) (trim_bytes (bytes id)))).
Proof.
  unfold sanitizeID, ReplaceAll, TrimSpace. rewrite !bytes_of_bytes.
  change (bytes "/") with [("/"%char)]. change (bytes "\") with [("\"%char)].
  change (bytes "-") with [dash]. change (bytes "..") with [dot; dot].
  by rewrite !replace_single.
Qed.

Definition clean_id (l : list ascii) : Prop :=
  trimmed l /\ ~ ("/"%char ∈ l) /\ ~ ("\"%char ∈ l) /\ contains_bytes [dot; dot] l = false.

Lemma sanitizeID_clean id : clean_id (bytes (sanitizeID id)).
Proof.
  rewrite sanitizeID_bytes. set (l := trim_bytes (bytes id)).
  repeat split; try apply undot_no_dots.
  1, 2: apply trimmed_undot, trimmed_replace_byte; [by right|];
    apply trimmed_replace_byte; [by left|]; apply trim_bytes_trimmed.
  - intros H. apply undot_elem in H as [H|H]; [done|].
    apply replace_byte_elem in H as [_ [H|H]]; [done| |done].
    by apply replace_byte_elem in H as [[] _].
  - intros H. apply undot_elem in H as [H|H]; [done|].
    by apply replace_byte_elem in H as [[] _].
Qed.

Lemma sanitizeID_id id : clean_id (bytes id) -> sanitizeID id = id.
Proof.
  intros (H1 & H2 & H3 & H4). rewrite <-(of_bytes_bytes (sanitizeID id)), sanitizeID_bytes.
  rewrite (trim_bytes_id _ H1), (replace_byte_id _ _ _ H2), (replace_byte_id _ _ _ H3), undot_id by done.
  apply of_bytes_bytes.
Qed.

Lemma sanitizeID_idem id : sanitizeID (sanitizeID id) = sanitizeID id.
Proof. apply sanitizeID_id, sanitizeID_clean. Qed.

#[export] Hint Rewrite sanitizeID_idem : runner.

(** [sanitizeRunnerName] is the same without the last replacement. *)
Lemma sanitizeRunnerName_bytes name :
  bytes (sanitizeRunnerName name) =
  map (replace_byte "\" dash) (map (replace_byte "/" dash) (trim_bytes (bytes name))).
Proof.
  unfold sanitizeRunnerName, ReplaceAll, TrimSpace. rewrite !bytes_of_bytes.
  change (bytes "/") with [("/"%char)]. change (bytes "\") with [("\"%char)].
  change (bytes "-") with [dash]. by rewrite !replace_single.
Qed.

Lemma sanitizeRunnerName_idem name : sanitizeRunnerName (sanitizeRunnerName name) = sanitizeRunnerName name.
Proof.
  rewrite <-(of_bytes_bytes (sanitizeRunnerName (sanitizeRunnerName name))).
  rewrite sanitizeRunnerName_bytes, sanitizeRunnerName_bytes.
  set (l := trim_bytes (bytes name)).
  rewrite (trim_bytes_id (map _ _)).
  2: { apply trimmed_replace_byte; [by right|]. apply trimmed_replace_byte; [by left|].
       apply trim_bytes_trimmed. }
  rewrite (replace_byte_id "/"), (replace_byte_id "\").
  - subst l. by rewrite <-sanitizeRunnerName_bytes, of_bytes_bytes.
  - intros H. by apply replace_byte_elem in H as [[] _].
  - intros H. apply replace_byte_elem in H as [_ [H|H]]; [done| |done].
    by apply replace_byte_elem in H as [[] _].
Qed.

#[export] Hint Rewrite sanitizeRunnerName_idem : runner.

(** Path safety of identifiers. A sanitised id has no path separator and no
    parent reference, has no surrounding white space, and sanitising it again
    changes nothing; exactly the ids that already are of that form are kept. *)
Theorem sanitizeID_safe id :
  let s := sanitizeID id in
  Contains s "/" = false /\ Contains s "\" = false /\ Contains s ".." = false /\
  TrimSpace s = s /\ sanitizeID s = s /\ (s = id <-> clean_id (bytes id)).
Proof.
  cbv zeta. pose proof (sanitizeID_clean id) as Hc. destruct Hc as (H1 & H2 & H3 & H4).
  split; [by apply not_contains_byte|]. split; [by apply not_contains_byte|]. split; [done|].
  split; [unfold TrimSpace; by rewrite (trim_bytes_id _ H1), of_bytes_bytes|].
  split; [apply sanitizeID_idem|].
  split; [intros H; rewrite <-H; apply sanitizeID_clean|apply sanitizeID_id].
Qed.
