(* ===== verification/RunnerStore.v ===== *)
(** * The runner request store (internal/state/runner_requests.go)

    The operations that change table runner_requests, each an atomic database
    transaction: creation, the compare-and-swap [WriteState], the lease claim
    and release, and the administrative retry.  [store_step] is the relation
    of all of them; every interleaving of server goroutines acts on the table
    as a sequence of these steps. *)

From stdpp Require Import base gmap list strings sorting relations.
From S2P Require Import Prelude GoStrings Query RunnerModel.

Abbreviation table := (gmap string runnerRequestRecord).

(** The zero value of the struct, returned beside an error. *)
Definition zero_state : RunnerState := {|
  st_ID := "";
  st_Status := StatusOther "";
  st_GitHubInstallationID := 0;
  st_RepositoryFullName := "";
  st_RequestedLabels := [];
  st_ProfileName := "";
  st_ProfileSource := "";
  st_ProfileScopeType := "";
  st_ProfileScopeID := 0;
  st_RunnerGroup := "";
  st_RunnerName := "";
  st_SandboxID := "";
  st_SandboxAPIURL := "";
  st_SandboxAPIKeyEncrypted := "";
  st_SandboxConfigSource := "";
  st_SponsorInstallationID := 0;
  st_SponsorSourceRepositoryID := 0;
  st_SponsorSourceRepositoryFullName := "";
  st_SponsorAuthorizationReason := "";
  st_SandboxRegion := "";
  st_ResolvedTemplateID := "";
  st_TemplateVersion := "";
  st_RunnerVersion := "";
  st_EffectiveRunnerVersion := "";
  st_ProcessPID := 0;
  st_WorkflowJobID := 0;
  st_WorkflowRunID := 0;
  st_WorkflowName := "";
  st_WorkflowRunAttempt := 0;
  st_HeadBranch := "";
  st_HeadSHA := "";
  st_GitHubJobURL := "";
  st_GitHubJobName := "";
  st_GitHubJobStatus := "";
  st_GitHubJobConclusion := "";
  st_GitHubJobRunnerName := "";
  st_GitHubJobObservedAt := 0;
  st_PullRequestNumber := 0;
  st_AssignedJobID := 0;
  st_AssignedJobName := "";
  st_TerminationSource := "";
  st_RunnerExitCode := None;
  st_Error := "";
  st_FailureStage := "";
  st_FailureReason := "";
  st_LastErrorCode := "";
  st_LastErrorMessage := "";
  st_LastErrorRetryable := false;
  st_RetryCount := 0;
  st_UpdatedAt := 0;
  st_CreatedAt := 0;
  st_LastAttemptAt := 0;
  st_NextRetryAt := 0;
  st_CreatingAt := 0;
  st_RunningAt := 0;
  st_StoppingAt := 0;
  st_CompletedAt := 0;
  st_FailedAt := 0;
  st_LeaseOwner := "";
  st_LeaseExpiresAt := 0;
  st_Version := 0
|}.

(** ** Reading *)

Definition readRecord (id : string) (t : table) : result runnerRequestRecord :=
  match t !! sanitizeID id with
  | Some r => Ok r
  | None => Err ErrRecordNotFound
  end.

Definition ReadRequest (id : string) (t : table) : result RunnerRequest :=
  let? r := readRecord id t in Ok (recordToRequest r).

Definition ReadState (id : string) (t : table) : result RunnerState :=
  match readRecord id t with
  | Ok r => Ok (recordToState r)
  | Err ErrRecordNotFound => Err ErrNotFound
  | Err e => Err e
  end.

(** ** Creation *)

(** The request after the defaulting at the start of [createRequest]. *)
Definition prepareRequest (req : RunnerRequest) (now : Time) : RunnerRequest :=
  let id := sanitizeID (req_ID req) in
  let name := sanitizeRunnerName (req_RunnerName req) in
  req <| req_ID := id |>
      <| req_RunnerName := if bool_decide (name = "") then "e2b-" +:+ id else name |>
      <| req_CreatedAt := if IsZero (req_CreatedAt req) then now else req_CreatedAt req |>
      <| req_RequestedLabels := if bool_decide (req_RequestedLabels req = []) then req_Labels req
                                else req_RequestedLabels req |>.

(** The links stored with a new row: a pull request number of the request
    fills in a missing one. *)
Definition requestLinks (req : RunnerRequest) (payload : githubPayload) : githubPayloadLinks :=
  let links := githubLinksFromPayloadBytes payload (req_RepositoryFullName req) (req_JobID req) in
  MkLinks (workflowRunID links) (workflowName links) (workflowRunAttempt links) (headBranch links)
    (headSHA links) (jobURL links)
    (if (0 <? req_PullRequestNumber req)%Z && (pullRequestNumber links =? 0)%Z
     then req_PullRequestNumber req else pullRequestNumber links).

(** The row that [createRequest] inserts. *)
Definition newRecord (req : RunnerRequest) (payload : githubPayload) (status : Status)
    (failureStage failureReason errorMessage : string) (now : Time) : runnerRequestRecord :=
  let payloadLinks := requestLinks req payload in
  let failedAt := if status_is status StatusFailed then Some now else None in
  {|
    rec_ID := req_ID req;
    rec_Source := req_Source req;
    rec_WorkflowJobID := if (req_JobID req =? 0)%Z then None else Some (req_JobID req);
    rec_GitHubInstallationID := req_GitHubInstallationID req;
    rec_WorkflowRunID := workflowRunID payloadLinks;
    rec_WorkflowName := workflowName payloadLinks;
    rec_WorkflowRunAttempt := workflowRunAttempt payloadLinks;
    rec_HeadBranch := headBranch payloadLinks;
    rec_HeadSHA := headSHA payloadLinks;
    rec_GitHubJobURL := jobURL payloadLinks;
    rec_GitHubJobName := "";
    rec_GitHubJobStatus := "";
    rec_GitHubJobConclusion := "";
    rec_GitHubJobRunnerName := "";
    rec_GitHubJobObservedAt := None;
    rec_PullRequestNumber := pullRequestNumber payloadLinks;
    rec_GitHubContextBackfilled := true;
    rec_RepositoryFullName := req_RepositoryFullName req;
    rec_RequestedLabelsJSON := req_RequestedLabels req;
    rec_LabelsJSON := req_Labels req;
    rec_ProfileName := req_ProfileName req;
    rec_ProfileSource := req_ProfileSource req;
    rec_ProfileScopeType := req_ProfileScopeType req;
    rec_ProfileScopeID := req_ProfileScopeID req;
    rec_RunnerGroup := req_RunnerGroup req;
    rec_RunnerName := req_RunnerName req;
    rec_Status := status;
    rec_FailureStage := failureStage;
    rec_FailureReason := failureReason;
    rec_LastErrorCode := "";
    rec_LastErrorMessage := "";
    rec_LastErrorRetryable := false;
    rec_RetryCount := 0;
    rec_SandboxID := "";
    rec_SandboxAPIURL := TrimSpace (req_SandboxAPIURL req);
    rec_SandboxAPIKeyEncrypted := TrimSpace (req_SandboxAPIKeyEncrypted req);
    rec_SandboxConfigSource := TrimSpace (req_SandboxConfigSource req);
    rec_SponsorInstallationID := req_SponsorInstallationID req;
    rec_SponsorSourceRepositoryID := req_SponsorSourceRepositoryID req;
    rec_SponsorSourceRepositoryFullName := TrimSpace (req_SponsorSourceRepositoryFullName req);
    rec_SponsorAuthorizationReason := TrimSpace (req_SponsorAuthorizationReason req);
    rec_SandboxRegion := "";
    rec_ResolvedTemplateID := "";
    rec_TemplateVersion := "";
    rec_RunnerVersion := "";
    rec_EffectiveRunnerVersion := "";
    rec_ProcessPID := 0;
    rec_AssignedJobID := 0;
    rec_AssignedJobName := "";
    rec_TerminationSource := "";
    rec_RunnerExitCode := None;
    rec_Error := errorMessage;
    rec_GitHubPayloadJSON := empty_payload;
    rec_QueuedAt := req_CreatedAt req;
    rec_LastAttemptAt := None;
    rec_NextRetryAt := None;
    rec_CreatingAt := None;
    rec_RunningAt := None;
    rec_StoppingAt := None;
    rec_CompletedAt := None;
    rec_FailedAt := failedAt;
    rec_LeaseOwner := "";
    rec_LeaseExpiresAt := None;
    rec_UpdatedAt := now;
    rec_Version := 0
  |}.

(** A unique key of the table is already taken: the primary key, or the
    unique index on a non-null workflow_job_id. *)
Definition same_job (j : Z) (r : runnerRequestRecord) : bool :=
  bool_decide (rec_WorkflowJobID r = Some j).

Definition insert_conflicts (r : runnerRequestRecord) (t : table) : bool :=
  bool_decide (is_Some (t !! rec_ID r)) ||
  match rec_WorkflowJobID r with
  | Some j => existsb (same_job j) (rows t)
  | None => false
  end.

Abbreviation row_id_le := (onle rec_ID String.le).

Definition createRequest (req : RunnerRequest) (payload : githubPayload) (status : Status)
    (failureStage failureReason errorMessage : string) (now : Time) (t : table)
    : table * (bool * RunnerState * option goerror) :=
  if bool_decide (sanitizeID (req_ID req) = "")
  then (t, (false, zero_state, Some (ErrText "request id is empty")))
  else
    let req := prepareRequest req now in
    let record := newRecord req payload status failureStage failureReason errorMessage now in
    if insert_conflicts record t then
      match ReadState (req_ID req) t with
      | Ok st => (t, (false, st, None))
      | Err e =>
          if errors_is e ErrNotFound && negb (req_JobID req =? 0)%Z then
            match First row_id_le (same_job (req_JobID req)) t with
            | Some conflicting => (t, (false, recordToState conflicting, Some ErrConflict))
            | None => (t, (false, zero_state, Some e))
            end
          else (t, (false, zero_state, Some e))
      end
    else (<[rec_ID record := record]> t, (true, recordToState record, None)).

Definition CreateRequest (req : RunnerRequest) (payload : githubPayload) (now : Time) (t : table) :=
  createRequest req payload StatusQueued "" "" "" now t.

Definition CreateRejectedRequest (req : RunnerRequest) (payload : githubPayload) (reason : string)
    (now : Time) (t : table) :=
  createRequest req payload StatusFailed "admission" (TrimSpace reason) "runner admission rejected" now t.

(** ** Compare-and-swap write *)

Definition applyStateTimestamps (st : RunnerState) (now : Time) : RunnerState :=
  match st_Status st with
  | StatusCreating => if IsZero (st_CreatingAt st) then st <| st_CreatingAt := now |> else st
  | StatusRunning =>
      let st := if IsZero (st_CreatingAt st) then st <| st_CreatingAt := now |> else st in
      if IsZero (st_RunningAt st) then st <| st_RunningAt := now |> else st
  | StatusStopping => if IsZero (st_StoppingAt st) then st <| st_StoppingAt := now |> else st
  | StatusCompleted => if IsZero (st_CompletedAt st) then st <| st_CompletedAt := now |> else st
  | StatusFailed => if IsZero (st_FailedAt st) then st <| st_FailedAt := now |> else st
  | _ => st
  end.

(** The UPDATE of [WriteState]: the columns of its map; the others keep their value. *)
Definition updateRecord (st : RunnerState) (r : runnerRequestRecord) : runnerRequestRecord := {|
  rec_ID := rec_ID r;
  rec_Source := rec_Source r;
  rec_WorkflowJobID := rec_WorkflowJobID r;
  rec_GitHubInstallationID := rec_GitHubInstallationID r;
  rec_WorkflowRunID := rec_WorkflowRunID r;
  rec_WorkflowName := rec_WorkflowName r;
  rec_WorkflowRunAttempt := rec_WorkflowRunAttempt r;
  rec_HeadBranch := rec_HeadBranch r;
  rec_HeadSHA := rec_HeadSHA r;
  rec_GitHubJobURL := rec_GitHubJobURL r;
  rec_GitHubJobName := TrimSpace (st_GitHubJobName st);
  rec_GitHubJobStatus := TrimSpace (st_GitHubJobStatus st);
  rec_GitHubJobConclusion := TrimSpace (st_GitHubJobConclusion st);
  rec_GitHubJobRunnerName := TrimSpace (st_GitHubJobRunnerName st);
  rec_GitHubJobObservedAt := zeroTimeToPointer (st_GitHubJobObservedAt st);
  rec_PullRequestNumber := rec_PullRequestNumber r;
  rec_GitHubContextBackfilled := rec_GitHubContextBackfilled r;
  rec_RepositoryFullName := st_RepositoryFullName st;
  rec_RequestedLabelsJSON := rec_RequestedLabelsJSON r;
  rec_LabelsJSON := rec_LabelsJSON r;
  rec_ProfileName := st_ProfileName st;
  rec_ProfileSource := st_ProfileSource st;
  rec_ProfileScopeType := st_ProfileScopeType st;
  rec_ProfileScopeID := st_ProfileScopeID st;
  rec_RunnerGroup := st_RunnerGroup st;
  rec_RunnerName := sanitizeRunnerName (st_RunnerName st);
  rec_Status := st_Status st;
  rec_FailureStage := st_FailureStage st;
  rec_FailureReason := st_FailureReason st;
  rec_LastErrorCode := st_LastErrorCode st;
  rec_LastErrorMessage := st_LastErrorMessage st;
  rec_LastErrorRetryable := st_LastErrorRetryable st;
  rec_RetryCount := st_RetryCount st;
  rec_SandboxID := st_SandboxID st;
  rec_SandboxAPIURL := TrimSpace (st_SandboxAPIURL st);
  rec_SandboxAPIKeyEncrypted := TrimSpace (st_SandboxAPIKeyEncrypted st);
  rec_SandboxConfigSource := TrimSpace (st_SandboxConfigSource st);
  rec_SponsorInstallationID := st_SponsorInstallationID st;
  rec_SponsorSourceRepositoryID := st_SponsorSourceRepositoryID st;
  rec_SponsorSourceRepositoryFullName := TrimSpace (st_SponsorSourceRepositoryFullName st);
  rec_SponsorAuthorizationReason := TrimSpace (st_SponsorAuthorizationReason st);
  rec_SandboxRegion := TrimSpace (st_SandboxRegion st);
  rec_ResolvedTemplateID := TrimSpace (st_ResolvedTemplateID st);
  rec_TemplateVersion := TrimSpace (st_TemplateVersion st);
  rec_RunnerVersion := TrimSpace (st_RunnerVersion st);
  rec_EffectiveRunnerVersion := TrimSpace (st_EffectiveRunnerVersion st);
  rec_ProcessPID := st_ProcessPID st;
  rec_AssignedJobID := st_AssignedJobID st;
  rec_AssignedJobName := st_AssignedJobName st;
  rec_TerminationSource := TrimSpace (st_TerminationSource st);
  rec_RunnerExitCode := st_RunnerExitCode st;
  rec_Error := st_Error st;
  rec_GitHubPayloadJSON := rec_GitHubPayloadJSON r;
  rec_QueuedAt := rec_QueuedAt r;
  rec_LastAttemptAt := zeroTimeToPointer (st_LastAttemptAt st);
  rec_NextRetryAt := zeroTimeToPointer (st_NextRetryAt st);
  rec_CreatingAt := zeroTimeToPointer (st_CreatingAt st);
  rec_RunningAt := zeroTimeToPointer (st_RunningAt st);
  rec_StoppingAt := zeroTimeToPointer (st_StoppingAt st);
  rec_CompletedAt := zeroTimeToPointer (st_CompletedAt st);
  rec_FailedAt := zeroTimeToPointer (st_FailedAt st);
  rec_LeaseOwner := st_LeaseOwner st;
  rec_LeaseExpiresAt := zeroTimeToPointer (st_LeaseExpiresAt st);
  rec_UpdatedAt := st_UpdatedAt st;
  rec_Version := st_Version st + 1
|}.

Definition WriteState (st : RunnerState) (now : Time) (t : table) : result table :=
  let st := st <| st_ID := sanitizeID (st_ID st) |> in
  if bool_decide (st_ID st = "") then Err (ErrText "request id is empty")
  else
    let st := st <| st_UpdatedAt := now |> in
    let st := applyStateTimestamps st now in
    match t !! st_ID st with
    | Some r => if (rec_Version r =? st_Version st)%Z then Ok (<[st_ID st := updateRecord st r]> t)
                else Err ErrConflict
    | None => Err ErrConflict
    end.

(** ** Leases *)

Definition time_reached (t : option Time) (now : Time) : bool :=
  match t with None => true | Some x => (x <=? now)%Z end.

(** The WHERE clause of the candidate query. *)
Definition runnable (now : Time) (r : runnerRequestRecord) : bool :=
  status_is (rec_Status r) StatusQueued && time_reached (rec_NextRetryAt r) now
  && time_reached (rec_LeaseExpiresAt r) now.

(** ORDER BY COALESCE(next_retry_at, queued_at), queued_at, id: gorm's [First]
    appends the primary key. *)
Definition claim_key (r : runnerRequestRecord) : Time * (Time * string) :=
  (default (rec_QueuedAt r) (rec_NextRetryAt r), (rec_QueuedAt r, rec_ID r)).

Abbreviation claim_le := (onle claim_key (lexle Z.le (lexle Z.le String.le))).

Definition leaseRecord (workerID : string) (now leaseExpiresAt : Time)
    (candidate : runnerRequestRecord) (r : runnerRequestRecord) : runnerRequestRecord :=
  r <| rec_LeaseOwner := workerID |> <| rec_LeaseExpiresAt := Some leaseExpiresAt |>
    <| rec_LastAttemptAt := Some now |> <| rec_UpdatedAt := now |>
    <| rec_Version := (rec_Version candidate + 1)%Z |>.

(** [Ok (t, None)] is the code's [claimed = false]. *)
Definition ClaimNextRunnable (workerID : string) (now : Time) (leaseTTL : Z) (t : table)
    : result (table * option (RunnerRequest * RunnerState)) :=
  let workerID := TrimSpace workerID in
  if bool_decide (workerID = "") then Err (ErrText "worker id is required")
  else
    let leaseExpiresAt := (now + leaseTTL)%Z in
    match First claim_le (runnable now) t with
    | None => Ok (t, None)
    | Some candidate =>
        match t !! rec_ID candidate with
        | Some r =>
            if status_is (rec_Status r) StatusQueued && time_reached (rec_LeaseExpiresAt r) now then
              let claimed := leaseRecord workerID now leaseExpiresAt candidate r in
              Ok (<[rec_ID candidate := claimed]> t,
                  Some (recordToRequest claimed, recordToState claimed))
            else Ok (t, None)
        | None => Ok (t, None)
        end
    end.

(** The update names the two lease columns only; the ORM adds [updated_at], at its
    own clock reading [now], as it does for every update of a model that has the
    column.  The version stays. *)
Definition ReleaseLease (id workerID : string) (now : Time) (t : table) : table :=
  match t !! sanitizeID id with
  | Some r =>
      if bool_decide (rec_LeaseOwner r = TrimSpace workerID)
      then <[sanitizeID id := r <| rec_LeaseOwner := "" |> <| rec_LeaseExpiresAt := None |>
                                <| rec_UpdatedAt := now |>]> t
      else t
  | None => t
  end.

(** ** Administrative retry *)

Definition retryAllowed (r : runnerRequestRecord) : bool :=
  match rec_Status r with
  | StatusFailed => true
  | StatusQueued => negb (bool_decide (rec_NextRetryAt r = None) || negb (rec_LastErrorRetryable r))
  | _ => false
  end.

Definition retryRecord (record : runnerRequestRecord) (now : Time) : runnerRequestRecord :=
  record
    <| rec_Status := StatusQueued |>
    <| rec_Error := "" |>
    <| rec_FailureStage := "" |>
    <| rec_FailureReason := "" |>
    <| rec_LastErrorCode := "" |>
    <| rec_LastErrorMessage := "" |>
    <| rec_LastErrorRetryable := false |>
    <| rec_SandboxID := "" |>
    <| rec_SandboxRegion := "" |>
    <| rec_ResolvedTemplateID := "" |>
    <| rec_TemplateVersion := "" |>
    <| rec_RunnerVersion := "" |>
    <| rec_EffectiveRunnerVersion := "" |>
    <| rec_ProcessPID := 0%Z |>
    <| rec_AssignedJobID := 0%Z |>
    <| rec_AssignedJobName := "" |>
    <| rec_TerminationSource := "" |>
    <| rec_RunnerExitCode := None |>
    <| rec_NextRetryAt := None |>
    <| rec_LeaseOwner := "" |>
    <| rec_LeaseExpiresAt := None |>
    <| rec_CreatingAt := None |>
    <| rec_RunningAt := None |>
    <| rec_StoppingAt := None |>
    <| rec_CompletedAt := None |>
    <| rec_FailedAt := None |>
    <| rec_SandboxAPIURL := "" |>
    <| rec_SandboxAPIKeyEncrypted := "" |>
    <| rec_SandboxConfigSource := "" |>
    <| rec_SponsorInstallationID := 0%Z |>
    <| rec_SponsorSourceRepositoryID := 0%Z |>
    <| rec_SponsorSourceRepositoryFullName := "" |>
    <| rec_SponsorAuthorizationReason := "" |>
    <| rec_UpdatedAt := now |>
    <| rec_Version := (rec_Version record + 1)%Z |>.

Definition RetryRequest (id : string) (now : Time) (t : table) : result (table * RunnerState) :=
  let id := sanitizeID id in
  match t !! id with
  | None => Err ErrRecordNotFound
  | Some record =>
      if retryAllowed record then
        let saved := retryRecord record now in
        Ok (<[id := saved]> t, recordToState saved)
      else Err ErrRetryNotAllowed
  end.

(** ** All writers of the table *)

Inductive store_step : table -> table -> Prop :=
| step_create req payload status fs fr em now t :
    now <> 0%Z -> (status = StatusQueued \/ status = StatusFailed) ->
    store_step t (createRequest req payload status fs fr em now t).1
| step_write st now t t' : now <> 0%Z -> WriteState st now t = Ok t' -> store_step t t'
| step_claim w now ttl t t' c :
    now <> 0%Z -> ClaimNextRunnable w now ttl t = Ok (t', c) -> store_step t t'
| step_release id w now t : store_step t (ReleaseLease id w now t)
| step_retry id now t t' st :
    now <> 0%Z -> RetryRequest id now t = Ok (t', st) -> store_step t t'.

(** The writers that leave the lease of [owner] on the request [id], which lasts
    until [expiry]: they do not write, release or retry that request. *)
Inductive lease_left (id owner : string) (expiry : Time) : table -> table -> Prop :=
| left_create req payload status fs fr em now t :
    now <> 0%Z -> (status = StatusQueued \/ status = StatusFailed) ->
    lease_left id owner expiry t (createRequest req payload status fs fr em now t).1
| left_write st now t t' :
    now <> 0%Z -> sanitizeID (st_ID st) <> id -> WriteState st now t = Ok t' ->
    lease_left id owner expiry t t'
| left_claim w now ttl t t' c :
    now <> 0%Z -> (now < expiry)%Z -> ClaimNextRunnable w now ttl t = Ok (t', c) ->
    lease_left id owner expiry t t'
| left_release k w now t :
    (sanitizeID k <> id \/ TrimSpace w <> owner) ->
    lease_left id owner expiry t (ReleaseLease k w now t)
| left_retry k now t t' st :
    now <> 0%Z -> sanitizeID k <> id -> RetryRequest k now t = Ok (t', st) ->
    lease_left id owner expiry t t'.

(** ** A concrete request, for the examples *)

Definition ex_request : RunnerRequest := {|
  req_ID := "101"; req_Source := "github_webhook"; req_JobID := 101; req_PullRequestNumber := 0;
  req_GitHubInstallationID := 7; req_RepositoryFullName := "acme/app"; req_RequestedLabels := [];
  req_Labels := ["qiniu"; "ubuntu-24.04"]; req_ProfileName := "linux"; req_ProfileSource := "global";
  req_ProfileScopeType := ""; req_ProfileScopeID := 0; req_RunnerGroup := "";
  req_RunnerName := "e2b-101"; req_SandboxAPIURL := ""; req_SandboxAPIKeyEncrypted := "";
  req_SandboxConfigSource := ""; req_SponsorInstallationID := 0; req_SponsorSourceRepositoryID := 0;
  req_SponsorSourceRepositoryFullName := ""; req_SponsorAuthorizationReason := "";
  req_CreatedAt := 0
|}.

Definition ex_table : table := (CreateRequest ex_request empty_payload 1000 ∅).1.
Definition ex_row : runnerRequestRecord :=
  newRecord (prepareRequest ex_request 1000) empty_payload StatusQueued "" "" "" 1000.

Definition ex_table2 : table :=
  (CreateRequest (ex_request <| req_ID := "102" |> <| req_JobID := 102%Z |>) empty_payload 1100 ex_table).1.

(** ** Well-formed tables *)

(** The lifecycle timestamps a status promises; the sweeper's timeouts read them. *)
Definition timestamps_ok (r : runnerRequestRecord) : Prop :=
  match rec_Status r with
  | StatusCreating => is_Some (rec_CreatingAt r)
  | StatusRunning => is_Some (rec_CreatingAt r) /\ is_Some (rec_RunningAt r)
  | StatusStopping => is_Some (rec_StoppingAt r)
  | StatusCompleted => is_Some (rec_CompletedAt r)
  | StatusFailed => is_Some (rec_FailedAt r)
  | _ => True
  end.

Record row_wf (id : string) (r : runnerRequestRecord) : Prop := {
  wf_key : rec_ID r = id;
  wf_clean : sanitizeID id = id;
  wf_nonempty : id <> "";
  wf_version : (0 <= rec_Version r)%Z;
  wf_job : rec_WorkflowJobID r <> Some 0%Z;
  wf_queued : rec_QueuedAt r <> 0%Z;
  wf_times : timestamps_ok r
}.

Record table_wf (t : table) : Prop := {
  wf_rows id r : t !! id = Some r -> row_wf id r;
  wf_unique_job id1 id2 r1 r2 j :
    t !! id1 = Some r1 -> t !! id2 = Some r2 ->
    rec_WorkflowJobID r1 = Some j -> rec_WorkflowJobID r2 = Some j -> id1 = id2
}.

(** ** How one row evolves *)

(** Equal up to the columns [ReleaseLease] changes: the lease and [updated_at]. *)
Definition lease_eq (r r' : runnerRequestRecord) : Prop :=
  r' = r <| rec_LeaseOwner := rec_LeaseOwner r' |> <| rec_LeaseExpiresAt := rec_LeaseExpiresAt r' |>
         <| rec_UpdatedAt := rec_UpdatedAt r' |>.

Definition evolves (r r' : runnerRequestRecord) : Prop :=
  (rec_Version r < rec_Version r')%Z \/ lease_eq r r'.

#[export] Instance lease_eq_refl : Reflexive lease_eq.
Proof. intros []. done. Qed.

#[export] Instance lease_eq_trans : Transitive lease_eq.
Proof. unfold lease_eq. intros [] [] []. simpl. intros [=] [=]. by subst. Qed.

Lemma lease_eq_version r r' : lease_eq r r' -> rec_Version r' = rec_Version r.
Proof. unfold lease_eq. intros ->. done. Qed.

#[export] Instance evolves_refl : Reflexive evolves.
Proof. intros r. by right. Qed.

#[export] Instance evolves_trans : Transitive evolves.
Proof.
  intros r1 r2 r3 [H1|H1] [H2|H2]; [left; lia| | |right; by etrans].
  - left. by rewrite (lease_eq_version _ _ H2).
  - left. by rewrite <-(lease_eq_version _ _ H1).
Qed.

(** Every step keeps the immutable identity of a row. *)
Definition same_identity (r r' : runnerRequestRecord) : Prop :=
  rec_ID r' = rec_ID r /\ rec_WorkflowJobID r' = rec_WorkflowJobID r /\
  rec_QueuedAt r' = rec_QueuedAt r /\ rec_LabelsJSON r' = rec_LabelsJSON r /\
  rec_Source r' = rec_Source r /\ rec_GitHubInstallationID r' = rec_GitHubInstallationID r.

#[export] Instance same_identity_trans : Transitive same_identity.
Proof.
  unfold same_identity. intros r1 r2 r3 (-> & -> & -> & -> & -> & ->) (-> & -> & -> & -> & -> & ->).
  done.
Qed.

(** ** Inversion of the operations *)

Lemma applyStateTimestamps_id st now : st_ID (applyStateTimestamps st now) = st_ID st.
Proof. unfold applyStateTimestamps. repeat case_match; done. Qed.

Lemma applyStateTimestamps_version st now :
  st_Version (applyStateTimestamps st now) = st_Version st.
Proof. unfold applyStateTimestamps. repeat case_match; done. Qed.

Lemma applyStateTimestamps_status st now :
  st_Status (applyStateTimestamps st now) = st_Status st.
Proof. unfold applyStateTimestamps. repeat case_match; done. Qed.

(** A field that ignores the five lifecycle timestamps is unchanged. *)
Lemma applyStateTimestamps_field {A} (f : RunnerState -> A) st now :
  (forall s v, f (s <| st_CreatingAt := v |>) = f s) -> (forall s v, f (s <| st_RunningAt := v |>) = f s) ->
  (forall s v, f (s <| st_StoppingAt := v |>) = f s) -> (forall s v, f (s <| st_CompletedAt := v |>) = f s) ->
  (forall s v, f (s <| st_FailedAt := v |>) = f s) -> f (applyStateTimestamps st now) = f st.
Proof.
  intros H1 H2 H3 H4 H5. unfold applyStateTimestamps. cbv zeta.
  repeat case_match; rewrite ?H1, ?H2, ?H3, ?H4, ?H5; rewrite ?H1; done.
Qed.

(** The state that a successful [WriteState] stores. *)
Definition written (st : RunnerState) (now : Time) : RunnerState :=
  applyStateTimestamps (st <| st_ID := sanitizeID (st_ID st) |> <| st_UpdatedAt := now |>) now.

Lemma WriteState_spec st now t :
  sanitizeID (st_ID st) <> "" ->
  WriteState st now t =
  match t !! sanitizeID (st_ID st) with
  | Some r => if (rec_Version r =? st_Version st)%Z
              then Ok (<[sanitizeID (st_ID st) := updateRecord (written st now) r]> t)
              else Err ErrConflict
  | None => Err ErrConflict
  end.
Proof.
  intros H. unfold WriteState, written. cbv zeta.
  rewrite bool_decide_eq_false_2 by exact H.
  by rewrite applyStateTimestamps_id, applyStateTimestamps_version.
Qed.

Lemma WriteState_Ok st now t t' :
  WriteState st now t = Ok t' ->
  exists r, t !! sanitizeID (st_ID st) = Some r /\ rec_Version r = st_Version st /\
    t' = <[sanitizeID (st_ID st) := updateRecord (written st now) r]> t.
Proof.
  intros H. destruct (decide (sanitizeID (st_ID st) = "")) as [E|E].
  { unfold WriteState in H. cbv zeta in H. by rewrite bool_decide_eq_true_2 in H by exact E. }
  rewrite WriteState_spec in H by done.
  destruct (t !! sanitizeID (st_ID st)) as [r|] eqn:Hr; [|done].
  destruct (rec_Version r =? st_Version st)%Z eqn:Hv; [|done].
  apply Z.eqb_eq in Hv. injection H as <-. eauto.
Qed.

Lemma ClaimNextRunnable_Some w now ttl t t' req st :
  (forall id r, t !! id = Some r -> rec_ID r = id) ->
  ClaimNextRunnable w now ttl t = Ok (t', Some (req, st)) ->
  exists r, First claim_le (runnable now) t = Some r /\ t !! rec_ID r = Some r /\
    let r' := leaseRecord (TrimSpace w) now (now + ttl) r r in
    t' = <[rec_ID r := r']> t /\ req = recordToRequest r' /\ st = recordToState r'.
Proof.
  intros Hk H. unfold ClaimNextRunnable in H. cbv zeta in H. case_bool_decide; [done|].
  destruct (First claim_le (runnable now) t) as [c|] eqn:Hf; [|done].
  destruct (First_Some _ _ _ _ Hf) as ([id Hid] & Hp & _).
  pose proof (Hk _ _ Hid) as <-. rewrite Hid in H.
  destruct (_ && _); [|done]. injection H as <- <- <-. by exists c.
Qed.

Lemma ClaimNextRunnable_None w now ttl t t' :
  (forall id r, t !! id = Some r -> rec_ID r = id) ->
  ClaimNextRunnable w now ttl t = Ok (t', None) -> t' = t.
Proof.
  intros Hk H. unfold ClaimNextRunnable in H. cbv zeta in H. case_bool_decide; [done|].
  repeat case_match; simplify_eq; done.
Qed.

Lemma createRequest_cases req payload status fs fr em now t :
  let '(t', (created, st, err)) := createRequest req payload status fs fr em now t in
  (created = false /\ t' = t) \/
  (created = true /\ err = None /\ exists r,
     t' = <[rec_ID r := r]> t /\ st = recordToState r /\ insert_conflicts r t = false /\
     rec_ID r = sanitizeID (req_ID req) /\ rec_ID r <> "" /\ rec_Version r = 0%Z /\
     rec_Status r = status /\
     rec_WorkflowJobID r = (if (req_JobID req =? 0)%Z then None else Some (req_JobID req)) /\
     rec_FailedAt r = (if status_is status StatusFailed then Some now else None) /\
     (now <> 0%Z -> rec_QueuedAt r <> 0%Z)).
Proof.
  unfold createRequest. case_bool_decide as E0; [by left|]. cbv zeta.
  set (rec := newRecord _ _ _ _ _ _ _). destruct (insert_conflicts rec t) eqn:Ec.
  { destruct (ReadState _ t); [by left|]. destruct (_ && _); [|by left].
    destruct (First _ _ t); by left. }
  right. split; [done|]. split; [done|]. exists rec. repeat (split; [done|]).
  intros Hn. unfold rec, newRecord, prepareRequest. simpl.
  destruct (IsZero (req_CreatedAt req)) eqn:E; [done|]. by apply IsZero_false.
Qed.

(** ** Preservation lemmas *)

Lemma zeroTimeToPointer_Some t : t <> 0%Z -> is_Some (zeroTimeToPointer t).
Proof. intros H. unfold zeroTimeToPointer. apply IsZero_false in H. rewrite H. by eexists. Qed.

Lemma applyStateTimestamps_ok st now :
  now <> 0%Z ->
  let st' := applyStateTimestamps st now in
  match st_Status st with
  | StatusCreating => st_CreatingAt st' <> 0%Z
  | StatusRunning => st_CreatingAt st' <> 0%Z /\ st_RunningAt st' <> 0%Z
  | StatusStopping => st_StoppingAt st' <> 0%Z
  | StatusCompleted => st_CompletedAt st' <> 0%Z
  | StatusFailed => st_FailedAt st' <> 0%Z
  | _ => True
  end.
Proof.
  intros Hn. unfold applyStateTimestamps. destruct (st_Status st); try done.
  2: { destruct (IsZero (st_CreatingAt st)) eqn:E1; simpl;
       destruct (IsZero (st_RunningAt st)) eqn:E2; simpl;
       rewrite ?IsZero_false in *; done. }
  all: match goal with |- context [IsZero ?x] => destruct (IsZero x) eqn:E end; simpl;
    rewrite ?IsZero_false in *; done.
Qed.

Lemma updateRecord_times st now r :
  now <> 0%Z -> timestamps_ok (updateRecord (written st now) r).
Proof.
  intros Hn. unfold timestamps_ok, written.
  set (st1 := st <| st_ID := _ |> <| st_UpdatedAt := _ |>).
  pose proof (applyStateTimestamps_ok st1 now Hn) as H. cbv zeta in H.
  change (rec_Status (updateRecord (applyStateTimestamps st1 now) r))
    with (st_Status (applyStateTimestamps st1 now)).
  rewrite applyStateTimestamps_status.
  revert H. destruct (st_Status st1); try done; intros H;
    [| destruct H; split | ..]; by apply zeroTimeToPointer_Some.
Qed.

Lemma updateRecord_version st now r :
  rec_Version (updateRecord (written st now) r) = (st_Version st + 1)%Z.
Proof. unfold written. simpl. by rewrite applyStateTimestamps_version. Qed.

(** Replacing a row by one with the same identity keeps the table well-formed. *)
Lemma table_wf_replace t id r r' :
  table_wf t -> t !! id = Some r -> row_wf id r' ->
  rec_WorkflowJobID r' = rec_WorkflowJobID r -> table_wf (<[id:=r']> t).
Proof.
  intros [Hr Hu] Hid Hwf Hj. split.
  - intros k s. rewrite lookup_insert. case_decide; [intros [= <-]; by subst|eauto].
  - intros k1 k2 s1 s2 j. rewrite !lookup_insert.
    repeat case_decide; subst; try done; intros; simplify_eq; rewrite ?Hj in *; eauto.
Qed.

Lemma row_wf_update id r st now :
  now <> 0%Z -> row_wf id r -> rec_Version r = st_Version st ->
  row_wf id (updateRecord (written st now) r).
Proof.
  intros Hn [] Hv. split; try done; [|by apply updateRecord_times].
  rewrite updateRecord_version. lia.
Qed.

Lemma row_wf_lease id w now e r : row_wf id r -> row_wf id (leaseRecord w now e r r).
Proof. intros []. split; try done. simpl. lia. Qed.

Lemma row_wf_release id r now :
  row_wf id r ->
  row_wf id (r <| rec_LeaseOwner := "" |> <| rec_LeaseExpiresAt := None |> <| rec_UpdatedAt := now |>).
Proof. intros []. by split. Qed.

Lemma retryRecord_fields r now :
  rec_ID (retryRecord r now) = rec_ID r /\ rec_Status (retryRecord r now) = StatusQueued /\
  rec_Version (retryRecord r now) = (rec_Version r + 1)%Z /\
  rec_WorkflowJobID (retryRecord r now) = rec_WorkflowJobID r.
Proof. by destruct r. Qed.

Lemma row_wf_retry id now r : row_wf id r -> row_wf id (retryRecord r now).
Proof.
  intros []. destruct (retryRecord_fields r now) as (H1 & H2 & H3 & H4).
  split; rewrite ?H1, ?H3, ?H4; try done; lia.
Qed.

Lemma wf_keyed t : table_wf t -> forall id r, t !! id = Some r -> rec_ID r = id.
Proof. intros Hwf id r H. by destruct (wf_rows _ Hwf _ _ H). Qed.

Lemma insert_conflicts_false r t :
  insert_conflicts r t = false ->
  t !! rec_ID r = None /\
  forall j id r', rec_WorkflowJobID r = Some j -> t !! id = Some r' -> rec_WorkflowJobID r' <> Some j.
Proof.
  unfold insert_conflicts. intros H. apply orb_false_iff in H as [H1 H2].
  apply bool_decide_eq_false_1 in H1. split; [by destruct (t !! rec_ID r); [exfalso; eauto|]|].
  intros j id r' Hj Hid Hr'. rewrite Hj in H2.
  assert (existsb (same_job j) (rows t) = true); [|congruence].
  apply existsb_exists. exists r'. split; [|unfold same_job; by rewrite bool_decide_eq_true_2].
  apply list_elem_of_In, elem_of_rows. eauto.
Qed.

Lemma table_wf_new t r :
  table_wf t -> insert_conflicts r t = false -> row_wf (rec_ID r) r ->
  table_wf (<[rec_ID r := r]> t).
Proof.
  intros [Hr Hu] Hc Hwf. apply insert_conflicts_false in Hc as [Hn Hj]. split.
  - intros k s. rewrite lookup_insert. case_decide; [intros [= <-]; by subst|eauto].
  - intros k1 k2 s1 s2 j. rewrite !lookup_insert.
    repeat case_decide; subst; intros; simplify_eq; try done; [| |by eauto].
    all: exfalso; by eapply Hj.
Qed.

(** One step: rows survive with their identity, and evolve. *)
Lemma step_row t t' id r :
  table_wf t -> store_step t t' -> t !! id = Some r ->
  exists r', t' !! id = Some r' /\ evolves r r' /\ same_identity r r'.
Proof.
  intros Hwf Hstep Hid. pose proof (wf_keyed t Hwf) as Hk.
  assert (Hcase : forall k s s', t !! k = Some s -> evolves s s' -> same_identity s s' ->
    exists r', <[k:=s']> t !! id = Some r' /\ evolves r r' /\ same_identity r r').
  { intros k s s' Hs He Hi. rewrite lookup_insert. case_decide; simplify_eq; [by eauto|].
    exists r. split; [done|]. split; [reflexivity|]. by repeat split. }
  assert (Hsame : exists r', t !! id = Some r' /\ evolves r r' /\ same_identity r r').
  { exists r. split; [done|]. split; [reflexivity|]. by repeat split. }
  destruct Hstep as [req p s fs fr em now t Hn Hs|st now t t' Hn Hw|w now ttl t t' c Hn Hc|k w now t|k now t t' st Hn Hrt].
  - pose proof (createRequest_cases req p s fs fr em now t) as H.
    destruct (createRequest req p s fs fr em now t) as [t' [[cr st] err]]. simpl.
    destruct H as [[_ ->]|(_ & _ & r0 & -> & _ & Hcf & _)]; [done|].
    apply insert_conflicts_false in Hcf as [Hnone _].
    rewrite lookup_insert_ne by congruence. done.
  - apply WriteState_Ok in Hw as (r0 & Hr0 & Hv & ->). eapply Hcase; [done| |by repeat split].
    left. rewrite updateRecord_version. lia.
  - destruct c as [[rq st]|]; [|apply ClaimNextRunnable_None in Hc as ->; done].
    apply ClaimNextRunnable_Some in Hc as (r0 & _ & Hr0 & -> & _); [|done].
    eapply Hcase; [done| |by repeat split]. left. simpl. lia.
  - unfold ReleaseLease. destruct (t !! sanitizeID k) as [r0|] eqn:Hr0; [|done].
    case_bool_decide; [|done]. eapply Hcase; [done| |by repeat split]. by right.
  - unfold RetryRequest in Hrt. cbv zeta in Hrt.
    destruct (t !! sanitizeID k) as [r0|] eqn:Hr0; [|done].
    destruct (retryAllowed r0); [|done]. injection Hrt as <- _.
    eapply Hcase; [done|left; destruct (retryRecord_fields r0 now) as (_ & _ & -> & _); lia|].
    by destruct r0.
Qed.

Lemma step_wf t t' : table_wf t -> store_step t t' -> table_wf t'.
Proof.
  intros Hwf Hstep. pose proof (wf_keyed t Hwf) as Hk. pose proof (wf_rows t Hwf) as Hrow.
  destruct Hstep as [req p s fs fr em now t Hn Hs|st now t t' Hn Hw|w now ttl t t' c Hn Hc|k w now t|k now t t' st Hn Hrt].
  - pose proof (createRequest_cases req p s fs fr em now t) as H.
    destruct (createRequest req p s fs fr em now t) as [t' [[cr st] err]]. simpl.
    destruct H as [[_ ->]|(_ & _ & r & -> & _ & Hcf & Hid & Hne & Hv & Hst & Hj & Hf & Hq)]; [done|].
    apply table_wf_new; [done|done|]. split; try done.
    + by rewrite Hid, sanitizeID_idem.
    + lia.
    + rewrite Hj. destruct (Z.eqb_spec (req_JobID req) 0); congruence.
    + by apply Hq.
    + unfold timestamps_ok. rewrite Hst. destruct Hs as [->| ->]; [done|].
      rewrite Hf. by eexists.
  - apply WriteState_Ok in Hw as (r0 & Hr0 & Hv & ->).
    eapply table_wf_replace; [done|done| |done]. apply row_wf_update; eauto.
  - destruct c as [[rq st]|]; [|apply ClaimNextRunnable_None in Hc as ->; done].
    apply ClaimNextRunnable_Some in Hc as (r0 & _ & Hr0 & -> & _); [|done].
    eapply table_wf_replace; [done|done| |done]. apply row_wf_lease; eauto.
  - unfold ReleaseLease. destruct (t !! sanitizeID k) as [r0|] eqn:Hr0; [|done].
    case_bool_decide; [|done]. eapply table_wf_replace; [done|done| |done].
    apply row_wf_release; eauto.
  - unfold RetryRequest in Hrt. cbv zeta in Hrt.
    destruct (t !! sanitizeID k) as [r0|] eqn:Hr0; [|done].
    destruct (retryAllowed r0); [|done]. injection Hrt as <- _.
    eapply table_wf_replace; [done|done|apply row_wf_retry; eauto|].
    by destruct (retryRecord_fields r0 now) as (_ & _ & _ & ->).
Qed.

Lemma steps_row t t' id r :
  table_wf t -> rtc store_step t t' -> t !! id = Some r ->
  table_wf t' /\ exists r', t' !! id = Some r' /\ evolves r r' /\ same_identity r r'.
Proof.
  intros Hwf Hs. revert r Hwf. induction Hs as [t|t1 t2 t3 H12 H23 IH]; intros r Hwf Hid.
  - split; [done|]. exists r. split; [done|]. split; [reflexivity|by repeat split].
  - destruct (step_row _ _ _ _ Hwf H12 Hid) as (r2 & Hr2 & He & Hi).
    destruct (IH r2 (step_wf _ _ Hwf H12) Hr2) as (Hwf3 & r3 & Hr3 & He3 & Hi3).
    split; [done|]. exists r3. split; [done|]. split; by etrans.
Qed.

Lemma table_wf_empty : table_wf ∅.
Proof. split; intros *; by rewrite lookup_empty. Qed.

Lemma reachable_wf t t' : table_wf t -> rtc store_step t t' -> table_wf t'.
Proof. intros Hwf Hs. induction Hs; eauto using step_wf. Qed.

Lemma ex_table_reachable : rtc store_step ∅ ex_table.
Proof. apply rtc_once. unfold ex_table, CreateRequest. apply step_create; [lia|by left]. Qed.

Lemma ex_table_wf : table_wf ex_table.
Proof. eapply reachable_wf; [apply table_wf_empty|apply ex_table_reachable]. Qed.

Lemma ex_table_row : ex_table !! "101" = Some ex_row.
Proof. by vm_compute. Qed.

Lemma ex_table2_wf : table_wf ex_table2.
Proof.
  eapply reachable_wf; [apply ex_table_wf|]. apply rtc_once. unfold ex_table2, CreateRequest.
  apply step_create; [lia|by left].
Qed.

Lemma ex_two_claims : exists t1 req1 st1 t2 req2 st2,
  ClaimNextRunnable "w1" 1500 60 ex_table2 = Ok (t1, Some (req1, st1)) /\
  ClaimNextRunnable "w2" 1559 60 (ReleaseLease "101" "w3" 1550 t1) = Ok (t2, Some (req2, st2)).
Proof.
  assert (H : match ClaimNextRunnable "w1" 1500 60 ex_table2 with
              | Ok (t1, Some _) =>
                  match ClaimNextRunnable "w2" 1559 60 (ReleaseLease "101" "w3" 1550 t1) with
                  | Ok (_, Some _) => true | _ => false end
              | _ => false end = true) by (vm_compute; reflexivity).
  destruct (ClaimNextRunnable "w1" 1500 60 ex_table2) as [[t1 [[req1 st1]|]]|]; [|discriminate H..].
  destruct (ClaimNextRunnable "w2" 1559 60 (ReleaseLease "101" "w3" 1550 t1))
    as [[t2 [[req2 st2]|]]|] eqn:E2; [|discriminate H..].
  exists t1, req1, st1, t2, req2, st2. by split.
Qed.

Lemma leased_request_ID w now e c r : req_ID (recordToRequest (leaseRecord w now e c r)) = rec_ID r.
Proof. done. Qed.

Lemma runnable_lease r now e :
  rec_LeaseExpiresAt r = Some e -> (now < e)%Z -> runnable now r = false.
Proof.
  intros He H. unfold runnable. rewrite He. apply andb_false_iff. right. simpl. by apply Z.leb_gt.
Qed.

(** A claim passes over a row under an unexpired lease, and leaves it alone. *)
Lemma leased_not_claimed w now ttl t t' id r e req st :
  table_wf t -> t !! id = Some r -> rec_LeaseExpiresAt r = Some e -> (now < e)%Z ->
  ClaimNextRunnable w now ttl t = Ok (t', Some (req, st)) ->
  req_ID req <> id /\ t' !! id = Some r.
Proof.
  intros Hwf Hr He Hlt Hc.
  apply ClaimNextRunnable_Some in Hc as (r2 & Hf & Hr2 & -> & -> & _); [|by apply wf_keyed].
  destruct (First_Some _ _ _ _ Hf) as (_ & Hp & _). rewrite leased_request_ID.
  assert (Hne : rec_ID r2 <> id).
  { intros <-. rewrite Hr2 in Hr. injection Hr as ->. by rewrite (runnable_lease _ _ _ He Hlt) in Hp. }
  split; [done|]. by rewrite lookup_insert_ne.
Qed.

Lemma lease_left_store id w e t t' : lease_left id w e t t' -> store_step t t'.
Proof. intros []; by econstructor. Qed.

(** A leased row is as it was after any operations that leave the lease. *)
Lemma lease_left_row id w e t t' r :
  table_wf t -> rtc (lease_left id w e) t t' -> t !! id = Some r ->
  rec_LeaseOwner r = w -> rec_LeaseExpiresAt r = Some e -> table_wf t' /\ t' !! id = Some r.
Proof.
  intros Hwf Hs Hr Ho He. induction Hs as [|t t' t'' Hstep Hs IH]; [done|].
  apply IH; [by eapply step_wf, lease_left_store|]. clear IH Hs t''.
  destruct Hstep as [req p s fs fr em now t Hn Hst|st now t t' Hn Hid Hw|w' now ttl t t' c Hn Hlt Hc
    |k w' now t Hk|k now t t' st Hn Hid Hrt].
  - pose proof (createRequest_cases req p s fs fr em now t) as H.
    destruct (createRequest req p s fs fr em now t) as [t' [[cr st] err]]. simpl.
    destruct H as [[_ ->]|(_ & _ & r0 & -> & _ & Hcf & _)]; [done|].
    apply insert_conflicts_false in Hcf as [Hnone _]. by rewrite lookup_insert_ne by congruence.
  - apply WriteState_Ok in Hw as (r0 & _ & _ & ->). by rewrite lookup_insert_ne.
  - destruct c as [[rq st]|]; [by eapply leased_not_claimed|].
    by apply ClaimNextRunnable_None in Hc as ->; [|apply wf_keyed].
  - unfold ReleaseLease. destruct (t !! sanitizeID k) as [r0|] eqn:Hr0; [|done].
    case_bool_decide; [|done]. rewrite lookup_insert_ne; [done|]. intros <-.
    rewrite Hr in Hr0. injection Hr0 as <-. destruct Hk; congruence.
  - unfold RetryRequest in Hrt. cbv zeta in Hrt. repeat case_match; simplify_eq.
    by rewrite lookup_insert_ne.
Qed.

(** ** Theorems *)

(** C1: Lost-update freedom. Whatever store operations run between the moment a
    goroutine reads a row and its [WriteState], a write that succeeds finds the
    row exactly as it was read, up to what [ReleaseLease] changes without a version
    bump: the two lease columns and [updated_at]. *)
Theorem write_no_lost_update t0 t t' id r0 st now :
  table_wf t0 -> t0 !! id = Some r0 -> rtc store_step t0 t ->
  sanitizeID (st_ID st) = id -> st_Version st = rec_Version r0 ->
  WriteState st now t = Ok t' ->
  exists r, t !! id = Some r /\ lease_eq r0 r /\
            t' = <[id := updateRecord (written st now) r]> t.
Proof.
  intros Hwf Hr0 Hs <- Hv Hw. apply WriteState_Ok in Hw as (r & Hr & Hrv & ->).
  destruct (steps_row _ _ _ _ Hwf Hs Hr0) as (_ & r' & Hr' & [He|He] & _);
    rewrite Hr in Hr'; injection Hr' as <-; [lia|eauto].
Qed.

Lemma write_no_lost_update_witness :
  exists r t', ReleaseLease "101" "" 1900 ex_table !! "101" = Some r /\ lease_eq ex_row r /\
    WriteState (recordToState ex_row) 2000 (ReleaseLease "101" "" 1900 ex_table) = Ok t'.
Proof.
  destruct (WriteState (recordToState ex_row) 2000 (ReleaseLease "101" "" 1900 ex_table)) as [t'|] eqn:E;
    [|vm_compute in E; discriminate].
  destruct (write_no_lost_update ex_table (ReleaseLease "101" "" 1900 ex_table) t' "101" ex_row
              (recordToState ex_row) 2000) as (r & H1 & H2 & H3).
  - exact ex_table_wf.
  - exact ex_table_row.
  - apply rtc_once, step_release.
  - vm_compute. reflexivity.
  - reflexivity.
  - exact E.
  - exists r, t'. eauto.
Defined.

(** C14: Store invariant. In every table reachable from the empty one, each row is
    keyed by its non-empty sanitised id, carries the timestamps its status
    promises and a non-negative version, and no two rows share a workflow job. *)
Theorem store_invariant t : rtc store_step ∅ t -> table_wf t.
Proof. apply reachable_wf, table_wf_empty. Qed.

Lemma store_invariant_witness : table_wf ex_table.
Proof. apply (store_invariant ex_table). exact ex_table_reachable. Defined.

(** Rows are append-only. A row that exists is found after any sequence of
    operations, with the same identity columns and a version at least as high;
    and when the version is unchanged only the lease columns and [updated_at] can
    differ. *)
Theorem rows_persist t t' id r :
  table_wf t -> rtc store_step t t' -> t !! id = Some r ->
  exists r', t' !! id = Some r' /\ same_identity r r' /\
    (rec_Version r <= rec_Version r')%Z /\ (rec_Version r' = rec_Version r -> lease_eq r r').
Proof.
  intros Hwf Hs Hr. destruct (steps_row _ _ _ _ Hwf Hs Hr) as (_ & r' & Hr' & He & Hi).
  exists r'. split; [done|]. split; [done|].
  destruct He as [He|He]; [split; lia|]. rewrite (lease_eq_version _ _ He). by split.
Qed.

Lemma rows_persist_witness :
  exists r', ReleaseLease "101" "" 1900 ex_table !! "101" = Some r' /\ same_identity ex_row r'.
Proof.
  destruct (rows_persist ex_table (ReleaseLease "101" "" 1900 ex_table) "101" ex_row) as (r' & H1 & H2 & _).
  - exact ex_table_wf.
  - apply rtc_once, step_release.
  - exact ex_table_row.
  - eauto.
Defined.

(** C33: Claim order. A claim takes a row that is queued, due and unleased, and no
    such row precedes it in the order of eligibility time, queue time and id;
    the row then carries the claimer's lease and its version is bumped. *)
Theorem claim_takes_first_runnable w now ttl t t' req st :
  table_wf t -> ClaimNextRunnable w now ttl t = Ok (t', Some (req, st)) ->
  exists r, t !! rec_ID r = Some r /\ runnable now r = true /\
    (forall id r2, t !! id = Some r2 -> runnable now r2 = true -> claim_le r r2) /\
    req_ID req = rec_ID r /\ st_Status st = StatusQueued /\
    st_LeaseOwner st = TrimSpace w /\ st_LeaseExpiresAt st = (now + ttl)%Z /\
    st_Version st = (rec_Version r + 1)%Z /\
    t' = <[rec_ID r := leaseRecord (TrimSpace w) now (now + ttl) r r]> t.
Proof.
  intros Hwf Hc. apply ClaimNextRunnable_Some in Hc as (r & Hf & Hr & -> & -> & ->);
    [|by apply wf_keyed].
  destruct (First_Some _ _ _ _ Hf) as (_ & Hp & Hmin). exists r.
  do 3 (split; [done|]). split; [done|]. split; [|done].
  unfold runnable in Hp. bool_prop. change (rec_Status r = StatusQueued).
  by apply (bool_decide_eq_true_1 _).
Qed.

Lemma claim_takes_first_runnable_witness :
  exists r, ex_table !! rec_ID r = Some r /\ runnable 1500 r = true.
Proof.
  destruct (ClaimNextRunnable "w1" 1500 60 ex_table) as [[t' [[req st]|]]|] eqn:E;
    [|vm_compute in E; discriminate|vm_compute in E; discriminate].
  destruct (claim_takes_first_runnable "w1" 1500 60 ex_table t' req st ex_table_wf E)
    as (r & H1 & H2 & _).
  eauto.
Defined.

(** C32: Claim exclusion. Once a claim has taken a request, no claim by any worker
    takes it again before the lease expires, whatever store operations ran in
    between, as long as they left the lease: creations, claims at clocks before the
    expiry, releases by other workers, and writes, releases and retries of other
    requests. The request's row is then as the first claim left it. *)
Theorem claim_exclusive w1 now1 ttl1 t0 t1 req1 st1 t w2 now2 ttl2 t2 req2 st2 :
  table_wf t0 -> now1 <> 0%Z ->
  ClaimNextRunnable w1 now1 ttl1 t0 = Ok (t1, Some (req1, st1)) ->
  rtc (lease_left (req_ID req1) (TrimSpace w1) (now1 + ttl1)) t1 t ->
  (now2 < now1 + ttl1)%Z ->
  ClaimNextRunnable w2 now2 ttl2 t = Ok (t2, Some (req2, st2)) ->
  req_ID req2 <> req_ID req1 /\ t2 !! req_ID req1 = t1 !! req_ID req1.
Proof.
  intros Hwf Hn Hc1 Hs Hlt Hc2.
  assert (Hwf1 : table_wf t1) by (eapply step_wf, step_claim; eauto).
  apply ClaimNextRunnable_Some in Hc1 as (r1 & _ & Hr1 & -> & -> & _); [|by apply wf_keyed].
  rewrite leased_request_ID in *. set (r := leaseRecord _ _ _ r1 r1) in *.
  destruct (lease_left_row _ _ _ _ _ r Hwf1 Hs (lookup_insert_eq _ _ _) eq_refl eq_refl)
    as [Hwft Hr].
  rewrite lookup_insert_eq.
  by apply (leased_not_claimed w2 now2 ttl2 t t2 (rec_ID r1) r (now1 + ttl1)) in Hc2.
Qed.

Lemma claim_exclusive_witness : exists t1 req1 st1 t2 req2 st2,
  ClaimNextRunnable "w1" 1500 60 ex_table2 = Ok (t1, Some (req1, st1)) /\
  ClaimNextRunnable "w2" 1559 60 (ReleaseLease "101" "w3" 1550 t1) = Ok (t2, Some (req2, st2)) /\
  req_ID req2 <> req_ID req1.
Proof.
  destruct ex_two_claims as (t1 & req1 & st1 & t2 & req2 & st2 & E1 & E2).
  exists t1, req1, st1, t2, req2, st2. split; [exact E1|]. split; [exact E2|].
  apply (claim_exclusive "w1" 1500 60 ex_table2 t1 req1 st1 (ReleaseLease "101" "w3" 1550 t1)
           "w2" 1559 60 t2 req2 st2);
    [exact ex_table2_wf|lia|exact E1| |lia|exact E2].
  apply rtc_once, left_release. right. vm_compute. discriminate.
Defined.

(** ** Creation *)

(** A row with the job is what the unique index reports. *)
Lemma First_same_job t id r j :
  table_wf t -> t !! id = Some r -> rec_WorkflowJobID r = Some j ->
  First row_id_le (same_job j) t = Some r.
Proof.
  intros Hwf Hid Hj.
  assert (Hs : same_job j r = true) by (unfold same_job; by apply bool_decide_eq_true).
  destruct (First row_id_le (same_job j) t) as [r2|] eqn:Hf.
  - destruct (First_Some _ _ _ _ Hf) as ([id2 Hid2] & Hp & _).
    apply bool_decide_eq_true_1 in Hp.
    pose proof (wf_unique_job t Hwf _ _ _ _ _ Hid Hid2 Hj Hp). by simplify_eq.
  - pose proof (proj1 (First_None _ _ _) Hf _ _ Hid). congruence.
Qed.

Lemma existsb_same_job t id r j :
  t !! id = Some r -> rec_WorkflowJobID r = Some j -> existsb (same_job j) (rows t) = true.
Proof.
  intros Hid Hj. apply existsb_exists. exists r. split.
  - apply list_elem_of_In, elem_of_rows. eauto.
  - by apply bool_decide_eq_true.
Qed.

Lemma ReadState_lookup id r t :
  t !! sanitizeID id = Some r -> ReadState id t = Ok (recordToState r).
Proof. intros H. unfold ReadState, readRecord. by rewrite H. Qed.

Lemma prepareRequest_ID req now : req_ID (prepareRequest req now) = sanitizeID (req_ID req).
Proof. done. Qed.

Lemma createRequest_existing req payload status fs fr em now t r :
  sanitizeID (req_ID req) <> "" -> t !! sanitizeID (req_ID req) = Some r ->
  createRequest req payload status fs fr em now t = (t, (false, recordToState r, None)).
Proof.
  intros Hne Hr. unfold createRequest. rewrite bool_decide_eq_false_2 by done. cbv zeta.
  unfold insert_conflicts.
  change (rec_ID (newRecord (prepareRequest req now) payload status fs fr em now))
    with (sanitizeID (req_ID req)).
  rewrite bool_decide_eq_true_2 by (rewrite Hr; by eexists). cbn [orb].
  by rewrite (ReadState_lookup _ r), ?prepareRequest_ID by by rewrite prepareRequest_ID, sanitizeID_idem.
Qed.

Lemma createRequest_same_job req payload status fs fr em now t id r :
  table_wf t -> sanitizeID (req_ID req) <> "" -> t !! sanitizeID (req_ID req) = None ->
  req_JobID req <> 0%Z -> t !! id = Some r -> rec_WorkflowJobID r = Some (req_JobID req) ->
  createRequest req payload status fs fr em now t = (t, (false, recordToState r, Some ErrConflict)).
Proof.
  intros Hwf Hne Hn Hj0 Hid Hj. unfold createRequest. rewrite bool_decide_eq_false_2 by done. cbv zeta.
  assert (Hb : (req_JobID req =? 0)%Z = false) by by apply Z.eqb_neq.
  assert (Hc : insert_conflicts (newRecord (prepareRequest req now) payload status fs fr em now) t = true).
  { unfold insert_conflicts. apply orb_true_iff. right.
    change (rec_WorkflowJobID _) with (if (req_JobID req =? 0)%Z then None else Some (req_JobID req)).
    rewrite Hb. by eapply existsb_same_job. }
  rewrite Hc.
  assert (Hr : ReadState (req_ID (prepareRequest req now)) t = Err ErrNotFound).
  { unfold ReadState, readRecord. by rewrite prepareRequest_ID, sanitizeID_idem, Hn. }
  rewrite Hr. change (req_JobID (prepareRequest req now)) with (req_JobID req).
  rewrite Hb. cbn [errors_is negb]. rewrite (First_same_job _ _ _ _ Hwf Hid Hj). done.
Qed.

(** Redelivery is idempotent. Once a request has been created, then after any
    sequence of store operations, creating a request with the same id, or with
    another id but the same non-zero workflow job, changes nothing: the first
    returns the current state of the existing row, the second returns that
    state with [ErrConflict]. *)
Theorem create_idempotent req payload status fs fr em now t t1 st t2
    req2 payload2 status2 fs2 fr2 em2 now2 :
  table_wf t -> now <> 0%Z -> status = StatusQueued \/ status = StatusFailed ->
  createRequest req payload status fs fr em now t = (t1, (true, st, None)) ->
  rtc store_step t1 t2 ->
  sanitizeID (req_ID req2) <> "" ->
  exists r, t2 !! sanitizeID (req_ID req) = Some r /\
    (sanitizeID (req_ID req2) = sanitizeID (req_ID req) ->
       createRequest req2 payload2 status2 fs2 fr2 em2 now2 t2 =
         (t2, (false, recordToState r, None))) /\
    (t2 !! sanitizeID (req_ID req2) = None -> req_JobID req2 <> 0%Z ->
     req_JobID req2 = req_JobID req ->
       createRequest req2 payload2 status2 fs2 fr2 em2 now2 t2 =
         (t2, (false, recordToState r, Some ErrConflict))).
Proof.
  intros Hwf Hn Hst Hc Hs Hne.
  pose proof (createRequest_cases req payload status fs fr em now t) as Hcases.
  assert (Hwf1 : table_wf t1).
  { pose proof (step_create req payload status fs fr em now t Hn Hst) as Hstep.
    rewrite Hc in Hstep. by apply step_wf in Hstep. }
  rewrite Hc in Hcases. destruct Hcases as [[? _]|(_ & _ & r & -> & _ & _ & Hid & _ & _ & _ & Hj & _)]; [done|].
  destruct (steps_row _ _ (rec_ID r) r Hwf1 Hs (lookup_insert_eq _ _ _))
    as (Hwf2 & r' & Hr' & _ & Hi).
  rewrite Hid in Hr'. exists r'. split; [done|]. split.
  - intros Heq. apply createRequest_existing; [done|by rewrite Heq].
  - intros Hnone Hj0 Hjeq. eapply createRequest_same_job; try done.
    destruct Hi as (_ & -> & _). rewrite Hj, Hjeq. destruct (Z.eqb_spec (req_JobID req) 0); congruence.
Qed.

Lemma create_idempotent_witness :
  exists r, ex_table !! "101" = Some r /\
    CreateRequest ex_request empty_payload 9000 ex_table = (ex_table, (false, recordToState r, None)).
Proof.
  destruct (create_idempotent ex_request empty_payload StatusQueued "" "" "" 1000 ∅
              ex_table (recordToState ex_row) ex_table
              ex_request empty_payload StatusQueued "" "" "" 9000) as (r & H1 & H2 & _).
  - exact table_wf_empty.
  - lia.
  - left. reflexivity.
  - vm_compute. reflexivity.
  - reflexivity.
  - vm_compute. discriminate.
  - exists r. split; [exact H1|]. apply H2. reflexivity.
Defined.

(** ** Retry *)

Definition retryable_row (r : runnerRequestRecord) : Prop :=
  rec_Status r = StatusFailed \/
  (rec_Status r = StatusQueued /\ is_Some (rec_NextRetryAt r) /\ rec_LastErrorRetryable r = true).

Lemma retryAllowed_spec r : retryAllowed r = true <-> retryable_row r.
Proof.
  unfold retryAllowed, retryable_row. split.
  - destruct (rec_Status r); try done; [|by left]. right. bool_prop. by rewrite <-not_eq_None_Some.
  - intros [->|(-> & [x ->] & ->)]; done.
Qed.

(** What a retry leaves of the previous attempt: nothing. *)
Record fresh_attempt (r : runnerRequestRecord) : Prop := {
  fresh_sandbox : rec_SandboxID r = "" /\ rec_SandboxRegion r = "" /\ rec_ResolvedTemplateID r = "" /\
                  rec_SandboxAPIURL r = "" /\ rec_SandboxAPIKeyEncrypted r = "" /\ rec_SandboxConfigSource r = "";
  fresh_process : rec_ProcessPID r = 0%Z /\ rec_AssignedJobID r = 0%Z /\ rec_AssignedJobName r = "" /\
                  rec_RunnerExitCode r = None /\ rec_TerminationSource r = "";
  fresh_sponsor : rec_SponsorInstallationID r = 0%Z /\ rec_SponsorSourceRepositoryID r = 0%Z /\
                  rec_SponsorSourceRepositoryFullName r = "" /\ rec_SponsorAuthorizationReason r = "";
  fresh_error : rec_Error r = "" /\ rec_FailureStage r = "" /\ rec_FailureReason r = "" /\
                rec_LastErrorCode r = "" /\ rec_LastErrorMessage r = "" /\ rec_LastErrorRetryable r = false;
  fresh_times : rec_CreatingAt r = None /\ rec_RunningAt r = None /\ rec_StoppingAt r = None /\
                rec_CompletedAt r = None /\ rec_FailedAt r = None
}.

Lemma retryRecord_fresh r now : fresh_attempt (retryRecord r now).
Proof. by destruct r. Qed.

(** Administrative retry. It is refused exactly when the row is missing, or is
    neither failed nor queued for an automatic retry; otherwise the row is at
    once runnable for every worker at every time, keeps its identity and retry
    count, has its version bumped and carries nothing of the previous attempt. *)
Theorem retry_request_spec id now t :
  match RetryRequest id now t with
  | Err e =>
      (e = ErrRecordNotFound /\ t !! sanitizeID id = None) \/
      (e = ErrRetryNotAllowed /\ exists r, t !! sanitizeID id = Some r /\ ~ retryable_row r)
  | Ok (t', st) =>
      exists r r', t !! sanitizeID id = Some r /\ retryable_row r /\
        t' = <[sanitizeID id := r']> t /\ st = recordToState r' /\
        (forall later, runnable later r' = true) /\ fresh_attempt r' /\ same_identity r r' /\
        rec_RetryCount r' = rec_RetryCount r /\ rec_Version r' = (rec_Version r + 1)%Z
  end.
Proof.
  unfold RetryRequest. cbv zeta. destruct (t !! sanitizeID id) as [r|]; [|by left].
  pose proof (retryAllowed_spec r) as Ha. destruct (retryAllowed r).
  - exists r, (retryRecord r now). split; [done|]. split; [by apply Ha|]. split; [done|]. split; [done|].
    split; [by destruct r|]. split; [apply retryRecord_fresh|]. by destruct r.
  - right. split; [done|]. exists r. split; [done|]. intros H%Ha. done.
Qed.

(** ** Round trip *)

(** Rows as [WriteState] stores them: trimmed text, sanitised name, no zero time
    behind a pointer. *)
Definition ptr_ok (t : option Time) : Prop := t <> Some 0%Z.

Lemma ptr_roundtrip t : ptr_ok t -> zeroTimeToPointer (pointerToTime t) = t.
Proof.
  unfold ptr_ok, zeroTimeToPointer, pointerToTime. destruct t as [z|]; simpl; [|done].
  intros H. destruct (IsZero z) eqn:E; [|done]. apply IsZero_true in E. congruence.
Qed.

Lemma zeroTimeToPointer_ok t : ptr_ok (zeroTimeToPointer t).
Proof.
  unfold zeroTimeToPointer, ptr_ok. destruct (IsZero t) eqn:E; [done|].
  apply IsZero_false in E. congruence.
Qed.

(** A second time-stamping of what was stamped and read back changes nothing. *)
Lemma stamp_read_back st r now :
  let r1 := updateRecord st r in
  timestamps_ok r1 -> forall st1, st_Status st1 = rec_Status r1 ->
  st_CreatingAt st1 = pointerToTime (rec_CreatingAt r1) ->
  st_RunningAt st1 = pointerToTime (rec_RunningAt r1) ->
  st_StoppingAt st1 = pointerToTime (rec_StoppingAt r1) ->
  st_CompletedAt st1 = pointerToTime (rec_CompletedAt r1) ->
  st_FailedAt st1 = pointerToTime (rec_FailedAt r1) ->
  applyStateTimestamps st1 now = st1.
Proof.
  cbv zeta. unfold timestamps_ok. intros Ht st1 Hs H1 H2 H3 H4 H5.
  assert (Hz : forall z, is_Some (zeroTimeToPointer z) -> IsZero (pointerToTime (zeroTimeToPointer z)) = false).
  { intros z [x Hx]. unfold zeroTimeToPointer in *. destruct (IsZero z) eqn:E; done. }
  simpl in H1, H2, H3, H4, H5. unfold applyStateTimestamps. rewrite Hs.
  destruct (rec_Status (updateRecord st r)); try done; cbv zeta.
  2: { destruct Ht as [Ht1 Ht2]. rewrite H1, (Hz _ Ht1). by rewrite H2, (Hz _ Ht2). }
  all: rewrite ?H1, ?H3, ?H4, ?H5; by rewrite (Hz _ Ht).
Qed.

Lemma update_read_back st r id now :
  let r1 := updateRecord st r in
  updateRecord ((recordToState r1) <| st_ID := id |> <| st_UpdatedAt := now |>) r1 =
  r1 <| rec_UpdatedAt := now |> <| rec_Version := (rec_Version r1 + 1)%Z |>.
Proof.
  cbv zeta. unfold updateRecord at 1.
  match goal with |- ?l = ?x => let x' := eval hnf in x in change (l = x') end.
  f_equal; try apply TrimSpace_idem; try apply sanitizeRunnerName_idem;
    try apply ptr_roundtrip, zeroTimeToPointer_ok.
Qed.

(** Write/read round trip. Writing a state, reading the row back and writing what was
    read changes only the version and the update time: nothing that [WriteState]
    stores is lost or altered by [ReadState]. *)
Theorem write_read_write st now t t1 now2 :
  table_wf t -> now <> 0%Z -> WriteState st now t = Ok t1 ->
  exists r1 st1, t1 !! sanitizeID (st_ID st) = Some r1 /\ ReadState (st_ID st) t1 = Ok st1 /\
    st_Version st1 = (st_Version st + 1)%Z /\ st_Status st1 = st_Status st /\
    WriteState st1 now2 t1 =
      Ok (<[sanitizeID (st_ID st) :=
              r1 <| rec_UpdatedAt := now2 |> <| rec_Version := (rec_Version r1 + 1)%Z |>]> t1).
Proof.
  intros Hwf Hn Hw. pose proof (step_wf _ _ Hwf (step_write _ _ _ _ Hn Hw)) as Hwf1.
  apply WriteState_Ok in Hw as (r & Hr & Hv & ->).
  set (r1 := updateRecord (written st now) r). set (id := sanitizeID (st_ID st)).
  assert (Hr1 : <[id:=r1]> t !! id = Some r1) by apply lookup_insert_eq.
  exists r1, (recordToState r1). split; [done|]. split; [by apply ReadState_lookup|].
  destruct (wf_rows _ Hwf1 _ _ Hr1) as [Hk Hcl Hne _ _ _ Ht].
  split; [by apply updateRecord_version|]. split.
  { change (st_Status (written st now) = st_Status st). unfold written.
    by rewrite applyStateTimestamps_status. }
  assert (Hid : sanitizeID (st_ID (recordToState r1)) = id).
  { change (st_ID (recordToState r1)) with (rec_ID r1). by rewrite Hk. }
  rewrite WriteState_spec by (by rewrite Hid). rewrite Hid, Hr1.
  change (st_Version (recordToState r1)) with (rec_Version r1). rewrite Z.eqb_refl.
  do 2 f_equal. unfold written at 1. rewrite (stamp_read_back (written st now) r now2 Ht) by done.
  apply update_read_back.
Qed.

Lemma write_read_write_witness : exists t1 st1,
  WriteState ((recordToState ex_row) <| st_Status := StatusCreating |>) 2000 ex_table = Ok t1 /\
  ReadState "101" t1 = Ok st1 /\ st_Status st1 = StatusCreating.
Proof.
  set (st := (recordToState ex_row) <| st_Status := StatusCreating |>).
  assert (H : is_ok (WriteState st 2000 ex_table) = true) by (vm_compute; reflexivity).
  destruct (WriteState st 2000 ex_table) as [t1|] eqn:E; [|discriminate H].
  destruct (write_read_write st 2000 ex_table t1 3000) as (r1 & st1 & _ & H2 & _ & H4 & _).
  - exact ex_table_wf.
  - lia.
  - exact E.
  - exists t1, st1. split; [reflexivity|]. split; [exact H2|exact H4].
Defined.
