(* ===== verification/RunnerQueries.v ===== *)
(** * Read-only queries of the runner request table
    (internal/state/runner_requests.go, internal/state/scoped_catalog.go)

    Listing, cursor pagination, display-status buckets, in-flight counts and
    the batched repository-access query.  Where the code orders by a timestamp
    alone, rows with equal timestamps keep the table order of the model; no
    theorem depends on it. *)

From stdpp Require Import base gmap list strings sorting relations.
From Stdlib Require Import Ascii.
From S2P Require Import Prelude GoStrings Query RunnerModel RunnerStore.

(** ** List projection *)

(** [runnerRequestListSelectColumns]: the columns a list query loads; the
    others are the zero value of their type. *)
Definition listProjection (r : runnerRequestRecord) : runnerRequestRecord :=
  r <| rec_Source := "" |> <| rec_LabelsJSON := [] |>
    <| rec_SandboxAPIURL := "" |> <| rec_SandboxAPIKeyEncrypted := "" |>
    <| rec_SandboxRegion := "" |> <| rec_ResolvedTemplateID := "" |>
    <| rec_TemplateVersion := "" |> <| rec_RunnerVersion := "" |>
    <| rec_EffectiveRunnerVersion := "" |> <| rec_GitHubPayloadJSON := empty_payload |>.

Definition listState (r : runnerRequestRecord) : RunnerState := recordToState (listProjection r).

Abbreviation newest_first := (onle rec_QueuedAt (desc Z.le)).
Abbreviation recently_updated := (onle rec_UpdatedAt (desc Z.le)).

(** ORDER BY queued_at DESC, id ASC. *)
Definition queue_key (r : runnerRequestRecord) : Time * string := (rec_QueuedAt r, rec_ID r).
Abbreviation queue_le := (onle queue_key (lexle (desc Z.le) String.le)).

Definition Limit {A} (n : Z) (l : list A) : list A := take (Z.to_nat n) l.
Definition Offset {A} (n : Z) (l : list A) : list A := drop (Z.to_nat n) l.

Definition ListStates (t : table) : list RunnerState :=
  map listState (select newest_first (fun _ => true) t).

Definition ListActiveStates (t : table) : list RunnerState :=
  map listState (select newest_first (fun r => isActiveStatus (rec_Status r)) t).

Definition has_workflow_job (r : runnerRequestRecord) : bool :=
  match rec_WorkflowJobID r with Some j => negb (j =? 0)%Z | None => false end.

(** completed, and the runner was given another job than the one that asked for it *)
Definition mismatched_completed (r : runnerRequestRecord) : bool :=
  status_is (rec_Status r) StatusCompleted && has_workflow_job r
  && negb (rec_AssignedJobID r =? 0)%Z
  && negb (bool_decide (rec_WorkflowJobID r = Some (rec_AssignedJobID r))).

Definition ListMismatchedCompletedStates (limit : Z) (t : table) : list RunnerState :=
  let limit := if (limit <=? 0)%Z then 50%Z else limit in
  map listState (Limit limit (select recently_updated mismatched_completed t)).

Definition failed_workflow_job (r : runnerRequestRecord) : bool :=
  status_is (rec_Status r) StatusFailed && has_workflow_job r
  && bool_decide (rec_FailureStage r ∈ ["recovery"; "cleanup"]).

Definition ListFailedWorkflowJobStates (limit : Z) (t : table) : list RunnerState :=
  let limit := if (limit <=? 0)%Z then 50%Z else limit in
  map listState (Limit limit (select recently_updated failed_workflow_job t)).

(** ** Filtered pages *)

Record RunnerRequestListOptions := MkListOptions {
  lo_RepositoryFullName : string;
  lo_ProfileName : string;
  lo_DisplayStatus : string;
  lo_Limit : Z;
  lo_Offset : Z
}.

Record RunnerRequestCursor := MkCursor { cur_QueuedAt : Time; cur_ID : string }.

Definition unmatched (r : runnerRequestRecord) : bool :=
  bool_decide (rec_FailureStage r = "admission")
  && bool_decide (rec_FailureReason r = "profile_labels_not_matched").

Definition displayFilter (display : string) : result (runnerRequestRecord -> bool) :=
  let status := ToLower (TrimSpace display) in
  if bool_decide (status = "") then Ok (fun _ => true)
  else if bool_decide (status = "queued") then Ok (fun r => status_is (rec_Status r) StatusQueued)
  else if bool_decide (status = "creating") then Ok (fun r => status_is (rec_Status r) StatusCreating)
  else if bool_decide (status = "running") then Ok (fun r => status_is (rec_Status r) StatusRunning)
  else if bool_decide (status = "stopping") then Ok (fun r => status_is (rec_Status r) StatusStopping)
  else if bool_decide (status = "completed") then Ok (fun r => status_is (rec_Status r) StatusCompleted)
  else if bool_decide (status = "unmatched") then
    Ok (fun r => status_is (rec_Status r) StatusFailed && unmatched r)
  else if bool_decide (status = "failed") then
    Ok (fun r => status_is (rec_Status r) StatusFailed
                 && (negb (bool_decide (rec_FailureStage r = "admission"))
                     || negb (bool_decide (rec_FailureReason r = "profile_labels_not_matched"))))
  else Err (ErrText ("unsupported Runner request display status " +:+ display)).

Definition filterRunnerRequestList (options : RunnerRequestListOptions)
    : result (runnerRequestRecord -> bool) :=
  let repository := TrimSpace (lo_RepositoryFullName options) in
  let profile := TrimSpace (lo_ProfileName options) in
  let? display := displayFilter (lo_DisplayStatus options) in
  Ok (fun r => (bool_decide (repository = "") || bool_decide (rec_RepositoryFullName r = repository))
               && (bool_decide (profile = "") || bool_decide (rec_ProfileName r = profile))
               && display r).

Definition default_limit (n : Z) : Z := if (n <=? 0)%Z then 100%Z else n.

Definition ListStatesPage (options : RunnerRequestListOptions) (t : table)
    : result (list RunnerState * nat) :=
  let limit := default_limit (lo_Limit options) in
  if (lo_Offset options <? 0)%Z then Err (ErrText "offset must be a non-negative integer")
  else
    let? query := filterRunnerRequestList options in
    Ok (map listState (Limit limit (Offset (lo_Offset options) (select queue_le query t))),
        Count query t).

Definition after_cursor (c : RunnerRequestCursor) (r : runnerRequestRecord) : bool :=
  (rec_QueuedAt r <? cur_QueuedAt c)%Z
  || ((rec_QueuedAt r =? cur_QueuedAt c)%Z && String.ltb (cur_ID c) (rec_ID r)).

Definition ListStatesCursor (options : RunnerRequestListOptions) (after : option RunnerRequestCursor)
    (t : table) : result (list RunnerState * bool) :=
  let limit := default_limit (lo_Limit options) in
  let? query := filterRunnerRequestList options in
  let? query :=
    match after with
    | None => Ok query
    | Some c =>
        if bool_decide (cur_ID c = "") || IsZero (cur_QueuedAt c)
        then Err (ErrText "invalid Runner request cursor")
        else Ok (fun r => query r && after_cursor c r)
    end in
  let records := Limit (limit + 1) (select queue_le query t) in
  let hasMore := (limit <? Z.of_nat (length records))%Z in
  let records := if hasMore then Limit limit records else records in
  Ok (map listState records, hasMore).

(** The cursor of the last state of a page, and a client that follows it. *)
Definition last_cursor (states : list RunnerState) : option RunnerRequestCursor :=
  (fun st => MkCursor (st_CreatedAt st) (st_ID st)) <$> last states.

Fixpoint follow_cursor (fuel : nat) (options : RunnerRequestListOptions)
    (after : option RunnerRequestCursor) (t : table) : result (list (list RunnerState)) :=
  match fuel with
  | O => Err (ErrText "out of fuel")
  | S fuel =>
      let? page := ListStatesCursor options after t in
      if page.2 then
        let? rest := follow_cursor fuel options (last_cursor page.1) t in
        Ok (page.1 :: rest)
      else Ok [page.1]
  end.

(** ** Metrics *)

Record RunnerRequestMetrics := MkMetrics {
  mt_Queued : nat;
  mt_Creating : nat;
  mt_Running : nat;
  mt_Stopping : nat;
  mt_Completed : nat;
  mt_Failed : nat;
  mt_Unmatched : nat;
  mt_RunnerSpecs : nat
}.

Definition group_key (r : runnerRequestRecord) : Status * string * string :=
  (rec_Status r, rec_FailureStage r, rec_FailureReason r).

(** SELECT status, failure_stage, failure_reason, COUNT( * ) ... GROUP BY. *)
Definition status_counts (t : table) : list (Status * string * string * nat) :=
  map (fun k => (k, countb (fun r => bool_decide (group_key r = k)) (rows t)))
    (remove_dups (map group_key (rows t))).

(** COALESCE(SUM(CASE WHEN p THEN request_count ELSE 0 END), 0). *)
Definition sum_case (p : Status * string * string -> bool)
    (groups : list (Status * string * string * nat)) : nat :=
  sum_list_with (fun g => if p g.1 then g.2 else 0) groups.

Definition GetRunnerRequestMetrics (t : table) (runnerProfiles : nat) : RunnerRequestMetrics :=
  let groups := status_counts t in
  let of_status s := sum_case (fun k => status_is k.1.1 s) groups in
  {| mt_Queued := of_status StatusQueued;
     mt_Creating := of_status StatusCreating;
     mt_Running := of_status StatusRunning;
     mt_Stopping := of_status StatusStopping;
     mt_Completed := of_status StatusCompleted;
     mt_Failed := sum_case (fun k => status_is k.1.1 StatusFailed
                    && (negb (bool_decide (k.1.2 = "admission"))
                        || negb (bool_decide (k.2 = "profile_labels_not_matched")))) groups;
     mt_Unmatched := sum_case (fun k => status_is k.1.1 StatusFailed
                       && bool_decide (k.1.2 = "admission")
                       && bool_decide (k.2 = "profile_labels_not_matched")) groups;
     mt_RunnerSpecs := runnerProfiles |}.

(** ** LIKE patterns *)

(** SQL's LIKE with ESCAPE '!', on bytes. *)
Fixpoint like (p s : list ascii) {struct p} : bool :=
  match p with
  | [] => bool_decide (s = [])
  | c :: p' =>
      if bool_decide (c = "%"%char) then
        (fix any (s : list ascii) : bool :=
           like p' s || match s with [] => false | _ :: s' => any s' end) s
      else if bool_decide (c = "_"%char) then
        match s with [] => false | _ :: s' => like p' s' end
      else if bool_decide (c = "!"%char) then
        match p', s with
        | d :: p'', x :: s' => bool_decide (x = d) && like p'' s'
        | _, _ => false
        end
      else match s with x :: s' => bool_decide (x = c) && like p' s' | [] => false end
  end.

(** [strings.NewReplacer("!", "!!", "%", "!%", "_", "!_")]. *)
Definition escape_byte (c : ascii) : list ascii :=
  if bool_decide (c = "!"%char \/ c = "%"%char \/ c = "_"%char) then ["!"%char; c] else [c].

Definition escapeLike (s : string) : list ascii := concat (map escape_byte (bytes s)).

Record RunnerRequestRepositoryListOptions := MkRepoOptions { ro_Query : string; ro_Limit : Z }.

Definition repository_matches (query : string) (repo : string) : bool :=
  let search := ToLower (TrimSpace query) in
  negb (bool_decide (repo = ""))
  && (bool_decide (search = "")
      || like ("%"%char :: escapeLike search ++ ["%"%char]) (bytes (ToLower repo))).

Definition ListRunnerRequestRepositories (options : RunnerRequestRepositoryListOptions) (t : table)
    : list string * bool :=
  let limit := if (ro_Limit options <=? 0)%Z then 50%Z else ro_Limit options in
  let repositories :=
    Limit (limit + 1)
      (merge_sort String.le
         (List.filter (repository_matches (ro_Query options))
            (remove_dups (map rec_RepositoryFullName (rows t))))) in
  let hasMore := (limit <? Z.of_nat (length repositories))%Z in
  (if hasMore then Limit limit repositories else repositories, hasMore).

(** ** Counts *)

Definition ActiveCount (t : table) : nat := Count (fun r => isActiveStatus (rec_Status r)) t.
Definition InFlightCount (t : table) : nat := Count (fun r => isInFlight (rec_Status r)) t.

Definition owner_like (owner : string) (r : runnerRequestRecord) : bool :=
  like (escapeLike owner ++ ["/"%char; "%"%char]) (bytes (ToLower (rec_RepositoryFullName r))).

Definition InFlightCountForRepositoryOwner (owner : string) (t : table) : nat :=
  let owner := ToLower (TrimSpace owner) in
  if bool_decide (owner = "") then 0
  else Count (fun r => owner_like owner r && isInFlight (rec_Status r)) t.

Definition InFlightCountForRepository (repositoryFullName : string) (t : table) : nat :=
  let name := TrimSpace repositoryFullName in
  if bool_decide (name = "") then 0
  else Count (fun r => bool_decide (ToLower (rec_RepositoryFullName r) = ToLower name)
                       && isInFlight (rec_Status r)) t.

Definition countStatesForProfileSource (name : string) (sources : list string) (statuses : list Status)
    (t : table) : nat :=
  Count (fun r => bool_decide (rec_ProfileName r = TrimSpace name)
                  && bool_decide (rec_ProfileSource r ∈ sources)
                  && bool_decide (rec_Status r ∈ statuses)) t.

Definition ActiveCountForProfile (name : string) (t : table) : nat :=
  countStatesForProfileSource name [""; "global"] activeStatuses t.

Definition InFlightCountForProfile (name : string) (t : table) : nat :=
  countStatesForProfileSource name [""; "global"] inFlightStatuses t.

(** Profile scopes. *)
Record RunnerProfileScope := MkScope { scope_Type : string; scope_ID : Z }.

Definition RunnerProfileScopeAccount := "account".
Definition RunnerProfileScopeGitHubInstallation := "github_installation".

Definition ValidateRunnerProfileScope (scope : RunnerProfileScope) : option goerror :=
  if negb (bool_decide (scope_Type scope = RunnerProfileScopeAccount))
     && negb (bool_decide (scope_Type scope = RunnerProfileScopeGitHubInstallation))
  then Some (ErrText "invalid runner profile scope type")
  else if (scope_ID scope <=? 0)%Z then Some (ErrText "invalid runner profile scope id")
  else None.

Definition countStatesForProfileScope (source : string) (scope : RunnerProfileScope) (name : string)
    (statuses : list Status) (t : table) : result nat :=
  match ValidateRunnerProfileScope scope with
  | Some e => Err e
  | None =>
      Ok (Count (fun r => bool_decide (rec_ProfileSource r = source)
                          && bool_decide (rec_ProfileScopeType r = scope_Type scope)
                          && (rec_ProfileScopeID r =? scope_ID scope)%Z
                          && bool_decide (rec_ProfileName r = TrimSpace name)
                          && bool_decide (rec_Status r ∈ statuses)) t)
  end.

Definition ActiveCountForProfileScope (source : string) (scope : RunnerProfileScope) (name : string)
    (t : table) : result nat := countStatesForProfileScope source scope name activeStatuses t.

Definition InFlightCountForProfileScope (source : string) (scope : RunnerProfileScope) (name : string)
    (t : table) : result nat := countStatesForProfileScope source scope name inFlightStatuses t.

(** ** Repository access batches *)

Record GitHubInstallationRepositoryAccess := MkAccess {
  acc_InstallationID : Z;
  acc_Repositories : list string
}.

Record githubInstallationRepositoryAccessQueryBatch := MkBatch {
  batch_installation : Z;
  batch_repositories : list string;
  batch_parameterCount : nat
}.

Definition maxRunnerRequestRepositoryAccessQueryParameters : nat := 900.

(** The map of sets that the first loop fills; an item whose repositories are
    all blank still creates an empty set. *)
Definition addAccess (m : gmap Z (gset string)) (item : GitHubInstallationRepositoryAccess)
    : gmap Z (gset string) :=
  if (acc_InstallationID item <=? 0)%Z then m
  else <[acc_InstallationID item :=
           default ∅ (m !! acc_InstallationID item)
           ∪ list_to_set (uniqueLowerTrimmed (acc_Repositories item))]> m.

Definition repositoriesByInstallation (access : list GitHubInstallationRepositoryAccess)
    : gmap Z (gset string) := foldl addAccess ∅ access.

Definition normalizeGitHubInstallationRepositoryAccess
    (access : list GitHubInstallationRepositoryAccess) : list GitHubInstallationRepositoryAccess :=
  let m := repositoriesByInstallation access in
  let installationIDs :=
    merge_sort Z.le (List.filter (fun i => negb (bool_decide (default ∅ (m !! i) = ∅)))
                       (map fst (map_to_list m))) in
  map (fun i => MkAccess i (merge_sort String.le (elements (default ∅ (m !! i))))) installationIDs.

(** The inner loop: chunks of [count] repositories; the fuel is the number of
    repositories, and every iteration consumes at least one. *)
Fixpoint repository_chunks (fuel count : nat) (repositories : list string) : list (list string) :=
  match fuel, repositories with
  | O, _ | _, [] => []
  | S fuel, _ =>
      let repositoryCount := length repositories `min` count in
      take repositoryCount repositories
        :: repository_chunks fuel count (drop repositoryCount repositories)
  end.

Definition githubInstallationRepositoryAccessQueryBatches
    (access : list GitHubInstallationRepositoryAccess) (maxParameters : nat)
    : list githubInstallationRepositoryAccessQueryBatch :=
  let maxParameters := 2 `max` maxParameters in
  concat (map (fun item =>
    map (fun chunk => MkBatch (acc_InstallationID item) chunk (1 + length chunk))
      (repository_chunks (length (acc_Repositories item)) (maxParameters - 1) (acc_Repositories item)))
    (normalizeGitHubInstallationRepositoryAccess access)).

(** The predicate text and arguments of a batch. *)
Definition batch_matches (b : githubInstallationRepositoryAccessQueryBatch)
    (r : runnerRequestRecord) : bool :=
  (rec_GitHubInstallationID r =? batch_installation b)%Z
  && bool_decide (ToLower (rec_RepositoryFullName r) ∈ batch_repositories b).

(** The map of records by id that the batches fill, and the final page. *)
Definition recordsByID (l : list runnerRequestRecord) : table :=
  foldl (fun m r => <[rec_ID r := r]> m) ∅ l.

Definition ListStatesForGitHubInstallationRepositories
    (access : list GitHubInstallationRepositoryAccess) (limit offset : Z) (t : table)
    : list RunnerState * nat :=
  let batches := githubInstallationRepositoryAccessQueryBatches access
                   maxRunnerRequestRepositoryAccessQueryParameters in
  if bool_decide (length batches = 0) then ([], 0)
  else
    let limit := if (limit <=? 0)%Z || (500 <? limit)%Z then 500 else Z.to_nat limit in
    let offset := Z.to_nat offset in
    let total := sum_list_with (fun b => Count (batch_matches b) t) batches in
    if total <=? offset then ([], total)
    else
      let queryLimit := if limit <=? total - offset then offset + limit else total in
      let records :=
        select queue_le (fun _ => true)
          (recordsByID (concat (map (fun b => take queryLimit (select queue_le (batch_matches b) t))
                                  batches))) in
      let start := offset `min` length records in
      let stop := (start + limit) `min` length records in
      (map listState (drop start (take stop records)), total).

Definition ListStatesForGitHubInstallations (installationIDs : list Z) (limit : Z) (t : table)
    : list RunnerState :=
  let installationIDs := uniquePositiveInt64s installationIDs in
  if bool_decide (installationIDs = []) then []
  else
    let limit := if (limit <=? 0)%Z || (500 <? limit)%Z then 500%Z else limit in
    map listState (Limit limit
      (select newest_first (fun r => bool_decide (rec_GitHubInstallationID r ∈ installationIDs)) t)).

Definition ListStatesForRepositories (repositories : list string) (limit : Z) (t : table)
    : list RunnerState :=
  let repositories := uniqueTrimmed repositories in
  if bool_decide (repositories = []) then []
  else
    let limit := if (limit <=? 0)%Z || (500 <? limit)%Z then 500%Z else limit in
    map listState (Limit limit
      (select newest_first (fun r => bool_decide (rec_RepositoryFullName r ∈ repositories)) t)).

(** ** The queue order *)

Lemma string_ltb_le x y : String.ltb x y = true <-> ~ String.le y x.
Proof.
  unfold String.le, String.leb, String.ltb. rewrite (String.compare_antisym y x).
  destruct (String.compare x y); simpl; split; intros H; try done; try (by exfalso; apply H).
  intros [].
Qed.

Lemma queue_le_iff x y :
  queue_le x y <-> (rec_QueuedAt y < rec_QueuedAt x)%Z \/
                   (rec_QueuedAt y = rec_QueuedAt x /\ String.le (rec_ID x) (rec_ID y)).
Proof.
  unfold onle, lexle, desc, queue_key; simpl. split.
  - intros [H1 H2]. destruct (decide (rec_QueuedAt y = rec_QueuedAt x)) as [E|E]; [|lia].
    right. split; [done|]. apply H2. lia.
  - intros [H|[-> H]]; split; [lia| |done|done]. intros ?. lia.
Qed.

Lemma string_le_antisym x y : String.le x y -> String.le y x -> x = y.
Proof.
  unfold String.le, String.leb. rewrite (String.compare_antisym y x).
  destruct (String.compare x y) eqn:E; simpl; try done.
  intros _ _. by apply String.compare_eq_iff.
Qed.

Lemma queue_le_antisym t :
  table_wf t -> forall id1 id2 x y, t !! id1 = Some x -> t !! id2 = Some y ->
  queue_le x y -> queue_le y x -> x = y.
Proof.
  intros Hwf id1 id2 x y H1 H2 Hxy Hyx. rewrite queue_le_iff in *.
  assert (Hid : rec_ID x = rec_ID y).
  { destruct Hxy as [?|[? Ha]], Hyx as [?|[? Hb]]; try lia. by apply string_le_antisym. }
  rewrite (wf_keyed _ Hwf _ _ H1), (wf_keyed _ Hwf _ _ H2) in Hid. congruence.
Qed.

Definition cursor_of (r : runnerRequestRecord) : RunnerRequestCursor :=
  MkCursor (rec_QueuedAt r) (rec_ID r).

Lemma after_cursor_of x r : after_cursor (cursor_of x) r = negb (bool_decide (queue_le r x)).
Proof.
  apply eq_true_iff_eq. rewrite negb_true_iff, bool_decide_eq_false, queue_le_iff.
  unfold after_cursor. simpl. rewrite orb_true_iff, andb_true_iff, Z.ltb_lt, Z.eqb_eq, string_ltb_le.
  split.
  - intros [H|[H1 H2]] [H3|[H3 H4]]; try lia; done.
  - intros H. destruct (decide (rec_QueuedAt r < rec_QueuedAt x)%Z); [by left|]. right.
    destruct (decide (rec_QueuedAt r = rec_QueuedAt x)) as [E|E]; [|exfalso; apply H; left; lia].
    split; [done|]. intros ?. apply H. right. by split.
Qed.

Lemma NoDup_rows t : table_wf t -> NoDup (rows t).
Proof.
  intros Hwf. unfold rows. apply NoDup_fmap_2_strong; [|apply NoDup_map_to_list].
  intros [i a] [j b] Ha Hb Hab. simpl in Hab. subst b.
  apply elem_of_map_to_list in Ha, Hb. f_equal.
  rewrite <-(wf_keyed _ Hwf _ _ Ha). apply (wf_keyed _ Hwf _ _ Hb).
Qed.

Lemma NoDup_select t q : table_wf t -> NoDup (select queue_le q t).
Proof.
  intros Hwf. rewrite (select_perm queue_le). apply NoDup_ListNoDup, List.NoDup_filter, NoDup_ListNoDup.
  by apply NoDup_rows.
Qed.

(** What follows an element of a selection in queue order. *)
Lemma filter_after_cursor t q l1 x l2 :
  table_wf t -> select queue_le q t = l1 ++ x :: l2 ->
  List.filter (after_cursor (cursor_of x)) (select queue_le q t) = l2.
Proof.
  intros Hwf E. pose proof (select_sorted queue_le q t) as Hs.
  assert (Hin : forall y, y ∈ l1 ++ x :: l2 -> exists id, t !! id = Some y).
  { intros y Hy. rewrite <-E in Hy. by apply elem_of_select in Hy as [? _]. }
  assert (Hnd : NoDup (l1 ++ x :: l2)).
  { rewrite <-E. by apply NoDup_select. }
  rewrite E in *. clear E. apply StronglySorted_app in Hs as (H1 & _ & H3).
  apply StronglySorted_cons in H3 as [H3 _]. rewrite List.filter_app. simpl.
  rewrite (bfilter_none _ l1), (bfilter_all _ l2).
  - rewrite after_cursor_of, bool_decide_eq_true_2; [done|]. apply queue_le_iff. right.
    split; [done|]. by destruct (total String.le (rec_ID x) (rec_ID x)).
  - intros y Hy. rewrite after_cursor_of, negb_true_iff. apply bool_decide_eq_false. intros Hle.
    eapply Forall_forall in H3; [|exact Hy].
    destruct (Hin x) as [i Hi]; [set_solver|]. destruct (Hin y) as [j Hj]; [set_solver|].
    pose proof (queue_le_antisym t Hwf _ _ _ _ Hi Hj H3 Hle) as ->.
    apply NoDup_app in Hnd as (_ & _ & Hnd). by apply NoDup_cons in Hnd as [Hnd _].
  - intros y Hy. rewrite after_cursor_of, negb_false_iff. apply bool_decide_eq_true. apply H1; set_solver.
Qed.

(** ** Following cursors *)

Lemma default_limit_pos n : (1 <= default_limit n)%Z.
Proof. unfold default_limit. destruct (Z.leb_spec n 0); lia. Qed.

(** One page, in terms of the rows that remain after the cursor. *)
Lemma ListStatesCursor_page options q after t :
  filterRunnerRequestList options = Ok q ->
  (forall c, after = Some c -> cur_ID c <> "" /\ cur_QueuedAt c <> 0%Z) ->
  let n := Z.to_nat (default_limit (lo_Limit options)) in
  let remaining := select queue_le
    (match after with None => q | Some c => fun r => q r && after_cursor c r end) t in
  ListStatesCursor options after t =
    Ok (map listState (take n remaining), bool_decide (n < length remaining)).
Proof.
  intros Hq Hc. cbv zeta. unfold ListStatesCursor. cbv zeta. rewrite Hq. cbn [result_bind].
  pose proof (default_limit_pos (lo_Limit options)) as Hpos.
  set (lim := default_limit _) in *.
  match goal with |- result_bind ?m _ = _ =>
    assert (Hm : m = Ok (match after with None => q | Some c => fun r => q r && after_cursor c r end))
  end.
  { destruct after as [c|]; [|done]. destruct (Hc c eq_refl) as [H1 H2].
    rewrite bool_decide_eq_false_2 by done. apply IsZero_false in H2. by rewrite H2. }
  rewrite Hm. cbn [result_bind]. set (l := select _ _ t). unfold Limit.
  rewrite Z2Nat.inj_add by lia. replace (Z.to_nat lim + Z.to_nat 1) with (S (Z.to_nat lim)) by lia.
  rewrite length_take. destruct (decide (Z.to_nat lim < length l)) as [Hl|Hl].
  - rewrite (bool_decide_eq_true_2 _ Hl).
    replace (lim <? _)%Z with true by (symmetry; apply Z.ltb_lt; lia).
    rewrite take_take. do 3 f_equal. f_equal. lia.
  - rewrite (bool_decide_eq_false_2 _ Hl).
    replace (lim <? _)%Z with false by (symmetry; apply Z.ltb_ge; lia).
    rewrite !take_ge by lia. done.
Qed.

Lemma last_cursor_listState l x : last_cursor (map listState (l ++ [x])) = Some (cursor_of x).
Proof.
  unfold last_cursor. rewrite map_app. change (map listState [x]) with [listState x].
  by rewrite last_snoc.
Qed.

Lemma follow_cursor_remaining fuel options q after t l1 l2 :
  table_wf t -> filterRunnerRequestList options = Ok q ->
  select queue_le q t = l1 ++ l2 ->
  after = cursor_of <$> last l1 -> length l2 < fuel ->
  exists pages, follow_cursor fuel options after t = Ok pages /\ concat pages = map listState l2 /\
    Forall (fun page => length page <= Z.to_nat (default_limit (lo_Limit options))) pages.
Proof.
  intros Hwf Hq. revert after l1 l2. induction fuel as [|fuel IH]; intros after l1 l2 Hl Ha Hf; [lia|].
  assert (Hrem : select queue_le
    (match after with None => q | Some c => fun r => q r && after_cursor c r end) t = l2).
  { destruct (last l1) as [x|] eqn:Hx; subst after; simpl.
    - apply last_Some in Hx as [l1' ->]. rewrite <-(app_assoc l1' [x]) in Hl.
      rewrite (select_refine queue_le t (queue_le_antisym t Hwf)).
      by eapply filter_after_cursor.
    - apply last_None in Hx as ->. done. }
  assert (Hcur : forall c, after = Some c -> cur_ID c <> "" /\ cur_QueuedAt c <> 0%Z).
  { intros c ->. destruct (last l1) as [x|] eqn:Hx; [|done]. injection Ha as ->.
    apply last_Some in Hx as [l1' ->]. assert (Hin : x ∈ select queue_le q t) by (rewrite Hl; set_solver).
    apply elem_of_select in Hin as [[id Hid] _]. destruct (wf_rows _ Hwf _ _ Hid). simpl. by subst. }
  pose proof (ListStatesCursor_page options q after t Hq Hcur) as Hp. cbv zeta in Hp. rewrite Hrem in Hp.
  simpl. rewrite Hp. cbn [result_bind fst snd].
  set (n := Z.to_nat (default_limit (lo_Limit options))) in *.
  assert (Hn : 1 <= n) by (pose proof (default_limit_pos (lo_Limit options)); lia).
  case_bool_decide as Hlt.
  - assert (exists p x, take n l2 = p ++ [x]) as (p & x & Hpx).
    { destruct (last (take n l2)) as [x|] eqn:Hx.
      - apply last_Some in Hx as [p ->]. eauto.
      - apply last_None, (f_equal length) in Hx. rewrite length_take in Hx. simpl in Hx. lia. }
    rewrite Hpx, last_cursor_listState, <-Hpx.
    destruct (IH (Some (cursor_of x)) (l1 ++ take n l2) (drop n l2)) as (pages & H1 & H2 & H3).
    + by rewrite <-(assoc_L (++)), take_drop.
    + by rewrite Hpx, (assoc_L (++)), last_snoc.
    + rewrite length_drop. lia.
    + rewrite H1. exists (map listState (take n l2) :: pages). split; [done|]. split.
      * simpl. by rewrite H2, <-map_app, take_drop.
      * constructor; [rewrite length_map, length_take; lia|done].
  - exists [map listState (take n l2)]. split; [done|]. rewrite take_ge by lia. split.
    + simpl. apply app_nil_r.
    + repeat constructor. rewrite length_map. lia.
Qed.

(** C29: Cursor pagination is complete. A client that starts without a cursor and
    follows the cursor of each page's last item gets finitely many pages, none
    longer than the limit, whose concatenation is the whole filtered history,
    newest first, each request exactly once. *)
Theorem cursor_pages_complete options q t :
  table_wf t -> filterRunnerRequestList options = Ok q ->
  exists pages, follow_cursor (S (Count q t)) options None t = Ok pages /\
    concat pages = map listState (select queue_le q t) /\
    NoDup (map st_ID (concat pages)) /\
    (forall st, st ∈ concat pages <-> exists id r, t !! id = Some r /\ q r = true /\ st = listState r) /\
    Forall (fun page => length page <= Z.to_nat (default_limit (lo_Limit options))) pages.
Proof.
  intros Hwf Hq.
  destruct (follow_cursor_remaining (S (Count q t)) options q None t [] (select queue_le q t) Hwf Hq)
    as (pages & H1 & H2 & H3); [done|done|by rewrite length_select; lia|].
  exists pages. split; [done|]. split; [done|]. split; [|split; [|done]].
  - rewrite H2, map_map. apply NoDup_fmap_2_strong with (f := rec_ID); [|by apply NoDup_select].
    intros x y Hx Hy. apply elem_of_select in Hx as [[i Hi] _], Hy as [[j Hj] _].
    rewrite (wf_keyed _ Hwf _ _ Hi), (wf_keyed _ Hwf _ _ Hj). congruence.
  - intros st. rewrite H2, list_elem_of_fmap. split.
    + intros (r & -> & Hr). apply elem_of_select in Hr as [[id Hid] Hp]. eauto.
    + intros (id & r & Hid & Hp & ->). exists r. split; [done|]. apply elem_of_select. eauto.
Qed.

Definition ex_options : RunnerRequestListOptions := MkListOptions "" "" " Queued " 1 0.

Lemma cursor_pages_complete_witness : exists q pages,
  filterRunnerRequestList ex_options = Ok q /\
  follow_cursor (S (Count q ex_table2)) ex_options None ex_table2 = Ok pages /\
  concat pages = map listState (select queue_le q ex_table2).
Proof.
  destruct (filterRunnerRequestList ex_options) as [q|] eqn:Hq; [|vm_compute in Hq; discriminate Hq].
  destruct (cursor_pages_complete ex_options q ex_table2) as (pages & H1 & H2 & _);
    [exact ex_table2_wf|exact Hq|].
  exists q, pages. split; [reflexivity|]. split; [exact H1|exact H2].
Defined.

(** ** Metrics *)

Lemma sum_list_with_ext {A} (f g : A -> nat) l :
  (forall x, x ∈ l -> f x = g x) -> sum_list_with f l = sum_list_with g l.
Proof.
  induction l as [|x l IH]; intros H; [done|]. simpl. rewrite (H x), IH; [done| |left].
  intros; apply H; by right.
Qed.

(** Summing the counts of the groups of a partition is counting. *)
Lemma sum_groups {A K} `{EqDecision K} (key : A -> K) (p : K -> bool) ks (l : list A) :
  NoDup ks -> (forall x, x ∈ l -> key x ∈ ks) ->
  sum_list_with (fun k => if p k then countb (fun x => bool_decide (key x = k)) l else 0) ks =
  countb (fun x => p (key x)) l.
Proof.
  intros Hnd. induction l as [|x l IH]; intros Hin.
  - rewrite countb_nil. clear. induction ks as [|k ks IH]; [done|]. simpl. rewrite IH. by destruct (p k).
  - rewrite countb_cons, <-IH by (intros; apply Hin; by right).
    specialize (Hin x ltac:(left)). clear IH. revert Hnd Hin.
    induction ks as [|k ks IHk]; intros Hnd Hin; [by apply not_elem_of_nil in Hin|].
    apply NoDup_cons in Hnd as [Hk Hnd]. simpl. rewrite countb_cons.
    destruct (decide (key x = k)) as [<-|Hne].
    + rewrite bool_decide_eq_true_2 by done.
      rewrite (sum_list_with_ext _ (fun k => if p k then countb (fun x => bool_decide (key x = k)) l else 0)).
      2: { intros k Hk'. rewrite countb_cons. rewrite bool_decide_eq_false_2; [done|].
           intros <-. contradiction. }
      destruct (p (key x)); lia.
    + rewrite bool_decide_eq_false_2 by done. apply elem_of_cons in Hin as [|Hin]; [done|].
      rewrite (IHk Hnd Hin). destruct (p k); lia.
Qed.

Lemma sum_case_status_counts p t :
  sum_case p (status_counts t) = Count (fun r => p (group_key r)) t.
Proof.
  unfold sum_case, status_counts, Count.
  rewrite <-(sum_groups group_key p (remove_dups (map group_key (rows t)))).
  - induction (remove_dups (map group_key (rows t))) as [|k ks IH]; [done|]. simpl. by rewrite IH.
  - apply NoDup_remove_dups.
  - intros x Hx. apply elem_of_remove_dups, list_elem_of_fmap. eauto.
Qed.

(** The total that [ListStatesPage] reports for a display status alone. *)
Definition display_total (display : string) (t : table) : result nat :=
  let? page := ListStatesPage (MkListOptions "" "" display 0 0) t in Ok page.2.

Lemma display_total_spec display p t :
  displayFilter display = Ok p -> display_total display t = Ok (Count p t).
Proof.
  intros H. unfold display_total, ListStatesPage, filterRunnerRequestList. cbn -[displayFilter].
  rewrite H. cbn. done.
Qed.

(** The metric buckets agree with the request list. Each number that
    [GetRunnerRequestMetrics] derives from the grouped counts is the total the
    list reports for that display status, and the seven buckets partition the
    rows whose status is one of the six the code writes. *)
Theorem metrics_match_list t profiles :
  let m := GetRunnerRequestMetrics t profiles in
  display_total "queued" t = Ok (mt_Queued m) /\
  display_total "creating" t = Ok (mt_Creating m) /\
  display_total "running" t = Ok (mt_Running m) /\
  display_total "stopping" t = Ok (mt_Stopping m) /\
  display_total "completed" t = Ok (mt_Completed m) /\
  display_total "failed" t = Ok (mt_Failed m) /\
  display_total "unmatched" t = Ok (mt_Unmatched m) /\
  mt_Queued m + mt_Creating m + mt_Running m + mt_Stopping m + mt_Completed m + mt_Failed m
    + mt_Unmatched m =
  Count (fun r => match rec_Status r with StatusOther _ => false | _ => true end) t.
Proof.
  cbv zeta. unfold GetRunnerRequestMetrics. cbn [mt_Queued mt_Creating mt_Running mt_Stopping
    mt_Completed mt_Failed mt_Unmatched]. rewrite !sum_case_status_counts.
  split; [by apply display_total_spec|]. split; [by apply display_total_spec|].
  split; [by apply display_total_spec|]. split; [by apply display_total_spec|].
  split; [by apply display_total_spec|]. split; [by apply display_total_spec|].
  split.
  - rewrite (display_total_spec "unmatched"
      (fun r => status_is (rec_Status r) StatusFailed && unmatched r)) by done. f_equal. apply countb_ext. intros r _.
    unfold unmatched, group_key. simpl. by rewrite andb_assoc.
  - unfold Count. induction (rows t) as [|r l IH]; [done|]. rewrite !countb_cons.
    unfold status_is, group_key in *. simpl in *.
    destruct (rec_Status r); simpl; repeat case_bool_decide; simpl; lia || done.
Qed.

(** ** Lists never expose credentials *)

(** List reads drop secrets and payloads. No list of runner states carries the
    encrypted sandbox credentials or the sandbox endpoint; apart from the
    unselected columns a listed state is the state a full read returns, when the
    row's GitHub context was backfilled. *)
Theorem list_state_projection r :
  st_SandboxAPIKeyEncrypted (listState r) = "" /\ st_SandboxAPIURL (listState r) = "" /\
  (if rec_GitHubContextBackfilled r then
     listState r = (recordToState r)
       <| st_SandboxAPIURL := "" |> <| st_SandboxAPIKeyEncrypted := "" |>
       <| st_SandboxRegion := "" |> <| st_ResolvedTemplateID := "" |>
       <| st_TemplateVersion := "" |> <| st_RunnerVersion := "" |>
       <| st_EffectiveRunnerVersion := "" |>
   else True).
Proof.
  split; [done|]. split; [done|]. destruct r as []. simpl.
  match goal with |- if ?b then _ else _ => destruct b end; done.
Qed.

(** ** LIKE *)

Definition special (c : ascii) : Prop := c = "!"%char \/ c = "%"%char \/ c = "_"%char.

Lemma like_escape_cons c p s :
  like (escape_byte c ++ p) s = match s with x :: s' => bool_decide (x = c) && like p s' | [] => false end.
Proof.
  unfold escape_byte. case_bool_decide as H.
  - simpl. by destruct s.
  - simpl. rewrite !bool_decide_eq_false_2; [by destruct s|..]; intros ->; apply H; auto.
Qed.

Lemma like_escape q p s :
  like (concat (map escape_byte q) ++ p) s =
  prefix_bytes q s && like p (drop (length q) s).
Proof.
  revert s. induction q as [|c q IH]; intros s; [done|]. simpl.
  rewrite <-(assoc_L (++)), like_escape_cons. destruct s as [|x s]; simpl; [done|].
  rewrite IH. destruct (decide (x = c)) as [->|Hne].
  - by rewrite !bool_decide_eq_true_2.
  - by rewrite !bool_decide_eq_false_2 by congruence.
Qed.

Lemma like_any s : like ["%"%char] s = true.
Proof. induction s as [|c s IH]; [done|]. simpl in *. exact IH. Qed.

Lemma like_percent p s :
  like ("%"%char :: p) s = true <-> exists n, n <= length s /\ like p (drop n s) = true.
Proof.
  induction s as [|c s IH].
  - simpl. rewrite orb_false_r. split; [by exists 0|]. intros (n & Hn & H). by destruct n.
  - change (like ("%"%char :: p) (c :: s)) with (like p (c :: s) || like ("%"%char :: p) s).
    rewrite orb_true_iff, IH. split.
    + intros [H|(n & Hn & H)]; [exists 0|exists (S n)]; simpl; split; try done; lia.
    + intros ([|n] & Hn & H); [by left|]. right. exists n. simpl in *. split; [lia|done].
Qed.

(** The owner pattern matches exactly the names that start with the owner and a slash. *)
Lemma owner_like_prefix owner r :
  owner_like owner r = HasPrefix (ToLower (rec_RepositoryFullName r)) (owner +:+ "/").
Proof.
  unfold owner_like, escapeLike, HasPrefix. rewrite like_escape.
  set (s := bytes (ToLower _)).
  replace (bytes (owner +:+ "/")) with (bytes owner ++ ["/"%char]) by (unfold bytes; by induction owner; [|simpl; f_equal]).
  clearbody s. revert s. induction (bytes owner) as [|c q IH]; intros s.
  - simpl. rewrite drop_0. destruct s as [|x s]; [done|]. simpl.
    destruct (decide (x = "/"%char)) as [->|Hne].
    + rewrite !bool_decide_eq_true_2 by done. simpl. apply (like_any s).
    + rewrite !bool_decide_eq_false_2 by congruence. done.
  - destruct s as [|x s]; [done|]. simpl. rewrite <-IH. destruct (bool_decide (c = x)); done.
Qed.

Lemma repository_search q s :
  like ("%"%char :: concat (map escape_byte q) ++ ["%"%char]) s = contains_bytes q s.
Proof.
  apply eq_true_iff_eq. rewrite like_percent, contains_bytes_spec. split.
  - intros (n & Hn & H). rewrite like_escape in H. apply andb_true_iff in H as [H _].
    apply prefix_bytes_spec in H as [r Hr]. exists (take n s), r. by rewrite <-Hr, take_drop.
  - intros (p & r & ->). exists (length p). rewrite length_app, drop_app_length. split; [lia|].
    rewrite like_escape, like_any, andb_true_r. apply prefix_bytes_spec. eauto.
Qed.

(** Escaped LIKE patterns are exact. Whatever characters an owner or a search
    text contains ([!], [%] and [_] included), the owner count selects exactly
    the in-flight rows whose lower-cased repository starts with the owner and a
    slash, and the repository search exactly the non-empty names that contain
    the text. *)
Theorem like_queries_exact owner query repo t :
  InFlightCountForRepositoryOwner owner t =
    (let o := ToLower (TrimSpace owner) in
     if bool_decide (o = "") then 0
     else Count (fun r => HasPrefix (ToLower (rec_RepositoryFullName r)) (o +:+ "/")
                          && isInFlight (rec_Status r)) t) /\
  repository_matches query repo =
    negb (bool_decide (repo = "")) && Contains (ToLower repo) (ToLower (TrimSpace query)).
Proof.
  split.
  - unfold InFlightCountForRepositoryOwner. cbv zeta. case_bool_decide; [done|].
    apply countb_ext. intros r _. by rewrite owner_like_prefix.
  - unfold repository_matches, Contains, escapeLike. f_equal. cbv zeta.
    rewrite repository_search. case_bool_decide as H; [|done]. rewrite H. simpl.
    by destruct (bytes (ToLower repo)).
Qed.

(** ** Access batches *)

(** What the caller asked for: the row's installation is positive and one of
    the items of that installation lists the row's repository. *)
Definition access_allows (access : list GitHubInstallationRepositoryAccess) (r : runnerRequestRecord) : bool :=
  (0 <? rec_GitHubInstallationID r)%Z
  && existsb (fun item => (acc_InstallationID item =? rec_GitHubInstallationID r)%Z
        && bool_decide (ToLower (rec_RepositoryFullName r) ∈ uniqueLowerTrimmed (acc_Repositories item)))
       access.

Lemma addAccess_elem m item i s :
  s ∈ default ∅ (addAccess m item !! i) <->
  s ∈ default ∅ (m !! i) \/
  ((0 < i)%Z /\ acc_InstallationID item = i /\ s ∈ uniqueLowerTrimmed (acc_Repositories item)).
Proof.
  unfold addAccess. destruct (Z.leb_spec (acc_InstallationID item) 0).
  - split; [by left|]. intros [?|(? & ? & _)]; [done|lia].
  - rewrite lookup_insert. case_decide as E; simpl.
    + subst i. rewrite elem_of_union, elem_of_list_to_set. naive_solver.
    + naive_solver.
Qed.

Lemma foldl_addAccess_elem access m i s :
  s ∈ default ∅ (foldl addAccess m access !! i) <->
  s ∈ default ∅ (m !! i) \/
  ((0 < i)%Z /\ exists item, item ∈ access /\ acc_InstallationID item = i /\
                s ∈ uniqueLowerTrimmed (acc_Repositories item)).
Proof.
  revert m. induction access as [|item access IH]; intros m; simpl.
  - split; [by left|]. intros [?|(_ & ? & H & _)]; [done|]. by apply not_elem_of_nil in H.
  - rewrite IH, addAccess_elem. split.
    + intros [[?|(? & ? & ?)]|(? & it & ? & ? & ?)]; [by left|..]; right; (split; [done|]).
      * exists item. split; [left|done].
      * exists it. split; [by right|done].
    + intros [?|(? & it & H & ? & ?)]; [by left; left|].
      apply elem_of_cons in H as [->|H]; [left; right|right]; eauto.
Qed.

Definition access_pairs (l : list GitHubInstallationRepositoryAccess) : list (Z * string) :=
  concat (map (fun item => map (pair (acc_InstallationID item)) (acc_Repositories item)) l).

Definition batch_pairs (b : githubInstallationRepositoryAccessQueryBatch) : list (Z * string) :=
  map (pair (batch_installation b)) (batch_repositories b).

Lemma elem_of_concat_map {A B} (f : A -> list B) l y :
  y ∈ concat (map f l) <-> exists x, x ∈ l /\ y ∈ f x.
Proof.
  induction l as [|x l IH]; simpl.
  - split; [intros H; by apply not_elem_of_nil in H|]. intros (? & H & _). by apply not_elem_of_nil in H.
  - rewrite elem_of_app, IH. set_solver.
Qed.

Lemma elem_of_access_pairs access i s :
  (i, s) ∈ access_pairs (normalizeGitHubInstallationRepositoryAccess access) <->
  (0 < i)%Z /\ exists item, item ∈ access /\ acc_InstallationID item = i /\
                 s ∈ uniqueLowerTrimmed (acc_Repositories item).
Proof.
  unfold access_pairs, normalizeGitHubInstallationRepositoryAccess. cbv zeta.
  pose proof (foldl_addAccess_elem access ∅ i s) as Hm.
  fold (repositoriesByInstallation access) in Hm. set (m := repositoriesByInstallation access) in *.
  rewrite lookup_empty in Hm. rewrite elem_of_concat_map. split.
  - intros (it & Hit & Hs). apply list_elem_of_fmap in Hit as (k & -> & _).
    apply list_elem_of_fmap in Hs as (s' & [= <- <-] & Hs). simpl in Hs.
    rewrite merge_sort_Permutation, elem_of_elements in Hs. apply Hm in Hs as [H|H]; [set_solver|done].
  - intros H. assert (Hs : s ∈ default ∅ (m !! i)) by (apply Hm; by right).
    exists (MkAccess i (merge_sort String.le (elements (default ∅ (m !! i))))). split.
    + apply list_elem_of_fmap. exists i. split; [done|].
      rewrite merge_sort_Permutation. apply elem_of_bfilter. split.
      * destruct (m !! i) as [x|] eqn:E; [|simpl in Hs; set_solver].
        apply list_elem_of_fmap. exists (i, x). split; [done|]. by apply elem_of_map_to_list.
      * apply negb_true_iff, bool_decide_eq_false. intros E. rewrite E in Hs. set_solver.
    + apply list_elem_of_fmap. exists s. split; [done|]. simpl.
      by rewrite merge_sort_Permutation, elem_of_elements.
Qed.

Lemma NoDup_concat_pairs (l : list GitHubInstallationRepositoryAccess) :
  NoDup (map acc_InstallationID l) -> (forall it, it ∈ l -> NoDup (acc_Repositories it)) ->
  NoDup (access_pairs l).
Proof.
  unfold access_pairs. induction l as [|it l IH]; intros Hn Hr; [constructor|]. simpl in *.
  apply NoDup_cons in Hn as [Hi Hn]. apply NoDup_app. split; [|split].
  - apply NoDup_fmap_2; [intros ?? [=]; done|]. apply Hr. left.
  - intros [i s] H1 H2. apply list_elem_of_fmap in H1 as (? & [= -> ->] & _).
    apply elem_of_concat_map in H2 as (it2 & Hit2 & H2).
    apply list_elem_of_fmap in H2 as (? & [= E _] & _). apply Hi. rewrite E.
    apply list_elem_of_fmap. eauto.
  - apply IH; [done|]. intros; apply Hr; by right.
Qed.

Lemma NoDup_access_pairs access :
  NoDup (access_pairs (normalizeGitHubInstallationRepositoryAccess access)).
Proof.
  apply NoDup_concat_pairs; unfold normalizeGitHubInstallationRepositoryAccess; cbv zeta.
  - rewrite map_map. simpl. rewrite map_id, merge_sort_Permutation.
    apply NoDup_ListNoDup, List.NoDup_filter, NoDup_ListNoDup, NoDup_fst_map_to_list.
  - intros it H. apply list_elem_of_fmap in H as (i & -> & _). simpl.
    rewrite merge_sort_Permutation. apply NoDup_elements.
Qed.

Lemma repository_chunks_spec fuel count l :
  1 <= count -> length l <= fuel ->
  concat (repository_chunks fuel count l) = l /\
  Forall (fun c => 1 <= length c <= count) (repository_chunks fuel count l).
Proof.
  intros Hc. revert l. induction fuel as [|fuel IH]; intros [|x l] Hl; try (done || (simpl in Hl; lia)).
  cbn [repository_chunks]. cbv zeta. rewrite length_cons in *. cbn [concat].
  destruct (IH (drop (S (length l) `min` count) (x :: l))) as [H1 H2].
  { rewrite length_drop, length_cons. lia. }
  split.
  - rewrite H1. apply take_drop.
  - constructor; [|done]. rewrite length_take, length_cons. lia.
Qed.

Lemma concat_map_concat {A B} (f : A -> list B) (ls : list (list A)) :
  concat (map f (concat ls)) = concat (map (fun l => concat (map f l)) ls).
Proof. induction ls as [|l ls IH]; [done|]. simpl. by rewrite map_app, concat_app, IH. Qed.

Lemma batch_pairs_access access n :
  concat (map batch_pairs (githubInstallationRepositoryAccessQueryBatches access n)) =
  access_pairs (normalizeGitHubInstallationRepositoryAccess access).
Proof.
  unfold githubInstallationRepositoryAccessQueryBatches, access_pairs. cbv zeta.
  rewrite concat_map_concat, map_map. f_equal. apply map_ext. intros [i repos].
  cbn [acc_InstallationID acc_Repositories]. rewrite map_map.
  unfold batch_pairs. cbn [batch_installation batch_repositories].
  rewrite <-(map_map (fun c => c) (map (pair i))), map_id, <-concat_map.
  f_equal. apply repository_chunks_spec; lia.
Qed.

Lemma batch_matches_pairs b r :
  batch_matches b r = true <->
  (rec_GitHubInstallationID r, ToLower (rec_RepositoryFullName r)) ∈ batch_pairs b.
Proof.
  unfold batch_matches, batch_pairs. rewrite andb_true_iff, Z.eqb_eq, bool_decide_eq_true, list_elem_of_fmap.
  split.
  - intros [-> H]. eauto.
  - intros (s & [= -> ->] & H). done.
Qed.

Definition any_batch (bs : list githubInstallationRepositoryAccessQueryBatch) (r : runnerRequestRecord) : bool :=
  existsb (fun b => batch_matches b r) bs.

Lemma any_batch_pairs bs r :
  any_batch bs r = true <->
  (rec_GitHubInstallationID r, ToLower (rec_RepositoryFullName r)) ∈ concat (map batch_pairs bs).
Proof.
  unfold any_batch. rewrite existsb_exists, elem_of_concat_map.
  split; intros (b & Hb & H); exists b; (split; [by apply list_elem_of_In|by apply batch_matches_pairs]).
Qed.

Lemma any_batch_access access n r :
  any_batch (githubInstallationRepositoryAccessQueryBatches access n) r = access_allows access r.
Proof.
  apply eq_true_iff_eq. rewrite any_batch_pairs, batch_pairs_access, elem_of_access_pairs.
  unfold access_allows. rewrite andb_true_iff, Z.ltb_lt, existsb_exists.
  split; intros (Hp & it & H); (split; [done|]); exists it; rewrite <-?list_elem_of_In in *.
  - destruct H as (? & ? & ?). split; [done|]. apply andb_true_iff. rewrite Z.eqb_eq.
    split; [done|]. by apply bool_decide_eq_true.
  - destruct H as (? & (?%Z.eqb_eq & ?%bool_decide_eq_true)%andb_true_iff). done.
Qed.

(** Access batches. Every batch query binds at least two and at most
    [maxParameters] parameters (with [maxParameters] raised to 2), no row is
    selected by two batches, and together they select exactly the rows of the
    given installations and repositories. *)
Theorem access_batches_spec access n :
  let bs := githubInstallationRepositoryAccessQueryBatches access n in
  Forall (fun b => batch_parameterCount b = 1 + length (batch_repositories b) /\
                   2 <= batch_parameterCount b <= 2 `max` n) bs /\
  NoDup (concat (map batch_pairs bs)) /\
  (forall r, any_batch bs r = access_allows access r).
Proof.
  cbv zeta. split; [|split].
  - apply Forall_forall. intros b Hb. unfold githubInstallationRepositoryAccessQueryBatches in Hb.
    apply elem_of_concat_map in Hb as (it & _ & Hb). apply list_elem_of_fmap in Hb as (c & -> & Hc).
    cbn [batch_parameterCount batch_repositories]. split; [done|].
    destruct (repository_chunks_spec (length (acc_Repositories it)) (2 `max` n - 1) (acc_Repositories it))
      as [_ H]; [lia|lia|].
    eapply Forall_forall in H; [|exact Hc]. lia.
  - rewrite batch_pairs_access. apply NoDup_access_pairs.
  - intros r. apply any_batch_access.
Qed.

Lemma countb_or_disjoint {A} (p q : A -> bool) l :
  (forall x, x ∈ l -> p x = true -> q x = false) ->
  countb (fun x => p x || q x) l = countb p l + countb q l.
Proof.
  induction l as [|x l IH]; intros H; [done|]. rewrite !countb_cons, IH by (intros; apply H; [by right|done]).
  specialize (H x ltac:(left)). destruct (p x); [rewrite H by done; simpl; lia|destruct (q x); simpl; lia].
Qed.

(** Disjoint batches: the sum of the counts is the count of the union. *)
Lemma sum_batch_counts bs t :
  NoDup (concat (map batch_pairs bs)) ->
  sum_list_with (fun b => Count (batch_matches b) t) bs = Count (any_batch bs) t.
Proof.
  induction bs as [|b bs IH]; simpl; intros Hnd.
  - symmetry. by apply countb_zero.
  - apply NoDup_app in Hnd as (_ & Hd & Hnd). rewrite IH by done. unfold Count.
    rewrite <-countb_or_disjoint; [done|]. intros r _ Hb. apply not_true_is_false. intros Hr.
    apply batch_matches_pairs in Hb. apply any_batch_pairs in Hr. by eapply Hd.
Qed.

Lemma recordsByID_lookup l id r :
  recordsByID l !! id = Some r -> r ∈ l /\ rec_ID r = id.
Proof.
  unfold recordsByID.
  assert (H : forall m : table, foldl (fun m r => <[rec_ID r := r]> m) m l !! id = Some r ->
    (r ∈ l /\ rec_ID r = id) \/ m !! id = Some r).
  { induction l as [|x l IH]; intros m; simpl; [by right|]. intros [[]|H]%IH; [left; split; [by right|done]|].
    rewrite lookup_insert in H. case_decide; [|by right]. left. simplify_eq. split; [left|done]. }
  intros [|H']%H; [done|]. by rewrite lookup_empty in H'.
Qed.

Lemma recordsByID_is_Some l r : r ∈ l -> is_Some (recordsByID l !! rec_ID r).
Proof.
  unfold recordsByID.
  assert (H : forall m : table, is_Some (m !! rec_ID r) \/ r ∈ l ->
    is_Some (foldl (fun m r => <[rec_ID r := r]> m) m l !! rec_ID r)); [|intros; apply H; by right].
  induction l as [|x l IH]; intros m; simpl.
  - intros [?|H]; [done|]. by apply not_elem_of_nil in H.
  - intros [H|[<-|H]%elem_of_cons]; apply IH; [left|left|by right].
    + rewrite lookup_insert. case_decide; [by eexists|done].
    + rewrite lookup_insert_eq. by eexists.
Qed.

(** Collecting rows of a table by id and sorting them is selecting them. *)
Lemma select_recordsByID t l :
  table_wf t -> (forall x, x ∈ l -> exists id, t !! id = Some x) ->
  forall q, (forall x, x ∈ l -> q x = true) ->
  select queue_le (fun _ => true) (recordsByID l) =
  List.filter (fun r => bool_decide (rec_ID r ∈ map rec_ID l)) (select queue_le q t).
Proof.
  intros Hwf Hl q Hq.
  assert (Helem : forall r, r ∈ rows (recordsByID l) <-> r ∈ l).
  { intros r. rewrite elem_of_rows. split.
    - intros [id H]. by apply recordsByID_lookup in H as [].
    - intros H. exists (rec_ID r). destruct (recordsByID_is_Some l r H) as [r' Hr'].
      rewrite Hr'. apply recordsByID_lookup in Hr' as [Hin Heq].
      destruct (Hl _ H) as [i Hi], (Hl _ Hin) as [j Hj].
      rewrite (wf_keyed _ Hwf _ _ Hi), (wf_keyed _ Hwf _ _ Hj) in Heq. congruence. }
  apply (StronglySorted_unique_strong queue_le).
  - intros x y Hx Hy. apply elem_of_select in Hx as [Hx _]. apply elem_of_rows, Helem, Hl in Hx as [i Hi].
    apply elem_of_bfilter in Hy as [Hy _]. apply elem_of_select in Hy as [[j Hj] _].
    by apply (queue_le_antisym t Hwf i j).
  - apply select_sorted; apply _.
  - apply StronglySorted_bfilter, select_sorted; apply _.
  - apply NoDup_Permutation.
    + rewrite (select_perm queue_le), bfilter_all by done. unfold rows.
      apply NoDup_fmap_2_strong; [|apply NoDup_map_to_list].
      intros [i a] [j b] Ha Hb Hab. simpl in Hab. subst b.
      apply elem_of_map_to_list, recordsByID_lookup in Ha as [_ <-].
      by apply elem_of_map_to_list, recordsByID_lookup in Hb as [_ <-].
    + apply NoDup_ListNoDup, List.NoDup_filter, NoDup_ListNoDup. by apply NoDup_select.
    + intros r. rewrite elem_of_bfilter, !elem_of_select, bool_decide_eq_true, <-elem_of_rows, Helem.
      rewrite list_elem_of_fmap. split; [intros [H _]; eauto 10|].
      intros [[[i Hi] _] (r' & Heq & Hr')]. destruct (Hl _ Hr') as [j Hj]. split; [|done].
      rewrite (wf_keyed _ Hwf _ _ Hi), (wf_keyed _ Hwf _ _ Hj) in Heq. congruence.
Qed.

(** The first rows of the union are found from the first rows of each batch. *)
Lemma merge_batches t bs n :
  table_wf t ->
  let records := select queue_le (fun _ => true)
    (recordsByID (concat (map (fun b => take n (select queue_le (batch_matches b) t)) bs))) in
  let l := select queue_le (any_batch bs) t in
  take n records = take n l /\ length records <= length l.
Proof.
  intros Hwf. cbv zeta. set (l := concat _).
  assert (Hin : forall x, x ∈ l -> (exists id, t !! id = Some x) /\ any_batch bs x = true).
  { intros x Hx. apply elem_of_concat_map in Hx as (b & Hb & Hx). apply elem_of_take in Hx as (i & Hx & _).
    apply list_elem_of_lookup_2, elem_of_select in Hx as [Hx Hm]. split; [done|].
    apply existsb_exists. exists b. split; [by apply list_elem_of_In|done]. }
  rewrite (select_recordsByID t l Hwf) with (q := any_batch bs) by (intros x Hx; by apply Hin).
  split; [|apply filter_length_le].
  apply take_bfilter. intros x Hx. apply bool_decide_eq_true, list_elem_of_fmap. exists x. split; [done|].
  assert (Hx' : x ∈ select queue_le (any_batch bs) t)
    by (apply elem_of_take in Hx as (i & Hx & _); by eapply list_elem_of_lookup_2).
  apply elem_of_select in Hx' as [_ Hany]. apply existsb_exists in Hany as (b & Hb & Hm).
  apply elem_of_concat_map. exists b. split; [by apply list_elem_of_In|].
  replace (select queue_le (batch_matches b) t)
    with (List.filter (batch_matches b) (select queue_le (any_batch bs) t)).
  - by apply elem_of_take_bfilter.
  - rewrite <-(select_refine queue_le t (queue_le_antisym t Hwf)). unfold select. f_equal.
    apply bfilter_ext. intros y _. destruct (batch_matches b y) eqn:E; [|by rewrite andb_false_r].
    rewrite andb_true_r. apply existsb_exists. eauto.
Qed.

(** Cutting a page out of a list that agrees with [l] on the rows the page needs. *)
Lemma page_of_prefix {A} (records l : list A) off lim n :
  n = (off + lim) `min` length l -> off < length l ->
  take n records = take n l -> length records <= length l ->
  let start := off `min` length records in
  drop start (take ((start + lim) `min` length records) records) = take lim (drop off l).
Proof.
  intros Hn Hoff Ht Hlen. cbv zeta.
  assert (Hr : n <= length records) by (apply (f_equal length) in Ht; rewrite !length_take in Ht; lia).
  destruct (decide (off + lim <= length l)) as [Hle|Hgt].
  - rewrite Nat.min_l in Hn by done. subst n.
    rewrite (Nat.min_l off), Nat.min_l, Ht by lia. rewrite skipn_firstn_comm. f_equal. lia.
  - assert (records = l) as ->.
    { rewrite Nat.min_r in Hn by lia. subst n. rewrite (take_ge l), take_ge in Ht by lia. done. }
    rewrite (Nat.min_l off), Nat.min_r, take_ge by lia. symmetry. apply take_ge. rewrite length_drop. lia.
Qed.

(** C30: The batched access query is equivalent to one unbounded query. For every
    access list, limit and offset, the page and the total that the batched and
    merged queries return are those of a single query over all allowed rows,
    with the limit clamped to 500 and a negative offset to 0. *)
Theorem access_page_equivalence access limit offset t :
  table_wf t ->
  let n := if (limit <=? 0)%Z || (500 <? limit)%Z then 500 else Z.to_nat limit in
  ListStatesForGitHubInstallationRepositories access limit offset t =
    (map listState (take n (drop (Z.to_nat offset) (select queue_le (access_allows access) t))),
     Count (access_allows access) t).
Proof.
  intros Hwf. cbv zeta. unfold ListStatesForGitHubInstallationRepositories. cbv zeta.
  set (bs := githubInstallationRepositoryAccessQueryBatches access _).
  assert (Hext : forall r, access_allows access r = any_batch bs r) by (intros; symmetry; apply any_batch_access).
  assert (Hnd : NoDup (concat (map batch_pairs bs)))
    by (unfold bs; rewrite batch_pairs_access; apply NoDup_access_pairs).
  replace (select queue_le (access_allows access) t) with (select queue_le (any_batch bs) t)
    by (unfold select; f_equal; by apply bfilter_ext).
  replace (Count (access_allows access) t) with (Count (any_batch bs) t) by (by apply countb_ext).
  rewrite sum_batch_counts by done.
  set (lim := if _ || _ then 500 else _). set (off := Z.to_nat offset).
  pose proof (length_select queue_le (any_batch bs) t) as Hlen. set (l := select queue_le (any_batch bs) t) in *.
  case_bool_decide as Hb.
  { destruct bs; [|done]. assert (Hz : Count (any_batch []) t = 0) by (by apply countb_zero).
    rewrite Hz in *. apply length_zero_iff_nil in Hlen. rewrite Hlen. by rewrite drop_nil, take_nil. }
  destruct (Nat.leb_spec (Count (any_batch bs) t) off).
  { by rewrite drop_ge, take_nil by lia. }
  set (ql := if _ <=? _ then _ else _). f_equal. f_equal.
  destruct (merge_batches t bs ql Hwf) as [Hm1 Hm2].
  apply page_of_prefix with (n := ql); [|lia|exact Hm1|exact Hm2].
  fold l. subst ql. destruct (Nat.leb_spec lim (Count (any_batch bs) t - off)); lia.
Qed.

Lemma access_page_equivalence_witness :
  ListStatesForGitHubInstallationRepositories [MkAccess 7 [" Acme/App "]] 1 0 ex_table2 =
    (map listState (take 1 (drop 0 (select queue_le
       (access_allows [MkAccess 7 [" Acme/App "]]) ex_table2))), 2).
Proof.
  rewrite (access_page_equivalence [MkAccess 7 [" Acme/App "]] 1 0 ex_table2 ex_table2_wf).
  f_equal; vm_compute; reflexivity.
Defined.
