(* ===== verification/AccountStore.v ===== *)
(** * Accounts, installations, preferences and secrets: the store
    (internal/state/identity_audit.go, github_installations.go,
    account_preferences.go, account_secrets.go, sandbox_service_defaults.go)

    The tables and the operations on them.  An operation that the database runs as one
    transaction is a function from tables to tables; a statement that fails leaves them.
    [saveOAuthIdentityOnce] reads under READ COMMITTED, so the tables it read first
    ([seen]) may be older than those it writes. *)

From stdpp Require Import base gmap list strings sorting.
From S2P Require Import Prelude GoStrings Query Rows AccountModel RunnerModel RunnerStore RunnerQueries.
From Stdlib Require Import Ascii.

Record accountDB := MkAccountDB {
  ad_accounts : rowset Account;
  ad_identities : rowset OAuthIdentity;
  ad_audit : rowset AuditEvent;
  ad_installations : rowset githubInstallationRecord;
  ad_owners : gmap Z githubInstallationOwnerRecord;
  ad_secrets : rowset AccountSecret;
  ad_preferences : rowset AccountPreference;
  ad_default : option SandboxServiceDefault;
  ad_audiences : rowset SandboxServiceDefaultAudience
}.

#[export] Instance rebuild_accountDB : Rebuild accountDB := fun r =>
  MkAccountDB (ad_accounts r) (ad_identities r) (ad_audit r) (ad_installations r) (ad_owners r) (ad_secrets r)
    (ad_preferences r) (ad_default r) (ad_audiences r).

Definition accountDB0 : accountDB := MkAccountDB no_rows no_rows no_rows no_rows ∅ no_rows no_rows None no_rows.

(** gorm's First, whose ErrRecordNotFound the code turns into [ErrNotFound]. *)
Definition found {A} (r : option A) : result A := match r with Some a => Ok a | None => Err ErrNotFound end.

(** ** Accounts and identities: reads *)

Definition GetAccount (accountID : Z) (db : accountDB) : result Account :=
  if (accountID <=? 0)%Z then Err ErrNotFound else found (get_id accountID (ad_accounts db)).

Definition accountFromIdentity (identity : OAuthIdentity) (db : accountDB) : result (Account * OAuthIdentity) :=
  let? account := found (get_id (oi_AccountID identity) (ad_accounts db)) in Ok (account, identity).

Definition GetAccountByOAuthIdentity (provider subject : string) (db : accountDB) : result (Account * OAuthIdentity) :=
  let provider := normalizeOAuthProvider provider in
  let subject := normalizeOAuthSubject subject in
  if bool_decide (provider = "") || bool_decide (subject = "") then Err ErrNotFound
  else let? row := found (get_key (provider, subject) (ad_identities db)) in accountFromIdentity row db.

Definition GetOAuthIdentityForAccount (accountID : Z) (provider : string) (db : accountDB) : result OAuthIdentity :=
  let provider := normalizeOAuthProvider provider in
  if (accountID <=? 0)%Z || bool_decide (provider = "") then Err ErrNotFound
  else found (find_row (fun i => (oi_AccountID i =? accountID)%Z && bool_decide (oi_OAuthProvider i = provider))
                (ad_identities db)).

(** ** The list of accounts *)

Record AccountListOptions := MkAccountListOptions { lo_Query : string; lo_Role : string; lo_Limit : Z; lo_Offset : Z }.
Record AccountListItem := MkAccountListItem { li_Account : Account; li_OAuthIdentities : list OAuthIdentity }.

(** LIKE without an ESCAPE clause: the search text may hold wildcards. *)
Fixpoint plain_like (p s : list ascii) {struct p} : bool :=
  match p with
  | [] => bool_decide (s = [])
  | c :: p' =>
      if bool_decide (c = "%"%char) then
        (fix any (s : list ascii) : bool :=
           plain_like p' s || match s with [] => false | _ :: s' => any s' end) s
      else if bool_decide (c = "_"%char) then
        match s with [] => false | _ :: s' => plain_like p' s' end
      else match s with x :: s' => bool_decide (x = c) && plain_like p' s' | [] => false end
  end.

Definition identity_matches (search : string) (i : OAuthIdentity) : bool :=
  let pattern := "%"%char :: bytes search ++ ["%"%char] in
  plain_like pattern (bytes (ToLower (oi_OAuthProvider i))) || plain_like pattern (bytes (ToLower (oi_OAuthSubject i)))
  || plain_like pattern (bytes (ToLower (oi_OAuthLogin i))).

(** The WHERE clause: the role, and the EXISTS over the identities. *)
Definition account_matches (role search : string) (db : accountDB) (a : Account) : bool :=
  (bool_decide (role = "") || bool_decide (ac_Role a = role))
  && (bool_decide (search = "")
      || existsb (fun i => (oi_AccountID i =? ac_ID a)%Z && identity_matches search i) (rs_rows (ad_identities db))).

Abbreviation account_le := (onle (fun a => (ac_UpdatedAt a, ac_ID a)) (lexle (desc Z.le) (desc Z.le))).
Abbreviation identity_le := (onle (fun i => (oi_OAuthProvider i, oi_ID i)) (lexle String.le Z.le)).

(** The identities of the page, attached to their accounts in the order of the query. *)
Definition attachIdentities (records : list Account) (db : accountDB) : list AccountListItem :=
  let identities := merge_sort identity_le
    (List.filter (fun i => bool_decide (oi_AccountID i ∈ ac_ID <$> records)) (rs_rows (ad_identities db))) in
  (fun a => MkAccountListItem a (List.filter (fun i => (oi_AccountID i =? ac_ID a)%Z) identities)) <$> records.

Definition ListAccounts (options : AccountListOptions) (db : accountDB) : result (list AccountListItem * Z) :=
  let limit := if (lo_Limit options <=? 0)%Z then 50%Z else lo_Limit options in
  if (lo_Offset options <? 0)%Z then Err (ErrText "offset must be a non-negative integer") else
  let role := TrimSpace (lo_Role options) in
  let normalizedRole := if bool_decide (role = "") then "" else normalizePlatformRole role in
  if negb (bool_decide (role = "")) && bool_decide (normalizedRole = "") then Err (ErrText "role must be admin or user") else
  let search := ToLower (TrimSpace (lo_Query options)) in
  let selected := List.filter (account_matches normalizedRole search db) (rs_rows (ad_accounts db)) in
  let records := Limit limit (Offset (lo_Offset options) (merge_sort account_le selected)) in
  Ok (attachIdentities records db, Z.of_nat (length selected)).

Record AccountStats := MkAccountStats { stat_TotalAccounts : Z; stat_AdminAccounts : Z; stat_UserAccounts : Z; stat_OAuthIdentities : Z }.

(** SELECT role, COUNT(1) GROUP BY role, and the switch over the groups. *)
Definition roleCounts (db : accountDB) : list (string * Z) :=
  (fun role => (role, Z.of_nat (countb (fun a => bool_decide (ac_Role a = role)) (rs_rows (ad_accounts db)))))
    <$> remove_dups (ac_Role <$> rs_rows (ad_accounts db)).

Definition GetAccountStats (db : accountDB) : AccountStats :=
  let counted := foldl (fun s '(role, count) =>
    let '(total, admins, users) := s in
    (total + count, if bool_decide (role = "admin") then count else admins, if bool_decide (role = "user") then count else users)%Z)
    (0, 0, 0)%Z (roleCounts db) in
  let '(total, admins, users) := counted in
  MkAccountStats total admins users (Z.of_nat (length (rs_rows (ad_identities db)))).

(** ** Audit events *)

Definition ErrAuditEventPersistence : goerror := ErrSentinel "audit event persistence failed".

Definition appendAuditEvent (event : AuditEvent) (now : Time) (db : accountDB) : accountDB * AuditEvent :=
  let record := MkAuditEvent 0 (TrimSpace (ae_Actor event)) (TrimSpace (ae_Action event)) (TrimSpace (ae_ResourceType event))
    (TrimSpace (ae_ResourceID event)) (ae_PayloadJSON event)
    (if IsZero (ae_CreatedAt event) then now else ae_CreatedAt event) in
  let '(t, saved) := append record (ad_audit db) in
  (db <| ad_audit := t |>, saved).

(** The mutation works on the transaction's store: the tables of this file and the others
    ([W]).  [fault] is an error of the INSERT. *)
Definition ApplyMutationWithAudit {W} (event : AuditEvent) (mutation : option (accountDB * W -> result (accountDB * W)))
    (fault : option goerror) (now : Time) (s : accountDB * W) : (accountDB * W) * result AuditEvent :=
  match mutation with
  | None => (s, Err (ErrText "mutation is required"))
  | Some mutation =>
      match mutation s with
      | Err e => (s, Err e)
      | Ok (db, w) =>
          match fault with
          | Some e => (s, Err (ErrBoth ErrAuditEventPersistence e))
          | None => let '(db, saved) := appendAuditEvent event now db in ((db, w), Ok saved)
          end
      end
  end.

Abbreviation audit_le := (onle ae_CreatedAt (desc Z.le)).

Definition ListAuditEvents (limit : Z) (db : accountDB) : list AuditEvent :=
  let limit := if (limit <=? 0)%Z then 100%Z else limit in
  Limit limit (merge_sort audit_le (rs_rows (ad_audit db))).

(** ** Roles *)

Definition quote : string := String "034"%char "".

(** json.Marshal of a map from strings to strings sorts the keys. *)
Definition rolePayload (old_role new_role : string) : string :=
  "{" +:+ quote +:+ "new_role" +:+ quote +:+ ":" +:+ quote +:+ new_role +:+ quote +:+ "," +:+
  quote +:+ "old_role" +:+ quote +:+ ":" +:+ quote +:+ old_role +:+ quote +:+ "}".

Definition is_admin (a : Account) : bool := bool_decide (ac_Role a = "admin").

Definition adminCount (db : accountDB) : Z := Z.of_nat (countb is_admin (rs_rows (ad_accounts db))).

(** The UPDATE of a role, guarded by the role that was read. *)
Definition setRole (target : Account) (role : string) (now : Time) (db : accountDB) : accountDB * nat :=
  let '(t, n) := update (fun a => (ac_ID a =? ac_ID target)%Z && bool_decide (ac_Role a = ac_Role target))
                   (fun a => a <| ac_Role := role |> <| ac_UpdatedAt := now |>) (ad_accounts db) in
  (db <| ad_accounts := t |>, n).

Definition updateAccountRoleWithAuditOnce (actorAccountID accountID : Z) (role auditActor : string) (now : Time)
    (db : accountDB) : result (accountDB * Account) :=
  let? actor := found (get_id actorAccountID (ad_accounts db)) in
  if negb (is_admin actor) then Err ErrConflict else
  let? target := found (get_id accountID (ad_accounts db)) in
  if (ac_ID target =? ac_ID actor)%Z then Err ErrConflict else
  if bool_decide (ac_Role target = role) then Ok (db, target) else
  if is_admin target && bool_decide (role = "user") && (adminCount db <=? 1)%Z then Err ErrConflict else
  let '(db1, affected) := setRole target role now db in
  if negb (Nat.eqb affected 1) then Err ErrConflict else
  let '(db2, _) := appendAuditEvent
    (MkAuditEvent 0 auditActor "account.role.update" "account" (FormatInt (ac_ID target)) (rolePayload (ac_Role target) role) now)
    now db1 in
  Ok (db2, target <| ac_Role := role |> <| ac_UpdatedAt := now |>).

Definition isTransientStoreError (err : goerror) : bool :=
  let message := ToLower (error_text err) in
  existsb (Contains message)
    ["database is locked"; "sqlite_busy"; "40001"; "40p01"; "sqlstate 40001"; "sqlstate 40p01"; "serialization_failure";
     "deadlock"; "deadlock_detected"; "concurrent update"; "lock wait timeout"].

(** The loop of at most [n] attempts: attempt [i] has the outcome [once i]; the error of
    the last attempt is returned when all failed transiently. *)
Fixpoint attempts {A} (n : nat) (once : nat -> result A) (i : nat) (lastErr : goerror) : result (nat * A) :=
  match n with
  | O => Err lastErr
  | S n =>
      match once i with
      | Ok a => Ok (i, a)
      | Err e => if isTransientStoreError e then attempts n once (S i) e else Err e
      end
  end.

Definition maxAttempts : nat := 20.

(** What the database does for an attempt: the tables it finds, the tables an earlier read
    of the transaction found, or an error of its own. *)
Record attempt := MkAttempt { at_seen : accountDB; at_db : accountDB; at_now : Time; at_fault : option goerror }.

Definition tried {A} (m : attempt) (body : result A) : result A :=
  match at_fault m with Some e => Err e | None => body end.

Definition UpdateAccountRoleWithAudit (u : AccountRoleUpdate) (moment : nat -> attempt)
    : result (nat * (accountDB * Account)) :=
  if (ru_ActorAccountID u <=? 0)%Z || (ru_AccountID u <=? 0)%Z then Err ErrNotFound else
  if (ru_ActorAccountID u =? ru_AccountID u)%Z then Err ErrConflict else
  let role := normalizePlatformRole (ru_Role u) in
  if bool_decide (role = "") then Err (ErrText "role must be admin or user") else
  let auditActor := TrimSpace (ru_AuditActor u) in
  if bool_decide (auditActor = "") then Err (ErrText "audit actor is required") else
  attempts maxAttempts
    (fun i => tried (moment i)
       (updateAccountRoleWithAuditOnce (ru_ActorAccountID u) (ru_AccountID u) role auditActor (at_now (moment i)) (at_db (moment i))))
    0 ErrConflict.

(** ** Sign-in: an identity and its account *)

(** The login of an identity, by its primary key. *)
Definition setLogin (id : Z) (login : string) (now : Time) (db : accountDB) : accountDB :=
  db <| ad_identities := (update (fun i => (oi_ID i =? id)%Z)
                            (fun i => i <| oi_OAuthLogin := login |> <| oi_UpdatedAt := now |>) (ad_identities db)).1 |>.

Definition overwriteRole (accountID : Z) (role : string) (now : Time) (db : accountDB) : accountDB :=
  db <| ad_accounts := (update (fun a => (ac_ID a =? accountID)%Z)
                          (fun a => a <| ac_Role := role |> <| ac_UpdatedAt := now |>) (ad_accounts db)).1 |>.

(** The branch for an identity that exists. *)
Definition refreshIdentity (identity : OAuthIdentity) (login role : string) (updateExisting : bool) (accountID : Z)
    (now : Time) (db : accountDB) : result (accountDB * (Account * OAuthIdentity)) :=
  if negb (accountID =? 0)%Z && negb (oi_AccountID identity =? accountID)%Z then Err ErrConflict else
  let db := setLogin (oi_ID identity) login now db in
  let db := if updateExisting then overwriteRole (oi_AccountID identity) role now db else db in
  let? saved := accountFromIdentity (identity <| oi_OAuthLogin := login |> <| oi_UpdatedAt := now |>) db in
  Ok (db, saved).

(** The account the new identity belongs to: a new one, or the one named. *)
Definition targetAccount (accountID : Z) (role : string) (now : Time) (db : accountDB) : result (accountDB * Z * Z) :=
  if (accountID =? 0)%Z then
    let '(t, account) := append (MkAccount 0 role now now) (ad_accounts db) in
    Ok (db <| ad_accounts := t |>, ac_ID account, ac_ID account)
  else let? _ := found (get_id accountID (ad_accounts db)) in Ok (db, accountID, 0%Z).

Definition saveOAuthIdentityOnce (provider subject login role : string) (createdAt : Time) (updateExisting : bool)
    (accountID : Z) (now : Time) (seen db : accountDB) : result (accountDB * (Account * OAuthIdentity)) :=
  match get_key (provider, subject) (ad_identities seen) with
  | Some row => refreshIdentity row login role updateExisting accountID now db
  | None =>
      let? (db1, targetAccountID, createdAccountID) := targetAccount accountID role now db in
      let identity := MkOAuthIdentity 0 targetAccountID provider subject login
                        (if IsZero createdAt then now else createdAt) now in
      match create identity (ad_identities db1) with
      | Some (t, row) =>
          let db2 := db1 <| ad_identities := t |> in
          let? saved := accountFromIdentity row db2 in Ok (db2, saved)
      | None =>
          let db2 := if negb (createdAccountID =? 0)%Z
                     then db1 <| ad_accounts := (remove (fun a => (ac_ID a =? createdAccountID)%Z) (ad_accounts db1)).1 |>
                     else db1 in
          match get_key (provider, subject) (ad_identities db2) with
          | None => Err ErrRecordNotFound
          | Some row => refreshIdentity row login role updateExisting accountID now db2
          end
      end
  end.

Definition saveOAuthIdentity (identity : OAuthIdentity) (role : string) (updateExisting : bool) (accountID : Z)
    (moment : nat -> attempt) : result (nat * (accountDB * (Account * OAuthIdentity))) :=
  let provider := normalizeOAuthProvider (oi_OAuthProvider identity) in
  let subject := normalizeOAuthSubject (oi_OAuthSubject identity) in
  let login := normalizeOAuthLogin (oi_OAuthLogin identity) in
  if bool_decide (provider = "") then Err (ErrText "oauth_provider is required") else
  if bool_decide (subject = "") then Err (ErrText "oauth_subject is required") else
  if bool_decide (login = "") then Err (ErrText "oauth_login is required") else
  let role := normalizePlatformRole role in
  if (accountID =? 0)%Z && bool_decide (role = "") then Err (ErrText "role must be admin or user") else
  attempts maxAttempts
    (fun i => tried (moment i)
       (saveOAuthIdentityOnce provider subject login role (oi_CreatedAt identity) updateExisting accountID
          (at_now (moment i)) (at_seen (moment i)) (at_db (moment i))))
    0 ErrConflict.

Definition UpsertAccountForOAuthIdentity identity role := saveOAuthIdentity identity role true 0.
Definition EnsureAccountForOAuthIdentity identity role := saveOAuthIdentity identity role false 0.
Definition LinkOAuthIdentityToAccount accountID identity := saveOAuthIdentity identity "" false accountID.

(** ** GitHub installations *)

(** The repositories of the requests of an installation, by name. *)
Definition repositoriesForGitHubInstallation (installationID : Z) (requests : table) : list string :=
  if (installationID <=? 0)%Z then [] else
  merge_sort String.le (remove_dups (rec_RepositoryFullName <$>
    List.filter (fun r => (rec_GitHubInstallationID r =? installationID)%Z && negb (bool_decide (rec_RepositoryFullName r = "")))
      (rows requests))).

Abbreviation installation_le := (onle (fun r => (gr_AccountLogin r, gr_InstallationID r)) (lexle String.le Z.le)).

Definition ListGitHubInstallations (accountID : Z) (requests : table) (db : accountDB) : result (list GitHubInstallation) :=
  if (accountID <=? 0)%Z then Err ErrNotFound else
  let records := merge_sort installation_le (List.filter (fun r => (gr_AccountID r =? accountID)%Z) (rs_rows (ad_installations db))) in
  Ok ((fun r => recordToGitHubInstallation r (repositoriesForGitHubInstallation (gr_InstallationID r) requests)) <$> records).

(** The join with the identities whose login is the installation's account. *)
Definition personal_installation (installationID : Z) (db : accountDB) (r : githubInstallationRecord) : bool :=
  (gr_InstallationID r =? installationID)%Z && negb (bool_decide (gr_AccountLogin r = ""))
  && existsb (fun i => (oi_AccountID i =? gr_AccountID r)%Z && bool_decide (oi_OAuthProvider i = "github")
                       && bool_decide (ToLower (oi_OAuthLogin i) = ToLower (gr_AccountLogin r)))
       (rs_rows (ad_identities db)).

Definition AccountScopeForPersonalGitHubInstallation (installationID : Z) (db : accountDB) : result (Z * bool) :=
  if (installationID <=? 0)%Z then Err ErrNotFound else
  match find_row (personal_installation installationID db) (ad_installations db) with
  | Some r => if (gr_AccountID r <=? 0)%Z then Ok (0%Z, false) else Ok (gr_AccountID r, true)
  | None => Ok (0%Z, false)
  end.

(** A row that names a stable GitHub account. *)
Definition has_owner (r : githubInstallationRecord) : bool :=
  (0 <? gr_GitHubAccountID r)%Z && negb (bool_decide (gr_AccountType r = "")).

Abbreviation newest_installation := (onle (fun r => (gr_UpdatedAt r, gr_ID r)) (lexle (desc Z.le) (desc Z.le))).
Abbreviation newest_owner := (onle (fun r => (go_UpdatedAt r, go_InstallationID r)) (lexle (desc Z.le) (desc Z.le))).

(** The accounts not seen before, by type and GitHub id. *)
Fixpoint distinctAccounts (seen : list (string * Z)) (accounts : list GitHubInstallationAccount) : list GitHubInstallationAccount :=
  match accounts with
  | [] => []
  | a :: rest =>
      let key := (ga_AccountType a, ga_GitHubAccountID a) in
      if bool_decide (key ∈ seen) then distinctAccounts seen rest else a :: distinctAccounts (key :: seen) rest
  end.

Definition ListGitHubInstallationAccounts (db : accountDB) : list GitHubInstallationAccount :=
  let records := merge_sort newest_installation (List.filter has_owner (rs_rows (ad_installations db))) in
  let owners := merge_sort newest_owner (map_to_list (ad_owners db)).*2 in
  merge_sort (onle (fun a => ToLower (ga_AccountLogin a)) String.le)
    (distinctAccounts [] ((ownerRecordToGitHubInstallationAccount <$> owners) ++ (recordToGitHubInstallationAccount <$> records))).

Definition GetGitHubInstallationOwner (installationID : Z) (db : accountDB) : result GitHubInstallationAccount :=
  if (installationID <=? 0)%Z then Err ErrNotFound
  else let? record := found (ad_owners db !! installationID) in Ok (ownerRecordToGitHubInstallationAccount record).

Definition upsertGitHubInstallationOwner (installationID : Z) (owner : GitHubInstallationAccount) (now : Time)
    (db : accountDB) : result (accountDB * githubInstallationOwnerRecord) :=
  let accountType := normalizeGitHubAccountType (ga_AccountType owner) in
  let accountLogin := TrimSpace (ga_AccountLogin owner) in
  if (installationID <=? 0)%Z then Err (ErrText "installation_id is required") else
  if (ga_GitHubAccountID owner <=? 0)%Z || bool_decide (accountType = "") || bool_decide (accountLogin = "")
  then Err (ErrText "stable github installation owner identity is required") else
  let createdAt := match ad_owners db !! installationID with Some old => go_CreatedAt old | None => now end in
  let record := MkgithubInstallationOwnerRecord installationID (ga_GitHubAccountID owner) accountType accountLogin
    (TrimSpace (ga_AccountName owner)) (TrimSpace (ga_AccountAvatar owner)) createdAt now in
  Ok (db <| ad_owners := <[installationID := record]> (ad_owners db) |>, record).

Definition UpsertGitHubInstallationOwner (installationID : Z) (owner : GitHubInstallationAccount) (now : Time)
    (db : accountDB) : result (accountDB * GitHubInstallationAccount) :=
  let? (db, record) := upsertGitHubInstallationOwner installationID owner now db in
  Ok (db, ownerRecordToGitHubInstallationAccount record).

Definition first_sorted {R} (le : relation R) `{!RelDecision le} (p : R -> bool) (t : rowset R) : option R :=
  head (merge_sort le (List.filter p (rs_rows t))).

Definition GitHubInstallationAccountForInstallation (installationID : Z) (db : accountDB) : result GitHubInstallationAccount :=
  let? record := found (first_sorted newest_installation
    (fun r => (gr_InstallationID r =? installationID)%Z && has_owner r) (ad_installations db)) in
  Ok (recordToGitHubInstallationAccount record).

Definition GitHubInstallationAccountForLogin (accountLogin : string) (db : accountDB) : result GitHubInstallationAccount :=
  let accountLogin := TrimSpace accountLogin in
  if bool_decide (accountLogin = "") then Err ErrNotFound else
  let? record := found (first_sorted newest_installation
    (fun r => bool_decide (ToLower (gr_AccountLogin r) = ToLower accountLogin) && has_owner r) (ad_installations db)) in
  Ok (recordToGitHubInstallationAccount record).

Abbreviation newest_by_installation := (onle (fun r => (gr_UpdatedAt r, gr_InstallationID r)) (lexle (desc Z.le) Z.le)).

Definition GitHubInstallationScopeForAccountLogin (accountLogin : string) (db : accountDB) : result (Z * bool) :=
  let accountLogin := TrimSpace accountLogin in
  if bool_decide (accountLogin = "") then Err ErrNotFound else
  match first_sorted newest_by_installation
          (fun r => bool_decide (ToLower (gr_AccountLogin r) = ToLower accountLogin)) (ad_installations db) with
  | Some record => Ok (gr_InstallationID record, true)
  | None => Ok (0%Z, false)
  end.

Definition mergeInstallation (old new : githubInstallationRecord) : githubInstallationRecord :=
  old <| gr_GitHubAccountID := gr_GitHubAccountID new |> <| gr_AccountType := gr_AccountType new |>
      <| gr_AccountLogin := gr_AccountLogin new |> <| gr_AccountName := gr_AccountName new |>
      <| gr_AccountAvatar := gr_AccountAvatar new |> <| gr_UpdatedAt := gr_UpdatedAt new |>.

Definition UpsertGitHubInstallation (installation : GitHubInstallation) (now : Time) (db : accountDB)
    : result (accountDB * GitHubInstallation) :=
  if (gi_AccountID installation <=? 0)%Z then Err (ErrText "account_id is required") else
  if (gi_InstallationID installation <=? 0)%Z then Err (ErrText "installation_id is required") else
  let record := MkgithubInstallationRecord 0 (gi_AccountID installation) (gi_InstallationID installation)
    (gi_GitHubAccountID installation) (normalizeGitHubAccountType (gi_AccountType installation))
    (TrimSpace (gi_AccountLogin installation)) (TrimSpace (gi_AccountName installation))
    (TrimSpace (gi_AccountAvatar installation)) now now in
  let '(t, saved) := upsert mergeInstallation record (ad_installations db) in
  let db := db <| ad_installations := t |> in
  if (0 <? gr_GitHubAccountID record)%Z && negb (bool_decide (gr_AccountType record = ""))
     && negb (bool_decide (gr_AccountLogin record = "")) then
    let? (db, _) := upsertGitHubInstallationOwner (gi_InstallationID installation)
                      (recordToGitHubInstallationAccount record) now db in
    Ok (db, recordToGitHubInstallation saved [])
  else Ok (db, recordToGitHubInstallation saved []).

Definition DeleteGitHubInstallation (accountID id : Z) (db : accountDB) : result accountDB :=
  if (accountID <=? 0)%Z || (id <=? 0)%Z then Err ErrNotFound else
  let '(t, n) := remove (fun r => (gr_AccountID r =? accountID)%Z && (gr_ID r =? id)%Z) (ad_installations db) in
  if Nat.eqb n 0 then Err ErrNotFound else Ok (db <| ad_installations := t |>).

(** ** Secrets *)

Definition GetAccountSecret (scopeType : string) (scopeID : Z) (keyType : string) (db : accountDB) : result AccountSecret :=
  let scopeType := normalizeAccountScopeType scopeType in
  let keyType := normalizeAccountSecretKeyType keyType in
  if bool_decide (scopeType = "") || (scopeID <=? 0)%Z || bool_decide (keyType = "") then Err ErrNotFound
  else found (get_key (scopeType, scopeID, keyType) (ad_secrets db)).

Definition mergeSecret (old new : AccountSecret) : AccountSecret :=
  old <| as_EncryptedValue := as_EncryptedValue new |> <| as_UpdatedAt := as_UpdatedAt new |>.

Definition upsertAccountSecret (secret : AccountSecret) (now : Time) (db : accountDB) : result (accountDB * AccountSecret) :=
  let scopeType := normalizeAccountScopeType (as_ScopeType secret) in
  let keyType := normalizeAccountSecretKeyType (as_KeyType secret) in
  if bool_decide (scopeType = "") then Err (ErrText "scope_type is required") else
  if (as_ScopeID secret <=? 0)%Z then Err (ErrText "scope_id is required") else
  if bool_decide (keyType = "") then Err (ErrText "key_type is required") else
  let encryptedValue := TrimSpace (as_EncryptedValue secret) in
  if bool_decide (encryptedValue = "") then Err (ErrText "encrypted_value is required") else
  let '(t, saved) := upsert mergeSecret (MkAccountSecret 0 scopeType (as_ScopeID secret) keyType encryptedValue now now)
                       (ad_secrets db) in
  Ok (db <| ad_secrets := t |>, saved).

Definition UpsertAccountSecret := upsertAccountSecret.

Definition deleteAccountSecret (scopeType : string) (scopeID : Z) (keyType : string) (db : accountDB) : result accountDB :=
  let scopeType := normalizeAccountScopeType scopeType in
  let keyType := normalizeAccountSecretKeyType keyType in
  if bool_decide (scopeType = "") || (scopeID <=? 0)%Z || bool_decide (keyType = "") then Err ErrNotFound else
  let '(t, n) := remove (has_key (scopeType, scopeID, keyType)) (ad_secrets db) in
  if Nat.eqb n 0 then Err ErrNotFound else Ok (db <| ad_secrets := t |>).

Definition DeleteAccountSecret := deleteAccountSecret.

(** ** Preferences *)

Definition GetAccountPreference (scopeType : string) (scopeID : Z) (namespace key : string) (db : accountDB)
    : result AccountPreference :=
  let scopeType := normalizeAccountScopeType scopeType in
  let namespace := normalizeAccountPreferencePart namespace in
  let key := normalizeAccountPreferencePart key in
  if bool_decide (scopeType = "") || (scopeID <=? 0)%Z || bool_decide (namespace = "") || bool_decide (key = "")
  then Err ErrNotFound
  else found (get_key (scopeType, scopeID, namespace, key) (ad_preferences db)).

Definition DeleteAccountPreference (scopeType : string) (scopeID : Z) (namespace key : string) (db : accountDB)
    : result accountDB :=
  let scopeType := normalizeAccountScopeType scopeType in
  let namespace := normalizeAccountPreferencePart namespace in
  let key := normalizeAccountPreferencePart key in
  if bool_decide (scopeType = "") || (scopeID <=? 0)%Z || bool_decide (namespace = "") || bool_decide (key = "")
  then Err ErrNotFound else
  let '(t, n) := remove (has_key (scopeType, scopeID, namespace, key)) (ad_preferences db) in
  if Nat.eqb n 0 then Err ErrNotFound else Ok (db <| ad_preferences := t |>).

Definition mergePreference (old new : AccountPreference) : AccountPreference :=
  old <| ap_ValueJSON := ap_ValueJSON new |> <| ap_UpdatedAt := ap_UpdatedAt new |>.

Definition upsertAccountPreference (preference : AccountPreference) (now : Time) (db : accountDB)
    : result (accountDB * AccountPreference) :=
  let scopeType := normalizeAccountScopeType (ap_ScopeType preference) in
  let namespace := normalizeAccountPreferencePart (ap_Namespace preference) in
  let key := normalizeAccountPreferencePart (ap_Key preference) in
  if bool_decide (scopeType = "") then Err (ErrText "scope_type is required") else
  if (ap_ScopeID preference <=? 0)%Z then Err (ErrText "scope_id is required") else
  if bool_decide (namespace = "") then Err (ErrText "namespace is required") else
  if bool_decide (key = "") then Err (ErrText "key is required") else
  let valueJSON := TrimSpace (ap_ValueJSON preference) in
  if bool_decide (valueJSON = "") then Err (ErrText "value_json is required") else
  let '(t, saved) := upsert mergePreference
                       (MkAccountPreference 0 scopeType (ap_ScopeID preference) namespace key valueJSON now now)
                       (ad_preferences db) in
  Ok (db <| ad_preferences := t |>, saved).

Definition UpsertAccountPreference := upsertAccountPreference.

(** The secrets saved in their order, up to the first that is refused. *)
Fixpoint upsertAccountSecrets (secrets : list AccountSecret) (now : Time) (db : accountDB) : result accountDB :=
  match secrets with
  | [] => Ok db
  | secret :: rest => let? (db, _) := upsertAccountSecret secret now db in upsertAccountSecrets rest now db
  end.

Definition UpsertAccountPreferenceAndSecrets (preference : AccountPreference) (secrets : list AccountSecret) (now : Time)
    (db : accountDB) : result (accountDB * AccountPreference) :=
  let? (db, saved) := upsertAccountPreference preference now db in
  let? db := upsertAccountSecrets secrets now db in
  Ok (db, saved).

Definition UpsertAccountPreferenceAndSecret (preference : AccountPreference) (secret : option AccountSecret) (now : Time)
    (db : accountDB) : result (accountDB * (AccountPreference * option AccountSecret)) :=
  let? (db, savedPreference) := upsertAccountPreference preference now db in
  match secret with
  | None => Ok (db, (savedPreference, None))
  | Some secret => let? (db, savedSecret) := upsertAccountSecret secret now db in Ok (db, (savedPreference, Some savedSecret))
  end.

Definition UpsertAccountPreferenceAndDeleteSecret (preference : AccountPreference) (secret : AccountSecret) (now : Time)
    (db : accountDB) : result (accountDB * AccountPreference) :=
  let? (db, savedPreference) := upsertAccountPreference preference now db in
  match deleteAccountSecret (as_ScopeType secret) (as_ScopeID secret) (as_KeyType secret) db with
  | Ok db => Ok (db, savedPreference)
  | Err ErrNotFound => Ok (db, savedPreference)
  | Err e => Err e
  end.

(** ** The default sandbox service *)

Definition ErrSandboxServiceDefaultAPIKeyRequired : goerror := ErrSentinel "sandbox service default api key is required".

Definition sandboxServiceDefaultID : Z := 1.

Definition GetSandboxServiceDefault (db : accountDB) : result SandboxServiceDefault :=
  let? record := found (ad_default db) in Ok (recordToSandboxServiceDefault record).

(** The columns ON CONFLICT updates: those of the key only with a new key. *)
Definition mergeDefault (old new : SandboxServiceDefault) : SandboxServiceDefault :=
  let merged := old <| sd_Enabled := sd_Enabled new |> <| sd_AudienceMode := sd_AudienceMode new |>
                    <| sd_APIURL := sd_APIURL new |> <| sd_UpdatedAt := sd_UpdatedAt new |> in
  if bool_decide (sd_APIKeyEncrypted new = "") then merged
  else merged <| sd_APIKeyEncrypted := sd_APIKeyEncrypted new |> <| sd_APIKeyUpdatedAt := sd_APIKeyUpdatedAt new |>.

Definition UpsertSandboxServiceDefault (config : SandboxServiceDefault) (now : Time) (db : accountDB)
    : accountDB * SandboxServiceDefault :=
  let key := TrimSpace (sd_APIKeyEncrypted config) in
  let keyUpdatedAt := match sd_APIKeyUpdatedAt config with
                      | None => if bool_decide (key = "") then None else Some now
                      | Some t => Some t
                      end in
  let record := MkSandboxServiceDefault sandboxServiceDefaultID (sd_Enabled config)
    (normalizeSandboxServiceDefaultAudienceMode (sd_AudienceMode config)) (TrimSpace (sd_APIURL config)) key keyUpdatedAt now now in
  let row := match ad_default db with Some old => mergeDefault old record | None => record end in
  (db <| ad_default := Some row |>, recordToSandboxServiceDefault row).

Definition UpdateSandboxServiceDefaultPreservingAPIKey (config : SandboxServiceDefault) (now : Time) (db : accountDB)
    : result (accountDB * SandboxServiceDefault) :=
  match ad_default db with
  | None => Err ErrSandboxServiceDefaultAPIKeyRequired
  | Some current =>
      if bool_decide (sd_APIKeyEncrypted current = "") then Err ErrSandboxServiceDefaultAPIKeyRequired else
      let row := current <| sd_Enabled := sd_Enabled config |>
                   <| sd_AudienceMode := normalizeSandboxServiceDefaultAudienceMode (sd_AudienceMode config) |>
                   <| sd_APIURL := TrimSpace (sd_APIURL config) |> <| sd_UpdatedAt := now |> in
      Ok (db <| ad_default := Some row |>, recordToSandboxServiceDefault row)
  end.

Definition DeleteSandboxServiceDefaultAPIKey (now : Time) (db : accountDB) : accountDB :=
  db <| ad_default := (fun row => row <| sd_APIKeyEncrypted := "" |> <| sd_APIKeyUpdatedAt := None |> <| sd_UpdatedAt := now |>)
                        <$> ad_default db |>.

Abbreviation audience_le := (onle (fun a => (ToLower (sa_AccountLogin a), sa_ID a)) (lexle String.le Z.le)).

Definition ListSandboxServiceDefaultAudiences (db : accountDB) : list SandboxServiceDefaultAudience :=
  merge_sort audience_le (rs_rows (ad_audiences db)).

Definition mergeAudience (old new : SandboxServiceDefaultAudience) : SandboxServiceDefaultAudience :=
  old <| sa_AccountLogin := sa_AccountLogin new |> <| sa_AccountName := sa_AccountName new |>
      <| sa_AccountAvatar := sa_AccountAvatar new |> <| sa_UpdatedAt := sa_UpdatedAt new |>.

Definition UpsertSandboxServiceDefaultAudience (audience : SandboxServiceDefaultAudience) (now : Time) (db : accountDB)
    : result (accountDB * SandboxServiceDefaultAudience) :=
  let accountType := normalizeGitHubAccountType (sa_AccountType audience) in
  if (sa_GitHubAccountID audience <=? 0)%Z || bool_decide (accountType = "")
  then Err (ErrText "valid github account identity is required") else
  let record := MkSandboxServiceDefaultAudience 0 (sa_GitHubAccountID audience) accountType
    (TrimSpace (sa_AccountLogin audience)) (TrimSpace (sa_AccountName audience)) (TrimSpace (sa_AccountAvatar audience)) now now in
  let '(t, saved) := upsert mergeAudience record (ad_audiences db) in
  Ok (db <| ad_audiences := t |>, saved).

Definition DeleteSandboxServiceDefaultAudience (id : Z) (db : accountDB) : accountDB :=
  if (id <=? 0)%Z then db
  else db <| ad_audiences := (remove (fun a => (sa_ID a =? id)%Z) (ad_audiences db)).1 |>.

Definition SandboxServiceDefaultAudienceContains (githubAccountID : Z) (accountType : string) (db : accountDB) : bool :=
  let accountType := normalizeGitHubAccountType accountType in
  if (githubAccountID <=? 0)%Z || bool_decide (accountType = "") then false
  else Nat.ltb 0 (countb (has_key (accountType, githubAccountID)) (rs_rows (ad_audiences db))).
