(* ===== verification/AccountSafety.v ===== *)
(** * The invariant of the account tables

    [account_step] is one committed operation; [account_ok] holds in every state they
    reach.  Identities and accounts belong together in both directions, also when two
    sign-ins of the same new user race. *)

From stdpp Require Import base gmap list strings sorting relations.
From S2P Require Import Prelude GoStrings Query Rows AccountModel AccountStore.

(** ** Well-formed tables *)

Definition is_role (role : string) : Prop := role = "admin" \/ role = "user".

Definition is_account_type (t : string) : Prop := t = "user" \/ t = "organization".

(** A key part: trimmed, in lower case, not empty. *)
Definition is_part (s : string) : Prop := ToLower (TrimSpace s) = s /\ s <> "".

Record people_ok (A : rowset Account) (I : rowset OAuthIdentity) : Prop := {
  pk_accounts : ids_ok A;
  pk_identities : rows_ok I;
  pk_roles : forall a, a ∈ rs_rows A -> is_role (ac_Role a);
  pk_linked : forall i, i ∈ rs_rows I -> exists a, a ∈ rs_rows A /\ ac_ID a = oi_AccountID i;
  pk_owned : forall a, a ∈ rs_rows A -> exists i, i ∈ rs_rows I /\ oi_AccountID i = ac_ID a;
  pk_named : forall i, i ∈ rs_rows I -> oi_OAuthProvider i <> "" /\ oi_OAuthSubject i <> "" /\ oi_OAuthLogin i <> ""
}.

Definition owner_ok (id : Z) (o : githubInstallationOwnerRecord) : Prop :=
  go_InstallationID o = id /\ (0 < id)%Z /\ (0 < go_GitHubAccountID o)%Z /\ is_account_type (go_AccountType o) /\ go_AccountLogin o <> "".

Record installed_ok (T : rowset githubInstallationRecord) (O : gmap Z githubInstallationOwnerRecord) : Prop := {
  in_rows : rows_ok T;
  in_owners : map_Forall owner_ok O;
  in_installations : forall r, r ∈ rs_rows T -> (0 < gr_AccountID r)%Z /\ (0 < gr_InstallationID r)%Z;
  in_owned : forall r, r ∈ rs_rows T -> has_owner r = true -> gr_AccountLogin r <> "" -> is_Some (O !! gr_InstallationID r)
}.

Definition secret_ok (s : AccountSecret) : Prop :=
  is_part (as_ScopeType s) /\ (0 < as_ScopeID s)%Z /\ is_part (as_KeyType s) /\ as_EncryptedValue s <> "".

Definition preference_ok (p : AccountPreference) : Prop :=
  is_part (ap_ScopeType p) /\ (0 < ap_ScopeID p)%Z /\ is_part (ap_Namespace p) /\ is_part (ap_Key p) /\ ap_ValueJSON p <> "".

Definition default_ok (d : SandboxServiceDefault) : Prop :=
  sd_ID d = sandboxServiceDefaultID /\
  (sd_AudienceMode d = SandboxServiceDefaultAudienceModeAll \/ sd_AudienceMode d = SandboxServiceDefaultAudienceModeSelected) /\
  (sd_APIKeyEncrypted d <> "" -> is_Some (sd_APIKeyUpdatedAt d)).

Definition audience_ok (a : SandboxServiceDefaultAudience) : Prop :=
  (0 < sa_GitHubAccountID a)%Z /\ is_account_type (sa_AccountType a).

(** A table under a unique index, all rows of which satisfy [P]. *)
Definition table_ok {R K} `{!Row R, !Key R K} (P : R -> Prop) (t : rowset R) : Prop :=
  rows_ok t /\ forall r, r ∈ rs_rows t -> P r.

Record account_ok (db : accountDB) : Prop := {
  ok_people : people_ok (ad_accounts db) (ad_identities db);
  ok_audit : ids_ok (ad_audit db);
  ok_installed : installed_ok (ad_installations db) (ad_owners db);
  ok_secrets : table_ok secret_ok (ad_secrets db);
  ok_preferences : table_ok preference_ok (ad_preferences db);
  ok_default : forall d, ad_default db = Some d -> default_ok d;
  ok_audiences : table_ok audience_ok (ad_audiences db)
}.

(** ** Committed operations *)

(** What a transaction read may be older than what it writes; identities stay. *)
Definition seen_before (seen db : accountDB) : Prop :=
  forall i, i ∈ rs_rows (ad_identities seen) ->
  exists j, j ∈ rs_rows (ad_identities db) /\ oi_ID j = oi_ID i /\ row_key j = row_key i /\ oi_AccountID j = oi_AccountID i.

Inductive account_step (db : accountDB) : accountDB -> Prop :=
| step_role actor account role auditActor now db' a :
    is_role role -> updateAccountRoleWithAuditOnce actor account role auditActor now db = Ok (db', a) -> account_step db db'
| step_identity provider subject login role createdAt updateExisting accountID now seen db' saved :
    provider <> "" -> subject <> "" -> login <> "" -> (accountID = 0%Z -> is_role role) ->
    (updateExisting = true -> accountID = 0%Z) -> seen_before seen db ->
    saveOAuthIdentityOnce provider subject login role createdAt updateExisting accountID now seen db = Ok (db', saved) ->
    account_step db db'
| step_audit event now : account_step db (appendAuditEvent event now db).1
| step_installation installation now db' saved :
    UpsertGitHubInstallation installation now db = Ok (db', saved) -> account_step db db'
| step_uninstall accountID id db' : DeleteGitHubInstallation accountID id db = Ok db' -> account_step db db'
| step_owner installationID owner now db' saved :
    UpsertGitHubInstallationOwner installationID owner now db = Ok (db', saved) -> account_step db db'
| step_secret secret now db' saved : upsertAccountSecret secret now db = Ok (db', saved) -> account_step db db'
| step_forget_secret scopeType scopeID keyType db' :
    deleteAccountSecret scopeType scopeID keyType db = Ok db' -> account_step db db'
| step_preference preference now db' saved :
    upsertAccountPreference preference now db = Ok (db', saved) -> account_step db db'
| step_forget_preference scopeType scopeID namespace key db' :
    DeleteAccountPreference scopeType scopeID namespace key db = Ok db' -> account_step db db'
| step_preference_secrets preference secrets now db' saved :
    UpsertAccountPreferenceAndSecrets preference secrets now db = Ok (db', saved) -> account_step db db'
| step_preference_secret preference secret now db' saved :
    UpsertAccountPreferenceAndSecret preference secret now db = Ok (db', saved) -> account_step db db'
| step_preference_forget preference secret now db' saved :
    UpsertAccountPreferenceAndDeleteSecret preference secret now db = Ok (db', saved) -> account_step db db'
| step_default config now : account_step db (UpsertSandboxServiceDefault config now db).1
| step_default_keep config now db' saved :
    UpdateSandboxServiceDefaultPreservingAPIKey config now db = Ok (db', saved) -> account_step db db'
| step_default_forget now : account_step db (DeleteSandboxServiceDefaultAPIKey now db)
| step_audience audience now db' saved :
    UpsertSandboxServiceDefaultAudience audience now db = Ok (db', saved) -> account_step db db'
| step_audience_delete id : account_step db (DeleteSandboxServiceDefaultAudience id db).

Definition account_reachable : accountDB -> Prop := rtc account_step accountDB0.

(** ** Preservation *)

Lemma is_part_normal s : ToLower (TrimSpace s) <> "" -> is_part (ToLower (TrimSpace s)).
Proof. intros H. split; [apply normal_idem|done]. Qed.

Lemma is_account_type_normal t : normalizeGitHubAccountType t <> "" -> is_account_type (normalizeGitHubAccountType t).
Proof. destruct (normalizeGitHubAccountType_cases t) as [->|[->| ->]]; [by left|by right|done]. Qed.

Lemma found_Ok {A} (o : option A) a : found o = Ok a <-> o = Some a.
Proof. destruct o; simpl; split; congruence. Qed.

Section tables.
Context {R K : Type} `{!EqDecision K, !Row R, !Key R K} (P : R -> Prop).

Lemma table_ok_empty : table_ok P no_rows.
Proof. split; [apply rows_ok_empty|]. by intros r ?%elem_of_nil. Qed.

Lemma table_ok_upsert merge r t : table_ok P t ->
  (forall old, row_id (merge old r) = row_id old /\ row_key (merge old r) = row_key old) ->
  (forall old, P old -> row_key old = row_key r -> P (merge old r)) -> (forall i, P (with_id i r)) ->
  table_ok P (upsert merge r t).1.
Proof.
  intros [Ho Ht] Hm Hold Hnew. split; [by apply upsert_ok|].
  intros x [[Hx _]|[(old & H1 & H2 & ->)| ->]]%elem_of_upsert; auto.
Qed.

Lemma table_ok_remove p t : table_ok P t -> table_ok P (remove p t).1.
Proof. intros [Ho Ht]. split; [by apply remove_ok|]. intros x [Hx _]%elem_of_remove. auto. Qed.
End tables.

(** The components of a statement. *)
Ltac name_statement :=
  repeat match goal with
  | H : context [match ?p with (x, y) => _ end] |- _ =>
      lazymatch p with (_, _) => fail | _ => idtac end; rewrite (surjective_pairing p) in H; cbv iota beta in H
  end.

Lemma secret_step secret now db db' saved : upsertAccountSecret secret now db = Ok (db', saved) ->
  exists t, db' = db <| ad_secrets := t |> /\ (table_ok secret_ok (ad_secrets db) -> table_ok secret_ok t).
Proof.
  unfold upsertAccountSecret. intros H. inv_ok H. bool_prop. name_statement. injection H as <- <-.
  eexists. split; [reflexivity|]. intros Ht.
  apply table_ok_upsert; [done|done| |].
  - intros old (H1 & H2 & H3 & H4) _. repeat split; try apply H1; try apply H3; done.
  - intros i. split; [by apply is_part_normal|]. split; [cbn [as_ScopeID ap_ScopeID with_id row_AccountSecret row_AccountPreference field_update]; lia|]. split; [by apply is_part_normal|done].
Qed.

Lemma preference_step preference now db db' saved : upsertAccountPreference preference now db = Ok (db', saved) ->
  exists t, db' = db <| ad_preferences := t |> /\ (table_ok preference_ok (ad_preferences db) -> table_ok preference_ok t).
Proof.
  unfold upsertAccountPreference. intros H. inv_ok H. bool_prop. name_statement. injection H as <- <-.
  eexists. split; [reflexivity|]. intros Ht.
  apply table_ok_upsert; [done|done| |].
  - intros old (H1 & H2 & H3 & H4 & H5) _. repeat split; try apply H1; try apply H3; try apply H4; done.
  - intros i. split; [by apply is_part_normal|]. split; [cbn [as_ScopeID ap_ScopeID with_id row_AccountSecret row_AccountPreference field_update]; lia|]. split; [by apply is_part_normal|].
    split; [by apply is_part_normal|done].
Qed.

Lemma deleteAccountSecret_Ok scopeType scopeID keyType db db' : deleteAccountSecret scopeType scopeID keyType db = Ok db' ->
  exists p, db' = db <| ad_secrets := (remove p (ad_secrets db)).1 |>.
Proof. unfold deleteAccountSecret. intros H. inv_ok H. name_statement. inv_ok H. injection H as <-. by eexists. Qed.

Lemma secrets_step secrets now db db' : upsertAccountSecrets secrets now db = Ok db' ->
  exists t, db' = db <| ad_secrets := t |> /\ (table_ok secret_ok (ad_secrets db) -> table_ok secret_ok t).
Proof.
  revert db. induction secrets as [|s l IH]; intros db; simpl.
  - intros [= <-]. exists (ad_secrets db). split; [by destruct db|done].
  - intros ((db1 & x) & H1 & H2)%result_bind_Ok. apply secret_step in H1 as (t1 & -> & T1).
    apply IH in H2 as (t2 & -> & T2). exists t2. split; [done|]. intros Ht. by apply T2, T1.
Qed.

Lemma owner_step installationID owner now db db' o : upsertGitHubInstallationOwner installationID owner now db = Ok (db', o) ->
  owner_ok installationID o /\ db' = db <| ad_owners := <[installationID := o]> (ad_owners db) |>.
Proof.
  unfold upsertGitHubInstallationOwner. intros H. inv_ok H. bool_prop. injection H as <- <-. split; [|done].
  repeat split; cbn; [lia|lia|by apply is_account_type_normal|done].
Qed.

Lemma installed_ok_owner T O id o : installed_ok T O -> owner_ok id o -> installed_ok T (<[id := o]> O).
Proof.
  intros [Hr Ho Hi Hw] Hok. split; [done|by apply map_Forall_insert_2|done|].
  intros r Hin H1 H2. destruct (decide (gr_InstallationID r = id)) as [->|N]; [by rewrite lookup_insert_eq|].
  rewrite lookup_insert_ne by done. by apply Hw.
Qed.

Lemma installed_ok_upsert T O r : installed_ok T O -> (0 < gr_AccountID r)%Z -> (0 < gr_InstallationID r)%Z ->
  (has_owner r = true -> gr_AccountLogin r <> "" -> is_Some (O !! gr_InstallationID r)) ->
  installed_ok (upsert mergeInstallation r T).1 O.
Proof.
  intros [Hr Ho Hi Hw] H1 H2 H3. split; [by apply upsert_ok|done| |].
  - intros x [[Hx _]|[(old & Hx & _ & ->)| ->]]%elem_of_upsert; [by apply Hi|by apply (Hi old)|done].
  - intros x [[Hx _]|[(old & Hx & Hk & ->)| ->]]%elem_of_upsert; [by apply Hw| |done].
    intros A B. assert (gr_InstallationID (mergeInstallation old r) = gr_InstallationID r) as ->.
    { by injection Hk. }
    by apply H3.
Qed.

Lemma installed_ok_remove T O p : installed_ok T O -> installed_ok (remove p T).1 O.
Proof.
  intros [Hr Ho Hi Hw]. split; [by apply remove_ok|done| |]; intros x [Hx _]%elem_of_remove; auto.
Qed.

Lemma installation_step installation now db db' saved : UpsertGitHubInstallation installation now db = Ok (db', saved) ->
  exists T O, db' = db <| ad_installations := T |> <| ad_owners := O |> /\
    (installed_ok (ad_installations db) (ad_owners db) -> installed_ok T O).
Proof.
  unfold UpsertGitHubInstallation. intros H. inv_ok H. bool_prop. name_statement.
  match goal with H : context [upsert mergeInstallation ?r _] |- _ => set (record := r) in * end.
  destruct (_ && _) eqn:Eo.
  - apply result_bind_Ok in H as ((db1 & o) & H1 & H2). apply owner_step in H1 as [Hok ->].
    injection H2 as <- <-. eexists _, _. split; [by destruct db|]. intros Hi.
    cbn [ad_installations ad_owners field_update]. apply installed_ok_upsert; [by apply installed_ok_owner|cbn; lia|cbn; lia|].
    intros _ _. cbn. by rewrite lookup_insert_eq; eexists.
  - injection H as <- <-. eexists _, (ad_owners db). split; [reflexivity|]. intros Hi.
    apply installed_ok_upsert; [done|cbn; lia|cbn; lia|]. intros A B. exfalso.
    unfold has_owner in A. rewrite A in Eo. bool_prop. by destruct Eo; bool_prop.
Qed.

(** *** Accounts and identities *)

Lemma people_update p f A I : people_ok A I -> (forall a, ac_ID (f a) = ac_ID a) -> (forall a, is_role (ac_Role (f a))) ->
  people_ok (update p f A).1 I.
Proof.
  intros [Ha Hi Hr Hl Ho Hn] Hid Hrole. split; [by apply update_ids_ok|done| | | |done].
  - intros a [[Hin _]|(b & Hin & _ & ->)]%elem_of_update; auto.
  - intros i (a & Hin & E)%Hl. exists (if p a then f a else a). split.
    + cbn. apply list_elem_of_fmap. by exists a.
    + destruct (p a); [by rewrite Hid|done].
  - intros a [[Hin _]|(b & Hin & _ & ->)]%elem_of_update; [auto|]. rewrite Hid. auto.
Qed.

Lemma people_login p A I login now : people_ok A I -> login <> "" ->
  people_ok A (update p (fun i => i <| oi_OAuthLogin := login |> <| oi_UpdatedAt := now |>) I).1.
Proof.
  intros [Ha Hi Hr Hl Ho Hn] Hlogin. split; [done|by apply update_ok|done| | |].
  - intros i [[Hin _]|(b & Hin & _ & ->)]%elem_of_update; auto. by destruct (Hl b Hin) as (a & H1 & H2); exists a.
  - intros a (i & Hin & E)%Ho. exists (if p i then i <| oi_OAuthLogin := login |> <| oi_UpdatedAt := now |> else i).
    split; [cbn; apply list_elem_of_fmap; by exists i|]. by destruct (p i).
  - intros i [[Hin _]|(b & Hin & _ & ->)]%elem_of_update; [auto|]. by destruct (Hn b Hin) as (? & ? & ?).
Qed.

(** A new identity, of an account that exists after the statement. *)
Lemma people_identity A I row : ids_ok A -> rows_ok I -> get_key (row_key row) I = None ->
  (forall a, a ∈ rs_rows A -> is_role (ac_Role a)) ->
  (forall i, i ∈ rs_rows I -> exists a, a ∈ rs_rows A /\ ac_ID a = oi_AccountID i) ->
  (forall a, a ∈ rs_rows A -> ac_ID a = oi_AccountID row \/ exists i, i ∈ rs_rows I /\ oi_AccountID i = ac_ID a) ->
  (forall i, i ∈ rs_rows I -> oi_OAuthProvider i <> "" /\ oi_OAuthSubject i <> "" /\ oi_OAuthLogin i <> "") ->
  (exists a, a ∈ rs_rows A /\ ac_ID a = oi_AccountID row) ->
  oi_OAuthProvider row <> "" /\ oi_OAuthSubject row <> "" /\ oi_OAuthLogin row <> "" ->
  people_ok A (append row I).1.
Proof.
  intros Ha Hi Hk Hr Hl Ho Hn Ht Hnew. split; [done|by apply append_rows_ok|done| | |].
  - intros i [Hin| ->]%elem_of_append; [auto|]. done.
  - intros a [E|(i & Hin & E)]%Ho.
    + exists (with_id (rs_next I) row). split; [apply elem_of_append; by right|done].
    + exists i. split; [apply elem_of_append; by left|done].
  - intros i [Hin| ->]%elem_of_append; [auto|done].
Qed.

(** The account made for an identity that another transaction inserted first is deleted again. *)
Lemma people_burn A I a : people_ok A I ->
  people_ok (remove (fun x => (ac_ID x =? rs_next A)%Z) (append a A).1).1 I.
Proof.
  intros [Ha Hi Hr Hl Ho Hn].
  assert (Hrows : forall x, x ∈ rs_rows (remove (fun x => (ac_ID x =? rs_next A)%Z) (append a A).1).1 <-> x ∈ rs_rows A).
  { intros x. rewrite elem_of_remove, elem_of_append. split.
    - intros [[Hx| ->] E]; [done|]. cbn in E. by rewrite Z.eqb_refl in E.
    - intros Hx. split; [by left|]. destruct Ha as [_ Hrange _]. specialize (Hrange x Hx). cbn in Hrange. lia. }
  split; [by apply remove_ids_ok, append_ids_ok|done| | | |done].
  - intros x Hx%Hrows. auto.
  - intros i (x & Hx & E)%Hl. exists x. by rewrite Hrows.
  - intros x Hx%Hrows. auto.
Qed.

Lemma refresh_step row login role updateExisting accountID now db db' saved :
  people_ok (ad_accounts db) (ad_identities db) -> login <> "" -> (accountID = 0%Z -> is_role role) ->
  (updateExisting = true -> accountID = 0%Z) ->
  refreshIdentity row login role updateExisting accountID now db = Ok (db', saved) ->
  exists A I, db' = db <| ad_accounts := A |> <| ad_identities := I |> /\ people_ok A I.
Proof.
  intros Hp Hlogin Hrole Hup H. unfold refreshIdentity in H. inv_ok H. cbv zeta in H.
  apply result_bind_Ok in H as (x & _ & H). injection H as <- <-.
  destruct updateExisting; eexists _, _; (split; [reflexivity|]).
  - apply people_update; [by apply people_login|done|]. intros a. by apply Hrole, Hup.
  - by apply people_login.
Qed.

Lemma create_None {R K} `{!EqDecision K, !Row R, !Key R K} (r : R) t : create r t = None -> is_Some (get_key (row_key r) t).
Proof. unfold create. destruct (get_key _ t); [by eexists|done]. Qed.

Lemma create_Some {R K} `{!EqDecision K, !Row R, !Key R K} (r : R) t t' r' : create r t = Some (t', r') ->
  get_key (row_key r) t = None /\ t' = (append r t).1 /\ r' = with_id (rs_next t) r.
Proof. unfold create. destruct (get_key _ t); [done|]. by intros [= <- <-]. Qed.

Lemma save_step provider subject login role createdAt updateExisting accountID now seen db db' saved :
  people_ok (ad_accounts db) (ad_identities db) -> provider <> "" -> subject <> "" -> login <> "" ->
  (accountID = 0%Z -> is_role role) -> (updateExisting = true -> accountID = 0%Z) ->
  saveOAuthIdentityOnce provider subject login role createdAt updateExisting accountID now seen db = Ok (db', saved) ->
  exists A I, db' = db <| ad_accounts := A |> <| ad_identities := I |> /\ people_ok A I.
Proof.
  intros Hp H1 H2 H3 Hrole Hup H. unfold saveOAuthIdentityOnce in H.
  destruct (get_key _ (ad_identities seen)) as [row|]; [by eapply refresh_step|].
  apply result_bind_Ok in H as ([[db1 target] created] & Ht & H). unfold targetAccount in Ht.
  destruct (accountID =? 0)%Z eqn:Eid.
  - injection Ht as <- <- <-. destruct (create _ _) as [[t row]|] eqn:Ec.
    + apply create_Some in Ec as (Hk & -> & ->). cbn [ad_identities field_update] in Hk.
      apply result_bind_Ok in H as (x & _ & H). injection H as <- <-.
      exists (append (MkAccount 0 role now now) (ad_accounts db)).1. eexists. split; [reflexivity|].
      destruct Hp as [Ha Hi Hr Hl Ho Hn].
      apply people_identity; [by apply append_ids_ok|done|done| | | |done| |done].
      * intros a [Hin| ->]%elem_of_append; [auto|]. apply Hrole. lia.
      * intros i (a & Hin & E)%Hl. exists a. split; [apply elem_of_append; by left|done].
      * intros a [Hin| ->]%elem_of_append; [right; auto|by left].
      * eexists. split; [apply elem_of_append; by right|done].
    + cbn [negb] in H. assert (Hz : negb (rs_next (ad_accounts db) =? 0)%Z = true).
      { destruct Hp as [[_ _ Hn] _ _ _ _ _]. apply negb_true_iff, Z.eqb_neq. lia. }
      rewrite Hz in H. destruct (get_key _ _) as [row|]; [|done].
      eapply refresh_step in H as (A & I & -> & Hok); [by eexists A, I| |done|done|done].
      by apply (people_burn _ _ (MkAccount 0 role now now)).
  - apply result_bind_Ok in Ht as (a & Ha%found_Ok & Ht). injection Ht as <- <- <-.
    destruct (create _ _) as [[t row]|] eqn:Ec.
    + apply create_Some in Ec as (Hk & -> & ->). apply result_bind_Ok in H as (x & _ & H). injection H as <- <-.
      exists (ad_accounts db). eexists. split; [reflexivity|]. pose proof Hp as [Hids Hi Hr Hl Ho Hn].
      apply get_id_Some in Ha as [Hin E]. apply people_identity; auto. by exists a.
    + cbn [negb] in H. destruct (get_key _ _) as [row|]; [|done]. by eapply refresh_step.
Qed.

Lemma role_step actor account role auditActor now db db' a :
  updateAccountRoleWithAuditOnce actor account role auditActor now db = Ok (db', a) ->
  db' = db \/ exists target event, ids_ok (ad_audit db) ->
    db' = (setRole target role now db).1 <| ad_audit := (append event (ad_audit db)).1 |>.
Proof.
  unfold updateAccountRoleWithAuditOnce. intros H.
  apply result_bind_Ok in H as (x & _ & H). inv_ok H. apply result_bind_Ok in H as (target & _ & H). inv_ok H.
  destruct (bool_decide _); [injection H as <- _; by left|]. right. inv_ok H. name_statement. inv_ok H. name_statement.
  injection H as <- _. exists target. eexists. intros _. reflexivity.
Qed.

Lemma audience_mode_ok value :
  normalizeSandboxServiceDefaultAudienceMode value = SandboxServiceDefaultAudienceModeAll \/
  normalizeSandboxServiceDefaultAudienceMode value = SandboxServiceDefaultAudienceModeSelected.
Proof. unfold normalizeSandboxServiceDefaultAudienceMode. destruct (EqualFold _ _); auto. Qed.

Lemma default_step config now db d : (forall d, ad_default db = Some d -> default_ok d) ->
  ad_default (UpsertSandboxServiceDefault config now db).1 = Some d -> default_ok d.
Proof.
  intros Hd [= <-]. destruct (ad_default db) as [old|] eqn:E.
  - destruct (Hd old eq_refl) as (H1 & H2 & H3). unfold mergeDefault. cbn [sd_APIKeyEncrypted].
    destruct (bool_decide _) eqn:Ek; (split; [exact H1|]); (split; [apply audience_mode_ok|]); [exact H3|].
    intros _. by destruct (sd_APIKeyUpdatedAt config).
  - split; [done|]. split; [apply audience_mode_ok|]. cbn [sd_APIKeyEncrypted sd_APIKeyUpdatedAt]. intros N.
    rewrite bool_decide_false by done. by destruct (sd_APIKeyUpdatedAt config).
Qed.

Lemma keep_step config now db db' saved : (forall d, ad_default db = Some d -> default_ok d) ->
  UpdateSandboxServiceDefaultPreservingAPIKey config now db = Ok (db', saved) ->
  exists d, db' = db <| ad_default := Some d |> /\ default_ok d.
Proof.
  intros Hd H. unfold UpdateSandboxServiceDefaultPreservingAPIKey in H. destruct (ad_default db) as [old|] eqn:E; [|done].
  inv_ok H. injection H as <- <-. eexists. split; [reflexivity|]. destruct (Hd old eq_refl) as (H1 & H2 & H3).
  split; [exact H1|]. split; [apply audience_mode_ok|exact H3].
Qed.

Lemma audience_step audience now db db' saved :
  UpsertSandboxServiceDefaultAudience audience now db = Ok (db', saved) ->
  exists t, db' = db <| ad_audiences := t |> /\ (table_ok audience_ok (ad_audiences db) -> table_ok audience_ok t).
Proof.
  unfold UpsertSandboxServiceDefaultAudience. intros H. inv_ok H. bool_prop. name_statement. injection H as <- <-.
  eexists. split; [reflexivity|]. intros Ht. apply table_ok_upsert; [done|done|by intros old|].
  intros i. split; [cbn; lia|by apply is_account_type_normal].
Qed.

Lemma account_step_ok db db' : account_ok db -> account_step db db' -> account_ok db'.
Proof.
  intros [Hp Ha Hi Hs Hf Hd Hu] Hstep. destruct Hstep.
  - apply role_step in H0 as [->|(target & event & ->)]; [done| |done].
    split; cbn [setRole fst ad_audit ad_accounts ad_identities ad_installations ad_owners ad_secrets ad_preferences ad_default ad_audiences field_update];
      auto using append_ids_ok. by apply people_update.
  - eapply save_step in H5 as (A & I & -> & Hok); done.
  - split; try done. by apply append_ids_ok.
  - apply installation_step in H as (T & O & -> & HT). split; try done. by apply HT.
  - unfold DeleteGitHubInstallation in H. inv_ok H. name_statement. inv_ok H. injection H as <-.
    split; try done. by apply installed_ok_remove.
  - unfold UpsertGitHubInstallationOwner in H. apply result_bind_Ok in H as ((db1 & o) & H1 & H2).
    injection H2 as <- <-. apply owner_step in H1 as [Hok ->]. split; try done. by apply installed_ok_owner.
  - apply secret_step in H as (t & -> & Ht). split; try done. by apply Ht.
  - apply deleteAccountSecret_Ok in H as (p & ->). split; try done. by apply table_ok_remove.
  - apply preference_step in H as (t & -> & Ht). split; try done. by apply Ht.
  - unfold DeleteAccountPreference in H. inv_ok H. name_statement. inv_ok H. injection H as <-.
    split; try done. by apply table_ok_remove.
  - apply result_bind_Ok in H as ((db1 & p) & H1 & H). apply result_bind_Ok in H as (db2 & H2 & H). injection H as <- <-.
    apply preference_step in H1 as (t & -> & Ht). apply secrets_step in H2 as (s & -> & Hs').
    split; try done; [by apply Hs'|by apply Ht].
  - apply result_bind_Ok in H as ((db1 & p) & H1 & H). apply preference_step in H1 as (t & -> & Ht).
    destruct secret as [s|]; [|injection H as <- <-; split; try done; by apply Ht].
    apply result_bind_Ok in H as ((db2 & x) & H2 & H). injection H as <- <-. apply secret_step in H2 as (u & -> & Hu').
    split; try done; [by apply Hu'|by apply Ht].
  - apply result_bind_Ok in H as ((db1 & p) & H1 & H). apply preference_step in H1 as (t & -> & Ht).
    destruct (deleteAccountSecret _ _ _ _) as [db2|e] eqn:Ed.
    + injection H as <- <-. apply deleteAccountSecret_Ok in Ed as (q & ->).
      split; try done; [by apply table_ok_remove|by apply Ht].
    + assert (db' = db <| ad_preferences := t |>) as -> by (destruct e; try discriminate H; by injection H).
      split; try done. by apply Ht.
  - split; try done. intros d. by apply default_step.
  - apply keep_step in H as (d & -> & Hok); [|done]. split; try done. by intros ? [= <-].
  - split; try done. intros d. cbn [DeleteSandboxServiceDefaultAPIKey ad_default field_update].
    intros (old & E & ->)%fmap_Some. destruct (Hd old E) as (H1 & H2 & H3). by split.
  - apply audience_step in H as (t & -> & Ht). split; try done. by apply Ht.
  - unfold DeleteSandboxServiceDefaultAudience. destruct (id <=? 0)%Z; [by split|].
    split; try done. by apply table_ok_remove.
Qed.

Lemma account_ok_empty : account_ok accountDB0.
Proof.
  split; cbn; try apply table_ok_empty; try apply ids_ok_empty; [| |done].
  - split; [apply ids_ok_empty|apply rows_ok_empty|by intros ? ?%elem_of_nil..].
  - split; [apply rows_ok_empty|apply map_Forall_empty|by intros ? ?%elem_of_nil..].
Qed.

(** C9: In every state that the store's operations reach from an empty database, racing sign-ins
    included: ids are unique and growing, every unique index holds, every account has a
    role and at least one identity, every identity belongs to an account, identities,
    secrets and preferences have non-empty normalised keys, every installation with a
    known GitHub owner has an owner record, and the default service and its audience are
    well formed. *)
Theorem account_store_invariant db : account_reachable db -> account_ok db.
Proof.
  intros H. unfold account_reachable in H. revert H. generalize account_ok_empty.
  intros H0 H. revert H0. induction H; eauto using account_step_ok.
Qed.

(** ** Sign-in *)

Lemma attempts_Ok {A} n (once : nat -> result A) i e j a : attempts n once i e = Ok (j, a) ->
  i <= j < i + n /\ once j = Ok a /\ forall k, i <= k < j -> exists err, once k = Err err /\ isTransientStoreError err = true.
Proof.
  revert i e. induction n as [|n IH]; intros i e; simpl; [done|].
  destruct (once i) as [x|err] eqn:E.
  - intros [= <- <-]. split; [lia|]. split; [done|]. intros k ?. lia.
  - destruct (isTransientStoreError err) eqn:T; [|done]. intros (H1 & H2 & H3)%IH.
    split; [lia|]. split; [done|]. intros k Hk. destruct (decide (k = i)) as [->|N]; [by exists err|].
    apply H3. lia.
Qed.

Lemma tried_Ok {A} m (body : result A) a : tried m body = Ok a -> at_fault m = None /\ body = Ok a.
Proof. unfold tried. by destruct (at_fault m). Qed.

(** The outcome of a sign-in for the account that the tables show for the identity. *)
Definition signed_in (key : string * string) (role : string) (db db' : accountDB) (account : Account) : Prop :=
  (forall a, a ∈ rs_rows (ad_accounts db) -> get_id (ac_ID a) (ad_accounts db') = Some a) /\
  (exists row, get_key key (ad_identities db') = Some row /\ get_id (oi_AccountID row) (ad_accounts db') = Some account) /\
  match get_key key (ad_identities db) with
  | Some row => get_id (oi_AccountID row) (ad_accounts db) = Some account
  | None => get_id (ac_ID account) (ad_accounts db) = None /\ ac_Role account = role
  end.

Lemma get_id_append_old {R} `{!Row R} (t : rowset R) r a : ids_ok t -> a ∈ rs_rows t -> get_id (row_id a) (append r t).1 = Some a.
Proof. intros Ho Ha. apply get_id_of; [by apply append_ids_ok|]. apply elem_of_append. by left. Qed.

Lemma get_id_fresh {R} `{!Row R} (t : rowset R) : ids_ok t -> get_id (rs_next t) t = None.
Proof.
  intros [_ Hr _]. destruct (get_id (rs_next t) t) as [a|] eqn:E; [|done]. apply get_id_Some in E as [H1 H2].
  specialize (Hr a H1). lia.
Qed.

(** The identity is there when the transaction looks for it. *)
Lemma refreshed row row' key login role now db db' account saved : account_ok db ->
  get_key key (ad_identities db) = Some row' -> oi_AccountID row' = oi_AccountID row ->
  refreshIdentity row login role false 0 now db = Ok (db', (account, saved)) ->
  signed_in key role db db' account.
Proof.
  intros [[Ha Hi _ _ _ _] _ _ _ _ _ _] Hk Eacc H. unfold refreshIdentity in H. cbn [negb andb Z.eqb] in H.
  apply result_bind_Ok in H as (x & Hx & H). injection H as <- ->.
  unfold accountFromIdentity in Hx. apply result_bind_Ok in Hx as (y & Hy%found_Ok & E). injection E as -> _.
  cbn [setLogin ad_accounts oi_AccountID field_update] in Hy. split; [|split].
  - intros a Hin. exact (get_id_of (ad_accounts db) a Ha Hin).
  - eexists. split; [cbn [setLogin ad_identities field_update]; rewrite get_key_update by done; rewrite Hk; reflexivity|].
    cbn [setLogin ad_accounts field_update]. rewrite <-Hy, <-Eacc. by destruct (_ =? _)%Z.
  - rewrite Hk, Eacc. exact Hy.
Qed.

(** The tables after the account of a lost race was deleted. *)
Lemma burn_rows A (a : Account) : ids_ok A ->
  rs_rows (remove (fun x => (ac_ID x =? rs_next A)%Z) (append a A).1).1 = rs_rows A.
Proof.
  intros [_ Hr _]. cbn [remove append fst rs_rows]. rewrite List.filter_app. cbn.
  rewrite Z.eqb_refl, app_nil_r. apply bfilter_all. intros x Hx. specialize (Hr x Hx). cbn in Hr.
  apply negb_true_iff, Z.eqb_neq. lia.
Qed.

Definition burned (a : Account) (db : accountDB) : accountDB :=
  db <| ad_accounts := (remove (fun x => (ac_ID x =? rs_next (ad_accounts db))%Z) (append a (ad_accounts db)).1).1 |>.

Lemma account_ok_burn db a : account_ok db -> account_ok (burned a db).
Proof. intros [Hp Ha Hi Hs Hf Hd Hu]. split; try done. by apply people_burn. Qed.

Lemma signed_in_burned a key role db db' account : ids_ok (ad_accounts db) ->
  signed_in key role (burned a db) db' account -> signed_in key role db db' account.
Proof.
  intros Ha. unfold signed_in, get_id, find_row. cbn [burned ad_accounts ad_identities field_update].
  by rewrite burn_rows.
Qed.

Lemma signed_in_once provider subject login role createdAt now seen db db' account saved :
  account_ok db -> seen_before seen db ->
  saveOAuthIdentityOnce provider subject login role createdAt false 0 now seen db = Ok (db', (account, saved)) ->
  signed_in (provider, subject) role db db' account.
Proof.
  intros Hok Hseen H. pose proof Hok as [[Ha Hi _ _ _ _] _ _ _ _ _ _]. unfold saveOAuthIdentityOnce in H.
  destruct (get_key _ (ad_identities seen)) as [row|] eqn:Es.
  { apply get_key_Some in Es as [Hin Hk]. destruct (Hseen row Hin) as (row' & Hin' & _ & Hk' & Hacc).
    eapply refreshed; [done| |exact Hacc|done]. rewrite <-Hk, <-Hk'. by apply get_key_of. }
  cbn [targetAccount Z.eqb] in H.
  apply result_bind_Ok in H as ([[db1 target] created] & Ht & H). injection Ht as <- <- <-.
  destruct (create _ _) as [[t row]|] eqn:Ec.
  - apply create_Some in Ec as (Hk & -> & ->). cbn [ad_identities field_update row_key key_OAuthIdentity] in Hk.
    apply result_bind_Ok in H as (x & Hx & H). injection H as <- ->.
    unfold accountFromIdentity in Hx. apply result_bind_Ok in Hx as (y & Hy%found_Ok & E). injection E as -> _.
    split; [|split].
    + intros a Hin. exact (get_id_append_old (ad_accounts db) _ a Ha Hin).
    + eexists. split; [exact (get_key_append (ad_identities db) _ Hk)|exact Hy].
    + cbn [oi_OAuthProvider oi_OAuthSubject] in Hk. rewrite Hk. pose proof Hy as [Hin E]%get_id_Some.
      cbn [ad_accounts field_update rs_rows] in Hin. apply elem_of_app in Hin as [Hin|Hin%list_elem_of_singleton].
      * exfalso. destruct Ha as [_ Hr _]. specialize (Hr account Hin). cbn in E, Hr. lia.
      * subst account. split; [exact (get_id_fresh (ad_accounts db) Ha)|done].
  - cbn [negb] in H. assert (Hz : negb (rs_next (ad_accounts db) =? 0)%Z = true).
    { destruct Ha as [_ _ Hn]. apply negb_true_iff, Z.eqb_neq. lia. }
    rewrite Hz in H. change (match get_key (provider, subject) (ad_identities (burned (MkAccount 0 role now now) db)) with
      | Some row => refreshIdentity row login role false 0 now (burned (MkAccount 0 role now now) db)
      | None => Err ErrRecordNotFound end = Ok (db', (account, saved))) in H.
    destruct (get_key _ (ad_identities (burned _ db))) as [row|] eqn:Ek; [|done].
    eapply signed_in_burned, refreshed; [done|by apply account_ok_burn|exact Ek|reflexivity|exact H].
Qed.

(** Identities stay, so every earlier state is one a transaction may have seen. *)
Lemma seen_before_refl db : seen_before db db.
Proof. intros i Hi. by exists i. Qed.

Lemma seen_before_trans db1 db2 db3 : seen_before db1 db2 -> seen_before db2 db3 -> seen_before db1 db3.
Proof.
  intros H1 H2 i Hi. destruct (H1 i Hi) as (j & Hj & E1 & E2 & E3). destruct (H2 j Hj) as (k & Hk & F1 & F2 & F3).
  exists k. repeat split; [done|congruence..].
Qed.

(** ** An example: an administrator, then a user whose first sign-in raced with itself *)

Definition ex_signed (provider subject login role : string) (updateExisting : bool) (now : Time) (seen db : accountDB) : accountDB :=
  match saveOAuthIdentityOnce provider subject login role 0 updateExisting 0 now seen db with Ok (db', _) => db' | Err _ => db end.

Definition ex_admin : accountDB := ex_signed "github" "1" "alice" "admin" true 10 accountDB0 accountDB0.
Definition ex_user : accountDB := ex_signed "github" "2" "bob" "user" false 20 ex_admin ex_admin.
Definition ex_raced : accountDB := ex_signed "github" "2" "bob" "user" false 30 ex_admin ex_user.

Lemma ex_reachable : account_reachable ex_raced.
Proof.
  assert (Hstep : forall subject login role up now seen db, subject <> "" -> login <> "" -> is_role role -> seen_before seen db ->
            (exists x, saveOAuthIdentityOnce "github" subject login role 0 up 0 now seen db = Ok x) ->
            account_step db (ex_signed "github" subject login role up now seen db)).
  { intros subject login role up now seen db H1 H2 H3 H4 [[db' x] E]. unfold ex_signed. rewrite E.
    by eapply (step_identity db "github" subject login role 0 up 0 now seen). }
  assert (Hb : seen_before ex_admin ex_user).
  { intros i Hi. vm_compute in Hi. apply list_elem_of_singleton in Hi as ->. eexists. split; [left|]. by vm_compute. }
  unfold account_reachable. apply (rtc_l _ _ ex_admin); [|apply (rtc_l _ _ ex_user); [|apply rtc_once]];
    (apply Hstep; [done|done|by (left + right)|done || apply seen_before_refl|]); eexists; vm_compute; reflexivity.
Qed.

Lemma ex_reachable_ok : account_ok ex_raced.
Proof.
  generalize account_ok_empty, ex_reachable. unfold account_reachable. intros H0 H. revert H0.
  induction H; eauto using account_step_ok.
Qed.

Lemma account_store_invariant_witness : account_reachable ex_raced /\ account_ok ex_raced /\
  length (rs_rows (ad_accounts ex_raced)) = 2.
Proof.
  split; [exact ex_reachable|]. split; [exact (account_store_invariant ex_raced ex_reachable)|]. vm_compute. reflexivity.
Defined.
