(* ===== verification/AccountPromises.v ===== *)
(** * What the account store promises its callers

    Sign-in, role changes and the saving of settings, as functions of what the database
    does at each attempt. *)

From stdpp Require Import base gmap list strings sorting relations.
From S2P Require Import Prelude GoStrings Query Rows AccountModel AccountStore AccountSafety.

(** Attempts that find well-formed tables. *)
Definition sound_attempts (moment : nat -> attempt) : Prop :=
  forall n, account_ok (at_db (moment n)) /\ seen_before (at_seen (moment n)) (at_db (moment n)).

(** C20: A sign-in (with racing transactions and up to twenty attempts) leaves every existing
    account with all its columns, its role among them, so it never promotes anyone; the
    account it returns is the one the tables show for the identity afterwards; it is the
    account the identity had before, or, for an identity that was unknown, a new one with
    the requested role.  The tables stay well formed. *)
Theorem sign_in_safe identity role moment i db' account saved :
  sound_attempts moment ->
  EnsureAccountForOAuthIdentity identity role moment = Ok (i, (db', (account, saved))) ->
  i < 20 /\ account_ok db' /\
  signed_in (normalizeOAuthProvider (oi_OAuthProvider identity), normalizeOAuthSubject (oi_OAuthSubject identity))
    (normalizePlatformRole role) (at_db (moment i)) db' account.
Proof.
  intros Hm H. unfold EnsureAccountForOAuthIdentity, saveOAuthIdentity in H. inv_ok H. cbn [Z.eqb andb] in *. bool_prop.
  apply attempts_Ok in H as (Hi & H & _). apply tried_Ok in H as [_ H]. destruct (Hm i) as [Hok Hseen].
  split; [unfold maxAttempts in Hi; lia|]. split; [|by eapply signed_in_once].
  eapply account_step_ok; [exact Hok|]. eapply step_identity; [..|exact Hseen|exact H]; try done.
  intros _. destruct (normalizePlatformRole_cases role) as [->|[->|Hr]]; [by left|by right|congruence].
Qed.

(** The row of an account after the UPDATE of its role. *)
Lemma get_id_setRole target role now db id : ids_ok (ad_accounts db) -> target ∈ rs_rows (ad_accounts db) ->
  get_id id (ad_accounts (setRole target role now db).1) =
  if (id =? ac_ID target)%Z then Some (target <| ac_Role := role |> <| ac_UpdatedAt := now |>) else get_id id (ad_accounts db).
Proof.
  intros Ho Ht. change (ad_accounts (setRole target role now db).1) with
    (update (fun a => (ac_ID a =? ac_ID target)%Z && bool_decide (ac_Role a = ac_Role target))
       (fun a => a <| ac_Role := role |> <| ac_UpdatedAt := now |>) (ad_accounts db)).1. rewrite get_id_update by done.
  destruct (id =? ac_ID target)%Z eqn:E.
  - apply Z.eqb_eq in E as ->. pose proof (get_id_of (ad_accounts db) target Ho Ht) as Hg.
    change (row_id target) with (ac_ID target) in Hg. rewrite Hg. cbn.
    by rewrite Z.eqb_refl, bool_decide_true.
  - destruct (get_id id (ad_accounts db)) as [a|] eqn:Ea; [|done]. apply get_id_Some in Ea as [_ Ea]. cbn in Ea |- *.
    rewrite <-Ea in E. by rewrite E.
Qed.

(** The audit record of a role change. *)
Definition role_event (u : AccountRoleUpdate) (old : Account) (e : AuditEvent) : Prop :=
  ae_Actor e = TrimSpace (ru_AuditActor u) /\ ae_Action e = "account.role.update" /\ ae_ResourceType e = "account" /\
  ae_ResourceID e = TrimSpace (FormatInt (ac_ID old)) /\ ae_PayloadJSON e = rolePayload (ac_Role old) (normalizePlatformRole (ru_Role u)).

Lemma role_once actor account role auditActor now db db' a : account_ok db ->
  updateAccountRoleWithAuditOnce actor account role auditActor now db = Ok (db', a) ->
  exists admin old,
    get_id actor (ad_accounts db) = Some admin /\ ac_Role admin = "admin" /\
    get_id account (ad_accounts db) = Some old /\ account <> actor /\ ac_Role a = role /\
    ((ac_Role old = role /\ a = old /\ db' = db) \/
     (ac_Role old <> role /\ a = old <| ac_Role := role |> <| ac_UpdatedAt := now |> /\
      db' = (setRole old role now db).1 <| ad_audit := ad_audit db' |> /\
      rs_rows (ad_audit db') = rs_rows (ad_audit db) ++
        [MkAuditEvent (rs_next (ad_audit db)) (TrimSpace auditActor) "account.role.update" "account"
           (TrimSpace (FormatInt (ac_ID old))) (rolePayload (ac_Role old) role) now])).
Proof.
  intros Hok H. unfold updateAccountRoleWithAuditOnce in H.
  apply result_bind_Ok in H as (admin & Ha%found_Ok & H). inv_ok H.
  apply result_bind_Ok in H as (old & Ho%found_Ok & H). inv_ok H. unfold is_admin in *. bool_prop.
  pose proof (get_id_Some _ _ _ Ha) as [Hin E1]. pose proof (get_id_Some _ _ _ Ho) as [Hin' E2]. cbn in E1, E2.
  exists admin, old. split; [done|]. split; [done|]. split; [done|]. split; [lia|].
  destruct (bool_decide (ac_Role old = role)) eqn:Er; bool_prop.
  - injection H as <- <-. split; [done|]. by left.
  - inv_ok H. name_statement. inv_ok H. name_statement. injection H as <- <-. split; [done|]. right.
    split; [done|]. split; [done|]. split; [reflexivity|].
    cbn [appendAuditEvent append fst snd ad_audit setRole field_update rs_rows ae_CreatedAt].
    by destruct (IsZero now).
Qed.

(** C21: A successful role change was asked for by another account that is an administrator and
    stays one, so the last administrator is never removed; it happens within twenty
    attempts, in one attempt, sets the role of the named account, leaves every other
    account as it was, and adds exactly one audit record naming the actor, the account
    and both roles; when the account already has the role nothing changes. *)
Theorem role_update_audited u moment i db' a :
  sound_attempts moment ->
  UpdateAccountRoleWithAudit u moment = Ok (i, (db', a)) ->
  let db := at_db (moment i) in
  i < 20 /\ ac_Role a = normalizePlatformRole (ru_Role u) /\ get_id (ru_AccountID u) (ad_accounts db') = Some a /\
  (exists admin, ac_Role admin = "admin" /\ get_id (ru_ActorAccountID u) (ad_accounts db) = Some admin /\
     get_id (ru_ActorAccountID u) (ad_accounts db') = Some admin) /\
  (forall id, id <> ru_AccountID u -> get_id id (ad_accounts db') = get_id id (ad_accounts db)) /\
  exists old, get_id (ru_AccountID u) (ad_accounts db) = Some old /\
    if bool_decide (ac_Role old = ac_Role a) then db' = db
    else exists e, role_event u old e /\ rs_rows (ad_audit db') = rs_rows (ad_audit db) ++ [e].
Proof.
  intros Hm H db. unfold UpdateAccountRoleWithAudit in H. inv_ok H. bool_prop.
  apply attempts_Ok in H as (Hi & H & _). apply tried_Ok in H as [_ H]. destruct (Hm i) as [Hok _].
  apply role_once in H as (admin & old & Ha & Hadm & Ho & Hne & Hrole & Hcase); [|done]. fold db in Hok, Ha, Ho, Hcase.
  split; [unfold maxAttempts in Hi; lia|]. split; [done|].
  pose proof (ok_people _ Hok) as [Hids _ _ _ _ _]. pose proof (get_id_Some _ _ _ Ho) as [Hin Eid]. cbn in Eid.
  destruct Hcase as [(E & -> & ->)|(Hn & Ea & E & Hev)].
  - split; [done|]. split; [by exists admin|]. split; [done|]. exists old. split; [done|]. by rewrite bool_decide_true.
  - assert (Hacc : ad_accounts db' = ad_accounts (setRole old (normalizePlatformRole (ru_Role u)) (at_now (moment i)) db).1).
    { rewrite E. reflexivity. }
    assert (Hget : forall id, id <> ru_AccountID u -> get_id id (ad_accounts db') = get_id id (ad_accounts db)).
    { intros id Hid. rewrite Hacc, get_id_setRole by done. destruct (id =? ac_ID old)%Z eqn:Ei; [lia|done]. }
    split; [rewrite Hacc, get_id_setRole by done; by rewrite (proj2 (Z.eqb_eq _ _)) by lia; rewrite Ea|].
    split; [exists admin; split; [done|]; split; [done|]; rewrite Hget; [done|lia]|]. split; [exact Hget|].
    exists old. split; [done|]. rewrite bool_decide_false by congruence. eexists. split; [|exact Hev].
    repeat split; cbn; by rewrite ?TrimSpace_idem.
Qed.

(** ** Settings *)

(** The key a secret is stored under, and the key of a preference. *)
Definition secret_key (scopeType : string) (scopeID : Z) (keyType : string) : string * Z * string :=
  (normalizeAccountScopeType scopeType, scopeID, normalizeAccountSecretKeyType keyType).
Definition key_of_secret (s : AccountSecret) := secret_key (as_ScopeType s) (as_ScopeID s) (as_KeyType s).

Definition preference_key (scopeType : string) (scopeID : Z) (namespace key : string) : string * Z * string * string :=
  (normalizeAccountScopeType scopeType, scopeID, normalizeAccountPreferencePart namespace, normalizeAccountPreferencePart key).

(** A save with an accepted key: the row is there, other keys are as before. *)
Lemma saved_secret s now db db' saved : table_ok secret_ok (ad_secrets db) -> upsertAccountSecret s now db = Ok (db', saved) ->
  GetAccountSecret (as_ScopeType s) (as_ScopeID s) (as_KeyType s) db' = Ok saved /\
  as_EncryptedValue saved = TrimSpace (as_EncryptedValue s) /\
  forall t id k, secret_key t id k <> key_of_secret s -> GetAccountSecret t id k db' = GetAccountSecret t id k db.
Proof.
  intros [Ht _] H. unfold upsertAccountSecret in H. inv_ok H. bool_prop. name_statement. injection H as <- <-. split.
  - unfold GetAccountSecret. rewrite !bool_decide_false by done. rewrite E0. cbn [orb]. apply found_Ok.
    exact (get_key_upsert mergeSecret (ad_secrets db) (MkAccountSecret 0 _ _ _ _ now now) Ht (fun _ => eq_refl)).
  - split; [unfold upsert; by destruct (get_key _ _)|]. intros t id k Hk. unfold GetAccountSecret.
    destruct (_ || _); [done|]. f_equal. by apply get_key_upsert_ne.
Qed.

Lemma saved_preference p now db db' saved : table_ok preference_ok (ad_preferences db) ->
  upsertAccountPreference p now db = Ok (db', saved) ->
  GetAccountPreference (ap_ScopeType p) (ap_ScopeID p) (ap_Namespace p) (ap_Key p) db' = Ok saved /\
  ap_ValueJSON saved = TrimSpace (ap_ValueJSON p) /\ ad_secrets db' = ad_secrets db /\
  forall t id n k, preference_key t id n k <> preference_key (ap_ScopeType p) (ap_ScopeID p) (ap_Namespace p) (ap_Key p) ->
    GetAccountPreference t id n k db' = GetAccountPreference t id n k db.
Proof.
  intros [Ht _] H. unfold upsertAccountPreference in H. inv_ok H. bool_prop. name_statement. injection H as <- <-. split.
  - unfold GetAccountPreference. rewrite !bool_decide_false by done. rewrite E0. cbn [orb]. apply found_Ok.
    exact (get_key_upsert mergePreference (ad_preferences db) (MkAccountPreference 0 _ _ _ _ _ now now) Ht (fun _ => eq_refl)).
  - split; [unfold upsert; by destruct (get_key _ _)|]. split; [done|]. intros t id n k Hk. unfold GetAccountPreference.
    destruct (_ || _); [done|]. f_equal. by apply get_key_upsert_ne.
Qed.

Lemma saved_secrets secrets now db db' : table_ok secret_ok (ad_secrets db) -> NoDup (key_of_secret <$> secrets) ->
  upsertAccountSecrets secrets now db = Ok db' ->
  (forall s, s ∈ secrets -> exists row, GetAccountSecret (as_ScopeType s) (as_ScopeID s) (as_KeyType s) db' = Ok row /\
     as_EncryptedValue row = TrimSpace (as_EncryptedValue s)) /\
  (forall t id k, secret_key t id k ∉ key_of_secret <$> secrets -> GetAccountSecret t id k db' = GetAccountSecret t id k db) /\
  ad_preferences db' = ad_preferences db.
Proof.
  revert db. induction secrets as [|s l IH]; intros db Ht Hd H; simpl in H.
  { injection H as <-. split; [by intros s ?%elem_of_nil|]. split; [done|done]. }
  apply result_bind_Ok in H as ((db1 & saved) & H1 & H). rewrite fmap_cons in Hd. apply NoDup_cons in Hd as [Hs Hd].
  destruct (saved_secret _ _ _ _ _ Ht H1) as (G1 & V1 & O1). pose proof H1 as (t1 & Edb & T1)%secret_step.
  assert (Ht1 : table_ok secret_ok (ad_secrets db1)) by (rewrite Edb; by apply T1).
  destruct (IH db1 Ht1 Hd H) as (G & O & P). split; [|split; [|by rewrite P, Edb]].
  - intros x [->|Hx]%elem_of_cons; [|by apply G]. exists saved. split; [|done]. rewrite <-G1. by apply O.
  - intros t id k Hk. rewrite fmap_cons, not_elem_of_cons in Hk. rewrite O, O1; tauto.
Qed.

(** C25: Saving a preference with its secrets is one transaction that round-trips: after a
    successful save the preference and each of the secrets are read back under the keys
    as the caller spelled them, with the trimmed values given, and every other
    preference and secret is read as before. *)
Theorem settings_roundtrip preference secrets now db db' saved :
  account_ok db -> NoDup (key_of_secret <$> secrets) ->
  UpsertAccountPreferenceAndSecrets preference secrets now db = Ok (db', saved) ->
  GetAccountPreference (ap_ScopeType preference) (ap_ScopeID preference) (ap_Namespace preference) (ap_Key preference) db' = Ok saved /\
  ap_ValueJSON saved = TrimSpace (ap_ValueJSON preference) /\
  (forall s, s ∈ secrets -> exists row, GetAccountSecret (as_ScopeType s) (as_ScopeID s) (as_KeyType s) db' = Ok row /\
     as_EncryptedValue row = TrimSpace (as_EncryptedValue s)) /\
  (forall t id k, secret_key t id k ∉ key_of_secret <$> secrets -> GetAccountSecret t id k db' = GetAccountSecret t id k db) /\
  (forall t id n k,
     preference_key t id n k <> preference_key (ap_ScopeType preference) (ap_ScopeID preference) (ap_Namespace preference) (ap_Key preference) ->
     GetAccountPreference t id n k db' = GetAccountPreference t id n k db).
Proof.
  intros Hok Hd H. apply result_bind_Ok in H as ((db1 & p) & H1 & H). apply result_bind_Ok in H as (db2 & H2 & H).
  injection H as <- <-. destruct (saved_preference _ _ _ _ _ (ok_preferences _ Hok) H1) as (G1 & V1 & S1 & O1).
  assert (Hs : table_ok secret_ok (ad_secrets db1)) by (rewrite S1; apply Hok).
  destruct (saved_secrets _ _ _ _ Hs Hd H2) as (G2 & O2 & P2).
  assert (Hp : forall t id n k, GetAccountPreference t id n k db2 = GetAccountPreference t id n k db1).
  { intros. unfold GetAccountPreference. by rewrite P2. }
  assert (Hq : forall t id k, GetAccountSecret t id k db1 = GetAccountSecret t id k db).
  { intros. unfold GetAccountSecret. by rewrite S1. }
  split; [by rewrite Hp|]. split; [done|]. split; [exact G2|]. split.
  - intros t id k Hk. rewrite O2, Hq; done.
  - intros t id n k Hk. rewrite Hp. by apply O1.
Qed.

(** ** Witnesses *)

Definition ex_moment (now : Time) (db : accountDB) : nat -> attempt := fun n =>
  MkAttempt db db now (if Nat.eqb n 0 then Some (ErrText "database is locked") else None).

Lemma ex_moment_sound now db : account_ok db -> sound_attempts (ex_moment now db).
Proof. intros H n. split; [exact H|apply seen_before_refl]. Qed.

Definition value_of {A} (r : result A) (d : A) : A := match r with Ok a => a | Err _ => d end.

Definition ex_identity : OAuthIdentity := MkOAuthIdentity 0 0 " GitHub" "2 " "Bob" 0 0.
Definition ex_no_account : Account := MkAccount 0 "" 0 0.
Definition ex_sign_in := EnsureAccountForOAuthIdentity ex_identity "admin" (ex_moment 40 ex_raced).
Definition ex_signed_in := value_of ex_sign_in (0, (accountDB0, (ex_no_account, ex_identity))).

Lemma sign_in_safe_witness :
  ex_sign_in = Ok ex_signed_in /\ ac_Role ex_signed_in.2.2.1 = "user" /\
  signed_in ("github", "2") "admin" ex_raced ex_signed_in.2.1 ex_signed_in.2.2.1.
Proof.
  assert (E : ex_sign_in = Ok ex_signed_in) by (vm_compute; reflexivity).
  split; [exact E|]. split; [vm_compute; reflexivity|].
  exact (proj2 (proj2 (sign_in_safe ex_identity "admin" (ex_moment 40 ex_raced) (fst ex_signed_in) (fst (snd ex_signed_in))
    (fst (snd (snd ex_signed_in))) (snd (snd (snd ex_signed_in))) (ex_moment_sound 40 ex_raced ex_reachable_ok)
    ltac:(vm_compute; reflexivity)))).
Defined.

Definition ex_update : AccountRoleUpdate := MkAccountRoleUpdate 1 2 "Admin" "alice".
Definition ex_promoted := value_of (UpdateAccountRoleWithAudit ex_update (ex_moment 50 ex_raced)) (0, (accountDB0, ex_no_account)).

Lemma role_update_audited_witness :
  UpdateAccountRoleWithAudit ex_update (ex_moment 50 ex_raced) = Ok ex_promoted /\
  fst ex_promoted = 1 /\ ac_Role (snd (snd ex_promoted)) = "admin" /\
  length (rs_rows (ad_audit (fst (snd ex_promoted)))) = 1.
Proof.
  assert (E : UpdateAccountRoleWithAudit ex_update (ex_moment 50 ex_raced) = Ok ex_promoted) by (vm_compute; reflexivity).
  split; [exact E|]. split; [vm_compute; reflexivity|].
  pose proof (role_update_audited ex_update (ex_moment 50 ex_raced) (fst ex_promoted) (fst (snd ex_promoted)) (snd (snd ex_promoted))
    (ex_moment_sound 50 ex_raced ex_reachable_ok) ltac:(vm_compute; reflexivity)) as (_ & H & _).
  split; [exact H|]. vm_compute. reflexivity.
Defined.

Definition ex_preference : AccountPreference := MkAccountPreference 0 "Account" 2 "Cache" "Config " " {} " 0 0.
Definition ex_secrets : list AccountSecret :=
  [MkAccountSecret 0 "account" 2 "cache_access_key_id" " k1" 0 0; MkAccountSecret 0 "account" 2 "cache_secret_access_key" "k2" 0 0].
Definition ex_settings := value_of (UpsertAccountPreferenceAndSecrets ex_preference ex_secrets 60 ex_raced) (accountDB0, ex_preference).

Lemma settings_roundtrip_witness :
  UpsertAccountPreferenceAndSecrets ex_preference ex_secrets 60 ex_raced = Ok ex_settings /\
  GetAccountPreference "Account" 2 "Cache" "Config " (fst ex_settings) = Ok (snd ex_settings) /\ ap_ValueJSON (snd ex_settings) = "{}".
Proof.
  assert (E : UpsertAccountPreferenceAndSecrets ex_preference ex_secrets 60 ex_raced = Ok ex_settings) by (vm_compute; reflexivity).
  split; [exact E|].
  assert (D : NoDup (key_of_secret <$> ex_secrets)) by (apply (bool_decide_unpack _); vm_compute; exact I).
  pose proof (settings_roundtrip ex_preference ex_secrets 60 ex_raced (fst ex_settings) (snd ex_settings) ex_reachable_ok D
    ltac:(vm_compute; reflexivity)) as (H1 & H2 & _).
  split; [exact H1|]. etransitivity; [exact H2|]. vm_compute. reflexivity.
Defined.
