(* ===== verification/Sponsorship.v ===== *)
(** * Fork sponsorships: the store (internal/state/fork_sponsorships.go)

    Policies have the primary key (sponsor, source) and a unique index on the source, so
    the table is keyed by the source; approvals are keyed by (source, fork).  A write that
    locks the policy row is one transaction. *)

From stdpp Require Import base gmap list strings sorting relations.
From S2P Require Import Prelude GoStrings Query AccountModel.

Definition ForkSponsorshipModeApprovalRequired := "approval_required".
Definition ForkSponsorshipModeWritePermission := "write_permission".
Definition ForkSponsorshipModeOrganizationMember := "organization_member".

Record sponsorDB := MkSponsorDB {
  sp_policies : gmap Z ForkSponsorshipPolicy;
  sp_approvals : gmap (Z * Z) ForkSponsorshipApproval
}.

#[export] Instance rebuild_sponsorDB : Rebuild sponsorDB := fun r => MkSponsorDB (sp_policies r) (sp_approvals r).

Definition sponsorDB0 : sponsorDB := MkSponsorDB ∅ ∅.

(** ** Policies *)

Definition validateForkSponsorshipPolicy (policy : ForkSponsorshipPolicy) : option goerror :=
  if (pol_SponsorInstallationID policy <=? 0)%Z then Some (ErrText "sponsor installation id must be positive") else
  if (pol_SourceRepositoryID policy <=? 0)%Z then Some (ErrText "source repository id must be positive") else
  if bool_decide (TrimSpace (pol_SourceRepositoryFullName policy) = "")
  then Some (ErrText "source repository full name is required") else
  if negb (bool_decide (pol_Mode policy = ForkSponsorshipModeApprovalRequired))
     && negb (bool_decide (pol_Mode policy = ForkSponsorshipModeWritePermission))
     && negb (bool_decide (pol_Mode policy = ForkSponsorshipModeOrganizationMember))
  then Some (ErrText ("unsupported fork sponsorship mode " +:+ pol_Mode policy)) else
  if (pol_MaxConcurrency policy <=? 0)%Z then Some (ErrText "fork sponsorship max concurrency must be positive")
  else None.

Definition rows_of {K V} `{Countable K} (m : gmap K V) : list V := (map_to_list m).*2.

Definition ListForkSponsorshipPolicies (sponsor : Z) (db : sponsorDB) : list ForkSponsorshipPolicy :=
  merge_sort (onle pol_SourceRepositoryFullName String.le)
    (List.filter (fun p => (pol_SponsorInstallationID p =? sponsor)%Z) (rows_of (sp_policies db))).

Definition GetForkSponsorshipPolicy (sponsor source : Z) (db : sponsorDB) : result ForkSponsorshipPolicy :=
  match sp_policies db !! source with
  | Some p => if (pol_SponsorInstallationID p =? sponsor)%Z then Ok p else Err ErrNotFound
  | None => Err ErrNotFound
  end.

Definition GetForkSponsorshipPolicyBySourceRepositoryID (source : Z) (db : sponsorDB) : result ForkSponsorshipPolicy :=
  match sp_policies db !! source with Some p => Ok p | None => Err ErrNotFound end.

Definition trimmedPolicy (policy : ForkSponsorshipPolicy) : ForkSponsorshipPolicy :=
  policy <| pol_SourceRepositoryFullName := TrimSpace (pol_SourceRepositoryFullName policy) |>
         <| pol_Mode := TrimSpace (pol_Mode policy) |>.

Definition CreateForkSponsorshipPolicy (policy : ForkSponsorshipPolicy) (now : Time) (db : sponsorDB)
    : result (sponsorDB * ForkSponsorshipPolicy) :=
  let policy := trimmedPolicy policy in
  match validateForkSponsorshipPolicy policy with
  | Some e => Err e
  | None =>
      match sp_policies db !! pol_SourceRepositoryID policy with
      | Some _ => Err ErrConflict
      | None =>
          let record := policy <| pol_CreatedAt := now |> <| pol_UpdatedAt := now |> in
          Ok (db <| sp_policies := <[pol_SourceRepositoryID policy := record]> (sp_policies db) |>, record)
      end
  end.

Definition UpdateForkSponsorshipPolicy (policy : ForkSponsorshipPolicy) (now : Time) (db : sponsorDB)
    : result (sponsorDB * ForkSponsorshipPolicy) :=
  let policy := trimmedPolicy policy in
  match validateForkSponsorshipPolicy policy with
  | Some e => Err e
  | None =>
      match sp_policies db !! pol_SourceRepositoryID policy with
      | None => Err ErrNotFound
      | Some existing =>
          if negb (pol_SponsorInstallationID existing =? pol_SponsorInstallationID policy)%Z then Err ErrConflict else
          let record := existing <| pol_SourceRepositoryFullName := pol_SourceRepositoryFullName policy |>
                          <| pol_Mode := pol_Mode policy |> <| pol_Enabled := pol_Enabled policy |>
                          <| pol_MaxConcurrency := pol_MaxConcurrency policy |> <| pol_UpdatedAt := now |> in
          Ok (db <| sp_policies := <[pol_SourceRepositoryID policy := record]> (sp_policies db) |>, record)
      end
  end.

(** The lookup is a statement of its own: it saw [seen]. *)
Definition UpsertForkSponsorshipPolicy (policy : ForkSponsorshipPolicy) (now : Time) (seen db : sponsorDB)
    : result (sponsorDB * ForkSponsorshipPolicy) :=
  let policy := trimmedPolicy policy in
  match validateForkSponsorshipPolicy policy with
  | Some e => Err e
  | None =>
      match GetForkSponsorshipPolicyBySourceRepositoryID (pol_SourceRepositoryID policy) seen with
      | Ok existing =>
          if negb (pol_SponsorInstallationID existing =? pol_SponsorInstallationID policy)%Z then Err ErrConflict
          else UpdateForkSponsorshipPolicy policy now db
      | Err _ => CreateForkSponsorshipPolicy policy now db
      end
  end.

Definition lockForkSponsorshipPolicy (sponsor source : Z) (db : sponsorDB) : result unit :=
  let? _ := GetForkSponsorshipPolicy sponsor source db in Ok tt.

Definition of_policy (sponsor source : Z) (a : ForkSponsorshipApproval) : bool :=
  (apr_SponsorInstallationID a =? sponsor)%Z && (apr_SourceRepositoryID a =? source)%Z.

Definition DeleteForkSponsorshipPolicy (sponsor source : Z) (db : sponsorDB) : result sponsorDB :=
  let? _ := lockForkSponsorshipPolicy sponsor source db in
  Ok (MkSponsorDB (delete source (sp_policies db))
        (filter (fun kv => of_policy sponsor source kv.2 = false) (sp_approvals db))).

(** ** Approvals *)

Definition ListForkSponsorshipApprovals (sponsor source : Z) (db : sponsorDB) : list ForkSponsorshipApproval :=
  merge_sort (onle apr_ForkRepositoryFullName String.le)
    (List.filter (of_policy sponsor source) (rows_of (sp_approvals db))).

Definition GetForkSponsorshipApproval (source fork : Z) (db : sponsorDB) : result ForkSponsorshipApproval :=
  match sp_approvals db !! (source, fork) with Some a => Ok a | None => Err ErrNotFound end.

Definition upsertForkSponsorshipApprovalRecord (record : ForkSponsorshipApproval) (db : sponsorDB) : sponsorDB :=
  let key := (apr_SourceRepositoryID record, apr_ForkRepositoryID record) in
  let row := match sp_approvals db !! key with
             | Some old => record <| apr_CreatedAt := apr_CreatedAt old |>
             | None => record
             end in
  db <| sp_approvals := <[key := row]> (sp_approvals db) |>.

Definition UpsertForkSponsorshipApproval (approval : ForkSponsorshipApproval) (now : Time) (db : sponsorDB)
    : result (sponsorDB * ForkSponsorshipApproval) :=
  let approval := approval <| apr_ForkRepositoryFullName := TrimSpace (apr_ForkRepositoryFullName approval) |>
                           <| apr_ForkOwnerLogin := TrimSpace (apr_ForkOwnerLogin approval) |> in
  if (apr_SponsorInstallationID approval <=? 0)%Z || (apr_SourceRepositoryID approval <=? 0)%Z
     || (apr_ForkRepositoryID approval <=? 0)%Z || (apr_ForkOwnerID approval <=? 0)%Z
     || bool_decide (apr_ForkRepositoryFullName approval = "") || bool_decide (apr_ForkOwnerLogin approval = "")
  then Err (ErrText "complete positive fork sponsorship approval identity is required") else
  let record := approval <| apr_CreatedAt := now |> <| apr_UpdatedAt := now |> in
  let? _ := lockForkSponsorshipPolicy (apr_SponsorInstallationID approval) (apr_SourceRepositoryID approval) db in
  let db := upsertForkSponsorshipApprovalRecord record db in
  let? saved := GetForkSponsorshipApproval (apr_SourceRepositoryID approval) (apr_ForkRepositoryID approval) db in
  Ok (db, saved).

Definition DeleteForkSponsorshipApproval (sponsor source fork : Z) (db : sponsorDB) : result sponsorDB :=
  match sp_approvals db !! (source, fork) with
  | Some a =>
      if (apr_SponsorInstallationID a =? sponsor)%Z
      then Ok (db <| sp_approvals := delete (source, fork) (sp_approvals db) |>) else Err ErrNotFound
  | None => Err ErrNotFound
  end.

(** ** The invariant *)

Definition policy_ok (source : Z) (p : ForkSponsorshipPolicy) : Prop :=
  pol_SourceRepositoryID p = source /\ validateForkSponsorshipPolicy p = None.

(** An approval belongs to the policy of its source, and to the same sponsor. *)
Definition approval_ok (db : sponsorDB) (key : Z * Z) (a : ForkSponsorshipApproval) : Prop :=
  (apr_SourceRepositoryID a, apr_ForkRepositoryID a) = key /\ (0 < apr_ForkOwnerID a)%Z /\
  apr_ForkRepositoryFullName a <> "" /\ apr_ForkOwnerLogin a <> "" /\
  exists p, sp_policies db !! key.1 = Some p /\ pol_SponsorInstallationID p = apr_SponsorInstallationID a.

Record sponsor_ok (db : sponsorDB) : Prop := {
  so_policies : map_Forall policy_ok (sp_policies db);
  so_approvals : map_Forall (approval_ok db) (sp_approvals db)
}.

Inductive sponsor_step (db : sponsorDB) : sponsorDB -> Prop :=
| step_create policy now db' p : CreateForkSponsorshipPolicy policy now db = Ok (db', p) -> sponsor_step db db'
| step_change policy now db' p : UpdateForkSponsorshipPolicy policy now db = Ok (db', p) -> sponsor_step db db'
| step_upsert policy now seen db' p : UpsertForkSponsorshipPolicy policy now seen db = Ok (db', p) -> sponsor_step db db'
| step_withdraw sponsor source db' : DeleteForkSponsorshipPolicy sponsor source db = Ok db' -> sponsor_step db db'
| step_approve approval now db' a : UpsertForkSponsorshipApproval approval now db = Ok (db', a) -> sponsor_step db db'
| step_disapprove sponsor source fork db' : DeleteForkSponsorshipApproval sponsor source fork db = Ok db' -> sponsor_step db db'.

Definition sponsor_reachable : sponsorDB -> Prop := rtc sponsor_step sponsorDB0.

(** A policy row that keeps the sponsor of the one it replaces keeps the approvals. *)
Lemma sponsor_ok_policy db source p : sponsor_ok db -> policy_ok source p ->
  (forall old, sp_policies db !! source = Some old -> pol_SponsorInstallationID old = pol_SponsorInstallationID p) ->
  sponsor_ok (db <| sp_policies := <[source := p]> (sp_policies db) |>).
Proof.
  intros [Hp Ha] Hok Hold. split; cbn [sp_policies sp_approvals field_update]; [by apply map_Forall_insert_2|].
  intros key a H. destruct (Ha key a H) as (H1 & H2 & H3 & H4 & q & H5 & H6). repeat split; try done.
  cbn [sp_policies field_update]. destruct (decide (key.1 = source)) as [E|N].
  - rewrite E, lookup_insert_eq. exists p. split; [done|]. rewrite <-E in Hold. rewrite <-(Hold q H5). done.
  - rewrite lookup_insert_ne by done. by exists q.
Qed.

Lemma validate_fields policy p : validateForkSponsorshipPolicy policy = None ->
  pol_SponsorInstallationID p = pol_SponsorInstallationID policy -> pol_SourceRepositoryID p = pol_SourceRepositoryID policy ->
  pol_SourceRepositoryFullName p = pol_SourceRepositoryFullName policy -> pol_Mode p = pol_Mode policy ->
  pol_MaxConcurrency p = pol_MaxConcurrency policy -> validateForkSponsorshipPolicy p = None.
Proof. intros H E1 E2 E3 E4 E5. unfold validateForkSponsorshipPolicy in *. by rewrite E1, E2, E3, E4, E5. Qed.

Lemma create_step policy now db db' p : sponsor_ok db -> CreateForkSponsorshipPolicy policy now db = Ok (db', p) -> sponsor_ok db'.
Proof.
  intros Hok H. unfold CreateForkSponsorshipPolicy in H. destruct (validateForkSponsorshipPolicy _) eqn:Ev; [done|].
  destruct (sp_policies db !! _) eqn:El; [done|]. injection H as <- _. apply sponsor_ok_policy; [done| |].
  - split; [done|]. by eapply validate_fields.
  - intros old Hold. pose proof (eq_trans (eq_sym El) Hold). done.
Qed.

Lemma change_step policy now db db' p : sponsor_ok db -> UpdateForkSponsorshipPolicy policy now db = Ok (db', p) -> sponsor_ok db'.
Proof.
  intros Hok H. unfold UpdateForkSponsorshipPolicy in H. destruct (validateForkSponsorshipPolicy _) eqn:Ev; [done|].
  destruct (sp_policies db !! _) as [existing|] eqn:El; [|done]. inv_ok H. bool_prop. apply Z.eqb_eq in E. injection H as <- _.
  destruct (so_policies _ Hok _ _ El) as [Es _]. apply sponsor_ok_policy; [done| |].
  - split; [done|]. eapply (validate_fields (trimmedPolicy policy)); [done|exact E|exact Es|done|done|done].
  - intros old Hold. pose proof (eq_trans (eq_sym El) Hold) as [= <-]. done.
Qed.

Lemma sponsor_step_ok db db' : sponsor_ok db -> sponsor_step db db' -> sponsor_ok db'.
Proof.
  intros Hok Hs. destruct Hs.
  - by eapply create_step.
  - by eapply change_step.
  - unfold UpsertForkSponsorshipPolicy in H. destruct (validateForkSponsorshipPolicy _); [done|].
    destruct (GetForkSponsorshipPolicyBySourceRepositoryID _ _); [inv_ok H; by eapply change_step|by eapply create_step].
  - unfold DeleteForkSponsorshipPolicy in H. apply result_bind_Ok in H as (u & Hl & H). injection H as <-.
    apply result_bind_Ok in Hl as (p & Hp & _). unfold GetForkSponsorshipPolicy in Hp.
    destruct (sp_policies db !! source) as [q|] eqn:El; [|done]. inv_ok Hp. injection Hp as <-. apply Z.eqb_eq in E.
    split; cbn [sp_policies sp_approvals]; [by apply map_Forall_delete, (so_policies _ Hok)|].
    intros key a [Ha Hf]%map_lookup_filter_Some. destruct (so_approvals _ Hok _ _ Ha) as (H1 & H2 & H3 & H4 & r & H5 & H6).
    repeat split; try done. cbn [sp_policies]. destruct (decide (key.1 = source)) as [Ek|N].
    + exfalso. rewrite Ek, El in H5. injection H5 as <-. cbn in Hf. unfold of_policy in Hf.
      assert (apr_SourceRepositoryID a = source) as Es by (rewrite <-Ek, <-H1; done).
      rewrite <-H6, E, Es, !Z.eqb_refl in Hf. done.
    + rewrite lookup_delete_ne by done. by exists r.
  - unfold UpsertForkSponsorshipApproval in H. inv_ok H. bool_prop. apply result_bind_Ok in H as (u & Hl & H).
    apply result_bind_Ok in H as (saved & _ & H). injection H as <- _.
    apply result_bind_Ok in Hl as (p & Hp & _). unfold GetForkSponsorshipPolicy in Hp.
    destruct (sp_policies db !! _) as [q|] eqn:El; [|done]. inv_ok Hp. injection Hp as ->.
    destruct Hok as [Hpol Happ]. split; [done|]. cbn [upsertForkSponsorshipApprovalRecord sp_approvals field_update].
    apply map_Forall_insert_2; [|done]. match goal with H : (_ =? _)%Z = true |- _ => apply Z.eqb_eq in H; rename H into Es end.
    destruct (sp_approvals db !! _); (repeat split; cbn in *; try done; try lia; by exists p).
  - unfold DeleteForkSponsorshipApproval in H. destruct (sp_approvals db !! _); [|done]. inv_ok H. injection H as <-.
    destruct Hok as [Hpol Happ]. split; [done|]. by apply map_Forall_delete.
Qed.

Lemma sponsor_reachable_ok db : sponsor_reachable db -> sponsor_ok db.
Proof.
  assert (H0 : sponsor_ok sponsorDB0) by (split; apply map_Forall_empty).
  intros H. unfold sponsor_reachable in H. revert H0. induction H; eauto using sponsor_step_ok.
Qed.

(** C22: Sponsorships belong together in every reachable state: each source repository has at
    most one sponsor, every policy is complete and of a known mode with a positive limit,
    and every approval belongs to the policy of its source and to the same sponsor.
    Hence a policy that is created, also after another sponsor withdrew, starts without
    approvals, and a policy of one sponsor is never changed by another. *)
Theorem sponsorship_invariant db : sponsor_reachable db ->
  sponsor_ok db /\
  (forall policy now db' p, CreateForkSponsorshipPolicy policy now db = Ok (db', p) ->
     forall fork, GetForkSponsorshipApproval (pol_SourceRepositoryID p) fork db' = Err ErrNotFound) /\
  (forall policy now db' p source q, UpdateForkSponsorshipPolicy policy now db = Ok (db', p) ->
     sp_policies db !! source = Some q -> pol_SponsorInstallationID q <> pol_SponsorInstallationID policy ->
     sp_policies db' !! source = Some q).
Proof.
  intros Hok%sponsor_reachable_ok. split; [done|]. split.
  - intros policy now db' p H fork. unfold CreateForkSponsorshipPolicy in H.
    destruct (validateForkSponsorshipPolicy _) eqn:Ev; [done|]. destruct (sp_policies db !! _) eqn:El; [done|].
    injection H as <- <-. unfold GetForkSponsorshipApproval. cbn [sp_approvals field_update].
    destruct (sp_approvals db !! _) as [a|] eqn:Ea; [|done].
    destruct (so_approvals _ Hok _ _ Ea) as (_ & _ & _ & _ & q & Hq & _). exfalso. cbn [fst] in Hq.
    change (pol_SourceRepositoryID (trimmedPolicy policy)) with (pol_SourceRepositoryID policy) in El.
    revert Hq. cbn. by rewrite El.
  - intros policy now db' p source q H Hq Hne. unfold UpdateForkSponsorshipPolicy in H.
    destruct (validateForkSponsorshipPolicy _) eqn:Ev; [done|]. destruct (sp_policies db !! pol_SourceRepositoryID _) as [e|] eqn:El; [|done].
    inv_ok H. bool_prop. injection H as <- _. cbn [sp_policies field_update]. rewrite lookup_insert_ne; [done|].
    intros <-. pose proof (eq_trans (eq_sym El) Hq) as [= ->]. apply Z.eqb_eq in E. by destruct Hne.
Qed.

(** ** Witness *)

Definition ex_policy : ForkSponsorshipPolicy := MkForkSponsorshipPolicy 5 70 " acme/app" "approval_required" true 2 0 0.
Definition ex_approval : ForkSponsorshipApproval := MkForkSponsorshipApproval 5 70 71 "bob/app" 9 "bob" 0 0.
Definition ex_sponsored : sponsorDB :=
  match CreateForkSponsorshipPolicy ex_policy 10 sponsorDB0 with Ok (db, _) => db | Err _ => sponsorDB0 end.
Definition ex_approved : sponsorDB :=
  match UpsertForkSponsorshipApproval ex_approval 20 ex_sponsored with Ok (db, _) => db | Err _ => ex_sponsored end.

Lemma ex_approved_reachable : sponsor_reachable ex_approved.
Proof.
  apply (rtc_l _ _ ex_sponsored); [|apply rtc_once].
  - eapply (step_create _ ex_policy 10). vm_compute. reflexivity.
  - eapply (step_approve _ ex_approval 20). vm_compute. reflexivity.
Qed.

Lemma sponsorship_invariant_witness :
  sponsor_reachable ex_approved /\ sponsor_ok ex_approved /\
  GetForkSponsorshipApproval 70 71 ex_approved = Ok (ex_approval <| apr_CreatedAt := 20%Z |> <| apr_UpdatedAt := 20%Z |>).
Proof.
  split; [exact ex_approved_reachable|]. split; [exact (proj1 (sponsorship_invariant ex_approved ex_approved_reachable))|].
  vm_compute. reflexivity.
Defined.
