(* ===== verification/Capacity.v ===== *)
(** * Admission capacity (internal/server/server_runner_capacity.go)

    The in-memory reservation ledger that keeps concurrent starts within the
    global, profile, account and repository limits although the store counts
    are read outside its mutex.  Counters are heap objects shared through the
    ledger's maps and dropped when their last observer finishes. *)

From stdpp Require Import base gmap list strings sorting relations.
From Stdlib Require Import Ascii.
From S2P Require Import Prelude GoStrings Query RunnerModel RunnerStore RunnerQueries.

(** ** Keys *)

Record runnerCapacityKey := MkCapKey {
  key_source : string; key_scopeType : string; key_name : string; key_scopeID : Z
}.

#[export] Instance rebuild_runnerCapacityKey : Rebuild runnerCapacityKey := fun k =>
  MkCapKey (key_source k) (key_scopeType k) (key_name k) (key_scopeID k).

#[export] Instance runnerCapacityKey_eq_dec : EqDecision runnerCapacityKey.
Proof. solve_decision. Defined.

#[export] Instance runnerCapacityKey_countable : Countable runnerCapacityKey.
Proof.
  refine (inj_countable' (fun k => (key_source k, key_scopeType k, key_name k, key_scopeID k))
    (fun x => MkCapKey x.1.1.1 x.1.1.2 x.1.2 x.2) _). by intros [].
Defined.

Definition normalizeRunnerRepository (repository : string) : string := ToLower (TrimSpace repository).

Definition runnerRepositoryOwner (repository : string) : string :=
  let '(owner, _, found) := Cut (normalizeRunnerRepository repository) "/" in
  if negb found then "" else owner.

Definition runnerCapacityProfileKey (req : RunnerRequest) : runnerCapacityKey :=
  let key := MkCapKey "global" "" (TrimSpace (req_ProfileName req)) 0 in
  if negb (bool_decide (req_ProfileSource req = "")) && negb (bool_decide (req_ProfileSource req = "global"))
     && negb (bool_decide (req_ProfileScopeType req = "")) && (0 <? req_ProfileScopeID req)%Z
  then key <| key_source := req_ProfileSource req |> <| key_scopeType := req_ProfileScopeType req |>
           <| key_scopeID := req_ProfileScopeID req |>
  else key.

(** ** Counters and the maps that share them *)

(** [started] is a uint64 that may wrap; [pending] and [readers] are ints. *)
Record runnerCapacityCounter := MkCounter { ctr_started : Z; ctr_pending : Z; ctr_readers : Z }.

#[export] Instance rebuild_runnerCapacityCounter : Rebuild runnerCapacityCounter := fun c =>
  MkCounter (ctr_started c) (ctr_pending c) (ctr_readers c).

Definition zero_counter : runnerCapacityCounter := MkCounter 0 0 0.

(** A Go map from keys to counter pointers, with the counters it allocated. *)
Record counters (K : Type) `{Countable K} := MkCounters {
  cs_map : gmap K nat; cs_heap : gmap nat runnerCapacityCounter; cs_next : nat
}.
Arguments MkCounters {K _ _}.
Arguments cs_map {K _ _}.
Arguments cs_heap {K _ _}.
Arguments cs_next {K _ _}.

Section counters.
Context {K : Type} `{Countable K}.

Definition empty_counters : counters K := MkCounters ∅ ∅ 0.

(** Dereference of a pointer that was returned by [lookup_or_add]. *)
Definition deref (a : nat) (cs : counters K) : runnerCapacityCounter :=
  default zero_counter (cs_heap cs !! a).

Definition store (a : nat) (c : runnerCapacityCounter) (cs : counters K) : counters K :=
  MkCounters (cs_map cs) (<[a := c]> (cs_heap cs)) (cs_next cs).

(** The counter of a key, allocated on the first use; its readers are incremented. *)
Definition lookup_or_add (k : K) (cs : counters K) : nat * counters K :=
  let '(a, cs) := match cs_map cs !! k with
    | Some a => (a, cs)
    | None => (cs_next cs, MkCounters (<[k := cs_next cs]> (cs_map cs))
                             (<[cs_next cs := zero_counter]> (cs_heap cs)) (S (cs_next cs)))
    end in
  let c := deref a cs in
  (a, store a (c <| ctr_readers := (ctr_readers c + 1)%Z |>) cs).

(** [started++; pending++] on a counter. *)
Definition add_pending (a : nat) (cs : counters K) : counters K :=
  let c := deref a cs in
  store a (c <| ctr_started := wrapu64 (ctr_started c + 1) |>
             <| ctr_pending := (ctr_pending c + 1)%Z |>) cs.

(** The part of [finish] for one counter. *)
Definition drop_reader (k : K) (a : nat) (reserved : bool) (cs : counters K) : counters K :=
  let c := deref a cs in
  let c := if reserved then c <| ctr_pending := (ctr_pending c - 1)%Z |> else c in
  let c := c <| ctr_readers := (ctr_readers c - 1)%Z |> in
  let cs := store a c cs in
  if (ctr_readers c =? 0)%Z then MkCounters (delete k (cs_map cs)) (cs_heap cs) (cs_next cs) else cs.
End counters.

(** ** The ledger *)

Record runnerAdmissionCapacity := MkCapacity {
  cap_started : Z;
  cap_pending : Z;
  cap_profiles : counters runnerCapacityKey;
  cap_accounts : counters string;
  cap_repositories : counters string
}.

#[export] Instance rebuild_runnerAdmissionCapacity : Rebuild runnerAdmissionCapacity := fun c =>
  MkCapacity (cap_started c) (cap_pending c) (cap_profiles c) (cap_accounts c) (cap_repositories c).

Definition zero_capacity : runnerAdmissionCapacity :=
  MkCapacity 0 0 empty_counters empty_counters empty_counters.

Record runnerCapacityObservation := MkObservation {
  obs_key : runnerCapacityKey;
  obs_profile : nat;
  obs_started : Z;
  obs_pending : Z;
  obs_profileStarted : Z;
  obs_profilePending : Z;
  obs_account : option nat;
  obs_repository : option nat;
  obs_accountStarted : Z;
  obs_accountPending : Z;
  obs_repositoryStarted : Z;
  obs_repositoryPending : Z;
  obs_accountKey : string;
  obs_repositoryKey : string;
  obs_reserved : bool
}.

#[export] Instance rebuild_runnerCapacityObservation : Rebuild runnerCapacityObservation := fun o =>
  MkObservation (obs_key o) (obs_profile o) (obs_started o) (obs_pending o) (obs_profileStarted o)
    (obs_profilePending o) (obs_account o) (obs_repository o) (obs_accountStarted o)
    (obs_accountPending o) (obs_repositoryStarted o) (obs_repositoryPending o) (obs_accountKey o)
    (obs_repositoryKey o) (obs_reserved o).

(** [counterStarted] and [counterPending] of a pointer that may be nil. *)
Definition counterStarted (a : option nat) (cs : counters string) : Z :=
  match a with None => 0 | Some a => ctr_started (deref a cs) end.
Definition counterPending (a : option nat) (cs : counters string) : Z :=
  match a with None => 0 | Some a => ctr_pending (deref a cs) end.

(** A key that may be empty: no counter then. *)
Definition lookup_or_add_nonempty (k : string) (cs : counters string) : option nat * counters string :=
  if bool_decide (k = "") then (None, cs) else let '(a, cs) := lookup_or_add k cs in (Some a, cs).

Definition observe (req : RunnerRequest) (profileName : string) (c : runnerAdmissionCapacity)
    : runnerCapacityObservation * runnerAdmissionCapacity :=
  let key := (runnerCapacityProfileKey req) <| key_name := profileName |> in
  let '(profile, profiles) := lookup_or_add key (cap_profiles c) in
  let accountKey := runnerRepositoryOwner (req_RepositoryFullName req) in
  let '(account, accounts) := lookup_or_add_nonempty accountKey (cap_accounts c) in
  let repositoryKey := normalizeRunnerRepository (req_RepositoryFullName req) in
  let '(repository, repositories) := lookup_or_add_nonempty repositoryKey (cap_repositories c) in
  (MkObservation key profile (cap_started c) (cap_pending c)
     (ctr_started (deref profile profiles)) (ctr_pending (deref profile profiles))
     account repository
     (counterStarted account accounts) (counterPending account accounts)
     (counterStarted repository repositories) (counterPending repository repositories)
     accountKey repositoryKey false,
   MkCapacity (cap_started c) (cap_pending c) profiles accounts repositories).

(** [int(a - b)] on uint64 operands. *)
Definition since (a b : Z) : Z := wrap64 (wrapu64 (a - b)).

Definition add_pending_opt (a : option nat) (cs : counters string) : counters string :=
  match a with None => cs | Some a => add_pending a cs end.

(** Returns the stage that has no capacity, or the empty string and the
    observation with its reservation. *)
Definition reserve (o : runnerCapacityObservation)
    (globalCount globalLimit profileCount profileLimit accountCount accountLimit
     repositoryCount repositoryLimit : Z) (c : runnerAdmissionCapacity)
    : string * runnerCapacityObservation * runnerAdmissionCapacity :=
  if (globalLimit <=? globalCount + obs_pending o + since (cap_started c) (obs_started o))%Z
  then ("global_capacity_check", o, c)
  else if ((0 <? profileLimit) && (profileLimit <=? profileCount + obs_profilePending o
             + since (ctr_started (deref (obs_profile o) (cap_profiles c))) (obs_profileStarted o)))%Z
  then ("profile_capacity_check", o, c)
  else if ((0 <? accountLimit) && (accountLimit <=? accountCount + obs_accountPending o
             + since (counterStarted (obs_account o) (cap_accounts c)) (obs_accountStarted o)))%Z
  then ("account_capacity_check", o, c)
  else if ((0 <? repositoryLimit) && (repositoryLimit <=? repositoryCount + obs_repositoryPending o
             + since (counterStarted (obs_repository o) (cap_repositories c)) (obs_repositoryStarted o)))%Z
  then ("repository_capacity_check", o, c)
  else
    ("", o <| obs_reserved := true |>,
     MkCapacity (wrapu64 (cap_started c + 1)) (cap_pending c + 1)
       (add_pending (obs_profile o) (cap_profiles c))
       (add_pending_opt (obs_account o) (cap_accounts c))
       (add_pending_opt (obs_repository o) (cap_repositories c))).

Definition drop_reader_opt (k : string) (a : option nat) (reserved : bool) (cs : counters string)
    : counters string :=
  match a with None => cs | Some a => drop_reader k a reserved cs end.

Definition finish (o : runnerCapacityObservation) (c : runnerAdmissionCapacity) : runnerAdmissionCapacity :=
  MkCapacity (cap_started c) (if obs_reserved o then (cap_pending c - 1)%Z else cap_pending c)
    (drop_reader (obs_key o) (obs_profile o) (obs_reserved o) (cap_profiles c))
    (drop_reader_opt (obs_accountKey o) (obs_account o) (obs_reserved o) (cap_accounts c))
    (drop_reader_opt (obs_repositoryKey o) (obs_repository o) (obs_reserved o) (cap_repositories c)).

(** ** [reserveRunnerCapacity], one store call at a time *)

(** The configuration limits that the function reads. *)
Record capacity_config := MkCapConfig {
  cfg_MaxConcurrentRunners : Z;
  cfg_RunnerAccountConcurrency : string -> Z;
  cfg_RunnerRepositoryConcurrency : string -> Z
}.

(** The program counter between two store calls, with the local variables that
    are live there. *)
Inductive capacity_pc :=
| PcGlobal
| PcProfile (globalCount : Z)
| PcAccount (globalCount profileCount profileLimit : Z)
| PcRepository (globalCount profileCount profileLimit accountCount accountLimit : Z)
| PcReserve (globalCount profileCount profileLimit accountCount accountLimit
             repositoryCount repositoryLimit : Z)
| PcReturned (stage : string) (err : option goerror)
| PcReserved
| PcWritten.

Record capacity_thread := MkThread {
  th_req : RunnerRequest;
  th_profileName : string;
  th_maxConcurrency : Z;
  th_obs : runnerCapacityObservation;
  th_pc : capacity_pc
}.

#[export] Instance rebuild_capacity_thread : Rebuild capacity_thread := fun th =>
  MkThread (th_req th) (th_profileName th) (th_maxConcurrency th) (th_obs th) (th_pc th).

Definition inFlightForRunnerProfile (req : RunnerRequest) (t : table) : result nat :=
  let key := runnerCapacityProfileKey req in
  if bool_decide (key_source key = "global") then Ok (InFlightCountForProfile (key_name key) t)
  else InFlightCountForProfileScope (key_source key) (MkScope (key_scopeType key) (key_scopeID key))
         (key_name key) t.

(** A store call reads the table of its instant; the database may also fail. *)
Definition store_read (db : option goerror) (r : result nat) : result Z :=
  match db with Some e => Err e | None => let? n := r in Ok (Z.of_nat n) end.

(** The function up to its next store call, or to the reservation.  [PcReturned]
    is a return with a nil release function: the deferred [finish] runs next. *)
Definition reserveRunnerCapacity_next (cfg : capacity_config) (db : option goerror) (t : table)
    (th : capacity_thread) (c : runnerAdmissionCapacity) : capacity_thread * runnerAdmissionCapacity :=
  let req := th_req th in
  match th_pc th with
  | PcGlobal =>
      match store_read db (Ok (InFlightCount t)) with
      | Err e => (th <| th_pc := PcReturned "global_capacity_check" (Some e) |>, c)
      | Ok g => if (cfg_MaxConcurrentRunners cfg <=? g)%Z
                then (th <| th_pc := PcReturned "global_capacity_check" None |>, c)
                else (th <| th_pc := PcProfile g |>, c)
      end
  | PcProfile g =>
      if bool_decide (req_ProfileName req = "") then (th <| th_pc := PcAccount g 0 0 |>, c)
      else
        let profileLimit := th_maxConcurrency th in
        if (0 <? profileLimit)%Z then
          match store_read db (inFlightForRunnerProfile req t) with
          | Err e => (th <| th_pc := PcReturned "profile_capacity_check" (Some e) |>, c)
          | Ok p => (th <| th_pc := PcAccount g p profileLimit |>, c)
          end
        else (th <| th_pc := PcAccount g 0 profileLimit |>, c)
  | PcAccount g p pl =>
      let accountKey := runnerRepositoryOwner (req_RepositoryFullName req) in
      if bool_decide (accountKey = "") then (th <| th_pc := PcRepository g p pl 0 0 |>, c)
      else
        let accountLimit := cfg_RunnerAccountConcurrency cfg accountKey in
        if (0 <? accountLimit)%Z then
          match store_read db (Ok (InFlightCountForRepositoryOwner accountKey t)) with
          | Err e => (th <| th_pc := PcReturned "account_capacity_check" (Some e) |>, c)
          | Ok a => (th <| th_pc := PcRepository g p pl a accountLimit |>, c)
          end
        else (th <| th_pc := PcRepository g p pl 0 accountLimit |>, c)
  | PcRepository g p pl a al =>
      let repositoryKey := normalizeRunnerRepository (req_RepositoryFullName req) in
      if bool_decide (repositoryKey = "") then (th <| th_pc := PcReserve g p pl a al 0 0 |>, c)
      else
        let repositoryLimit := cfg_RunnerRepositoryConcurrency cfg repositoryKey in
        if (0 <? repositoryLimit)%Z then
          match store_read db (Ok (InFlightCountForRepository (req_RepositoryFullName req) t)) with
          | Err e => (th <| th_pc := PcReturned "repository_capacity_check" (Some e) |>, c)
          | Ok r => (th <| th_pc := PcReserve g p pl a al r repositoryLimit |>, c)
          end
        else (th <| th_pc := PcReserve g p pl a al 0 repositoryLimit |>, c)
  | PcReserve g p pl a al r rl =>
      let '(stage, o, c') :=
        reserve (th_obs th) g (cfg_MaxConcurrentRunners cfg) p pl a al r rl c in
      if bool_decide (stage = "") then (th <| th_obs := o |> <| th_pc := PcReserved |>, c')
      else (th <| th_pc := PcReturned stage None |>, c')
  | _ => (th, c)
  end.

(** ** Concurrent starts *)

Record capacity_system := MkSystem {
  sys_capacity : runnerAdmissionCapacity;
  sys_threads : gmap string capacity_thread;
  sys_table : table
}.

(** Nothing became in flight: each in-flight row was already in flight, with
    the same profile and repository. *)
Definition no_new_inflight (t t' : table) : Prop :=
  forall id r', t' !! id = Some r' -> isInFlight (rec_Status r') = true ->
  exists r, t !! id = Some r /\ isInFlight (rec_Status r) = true /\
    rec_ProfileName r = rec_ProfileName r' /\ rec_ProfileSource r = rec_ProfileSource r' /\
    rec_ProfileScopeType r = rec_ProfileScopeType r' /\ rec_ProfileScopeID r = rec_ProfileScopeID r' /\
    rec_RepositoryFullName r = rec_RepositoryFullName r'.

(** What GitHub guarantees of a repository name: no surrounding white space
    around it or its owner. *)
Definition clean_repository (repo : string) : Prop :=
  TrimSpace repo = repo /\ TrimSpace (runnerRepositoryOwner repo) = runnerRepositoryOwner repo.

(** The row that the creating write stores has the columns of the request. *)
Definition state_of_request (st : RunnerState) (req : RunnerRequest) : Prop :=
  st_ProfileName st = req_ProfileName req /\ st_ProfileSource st = req_ProfileSource req /\
  st_ProfileScopeType st = req_ProfileScopeType req /\ st_ProfileScopeID st = req_ProfileScopeID req /\
  st_RepositoryFullName st = req_RepositoryFullName req.

Section system.
Context (cfg : capacity_config) (plimit : runnerCapacityKey -> Z).

(** One atomic action of the server: a start observes the ledger, makes its
    next store call or reservation, persists the creating state or fails to,
    and finishes; any other operation on the table adds no in-flight row. *)
Inductive capacity_step : capacity_system -> capacity_system -> Prop :=
| cap_observe tid req name o c c' ths t :
    ths !! tid = None -> name = TrimSpace (req_ProfileName req) ->
    clean_repository (req_RepositoryFullName req) ->
    observe req name c = (o, c') ->
    capacity_step (MkSystem c ths t)
      (MkSystem c' (<[tid := MkThread req name (plimit (obs_key o)) o PcGlobal]> ths) t)
| cap_next tid db th th' c c' ths t :
    ths !! tid = Some th -> reserveRunnerCapacity_next cfg db t th c = (th', c') ->
    capacity_step (MkSystem c ths t) (MkSystem c' (<[tid := th']> ths) t)
| cap_write tid th st now c ths t t' :
    ths !! tid = Some th -> th_pc th = PcReserved -> state_of_request st (th_req th) ->
    WriteState st now t = Ok t' ->
    capacity_step (MkSystem c ths t) (MkSystem c (<[tid := th <| th_pc := PcWritten |>]> ths) t')
| cap_finish tid th c ths t :
    ths !! tid = Some th ->
    match th_pc th with PcReturned _ _ | PcReserved | PcWritten => True | _ => False end ->
    capacity_step (MkSystem c ths t) (MkSystem (finish (th_obs th) c) (delete tid ths) t)
| cap_other c ths t t' :
    no_new_inflight t t' -> capacity_step (MkSystem c ths t) (MkSystem c ths t').
End system.

Definition initial_system (t : table) : capacity_system := MkSystem zero_capacity ∅ t.

(** ** One counter, one observer *)

(** What an observer that has not reserved knows.  [started] and [started0] are
    the counter's [started] now and when it was observed, [pending0] its
    [pending] then; [unw] are the reservations not yet written and [inf] the
    in-flight rows, both now; [read] is the count the observer read, if it did.
    [n] is the number of admissions since the observation. *)
Definition obs_ok (N started started0 pending0 unw inf : Z) (read : option Z) : Prop :=
  exists n, (0 <= n <= N /\ 0 <= started0 < 2 ^ 64 /\ started = wrapu64 (started0 + n) /\
    unw <= pending0 + n /\ forall v, read = Some v -> inf + unw <= v + pending0 + n)%Z.

Lemma obs_ok_since N started started0 pending0 unw inf v limit :
  (N < 2 ^ 63)%Z -> obs_ok N started started0 pending0 unw inf (Some v) ->
  (v + pending0 + since started started0 < limit)%Z -> (inf + unw < limit)%Z.
Proof.
  intros HN (n & Hn & Hs & -> & _ & Hv) Hl. specialize (Hv v eq_refl).
  enough (since (wrapu64 (started0 + n)) started0 = n) by lia.
  unfold since, wrapu64. rewrite Zminus_mod_idemp_l.
  replace (started0 + n - started0)%Z with n by lia. rewrite Z.mod_small by lia.
  apply wrap64_id. unfold in_int64. lia.
Qed.

Lemma obs_ok_new N started pending unw inf :
  (0 <= N)%Z -> (0 <= started < 2 ^ 64)%Z -> (unw <= pending)%Z ->
  obs_ok N started started pending unw inf None.
Proof.
  intros. exists 0%Z. rewrite Z.add_0_r. unfold wrapu64. rewrite Z.mod_small by lia.
  split; [lia|]. split; [lia|]. split; [done|]. split; [lia|done].
Qed.

Lemma obs_ok_reserve N started started0 pending0 unw inf read :
  obs_ok N started started0 pending0 unw inf read ->
  obs_ok (N + 1) (wrapu64 (started + 1)) started0 pending0 (unw + 1) inf read.
Proof.
  intros (n & Hn & Hs & -> & Hu & Hv). exists (n + 1)%Z. repeat split; try lia.
  - unfold wrapu64. rewrite Zplus_mod_idemp_l. f_equal. lia.
  - intros v ->. specialize (Hv v eq_refl). lia.
Qed.

Lemma obs_ok_weaken N N' started started0 pending0 unw inf read unw' inf' :
  (N <= N')%Z -> (unw' <= unw)%Z -> (inf' + unw' <= inf + unw)%Z ->
  obs_ok N started started0 pending0 unw inf read -> obs_ok N' started started0 pending0 unw' inf' read.
Proof.
  intros HN Hu Hi (n & Hn & Hs & -> & Hu' & Hv). exists n. repeat split; try lia.
  intros v ->. specialize (Hv v eq_refl). lia.
Qed.

Lemma obs_ok_read N started started0 pending0 unw inf read :
  obs_ok N started started0 pending0 unw inf read -> obs_ok N started started0 pending0 unw inf (Some inf).
Proof. intros (n & Hn & Hs & -> & Hu & Hv). exists n. repeat split; try lia. intros v [= <-]. lia. Qed.

Lemma obs_ok_forget N started started0 pending0 unw inf read :
  obs_ok N started started0 pending0 unw inf read -> obs_ok N started started0 pending0 unw inf None.
Proof. intros (n & Hn & Hs & -> & Hu & Hv). exists n. repeat split; try lia. done. Qed.

(** ** One dimension: the counters of one map *)

Definition reserved (th : capacity_thread) : bool := obs_reserved (th_obs th).
Definition unwritten (th : capacity_thread) : bool :=
  match th_pc th with PcReserved => true | _ => false end.

Section dimension.
Context {K : Type} `{Countable K}.
(** The thread's key, counter, and the counter's values when it observed. *)
Context (slot : capacity_thread -> option (K * nat * Z * Z)).
Context (readv : capacity_thread -> option Z).
(** The rows that a key's store count counts, its limit, and the keys in use. *)
Context (rowp : K -> runnerRequestRecord -> bool) (limit : K -> Z) (valid : K -> Prop) (base : K -> Z).

Definition has (k : K) (th : capacity_thread) : bool :=
  match slot th with Some (k', _, _, _) => bool_decide (k' = k) | None => false end.

Definition unw (k : K) (ths : gmap string capacity_thread) : Z :=
  cnt (fun th => unwritten th && has k th) ths.
Definition inf (k : K) (t : table) : Z := cnt (rowp k) t.

Record dim_inv (N : Z) (cs : counters K) (ths : gmap string capacity_thread) (t : table) : Prop := {
  dim_shared tid th k a s p :
    ths !! tid = Some th -> slot th = Some (k, a, s, p) -> cs_map cs !! k = Some a;
  dim_counter k a :
    cs_map cs !! k = Some a -> a < cs_next cs /\ is_Some (cs_heap cs !! a) /\
      ctr_readers (deref a cs) = cnt (has k) ths /\ (0 < ctr_readers (deref a cs))%Z /\
      ctr_pending (deref a cs) = cnt (fun th => reserved th && has k th) ths /\
      (0 <= ctr_started (deref a cs) < 2 ^ 64)%Z;
  dim_inj k1 k2 a : cs_map cs !! k1 = Some a -> cs_map cs !! k2 = Some a -> k1 = k2;
  dim_observer tid th k a s p :
    ths !! tid = Some th -> slot th = Some (k, a, s, p) -> reserved th = false -> valid k ->
    obs_ok N (ctr_started (deref a cs)) s p (unw k ths) (inf k t) (readv th);
  dim_limit k :
    valid k -> (0 < limit k)%Z -> (inf k t + unw k ths <= Z.max (limit k) (base k))%Z
}.

Lemma has_slot k th a s p k' : slot th = Some (k, a, s, p) -> has k' th = bool_decide (k = k').
Proof. unfold has. by intros ->. Qed.

Lemma has_none k th : slot th = None -> has k th = false.
Proof. unfold has. by intros ->. Qed.

Lemma has_true k th : has k th = true -> exists a s p, slot th = Some (k, a, s, p).
Proof.
  unfold has. destruct (slot th) as [[[[k' a] s] p]|]; [|done].
  intros E%bool_decide_eq_true. subst. eauto.
Qed.

Lemma deref_store_eq a c (cs : counters K) : deref a (store a c cs) = c.
Proof. unfold deref, store. simpl. by rewrite lookup_insert_eq. Qed.

Lemma deref_store_ne a b c (cs : counters K) : a <> b -> deref b (store a c cs) = deref b cs.
Proof. intros E. unfold deref, store. simpl. by rewrite lookup_insert_ne. Qed.

(** The table changes and no count grows. *)
Lemma dim_other N cs ths t t' :
  dim_inv N cs ths t -> (forall k, valid k -> (inf k t' <= inf k t)%Z) -> dim_inv N cs ths t'.
Proof.
  intros [H1 H2 H3 H4 H5] Hm. split; try done.
  - intros. eapply obs_ok_weaken; [reflexivity|reflexivity| |eauto].
    assert (inf k t' <= inf k t)%Z by auto. lia.
  - intros k Hv Hl. specialize (H5 k Hv Hl). assert (inf k t' <= inf k t)%Z by auto. lia.
Qed.

(** A thread changes without touching this dimension's ledger: its slot and
    reservation stay, and it may have read its count. *)
Lemma dim_next N cs ths t tid th th' :
  dim_inv N cs ths t -> ths !! tid = Some th ->
  slot th' = slot th -> reserved th' = reserved th -> unwritten th' = unwritten th ->
  (readv th' = readv th \/ readv th' = None \/
   forall k a s p, slot th = Some (k, a, s, p) -> valid k -> readv th' = Some (inf k t)) ->
  dim_inv N cs (<[tid := th']> ths) t.
Proof.
  intros [H1 H2 H3 H4 H5] Htid Hs Hr Hu Hrd.
  assert (Hh : forall k, has k th' = has k th) by (intros; unfold has; by rewrite Hs).
  assert (Hc1 : forall k, cnt (has k) (<[tid:=th']> ths) = cnt (has k) ths)
    by (intros; rewrite (cnt_insert _ _ _ _ _ Htid), Hh; lia).
  assert (Hc2 : forall k, cnt (fun th => reserved th && has k th) (<[tid:=th']> ths) =
                          cnt (fun th => reserved th && has k th) ths)
    by (intros; rewrite (cnt_insert _ _ _ _ _ Htid), Hh, Hr; lia).
  assert (Hc3 : forall k, unw k (<[tid:=th']> ths) = unw k ths)
    by (intros; unfold unw; rewrite (cnt_insert _ _ _ _ _ Htid), Hh, Hu; lia).
  split; try done.
  - intros j x k a s p. rewrite lookup_insert. case_decide; [|eauto]. intros [= <-]. rewrite Hs. eauto.
  - intros k a. rewrite Hc1, Hc2. eauto.
  - intros j x k a s p. rewrite lookup_insert, Hc3. case_decide; [|eauto]. intros [= <-]. rewrite Hs, Hr.
    intros Hsl Hre Hv. specialize (H4 _ _ _ _ _ _ Htid Hsl Hre Hv).
    destruct Hrd as [->|[->|Hrd]]; [done|by eapply obs_ok_forget|]. rewrite (Hrd _ _ _ _ Hsl Hv).
    by eapply obs_ok_read.
  - intros k. rewrite Hc3. eauto.
Qed.

Lemma dim_new_none N cs ths t tid th :
  dim_inv N cs ths t -> ths !! tid = None -> slot th = None -> dim_inv N cs (<[tid := th]> ths) t.
Proof.
  intros [H1 H2 H3 H4 H5] Hn Hs. pose proof (fun k => has_none k th Hs) as Hh.
  assert (Hc3 : forall k, unw k (<[tid:=th]> ths) = unw k ths)
    by (intros; unfold unw; rewrite cnt_insert_new, Hh, andb_false_r by done; simpl; lia).
  split; try done.
  - intros j x k a s p. rewrite lookup_insert. case_decide; [congruence|eauto].
  - intros k a. rewrite !cnt_insert_new, Hh, andb_false_r by done. simpl. rewrite !Z.add_0_r. eauto.
  - intros j x k a s p. rewrite lookup_insert, Hc3. case_decide; [congruence|eauto].
  - intros k. rewrite Hc3. eauto.
Qed.

Definition unwritten_reserved (ths : gmap string capacity_thread) : Prop :=
  forall tid th, ths !! tid = Some th -> unwritten th = true -> reserved th = true.

Lemma unw_le_pending k ths :
  unwritten_reserved ths -> (unw k ths <= cnt (fun th => reserved th && has k th) ths)%Z.
Proof.
  intros Hur. apply cnt_le. intros tid th Htid [Hu Hh]%andb_true_iff.
  by rewrite (Hur _ _ Htid Hu), Hh.
Qed.

(** Storing a counter leaves the counters of the other keys alone. *)
Lemma dim_deref_other N cs ths t k a k' a' c :
  dim_inv N cs ths t -> cs_map cs !! k = Some a -> cs_map cs !! k' = Some a' -> k' <> k ->
  deref a' (store a c cs) = deref a' cs.
Proof.
  intros Hd Hk Hk' Hne. apply deref_store_ne. intros ->. apply Hne. by eapply (dim_inj _ _ _ _ Hd).
Qed.

Lemma store_is_Some a c a' (cs : counters K) :
  is_Some (cs_heap cs !! a') -> is_Some (cs_heap (store a c cs) !! a').
Proof. intros Hs. simpl. rewrite lookup_insert. case_decide; [by eexists|done]. Qed.

(** The state after the allocation branch of [lookup_or_add] has the key, with no user. *)
Definition with_key (k : K) (cs : counters K) : counters K :=
  match cs_map cs !! k with
  | Some _ => cs
  | None => MkCounters (<[k := cs_next cs]> (cs_map cs))
              (<[cs_next cs := zero_counter]> (cs_heap cs)) (S (cs_next cs))
  end.

Lemma lookup_or_add_with_key k cs a cs' :
  lookup_or_add k cs = (a, cs') ->
  cs_map (with_key k cs) !! k = Some a /\
  let c := deref a (with_key k cs) in
  cs' = store a (c <| ctr_readers := (ctr_readers c + 1)%Z |>) (with_key k cs).
Proof.
  unfold lookup_or_add, with_key. destruct (cs_map cs !! k) eqn:E; intros [= <- <-].
  - by rewrite E.
  - split; [|done]. simpl. apply lookup_insert_eq.
Qed.

Lemma with_key_lookup k cs k' a' :
  cs_map (with_key k cs) !! k' = Some a' ->
  cs_map cs !! k' = Some a' \/ (k' = k /\ cs_map cs !! k = None /\ a' = cs_next cs).
Proof.
  unfold with_key. destruct (cs_map cs !! k) eqn:E; [by left|]. simpl.
  rewrite lookup_insert. case_decide; [intros [= <-]; subst; auto|by left].
Qed.

Lemma with_key_deref N cs ths t k k' a' :
  dim_inv N cs ths t -> cs_map cs !! k' = Some a' -> deref a' (with_key k cs) = deref a' cs.
Proof.
  intros Hd Hk'. unfold with_key. destruct (cs_map cs !! k); [done|].
  destruct (dim_counter _ _ _ _ Hd _ _ Hk') as [Hlt _]. unfold deref. simpl.
  rewrite lookup_insert_ne by lia. done.
Qed.

Lemma dim_no_user N cs ths t k :
  dim_inv N cs ths t -> cs_map cs !! k = None -> forall q, cnt (fun th => q th && has k th) ths = 0%Z.
Proof.
  intros Hd Hn q. apply cnt_zero. intros tid th Htid. destruct (has k th) eqn:Eh; [|apply andb_false_r].
  apply has_true in Eh as (a & s & p & Hs). pose proof (dim_shared _ _ _ _ Hd _ _ _ _ _ _ Htid Hs). congruence.
Qed.

Lemma dim_no_user_has N cs ths t k :
  dim_inv N cs ths t -> cs_map cs !! k = None -> cnt (has k) ths = 0%Z.
Proof. intros Hd Hn. exact (dim_no_user N cs ths t k Hd Hn (fun _ => true)). Qed.

(** The counter of a key that was just looked up or allocated. *)
Lemma with_key_counter N cs ths t k a :
  dim_inv N cs ths t -> cs_map (with_key k cs) !! k = Some a ->
  let c := deref a (with_key k cs) in
  a < cs_next (with_key k cs) /\ is_Some (cs_heap (with_key k cs) !! a) /\
  ctr_readers c = cnt (has k) ths /\ ctr_pending c = cnt (fun th => reserved th && has k th) ths /\
  (0 <= ctr_started c < 2 ^ 64)%Z.
Proof.
  intros Hd Hka. apply with_key_lookup in Hka as [Hk|(_ & Hk & ->)]; cbv zeta.
  - rewrite (with_key_deref N cs ths t k k a Hd Hk).
    destruct (dim_counter _ _ _ _ Hd _ _ Hk) as (? & ? & ? & ? & ? & ?). unfold with_key. by rewrite Hk.
  - unfold with_key, deref. rewrite Hk. simpl. rewrite lookup_insert_eq. simpl.
    rewrite (dim_no_user _ _ _ _ _ Hd Hk), (dim_no_user_has _ _ _ _ _ Hd Hk).
    repeat split; try lia; by eexists.
Qed.

Lemma with_key_other N cs ths t k a k' a' :
  dim_inv N cs ths t -> cs_map (with_key k cs) !! k = Some a ->
  cs_map (with_key k cs) !! k' = Some a' -> k' <> k ->
  cs_map cs !! k' = Some a' /\ a' <> a /\ deref a' (with_key k cs) = deref a' cs /\
  a' < cs_next (with_key k cs) /\ is_Some (cs_heap (with_key k cs) !! a').
Proof.
  intros Hd Hka Hk' Hne. apply with_key_lookup in Hk' as [Hk'|(? & _)]; [|done].
  destruct (dim_counter _ _ _ _ Hd _ _ Hk') as (Hlt & Hsome & _). split; [done|].
  split; [|split; [by eapply with_key_deref|]].
  - intros ->. apply with_key_lookup in Hka as [Hk|(_ & _ & ->)]; [|lia].
    by apply Hne, (dim_inj _ _ _ _ Hd _ _ _ Hk' Hk).
  - unfold with_key. destruct (cs_map cs !! k); simpl; [done|]. split; [lia|].
    rewrite lookup_insert. case_decide; [by eexists|done].
Qed.

(** A new observer. *)
Lemma dim_observe N cs ths t tid th k a cs' :
  dim_inv N cs ths t -> unwritten_reserved ths -> (0 <= N)%Z ->
  ths !! tid = None -> lookup_or_add k cs = (a, cs') ->
  slot th = Some (k, a, ctr_started (deref a cs'), ctr_pending (deref a cs')) ->
  reserved th = false -> unwritten th = false -> readv th = None ->
  dim_inv N cs' (<[tid := th]> ths) t.
Proof.
  intros Hd Hur HN Htid Hla Hs Hr Hu Hrd. apply lookup_or_add_with_key in Hla as [Hka ->].
  destruct (with_key_counter _ _ _ _ _ _ Hd Hka) as (Hlt & Hheap & Hrd0 & Hpd0 & Hst0).
  pose proof (fun k' a' => with_key_other _ _ _ _ _ _ k' a' Hd Hka) as Hother.
  pose proof (fun k' => has_slot _ _ _ _ _ k' Hs) as Hh.
  assert (Hunw : forall k', unw k' (<[tid:=th]> ths) = unw k' ths)
    by (intros; unfold unw; rewrite cnt_insert_new, Hu by done; simpl; lia).
  split.
  - intros j x k' a' s' p'. rewrite lookup_insert. simpl.
    case_decide; [intros [= <-]; rewrite Hs; by intros [= <- <- _ _]|].
    intros Hx Hsx. pose proof (dim_shared _ _ _ _ Hd _ _ _ _ _ _ Hx Hsx) as Hm.
    unfold with_key. destruct (cs_map cs !! k) eqn:E; [done|]. simpl. rewrite lookup_insert_ne; congruence.
  - intros k' a' Hk'. simpl in Hk'. rewrite !cnt_insert_new, Hr, Hh by done. simpl. rewrite Z.add_0_r.
    destruct (decide (k = k')) as [<-|Hne].
    + assert (a' = a) as -> by congruence. rewrite deref_store_eq. simpl.
      rewrite bool_decide_eq_true_2 by done. pose proof (cnt_nonneg (has k) ths). simpl.
      rewrite lookup_insert_eq. repeat split; try lia. by eexists.
    + destruct (Hother k' a' Hk' ltac:(congruence)) as (Hk0 & Hna & Hde & Hl & Hso).
      rewrite deref_store_ne, Hde by congruence. rewrite bool_decide_eq_false_2 by done. simpl.
      rewrite lookup_insert_ne by congruence. destruct (dim_counter _ _ _ _ Hd _ _ Hk0) as (_ & _ & ? & ? & ? & ?).
      by rewrite Z.add_0_r.
  - intros k1 k2 b Hk1 Hk2. simpl in *. destruct (decide (k1 = k)) as [->|H1], (decide (k2 = k)) as [->|H2]; [done|..].
    + destruct (Hother _ _ Hk2 H2) as (_ & ? & _). congruence.
    + destruct (Hother _ _ Hk1 H1) as (_ & ? & _). congruence.
    + destruct (Hother _ _ Hk1 H1) as (? & _), (Hother _ _ Hk2 H2) as (? & _). by eapply (dim_inj _ _ _ _ Hd).
  - intros j x k' a' s' p'. rewrite lookup_insert, Hunw. case_decide as Ej.
    + intros [= <-]. rewrite Hs, Hrd. intros [= <- <- <- <-] _ Hv.
      apply obs_ok_new; rewrite ?deref_store_eq; simpl; [done|done|]. rewrite Hpd0. by apply unw_le_pending.
    + intros Hx Hsx Hrx Hv. pose proof (dim_observer _ _ _ _ Hd _ _ _ _ _ _ Hx Hsx Hrx Hv) as Ho.
      pose proof (dim_shared _ _ _ _ Hd _ _ _ _ _ _ Hx Hsx) as Hm.
      rewrite <-(with_key_deref N cs ths t k k' a' Hd Hm) in Ho.
      destruct (decide (a = a')) as [<-|]; [by rewrite deref_store_eq|by rewrite deref_store_ne].
  - intros k'. rewrite Hunw. apply (dim_limit _ _ _ _ Hd).
Qed.

(** A reservation: the check at this dimension passed. *)
Lemma dim_reserve N cs ths t tid th th' k a s p :
  dim_inv N cs ths t -> ths !! tid = Some th -> (N < 2 ^ 63)%Z ->
  slot th = Some (k, a, s, p) -> slot th' = slot th -> reserved th = false -> unwritten th = false ->
  reserved th' = true -> unwritten th' = true ->
  (valid k -> (0 < limit k)%Z -> exists v, readv th = Some v /\
     (v + p + since (ctr_started (deref a cs)) s < limit k)%Z) ->
  dim_inv (N + 1) (add_pending a cs) (<[tid := th']> ths) t.
Proof.
  intros Hd Htid HN Hs Hs' Hr Hu Hr' Hu' Hchk. rewrite Hs in Hs'.
  pose proof (dim_shared _ _ _ _ Hd _ _ _ _ _ _ Htid Hs) as Hka.
  pose proof (fun k' => has_slot _ _ _ _ _ k' Hs) as Hh. pose proof (fun k' => has_slot _ _ _ _ _ k' Hs') as Hh'.
  assert (Hunw : forall k', unw k' (<[tid:=th']> ths) = (unw k' ths + Z.b2z (bool_decide (k = k')))%Z)
    by (intros; unfold unw; rewrite (cnt_insert _ _ _ _ _ Htid), Hu, Hu', Hh'; simpl; lia).
  destruct (dim_counter _ _ _ _ Hd _ _ Hka) as (Hlt & Hheap & Hrd & Hpos & Hpd & Hst).
  unfold add_pending. split.
  - intros j x k' a' s' p'. rewrite lookup_insert. simpl. case_decide; [intros [= <-]; rewrite Hs'; by intros [= <- <- _ _]|].
    apply (dim_shared _ _ _ _ Hd).
  - intros k' a' Hk'. simpl in Hk'. rewrite !(cnt_insert _ _ _ _ _ Htid), Hr, Hr', Hh, Hh'. simpl.
    destruct (decide (k = k')) as [<-|Hne].
    + assert (a' = a) as -> by congruence. rewrite deref_store_eq, lookup_insert_eq. simpl.
      rewrite bool_decide_eq_true_2 by done. pose proof (Z.mod_pos_bound (ctr_started (deref a cs) + 1) (2 ^ 64) ltac:(lia)).
      unfold wrapu64. simpl. repeat split; try lia. by eexists.
    + rewrite (dim_deref_other _ _ _ _ _ _ _ _ _ Hd Hka Hk') by done. rewrite bool_decide_eq_false_2 by done. simpl.
      destruct (dim_counter _ _ _ _ Hd _ _ Hk') as (? & ? & ? & ? & ? & ?).
      rewrite !Z.sub_0_r, !Z.add_0_r. split; [done|]. split; [|done].
      rewrite lookup_insert. case_decide; [by eexists|done].
  - intros k1 k2 b. simpl. apply (dim_inj _ _ _ _ Hd).
  - intros j x k' a' s' p'. rewrite lookup_insert, Hunw. case_decide; [intros [= <-]; congruence|].
    intros Hx Hsx Hrx Hv. pose proof (dim_observer _ _ _ _ Hd _ _ _ _ _ _ Hx Hsx Hrx Hv) as Ho.
    pose proof (dim_shared _ _ _ _ Hd _ _ _ _ _ _ Hx Hsx) as Hk'. destruct (decide (k = k')) as [<-|Hne].
    + assert (a' = a) as -> by congruence. rewrite deref_store_eq. simpl.
      rewrite bool_decide_eq_true_2 by done. by apply obs_ok_reserve.
    + rewrite (dim_deref_other _ _ _ _ _ _ _ _ _ Hd Hka Hk') by done. rewrite bool_decide_eq_false_2 by done. simpl.
      eapply obs_ok_weaken; [| | |exact Ho]; lia.
  - intros k' Hv Hl. rewrite Hunw. pose proof (dim_limit _ _ _ _ Hd k' Hv Hl).
    destruct (decide (k = k')) as [<-|Hne]; [|rewrite bool_decide_eq_false_2 by done; simpl; lia].
    destruct (Hchk Hv Hl) as (v & Hrv & Hlt'). pose proof (dim_observer _ _ _ _ Hd _ _ _ _ _ _ Htid Hs Hr Hv) as Ho.
    rewrite Hrv in Ho. pose proof (obs_ok_since _ _ _ _ _ _ _ _ HN Ho Hlt').
    rewrite bool_decide_eq_true_2 by done. simpl. lia.
Qed.

Lemma dim_N N N' cs ths t : (N <= N')%Z -> dim_inv N cs ths t -> dim_inv N' cs ths t.
Proof.
  intros HN [H1 H2 H3 H4 H5]. split; try done. intros. eapply obs_ok_weaken; [exact HN|reflexivity|reflexivity|eauto].
Qed.

(** A thread without a counter here changes in any way. *)
Lemma dim_next_none N cs ths t tid th th' :
  dim_inv N cs ths t -> ths !! tid = Some th -> slot th = None -> slot th' = None ->
  dim_inv N cs (<[tid := th']> ths) t.
Proof.
  intros [H1 H2 H3 H4 H5] Htid Hs Hs'.
  pose proof (fun k => has_none k th Hs) as Hh. pose proof (fun k => has_none k th' Hs') as Hh'.
  assert (Hc : forall q k, cnt (fun th => q th && has k th) (<[tid:=th']> ths) = cnt (fun th => q th && has k th) ths)
    by (intros; rewrite (cnt_insert _ _ _ _ _ Htid), Hh, Hh', !andb_false_r; simpl; lia).
  assert (Hc1 : forall k, cnt (has k) (<[tid:=th']> ths) = cnt (has k) ths)
    by (intros; rewrite (cnt_insert _ _ _ _ _ Htid), Hh, Hh'; simpl; lia).
  assert (Hc3 : forall k, unw k (<[tid:=th']> ths) = unw k ths) by (intros; apply Hc).
  split; try done.
  - intros j x k a s p. rewrite lookup_insert. case_decide; [congruence|eauto].
  - intros k a. rewrite Hc, Hc1. eauto.
  - intros j x k a s p. rewrite lookup_insert, Hc3. case_decide; [congruence|eauto].
  - intros k. rewrite Hc3. eauto.
Qed.

(** The creating write of a reserved thread: its row is now counted by the store. *)
Lemma dim_write N cs ths t t' tid th th' :
  dim_inv N cs ths t -> ths !! tid = Some th ->
  slot th' = slot th -> reserved th = true -> reserved th' = true ->
  unwritten th = true -> unwritten th' = false ->
  (forall k, valid k -> (inf k t' <= inf k t + Z.b2z (has k th))%Z) ->
  dim_inv N cs (<[tid := th']> ths) t'.
Proof.
  intros [H1 H2 H3 H4 H5] Htid Hs Hr Hr' Hu Hu' Hi.
  assert (Hh : forall k, has k th' = has k th) by (intros; unfold has; by rewrite Hs).
  assert (Hc1 : forall k, cnt (has k) (<[tid:=th']> ths) = cnt (has k) ths)
    by (intros; rewrite (cnt_insert _ _ _ _ _ Htid), Hh; lia).
  assert (Hc2 : forall k, cnt (fun th => reserved th && has k th) (<[tid:=th']> ths) =
                          cnt (fun th => reserved th && has k th) ths)
    by (intros; rewrite (cnt_insert _ _ _ _ _ Htid), Hh, Hr, Hr'; lia).
  assert (Hc3 : forall k, unw k (<[tid:=th']> ths) = (unw k ths - Z.b2z (has k th))%Z)
    by (intros; unfold unw; rewrite (cnt_insert _ _ _ _ _ Htid), Hu, Hu'; simpl; lia).
  assert (Hb : forall b, (0 <= Z.b2z b)%Z) by by intros [].
  split; try done.
  - intros j x k a s p. rewrite lookup_insert. case_decide; [|eauto]. intros [= <-]. rewrite Hs. eauto.
  - intros k a. rewrite Hc1, Hc2. eauto.
  - intros j x k a s p. rewrite lookup_insert, Hc3. case_decide; [intros [= <-]; congruence|].
    intros Hx Hsx Hrx Hv. specialize (Hi k Hv). specialize (Hb (has k th)).
    eapply obs_ok_weaken; [| | |eauto]; lia.
  - intros k Hv Hl. rewrite Hc3. specialize (H5 k Hv Hl). specialize (Hi k Hv). lia.
Qed.

(** The observer goes; a map that keeps the counters in use keeps the invariant. *)
Lemma dim_finish_core N cs ths t tid th k a s p c m :
  dim_inv N cs ths t -> ths !! tid = Some th -> slot th = Some (k, a, s, p) ->
  ctr_readers c = (ctr_readers (deref a cs) - 1)%Z -> ctr_started c = ctr_started (deref a cs) ->
  ctr_pending c = (ctr_pending (deref a cs) - Z.b2z (reserved th))%Z ->
  (forall k' a', m !! k' = Some a' -> cs_map cs !! k' = Some a' /\ (k' = k -> (0 < ctr_readers c)%Z)) ->
  (forall k' a', cs_map cs !! k' = Some a' -> k' <> k \/ (0 < ctr_readers c)%Z -> m !! k' = Some a') ->
  dim_inv N (MkCounters m (cs_heap (store a c cs)) (cs_next cs)) (delete tid ths) t.
Proof.
  intros Hd Htid Hs Hcr Hcs Hcp Hm1 Hm2. pose proof (dim_shared _ _ _ _ Hd _ _ _ _ _ _ Htid Hs) as Hka.
  pose proof (fun k' => has_slot _ _ _ _ _ k' Hs) as Hh.
  destruct (dim_counter _ _ _ _ Hd _ _ Hka) as (Hlt & Hheap & Hrd & Hpos & Hpd & Hst).
  assert (Hunw : forall k', (unw k' (delete tid ths) <= unw k' ths)%Z).
  { intros k'. unfold unw. rewrite (cnt_delete _ _ _ _ Htid). destruct (_ && _); simpl; lia. }
  assert (Hde : forall a', deref a' (MkCounters m (cs_heap (store a c cs)) (cs_next cs)) = deref a' (store a c cs)) by done.
  assert (Hcnt : cnt (has k) (delete tid ths) = ctr_readers c)
    by (rewrite (cnt_delete _ _ _ _ Htid), Hh, bool_decide_eq_true_2; simpl; lia || done).
  split.
  - intros j x k' a' s' p' Hx Hsx. simpl. apply lookup_delete_Some in Hx as [Hj Hx].
    apply Hm2; [by eapply (dim_shared _ _ _ _ Hd)|]. destruct (decide (k' = k)) as [->|]; [right|by left].
    rewrite <-Hcnt. apply Z.lt_le_trans with 1%Z; [lia|]. apply (cnt_pos _ _ j x); [by rewrite lookup_delete_ne|].
    by rewrite (has_slot _ _ _ _ _ _ Hsx), bool_decide_eq_true_2.
  - intros k' a' [Hk' Hkk]%Hm1. rewrite Hde. destruct (decide (k' = k)) as [->|Hne].
    + assert (a' = a) as -> by congruence. rewrite Hcnt, (cnt_delete _ _ _ _ Htid), Hh, bool_decide_eq_true_2 by done.
      rewrite deref_store_eq. simpl. rewrite lookup_insert_eq, andb_true_r. specialize (Hkk eq_refl).
      repeat split; try lia. by eexists.
    + rewrite !(cnt_delete _ _ _ _ Htid), Hh, bool_decide_eq_false_2, andb_false_r by done. simpl.
      rewrite !Z.sub_0_r, (dim_deref_other _ _ _ _ _ _ _ _ _ Hd Hka Hk') by done.
      destruct (dim_counter _ _ _ _ Hd _ _ Hk') as (? & ? & ?). split; [done|]. split; [|done].
      rewrite lookup_insert. case_decide; [by eexists|done].
  - intros k1 k2 b [H1 _]%Hm1 [H2 _]%Hm1. by eapply (dim_inj _ _ _ _ Hd).
  - intros j x k' a' s' p' Hx Hsx Hrx Hv. apply lookup_delete_Some in Hx as [Hj Hx]. rewrite Hde.
    pose proof (dim_observer _ _ _ _ Hd _ _ _ _ _ _ Hx Hsx Hrx Hv) as Ho. specialize (Hunw k').
    replace (ctr_started (deref a' (store a c cs))) with (ctr_started (deref a' cs)).
    + eapply obs_ok_weaken; [| | |exact Ho]; lia.
    + destruct (decide (a = a')) as [<-|]; [by rewrite deref_store_eq|by rewrite deref_store_ne].
  - intros k' Hv Hl. pose proof (dim_limit _ _ _ _ Hd k' Hv Hl). specialize (Hunw k'). lia.
Qed.

Lemma dim_finish N cs ths t tid th k a s p :
  dim_inv N cs ths t -> ths !! tid = Some th -> slot th = Some (k, a, s, p) ->
  dim_inv N (drop_reader k a (reserved th) cs) (delete tid ths) t.
Proof.
  intros Hd Htid Hs. pose proof (dim_shared _ _ _ _ Hd _ _ _ _ _ _ Htid Hs) as Hka.
  destruct (dim_counter _ _ _ _ Hd _ _ Hka) as (_ & _ & _ & Hpos & _). unfold drop_reader.
  set (c0 := if reserved th then _ else _).
  assert (Hc : ctr_readers c0 = ctr_readers (deref a cs) /\ ctr_started c0 = ctr_started (deref a cs) /\
    ctr_pending c0 = (ctr_pending (deref a cs) - Z.b2z (reserved th))%Z)
    by (unfold c0; destruct (reserved th); simpl; repeat split; lia).
  destruct Hc as (Hc1 & Hc2 & Hc3). clearbody c0. cbv zeta.
  set (c := c0 <| ctr_readers := (ctr_readers c0 - 1)%Z |>).
  assert (Hcr : ctr_readers c = (ctr_readers (deref a cs) - 1)%Z) by (simpl; lia).
  destruct (Z.eqb_spec (ctr_readers c) 0) as [Hz|Hnz].
  - eapply (dim_finish_core N cs ths t tid th k a s p c); try done.
    + intros k' a' Hk'. simpl in Hk'. apply lookup_delete_Some in Hk' as [Hne Hk']. split; [done|congruence].
    + intros k' a' Hk' [Hne|?]; [|lia]. by rewrite lookup_delete_ne.
  - eapply (dim_finish_core N cs ths t tid th k a s p c (cs_map cs)); try done.
    intros k' a' Hk'. split; [done|]. lia.
Qed.

Lemma dim_finish_none N cs ths t tid th :
  dim_inv N cs ths t -> ths !! tid = Some th -> slot th = None -> dim_inv N cs (delete tid ths) t.
Proof.
  intros [H1 H2 H3 H4 H5] Htid Hs. pose proof (fun k => has_none k th Hs) as Hh.
  assert (Hc3 : forall k, unw k (delete tid ths) = unw k ths)
    by (intros; unfold unw; rewrite (cnt_delete _ _ _ _ Htid), Hh, andb_false_r; simpl; lia).
  split; try done.
  - intros j x k a s p Hx. apply lookup_delete_Some in Hx as [_ Hx]. eauto.
  - intros k a. rewrite !(cnt_delete _ _ _ _ Htid), Hh, andb_false_r. simpl. rewrite !Z.sub_0_r. eauto.
  - intros j x k a s p Hx. apply lookup_delete_Some in Hx as [_ Hx]. rewrite Hc3. eauto.
  - intros k. rewrite Hc3. eauto.
Qed.

Lemma dim_empty t : (forall k, base k = inf k t) -> dim_inv 0 empty_counters ∅ t.
Proof.
  intros Hb. split; try (intros *; simpl; by rewrite lookup_empty).
  intros k Hv Hl. rewrite Hb. assert (unw k ∅ = 0%Z) as ->; [|lia].
  apply cnt_zero. intros *. by rewrite lookup_empty.
Qed.
End dimension.

(** ** The four dimensions of a start *)

Definition slot_profile (th : capacity_thread) : option (runnerCapacityKey * nat * Z * Z) :=
  let o := th_obs th in Some (obs_key o, obs_profile o, obs_profileStarted o, obs_profilePending o).
Definition slot_account (th : capacity_thread) : option (string * nat * Z * Z) :=
  let o := th_obs th in
  (fun a => (obs_accountKey o, a, obs_accountStarted o, obs_accountPending o)) <$> obs_account o.
Definition slot_repository (th : capacity_thread) : option (string * nat * Z * Z) :=
  let o := th_obs th in
  (fun a => (obs_repositoryKey o, a, obs_repositoryStarted o, obs_repositoryPending o)) <$> obs_repository o.

(** The count and the limit that a program counter holds for a dimension. *)
Definition global_read (pc : capacity_pc) : option Z :=
  match pc with
  | PcProfile g | PcAccount g _ _ | PcRepository g _ _ _ _ | PcReserve g _ _ _ _ _ _ => Some g
  | _ => None
  end.
Definition profile_read (pc : capacity_pc) : option (Z * Z) :=
  match pc with
  | PcAccount _ p pl | PcRepository _ p pl _ _ | PcReserve _ p pl _ _ _ _ => Some (p, pl)
  | _ => None
  end.
Definition account_read (pc : capacity_pc) : option (Z * Z) :=
  match pc with
  | PcRepository _ _ _ a al | PcReserve _ _ _ a al _ _ => Some (a, al)
  | _ => None
  end.
Definition repository_read (pc : capacity_pc) : option (Z * Z) :=
  match pc with PcReserve _ _ _ _ _ r rl => Some (r, rl) | _ => None end.

Definition when_limited (x : option (Z * Z)) : option Z :=
  match x with Some (v, l) => if (0 <? l)%Z then Some v else None | None => None end.

(** The rows that the store counts for a key. *)
Definition profile_row (k : runnerCapacityKey) (r : runnerRequestRecord) : bool :=
  if bool_decide (key_source k = "global") then
    bool_decide (rec_ProfileName r = TrimSpace (key_name k))
    && bool_decide (rec_ProfileSource r ∈ [""; "global"])
    && bool_decide (rec_Status r ∈ inFlightStatuses)
  else
    bool_decide (rec_ProfileSource r = key_source k)
    && bool_decide (rec_ProfileScopeType r = key_scopeType k)
    && (rec_ProfileScopeID r =? key_scopeID k)%Z
    && bool_decide (rec_ProfileName r = TrimSpace (key_name k))
    && bool_decide (rec_Status r ∈ inFlightStatuses).
Definition account_row (k : string) (r : runnerRequestRecord) : bool :=
  HasPrefix (ToLower (rec_RepositoryFullName r)) (k +:+ "/") && isInFlight (rec_Status r).
Definition repository_row (k : string) (r : runnerRequestRecord) : bool :=
  bool_decide (ToLower (rec_RepositoryFullName r) = k) && isInFlight (rec_Status r).
Definition inflight_row (r : runnerRequestRecord) : bool := isInFlight (rec_Status r).

Definition valid_profile (k : runnerCapacityKey) : Prop :=
  TrimSpace (key_name k) = key_name k /\ key_name k <> "" /\
  ((key_source k = "global" /\ key_scopeType k = "" /\ key_scopeID k = 0%Z) \/
   (key_source k <> "" /\ key_source k <> "global" /\ key_scopeType k <> "" /\ (0 < key_scopeID k)%Z)).
Definition valid_account (k : string) : Prop := k <> "" /\ "/"%char ∉ bytes k.
Definition valid_repository (k : string) : Prop := k <> "".

Section system_invariant.
Context (cfg : capacity_config) (plimit : runnerCapacityKey -> Z) (t0 : table).

Record global_inv (N : Z) (c : runnerAdmissionCapacity) (ths : gmap string capacity_thread) (t : table)
    : Prop := {
  glob_pending : cap_pending c = cnt reserved ths;
  glob_started : (0 <= cap_started c < 2 ^ 64)%Z;
  glob_observer tid th :
    ths !! tid = Some th -> reserved th = false ->
    obs_ok N (cap_started c) (obs_started (th_obs th)) (obs_pending (th_obs th))
      (cnt unwritten ths) (cnt inflight_row t) (global_read (th_pc th));
  glob_limit :
    (cnt inflight_row t + cnt unwritten ths <=
     Z.max (cfg_MaxConcurrentRunners cfg) (cnt inflight_row t0))%Z
}.

(** What a thread's locals are, by its program counter. *)
Record thread_ok (th : capacity_thread) : Prop := {
  tho_reserved : reserved th = match th_pc th with PcReserved | PcWritten => true | _ => false end;
  tho_repo : clean_repository (req_RepositoryFullName (th_req th));
  tho_key : obs_key (th_obs th) = runnerCapacityProfileKey (th_req th);
  tho_accountKey : obs_accountKey (th_obs th) = runnerRepositoryOwner (req_RepositoryFullName (th_req th));
  tho_repositoryKey :
    obs_repositoryKey (th_obs th) = normalizeRunnerRepository (req_RepositoryFullName (th_req th));
  tho_account : is_Some (obs_account (th_obs th)) <-> obs_accountKey (th_obs th) <> "";
  tho_repository : is_Some (obs_repository (th_obs th)) <-> obs_repositoryKey (th_obs th) <> "";
  tho_max : th_maxConcurrency th = plimit (obs_key (th_obs th));
  tho_profile_limit p pl : profile_read (th_pc th) = Some (p, pl) ->
    pl = if bool_decide (req_ProfileName (th_req th) = "") then 0%Z else th_maxConcurrency th;
  tho_account_limit a al : account_read (th_pc th) = Some (a, al) ->
    al = if bool_decide (obs_accountKey (th_obs th) = "") then 0%Z
         else cfg_RunnerAccountConcurrency cfg (obs_accountKey (th_obs th));
  tho_repository_limit r rl : repository_read (th_pc th) = Some (r, rl) ->
    rl = if bool_decide (obs_repositoryKey (th_obs th) = "") then 0%Z
         else cfg_RunnerRepositoryConcurrency cfg (obs_repositoryKey (th_obs th))
}.

Definition profile_inv := dim_inv slot_profile (fun th => when_limited (profile_read (th_pc th)))
  profile_row plimit valid_profile (fun k => inf profile_row k t0).
Definition account_inv := dim_inv slot_account (fun th => when_limited (account_read (th_pc th)))
  account_row (cfg_RunnerAccountConcurrency cfg) valid_account (fun k => inf account_row k t0).
Definition repository_inv := dim_inv slot_repository (fun th => when_limited (repository_read (th_pc th)))
  repository_row (cfg_RunnerRepositoryConcurrency cfg) valid_repository (fun k => inf repository_row k t0).

Record system_inv (N : Z) (s : capacity_system) : Prop := {
  si_threads tid th : sys_threads s !! tid = Some th -> thread_ok th;
  si_global : global_inv N (sys_capacity s) (sys_threads s) (sys_table s);
  si_profile : profile_inv N (cap_profiles (sys_capacity s)) (sys_threads s) (sys_table s);
  si_account : account_inv N (cap_accounts (sys_capacity s)) (sys_threads s) (sys_table s);
  si_repository : repository_inv N (cap_repositories (sys_capacity s)) (sys_threads s) (sys_table s)
}.

Lemma system_inv_initial : system_inv 0 (initial_system t0).
Proof.
  split; simpl; try (by apply dim_empty); [intros *; by rewrite lookup_empty|].
  assert (Hz : forall p, cnt p (∅ : gmap string capacity_thread) = 0%Z)
    by (intros; apply cnt_zero; intros *; by rewrite lookup_empty).
  split; simpl; rewrite ?Hz; try lia. intros *. by rewrite lookup_empty.
Qed.
End system_invariant.

(** ** The store counts are the dimensions' counts *)

Lemma profile_key_name req :
  (runnerCapacityProfileKey req) <| key_name := TrimSpace (req_ProfileName req) |> = runnerCapacityProfileKey req.
Proof. unfold runnerCapacityProfileKey. cbv zeta. by destruct (_ && _). Qed.

Lemma profile_count req t n :
  inFlightForRunnerProfile req t = Ok n -> Z.of_nat n = inf profile_row (runnerCapacityProfileKey req) t.
Proof.
  unfold inFlightForRunnerProfile. cbv zeta. unfold inf, cnt, profile_row. set (k := runnerCapacityProfileKey req).
  case_bool_decide; [by intros [= <-]|].
  unfold InFlightCountForProfileScope, countStatesForProfileScope.
  destruct (ValidateRunnerProfileScope _); [done|]. intros [= <-]. done.
Qed.

Lemma owner_spec repo :
  runnerRepositoryOwner repo <> "" ->
  exists b, bytes (ToLower (TrimSpace repo)) = bytes (runnerRepositoryOwner repo) ++ "/"%char :: b /\
            "/"%char ∉ bytes (runnerRepositoryOwner repo).
Proof.
  unfold runnerRepositoryOwner, Cut, normalizeRunnerRepository.
  destruct (cut_bytes "/" _) as [[a b]|] eqn:E; simpl; [|done]. intros _.
  apply cut_bytes_spec in E as [E Hn]. exists b. by rewrite bytes_of_bytes.
Qed.

Lemma owner_of_prefix repo k :
  TrimSpace repo = repo -> "/"%char ∉ bytes k -> HasPrefix (ToLower repo) (k +:+ "/") = true ->
  runnerRepositoryOwner repo = k.
Proof.
  intros Ht Hn Hp. unfold HasPrefix in Hp. apply prefix_bytes_spec in Hp as [b Hb].
  rewrite bytes_app, <-(assoc_L (++)) in Hb. simpl in Hb.
  unfold runnerRepositoryOwner, Cut, normalizeRunnerRepository. rewrite Ht.
  rewrite (proj2 (cut_bytes_spec "/" _ (bytes k) b)) by done. simpl. apply of_bytes_bytes.
Qed.

Lemma owner_lower repo : ToLower (runnerRepositoryOwner repo) = runnerRepositoryOwner repo.
Proof.
  destruct (decide (runnerRepositoryOwner repo = "")) as [->|Hne]; [done|].
  destruct (owner_spec repo Hne) as (b & Hb & _). unfold ToLower in *. rewrite bytes_of_bytes in Hb.
  rewrite <-(of_bytes_bytes (runnerRepositoryOwner repo)) at 2. f_equal.
  assert (Hl : forall l l1 l2, map lower_byte l = l1 ++ l2 -> map lower_byte l1 = l1).
  { intros l l1 l2 E. apply (f_equal (map lower_byte)) in E as E2. rewrite map_map in E2.
    rewrite (map_ext _ _ lower_byte_idem), E, map_app in E2. by apply app_inj_1 in E2 as [<- _]; [|by rewrite length_map]. }
  by eapply Hl.
Qed.

Lemma account_count repo t :
  clean_repository repo -> runnerRepositoryOwner repo <> "" ->
  Z.of_nat (InFlightCountForRepositoryOwner (runnerRepositoryOwner repo) t) =
  inf account_row (runnerRepositoryOwner repo) t.
Proof.
  intros [_ Ht] Hne. unfold InFlightCountForRepositoryOwner. cbv zeta.
  rewrite Ht, owner_lower, bool_decide_eq_false_2 by done. unfold inf, cnt, Count. f_equal.
  apply countb_ext. intros r _. unfold account_row. by rewrite owner_like_prefix.
Qed.

Lemma repository_count repo t :
  normalizeRunnerRepository repo <> "" ->
  Z.of_nat (InFlightCountForRepository repo t) = inf repository_row (normalizeRunnerRepository repo) t.
Proof.
  intros Hne. unfold InFlightCountForRepository. cbv zeta. rewrite bool_decide_eq_false_2; [done|].
  intros E. apply Hne. unfold normalizeRunnerRepository. by rewrite E.
Qed.

(** ** Effects of table changes on the counts *)

Lemma no_new_inflight_counts t t' :
  no_new_inflight t t' ->
  (cnt inflight_row t' <= cnt inflight_row t)%Z /\
  (forall k, inf profile_row k t' <= inf profile_row k t)%Z /\
  (forall k, inf account_row k t' <= inf account_row k t)%Z /\
  (forall k, inf repository_row k t' <= inf repository_row k t)%Z.
Proof.
  intros Hn. repeat split; intros; apply cnt_mono; intros id r' Hr' Hp.
  all: assert (Hf : isInFlight (rec_Status r') = true)
    by (unfold inflight_row, profile_row, account_row, repository_row in Hp; revert Hp;
        repeat case_bool_decide; rewrite ?andb_true_iff, ?andb_false_r; try done; try (by intros [_ ?]);
        intros; unfold isInFlight; by apply bool_decide_eq_true).
  all: destruct (Hn _ _ Hr' Hf) as (r & Hr & Hi & E1 & E2 & E3 & E4 & E5); exists r; (split; [done|]).
  all: revert Hp; unfold inflight_row, profile_row, account_row, repository_row; rewrite ?E1, ?E2, ?E3, ?E4, ?E5, ?Hi, ?Hf; try done.
  unfold isInFlight in Hi, Hf. by rewrite Hi, Hf.
Qed.

Lemma written_row_profile st now r req k :
  state_of_request st req -> valid_profile k ->
  profile_row k (updateRecord (written st now) r) = true -> runnerCapacityProfileKey req = k.
Proof.
  intros (E1 & E2 & E3 & E4 & _) (Ht & Hn & Hk) Hp.
  assert (Hf : forall (P : Prop) `{!Decision P}, bool_decide P = true -> P) by (intros; by eapply bool_decide_eq_true_1).
  assert (F : rec_ProfileName (updateRecord (written st now) r) = req_ProfileName req /\
    rec_ProfileSource (updateRecord (written st now) r) = req_ProfileSource req /\
    rec_ProfileScopeType (updateRecord (written st now) r) = req_ProfileScopeType req /\
    rec_ProfileScopeID (updateRecord (written st now) r) = req_ProfileScopeID req).
  { rewrite <-E1, <-E2, <-E3, <-E4. unfold written. simpl. by rewrite !applyStateTimestamps_field. }
  destruct F as (F1 & F2 & F3 & F4). unfold profile_row in Hp. rewrite F1, F2, F3, F4, Ht in Hp.
  unfold runnerCapacityProfileKey. cbv zeta. destruct k as [ks kt kn ki]; simpl in *.
  case_bool_decide as Eg.
  - apply andb_true_iff in Hp as [Hp _]. apply andb_true_iff in Hp as [H1%Hf H2%Hf].
    destruct Hk as [(-> & -> & ->)|(_ & ? & _)]; [|done]. rewrite H1, Ht.
    apply elem_of_cons in H2 as [->|H2]; [done|]. apply list_elem_of_singleton in H2 as ->.
    rewrite bool_decide_eq_false_2 by done. done.
  - destruct Hk as [(? & _)|(K1 & K2 & K3 & K4)]; [done|].
    apply andb_true_iff in Hp as [Hp _]. apply andb_true_iff in Hp as [Hp H4%Hf].
    apply andb_true_iff in Hp as [Hp H3%Z.eqb_eq]. apply andb_true_iff in Hp as [H1%Hf H2%Hf].
    rewrite H1, H2, H3, H4, Ht, !bool_decide_eq_false_2 by done.
    by rewrite (proj2 (Z.ltb_lt 0 ki)).
Qed.

(** The row counts of a write by a reserved thread grow by at most that thread. *)
Lemma write_counts cfg plimit th st now t t' :
  thread_ok cfg plimit th -> state_of_request st (th_req th) -> WriteState st now t = Ok t' ->
  (cnt inflight_row t' <= cnt inflight_row t + 1)%Z /\
  (forall k, valid_profile k -> inf profile_row k t' <= inf profile_row k t + Z.b2z (has slot_profile k th))%Z /\
  (forall k, valid_account k -> inf account_row k t' <= inf account_row k t + Z.b2z (has slot_account k th))%Z /\
  (forall k, valid_repository k ->
     inf repository_row k t' <= inf repository_row k t + Z.b2z (has slot_repository k th))%Z.
Proof.
  intros Hth Hst Hw. apply WriteState_Ok in Hw as (r & Hr & _ & ->).
  set (r' := updateRecord (written st now) r).
  assert (Hgen : forall (p : runnerRequestRecord -> bool) b, (p r' = true -> b = true) ->
    (cnt p (<[sanitizeID (st_ID st) := r']> t) <= cnt p t + Z.b2z b)%Z).
  { intros p b Hb. by apply (cnt_insert_le _ _ _ r). }
  assert (Hrepo : rec_RepositoryFullName r' = req_RepositoryFullName (th_req th)).
  { destruct Hst as (_ & _ & _ & _ & <-). unfold r', written. simpl. by rewrite applyStateTimestamps_field. }
  destruct (tho_repo _ _ _ Hth) as [Htrim _]. split; [|split; [|split]].
  - by apply (Hgen _ true).
  - intros k Hv. apply Hgen. intros Hp. eapply written_row_profile in Hp; [|exact Hst|exact Hv].
    unfold has, slot_profile. simpl. rewrite (tho_key _ _ _ Hth). by apply bool_decide_eq_true.
  - intros k [Hne Hv]. apply Hgen. unfold account_row. rewrite Hrepo. intros [Hp _]%andb_true_iff.
    pose proof (tho_accountKey _ _ _ Hth) as Hk. rewrite (owner_of_prefix _ _ Htrim Hv Hp) in Hk.
    rewrite <-Hk in Hne. apply (tho_account _ _ _ Hth) in Hne as [a Ha].
    unfold has, slot_account. rewrite Ha. simpl. by apply bool_decide_eq_true.
  - intros k Hne. apply Hgen. unfold repository_row. rewrite Hrepo. intros [Hp%bool_decide_eq_true _]%andb_true_iff.
    pose proof (tho_repositoryKey _ _ _ Hth) as Hk. unfold normalizeRunnerRepository in Hk. rewrite Htrim, Hp in Hk.
    unfold valid_repository in Hne. rewrite <-Hk in Hne. apply (tho_repository _ _ _ Hth) in Hne as [a Ha].
    unfold has, slot_repository. rewrite Ha. simpl. by apply bool_decide_eq_true.
Qed.

(** ** Every action preserves the invariant *)

Section preservation.
Context (cfg : capacity_config) (plimit : runnerCapacityKey -> Z) (t0 : table).
Abbreviation thread_ok := (thread_ok cfg plimit).
Abbreviation system_inv := (system_inv cfg plimit t0).
Abbreviation global_inv := (global_inv cfg t0).

Lemma threads_unwritten_reserved (ths : gmap string capacity_thread) :
  (forall tid th, ths !! tid = Some th -> thread_ok th) -> unwritten_reserved ths.
Proof.
  intros Hok tid th Htid Hu. rewrite (tho_reserved _ _ _ (Hok _ _ Htid)).
  unfold unwritten in Hu. by destruct (th_pc th).
Qed.

Lemma lookup_or_add_nonempty_slot k cs a cs' :
  lookup_or_add_nonempty k cs = (a, cs') ->
  (k = "" /\ a = None /\ cs' = cs) \/ (k <> "" /\ exists b, a = Some b /\ lookup_or_add k cs = (b, cs')).
Proof.
  unfold lookup_or_add_nonempty. case_bool_decide; [intros [= <- <-]; auto|].
  destruct (lookup_or_add k cs) as [b cs2] eqn:E. intros [= <- <-]. right. eauto.
Qed.

(** The global part of a new observer. *)
Lemma global_observe N c c' ths t tid th :
  global_inv N c ths t -> unwritten_reserved ths -> (0 <= N)%Z -> ths !! tid = None ->
  cap_started c' = cap_started c -> cap_pending c' = cap_pending c ->
  obs_started (th_obs th) = cap_started c -> obs_pending (th_obs th) = cap_pending c ->
  reserved th = false -> unwritten th = false -> global_read (th_pc th) = None ->
  global_inv N c' (<[tid := th]> ths) t.
Proof.
  intros [H1 H2 H3 H4] Hur HN Hn E1 E2 E3 E4 Hr Hu Hg.
  assert (Hc : cnt unwritten (<[tid:=th]> ths) = cnt unwritten ths)
    by (rewrite cnt_insert_new, Hu by done; simpl; lia).
  split; rewrite ?E1, ?E2, ?Hc; try done.
  - rewrite cnt_insert_new, Hr by done. simpl. lia.
  - intros j x. rewrite lookup_insert. case_decide; [|eauto]. intros [= <-] _. rewrite E3, E4, Hg.
    apply obs_ok_new; [done|done|]. rewrite H1. apply cnt_le. eauto.
Qed.

Lemma step_observe N tid req name o c c' ths t :
  system_inv N (MkSystem c ths t) -> (0 <= N)%Z ->
  ths !! tid = None -> name = TrimSpace (req_ProfileName req) ->
  clean_repository (req_RepositoryFullName req) -> observe req name c = (o, c') ->
  system_inv N (MkSystem c' (<[tid := MkThread req name (plimit (obs_key o)) o PcGlobal]> ths) t).
Proof.
  intros [Hok Hg Hp Ha Hr] HN Hn Hname Hcl Hobs. simpl in *.
  pose proof (threads_unwritten_reserved ths Hok) as Hur. unfold observe in Hobs.
  destruct (lookup_or_add _ (cap_profiles c)) as [pa ps] eqn:Ep.
  destruct (lookup_or_add_nonempty _ (cap_accounts c)) as [aa as_] eqn:Ea.
  destruct (lookup_or_add_nonempty _ (cap_repositories c)) as [ra rs] eqn:Er.
  injection Hobs as <- <-.
  apply lookup_or_add_nonempty_slot in Ea, Er. split; simpl.
  - intros j x. rewrite lookup_insert. case_decide; [|eauto]. intros [= <-]. split; try done; simpl.
    + subst name. apply profile_key_name.
    + destruct Ea as [(E & -> & _)|(E & b & -> & _)]; split; try done; by intros [].
    + destruct Er as [(E & -> & _)|(E & b & -> & _)]; split; try done; by intros [].
  - by eapply global_observe.
  - by eapply dim_observe.
  - destruct Ea as [(_ & -> & ->)|(_ & b & -> & Ea)]; [by apply dim_new_none|by eapply dim_observe].
  - destruct Er as [(_ & -> & ->)|(_ & b & -> & Er)]; [by apply dim_new_none|by eapply dim_observe].
Qed.

Lemma step_other N c ths t t' :
  system_inv N (MkSystem c ths t) -> no_new_inflight t t' -> system_inv N (MkSystem c ths t').
Proof.
  intros [Hok Hg Hp Ha Hr] Hn. destruct (no_new_inflight_counts _ _ Hn) as (C1 & C2 & C3 & C4).
  split; simpl in *; [done| |eapply dim_other; eauto..].
  destruct Hg as [G1 G2 G3 G4]. split; try done; [|lia].
  intros j x Hx Hres. eapply obs_ok_weaken; [| | |eauto]; lia.
Qed.

Lemma step_finish N tid th c ths t :
  system_inv N (MkSystem c ths t) -> ths !! tid = Some th ->
  system_inv N (MkSystem (finish (th_obs th) c) (delete tid ths) t).
Proof.
  intros [Hok Hg Hp Ha Hr] Htid. simpl in *. split; simpl.
  - intros j x Hx. apply lookup_delete_Some in Hx as [_ Hx]. eauto.
  - destruct Hg as [G1 G2 G3 G4].
    assert (Hu : (cnt unwritten (delete tid ths) <= cnt unwritten ths)%Z)
      by (rewrite (cnt_delete _ _ _ _ Htid); destruct (unwritten th); simpl; lia).
    split; simpl; [|done| |lia].
    + rewrite (cnt_delete _ _ _ _ Htid), <-G1. unfold reserved. destruct (obs_reserved (th_obs th)); simpl; lia.
    + intros j x Hx Hres. apply lookup_delete_Some in Hx as [_ Hx]. eapply obs_ok_weaken; [| | |eauto]; lia.
  - by eapply (dim_finish _ _ _ _ _ _ N _ _ _ _ th).
  - unfold drop_reader_opt. destruct (obs_account (th_obs th)) as [a|] eqn:E.
    + eapply (dim_finish _ _ _ _ _ _ N _ _ _ _ th); [done|done|]. unfold slot_account. by rewrite E.
    + eapply (dim_finish_none _ _ _ _ _ _ N _ _ _ _ th); [done|done|]. unfold slot_account. by rewrite E.
  - unfold drop_reader_opt. destruct (obs_repository (th_obs th)) as [a|] eqn:E.
    + eapply (dim_finish _ _ _ _ _ _ N _ _ _ _ th); [done|done|]. unfold slot_repository. by rewrite E.
    + eapply (dim_finish_none _ _ _ _ _ _ N _ _ _ _ th); [done|done|]. unfold slot_repository. by rewrite E.
Qed.

Lemma step_write N tid th st now c ths t t' :
  system_inv N (MkSystem c ths t) -> ths !! tid = Some th -> th_pc th = PcReserved ->
  state_of_request st (th_req th) -> WriteState st now t = Ok t' ->
  system_inv N (MkSystem c (<[tid := th <| th_pc := PcWritten |>]> ths) t').
Proof.
  intros [Hok Hg Hp Ha Hr] Htid Hpc Hst Hw. simpl in *. pose proof (Hok _ _ Htid) as Hth.
  destruct (write_counts _ _ _ _ _ _ _ Hth Hst Hw) as (C1 & C2 & C3 & C4).
  assert (Hres : reserved th = true) by by rewrite (tho_reserved _ _ _ Hth), Hpc.
  assert (Hunw : unwritten th = true) by by unfold unwritten; rewrite Hpc.
  split; simpl; [| |eapply dim_write; eauto..].
  - intros j x. rewrite lookup_insert. case_decide; [|eauto]. intros [= <-].
    destruct Hth. split; simpl; try done.
  - destruct Hg as [G1 G2 G3 G4]. set (th' := th <| th_pc := PcWritten |>).
    assert (Hu : cnt unwritten (<[tid := th']> ths) = (cnt unwritten ths - 1)%Z)
      by (rewrite (cnt_insert _ _ _ _ _ Htid), Hunw; simpl; lia).
    split; rewrite ?Hu; [|done| |lia].
    + rewrite (cnt_insert _ _ _ _ _ Htid). change (reserved th') with (reserved th). lia.
    + intros j x. rewrite lookup_insert. case_decide; [intros [= <-] Hx; change (reserved th = false) in Hx; congruence|].
      intros Hx Hrx. eapply obs_ok_weaken; [| | |eauto]; lia.
Qed.

Definition before_reservation (pc : capacity_pc) : bool :=
  match pc with PcReserved | PcWritten => false | _ => true end.

(** A move between two program counters before the reservation. *)
Lemma step_move N tid th pc' c ths t :
  system_inv N (MkSystem c ths t) -> ths !! tid = Some th ->
  before_reservation (th_pc th) = true -> before_reservation pc' = true ->
  thread_ok (th <| th_pc := pc' |>) ->
  (global_read pc' = global_read (th_pc th) \/ global_read pc' = None \/
   global_read pc' = Some (cnt inflight_row t)) ->
  (profile_read pc' = profile_read (th_pc th) \/ when_limited (profile_read pc') = None \/
   when_limited (profile_read pc') = Some (inf profile_row (obs_key (th_obs th)) t)) ->
  (account_read pc' = account_read (th_pc th) \/ when_limited (account_read pc') = None \/
   when_limited (account_read pc') = Some (inf account_row (obs_accountKey (th_obs th)) t)) ->
  (repository_read pc' = repository_read (th_pc th) \/ when_limited (repository_read pc') = None \/
   when_limited (repository_read pc') = Some (inf repository_row (obs_repositoryKey (th_obs th)) t)) ->
  system_inv N (MkSystem c (<[tid := th <| th_pc := pc' |>]> ths) t).
Proof.
  intros [Hok Hg Hp Ha Hr] Htid Hb Hb' Hth' Rg Rp Ra Rr. simpl in *.
  set (th' := th <| th_pc := pc' |>) in *.
  assert (Hu : unwritten th = false) by (unfold unwritten; by destruct (th_pc th)).
  assert (Hu' : unwritten th' = false) by (unfold unwritten, th'; simpl; by destruct pc').
  split; simpl.
  - intros j x. rewrite lookup_insert. case_decide; [intros [= <-]; done|eauto].
  - destruct Hg as [G1 G2 G3 G4].
    assert (Hc : cnt unwritten (<[tid := th']> ths) = cnt unwritten ths)
      by (rewrite (cnt_insert _ _ _ _ _ Htid), Hu, Hu'; lia).
    split; rewrite ?Hc; try done.
    + rewrite (cnt_insert _ _ _ _ _ Htid). change (reserved th') with (reserved th). lia.
    + intros j x. rewrite lookup_insert. case_decide; [|eauto]. intros [= <-] Hx.
      change (reserved th = false) in Hx. specialize (G3 _ _ Htid Hx). simpl in *.
      destruct Rg as [->|[->| ->]]; [done|by eapply obs_ok_forget|by eapply obs_ok_read].
  - eapply dim_next; [done|exact Htid|done|done|congruence|]. simpl.
    destruct Rp as [->|[->| ->]]; [by left|by right; left|]. right; right.
    intros k a s p [= <- _ _ _] _. done.
  - eapply dim_next; [done|exact Htid|done|done|congruence|]. simpl.
    destruct Ra as [->|[->| ->]]; [by left|by right; left|]. right; right.
    intros k a s p. unfold slot_account. destruct (obs_account (th_obs th)); [|done]. by intros [= <- _ _ _].
  - eapply dim_next; [done|exact Htid|done|done|congruence|]. simpl.
    destruct Rr as [->|[->| ->]]; [by left|by right; left|]. right; right.
    intros k a s p. unfold slot_repository. destruct (obs_repository (th_obs th)); [|done]. by intros [= <- _ _ _].
Qed.

Lemma thread_ok_move th pc' :
  thread_ok th -> before_reservation (th_pc th) = true -> before_reservation pc' = true ->
  (forall p pl, profile_read pc' = Some (p, pl) -> profile_read (th_pc th) <> Some (p, pl) ->
     pl = if bool_decide (req_ProfileName (th_req th) = "") then 0%Z else th_maxConcurrency th) ->
  (forall a al, account_read pc' = Some (a, al) -> account_read (th_pc th) <> Some (a, al) ->
     al = if bool_decide (obs_accountKey (th_obs th) = "") then 0%Z
          else cfg_RunnerAccountConcurrency cfg (obs_accountKey (th_obs th))) ->
  (forall r rl, repository_read pc' = Some (r, rl) -> repository_read (th_pc th) <> Some (r, rl) ->
     rl = if bool_decide (obs_repositoryKey (th_obs th) = "") then 0%Z
          else cfg_RunnerRepositoryConcurrency cfg (obs_repositoryKey (th_obs th))) ->
  thread_ok (th <| th_pc := pc' |>).
Proof.
  intros [] Hb Hb' Hp Ha Hr. split; simpl; try done.
  - change (reserved th = match pc' with PcReserved | PcWritten => true | _ => false end).
    rewrite tho_reserved0. by destruct (th_pc th), pc'.
  - intros p pl E. destruct (decide (profile_read (th_pc th) = Some (p, pl))); eauto.
  - intros a al E. destruct (decide (account_read (th_pc th) = Some (a, al))); eauto.
  - intros r rl E. destruct (decide (repository_read (th_pc th) = Some (r, rl))); eauto.
Qed.

(** What an empty stage means. *)
Lemma reserve_admits o g gl p pl a al r rl c o' c' :
  reserve o g gl p pl a al r rl c = ("", o', c') ->
  (g + obs_pending o + since (cap_started c) (obs_started o) < gl)%Z /\
  (0 < pl -> p + obs_profilePending o +
     since (ctr_started (deref (obs_profile o) (cap_profiles c))) (obs_profileStarted o) < pl)%Z /\
  (0 < al -> a + obs_accountPending o +
     since (counterStarted (obs_account o) (cap_accounts c)) (obs_accountStarted o) < al)%Z /\
  (0 < rl -> r + obs_repositoryPending o +
     since (counterStarted (obs_repository o) (cap_repositories c)) (obs_repositoryStarted o) < rl)%Z /\
  o' = o <| obs_reserved := true |> /\
  c' = MkCapacity (wrapu64 (cap_started c + 1)) (cap_pending c + 1)
     (add_pending (obs_profile o) (cap_profiles c))
     (add_pending_opt (obs_account o) (cap_accounts c))
     (add_pending_opt (obs_repository o) (cap_repositories c)).
Proof.
  unfold reserve. destruct (Z.leb_spec gl (g + obs_pending o + since (cap_started c) (obs_started o))); [done|].
  destruct (_ && _) eqn:E1; [done|]. destruct (_ && _) eqn:E2 in |- *; [done|]. destruct (_ && _) eqn:E3 in |- *; [done|].
  intros [= <- <-]. rewrite andb_false_iff, Z.ltb_ge, Z.leb_gt in E1, E2, E3. repeat split; lia.
Qed.

Lemma global_reserve N c c' ths t tid th th' g :
  global_inv N c ths t -> (N < 2 ^ 63)%Z -> ths !! tid = Some th ->
  cap_started c' = wrapu64 (cap_started c + 1) -> cap_pending c' = (cap_pending c + 1)%Z ->
  reserved th = false -> unwritten th = false -> reserved th' = true -> unwritten th' = true ->
  global_read (th_pc th) = Some g ->
  (g + obs_pending (th_obs th) + since (cap_started c) (obs_started (th_obs th)) < cfg_MaxConcurrentRunners cfg)%Z ->
  global_inv (N + 1) c' (<[tid := th']> ths) t.
Proof.
  intros [G1 G2 G3 G4] HN Htid E1 E2 Hr Hu Hr' Hu' Hg Hlt.
  assert (Hc : cnt unwritten (<[tid := th']> ths) = (cnt unwritten ths + 1)%Z)
    by (rewrite (cnt_insert _ _ _ _ _ Htid), Hu, Hu'; simpl; lia).
  split; rewrite ?Hc, ?E1, ?E2.
  - rewrite (cnt_insert _ _ _ _ _ Htid), Hr, Hr'. simpl. lia.
  - unfold wrapu64. apply Z.mod_pos_bound. lia.
  - intros j x. rewrite lookup_insert. case_decide; [intros [= <-]; congruence|].
    intros Hx Hrx. apply obs_ok_reserve. eauto.
  - specialize (G3 _ _ Htid Hr). rewrite Hg in G3. pose proof (obs_ok_since _ _ _ _ _ _ _ _ HN G3 Hlt). lia.
Qed.

Lemma step_reserve N tid th c ths t g p pl a al r rl o' c' :
  system_inv N (MkSystem c ths t) -> (N < 2 ^ 63)%Z -> ths !! tid = Some th ->
  th_pc th = PcReserve g p pl a al r rl ->
  reserve (th_obs th) g (cfg_MaxConcurrentRunners cfg) p pl a al r rl c = ("", o', c') ->
  system_inv (N + 1) (MkSystem c' (<[tid := th <| th_obs := o' |> <| th_pc := PcReserved |>]> ths) t).
Proof.
  intros [Hok Hg Hp Ha Hr] HN Htid Hpc Hres. simpl in *. pose proof (Hok _ _ Htid) as Hth.
  apply reserve_admits in Hres as (Cg & Cp & Ca & Cr & -> & ->).
  set (th' := th <| th_obs := _ |> <| th_pc := PcReserved |>).
  assert (R : reserved th = false) by by rewrite (tho_reserved _ _ _ Hth), Hpc.
  assert (U : unwritten th = false) by by unfold unwritten; rewrite Hpc.
  pose proof (tho_profile_limit _ _ _ Hth p pl) as Lp. pose proof (tho_account_limit _ _ _ Hth a al) as La.
  pose proof (tho_repository_limit _ _ _ Hth r rl) as Lr. rewrite Hpc in Lp, La, Lr.
  specialize (Lp eq_refl). specialize (La eq_refl). specialize (Lr eq_refl).
  assert (W : forall v l, (0 < l)%Z -> when_limited (Some (v, l)) = Some v)
    by (intros v l Hl; unfold when_limited; by rewrite (proj2 (Z.ltb_lt 0 l) Hl)).
  split; simpl.
  - intros j x. destruct (decide (tid = j)) as [<-|Hj]; [|rewrite lookup_insert_ne by done; apply Hok].
    rewrite lookup_insert_eq. intros [= <-]. destruct Hth. by split.
  - eapply (global_reserve N c _ ths t tid th th' g); try done. by rewrite Hpc.
  - eapply (dim_reserve _ _ _ _ _ _ N _ _ _ _ th); try done. simpl. intros (Ht & Hne & _) Hl.
    rewrite (tho_max _ _ _ Hth), (tho_key _ _ _ Hth), bool_decide_eq_false_2 in Lp.
    2: { intros E. apply Hne. rewrite (tho_key _ _ _ Hth), <-profile_key_name, E. done. }
    rewrite <-(tho_key _ _ _ Hth) in Lp. subst pl. exists p. rewrite Hpc. simpl profile_read.
    split; [by apply W|by apply Cp].
  - unfold add_pending_opt. unfold counterStarted in Ca. destruct (obs_account (th_obs th)) as [x|] eqn:E.
    + eapply (dim_reserve _ _ _ _ _ _ N _ _ _ _ th);
        [exact Ha|exact Htid|exact HN|by unfold slot_account; simpl; rewrite E|done..|].
      intros _ Hl. rewrite bool_decide_eq_false_2 in La by (apply (tho_account _ _ _ Hth); by rewrite E).
      subst al. exists a. rewrite Hpc. split; [by apply W|by apply Ca].
    + apply (dim_N _ _ _ _ _ _ N); [lia|]. eapply dim_next_none; try done; unfold slot_account; simpl; by rewrite E.
  - unfold add_pending_opt. unfold counterStarted in Cr. destruct (obs_repository (th_obs th)) as [x|] eqn:E.
    + eapply (dim_reserve _ _ _ _ _ _ N _ _ _ _ th);
        [exact Hr|exact Htid|exact HN|by unfold slot_repository; simpl; rewrite E|done..|].
      intros _ Hl. rewrite bool_decide_eq_false_2 in Lr by (apply (tho_repository _ _ _ Hth); by rewrite E).
      subst rl. exists r. rewrite Hpc. split; [by apply W|by apply Cr].
    + apply (dim_N _ _ _ _ _ _ N); [lia|]. eapply dim_next_none; try done; unfold slot_repository; simpl; by rewrite E.
Qed.

(** A return to the caller without a reservation. *)
Lemma step_return N tid th c ths t stage err :
  system_inv N (MkSystem c ths t) -> ths !! tid = Some th -> before_reservation (th_pc th) = true ->
  system_inv N (MkSystem c (<[tid := th <| th_pc := PcReturned stage err |>]> ths) t).
Proof.
  intros Hs Htid Hb. apply step_move; try done; try (by right; left).
  by apply thread_ok_move; [apply (si_threads _ _ _ _ _ Hs _ _ Htid)|..].
Qed.

Lemma store_read_Ok db m v : store_read db m = Ok v -> exists n, m = Ok n /\ v = Z.of_nat n.
Proof. unfold store_read. destruct db, m; simpl; try done. intros [= <-]. eauto. Qed.

Lemma unlimited v l : (0 <? l)%Z = false -> when_limited (Some (v, l)) = None.
Proof. unfold when_limited. by intros ->. Qed.

Lemma limited v l : (0 <? l)%Z = true -> when_limited (Some (v, l)) = Some v.
Proof. unfold when_limited. by intros ->. Qed.

(** A move that fills in one dimension. *)
Ltac move_to Hs Htid Hpc :=
  apply (step_move _ _ _ _ _ _ _ Hs Htid); rewrite ?Hpc; try done; try (by left); try (by right; left);
  try (apply thread_ok_move;
       [apply (si_threads _ _ _ _ _ Hs _ _ Htid)|by rewrite Hpc|done|rewrite ?Hpc; simpl; try done..]).

Lemma step_next_profile N tid th c ths t db th' c' g :
  system_inv N (MkSystem c ths t) -> ths !! tid = Some th -> th_pc th = PcProfile g ->
  reserveRunnerCapacity_next cfg db t th c = (th', c') -> system_inv N (MkSystem c' (<[tid := th']> ths) t).
Proof.
  intros Hs Htid Hpc. unfold reserveRunnerCapacity_next. rewrite Hpc. cbv zeta.
  pose proof (si_threads _ _ _ _ _ Hs _ _ Htid) as Hth. case_bool_decide as En.
  - intros [= <- <-]. move_to Hs Htid Hpc. intros p pl [= <- <-] _. by rewrite bool_decide_eq_true_2.
  - destruct (0 <? th_maxConcurrency th)%Z eqn:El.
    + destruct (store_read _ _) as [v|e] eqn:Er; intros [= <- <-]; [|apply step_return; [done..|by rewrite Hpc]].
      apply store_read_Ok in Er as (n & Er & ->). apply profile_count in Er.
      move_to Hs Htid Hpc; [intros p pl [= <- <-] _; by rewrite bool_decide_eq_false_2|].
      right; right. simpl profile_read. rewrite (limited _ _ El), Er. by rewrite (tho_key _ _ _ Hth).
    + intros [= <- <-]. move_to Hs Htid Hpc; [intros p pl [= <- <-] _; by rewrite bool_decide_eq_false_2|].
      right; left. by apply unlimited.
Qed.

Lemma step_next_account N tid th c ths t db th' c' g p pl :
  system_inv N (MkSystem c ths t) -> ths !! tid = Some th -> th_pc th = PcAccount g p pl ->
  reserveRunnerCapacity_next cfg db t th c = (th', c') -> system_inv N (MkSystem c' (<[tid := th']> ths) t).
Proof.
  intros Hs Htid Hpc. unfold reserveRunnerCapacity_next. rewrite Hpc. cbv zeta.
  pose proof (si_threads _ _ _ _ _ Hs _ _ Htid) as Hth. rewrite <-(tho_accountKey _ _ _ Hth).
  case_bool_decide as En.
  - intros [= <- <-]. move_to Hs Htid Hpc. intros a al [= <- <-] _. by rewrite bool_decide_eq_true_2.
  - destruct (0 <? _)%Z eqn:El.
    + destruct (store_read _ _) as [v|e] eqn:Er; intros [= <- <-]; [|apply step_return; [done..|by rewrite Hpc]].
      apply store_read_Ok in Er as (n & [= <-] & ->).
      move_to Hs Htid Hpc; [intros a al [= <- <-] _; by rewrite bool_decide_eq_false_2|].
      right; right. simpl account_read. rewrite (limited _ _ El). f_equal.
      rewrite (tho_accountKey _ _ _ Hth) in En |- *. by apply account_count; [apply (tho_repo _ _ _ Hth)|].
    + intros [= <- <-]. move_to Hs Htid Hpc; [intros a al [= <- <-] _; by rewrite bool_decide_eq_false_2|].
      right; left. by apply unlimited.
Qed.

Lemma step_next_repository N tid th c ths t db th' c' g p pl a al :
  system_inv N (MkSystem c ths t) -> ths !! tid = Some th -> th_pc th = PcRepository g p pl a al ->
  reserveRunnerCapacity_next cfg db t th c = (th', c') -> system_inv N (MkSystem c' (<[tid := th']> ths) t).
Proof.
  intros Hs Htid Hpc. unfold reserveRunnerCapacity_next. rewrite Hpc. cbv zeta.
  pose proof (si_threads _ _ _ _ _ Hs _ _ Htid) as Hth. rewrite <-(tho_repositoryKey _ _ _ Hth).
  case_bool_decide as En.
  - intros [= <- <-]. move_to Hs Htid Hpc. intros r rl [= <- <-] _. by rewrite bool_decide_eq_true_2.
  - destruct (0 <? _)%Z eqn:El.
    + destruct (store_read _ _) as [v|e] eqn:Er; intros [= <- <-]; [|apply step_return; [done..|by rewrite Hpc]].
      apply store_read_Ok in Er as (n & [= <-] & ->).
      move_to Hs Htid Hpc; [intros r rl [= <- <-] _; by rewrite bool_decide_eq_false_2|].
      right; right. simpl repository_read. rewrite (limited _ _ El). f_equal.
      rewrite (tho_repositoryKey _ _ _ Hth) in En |- *. by apply repository_count.
    + intros [= <- <-]. move_to Hs Htid Hpc; [intros r rl [= <- <-] _; by rewrite bool_decide_eq_false_2|].
      right; left. by apply unlimited.
Qed.

Lemma system_inv_N N N' s : (N <= N')%Z -> system_inv N s -> system_inv N' s.
Proof.
  intros HN [H1 [G1 G2 G3 G4] H3 H4 H5]. split; [done| |by eapply dim_N..].
  split; try done. intros. eapply obs_ok_weaken; [exact HN|reflexivity|reflexivity|eauto].
Qed.

Lemma thread_same th : th = th <| th_pc := th_pc th |>.
Proof. by destruct th. Qed.

Lemma step_next N tid th c ths t db th' c' :
  system_inv N (MkSystem c ths t) -> (N < 2 ^ 63)%Z -> ths !! tid = Some th ->
  reserveRunnerCapacity_next cfg db t th c = (th', c') ->
  system_inv (N + 1) (MkSystem c' (<[tid := th']> ths) t).
Proof.
  intros Hs HN Htid Hn. destruct (th_pc th) as [|g|g p pl|g p pl a al|g p pl a al r rl|st e| |] eqn:Hpc.
  2-4: apply (system_inv_N N); [lia|];
    eauto using step_next_profile, step_next_account, step_next_repository.
  3-5: unfold reserveRunnerCapacity_next in Hn; rewrite Hpc in Hn; injection Hn as <- <-;
    rewrite insert_id by done; apply (system_inv_N N); [lia|done].
  - unfold reserveRunnerCapacity_next in Hn. rewrite Hpc in Hn. cbv zeta in Hn. apply (system_inv_N N); [lia|].
    destruct (store_read _ _) as [v|e] eqn:Er; [|injection Hn as <- <-; apply step_return; [done..|by rewrite Hpc]].
    apply store_read_Ok in Er as (n & [= <-] & ->).
    destruct (_ <=? _)%Z; injection Hn as <- <-; [apply step_return; [done..|by rewrite Hpc]|].
    move_to Hs Htid Hpc. by right; right.
  - unfold reserveRunnerCapacity_next in Hn. rewrite Hpc in Hn. cbv zeta in Hn.
    destruct (reserve _ _ _ _ _ _ _ _ _ c) as [[stage o'] c2] eqn:Er. case_bool_decide as Es.
    + subst stage. injection Hn as <- <-. by eapply step_reserve.
    + assert (c2 = c) as -> by (unfold reserve in Er; repeat case_match; simplify_eq; done).
      injection Hn as <- <-. apply (system_inv_N N); [lia|]. apply step_return; [done..|by rewrite Hpc].
Qed.

Lemma step_preserves N s s' :
  (0 <= N < 2 ^ 63)%Z -> system_inv N s -> capacity_step cfg plimit s s' -> system_inv (N + 1) s'.
Proof.
  intros HN Hs Hstep. destruct Hstep.
  2: by eapply step_next; try done; lia.
  all: apply (system_inv_N N); [lia|];
    eauto using step_write, step_finish, step_other.
  eapply step_observe; eauto; lia.
Qed.

Lemma nsteps_inv n s :
  (Z.of_nat n < 2 ^ 63)%Z -> nsteps (capacity_step cfg plimit) n (initial_system t0) s ->
  system_inv (Z.of_nat n) s.
Proof.
  intros Hn H. remember (initial_system t0) as s0 eqn:E0.
  assert (Hgen : forall N, (0 <= N)%Z -> (N + Z.of_nat n < 2 ^ 63)%Z -> system_inv N s0 -> system_inv (N + Z.of_nat n) s).
  { clear E0 Hn. induction H as [x|n x y z Hxy Hyz IH]; intros N H0 H1 Hi; [by rewrite Z.add_0_r|].
    replace (N + Z.of_nat (S n))%Z with (N + 1 + Z.of_nat n)%Z by lia. apply IH; [lia|lia|].
    apply (step_preserves N x); [lia|done|done]. }
  rewrite <-(Z.add_0_l (Z.of_nat n)). apply Hgen; [lia|lia|]. subst. apply system_inv_initial.
Qed.
End preservation.

(** ** Theorems *)

Lemma dim_limit_count {K} `{Countable K} slot readv (rowp : K -> _) limit valid t0 N cs ths t k :
  dim_inv slot readv rowp limit valid (fun k => inf rowp k t0) N cs ths t -> valid k -> (0 < limit k)%Z ->
  (inf rowp k t + unw slot k ths <= Z.max (limit k) (inf rowp k t0))%Z.
Proof. intros Hd. apply (dim_limit _ _ _ _ _ _ _ _ _ _ Hd). Qed.

Lemma profile_key_valid req :
  TrimSpace (req_ProfileName req) <> "" -> valid_profile (runnerCapacityProfileKey req).
Proof.
  intros Hn. unfold valid_profile, runnerCapacityProfileKey. cbv zeta.
  destruct (_ && _) eqn:E; simpl; (split; [apply TrimSpace_idem|]); (split; [done|]); [right|by left].
  bool_prop. by rewrite Z.ltb_lt in *.
Qed.

Lemma owner_valid repo : runnerRepositoryOwner repo <> "" -> valid_account (runnerRepositoryOwner repo).
Proof. intros Hn. split; [done|]. by destruct (owner_spec repo Hn) as (_ & _ & ?). Qed.

(** C4: Admission never oversubscribes. However the store reads, reservations,
    creating writes and releases of concurrent starts interleave with each
    other and with operations that put no new row in flight, the in-flight
    rows together with the reservations not yet written stay within the global
    limit and within every positive profile, account and repository limit (or
    within the count the process started with, when that was already higher).
    The run is shorter than [2^63] steps, so the wrapping uint64 admission
    counter is read correctly. *)
Theorem capacity_respected cfg plimit t0 n s :
  nsteps (capacity_step cfg plimit) n (initial_system t0) s -> (Z.of_nat n < 2 ^ 63)%Z ->
  let t := sys_table s in let ths := sys_threads s in
  (Z.of_nat (InFlightCount t) + cnt unwritten ths <=
     Z.max (cfg_MaxConcurrentRunners cfg) (Z.of_nat (InFlightCount t0)))%Z /\
  (forall req m m0, TrimSpace (req_ProfileName req) <> "" ->
     let k := runnerCapacityProfileKey req in (0 < plimit k)%Z ->
     inFlightForRunnerProfile req t = Ok m -> inFlightForRunnerProfile req t0 = Ok m0 ->
     (Z.of_nat m + unw slot_profile k ths <= Z.max (plimit k) (Z.of_nat m0))%Z) /\
  (forall repo, clean_repository repo ->
     let owner := runnerRepositoryOwner repo in
     owner <> "" -> (0 < cfg_RunnerAccountConcurrency cfg owner)%Z ->
     (Z.of_nat (InFlightCountForRepositoryOwner owner t) + unw slot_account owner ths <=
      Z.max (cfg_RunnerAccountConcurrency cfg owner) (Z.of_nat (InFlightCountForRepositoryOwner owner t0)))%Z) /\
  (forall repo, let k := normalizeRunnerRepository repo in
     k <> "" -> (0 < cfg_RunnerRepositoryConcurrency cfg k)%Z ->
     (Z.of_nat (InFlightCountForRepository repo t) + unw slot_repository k ths <=
      Z.max (cfg_RunnerRepositoryConcurrency cfg k) (Z.of_nat (InFlightCountForRepository repo t0)))%Z).
Proof.
  intros Hs Hn. cbv zeta. destruct (nsteps_inv _ _ _ _ _ Hn Hs) as [_ [_ _ _ Hg] Hp Ha Hr].
  split; [exact Hg|]. split; [|split].
  - intros req m m0 Hne Hl Hm Hm0. rewrite (profile_count _ _ _ Hm), (profile_count _ _ _ Hm0).
    by apply (dim_limit_count _ _ _ _ _ _ _ _ _ _ _ Hp); [apply profile_key_valid|].
  - intros repo Hc Hne Hl. rewrite !account_count by done.
    by apply (dim_limit_count _ _ _ _ _ _ _ _ _ _ _ Ha); [apply owner_valid|].
  - intros repo Hne Hl. rewrite !repository_count by done.
    by apply (dim_limit_count _ _ _ _ _ _ _ _ _ _ _ Hr).
Qed.

(** A start of [ex_request] up to its reservation. *)
Definition ex_cfg : capacity_config := MkCapConfig 1 (fun _ => 1%Z) (fun _ => 1%Z).
Definition ex_observed := observe ex_request "linux" zero_capacity.
Definition ex_next (x : capacity_thread * runnerAdmissionCapacity) :=
  reserveRunnerCapacity_next ex_cfg None ex_table x.1 x.2.
Definition ex_start : capacity_thread * runnerAdmissionCapacity :=
  (MkThread ex_request "linux" 1 ex_observed.1 PcGlobal, ex_observed.2).
Definition ex_system (x : capacity_thread * runnerAdmissionCapacity) : capacity_system :=
  MkSystem x.2 {["w1" := x.1]} ex_table.

Lemma ex_observe_step : capacity_step ex_cfg (fun _ => 1%Z) (initial_system ex_table) (ex_system ex_start).
Proof.
  unfold initial_system, ex_system. rewrite <-insert_empty. unfold ex_start. simpl.
  apply (cap_observe _ (fun _ => 1%Z) "w1" ex_request "linux" ex_observed.1);
    [done|by vm_compute|by vm_compute|apply surjective_pairing].
Qed.

Lemma ex_next_step x : capacity_step ex_cfg (fun _ => 1%Z) (ex_system x) (ex_system (ex_next x)).
Proof.
  unfold ex_system. replace ({["w1" := (ex_next x).1]} : gmap string capacity_thread)
    with (<["w1" := (ex_next x).1]> ({["w1" := x.1]} : gmap string capacity_thread)).
  - apply (cap_next _ _ "w1" None x.1); [by rewrite lookup_singleton_eq|apply surjective_pairing].
  - apply insert_singleton_eq.
Qed.

Lemma ex_run n : nsteps (capacity_step ex_cfg (fun _ => 1%Z)) (S n) (initial_system ex_table)
  (ex_system (Nat.iter n ex_next ex_start)).
Proof.
  induction n as [|n IH].
  - eapply nsteps_l; [apply ex_observe_step|constructor].
  - eapply nsteps_r; [exact IH|]. apply ex_next_step.
Qed.

Lemma capacity_respected_witness :
  let s := ex_system (Nat.iter 5 ex_next ex_start) in
  th_pc (Nat.iter 5 ex_next ex_start).1 = PcReserved /\
  (Z.of_nat (InFlightCount (sys_table s)) + cnt unwritten (sys_threads s) <= 1)%Z.
Proof.
  split; [vm_compute; reflexivity|].
  destruct (capacity_respected ex_cfg (fun _ => 1%Z) ex_table 6 (ex_system (Nat.iter 5 ex_next ex_start))
              (ex_run 5)) as [H _]; [lia|]. exact H.
Defined.

(** The ledger is reclaimed. When no start is between its observation and its
    release, nothing is pending and every counter has been dropped from the
    ledger's maps; while one is, it shares one counter with all others of its
    key, whose reader count is their number. *)
Theorem ledger_reclaimed cfg plimit t0 n s :
  nsteps (capacity_step cfg plimit) n (initial_system t0) s -> (Z.of_nat n < 2 ^ 63)%Z ->
  let c := sys_capacity s in let ths := sys_threads s in
  cap_pending c = cnt reserved ths /\
  (forall tid th, ths !! tid = Some th ->
     let k := obs_key (th_obs th) in
     cs_map (cap_profiles c) !! k = Some (obs_profile (th_obs th)) /\
     ctr_readers (deref (obs_profile (th_obs th)) (cap_profiles c)) = cnt (has slot_profile k) ths) /\
  (ths = ∅ -> cap_pending c = 0%Z /\ cs_map (cap_profiles c) = ∅ /\ cs_map (cap_accounts c) = ∅ /\
              cs_map (cap_repositories c) = ∅).
Proof.
  intros Hs Hn. cbv zeta. destruct (nsteps_inv _ _ _ _ _ Hn Hs) as [_ [Hpend _ _ _] Hp Ha Hr].
  split; [exact Hpend|]. split.
  - intros tid th Htid. assert (Hk : cs_map (cap_profiles (sys_capacity s)) !! obs_key (th_obs th) =
      Some (obs_profile (th_obs th))) by (by eapply (dim_shared _ _ _ _ _ _ _ _ _ _ Hp tid th)).
    split; [done|]. by destruct (dim_counter _ _ _ _ _ _ _ _ _ _ Hp _ _ Hk) as (_ & _ & ? & _).
  - intros He. rewrite He in *.
    assert (Hz : forall p, cnt p (∅ : gmap string capacity_thread) = 0%Z)
      by (intros; apply cnt_zero; intros *; by rewrite lookup_empty).
    split; [by rewrite Hpend, Hz|].
    split; [|split]; apply map_eq; intros k; rewrite lookup_empty; apply eq_None_not_Some; intros [a Hk].
    + destruct (dim_counter _ _ _ _ _ _ _ _ _ _ Hp _ _ Hk) as (_ & _ & E & ? & _). rewrite Hz in E. lia.
    + destruct (dim_counter _ _ _ _ _ _ _ _ _ _ Ha _ _ Hk) as (_ & _ & E & ? & _). rewrite Hz in E. lia.
    + destruct (dim_counter _ _ _ _ _ _ _ _ _ _ Hr _ _ Hk) as (_ & _ & E & ? & _). rewrite Hz in E. lia.
Qed.

Lemma ledger_reclaimed_witness :
  cap_pending (sys_capacity (ex_system (Nat.iter 5 ex_next ex_start))) = 1%Z.
Proof.
  destruct (ledger_reclaimed ex_cfg (fun _ => 1%Z) ex_table 6 (ex_system (Nat.iter 5 ex_next ex_start))
              (ex_run 5)) as [H _]; [lia|].
  rewrite H. vm_compute. reflexivity.
Defined.
