(* ===== verification/Catalog.v ===== *)
(** * Runner profiles and label matching
    (internal/labelutil/labels.go, internal/state/catalog.go,
    internal/state/scoped_catalog.go, internal/state/profile_policy.go)

    The catalog of global runner profiles, the per-scope profiles that may
    override them, the optimistic saves of both, and the choice of the profile
    that serves a job's labels.  JSON columns hold the decoded value. *)

From stdpp Require Import base gmap list strings sorting relations.
From S2P Require Import Prelude GoStrings Query RunnerModel RunnerStore RunnerQueries.

(** ** Data *)

Record RunnerProfile := MkRunnerProfile {
  p_TemplateSource : string;
  p_Published : bool;
  p_Name : string;
  p_Labels : list string;
  p_RequiredLabels : list string;
  p_TemplateID : string;
  p_DefaultTemplateName : string;
  p_RunnerGroup : string;
  p_MaxConcurrency : Z;
  p_MinIdle : Z;
  p_Priority : Z;
  p_Enabled : bool;
  p_ManagedBy : string;
  p_CatalogRevision : Z;
  p_CreatedAt : Time;
  p_UpdatedAt : Time
}.

#[export] Instance rebuild_RunnerProfile : Rebuild RunnerProfile := fun r =>
  MkRunnerProfile
    (p_TemplateSource r) (p_Published r) (p_Name r) (p_Labels r) (p_RequiredLabels r)
    (p_TemplateID r) (p_DefaultTemplateName r) (p_RunnerGroup r) (p_MaxConcurrency r)
    (p_MinIdle r) (p_Priority r) (p_Enabled r) (p_ManagedBy r) (p_CatalogRevision r)
    (p_CreatedAt r) (p_UpdatedAt r).

Record runnerProfileRecord := MkrunnerProfileRecord {
  pr_TemplateSource : string;
  pr_Published : bool;
  pr_Name : string;
  pr_LabelsJSON : list string;
  pr_RequiredLabelsJSON : option (list string);
  pr_TemplateID : string;
  pr_DefaultTemplateName : string;
  pr_RunnerGroup : string;
  pr_MaxConcurrency : Z;
  pr_MinIdle : Z;
  pr_Priority : Z;
  pr_Enabled : bool;
  pr_DefaultAvailable : bool;
  pr_ManagedBy : string;
  pr_CatalogRevision : Z;
  pr_CreatedAt : Time;
  pr_UpdatedAt : Time
}.

#[export] Instance rebuild_runnerProfileRecord : Rebuild runnerProfileRecord := fun r =>
  MkrunnerProfileRecord
    (pr_TemplateSource r) (pr_Published r) (pr_Name r) (pr_LabelsJSON r)
    (pr_RequiredLabelsJSON r) (pr_TemplateID r) (pr_DefaultTemplateName r) (pr_RunnerGroup r)
    (pr_MaxConcurrency r) (pr_MinIdle r) (pr_Priority r) (pr_Enabled r)
    (pr_DefaultAvailable r) (pr_ManagedBy r) (pr_CatalogRevision r) (pr_CreatedAt r)
    (pr_UpdatedAt r).

Record ScopedRunnerProfile := MkScopedRunnerProfile {
  sp_ScopeType : string;
  sp_ScopeID : Z;
  sp_Name : string;
  sp_WorkflowLabels : list string;
  sp_LabelKey : string;
  sp_TemplateID : string;
  sp_RunnerGroup : string;
  sp_MaxConcurrency : Z;
  sp_Enabled : bool;
  sp_CreatedAt : Time;
  sp_UpdatedAt : Time
}.

#[export] Instance rebuild_ScopedRunnerProfile : Rebuild ScopedRunnerProfile := fun r =>
  MkScopedRunnerProfile
    (sp_ScopeType r) (sp_ScopeID r) (sp_Name r) (sp_WorkflowLabels r) (sp_LabelKey r)
    (sp_TemplateID r) (sp_RunnerGroup r) (sp_MaxConcurrency r) (sp_Enabled r)
    (sp_CreatedAt r) (sp_UpdatedAt r).

Record scopedRunnerProfileRecord := MkscopedRunnerProfileRecord {
  sr_ScopeType : string;
  sr_ScopeID : Z;
  sr_Name : string;
  sr_WorkflowLabelsJSON : list string;
  sr_LabelKey : string;
  sr_TemplateID : string;
  sr_RunnerGroup : string;
  sr_MaxConcurrency : Z;
  sr_Enabled : bool;
  sr_CreatedAt : Time;
  sr_UpdatedAt : Time
}.

#[export] Instance rebuild_scopedRunnerProfileRecord : Rebuild scopedRunnerProfileRecord := fun r =>
  MkscopedRunnerProfileRecord
    (sr_ScopeType r) (sr_ScopeID r) (sr_Name r) (sr_WorkflowLabelsJSON r) (sr_LabelKey r)
    (sr_TemplateID r) (sr_RunnerGroup r) (sr_MaxConcurrency r) (sr_Enabled r)
    (sr_CreatedAt r) (sr_UpdatedAt r).

Record ProfileMatch := MkProfileMatch {
  pm_RepositoryFullName : string;
  pm_Labels : list string;
  pm_Profile : option RunnerProfile;
  pm_Source : string;
  pm_ScopeType : string;
  pm_ScopeID : Z;
  pm_Reason : string
}.

#[export] Instance rebuild_ProfileMatch : Rebuild ProfileMatch := fun m =>
  MkProfileMatch (pm_RepositoryFullName m) (pm_Labels m) (pm_Profile m) (pm_Source m)
    (pm_ScopeType m) (pm_ScopeID m) (pm_Reason m).

Abbreviation profile_table := (gmap string runnerProfileRecord).
(** Primary key: scope type, scope id, name. *)
Abbreviation scoped_table := (gmap (string * Z * string) scopedRunnerProfileRecord).

(** ** Label matching *)

Definition fold_label (l : string) : string := ToLower (TrimSpace l).

(** [labelutil.Match]. *)
Definition Match (jobLabels required : list string) : bool :=
  match jobLabels with
  | [] => true
  | _ => forallb (fun l => bool_decide (fold_label l ∈ map fold_label required)) jobLabels
  end.

Definition labelsMatch := Match.

(** ** Profile policy *)

Definition TemplateSourcePublic := "public".
Definition TemplateSourcePrivate := "private".

Definition NormalizeProfilePolicy (p : RunnerProfile) : RunnerProfile :=
  if bool_decide (p_TemplateSource p = "") then
    let p := p <| p_TemplateSource := TemplateSourcePrivate |> in
    if negb (bool_decide (TrimSpace (p_ManagedBy p) = "")) then
      let p := p <| p_TemplateSource := TemplateSourcePublic |> <| p_TemplateID := "" |> in
      if negb (bool_decide (TrimSpace (p_DefaultTemplateName p) = ""))
      then p <| p_Published := true |> else p
    else p
  else p.

Definition ValidateProfilePolicy (p : RunnerProfile) : option goerror :=
  let check :=
    if bool_decide (p_TemplateSource p = TemplateSourcePublic) then
      if bool_decide (p_Labels p = []) then Some (ErrText "public template specs require workflow labels")
      else if bool_decide (TrimSpace (p_DefaultTemplateName p) = "")
              || negb (bool_decide (TrimSpace (p_TemplateID p) = ""))
      then Some (ErrText "public templates require a stable template name and no physical template ID")
      else None
    else if bool_decide (p_TemplateSource p = TemplateSourcePrivate) then
      if negb (bool_decide (TrimSpace (p_DefaultTemplateName p) = ""))
      then Some (ErrText "ID references must use a physical template ID, not a public template name")
      else None
    else Some (ErrText "invalid template source") in
  match check with
  | Some e => Some e
  | None => if (p_MaxConcurrency p <? 0)%Z || (p_MinIdle p <? 0)%Z
            then Some (ErrText "capacity values must not be negative") else None
  end.

Definition validateProfileName (name : string) : option goerror :=
  if Contains name "/" || bool_decide (name = ".") || bool_decide (name = "..")
  then Some (ErrText "profile name must not contain '/' or be '.' or '..'") else None.

Definition ValidateProfile (profile : RunnerProfile) : option goerror :=
  let name := TrimSpace (p_Name profile) in
  if bool_decide (name = "") then Some (ErrText "profile name is required")
  else match validateProfileName name with
  | Some e => Some e
  | None =>
      if negb (labelsMatch (p_RequiredLabels profile) (p_Labels profile))
      then Some (ErrText "required labels must be a subset of labels")
      else ValidateProfilePolicy (NormalizeProfilePolicy profile)
  end.

(** ** Global catalog *)

Definition recordToProfile (record : runnerProfileRecord) : RunnerProfile :=
  NormalizeProfilePolicy {|
    p_TemplateSource := pr_TemplateSource record;
    p_Published := pr_Published record;
    p_Name := pr_Name record;
    p_Labels := pr_LabelsJSON record;
    p_RequiredLabels := default [] (pr_RequiredLabelsJSON record);
    p_TemplateID := pr_TemplateID record;
    p_DefaultTemplateName := pr_DefaultTemplateName record;
    p_RunnerGroup := pr_RunnerGroup record;
    p_MaxConcurrency := pr_MaxConcurrency record;
    p_MinIdle := pr_MinIdle record;
    p_Priority := pr_Priority record;
    p_Enabled := pr_Enabled record;
    p_ManagedBy := pr_ManagedBy record;
    p_CatalogRevision := pr_CatalogRevision record;
    p_CreatedAt := pr_CreatedAt record;
    p_UpdatedAt := pr_UpdatedAt record
  |}.

(** ORDER BY priority DESC, name ASC. *)
Abbreviation catalog_le :=
  (onle (fun r => (pr_Priority r, pr_Name r)) (lexle (desc Z.le) String.le)).

Definition ListProfiles (t : profile_table) : list RunnerProfile :=
  map recordToProfile (select catalog_le (fun _ => true) t).

Definition GetProfile (name : string) (t : profile_table) : result RunnerProfile :=
  match t !! TrimSpace name with
  | Some r => Ok (recordToProfile r)
  | None => Err ErrNotFound
  end.

(** The row of an insert, and the columns of an update applied to a stored row. *)
Definition profileInsertRecord (profile : RunnerProfile) (now : Time) : runnerProfileRecord := {|
  pr_TemplateSource := p_TemplateSource profile;
  pr_Published := p_Published profile;
  pr_Name := p_Name profile;
  pr_LabelsJSON := p_Labels profile;
  pr_RequiredLabelsJSON := Some (p_RequiredLabels profile);
  pr_TemplateID := p_TemplateID profile;
  pr_DefaultTemplateName := p_DefaultTemplateName profile;
  pr_RunnerGroup := p_RunnerGroup profile;
  pr_MaxConcurrency := p_MaxConcurrency profile;
  pr_MinIdle := p_MinIdle profile;
  pr_Priority := p_Priority profile;
  pr_Enabled := p_Enabled profile;
  pr_DefaultAvailable := true;
  pr_ManagedBy := p_ManagedBy profile;
  pr_CatalogRevision := p_CatalogRevision profile;
  pr_CreatedAt := if IsZero (p_CreatedAt profile) then now else p_CreatedAt profile;
  pr_UpdatedAt := now
|}.

Definition profileUpdateRecord (new old : runnerProfileRecord) : runnerProfileRecord :=
  new <| pr_Name := pr_Name old |> <| pr_DefaultAvailable := pr_DefaultAvailable old |>
      <| pr_CreatedAt := pr_CreatedAt old |>.

(** The revision time of a save: past the revision it replaces. *)
Definition saveTime (clock : Time) (expectedUpdatedAt : option Time) : Time :=
  match expectedUpdatedAt with
  | Some e => if (clock <? e + Millisecond)%Z then (e + Millisecond)%Z else clock
  | None => clock
  end.

Definition saveProfile (profile : RunnerProfile) (conditional : bool) (expectedUpdatedAt : option Time)
    (clock : Time) (t : profile_table) : profile_table * result RunnerProfile :=
  let profile := NormalizeProfilePolicy profile in
  let profile := profile <| p_Name := TrimSpace (p_Name profile) |> in
  match ValidateProfile profile with
  | Some e => (t, Err e)
  | None =>
      let now := if conditional then saveTime clock expectedUpdatedAt else clock in
      let record := profileInsertRecord profile now in
      let name := pr_Name record in
      let saved (t' : profile_table) := (t', GetProfile name t') in
      match conditional, expectedUpdatedAt, t !! name with
      | true, Some e, Some old =>
          if (pr_UpdatedAt old =? e)%Z then saved (<[name := profileUpdateRecord record old]> t)
          else (t, Err ErrConflict)
      | true, Some _, None => (t, Err ErrConflict)
      | true, None, Some _ => (t, Err ErrConflict)
      | true, None, None => saved (<[name := record]> t)
      | false, _, Some old => saved (<[name := profileUpdateRecord record old]> t)
      | false, _, None => saved (<[name := record]> t)
      end
  end.

Definition UpsertProfile (profile : RunnerProfile) (clock : Time) (t : profile_table) :=
  saveProfile profile false None clock t.

Definition UpsertProfileIfUnchanged (profile : RunnerProfile) (expectedUpdatedAt : option Time)
    (clock : Time) (t : profile_table) :=
  saveProfile profile true expectedUpdatedAt clock t.

Definition DeleteProfile (name : string) (t : profile_table) : profile_table :=
  delete (TrimSpace name) t.

(** ** Selection *)

Definition profile_matches (labels : list string) (profile : RunnerProfile) : bool :=
  p_Enabled profile && labelsMatch (p_RequiredLabels profile) labels
  && labelsMatch labels (p_Labels profile).

(** The comparison of [sort.Slice]: higher priority, then more labels, then the
    smaller name. *)
Definition profile_less (p q : RunnerProfile) : bool :=
  if negb (p_Priority p =? p_Priority q)%Z then (p_Priority q <? p_Priority p)%Z
  else if negb (length (p_Labels p) =? length (p_Labels q))
  then length (p_Labels q) <? length (p_Labels p)
  else negb (bool_decide (String.le (p_Name q) (p_Name p))).

(** The order the comparison sorts by: the later profile is not less. *)
Definition preferred (p q : RunnerProfile) : Prop := profile_less q p = false.

#[export] Instance preferred_dec : RelDecision preferred.
Proof. intros p q. unfold preferred. apply _. Defined.

Definition selectMatchingProfile (profiles : list RunnerProfile) (labels : list string)
    : option RunnerProfile :=
  let candidates := List.filter (profile_matches labels) profiles in
  match candidates with
  | [] => None
  | _ => head (merge_sort preferred candidates)
  end.

Definition profileMatchFromCandidates (repositoryFullName : string) (labels : list string)
    (profiles : list RunnerProfile) : ProfileMatch :=
  let profile := selectMatchingProfile profiles labels in
  MkProfileMatch repositoryFullName labels profile "" "" 0
    (match profile with None => "profile_labels_not_matched" | Some _ => "" end).

Definition MatchProfile (repositoryFullName : string) (labels : list string) (t : profile_table)
    : ProfileMatch :=
  (profileMatchFromCandidates repositoryFullName labels (ListProfiles t)) <| pm_Source := "global" |>.


(** ** Scoped catalog *)

(** The first loop of [NormalizeWorkflowLabels]: trimmed labels, the first
    spelling of each case-folded one. *)
Fixpoint distinct_labels (seen : list string) (labels : list string) : list string :=
  match labels with
  | [] => []
  | raw :: rest =>
      let label := TrimSpace raw in
      if bool_decide (label = "") then distinct_labels seen rest
      else if bool_decide (ToLower label ∈ seen) then distinct_labels seen rest
      else label :: distinct_labels (ToLower label :: seen) rest
  end.

Section scoped.
(** [hex.EncodeToString(sha256.Sum256(json.Marshal(canonical)))]. *)
Context (label_hash : list string -> string).

Definition canonical_labels (normalized : list string) : list string := map ToLower normalized.

Definition NormalizeWorkflowLabels (labels : list string) : result (list string * string) :=
  let normalized := merge_sort (onle ToLower String.le) (distinct_labels [] labels) in
  if bool_decide (normalized = []) then Err (ErrText "workflow labels are required")
  else Ok (normalized, label_hash (canonical_labels normalized)).

Definition scopedProfileFromRecord (record : scopedRunnerProfileRecord) : ScopedRunnerProfile := {|
  sp_ScopeType := sr_ScopeType record;
  sp_ScopeID := sr_ScopeID record;
  sp_Name := sr_Name record;
  sp_WorkflowLabels := sr_WorkflowLabelsJSON record;
  sp_LabelKey := sr_LabelKey record;
  sp_TemplateID := sr_TemplateID record;
  sp_RunnerGroup := sr_RunnerGroup record;
  sp_MaxConcurrency := sr_MaxConcurrency record;
  sp_Enabled := sr_Enabled record;
  sp_CreatedAt := sr_CreatedAt record;
  sp_UpdatedAt := sr_UpdatedAt record
|}.

Definition in_scope (scope : RunnerProfileScope) (r : scopedRunnerProfileRecord) : bool :=
  bool_decide (sr_ScopeType r = scope_Type scope) && (sr_ScopeID r =? scope_ID scope)%Z.

Definition scoped_rows (scope : RunnerProfileScope) (t : scoped_table) : list scopedRunnerProfileRecord :=
  merge_sort (onle sr_Name String.le) (List.filter (in_scope scope) ((map_to_list t).*2)).

Definition ListScopedProfiles (scope : RunnerProfileScope) (t : scoped_table)
    : result (list ScopedRunnerProfile) :=
  match ValidateRunnerProfileScope scope with
  | Some e => Err e
  | None => Ok (map scopedProfileFromRecord (scoped_rows scope t))
  end.

Definition GetScopedProfile (scope : RunnerProfileScope) (name : string) (t : scoped_table)
    : result ScopedRunnerProfile :=
  match ValidateRunnerProfileScope scope with
  | Some e => Err e
  | None =>
      match t !! (scope_Type scope, scope_ID scope, TrimSpace name) with
      | Some r => Ok (scopedProfileFromRecord r)
      | None => Err ErrNotFound
      end
  end.

(** The unique index on scope and label key, for a row stored under a name. *)
Definition label_key_taken (scope : RunnerProfileScope) (name labelKey : string) (t : scoped_table) : bool :=
  existsb (fun r => in_scope scope r && bool_decide (sr_LabelKey r = labelKey)
                    && negb (bool_decide (sr_Name r = name))) ((map_to_list t).*2).

Definition UpsertScopedProfileIfUnchanged (profile : ScopedRunnerProfile)
    (expectedUpdatedAt : option Time) (clock : Time) (globals : profile_table) (t : scoped_table)
    : scoped_table * result ScopedRunnerProfile :=
  let scope := MkScope (sp_ScopeType profile) (sp_ScopeID profile) in
  match ValidateRunnerProfileScope scope with
  | Some e => (t, Err e)
  | None =>
      let name := TrimSpace (sp_Name profile) in
      if bool_decide (name = "") || Contains name "/" || bool_decide (name = ".")
         || bool_decide (name = "..") || (sp_MaxConcurrency profile <? 0)%Z
      then (t, Err (ErrText "invalid scoped runner profile"))
      else if match GetProfile name globals with Ok g => p_Enabled g | Err _ => false end
      then (t, Err ErrRunnerProfileNameConflict)
      else
        match NormalizeWorkflowLabels (sp_WorkflowLabels profile) with
        | Err e => (t, Err e)
        | Ok (labels, labelKey) =>
            let now := saveTime clock expectedUpdatedAt in
            let key := (scope_Type scope, scope_ID scope, name) in
            let record := {|
              sr_ScopeType := scope_Type scope;
              sr_ScopeID := scope_ID scope;
              sr_Name := name;
              sr_WorkflowLabelsJSON := labels;
              sr_LabelKey := labelKey;
              sr_TemplateID := TrimSpace (sp_TemplateID profile);
              sr_RunnerGroup := TrimSpace (sp_RunnerGroup profile);
              sr_MaxConcurrency := sp_MaxConcurrency profile;
              sr_Enabled := sp_Enabled profile;
              sr_CreatedAt := if IsZero (sp_CreatedAt profile) then now else sp_CreatedAt profile;
              sr_UpdatedAt := now
            |} in
            let saved (t' : scoped_table) := (t', GetScopedProfile scope name t') in
            match expectedUpdatedAt, t !! key with
            | Some e, Some old =>
                if (sr_UpdatedAt old =? e)%Z then
                  if label_key_taken scope name labelKey t then (t, Err ErrRunnerProfileLabelsConflict)
                  else saved (<[key := record <| sr_CreatedAt := sr_CreatedAt old |>]> t)
                else (t, Err ErrConflict)
            | Some _, None => (t, Err ErrConflict)
            | None, Some _ => (t, Err ErrConflict)
            | None, None =>
                if label_key_taken scope name labelKey t then (t, Err ErrRunnerProfileLabelsConflict)
                else saved (<[key := record]> t)
            end
        end
  end.

Definition DeleteScopedProfileIfUnchanged (scope : RunnerProfileScope) (name : string)
    (expectedUpdatedAt : option Time) (t : scoped_table) : scoped_table * option goerror :=
  match ValidateRunnerProfileScope scope with
  | Some e => (t, Some e)
  | None =>
      let key := (scope_Type scope, scope_ID scope, TrimSpace name) in
      match t !! key with
      | None => (t, Some ErrConflict)
      | Some old =>
          if match expectedUpdatedAt with None => true | Some e => (sr_UpdatedAt old =? e)%Z end
          then (delete key t, None) else (t, Some ErrConflict)
      end
  end.

(** The global profile a scoped one stands for. *)
Definition scopedRunnerProfile (profile : ScopedRunnerProfile) (enabled : bool) : RunnerProfile := {|
  p_TemplateSource := ""; p_Published := false; p_Name := sp_Name profile;
  p_Labels := sp_WorkflowLabels profile; p_RequiredLabels := sp_WorkflowLabels profile;
  p_TemplateID := sp_TemplateID profile; p_DefaultTemplateName := "";
  p_RunnerGroup := sp_RunnerGroup profile; p_MaxConcurrency := sp_MaxConcurrency profile;
  p_MinIdle := 0; p_Priority := 0; p_Enabled := enabled; p_ManagedBy := ""; p_CatalogRevision := 0;
  p_CreatedAt := sp_CreatedAt profile; p_UpdatedAt := sp_UpdatedAt profile
|}.

Record EffectiveRunnerProfile := MkEffective {
  ep_Source : string; ep_ScopeType : string; ep_ScopeID : Z; ep_Profile : RunnerProfile;
  ep_WorkflowLabels : list string; ep_OverridesGlobal : bool
}.

Definition ListEffectiveProfiles (scope : RunnerProfileScope) (globals : profile_table) (t : scoped_table)
    : result (list EffectiveRunnerProfile) :=
  match ValidateRunnerProfileScope scope with
  | Some e => Err e
  | None =>
      let profiles := ListProfiles globals in
      let globalLabelKeys := omap (fun p => match NormalizeWorkflowLabels (p_Labels p) with
                                            | Ok (_, k) => Some k | Err _ => None end) profiles in
      let? scoped := ListScopedProfiles scope t in
      Ok (map (fun p => MkEffective
                 (if bool_decide (p_TemplateSource p = TemplateSourcePublic)
                  then "platform_public" else "platform_custom")
                 (scope_Type scope) (scope_ID scope) p (p_Labels p) false) profiles
          ++ map (fun p => MkEffective "scoped_custom" (scope_Type scope) (scope_ID scope)
                    (scopedRunnerProfile p (sp_Enabled p)) (sp_WorkflowLabels p)
                    (bool_decide (sp_LabelKey p ∈ globalLabelKeys))) scoped)
  end.

Definition MatchProfileForScope (scope : RunnerProfileScope) (repositoryFullName : string)
    (labels : list string) (globals : profile_table) (t : scoped_table) : result ProfileMatch :=
  match ValidateRunnerProfileScope scope with
  | Some e => Err e
  | None =>
      let m := MkProfileMatch repositoryFullName labels None "" (scope_Type scope) (scope_ID scope) "" in
      let? scoped := ListScopedProfiles scope t in
      let global_match :=
        Ok ((profileMatchFromCandidates repositoryFullName labels (ListProfiles globals))
              <| pm_Source := "global" |> <| pm_ScopeType := scope_Type scope |>
              <| pm_ScopeID := scope_ID scope |>) in
      match NormalizeWorkflowLabels labels with
      | Err _ => global_match
      | Ok (_, labelKey) =>
          match List.find (fun p => bool_decide (sp_LabelKey p = labelKey)) scoped with
          | None => global_match
          | Some profile =>
              let m := m <| pm_Source := "scoped_custom" |> in
              if negb (sp_Enabled profile) then Ok (m <| pm_Reason := "profile_scope_disabled" |>)
              else Ok (m <| pm_Profile := Some (scopedRunnerProfile profile true) |>)
          end
      end
  end.
End scoped.

(** ** Choosing the best profile *)

Lemma elem_of_candidates labels profiles p :
  p ∈ merge_sort preferred (List.filter (profile_matches labels) profiles) <->
  p ∈ profiles /\ profile_matches labels p = true.
Proof. by rewrite merge_sort_Permutation, elem_of_bfilter. Qed.

(** What a profile must be to serve a job's labels: enabled, its required labels among
    the job's, the job's among those it offers, white space and case aside. *)
Definition fits_job (labels : list string) (p : RunnerProfile) : Prop :=
  p_Enabled p = true /\
  (forall l, l ∈ p_RequiredLabels p -> exists l', l' ∈ labels /\ fold_label l' = fold_label l) /\
  (forall l, l ∈ labels -> exists l', l' ∈ p_Labels p /\ fold_label l' = fold_label l).

(** [p] goes before [q]. *)
Definition outranks (p q : RunnerProfile) : Prop :=
  (p_Priority q < p_Priority p)%Z \/
  p_Priority p = p_Priority q /\
  (length (p_Labels q) < length (p_Labels p) \/
   length (p_Labels p) = length (p_Labels q) /\ String.le (p_Name p) (p_Name q)).

Lemma Match_spec jobLabels required :
  Match jobLabels required = true <->
  forall l, l ∈ jobLabels -> exists l', l' ∈ required /\ fold_label l' = fold_label l.
Proof.
  assert (H : Match jobLabels required =
    forallb (fun l => bool_decide (fold_label l ∈ map fold_label required)) jobLabels)
    by (by destruct jobLabels).
  rewrite H, forallb_forall. setoid_rewrite bool_decide_eq_true. setoid_rewrite <- list_elem_of_In.
  setoid_rewrite list_elem_of_fmap. split; intros Hl l Hin; destruct (Hl l Hin) as (l' & H1 & H2); eauto.
Qed.

Lemma profile_matches_spec labels p : profile_matches labels p = true <-> fits_job labels p.
Proof.
  unfold profile_matches, fits_job, labelsMatch. rewrite !andb_true_iff, !Match_spec. tauto.
Qed.

Lemma preferred_spec p q : preferred p q <-> outranks p q.
Proof.
  unfold preferred, profile_less, outranks.
  destruct (Z.eqb_spec (p_Priority q) (p_Priority p)) as [E|E]; cbn [negb].
  2: { rewrite Z.ltb_ge. split; [left; lia|intros [?|[? _]]; lia]. }
  destruct (Nat.eqb_spec (length (p_Labels q)) (length (p_Labels p))) as [E2|E2]; cbn [negb].
  2: { rewrite Nat.ltb_ge. split; [right; split; [done|left; lia]|intros [?|[_ [?|[? _]]]]; lia]. }
  rewrite negb_false_iff, bool_decide_eq_true. split; [by auto|].
  intros [?|[_ [?|[_ ?]]]]; [lia|lia|done].
Qed.

#[export] Instance preferred_total : Total preferred.
Proof.
  intros p q. rewrite !preferred_spec. unfold outranks.
  destruct (Z.lt_trichotomy (p_Priority p) (p_Priority q)) as [?|[?|?]]; [by auto| |by auto].
  destruct (Nat.lt_trichotomy (length (p_Labels p)) (length (p_Labels q))) as [?|[?|?]]; [by auto 6| |by auto 6].
  destruct (total String.le (p_Name p) (p_Name q)); auto 7.
Qed.

#[export] Instance preferred_trans : Transitive preferred.
Proof.
  intros p q r. rewrite !preferred_spec. unfold outranks.
  intros [?|[? [?|[? H1]]]] [?|[? [?|[? H2]]]]; try (left; lia); right; (split; [lia|]); try (left; lia).
  right. split; [lia|]. by etrans.
Qed.

Lemma preferred_antisym_name (x y : RunnerProfile) :
  preferred x y -> preferred y x -> p_Name x = p_Name y.
Proof.
  rewrite !preferred_spec. unfold outranks.
  intros [?|[? [?|[? H1]]]] [?|[? [?|[? H2]]]]; try lia. by apply string_le_antisym.
Qed.

Lemma select_head profiles labels :
  selectMatchingProfile profiles labels = head (merge_sort preferred (List.filter (profile_matches labels) profiles)).
Proof. unfold selectMatchingProfile. by destruct (List.filter _ profiles). Qed.

(** C39: Profile choice. The profile chosen for a job's labels is enabled, has its
    required labels among the job's labels and the job's labels among those it
    offers, white space and case aside; no other listed profile of which this holds
    has a higher priority, or the same and more labels, or the same and a smaller
    name; none is chosen only if it holds of no listed profile. The order in which
    the catalog lists distinctly named profiles is irrelevant. *)
Theorem select_matching_best profiles labels :
  match selectMatchingProfile profiles labels with
  | None => forall p, p ∈ profiles -> ~ fits_job labels p
  | Some p => p ∈ profiles /\ fits_job labels p /\
      forall p', p' ∈ profiles -> fits_job labels p' -> outranks p p'
  end /\
  (NoDup (map p_Name profiles) -> forall profiles', profiles' ≡ₚ profiles ->
     selectMatchingProfile profiles' labels = selectMatchingProfile profiles labels).
Proof.
  assert (Hs : forall l, StronglySorted preferred (merge_sort preferred l))
    by (intros; apply StronglySorted_merge_sort; apply _). split.
  - rewrite select_head. pose proof (elem_of_candidates labels profiles) as He.
    setoid_rewrite profile_matches_spec in He. specialize (Hs (List.filter (profile_matches labels) profiles)).
    destruct (merge_sort _ _) as [|p l]; simpl.
    + intros p Hp Hv. by apply (not_elem_of_nil p), He.
    + destruct (proj1 (He p) ltac:(left)) as [Hp Hm]. split; [done|]. split; [done|]. intros p' Hp' Hm'.
      pose proof (proj2 (He p') (conj Hp' Hm')) as Hin. apply preferred_spec.
      apply elem_of_cons in Hin as [->|Hin]; [by destruct (total preferred p p)|].
      apply StronglySorted_inv in Hs as [_ Hall]. by eapply Forall_forall in Hall.
  - intros Hnd profiles' Hperm. rewrite !select_head. f_equal. apply (StronglySorted_unique_strong preferred); try done.
    + intros x y Hx Hy Hxy Hyx. apply elem_of_candidates in Hx as [Hx _], Hy as [Hy _]. rewrite Hperm in Hx.
      pose proof (preferred_antisym_name x y Hxy Hyx) as Hn.
      apply list_elem_of_lookup in Hx as [i Hi], Hy as [j Hj].
      assert (i = j); [|congruence]. eapply (NoDup_lookup (map p_Name profiles)); [done|..];
        rewrite list_lookup_fmap, ?Hi, ?Hj; simpl; [done|by rewrite Hn].
    + rewrite !merge_sort_Permutation. by apply bfilter_perm.
Qed.

(** ** Canonical labels *)

Definition canonical (labels : list string) : list string :=
  canonical_labels (merge_sort (onle ToLower String.le) (distinct_labels [] labels)).

(** The non-blank labels, trimmed and case-folded. *)
Definition label_set (labels : list string) (x : string) : Prop :=
  x <> "" /\ exists l, l ∈ labels /\ x = fold_label l.

Lemma ToLower_empty s : ToLower s = "" <-> s = "".
Proof.
  split; [|by intros ->]. unfold ToLower. intros H. apply (f_equal bytes) in H. rewrite bytes_of_bytes in H.
  rewrite <-(of_bytes_bytes s). apply (f_equal length) in H. rewrite length_map in H.
  apply length_zero_iff_nil in H. by rewrite H.
Qed.

Lemma distinct_labels_spec seen labels :
  NoDup (map ToLower (distinct_labels seen labels)) /\
  forall x, x ∈ map ToLower (distinct_labels seen labels) <-> label_set labels x /\ x ∉ seen.
Proof.
  revert seen. induction labels as [|raw labels IH]; intros seen; simpl.
  { split; [constructor|]. intros x. split; [intros H; by apply not_elem_of_nil in H|].
    intros [(_ & l & H & _) _]. by apply not_elem_of_nil in H. }
  assert (Hcons : forall x, label_set (raw :: labels) x <-> (x <> "" /\ x = fold_label raw) \/ label_set labels x).
  { intros x. unfold label_set. set_solver. }
  case_bool_decide as E1; [|case_bool_decide as E2].
  - destruct (IH seen) as [H1 H2]. split; [done|]. intros x. rewrite H2, Hcons. unfold fold_label. rewrite E1.
    split; [by intros [? ?]; auto|]. intros [[[Hx ->]|?] ?]; [done|done].
  - destruct (IH seen) as [H1 H2]. split; [done|]. intros x. rewrite H2, Hcons.
    split; [by intros [? ?]; auto|]. intros [[[Hx ->]|?] ?]; [done|done].
  - destruct (IH (ToLower (TrimSpace raw) :: seen)) as [H1 H2]. simpl. split.
    + constructor; [|done]. rewrite H2. intros [_ Hn]. apply Hn. left.
    + intros x. rewrite elem_of_cons, H2, Hcons, not_elem_of_cons. unfold fold_label.
      assert (Hne : ToLower (TrimSpace raw) <> "") by (rewrite ToLower_empty; done).
      destruct (decide (x = ToLower (TrimSpace raw))) as [->|Hx]; naive_solver.
Qed.

Lemma canonical_sorted labels : StronglySorted String.le (canonical labels).
Proof.
  unfold canonical, canonical_labels. apply (StronglySorted_fmap ToLower (onle ToLower String.le)); [done|].
  apply StronglySorted_merge_sort; apply _.
Qed.

Lemma canonical_perm labels : canonical labels ≡ₚ map ToLower (distinct_labels [] labels).
Proof. unfold canonical, canonical_labels. apply Permutation_map, merge_sort_Permutation. Qed.

Lemma elem_of_canonical labels x : x ∈ canonical labels <-> label_set labels x.
Proof.
  rewrite canonical_perm. destruct (distinct_labels_spec [] labels) as [_ ->].
  split; [by intros []|]. intros ?. split; [done|apply not_elem_of_nil].
Qed.

Lemma normalize_key h labels n k : NormalizeWorkflowLabels h labels = Ok (n, k) -> k = h (canonical labels).
Proof. unfold NormalizeWorkflowLabels. cbv zeta. case_bool_decide; [done|]. by intros [= <- <-]. Qed.

Lemma normalize_fails h labels :
  (exists e, NormalizeWorkflowLabels h labels = Err e) <-> forall x, ~ label_set labels x.
Proof.
  unfold NormalizeWorkflowLabels. cbv zeta. case_bool_decide as E.
  - split; [|eauto]. intros _ x. rewrite <-elem_of_canonical. unfold canonical. rewrite E. apply not_elem_of_nil.
  - split; [by intros [? ?]|]. intros H. exfalso. apply E. destruct (merge_sort _ _) as [|y l] eqn:Em; [done|].
    exfalso. apply (H (ToLower y)). rewrite <-elem_of_canonical. unfold canonical. rewrite Em. left.
Qed.

(** Workflow labels have a canonical form. Two label lists get the same canonical
    list, and so the same label key, exactly when they name the same labels up
    to order, repetition, blanks and case; the canonical list is sorted and free
    of repetitions. *)
Theorem workflow_labels_canonical l1 l2 :
  (canonical l1 = canonical l2 <-> forall x, label_set l1 x <-> label_set l2 x) /\
  StronglySorted String.le (canonical l1) /\ NoDup (canonical l1) /\
  (forall h n k, NormalizeWorkflowLabels h l1 = Ok (n, k) -> k = h (canonical l1)) /\
  (forall h, (exists e, NormalizeWorkflowLabels h l1 = Err e) <-> forall x, ~ label_set l1 x).
Proof.
  split; [|split; [apply canonical_sorted|split; [|split]]].
  - split; [intros E x; by rewrite <-!elem_of_canonical, E|]. intros H.
    apply (StronglySorted_unique_strong String.le); [intros; by apply string_le_antisym|apply canonical_sorted..|].
    apply NoDup_Permutation; [rewrite canonical_perm; apply distinct_labels_spec..|].
    intros x. by rewrite !elem_of_canonical.
  - rewrite canonical_perm. apply distinct_labels_spec.
  - intros h n k. apply normalize_key.
  - intros h. apply normalize_fails.
Qed.

(** ** Optimistic saves *)

Lemma saveTime_after clock e : (e + Millisecond <= saveTime clock (Some e))%Z.
Proof. unfold saveTime. destruct (Z.ltb_spec clock (e + Millisecond)); lia. Qed.

(** A conditional save that succeeds. *)
Lemma conditional_save_Ok profile e clock t t' p :
  UpsertProfileIfUnchanged profile e clock t = (t', Ok p) ->
  let name := TrimSpace (p_Name (NormalizeProfilePolicy profile)) in
  (pr_UpdatedAt <$> t !! name) = e /\
  exists r, t' = <[name := r]> t /\ pr_UpdatedAt r = saveTime clock e /\ pr_Name r = default name (pr_Name <$> t !! name).
Proof.
  unfold UpsertProfileIfUnchanged, saveProfile. cbv zeta. destruct (ValidateProfile _); [done|].
  set (prof := (NormalizeProfilePolicy profile) <| p_Name := _ |>).
  change (pr_Name (profileInsertRecord prof _)) with (p_Name prof). change (p_Name prof) with
    (TrimSpace (p_Name (NormalizeProfilePolicy profile))).
  destruct e as [e|], (t !! _) as [old|] eqn:E; try done.
  - destruct (Z.eqb_spec (pr_UpdatedAt old) e) as [<-|]; [|done]. intros [= <- _]. simpl.
    split; [done|]. eexists. split; [done|]. done.
  - intros [= <- _]. simpl. split; [done|]. eexists. split; [done|]. done.
Qed.

(** Optimistic profile saves. A conditional save succeeds only on the revision it
    was based on (or on an absent row, when it expects none); it then stores a
    strictly later revision, so that of two saves based on the same revision of
    a profile only one can succeed, whatever the clock reads. *)
Theorem profile_save_exclusive p1 p2 e clock1 clock2 t t1 r1 t2 r2 :
  TrimSpace (p_Name (NormalizeProfilePolicy p1)) = TrimSpace (p_Name (NormalizeProfilePolicy p2)) ->
  UpsertProfileIfUnchanged p1 e clock1 t = (t1, Ok r1) ->
  UpsertProfileIfUnchanged p2 e clock2 t1 = (t2, r2) ->
  is_ok r2 = false.
Proof.
  intros Hn H1 H2. destruct r2 as [q2|]; [|done]. exfalso.
  apply conditional_save_Ok in H1 as (E1 & r & -> & Hu & _). apply conditional_save_Ok in H2 as (E2 & _).
  rewrite <-Hn, lookup_insert_eq in E2. simpl in E2. destruct e as [e|]; [|done]. injection E2 as E2.
  rewrite Hu in E2. pose proof (saveTime_after clock1 e) as Ha. unfold Millisecond in Ha. lia.
Qed.

Definition ex_profile : RunnerProfile := {|
  p_TemplateSource := "private"; p_Published := false; p_Name := "linux"; p_Labels := ["qiniu"; "linux"];
  p_RequiredLabels := ["qiniu"]; p_TemplateID := "tpl-1"; p_DefaultTemplateName := ""; p_RunnerGroup := "";
  p_MaxConcurrency := 4; p_MinIdle := 0; p_Priority := 1; p_Enabled := true; p_ManagedBy := "";
  p_CatalogRevision := 0; p_CreatedAt := 0; p_UpdatedAt := 0
|}.

Lemma profile_save_exclusive_witness : exists t1 r1,
  UpsertProfileIfUnchanged ex_profile None 5 ∅ = (t1, Ok r1) /\
  is_ok (UpsertProfileIfUnchanged ex_profile None 9 t1).2 = false.
Proof.
  destruct (UpsertProfileIfUnchanged ex_profile None 5 ∅) as [t1 [r1|]] eqn:E; [|vm_compute in E; discriminate E].
  exists t1, r1. split; [reflexivity|].
  apply (profile_save_exclusive ex_profile ex_profile None 5 9 ∅ t1 r1
           (UpsertProfileIfUnchanged ex_profile None 9 t1).1 _ eq_refl E).
  apply surjective_pairing.
Defined.

(** ** Scoped profiles *)

Section scoped_laws.
Context (label_hash : list string -> string).

(** A scoped row is keyed by its scope and trimmed name, carries normalised labels
    and their key, and no two rows of a scope share a key. *)
Record scoped_wf (t : scoped_table) : Prop := {
  sw_row ty id n r : t !! (ty, id, n) = Some r ->
    sr_ScopeType r = ty /\ sr_ScopeID r = id /\ sr_Name r = n /\
    exists labels, NormalizeWorkflowLabels label_hash labels = Ok (sr_WorkflowLabelsJSON r, sr_LabelKey r);
  sw_unique ty id n1 n2 r1 r2 : t !! (ty, id, n1) = Some r1 -> t !! (ty, id, n2) = Some r2 ->
    sr_LabelKey r1 = sr_LabelKey r2 -> n1 = n2
}.

Inductive scoped_step (globals : profile_table) : scoped_table -> scoped_table -> Prop :=
| scoped_upsert profile e clock t :
    scoped_step globals t (UpsertScopedProfileIfUnchanged label_hash profile e clock globals t).1
| scoped_delete scope name e t : scoped_step globals t (DeleteScopedProfileIfUnchanged scope name e t).1.

Lemma label_key_free scope name k t :
  label_key_taken scope name k t = false -> scoped_wf t ->
  forall n r, t !! (scope_Type scope, scope_ID scope, n) = Some r -> sr_LabelKey r = k -> n = name.
Proof.
  intros Hf Hwf n r Hr Hk. destruct (sw_row _ Hwf _ _ _ _ Hr) as (H1 & H2 & H3 & _).
  destruct (decide (n = name)) as [|Hne]; [done|]. exfalso.
  assert (label_key_taken scope name k t = true); [|congruence].
  apply existsb_exists. exists r. split.
  - apply list_elem_of_In, list_elem_of_fmap. exists ((scope_Type scope, scope_ID scope, n), r).
    split; [done|]. by apply elem_of_map_to_list.
  - unfold in_scope. rewrite H1, H2, H3, Hk, Z.eqb_refl.
    by rewrite !bool_decide_eq_true_2, bool_decide_eq_false_2 by done.
Qed.

Lemma scoped_insert_wf scope name labels0 t r :
  scoped_wf t -> label_key_taken scope name (sr_LabelKey r) t = false ->
  sr_ScopeType r = scope_Type scope -> sr_ScopeID r = scope_ID scope -> sr_Name r = name ->
  NormalizeWorkflowLabels label_hash labels0 = Ok (sr_WorkflowLabelsJSON r, sr_LabelKey r) ->
  scoped_wf (<[(scope_Type scope, scope_ID scope, name) := r]> t).
Proof.
  intros Hwf Hf H1 H2 H3 H4. pose proof (label_key_free _ _ _ _ Hf Hwf) as Hfree. split.
  - intros ty id n x. rewrite lookup_insert. case_decide as E; [|apply (sw_row _ Hwf)].
    injection E as <- <- <-. intros [= <-]. eauto 10.
  - intros ty id n1 n2 r1 r2. rewrite !lookup_insert.
    destruct (decide (_ = (ty, id, n1))) as [E1|E1], (decide (_ = (ty, id, n2))) as [E2|E2];
      intros; simplify_eq; [done|symmetry; eapply Hfree|eapply Hfree|eapply (sw_unique _ Hwf)]; eauto using eq_sym.
Qed.

Lemma scoped_step_wf globals t t' : scoped_wf t -> scoped_step globals t t' -> scoped_wf t'.
Proof.
  intros Hwf Hstep. destruct Hstep as [profile e clock t0|scope name e t0].
  - unfold UpsertScopedProfileIfUnchanged. cbv zeta. set (scope := MkScope _ _).
    destruct (ValidateRunnerProfileScope scope); [done|]. set (name := TrimSpace _).
    destruct (_ || _); [done|]. destruct (match GetProfile name globals with Ok _ => _ | Err _ => _ end); [done|].
    destruct (NormalizeWorkflowLabels _ _) as [[labels k]|] eqn:En; [|done].
    destruct e as [e|], (t0 !! _) as [old|] eqn:Eo; try done.
    + destruct (_ =? _)%Z; [|done]. destruct (label_key_taken _ _ _ _) eqn:Et; [done|].
      simpl. by eapply (scoped_insert_wf scope name (sp_WorkflowLabels profile)).
    + destruct (label_key_taken _ _ _ _) eqn:Et; [done|].
      simpl. by eapply (scoped_insert_wf scope name (sp_WorkflowLabels profile)).
  - unfold DeleteScopedProfileIfUnchanged. destruct (ValidateRunnerProfileScope scope); [done|]. cbv zeta.
    destruct (t0 !! _); [|done]. destruct (match e with None => _ | Some _ => _ end); [|done]. simpl.
    destruct Hwf as [H1 H2]. split.
    + intros ty id n r Hr. apply lookup_delete_Some in Hr as [_ Hr]. eauto.
    + intros ty id n1 n2 r1 r2 Hr1 Hr2. apply lookup_delete_Some in Hr1 as [_ Hr1], Hr2 as [_ Hr2]. eauto.
Qed.

Lemma scoped_steps_wf globals t t' : scoped_wf t -> rtc (scoped_step globals) t t' -> scoped_wf t'.
Proof. intros Hwf Hs. induction Hs; eauto using scoped_step_wf. Qed.

(** Scoped catalog invariant. In every catalog that saves and deletions build, each
    scoped profile is stored under its scope and name with sorted, distinct labels
    and their key, and no two profiles of one scope serve the same label key. *)
Theorem scoped_catalog_invariant globals t : rtc (scoped_step globals) ∅ t -> scoped_wf t.
Proof. apply scoped_steps_wf. split; intros *; by rewrite lookup_empty. Qed.

Lemma elem_of_scoped_rows scope t r :
  scoped_wf t -> r ∈ scoped_rows scope t <-> t !! (scope_Type scope, scope_ID scope, sr_Name r) = Some r.
Proof.
  intros Hwf. unfold scoped_rows. rewrite merge_sort_Permutation, elem_of_bfilter, list_elem_of_fmap. split.
  - intros [([[[ty id] n] x] & -> & Hx) Hin]. apply elem_of_map_to_list in Hx. simpl in *.
    destruct (sw_row _ Hwf _ _ _ _ Hx) as (<- & <- & <- & _). unfold in_scope in Hin.
    apply andb_true_iff in Hin as [H1%bool_decide_eq_true H2%Z.eqb_eq]. by rewrite <-H1, <-H2.
  - intros Hr. destruct (sw_row _ Hwf _ _ _ _ Hr) as (H1 & H2 & _). split.
    + exists ((scope_Type scope, scope_ID scope, sr_Name r), r). split; [done|]. by apply elem_of_map_to_list.
    + unfold in_scope. by rewrite H1, H2, Z.eqb_refl, bool_decide_eq_true_2.
Qed.

(** The label set of a stored row, through its key. *)
Definition serves (r : scopedRunnerProfileRecord) (labels : list string) : Prop :=
  canonical_labels (sr_WorkflowLabelsJSON r) = canonical labels.

Lemma row_key t ty id n r : scoped_wf t -> t !! (ty, id, n) = Some r ->
  sr_LabelKey r = label_hash (canonical_labels (sr_WorkflowLabelsJSON r)).
Proof.
  intros Hwf Hr. destruct (sw_row _ Hwf _ _ _ _ Hr) as (_ & _ & _ & labels & Hn).
  unfold NormalizeWorkflowLabels in Hn. cbv zeta in Hn. case_bool_decide; [done|]. by injection Hn as <- <-.
Qed.

Lemma find_by_key (l : list ScopedRunnerProfile) k :
  match List.find (fun p => bool_decide (sp_LabelKey p = k)) l with
  | Some p => p ∈ l /\ sp_LabelKey p = k
  | None => forall p, p ∈ l -> sp_LabelKey p <> k
  end.
Proof.
  destruct (List.find _ l) as [p|] eqn:E.
  - apply List.find_some in E as [E1 E2%bool_decide_eq_true]. split; [by apply list_elem_of_In|done].
  - intros p Hp%list_elem_of_In. by apply (List.find_none _ _ E), bool_decide_eq_false in Hp.
Qed.

(** Scoped profiles take precedence. If a profile of the scope serves exactly the
    job's labels, it alone decides: enabled, it is the match; disabled, the job
    matches nothing, and the global catalog is not consulted. If no profile of
    the scope serves exactly those labels, the answer is the global one. The label
    keys of the lists involved do not collide. *)
Theorem scoped_profile_precedence scope repo labels globals t :
  scoped_wf t -> ValidateRunnerProfileScope scope = None -> (exists x, label_set labels x) ->
  (forall key r, t !! key = Some r ->
     label_hash (canonical_labels (sr_WorkflowLabelsJSON r)) = label_hash (canonical labels) -> serves r labels) ->
  exists m, MatchProfileForScope label_hash scope repo labels globals t = Ok m /\
    (forall n r, t !! (scope_Type scope, scope_ID scope, n) = Some r -> serves r labels ->
       pm_Source m = "scoped_custom" /\
       if sr_Enabled r then pm_Profile m = Some (scopedRunnerProfile (scopedProfileFromRecord r) true)
       else pm_Profile m = None /\ pm_Reason m = "profile_scope_disabled") /\
    ((forall n r, t !! (scope_Type scope, scope_ID scope, n) = Some r -> ~ serves r labels) ->
       pm_Source m = "global" /\ pm_Profile m = pm_Profile (MatchProfile repo labels globals) /\
       pm_Reason m = pm_Reason (MatchProfile repo labels globals)).
Proof.
  intros Hwf Hv [x0 Hx0] Hinj. unfold MatchProfileForScope. rewrite Hv. unfold ListScopedProfiles. rewrite Hv.
  cbn [result_bind].
  destruct (NormalizeWorkflowLabels label_hash labels) as [[nl k]|e] eqn:En.
  2: { exfalso. by apply (proj1 (normalize_fails label_hash labels) (ex_intro _ e En) x0). }
  apply normalize_key in En as ->.
  set (l := map scopedProfileFromRecord (scoped_rows scope t)).
  pose proof (find_by_key l (label_hash (canonical labels))) as Hf.
  destruct (List.find _ l) as [p|].
  - destruct Hf as [Hp Hpk]. apply list_elem_of_fmap in Hp as (r & -> & Hr).
    apply elem_of_scoped_rows in Hr; [|done]. simpl in Hpk. pose proof (row_key _ _ _ _ _ Hwf Hr) as Hrk.
    assert (Hserve : serves r labels) by (apply (Hinj _ _ Hr); congruence). simpl.
    assert (Huniq : forall n r', t !! (scope_Type scope, scope_ID scope, n) = Some r' -> serves r' labels -> r' = r).
    { intros n r' Hr' Hs'. pose proof (row_key _ _ _ _ _ Hwf Hr') as Hrk'. rewrite Hs' in Hrk'.
      assert (n = sr_Name r) by (eapply (sw_unique _ Hwf); [exact Hr'|exact Hr|congruence]). congruence. }
    destruct (sr_Enabled r) eqn:Een; simpl; eexists; (split; [reflexivity|]); split.
    1, 3: intros n r' Hr' Hs'; rewrite (Huniq _ _ Hr' Hs'), Een; done.
    all: intros Hnone; exfalso; by eapply Hnone.
  - eexists. split; [reflexivity|]. split; [|done]. intros n r Hr Hs. exfalso.
    apply (Hf (scopedProfileFromRecord r)).
    + apply list_elem_of_fmap. exists r. split; [done|]. apply elem_of_scoped_rows; [done|].
      destruct (sw_row _ Hwf _ _ _ _ Hr) as (_ & _ & -> & _). done.
    + simpl. rewrite (row_key _ _ _ _ _ Hwf Hr). by rewrite Hs.
Qed.
End scoped_laws.

(** A concrete scoped catalog; labels are joined in place of the hash. *)
Definition ex_hash (l : list string) : string := String.concat "," l.
Definition ex_scope : RunnerProfileScope := MkScope "github_installation" 7.
Definition ex_scoped_profile : ScopedRunnerProfile := {|
  sp_ScopeType := "github_installation"; sp_ScopeID := 7; sp_Name := "own"; sp_WorkflowLabels := ["Linux"; " qiniu "];
  sp_LabelKey := ""; sp_TemplateID := "t"; sp_RunnerGroup := ""; sp_MaxConcurrency := 1; sp_Enabled := false;
  sp_CreatedAt := 0; sp_UpdatedAt := 0
|}.
Definition ex_scoped : scoped_table :=
  (UpsertScopedProfileIfUnchanged ex_hash ex_scoped_profile None 5 ∅ ∅).1.

Lemma ex_scoped_reachable : rtc (scoped_step ex_hash ∅) ∅ ex_scoped.
Proof. apply rtc_once. apply scoped_upsert. Qed.

Lemma scoped_catalog_invariant_witness : scoped_wf ex_hash ex_scoped.
Proof. apply (scoped_catalog_invariant ex_hash ∅). exact ex_scoped_reachable. Defined.

Lemma ex_scoped_wf : scoped_wf ex_hash ex_scoped.
Proof.
  eapply scoped_steps_wf; [|exact ex_scoped_reachable]. split; intros *; by rewrite lookup_empty.
Qed.

Lemma ex_scoped_rows key r : ex_scoped !! key = Some r -> r ∈ map snd (map_to_list ex_scoped).
Proof. intros H. apply list_elem_of_fmap. exists (key, r). split; [done|]. by apply elem_of_map_to_list. Qed.

Lemma scoped_profile_precedence_witness : exists m,
  MatchProfileForScope ex_hash ex_scope "acme/app" ["QINIU"; "linux"; "linux"] ∅ ex_scoped = Ok m /\
  pm_Source m = "scoped_custom" /\ pm_Profile m = None /\ pm_Reason m = "profile_scope_disabled".
Proof.
  destruct (scoped_profile_precedence ex_hash ex_scope "acme/app" ["QINIU"; "linux"; "linux"] ∅ ex_scoped)
    as (m & H1 & H2 & _).
  - exact ex_scoped_wf.
  - vm_compute. reflexivity.
  - exists "qiniu". split; [discriminate|]. exists "QINIU". split; [left|]. vm_compute. reflexivity.
  - intros key r Hr Hh. apply ex_scoped_rows in Hr.
    assert (Hall : Forall (fun r => serves r ["QINIU"; "linux"; "linux"]) (map snd (map_to_list ex_scoped)))
      by (vm_compute; repeat constructor).
    exact (proj1 (Forall_forall _ _) Hall r Hr).
  - exists m. split; [exact H1|].
    destruct (ex_scoped !! ("github_installation", 7%Z, "own")) as [r|] eqn:Er; [|vm_compute in Er; discriminate Er].
    assert (Hd : sr_Enabled <$> ex_scoped !! ("github_installation", 7%Z, "own") = Some false) by (vm_compute; reflexivity).
    assert (Hs : (canonical_labels ∘ sr_WorkflowLabelsJSON <$> ex_scoped !! ("github_installation", 7%Z, "own")) =
                 Some (canonical ["QINIU"; "linux"; "linux"])) by (vm_compute; reflexivity).
    rewrite Er in Hd, Hs. simpl in Hd, Hs. injection Hd as Hd. injection Hs as Hs.
    destruct (H2 "own" r Er Hs) as [H3 H4]. rewrite Hd in H4. destruct H4 as [H4 H5].
    split; [exact H3|]. split; [exact H4|exact H5].
Defined.

(** A disabled profile of the highest priority is passed over, and of the two that
    serve the job the one with the higher priority is chosen. *)
Definition ex_catalog : list RunnerProfile :=
  [ex_profile <| p_Name := "off" |> <| p_Enabled := false |> <| p_RequiredLabels := ["linux"] |> <| p_Priority := 9%Z |> <| p_Labels := ["linux"] |>;
   ex_profile <| p_Name := "small" |> <| p_Enabled := true |> <| p_RequiredLabels := ["linux"] |> <| p_Priority := 1%Z |> <| p_Labels := ["linux"; "x64"] |>;
   ex_profile <| p_Name := "large" |> <| p_Enabled := true |> <| p_RequiredLabels := ["linux"] |> <| p_Priority := 5%Z |> <| p_Labels := ["Linux"] |>].

Lemma select_matching_best_witness :
  exists p, selectMatchingProfile ex_catalog [" LINUX"] = Some p /\ p_Name p = "large" /\
    fits_job [" LINUX"] p /\
    selectMatchingProfile (rev ex_catalog) [" LINUX"] = selectMatchingProfile ex_catalog [" LINUX"].
Proof.
  destruct (select_matching_best ex_catalog [" LINUX"]) as [H1 H2].
  destruct (selectMatchingProfile ex_catalog [" LINUX"]) as [p|] eqn:E; [|vm_compute in E; discriminate E].
  exists p. split; [reflexivity|]. split; [vm_compute in E; injection E as <-; reflexivity|].
  split; [apply H1|]. rewrite <- E. rewrite <- E in H2. apply H2.
  - vm_compute. repeat constructor; intros Hin; repeat (apply elem_of_cons in Hin as [Hin|Hin]; [discriminate Hin|]);
      exact (not_elem_of_nil _ Hin).
  - symmetry. apply Permutation_rev.
Defined.
