(* ===== verification/Retry.v ===== *)
(** * Failure classification and retry scheduling
    (internal/server/server_runner_lifecycle.go, server_workflow_job_queue.go)

    The pure part of the runner lifecycle: how an error becomes a retry or a
    failure, when the next attempt is due, and what a completed GitHub job
    leaves in the request.  Durations are int64 nanoseconds and wrap. *)

From stdpp Require Import base list strings.
From S2P Require Import Prelude GoStrings RunnerModel RunnerStore.

(** The configuration the lifecycle reads. *)
Record server_config := MkServerConfig {
  cfg_RetryMaxAttempts : Z;
  cfg_RetryBaseDelay : Z;
  cfg_RetryMaxDelay : Z;
  cfg_SandboxTimeout : Z;
  cfg_SandboxCreateTimeout : Z;
  cfg_SandboxStopTimeout : Z;
  cfg_RunnerIdleTimeout : Z;
  cfg_WorkerLeaseTTL : Z
}.

(** [github.WorkflowJob], the fields the lifecycle reads; a pull request is its number. *)
Record WorkflowJob := MkWorkflowJob {
  job_ID : Z;
  job_Name : string;
  job_Status : string;
  job_Conclusion : string;
  job_RunnerName : string;
  job_PullRequests : list Z;
  job_Labels : list string
}.

Definition no_job : WorkflowJob := MkWorkflowJob 0 "" "" "" "" [] [].

(** [sandboxrunner.ExitResult]. *)
Record ExitResult := MkExitResult {
  exit_ExitCode : Z;
  exit_Stdout : string;
  exit_Stderr : string;
  exit_Error : string;
  exit_EffectiveRunnerVersion : string
}.

Definition runnerJobStartedMarker := "__runner_job_started__".

(** ** Classification *)

Definition isGitHubRunnerBusyCleanup (err : goerror) : bool :=
  let msg := ToLower (error_text err) in
  Contains msg "github remove runner: status 422" && Contains msg "currently running a job"
  && Contains msg "cannot be deleted".

(** [errors.As] for the two error types that carry their own code. *)
Fixpoint as_group_validation (chain : list goerror) : option (string * bool) :=
  match chain with
  | [] => None
  | ErrRunnerGroupValidation code retryable _ :: _ => Some (code, retryable)
  | _ :: rest => as_group_validation rest
  end.

Fixpoint as_template_resolution (chain : list goerror) : option string :=
  match chain with
  | [] => None
  | ErrDefaultTemplateResolution reason _ :: _ => Some reason
  | _ :: rest => as_template_resolution rest
  end.

Definition classifyRetryableError (stage : string) (err : goerror) : string * bool :=
  match as_group_validation (error_chain err) with
  | Some r => r
  | None =>
  match as_template_resolution (error_chain err) with
  | Some reason => (reason, false)
  | None =>
  if errors_is err ErrRunnerExitedWithoutJob then ("runner_exited_without_job", true)
  else if errors_is err ErrDeadlineExceeded then ("timeout", true)
  else
    let msg := ToLower (error_text err) in
    if isGitHubRunnerBusyCleanup err then ("github_runner_busy", true)
    else if Contains msg "failed to place sandbox" then ("sandbox_capacity", true)
    else if Contains msg "secondary rate limit" then ("github_secondary_rate_limit", true)
    else if Contains msg "status 429" then ("http_rate_limited", true)
    else if Contains msg "status 408" || Contains msg "status 409" || Contains msg "status 425"
    then ("http_retryable_status", true)
    else if Contains msg "status 5" then
      if Contains stage "github" then ("github_server_error", true) else ("backend_server_error", true)
    else if Contains msg "timeout" || Contains msg "timed out" || Contains msg "i/o timeout"
            || Contains msg "connection reset" || Contains msg "temporary" || Contains msg "eof"
    then ("temporary_network_error", true)
    else if Contains msg "status 401" || Contains msg "status 403" then ("auth_error", false)
    else (stage, false)
  end
  end.

Definition isQueueDeferFailure (code : string) : bool :=
  bool_decide (code ∈ ["sandbox_capacity"; "http_rate_limited"; "github_secondary_rate_limit"]).

(** ** Backoff *)

(** [time.Time.Sub] saturates at the int64 range; the comparisons below do not
    see the difference, since the delays compared with are int64 values. *)

(** The loop of [nextRetryAt], for [i] from 1 to [retryCount - 1]. *)
Fixpoint backoff (n : nat) (delay maxDelay : Z) : Z :=
  match n with
  | O => delay
  | S n =>
      let delay := wrap64 (delay * 2) in
      if (maxDelay <=? delay)%Z then maxDelay else backoff n delay maxDelay
  end.

Definition nextRetryAt (cfg : server_config) (retryCount : Z) (now : Time) : Time :=
  let delay := backoff (Z.to_nat (retryCount - 1)) (cfg_RetryBaseDelay cfg) (cfg_RetryMaxDelay cfg) in
  (now + (if (cfg_RetryMaxDelay cfg <? delay)%Z then cfg_RetryMaxDelay cfg else delay))%Z.

(** The loop of the waiting poll: double while positive, below the cap and not
    beyond the age of the request.  A doubling int64 leaves that range within
    64 iterations. *)
Fixpoint waiting_delay (fuel : nat) (delay maxDelay age : Z) : Z :=
  match fuel with
  | O => delay
  | S fuel =>
      if (0 <? delay)%Z && (delay <? maxDelay)%Z && (delay <=? age)%Z
      then waiting_delay fuel (wrap64 (delay * 2)) maxDelay age else delay
  end.

(** The due time of a request whose job GitHub still holds back. *)
Definition waitingRetryAt (cfg : server_config) (createdAt now : Time) : Time :=
  (now + Z.min (waiting_delay 64 (cfg_RetryBaseDelay cfg) (cfg_RetryMaxDelay cfg) (now - createdAt))
           (cfg_RetryMaxDelay cfg))%Z.

(** ** State changes of a failure *)

Definition clearRunnerEnvironmentSnapshot (st : RunnerState) : RunnerState :=
  st <| st_SandboxRegion := "" |> <| st_ResolvedTemplateID := "" |> <| st_TemplateVersion := "" |>
     <| st_RunnerVersion := "" |> <| st_EffectiveRunnerVersion := "" |>.

Definition clearSandboxServiceSnapshot (st : RunnerState) : RunnerState :=
  st <| st_SandboxAPIURL := "" |> <| st_SandboxAPIKeyEncrypted := "" |> <| st_SandboxConfigSource := "" |>
     <| st_SponsorInstallationID := 0%Z |> <| st_SponsorSourceRepositoryID := 0%Z |>
     <| st_SponsorSourceRepositoryFullName := "" |> <| st_SponsorAuthorizationReason := "" |>.

(** Back to the queue with a due time. *)
Definition requeueForRetry (retryCount : Z) (nextRetry : Time) (st : RunnerState) : RunnerState :=
  (clearSandboxServiceSnapshot (clearRunnerEnvironmentSnapshot (st <| st_Status := StatusQueued |>)))
    <| st_RetryCount := retryCount |> <| st_NextRetryAt := nextRetry |> <| st_CreatingAt := 0%Z |>
    <| st_RunningAt := 0%Z |> <| st_StoppingAt := 0%Z |> <| st_FailedAt := 0%Z |>.

(** The fields that record the error and detach the attempt. *)
Definition recordFailure (stage : string) (err : goerror) (code : string) (retryable : bool)
    (st : RunnerState) : RunnerState :=
  st <| st_Error := error_text err |> <| st_FailureStage := stage |> <| st_FailureReason := code |>
     <| st_LastErrorCode := code |> <| st_LastErrorMessage := error_text err |>
     <| st_LastErrorRetryable := retryable |> <| st_LeaseOwner := "" |> <| st_LeaseExpiresAt := 0%Z |>
     <| st_SandboxID := "" |> <| st_ProcessPID := 0%Z |> <| st_CompletedAt := 0%Z |>.

(** Returns the state and the metric result. *)
Definition applyFailure (cfg : server_config) (st : RunnerState) (stage : string) (err : goerror)
    (allowRetry : bool) (now : Time) : RunnerState * string :=
  let '(code, retryable) := classifyRetryableError stage err in
  let st := recordFailure stage err code retryable st in
  if allowRetry && retryable && isQueueDeferFailure code then
    let count := if (st_RetryCount st <? cfg_RetryMaxAttempts cfg)%Z
                 then (st_RetryCount st + 1)%Z else st_RetryCount st in
    (requeueForRetry count (nextRetryAt cfg (Z.max count 1) now) st, "retry")
  else if allowRetry && retryable && (st_RetryCount st <? cfg_RetryMaxAttempts cfg)%Z then
    let count := (st_RetryCount st + 1)%Z in
    (requeueForRetry count (nextRetryAt cfg count now) st, "retry")
  else (st <| st_Status := StatusFailed |> <| st_NextRetryAt := 0%Z |>, "failed").

Definition scheduleStopRetry (cfg : server_config) (st : RunnerState) (err : goerror) (now : Time)
    : bool * RunnerState :=
  let '(code, retryable) := classifyRetryableError "stop" err in
  if negb retryable || (cfg_RetryMaxAttempts cfg <=? st_RetryCount st)%Z then (false, st)
  else
    let count := (st_RetryCount st + 1)%Z in
    (true, st <| st_RetryCount := count |> <| st_Status := StatusStopping |>
              <| st_FailureStage := "stop" |> <| st_FailureReason := code |>
              <| st_LastErrorCode := code |> <| st_LastErrorMessage := error_text err |>
              <| st_LastErrorRetryable := true |> <| st_Error := error_text err |>
              <| st_NextRetryAt := nextRetryAt cfg count now |>).

Definition scheduleCleanupRetry (cfg : server_config) (st : RunnerState) (err : goerror) (now : Time)
    : bool * RunnerState :=
  let '(code, retryable) := classifyRetryableError "github_cleanup" err in
  let exhausted := (cfg_RetryMaxAttempts cfg <=? st_RetryCount st)%Z in
  if negb retryable then (false, st)
  else if negb (isGitHubRunnerBusyCleanup err) && exhausted then (false, st)
  else
    let count := if exhausted then st_RetryCount st else (st_RetryCount st + 1)%Z in
    let st := st <| st_RetryCount := count |> <| st_Status := StatusStopping |> in
    let st := if bool_decide (st_FailureStage st = "")
              then st <| st_FailureStage := "cleanup" |> <| st_FailureReason := code |>
                      <| st_Error := error_text err |>
              else st in
    (true, st <| st_LastErrorCode := code |> <| st_LastErrorMessage := error_text err |>
              <| st_LastErrorRetryable := true |> <| st_NextRetryAt := nextRetryAt cfg count now |>).

(** ** Job evidence *)

Definition shouldRecordAssignedJob (st : RunnerState) (job : WorkflowJob) : bool :=
  if (job_ID job =? 0)%Z then false
  else negb (st_AssignedJobID st =? job_ID job)%Z || negb (bool_decide (st_AssignedJobName st = job_Name job)).

Definition recordAssignedJob (st : RunnerState) (job : WorkflowJob) : RunnerState :=
  if shouldRecordAssignedJob st job
  then st <| st_AssignedJobID := job_ID job |> <| st_AssignedJobName := job_Name job |> else st.

(** Returns the state and whether it changed.  A zero [observedAt] stands for
    [time.Now()] in the code; the model takes the effective, non-zero time. *)
Definition retainWorkflowJobResult (st : RunnerState) (job : WorkflowJob) (observedAt : Time)
    : RunnerState * bool :=
  if (job_ID job =? 0)%Z || (st_WorkflowJobID st =? 0)%Z || negb (job_ID job =? st_WorkflowJobID st)%Z
  then (st, false)
  else
    let status := TrimSpace (job_Status job) in
    let conclusion := TrimSpace (job_Conclusion job) in
    let status := if bool_decide (status = "") && negb (bool_decide (conclusion = ""))
                  then "completed" else status in
    if negb (EqualFold status "completed" || negb (bool_decide (conclusion = ""))) then (st, false)
    else
      let differs (old new : string) := negb (bool_decide (new = "")) && negb (bool_decide (old = new)) in
      let name := TrimSpace (job_Name job) in
      let runnerName := TrimSpace (job_RunnerName job) in
      let c1 := differs (st_GitHubJobName st) name in
      let c2 := differs (st_GitHubJobStatus st) status in
      let c3 := differs (st_GitHubJobConclusion st) conclusion in
      let c4 := differs (st_GitHubJobRunnerName st) runnerName in
      let changed := c1 || c2 || c3 || c4 in
      let st := if c1 then st <| st_GitHubJobName := name |> else st in
      let st := if c2 then st <| st_GitHubJobStatus := status |> else st in
      let st := if c3 then st <| st_GitHubJobConclusion := conclusion |> else st in
      let st := if c4 then st <| st_GitHubJobRunnerName := runnerName |> else st in
      if negb changed && bool_decide (st_GitHubJobName st = "") && bool_decide (st_GitHubJobStatus st = "")
         && bool_decide (st_GitHubJobConclusion st = "") && bool_decide (st_GitHubJobRunnerName st = "")
      then (st, false)
      else if negb changed && negb (IsZero (st_GitHubJobObservedAt st)) then (st, false)
      else if negb (st_GitHubJobObservedAt st =? observedAt)%Z
      then (st <| st_GitHubJobObservedAt := observedAt |>, true)
      else (st, changed).

Definition workflowJobStopConflictsWithAssignment (st : RunnerState) (job : WorkflowJob) : bool :=
  if (job_ID job =? 0)%Z then false
  else
    let runnerName := TrimSpace (job_RunnerName job) in
    if negb (bool_decide (runnerName = "")) && bool_decide (runnerName = TrimSpace (st_RunnerName st))
    then false
    else if negb (st_AssignedJobID st =? 0)%Z then negb (st_AssignedJobID st =? job_ID job)%Z
    else bool_decide (st_AssignedJobName st = runnerJobStartedMarker)
         && (st_WorkflowJobID st =? job_ID job)%Z.

Definition workflowJobMismatch (st : RunnerState) (job : WorkflowJob) : bool :=
  negb (st_WorkflowJobID st =? 0)%Z && negb (job_ID job =? 0)%Z
  && negb (st_WorkflowJobID st =? job_ID job)%Z.

Definition isWorkflowJobWaiting (status : string) : bool :=
  bool_decide (status ∈ ["waiting"; "pending"; "requested"]).

Definition setTerminationSource (st : RunnerState) (source : string) : RunnerState :=
  if negb (bool_decide (TrimSpace (st_TerminationSource st) = "")) then st
  else st <| st_TerminationSource := TrimSpace source |>.

Definition markRunnerCleanupStarted (st : RunnerState) (startedAt : Time) : RunnerState :=
  let st := st <| st_Status := StatusStopping |> in
  if IsZero (st_StoppingAt st) then st <| st_StoppingAt := startedAt |> else st.

Definition appendError (current extra : string) : string :=
  let current := TrimSpace current in
  let extra := TrimSpace extra in
  if bool_decide (current = "") then extra
  else if bool_decide (extra = "") then current
  else current +:+ "; " +:+ extra.

Definition runnerExitMessage (result : ExitResult) : string :=
  let detail := TrimSpace (exit_Stderr result) in
  let detail := if bool_decide (detail = "") then TrimSpace (exit_Error result) else detail in
  let detail := if bool_decide (detail = "") then TrimSpace (exit_Stdout result) else detail in
  if bool_decide (detail = "") then "runner process exited with code " +:+ FormatInt (exit_ExitCode result)
  else "runner process exited with code " +:+ FormatInt (exit_ExitCode result) +:+ ": " +:+ detail.

Definition isSandboxGone (err : goerror) : bool :=
  let msg := error_text err in
  Contains msg "status 404" || Contains msg "Sandbox can't be resumed" || Contains msg "SandboxNotFound".

Definition shouldCheckGitHubBusyAfterRunnerExit (result : ExitResult) (err : option goerror) : bool :=
  match err with None => negb (exit_ExitCode result =? 0)%Z | Some _ => true end.

Definition shouldStopIdleRunner (cfg : server_config) (st : RunnerState) (now : Time) : bool :=
  if (cfg_RunnerIdleTimeout cfg <=? 0)%Z || IsZero (st_RunningAt st) then false
  else if negb (st_AssignedJobID st =? 0)%Z || bool_decide (st_AssignedJobName st = runnerJobStartedMarker)
  then false
  else (cfg_RunnerIdleTimeout cfg <? now - st_RunningAt st)%Z.

Definition remainingSandboxTimeout (cfg : server_config) (st : RunnerState) (now : Time) : Z :=
  let startedAt := if IsZero (st_RunningAt st) then st_CreatingAt st else st_RunningAt st in
  if IsZero startedAt then cfg_SandboxTimeout cfg
  else Z.min (cfg_SandboxTimeout cfg - (now - startedAt)) (cfg_SandboxTimeout cfg).

(** ** Backoff: exact delays *)

Lemma backoff_exact n d m :
  (0 <= d < 2 ^ 62)%Z -> (0 <= m < 2 ^ 62)%Z ->
  Z.min m (backoff n d m) = Z.min m (d * 2 ^ Z.of_nat n).
Proof.
  revert d. induction n as [|n IH]; intros d Hd Hm; simpl backoff.
  { by rewrite Z.mul_1_r. }
  rewrite (wrap64_id (d * 2)) by (unfold in_int64; lia).
  replace (2 ^ Z.of_nat (S n))%Z with (2 * 2 ^ Z.of_nat n)%Z
    by (rewrite Nat2Z.inj_succ, Z.pow_succ_r; lia).
  assert (1 <= 2 ^ Z.of_nat n)%Z by (pose proof (Z.pow_pos_nonneg 2 (Z.of_nat n)); lia).
  destruct (m <=? d * 2)%Z eqn:E; [nia|]. rewrite IH by lia. f_equal. lia.
Qed.

(** The delays the configuration allows: non-negative and below 2^62 ns (146 years). *)
Definition delays_ok (cfg : server_config) : Prop :=
  (0 <= cfg_RetryBaseDelay cfg < 2 ^ 62)%Z /\ (0 <= cfg_RetryMaxDelay cfg < 2 ^ 62)%Z.

Lemma nextRetryAt_min cfg n now :
  delays_ok cfg ->
  nextRetryAt cfg n now =
    (now + Z.min (cfg_RetryMaxDelay cfg) (cfg_RetryBaseDelay cfg * 2 ^ Z.of_nat (Z.to_nat (n - 1))))%Z.
Proof.
  intros [Hb Hm]. unfold nextRetryAt. rewrite <- backoff_exact by done.
  destruct (_ <? _)%Z eqn:E; lia.
Qed.

(** Exponential backoff. For delays below 2^62 ns, the n-th retry is due after
    exactly the base delay doubled n-1 times, capped at the maximum delay; no
    doubling overflows, and later retries never wait less. *)
Theorem next_retry_exact cfg n now :
  delays_ok cfg -> (1 <= n)%Z ->
  nextRetryAt cfg n now = (now + Z.min (cfg_RetryMaxDelay cfg) (cfg_RetryBaseDelay cfg * 2 ^ (n - 1)))%Z
  /\ (nextRetryAt cfg n now <= nextRetryAt cfg (n + 1) now)%Z
  /\ (now <= nextRetryAt cfg n now <= now + cfg_RetryMaxDelay cfg)%Z.
Proof.
  intros Hd Hn. rewrite !nextRetryAt_min by done. destruct Hd as [Hb Hm].
  rewrite !Z2Nat.id by lia. replace (n + 1 - 1)%Z with (Z.succ (n - 1)) by lia.
  rewrite Z.pow_succ_r by lia.
  assert (1 <= 2 ^ (n - 1))%Z by (pose proof (Z.pow_pos_nonneg 2 (n - 1)); lia).
  split; [done|]. split; [|nia]. nia.
Qed.

Definition ex_cfg : server_config :=
  MkServerConfig 5 (15 * Second) (300 * Second) (6 * Hour) (10 * Minute) Minute (10 * Minute) Minute.

Lemma next_retry_exact_witness :
  nextRetryAt ex_cfg 3 1000 = (1000 + Z.min (300 * Second) (15 * Second * 2 ^ 2))%Z.
Proof.
  refine (proj1 (next_retry_exact ex_cfg 3 1000 _ _)); [|lia].
  split; vm_compute; split; congruence.
Defined.

(** ** The waiting poll *)

(** The guard of the loop. *)
Definition waiting_guard (delay maxDelay age : Z) : bool :=
  (0 <? delay)%Z && (delay <? maxDelay)%Z && (delay <=? age)%Z.

(** [k] is the number of doublings: each intermediate delay passed the guard. *)
Lemma waiting_delay_run fuel d m age :
  (0 < d)%Z -> (m < 2 ^ 62)%Z ->
  exists k, (k <= fuel)%nat /\
    (forall j, (j < k)%nat -> waiting_guard (d * 2 ^ Z.of_nat j) m age = true) /\
    waiting_delay fuel d m age = (d * 2 ^ Z.of_nat k)%Z /\
    ((k < fuel)%nat -> waiting_guard (d * 2 ^ Z.of_nat k) m age = false).
Proof.
  revert d. induction fuel as [|fuel IH]; intros d Hd Hm.
  { exists 0. rewrite Z.mul_1_r. repeat split; lia. }
  simpl waiting_delay. fold (waiting_guard d m age).
  destruct (waiting_guard d m age) eqn:G.
  - assert (d < m)%Z by (unfold waiting_guard in G; lia).
    rewrite wrap64_id by (unfold in_int64; lia).
    destruct (IH (d * 2)%Z) as (k & Hk & Hj & He & Hs); [lia|done|].
    assert (Hp : forall j, (d * 2 * 2 ^ Z.of_nat j = d * 2 ^ Z.of_nat (S j))%Z).
    { intros j. rewrite Nat2Z.inj_succ, Z.pow_succ_r by lia. lia. }
    exists (S k). rewrite <- Hp. repeat split; [lia| |done|intros; apply Hs; lia].
    intros [|j] Hlt; [by rewrite Z.mul_1_r|]. rewrite <- Hp. apply Hj. lia.
  - exists 0. rewrite Z.mul_1_r. repeat split; [lia|lia|done].
Qed.

(** Waiting polls. The loop that spaces the polls of a job GitHub holds back
    always ends within its 64 doublings, without overflow; the next poll comes
    after the first doubling of the base delay that exceeds the request's age or
    reaches the cap, and never later than the cap. *)
Theorem waiting_poll_spec cfg createdAt now :
  delays_ok cfg -> (0 < cfg_RetryBaseDelay cfg)%Z ->
  let b := cfg_RetryBaseDelay cfg in
  let m := cfg_RetryMaxDelay cfg in
  exists k, (0 <= k < 64)%Z /\
    (forall j, 0 <= j < k -> b * 2 ^ j < m /\ b * 2 ^ j <= now - createdAt)%Z /\
    (m <= b * 2 ^ k \/ now - createdAt < b * 2 ^ k)%Z /\
    waitingRetryAt cfg createdAt now = (now + Z.min m (b * 2 ^ k))%Z.
Proof.
  intros [Hb Hm] Hpos b m. unfold waitingRetryAt. fold b m.
  destruct (waiting_delay_run 64 b m (now - createdAt)) as (k & Hk & Hj & He & Hs);
    [subst b; lia|subst m; lia|].
  assert (Hk63 : (k < 64)%nat).
  { assert (k <> 64); [|lia]. intros ->.
    specialize (Hj 63 ltac:(lia)). unfold waiting_guard in Hj.
    change (2 ^ Z.of_nat 63)%Z with (2 ^ 63)%Z in Hj. subst b m. nia. }
  exists (Z.of_nat k). split; [lia|]. split.
  { intros j Hlt. specialize (Hj (Z.to_nat j) ltac:(lia)). rewrite Z2Nat.id in Hj by lia.
    unfold waiting_guard in Hj. lia. }
  specialize (Hs Hk63). unfold waiting_guard in Hs.
  assert (0 < b * 2 ^ Z.of_nat k)%Z by (pose proof (Z.pow_pos_nonneg 2 (Z.of_nat k)); subst b; nia).
  split; [lia|]. rewrite He. f_equal. lia.
Qed.

Lemma waiting_poll_spec_witness :
  exists k, (0 <= k < 64)%Z /\ waitingRetryAt ex_cfg 0 (50 * Second) = (50 * Second + Z.min (300 * Second) (15 * Second * 2 ^ k))%Z.
Proof.
  destruct (waiting_poll_spec ex_cfg 0 (50 * Second)) as (k & Hk & _ & _ & H);
    [split; vm_compute; split; congruence | reflexivity | exists k; split; [exact Hk|exact H]].
Defined.

(** ** Failures: retry or fail *)

(** The decision of [applyFailure]: retry, and whether the budget is bypassed. *)
Definition retries (cfg : server_config) (count : Z) (stage : string) (err : goerror) (allowRetry : bool) : bool :=
  let '(code, retryable) := classifyRetryableError stage err in
  allowRetry && retryable && (isQueueDeferFailure code || (count <? cfg_RetryMaxAttempts cfg)%Z).

Definition next_count (cfg : server_config) (count : Z) : Z :=
  if (count <? cfg_RetryMaxAttempts cfg)%Z then (count + 1)%Z else count.

Lemma applyFailure_eq cfg st stage err allowRetry now :
  let st' := recordFailure stage err (classifyRetryableError stage err).1
               (classifyRetryableError stage err).2 st in
  let count := next_count cfg (st_RetryCount st) in
  applyFailure cfg st stage err allowRetry now =
  if retries cfg (st_RetryCount st) stage err allowRetry
  then (requeueForRetry count (nextRetryAt cfg (Z.max count 1) now) st', "retry")
  else (st' <| st_Status := StatusFailed |> <| st_NextRetryAt := 0%Z |>, "failed").
Proof.
  unfold applyFailure, retries, next_count. destruct (classifyRetryableError stage err) as [code r].
  change (st_RetryCount (recordFailure _ _ _ _ _)) with (st_RetryCount st).
  destruct allowRetry, r; try done. simpl andb.
  destruct (isQueueDeferFailure code); [done|].
  destruct (st_RetryCount st <? cfg_RetryMaxAttempts cfg)%Z eqn:E; [|done]. simpl orb.
  assert (H : nextRetryAt cfg (st_RetryCount st + 1) now = nextRetryAt cfg (Z.max (st_RetryCount st + 1) 1) now).
  { unfold nextRetryAt.
    replace (Z.to_nat (Z.max (st_RetryCount st + 1) 1 - 1)) with (Z.to_nat (st_RetryCount st + 1 - 1)) by lia.
    done. }
  simpl. by rewrite H.
Qed.

(** The request is back in the queue and carries nothing of the attempt's environment. *)
Record requeued (st : RunnerState) : Prop := {
  rq_status : st_Status st = StatusQueued;
  rq_times : st_CreatingAt st = 0%Z /\ st_RunningAt st = 0%Z /\ st_StoppingAt st = 0%Z /\ st_FailedAt st = 0%Z;
  rq_environment : st_SandboxRegion st = "" /\ st_ResolvedTemplateID st = "" /\ st_TemplateVersion st = ""
    /\ st_RunnerVersion st = "" /\ st_EffectiveRunnerVersion st = "";
  rq_service : st_SandboxAPIURL st = "" /\ st_SandboxAPIKeyEncrypted st = "" /\ st_SandboxConfigSource st = ""
}.

(** The attempt is detached: no sandbox, process, lease or completion. *)
Definition detached (st : RunnerState) : Prop :=
  st_SandboxID st = "" /\ st_ProcessPID st = 0%Z /\ st_LeaseOwner st = "" /\ st_LeaseExpiresAt st = 0%Z
  /\ st_CompletedAt st = 0%Z.

(** C36: Failure handling. A failed attempt is detached from its sandbox, process and
    lease and records the classified error. It goes back to the queue exactly
    when retrying is allowed, the error is retryable and either the budget is
    not spent or the error only defers the queue (capacity, rate limits); the
    retry counter never passes the budget, and the next attempt is due within
    the maximum delay. Otherwise the request is failed. *)
Theorem apply_failure_spec cfg st stage err allowRetry now :
  delays_ok cfg ->
  let code := classifyRetryableError stage err in
  let '(st', outcome) := applyFailure cfg st stage err allowRetry now in
  detached st' /\ st_LastErrorCode st' = code.1 /\ st_LastErrorRetryable st' = code.2
  /\ st_ID st' = st_ID st /\ st_Version st' = st_Version st
  /\ (outcome = "retry" <-> allowRetry = true /\ code.2 = true /\
        (isQueueDeferFailure code.1 = true \/ (st_RetryCount st < cfg_RetryMaxAttempts cfg)%Z))
  /\ (outcome = "retry" -> requeued st' /\
        (now <= st_NextRetryAt st' <= now + cfg_RetryMaxDelay cfg)%Z /\
        (st_RetryCount st <= st_RetryCount st' <= Z.max (st_RetryCount st) (cfg_RetryMaxAttempts cfg))%Z)
  /\ (outcome <> "retry" -> outcome = "failed" /\ st_Status st' = StatusFailed /\ st_NextRetryAt st' = 0%Z
        /\ st_RetryCount st' = st_RetryCount st).
Proof.
  intros Hd code. pose proof (applyFailure_eq cfg st stage err allowRetry now) as Heq. cbv zeta in Heq.
  rewrite Heq. clear Heq. unfold retries. fold code. destruct code as [c r] eqn:Ec. simpl fst. simpl snd.
  set (b := allowRetry && r && (isQueueDeferFailure c || (st_RetryCount st <? cfg_RetryMaxAttempts cfg)%Z)).
  assert (Hb : b = true <-> allowRetry = true /\ r = true /\
    (isQueueDeferFailure c = true \/ (st_RetryCount st < cfg_RetryMaxAttempts cfg)%Z)).
  { subst b. rewrite !andb_true_iff, orb_true_iff, Z.ltb_lt. tauto. }
  assert (Hn : forall k, (now <= nextRetryAt cfg k now <= now + cfg_RetryMaxDelay cfg)%Z).
  { intros k. rewrite nextRetryAt_min by done. destruct Hd as [? ?].
    pose proof (Z.pow_pos_nonneg 2 (Z.of_nat (Z.to_nat (k - 1)))). nia. }
  destruct b.
  - split; [done|]. do 4 (split; [done|]). split; [|split; [|done]].
    { split; [intros _; by apply Hb|done]. }
    intros _. split; [by split|]. split; [apply Hn|].
    change (st_RetryCount (requeueForRetry _ _ _)) with (next_count cfg (st_RetryCount st)).
    unfold next_count. destruct (_ <? _)%Z eqn:E; lia.
  - split; [done|]. do 4 (split; [done|]). split; [|split; [done|done]].
    split; [done|]. intros H. by apply Hb in H.
Qed.

Lemma apply_failure_spec_witness :
  requeued (applyFailure ex_cfg (zero_state <| st_RetryCount := 4%Z |>) "start" ErrDeadlineExceeded true 9).1.
Proof.
  pose proof (apply_failure_spec ex_cfg (zero_state <| st_RetryCount := 4%Z |>) "start" ErrDeadlineExceeded true 9) as H.
  destruct (applyFailure ex_cfg (zero_state <| st_RetryCount := 4%Z |>) "start" ErrDeadlineExceeded true 9)
    as [st' o] eqn:E.
  destruct H as (_ & _ & _ & _ & _ & Ho & Hr & _); [split; vm_compute; split; congruence|].
  apply Hr, Ho. vm_compute. auto.
Defined.

(** A series of failed attempts, each retried: the outcomes, in order. *)
Fixpoint fail_attempts (cfg : server_config) (st : RunnerState) (fs : list (string * goerror * Time))
    : RunnerState * list string :=
  match fs with
  | [] => (st, [])
  | (stage, err, now) :: fs =>
      let '(st, o) := applyFailure cfg st stage err true now in
      let '(st, os) := fail_attempts cfg st fs in
      (st, o :: os)
  end.

(** The retry budget is finite. However the attempts of a request fail (capacity
    and rate-limit deferrals apart), at most [RetryMaxAttempts] minus the current
    count of them are retried, so one attempt more than that leaves a failed
    outcome. *)
Theorem retry_budget cfg fs st :
  Forall (fun f => isQueueDeferFailure (classifyRetryableError f.1.1 f.1.2).1 = false) fs ->
  (Z.of_nat (countb (fun o => bool_decide (o = "retry")) (fail_attempts cfg st fs).2)
     <= Z.max 0 (cfg_RetryMaxAttempts cfg - st_RetryCount st))%Z
  /\ length (fail_attempts cfg st fs).2 = length fs.
Proof.
  revert st. induction fs as [|[[stage err] now] fs IH]; intros st Hf; [split; simpl; [rewrite countb_nil; lia|done]|].
  inversion Hf as [|? ? Hd Hf']; subst. simpl in Hd.
  pose proof (applyFailure_eq cfg st stage err true now) as Heq. cbv zeta in Heq.
  cbn [fail_attempts]. rewrite Heq. clear Heq. unfold retries. 
  destruct (classifyRetryableError stage err) as [c r]. simpl in Hd. simpl fst. simpl snd. rewrite Hd.
  cbn [andb orb]. destruct (r && (st_RetryCount st <? cfg_RetryMaxAttempts cfg)%Z) eqn:Eb.
  - assert (st_RetryCount st < cfg_RetryMaxAttempts cfg)%Z by (apply andb_true_iff in Eb; lia).
    set (st1 := requeueForRetry _ _ _).
    assert (Hc : st_RetryCount st1 = (st_RetryCount st + 1)%Z).
    { change (st_RetryCount st1) with (next_count cfg (st_RetryCount st)). unfold next_count.
      destruct (_ <? _)%Z eqn:E; lia. }
    clearbody st1. specialize (IH st1 Hf'). destruct (fail_attempts cfg st1 fs) as [st2 os]. cbn [fst snd length] in IH |- *.
    rewrite countb_cons. simpl. rewrite Hc in IH. destruct IH. split; [lia|lia].
  - match goal with |- context [fail_attempts cfg ?s fs] => set (st1 := s) end.
    assert (Hc : st_RetryCount st1 = st_RetryCount st) by done.
    clearbody st1. specialize (IH st1 Hf'). destruct (fail_attempts cfg st1 fs) as [st2 os]. cbn [fst snd length] in IH |- *.
    rewrite countb_cons. simpl. rewrite Hc in IH. destruct IH. split; [lia|lia].
Qed.

Lemma retry_budget_witness :
  (Z.of_nat (countb (fun o => bool_decide (o = "retry"))
     (fail_attempts ex_cfg (zero_state <| st_RetryCount := 4%Z |>)
        [("start", ErrDeadlineExceeded, 1%Z); ("start", ErrDeadlineExceeded, 2%Z)]).2) <= 1)%Z.
Proof.
  refine (proj1 (retry_budget ex_cfg [("start", ErrDeadlineExceeded, 1%Z); ("start", ErrDeadlineExceeded, 2%Z)]
    (zero_state <| st_RetryCount := 4%Z |>) _)).
  repeat constructor.
Defined.

(** ** Job evidence: idempotent and terminal *)

(** A field of the evidence takes every non-empty new value. *)
Definition keep_or (old new : string) : string := if bool_decide (new = "") then old else new.

Definition job_terminal (job : WorkflowJob) : bool :=
  EqualFold (TrimSpace (job_Status job)) "completed" || negb (bool_decide (TrimSpace (job_Conclusion job) = "")).

(** The evidence a terminal observation leaves. *)
Definition evidence (st : RunnerState) (job : WorkflowJob) : RunnerState :=
  let status := TrimSpace (job_Status job) in
  st <| st_GitHubJobName := keep_or (st_GitHubJobName st) (TrimSpace (job_Name job)) |>
     <| st_GitHubJobStatus := keep_or (st_GitHubJobStatus st) (if bool_decide (status = "") then "completed" else status) |>
     <| st_GitHubJobConclusion := keep_or (st_GitHubJobConclusion st) (TrimSpace (job_Conclusion job)) |>
     <| st_GitHubJobRunnerName := keep_or (st_GitHubJobRunnerName st) (TrimSpace (job_RunnerName job)) |>.

Lemma changed_keep_or old new :
  negb (bool_decide (new = "")) && negb (bool_decide (old = new)) = negb (bool_decide (keep_or old new = old)).
Proof. unfold keep_or. repeat case_bool_decide; simpl; congruence. Qed.

Lemma keep_or_idem old new : keep_or (keep_or old new) new = keep_or old new.
Proof. unfold keep_or. by repeat case_bool_decide. Qed.

(** A conditional assignment of a field is the assignment of its kept value. *)
Ltac kept_field :=
  unfold keep_or; intros st v;
  destruct (decide (v = "")) as [->|Hv];
  [rewrite bool_decide_true by done; by destruct st|rewrite !(bool_decide_false (v = "")) by done];
  match goal with |- context [bool_decide (?a = v)] =>
    destruct (decide (a = v)) as [<-|]; [rewrite bool_decide_true by done; by destruct st|rewrite bool_decide_false by done]
  end; done.

Lemma kept_name : forall st v,
  (if negb (bool_decide (v = "")) && negb (bool_decide (st_GitHubJobName st = v))
   then st <| st_GitHubJobName := v |> else st) = st <| st_GitHubJobName := keep_or (st_GitHubJobName st) v |>.
Proof. kept_field. Qed.

Lemma kept_status : forall st v,
  (if negb (bool_decide (v = "")) && negb (bool_decide (st_GitHubJobStatus st = v))
   then st <| st_GitHubJobStatus := v |> else st) = st <| st_GitHubJobStatus := keep_or (st_GitHubJobStatus st) v |>.
Proof. kept_field. Qed.

Lemma kept_conclusion : forall st v,
  (if negb (bool_decide (v = "")) && negb (bool_decide (st_GitHubJobConclusion st = v))
   then st <| st_GitHubJobConclusion := v |> else st)
  = st <| st_GitHubJobConclusion := keep_or (st_GitHubJobConclusion st) v |>.
Proof. kept_field. Qed.

Lemma kept_runner : forall st v,
  (if negb (bool_decide (v = "")) && negb (bool_decide (st_GitHubJobRunnerName st = v))
   then st <| st_GitHubJobRunnerName := v |> else st)
  = st <| st_GitHubJobRunnerName := keep_or (st_GitHubJobRunnerName st) v |>.
Proof. kept_field. Qed.

(** The four evidence fields agree. *)
Definition same_evidence (st st' : RunnerState) : bool :=
  bool_decide (st_GitHubJobName st' = st_GitHubJobName st)
  && bool_decide (st_GitHubJobStatus st' = st_GitHubJobStatus st)
  && bool_decide (st_GitHubJobConclusion st' = st_GitHubJobConclusion st)
  && bool_decide (st_GitHubJobRunnerName st' = st_GitHubJobRunnerName st).

Definition own_job (st : RunnerState) (job : WorkflowJob) : bool :=
  negb (job_ID job =? 0)%Z && negb (st_WorkflowJobID st =? 0)%Z && (job_ID job =? st_WorkflowJobID st)%Z.

Lemma same_evidence_eq st job : same_evidence st (evidence st job) = true -> evidence st job = st.
Proof.
  unfold same_evidence. intros H. bool_prop.
  transitivity (st <| st_GitHubJobName := st_GitHubJobName (evidence st job) |>
    <| st_GitHubJobStatus := st_GitHubJobStatus (evidence st job) |>
    <| st_GitHubJobConclusion := st_GitHubJobConclusion (evidence st job) |>
    <| st_GitHubJobRunnerName := st_GitHubJobRunnerName (evidence st job) |>); [done|].
  repeat match goal with E : _ = _ |- _ => rewrite E; clear E end. by destruct st.
Qed.

Lemma retain_eq st job now :
  now <> 0%Z ->
  retainWorkflowJobResult st job now =
  if own_job st job && job_terminal job
     && negb (same_evidence st (evidence st job) && negb (IsZero (st_GitHubJobObservedAt st)))
  then ((evidence st job) <| st_GitHubJobObservedAt := now |>, true) else (st, false).
Proof.
  intros Hnow. unfold retainWorkflowJobResult.
  assert (Hown : (job_ID job =? 0)%Z || (st_WorkflowJobID st =? 0)%Z || negb (job_ID job =? st_WorkflowJobID st)%Z
    = negb (own_job st job)).
  { unfold own_job. by rewrite !negb_andb, !negb_involutive. }
  rewrite Hown. destruct (own_job st job); [|done]. cbn [negb].
  set (s0 := TrimSpace (job_Status job)). set (cc := TrimSpace (job_Conclusion job)).
  set (s1 := if bool_decide (s0 = "") && negb (bool_decide (cc = "")) then "completed" else s0).
  assert (Ht : EqualFold s1 "completed" || negb (bool_decide (cc = "")) = job_terminal job).
  { unfold job_terminal, s1. fold s0 cc. destruct (bool_decide (cc = "")); simpl; [|by rewrite !orb_true_r].
    by rewrite andb_false_r. }
  rewrite Ht. destruct (job_terminal job) eqn:Et; [|done]. cbn [negb].
  assert (Hs1 : s1 = if bool_decide (s0 = "") then "completed" else s0).
  { unfold s1. unfold job_terminal in Et. fold s0 cc in Et. destruct (bool_decide (s0 = "")) eqn:E0; [|done].
    apply bool_decide_eq_true in E0. rewrite E0 in Et |- *. by destruct (bool_decide (cc = "")). }
  set (c1 := negb _ && negb (bool_decide (st_GitHubJobName _ = _))).
  set (c2 := negb _ && negb (bool_decide (st_GitHubJobStatus _ = _))).
  set (c3 := negb _ && negb (bool_decide (st_GitHubJobConclusion _ = _))).
  set (c4 := negb _ && negb (bool_decide (st_GitHubJobRunnerName _ = _))).
  assert (Hc : c1 || c2 || c3 || c4 = negb (same_evidence st (evidence st job))).
  { unfold same_evidence, c1, c2, c3, c4. rewrite !changed_keep_or, Hs1, <- !negb_andb. done. }
  match goal with |- context [if c4 then ?x <| st_GitHubJobRunnerName := ?v |> else ?x] =>
    assert (He : (if c4 then x <| st_GitHubJobRunnerName := v |> else x) = evidence st job) end.
  { unfold c1. rewrite kept_name.
    match goal with |- context [if c2 then _ else ?x] =>
      change c2 with (negb (bool_decide (s1 = "")) && negb (bool_decide (st_GitHubJobStatus x = s1))) end.
    rewrite kept_status.
    match goal with |- context [if c3 then _ else ?x] =>
      change c3 with (negb (bool_decide (cc = "")) && negb (bool_decide (st_GitHubJobConclusion x = cc))) end.
    rewrite kept_conclusion.
    match goal with |- context [if c4 then _ else ?x] =>
      change c4 with (negb (bool_decide (TrimSpace (job_RunnerName job) = ""))
        && negb (bool_decide (st_GitHubJobRunnerName x = TrimSpace (job_RunnerName job)))) end.
    rewrite kept_runner.
    unfold evidence. fold s0. by rewrite Hs1. }
  rewrite Hc, He. clear Hc He.
  assert (Hne : st_GitHubJobStatus (evidence st job) <> "").
  { change (keep_or (st_GitHubJobStatus st) (if bool_decide (s0 = "") then "completed" else s0) <> "").
    unfold keep_or. repeat case_bool_decide; congruence. }
  rewrite (bool_decide_false _ Hne), !andb_false_r. cbn [andb]. rewrite negb_involutive.
  change (st_GitHubJobObservedAt (evidence st job)) with (st_GitHubJobObservedAt st).
  destruct (same_evidence st (evidence st job)) eqn:Es; cbn [andb negb].
  - destruct (IsZero (st_GitHubJobObservedAt st)) eqn:Ez; cbn [andb negb].
    + apply IsZero_true in Ez. rewrite Ez. by destruct (0 =? now)%Z eqn:E; [lia|].
    + by rewrite same_evidence_eq.
  - destruct (st_GitHubJobObservedAt st =? now)%Z eqn:E; [|done]. apply Z.eqb_eq in E. rewrite <- E.
    done.
Qed.

Lemma evidence_idem st job now :
  same_evidence ((evidence st job) <| st_GitHubJobObservedAt := now |>)
    (evidence ((evidence st job) <| st_GitHubJobObservedAt := now |>) job) = true.
Proof.
  unfold same_evidence. rewrite !andb_true_iff. repeat split; apply bool_decide_eq_true, keep_or_idem.
Qed.

(** Job results are retained once. Only a terminal observation of the request's own
    workflow job is recorded; the report says whether the state changed, nothing
    but the five evidence fields changes, and observing the same job again, at
    any time, changes nothing. *)
Theorem retain_result_spec st job now now2 :
  now <> 0%Z -> now2 <> 0%Z ->
  let '(st', changed) := retainWorkflowJobResult st job now in
  (changed = false -> st' = st)
  /\ (changed = true -> own_job st job = true /\ job_terminal job = true
        /\ st' = (evidence st job) <| st_GitHubJobObservedAt := now |>)
  /\ retainWorkflowJobResult st' job now2 = (st', false).
Proof.
  intros Hn Hn2. rewrite retain_eq by done.
  destruct (own_job st job) eqn:Eo; [|split; [done|split; [done|by rewrite retain_eq, Eo]]].
  destruct (job_terminal job) eqn:Et; [|split; [done|split; [done|by rewrite retain_eq, Eo, Et]]].
  cbn [andb]. destruct (negb _) eqn:En.
  - split; [done|]. split; [done|]. rewrite retain_eq by done.
    change (own_job ((evidence st job) <| st_GitHubJobObservedAt := now |>) job) with (own_job st job).
    rewrite Eo, Et, evidence_idem.
    change (st_GitHubJobObservedAt ((evidence st job) <| st_GitHubJobObservedAt := now |>)) with now.
    by rewrite (proj2 (IsZero_false now)).
  - split; [done|]. split; [done|]. by rewrite retain_eq, Eo, Et, En.
Qed.

Definition ex_job : WorkflowJob := MkWorkflowJob 7 "build" "completed" "success" "runner-1" [] [].

Lemma retain_result_spec_witness :
  retainWorkflowJobResult (retainWorkflowJobResult (zero_state <| st_WorkflowJobID := 7%Z |>) ex_job 5).1 ex_job 9
  = ((retainWorkflowJobResult (zero_state <| st_WorkflowJobID := 7%Z |>) ex_job 5).1, false).
Proof.
  pose proof (retain_result_spec (zero_state <| st_WorkflowJobID := 7%Z |>) ex_job 5 9 ltac:(lia) ltac:(lia)) as H.
  destruct (retainWorkflowJobResult (zero_state <| st_WorkflowJobID := 7%Z |>) ex_job 5) as [st' c].
  exact (proj2 (proj2 H)).
Defined.
