(* ===== verification/Templates.v ===== *)
(** * Public templates (internal/server/server_default_templates.go, internal/sandboxrunner)

    A runner profile names a public template; the catalog of the sandbox service resolves the
    name to one runnable template. *)

From stdpp Require Import base list strings.
From S2P Require Import Prelude GoStrings.
From Stdlib Require Import Ascii.

(** [%q] of a name without characters to escape. *)
Definition quoted (s : string) : string :=
  let q := String (ascii_of_nat 34) EmptyString in q +:+ s +:+ q.

(** [sandboxrunner.CatalogTemplate], the fields template resolution reads. *)
Record CatalogTemplate := MkCatalogTemplate {
  tpl_TemplateID : string;
  tpl_Names : list string;
  tpl_BuildID : string;
  tpl_Public : bool
}.

Definition newDefaultTemplateResolutionError (requestedName reason : string) : goerror :=
  ErrDefaultTemplateResolution reason
    ("default template " +:+ quoted requestedName +:+ " cannot be resolved: " +:+ reason).

Definition template_named (requestedName : string) (t : CatalogTemplate) : bool :=
  existsb (fun name => let name := TrimSpace name in
    bool_decide (name = requestedName) || HasSuffix name ("/" +:+ requestedName)) (tpl_Names t).

Definition findDefaultTemplate (requestedName : string) (templates : list CatalogTemplate) : result CatalogTemplate :=
  let requestedName := TrimSpace requestedName in
  if bool_decide (requestedName = "") then Err (newDefaultTemplateResolutionError requestedName "missing")
  else
    match List.filter (template_named requestedName) templates with
    | [] => Err (newDefaultTemplateResolutionError requestedName "missing")
    | [t] => Ok t
    | _ => Err (newDefaultTemplateResolutionError requestedName "duplicate")
    end.

Definition Runnable (t : CatalogTemplate) : bool :=
  let buildID := TrimSpace (tpl_BuildID t) in
  negb (bool_decide (TrimSpace (tpl_TemplateID t) = "")) && negb (bool_decide (buildID = ""))
  && negb (bool_decide (buildID = "00000000-0000-0000-0000-000000000000")).

Definition resolveDefaultTemplateID (requestedName : string) (templates : list CatalogTemplate) : result string :=
  let requestedName := TrimSpace requestedName in
  let? t := findDefaultTemplate requestedName templates in
  if negb (tpl_Public t) then Err (newDefaultTemplateResolutionError requestedName "private")
  else
    let templateID := TrimSpace (tpl_TemplateID t) in
    if bool_decide (templateID = "") then Err (newDefaultTemplateResolutionError requestedName "empty_template_id")
    else if negb (Runnable t) then Err (newDefaultTemplateResolutionError requestedName "non_runnable")
    else Ok templateID.
