(* ===== verification/DeployModel.v ===== *)
(** * Data model of deployments
    (internal/state/store.go, records.go, deployments.go, deployment_revisions.go)

    The structs and rows of a deployment, of its revisions and of its events,
    their conversions, and the validation every write passes.  The field
    ContextRevision of a listed deployment, a pointer to a revision, is returned
    beside the deployment by the list queries. *)

From stdpp Require Import base list strings pretty.
From S2P Require Import Prelude GoStrings AccountModel.
From Stdlib Require Import Ascii.

(** ** Status of a deployment: the constants of the code, or any other string *)

Inductive DeploymentStatus :=
| DeploymentStatusQueued
| DeploymentStatusPlanning
| DeploymentStatusCreating
| DeploymentStatusRunning
| DeploymentStatusStopping
| DeploymentStatusCompleted
| DeploymentStatusExpired
| DeploymentStatusFailed
| DeploymentStatusOther (s : string).

#[export] Instance DeploymentStatus_eq_dec : EqDecision DeploymentStatus.
Proof. solve_decision. Defined.

(** The empty string: a status that was not given. *)
Definition no_status : DeploymentStatus := DeploymentStatusOther "".

Definition dstatus_text (s : DeploymentStatus) : string :=
  match s with
  | DeploymentStatusQueued => "queued"
  | DeploymentStatusPlanning => "planning"
  | DeploymentStatusCreating => "creating"
  | DeploymentStatusRunning => "running"
  | DeploymentStatusStopping => "stopping"
  | DeploymentStatusCompleted => "completed"
  | DeploymentStatusExpired => "expired"
  | DeploymentStatusFailed => "failed"
  | DeploymentStatusOther s => s
  end.

Definition validDeploymentStatus (s : DeploymentStatus) : bool :=
  match s with DeploymentStatusOther _ => false | _ => true end.

(** The statuses the queries list as active, and the terminal ones. *)
Definition activeDeploymentStatuses : list DeploymentStatus :=
  [DeploymentStatusQueued; DeploymentStatusPlanning; DeploymentStatusCreating; DeploymentStatusRunning;
   DeploymentStatusStopping].
Definition terminalDeploymentStatuses : list DeploymentStatus :=
  [DeploymentStatusCompleted; DeploymentStatusExpired; DeploymentStatusFailed].

Definition dstatus_in (l : list DeploymentStatus) (s : DeploymentStatus) : bool := bool_decide (s ∈ l).

(** ** Structs and rows *)

Record Deployment := MkDeployment {
  d_CreateRequestHash : string;
  d_ExecutionAccountID : Z;
  d_RevisionNumber : Z;
  d_ID : string;
  d_AccountID : Z;
  d_ScopeType : string;
  d_ScopeID : Z;
  d_GitHubInstallationID : Z;
  d_RepositoryID : Z;
  d_RepositoryFullName : string;
  d_Ref : string;
  d_CommitSHA : string;
  d_ConfigPath : string;
  d_SnapshotVersion : Z;
  d_SpecHash : string;
  d_SpecJSONEncrypted : string;
  d_Status : DeploymentStatus;
  d_SandboxID : string;
  d_Attempt : Z;
  d_RuntimeID : string;
  d_ProcessID : string;
  d_ProcessTag : string;
  d_SandboxAPIURL : string;
  d_SandboxAPIKeyEncrypted : string;
  d_SandboxConfigSource : string;
  d_SandboxRegion : string;
  d_DeploymentTemplateID : string;
  d_DeploymentTemplateName : string;
  d_DeploymentTemplateCPU : Z;
  d_DeploymentTemplateMemoryMB : Z;
  d_DeploymentTemplateDiskMB : Z;
  d_Endpoint : string;
  d_FailureStage : string;
  d_FailureReason : string;
  d_Error : string;
  d_ExpiresAt : Time;
  d_CreatedAt : Time;
  d_PlanningAt : Time;
  d_CreatingAt : Time;
  d_RunningAt : Time;
  d_StoppingAt : Time;
  d_CompletedAt : Time;
  d_FailedAt : Time;
  d_UpdatedAt : Time;
  d_Version : Z;
  d_SourceRepositoryID : Z;
  d_SourceRepositoryFullName : string;
  d_SourceRef : string;
  d_PullRequestTitle : string
}.

#[export] Instance rebuild_Deployment : Rebuild Deployment := fun r =>
  MkDeployment
    (d_CreateRequestHash r) (d_ExecutionAccountID r) (d_RevisionNumber r) (d_ID r) (d_AccountID r)
    (d_ScopeType r) (d_ScopeID r) (d_GitHubInstallationID r) (d_RepositoryID r)
    (d_RepositoryFullName r) (d_Ref r) (d_CommitSHA r) (d_ConfigPath r) (d_SnapshotVersion r)
    (d_SpecHash r) (d_SpecJSONEncrypted r) (d_Status r) (d_SandboxID r) (d_Attempt r)
    (d_RuntimeID r) (d_ProcessID r) (d_ProcessTag r) (d_SandboxAPIURL r)
    (d_SandboxAPIKeyEncrypted r) (d_SandboxConfigSource r) (d_SandboxRegion r)
    (d_DeploymentTemplateID r) (d_DeploymentTemplateName r) (d_DeploymentTemplateCPU r)
    (d_DeploymentTemplateMemoryMB r) (d_DeploymentTemplateDiskMB r) (d_Endpoint r)
    (d_FailureStage r) (d_FailureReason r) (d_Error r) (d_ExpiresAt r) (d_CreatedAt r)
    (d_PlanningAt r) (d_CreatingAt r) (d_RunningAt r) (d_StoppingAt r) (d_CompletedAt r)
    (d_FailedAt r) (d_UpdatedAt r) (d_Version r) (d_SourceRepositoryID r)
    (d_SourceRepositoryFullName r) (d_SourceRef r) (d_PullRequestTitle r).

Record deploymentRecord := MkdeploymentRecord {
  dr_CreateRequestHash : string;
  dr_ExecutionAccountID : Z;
  dr_RevisionNumber : Z;
  dr_ID : string;
  dr_AccountID : Z;
  dr_ScopeType : string;
  dr_ScopeID : Z;
  dr_GitHubInstallationID : Z;
  dr_RepositoryID : Z;
  dr_RepositoryFullName : string;
  dr_Ref : string;
  dr_CommitSHA : string;
  dr_ConfigPath : string;
  dr_SnapshotVersion : Z;
  dr_SpecHash : string;
  dr_SpecJSONEncrypted : string;
  dr_Status : DeploymentStatus;
  dr_SandboxID : string;
  dr_Attempt : Z;
  dr_RuntimeID : string;
  dr_ProcessID : string;
  dr_ProcessTag : string;
  dr_SandboxAPIURL : string;
  dr_SandboxAPIKeyEncrypted : string;
  dr_SandboxConfigSource : string;
  dr_SandboxRegion : string;
  dr_DeploymentTemplateID : string;
  dr_DeploymentTemplateName : string;
  dr_DeploymentTemplateCPU : Z;
  dr_DeploymentTemplateMemoryMB : Z;
  dr_DeploymentTemplateDiskMB : Z;
  dr_Endpoint : string;
  dr_FailureStage : string;
  dr_FailureReason : string;
  dr_Error : string;
  dr_ExpiresAt : Time;
  dr_CreatedAt : Time;
  dr_PlanningAt : option Time;
  dr_CreatingAt : option Time;
  dr_RunningAt : option Time;
  dr_StoppingAt : option Time;
  dr_CompletedAt : option Time;
  dr_FailedAt : option Time;
  dr_UpdatedAt : Time;
  dr_Version : Z;
  dr_SourceRepositoryID : Z;
  dr_SourceRepositoryFullName : string;
  dr_SourceRef : string;
  dr_PullRequestTitle : string
}.

#[export] Instance rebuild_deploymentRecord : Rebuild deploymentRecord := fun r =>
  MkdeploymentRecord
    (dr_CreateRequestHash r) (dr_ExecutionAccountID r) (dr_RevisionNumber r) (dr_ID r)
    (dr_AccountID r) (dr_ScopeType r) (dr_ScopeID r) (dr_GitHubInstallationID r)
    (dr_RepositoryID r) (dr_RepositoryFullName r) (dr_Ref r) (dr_CommitSHA r) (dr_ConfigPath r)
    (dr_SnapshotVersion r) (dr_SpecHash r) (dr_SpecJSONEncrypted r) (dr_Status r) (dr_SandboxID r)
    (dr_Attempt r) (dr_RuntimeID r) (dr_ProcessID r) (dr_ProcessTag r) (dr_SandboxAPIURL r)
    (dr_SandboxAPIKeyEncrypted r) (dr_SandboxConfigSource r) (dr_SandboxRegion r)
    (dr_DeploymentTemplateID r) (dr_DeploymentTemplateName r) (dr_DeploymentTemplateCPU r)
    (dr_DeploymentTemplateMemoryMB r) (dr_DeploymentTemplateDiskMB r) (dr_Endpoint r)
    (dr_FailureStage r) (dr_FailureReason r) (dr_Error r) (dr_ExpiresAt r) (dr_CreatedAt r)
    (dr_PlanningAt r) (dr_CreatingAt r) (dr_RunningAt r) (dr_StoppingAt r) (dr_CompletedAt r)
    (dr_FailedAt r) (dr_UpdatedAt r) (dr_Version r) (dr_SourceRepositoryID r)
    (dr_SourceRepositoryFullName r) (dr_SourceRef r) (dr_PullRequestTitle r).

Record deploymentRevisionRecord := MkdeploymentRevisionRecord {
  rv_EventCount : Z;
  rv_EventBytes : Z;
  rv_EventBudgetInitialized : bool;
  rv_ExecutionAccountID : Z;
  rv_ID : string;
  rv_DeploymentID : string;
  rv_Number : Z;
  rv_Ref : string;
  rv_CommitSHA : string;
  rv_ConfigPath : string;
  rv_SnapshotVersion : Z;
  rv_SpecHash : string;
  rv_SpecJSONEncrypted : string;
  rv_TemplateID : string;
  rv_TemplateName : string;
  rv_TemplateCPU : Z;
  rv_TemplateMemoryMB : Z;
  rv_TemplateDiskMB : Z;
  rv_Status : DeploymentStatus;
  rv_SandboxID : string;
  rv_SandboxRegion : string;
  rv_Endpoint : string;
  rv_FailureStage : string;
  rv_FailureReason : string;
  rv_ExpiresAt : Time;
  rv_RunningAt : option Time;
  rv_CreatedAt : Time;
  rv_UpdatedAt : Time;
  rv_SourceRepositoryID : Z;
  rv_SourceRepositoryFullName : string;
  rv_SourceRef : string;
  rv_PullRequestTitle : string
}.

#[export] Instance rebuild_deploymentRevisionRecord : Rebuild deploymentRevisionRecord := fun r =>
  MkdeploymentRevisionRecord
    (rv_EventCount r) (rv_EventBytes r) (rv_EventBudgetInitialized r) (rv_ExecutionAccountID r)
    (rv_ID r) (rv_DeploymentID r) (rv_Number r) (rv_Ref r) (rv_CommitSHA r) (rv_ConfigPath r)
    (rv_SnapshotVersion r) (rv_SpecHash r) (rv_SpecJSONEncrypted r) (rv_TemplateID r)
    (rv_TemplateName r) (rv_TemplateCPU r) (rv_TemplateMemoryMB r) (rv_TemplateDiskMB r)
    (rv_Status r) (rv_SandboxID r) (rv_SandboxRegion r) (rv_Endpoint r) (rv_FailureStage r)
    (rv_FailureReason r) (rv_ExpiresAt r) (rv_RunningAt r) (rv_CreatedAt r) (rv_UpdatedAt r)
    (rv_SourceRepositoryID r) (rv_SourceRepositoryFullName r) (rv_SourceRef r)
    (rv_PullRequestTitle r).

Record deploymentEventRecord := MkdeploymentEventRecord {
  ev_RevisionNumber : Z;
  ev_ID : Z;
  ev_DeploymentID : string;
  ev_Attempt : Z;
  ev_EventType : string;
  ev_Stage : string;
  ev_Stream : string;
  ev_Message : string;
  ev_CreatedAt : Time
}.

#[export] Instance rebuild_deploymentEventRecord : Rebuild deploymentEventRecord := fun r =>
  MkdeploymentEventRecord
    (ev_RevisionNumber r) (ev_ID r) (ev_DeploymentID r) (ev_Attempt r) (ev_EventType r)
    (ev_Stage r) (ev_Stream r) (ev_Message r) (ev_CreatedAt r).

(** [DeploymentRevision]: a deployment as it was planned, with the id of the revision. *)
Record DeploymentRevision := MkRevision { rev_Deployment : Deployment; rev_RevisionID : string }.

(** [DeploymentEvent] has the fields of its row. *)
Abbreviation DeploymentEvent := deploymentEventRecord.

(** ** Conversions *)

Definition deploymentFromRecord (record : deploymentRecord) : Deployment := {|
  d_CreateRequestHash := dr_CreateRequestHash record; d_ExecutionAccountID := dr_ExecutionAccountID record;
  d_RevisionNumber := dr_RevisionNumber record; d_ID := dr_ID record; d_AccountID := dr_AccountID record;
  d_ScopeType := dr_ScopeType record; d_ScopeID := dr_ScopeID record;
  d_GitHubInstallationID := dr_GitHubInstallationID record; d_RepositoryID := dr_RepositoryID record;
  d_RepositoryFullName := dr_RepositoryFullName record; d_Ref := dr_Ref record;
  d_CommitSHA := dr_CommitSHA record; d_ConfigPath := dr_ConfigPath record;
  d_SnapshotVersion := dr_SnapshotVersion record; d_SpecHash := dr_SpecHash record;
  d_SpecJSONEncrypted := dr_SpecJSONEncrypted record; d_Status := dr_Status record;
  d_SandboxID := dr_SandboxID record; d_Attempt := dr_Attempt record; d_RuntimeID := dr_RuntimeID record;
  d_ProcessID := dr_ProcessID record; d_ProcessTag := dr_ProcessTag record;
  d_SandboxAPIURL := dr_SandboxAPIURL record; d_SandboxAPIKeyEncrypted := dr_SandboxAPIKeyEncrypted record;
  d_SandboxConfigSource := dr_SandboxConfigSource record; d_SandboxRegion := dr_SandboxRegion record;
  d_DeploymentTemplateID := dr_DeploymentTemplateID record;
  d_DeploymentTemplateName := dr_DeploymentTemplateName record;
  d_DeploymentTemplateCPU := dr_DeploymentTemplateCPU record;
  d_DeploymentTemplateMemoryMB := dr_DeploymentTemplateMemoryMB record;
  d_DeploymentTemplateDiskMB := dr_DeploymentTemplateDiskMB record; d_Endpoint := dr_Endpoint record;
  d_FailureStage := dr_FailureStage record; d_FailureReason := dr_FailureReason record;
  d_Error := dr_Error record; d_ExpiresAt := dr_ExpiresAt record; d_CreatedAt := dr_CreatedAt record;
  d_PlanningAt := pointerToTime (dr_PlanningAt record); d_CreatingAt := pointerToTime (dr_CreatingAt record);
  d_RunningAt := pointerToTime (dr_RunningAt record); d_StoppingAt := pointerToTime (dr_StoppingAt record);
  d_CompletedAt := pointerToTime (dr_CompletedAt record); d_FailedAt := pointerToTime (dr_FailedAt record);
  d_UpdatedAt := dr_UpdatedAt record; d_Version := dr_Version record;
  d_SourceRepositoryID := dr_SourceRepositoryID record;
  d_SourceRepositoryFullName := dr_SourceRepositoryFullName record; d_SourceRef := dr_SourceRef record;
  d_PullRequestTitle := dr_PullRequestTitle record
|}.

(** The literal of [createDeployment]. *)
Definition newDeploymentRecord (deployment : Deployment) : deploymentRecord := {|
  dr_CreateRequestHash := d_CreateRequestHash deployment;
  dr_ExecutionAccountID := d_ExecutionAccountID deployment; dr_RevisionNumber := d_RevisionNumber deployment;
  dr_ID := d_ID deployment; dr_AccountID := d_AccountID deployment; dr_ScopeType := d_ScopeType deployment;
  dr_ScopeID := d_ScopeID deployment; dr_GitHubInstallationID := d_GitHubInstallationID deployment;
  dr_RepositoryID := d_RepositoryID deployment; dr_RepositoryFullName := d_RepositoryFullName deployment;
  dr_Ref := d_Ref deployment; dr_CommitSHA := d_CommitSHA deployment;
  dr_ConfigPath := d_ConfigPath deployment; dr_SnapshotVersion := d_SnapshotVersion deployment;
  dr_SpecHash := d_SpecHash deployment; dr_SpecJSONEncrypted := d_SpecJSONEncrypted deployment;
  dr_Status := d_Status deployment; dr_SandboxID := d_SandboxID deployment;
  dr_Attempt := d_Attempt deployment; dr_RuntimeID := d_RuntimeID deployment;
  dr_ProcessID := d_ProcessID deployment; dr_ProcessTag := d_ProcessTag deployment;
  dr_SandboxAPIURL := d_SandboxAPIURL deployment;
  dr_SandboxAPIKeyEncrypted := d_SandboxAPIKeyEncrypted deployment;
  dr_SandboxConfigSource := d_SandboxConfigSource deployment; dr_SandboxRegion := d_SandboxRegion deployment;
  dr_DeploymentTemplateID := d_DeploymentTemplateID deployment;
  dr_DeploymentTemplateName := d_DeploymentTemplateName deployment;
  dr_DeploymentTemplateCPU := d_DeploymentTemplateCPU deployment;
  dr_DeploymentTemplateMemoryMB := d_DeploymentTemplateMemoryMB deployment;
  dr_DeploymentTemplateDiskMB := d_DeploymentTemplateDiskMB deployment; dr_Endpoint := d_Endpoint deployment;
  dr_FailureStage := d_FailureStage deployment; dr_FailureReason := d_FailureReason deployment;
  dr_Error := d_Error deployment; dr_ExpiresAt := d_ExpiresAt deployment;
  dr_CreatedAt := d_CreatedAt deployment; dr_PlanningAt := None; dr_CreatingAt := None; dr_RunningAt := None;
  dr_StoppingAt := None; dr_CompletedAt := None; dr_FailedAt := None; dr_UpdatedAt := d_UpdatedAt deployment;
  dr_Version := d_Version deployment; dr_SourceRepositoryID := d_SourceRepositoryID deployment;
  dr_SourceRepositoryFullName := d_SourceRepositoryFullName deployment;
  dr_SourceRef := d_SourceRef deployment; dr_PullRequestTitle := d_PullRequestTitle deployment
|}.

(** The revision number of a row, at least one. *)
Definition currentNumber (d : deploymentRecord) : Z :=
  if (dr_RevisionNumber d <? 1)%Z then 1%Z else dr_RevisionNumber d.

Definition revisionRecordFromDeployment (d : deploymentRecord) (created : Time) : deploymentRevisionRecord :=
  let number := currentNumber d in {|
  rv_EventCount := 0; rv_EventBytes := 0; rv_EventBudgetInitialized := false;
  rv_ExecutionAccountID := dr_ExecutionAccountID d; rv_ID := dr_ID d +:+ "-r" +:+ FormatInt number;
  rv_DeploymentID := dr_ID d; rv_Number := number; rv_Ref := dr_Ref d; rv_CommitSHA := dr_CommitSHA d;
  rv_ConfigPath := dr_ConfigPath d; rv_SnapshotVersion := dr_SnapshotVersion d; rv_SpecHash := dr_SpecHash d;
  rv_SpecJSONEncrypted := dr_SpecJSONEncrypted d; rv_TemplateID := dr_DeploymentTemplateID d;
  rv_TemplateName := dr_DeploymentTemplateName d; rv_TemplateCPU := dr_DeploymentTemplateCPU d;
  rv_TemplateMemoryMB := dr_DeploymentTemplateMemoryMB d; rv_TemplateDiskMB := dr_DeploymentTemplateDiskMB d;
  rv_Status := dr_Status d; rv_SandboxID := dr_SandboxID d; rv_SandboxRegion := dr_SandboxRegion d;
  rv_Endpoint := dr_Endpoint d; rv_FailureStage := dr_FailureStage d; rv_FailureReason := dr_FailureReason d;
  rv_ExpiresAt := dr_ExpiresAt d; rv_RunningAt := dr_RunningAt d; rv_CreatedAt := created;
  rv_UpdatedAt := dr_UpdatedAt d; rv_SourceRepositoryID := dr_SourceRepositoryID d;
  rv_SourceRepositoryFullName := dr_SourceRepositoryFullName d; rv_SourceRef := dr_SourceRef d;
  rv_PullRequestTitle := dr_PullRequestTitle d
|}.

Definition revisionFromRecord (r : deploymentRevisionRecord) (d : deploymentRecord) : DeploymentRevision :=
  MkRevision {|
  d_CreateRequestHash := ""; d_ExecutionAccountID := rv_ExecutionAccountID r;
  d_RevisionNumber := rv_Number r; d_ID := dr_ID d; d_AccountID := dr_AccountID d;
  d_ScopeType := dr_ScopeType d; d_ScopeID := dr_ScopeID d;
  d_GitHubInstallationID := dr_GitHubInstallationID d; d_RepositoryID := dr_RepositoryID d;
  d_RepositoryFullName := dr_RepositoryFullName d; d_Ref := rv_Ref r; d_CommitSHA := rv_CommitSHA r;
  d_ConfigPath := rv_ConfigPath r; d_SnapshotVersion := rv_SnapshotVersion r; d_SpecHash := rv_SpecHash r;
  d_SpecJSONEncrypted := rv_SpecJSONEncrypted r; d_Status := rv_Status r; d_SandboxID := rv_SandboxID r;
  d_Attempt := 0; d_RuntimeID := ""; d_ProcessID := ""; d_ProcessTag := ""; d_SandboxAPIURL := "";
  d_SandboxAPIKeyEncrypted := ""; d_SandboxConfigSource := ""; d_SandboxRegion := rv_SandboxRegion r;
  d_DeploymentTemplateID := rv_TemplateID r; d_DeploymentTemplateName := rv_TemplateName r;
  d_DeploymentTemplateCPU := rv_TemplateCPU r; d_DeploymentTemplateMemoryMB := rv_TemplateMemoryMB r;
  d_DeploymentTemplateDiskMB := rv_TemplateDiskMB r; d_Endpoint := rv_Endpoint r;
  d_FailureStage := rv_FailureStage r; d_FailureReason := rv_FailureReason r; d_Error := "";
  d_ExpiresAt := rv_ExpiresAt r; d_CreatedAt := rv_CreatedAt r; d_PlanningAt := 0; d_CreatingAt := 0;
  d_RunningAt := pointerToTime (rv_RunningAt r); d_StoppingAt := 0; d_CompletedAt := 0; d_FailedAt := 0;
  d_UpdatedAt := rv_UpdatedAt r; d_Version := 0; d_SourceRepositoryID := rv_SourceRepositoryID r;
  d_SourceRepositoryFullName := rv_SourceRepositoryFullName r; d_SourceRef := rv_SourceRef r;
  d_PullRequestTitle := rv_PullRequestTitle r
|} (rv_ID r).

(** ** Validation *)

(** [unicode.IsControl] somewhere in a string: a control byte of ASCII, or the UTF-8
    encoding of U+0080 to U+009F (a byte 0xC2 always starts a rune). *)
Fixpoint has_control (l : list ascii) : bool :=
  match l with
  | [] => false
  | c :: r =>
      ((code c <? 32) || (code c =? 127)
       || (code c =? 194) && match r with [] => false | d :: _ => (128 <=? code d) && (code d <=? 159) end)%N
      || has_control r
  end.

Definition hasControl (s : string) : bool := has_control (bytes s).

(** [path.IsAbs] and [path.Clean]. *)
Definition IsAbs (p : string) : bool := HasPrefix p "/".

(** One component of a path onto the reversed cleaned components. *)
Definition clean_step (rooted : bool) (acc : list string) (component : string) : list string :=
  if bool_decide (component = "") || bool_decide (component = ".") then acc
  else if bool_decide (component = "..") then
    match acc with
    | [] => if rooted then [] else [".."]
    | top :: rest => if bool_decide (top = "..") then ".." :: acc else rest
    end
  else component :: acc.

Fixpoint join_path (l : list string) : string :=
  match l with
  | [] => ""
  | [p] => p
  | p :: ps => p +:+ "/" +:+ join_path ps
  end.

Definition Clean (p : string) : string :=
  let rooted := IsAbs p in
  let path := join_path (rev (fold_left (clean_step rooted) (Split p "/") [])) in
  if rooted then "/" +:+ path else if bool_decide (path = "") then "." else path.

(** The expression [^[^/\s]+/[^/\s]+$], where [\s] is tab, newline, form feed, carriage
    return or space. *)
Definition regexp_space (c : ascii) : bool :=
  ((code c =? 9) || (code c =? 10) || (code c =? 12) || (code c =? 13) || (code c =? 32))%N.

Definition deploymentRepositoryPattern (s : string) : bool :=
  match split_bytes "/" (bytes s) with
  | [a; b] => negb (bool_decide (a = [])) && negb (bool_decide (b = []))
              && negb (existsb regexp_space a) && negb (existsb regexp_space b)
  | _ => false
  end.

(** The expression [^refs/pull/[1-9][0-9]*/head$]. *)
Definition is_digit (c : ascii) : bool := ((48 <=? code c) && (code c <=? 57))%N.

Definition deploymentPullRefPattern (s : string) : bool :=
  match Split s "/" with
  | [refs; pull; number; head] =>
      bool_decide (refs = "refs") && bool_decide (pull = "pull") && bool_decide (head = "head")
      && match bytes number with
         | c :: r => (49 <=? code c)%N && (code c <=? 57)%N && forallb is_digit r
         | [] => false
         end
  | _ => false
  end.

(** [hex.DecodeString] accepts both cases; the comparison with the lower-case text
    leaves the lower-case digits. *)
Definition is_hex (c : ascii) : bool :=
  is_digit c || ((97 <=? code c) && (code c <=? 102))%N || ((65 <=? code c) && (code c <=? 70))%N.

Definition validDeploymentCommit (value : string) : bool :=
  let value := TrimSpace value in
  ((len value =? 40)%Z || (len value =? 64)%Z)
  && forallb is_hex (bytes value) && bool_decide (value = ToLower value).


Definition validConfigPath (p : string) : bool :=
  negb (bool_decide (p = ".") || (1024 <? len p)%Z || hasControl p || IsAbs p || HasPrefix p "../"
        || bool_decide (p = "..") || Contains p "\").

Definition normalizeDeployment (deployment : Deployment) : result Deployment :=
  let d := deployment <| d_ID := TrimSpace (d_ID deployment) |> in
  if bool_decide (d_ID d = "") || (128 <? len (d_ID d))%Z || hasControl (d_ID d)
  then Err (ErrText "deployment id is invalid")
  else if (d_AccountID d <=? 0)%Z || (d_ScopeID d <=? 0)%Z || (d_GitHubInstallationID d <=? 0)%Z
          || (d_RepositoryID d <=? 0)%Z
  then Err (ErrText "deployment ownership is invalid")
  else
  let d := d <| d_ScopeType := TrimSpace (d_ScopeType d) |> in
  if negb (bool_decide (d_ScopeType d = AccountScopeTypeAccount))
     && negb (bool_decide (d_ScopeType d = AccountScopeTypeGitHubInstall))
  then Err (ErrText "deployment scope is invalid")
  else
  let d := d <| d_RepositoryFullName := TrimSpace (d_RepositoryFullName d) |> in
  if negb (deploymentRepositoryPattern (d_RepositoryFullName d)) || hasControl (d_RepositoryFullName d)
  then Err (ErrText "deployment repository is invalid")
  else
  let d := d <| d_Ref := TrimSpace (d_Ref d) |> in
  if bool_decide (d_Ref d = "") || (256 <? len (d_Ref d))%Z || hasControl (d_Ref d)
  then Err (ErrText "deployment ref is invalid")
  else
  let d := d <| d_CommitSHA := TrimSpace (d_CommitSHA d) |> in
  if negb (validDeploymentCommit (d_CommitSHA d)) then Err (ErrText "deployment commit is invalid")
  else
  let d := d <| d_ConfigPath := Clean (TrimSpace (d_ConfigPath d)) |> in
  if negb (validConfigPath (d_ConfigPath d)) then Err (ErrText "deployment config path is invalid")
  else if (d_SnapshotVersion d <=? 0)%Z || bool_decide (TrimSpace (d_SpecHash d) = "")
          || bool_decide (TrimSpace (d_SpecJSONEncrypted d) = "")
  then Err (ErrText "deployment plan evidence is incomplete")
  else if negb (validDeploymentStatus (d_Status d)) && negb (bool_decide (d_Status d = no_status))
  then Err (ErrText "deployment status is invalid")
  else
  let d := d <| d_DeploymentTemplateName := TrimSpace (d_DeploymentTemplateName d) |> in
  if (256 <? len (d_DeploymentTemplateName d))%Z || hasControl (d_DeploymentTemplateName d)
  then Err (ErrText "deployment template name is invalid")
  else if IsZero (d_ExpiresAt d) then Err (ErrText "deployment expiry is required")
  else Ok d.

(** ** Lifecycle timestamps *)

Definition stamp (now : Time) (t : option Time) : option Time := Some (default now t).

Definition applyDeploymentTimestamps (record : deploymentRecord) (now : Time) : deploymentRecord :=
  match dr_Status record with
  | DeploymentStatusPlanning => record <| dr_PlanningAt := stamp now (dr_PlanningAt record) |>
  | DeploymentStatusCreating =>
      record <| dr_PlanningAt := stamp now (dr_PlanningAt record) |>
             <| dr_CreatingAt := stamp now (dr_CreatingAt record) |>
  | DeploymentStatusRunning =>
      record <| dr_PlanningAt := stamp now (dr_PlanningAt record) |>
             <| dr_CreatingAt := stamp now (dr_CreatingAt record) |>
             <| dr_RunningAt := stamp now (dr_RunningAt record) |>
  | DeploymentStatusStopping => record <| dr_StoppingAt := stamp now (dr_StoppingAt record) |>
  | DeploymentStatusCompleted | DeploymentStatusExpired =>
      record <| dr_CompletedAt := stamp now (dr_CompletedAt record) |>
  | DeploymentStatusFailed => record <| dr_FailedAt := stamp now (dr_FailedAt record) |>
  | _ => record
  end.

(** ** Joined keys *)

(** What follows the last separator determines where it is. *)
Lemma last_separator {A} (c : A) p1 p2 s1 s2 :
  c ∉ s1 -> c ∉ s2 -> p1 ++ c :: s1 = p2 ++ c :: s2 -> p1 = p2 /\ s1 = s2.
Proof.
  intros H1 H2 E. apply app_eq_inv in E as [(k & -> & E)|(k & -> & E)].
  - destruct k as [|x k]; cbn in E; [injection E as ->; by rewrite app_nil_r|].
    injection E as <- ->. exfalso. apply H2. apply elem_of_app. right. left.
  - destruct k as [|x k]; cbn in E; [injection E as ->; by rewrite app_nil_r|].
    injection E as <- ->. exfalso. apply H1. apply elem_of_app. right. left.
Qed.

(** The keys "<id><separator><number>" determine the id and the number. *)
Lemma joined_key_injective sep c id1 id2 n1 n2 :
  (0 <= n1)%Z -> (0 <= n2)%Z -> (forall m, c <> pretty_N_char m) ->
  id1 +:+ (sep +:+ String c (FormatInt n1)) = id2 +:+ (sep +:+ String c (FormatInt n2)) -> id1 = id2 /\ n1 = n2.
Proof.
  intros H1 H2 Hc E. apply (f_equal bytes) in E. rewrite !bytes_app in E. cbn in E. rewrite !(assoc_L (++)) in E.
  apply last_separator in E as [Ep Es].
  - apply (app_inj_2 (bytes id1) (bytes id2)) in Ep as [Ep _]; [|done]. split.
    + by rewrite <- (of_bytes_bytes id1), <- (of_bytes_bytes id2), Ep.
    + apply (f_equal of_bytes) in Es. rewrite !of_bytes_bytes in Es. unfold FormatInt in Es. by apply (inj pretty) in Es.
  - intros Hin. by destruct (FormatInt_bytes n1 c H1 Hin) as [m ->]; eapply Hc.
  - intros Hin. by destruct (FormatInt_bytes n2 c H2 Hin) as [m ->]; eapply Hc.
Qed.

(** The primary keys of revisions encode their unique index. *)
Lemma revision_key_injective id1 id2 n1 n2 :
  (0 <= n1)%Z -> (0 <= n2)%Z ->
  id1 +:+ "-r" +:+ FormatInt n1 = id2 +:+ "-r" +:+ FormatInt n2 -> id1 = id2 /\ n1 = n2.
Proof.
  intros H1 H2 E. apply (joined_key_injective "-" "r"%char); [done|done| |exact E].
  intros m. unfold pretty_N_char. by repeat case_match.
Qed.
