(* ===== verification/DeployStore.v ===== *)
(** * The deployment store
    (internal/state/deployments.go, deployment_revisions.go, db.go)

    The tables deployments, deployment_revisions and deployment_events and the
    operations that change them, each an atomic database transaction.  Revisions
    are keyed by the unique index (deployment_id, number), which their primary
    key encodes ([revision_key_injective]).  Events are listed by their
    auto-increment id.  The rows that anchor a deployment's scope (accounts and
    GitHub installations) are sets of ids. *)

From stdpp Require Import base gmap list strings sorting relations pretty.
From S2P Require Import Prelude GoStrings Query AccountModel DeployModel.
From Stdlib Require Import Ascii.

Abbreviation deployments := (gmap string deploymentRecord).
Abbreviation revisions := (gmap (string * Z) deploymentRevisionRecord).

Record deploymentDB := MkDB {
  db_deployments : deployments;
  db_revisions : revisions;
  db_events : list deploymentEventRecord;
  db_nextEvent : Z;
  db_accounts : gset Z;
  db_installations : gset Z
}.

#[export] Instance rebuild_deploymentDB : Rebuild deploymentDB := fun r =>
  MkDB (db_deployments r) (db_revisions r) (db_events r) (db_nextEvent r) (db_accounts r) (db_installations r).

Definition ErrDuplicatedKey : goerror := ErrText "duplicated key not allowed".

(** ** Creation and the scope quota *)

Definition insertDeployment (record : deploymentRecord) (db : deploymentDB) : result deploymentDB :=
  match db_deployments db !! dr_ID record with
  | Some _ => Err ErrDuplicatedKey
  | None => Ok (db <| db_deployments := <[dr_ID record := record]> (db_deployments db) |>)
  end.

Definition insertRevision (revision : deploymentRevisionRecord) (db : deploymentDB) : result deploymentDB :=
  let key := (rv_DeploymentID revision, rv_Number revision) in
  match db_revisions db !! key with
  | Some _ => Err ErrDuplicatedKey
  | None => Ok (db <| db_revisions := <[key := revision]> (db_revisions db) |>)
  end.

(** The row of a validated deployment. *)
Definition createdRecord (deployment : Deployment) (now : Time) : deploymentRecord :=
  let d := if IsZero (d_CreatedAt deployment) then deployment <| d_CreatedAt := now |> else deployment in
  let d := if IsZero (d_UpdatedAt d) then d <| d_UpdatedAt := d_CreatedAt d |> else d in
  let d := if bool_decide (d_Status d = no_status) then d <| d_Status := DeploymentStatusQueued |> else d in
  applyDeploymentTimestamps (newDeploymentRecord d) now.

Definition createDeployment (deployment : Deployment) (now : Time) (db : deploymentDB)
    : result (deploymentDB * Deployment) :=
  let? deployment := normalizeDeployment (deployment <| d_RevisionNumber := 1%Z |>) in
  let record := createdRecord deployment now in
  let? db1 := insertDeployment record db in
  let? db2 := insertRevision (revisionRecordFromDeployment record (dr_CreatedAt record)) db1 in
  Ok (db2, deploymentFromRecord record).

Definition CreateDeployment := createDeployment.

Definition lockDeploymentScope (db : deploymentDB) (deployment : Deployment) : result unit :=
  if bool_decide (d_ScopeType deployment = AccountScopeTypeAccount) then
    if bool_decide (d_ScopeID deployment ∈ db_accounts db) then Ok tt else Err ErrNotFound
  else if bool_decide (d_ScopeType deployment = AccountScopeTypeGitHubInstall) then
    if bool_decide (d_ScopeID deployment ∈ db_installations db) then Ok tt else Err ErrNotFound
  else Err (ErrText "invalid deployment scope").

(** A deployment that holds a place in its scope's quota. *)
Definition occupies (r : deploymentRecord) : bool :=
  dstatus_in activeDeploymentStatuses (dr_Status r)
  || (bool_decide (dr_Status r = DeploymentStatusFailed) && negb (bool_decide (dr_SandboxID r = ""))).

Definition in_scope (scopeType : string) (scopeID : Z) (r : deploymentRecord) : bool :=
  bool_decide (dr_ScopeType r = scopeType) && (dr_ScopeID r =? scopeID)%Z.

Definition effectiveLimit (maxConcurrent : Z) : Z := if (maxConcurrent <? 1)%Z then 3%Z else maxConcurrent.

(** SELECT ... LIMIT maxConcurrent, then the number of rows found. *)
Definition checkDeploymentQuota (db : deploymentDB) (deployment : Deployment) (maxConcurrent : Z)
    (excludeID : string) : result unit :=
  let maxConcurrent := effectiveLimit maxConcurrent in
  let? _ := lockDeploymentScope db deployment in
  let found := countb (fun r => in_scope (d_ScopeType deployment) (d_ScopeID deployment) r && occupies r
                                && (bool_decide (excludeID = "") || negb (bool_decide (dr_ID r = excludeID))))
                 (rows (db_deployments db)) in
  if (maxConcurrent <=? Z.min maxConcurrent (Z.of_nat found))%Z then Err ErrDeploymentQuotaExceeded else Ok tt.

Definition CreateDeploymentWithScopeLimit (deployment : Deployment) (maxConcurrent : Z) (now : Time)
    (db : deploymentDB) : result (deploymentDB * Deployment) :=
  let? _ := checkDeploymentQuota db deployment maxConcurrent "" in
  createDeployment deployment now db.

(** ** Reads of one deployment *)

Definition GetDeployment (id : string) (db : deploymentDB) : result Deployment :=
  match db_deployments db !! TrimSpace id with
  | Some r => Ok (deploymentFromRecord r)
  | None => Err ErrNotFound
  end.

Definition GetDeploymentRevision (id : string) (number : Z) (db : deploymentDB) : result DeploymentRevision :=
  let id := TrimSpace id in
  match db_deployments db !! id with
  | None => Err ErrNotFound
  | Some identity =>
      match db_revisions db !! (id, number) with
      | None => Err ErrNotFound
      | Some row => Ok (revisionFromRecord row identity)
      end
  end.

(** ** Updates *)

Definition updateCurrentDeploymentRevision (d : deploymentRecord) (db : deploymentDB) : result deploymentDB :=
  let key := (dr_ID d, currentNumber d) in
  match db_revisions db !! key with
  | None => Err ErrConflict
  | Some r =>
      let r := r <| rv_Status := dr_Status d |> <| rv_SandboxRegion := dr_SandboxRegion d |>
                 <| rv_TemplateID := dr_DeploymentTemplateID d |> <| rv_TemplateName := dr_DeploymentTemplateName d |>
                 <| rv_TemplateCPU := dr_DeploymentTemplateCPU d |>
                 <| rv_TemplateMemoryMB := dr_DeploymentTemplateMemoryMB d |>
                 <| rv_TemplateDiskMB := dr_DeploymentTemplateDiskMB d |> <| rv_Endpoint := dr_Endpoint d |>
                 <| rv_FailureStage := dr_FailureStage d |> <| rv_FailureReason := dr_FailureReason d |>
                 <| rv_ExpiresAt := dr_ExpiresAt d |> <| rv_RunningAt := dr_RunningAt d |>
                 <| rv_UpdatedAt := dr_UpdatedAt d |> in
      let r := if bool_decide (dr_SandboxID d = "") then r else r <| rv_SandboxID := dr_SandboxID d |> in
      Ok (db <| db_revisions := <[key := r]> (db_revisions db) |>)
  end.

(** [timestampRecord] after [applyDeploymentTimestamps]; only its status and its six
    nullable times are read. *)
Definition timestampRecord (deployment : Deployment) (now : Time) : deploymentRecord :=
  applyDeploymentTimestamps
    ((newDeploymentRecord deployment)
       <| dr_PlanningAt := zeroTimeToPointer (d_PlanningAt deployment) |>
       <| dr_CreatingAt := zeroTimeToPointer (d_CreatingAt deployment) |>
       <| dr_RunningAt := zeroTimeToPointer (d_RunningAt deployment) |>
       <| dr_StoppingAt := zeroTimeToPointer (d_StoppingAt deployment) |>
       <| dr_CompletedAt := zeroTimeToPointer (d_CompletedAt deployment) |>
       <| dr_FailedAt := zeroTimeToPointer (d_FailedAt deployment) |>) now.

(** The columns [UpdateDeployment] writes; the others stay. *)
Definition updatedRecord (deployment : Deployment) (now : Time) (r : deploymentRecord) : deploymentRecord :=
  let ts := timestampRecord deployment now in
  r <| dr_Status := d_Status deployment |> <| dr_SandboxID := TrimSpace (d_SandboxID deployment) |>
    <| dr_Attempt := d_Attempt deployment |> <| dr_RuntimeID := TrimSpace (d_RuntimeID deployment) |>
    <| dr_ProcessID := TrimSpace (d_ProcessID deployment) |> <| dr_ProcessTag := TrimSpace (d_ProcessTag deployment) |>
    <| dr_SandboxAPIURL := TrimSpace (d_SandboxAPIURL deployment) |>
    <| dr_SandboxAPIKeyEncrypted := TrimSpace (d_SandboxAPIKeyEncrypted deployment) |>
    <| dr_SandboxConfigSource := TrimSpace (d_SandboxConfigSource deployment) |>
    <| dr_SandboxRegion := TrimSpace (d_SandboxRegion deployment) |>
    <| dr_DeploymentTemplateID := TrimSpace (d_DeploymentTemplateID deployment) |>
    <| dr_DeploymentTemplateName := TrimSpace (d_DeploymentTemplateName deployment) |>
    <| dr_DeploymentTemplateCPU := d_DeploymentTemplateCPU deployment |>
    <| dr_DeploymentTemplateMemoryMB := d_DeploymentTemplateMemoryMB deployment |>
    <| dr_DeploymentTemplateDiskMB := d_DeploymentTemplateDiskMB deployment |>
    <| dr_Endpoint := TrimSpace (d_Endpoint deployment) |>
    <| dr_FailureStage := TrimSpace (d_FailureStage deployment) |>
    <| dr_FailureReason := TrimSpace (d_FailureReason deployment) |>
    <| dr_Error := d_Error deployment |> <| dr_ExpiresAt := d_ExpiresAt deployment |>
    <| dr_PlanningAt := dr_PlanningAt ts |> <| dr_CreatingAt := dr_CreatingAt ts |>
    <| dr_RunningAt := dr_RunningAt ts |> <| dr_StoppingAt := dr_StoppingAt ts |>
    <| dr_CompletedAt := dr_CompletedAt ts |> <| dr_FailedAt := dr_FailedAt ts |>
    <| dr_UpdatedAt := now |> <| dr_Version := (d_Version deployment + 1)%Z |>.

Definition UpdateDeployment (deployment : Deployment) (now : Time) (db : deploymentDB) : result deploymentDB :=
  let? deployment := normalizeDeployment deployment in
  if bool_decide (d_Status deployment = no_status) then Err (ErrText "deployment status is required")
  else if (d_Version deployment <? 0)%Z then Err ErrConflict
  else
    match db_deployments db !! d_ID deployment with
    | Some r =>
        if (dr_Version r =? d_Version deployment)%Z then
          let saved := updatedRecord deployment now r in
          updateCurrentDeploymentRevision saved
            (db <| db_deployments := <[d_ID deployment := saved]> (db_deployments db) |>)
        else Err ErrConflict
    | None => Err ErrConflict
    end.

Definition FillDeploymentPullRequestTitle (id ref title : string) (db : deploymentDB) : result deploymentDB :=
  let id := TrimSpace id in
  let ref := TrimSpace ref in
  let title := TrimSpace title in
  if bool_decide (id = "") || negb (deploymentPullRefPattern ref) || bool_decide (title = "")
     || (1024 <? len title)%Z || hasControl title
  then Err (ErrText "deployment pull request title is invalid")
  else
    Ok (db <| db_deployments := alter (fun d =>
                if bool_decide (dr_Ref d = ref) && bool_decide (dr_PullRequestTitle d = "")
                then d <| dr_PullRequestTitle := title |> else d) id (db_deployments db) |>
           <| db_revisions := map_imap (fun key r =>
                Some (if bool_decide (key.1 = id) && bool_decide (rv_Ref r = ref) && bool_decide (rv_PullRequestTitle r = "")
                      then r <| rv_PullRequestTitle := title |> else r)) (db_revisions db) |>).

(** ** Retry *)

Definition retriedRecord (deployment : Deployment) (expiresAt now : Time) (r : deploymentRecord) : deploymentRecord :=
  r <| dr_ExecutionAccountID := d_ExecutionAccountID deployment |>
    <| dr_RevisionNumber := (dr_RevisionNumber r + 1)%Z |>
    <| dr_SourceRepositoryID := d_SourceRepositoryID deployment |>
    <| dr_SourceRepositoryFullName := d_SourceRepositoryFullName deployment |>
    <| dr_SourceRef := d_SourceRef deployment |> <| dr_PullRequestTitle := d_PullRequestTitle deployment |>
    <| dr_Ref := d_Ref deployment |> <| dr_CommitSHA := d_CommitSHA deployment |>
    <| dr_ConfigPath := d_ConfigPath deployment |> <| dr_SnapshotVersion := d_SnapshotVersion deployment |>
    <| dr_SpecHash := d_SpecHash deployment |> <| dr_SpecJSONEncrypted := d_SpecJSONEncrypted deployment |>
    <| dr_DeploymentTemplateID := d_DeploymentTemplateID deployment |>
    <| dr_DeploymentTemplateName := d_DeploymentTemplateName deployment |>
    <| dr_DeploymentTemplateCPU := d_DeploymentTemplateCPU deployment |>
    <| dr_DeploymentTemplateMemoryMB := d_DeploymentTemplateMemoryMB deployment |>
    <| dr_DeploymentTemplateDiskMB := d_DeploymentTemplateDiskMB deployment |>
    <| dr_SandboxAPIURL := d_SandboxAPIURL deployment |>
    <| dr_SandboxAPIKeyEncrypted := d_SandboxAPIKeyEncrypted deployment |>
    <| dr_SandboxConfigSource := d_SandboxConfigSource deployment |>
    <| dr_SandboxRegion := d_SandboxRegion deployment |>
    <| dr_Status := DeploymentStatusQueued |> <| dr_SandboxID := "" |> <| dr_RuntimeID := "" |>
    <| dr_ProcessID := "" |> <| dr_ProcessTag := "" |> <| dr_Endpoint := "" |> <| dr_FailureStage := "" |>
    <| dr_FailureReason := "" |> <| dr_Error := "" |> <| dr_ExpiresAt := expiresAt |>
    <| dr_PlanningAt := None |> <| dr_CreatingAt := None |> <| dr_RunningAt := None |>
    <| dr_StoppingAt := None |> <| dr_CompletedAt := None |> <| dr_FailedAt := None |>
    <| dr_UpdatedAt := now |> <| dr_Version := (d_Version deployment + 1)%Z |>.

Definition retryDeployment (deployment : Deployment) (expiresAt now : Time) (db : deploymentDB)
    : result deploymentDB :=
  if negb (dstatus_in terminalDeploymentStatuses (d_Status deployment)) then Err ErrRetryNotAllowed
  else if negb (bool_decide (TrimSpace (d_SandboxID deployment) = ""))
          || negb (bool_decide (TrimSpace (d_RuntimeID deployment) = ""))
          || negb (bool_decide (TrimSpace (d_ProcessID deployment) = ""))
          || negb (bool_decide (TrimSpace (d_ProcessTag deployment) = ""))
  then Err ErrConflict
  else if negb (IsZero (d_ExpiresAt deployment)) && IsZero expiresAt
  then Err (ErrText "deployment expiry is required")
  else
    let expiresAt := if IsZero expiresAt then (now + Hour)%Z else expiresAt in
    match db_deployments db !! d_ID deployment with
    | Some r =>
        if (dr_Version r =? d_Version deployment)%Z && dstatus_in terminalDeploymentStatuses (dr_Status r) then
          let saved := retriedRecord deployment expiresAt now r in
          let revision := (revisionRecordFromDeployment saved now) <| rv_SandboxID := "" |> <| rv_Endpoint := "" |> in
          insertRevision revision (db <| db_deployments := <[d_ID deployment := saved]> (db_deployments db) |>)
        else Err ErrConflict
    | None => Err ErrConflict
    end.

Definition RetryDeployment := retryDeployment.

Definition RetryDeploymentWithScopeLimit (deployment : Deployment) (expiresAt : Time) (maxConcurrent : Z)
    (now : Time) (db : deploymentDB) : result deploymentDB :=
  let? _ := checkDeploymentQuota db deployment maxConcurrent (d_ID deployment) in
  retryDeployment deployment expiresAt now db.

(** ** Retention *)

(** The WHERE clause of both statements. *)
Definition prunable (before : Time) (r : deploymentRecord) : bool :=
  dstatus_in terminalDeploymentStatuses (dr_Status r) && bool_decide (dr_SandboxID r = "")
  && (dr_UpdatedAt r <? before)%Z.

(** ORDER BY updated_at ASC, id ASC. *)
Definition prune_key (r : deploymentRecord) : Time * string := (dr_UpdatedAt r, dr_ID r).
Abbreviation prune_le := (onle prune_key (lexle Z.le String.le)).

Definition pruneLimit (limit : Z) : Z :=
  let limit := if (limit <=? 0)%Z then 100%Z else limit in
  if (1000 <? limit)%Z then 1000%Z else limit.

Definition pruneCandidates (before : Time) (limit : Z) (db : deploymentDB) : list deploymentRecord :=
  take (Z.to_nat (pruneLimit limit)) (select prune_le (prunable before) (db_deployments db)).

(** One record of the transaction. *)
Definition pruneRecord (before : Time) (record : deploymentRecord) (db : deploymentDB) : deploymentDB * Z :=
  match db_deployments db !! dr_ID record with
  | Some r =>
      if (dr_Version r =? dr_Version record)%Z && prunable before r then
        (db <| db_deployments := delete (dr_ID record) (db_deployments db) |>
            <| db_events := List.filter (fun e => negb (bool_decide (ev_DeploymentID e = dr_ID record))) (db_events db) |>
            <| db_revisions := filter (fun kr => kr.1.1 <> dr_ID record) (db_revisions db) |>, 1%Z)
      else (db, 0%Z)
  | None => (db, 0%Z)
  end.

Fixpoint pruneRecords (before : Time) (records : list deploymentRecord) (db : deploymentDB) : deploymentDB * Z :=
  match records with
  | [] => (db, 0%Z)
  | r :: records =>
      let '(db1, n) := pruneRecord before r db in
      let '(db2, m) := pruneRecords before records db1 in
      (db2, (n + m)%Z)
  end.

(** The candidates are read in [db0], before the transaction that runs in [db]. *)
Definition PruneDeploymentsFrom (before : Time) (limit : Z) (db0 db : deploymentDB) : result (deploymentDB * Z) :=
  if IsZero before then Err (ErrText "deployment retention cutoff is required")
  else Ok (pruneRecords before (pruneCandidates before limit db0) db).

(** Without an interleaved writer. *)
Definition PruneDeployments (before : Time) (limit : Z) (db : deploymentDB) : result (deploymentDB * Z) :=
  PruneDeploymentsFrom before limit db db.

(** ** Events *)

Definition maxDeploymentEventMessage : Z := 65536.
Definition maxDeploymentEvents : Z := 2000.
Definition maxDeploymentEventBytes : Z := 8388608.

(** [s[:n]] *)
Definition slice_to (n : Z) (s : string) : string := of_bytes (take (Z.to_nat n) (bytes s)).

Definition of_revision (id : string) (number : Z) (e : deploymentEventRecord) : bool :=
  bool_decide (ev_DeploymentID e = id) && (ev_RevisionNumber e =? number)%Z.

(** The timeline of a revision, oldest first. *)
Definition timeline (id : string) (number : Z) (db : deploymentDB) : list deploymentEventRecord :=
  List.filter (of_revision id number) (db_events db).

Definition message_bytes (l : list deploymentEventRecord) : Z :=
  foldr (fun e n => (len (ev_Message e) + n)%Z) 0%Z l.

(** The condition of the eviction loop. *)
Definition over_budget (count bytes message : Z) : bool :=
  (maxDeploymentEvents <=? count)%Z || (maxDeploymentEventBytes <? bytes + message)%Z.

(** One batch: the prefix of the listed events to remove, and the budget after it. *)
Fixpoint evict (oldest : list deploymentEventRecord) (message count bytes : Z)
    : list Z * Z * Z :=
  match oldest with
  | [] => ([], count, bytes)
  | e :: rest =>
      if over_budget count bytes message then
        let '(ids, count, bytes) := evict rest message (count - 1)%Z (bytes - len (ev_Message e))%Z in
        (ev_ID e :: ids, count, bytes)
      else ([], count, bytes)
  end.

(** The loop: [fuel] bounds its passes. *)
Fixpoint evictLoop (fuel : nat) (id : string) (number message count bytes : Z) (events : list deploymentEventRecord)
    : result (list deploymentEventRecord * Z * Z) :=
  if over_budget count bytes message then
    match fuel with
    | O => Err (ErrText "out of fuel")
    | S fuel =>
        let oldest := take 100 (List.filter (of_revision id number) events) in
        match oldest with
        | [] => Err ErrRecordNotFound
        | _ =>
            let '(ids, count, bytes) := evict oldest message count bytes in
            evictLoop fuel id number message count bytes
              (List.filter (fun e => negb (of_revision id number e && bool_decide (ev_ID e ∈ ids))) events)
        end
    end
  else Ok (events, count, bytes).

(** The event after trimming, truncation and the default time, or the refusal. *)
Definition normalizeDeploymentEvent (event : DeploymentEvent) (now : Time) : result DeploymentEvent :=
  let e := event <| ev_DeploymentID := TrimSpace (ev_DeploymentID event) |>
                 <| ev_EventType := TrimSpace (ev_EventType event) |> <| ev_Stage := TrimSpace (ev_Stage event) |>
                 <| ev_Stream := TrimSpace (ev_Stream event) |> in
  if bool_decide (ev_DeploymentID e = "") || bool_decide (ev_EventType e = "") || (128 <? len (ev_DeploymentID e))%Z
     || (64 <? len (ev_EventType e))%Z || (64 <? len (ev_Stage e))%Z || (32 <? len (ev_Stream e))%Z
  then Err (ErrText "deployment event identity is invalid")
  else if hasControl (ev_DeploymentID e) || hasControl (ev_EventType e) || hasControl (ev_Stage e)
          || hasControl (ev_Stream e)
  then Err (ErrText "deployment event identity is invalid")
  else
    let e := if (maxDeploymentEventMessage <? len (ev_Message e))%Z
             then e <| ev_Message := slice_to maxDeploymentEventMessage (ev_Message e) |> else e in
    Ok (if IsZero (ev_CreatedAt e) then e <| ev_CreatedAt := now |> else e).

Definition AppendDeploymentEvent (event : DeploymentEvent) (now : Time) (db : deploymentDB) : result deploymentDB :=
  let? event := normalizeDeploymentEvent event now in
  let id := ev_DeploymentID event in
  match db_deployments db !! id with
  | None => Err ErrRecordNotFound
  | Some owner =>
      let number := if (ev_RevisionNumber event <=? 0)%Z then dr_RevisionNumber owner else ev_RevisionNumber event in
      if negb (number =? dr_RevisionNumber owner)%Z then Err ErrConflict
      else
        match db_revisions db !! (id, number) with
        | None => Err ErrRecordNotFound
        | Some revision =>
            let old := timeline id number db in
            let '(count, bytes) := if rv_EventBudgetInitialized revision
                                   then (rv_EventCount revision, rv_EventBytes revision)
                                   else (Z.of_nat (length old), message_bytes old) in
            let message := len (ev_Message event) in
            let? (events, count, bytes) := evictLoop (S (length (db_events db))) id number message count bytes (db_events db) in
            let record := event <| ev_ID := db_nextEvent db |> <| ev_RevisionNumber := number |> in
            Ok (db <| db_events := events ++ [record] |> <| db_nextEvent := (db_nextEvent db + 1)%Z |>
                   <| db_revisions := <[(id, number) :=
                        revision <| rv_EventCount := (count + 1)%Z |> <| rv_EventBytes := (bytes + message)%Z |>
                                 <| rv_EventBudgetInitialized := true |>]> (db_revisions db) |>)
        end
  end.

(** ** Startup *)

(** [initializeStateBackfills], the part on deployments: a revision for each deployment
    that has none, and event counters to be revalidated. *)
Definition backfillRevision (now : Time) (id : string) (d : deploymentRecord) (db : deploymentDB) : deploymentDB :=
  if bool_decide (filter (fun kr => kr.1.1 = id) (db_revisions db) = ∅) then
    (* the ORM's update of the number also sets [updated_at]; the row read before it does not have that *)
    let row := if (dr_RevisionNumber d <? 1)%Z then d <| dr_RevisionNumber := 1%Z |> else d in
    let stored := if (dr_RevisionNumber d <? 1)%Z then row <| dr_UpdatedAt := now |> else d in
    db <| db_deployments := <[id := stored]> (db_deployments db) |>
       <| db_revisions := <[(id, currentNumber row) := revisionRecordFromDeployment row (dr_CreatedAt row)]> (db_revisions db) |>
  else db.

Definition backfillDeploymentRevisions (now : Time) (db : deploymentDB) : deploymentDB :=
  foldl (fun acc kd => backfillRevision now kd.1 kd.2 acc) db (map_to_list (db_deployments db)).

Definition resetEventBudgets (db : deploymentDB) : deploymentDB :=
  db <| db_revisions := (fun r => r <| rv_EventBudgetInitialized := false |>) <$> db_revisions db |>.

Definition initializeStateBackfills (now : Time) (db : deploymentDB) : deploymentDB :=
  resetEventBudgets (backfillDeploymentRevisions now db).
