(* ===== verification/DeployLog.v ===== *)
(** * The event log of a revision

    The eviction loop of AppendDeploymentEvent (internal/state/deployments.go)
    against its specification: the longest recent part of the timeline that leaves
    room for the new message.  The loop deletes in batches of one hundred rows and
    keeps the two counters of the revision row in step. *)

From stdpp Require Import base gmap list strings sorting.
From S2P Require Import Prelude GoStrings Query DeployModel DeployStore.

(** Events in the order of their ids. *)
Definition event_lt (a b : deploymentEventRecord) : Prop := (ev_ID a < ev_ID b)%Z.

(** ** The specification: drop the fewest oldest events *)

Definition fits (message : Z) (l : list deploymentEventRecord) : bool :=
  negb (over_budget (Z.of_nat (length l)) (message_bytes l) message).

Fixpoint retained (message : Z) (l : list deploymentEventRecord) : list deploymentEventRecord :=
  if fits message l then l else match l with [] => [] | _ :: r => retained message r end.

Lemma message_bytes_cons e l : message_bytes (e :: l) = (len (ev_Message e) + message_bytes l)%Z.
Proof. done. Qed.

Lemma message_bytes_app l1 l2 : message_bytes (l1 ++ l2) = (message_bytes l1 + message_bytes l2)%Z.
Proof. induction l1 as [|e l1 IH]; [done|]. cbn [app]. rewrite !message_bytes_cons, IH. lia. Qed.

Lemma len_nonneg s : (0 <= len s)%Z.
Proof. unfold len. lia. Qed.

Lemma message_bytes_nonneg l : (0 <= message_bytes l)%Z.
Proof. induction l as [|e l IH]; [done|]. rewrite message_bytes_cons. pose proof (len_nonneg (ev_Message e)). lia. Qed.

Lemma fits_nil message : (message <= maxDeploymentEventBytes)%Z -> fits message [] = true.
Proof. intros H. unfold fits, over_budget. apply negb_true_iff, orb_false_iff. split; cbn; [done|apply Z.ltb_ge; lia]. Qed.

(** [retained] is a suffix that fits, and no longer suffix does. *)
Lemma retained_spec message l :
  (message <= maxDeploymentEventBytes)%Z ->
  exists k, retained message l = drop k l /\ fits message (retained message l) = true /\
    forall j, j < k -> fits message (drop j l) = false.
Proof.
  intros Hm. induction l as [|e l (k & IH1 & IH2 & IH3)]; cbn [retained].
  - exists 0. rewrite (fits_nil _ Hm). split; [done|]. split; [by apply fits_nil|lia].
  - destruct (fits message (e :: l)) eqn:E.
    + exists 0. split; [done|]. split; [done|lia].
    + exists (S k). split; [done|]. split; [done|]. intros [|j] Hj; [done|]. apply IH3. lia.
Qed.

Lemma retained_drop message k l :
  (forall j, j < k -> fits message (drop j l) = false) -> retained message (drop k l) = retained message l.
Proof.
  revert l. induction k as [|k IH]; intros [|e l] H; try done.
  cbn [drop]. rewrite IH; [|intros j Hj; apply (H (S j)); lia]. cbn [retained].
  by rewrite (H 0 ltac:(lia) : fits message (e :: l) = false).
Qed.

(** ** One batch *)

Lemma evict_spec message oldest rest :
  exists k, k <= length oldest /\
    evict oldest message (Z.of_nat (length (oldest ++ rest))) (message_bytes (oldest ++ rest)) =
      (ev_ID <$> take k oldest, Z.of_nat (length (drop k (oldest ++ rest))), message_bytes (drop k (oldest ++ rest))) /\
    (forall j, j < k -> fits message (drop j (oldest ++ rest)) = false) /\
    (fits message (drop k (oldest ++ rest)) = false -> k = length oldest).
Proof.
  induction oldest as [|e oldest (k & IH1 & IH2 & IH3 & IH4)]; cbn [evict].
  - exists 0. split; [done|]. split; [done|]. split; [lia|done].
  - destruct (over_budget _ _ message) eqn:E.
    + exists (S k). split; [simpl; lia|]. split; [|split].
      * replace (Z.of_nat (length ((e :: oldest) ++ rest)) - 1)%Z with (Z.of_nat (length (oldest ++ rest))) by (simpl; lia).
        replace (message_bytes ((e :: oldest) ++ rest) - len (ev_Message e))%Z with (message_bytes (oldest ++ rest))
          by (cbn [app]; rewrite message_bytes_cons; lia).
        by rewrite IH2.
      * intros [|j] Hj; [rewrite drop_0; unfold fits; by rewrite E|]. apply IH3. lia.
      * intros H. simpl. f_equal. by apply IH4.
    + exists 0. split; [lia|]. split; [done|]. split; [lia|]. rewrite drop_0. unfold fits. by rewrite E.
Qed.

(** ** Deleting by id *)

Lemma bfilter_weaken {A} (p q : A -> bool) l :
  (forall x, x ∈ l -> q x = true -> p x = true) -> List.filter q (List.filter p l) = List.filter q l.
Proof.
  intros H. rewrite <- bfilter_andb. apply bfilter_ext. intros x Hx.
  destruct (q x) eqn:E; [by rewrite (H x)|by destruct (p x)].
Qed.

Lemma delete_prefix k l :
  StronglySorted event_lt l ->
  List.filter (fun e => negb (bool_decide (ev_ID e ∈ ev_ID <$> take k l))) l = drop k l.
Proof.
  intros H. set (f := fun e => _). transitivity (List.filter f (take k l ++ drop k l)); [by rewrite take_drop|].
  rewrite List.filter_app, bfilter_none, bfilter_all; [done|..].
  - intros e He. apply negb_true_iff, bool_decide_eq_false_2. intros (e' & E & He')%list_elem_of_fmap.
    rewrite <- (take_drop k l) in H. pose proof (StronglySorted_app_1_elem_of event_lt _ _ _ _ H He' He) as Hlt. unfold event_lt in Hlt. lia.
  - intros e He. apply negb_false_iff, bool_decide_eq_true_2, list_elem_of_fmap. by exists e.
Qed.

(** ** The loop *)

(** What the loop may do to the table: remove rows of the revision only. *)
Definition prunes (id : string) (number : Z) (events events' : list deploymentEventRecord) : Prop :=
  exists p, events' = List.filter p events /\ forall e, of_revision id number e = false -> p e = true.

Lemma prunes_refl id n l : prunes id n l l.
Proof. exists (fun _ => true). split; [|done]. symmetry. by apply bfilter_all. Qed.

Lemma prunes_trans id n l1 l2 l3 : prunes id n l1 l2 -> prunes id n l2 l3 -> prunes id n l1 l3.
Proof.
  intros (p & -> & Hp) (q & -> & Hq). exists (fun e => p e && q e). split; [by rewrite bfilter_andb|].
  intros e He. by rewrite Hp, Hq.
Qed.

Lemma evictLoop_spec fuel id n message events :
  StronglySorted event_lt events -> (message <= maxDeploymentEventBytes)%Z ->
  length (List.filter (of_revision id n) events) < fuel ->
  let t := List.filter (of_revision id n) events in
  exists events', evictLoop fuel id n message (Z.of_nat (length t)) (message_bytes t) events =
      Ok (events', Z.of_nat (length (retained message t)), message_bytes (retained message t)) /\
    List.filter (of_revision id n) events' = retained message t /\ prunes id n events events'.
Proof.
  revert events. induction fuel as [|fuel IH]; intros events Hs Hm Hf; [lia|]. cbv zeta.
  set (t := List.filter (of_revision id n) events) in *. cbn [evictLoop].
  destruct (over_budget _ _ message) eqn:Eo.
  2: { assert (E : retained message t = t). { unfold retained. unfold fits in *. by destruct t; rewrite Eo. }
       rewrite E. exists events. split; [done|]. split; [done|apply prunes_refl]. }
  assert (Ht : t <> []).
  { intros Hn. pose proof (fits_nil message Hm) as Hfit. rewrite Hn in Eo. unfold fits in Hfit. by rewrite Eo in Hfit. }
  fold t. destruct (take 100 t) as [|e0 oldest0] eqn:Et; [by destruct t|]. rewrite <- Et. clear e0 oldest0 Et.
  destruct (evict_spec message (take 100 t) (drop 100 t)) as (k & K1 & K2 & K3 & K4). rewrite take_drop in *.
  rewrite K2. rewrite take_take. replace (k `min` 100) with k by (rewrite length_take in K1; lia).
  set (events1 := List.filter _ events).
  assert (Ht1 : List.filter (of_revision id n) events1 = drop k t).
  { etransitivity; [|apply delete_prefix; unfold t; by apply StronglySorted_bfilter].
    unfold events1. generalize (ev_ID <$> take k t). intros ids. unfold t. rewrite <- !bfilter_andb.
    apply bfilter_ext. intros e _. by destruct (of_revision id n e), (bool_decide _). }
  assert (Hk : 0 < k).
  { destruct k; [|lia]. rewrite drop_0 in K4. unfold fits in K4. rewrite Eo in K4. specialize (K4 eq_refl).
    rewrite length_take in K4. destruct t; simpl in *; [done|lia]. }
  assert (Hp1 : prunes id n events events1).
  { eexists. split; [reflexivity|]. intros e He. cbv beta. by rewrite He. }
  rewrite <- Ht1. edestruct (IH events1) as (events' & H1 & H2 & H3); [by apply StronglySorted_bfilter|done| |].
  { rewrite Ht1, length_drop. assert (0 < length t) by (destruct t; [done|simpl; lia]). lia. }
  rewrite H1, Ht1, (retained_drop message k t) by done. exists events'. split; [done|].
  rewrite H2, Ht1, (retained_drop message k t) by done. split; [done|by eapply prunes_trans].
Qed.

Lemma prunes_elem id n l l' e : prunes id n l l' -> e ∈ l' -> e ∈ l.
Proof. intros (p & -> & _) He. by apply elem_of_bfilter in He as [He _]. Qed.

Lemma prunes_sorted id n l l' : prunes id n l l' -> StronglySorted event_lt l -> StronglySorted event_lt l'.
Proof. intros (p & -> & _). apply StronglySorted_bfilter. Qed.

Lemma of_revision_true id n e : of_revision id n e = true <-> (ev_DeploymentID e, ev_RevisionNumber e) = (id, n).
Proof.
  unfold of_revision. rewrite andb_true_iff, bool_decide_eq_true, Z.eqb_eq.
  split; [by intros [-> ->]|by intros [= -> ->]].
Qed.

Lemma prunes_other id n id' n' l l' :
  prunes id n l l' -> (id', n') <> (id, n) -> List.filter (of_revision id' n') l' = List.filter (of_revision id' n') l.
Proof.
  intros (p & -> & Hp) N. apply bfilter_weaken. intros e _ He. apply Hp.
  destruct (of_revision id n e) eqn:E; [|done]. apply of_revision_true in E, He. congruence.
Qed.

Lemma event_lt_snoc l e :
  StronglySorted event_lt l -> Forall (fun x => (ev_ID x < ev_ID e)%Z) l -> StronglySorted event_lt (l ++ [e]).
Proof.
  induction 1 as [|x l Hs IH Hall]; intros Hf; [by repeat constructor|].
  apply Forall_cons in Hf as [Hx Hf]. cbn [app]. constructor; [by apply IH|].
  apply Forall_app. split; [done|]. by apply Forall_cons.
Qed.

(** Room for the message is left under both bounds. *)
Lemma retained_room message l :
  (message <= maxDeploymentEventBytes)%Z ->
  (Z.of_nat (length (retained message l)) + 1 <= maxDeploymentEvents)%Z /\
  (message_bytes (retained message l) + message <= maxDeploymentEventBytes)%Z.
Proof.
  intros Hm. destruct (retained_spec message l Hm) as (k & _ & Hf & _).
  unfold fits, over_budget in Hf. bool_prop. lia.
Qed.
