(* ===== verification/DeployInvariant.v ===== *)
(** * The invariant of the deployment store

    Well-formed databases, their preservation by every write, the immutable history
    of revisions and the safety of retention. *)

From stdpp Require Import base gmap list strings sorting relations pretty.
From S2P Require Import Prelude GoStrings Query DeployModel DeployStore DeployLog.

(** ** Well-formed databases *)

(** The times a status promises. *)
Definition times_of (s : DeploymentStatus) (planning creating running stopping completed failed : option Time) : Prop :=
  match s with
  | DeploymentStatusPlanning => is_Some planning
  | DeploymentStatusCreating => is_Some planning /\ is_Some creating
  | DeploymentStatusRunning => is_Some planning /\ is_Some creating /\ is_Some running
  | DeploymentStatusStopping => is_Some stopping
  | DeploymentStatusCompleted | DeploymentStatusExpired => is_Some completed
  | DeploymentStatusFailed => is_Some failed
  | _ => True
  end.

Definition deployment_times (d : deploymentRecord) : Prop :=
  times_of (dr_Status d) (dr_PlanningAt d) (dr_CreatingAt d) (dr_RunningAt d) (dr_StoppingAt d) (dr_CompletedAt d)
    (dr_FailedAt d).

(** The plan of a deployment and of a revision: what was asked for. *)
Definition plan (d : deploymentRecord) :=
  (dr_ExecutionAccountID d, dr_Ref d, dr_CommitSHA d, dr_ConfigPath d, dr_SnapshotVersion d, dr_SpecHash d,
   dr_SpecJSONEncrypted d, (dr_SourceRepositoryID d, dr_SourceRepositoryFullName d, dr_SourceRef d)).
Definition revision_plan (r : deploymentRevisionRecord) :=
  (rv_ExecutionAccountID r, rv_Ref r, rv_CommitSHA r, rv_ConfigPath r, rv_SnapshotVersion r, rv_SpecHash r,
   rv_SpecJSONEncrypted r, (rv_SourceRepositoryID r, rv_SourceRepositoryFullName r, rv_SourceRef r)).

(** Their outcome: what came of it so far. *)
Definition outcome (d : deploymentRecord) :=
  (dr_Status d, dr_SandboxRegion d, (dr_DeploymentTemplateID d, dr_DeploymentTemplateName d, dr_DeploymentTemplateCPU d,
   dr_DeploymentTemplateMemoryMB d, dr_DeploymentTemplateDiskMB d), dr_Endpoint d, dr_FailureStage d, dr_FailureReason d,
   dr_ExpiresAt d, dr_RunningAt d, dr_UpdatedAt d).
Definition revision_outcome (r : deploymentRevisionRecord) :=
  (rv_Status r, rv_SandboxRegion r, (rv_TemplateID r, rv_TemplateName r, rv_TemplateCPU r, rv_TemplateMemoryMB r,
   rv_TemplateDiskMB r), rv_Endpoint r, rv_FailureStage r, rv_FailureReason r, rv_ExpiresAt r, rv_RunningAt r,
   rv_UpdatedAt r).

(** The key and the event budget of a revision. *)
Definition revision_key (r : deploymentRevisionRecord) := (rv_DeploymentID r, rv_Number r, rv_ID r).
Definition revision_budget (r : deploymentRevisionRecord) :=
  (rv_EventBudgetInitialized r, rv_EventCount r, rv_EventBytes r).

(** The current revision shows the deployment; it keeps the last sandbox of the deployment. *)
Record mirrors (d : deploymentRecord) (r : deploymentRevisionRecord) : Prop := {
  mir_plan : revision_plan r = plan d;
  mir_title : rv_PullRequestTitle r = dr_PullRequestTitle d;
  mir_outcome : revision_outcome r = outcome d;
  mir_sandbox : dr_SandboxID d <> "" -> rv_SandboxID r = dr_SandboxID d
}.

Record deployment_wf (revs : revisions) (id : string) (d : deploymentRecord) : Prop := {
  dwf_id : dr_ID d = id;
  dwf_trimmed : TrimSpace id = id;
  dwf_nonempty : id <> "";
  dwf_status : validDeploymentStatus (dr_Status d) = true;
  dwf_times : deployment_times d;
  dwf_number : (1 <= dr_RevisionNumber d)%Z;
  dwf_history : forall n, is_Some (revs !! (id, n)) <-> (1 <= n <= dr_RevisionNumber d)%Z;
  dwf_current : exists r, revs !! (id, dr_RevisionNumber d) = Some r /\ mirrors d r
}.

(** A revision row, and its event counters where they are in use. *)
Record revision_wf (db : deploymentDB) (key : string * Z) (r : deploymentRevisionRecord) : Prop := {
  rwf_deployment : rv_DeploymentID r = key.1;
  rwf_number : rv_Number r = key.2;
  rwf_id : rv_ID r = key.1 +:+ "-r" +:+ FormatInt key.2;
  rwf_owner : is_Some (db_deployments db !! key.1);
  rwf_count : rv_EventBudgetInitialized r = true ->
    rv_EventCount r = Z.of_nat (length (timeline key.1 key.2 db)) /\
    rv_EventBytes r = message_bytes (timeline key.1 key.2 db);
  rwf_bound : (Z.of_nat (length (timeline key.1 key.2 db)) <= maxDeploymentEvents)%Z /\
    (message_bytes (timeline key.1 key.2 db) <= maxDeploymentEventBytes)%Z
}.

Record db_wf (db : deploymentDB) : Prop := {
  wf_deployments : forall id d, db_deployments db !! id = Some d -> deployment_wf (db_revisions db) id d;
  wf_revisions : forall key r, db_revisions db !! key = Some r -> revision_wf db key r;
  wf_order : StronglySorted event_lt (db_events db);
  wf_next : Forall (fun e => (ev_ID e < db_nextEvent db)%Z) (db_events db);
  wf_owned : Forall (fun e => is_Some (db_revisions db !! (ev_DeploymentID e, ev_RevisionNumber e))) (db_events db)
}.

(** One write of the store; the candidates of a prune may be stale. *)
Inductive db_step : deploymentDB -> deploymentDB -> Prop :=
| step_create d now db db' x : createDeployment d now db = Ok (db', x) -> db_step db db'
| step_update d now db db' : UpdateDeployment d now db = Ok db' -> db_step db db'
| step_fill id ref title db db' : FillDeploymentPullRequestTitle id ref title db = Ok db' -> db_step db db'
| step_retry d expiresAt now db db' : retryDeployment d expiresAt now db = Ok db' -> db_step db db'
| step_prune before candidates db : db_step db (pruneRecords before candidates db).1
| step_append e now db db' : AppendDeploymentEvent e now db = Ok db' -> db_step db db'
| step_startup now db : db_step db (initializeStateBackfills now db).

Definition empty_db (accounts installations : gset Z) : deploymentDB := MkDB ∅ ∅ [] 1 accounts installations.

Definition db_reachable (accounts installations : gset Z) : deploymentDB -> Prop :=
  rtc db_step (empty_db accounts installations).

(** ** Validation *)

(** What validation changes: surrounding white space, and the spelling of the path. *)
Lemma normalizeDeployment_Ok d d' :
  normalizeDeployment d = Ok d' ->
  d_ID d' = TrimSpace (d_ID d) /\ d_ID d' <> "" /\ d_ScopeType d' = TrimSpace (d_ScopeType d) /\
  (validDeploymentStatus (d_Status d) = true \/ d_Status d = no_status) /\
  d' = d <| d_ID := d_ID d' |> <| d_ScopeType := d_ScopeType d' |> <| d_RepositoryFullName := d_RepositoryFullName d' |>
         <| d_Ref := d_Ref d' |> <| d_CommitSHA := d_CommitSHA d' |> <| d_ConfigPath := d_ConfigPath d' |>
         <| d_DeploymentTemplateName := d_DeploymentTemplateName d' |>.
Proof.
  unfold normalizeDeployment. cbv zeta. intros H. inv_ok H. injection H as <-. bool_prop.
  split; [done|]. split; [done|]. split; [done|]. split; [|done].
  match goal with H : _ \/ _ |- _ => destruct H as [H|H] end; [left|right]; bool_prop; done.
Qed.

(** ** Rows *)

Lemma applyDeploymentTimestamps_field {A} (f : deploymentRecord -> A) r now :
  (forall s v, f (s <| dr_PlanningAt := v |>) = f s) -> (forall s v, f (s <| dr_CreatingAt := v |>) = f s) ->
  (forall s v, f (s <| dr_RunningAt := v |>) = f s) -> (forall s v, f (s <| dr_StoppingAt := v |>) = f s) ->
  (forall s v, f (s <| dr_CompletedAt := v |>) = f s) -> (forall s v, f (s <| dr_FailedAt := v |>) = f s) ->
  f (applyDeploymentTimestamps r now) = f r.
Proof.
  intros H1 H2 H3 H4 H5 H6. unfold applyDeploymentTimestamps.
  destruct (dr_Status r); rewrite ?H6, ?H5, ?H4, ?H3, ?H2, ?H1; done.
Qed.

Lemma applyDeploymentTimestamps_times r now : deployment_times (applyDeploymentTimestamps r now).
Proof.
  assert (Hs : dr_Status (applyDeploymentTimestamps r now) = dr_Status r)
    by (by apply (applyDeploymentTimestamps_field dr_Status)).
  unfold deployment_times. rewrite Hs. unfold applyDeploymentTimestamps.
  destruct (dr_Status r); repeat split; by eexists.
Qed.

(** The row of a created deployment. *)
Lemma createdRecord_fields d now :
  let r := createdRecord d now in
  dr_ID r = d_ID d /\ dr_RevisionNumber r = d_RevisionNumber d /\ dr_ScopeType r = d_ScopeType d /\
  dr_ScopeID r = d_ScopeID d /\ dr_SandboxID r = d_SandboxID d /\ dr_Version r = d_Version d /\
  dr_Status r = (if bool_decide (d_Status d = no_status) then DeploymentStatusQueued else d_Status d) /\
  deployment_times r.
Proof.
  unfold createdRecord. cbv zeta.
  set (d1 := if IsZero (d_CreatedAt d) then _ else _).
  set (d2 := if IsZero (d_UpdatedAt d1) then _ else _).
  assert (E : forall {A} (f : Deployment -> A), (forall s v, f (s <| d_CreatedAt := v |>) = f s) ->
    (forall s v, f (s <| d_UpdatedAt := v |>) = f s) -> f d2 = f d).
  { intros A f Hc Hu. unfold d2, d1. destruct (IsZero (d_CreatedAt d)), (IsZero (d_UpdatedAt _)); by rewrite ?Hu, ?Hc. }
  assert (Es := E _ d_Status ltac:(done) ltac:(done)). rewrite <- Es.
  set (d3 := if bool_decide (d_Status d2 = no_status) then _ else _).
  assert (E3 : forall {A} (f : Deployment -> A), (forall s v, f (s <| d_CreatedAt := v |>) = f s) ->
    (forall s v, f (s <| d_UpdatedAt := v |>) = f s) -> (forall s v, f (s <| d_Status := v |>) = f s) -> f d3 = f d).
  { intros A f Hc Hu Hst. rewrite <- (E _ f Hc Hu). unfold d3. destruct (bool_decide _); by rewrite ?Hst. }
  assert (Est : d_Status d3 = if bool_decide (d_Status d2 = no_status) then DeploymentStatusQueued else d_Status d2).
  { unfold d3. by destruct (bool_decide _). }
  rewrite <- (E3 _ d_ID), <- (E3 _ d_RevisionNumber), <- (E3 _ d_ScopeType), <- (E3 _ d_ScopeID), <- (E3 _ d_SandboxID),
    <- (E3 _ d_Version), <- Est by done.
  clearbody d3. clear.
  split; [by apply (applyDeploymentTimestamps_field dr_ID)|].
  split; [by apply (applyDeploymentTimestamps_field dr_RevisionNumber)|].
  split; [by apply (applyDeploymentTimestamps_field dr_ScopeType)|].
  split; [by apply (applyDeploymentTimestamps_field dr_ScopeID)|].
  split; [by apply (applyDeploymentTimestamps_field dr_SandboxID)|].
  split; [by apply (applyDeploymentTimestamps_field dr_Version)|].
  split; [by apply (applyDeploymentTimestamps_field dr_Status)|].
  apply applyDeploymentTimestamps_times.
Qed.

Lemma createdRecord_attempt d now : dr_Attempt (createdRecord d now) = d_Attempt d.
Proof.
  unfold createdRecord. cbv zeta. rewrite (applyDeploymentTimestamps_field dr_Attempt) by done.
  destruct (IsZero (d_CreatedAt d)); destruct (IsZero (d_UpdatedAt _)); by destruct (bool_decide _).
Qed.

Lemma currentNumber_pos d : (1 <= dr_RevisionNumber d)%Z -> currentNumber d = dr_RevisionNumber d.
Proof. unfold currentNumber. intros H. destruct (dr_RevisionNumber d <? 1)%Z eqn:E; [lia|done]. Qed.

(** A fresh revision shows its deployment. *)
Lemma new_revision_mirrors d created : mirrors d (revisionRecordFromDeployment d created).
Proof. by split. Qed.

(** Times of an updated row. *)
Lemma timestampRecord_times d now : deployment_times (timestampRecord d now).
Proof. unfold timestampRecord. apply applyDeploymentTimestamps_times. Qed.

Lemma timestampRecord_status d now : dr_Status (timestampRecord d now) = d_Status d.
Proof. unfold timestampRecord. by rewrite (applyDeploymentTimestamps_field dr_Status). Qed.

(** The columns an update writes, and those it leaves. *)
Lemma updatedRecord_lifecycle d now r :
  let ts := timestampRecord d now in
  let r' := updatedRecord d now r in
  dr_Status r' = d_Status d /\ dr_PlanningAt r' = dr_PlanningAt ts /\ dr_CreatingAt r' = dr_CreatingAt ts /\
  dr_RunningAt r' = dr_RunningAt ts /\ dr_StoppingAt r' = dr_StoppingAt ts /\ dr_CompletedAt r' = dr_CompletedAt ts /\
  dr_FailedAt r' = dr_FailedAt ts.
Proof.
  cbv zeta. unfold updatedRecord. set (ts := timestampRecord d now). clearbody ts. cbv zeta.
  repeat (split; [reflexivity|]). reflexivity.
Qed.

Lemma updatedRecord_fields d now r :
  let r' := updatedRecord d now r in
  dr_ID r' = dr_ID r /\ dr_RevisionNumber r' = dr_RevisionNumber r /\ dr_ScopeType r' = dr_ScopeType r /\
  dr_ScopeID r' = dr_ScopeID r /\ dr_SandboxID r' = TrimSpace (d_SandboxID d) /\ dr_Version r' = (d_Version d + 1)%Z /\
  dr_Attempt r' = d_Attempt d.
Proof. repeat (split; [reflexivity|]). reflexivity. Qed.

Lemma plan_ext d d' :
  dr_ExecutionAccountID d = dr_ExecutionAccountID d' -> dr_Ref d = dr_Ref d' -> dr_CommitSHA d = dr_CommitSHA d' ->
  dr_ConfigPath d = dr_ConfigPath d' -> dr_SnapshotVersion d = dr_SnapshotVersion d' -> dr_SpecHash d = dr_SpecHash d' ->
  dr_SpecJSONEncrypted d = dr_SpecJSONEncrypted d' -> dr_SourceRepositoryID d = dr_SourceRepositoryID d' ->
  dr_SourceRepositoryFullName d = dr_SourceRepositoryFullName d' -> dr_SourceRef d = dr_SourceRef d' ->
  plan d = plan d'.
Proof. unfold plan. congruence. Qed.

Lemma updatedRecord_plan d now r :
  plan (updatedRecord d now r) = plan r /\ dr_PullRequestTitle (updatedRecord d now r) = dr_PullRequestTitle r.
Proof. split; [apply plan_ext|]; reflexivity. Qed.

Lemma deployment_times_ext d d' :
  dr_Status d' = dr_Status d -> dr_PlanningAt d' = dr_PlanningAt d -> dr_CreatingAt d' = dr_CreatingAt d ->
  dr_RunningAt d' = dr_RunningAt d -> dr_StoppingAt d' = dr_StoppingAt d -> dr_CompletedAt d' = dr_CompletedAt d ->
  dr_FailedAt d' = dr_FailedAt d -> deployment_times d -> deployment_times d'.
Proof. unfold deployment_times. by intros -> -> -> -> -> -> ->. Qed.

Lemma updatedRecord_times d now r : deployment_times (updatedRecord d now r).
Proof.
  destruct (updatedRecord_lifecycle d now r) as (E0 & E1 & E2 & E3 & E4 & E5 & E6).
  apply (deployment_times_ext (timestampRecord d now)); [|done..|apply timestampRecord_times].
  by rewrite timestampRecord_status.
Qed.

(** The revision row an update of the deployment writes. *)
Lemma updateCurrentDeploymentRevision_Ok d db db' :
  updateCurrentDeploymentRevision d db = Ok db' ->
  exists r r', db_revisions db !! (dr_ID d, currentNumber d) = Some r /\
    db' = db <| db_revisions := <[(dr_ID d, currentNumber d) := r']> (db_revisions db) |> /\
    revision_key r' = revision_key r /\ revision_budget r' = revision_budget r /\
    revision_plan r' = revision_plan r /\ rv_PullRequestTitle r' = rv_PullRequestTitle r /\
    rv_CreatedAt r' = rv_CreatedAt r /\
    revision_outcome r' = outcome d /\ (dr_SandboxID d <> "" -> rv_SandboxID r' = dr_SandboxID d).
Proof.
  unfold updateCurrentDeploymentRevision. destruct (db_revisions db !! _) as [r|]; [|done].
  intros H. injection H as <-. exists r. eexists. split; [done|]. split; [reflexivity|].
  destruct (bool_decide (dr_SandboxID d = "")) eqn:E; bool_prop;
    (split; [reflexivity|]); (split; [reflexivity|]); (split; [reflexivity|]); (split; [reflexivity|]);
    (split; [reflexivity|]); (split; [reflexivity|]); done.
Qed.

(** ** Writing a deployment with one of its revisions *)

Lemma timeline_bounded db id n :
  db_wf db ->
  (Z.of_nat (length (timeline id n db)) <= maxDeploymentEvents)%Z /\
  (message_bytes (timeline id n db) <= maxDeploymentEventBytes)%Z.
Proof.
  intros W. destruct (db_revisions db !! (id, n)) as [r|] eqn:E; [exact (rwf_bound _ _ _ (wf_revisions _ W _ _ E))|].
  replace (timeline id n db) with (@nil deploymentEventRecord); [by vm_compute|].
  symmetry. apply bfilter_none. intros e He. apply not_true_iff_false. intros Hr.
  unfold of_revision in Hr. bool_prop.
  pose proof (proj1 (Forall_forall _ _) (wf_owned _ W) e He) as Ho. simpl in Ho.
  replace (ev_RevisionNumber e) with n in Ho by lia. subst id. rewrite E in Ho. by destruct Ho.
Qed.

Lemma put_wf db id d num r :
  db_wf db ->
  deployment_wf (<[(id, num) := r]> (db_revisions db)) id d ->
  revision_key r = (id, num, id +:+ "-r" +:+ FormatInt num) ->
  (rv_EventBudgetInitialized r = true ->
   exists r0, db_revisions db !! (id, num) = Some r0 /\ revision_budget r = revision_budget r0) ->
  db_wf (db <| db_deployments := <[id := d]> (db_deployments db) |>
            <| db_revisions := <[(id, num) := r]> (db_revisions db) |>).
Proof.
  intros W Hd Hk Hb. injection Hk as Hk1 Hk2 Hk3.
  split; cbn [db_deployments db_revisions db_events db_nextEvent field_update].
  - intros id' d' H. destruct (decide (id' = id)) as [->|N].
    { rewrite lookup_insert_eq in H. by injection H as <-. }
    rewrite lookup_insert_ne in H by done. destruct (wf_deployments _ W _ _ H) as [? ? ? ? ? ? Hh Hc].
    split; try done.
    + intros n. rewrite lookup_insert_ne by (by intros [= -> _]). apply Hh.
    + rewrite lookup_insert_ne by (by intros [= -> _]). exact Hc.
  - intros key r' H. destruct (decide (key = (id, num))) as [->|N].
    + rewrite lookup_insert_eq in H. injection H as <-. split; try done.
      * cbn [db_deployments field_update fst]. by rewrite lookup_insert_eq.
      * intros Hi. destruct (Hb Hi) as (r0 & H0 & [= B1 B2 B3]). rewrite B2, B3.
        rewrite Hi in B1. exact (rwf_count _ _ _ (wf_revisions _ W _ _ H0) (eq_sym B1)).
      * exact (timeline_bounded db id num W).
    + rewrite lookup_insert_ne in H by done. destruct (wf_revisions _ W _ _ H) as [? ? ? Ho ? ?]. split; try done.
      cbn [db_deployments field_update]. destruct (decide (key.1 = id)) as [->|N1];
        [by rewrite lookup_insert_eq|by rewrite lookup_insert_ne].
  - exact (wf_order _ W).
  - exact (wf_next _ W).
  - eapply Forall_impl; [exact (wf_owned _ W)|]. intros e He. simpl in He |- *.
    destruct (decide ((ev_DeploymentID e, ev_RevisionNumber e) = (id, num))) as [->|N];
      [by rewrite lookup_insert_eq|by rewrite lookup_insert_ne].
Qed.

(** ** Every write keeps the database well-formed *)

(** Conversion unfolds validation last. *)
#[local] Strategy 1000 [normalizeDeployment].

Lemma insertRevision_Ok rv db db' :
  insertRevision rv db = Ok db' ->
  db_revisions db !! (rv_DeploymentID rv, rv_Number rv) = None /\
  db' = db <| db_revisions := <[(rv_DeploymentID rv, rv_Number rv) := rv]> (db_revisions db) |>.
Proof. unfold insertRevision. cbv zeta. destruct (db_revisions db !! _); [done|]. by intros [= <-]. Qed.

Lemma insertDeployment_Ok record db db' :
  insertDeployment record db = Ok db' ->
  db_deployments db !! dr_ID record = None /\
  db' = db <| db_deployments := <[dr_ID record := record]> (db_deployments db) |>.
Proof. unfold insertDeployment. destruct (db_deployments db !! _); [done|]. by intros [= <-]. Qed.

Lemma createDeployment_Ok d now db db' x :
  createDeployment d now db = Ok (db', x) ->
  exists d1 record revision,
    normalizeDeployment (d <| d_RevisionNumber := 1%Z |>) = Ok d1 /\ record = createdRecord d1 now /\
    revision = revisionRecordFromDeployment record (dr_CreatedAt record) /\
    db_deployments db !! dr_ID record = None /\ db_revisions db !! (dr_ID record, currentNumber record) = None /\
    x = deploymentFromRecord record /\
    db' = db <| db_deployments := <[dr_ID record := record]> (db_deployments db) |>
             <| db_revisions := <[(dr_ID record, currentNumber record) := revision]> (db_revisions db) |>.
Proof.
  unfold createDeployment. intros H. apply result_bind_Ok in H as (d1 & H1 & H).
  apply result_bind_Ok in H as (db1 & H2 & H). apply result_bind_Ok in H as (db2 & H3 & H). injection H as <- <-.
  remember (createdRecord d1 now) as record eqn:Er. exists d1, record. eexists.
  split; [done|]. split; [done|]. split; [reflexivity|]. clear Er.
  apply insertDeployment_Ok in H2 as [E1 ->]. apply insertRevision_Ok in H3 as [E2 ->].
  by split_and!.
Qed.

Lemma no_revision_yet db id n : db_wf db -> db_deployments db !! id = None -> db_revisions db !! (id, n) = None.
Proof.
  intros W H. destruct (db_revisions db !! (id, n)) as [r|] eqn:E; [|done].
  destruct (rwf_owner _ _ _ (wf_revisions _ W _ _ E)) as [d Hd]. simpl in Hd. congruence.
Qed.

Lemma create_wf d now db db' x : createDeployment d now db = Ok (db', x) -> db_wf db -> db_wf db'.
Proof.
  intros H W. apply createDeployment_Ok in H as (d1 & rec & rv & H1 & Hrec & -> & H2 & _ & _ & ->).
  apply normalizeDeployment_Ok in H1 as (N1 & N2 & _ & N4 & N5).
  destruct (createdRecord_fields d1 now) as (F1 & F2 & _ & _ & _ & _ & F7 & F8). rewrite <- Hrec in *.
  assert (En : dr_RevisionNumber rec = 1%Z) by (rewrite F2, N5; reflexivity).
  assert (Ec : currentNumber rec = 1%Z) by (by rewrite currentNumber_pos; lia).
  assert (Es : d_Status d1 = d_Status d) by (rewrite N5; reflexivity).
  clear N5 Hrec. apply put_wf; [done| |reflexivity|intros [=]].
  split; try done.
  - rewrite F1, N1. apply TrimSpace_idem.
  - by rewrite F1.
  - rewrite F7, Es. destruct (bool_decide (d_Status d = no_status)) eqn:Hs; [done|]. bool_prop. destruct N4 as [N4|N4]; [exact N4|by destruct (Hs N4)].
  - by rewrite En.
  - intros n. rewrite Ec, En. destruct (decide (n = 1%Z)) as [->|Hn].
    + rewrite lookup_insert_eq. split; [lia|by eexists].
    + rewrite lookup_insert_ne by congruence. rewrite (no_revision_yet db) by done.
      split; [by intros [? ?]|lia].
  - rewrite Ec, En, lookup_insert_eq. eexists. split; [done|]. apply new_revision_mirrors.
Qed.

Lemma UpdateDeployment_Ok d now db db' :
  UpdateDeployment d now db = Ok db' ->
  exists d1 r, normalizeDeployment d = Ok d1 /\ d_Status d1 <> no_status /\
    db_deployments db !! d_ID d1 = Some r /\ dr_Version r = d_Version d1 /\
    updateCurrentDeploymentRevision (updatedRecord d1 now r)
      (db <| db_deployments := <[d_ID d1 := updatedRecord d1 now r]> (db_deployments db) |>) = Ok db'.
Proof.
  unfold UpdateDeployment. intros H. apply result_bind_Ok in H as (d1 & H1 & H). exists d1. inv_ok H.
  destruct (db_deployments db !! _) as [r|] eqn:E1; [|done]. exists r. inv_ok H. bool_prop.
  split; [done|]. split; [done|]. split; [done|]. split; [lia|exact H].
Qed.

(** A row whose plan, number and validity are those of the row it replaces. *)
Lemma rewrite_current_wf db db' id r saved :
  db_wf db -> db_deployments db !! id = Some r ->
  dr_ID saved = dr_ID r -> dr_RevisionNumber saved = dr_RevisionNumber r ->
  plan saved = plan r -> dr_PullRequestTitle saved = dr_PullRequestTitle r ->
  validDeploymentStatus (dr_Status saved) = true -> deployment_times saved ->
  updateCurrentDeploymentRevision saved (db <| db_deployments := <[id := saved]> (db_deployments db) |>) = Ok db' ->
  db_wf db'.
Proof.
  intros W Hr Ei En Ep Et Hs Ht H. destruct (wf_deployments _ W _ _ Hr) as [F1 F2 F3 F4 F5 F6 F7 (c & F8 & M)].
  assert (Ec : currentNumber saved = dr_RevisionNumber r) by (rewrite currentNumber_pos; lia).
  apply updateCurrentDeploymentRevision_Ok in H as (r0 & r1 & G1 & -> & G2 & G3 & G4 & G5 & _ & G6 & G7).
  rewrite Ec, Ei, F1 in *. cbn [db_revisions field_update] in G1.
  assert (r0 = c) as -> by congruence.
  destruct (wf_revisions _ W _ _ F8) as [K1 K2 K3 _ _ _]. simpl in K1, K2, K3.
  refine (put_wf db id saved (dr_RevisionNumber r) r1 W _ _ _).
  - split; try congruence.
    + intros n. rewrite En, <- F7. destruct (decide (n = dr_RevisionNumber r)) as [->|N].
      * rewrite lookup_insert_eq, F8. split; by eexists.
      * by rewrite lookup_insert_ne by congruence.
    + rewrite En, lookup_insert_eq. exists r1. split; [done|]. destruct M as [M1 M2 _ _].
      split; [congruence..|exact G7].
  - rewrite G2. unfold revision_key. by rewrite K1, K2, K3.
  - intros _. by exists c.
Qed.

Lemma update_wf d now db db' : UpdateDeployment d now db = Ok db' -> db_wf db -> db_wf db'.
Proof.
  intros H W. apply UpdateDeployment_Ok in H as (d1 & r & N & Hs & Hr & _ & H).
  destruct (updatedRecord_fields d1 now r) as (U1 & U2 & _).
  destruct (updatedRecord_lifecycle d1 now r) as (U3 & _). destruct (updatedRecord_plan d1 now r) as [U4 U5].
  pose proof (updatedRecord_times d1 now r) as U6.
  eapply rewrite_current_wf; [exact W|exact Hr|exact U1|exact U2|exact U4|exact U5| |exact U6|exact H].
  rewrite U3. apply normalizeDeployment_Ok in N as (_ & _ & _ & N4 & N5).
  assert (Es : d_Status d1 = d_Status d) by (rewrite N5; reflexivity). rewrite Es in *. by destruct N4.
Qed.

Lemma retryDeployment_Ok d expiresAt now db db' :
  retryDeployment d expiresAt now db = Ok db' ->
  exists r expiresAt1, db_deployments db !! d_ID d = Some r /\ dr_Version r = d_Version d /\
    dstatus_in terminalDeploymentStatuses (dr_Status r) = true /\ TrimSpace (d_SandboxID d) = "" /\
    insertRevision ((revisionRecordFromDeployment (retriedRecord d expiresAt1 now r) now)
                      <| rv_SandboxID := "" |> <| rv_Endpoint := "" |>)
      (db <| db_deployments := <[d_ID d := retriedRecord d expiresAt1 now r]> (db_deployments db) |>) = Ok db'.
Proof.
  unfold retryDeployment. intros H. inv_ok H. cbv zeta in H.
  destruct (db_deployments db !! _) as [r|] eqn:E2; [|done]. inv_ok H. bool_prop.
  exists r, (if IsZero expiresAt then (now + Hour)%Z else expiresAt).
  split; [done|]. split; [lia|]. split; [done|]. split; [done|exact H].
Qed.

Lemma retriedRecord_fields d expiresAt now r :
  let r' := retriedRecord d expiresAt now r in
  dr_ID r' = dr_ID r /\ dr_RevisionNumber r' = (dr_RevisionNumber r + 1)%Z /\ dr_Status r' = DeploymentStatusQueued /\
  dr_ScopeType r' = dr_ScopeType r /\ dr_ScopeID r' = dr_ScopeID r /\ dr_SandboxID r' = "" /\ dr_Endpoint r' = "" /\
  dr_Version r' = (d_Version d + 1)%Z.
Proof. repeat (split; [reflexivity|]). reflexivity. Qed.

Lemma retry_wf d expiresAt now db db' : retryDeployment d expiresAt now db = Ok db' -> db_wf db -> db_wf db'.
Proof.
  intros H W. apply retryDeployment_Ok in H as (r & ex & Hr & _ & _ & _ & H).
  destruct (retriedRecord_fields d ex now r) as (U1 & U2 & U3 & _ & _ & U6 & U7 & _).
  set (saved := retriedRecord d ex now r) in *. clearbody saved.
  destruct (wf_deployments _ W _ _ Hr) as [F1 F2 F3 F4 F5 F6 F7 (c & F8 & M)].
  assert (Ec : currentNumber saved = (dr_RevisionNumber r + 1)%Z) by (rewrite currentNumber_pos; lia).
  set (rv := _ <| rv_Endpoint := "" |>) in H.
  assert (Hk : revision_key rv = (d_ID d, (dr_RevisionNumber r + 1)%Z, d_ID d +:+ "-r" +:+ FormatInt (dr_RevisionNumber r + 1))).
  { rewrite <- Ec, <- F1, <- U1. reflexivity. }
  assert (Hb : rv_EventBudgetInitialized rv = false) by reflexivity.
  assert (Hm : mirrors saved rv).
  { split; [reflexivity|reflexivity| |intros Hn; by destruct Hn].
    unfold revision_outcome, outcome. rewrite U7. reflexivity. }
  clearbody rv. apply insertRevision_Ok in H as [_ ->]. injection Hk as Hk1 Hk2 Hk3. rewrite Hk1, Hk2.
  refine (put_wf db (d_ID d) saved (dr_RevisionNumber r + 1) rv W _ _ _).
  - split; try congruence.
    + by rewrite U3.
    + unfold deployment_times. by rewrite U3.
    + lia.
    + intros n. rewrite U2. destruct (decide (n = (dr_RevisionNumber r + 1)%Z)) as [->|N].
      * rewrite lookup_insert_eq. split; [lia|by eexists].
      * rewrite lookup_insert_ne by congruence. rewrite F7. lia.
    + rewrite U2, lookup_insert_eq. by exists rv.
  - unfold revision_key. by rewrite Hk1, Hk2, Hk3.
  - congruence.
Qed.

(** A write that changes rows in place, without their keys. *)
Lemma in_place_wf db deps revs (f : string -> deploymentRecord -> deploymentRecord)
    (g : string * Z -> deploymentRevisionRecord -> deploymentRevisionRecord) :
  db_wf db ->
  (forall id, deps !! id = f id <$> db_deployments db !! id) ->
  (forall key, revs !! key = g key <$> db_revisions db !! key) ->
  (forall id d, dr_ID (f id d) = dr_ID d /\ dr_RevisionNumber (f id d) = dr_RevisionNumber d /\
                dr_Status (f id d) = dr_Status d /\ (deployment_times d -> deployment_times (f id d))) ->
  (forall key r, revision_key (g key r) = revision_key r /\
                 (rv_EventBudgetInitialized (g key r) = true -> revision_budget (g key r) = revision_budget r)) ->
  (forall id d r, dr_ID d = id -> mirrors d r -> mirrors (f id d) (g (id, dr_RevisionNumber d) r)) ->
  db_wf (db <| db_deployments := deps |> <| db_revisions := revs |>).
Proof.
  intros W Hd Hr Hf Hg Hm. split; cbn [db_deployments db_revisions db_events db_nextEvent field_update].
  - intros id d'. rewrite Hd. destruct (db_deployments db !! id) as [d|] eqn:E; [|done]. intros [= <-].
    destruct (wf_deployments _ W _ _ E) as [F1 F2 F3 F4 F5 F6 F7 (c & F8 & M)].
    destruct (Hf id d) as (G1 & G2 & G3 & G4). split; try done.
    + congruence.
    + by rewrite G3.
    + by apply G4.
    + by rewrite G2.
    + intros n. rewrite Hr, fmap_is_Some, G2. apply F7.
    + rewrite G2, Hr, F8. eexists. split; [reflexivity|]. by apply Hm.
  - intros key r'. rewrite Hr. destruct (db_revisions db !! key) as [r|] eqn:E; [|done]. intros [= <-].
    destruct (wf_revisions _ W _ _ E) as [F1 F2 F3 F4 F5 F6]. destruct (Hg key r) as [[= G1 G2 G3] G4].
    split; try congruence.
    + cbn [db_deployments field_update]. by rewrite Hd, fmap_is_Some.
    + intros Hi. specialize (G4 Hi). injection G4 as B1 B2 B3. rewrite B2, B3. apply F5. congruence.
    + exact F6.
  - exact (wf_order _ W).
  - exact (wf_next _ W).
  - eapply Forall_impl; [exact (wf_owned _ W)|]. intros e He. simpl in He |- *. by rewrite Hr, fmap_is_Some.
Qed.

Lemma fill_wf id ref title db db' : FillDeploymentPullRequestTitle id ref title db = Ok db' -> db_wf db -> db_wf db'.
Proof.
  unfold FillDeploymentPullRequestTitle. cbv zeta. intros H W. inv_ok H. injection H as <-.
  set (t := TrimSpace id). set (rf := TrimSpace ref). set (ti := TrimSpace title).
  set (f := fun d => if _ && _ then d <| dr_PullRequestTitle := ti |> else d).
  apply (in_place_wf db _ _ (fun i d => if decide (i = t) then f d else d)
    (fun key r => if bool_decide (key.1 = t) && bool_decide (rv_Ref r = rf) && bool_decide (rv_PullRequestTitle r = "")
                  then r <| rv_PullRequestTitle := ti |> else r)); [done|..].
  - intros i. destruct (decide (i = t)) as [->|N]; [by rewrite lookup_alter_eq|].
    rewrite lookup_alter_ne by done. by destruct (db_deployments db !! i).
  - intros key. rewrite map_lookup_imap. by destruct (db_revisions db !! key).
  - intros i d. destruct (decide (i = t)); [|done]. unfold f. by destruct (_ && _).
  - intros key r. by destruct (_ && _).
  - intros i d r Hi [M1 M2 M3 M4]. cbn [fst]. unfold f.
    assert (Er : rv_Ref r = dr_Ref d) by (unfold revision_plan, plan in M1; congruence).
    destruct (decide (i = t)) as [->|N].
    + rewrite (bool_decide_eq_true_2 (t = t)), Er, M2 by done. simpl.
      by destruct (_ && _); split.
    + rewrite (bool_decide_eq_false_2 (i = t)) by done. by split.
Qed.

Lemma backfill_id now db : db_wf db -> backfillDeploymentRevisions now db = db.
Proof.
  intros W. unfold backfillDeploymentRevisions.
  assert (Hl : forall l, (forall kd, kd ∈ l -> db_deployments db !! kd.1 = Some kd.2) ->
    foldl (fun acc kd => backfillRevision now kd.1 kd.2 acc) db l = db).
  { induction l as [|[k d] l IH]; intros Hl; [done|]. cbn [foldl fst snd].
    assert (Hb : backfillRevision now k d db = db).
    { unfold backfillRevision. rewrite bool_decide_eq_false_2; [done|]. intros He.
      assert (Hk : db_deployments db !! k = Some d) by (apply (Hl (k, d)); left).
      destruct (dwf_current _ _ _ (wf_deployments _ W _ _ Hk)) as (r & Hr & _).
      apply (f_equal (lookup (k, dr_RevisionNumber d))) in He. rewrite lookup_empty in He.
      by rewrite (map_lookup_filter_Some_2 _ _ _ r) in He. }
    rewrite Hb. apply IH. intros kd Hkd. apply Hl. by right. }
  apply Hl. intros [k d] Hk. by apply elem_of_map_to_list in Hk.
Qed.

Lemma startup_wf now db : db_wf db -> db_wf (initializeStateBackfills now db).
Proof.
  intros W. unfold initializeStateBackfills. rewrite backfill_id by done.
  refine (in_place_wf db (db_deployments db) _ (fun _ d => d)
    (fun _ r => r <| rv_EventBudgetInitialized := false |>) W _ _ _ _ _).
  - intros id. by destruct (db_deployments db !! id).
  - intros key. by rewrite lookup_fmap.
  - done.
  - done.
  - intros id d r _ [M1 M2 M3 M4]. by split.
Qed.

(** ** Retention *)

Lemma pruneRecord_wf before record db : db_wf db -> db_wf (pruneRecord before record db).1.
Proof.
  intros W. unfold pruneRecord. destruct (db_deployments db !! dr_ID record) as [r|]; [|done].
  destruct (_ && _); [|done]. cbn [fst]. set (id := dr_ID record). clearbody id. clear r record.
  assert (Hrev : forall key r, filter (fun kr : string * Z * deploymentRevisionRecord => kr.1.1 <> id) (db_revisions db) !! key = Some r
                               <-> db_revisions db !! key = Some r /\ key.1 <> id).
  { intros key r. by rewrite map_lookup_filter_Some. }
  assert (Htl : forall i n, i <> id ->
    List.filter (of_revision i n) (List.filter (fun e => negb (bool_decide (ev_DeploymentID e = id))) (db_events db)) =
    timeline i n db).
  { intros i n N. apply bfilter_weaken. intros e _ He. unfold of_revision in He. bool_prop.
    by rewrite bool_decide_eq_false_2 by congruence. }
  split; cbn [db_deployments db_revisions db_events db_nextEvent field_update].
  - intros i d H. apply lookup_delete_Some in H as [N H].
    destruct (wf_deployments _ W _ _ H) as [F1 F2 F3 F4 F5 F6 F7 (c & F8 & M)]. split; try done.
    + intros n. rewrite <- F7. split; intros [r Hr]; exists r; [by apply Hrev in Hr as [? _]|by apply Hrev].
    + exists c. split; [by apply Hrev|done].
  - intros key r H. apply Hrev in H as [H N]. destruct (wf_revisions _ W _ _ H) as [F1 F2 F3 F4 F5 F6].
    split; unfold timeline; cbn [db_deployments db_events field_update]; rewrite ?Htl by done; try done.
    by rewrite lookup_delete_ne.
  - apply StronglySorted_bfilter, (wf_order _ W).
  - apply Forall_forall. intros e He. apply elem_of_bfilter in He as [He _].
    by apply (proj1 (Forall_forall _ _) (wf_next _ W)).
  - apply Forall_forall. intros e He. apply elem_of_bfilter in He as [He Hn]. bool_prop.
    destruct (proj1 (Forall_forall _ _) (wf_owned _ W) e He) as [r Hr]. exists r. by apply Hrev.
Qed.

Lemma pruneRecords_wf before records db : db_wf db -> db_wf (pruneRecords before records db).1.
Proof.
  revert db. induction records as [|r records IH]; intros db W; [done|]. cbn [pruneRecords].
  pose proof (pruneRecord_wf before r db W) as W1. destruct (pruneRecord before r db) as [db1 n].
  specialize (IH db1 W1). by destruct (pruneRecords before records db1).
Qed.

(** ** Events *)

Lemma len_of_bytes l : len (of_bytes l) = Z.of_nat (length l).
Proof. unfold len. f_equal. induction l as [|c l IH]; [done|]. cbn. by f_equal. Qed.

Lemma slice_to_len n s : (0 <= n)%Z -> (len (slice_to n s) <= n)%Z.
Proof. intros H. unfold slice_to. rewrite len_of_bytes, length_take. lia. Qed.

(** A normalised event names its deployment by a trimmed id and its message is short. *)
Lemma normalizeDeploymentEvent_Ok e now e1 :
  normalizeDeploymentEvent e now = Ok e1 ->
  (len (ev_Message e1) <= maxDeploymentEventMessage)%Z /\ ev_RevisionNumber e1 = ev_RevisionNumber e /\
  ev_DeploymentID e1 = TrimSpace (ev_DeploymentID e).
Proof.
  unfold normalizeDeploymentEvent. cbv zeta. intros H. inv_ok H. injection H as <-.
  destruct (maxDeploymentEventMessage <? _)%Z eqn:El; destruct (IsZero _);
    (split; [|done]); cbn [ev_Message field_update] in *; try lia;
    by apply slice_to_len.
Qed.

(** What an append does to a well-formed database. *)
Lemma AppendDeploymentEvent_eq e now db :
  db_wf db ->
  match normalizeDeploymentEvent e now with
  | Err x => AppendDeploymentEvent e now db = Err x
  | Ok e1 =>
      match db_deployments db !! ev_DeploymentID e1 with
      | None => AppendDeploymentEvent e now db = Err ErrRecordNotFound
      | Some owner =>
          let n := dr_RevisionNumber owner in
          let key := (ev_DeploymentID e1, n) in
          if (ev_RevisionNumber e1 <=? 0)%Z || (ev_RevisionNumber e1 =? n)%Z then
            let log := retained (len (ev_Message e1)) (timeline (ev_DeploymentID e1) n db) in
            exists revision events, db_revisions db !! key = Some revision /\
              prunes (ev_DeploymentID e1) n (db_events db) events /\
              List.filter (of_revision (ev_DeploymentID e1) n) events = log /\
              AppendDeploymentEvent e now db =
              Ok (db <| db_events := events ++ [e1 <| ev_ID := db_nextEvent db |> <| ev_RevisionNumber := n |>] |>
                     <| db_nextEvent := (db_nextEvent db + 1)%Z |>
                     <| db_revisions := <[key := revision <| rv_EventCount := (Z.of_nat (length log) + 1)%Z |>
                          <| rv_EventBytes := (message_bytes log + len (ev_Message e1))%Z |>
                          <| rv_EventBudgetInitialized := true |>]> (db_revisions db) |>)
          else AppendDeploymentEvent e now db = Err ErrConflict
      end
  end.
Proof.
  intros W. unfold AppendDeploymentEvent. destruct (normalizeDeploymentEvent e now) as [e1|x] eqn:En; [|done].
  cbn [result_bind]. cbv zeta. destruct (db_deployments db !! ev_DeploymentID e1) as [owner|] eqn:Eo; [|done].
  destruct (wf_deployments _ W _ _ Eo) as [F1 F2 F3 F4 F5 F6 F7 (c & F8 & M)].
  set (n := if (ev_RevisionNumber e1 <=? 0)%Z then _ else _).
  destruct (_ || _) eqn:Eb.
  - assert (n = dr_RevisionNumber owner) as ->.
    { unfold n. destruct (ev_RevisionNumber e1 <=? 0)%Z eqn:E0; [done|]. simpl in Eb. lia. }
    rewrite Z.eqb_refl. cbn [negb]. rewrite F8.
    set (t := timeline (ev_DeploymentID e1) (dr_RevisionNumber owner) db).
    assert (Hc : (if rv_EventBudgetInitialized c then (rv_EventCount c, rv_EventBytes c)
                  else (Z.of_nat (length t), message_bytes t)) = (Z.of_nat (length t), message_bytes t)).
    { destruct (rv_EventBudgetInitialized c) eqn:Ei; [|done].
      by destruct (rwf_count _ _ _ (wf_revisions _ W _ _ F8) Ei) as [-> ->]. }
    rewrite Hc. destruct (normalizeDeploymentEvent_Ok _ _ _ En) as (Hm & _).
    destruct (evictLoop_spec (S (length (db_events db))) (ev_DeploymentID e1) (dr_RevisionNumber owner)
      (len (ev_Message e1)) (db_events db) (wf_order _ W)) as (events & H1 & H2 & H3).
    { unfold maxDeploymentEventMessage, maxDeploymentEventBytes in *. lia. }
    { pose proof (List.filter_length_le (of_revision (ev_DeploymentID e1) (dr_RevisionNumber owner)) (db_events db)). lia. }
    exists c, events. split; [done|]. split; [done|]. split; [done|].
    unfold t, timeline in *. rewrite H1. reflexivity.
  - replace (n =? dr_RevisionNumber owner)%Z with false; [done|]. symmetry. apply Z.eqb_neq. unfold n.
    apply orb_false_iff in Eb as [-> E]. lia.
Qed.

(** The timelines after an append. *)
Lemma append_timeline id n events l e :
  prunes id n l events -> (ev_DeploymentID e, ev_RevisionNumber e) = (id, n) ->
  forall id' n', List.filter (of_revision id' n') (events ++ [e]) =
    if decide ((id', n') = (id, n)) then List.filter (of_revision id n) events ++ [e] else List.filter (of_revision id' n') l.
Proof.
  intros Hp He id' n'. rewrite List.filter_app. cbn [List.filter]. destruct (decide ((id', n') = (id, n))) as [[= -> ->]|N].
  - by rewrite (proj2 (of_revision_true id n e)).
  - rewrite (prunes_other id n id' n' l events Hp N).
    destruct (of_revision id' n' e) eqn:E; [|apply app_nil_r]. apply of_revision_true in E. congruence.
Qed.

Lemma put_event_wf db id n rv rv' rec events :
  db_wf db -> db_revisions db !! (id, n) = Some rv -> prunes id n (db_events db) events ->
  (ev_DeploymentID rec, ev_RevisionNumber rec) = (id, n) -> ev_ID rec = db_nextEvent db ->
  revision_key rv' = revision_key rv -> (forall d, mirrors d rv -> mirrors d rv') ->
  let log := List.filter (of_revision id n) events ++ [rec] in
  rv_EventCount rv' = Z.of_nat (length log) -> rv_EventBytes rv' = message_bytes log ->
  (Z.of_nat (length log) <= maxDeploymentEvents)%Z -> (message_bytes log <= maxDeploymentEventBytes)%Z ->
  db_wf (db <| db_events := events ++ [rec] |> <| db_nextEvent := (db_nextEvent db + 1)%Z |>
            <| db_revisions := <[(id, n) := rv']> (db_revisions db) |>).
Proof.
  intros W Hr Hp Hrec Hid [= K1 K2 K3] Hmir log Hc Hb Hlen Hbytes.
  pose proof (append_timeline id n events (db_events db) rec Hp Hrec) as Htl. fold log in Htl.
  assert (Hrows : forall key, is_Some (<[(id, n) := rv']> (db_revisions db) !! key) <-> is_Some (db_revisions db !! key)).
  { intros key. destruct (decide (key = (id, n))) as [->|N]; [|by rewrite lookup_insert_ne].
    rewrite lookup_insert_eq, Hr. split; by eexists. }
  assert (Hold : forall x, x ∈ events -> (ev_ID x < db_nextEvent db)%Z /\
    is_Some (db_revisions db !! (ev_DeploymentID x, ev_RevisionNumber x))).
  { intros x Hx. apply (prunes_elem _ _ _ _ _ Hp) in Hx.
    split; [by apply (proj1 (Forall_forall _ _) (wf_next _ W))|by apply (proj1 (Forall_forall _ _) (wf_owned _ W))]. }
  split; cbn [db_deployments db_revisions db_events db_nextEvent field_update].
  - intros i d Hd. destruct (wf_deployments _ W _ _ Hd) as [F1 F2 F3 F4 F5 F6 F7 (c & F8 & M)]. split; try done.
    + intros k. by rewrite Hrows.
    + destruct (decide ((i, dr_RevisionNumber d) = (id, n))) as [E|N]; [|rewrite lookup_insert_ne by done; by exists c].
      rewrite E in *. rewrite lookup_insert_eq. exists rv'. split; [done|]. apply Hmir. congruence.
  - intros [i k] r Hk. destruct (decide ((i, k) = (id, n))) as [[= -> ->]|N].
    + rewrite lookup_insert_eq in Hk. injection Hk as <-. destruct (wf_revisions _ W _ _ Hr) as [F1 F2 F3 F4 F5 F6].
      split; try congruence; try done; unfold timeline; cbn [fst snd db_events field_update];
        rewrite Htl, decide_True by done; done.
    + rewrite lookup_insert_ne in Hk by done. destruct (wf_revisions _ W _ _ Hk) as [F1 F2 F3 F4 F5 F6].
      split; try done; unfold timeline; cbn [fst snd db_events field_update]; rewrite Htl, decide_False by done; done.
  - apply event_lt_snoc; [by eapply prunes_sorted, (wf_order _ W)|].
    apply Forall_forall. intros x Hx. rewrite Hid. by apply Hold.
  - apply Forall_app. split; [|by apply Forall_cons; split; [lia|]].
    apply Forall_forall. intros x Hx. destruct (Hold x Hx). lia.
  - apply Forall_app. split; [|apply Forall_cons; split; [by rewrite Hrows, Hrec, Hr|done]].
    apply Forall_forall. intros x Hx. rewrite Hrows. by apply Hold.
Qed.

Lemma append_wf e now db db' : AppendDeploymentEvent e now db = Ok db' -> db_wf db -> db_wf db'.
Proof.
  intros H W. pose proof (AppendDeploymentEvent_eq e now db W) as A.
  destruct (normalizeDeploymentEvent e now) as [e1|] eqn:En; [|congruence].
  destruct (db_deployments db !! _) as [owner|] eqn:Eo; [|congruence]. cbv zeta in A.
  destruct (_ || _) in A; [|congruence]. destruct A as (rv & events & Hr & Hp & Ht & A). rewrite A in H. injection H as <-.
  destruct (normalizeDeploymentEvent_Ok _ _ _ En) as (Hm & _). clear En A.
  set (id := ev_DeploymentID e1) in *. set (n := dr_RevisionNumber owner) in *.
  assert (Hroom := retained_room (len (ev_Message e1)) (timeline id n db)
    ltac:(unfold maxDeploymentEventMessage, maxDeploymentEventBytes in *; lia)). rewrite <- Ht in *.
  eapply put_event_wf; [done|exact Hr|done|reflexivity|reflexivity|reflexivity| |rewrite length_app; cbn; lia|..];
    [intros d [M1 M2 M3 M4]; by split|..]; rewrite ?message_bytes_app, ?length_app; cbn; lia.
Qed.

Lemma db_step_wf db db' : db_step db db' -> db_wf db -> db_wf db'.
Proof.
  intros [? ? ? ? ? H|? ? ? ? H|? ? ? ? ? H|? ? ? ? ? H|? ? ?|? ? ? ? H|?] W.
  - by eapply create_wf.
  - by eapply update_wf.
  - by eapply fill_wf.
  - by eapply retry_wf.
  - by apply pruneRecords_wf.
  - by eapply append_wf.
  - by apply startup_wf.
Qed.

Lemma empty_db_wf accounts installations : db_wf (empty_db accounts installations).
Proof.
  split; cbn; [| |constructor|constructor|constructor]; intros ? ? H; by apply lookup_empty_Some in H.
Qed.

Lemma db_reachable_wf accounts installations db : db_reachable accounts installations db -> db_wf db.
Proof.
  intros H. assert (Hi : forall a b, rtc db_step a b -> db_wf a -> db_wf b).
  { induction 1; [done|]. intros. eauto using db_step_wf. }
  exact (Hi _ _ H (empty_db_wf _ _)).
Qed.

(** C17: Well-formedness of the deployment tables.  In every database that creations,
    updates, retries, title fills, prunes (with stale candidates), event appends and
    restarts can reach: each deployment row carries its own trimmed nonempty id, a known
    status and the timestamps that status promises; its revisions are exactly the numbers
    1..RevisionNumber; the current revision shows the deployment's plan, title and outcome;
    each revision row belongs to a deployment and has the id built from its key; the event
    counters in use equal the rows they count; no timeline exceeds its row or byte bound;
    event ids increase, and every event belongs to a revision. *)
Theorem deployment_store_invariant accounts installations db :
  db_reachable accounts installations db -> db_wf db.
Proof. apply db_reachable_wf. Qed.

(** ** A concrete database *)

Definition sample_deployment : Deployment :=
  (deploymentFromRecord (newDeploymentRecord (MkDeployment "" 7 0 " web-1 " 7 "account" 7 5 11 "octo/site" "refs/heads/main"
    "0123456789abcdef0123456789abcdef01234567" "./deploy/app.yaml" 1 "hash" "sealed" no_status "" 0 "" "" "" "" "" "" "" "" ""
    0 0 0 "" "" "" "" 900 0 0 0 0 0 0 0 0 0 0 "" "" ""))).

(** The database after one creation. *)
Definition sample_db : deploymentDB :=
  match createDeployment sample_deployment 100 (empty_db {[7%Z]} ∅) with
  | Ok (db, _) => db
  | Err _ => empty_db ∅ ∅
  end.

Lemma sample_created :
  exists x, createDeployment sample_deployment 100 (empty_db {[7%Z]} ∅) = Ok (sample_db, x).
Proof. eexists. vm_compute. reflexivity. Defined.

Lemma sample_reachable : db_reachable {[7%Z]} ∅ sample_db.
Proof. destruct sample_created as [x H]. apply rtc_once. exact (step_create _ _ _ _ _ H). Defined.

Lemma deployment_store_invariant_witness : db_wf sample_db.
Proof. exact (deployment_store_invariant {[7%Z]} ∅ sample_db sample_reachable). Defined.
