(* ===== verification/DeployPromises.v ===== *)
(** * What the deployment store promises

    The event log refines a map of bounded logs; revisions are an immutable history;
    retention removes only finished deployments; and admission keeps every scope within
    its limit, whatever the interleaving with the other writers. *)

From stdpp Require Import base gmap list strings sorting relations pretty.
From S2P Require Import Prelude GoStrings Query AccountModel DeployModel DeployStore DeployLog DeployInvariant.

(** ** The abstract event log *)

(** The current revision of each deployment and one bounded log per revision. *)
Record deploymentLog := MkLog {
  log_current : gmap string Z;
  log_events : gmap (string * Z) (list deploymentEventRecord);
  log_next : Z
}.

(** Appending: the newest events that leave room for the message, then the event. *)
Definition log_append (e : DeploymentEvent) (l : deploymentLog) : option deploymentLog :=
  n ← log_current l !! ev_DeploymentID e;
  if (ev_RevisionNumber e <=? 0)%Z || (ev_RevisionNumber e =? n)%Z then
    old ← log_events l !! (ev_DeploymentID e, n);
    Some (MkLog (log_current l)
            (<[(ev_DeploymentID e, n) :=
                 retained (len (ev_Message e)) old ++ [e <| ev_ID := log_next l |> <| ev_RevisionNumber := n |>]]>
               (log_events l))
            (log_next l + 1))
  else None.

(** What the tables mean. *)
Definition log_of (db : deploymentDB) : deploymentLog :=
  MkLog (dr_RevisionNumber <$> db_deployments db)
        (map_imap (fun key _ => Some (timeline key.1 key.2 db)) (db_revisions db))
        (db_nextEvent db).

Definition result_option {A} (m : result A) : option A := match m with Ok a => Some a | Err _ => None end.

Lemma log_events_lookup db key :
  log_events (log_of db) !! key = (fun _ => timeline key.1 key.2 db) <$> db_revisions db !! key.
Proof. cbn [log_of log_events]. rewrite map_lookup_imap. by destruct (db_revisions db !! key). Qed.

(** The logs of the database an append returns. *)
Lemma append_logs db id n rv rv' rec events :
  db_revisions db !! (id, n) = Some rv -> prunes id n (db_events db) events ->
  (ev_DeploymentID rec, ev_RevisionNumber rec) = (id, n) ->
  log_events (log_of (db <| db_events := events ++ [rec] |> <| db_nextEvent := (db_nextEvent db + 1)%Z |>
                         <| db_revisions := <[(id, n) := rv']> (db_revisions db) |>)) =
  <[(id, n) := List.filter (of_revision id n) events ++ [rec]]> (log_events (log_of db)).
Proof.
  intros Hr Hp Hrec. pose proof (append_timeline id n events (db_events db) rec Hp Hrec) as Htl.
  apply map_eq. intros [i k]. rewrite log_events_lookup.
  unfold timeline at 1. cbn [db_revisions db_events field_update fst snd]. rewrite Htl.
  destruct (decide ((i, k) = (id, n))) as [[= -> ->]|N].
  - by rewrite !lookup_insert_eq.
  - rewrite !lookup_insert_ne by done. by rewrite log_events_lookup.
Qed.

(** C18: The event log refines its specification, errors included.  On a well-formed
    database AppendDeploymentEvent succeeds exactly when the event passes validation, its
    deployment exists and it names no revision or the current one; the logs it leaves are
    those of [log_append]: the timeline of the current revision loses the fewest oldest
    events that make room, gains the event under the next id, and every other timeline is
    untouched.  In particular the batched eviction loop ends and never runs out of rows. *)
Theorem append_refines e now db :
  db_wf db ->
  log_of <$> result_option (AppendDeploymentEvent e now db) =
  (e1 ← result_option (normalizeDeploymentEvent e now); log_append e1 (log_of db)).
Proof.
  intros W. pose proof (AppendDeploymentEvent_eq e now db W) as A.
  destruct (normalizeDeploymentEvent e now) as [e1|x]; [|by rewrite A]. cbn [result_option mbind option_bind].
  unfold log_append. cbn [log_current log_of log_next]. rewrite lookup_fmap.
  destruct (db_deployments db !! ev_DeploymentID e1) as [owner|]; [|by rewrite A]. cbn [fmap option_fmap option_map].
  cbn [mbind option_bind]. cbv zeta in A. destruct (_ || _); [|by rewrite A].
  destruct A as (rv & events & Hr & Hp & Ht & ->). cbn [result_option fmap option_fmap option_map].
  rewrite log_events_lookup, Hr. cbn [fmap option_fmap option_map mbind option_bind fst snd].
  f_equal. unfold log_of at 1. f_equal.
  rewrite <- Ht. by apply (append_logs db _ _ rv).
Qed.

(** A log of a revision of the sample database, filled by one append. *)
Lemma append_refines_witness :
  db_wf sample_db /\
  (log_of <$> result_option (AppendDeploymentEvent
      (MkdeploymentEventRecord 0 0 "web-1" 1 "log" "build" "stdout" "hello" 0) 200 sample_db)) =
  log_append (MkdeploymentEventRecord 0 0 "web-1" 1 "log" "build" "stdout" "hello" 200) (log_of sample_db).
Proof.
  assert (W : db_wf sample_db).
  { destruct sample_created as [x H]. exact (create_wf _ _ _ _ _ H (empty_db_wf _ _)). }
  split; [exact W|].
  exact (append_refines (MkdeploymentEventRecord 0 0 "web-1" 1 "log" "build" "stdout" "hello" 0) 200 sample_db W).
Defined.

(** ** Retention *)

(** Nothing of a deployment is left, or nothing of it has changed. *)
Definition erased (db : deploymentDB) (id : string) : Prop :=
  db_deployments db !! id = None /\ forall n, db_revisions db !! (id, n) = None /\ timeline id n db = [].
Definition untouched (db db' : deploymentDB) (id : string) : Prop :=
  db_deployments db' !! id = db_deployments db !! id /\
  forall n, db_revisions db' !! (id, n) = db_revisions db !! (id, n) /\ timeline id n db' = timeline id n db.

Definition size_of (db : deploymentDB) : Z := Z.of_nat (size (db_deployments db)).

Lemma pruneRecord_spec before record db db' n :
  pruneRecord before record db = (db', n) ->
  (db' = db /\ n = 0%Z) \/
  (n = 1%Z /\ size_of db = (size_of db' + 1)%Z /\ erased db' (dr_ID record) /\
   (forall id, id <> dr_ID record -> untouched db db' id) /\
   exists r, db_deployments db !! dr_ID record = Some r /\ dr_Version r = dr_Version record /\ prunable before r = true).
Proof.
  unfold pruneRecord. destruct (db_deployments db !! dr_ID record) as [r|] eqn:E; [|intros [= <- <-]; by left].
  destruct (_ && _) eqn:Eb; [|intros [= <- <-]; by left]. intros [= <- <-]. right. bool_prop.
  split; [done|]. split; [|split; [|split]].
  - unfold size_of. cbn [db_deployments field_update]. rewrite map_size_delete_Some by (by eexists).
    assert (size (db_deployments db) <> 0) by (intros Hz; apply map_size_empty_inv in Hz; by rewrite Hz, lookup_empty in E).
    lia.
  - split; [apply lookup_delete_eq|]. intros k. split.
    + apply map_lookup_filter_None_2. right. intros x _ Hn. by apply Hn.
    + apply bfilter_none. intros e He. apply elem_of_bfilter in He as [_ He]. bool_prop.
      unfold of_revision. by rewrite bool_decide_eq_false_2.
  - intros id N. split; [by apply lookup_delete_ne|]. intros k. split.
    + cbn [db_revisions field_update]. destruct (db_revisions db !! (id, k)) eqn:Ek.
      * by apply map_lookup_filter_Some_2.
      * apply map_lookup_filter_None_2. by left.
    + apply bfilter_weaken. intros e _ He. apply of_revision_true in He as [= -> _].
      by rewrite bool_decide_eq_false_2.
  - exists r. split; [done|]. split; [lia|done].
Qed.

Lemma untouched_trans db1 db2 db3 id : untouched db1 db2 id -> untouched db2 db3 id -> untouched db1 db3 id.
Proof.
  intros [A1 B1] [A2 B2]. split; [congruence|]. intros n. destruct (B1 n), (B2 n). split; congruence.
Qed.

Lemma erased_untouched db db' id : erased db id -> untouched db db' id -> erased db' id.
Proof. intros [A B] [A' B']. split; [congruence|]. intros n. destruct (B n), (B' n). split; congruence. Qed.

Lemma pruneRecords_spec before records db db' n :
  pruneRecords before records db = (db', n) ->
  n = (size_of db - size_of db')%Z /\
  forall id, untouched db db' id \/
    (erased db' id /\ exists r c, db_deployments db !! id = Some r /\ prunable before r = true /\
                                  c ∈ records /\ dr_ID c = id /\ dr_Version r = dr_Version c).
Proof.
  revert db db' n. induction records as [|x records IH]; intros db db' n; cbn [pruneRecords].
  - intros [= <- <-]. split; [lia|]. intros id. by left.
  - destruct (pruneRecord before x db) as [db1 n1] eqn:E1. destruct (pruneRecords before records db1) as [db2 n2] eqn:E2.
    intros [= <- <-]. destruct (IH db1 db2 n2 E2) as [IH1 IH2].
    destruct (pruneRecord_spec _ _ _ _ _ E1) as [[-> ->]|(-> & S1 & S2 & S3 & (r & S4 & S5 & S6))].
    + split; [lia|]. intros id. destruct (IH2 id) as [H|(H & r & c & H1 & H2 & H3 & H4)]; [by left|].
      right. split; [done|]. exists r, c. split; [done|]. split; [done|]. split; [by right|done].
    + split; [lia|]. intros id. destruct (decide (id = dr_ID x)) as [->|N].
      * right. split.
        -- destruct (IH2 (dr_ID x)) as [H|[H _]]; [by eapply erased_untouched|done].
        -- exists r, x. split_and!; try done. left.
      * specialize (S3 id N). destruct (IH2 id) as [H|(H & r' & c & H1 & H2 & H3 & H4)];
          [left; by eapply untouched_trans|].
        right. split; [done|]. exists r', c. destruct S3 as [S3 _]. rewrite <- S3. split_and!; try done; [by right|by destruct H4..].
Qed.

(** ** Revisions are history *)

(** A revision that is the current one of its deployment, and one that is not. *)
Definition current_revision (db : deploymentDB) (key : string * Z) : Prop :=
  exists d, db_deployments db !! key.1 = Some d /\ key.2 = dr_RevisionNumber d.
Definition past_revision (db : deploymentDB) (key : string * Z) : Prop :=
  exists d, db_deployments db !! key.1 = Some d /\ key.2 <> dr_RevisionNumber d.

(** What became of a revision row in one write, and which write did it: the row is as it
    was; retention pruned its whole deployment, which had ended before the cut-off; a title
    filled the empty one; an event was logged for the current revision; a restart marked
    the event counters for revalidation; or an update of the deployment rewrote the
    outcome of the current revision. *)
Inductive revision_fate (db db' : deploymentDB) (key : string * Z) (r : deploymentRevisionRecord)
    : option deploymentRevisionRecord -> Prop :=
| fate_kept : revision_fate db db' key r (Some r)
| fate_pruned before candidates d :
    db' = (pruneRecords before candidates db).1 -> db_deployments db !! key.1 = Some d -> prunable before d = true ->
    erased db' key.1 -> revision_fate db db' key r None
| fate_titled id ref title :
    FillDeploymentPullRequestTitle id ref title db = Ok db' -> key.1 = TrimSpace id -> rv_Ref r = TrimSpace ref ->
    rv_PullRequestTitle r = "" -> revision_fate db db' key r (Some (r <| rv_PullRequestTitle := TrimSpace title |>))
| fate_logged e now count bytes :
    AppendDeploymentEvent e now db = Ok db' -> key.1 = TrimSpace (ev_DeploymentID e) -> current_revision db key ->
    revision_fate db db' key r
      (Some (r <| rv_EventCount := count |> <| rv_EventBytes := bytes |> <| rv_EventBudgetInitialized := true |>))
| fate_restarted now :
    db' = initializeStateBackfills now db ->
    revision_fate db db' key r (Some (r <| rv_EventBudgetInitialized := false |>))
| fate_updated d now r' :
    UpdateDeployment d now db = Ok db' -> key.1 = TrimSpace (d_ID d) -> current_revision db key ->
    revision_key r' = revision_key r -> revision_plan r' = revision_plan r -> revision_budget r' = revision_budget r ->
    rv_CreatedAt r' = rv_CreatedAt r -> rv_PullRequestTitle r' = rv_PullRequestTitle r ->
    revision_fate db db' key r (Some r').

Lemma fate_insert db db' key key0 r r0 :
  db_revisions db' = <[key0 := r0]> (db_revisions db) -> db_revisions db !! key = Some r ->
  (key = key0 -> revision_fate db db' key r (Some r0)) -> revision_fate db db' key r (db_revisions db' !! key).
Proof.
  intros Hdb Hr Hk. rewrite Hdb. destruct (decide (key = key0)) as [->|N].
  - rewrite lookup_insert_eq. auto.
  - rewrite lookup_insert_ne, Hr by done. apply fate_kept.
Qed.

Lemma normalizeDeploymentEvent_id e now e1 :
  normalizeDeploymentEvent e now = Ok e1 -> ev_DeploymentID e1 = TrimSpace (ev_DeploymentID e).
Proof. unfold normalizeDeploymentEvent. cbv zeta. intros H. inv_ok H. injection H as <-. by repeat case_match. Qed.

Lemma db_step_fate db db' key r :
  db_wf db -> db_step db db' -> db_revisions db !! key = Some r ->
  revision_fate db db' key r (db_revisions db' !! key).
Proof.
  intros W S Hr.
  destruct S as [d now db db' x S|d now db db' S|id ref title db db' S|d ex now db db' S|before cand db|e now db db' S|now db].
  - apply createDeployment_Ok in S as (d1 & rec & rv & _ & _ & _ & _ & Hn & _ & ->).
    eapply fate_insert; [reflexivity|exact Hr|]. intros ->. congruence.
  - pose proof S as Hop. apply UpdateDeployment_Ok in S as (d1 & r0 & N & _ & H0 & _ & S). cbv zeta in S.
    apply normalizeDeployment_Ok in N as (N1 & _).
    destruct (updatedRecord_fields d1 now r0) as (U1 & U2 & _).
    destruct (wf_deployments _ W _ _ H0) as [F1 _ _ _ _ F6 _ _].
    set (saved := updatedRecord d1 now r0) in *. clearbody saved.
    apply updateCurrentDeploymentRevision_Ok in S as (c & c' & G1 & -> & G2 & G3 & G4 & G5 & G6 & _).
    cbn [db_revisions field_update] in G1. rewrite currentNumber_pos in * by lia.
    eapply fate_insert; [reflexivity|exact Hr|]. intros ->. assert (c = r) as -> by congruence.
    eapply fate_updated; [exact Hop| | |done..]; cbn [fst snd]; [congruence|].
    exists r0. cbn [fst snd]. split; congruence.
  - pose proof S as Hop. unfold FillDeploymentPullRequestTitle in S. cbv zeta in S. inv_ok S. injection S as <-.
    cbn [db_revisions field_update]. rewrite map_lookup_imap, Hr. cbn [mbind option_bind].
    destruct (_ && _) eqn:Eb; [|apply fate_kept]. bool_prop. by eapply fate_titled.
  - apply retryDeployment_Ok in S as (r0 & ex1 & H0 & _ & _ & _ & S). apply insertRevision_Ok in S as [Hn ->].
    cbn [db_revisions field_update] in Hn.
    eapply fate_insert; [reflexivity|exact Hr|]. intros ->. congruence.
  - destruct (pruneRecords before cand db) as [db' n] eqn:E. destruct (pruneRecords_spec _ _ _ _ _ E) as [_ H].
    cbn [fst]. destruct key as [id k]. destruct (H id) as [[_ U]|(Her & d & c & Hd & Hp & _)].
    + destruct (U k) as [-> _]. rewrite Hr. apply fate_kept.
    + destruct Her as [Hdel Hall]. destruct (Hall k) as [-> _].
      eapply fate_pruned; [by rewrite E|exact Hd|exact Hp|by split].
  - pose proof S as Hop. pose proof (AppendDeploymentEvent_eq e now db W) as A.
    destruct (normalizeDeploymentEvent e now) as [e1|] eqn:En; [|congruence]. apply normalizeDeploymentEvent_id in En.
    destruct (db_deployments db !! _) as [owner|] eqn:Ho; [|congruence]. cbv zeta in A. destruct (_ || _) in A; [|congruence].
    destruct A as (rv & events & H0 & _ & _ & A). rewrite A in S. injection S as <-.
    eapply fate_insert; [reflexivity|exact Hr|]. intros ->. assert (rv = r) as -> by congruence.
    eapply fate_logged; [exact Hop|exact En|]. by exists owner.
  - assert (E : db_revisions (initializeStateBackfills now db) !! key = Some (r <| rv_EventBudgetInitialized := false |>)).
    { unfold initializeStateBackfills. rewrite backfill_id by done.
      cbn [resetEventBudgets db_revisions field_update]. by rewrite lookup_fmap, Hr. }
    rewrite E. by eapply fate_restarted.
Qed.

(** C38: Revisions are a history.  Whatever a write does to a reachable database, a revision
    row disappears only when retention prunes its whole ended deployment; otherwise it is
    the row it was, up to an empty title that a title fill supplies, the counters of the
    current revision's log, the flag by which a restart has the counters revalidated, and
    the outcome of the current revision that an update of its deployment records.  Of a
    revision that is not the current one nothing else than that title and that flag ever
    changes. *)
Theorem revision_history accounts installations db db' key r :
  db_reachable accounts installations db -> db_step db db' -> db_revisions db !! key = Some r ->
  revision_fate db db' key r (db_revisions db' !! key) /\
  (past_revision db key -> forall r', db_revisions db' !! key = Some r' ->
     r' = r <| rv_PullRequestTitle := rv_PullRequestTitle r' |>
            <| rv_EventBudgetInitialized := rv_EventBudgetInitialized r' |> /\
     (rv_PullRequestTitle r <> "" -> rv_PullRequestTitle r' = rv_PullRequestTitle r)).
Proof.
  intros R S Hr. pose proof (db_step_fate db db' key r (db_reachable_wf _ _ _ R) S Hr) as F. split; [exact F|].
  intros (d & Hd & Hne) r' Hr'. rewrite Hr' in F.
  assert (Hnc : ~ current_revision db key) by (intros (d' & Hd' & E); congruence).
  remember (Some r') as o eqn:Eo. destruct F; try done; injection Eo as <-; by destruct r.
Qed.

(** The first revision of the sample deployment, after its retry has made it a past one. *)
Definition sample_failed : Deployment :=
  match GetDeployment "web-1" sample_db with
  | Ok d => d <| d_Status := DeploymentStatusFailed |>
  | Err _ => sample_deployment
  end.

Definition sample_failed_db : deploymentDB :=
  default sample_db (result_option (UpdateDeployment sample_failed 200 sample_db)).

Definition sample_again : Deployment :=
  default sample_deployment (result_option (GetDeployment "web-1" sample_failed_db)).

Definition sample_retried : deploymentDB :=
  default sample_failed_db (result_option (retryDeployment sample_again 9000 300 sample_failed_db)).

Lemma sample_failed_eq : UpdateDeployment sample_failed 200 sample_db = Ok sample_failed_db.
Proof. vm_compute. reflexivity. Qed.

Lemma sample_retried_eq : retryDeployment sample_again 9000 300 sample_failed_db = Ok sample_retried.
Proof. vm_compute. reflexivity. Qed.

Lemma sample_retried_reachable : db_reachable {[7%Z]} ∅ sample_retried.
Proof.
  apply rtc_r with sample_failed_db; [|exact (step_retry _ _ _ _ _ sample_retried_eq)].
  apply rtc_r with sample_db; [exact sample_reachable|exact (step_update _ _ _ _ sample_failed_eq)].
Qed.

Lemma revision_history_witness :
  exists r db', db_revisions sample_retried !! ("web-1", 1%Z) = Some r /\
    FillDeploymentPullRequestTitle "web-1" "refs/pull/3/head" "Fix" sample_retried = Ok db' /\
    past_revision sample_retried ("web-1", 1%Z) /\
    revision_fate sample_retried db' ("web-1", 1%Z) r (db_revisions db' !! ("web-1", 1%Z)).
Proof.
  eexists. eexists. split; [vm_compute; reflexivity|]. split; [vm_compute; reflexivity|].
  split; [eexists; split; [vm_compute; reflexivity|vm_compute; discriminate]|].
  eapply (revision_history {[7%Z]} ∅); [exact sample_retried_reachable| |vm_compute; reflexivity].
  apply (step_fill "web-1" "refs/pull/3/head" "Fix"). vm_compute. reflexivity.
Defined.

(** Without an interleaved writer every candidate goes. *)
Lemma pruneRecords_all before records db :
  NoDup (dr_ID <$> records) ->
  (forall c, c ∈ records -> db_deployments db !! dr_ID c = Some c /\ prunable before c = true) ->
  (pruneRecords before records db).2 = Z.of_nat (length records).
Proof.
  revert db. induction records as [|x records IH]; intros db Hn Hc; [done|]. cbn [pruneRecords].
  apply NoDup_cons in Hn as [Hx Hn]. destruct (Hc x) as [Hx1 Hx2]; [left|].
  assert (E : exists db1, pruneRecord before x db = (db1, 1%Z)).
  { unfold pruneRecord. rewrite Hx1, Hx2, Z.eqb_refl. by eexists. }
  destruct E as [db1 E]. rewrite E.
  destruct (pruneRecord_spec _ _ _ _ _ E) as [[_ ?]|(_ & _ & _ & S3 & _)]; [done|].
  specialize (IH db1 Hn). destruct (pruneRecords before records db1) as [db2 m]. cbn [snd] in *.
  rewrite IH; [cbn [length]; lia|]. intros c Hcin. destruct (Hc c) as [H1 H2]; [by right|]. split; [|done].
  destruct (S3 (dr_ID c)) as [-> _]; [|done]. intros E'. apply Hx, list_elem_of_fmap. by exists c.
Qed.

Lemma candidates_spec before limit db :
  db_wf db ->
  NoDup (dr_ID <$> pruneCandidates before limit db) /\
  (forall c, c ∈ pruneCandidates before limit db -> db_deployments db !! dr_ID c = Some c /\ prunable before c = true) /\
  Z.of_nat (length (pruneCandidates before limit db)) = Z.min (pruneLimit limit) (cnt (prunable before) (db_deployments db)).
Proof.
  intros W. unfold pruneCandidates.
  assert (Hin : forall c, c ∈ select prune_le (prunable before) (db_deployments db) ->
    db_deployments db !! dr_ID c = Some c /\ prunable before c = true).
  { intros c Hc. apply elem_of_select in Hc as [(id & Hid) Hp]. split; [|done].
    by rewrite (dwf_id _ _ _ (wf_deployments _ W _ _ Hid)). }
  split; [|split].
  - apply NoDup_fmap_take, (NoDup_select_key dr_ID). intros id r Hr. exact (dwf_id _ _ _ (wf_deployments _ W _ _ Hr)).
  - intros c Hc. apply Hin. by eapply elem_of_take in Hc as (i & Hi & _); apply list_elem_of_lookup_2 in Hi.
  - rewrite length_take, length_select. unfold cnt.
    assert (0 <= pruneLimit limit)%Z by (unfold pruneLimit; repeat case_match; lia). lia.
Qed.

(** Retention.  With candidates read in a well-formed [db0] and the deletions run in a
    later [db], a deployment that disappears was, at the moment of its deletion, terminal,
    without a sandbox, older than the cutoff and still at the version of the candidate, and
    its revisions and events go with it; every other deployment keeps its row, revisions and
    timelines; the count returned is the number of deployments deleted; and without an
    interleaved writer that is every prunable deployment up to the (clamped) limit. *)
Theorem prune_safe before limit db0 db db' n :
  db_wf db0 -> PruneDeploymentsFrom before limit db0 db = Ok (db', n) ->
  n = (size_of db - size_of db')%Z /\
  (forall id, untouched db db' id \/
     (erased db' id /\ exists r c, db_deployments db !! id = Some r /\ prunable before r = true /\
        db_deployments db0 !! id = Some c /\ prunable before c = true /\ dr_Version r = dr_Version c)) /\
  (db = db0 -> n = Z.min (pruneLimit limit) (cnt (prunable before) (db_deployments db))).
Proof.
  intros W. unfold PruneDeploymentsFrom. destruct (IsZero before); [done|]. intros [= H].
  destruct (candidates_spec before limit db0 W) as (C1 & C2 & C3).
  destruct (pruneRecords_spec _ _ _ _ _ H) as [S1 S2]. split; [done|]. split.
  - intros id. destruct (S2 id) as [U|(U & r & c & H1 & H2 & H3 & H4 & H5)]; [by left|]. right. split; [done|].
    destruct (C2 c H3) as [H6 H7]. subst id. by exists r, c.
  - intros ->. rewrite <- C3, <- (pruneRecords_all before _ db0 C1 C2). by rewrite H.
Qed.

(** The failed sample deployment has no sandbox and goes. *)
Lemma prune_safe_witness :
  exists db', PruneDeploymentsFrom 1000 0 sample_failed_db sample_failed_db = Ok (db', 1%Z) /\
    1%Z = (size_of sample_failed_db - size_of db')%Z.
Proof.
  assert (W : db_wf sample_failed_db).
  { apply (db_reachable_wf {[7%Z]} ∅). apply rtc_r with sample_db; [exact sample_reachable|].
    exact (step_update _ _ _ _ sample_failed_eq). }
  eexists. split; [vm_compute; reflexivity|].
  refine (proj1 (prune_safe 1000 0 sample_failed_db sample_failed_db _ 1 W _)). vm_compute. reflexivity.
Defined.

(** ** The quota of a scope *)

Definition usage (scopeType : string) (scopeID : Z) (db : deploymentDB) : Z :=
  cnt (fun r => in_scope scopeType scopeID r && occupies r) (db_deployments db).

(** The writers of a running server: admission under the configured limit, updates that
    never make a row occupy a place it did not have, and everything else the store does. *)
Inductive server_step (limit : Z) : deploymentDB -> deploymentDB -> Prop :=
| srv_create d now db db' x : CreateDeploymentWithScopeLimit d limit now db = Ok (db', x) -> server_step limit db db'
| srv_retry d expiresAt now db db' :
    (forall r, db_deployments db !! d_ID d = Some r -> dr_ScopeType r = d_ScopeType d /\ dr_ScopeID r = d_ScopeID d) ->
    RetryDeploymentWithScopeLimit d expiresAt limit now db = Ok db' -> server_step limit db db'
| srv_update d now db db' :
    (forall r, db_deployments db !! TrimSpace (d_ID d) = Some r -> dr_Version r = d_Version d ->
       occupies (updatedRecord d now r) = true -> occupies r = true) ->
    UpdateDeployment d now db = Ok db' -> server_step limit db db'
| srv_fill id ref title db db' : FillDeploymentPullRequestTitle id ref title db = Ok db' -> server_step limit db db'
| srv_prune before candidates db : server_step limit db (pruneRecords before candidates db).1
| srv_append e now db db' : AppendDeploymentEvent e now db = Ok db' -> server_step limit db db'
| srv_startup now db : server_step limit db (initializeStateBackfills now db).

Definition server_reachable (limit : Z) (accounts installations : gset Z) : deploymentDB -> Prop :=
  rtc (server_step limit) (empty_db accounts installations).

Lemma server_db_step limit db db' : server_step limit db db' -> db_step db db'.
Proof.
  intros [? ? ? ? ? H|? ? ? ? ? _ H|? ? ? ? _ H|? ? ? ? ? H|? ? ?|? ? ? ? H|?].
  - apply result_bind_Ok in H as (u & _ & H). exact (step_create _ _ _ _ _ H).
  - apply result_bind_Ok in H as (u & _ & H). exact (step_retry _ _ _ _ _ H).
  - exact (step_update _ _ _ _ H).
  - exact (step_fill _ _ _ _ _ H).
  - apply step_prune.
  - exact (step_append _ _ _ _ H).
  - apply step_startup.
Qed.

Lemma server_reachable_wf limit accounts installations db : server_reachable limit accounts installations db -> db_wf db.
Proof.
  intros H. apply (db_reachable_wf accounts installations). unfold server_reachable in H. unfold db_reachable.
  induction H; [done|]. econstructor; [by eapply server_db_step|done].
Qed.

(** A granted quota leaves one free place besides the excluded deployment. *)
Lemma checkDeploymentQuota_Ok db d limit ex u :
  checkDeploymentQuota db d limit ex = Ok u ->
  (d_ScopeType d = AccountScopeTypeAccount \/ d_ScopeType d = AccountScopeTypeGitHubInstall) /\
  (cnt (fun r => in_scope (d_ScopeType d) (d_ScopeID d) r && occupies r
                 && (bool_decide (ex = "") || negb (bool_decide (dr_ID r = ex)))) (db_deployments db) + 1
   <= effectiveLimit limit)%Z.
Proof.
  unfold checkDeploymentQuota. cbv zeta. intros H. apply result_bind_Ok in H as (v & H1 & H). inv_ok H.
  split; [|unfold cnt, Count; lia]. unfold lockDeploymentScope in H1.
  destruct (bool_decide (d_ScopeType d = AccountScopeTypeAccount)) eqn:E1; [left; by bool_prop|].
  destruct (bool_decide (d_ScopeType d = AccountScopeTypeGitHubInstall)) eqn:E2; [right; by bool_prop|done].
Qed.

(** Writing the row of one deployment under a granted quota. *)
Lemma admitted_usage db t' id saved d limit ex u :
  db_wf db -> checkDeploymentQuota db d limit ex = Ok u -> t' = <[id := saved]> (db_deployments db) ->
  (ex = "" /\ db_deployments db !! id = None \/ ex = id) ->
  dr_ScopeType saved = d_ScopeType d -> dr_ScopeID saved = d_ScopeID d ->
  forall st sid, (cnt (fun r => in_scope st sid r && occupies r) (db_deployments db) <= effectiveLimit limit)%Z ->
  (cnt (fun r => in_scope st sid r && occupies r) t' <= effectiveLimit limit)%Z.
Proof.
  intros W Hq -> Hex Es Ei st sid Hu. apply checkDeploymentQuota_Ok in Hq as [_ Hq].
  set (p := fun r => in_scope st sid r && occupies r) in *.
  rewrite <- insert_delete_eq, cnt_insert_new by apply lookup_delete_eq.
  assert (Hmono : forall q : deploymentRecord -> bool, (cnt q (delete id (db_deployments db)) <= cnt q (db_deployments db))%Z).
  { intros q. apply cnt_mono. intros i r [_ Hr]%lookup_delete_Some Hp. by exists r. }
  destruct (p saved) eqn:Ep; simpl; [|specialize (Hmono p); lia].
  unfold p, in_scope in Ep. apply andb_true_iff in Ep as [Ep _]. apply andb_true_iff in Ep as [E1 E2].
  apply bool_decide_eq_true_1 in E1. assert (sid = d_ScopeID d) as -> by lia. assert (st = d_ScopeType d) as -> by congruence.
  match type of Hq with (cnt ?q _ + 1 <= _)%Z => specialize (Hmono q); transitivity (cnt q (delete id (db_deployments db)) + 1)%Z end;
    [|lia].
  apply Z.add_le_mono_r, cnt_le. intros i r [N Hr]%lookup_delete_Some Hp. unfold p in Hp. rewrite Hp. simpl.
  rewrite (dwf_id _ _ _ (wf_deployments _ W _ _ Hr)).
  destruct Hex as [[-> _]| ->]; [done|]. rewrite (bool_decide_eq_false_2 (i = id)) by done. apply orb_true_r.
Qed.

Lemma srv_create_usage d limit now db db' x :
  db_wf db -> CreateDeploymentWithScopeLimit d limit now db = Ok (db', x) ->
  forall st sid, (usage st sid db <= effectiveLimit limit)%Z -> (usage st sid db' <= effectiveLimit limit)%Z.
Proof.
  intros W H st sid Hu. apply result_bind_Ok in H as (u & Hq & H).
  apply createDeployment_Ok in H as (d1 & rec & rv & H1 & Hrec & -> & H2 & _ & _ & ->).
  apply normalizeDeployment_Ok in H1 as (_ & _ & N3 & _ & N5).
  destruct (createdRecord_fields d1 now) as (_ & _ & F3 & F4 & _). rewrite <- Hrec in *.
  assert (Ei : d_ScopeID d1 = d_ScopeID d) by (rewrite N5; reflexivity). clear N5 Hrec.
  apply (admitted_usage db _ (dr_ID rec) rec d limit "" u W Hq eq_refl); [by left| |congruence|exact Hu].
  rewrite F3, N3. destruct (checkDeploymentQuota_Ok _ _ _ _ _ Hq) as [Hs _].
  change (TrimSpace (d_ScopeType d) = d_ScopeType d). destruct Hs as [-> | ->]; reflexivity.
Qed.

Lemma srv_retry_usage d ex limit now db db' :
  db_wf db ->
  (forall r, db_deployments db !! d_ID d = Some r -> dr_ScopeType r = d_ScopeType d /\ dr_ScopeID r = d_ScopeID d) ->
  RetryDeploymentWithScopeLimit d ex limit now db = Ok db' ->
  forall st sid, (usage st sid db <= effectiveLimit limit)%Z -> (usage st sid db' <= effectiveLimit limit)%Z.
Proof.
  intros W Hs H st sid Hu. apply result_bind_Ok in H as (u & Hq & H).
  apply retryDeployment_Ok in H as (r & ex1 & Hr & _ & _ & _ & H). destruct (Hs r Hr) as [Hs1 Hs2].
  destruct (retriedRecord_fields d ex1 now r) as (_ & _ & _ & U4 & U5 & _). cbv zeta in U4, U5.
  apply insertRevision_Ok in H as [_ ->].
  apply (admitted_usage db _ (d_ID d) (retriedRecord d ex1 now r) d limit (d_ID d) u W Hq); [reflexivity|by right| | |exact Hu].
  - by rewrite U4.
  - by rewrite U5.
Qed.

(** A write after which every occupying row was one before, in the same scope. *)
Lemma usage_mono db db' st sid :
  (forall id r', db_deployments db' !! id = Some r' -> occupies r' = true ->
     exists r, db_deployments db !! id = Some r /\ occupies r = true /\ dr_ScopeType r = dr_ScopeType r' /\ dr_ScopeID r = dr_ScopeID r') ->
  (usage st sid db' <= usage st sid db)%Z.
Proof.
  intros H. apply cnt_mono. intros id r' Hr' [Hs Ho]%andb_true_iff. destruct (H id r' Hr' Ho) as (r & ? & ? & E1 & E2).
  exists r. split; [done|]. apply andb_true_iff. split; [|done]. unfold in_scope in *. by rewrite E1, E2.
Qed.

Lemma occupies_ext r r' : dr_Status r = dr_Status r' -> dr_SandboxID r = dr_SandboxID r' -> occupies r = occupies r'.
Proof. unfold occupies. by intros -> ->. Qed.

Lemma srv_update_usage d now db db' st sid :
  (forall r, db_deployments db !! TrimSpace (d_ID d) = Some r -> dr_Version r = d_Version d ->
     occupies (updatedRecord d now r) = true -> occupies r = true) ->
  UpdateDeployment d now db = Ok db' -> (usage st sid db' <= usage st sid db)%Z.
Proof.
  intros Hg H. apply UpdateDeployment_Ok in H as (d1 & r & N & _ & Hr & Hv & H).
  apply normalizeDeployment_Ok in N as (N1 & _ & _ & _ & N5).
  assert (Ev : d_Version d1 = d_Version d /\ d_Status d1 = d_Status d /\ d_SandboxID d1 = d_SandboxID d)
    by (rewrite N5; by split_and!).
  destruct Ev as (Ev & Es & Eb). clear N5. rewrite N1 in *.
  destruct (updatedRecord_fields d1 now r) as (_ & _ & U3 & U4 & U5 & _).
  destruct (updatedRecord_fields d now r) as (_ & _ & _ & _ & V5 & _).
  destruct (updatedRecord_lifecycle d1 now r) as (U6 & _). destruct (updatedRecord_lifecycle d now r) as (V6 & _).
  cbv zeta in *.
  assert (Ho : occupies (updatedRecord d1 now r) = occupies (updatedRecord d now r)).
  { apply occupies_ext; congruence. }
  specialize (Hg r Hr ltac:(congruence)). rewrite <- Ho in Hg. clear Ho U5 V5 U6 V6.
  set (saved := updatedRecord d1 now r) in *. clearbody saved.
  apply updateCurrentDeploymentRevision_Ok in H as (c & c' & _ & -> & _). apply usage_mono.
  intros id r' Hr' Hocc. cbn [db_deployments field_update] in Hr'.
  destruct (decide (id = TrimSpace (d_ID d))) as [->|Nid].
  - rewrite lookup_insert_eq in Hr'. injection Hr' as <-. exists r. split_and!; auto.
  - rewrite lookup_insert_ne in Hr' by done. by exists r'.
Qed.

Lemma server_step_usage limit db db' st sid :
  db_wf db -> server_step limit db db' -> (usage st sid db <= effectiveLimit limit)%Z ->
  (usage st sid db' <= effectiveLimit limit)%Z.
Proof.
  intros W S Hu. destruct S as [d now db db' x S|d ex now db db' Hs S|d now db db' Hg S|id ref title db db' S|before cand db|e now db db' S|db].
  - by eapply srv_create_usage.
  - by eapply srv_retry_usage.
  - etransitivity; [by eapply srv_update_usage|done].
  - etransitivity; [apply usage_mono|exact Hu]. unfold FillDeploymentPullRequestTitle in S. cbv zeta in S. inv_ok S.
    injection S as <-. intros i r'. cbn [db_deployments field_update].
    destruct (decide (i = TrimSpace id)) as [->|N]; [|rewrite lookup_alter_ne by done; intros; by exists r'].
    rewrite lookup_alter_eq. destruct (db_deployments db !! TrimSpace id) as [r|]; [|done]. intros [= <-] Ho.
    exists r. by destruct (_ && _).
  - etransitivity; [apply usage_mono|exact Hu]. intros i r' Hr' Ho.
    destruct (pruneRecords before cand db) as [db1 n] eqn:E. cbn [fst] in Hr'.
    destruct (pruneRecords_spec _ _ _ _ _ E) as [_ H]. destruct (H i) as [[U _]|[[U _] _]]; [|congruence].
    exists r'. split; [congruence|done].
  - etransitivity; [apply usage_mono|exact Hu]. pose proof (AppendDeploymentEvent_eq e now db W) as A.
    destruct (normalizeDeploymentEvent e now) as [e1|]; [|congruence].
    destruct (db_deployments db !! _) as [owner|]; [|congruence]. cbv zeta in A. destruct (_ || _) in A; [|congruence].
    destruct A as (rv & events & _ & _ & _ & A). rewrite A in S. injection S as <-. intros i r' Hr' Ho. by exists r'.
  - unfold initializeStateBackfills. by rewrite backfill_id.
Qed.

(** The quota of a scope, for updates that never newly occupy a place. *)
Lemma scope_usage limit accounts installations db st sid :
  server_reachable limit accounts installations db -> (usage st sid db <= effectiveLimit limit)%Z.
Proof.
  intros R. assert (Hi : forall a b, rtc (server_step limit) a b -> db_wf a -> (usage st sid a <= effectiveLimit limit)%Z ->
    (usage st sid b <= effectiveLimit limit)%Z).
  { induction 1 as [|a b c S _ IH]; [done|]. intros W Hu.
    apply IH; [exact (db_step_wf _ _ (server_db_step _ _ _ S) W)|by eapply server_step_usage]. }
  apply (Hi _ _ R (empty_db_wf _ _)). unfold usage. rewrite cnt_zero; [unfold effectiveLimit; case_match; lia|].
  intros id r Hr. cbn [empty_db db_deployments] in Hr. by rewrite lookup_empty in Hr.
Qed.
