(* ===== verification/DeployQueries.v ===== *)
(** * Reads of the deployment store
    (internal/state/deployments.go, deployment_revisions.go)

    The scheduler's keyset pages per lane, the account and repository lists with their
    status counts, the repository navigation, the revisions of a deployment and the pages
    of its events.  Each read sees one state of the tables.  A listed deployment is paired
    with its ContextRevision. *)

From stdpp Require Import base gmap list strings sorting pretty.
From S2P Require Import Prelude GoStrings Query RunnerModel RunnerQueries DeployModel DeployStore DeployLog DeployInvariant.
From Stdlib Require Import Ascii.

(** ** Options *)

Record DeploymentListOptions := MkDeploymentListOptions {
  dlo_RepositoryFullName : string;
  dlo_Ref : string;
  dlo_CommitSHA : string;
  dlo_Status : string;
  dlo_Limit : Z;
  dlo_Offset : Z
}.

Definition normalizeDeploymentPagination (options : DeploymentListOptions) : result (Z * Z) :=
  let limit := if (dlo_Limit options =? 0)%Z then 100%Z else dlo_Limit options in
  if (limit <? 0)%Z || (500 <? limit)%Z || (dlo_Offset options <? 0)%Z
  then Err (ErrText "deployment pagination is invalid") else Ok (limit, dlo_Offset options).

(** The statuses of a public group, or none for an unknown group. *)
Definition group_statuses (group : string) : option (list DeploymentStatus) :=
  if bool_decide (group = "running") then Some [DeploymentStatusRunning]
  else if bool_decide (group = "processing") then
    Some [DeploymentStatusQueued; DeploymentStatusPlanning; DeploymentStatusCreating; DeploymentStatusStopping]
  else if bool_decide (group = "stopped") then Some [DeploymentStatusCompleted; DeploymentStatusExpired]
  else if bool_decide (group = "failed") then Some [DeploymentStatusFailed]
  else None.

(** The loop over the groups, with the groups already seen. *)
Fixpoint collectStatuses (seen groups : list string) : result (list DeploymentStatus) :=
  match groups with
  | [] => Ok []
  | group :: groups =>
      if bool_decide (group ∈ seen) then Err (ErrText "invalid deployment status filter")
      else
        match group_statuses group with
        | None => Err (ErrText "invalid deployment status filter")
        | Some l => let? rest := collectStatuses (group :: seen) groups in Ok (l ++ rest)
        end
  end.

Definition DeploymentListStatusValues (status : string) : result (list DeploymentStatus) :=
  if bool_decide (status = "") || bool_decide (status = "all") then Ok []
  else collectStatuses [] (Split status ",").

(** ** The list query *)

Definition authorizedDeploymentRepositories (access : list GitHubInstallationRepositoryAccess)
    (r : deploymentRecord) : bool :=
  existsb (fun item => (dr_GitHubInstallationID r =? acc_InstallationID item)%Z
                       && bool_decide (ToLower (dr_RepositoryFullName r) ∈ acc_Repositories item))
    (normalizeGitHubInstallationRepositoryAccess access).

Definition deploymentRevisionListQuery (options : DeploymentListOptions) (r : deploymentRevisionRecord) : bool :=
  (bool_decide (dlo_Ref options = "") || bool_decide (rv_Ref r = dlo_Ref options))
  && (bool_decide (dlo_CommitSHA options = "") || bool_decide (rv_CommitSHA r = dlo_CommitSHA options)).

Definition matchingRevision (options : DeploymentListOptions) : bool :=
  negb (bool_decide (dlo_Ref options = "")) || negb (bool_decide (dlo_CommitSHA options = "")).

(** The revisions of a deployment, newest first. *)
Abbreviation newest_le := (onle rv_Number (desc Z.le)).
Definition revisions_of (id : string) (p : deploymentRevisionRecord -> bool) (db : deploymentDB)
    : list deploymentRevisionRecord :=
  merge_sort newest_le (List.filter p ((map_to_list (filter (fun kr => kr.1.1 = id) (db_revisions db))).*2)).

Definition deploymentListQuery (db : deploymentDB) (accountID : Z) (access : list GitHubInstallationRepositoryAccess)
    (authorized : bool) (options : DeploymentListOptions) (r : deploymentRecord) : bool :=
  (authorized || (dr_AccountID r =? accountID)%Z)
  && (bool_decide (dlo_RepositoryFullName options = "")
      || bool_decide (ToLower (dr_RepositoryFullName r) = ToLower (dlo_RepositoryFullName options)))
  && (negb (matchingRevision options)
      || negb (bool_decide (revisions_of (dr_ID r) (deploymentRevisionListQuery options) db = [])))
  && (negb authorized || authorizedDeploymentRepositories access r).

(** ORDER BY created_at DESC, id DESC, within the active classes in the view of all. *)
Definition class_rank (s : DeploymentStatus) : Z :=
  match s with
  | DeploymentStatusRunning => 0
  | DeploymentStatusQueued | DeploymentStatusPlanning | DeploymentStatusCreating | DeploymentStatusStopping => 1
  | _ => 2
  end.
Definition newest_key (r : deploymentRecord) : Time * string := (dr_CreatedAt r, dr_ID r).
Abbreviation list_le := (onle newest_key (lexle (desc Z.le) (desc String.le))).
Definition class_key (r : deploymentRecord) : Z * (Time * string) := (class_rank (dr_Status r), newest_key r).
Abbreviation all_le := (onle class_key (lexle Z.le (lexle (desc Z.le) (desc String.le)))).

Definition ordered (options : DeploymentListOptions) (p : deploymentRecord -> bool) (db : deploymentDB)
    : list deploymentRecord :=
  if bool_decide (dlo_Status options = "") || bool_decide (dlo_Status options = "all")
  then select all_le p (db_deployments db) else select list_le p (db_deployments db).

(** One listed row: with a source filter, its newest matching revision goes along. *)
Definition contextDeployment (options : DeploymentListOptions) (db : deploymentDB) (record : deploymentRecord)
    : result (Deployment * option DeploymentRevision) :=
  if matchingRevision options then
    match revisions_of (dr_ID record) (deploymentRevisionListQuery options) db with
    | [] => Err ErrNotFound
    | revision :: _ => Ok (deploymentFromRecord record, Some (revisionFromRecord revision record))
    end
  else Ok (deploymentFromRecord record, None).

Fixpoint mapM_result {A B} (f : A -> result B) (l : list A) : result (list B) :=
  match l with
  | [] => Ok []
  | x :: l => let? y := f x in let? ys := mapM_result f l in Ok (y :: ys)
  end.

Definition loadDeploymentPage (db : deploymentDB) (query : deploymentRecord -> bool) (limit offset : Z)
    (options : DeploymentListOptions) : result (list (Deployment * option DeploymentRevision)) :=
  mapM_result (contextDeployment options db)
    (take (Z.to_nat limit) (drop (Z.to_nat offset) (ordered options query db))).

(** WHERE status IN statuses, when there are any. *)
Definition status_filter (statuses : list DeploymentStatus) (r : deploymentRecord) : bool :=
  bool_decide (statuses = []) || dstatus_in statuses (dr_Status r).

Definition listDeploymentsForAccount (accountID : Z) (access : list GitHubInstallationRepositoryAccess) (authorized : bool)
    (options : DeploymentListOptions) (db : deploymentDB) : result (list (Deployment * option DeploymentRevision) * Z) :=
  if negb authorized && (accountID <=? 0)%Z then Err (ErrText "account id must be positive")
  else
    let? (limit, offset) := normalizeDeploymentPagination options in
    let? statuses := DeploymentListStatusValues (dlo_Status options) in
    let query r := deploymentListQuery db accountID access authorized options r && status_filter statuses r in
    let total := Z.of_nat (Count query (db_deployments db)) in
    let? items := loadDeploymentPage db query limit offset options in
    Ok (items, total).

Definition ListDeploymentsForAccount (accountID : Z) := listDeploymentsForAccount accountID [] false.
Definition ListAuthorizedDeployments (access : list GitHubInstallationRepositoryAccess) :=
  listDeploymentsForAccount 0 access true.

(** ** Counts by status *)

Record DeploymentStatusCounts := MkCounts {
  ct_All : Z; ct_Running : Z; ct_Processing : Z; ct_Stopped : Z; ct_Failed : Z
}.

#[export] Instance rebuild_DeploymentStatusCounts : Rebuild DeploymentStatusCounts := fun r =>
  MkCounts (ct_All r) (ct_Running r) (ct_Processing r) (ct_Stopped r) (ct_Failed r).

(** SELECT status, COUNT(star) ... GROUP BY status. *)
Definition status_groups (p : deploymentRecord -> bool) (db : deploymentDB) : list (DeploymentStatus * Z) :=
  let found := List.filter p (rows (db_deployments db)) in
  map (fun s => (s, Z.of_nat (countb (fun r => bool_decide (dr_Status r = s)) found))) (remove_dups (dr_Status <$> found)).

Definition addGroup (counts : DeploymentStatusCounts) (group : DeploymentStatus * Z) : DeploymentStatusCounts :=
  let counts := counts <| ct_All := (ct_All counts + group.2)%Z |> in
  match group.1 with
  | DeploymentStatusRunning => counts <| ct_Running := (ct_Running counts + group.2)%Z |>
  | DeploymentStatusQueued | DeploymentStatusPlanning | DeploymentStatusCreating | DeploymentStatusStopping =>
      counts <| ct_Processing := (ct_Processing counts + group.2)%Z |>
  | DeploymentStatusCompleted | DeploymentStatusExpired => counts <| ct_Stopped := (ct_Stopped counts + group.2)%Z |>
  | DeploymentStatusFailed => counts <| ct_Failed := (ct_Failed counts + group.2)%Z |>
  | DeploymentStatusOther _ => counts
  end.

Definition CountAuthorizedDeploymentsByStatus (access : list GitHubInstallationRepositoryAccess)
    (options : DeploymentListOptions) (db : deploymentDB) : DeploymentStatusCounts :=
  foldl addGroup (MkCounts 0 0 0 0 0) (status_groups (deploymentListQuery db 0 access true options) db).

(** The count of one public group. *)
Definition group_count (counts : DeploymentStatusCounts) (group : string) : Z :=
  if bool_decide (group = "running") then ct_Running counts
  else if bool_decide (group = "processing") then ct_Processing counts
  else if bool_decide (group = "stopped") then ct_Stopped counts
  else if bool_decide (group = "failed") then ct_Failed counts
  else 0%Z.

Definition ListAuthorizedDeploymentsWithCounts (access : list GitHubInstallationRepositoryAccess)
    (options : DeploymentListOptions) (db : deploymentDB)
    : result (list (Deployment * option DeploymentRevision) * Z * DeploymentStatusCounts) :=
  let? (limit, offset) := normalizeDeploymentPagination options in
  let? statuses := DeploymentListStatusValues (dlo_Status options) in
  let counts := CountAuthorizedDeploymentsByStatus access options db in
  let total := if bool_decide (statuses = []) then ct_All counts
               else foldl (fun n group => (n + group_count counts group)%Z) 0%Z (Split (dlo_Status options) ",") in
  let query r := deploymentListQuery db 0 access true options r && status_filter statuses r in
  let? items := loadDeploymentPage db query limit offset options in
  Ok (items, total, counts).

(** ** Pages of scheduled work *)

(** [id > afterID] *)
Definition after (afterID : string) (r : deploymentRecord) : bool := negb (bool_decide (String.le (dr_ID r) afterID)).

Abbreviation id_le := (onle dr_ID String.le).

Definition provision_work (now : Time) (r : deploymentRecord) : bool :=
  dstatus_in [DeploymentStatusQueued; DeploymentStatusPlanning; DeploymentStatusCreating] (dr_Status r)
  && (now <? dr_ExpiresAt r)%Z.
Definition monitor_work (now : Time) (r : deploymentRecord) : bool :=
  bool_decide (dr_Status r = DeploymentStatusRunning) && (now <? dr_ExpiresAt r)%Z.
Definition stopping_work (r : deploymentRecord) : bool := bool_decide (dr_Status r = DeploymentStatusStopping).
Definition failed_work (r : deploymentRecord) : bool :=
  bool_decide (dr_Status r = DeploymentStatusFailed) && negb (bool_decide (dr_SandboxID r = "")).
Definition expired_work (now : Time) (r : deploymentRecord) : bool :=
  dstatus_in [DeploymentStatusQueued; DeploymentStatusPlanning; DeploymentStatusCreating; DeploymentStatusRunning]
    (dr_Status r) && (dr_ExpiresAt r <=? now)%Z.
Definition active_work (r : deploymentRecord) : bool := dstatus_in activeDeploymentStatuses (dr_Status r).

(** One bounded branch of the union. *)
Definition workIDs (afterID : string) (limit : Z) (db : deploymentDB) (p : deploymentRecord -> bool) : list string :=
  dr_ID <$> take (Z.to_nat (limit + 1)) (select id_le (fun r => p r && after afterID r) (db_deployments db)).

(** The predicate of a kind. *)
Definition workQuery (kind afterID : string) (limit : Z) (now : Time) (db : deploymentDB)
    : option (deploymentRecord -> bool) :=
  let candidates branches r := bool_decide (dr_ID r ∈ concat (map (workIDs afterID limit db) branches)) in
  if bool_decide (kind = "provision") then Some (provision_work now)
  else if bool_decide (kind = "monitor") then Some (monitor_work now)
  else if bool_decide (kind = "cleanup") then Some (candidates [stopping_work; failed_work; expired_work now])
  else if bool_decide (kind = "all") then Some (candidates [active_work; failed_work])
  else None.

Definition ListDeploymentWork (kind afterID : string) (limit : Z) (now : Time) (db : deploymentDB)
    : result (list Deployment * bool) :=
  if (limit <=? 0)%Z || (100 <? limit)%Z || IsZero now then Err (ErrText "invalid deployment work page")
  else
    match workQuery kind afterID limit now db with
    | None => Err (ErrText "invalid deployment work kind")
    | Some p =>
        let query r := p r && (bool_decide (afterID = "") || after afterID r) in
        let records := take (Z.to_nat (limit + 1)) (select id_le query (db_deployments db)) in
        let more := (limit <? Z.of_nat (length records))%Z in
        let records := if more then take (Z.to_nat limit) records else records in
        Ok (map deploymentFromRecord records, more)
    end.

Definition ListActiveDeployments (now : Time) (db : deploymentDB) : result (list Deployment) :=
  let? (items, _) := ListDeploymentWork "all" "" 100 now db in Ok items.

(** ** Revisions and events *)

(** [min(max(limit, 1), top)] *)
Definition clamp (limit top : Z) : Z := Z.min (Z.max limit 1) top.

Definition ListDeploymentRevisions (id : string) (beforeNumber limit : Z) (db : deploymentDB)
    : result (list DeploymentRevision * bool) :=
  let id := TrimSpace id in
  if bool_decide (id = "") then Err (ErrText "deployment id is required")
  else
    match db_deployments db !! id with
    | None => Err ErrNotFound
    | Some identity =>
        let limit := clamp limit 100 in
        let found := revisions_of id (fun r => (beforeNumber <=? 0)%Z || (rv_Number r <? beforeNumber)%Z) db in
        let page := take (Z.to_nat (limit + 1)) found in
        let more := (limit <? Z.of_nat (length page))%Z in
        let page := if more then take (Z.to_nat limit) page else page in
        Ok (map (fun r => revisionFromRecord r identity) page, more)
    end.

Definition LastSuccessfulDeploymentRevisionNumber (id : string) (db : deploymentDB) : Z :=
  match revisions_of id (fun r => match rv_RunningAt r with Some _ => true | None => false end) db with
  | [] => 0
  | r :: _ => rv_Number r
  end.

Definition listDeploymentEvents (id : string) (revisionNumber beforeID afterID limit : Z) (db : deploymentDB)
    : result (list DeploymentEvent * bool) :=
  let id := TrimSpace id in
  if bool_decide (id = "") || (128 <? len id)%Z || hasControl id then Err (ErrText "deployment id is invalid")
  else
    let limit := clamp limit 500 in
    let query e := bool_decide (ev_DeploymentID e = id)
                   && ((revisionNumber <=? 0)%Z || (ev_RevisionNumber e =? revisionNumber)%Z)
                   && ((beforeID <=? 0)%Z || (ev_ID e <? beforeID)%Z)
                   && ((afterID <=? 0)%Z || (afterID <? ev_ID e)%Z) in
    let found := List.filter query (db_events db) in
    let records := take (Z.to_nat (limit + 1)) (if (0 <? afterID)%Z then found else rev found) in
    let hasMore := (limit <? Z.of_nat (length records))%Z in
    let records := if hasMore then take (Z.to_nat limit) records else records in
    Ok (if (afterID =? 0)%Z then rev records else records, hasMore).

Definition ListDeploymentEvents (id : string) (beforeID limit : Z) := listDeploymentEvents id 0 beforeID 0 limit.
Definition ListDeploymentEventsAfter (id : string) (afterID limit : Z) := listDeploymentEvents id 0 0 afterID limit.

Definition ListDeploymentRevisionEvents (id : string) (number beforeID afterID limit : Z) (db : deploymentDB)
    : result (list DeploymentEvent * bool) :=
  let? _ := GetDeploymentRevision id number db in
  listDeploymentEvents id number beforeID afterID limit db.

(** ** The lanes of the scheduler *)

(** What each kind of page means, without the bounded branches. *)
Definition lane (kind : string) (now : Time) : option (deploymentRecord -> bool) :=
  if bool_decide (kind = "provision") then Some (provision_work now)
  else if bool_decide (kind = "monitor") then Some (monitor_work now)
  else if bool_decide (kind = "cleanup") then Some (fun r => stopping_work r || failed_work r || expired_work now r)
  else if bool_decide (kind = "all") then Some (fun r => active_work r || failed_work r)
  else None.

Lemma id_le_anti db id1 id2 x y :
  db_wf db -> db_deployments db !! id1 = Some x -> db_deployments db !! id2 = Some y -> id_le x y -> id_le y x -> x = y.
Proof.
  intros W Hx Hy H1 H2. unfold onle in *. assert (E : dr_ID x = dr_ID y) by (by apply string_le_antisym).
  rewrite (dwf_id _ _ _ (wf_deployments _ W _ _ Hx)), (dwf_id _ _ _ (wf_deployments _ W _ _ Hy)) in E. congruence.
Qed.

Lemma select_refine_id db p q :
  db_wf db -> select id_le (fun r => p r && q r) (db_deployments db) = List.filter q (select id_le p (db_deployments db)).
Proof. intros W. apply (select_refine id_le). intros id1 id2 x y. by apply id_le_anti. Qed.

Lemma select_ext {R} (le : relation R) `{!RelDecision le} (p q : R -> bool) (t : gmap string R) :
  (forall id r, t !! id = Some r -> p r = q r) -> select le p t = select le q t.
Proof.
  intros H. unfold select. f_equal. apply bfilter_ext. intros r [id Hr]%elem_of_rows. eauto.
Qed.

(** A bounded union of branches has the first rows of the whole union. *)
Lemma bounded_union db n branches p aft :
  db_wf db -> (forall r, p r = existsb (fun b => b r) branches) ->
  let ids := concat (map (fun b => dr_ID <$> take n (select id_le (fun r => b r && aft r) (db_deployments db))) branches) in
  take n (select id_le (fun r => bool_decide (dr_ID r ∈ ids) && aft r) (db_deployments db)) =
  take n (select id_le (fun r => p r && aft r) (db_deployments db)).
Proof.
  intros W Hp ids. set (L := select id_le (fun r => p r && aft r) (db_deployments db)).
  assert (Hin : forall id r, db_deployments db !! id = Some r -> dr_ID r ∈ ids ->
    exists b, b ∈ branches /\ r ∈ take n (select id_le (fun r => b r && aft r) (db_deployments db))).
  { intros id r Hr Hid. apply elem_of_concat_map in Hid as (b & Hb & Hid). exists b. split; [done|].
    apply list_elem_of_fmap in Hid as (r' & E & Hr'). pose proof Hr' as Hs.
    apply elem_of_take in Hs as (i & Hi & _). apply list_elem_of_lookup_2, elem_of_select in Hi as [(id' & Hid') _].
    rewrite (dwf_id _ _ _ (wf_deployments _ W _ _ Hr)), (dwf_id _ _ _ (wf_deployments _ W _ _ Hid')) in E. congruence. }
  transitivity (take n (List.filter (fun r => bool_decide (dr_ID r ∈ ids)) L)).
  - f_equal. unfold L. rewrite <- select_refine_id by done. apply select_ext. intros id r Hr.
    destruct (bool_decide (dr_ID r ∈ ids)) eqn:E; [|by rewrite andb_false_r]. rewrite andb_true_r. simpl.
    bool_prop. destruct (Hin _ _ Hr E) as (b & Hb & Hs).
    apply elem_of_take in Hs as (i & Hi & _). apply list_elem_of_lookup_2, elem_of_select in Hi as [_ Hi].
    apply andb_true_iff in Hi as [Hi1 Hi2]. rewrite Hp, Hi2, andb_true_r. symmetry. apply existsb_exists.
    exists b. split; [by apply list_elem_of_In|done].
  - apply take_bfilter. intros r Hr. apply bool_decide_eq_true_2, elem_of_concat_map.
    pose proof Hr as HL. apply elem_of_take in HL as (i & Hi & _). apply list_elem_of_lookup_2, elem_of_select in Hi as [_ Hi].
    apply andb_true_iff in Hi as [Hi1 Hi2]. rewrite Hp in Hi1. apply existsb_exists in Hi1 as (b & Hb & Hbr).
    exists b. split; [by apply list_elem_of_In|]. apply list_elem_of_fmap. exists r. split; [done|].
    apply (elem_of_take_bfilter b) in Hr; [|done]. unfold L in Hr. rewrite <- select_refine_id in Hr by done.
    erewrite select_ext; [exact Hr|]. intros id x _. cbv beta. rewrite Hp.
    destruct (b x) eqn:Eb; [|by rewrite andb_false_r]. rewrite andb_true_r. simpl.
    rewrite (proj2 (existsb_exists (fun b => b x) branches)); [done|]. by exists b.
Qed.

Lemma after_empty db id r : db_wf db -> db_deployments db !! id = Some r -> after "" r = true.
Proof.
  intros W Hr. unfold after. apply negb_true_iff, bool_decide_eq_false_2.
  rewrite (dwf_id _ _ _ (wf_deployments _ W _ _ Hr)). pose proof (dwf_nonempty _ _ _ (wf_deployments _ W _ _ Hr)).
  destruct id; [done|]. intros Hle. unfold String.le in Hle. cbn in Hle. done.
Qed.

(** A page: the first rows of the lane after the cursor, and whether there are more. *)
Lemma ListDeploymentWork_spec kind afterID limit now db p :
  db_wf db -> (0 < limit <= 100)%Z -> now <> 0%Z -> lane kind now = Some p ->
  let L := select id_le (fun r => p r && after afterID r) (db_deployments db) in
  ListDeploymentWork kind afterID limit now db =
  Ok (map deploymentFromRecord (take (Z.to_nat limit) L), (limit <? Z.of_nat (length L))%Z).
Proof.
  intros W Hl Hn Hp L. unfold ListDeploymentWork.
  replace (limit <=? 0)%Z with false by (symmetry; lia). replace (100 <? limit)%Z with false by (symmetry; lia).
  rewrite (proj2 (IsZero_false now) Hn). cbn [orb].
  assert (Hpage : forall q, (take (Z.to_nat (limit + 1)) (select id_le (fun r => q r && after afterID r) (db_deployments db)) =
                             take (Z.to_nat (limit + 1)) L) ->
    take (Z.to_nat (limit + 1)) (select id_le (fun r => q r && (bool_decide (afterID = "") || after afterID r)) (db_deployments db)) =
    take (Z.to_nat (limit + 1)) L).
  { intros q <-. f_equal. apply select_ext. intros id r Hr. f_equal.
    destruct (bool_decide (afterID = "")) eqn:E; [|done]. bool_prop. subst afterID. by rewrite (after_empty db id). }
  assert (Hq : exists q, workQuery kind afterID limit now db = Some q /\
    take (Z.to_nat (limit + 1)) (select id_le (fun r => q r && after afterID r) (db_deployments db)) =
    take (Z.to_nat (limit + 1)) L).
  { unfold workQuery, lane in *. cbv zeta.
    destruct (bool_decide (kind = "provision")); [injection Hp as <-; by eexists|].
    destruct (bool_decide (kind = "monitor")); [injection Hp as <-; by eexists|].
    destruct (bool_decide (kind = "cleanup")); [injection Hp as <-|].
    { eexists. split; [reflexivity|].
      apply (bounded_union db (Z.to_nat (limit + 1)) [stopping_work; failed_work; expired_work now]); [done|].
      intros r. cbn [existsb]. by rewrite orb_false_r, orb_assoc. }
    destruct (bool_decide (kind = "all")); [injection Hp as <-|done].
    eexists. split; [reflexivity|].
    apply (bounded_union db (Z.to_nat (limit + 1)) [active_work; failed_work]); [done|].
    intros r. cbn [existsb]. by rewrite orb_false_r. }
  destruct Hq as (q & -> & Hq). cbv zeta. rewrite (Hpage q Hq). rewrite length_take.
  replace (limit <? Z.of_nat (Z.to_nat (limit + 1) `min` length L))%Z with (limit <? Z.of_nat (length L))%Z
    by (apply eq_true_iff_eq; rewrite !Z.ltb_lt; lia).
  f_equal. f_equal. f_equal. destruct (limit <? _)%Z eqn:E.
  - rewrite take_take. f_equal. lia.
  - rewrite !take_ge by lia. done.
Qed.

(** A scheduling pass over one lane: page after page, each from the last id of the one
    before. *)
Fixpoint workWalk (fuel : nat) (kind afterID : string) (limit : Z) (now : Time) (db : deploymentDB) : result (list Deployment) :=
  match fuel with
  | O => Err (ErrText "out of fuel")
  | S fuel =>
      let? (page, more) := ListDeploymentWork kind afterID limit now db in
      match more, last page with
      | true, Some d => let? rest := workWalk fuel kind (d_ID d) limit now db in Ok (page ++ rest)
      | _, _ => Ok page
      end
  end.

(** Rows after the last one of a prefix. *)
Lemma after_prefix db p afterID n x :
  db_wf db ->
  let L := select id_le (fun r => p r && after afterID r) (db_deployments db) in
  last (take n L) = Some x ->
  select id_le (fun r => p r && after (dr_ID x) r) (db_deployments db) = drop n L.
Proof.
  intros W L Hx.
  assert (HL : forall r, r ∈ L -> (exists id, db_deployments db !! id = Some r) /\ p r = true /\ after afterID r = true).
  { intros r [Hr Hb]%elem_of_select. by apply andb_true_iff in Hb. }
  assert (Hxin : x ∈ take n L) by (apply last_Some in Hx as [l ->]; apply elem_of_app; right; left).
  assert (Hsub : forall r, r ∈ take n L -> r ∈ L) by (intros r Hr; rewrite <- (take_drop n L); apply elem_of_app; by left).
  destruct (HL x (Hsub x Hxin)) as (_ & _ & Hxa).
  transitivity (List.filter (after (dr_ID x)) L).
  { unfold L. rewrite <- select_refine_id by done. apply select_ext. intros id r _.
    destruct (p r) eqn:Ep; [|done]. simpl. destruct (after (dr_ID x) r) eqn:Ea; [|by rewrite andb_false_r].
    rewrite andb_true_r. symmetry. unfold after in *. bool_prop. apply negb_true_iff, bool_decide_eq_false_2.
    intros Hle. apply Ea. destruct (total String.le (dr_ID r) (dr_ID x)) as [|Hxr]; [done|]. exfalso. apply Hxa. by etrans. }
  assert (Hs : StronglySorted id_le L) by (apply select_sorted; apply _).
  assert (Hnd : NoDup (dr_ID <$> L)).
  { apply (NoDup_select_key dr_ID). intros id r Hr. exact (dwf_id _ _ _ (wf_deployments _ W _ _ Hr)). }
  rewrite <- (take_drop n L) in Hs, Hnd. rewrite fmap_app in Hnd.
  rewrite <- (take_drop n L) at 1. rewrite List.filter_app, bfilter_none, bfilter_all; [done|..].
  - intros r Hr. unfold after. apply negb_true_iff, bool_decide_eq_false_2. intros Hle.
    apply NoDup_app in Hnd as (_ & Hdis & _). apply (Hdis (dr_ID x)); [apply list_elem_of_fmap; by exists x|].
    apply list_elem_of_fmap. exists r. split; [|done]. apply string_le_antisym; [|done].
    apply (StronglySorted_app_1_elem_of id_le _ _ x r Hs Hxin Hr).
  - intros r Hr. unfold after. apply negb_false_iff, bool_decide_eq_true_2.
    apply last_Some in Hx as [l El]. rewrite El in Hs, Hr. apply StronglySorted_app_1_l in Hs.
    apply elem_of_app in Hr as [Hr|Hr].
    + apply (StronglySorted_app_1_elem_of id_le _ _ r x Hs Hr). left.
    + apply list_elem_of_singleton in Hr as ->. reflexivity.
Qed.

Lemma workWalk_spec fuel kind afterID limit now db p :
  db_wf db -> (0 < limit <= 100)%Z -> now <> 0%Z -> lane kind now = Some p ->
  let L := select id_le (fun r => p r && after afterID r) (db_deployments db) in
  length L < fuel -> workWalk fuel kind afterID limit now db = Ok (map deploymentFromRecord L).
Proof.
  intros W Hl Hn Hp. revert afterID. induction fuel as [|fuel IH]; intros afterID L Hf; [lia|]. cbn [workWalk].
  rewrite (ListDeploymentWork_spec kind afterID limit now db p W Hl Hn Hp). fold L. cbn [result_bind].
  destruct (limit <? Z.of_nat (length L))%Z eqn:Em.
  - destruct (last (take (Z.to_nat limit) L)) as [x|] eqn:Ex.
    + rewrite fmap_last, Ex. cbn [fmap option_fmap option_map].
      specialize (IH (dr_ID x)). cbv zeta in IH.
      rewrite (after_prefix db p afterID (Z.to_nat limit) x W Ex) in IH. fold L in IH.
      change (d_ID (deploymentFromRecord x)) with (dr_ID x). rewrite IH by (rewrite length_drop; lia).
      cbn [result_bind]. by rewrite <- map_app, take_drop.
    + apply last_None in Ex. apply (f_equal length) in Ex. rewrite length_take in Ex. simpl in Ex. lia.
  - by rewrite take_ge by lia.
Qed.

(** Which lane a row is in. *)
Lemma lanes_partition now r :
  (Z.b2z (provision_work now r) + Z.b2z (monitor_work now r) +
   Z.b2z (stopping_work r || failed_work r || expired_work now r) = Z.b2z (occupies r))%Z /\
  (active_work r || failed_work r) = occupies r.
Proof.
  split; [|done]. unfold provision_work, monitor_work, stopping_work, failed_work, expired_work, occupies, dstatus_in.
  destruct (dr_Status r); repeat (rewrite bool_decide_eq_true_2 by set_solver || rewrite bool_decide_eq_false_2 by set_solver);
    cbn [orb andb negb]; rewrite ?orb_false_r, ?andb_false_l; cbn [orb andb];
    try destruct (bool_decide (dr_SandboxID r = "")); cbn;
    try destruct (Z.ltb_spec now (dr_ExpiresAt r)), (Z.leb_spec (dr_ExpiresAt r) now); try lia; reflexivity.
Qed.

(** Every deployment that needs attention is scheduled, once, in one lane.  For any
    page size from 1 to 100, walking a lane's pages from the empty cursor ends and lists,
    by id and without repetition, exactly the rows of the lane, although the cleanup and
    "all" queries only read a bounded number of candidates per branch; and at any time a
    deployment that holds a place of its scope's quota is in exactly one of the lanes
    provision, monitor and cleanup, while any other is in none. *)
Theorem work_walk_complete limit now db :
  db_wf db -> (0 < limit <= 100)%Z -> now <> 0%Z ->
  (forall kind p, lane kind now = Some p ->
     let L := select id_le p (db_deployments db) in
     workWalk (S (length L)) kind "" limit now db = Ok (map deploymentFromRecord L) /\ NoDup (dr_ID <$> L) /\
     forall r, r ∈ L <-> r ∈ rows (db_deployments db) /\ p r = true) /\
  (forall p1 p2 p3, lane "provision" now = Some p1 -> lane "monitor" now = Some p2 -> lane "cleanup" now = Some p3 ->
     forall r, (Z.b2z (p1 r) + Z.b2z (p2 r) + Z.b2z (p3 r) = Z.b2z (occupies r))%Z).
Proof.
  intros W Hl Hn. split.
  - intros kind p Hp L.
    assert (E : select id_le (fun r => p r && after "" r) (db_deployments db) = L).
    { apply select_ext. intros id r Hr. rewrite (after_empty db id r W Hr). apply andb_true_r. }
    split; [|split].
    + rewrite <- E. apply (workWalk_spec _ kind "" limit now db p W Hl Hn Hp). cbv zeta. lia.
    + apply (NoDup_select_key dr_ID). intros id r Hr. exact (dwf_id _ _ _ (wf_deployments _ W _ _ Hr)).
    + intros r. unfold L. by rewrite elem_of_select, elem_of_rows.
  - intros p1 p2 p3 [= <-] [= <-] [= <-] r. apply lanes_partition.
Qed.

Lemma work_walk_complete_witness :
  exists d, workWalk 2 "provision" "" 1 500 sample_db = Ok [d] /\ d_ID d = "web-1".
Proof.
  assert (W : db_wf sample_db) by exact (db_reachable_wf _ _ _ sample_reachable).
  destruct (work_walk_complete 1 500 sample_db W) as [H _]; [lia|discriminate|].
  destruct (H "provision" (provision_work 500) eq_refl) as (H1 & _ & _). cbv zeta in H1.
  eexists. split; [etransitivity; [|etransitivity; [exact H1|vm_compute; reflexivity]]; vm_compute; reflexivity|].
  vm_compute. reflexivity.
Defined.

(** ** Totals *)

(** The counts of the aggregation. *)
Definition group_sum (p : DeploymentStatus -> bool) (groups : list (DeploymentStatus * Z)) : Z :=
  foldr (fun g n => ((if p g.1 then g.2 else 0) + n)%Z) 0%Z groups.

Definition in_group (group : string) (s : DeploymentStatus) : bool :=
  match group_statuses group with Some l => dstatus_in l s | None => false end.

Lemma addGroup_counts counts groups :
  let c := foldl addGroup counts groups in
  ct_All c = (ct_All counts + group_sum (fun _ => true) groups)%Z /\
  ct_Running c = (ct_Running counts + group_sum (in_group "running") groups)%Z /\
  ct_Processing c = (ct_Processing counts + group_sum (in_group "processing") groups)%Z /\
  ct_Stopped c = (ct_Stopped counts + group_sum (in_group "stopped") groups)%Z /\
  ct_Failed c = (ct_Failed counts + group_sum (in_group "failed") groups)%Z.
Proof.
  revert counts. induction groups as [|[s n] groups IH]; intros counts; cbv zeta; [cbn; lia|]. cbn [foldl].
  destruct (IH (addGroup counts (s, n))) as (-> & -> & -> & -> & ->).
  unfold group_sum. cbn [foldr fst snd]. fold (group_sum (fun _ => true) groups).
  destruct s;
    repeat match goal with
    | |- context [in_group ?g ?s] => let b := eval vm_compute in (in_group g s) in change (in_group g s) with b
    end; unfold addGroup; cbn; lia.
Qed.

Lemma group_sum_groups p q db :
  group_sum p (status_groups q db) = Z.of_nat (Count (fun r => q r && p (dr_Status r)) (db_deployments db)).
Proof.
  unfold Count, countb. rewrite bfilter_andb. fold (countb (fun r => p (dr_Status r)) (List.filter q (rows (db_deployments db)))).
  unfold status_groups. cbv zeta. set (l := List.filter q (rows (db_deployments db))).
  rewrite <- (sum_groups dr_Status p (remove_dups (dr_Status <$> l)) l).
  - induction (remove_dups (dr_Status <$> l)) as [|s ss IH]; [done|]. cbn [map group_sum foldr fst snd sum_list_with].
    unfold group_sum in IH. rewrite IH. destruct (p s); lia.
  - apply NoDup_remove_dups.
  - intros x Hx. apply elem_of_remove_dups, list_elem_of_fmap. eauto.
Qed.

Lemma group_count_spec access options db group :
  is_Some (group_statuses group) ->
  group_count (CountAuthorizedDeploymentsByStatus access options db) group =
  Z.of_nat (Count (fun r => deploymentListQuery db 0 access true options r && in_group group (dr_Status r)) (db_deployments db)).
Proof.
  intros Hg. unfold CountAuthorizedDeploymentsByStatus. rewrite <- group_sum_groups.
  set (q := deploymentListQuery db 0 access true options).
  destruct (addGroup_counts (MkCounts 0 0 0 0 0) (status_groups q db)) as (_ & H1 & H2 & H3 & H4).
  unfold group_count. unfold group_statuses in Hg.
  destruct (bool_decide (group = "running")) eqn:E1; [bool_prop; subst; exact H1|].
  destruct (bool_decide (group = "processing")) eqn:E2; [bool_prop; subst; exact H2|].
  destruct (bool_decide (group = "stopped")) eqn:E3; [bool_prop; subst; exact H3|].
  destruct (bool_decide (group = "failed")) eqn:E4; [bool_prop; subst; exact H4|]. by destruct Hg.
Qed.

(** Accepted groups are known, distinct, and their statuses are the filter. *)
Lemma collectStatuses_Ok seen groups l :
  collectStatuses seen groups = Ok l ->
  Forall (fun g => is_Some (group_statuses g)) groups /\ NoDup groups /\ (forall g, g ∈ groups -> g ∉ seen) /\
  (groups <> [] -> l <> []) /\
  forall s, dstatus_in l s = existsb (fun g => in_group g s) groups.
Proof.
  revert seen l. induction groups as [|g groups IH]; intros seen l; cbn [collectStatuses].
  { intros [= <-]. split; [constructor|]. split; [constructor|]. split; [intros ? H; by apply not_elem_of_nil in H|]. done. }
  destruct (bool_decide (g ∈ seen)) eqn:Es; [done|]. destruct (group_statuses g) as [gl|] eqn:Eg; [|done]. bool_prop.
  intros H. apply result_bind_Ok in H as (rest & H1 & [= <-]).
  destruct (IH _ _ H1) as (I1 & I2 & I3 & I4 & I5). split_and!.
  - constructor; [by rewrite Eg|done].
  - constructor; [|done]. intros Hg. apply (I3 g Hg). left.
  - intros g' [->|Hg]%elem_of_cons; [done|]. intros Hs. apply (I3 g' Hg). by right.
  - intros _ Hn. apply app_eq_nil in Hn as [Hn _]. subst gl. unfold group_statuses in Eg. repeat case_match; congruence.
  - intros s. cbn [existsb]. rewrite <- I5. unfold in_group. rewrite Eg. unfold dstatus_in.
    apply eq_true_iff_eq. rewrite orb_true_iff, !bool_decide_eq_true. apply elem_of_app.
Qed.

Lemma in_group_inj g g' s : in_group g s = true -> in_group g' s = true -> g = g'.
Proof.
  unfold in_group, group_statuses.
  repeat match goal with
  | |- context [bool_decide (?g = ?c)] => destruct (bool_decide (g = c)) eqn:?; [bool_prop; subst|]
  end; try done; destruct s; vm_compute; congruence.
Qed.

(** Summing the groups is counting the rows the filter admits. *)
Lemma group_totals (q : deploymentRecord -> bool) (f : string -> Z) t groups :
  NoDup groups ->
  (forall g, g ∈ groups -> f g = Z.of_nat (Count (fun r => q r && in_group g (dr_Status r)) t)) ->
  foldr (fun g n => (f g + n)%Z) 0%Z groups =
  Z.of_nat (Count (fun r => q r && existsb (fun g => in_group g (dr_Status r)) groups) t).
Proof.
  induction 1 as [|g groups Hg Hnd IH]; intros Hf; cbn [foldr existsb].
  - unfold Count. rewrite countb_zero; [done|]. intros r _. apply andb_false_r.
  - rewrite IH by (intros; apply Hf; by right). rewrite (Hf g) by left. unfold Count.
    rewrite (countb_split (fun r => q r && (in_group g (dr_Status r) || existsb (fun g => in_group g (dr_Status r)) groups))
               (fun r => in_group g (dr_Status r))).
    rewrite <- Nat2Z.inj_add. f_equal. f_equal; apply countb_ext; intros r _.
    + destruct (q r), (in_group g (dr_Status r)); simpl; by rewrite ?andb_false_r.
    + destruct (q r); [|done]. cbn [andb]. destruct (in_group g (dr_Status r)) eqn:E; cbn [orb negb];
        rewrite ?andb_true_r, ?andb_false_r; [|done].
      apply not_true_iff_false. intros (g' & Hg' & E')%existsb_exists. apply list_elem_of_In in Hg'.
      by rewrite (in_group_inj _ _ _ E E') in Hg.
Qed.

Lemma foldl_add_foldr (f : string -> Z) l n : foldl (fun n g => (n + f g)%Z) n l = (n + foldr (fun g n => (f g + n)%Z) 0%Z l)%Z.
Proof. revert n. induction l as [|x l IH]; intros n; cbn; [lia|]. rewrite IH. lia. Qed.

Lemma split_bytes_cons sep l : exists p ps, split_bytes sep l = p :: ps.
Proof.
  induction l as [|c l (p & ps & IH)]; cbn; [by do 2 eexists|].
  destruct (bool_decide (c = sep)); [by do 2 eexists|]. rewrite IH. by do 2 eexists.
Qed.

(** The list with counts is the plain list.  For every access list, options and
    database, ListAuthorizedDeploymentsWithCounts accepts and refuses exactly the options
    ListAuthorizedDeployments does, with the same page, and its total, summed from the
    per-status aggregation over the groups named in the filter, is the COUNT that the plain
    list runs. *)
Theorem counted_list_equivalence access options db :
  ListAuthorizedDeploymentsWithCounts access options db =
  (let? (items, total) := ListAuthorizedDeployments access options db in
   Ok (items, total, CountAuthorizedDeploymentsByStatus access options db)).
Proof.
  unfold ListAuthorizedDeploymentsWithCounts, ListAuthorizedDeployments, listDeploymentsForAccount. cbn [negb andb].
  destruct (normalizeDeploymentPagination options) as [[limit offset]|]; [|done]. cbn [result_bind].
  destruct (DeploymentListStatusValues (dlo_Status options)) as [statuses|] eqn:Es; [|done]. cbn [result_bind].
  cbv zeta. set (q := deploymentListQuery db 0 access true options).
  destruct (loadDeploymentPage db _ limit offset options) as [items|]; [|done]. cbn [result_bind].
  f_equal. f_equal. f_equal. unfold status_filter.
  destruct (bool_decide (statuses = [])) eqn:En.
  - unfold CountAuthorizedDeploymentsByStatus. fold q.
    destruct (addGroup_counts (MkCounts 0 0 0 0 0) (status_groups q db)) as (-> & _). cbn [ct_All orb].
    by rewrite group_sum_groups, Z.add_0_l.
  - unfold DeploymentListStatusValues in Es. destruct (_ || _); [injection Es as <-; by bool_prop|].
    destruct (collectStatuses_Ok _ _ _ Es) as (G1 & G2 & _ & _ & G5).
    rewrite foldl_add_foldr, Z.add_0_l.
    rewrite (group_totals q _ (db_deployments db) _ G2).
    + unfold Count. f_equal. apply countb_ext. intros r _. cbn [orb]. by rewrite G5.
    + intros g Hg. apply group_count_spec. by apply (proj1 (Forall_forall _ _) G1).
Qed.

(** ** What a user may list *)

(** The request's access list allows a row: a positive installation of the list, with the
    row's repository among its (trimmed, case-insensitive) repositories. *)
Definition allowed (access : list GitHubInstallationRepositoryAccess) (r : deploymentRecord) : Prop :=
  (0 < dr_GitHubInstallationID r)%Z /\
  exists item, item ∈ access /\ acc_InstallationID item = dr_GitHubInstallationID r /\
    ToLower (dr_RepositoryFullName r) ∈ uniqueLowerTrimmed (acc_Repositories item).

Lemma authorizedDeploymentRepositories_spec access r :
  authorizedDeploymentRepositories access r = true <-> allowed access r.
Proof.
  unfold allowed. rewrite <- elem_of_access_pairs. unfold authorizedDeploymentRepositories, access_pairs.
  rewrite existsb_exists, elem_of_concat_map. setoid_rewrite andb_true_iff. setoid_rewrite bool_decide_eq_true.
  split.
  - intros (item & Hi & Hz & Hr). exists item. split; [by apply list_elem_of_In|].
    apply list_elem_of_fmap. exists (ToLower (dr_RepositoryFullName r)). split; [f_equal; lia|done].
  - intros (item & Hi & Hr). apply list_elem_of_fmap in Hr as (s & [= E1 E2] & Hs). exists item.
    split; [by apply list_elem_of_In|]. split; [lia|by subst s].
Qed.

(** The newest of the revisions that match. *)
Definition newest_matching (options : DeploymentListOptions) (db : deploymentDB) (id : string) (r : deploymentRevisionRecord) : Prop :=
  db_revisions db !! (id, rv_Number r) = Some r /\ deploymentRevisionListQuery options r = true /\
  forall n r', db_revisions db !! (id, n) = Some r' -> deploymentRevisionListQuery options r' = true -> (n <= rv_Number r)%Z.

Lemma elem_of_revisions_of id p db r :
  db_wf db -> r ∈ revisions_of id p db <-> db_revisions db !! (id, rv_Number r) = Some r /\ p r = true.
Proof.
  intros W. unfold revisions_of. rewrite merge_sort_Permutation, elem_of_bfilter, list_elem_of_fmap.
  apply and_iff_compat_r. split.
  - intros ([[i n] r'] & -> & H). apply elem_of_map_to_list, map_lookup_filter_Some in H as [H E]. cbn in E |- *. subst i.
    by rewrite (rwf_number _ _ _ (wf_revisions _ W _ _ H)).
  - intros H. exists ((id, rv_Number r), r). split; [done|]. apply elem_of_map_to_list, map_lookup_filter_Some. done.
Qed.

Lemma revisions_of_head id options db r rs :
  db_wf db -> revisions_of id (deploymentRevisionListQuery options) db = r :: rs -> newest_matching options db id r.
Proof.
  intros W H. assert (Hin : forall x, x ∈ revisions_of id (deploymentRevisionListQuery options) db <-> _ /\ _)
    by (intros x; apply elem_of_revisions_of, W).
  assert (Hr : r ∈ revisions_of id (deploymentRevisionListQuery options) db) by (rewrite H; left).
  apply Hin in Hr as [H1 H2]. split; [done|]. split; [done|]. intros n r' Hn Hq.
  pose proof (rwf_number _ _ _ (wf_revisions _ W _ _ Hn)) as En. cbn in En.
  assert (Hr' : r' ∈ revisions_of id (deploymentRevisionListQuery options) db) by (apply Hin; rewrite En; done).
  assert (Hs : StronglySorted newest_le (revisions_of id (deploymentRevisionListQuery options) db))
    by (apply StronglySorted_merge_sort; apply _).
  rewrite H in Hs, Hr'. apply StronglySorted_inv in Hs as [_ Hall]. apply elem_of_cons in Hr' as [->|Hr']; [lia|].
  pose proof (proj1 (Forall_forall _ _) Hall r' Hr') as Hle. unfold onle, desc in Hle. lia.
Qed.

Lemma mapM_result_Ok {A B} (f : A -> result B) (g : A -> B -> Prop) l :
  (forall x, x ∈ l -> exists y, f x = Ok y /\ g x y) -> exists ys, mapM_result f l = Ok ys /\ Forall2 g l ys.
Proof.
  induction l as [|x l IH]; intros H; [by exists []|]. destruct (H x) as (y & Hy & Hg); [left|].
  destruct IH as (ys & Hys & Hgs); [intros; apply H; by right|]. exists (y :: ys). cbn. by rewrite Hy, Hys; repeat constructor.
Qed.

(** What a listed item shows of its row. *)
Definition shows (access : list GitHubInstallationRepositoryAccess) (options : DeploymentListOptions) (db : deploymentDB)
    (r : deploymentRecord) (item : Deployment * option DeploymentRevision) : Prop :=
  db_deployments db !! dr_ID r = Some r /\ allowed access r /\
  (dlo_RepositoryFullName options = "" \/ ToLower (dr_RepositoryFullName r) = ToLower (dlo_RepositoryFullName options)) /\
  item.1 = deploymentFromRecord r /\
  match item.2 with
  | Some c => matchingRevision options = true /\
      exists rv, c = revisionFromRecord rv r /\ newest_matching options db (dr_ID r) rv
  | None => matchingRevision options = false
  end.

Lemma ordered_elem options p db r : r ∈ ordered options p db <-> r ∈ rows (db_deployments db) /\ p r = true.
Proof.
  unfold ordered. destruct (_ || _).
  - rewrite (elem_of_select all_le). by rewrite elem_of_rows.
  - rewrite (elem_of_select list_le). by rewrite elem_of_rows.
Qed.

Lemma contextDeployment_Ok access options statuses db r :
  db_wf db -> r ∈ rows (db_deployments db) ->
  deploymentListQuery db 0 access true options r && status_filter statuses r = true ->
  exists item, contextDeployment options db r = Ok item /\ shows access options db r item.
Proof.
  intros W Hr H. apply (keyed_lookup dr_ID) in Hr;
    [|intros id x Hx; exact (dwf_id _ _ _ (wf_deployments _ W _ _ Hx))].
  apply andb_true_iff in H as [H _]. unfold deploymentListQuery in H. cbn [negb orb] in H.
  apply andb_true_iff in H as [H Ha]. apply andb_true_iff in H as [H Hm]. cbn [andb] in H.
  apply authorizedDeploymentRepositories_spec in Ha.
  assert (Hrepo : dlo_RepositoryFullName options = "" \/
    ToLower (dr_RepositoryFullName r) = ToLower (dlo_RepositoryFullName options)).
  { apply orb_true_iff in H as [H|H]; bool_prop; [by left|by right]. }
  unfold contextDeployment. destruct (matchingRevision options) eqn:Em.
  - cbn [negb orb] in Hm.
    destruct (revisions_of (dr_ID r) (deploymentRevisionListQuery options) db) as [|rv rvs] eqn:Erv; [done|].
    eexists. split; [reflexivity|]. split_and!; try done. cbn [snd]. split; [done|]. exists rv.
    split; [done|]. by eapply revisions_of_head.
  - eexists. split; [reflexivity|]. by split_and!.
Qed.

(** What a user may list.  A page of ListAuthorizedDeployments is refused only for its
    pagination or its status filter, never because a revision is missing; it has at most the
    requested number of rows; and each listed deployment is a row of the table whose
    repository the access list allows and the options ask for, shown as stored, together
    with, when a ref or a commit is asked for, the newest of its revisions that match it. *)
Theorem authorized_list_sound access options db :
  db_wf db ->
  match normalizeDeploymentPagination options, DeploymentListStatusValues (dlo_Status options) with
  | Ok (limit, offset), Ok statuses =>
      exists items rs, ListAuthorizedDeployments access options db =
          Ok (items, Z.of_nat (Count (fun r => deploymentListQuery db 0 access true options r && status_filter statuses r)
                                (db_deployments db))) /\
        (Z.of_nat (length items) <= limit)%Z /\ Forall2 (shows access options db) rs items /\
        Forall (fun r => status_filter statuses r = true) rs
  | Err e, _ | Ok _, Err e => ListAuthorizedDeployments access options db = Err e
  end.
Proof.
  intros W. unfold ListAuthorizedDeployments, listDeploymentsForAccount. cbn [negb andb].
  destruct (normalizeDeploymentPagination options) as [[limit offset]|] eqn:Ep; [|done]. cbn [result_bind].
  destruct (DeploymentListStatusValues (dlo_Status options)) as [statuses|]; [|done]. cbn [result_bind]. cbv zeta.
  set (q := fun r => deploymentListQuery db 0 access true options r && status_filter statuses r).
  unfold loadDeploymentPage. set (page := take _ _).
  assert (Hq : forall r, r ∈ page -> r ∈ rows (db_deployments db) /\ q r = true).
  { intros r Hr. apply ordered_elem with options. unfold page in Hr.
    apply elem_of_take in Hr as (i & Hi & _). apply list_elem_of_lookup_2 in Hi.
    rewrite <- (take_drop (Z.to_nat offset) (ordered options q db)). apply elem_of_app. by right. }
  destruct (mapM_result_Ok (contextDeployment options db) (shows access options db) page) as (items & H1 & H2).
  { intros r Hr. destruct (Hq r Hr) as [Hr1 Hr2]. by eapply contextDeployment_Ok. }
  rewrite H1. cbn [result_bind]. exists items, page. split; [done|]. split; [|split; [done|]].
  - rewrite <- (Forall2_length _ _ _ H2). unfold page. rewrite length_take.
    unfold normalizeDeploymentPagination in Ep. cbv zeta in Ep. inv_ok Ep. injection Ep as <- <-. bool_prop. lia.
  - apply Forall_forall. intros r Hr. destruct (Hq r Hr) as [_ Hr2]. by apply andb_true_iff in Hr2 as [_ Hr2].
Qed.

(** The sample deployment asked for by its ref, through an access list in another case. *)
Lemma authorized_list_sound_witness :
  exists items rs, ListAuthorizedDeployments [MkAccess 5 [" Octo/Site "]]
      (MkDeploymentListOptions "" "refs/heads/main" "" "processing" 0 0) sample_db = Ok (items, 1%Z) /\
    Forall2 (shows [MkAccess 5 [" Octo/Site "]] (MkDeploymentListOptions "" "refs/heads/main" "" "processing" 0 0) sample_db) rs items.
Proof.
  assert (W : db_wf sample_db) by exact (db_reachable_wf _ _ _ sample_reachable).
  pose proof (authorized_list_sound [MkAccess 5 [" Octo/Site "]]
    (MkDeploymentListOptions "" "refs/heads/main" "" "processing" 0 0) sample_db W) as H.
  assert (E1 : normalizeDeploymentPagination (MkDeploymentListOptions "" "refs/heads/main" "" "processing" 0 0) = Ok (100, 0)%Z)
    by reflexivity.
  assert (E2 : DeploymentListStatusValues "processing" =
    Ok [DeploymentStatusQueued; DeploymentStatusPlanning; DeploymentStatusCreating; DeploymentStatusStopping])
    by (vm_compute; reflexivity).
  rewrite E1 in H. cbn [dlo_Status] in H. rewrite E2 in H.
  destruct H as (items & rs & H1 & _ & H2 & _). exists items, rs. split; [|exact H2].
  lazymatch type of H1 with
  | _ = Ok (_, ?n) => assert (E3 : n = 1%Z) by (vm_compute; reflexivity); rewrite E3 in H1
  end. exact H1.
Defined.
