(* ===== verification/Program.v ===== *)
(** * Programs over events, and protocols that govern them

    A goroutine is a [tree] of events with one continuation per answer.  A
    [Protocol] says what a goroutine must know before it performs an event and
    what it knows afterwards, against an invariant of the shared world and of the
    knowledge of all goroutines.  [protocol_sound] turns a proof about each program
    alone ([wp]) into a fact about every interleaving of them with one another and
    with the environment. *)

From stdpp Require Import base gmap list relations.
From S2P Require Import Prelude.

(** ** Trees *)

Inductive tree (E : Type -> Type) (A : Type) : Type :=
| Done (a : A)
| Do {R : Type} (e : E R) (k : R -> tree E A).
Arguments Done {E A} _.
Arguments Do {E A R} _ _.

Fixpoint tbind {E A B} (p : tree E A) (f : A -> tree E B) : tree E B :=
  match p with
  | Done a => f a
  | Do e k => Do e (fun r => tbind (k r) f)
  end.

Definition perform {E R} (e : E R) : tree E R := Do e Done.

Notation "'let*' x := p 'in' q" := (tbind p (fun x => q))
  (at level 10, x pattern, p at level 100, q at level 200) : runner_scope.

(** A loop over a list that threads a state. *)
Fixpoint each {E A S} (f : S -> A -> tree E S) (s : S) (l : list A) : tree E S :=
  match l with
  | [] => Done s
  | x :: l => tbind (f s x) (fun s => each f s l)
  end.

(** ** Protocols *)

Class Protocol (E : Type -> Type) (World K : Type) := {
  (** What an event may answer, and the world it leaves. *)
  answers : forall {R}, E R -> World -> R -> World -> Prop;
  (** What the rest of the system may do, given what the goroutines know. *)
  environment : gmap nat K -> World -> World -> Prop;
  (** The obligation before an event, the answers a program must handle, and the
      knowledge after one. *)
  permitted : forall {R}, E R -> K -> Prop;
  expected : forall {R}, E R -> K -> R -> Prop;
  learned : forall {R}, E R -> K -> R -> K;
  (** The invariant. *)
  consistent : World -> gmap nat K -> Prop;
  ignorance : K;
  consistent_spawn : forall w ks i, consistent w ks -> ks !! i = None -> consistent w (<[i := ignorance]> ks);
  consistent_exit : forall w ks i, consistent w ks -> consistent w (delete i ks);
  consistent_environment : forall w w' ks, consistent w ks -> environment ks w w' -> consistent w' ks;
  consistent_event : forall R (e : E R) w ks i k r w',
    consistent w ks -> ks !! i = Some k -> permitted e k -> answers e w r w' ->
    expected e k r /\ consistent w' (<[i := learned e k r]> ks)
}.

Section protocol.
Context {E : Type -> Type} {World K : Type} `{P : !Protocol E World K}.

(** What a program needs to know, and what it knows when it returns. *)
Fixpoint wp {A} (p : tree E A) (Q : A -> K -> Prop) (k : K) : Prop :=
  match p with
  | Done a => Q a k
  | Do e c => permitted e k /\ forall r, expected e k r -> wp (c r) Q (learned e k r)
  end.

Lemma wp_conseq {A} (p : tree E A) (Q Q' : A -> K -> Prop) k :
  (forall a k', Q a k' -> Q' a k') -> wp p Q k -> wp p Q' k.
Proof.
  intros HQ. revert k. induction p as [a|R e c IH]; intros k; cbn [wp]; [apply HQ|].
  intros [H1 H2]. split; [done|]. intros r Hr. apply IH, H2, Hr.
Qed.

Lemma wp_tbind {A B} (p : tree E A) (f : A -> tree E B) Q k :
  wp p (fun a k' => wp (f a) Q k') k -> wp (tbind p f) Q k.
Proof.
  revert k. induction p as [a|R e c IH]; intros k; cbn [wp tbind]; [done|].
  intros [H1 H2]. split; [done|]. intros r Hr. apply IH, H2, Hr.
Qed.

Lemma wp_seq {A B} (p : tree E A) (f : A -> tree E B) Q' Q k :
  wp p Q' k -> (forall a k', Q' a k' -> wp (f a) Q k') -> wp (tbind p f) Q k.
Proof. intros H1 H2. apply wp_tbind. eapply wp_conseq; [|exact H1]. exact H2. Qed.

Lemma wp_each {A S} (f : S -> A -> tree E S) (I : S -> K -> Prop) l s k :
  (forall s x k, x ∈ l -> I s k -> wp (f s x) I k) -> I s k -> wp (each f s l) I k.
Proof.
  revert s k. induction l as [|x l IH]; intros s k Hf Hi; cbn [each]; [done|].
  eapply wp_seq; [apply Hf; [left|done]|]. intros s' k' Hi'. apply IH; [|done].
  intros. apply Hf; [by right|done].
Qed.

(** ** Interleavings *)

Record system := MkSystem { sys_world : World; sys_threads : gmap nat (K * tree E unit) }.

Context (entry : tree E unit -> Prop).

Inductive step : system -> system -> Prop :=
| step_spawn w ts i p : ts !! i = None -> entry p -> step (MkSystem w ts) (MkSystem w (<[i := (ignorance, p)]> ts))
| step_event w ts i k R (e : E R) c r w' :
    ts !! i = Some (k, Do e c) -> answers e w r w' ->
    step (MkSystem w ts) (MkSystem w' (<[i := (learned e k r, c r)]> ts))
| step_exit w ts i k u : ts !! i = Some (k, Done u) -> step (MkSystem w ts) (MkSystem w (delete i ts))
| step_environment w w' ts : environment (fst <$> ts) w w' -> step (MkSystem w ts) (MkSystem w' ts).

(** Every goroutine is verified and the invariant holds. *)
Definition governed (s : system) : Prop :=
  consistent (sys_world s) (fst <$> sys_threads s) /\
  forall i k p, sys_threads s !! i = Some (k, p) -> wp p (fun _ _ => True) k.

Context (verified : forall p, entry p -> wp p (fun _ _ => True) ignorance).

Lemma governed_step s s' : step s s' -> governed s -> governed s'.
Proof using All.
  intros Hs [Hc Hw]. destruct Hs as [w ts i p Hi He|w ts i k R e c r w' Hi Ha|w ts i k u Hi|w w' ts He]; cbn [sys_world sys_threads] in *.
  - split; cbn [sys_world sys_threads].
    + rewrite fmap_insert. apply consistent_spawn; [done|]. by rewrite lookup_fmap, Hi.
    + intros j k q. destruct (decide (j = i)) as [->|N].
      * rewrite lookup_insert_eq. intros [= <- <-]. by apply verified.
      * rewrite lookup_insert_ne by done. apply Hw.
  - destruct (Hw i k _ Hi) as [Hp Hk].
    destruct (consistent_event R e w (fst <$> ts) i k r w' Hc) as [Hx Hc']; [by rewrite lookup_fmap, Hi|done|done|].
    split; cbn [sys_world sys_threads]; [by rewrite fmap_insert|].
    intros j k' q. destruct (decide (j = i)) as [->|N].
    + rewrite lookup_insert_eq. intros [= <- <-]. by apply Hk.
    + rewrite lookup_insert_ne by done. apply Hw.
  - split; cbn [sys_world sys_threads]; [rewrite fmap_delete; by apply consistent_exit|].
    intros j k' q [_ Hj]%lookup_delete_Some. by eapply Hw.
  - split; cbn [sys_world sys_threads]; [by eapply consistent_environment|done].
Qed.

Lemma protocol_sound s s' : rtc step s s' -> governed s -> governed s'.
Proof using All. induction 1; [done|]. eauto using governed_step. Qed.
End protocol.
