(* ===== verification/Trace.v ===== *)
(** * Traces of programs

    [returns p tr a]: the program [p] returns [a] after the events of [tr] were answered as
    recorded there, by whatever the rest of the system does in between.  [vc permit p Q tr]
    is the obligation that [p], started after [tr], performs only permitted events and
    ends in [Q]; [vc_sound] is its meaning. *)

From stdpp Require Import base list.
From S2P Require Import Prelude Program.

Section traces.
Context {E : Type -> Type}.

(** An event, and an event with its answer. *)
Inductive asked :=
| Asked {R : Type} (e : E R).

Inductive answered :=
| Answered {R : Type} (e : E R) (r : R).

Definition ask_of (x : answered) : asked := match x with Answered e _ => Asked e end.

Fixpoint returns {A} (p : tree E A) (tr : list answered) (a : A) : Prop :=
  match p with
  | Done b => tr = [] /\ a = b
  | Do e k => exists r tr', tr = Answered e r :: tr' /\ returns (k r) tr' a
  end.

Lemma returns_tbind {A B} (p : tree E A) (f : A -> tree E B) tr b :
  returns (tbind p f) tr b <-> exists tr1 tr2 a, tr = tr1 ++ tr2 /\ returns p tr1 a /\ returns (f a) tr2 b.
Proof.
  revert tr. induction p as [a|R e k IH]; intros tr; cbn [tbind returns].
  - split; [intros H; by exists [], tr, a|]. by intros (tr1 & tr2 & a' & -> & [-> ->] & H).
  - split.
    + intros (r & tr' & -> & (tr1 & tr2 & a & -> & H1 & H2)%IH).
      exists (Answered e r :: tr1), tr2, a. split_and!; [done|by exists r, tr1|done].
    + intros (tr1 & tr2 & a & -> & (r & tr' & -> & H1) & H2). exists r, (tr' ++ tr2).
      split; [done|]. apply IH. by exists tr', tr2, a.
Qed.

Lemma returns_perform {R} (e : E R) tr r : returns (perform e) tr r <-> tr = [Answered e r].
Proof. cbn. split; [by intros (r' & tr' & -> & -> & ->)|intros ->; eauto]. Qed.

(** ** A run with a given handler of the events *)

Fixpoint replay {A} (handler : forall R, E R -> R) (p : tree E A) : list answered * A :=
  match p with
  | Done a => ([], a)
  | Do e k => let r := handler _ e in let '(tr, a) := replay handler (k r) in (Answered e r :: tr, a)
  end.

Lemma replay_returns {A} handler (p : tree E A) : returns p (replay handler p).1 (replay handler p).2.
Proof.
  induction p as [a|R e k IH]; cbn [replay returns]; [done|].
  specialize (IH (handler R e)). destruct (replay handler (k (handler R e))) as [tr a]. by exists (handler R e), tr.
Qed.

Context (permit : list answered -> asked -> Prop).

Fixpoint vc {A} (p : tree E A) (Q : A -> list answered -> Prop) (tr : list answered) : Prop :=
  match p with
  | Done a => Q a tr
  | Do e k => permit tr (Asked e) /\ forall r, vc (k r) Q (tr ++ [Answered e r])
  end.

Lemma vc_conseq {A} (p : tree E A) (Q Q' : A -> list answered -> Prop) tr :
  (forall a tr', Q a (tr ++ tr') -> Q' a (tr ++ tr')) -> vc p Q tr -> vc p Q' tr.
Proof.
  revert tr. induction p as [a|R e k IH]; intros tr HQ; cbn [vc].
  - specialize (HQ a []). by rewrite app_nil_r in HQ.
  - intros [H1 H2]. split; [done|]. intros r. apply IH; [|done]. intros a tr'. rewrite <-app_assoc. apply HQ.
Qed.

Lemma vc_tbind {A B} (p : tree E A) (f : A -> tree E B) Q tr :
  vc p (fun a tr' => vc (f a) Q tr') tr -> vc (tbind p f) Q tr.
Proof.
  revert tr. induction p as [a|R e k IH]; intros tr; cbn [vc tbind]; [done|].
  intros [H1 H2]. split; [done|]. intros r. apply IH, H2.
Qed.

Lemma vc_seq {A B} (p : tree E A) (f : A -> tree E B) Q' Q tr :
  vc p Q' tr -> (forall a tr', Q' a (tr ++ tr') -> vc (f a) Q (tr ++ tr')) -> vc (tbind p f) Q tr.
Proof. intros H1 H2. apply vc_tbind. eapply vc_conseq; [|exact H1]. exact H2. Qed.

Lemma vc_perform {R B} (e : E R) (f : R -> tree E B) Q tr :
  permit tr (Asked e) -> (forall r, vc (f r) Q (tr ++ [Answered e r])) -> vc (tbind (perform e) f) Q tr.
Proof. intros H1 H2. split; [done|exact H2]. Qed.

Lemma vc_sound {A} (p : tree E A) Q tr tr' a : vc p Q tr -> returns p tr' a ->
  Q a (tr ++ tr') /\ forall tr1 x tr2, tr' = tr1 ++ x :: tr2 -> permit (tr ++ tr1) (ask_of x).
Proof.
  revert tr tr'. induction p as [b|R e k IH]; intros tr tr'; cbn [vc returns].
  - intros H [-> ->]. rewrite app_nil_r. split; [done|]. intros tr1 x tr2 H1. by destruct tr1.
  - intros [H1 H2] (r & tr'' & -> & Hr). destruct (IH r _ tr'' (H2 r) Hr) as [H3 H4].
    split; [by rewrite <-app_assoc in H3|].
    intros [|y tr1] x tr2 Heq.
    + injection Heq as <- _. by rewrite app_nil_r.
    + injection Heq as <- Heq. specialize (H4 tr1 x tr2 Heq). by rewrite <-app_assoc in H4.
Qed.
End traces.
Arguments asked : clear implicits.
Arguments answered : clear implicits.

Arguments returns {E A} !p tr a : simpl nomatch.

(** Takes apart a hypothesis [returns p tr a]: sequences, events, results and the case
    distinctions of the program; refuted cases are closed. *)
Ltac unroll_step H :=
  lazymatch type of H with
  | returns (tbind _ _) _ _ =>
      let H1 := fresh "Hrun" in
      apply returns_tbind in H as (? & ? & ? & -> & H1 & H); cbv beta in H
  | returns (perform _) _ _ => apply returns_perform in H as ->
  | returns (Done _) _ _ => let E := fresh "Hret" in destruct H as [-> E]; try discriminate E
  | returns (Do _ _) _ _ => destruct H as (? & ? & -> & H)
  | returns (match ?x with _ => _ end) _ _ =>
      first [is_var x; destruct x | let E := fresh "Hcase" in destruct x eqn:E]
  end.

Ltac unroll H := unroll_step H; try discriminate; simplify_eq;
  repeat match goal with H' : returns _ _ _ |- _ => unroll_step H'; try discriminate; simplify_eq end.

(** One step of an obligation [vc]: the case distinctions of a program, and its events when
    they are permitted at once. *)
Ltac vc_step :=
  lazymatch goal with
  | |- vc _ (tbind (perform _) _) _ _ => apply vc_perform; [exact I|intros ?; cbv beta]
  | |- vc _ (perform _) _ _ => split; [exact I|intros ?; cbn [vc]]
  | |- vc _ (tbind (Done _) _) _ _ => cbn [tbind]
  | |- vc _ (tbind (tbind _ _) _) _ _ => apply vc_tbind
  | |- vc _ (Done _) _ _ => cbn [vc]
  | |- vc _ (match ?x with _ => _ end) _ _ =>
      first [is_var x; destruct x | let E := fresh "Hcase" in destruct x eqn:E]
  | |- vc _ (tbind (match ?x with _ => _ end) _) _ _ =>
      first [is_var x; destruct x | let E := fresh "Hcase" in destruct x eqn:E]
  end.

Ltac vc_steps := repeat vc_step.
