(* ===== verification/ServerCalls.v ===== *)
(** * What the handlers of signed-in users call (internal/server)

    The tables of the store together, the data GitHub answers with, and the events of the
    handlers and of the selection of the sandbox service.  A store operation is an event
    that carries the operation itself, a function on the tables modelled in its component;
    so an answered event says what the tables were asked, and a write what it may change.
    GitHub's answers are arbitrary. *)

From stdpp Require Import base gmap list strings.
From S2P Require Import Prelude GoStrings Rows RunnerModel RunnerStore RunnerQueries AccountModel AccountStore Sponsorship Catalog Program Templates.

(** ** The tables *)

Record tables := MkTables {
  tb_accounts : accountDB;
  tb_sponsors : sponsorDB;
  tb_requests : table;
  tb_profiles : profile_table;
  tb_scoped : scoped_table
}.

#[export] Instance rebuild_tables : Rebuild tables := fun r =>
  MkTables (tb_accounts r) (tb_sponsors r) (tb_requests r) (tb_profiles r) (tb_scoped r).

(** ** GitHub's answers (internal/github/client.go) *)

(** [github.Account]. *)
Record GitHubAccount := MkGitHubAccount {
  gha_ID : Z;
  gha_Type : string;
  gha_Login : string;
  gha_Name : string;
  gha_AvatarURL : string
}.

(** [github.Repository]; a fork carries its parent and its source. *)
Inductive Repository := MkRepository {
  repo_ID : Z;
  repo_FullName : string;
  repo_Name : string;
  repo_DefaultBranch : string;
  repo_Fork : bool;
  repo_Owner : GitHubAccount;
  repo_Parent : option Repository;
  repo_Source : option Repository
}.

(** [github.Installation], without the suspension time, which no handler reads. *)
Record Installation := MkInstallation {
  inst_ID : Z;
  inst_AccountID : Z;
  inst_AccountType : string;
  inst_AccountLogin : string;
  inst_AccountName : string;
  inst_AccountAvatar : string;
  inst_Repositories : list string
}.

Record CollaboratorPermission := MkCollaboratorPermission { cp_Permission : string; cp_UserID : Z; cp_UserLogin : string }.

Record OrganizationMember := MkOrganizationMember { om_State : string; om_Role : string; om_UserID : Z; om_UserLogin : string }.

Record OrganizationMembership := MkOrganizationMembership {
  mb_OrganizationID : Z;
  mb_OrganizationLogin : string;
  mb_State : string;
  mb_Role : string
}.

Record PullRequestRef := MkPullRequestRef { ref_SHA : string; ref_Ref : string; ref_Repository : Repository }.

Record PullRequest := MkPullRequest { pull_Number : Z; pull_Title : string; pull_Head : PullRequestRef; pull_Base : PullRequestRef }.

Record WorkflowRun := MkWorkflowRun {
  run_ID : Z;
  run_Name : string;
  run_Event : string;
  run_HeadBranch : string;
  run_HeadRepository : Repository;
  run_Repository : Repository;
  run_PullRequests : list PullRequest
}.

(** ** Session credentials for the cache (internal/server/cache_sts.go) *)

(** A statement that allows actions on resources, listing under a condition on the prefix. *)
Record statement := MkStatement { stmt_action : list string; stmt_resource : list string; stmt_prefix : option (list string) }.

(** [qiniuSTSRequest] with its policy decoded, the URL it is posted to and the keys that sign it. *)
Record federationRequest := MkFederationRequest {
  fed_URL : string;
  fed_DurationSeconds : Z;
  fed_Policy : list statement;
  fed_AccessKeyID : string;
  fed_SecretAccessKey : string
}.

(** The decoded response; the expiration is [None] when it is not RFC 3339. *)
Record federationResponse := MkFederationResponse {
  fr_Code : Z;
  fr_Error : string;
  fr_Message : string;
  fr_Credential : option (string * string * string * option Time)
}.

(** ** Sign-in with GitHub (internal/server/server_auth.go) *)

Record githubOAuthTokenResponse := MkTokenResponse { tok_AccessToken : string; tok_Error : string }.

Record githubOAuthUser := MkOAuthUser { ou_ID : Z; ou_Login : string; ou_AvatarURL : string }.

(** [github.RunnerGroup], the fields the handlers read. *)
Record RunnerGroup := MkRunnerGroup { grp_ID : Z; grp_Name : string; grp_Inherited : bool }.

(** [sandboxrunner.TemplateInspection], without the details for display. *)
Record TemplateInspection := MkInspection { insp_Public : bool; insp_Runnable : bool }.

(** ** Scopes and their settings *)

Record accountPreferenceScope := MkPreferenceScope { scope_Type : string; scope_ID : Z }.

#[export] Instance accountPreferenceScope_eq_dec : EqDecision accountPreferenceScope.
Proof. solve_decision. Defined.

Definition AccountSecretTypeSandboxAPIKey := "sandbox_api_key".
Definition AccountSecretTypeGitHubOAuthToken := "github_oauth_token".
Definition AccountSecretTypeCacheAccessKeyID := "cache_access_key_id".
Definition AccountSecretTypeCacheSecretAccessKey := "cache_secret_access_key".
Definition accountPreferenceNamespaceSandbox := "sandbox".
Definition accountPreferenceKeySandboxService := "service".
Definition accountPreferenceNamespaceCache := "cache".
Definition accountPreferenceKeyCacheS3 := "s3".
Definition sandboxPreferenceModeCustom := "custom".
Definition sandboxPreferenceModeInherit := "inherit".

Record accountSandboxServicePreferenceValue := MkSandboxValue { sv_Mode : string; sv_APIURL : string; sv_SourceAccountID : Z }.
Record accountCacheServicePreferenceValue := MkCacheValue { cv_Bucket : string; cv_Prefix : string }.

Definition normalizeSandboxPreferenceMode (mode : string) (scope : accountPreferenceScope) : string :=
  let mode := ToLower (TrimSpace mode) in
  if bool_decide (mode = sandboxPreferenceModeInherit) && bool_decide (scope_Type scope = AccountScopeTypeGitHubInstall)
  then sandboxPreferenceModeInherit else sandboxPreferenceModeCustom.

(** ** Events *)

(** [SRead]: a query; [SWrite]: an operation of its own transaction; [SMutate]: an operation
    in one transaction with its audit record; [SAudit]: an audit record alone, whose failure
    is only logged.  The database may answer any of the fallible ones with an error of its
    own.  [SInvalidate] drops the cached repository access of an account.  [SEnsureAccount]
    and [SUpdateRole] are the store's operations that retry on their own.  The answers of
    [SOAuthToken] and [SOAuthUser] are the status and the decoded body, [None] when it does
    not decode.  The events of templates have a deadline, which their answers include; a
    service without the interface asked for answers [None]. *)
Inductive scall : Type -> Type :=
| SNow : scall Time
| SRead {A} (query : tables -> result A) : scall (result A)
| SWrite {A} (operation : Time -> tables -> result (tables * A)) : scall (result A)
| SMutate {A} (event : AuditEvent) (mutation : Time -> tables -> result (tables * A)) : scall (result A)
| SAudit (event : AuditEvent) : scall unit
| SInvalidate (accountID : Z) : scall unit
| SProfile (req : RunnerRequest) : scall (result RunnerProfile)
| SGetRepository (fullName : string) : scall (result Repository)
| SGetInstallation (installationID : Z) : scall (result Installation)
| SCollaboratorPermission (repository username : string) : scall (result CollaboratorPermission)
| SOrganizationMembership (repository organization username : string) : scall (result OrganizationMember)
| SUserInstallations (token : string) : scall (result (list Installation))
| SUserRepositories (token : string) (installationID : Z) : scall (result (list string))
| SUserRepositoryDetails (token : string) (installationID : Z) : scall (result (list Repository))
| SMemberships (token : string) : scall (result (list OrganizationMembership))
| SGitHubAccount (login : string) : scall (result GitHubAccount)
| SWorkflowRun (repository : string) (runID : Z) : scall (result WorkflowRun)
| SPullRequest (repository : string) (number : Z) : scall (result PullRequest)
| SFederationToken (request : federationRequest) : scall (result federationResponse)
| SRepositoryAccess (accountID : Z) : scall (result (list GitHubInstallationRepositoryAccess))
| SNewID : scall string
| SOAuthToken (code redirectURL : string) : scall (result (Z * option githubOAuthTokenResponse))
| SOAuthUser (token : string) : scall (result (Z * option githubOAuthUser))
| SEnsureAccount (identity : OAuthIdentity) (role : string) : scall (result (Account * OAuthIdentity))
| SUpdateRole (u : AccountRoleUpdate) : scall (result Account)
| SRunnerGroups (installationID : Z) (organization : string) : scall (result (list RunnerGroup))
| SListInstallations : scall (result (list Installation))
| SInstallationRepositories (installationID : Z) : scall (result (list string))
| SValidateTemplate {Service : Type} (service : Service) (templateID : string) : scall (result unit)
| STemplateCatalog {Service : Type} (service : Service) : scall (option (result (list CatalogTemplate)))
| SInspectTemplate {Service : Type} (service : Service) (templateID : string) : scall (option (result TemplateInspection)).

Abbreviation sprog := (tree scall).

(** A fallible program, whose error is the error of the whole. *)
Notation "'let*?' x := p 'in' q" := (tbind p (fun r => match r with Ok x => q | Err e => Done (Err e) end))
  (at level 10, x pattern, p at level 100, q at level 200) : runner_scope.

(** The queries, by the operation they run. *)
Definition qPreference (scope : accountPreferenceScope) (namespace key : string) : scall (result AccountPreference) :=
  SRead (fun t => GetAccountPreference (scope_Type scope) (scope_ID scope) namespace key (tb_accounts t)).
Definition qSecret (scope : accountPreferenceScope) (keyType : string) : scall (result AccountSecret) :=
  SRead (fun t => GetAccountSecret (scope_Type scope) (scope_ID scope) keyType (tb_accounts t)).
Definition qInstallations (accountID : Z) : scall (result (list GitHubInstallation)) :=
  SRead (fun t => ListGitHubInstallations accountID (tb_requests t) (tb_accounts t)).
Definition qPersonal (installationID : Z) : scall (result (Z * bool)) :=
  SRead (fun t => AccountScopeForPersonalGitHubInstallation installationID (tb_accounts t)).
Definition qInstallationAccount (installationID : Z) : scall (result GitHubInstallationAccount) :=
  SRead (fun t => GitHubInstallationAccountForInstallation installationID (tb_accounts t)).
Definition qOwner (installationID : Z) : scall (result GitHubInstallationAccount) :=
  SRead (fun t => GetGitHubInstallationOwner installationID (tb_accounts t)).
Definition qScopeForLogin (login : string) : scall (result (Z * bool)) :=
  SRead (fun t => GitHubInstallationScopeForAccountLogin login (tb_accounts t)).
Definition qIdentity (accountID : Z) (provider : string) : scall (result OAuthIdentity) :=
  SRead (fun t => GetOAuthIdentityForAccount accountID provider (tb_accounts t)).
Definition qAccountByIdentity (provider subject : string) : scall (result (Account * OAuthIdentity)) :=
  SRead (fun t => GetAccountByOAuthIdentity provider subject (tb_accounts t)).
Definition qDefault : scall (result SandboxServiceDefault) :=
  SRead (fun t => GetSandboxServiceDefault (tb_accounts t)).
Definition qAudienceContains (githubAccountID : Z) (accountType : string) : scall (result bool) :=
  SRead (fun t => Ok (SandboxServiceDefaultAudienceContains githubAccountID accountType (tb_accounts t))).
Definition qPolicyBySource (sourceRepositoryID : Z) : scall (result ForkSponsorshipPolicy) :=
  SRead (fun t => GetForkSponsorshipPolicyBySourceRepositoryID sourceRepositoryID (tb_sponsors t)).
Definition qPolicy (sponsorInstallationID sourceRepositoryID : Z) : scall (result ForkSponsorshipPolicy) :=
  SRead (fun t => GetForkSponsorshipPolicy sponsorInstallationID sourceRepositoryID (tb_sponsors t)).
Definition qApproval (sourceRepositoryID forkRepositoryID : Z) : scall (result ForkSponsorshipApproval) :=
  SRead (fun t => GetForkSponsorshipApproval sourceRepositoryID forkRepositoryID (tb_sponsors t)).

(** An operation on the tables of accounts or of sponsorships, in the tables together. *)
Definition onAccounts {A} (op : Time -> accountDB -> result (accountDB * A)) (now : Time) (t : tables) : result (tables * A) :=
  let? (db, a) := op now (tb_accounts t) in Ok (t <| tb_accounts := db |>, a).
Definition onSponsors {A} (op : Time -> sponsorDB -> result (sponsorDB * A)) (now : Time) (t : tables) : result (tables * A) :=
  let? (db, a) := op now (tb_sponsors t) in Ok (t <| tb_sponsors := db |>, a).
