(* ===== verification/ServiceSelection.v ===== *)
(** * Which sandbox service a request runs on (internal/server/server_sandbox_service.go)

    The order of the sources: the snapshot saved on the request, the settings of its GitHub
    installation (its own, or inherited from a linked account), the settings of the personal
    account, a sponsorship of the fork's source, the administrator's default.  The
    programs are [tree]s of the calls they make; every answer may come from tables that
    others have changed in between. *)

From stdpp Require Import base gmap list strings.
From S2P Require Import Prelude GoStrings Rows RunnerModel RunnerStore AccountModel AccountStore Sponsorship Catalog Program Trace ServerCalls.
From Stdlib Require Import Ascii.

Definition errSandboxServiceNotConfigured : goerror := ErrSentinel "sandbox service not configured".

Definition sandboxConfigSourceRequestSnapshot := "request_snapshot".
Definition sandboxConfigSourceInstallation := "installation".
Definition sandboxConfigSourceAccount := "account".
Definition sandboxConfigSourceInheritedAccount := "inherited_account".
Definition sandboxConfigSourceAdminDefault := "admin_default".
Definition sandboxConfigSourceForkSponsorship := "organization_sponsorship".

Definition noSnapshot : SandboxSnapshot := MkSnapshot "" "" "" 0 0 "" "" 0 "" 0 "".

(** A snapshot of the service alone. *)
Definition serviceSnapshot (apiURL encryptedAPIKey source : string) : SandboxSnapshot :=
  noSnapshot <| snap_APIURL := apiURL |> <| snap_EncryptedAPIKey := encryptedAPIKey |> <| snap_Source := source |>.

Definition sandboxConfigSourceForScope (scope : accountPreferenceScope) : string :=
  if bool_decide (scope_Type scope = AccountScopeTypeAccount) then sandboxConfigSourceAccount
  else sandboxConfigSourceInstallation.

Definition sandboxScopeForRunnerRequest (req : RunnerRequest) : result accountPreferenceScope :=
  if (req_GitHubInstallationID req <=? 0)%Z
  then Err (ErrText ("runner request " +:+ req_ID req +:+ " has no github installation scope"))
  else Ok (MkPreferenceScope AccountScopeTypeGitHubInstall (req_GitHubInstallationID req)).

(** [fmt.Errorf("<pre>%s:%d: %w", scope.Type, scope.ID, err)]. *)
Definition notConfiguredFor (pre : string) (scope : accountPreferenceScope) : goerror :=
  ErrWrap (pre +:+ scope_Type scope +:+ ":" +:+ FormatInt (scope_ID scope) +:+ ": ") errSandboxServiceNotConfigured "".

Definition notConfigured (pre : string) : goerror := ErrWrap pre errSandboxServiceNotConfigured "".

(** ** Owners and links *)

Definition githubInstallationLinkedToAccount (accountID installationID : Z) : sprog (result bool) :=
  let*? installations := perform (qInstallations accountID) in
  Done (Ok (existsb (fun installation => (gi_InstallationID installation =? installationID)%Z) installations)).

Definition githubInstallationScopeForRepository (repositoryFullName : string) : sprog (result (Z * bool)) :=
  let '(owner, _, ok) := Cut (TrimSpace repositoryFullName) "/"%char in
  if negb ok then Done (Ok (0%Z, false)) else perform (qScopeForLogin owner).

(** The owner that [githubInstallationOwner] stores for an installation of GitHub. *)
Definition installationOwner (installation : Installation) : GitHubInstallationAccount :=
  MkGitHubInstallationAccount (inst_AccountID installation) (inst_AccountType installation) (inst_AccountLogin installation)
    (inst_AccountName installation) (inst_AccountAvatar installation).

Definition sUpsertOwner (installationID : Z) (owner : GitHubInstallationAccount) : scall (result GitHubInstallationAccount) :=
  SWrite (onAccounts (fun now db => UpsertGitHubInstallationOwner installationID owner now db)).

Section selection.
(** The service of tests ([s.sandbox]), whether there is a GitHub client, decryption under
    the configured key, the constructor of the client of the service, and the decoding of a
    stored preference. *)
Context {Service : Type} (injected : option Service) (configured : bool).
Context (decryptSecret : string -> result string) (newE2BService : string -> string -> result Service).
Context (decodeService : string -> result accountSandboxServicePreferenceValue).

Abbreviation selected := (result (Service * SandboxSnapshot)).

Definition sandboxServiceForConfig (snapshot : SandboxSnapshot) : result Service :=
  let? apiKey := decryptSecret (snap_EncryptedAPIKey snapshot) in newE2BService apiKey (TrimSpace (snap_APIURL snapshot)).

Definition withService (snapshot : SandboxSnapshot) : selected :=
  let? svc := sandboxServiceForConfig snapshot in Ok (svc, snapshot).

Definition githubInstallationOwner (installationID : Z) : sprog (result GitHubInstallationAccount) :=
  if (installationID <=? 0)%Z then Done (Err ErrNotFound) else
  let* r := perform (qInstallationAccount installationID) in
  match r with
  | Ok owner => Done (Ok owner)
  | Err err =>
      if negb (errors_is err ErrNotFound) then Done (Err err) else
      let* r := perform (qOwner installationID) in
      match r with
      | Ok owner => Done (Ok owner)
      | Err err =>
          if negb (errors_is err ErrNotFound) then Done (Err err) else
          if negb configured then Done (Err ErrNotFound) else
          let*? installation := perform (SGetInstallation installationID) in
          perform (sUpsertOwner installationID (installationOwner installation))
      end
  end.

(** ** The settings of a scope *)

(** Go's recursion, [fuel] deep. *)
Fixpoint sandboxServiceForScopeFuel (fuel : nat) (scope : accountPreferenceScope) : sprog selected :=
  match fuel with
  | O => Done (Err (ErrText "inheritance does not end"))
  | S fuel =>
      let* r := perform (qPreference scope accountPreferenceNamespaceSandbox accountPreferenceKeySandboxService) in
      match r with
      | Err err =>
          Done (Err (if errors_is err ErrNotFound then notConfiguredFor "sandbox service is not configured for " scope else err))
      | Ok preference =>
          match decodeService (ap_ValueJSON preference) with
          | Err err => Done (Err err)
          | Ok value =>
              if bool_decide (normalizeSandboxPreferenceMode (sv_Mode value) scope = sandboxPreferenceModeInherit) then
                if (sv_SourceAccountID value <=? 0)%Z
                then Done (Err (notConfiguredFor "sandbox service inherited account is not configured for " scope)) else
                let*? ok := githubInstallationLinkedToAccount (sv_SourceAccountID value) (scope_ID scope) in
                if negb ok
                then Done (Err (notConfigured ("sandbox service inherited account no longer has github installation "
                                                 +:+ FormatInt (scope_ID scope) +:+ ": "))) else
                let*? (svc, snapshot) := sandboxServiceForScopeFuel fuel
                                           (MkPreferenceScope AccountScopeTypeAccount (sv_SourceAccountID value)) in
                Done (Ok (svc, snapshot <| snap_Source := sandboxConfigSourceInheritedAccount |>))
              else
                let apiURL := TrimSpace (sv_APIURL value) in
                if bool_decide (apiURL = "")
                then Done (Err (notConfiguredFor "sandbox service api_url is not configured for " scope)) else
                let* r := perform (qSecret scope AccountSecretTypeSandboxAPIKey) in
                match r with
                | Err err =>
                    Done (Err (if errors_is err ErrNotFound
                               then notConfiguredFor "sandbox service api key is not configured for " scope else err))
                | Ok secret =>
                    Done (withService (serviceSnapshot apiURL (as_EncryptedValue secret) (sandboxConfigSourceForScope scope)))
                end
          end
      end
  end.

(** An account scope does not inherit: two levels are enough ([inheritance_depth]). *)
Definition sandboxServiceForScope : accountPreferenceScope -> sprog selected := sandboxServiceForScopeFuel 2.

(** ** The administrator's default *)

Definition sandboxServiceForAdminDefault (resolveOwner : sprog (result GitHubInstallationAccount)) : sprog selected :=
  let* r := perform qDefault in
  match r with
  | Err err =>
      Done (Err (if errors_is err ErrNotFound then notConfigured "admin sandbox service default is not configured: " else err))
  | Ok defaultConfig =>
      if negb (sd_Enabled defaultConfig) then Done (Err (notConfigured "admin sandbox service default is disabled: ")) else
      let* allowed :=
        if bool_decide (sd_AudienceMode defaultConfig = SandboxServiceDefaultAudienceModeSelected) then
          let* r := resolveOwner in
          match r with
          | Err err =>
              Done (Err (if errors_is err ErrNotFound
                         then notConfigured "github repository owner is not known for admin sandbox service default: " else err))
          | Ok owner =>
              let*? allowed := perform (qAudienceContains (ga_GitHubAccountID owner) (ga_AccountType owner)) in
              if negb allowed
              then Done (Err (notConfigured "github repository owner is not selected for admin sandbox service default: "))
              else Done (Ok tt)
          end
        else Done (Ok tt) in
      match allowed with
      | Err err => Done (Err err)
      | Ok _ =>
          let apiURL := TrimSpace (sd_APIURL defaultConfig) in
          if bool_decide (apiURL = "") then Done (Err (notConfigured "admin sandbox service default api_url is not configured: ")) else
          let encryptedAPIKey := TrimSpace (sd_APIKeyEncrypted defaultConfig) in
          if bool_decide (encryptedAPIKey = "")
          then Done (Err (notConfigured "admin sandbox service default api key is not configured: ")) else
          Done (withService (serviceSnapshot apiURL encryptedAPIKey sandboxConfigSourceAdminDefault))
      end
  end.

Definition sandboxDefaultAudienceOwnerForScope (scope : accountPreferenceScope) : sprog (result GitHubInstallationAccount) :=
  if bool_decide (scope_Type scope = AccountScopeTypeGitHubInstall) then githubInstallationOwner (scope_ID scope)
  else if bool_decide (scope_Type scope = AccountScopeTypeAccount) then
    let*? i := perform (qIdentity (scope_ID scope) "github") in
    match ParseInt (TrimSpace (oi_OAuthSubject i)) with
    | None => Done (Err ErrNotFound)
    | Some githubAccountID =>
        if (githubAccountID <=? 0)%Z then Done (Err ErrNotFound)
        else Done (Ok (MkGitHubInstallationAccount githubAccountID "user" (oi_OAuthLogin i) "" ""))
    end
  else Done (Err ErrNotFound).

Definition sandboxServiceForScopeWithDefault (scope : accountPreferenceScope) : sprog selected :=
  let* r := sandboxServiceForScope scope in
  match r with
  | Ok x => Done (Ok x)
  | Err err =>
      if negb (errors_is err errSandboxServiceNotConfigured) then Done (Err err)
      else sandboxServiceForAdminDefault (sandboxDefaultAudienceOwnerForScope scope)
  end.

(** ** Sponsored forks *)

Definition authorizeForkSponsorship (policy : ForkSponsorshipPolicy) (fork source : Repository) : sprog (result string) :=
  let owner := repo_Owner fork in
  if bool_decide (pol_Mode policy = ForkSponsorshipModeApprovalRequired) then
    let*? approval := perform (qApproval (pol_SourceRepositoryID policy) (repo_ID fork)) in
    if negb (apr_SponsorInstallationID approval =? pol_SponsorInstallationID policy)%Z
       || negb (apr_ForkOwnerID approval =? gha_ID owner)%Z
       || negb (EqualFold (apr_ForkRepositoryFullName approval) (repo_FullName fork))
       || negb (EqualFold (apr_ForkOwnerLogin approval) (gha_Login owner))
    then Done (Err ErrNotFound) else Done (Ok ForkSponsorshipModeApprovalRequired)
  else if bool_decide (pol_Mode policy = ForkSponsorshipModeWritePermission) then
    if negb (EqualFold (TrimSpace (gha_Type owner)) "user") then Done (Err ErrNotFound) else
    let* r := perform (SCollaboratorPermission (repo_FullName source) (gha_Login owner)) in
    match r with
    | Err err => Done (Err (ErrWrap "check fork owner repository permission: " err ""))
    | Ok permission =>
        if negb (cp_UserID permission =? gha_ID owner)%Z || negb (EqualFold (cp_UserLogin permission) (gha_Login owner))
           || negb (bool_decide (cp_Permission permission ∈ ["write"; "maintain"; "admin"]))
        then Done (Err ErrNotFound) else Done (Ok ForkSponsorshipModeWritePermission)
    end
  else if bool_decide (pol_Mode policy = ForkSponsorshipModeOrganizationMember) then
    if negb (EqualFold (TrimSpace (gha_Type owner)) "user") then Done (Err ErrNotFound) else
    let* r := perform (SOrganizationMembership (repo_FullName source) (gha_Login (repo_Owner source)) (gha_Login owner)) in
    match r with
    | Err err => Done (Err (ErrWrap "check fork owner organization membership: " err ""))
    | Ok membership =>
        if negb (bool_decide (om_State membership = "active")) || negb (om_UserID membership =? gha_ID owner)%Z
           || negb (EqualFold (om_UserLogin membership) (gha_Login owner))
        then Done (Err ErrNotFound) else Done (Ok ForkSponsorshipModeOrganizationMember)
    end
  else Done (Err ErrNotFound).

(** The test of the repository GitHub answered with. *)
Definition isSourcedFork (fork : Repository) (source : Repository) : bool :=
  repo_Fork fork && (0 <? repo_ID fork)%Z && (0 <? gha_ID (repo_Owner fork))%Z
  && negb (bool_decide (TrimSpace (gha_Login (repo_Owner fork)) = "")) && (0 <? repo_ID source)%Z
  && negb (bool_decide (TrimSpace (repo_FullName source) = "")).

Definition sponsoredSnapshot (policy : ForkSponsorshipPolicy) (fork : Repository) (reason : string)
    (snapshot : SandboxSnapshot) : SandboxSnapshot :=
  snapshot <| snap_Source := sandboxConfigSourceForkSponsorship |>
    <| snap_SponsorInstallationID := pol_SponsorInstallationID policy |>
    <| snap_SponsorSourceRepositoryID := pol_SourceRepositoryID policy |>
    <| snap_SponsorSourceRepositoryFullName := pol_SourceRepositoryFullName policy |>
    <| snap_SponsorAuthorizationReason := reason |>
    <| snap_ForkRepositoryID := repo_ID fork |>
    <| snap_ForkRepositoryFullName := repo_FullName fork |>
    <| snap_ForkOwnerID := gha_ID (repo_Owner fork) |>
    <| snap_ForkOwnerLogin := gha_Login (repo_Owner fork) |>.

(** The sponsor owns the source, as an organization. *)
Definition ownsSource (sponsor : GitHubInstallationAccount) (source : Repository) : bool :=
  EqualFold (TrimSpace (ga_AccountType sponsor)) "organization" && (0 <? gha_ID (repo_Owner source))%Z
  && (gha_ID (repo_Owner source) =? ga_GitHubAccountID sponsor)%Z
  && EqualFold (TrimSpace (gha_Login (repo_Owner source))) (TrimSpace (ga_AccountLogin sponsor)).

Definition sandboxServiceForForkSponsorship (req : RunnerRequest) : sprog selected :=
  if negb configured || bool_decide (TrimSpace (req_RepositoryFullName req) = "") then Done (Err ErrNotFound) else
  let* r := perform (SGetRepository (req_RepositoryFullName req)) in
  match r with
  | Err err => Done (Err (ErrWrap "resolve fork repository for sponsorship: " err ""))
  | Ok fork =>
      match repo_Source fork with
      | None => Done (Err ErrNotFound)
      | Some source =>
          if negb (isSourcedFork fork source) then Done (Err ErrNotFound) else
          if negb (EqualFold (TrimSpace (repo_FullName fork)) (TrimSpace (req_RepositoryFullName req)))
          then Done (Err (ErrWrap "fork repository identity changed: " ErrNotFound "")) else
          let*? policy := perform (qPolicyBySource (repo_ID source)) in
          if negb (pol_Enabled policy)
             || negb (EqualFold (TrimSpace (pol_SourceRepositoryFullName policy)) (TrimSpace (repo_FullName source)))
          then Done (Err ErrNotFound) else
          let* r := githubInstallationOwner (pol_SponsorInstallationID policy) in
          match r with
          | Err err => Done (Err (ErrWrap "resolve fork sponsor installation: " err ""))
          | Ok sponsor =>
              if negb (ownsSource sponsor source)
              then Done (Err (ErrWrap "fork sponsorship source owner no longer matches sponsor: " ErrNotFound "")) else
              let*? reason := authorizeForkSponsorship policy fork source in
              let* r := sandboxServiceForScopeWithDefault
                          (MkPreferenceScope AccountScopeTypeGitHubInstall (pol_SponsorInstallationID policy)) in
              match r with
              | Err err => Done (Err (ErrWrap "resolve sponsored sandbox service: " err ""))
              | Ok (svc, snapshot) => Done (Ok (svc, sponsoredSnapshot policy fork reason snapshot))
              end
          end
      end
  end.

(** ** The service of a request *)

Definition isScopedCustom (req : RunnerRequest) : bool := bool_decide (TrimSpace (req_ProfileSource req) = "scoped_custom").

Definition hasSnapshot (req : RunnerRequest) : bool :=
  negb (bool_decide (TrimSpace (req_SandboxAPIURL req) = "")) && negb (bool_decide (TrimSpace (req_SandboxAPIKeyEncrypted req) = "")).

Definition requestSnapshot (req : RunnerRequest) : SandboxSnapshot :=
  let source := TrimSpace (req_SandboxConfigSource req) in
  (serviceSnapshot (TrimSpace (req_SandboxAPIURL req)) (TrimSpace (req_SandboxAPIKeyEncrypted req))
     (if bool_decide (source = "") then sandboxConfigSourceRequestSnapshot else source))
    <| snap_SponsorInstallationID := req_SponsorInstallationID req |>
    <| snap_SponsorSourceRepositoryID := req_SponsorSourceRepositoryID req |>
    <| snap_SponsorSourceRepositoryFullName := TrimSpace (req_SponsorSourceRepositoryFullName req) |>
    <| snap_SponsorAuthorizationReason := TrimSpace (req_SponsorAuthorizationReason req) |>.

(** Without an installation the default is for everyone or for nobody known. *)
Definition serviceWithoutScope (req : RunnerRequest) (err : goerror) : sprog selected :=
  if isScopedCustom req
  then Done (Err (notConfigured ("scoped custom runner request " +:+ req_ID req +:+ " has no configured Sandbox service: "))) else
  let* r := sandboxServiceForAdminDefault (Done (Err ErrNotFound)) in
  match r with
  | Ok x => Done (Ok x)
  | Err defaultErr =>
      if errors_is defaultErr errSandboxServiceNotConfigured then Done (Err err) else Done (Err defaultErr)
  end.

(** After the installation's own settings: the personal account's. *)
Definition serviceForPersonalAccount (req : RunnerRequest) : sprog (result (option (Service * SandboxSnapshot))) :=
  let*? (accountID, ok) := perform (qPersonal (req_GitHubInstallationID req)) in
  if negb (ok : bool) then Done (Ok None) else
  let* r := sandboxServiceForScope (MkPreferenceScope AccountScopeTypeAccount accountID) in
  match r with
  | Ok x => Done (Ok (Some x))
  | Err err => if negb (errors_is err errSandboxServiceNotConfigured) then Done (Err err) else Done (Ok None)
  end.

(** A sponsorship, for the profiles with a public template. *)
Definition serviceForSponsorship (req : RunnerRequest) : sprog (result (option (Service * SandboxSnapshot))) :=
  let* r := perform (SProfile req) in
  match r with
  | Err _ => Done (Ok None)
  | Ok profile =>
      if negb (bool_decide (p_TemplateSource profile = TemplateSourcePublic)) then Done (Ok None) else
      let* r := sandboxServiceForForkSponsorship req in
      match r with
      | Ok x => Done (Ok (Some x))
      | Err err => if negb (errors_is err ErrNotFound) then Done (Err err) else Done (Ok None)
      end
  end.

Definition serviceForInstallation (req : RunnerRequest) (scope : accountPreferenceScope) : sprog selected :=
  let* r := sandboxServiceForScope scope in
  match r with
  | Ok x => Done (Ok x)
  | Err err =>
      if negb (errors_is err errSandboxServiceNotConfigured) then Done (Err err) else
      let*? personal := serviceForPersonalAccount req in
      match personal with
      | Some x => Done (Ok x)
      | None =>
          if isScopedCustom req
          then Done (Err (notConfigured ("sandbox service is not configured for scoped custom runner request "
                                           +:+ req_ID req +:+ ": "))) else
          let*? sponsored := serviceForSponsorship req in
          match sponsored with
          | Some x => Done (Ok x)
          | None => sandboxServiceForAdminDefault (githubInstallationOwner (req_GitHubInstallationID req))
          end
      end
  end.

(** A request without an installation gets the one of its repository's owner. *)
Definition installationOfRequest (req : RunnerRequest) : sprog (result RunnerRequest) :=
  if (0 <? req_GitHubInstallationID req)%Z then Done (Ok req) else
  let*? (installationID, ok) := githubInstallationScopeForRepository (req_RepositoryFullName req) in
  Done (Ok (if (ok : bool) then req <| req_GitHubInstallationID := installationID |> else req)).

Definition sandboxServiceAndConfigForRunnerRequestContext (req : RunnerRequest) : sprog selected :=
  match injected with
  | Some svc => Done (Ok (svc, noSnapshot))
  | None =>
      if hasSnapshot req then Done (withService (requestSnapshot req)) else
      let*? req := installationOfRequest req in
      match sandboxScopeForRunnerRequest req with
      | Err err => serviceWithoutScope req err
      | Ok scope => serviceForInstallation req scope
      end
  end.
End selection.
