(* ===== verification/ServiceSafety.v ===== *)
(** * The selection of the sandbox service: what a selected service was selected for

    Every theorem is about all runs of the selection, with arbitrary answers: a fact
    "[seen e r tr]" says that the call [e] was made in the run [tr] and answered [r]. *)

From stdpp Require Import base gmap list strings.
From S2P Require Import Prelude GoStrings Rows RunnerModel RunnerStore AccountModel AccountStore Sponsorship Catalog Program Trace ServerCalls ServiceSelection.
From Stdlib Require Import Ascii.

Abbreviation trace := (list (answered scall)).

Definition seen {R} (e : scall R) (r : R) (tr : trace) : Prop := Answered e r ∈ tr.

Lemma seen_mono {R} (e : scall R) r tr tr' : tr ⊆ tr' -> seen e r tr -> seen e r tr'.
Proof. intros H1 H2. by apply H1. Qed.

(** Closes [Answered e r ∈ tr] and inclusions of concatenated runs. *)
Ltac in_trace_or := first [reflexivity | assumption | left; in_trace_or | right; in_trace_or].
Ltac in_trace := unfold seen in *; rewrite ?elem_of_app, ?elem_of_cons, ?elem_of_nil; in_trace_or.

(** ** Evidence *)

Section evidence.
Context (decodeService : string -> result accountSandboxServicePreferenceValue) (tr : trace).

Abbreviation qService scope := (qPreference scope accountPreferenceNamespaceSandbox accountPreferenceKeySandboxService).
Abbreviation account a := (MkPreferenceScope AccountScopeTypeAccount a).
Abbreviation installation i := (MkPreferenceScope AccountScopeTypeGitHubInstall i).

(** The scope's own address and key. *)
Definition own_settings (scope : accountPreferenceScope) (url key : string) : Prop :=
  exists preference value secret,
    seen (qService scope) (Ok preference) tr /\ decodeService (ap_ValueJSON preference) = Ok value /\
    normalizeSandboxPreferenceMode (sv_Mode value) scope <> sandboxPreferenceModeInherit /\
    url = TrimSpace (sv_APIURL value) /\ url <> "" /\
    seen (qSecret scope AccountSecretTypeSandboxAPIKey) (Ok secret) tr /\ key = as_EncryptedValue secret.

(** An installation that inherits from an account it is linked to. *)
Definition inherits_from (i a : Z) : Prop :=
  exists preference value linked x,
    seen (qService (installation i)) (Ok preference) tr /\ decodeService (ap_ValueJSON preference) = Ok value /\
    normalizeSandboxPreferenceMode (sv_Mode value) (installation i) = sandboxPreferenceModeInherit /\
    sv_SourceAccountID value = a /\ (0 < a)%Z /\
    seen (qInstallations a) (Ok linked) tr /\ x ∈ linked /\ gi_InstallationID x = i.

Inductive from_scope : accountPreferenceScope -> SandboxSnapshot -> Prop :=
| scope_own scope url key : own_settings scope url key ->
    from_scope scope (serviceSnapshot url key (sandboxConfigSourceForScope scope))
| scope_inherited i a url key : inherits_from i a -> own_settings (account a) url key ->
    from_scope (installation i) (serviceSnapshot url key sandboxConfigSourceInheritedAccount).

(** The owner of an installation: recorded, or asked from GitHub and recorded. *)
Definition owner_of (i : Z) (owner : GitHubInstallationAccount) : Prop :=
  seen (qInstallationAccount i) (Ok owner) tr \/ seen (qOwner i) (Ok owner) tr \/
  exists x, seen (SGetInstallation i) (Ok x) tr /\ seen (sUpsertOwner i (installationOwner x)) (Ok owner) tr.

Definition scope_owner (scope : accountPreferenceScope) (owner : GitHubInstallationAccount) : Prop :=
  (scope_Type scope = AccountScopeTypeGitHubInstall /\ owner_of (scope_ID scope) owner) \/
  (scope_Type scope = AccountScopeTypeAccount /\
   exists i, seen (qIdentity (scope_ID scope) "github") (Ok i) tr /\
     ParseInt (TrimSpace (oi_OAuthSubject i)) = Some (ga_GitHubAccountID owner) /\
     (0 < ga_GitHubAccountID owner)%Z /\ ga_AccountType owner = "user").

(** The default: enabled, complete, and open to everyone or to the owner. *)
Definition from_default (owner_is : GitHubInstallationAccount -> Prop) (snapshot : SandboxSnapshot) : Prop :=
  exists d,
    seen qDefault (Ok d) tr /\ sd_Enabled d = true /\
    TrimSpace (sd_APIURL d) <> "" /\ TrimSpace (sd_APIKeyEncrypted d) <> "" /\
    snapshot = serviceSnapshot (TrimSpace (sd_APIURL d)) (TrimSpace (sd_APIKeyEncrypted d)) sandboxConfigSourceAdminDefault /\
    (sd_AudienceMode d = SandboxServiceDefaultAudienceModeSelected ->
     exists owner, owner_is owner /\ seen (qAudienceContains (ga_GitHubAccountID owner) (ga_AccountType owner)) (Ok true) tr).

(** What each mode of a policy asks of the fork's owner. *)
Definition eligible (policy : ForkSponsorshipPolicy) (fork source : Repository) (reason : string) : Prop :=
  let owner := repo_Owner fork in
  reason = pol_Mode policy /\
  ((reason = ForkSponsorshipModeApprovalRequired /\
    exists approval, seen (qApproval (pol_SourceRepositoryID policy) (repo_ID fork)) (Ok approval) tr /\
      apr_SponsorInstallationID approval = pol_SponsorInstallationID policy /\ apr_ForkOwnerID approval = gha_ID owner /\
      EqualFold (apr_ForkRepositoryFullName approval) (repo_FullName fork) /\
      EqualFold (apr_ForkOwnerLogin approval) (gha_Login owner)) \/
   (reason = ForkSponsorshipModeWritePermission /\ EqualFold (TrimSpace (gha_Type owner)) "user" /\
    exists permission, seen (SCollaboratorPermission (repo_FullName source) (gha_Login owner)) (Ok permission) tr /\
      cp_UserID permission = gha_ID owner /\ EqualFold (cp_UserLogin permission) (gha_Login owner) /\
      cp_Permission permission ∈ ["write"; "maintain"; "admin"]) \/
   (reason = ForkSponsorshipModeOrganizationMember /\ EqualFold (TrimSpace (gha_Type owner)) "user" /\
    exists membership,
      seen (SOrganizationMembership (repo_FullName source) (gha_Login (repo_Owner source)) (gha_Login owner)) (Ok membership) tr /\
      om_State membership = "active" /\ om_UserID membership = gha_ID owner /\
      EqualFold (om_UserLogin membership) (gha_Login owner))).
End evidence.

(** ** Runs and their evidence *)

Section safety.
Context {Service : Type} (injected : option Service) (configured : bool).
Context (decryptSecret : string -> result string) (newE2BService : string -> string -> result Service).
Context (decodeService : string -> result accountSandboxServicePreferenceValue).

Abbreviation withService := (withService decryptSecret newE2BService).
Abbreviation sandboxServiceForScopeFuel := (sandboxServiceForScopeFuel decryptSecret newE2BService decodeService).
Abbreviation sandboxServiceForScope := (sandboxServiceForScope decryptSecret newE2BService decodeService).
Abbreviation sandboxServiceForAdminDefault := (sandboxServiceForAdminDefault decryptSecret newE2BService).
Abbreviation sandboxServiceForScopeWithDefault := (sandboxServiceForScopeWithDefault configured decryptSecret newE2BService decodeService).
Abbreviation sandboxServiceForForkSponsorship := (sandboxServiceForForkSponsorship configured decryptSecret newE2BService decodeService).
Abbreviation sandboxServiceForRequest :=
  (sandboxServiceAndConfigForRunnerRequestContext injected configured decryptSecret newE2BService decodeService).
Abbreviation account a := (MkPreferenceScope AccountScopeTypeAccount a).
Abbreviation installation i := (MkPreferenceScope AccountScopeTypeGitHubInstall i).

(** Evidence is gathered over the run of the whole selection, [T]. *)
Context (T : trace).

Ltac evidence H := apply H; in_trace.
Ltac part H := intros ? ?; apply H; in_trace.

Lemma withService_snapshot snapshot svc snapshot' :
  withService snapshot = Ok (svc, snapshot') -> snapshot' = snapshot /\ sandboxServiceForConfig decryptSecret newE2BService snapshot = Ok svc.
Proof. intros (svc' & E & [= -> ->])%result_bind_Ok. done. Qed.

Lemma linked_evidence a i tr : tr ⊆ T -> returns (githubInstallationLinkedToAccount a i) tr (Ok true) ->
  exists linked x, seen (qInstallations a) (Ok linked) T /\ x ∈ linked /\ gi_InstallationID x = i.
Proof.
  intros HT H. unfold githubInstallationLinkedToAccount in H. unroll H. 
  match goal with E : true = existsb _ _ |- _ => symmetry in E; apply existsb_exists in E as (x & Hx & E) end.
  exists a0, x.
  split; [evidence HT|]. split; [by apply list_elem_of_In|lia].
Qed.

Lemma owner_evidence i tr owner : tr ⊆ T -> returns (githubInstallationOwner configured i) tr (Ok owner) -> owner_of T i owner.
Proof.
  intros HT H. unfold githubInstallationOwner in H. unroll H.
  - left. evidence HT.
  - right; left. evidence HT.
  - right; right. eexists. split; evidence HT.
Qed.

(** The settings of a scope; the account of an inheriting installation does not inherit. *)
Lemma account_mode mode a : normalizeSandboxPreferenceMode mode (account a) = sandboxPreferenceModeCustom.
Proof. unfold normalizeSandboxPreferenceMode. cbn [scope_Type]. by rewrite andb_false_r. Qed.

Lemma installation_scope scope mode :
  normalizeSandboxPreferenceMode mode scope = sandboxPreferenceModeInherit -> scope = installation (scope_ID scope).
Proof.
  unfold normalizeSandboxPreferenceMode. destruct scope as [ty id]. cbn.
  destruct (bool_decide (ty = _)) eqn:E; [|by rewrite andb_false_r]. bool_prop. by subst.
Qed.

(** The client is made from the address and the key of the snapshot. *)
Abbreviation serves svc snapshot := (sandboxServiceForConfig decryptSecret newE2BService snapshot = Ok svc).

Lemma own_evidence fuel scope tr svc snapshot : tr ⊆ T ->
  returns (sandboxServiceForScopeFuel (S fuel) scope) tr (Ok (svc, snapshot)) ->
  (serves svc snapshot /\ exists url key, own_settings decodeService T scope url key /\
     snapshot = serviceSnapshot url key (sandboxConfigSourceForScope scope)) \/
  (exists i a tr' s, scope = installation i /\ inherits_from decodeService T i a /\ tr' ⊆ T /\
     returns (sandboxServiceForScopeFuel fuel (account a)) tr' (Ok (svc, s)) /\
     snapshot = s <| snap_Source := sandboxConfigSourceInheritedAccount |>).
Proof.
  intros HT H. cbn [ServiceSelection.sandboxServiceForScopeFuel] in H. unroll H; bool_prop.
  - right. subst. match goal with H : _ = sandboxPreferenceModeInherit |- _ => pose proof (installation_scope _ _ H) as Hs end.
    match goal with H : returns (githubInstallationLinkedToAccount _ _) _ _ |- _ =>
      apply linked_evidence in H as (linked & x & Hl & Hx & Hi); [|part HT] end.
    do 4 eexists. split; [exact Hs|]. split; [|split; [|split; [eassumption|done]]]; [|part HT].
    rewrite Hs in *. cbn [scope_ID] in *. do 4 eexists.
    split_and!; [evidence HT|eassumption|eassumption|done|lia|exact Hl|exact Hx|done].
  - left. match goal with H : Ok _ = withService _ |- _ => symmetry in H; apply withService_snapshot in H as [-> Hsvc] end.
    split; [done|]. do 2 eexists. split; [|done]. do 3 eexists.
    split_and!; [evidence HT|eassumption|eassumption|done|eassumption|evidence HT|done].
Qed.

Lemma scope_evidence fuel scope tr svc snapshot : tr ⊆ T ->
  returns (sandboxServiceForScopeFuel fuel scope) tr (Ok (svc, snapshot)) ->
  from_scope decodeService T scope snapshot /\ serves svc snapshot.
Proof.
  intros HT H. destruct fuel as [|fuel]; [by destruct H|].
  destruct (own_evidence _ _ _ _ _ HT H) as [(Hs & url & key & Ho & ->)|(i & a & tr' & s & -> & Hi & HT' & H' & ->)].
  - split; [by constructor|done].
  - destruct fuel as [|fuel]; [by destruct H'|].
    destruct (own_evidence _ _ _ _ _ HT' H') as [(Hs & url & key & Ho & ->)|(j & b & _ & _ & [=] & _)].
    split; [by eapply scope_inherited|exact Hs].
Qed.

(** ** The default *)

Lemma default_evidence (P : GitHubInstallationAccount -> Prop) resolveOwner tr svc snapshot : tr ⊆ T ->
  (forall tr' owner, tr' ⊆ T -> returns resolveOwner tr' (Ok owner) -> P owner) ->
  returns (sandboxServiceForAdminDefault resolveOwner) tr (Ok (svc, snapshot)) ->
  from_default T P snapshot /\ serves svc snapshot.
Proof.
  intros HT HP H. unfold ServiceSelection.sandboxServiceForAdminDefault in H. unroll H; bool_prop; simplify_eq.
  all: match goal with H : Ok _ = withService _ |- _ => symmetry in H; apply withService_snapshot in H as [-> Hsvc] end.
  all: split; [|done]; eexists; split_and!; [evidence HT|done|done|done|done|].
  - intros _. eexists. split; [|evidence HT]. eapply HP; [|eassumption]. part HT.
  - done.
Qed.

Lemma scope_owner_evidence scope tr owner : tr ⊆ T ->
  returns (sandboxDefaultAudienceOwnerForScope configured scope) tr (Ok owner) -> scope_owner T scope owner.
Proof.
  intros HT H. unfold sandboxDefaultAudienceOwnerForScope in H.
  destruct (bool_decide (scope_Type scope = AccountScopeTypeGitHubInstall)) eqn:E1; bool_prop.
  { left. split; [done|]. by apply (owner_evidence _ tr). }
  unroll H; bool_prop. right. split; [done|]. eexists. cbn. split_and!; [evidence HT|done|lia|done].
Qed.

Lemma with_default_evidence scope tr svc snapshot : tr ⊆ T ->
  returns (sandboxServiceForScopeWithDefault scope) tr (Ok (svc, snapshot)) ->
  (from_scope decodeService T scope snapshot \/ from_default T (scope_owner T scope) snapshot) /\ serves svc snapshot.
Proof.
  intros HT H. unfold ServiceSelection.sandboxServiceForScopeWithDefault in H. unroll H.
  - destruct (scope_evidence 2 scope x svc snapshot) as [H1 H2]; [part HT|done|]. auto.
  - match goal with H : returns (sandboxServiceForAdminDefault _) _ _ |- _ =>
      apply (default_evidence (scope_owner T scope)) in H as [? ?]; [auto|part HT|apply scope_owner_evidence] end.
Qed.

(** ** Sponsorships *)

Lemma eligible_evidence policy fork source tr reason : tr ⊆ T ->
  returns (authorizeForkSponsorship policy fork source) tr (Ok reason) -> eligible T policy fork source reason.
Proof.
  intros HT H. unfold authorizeForkSponsorship in H. unroll H; bool_prop; unfold eligible; (split; [congruence|]).
  - left. split; [done|]. eexists. split; [evidence HT|]. repeat split; try lia; by apply Is_true_true.
  - right; left. split; [done|]. split; [by apply Is_true_true|]. eexists. split; [evidence HT|].
    repeat split; [lia|by apply Is_true_true|done].
  - right; right. split; [done|]. split; [by apply Is_true_true|]. eexists. split; [evidence HT|].
    repeat split; [done|lia|by apply Is_true_true].
Qed.

(** What a sponsored run rests on. *)
Record sponsored_by (req : RunnerRequest) (snapshot : SandboxSnapshot) (fork source : Repository)
    (policy : ForkSponsorshipPolicy) (sponsor : GitHubInstallationAccount) (credentials : SandboxSnapshot) : Prop := {
  sb_fork : seen (SGetRepository (req_RepositoryFullName req)) (Ok fork) T /\ repo_Source fork = Some source /\
    isSourcedFork fork source /\ EqualFold (TrimSpace (repo_FullName fork)) (TrimSpace (req_RepositoryFullName req));
  sb_policy : seen (qPolicyBySource (repo_ID source)) (Ok policy) T /\ pol_Enabled policy /\
    EqualFold (TrimSpace (pol_SourceRepositoryFullName policy)) (TrimSpace (repo_FullName source));
  sb_sponsor : owner_of T (pol_SponsorInstallationID policy) sponsor /\ ownsSource sponsor source;
  sb_eligible : eligible T policy fork source (pol_Mode policy);
  sb_credentials : from_scope decodeService T (installation (pol_SponsorInstallationID policy)) credentials \/
    from_default T (scope_owner T (installation (pol_SponsorInstallationID policy))) credentials;
  sb_snapshot : snapshot = sponsoredSnapshot policy fork (pol_Mode policy) credentials
}.

Lemma sponsorship_evidence req tr svc snapshot : tr ⊆ T ->
  returns (sandboxServiceForForkSponsorship req) tr (Ok (svc, snapshot)) ->
  (exists fork source policy sponsor credentials, sponsored_by req snapshot fork source policy sponsor credentials) /\
  serves svc snapshot.
Proof.
  intros HT H. unfold ServiceSelection.sandboxServiceForForkSponsorship in H. unroll H; bool_prop.
  match goal with H : returns (sandboxServiceForScopeWithDefault _) _ _ |- _ =>
    apply with_default_evidence in H as [Hc Hs]; [|part HT] end.
  match goal with H : returns (authorizeForkSponsorship _ _ _) _ _ |- _ =>
    apply eligible_evidence in H as He; [|part HT] end.
  match goal with H : returns (githubInstallationOwner _ _) _ _ |- _ =>
    apply owner_evidence in H as Ho; [|part HT] end.
  split; [|exact Hs]. assert (a2 = pol_Mode a0) as -> by apply He.
  do 5 eexists. split; [|split_and!; try by apply Is_true_true|split; [exact Ho|by apply Is_true_true]|exact He|exact Hc|done].
  - split_and!; [evidence HT|done|by apply Is_true_true|by apply Is_true_true].
  - evidence HT.
Qed.

(** ** The order of the sources *)

(** The request as the selection continues with it: an installation is added by its owner. *)
Definition resolved (req req' : RunnerRequest) : Prop :=
  req' = req \/
  ((req_GitHubInstallationID req <= 0)%Z /\ exists owner rest i,
     Cut (TrimSpace (req_RepositoryFullName req)) "/"%char = (owner, rest, true) /\
     seen (qScopeForLogin owner) (Ok (i, true)) T /\ req' = req <| req_GitHubInstallationID := i |>).

(** The scope was consulted and is not configured. *)
Definition unconfigured (scope : accountPreferenceScope) : Prop :=
  exists tr e, tr ⊆ T /\ returns (sandboxServiceForScope scope) tr (Err e) /\ errors_is e errSandboxServiceNotConfigured.

Definition no_personal_service (i : Z) : Prop :=
  exists a ok, seen (qPersonal i) (Ok (a, ok)) T /\ (ok = true -> unconfigured (account a)).

Definition no_sponsorship (req : RunnerRequest) : Prop :=
  exists r, seen (SProfile req) r T /\
    forall p, r = Ok p -> p_TemplateSource p = TemplateSourcePublic ->
      exists tr e, tr ⊆ T /\ returns (sandboxServiceForForkSponsorship req) tr (Err e) /\ errors_is e ErrNotFound.

Inductive chosen (req : RunnerRequest) : SandboxSnapshot -> Prop :=
| chosen_saved : hasSnapshot req = true -> chosen req (requestSnapshot req)
| chosen_installation req' i snapshot :
    hasSnapshot req = false -> resolved req req' -> i = req_GitHubInstallationID req' -> (0 < i)%Z ->
    from_scope decodeService T (installation i) snapshot -> chosen req snapshot
| chosen_personal req' i a snapshot :
    hasSnapshot req = false -> resolved req req' -> i = req_GitHubInstallationID req' -> (0 < i)%Z ->
    unconfigured (installation i) -> seen (qPersonal i) (Ok (a, true)) T ->
    from_scope decodeService T (account a) snapshot -> chosen req snapshot
| chosen_sponsored req' i p snapshot fork source policy sponsor credentials :
    hasSnapshot req = false -> resolved req req' -> i = req_GitHubInstallationID req' -> (0 < i)%Z ->
    unconfigured (installation i) -> no_personal_service i -> isScopedCustom req = false ->
    seen (SProfile req') (Ok p) T -> p_TemplateSource p = TemplateSourcePublic ->
    sponsored_by req' snapshot fork source policy sponsor credentials -> chosen req snapshot
| chosen_default req' i snapshot :
    hasSnapshot req = false -> resolved req req' -> i = req_GitHubInstallationID req' -> (0 < i)%Z ->
    unconfigured (installation i) -> no_personal_service i -> isScopedCustom req = false ->
    no_sponsorship req' -> from_default T (owner_of T i) snapshot -> chosen req snapshot
| chosen_open_default req' snapshot :
    hasSnapshot req = false -> resolved req req' -> (req_GitHubInstallationID req' <= 0)%Z -> isScopedCustom req = false ->
    from_default T (fun _ => False) snapshot -> chosen req snapshot.

Lemma resolved_evidence req tr req' : tr ⊆ T -> returns (installationOfRequest req) tr (Ok req') ->
  resolved req req' /\ isScopedCustom req' = isScopedCustom req.
Proof.
  intros HT H. unfold installationOfRequest, githubInstallationScopeForRepository in H. unroll H; bool_prop; try (split; [by left|done]).
  destruct b; [|split; [by left|done]].
  split; [|done]. right. split; [lia|]. do 3 eexists. subst. split_and!; [done|evidence HT|done].
Qed.

Lemma personal_evidence req tr r :
  tr ⊆ T -> returns (serviceForPersonalAccount decryptSecret newE2BService decodeService req) tr (Ok r) ->
  match r with
  | Some (svc, snapshot) =>
      exists a, seen (qPersonal (req_GitHubInstallationID req)) (Ok (a, true)) T /\ from_scope decodeService T (account a) snapshot /\
        serves svc snapshot
  | None => no_personal_service (req_GitHubInstallationID req)
  end.
Proof.
  intros HT H. unfold serviceForPersonalAccount in H. unroll H; bool_prop; subst.
  - do 2 eexists. split; [evidence HT|done].
  - destruct a as [svc snapshot]. eexists. split; [evidence HT|]. eapply scope_evidence; [|eassumption]. part HT.
  - do 2 eexists. split; [evidence HT|]. intros _. do 2 eexists. split; [|split; [eassumption|by apply Is_true_true]]. part HT.
Qed.

Lemma sponsored_evidence req tr r :
  tr ⊆ T -> returns (serviceForSponsorship configured decryptSecret newE2BService decodeService req) tr (Ok r) ->
  match r with
  | Some (svc, snapshot) =>
      (exists p fork source policy sponsor credentials, seen (SProfile req) (Ok p) T /\
        p_TemplateSource p = TemplateSourcePublic /\ sponsored_by req snapshot fork source policy sponsor credentials) /\
      serves svc snapshot
  | None => no_sponsorship req
  end.
Proof.
  intros HT H. unfold serviceForSponsorship in H. unroll H; bool_prop; subst.
  - eexists. split; [evidence HT|]. by intros p [= <-].
  - destruct a0 as [svc snapshot].
    match goal with H : returns (sandboxServiceForForkSponsorship _) _ _ |- _ =>
      apply sponsorship_evidence in H as [(fork & source & policy & sponsor & credentials & Hb) Hs]; [|part HT] end.
    split; [|done]. do 6 eexists. split; [evidence HT|]. split; [done|exact Hb].
  - eexists. split; [evidence HT|]. intros p [= <-] _. do 2 eexists. split; [|split; [eassumption|by apply Is_true_true]]. part HT.
  - eexists. split; [evidence HT|]. by intros p [=].
Qed.

Lemma installation_evidence req req' tr svc snapshot :
  tr ⊆ T -> hasSnapshot req = false -> resolved req req' -> (0 < req_GitHubInstallationID req')%Z ->
  isScopedCustom req' = isScopedCustom req ->
  returns (serviceForInstallation configured decryptSecret newE2BService decodeService req'
             (installation (req_GitHubInstallationID req'))) tr (Ok (svc, snapshot)) ->
  chosen req snapshot /\ serves svc snapshot.
Proof.
  intros HT Hn Hr Hi Hc H. unfold serviceForInstallation in H. unroll H; bool_prop.
  { match goal with H : returns (sandboxServiceForScope _) _ _ |- _ =>
      apply (scope_evidence 2) in H as [Hf Hs]; [|part HT] end.
    split; [by eapply chosen_installation|done]. }
  all: match goal with H : returns (sandboxServiceForScope _) _ _ |- _ =>
         assert (Hu : unconfigured (installation (req_GitHubInstallationID req')))
           by (do 2 eexists; split; [|split; [exact H|by apply Is_true_true]]; part HT) end.
  all: match goal with H : returns (serviceForPersonalAccount _ _ _ _) _ _ |- _ =>
         apply personal_evidence in H as Hp; [|part HT] end.
  { destruct Hp as (a & Ha & Hf & Hs). split; [by eapply chosen_personal|done]. }
  all: match goal with H : returns (serviceForSponsorship _ _ _ _ _) _ _ |- _ =>
         apply sponsored_evidence in H as Hf; [|part HT] end.
  { destruct Hf as [(p & fork & source & policy & sponsor & credentials & H1 & H2 & H3) Hs].
    split; [eapply chosen_sponsored; try done; congruence|done]. }
  match goal with H : returns (sandboxServiceForAdminDefault _) _ _ |- _ =>
    apply (default_evidence (owner_of T (req_GitHubInstallationID req'))) in H as [Hd Hs]; [|part HT|apply owner_evidence] end.
  split; [eapply chosen_default; try done; congruence|done].
Qed.

Lemma selection_evidence req tr svc snapshot : injected = None -> tr ⊆ T ->
  returns (sandboxServiceForRequest req) tr (Ok (svc, snapshot)) -> chosen req snapshot /\ serves svc snapshot.
Proof.
  intros Hinj HT H. unfold sandboxServiceAndConfigForRunnerRequestContext in H. rewrite Hinj in H.
  destruct (hasSnapshot req) eqn:Hn.
  { destruct H as [-> H]. symmetry in H. apply withService_snapshot in H as [-> Hs]. split; [by constructor|done]. }
  apply returns_tbind in H as (tr1 & tr2 & r & -> & H1 & H). destruct r as [req'|e]; [|by destruct H].
  apply resolved_evidence in H1 as [Hr Hc]; [|part HT].
  unfold sandboxScopeForRunnerRequest in H. destruct (_ <=? 0)%Z eqn:Hi.
  - unfold serviceWithoutScope in H. unroll H.
    match goal with H : returns (sandboxServiceForAdminDefault _) _ _ |- _ =>
      apply (default_evidence (fun _ => False)) in H as [Hd Hs]; [|part HT|intros tr' o _ [_ E]; discriminate E] end.
    split; [|done]. eapply chosen_open_default; try done; first [lia|congruence].
  - apply (installation_evidence req req') in H; [done|part HT|done|done|lia|done].
Qed.

(** ** The depth of inheritance *)

Lemma account_fuel n m a tr r :
  returns (sandboxServiceForScopeFuel (S n) (account a)) tr r -> returns (sandboxServiceForScopeFuel (S m) (account a)) tr r.
Proof.
  cbn [ServiceSelection.sandboxServiceForScopeFuel]. intros (q & tr' & -> & H). exists q, tr'. split; [done|].
  destruct q as [preference|e]; cbn [tbind] in *; [|exact H].
  destruct (decodeService (ap_ValueJSON preference)) as [value|e]; [|exact H].
  rewrite bool_decide_eq_false_2 in H |- * by (by rewrite account_mode). exact H.
Qed.

Lemma scope_fuel n m scope tr r :
  returns (sandboxServiceForScopeFuel (S (S n)) scope) tr r -> returns (sandboxServiceForScopeFuel (S (S m)) scope) tr r.
Proof.
  intros (q & tr' & -> & H). exists q, tr'. split; [done|].
  destruct q as [preference|e]; [|exact H]. revert H. cbn [tbind].
  destruct (decodeService (ap_ValueJSON preference)) as [value|e]; [|done].
  destruct (bool_decide _); [|done]. destruct (_ <=? 0)%Z; [done|].
  rewrite !returns_tbind. intros (tr1 & tr2 & ok & -> & H1 & H). exists tr1, tr2, ok. split_and!; [done|done|].
  destruct ok as [ok|e]; [|done]. destruct (negb ok); [done|].
  apply returns_tbind in H as (tr3 & tr4 & x & -> & H2 & H). apply returns_tbind. exists tr3, tr4, x.
  split_and!; [done| |done]. by apply (account_fuel n m).
Qed.
End safety.

(** ** Claims *)

(** C11: The service of a request is the first that is configured, in the documented order: the
    snapshot saved on the request; the settings of its installation (found by the owner of
    the repository when the request names none), its own or those of an account the
    installation was seen linked to; the settings of the personal account; a sponsorship,
    for a public template; the administrator's default.  Each later source is used only
    after the earlier ones were consulted and found not configured; a scoped custom spec
    never gets a sponsored or default service; the default is used only while enabled
    and, when restricted, only after the installation's owner was found in its audience;
    and the client is made from the address and key of the returned snapshot. *)
Theorem selection_order {Service} configured decryptSecret (newE2BService : string -> string -> result Service) decodeService
    req tr svc snapshot :
  returns (sandboxServiceAndConfigForRunnerRequestContext None configured decryptSecret newE2BService decodeService req)
    tr (Ok (svc, snapshot)) ->
  chosen configured decryptSecret newE2BService decodeService tr req snapshot /\
  sandboxServiceForConfig decryptSecret newE2BService snapshot = Ok svc.
Proof. by apply selection_evidence. Qed.

Lemma from_scope_source decodeService tr scope snapshot :
  from_scope decodeService tr scope snapshot -> snap_Source snapshot <> sandboxConfigSourceForkSponsorship.
Proof. destruct 1 as [[ty id] url key _|]; [|done]. unfold sandboxConfigSourceForScope. cbn. by destruct (bool_decide _). Qed.

Lemma from_default_source tr P snapshot : from_default tr P snapshot -> snap_Source snapshot <> sandboxConfigSourceForkSponsorship.
Proof. by intros (d & _ & _ & _ & _ & -> & _). Qed.

(** C26: A request that has no snapshot of a service yet is given a sponsor's service only
    with authority seen in the same selection (a request that was given one before keeps
    that service without another look): GitHub described its repository as a fork, under the name of the request, of a source
    with stable identities; the policy stored for that source is enabled and names it; the
    owner of the sponsoring installation is the organization that owns the source; and
    the fork's owner meets the policy's mode: an approval of exactly this fork, owner and
    sponsor, or write permission on the source, or active membership of the
    organization, each for the owner's stable id.  The profile has a public template, the
    spec is not a scoped custom one, the credentials are the sponsor's or the default
    open to the sponsor, and the snapshot records the policy, the reason and the fork. *)
Theorem sponsorship_authorized {Service} configured decryptSecret (newE2BService : string -> string -> result Service) decodeService
    req tr svc snapshot :
  hasSnapshot req = false ->
  returns (sandboxServiceAndConfigForRunnerRequestContext None configured decryptSecret newE2BService decodeService req)
    tr (Ok (svc, snapshot)) ->
  snap_Source snapshot = sandboxConfigSourceForkSponsorship ->
  isScopedCustom req = false /\
  exists req' profile fork source policy sponsor credentials,
    resolved tr req req' /\ seen (SProfile req') (Ok profile) tr /\ p_TemplateSource profile = TemplateSourcePublic /\
    sponsored_by decodeService tr req' snapshot fork source policy sponsor credentials.
Proof.
  intros Hn H Hs. apply (selection_evidence _ _ _ _ _ tr) in H as [H _]; [|done|done].
  destruct H; try congruence; try (by edestruct from_scope_source); try (by edestruct from_default_source).
  split; [done|]. by do 7 eexists.
Qed.

(** Inheritance ends: however deep the recursion is allowed to go, the settings of a scope
    are those found two levels deep, since the account an installation inherits from
    never inherits itself.  The bound of the model loses no run. *)
Theorem inheritance_depth {Service} decryptSecret (newE2BService : string -> string -> result Service) decodeService
    fuel scope tr r :
  returns (sandboxServiceForScopeFuel decryptSecret newE2BService decodeService (2 + fuel) scope) tr r <->
  returns (sandboxServiceForScope decryptSecret newE2BService decodeService scope) tr r.
Proof. split; [apply (scope_fuel _ _ _ fuel 0)|apply (scope_fuel _ _ _ 0 fuel)]. Qed.

(** ** A sponsored run *)

(** Answers from tables that nobody changes, GitHub's by the given functions. *)
Definition frozen (now : Time) (t : tables) (profile : result RunnerProfile) (repository : string -> result Repository)
    (membership : result OrganizationMember) (memberships : result (list OrganizationMembership)) : forall R, scall R -> R :=
  fun R e =>
    match e in scall R return R with
    | SNow => now
    | SRead query => query t
    | SWrite operation => let? (_, a) := operation now t in Ok a
    | SMutate _ mutation => let? (_, a) := mutation now t in Ok a
    | SAudit _ => tt
    | SInvalidate _ => tt
    | SProfile _ => profile
    | SGetRepository name => repository name
    | SGetInstallation _ => Err ErrNotFound
    | SCollaboratorPermission _ _ => Err ErrNotFound
    | SOrganizationMembership _ _ _ => membership
    | SUserInstallations _ => Ok []
    | SUserRepositories _ _ => Ok []
    | SUserRepositoryDetails _ _ => Ok []
    | SMemberships _ => memberships
    | SGitHubAccount _ => Err ErrNotFound
    | SWorkflowRun _ _ => Err ErrNotFound
    | SPullRequest _ _ => Err ErrNotFound
    | SFederationToken _ => Err ErrNotFound
    | SRepositoryAccess _ => Err ErrNotFound
    | SNewID => "id"
    | SOAuthToken _ _ => Err ErrNotFound
    | SOAuthUser _ => Err ErrNotFound
    | SEnsureAccount _ _ => Err ErrNotFound
    | SUpdateRole _ => Err ErrNotFound
    | SRunnerGroups _ _ => Ok []
    | SListInstallations => Ok []
    | SInstallationRepositories _ => Ok []
    | SValidateTemplate _ _ => Ok tt
    | STemplateCatalog _ => None
    | SInspectTemplate _ _ => None
    end.

Definition or_else {A} (r : result A) (d : A) : A := match r with Ok a => a | Err _ => d end.

(** Organization acme (installation 200) has a sandbox service and sponsors the forks of
    its members. *)
Definition ex_sponsor_scope : accountPreferenceScope := MkPreferenceScope AccountScopeTypeGitHubInstall 200.
Definition ex_sponsor_tables : tables :=
  let db := (or_else (UpsertGitHubInstallationOwner 200 (MkGitHubInstallationAccount 42 "Organization" "acme" "" "") 1 accountDB0)
               (accountDB0, MkGitHubInstallationAccount 0 "" "" "" "")).1 in
  let db := (or_else (UpsertAccountPreferenceAndSecrets
                        (MkAccountPreference 0 AccountScopeTypeGitHubInstall 200 "sandbox" "service" "saved" 0 0)
                        [MkAccountSecret 0 AccountScopeTypeGitHubInstall 200 AccountSecretTypeSandboxAPIKey "sealed" 0 0] 1 db)
               (db, MkAccountPreference 0 "" 0 "" "" "" 0 0)).1 in
  let policy := MkForkSponsorshipPolicy 200 70 "acme/app" ForkSponsorshipModeOrganizationMember true 2 0 0 in
  MkTables db (or_else (CreateForkSponsorshipPolicy policy 1 sponsorDB0) (sponsorDB0, policy)).1 ∅ ∅ ∅.

Definition ex_source : Repository :=
  MkRepository 70 "acme/app" "app" "main" false (MkGitHubAccount 42 "Organization" "acme" "" "") None None.
Definition ex_fork : Repository :=
  MkRepository 71 "bob/app" "app" "main" true (MkGitHubAccount 9 "User" "bob" "" "") (Some ex_source) (Some ex_source).

Definition ex_decode (json : string) : result accountSandboxServicePreferenceValue :=
  if bool_decide (json = "saved") then Ok (MkSandboxValue "" "https://sandbox.example" 0) else Err (ErrText "invalid json").

Definition ex_fork_request : RunnerRequest :=
  ex_request <| req_GitHubInstallationID := 100%Z |> <| req_RepositoryFullName := "bob/app" |>.

Definition ex_selection : sprog (result (string * SandboxSnapshot)) :=
  sandboxServiceAndConfigForRunnerRequestContext None true (fun s => Ok s) (fun key url => Ok (url +:+ " " +:+ key)) ex_decode
    ex_fork_request.

Definition ex_selection_run (membership : result OrganizationMember) :=
  replay (frozen 5 ex_sponsor_tables (Ok (ex_profile <| p_TemplateSource := TemplateSourcePublic |>)) (fun _ => Ok ex_fork)
            membership (Ok [])) ex_selection.

Definition ex_member : OrganizationMember := MkOrganizationMember "active" "member" 9 "Bob".
Definition ex_sponsored_snapshot : SandboxSnapshot :=
  MkSnapshot "https://sandbox.example" "sealed" sandboxConfigSourceForkSponsorship 200 70 "acme/app"
    ForkSponsorshipModeOrganizationMember 71 "bob/app" 9 "bob".

Lemma ex_selection_result :
  returns ex_selection (ex_selection_run (Ok ex_member)).1 (Ok ("https://sandbox.example sealed", ex_sponsored_snapshot)).
Proof.
  pose proof (replay_returns (frozen 5 ex_sponsor_tables (Ok (ex_profile <| p_TemplateSource := TemplateSourcePublic |>))
    (fun _ => Ok ex_fork) (Ok ex_member) (Ok [])) ex_selection) as H.
  refine (eq_rect _ (returns ex_selection _) H _ _). vm_compute. reflexivity.
Qed.

Lemma selection_order_witness :
  chosen true (fun s => Ok s) (fun key url => Ok (url +:+ " " +:+ key)) ex_decode (ex_selection_run (Ok ex_member)).1
    ex_fork_request ex_sponsored_snapshot.
Proof. exact (proj1 (selection_order _ _ _ _ _ _ _ _ ex_selection_result)). Defined.

Lemma sponsorship_authorized_witness :
  exists req' profile fork source policy sponsor credentials,
    resolved (ex_selection_run (Ok ex_member)).1 ex_fork_request req' /\
    seen (SProfile req') (Ok profile) (ex_selection_run (Ok ex_member)).1 /\ p_TemplateSource profile = TemplateSourcePublic /\
    sponsored_by ex_decode (ex_selection_run (Ok ex_member)).1 req' ex_sponsored_snapshot fork source policy sponsor credentials.
Proof. exact (proj2 (sponsorship_authorized true _ _ _ ex_fork_request _ _ ex_sponsored_snapshot eq_refl ex_selection_result eq_refl)). Defined.

(** GitHub answers a membership query about a non-member with status 404, which the client
    reports as a plain error: the selection of a fork whose owner is not a member fails
    instead of going on to the administrator's default. *)
Lemma non_member_fails : exists e,
  (ex_selection_run (Err (ErrText "github organization membership: status 404: Not Found"))).2 = Err e /\
  errors_is e ErrNotFound = false /\ errors_is e errSandboxServiceNotConfigured = false.
Proof. eexists. split; [vm_compute; reflexivity|done]. Qed.
