(* ===== verification/CacheScopes.v ===== *)
(** * Cache credentials (internal/server/cache_sts.go, cache_service.go and the cache part
    of server_runner_lifecycle.go)

    A runner gets session credentials for the S3 cache of its installation.  The policy
    of the session names the scopes it may read, and at most one it may write: the scope of
    the pull request or of the branch the workflow run belongs to, as GitHub reports it. *)

From stdpp Require Import base gmap list strings.
From S2P Require Import Prelude GoStrings Rows RunnerModel RunnerStore AccountModel AccountStore Catalog Program Trace ServerCalls.
From Stdlib Require Import Ascii.

Definition ErrCacheServiceNotConfigured : goerror := ErrSentinel "cache service not configured".
Definition cacheSTSHeadroom : Z := 5 * Minute.

(** ** Names *)

Definition wildcards : list ascii := ["*"%char; "?"%char].

Definition validateCacheBucket (bucket : string) : option goerror :=
  let bucket := TrimSpace bucket in
  if bool_decide (bucket = "") || bool_decide (bucket = ".") || bool_decide (bucket = "..")
     || ContainsAny bucket ["/"%char; "\"%char; "*"%char; "?"%char]
  then Some (ErrText "cache S3 bucket contains an invalid resource component") else None.

(** The loop over the components of a prefix. *)
Fixpoint validateComponents (components : list string) : option goerror :=
  match components with
  | [] => None
  | c :: rest =>
      if bool_decide (c = "") || bool_decide (c = ".") || bool_decide (c = "..")
      then Some (ErrText "cache prefix contains an invalid path component") else
      if ContainsAny c wildcards then Some (ErrText "cache prefix contains a resource wildcard")
      else validateComponents rest
  end.

Definition validateCachePrefix (prefix : string) : option goerror :=
  if bool_decide (prefix = "") then Some (ErrText "cache prefix is required for STS prefix isolation")
  else validateComponents (Split prefix "/"%char).

Definition trimSlashes (s : string) : string := Trim (TrimSpace s) "/"%char.

Definition scopeForPR (prNumber : Z) : string :=
  if (prNumber <=? 0)%Z then "scopes/pr-unknown" else "scopes/pr-" +:+ FormatInt prNumber.

(** The scopes not seen before, in their order. *)
Fixpoint distinctScopes (seen : list string) (scopes : list string) : list string :=
  match scopes with
  | [] => []
  | scope :: rest =>
      let scope := trimSlashes scope in
      if bool_decide (scope = "") || bool_decide (scope ∈ seen) then distinctScopes seen rest
      else scope :: distinctScopes (scope :: seen) rest
  end.

Definition uniqueCacheScopes (scopes : list string) : list string := distinctScopes [] scopes.

(** The prefixes whose JSON list is handed to the runner. *)
Definition cacheScopePrefixes (cacheBasePrefix : string) (scopes : list string) : list string :=
  (fun scope => TrimRight cacheBasePrefix "/"%char +:+ "/" +:+ scope) <$> uniqueCacheScopes scopes.

(** ** The policy of a session *)

Definition scopeResource (bucket cachePrefix scope : string) : string :=
  "qrn:kodo:::bucket/" +:+ bucket +:+ "/" +:+ cachePrefix +:+ "/" +:+ scope +:+ "/*".

(** The resources and list prefixes of the read scopes not [seen] before. *)
Fixpoint readGrants (bucket cachePrefix : string) (seen : list string) (scopes : list string)
    : result (list (string * string)) :=
  match scopes with
  | [] => Ok []
  | scope :: rest =>
      let scope := trimSlashes scope in
      if bool_decide (scope = "") then readGrants bucket cachePrefix seen rest else
      match validateCachePrefix scope with
      | Some err => Err (ErrWrap ("invalid read scope " +:+ quote +:+ scope +:+ quote +:+ ": ") err "")
      | None =>
          let res := scopeResource bucket cachePrefix scope in
          if bool_decide (res ∈ seen) then readGrants bucket cachePrefix seen rest else
          let? grants := readGrants bucket cachePrefix (res :: seen) rest in
          Ok ((res, cachePrefix +:+ "/" +:+ scope +:+ "/*") :: grants)
      end
  end.

Definition listActions := ["kodo/list"; "kodo/listMultipartUploads"].
Definition readActions := ["kodo/stat"; "kodo/get"].
Definition writeActions := ["kodo/upload"; "kodo/mkfile"; "kodo/listParts"; "kodo/abortMultipartUpload"; "kodo/delete"].

(** The statements, from the trimmed names. *)
Definition sessionPolicy (bucket cachePrefix ownScope : string) (readScopes : list string) : result (list statement) :=
  let? grants := readGrants bucket cachePrefix [] readScopes in
  if bool_decide (grants = []) then Err (ErrText "at least one cache read scope is required") else
  let statements := [MkStatement listActions ["qrn:kodo:::bucket/" +:+ bucket] (Some grants.*2);
                     MkStatement readActions grants.*1 None] in
  let ownScope := trimSlashes ownScope in
  if bool_decide (ownScope = "") then Ok statements else
  match validateCachePrefix ownScope with
  | Some err => Err (ErrWrap ("invalid own scope " +:+ quote +:+ ownScope +:+ quote +:+ ": ") err "")
  | None => Ok (statements ++ [MkStatement writeActions [scopeResource bucket cachePrefix ownScope] None])
  end.

Record cacheSTSCredentialConfig := MkSTSConfig { sts_Bucket : string; sts_AccessKeyID : string; sts_SecretAccessKey : string }.

Record CacheSTSCredentials := MkSTSCredentials {
  creds_AccessKeyID : string;
  creds_SecretAccessKey : string;
  creds_SessionToken : string;
  creds_Expiration : Time
}.

(** Everything before the call. *)
Definition federationRequestFor (config : cacheSTSCredentialConfig) (cachePrefix ownScope : string) (readScopes : list string)
    (endpoint : string) (durationSeconds : Z) : result federationRequest :=
  let bucket := TrimSpace (sts_Bucket config) in
  match validateCacheBucket bucket with
  | Some err => Err err
  | None =>
      let cachePrefix := TrimSuffix (TrimPrefix (TrimSpace cachePrefix) "/") "/" in
      match validateCachePrefix cachePrefix with
      | Some err => Err err
      | None =>
          let? policy := sessionPolicy bucket cachePrefix ownScope readScopes in
          if (durationSeconds <=? 0)%Z then Err (ErrText "STS duration must be positive") else
          let endpoint := TrimRight (TrimSpace endpoint) "/"%char in
          if bool_decide (endpoint = "") then Err (ErrText "cache STS endpoint is required") else
          let endpoint := if HasPrefix endpoint "http://" || HasPrefix endpoint "https://" then endpoint else "https://" +:+ endpoint in
          Ok (MkFederationRequest (endpoint +:+ "/sts/federation/token") durationSeconds policy
                (TrimSpace (sts_AccessKeyID config)) (TrimSpace (sts_SecretAccessKey config)))
      end
  end.

Definition generateCacheSTS (config : cacheSTSCredentialConfig) (cachePrefix ownScope : string) (readScopes : list string)
    (endpoint : string) (durationSeconds : Z) : sprog (result CacheSTSCredentials) :=
  match federationRequestFor config cachePrefix ownScope readScopes endpoint durationSeconds with
  | Err err => Done (Err err)
  | Ok request =>
      let*? response := perform (SFederationToken request) in
      if negb (fr_Code response =? 0)%Z || negb (bool_decide (fr_Error response = ""))
      then Done (Err (ErrText ("STS API error (code=" +:+ FormatInt (fr_Code response) +:+ "): " +:+ fr_Error response +:+ " " +:+ fr_Message response))) else
      match fr_Credential response with
      | None => Done (Err (ErrText "STS returned no credential"))
      | Some (accessKey, secretKey, sessionToken, expiration) =>
          if bool_decide (TrimSpace accessKey = "") then Done (Err (ErrText "STS returned no credential")) else
          match expiration with
          | None => Done (Err (ErrText "parse STS credential expiration"))
          | Some expiration => Done (Ok (MkSTSCredentials accessKey secretKey sessionToken expiration))
          end
      end
  end.

(** Seconds of a [time.Duration] cut to an int. *)
Definition cacheSTSDurationSeconds (sandboxTimeout : Z) : Z :=
  let sandboxTimeout := if (sandboxTimeout <=? 0)%Z then Hour else sandboxTimeout in
  Z.quot (wrap64 (sandboxTimeout + cacheSTSHeadroom)) Second.

(** ** The storage of an installation *)

Record SandboxRegionConfig := MkRegion {
  rg_ID : string;
  rg_Label : string;
  rg_SandboxAPIURL : string;
  rg_S3Region : string;
  rg_S3Endpoint : string
}.

Record cacheS3 := MkCacheS3 {
  s3_bucket : string;
  s3_prefix : string;
  s3_region : string;
  s3_endpoint : string;
  s3_accessKeyID : string;
  s3_secretKey : string
}.

Definition newCacheS3 (region bucket prefix endpoint accessKeyID secretAccessKey : string) : result cacheS3 :=
  let region := TrimSpace region in
  let bucket := TrimSpace bucket in
  if bool_decide (region = "") || bool_decide (bucket = "") || bool_decide (TrimSpace accessKeyID = "")
     || bool_decide (TrimSpace secretAccessKey = "")
  then Err (ErrText "cache S3 region, bucket, access key, and secret key are required") else
  let prefix := trimSlashes prefix in
  Ok (MkCacheS3 bucket (if bool_decide (prefix = "") then "gh-actions-cache" else prefix) region endpoint accessKeyID secretAccessKey).

Section storage.
Context (regions : list SandboxRegionConfig) (decryptSecret : string -> result string).
Context (decodeCache : string -> result accountCacheServicePreferenceValue).

Definition same_endpoint (normalized : string) (region : SandboxRegionConfig) : bool :=
  EqualFold (TrimRight (TrimSpace (rg_SandboxAPIURL region)) "/"%char) normalized.

Definition cacheS3SettingsForSandboxAPIURL (apiURL : string) : option (string * string) :=
  match List.find (same_endpoint (TrimRight (TrimSpace apiURL) "/"%char)) regions with
  | None => None
  | Some region =>
      let endpoint := TrimSpace (rg_S3Endpoint region) in
      let endpoint := if negb (bool_decide (endpoint = "")) && negb (HasPrefix endpoint "http://")
                         && negb (HasPrefix endpoint "https://") then "https://" +:+ endpoint else endpoint in
      Some (TrimSpace (rg_S3Region region), endpoint)
  end.

(** A lookup whose ErrNotFound means that the cache is not configured. *)
Definition orNotConfigured {A} (r : result A) : result A :=
  match r with Ok a => Ok a | Err err => Err (if errors_is err ErrNotFound then ErrCacheServiceNotConfigured else err) end.

Definition cacheStorageForScope (scope : accountPreferenceScope) (sandboxAPIURL : string) : sprog (result cacheS3) :=
  let* r := perform (qPreference scope accountPreferenceNamespaceCache accountPreferenceKeyCacheS3) in
  match orNotConfigured r with
  | Err err => Done (Err err)
  | Ok preference =>
      match decodeCache (ap_ValueJSON preference) with
      | Err err => Done (Err err)
      | Ok value =>
          match cacheS3SettingsForSandboxAPIURL sandboxAPIURL with
          | None => Done (Err ErrCacheServiceNotConfigured)
          | Some (region, endpoint) =>
              if bool_decide (region = "") || bool_decide (endpoint = "") then Done (Err ErrCacheServiceNotConfigured) else
              let* r := perform (qSecret scope AccountSecretTypeCacheAccessKeyID) in
              match orNotConfigured r with
              | Err err => Done (Err err)
              | Ok accessKey =>
                  let* r := perform (qSecret scope AccountSecretTypeCacheSecretAccessKey) in
                  match orNotConfigured r with
                  | Err err => Done (Err err)
                  | Ok secretKey =>
                      Done (let? access := decryptSecret (as_EncryptedValue accessKey) in
                            let? secret := decryptSecret (as_EncryptedValue secretKey) in
                            newCacheS3 region (cv_Bucket value) (cv_Prefix value) endpoint access secret)
                  end
              end
          end
      end
  end.

Definition cacheStorageForInstallation (installationID : Z) (sandboxAPIURL : string) : sprog (result cacheS3) :=
  if (installationID <=? 0)%Z then Done (Err (ErrText "invalid cache installation id")) else
  let* r := cacheStorageForScope (MkPreferenceScope AccountScopeTypeGitHubInstall installationID) sandboxAPIURL in
  match r with
  | Ok storage => Done (Ok storage)
  | Err err =>
      if negb (errors_is err ErrCacheServiceNotConfigured) then Done (Err err) else
      let*? (accountID, ok) := perform (qPersonal installationID) in
      if negb (ok : bool) then Done (Err ErrCacheServiceNotConfigured)
      else cacheStorageForScope (MkPreferenceScope AccountScopeTypeAccount accountID) sandboxAPIURL
  end.
End storage.

(** ** The scopes of a workflow run *)

Record cacheScopeDecision := MkDecision {
  dec_WriteScope : string;
  dec_ReadScopes : list string;
  dec_PullRequest : Z;
  dec_Decision : string
}.

Definition readOnly (defaultScope reason : string) : cacheScopeDecision := MkDecision "" [defaultScope] 0 reason.
Definition noCache (reason : string) : cacheScopeDecision := MkDecision "" [] 0 reason.

Definition cacheWriteTrustedEvent (event : string) : bool :=
  bool_decide (event ∈ ["push"; "workflow_dispatch"; "repository_dispatch"; "delete"; "registry_package"; "page_build"; "schedule"]).

Section scopes.
(** Whether there is a GitHub client, and the first 16 bytes of a SHA-256 in hexadecimal. *)
Context (configured : bool) (digest : string -> string).

Definition scopeForBranch (branch : string) : string :=
  let branch := TrimPrefix (TrimSpace branch) "refs/heads/" in
  let branch := if bool_decide (branch = "") then "default" else branch in
  "scopes/branch-" +:+ digest branch.

(** The scope of the default branch, or the decision without one. *)
Definition resolveRepositoryDefaultScope (repository reason : string) : sprog (string + cacheScopeDecision) :=
  if negb configured then Done (inr (noCache reason)) else
  let* r := perform (SGetRepository repository) in
  match r with
  | Err _ => Done (inr (noCache reason))
  | Ok metadata =>
      if negb (EqualFold (TrimSpace (repo_FullName metadata)) repository) || bool_decide (TrimSpace (repo_DefaultBranch metadata) = "")
      then Done (inr (noCache "no_cache_untrusted_repository_metadata"))
      else Done (inl (scopeForBranch (repo_DefaultBranch metadata)))
  end.

Definition readOnlyDefault (repository reason : string) : sprog cacheScopeDecision :=
  let* r := resolveRepositoryDefaultScope repository "no_cache_repository_lookup_failed" in
  match r with inr decision => Done decision | inl defaultScope => Done (readOnly defaultScope reason) end.

(** A pull_request run: the number of the run is looked up again. *)
Definition scopesForPullRequest (repository defaultScope : string) (run : WorkflowRun) : sprog cacheScopeDecision :=
  match run_PullRequests run with
  | [] => Done (readOnly defaultScope "read_only_missing_pull_request_metadata")
  | first :: _ =>
      if (pull_Number first <=? 0)%Z then Done (readOnly defaultScope "read_only_missing_pull_request_metadata") else
      let* r := perform (SPullRequest repository (pull_Number first)) in
      match r with
      | Err _ => Done (readOnly defaultScope "read_only_pull_request_lookup_failed")
      | Ok pull =>
          let baseRepo := TrimSpace (repo_FullName (ref_Repository (pull_Base pull))) in
          let baseBranch := TrimSpace (ref_Ref (pull_Base pull)) in
          let headRepo := TrimSpace (repo_FullName (ref_Repository (pull_Head pull))) in
          if negb (pull_Number pull =? pull_Number first)%Z || bool_decide (baseRepo = "") || bool_decide (baseBranch = "")
             || bool_decide (headRepo = "") || negb (EqualFold baseRepo repository)
          then Done (readOnly defaultScope "read_only_untrusted_pull_request_metadata") else
          let prScope := scopeForPR (pull_Number pull) in
          Done (MkDecision prScope (uniqueCacheScopes [prScope; scopeForBranch baseBranch; defaultScope]) (pull_Number pull)
                  (if EqualFold headRepo baseRepo then "internal_pull_request" else "fork_pull_request"))
      end
  end.

(** The other events write the scope of their own branch, when they are trusted. *)
Definition scopesForBranch (repository defaultScope event : string) (run : WorkflowRun) : cacheScopeDecision :=
  let headRepo := TrimSpace (repo_FullName (run_HeadRepository run)) in
  let baseRepo := TrimSpace (repo_FullName (run_Repository run)) in
  let branch := TrimSpace (run_HeadBranch run) in
  if bool_decide (headRepo = "") || bool_decide (baseRepo = "") || negb (EqualFold baseRepo repository)
     || negb (EqualFold headRepo baseRepo) then readOnly defaultScope "read_only_untrusted_repository_metadata" else
  if bool_decide (branch = "") then readOnly defaultScope "read_only_missing_branch" else
  if negb (cacheWriteTrustedEvent event) then readOnly defaultScope "read_only_untrusted_event" else
  let ownScope := scopeForBranch branch in
  MkDecision ownScope (uniqueCacheScopes [ownScope; defaultScope]) 0 "branch".

Definition cacheScopesForWorkflow (repository : string) (st : RunnerState) : sprog cacheScopeDecision :=
  if (st_WorkflowRunID st <=? 0)%Z then readOnlyDefault repository "read_only_missing_workflow_run" else
  let* r := perform (SWorkflowRun repository (st_WorkflowRunID st)) in
  match r with
  | Err _ => readOnlyDefault repository "read_only_workflow_run_lookup_failed"
  | Ok run =>
      let branch := TrimSpace (repo_DefaultBranch (run_Repository run)) in
      let* r := if negb (bool_decide (branch = "")) then Done (inl (scopeForBranch branch))
                else resolveRepositoryDefaultScope repository "no_cache_repository_lookup_failed" in
      match r with
      | inr decision => Done decision
      | inl defaultScope =>
          let event := ToLower (TrimSpace (run_Event run)) in
          if bool_decide (event = "pull_request") then scopesForPullRequest repository defaultScope run else
          if bool_decide (event ∈ ["pull_request_target"; "workflow_run"; "issue_comment"])
          then Done (readOnly defaultScope ("read_only_" +:+ event))
          else Done (scopesForBranch repository defaultScope event run)
      end
  end.
End scopes.

(** ** The cache part of a start *)

(** The fields of the runner's input; all empty when there is no cache. *)
Record cacheInput := MkCacheInput {
  ci_Region : string;
  ci_Bucket : string;
  ci_Endpoint : string;
  ci_ReadPrefixes : list string;
  ci_WritePrefix : string;
  ci_Credentials : option CacheSTSCredentials
}.

Definition noCacheInput : cacheInput := MkCacheInput "" "" "" [] "" None.

Definition cacheForStart (regions : list SandboxRegionConfig) (decryptSecret : string -> result string)
    (decodeCache : string -> result accountCacheServicePreferenceValue) (configured : bool) (digest : string -> string)
    (stsEndpoint : string) (sandboxTimeout : Z) (req : RunnerRequest) (st : RunnerState) (sandboxAPIURL : string) : sprog cacheInput :=
  if (req_GitHubInstallationID req <=? 0)%Z then Done noCacheInput else
  let* r := cacheStorageForInstallation regions decryptSecret decodeCache (req_GitHubInstallationID req) sandboxAPIURL in
  match r with
  | Err _ => Done noCacheInput
  | Ok storage =>
      let cacheBasePrefix := s3_prefix storage +:+ "/" +:+ req_RepositoryFullName req in
      let* decision := cacheScopesForWorkflow configured digest (req_RepositoryFullName req) st in
      let* r := generateCacheSTS (MkSTSConfig (s3_bucket storage) (s3_accessKeyID storage) (s3_secretKey storage)) cacheBasePrefix
                  (dec_WriteScope decision) (dec_ReadScopes decision) stsEndpoint (cacheSTSDurationSeconds sandboxTimeout) in
      match r with
      | Err _ => Done noCacheInput
      | Ok creds =>
          Done (MkCacheInput (s3_region storage) (s3_bucket storage) (s3_endpoint storage)
                  (cacheScopePrefixes cacheBasePrefix (dec_ReadScopes decision))
                  (if bool_decide (dec_WriteScope decision = "") then "" else cacheBasePrefix +:+ "/" +:+ dec_WriteScope decision)
                  (Some creds))
      end
  end.
