(* ===== verification/CacheSafety.v ===== *)
(** * Cache credentials: isolation of the scopes

    The resources of a policy are patterns in which [*] stands for any text and [?] for any
    character.  The theorems are about every request for session credentials that a start
    makes, with arbitrary answers of GitHub and of the store. *)

From stdpp Require Import base gmap list strings pretty.
From S2P Require Import Prelude GoStrings Rows RunnerModel RunnerStore AccountModel AccountStore Sponsorship Catalog Program Trace ServerCalls ServiceSafety CacheScopes.
From Stdlib Require Import Ascii.

(** ** What a policy allows *)

Fixpoint glob (p s : list ascii) {struct p} : bool :=
  match p with
  | [] => bool_decide (s = [])
  | c :: p' =>
      if bool_decide (c = "*"%char) then
        (fix any (s : list ascii) : bool := glob p' s || match s with [] => false | _ :: s' => any s' end) s
      else if bool_decide (c = "?"%char) then match s with [] => false | _ :: s' => glob p' s' end
      else match s with x :: s' => bool_decide (x = c) && glob p' s' | [] => false end
  end.

Definition matches (pattern s : string) : bool := glob (bytes pattern) (bytes s).

(** A request to do [action] on [resource], with the prefix of a listing. *)
Definition allows (policy : list statement) (action resource : string) (listed : option string) : bool :=
  existsb (fun st =>
    bool_decide (action ∈ stmt_action st) && existsb (fun p => matches p resource) (stmt_resource st)
    && match stmt_prefix st with
       | None => true
       | Some patterns => match listed with Some s => existsb (fun p => matches p s) patterns | None => false end
       end) policy.

(** The objects of a scope. *)
Definition under (bucket prefix scope resource : string) : bool :=
  HasPrefix resource ("qrn:kodo:::bucket/" +:+ bucket +:+ "/" +:+ prefix +:+ "/" +:+ scope +:+ "/").

(** ** Patterns without wildcards *)

Definition plain (l : list ascii) : Prop := forall c, c ∈ l -> c ∉ wildcards.

Lemma glob_star l s : plain l -> glob (l ++ ["*"%char]) s = prefix_bytes l s.
Proof.
  revert s. induction l as [|c l IH]; intros s Hp.
  - cbn [app glob prefix_bytes]. rewrite (bool_decide_true (_ = _)) by done.
    induction s as [|x s IHs]; [done|]. rewrite IHs. apply orb_true_r.
  - assert (Hc : c ∉ wildcards) by (apply Hp; left). assert (Hl : plain l) by (intros x Hx; apply Hp; by right).
    cbn [app glob prefix_bytes]. rewrite !bool_decide_false by (intros ->; apply Hc; unfold wildcards; rewrite !elem_of_cons; tauto).
    destruct s as [|x s]; [done|]. rewrite IH by done. f_equal. apply bool_decide_ext. naive_solver.
Qed.

Lemma plain_app l1 l2 : plain l1 -> plain l2 -> plain (l1 ++ l2).
Proof. intros H1 H2 c [H|H]%elem_of_app; auto. Qed.

Lemma plain_bytes (s : string) : ContainsAny s wildcards = false -> plain (bytes s).
Proof.
  unfold ContainsAny. intros H c Hc Hw. apply not_true_iff_false in H. apply H. apply existsb_exists.
  exists c. split; [by apply list_elem_of_In|by apply bool_decide_eq_true].
Qed.

Lemma valid_components_plain l x : validateComponents l = None -> x ∈ l -> ContainsAny x wildcards = false.
Proof.
  induction l as [|c l IH]; intros H Hx; [by apply elem_of_nil in Hx|]. simpl in H.
  destruct (_ || _); [done|]. destruct (ContainsAny c wildcards) eqn:E; [done|].
  apply elem_of_cons in Hx as [->|Hx]; [done|by apply IH].
Qed.

Lemma valid_prefix_plain p : validateCachePrefix p = None -> plain (bytes p).
Proof.
  unfold validateCachePrefix. destruct (bool_decide (p = "")); [done|]. intros H c Hc.
  destruct (elem_of_split c "/"%char _ Hc) as [->|(x & Hx & Hcx)]; [apply (plain_bytes "/" eq_refl); left|].
  assert (Hx' : of_bytes x ∈ Split p "/"%char) by (apply list_elem_of_fmap; by exists x).
  pose proof (valid_components_plain _ _ H Hx') as E. apply plain_bytes in E. rewrite bytes_of_bytes in E. by apply E.
Qed.

Lemma valid_bucket_plain b : validateCacheBucket (TrimSpace b) = None -> plain (bytes (TrimSpace b)).
Proof.
  unfold validateCacheBucket. rewrite TrimSpace_idem. destruct (_ || _) eqn:E; [done|]. intros _. bool_prop.
  match goal with H : ContainsAny _ _ = false |- _ => rename H into E end.
  intros c Hc Hw. apply not_true_iff_false in E. apply E. apply existsb_exists. exists c.
  split; [by apply list_elem_of_In|]. apply bool_decide_eq_true. unfold wildcards in Hw. rewrite !elem_of_cons in *. tauto.
Qed.

(** The resource of a scope covers exactly the objects under it. *)
Lemma matches_scope bucket prefix scope r : plain (bytes bucket) -> plain (bytes prefix) -> plain (bytes scope) ->
  matches (scopeResource bucket prefix scope) r = under bucket prefix scope r.
Proof.
  intros Hb Hp Hs. unfold matches, under, HasPrefix, scopeResource.
  replace (bytes ("qrn:kodo:::bucket/" +:+ bucket +:+ "/" +:+ prefix +:+ "/" +:+ scope +:+ "/*")) with
    (bytes ("qrn:kodo:::bucket/" +:+ bucket +:+ "/" +:+ prefix +:+ "/" +:+ scope +:+ "/") ++ ["*"%char])
    by (by rewrite !bytes_app, <-!app_assoc).
  apply glob_star. rewrite !bytes_app. repeat apply plain_app; first [done|by apply plain_bytes].
Qed.

(** ** The policy of a session *)

Lemma readGrants_spec bucket prefix seen scopes grants res listed :
  readGrants bucket prefix seen scopes = Ok grants -> (res, listed) ∈ grants ->
  exists scope, scope ∈ scopes /\ validateCachePrefix (trimSlashes scope) = None /\
    res = scopeResource bucket prefix (trimSlashes scope) /\ listed = prefix +:+ "/" +:+ trimSlashes scope +:+ "/*".
Proof.
  revert seen grants. induction scopes as [|scope l IH]; intros seen grants H Hin; simpl in H.
  { injection H as <-. by apply elem_of_nil in Hin. }
  assert (Hl : forall seen grants, readGrants bucket prefix seen l = Ok grants -> (res, listed) ∈ grants ->
    exists s, s ∈ scope :: l /\ validateCachePrefix (trimSlashes s) = None /\
      res = scopeResource bucket prefix (trimSlashes s) /\ listed = prefix +:+ "/" +:+ trimSlashes s +:+ "/*").
  { intros seen' g H1 H2. destruct (IH seen' g H1 H2) as (s & Hs & H3). exists s. split; [by right|done]. }
  destruct (bool_decide (trimSlashes scope = "")); [by eapply Hl|].
  destruct (validateCachePrefix (trimSlashes scope)) eqn:E; [done|].
  destruct (bool_decide (_ ∈ seen)); [by eapply Hl|].
  apply result_bind_Ok in H as (g & H1 & H2). injection H2 as <-.
  apply elem_of_cons in Hin as [Hin|Hin]; [|by eapply Hl]. injection Hin as -> ->. exists scope. split; [left|done].
Qed.

Lemma actions_disjoint a : (a ∈ writeActions -> (a ∉ listActions) /\ (a ∉ readActions)) /\ (a ∈ readActions -> (a ∉ listActions)).
Proof.
  unfold writeActions, listActions, readActions. rewrite !elem_of_cons, !elem_of_nil.
  split; [intros [->|[->|[->|[->|[->|[]]]]]]|intros [->|[->|[]]]]; intuition discriminate.
Qed.

(** What the policy allows is what the scopes say. *)
Section policy.
Context (bucket prefix own : string) (reads : list string) (policy : list statement).
Context (Hb : plain (bytes bucket)) (Hp : plain (bytes prefix)) (Hpolicy : sessionPolicy bucket prefix own reads = Ok policy).

Lemma policy_statements : exists grants, readGrants bucket prefix [] reads = Ok grants /\
  forall st, st ∈ policy ->
    st = MkStatement listActions ["qrn:kodo:::bucket/" +:+ bucket] (Some grants.*2) \/
    st = MkStatement readActions grants.*1 None \/
    (trimSlashes own <> "" /\ validateCachePrefix (trimSlashes own) = None /\
     st = MkStatement writeActions [scopeResource bucket prefix (trimSlashes own)] None).
Proof using Hpolicy.
  pose proof Hpolicy as H. unfold sessionPolicy in H. apply result_bind_Ok in H as (grants & Hg & H). exists grants. split; [done|].
  destruct (bool_decide (grants = [])); [done|]. destruct (bool_decide (trimSlashes own = "")) eqn:E.
  - injection H as <-. intros st. rewrite !elem_of_cons, elem_of_nil. tauto.
  - destruct (validateCachePrefix (trimSlashes own)) eqn:V; [done|]. injection H as <-. bool_prop. intros st.
    rewrite !elem_of_cons, elem_of_nil. tauto.
Qed.

Lemma allowed_by a r l : allows policy a r l = true -> exists st, st ∈ policy /\ a ∈ stmt_action st /\
  (exists p, p ∈ stmt_resource st /\ matches p r = true) /\
  (forall ps, stmt_prefix st = Some ps -> exists s p, l = Some s /\ p ∈ ps /\ matches p s = true).
Proof using.
  intros (st & Hst & H)%existsb_exists. bool_prop. apply list_elem_of_In in Hst.
  match goal with H : existsb _ (stmt_resource st) = true |- _ => apply existsb_exists in H as (p & Hin & Hm) end.
  exists st. split_and!; [done|done|exists p; split; [by apply list_elem_of_In|done]|].
  intros ps E. rewrite E in *. destruct l as [s|]; [|done].
  match goal with H : existsb _ ps = true |- _ => apply existsb_exists in H as (q & Hq & Hm') end.
  exists s, q. split_and!; [done|by apply list_elem_of_In|done].
Qed.

Lemma policy_writes a r l : a ∈ writeActions -> allows policy a r l = true ->
  trimSlashes own <> "" /\ under bucket prefix (trimSlashes own) r = true.
Proof using All.
  intros Ha (st & Hst & Hact & (p & Hin & Hm) & _)%allowed_by. destruct policy_statements as (grants & _ & Hs).
  destruct (Hs st Hst) as [->|[->|(Hn & Hv & ->)]]; cbn [stmt_action stmt_resource] in *.
  - exfalso. destruct (actions_disjoint a). tauto.
  - exfalso. destruct (actions_disjoint a). tauto.
  - apply list_elem_of_singleton in Hin as ->. split; [done|].
    rewrite matches_scope in Hm; [done|done|done|by apply valid_prefix_plain].
Qed.

Lemma policy_reads a r l : a ∈ readActions -> allows policy a r l = true ->
  exists scope, scope ∈ reads /\ under bucket prefix (trimSlashes scope) r = true.
Proof using All.
  intros Ha (st & Hst & Hact & (p & Hin & Hm) & _)%allowed_by. destruct policy_statements as (grants & Hg & Hs).
  destruct (Hs st Hst) as [->|[->|(Hn & Hv & ->)]]; cbn [stmt_action stmt_resource] in *.
  - exfalso. destruct (actions_disjoint a). tauto.
  - apply list_elem_of_fmap in Hin as ([res listed] & -> & Hin).
    destruct (readGrants_spec _ _ _ _ _ _ _ Hg Hin) as (scope & Hscope & Hv & -> & _). exists scope. split; [done|].
    cbn [fst] in Hm. rewrite matches_scope in Hm; [done|done|done|by apply valid_prefix_plain].
  - exfalso. destruct (actions_disjoint a). tauto.
Qed.
End policy.

(** ** Scopes do not overlap *)

(** A name without a separator. *)
Definition one_component (s : string) : Prop := "/"%char ∉ bytes s.

Lemma prefix_both p q l : prefix_bytes p l = true -> prefix_bytes q l = true ->
  prefix_bytes p q = true \/ prefix_bytes q p = true.
Proof.
  revert q l. induction p as [|a p IH]; intros [|b q] [|x l]; cbn; try (by auto).
  intros H1 H2. bool_prop. subst. destruct (IH q l) as [E|E]; [done|done| |]; rewrite E, bool_decide_true by done; auto.
Qed.

Lemma prefix_component a b : "/"%char ∉ a -> "/"%char ∉ b -> prefix_bytes (a ++ ["/"%char]) (b ++ ["/"%char]) = true -> a = b.
Proof.
  revert b. induction a as [|x a IH]; intros [|y b] Ha Hb; cbn; intros H; bool_prop; try done.
  - subst. exfalso. apply Hb. left.
  - subst. exfalso. apply Ha. left.
  - subst. f_equal. apply IH; [intros ?; apply Ha; by right|intros ?; apply Hb; by right|done].
Qed.

Lemma prefix_app p l1 l2 : prefix_bytes (p ++ l1) (p ++ l2) = prefix_bytes l1 l2.
Proof. induction p as [|x p IH]; [done|]. cbn. by rewrite bool_decide_true. Qed.

Lemma under_unique bucket prefix x y r : one_component x -> one_component y ->
  under bucket prefix ("scopes/" +:+ x) r = true -> under bucket prefix ("scopes/" +:+ y) r = true -> x = y.
Proof.
  intros Hx Hy H1 H2. destruct (prefix_both _ _ _ H1 H2) as [H|H]; rewrite !bytes_app, <-!app_assoc, !prefix_app in H.
  - by apply bytes_inj, prefix_component.
  - symmetry. by apply bytes_inj, prefix_component.
Qed.

Lemma FormatInt_component n : (0 <= n)%Z -> one_component (FormatInt n).
Proof. intros Hn H. destruct (FormatInt_bytes n _ Hn H) as [m E]. unfold pretty_N_char in E. by repeat case_match. Qed.

Lemma component_app x y : one_component x -> one_component y -> one_component (x +:+ y).
Proof. unfold one_component. rewrite bytes_app, elem_of_app. tauto. Qed.

(** ** The scopes of a run *)

Section decision.
Context (configured : bool) (digest : string -> string) (repository : string) (st : RunnerState).

Abbreviation scopeForBranch := (scopeForBranch digest).

(** The run GitHub reports for the request, with the event as the code compares it. *)
Definition ran (run : WorkflowRun) (event : string) (tr : trace) : Prop :=
  seen (SWorkflowRun repository (st_WorkflowRunID st)) (Ok run) tr /\ event = ToLower (TrimSpace (run_Event run)).

(** The pull request of a pull_request run, into this repository. *)
Definition of_pull_request (pull : PullRequest) (tr : trace) : Prop :=
  exists run first rest, ran run "pull_request" tr /\ run_PullRequests run = first :: rest /\
    seen (SPullRequest repository (pull_Number first)) (Ok pull) tr /\ pull_Number pull = pull_Number first /\
    (0 < pull_Number pull)%Z /\ EqualFold (TrimSpace (repo_FullName (ref_Repository (pull_Base pull)))) repository = true.

(** A trusted run of this repository itself on a branch. *)
Definition of_branch (branch : string) (tr : trace) : Prop :=
  exists run event, ran run event tr /\ cacheWriteTrustedEvent event = true /\ branch = TrimSpace (run_HeadBranch run) /\ branch <> "" /\
    EqualFold (TrimSpace (repo_FullName (run_Repository run))) repository = true /\
    EqualFold (TrimSpace (repo_FullName (run_HeadRepository run))) (TrimSpace (repo_FullName (run_Repository run))) = true.

(** What allows a scope to be written. *)
Definition writable (scope : string) (tr : trace) : Prop :=
  (exists pull, of_pull_request pull tr /\ scope = scopeForPR (pull_Number pull)) \/
  (exists branch, of_branch branch tr /\ scope = scopeForBranch branch).

Context (permit : list (answered scall) -> asked scall -> Prop).
Context (permit_repository : forall tr name, permit tr (Asked (SGetRepository name))).
Context (permit_run : forall tr name id, permit tr (Asked (SWorkflowRun name id))).
Context (permit_pull : forall tr name n, permit tr (Asked (SPullRequest name n))).

Lemma default_scope_vc reason tr : vc permit (resolveRepositoryDefaultScope configured digest repository reason)
  (fun r _ => match r with inl _ => True | inr d => dec_WriteScope d = "" end) tr.
Proof using permit_repository.
  unfold resolveRepositoryDefaultScope. destruct configured; cbn [negb vc]; [|done].
  apply vc_perform; [done|]. intros [metadata|e]; [|done]. by destruct (_ || _).
Qed.

Lemma scopes_vc tr : vc permit (cacheScopesForWorkflow configured digest repository st)
  (fun d tr' => dec_WriteScope d = "" \/ writable (dec_WriteScope d) tr') tr.
Proof using All.
  assert (Hd : forall reason tr, vc permit (readOnlyDefault configured digest repository reason)
    (fun d tr' => dec_WriteScope d = "" \/ writable (dec_WriteScope d) tr') tr).
  { intros reason tr'. eapply vc_seq; [apply default_scope_vc|]. intros [s|d] tr'' H; cbn [vc]; auto. }
  unfold cacheScopesForWorkflow. destruct (_ <=? 0)%Z; [apply Hd|].
  apply vc_perform; [done|]. intros [run|e]; [|apply Hd].
  eapply (vc_seq _ _ _ (fun r _ => match r with inl _ => True | inr d => dec_WriteScope d = "" end)).
  { destruct (negb _); [done|]. apply default_scope_vc. }
  intros [s|d] tr' H; cbn [vc]; [|by left]. set (tr1 := (tr ++ _) ++ tr').
  assert (Hrun : ran run (ToLower (TrimSpace (run_Event run))) tr1) by (split; [unfold tr1; in_trace|done]).
  destruct (bool_decide (_ = "pull_request")) eqn:E1; [|destruct (bool_decide (_ ∈ _)); [by left|]].
  - bool_prop. rewrite E1 in Hrun. unfold scopesForPullRequest.
    destruct (run_PullRequests run) as [|first rest] eqn:Ep; [by left|]. destruct (_ <=? 0)%Z eqn:En; [by left|].
    apply vc_perform; [done|]. intros [pull|e]; [|by left].
    destruct (_ || _) eqn:Eg; cbn [vc]; [by left|]. right. left. exists pull. split; [|done]. bool_prop.
    exists run, first, rest. destruct Hrun as [Hr1 Hr2]. split_and!; [split; [in_trace|done]|done|in_trace|lia|lia|done].
  - cbn [vc]. unfold scopesForBranch. destruct (_ || _) eqn:Eg; [by left|].
    destruct (bool_decide (TrimSpace (run_HeadBranch run) = "")) eqn:Eb; [by left|].
    destruct (negb (cacheWriteTrustedEvent _)) eqn:Et; [by left|]. right. right. bool_prop.
    exists (TrimSpace (run_HeadBranch run)). split; [|done]. exists run, (ToLower (TrimSpace (run_Event run))). by split_and!.
Qed.
End decision.

(** ** Names of letters and digits *)

Definition alphanumeric (c : ascii) : bool := ((48 <=? code c) && (code c <=? 57) || (97 <=? code c) && (code c <=? 122))%N.

(** A name of lower case letters and digits, as a number or a hexadecimal digest is. *)
Definition token (s : string) : Prop := s <> "" /\ forall c, c ∈ bytes s -> alphanumeric c = true.

Ltac byte_cases E :=
  rewrite ?orb_true_iff, ?andb_true_iff, ?orb_true_iff, ?andb_true_iff, ?orb_true_iff, ?N.leb_le, ?N.eqb_eq in E; lia.

Lemma alphanumeric_slash c : alphanumeric c = true -> c <> "/"%char.
Proof. by intros H ->. Qed.

Lemma token_component s : token s -> one_component s.
Proof. intros [_ H] Hc. by apply H in Hc. Qed.

Lemma alphanumeric_start c l w2 w3 : alphanumeric c = true -> (forall d, w2 c d = false) -> (forall d e, w3 c d e = false) ->
  starts_ws w2 w3 (c :: l) = false.
Proof.
  intros Hc H2 H3. assert (H1 : ws1 c = false).
  { apply not_true_iff_false. intros E. unfold alphanumeric, ws1 in *. rewrite ?orb_true_iff, ?andb_true_iff, ?N.leb_le, ?N.eqb_eq in *. lia. }
  destruct l as [|d [|e l]]; cbn [starts_ws]; by rewrite H1, ?H2, ?H3.
Qed.

Lemma trimSlashes_id s c l d m : bytes s = c :: l -> rev (bytes s) = d :: m -> alphanumeric c = true -> alphanumeric d = true ->
  trimSlashes s = s.
Proof.
  intros H1 H2 Hc Hd. apply bytes_inj. unfold trimSlashes, Trim, TrimRight, TrimLeft, TrimSpace. rewrite !bytes_of_bytes.
  rewrite trim_bytes_id.
  - rewrite H1. cbn [drop_byte]. rewrite bool_decide_false by (by apply alphanumeric_slash). rewrite <-H1, H2. cbn [drop_byte].
    rewrite bool_decide_false by (by apply alphanumeric_slash). by rewrite <-H2, rev_involutive.
  - assert (Hsmall : forall x, alphanumeric x = true -> (code x <= 122)%N).
    { intros x Hx. unfold alphanumeric in Hx. byte_cases Hx. }
    apply Hsmall in Hc as Hc', Hd as Hd'. split.
    + rewrite H1. apply alphanumeric_start; [done|intros y|intros y z]; unfold ws2, ws3; apply not_true_iff_false; intros E; byte_cases E.
    + rewrite H2. apply alphanumeric_start; [done|intros y|intros y z]; unfold ws2_rev, ws3_rev, ws2, ws3; apply not_true_iff_false; intros E; byte_cases E.
Qed.

Lemma trimSlashes_scope p x c l : bytes p = c :: l -> alphanumeric c = true -> token x -> trimSlashes (p +:+ x) = p +:+ x.
Proof.
  intros Hp Hc [Hx Ha]. destruct (rev (bytes x)) as [|d m] eqn:E.
  { exfalso. apply Hx. apply (f_equal (@rev _)) in E. rewrite rev_involutive in E. by apply bytes_inj. }
  eapply (trimSlashes_id _ c (l ++ bytes x) d (m ++ rev (bytes p))); [by rewrite bytes_app, Hp|by rewrite bytes_app, rev_app_distr, E|done|].
  apply Ha. rewrite list_elem_of_In, in_rev, <-list_elem_of_In, E. left.
Qed.

Lemma pretty_N_go_length x s : String.length s <= String.length (pretty_N_go x s).
Proof.
  revert s. induction (N.lt_wf_0 x) as [x _ IH]; intros s. destruct (decide (x = 0)%N) as [->|N]; [by rewrite pretty_N_go_0|].
  rewrite pretty_N_go_step by lia. etrans; [|apply IH, N.div_lt; lia]. cbn. lia.
Qed.

Lemma FormatInt_token n : (0 < n)%Z -> token (FormatInt n).
Proof.
  intros Hn. split.
  - destruct n as [|p|p]; [lia| |lia]. change (FormatInt (Z.pos p)) with (pretty (N.pos p)). unfold pretty, pretty_N. case_decide; [done|].
    rewrite pretty_N_go_step by lia. intros E.
    pose proof (pretty_N_go_length (N.pos p / 10) (String (pretty_N_char (N.pos p `mod` 10)) "")) as H'. rewrite E in H'. cbn in H'. lia.
  - intros c Hc. destruct (FormatInt_bytes n c) as [m ->]; [lia|done|]. unfold pretty_N_char. by repeat case_match.
Qed.

Lemma scopeForPR_component n : (0 < n)%Z -> scopeForPR n = "scopes/" +:+ ("pr-" +:+ FormatInt n) /\ one_component ("pr-" +:+ FormatInt n).
Proof.
  intros Hn. unfold scopeForPR. destruct (Z.leb_spec n 0); [lia|]. split; [done|].
  apply component_app; [by intros He%list_elem_of_In; cbn in He; intuition discriminate|by apply token_component, FormatInt_token].
Qed.

Lemma scopeForBranch_component digest branch : (forall s, token (digest s)) -> exists s,
  scopeForBranch digest branch = "scopes/" +:+ ("branch-" +:+ digest s) /\ one_component ("branch-" +:+ digest s).
Proof.
  intros Hd. unfold scopeForBranch. eexists. split; [done|].
  apply component_app; [by intros He%list_elem_of_In; cbn in He; intuition discriminate|by apply token_component].
Qed.

Lemma writable_trimmed digest repository st scope tr : (forall s, token (digest s)) -> writable digest repository st scope tr ->
  trimSlashes scope = scope.
Proof.
  intros Hd [(pull & (run & first & rest & _ & _ & _ & _ & Hn & _) & ->)|(branch & _ & ->)].
  - unfold scopeForPR. destruct (Z.leb_spec (pull_Number pull) 0); [lia|].
    by eapply trimSlashes_scope, FormatInt_token.
  - by eapply trimSlashes_scope.
Qed.

(** ** The storage *)

Section start.
Context (regions : list SandboxRegionConfig) (decryptSecret : string -> result string).
Context (decodeCache : string -> result accountCacheServicePreferenceValue) (configured : bool) (digest : string -> string).
Context (req : RunnerRequest) (st : RunnerState).
Context (digest_token : forall s, token (digest s)).

(** The cache settings of the request's installation, or of the account it is personal to. *)
Definition settings_of (value : accountCacheServicePreferenceValue) (tr : trace) : Prop :=
  exists scope preference,
    seen (qPreference scope accountPreferenceNamespaceCache accountPreferenceKeyCacheS3) (Ok preference) tr /\
    decodeCache (ap_ValueJSON preference) = Ok value /\
    (scope = MkPreferenceScope AccountScopeTypeGitHubInstall (req_GitHubInstallationID req) \/
     exists account, seen (qPersonal (req_GitHubInstallationID req)) (Ok (account, true)) tr /\
       scope = MkPreferenceScope AccountScopeTypeAccount account).

(** The directory of the repository in the bucket. *)
Definition directory (value : accountCacheServicePreferenceValue) : string :=
  let prefix := trimSlashes (cv_Prefix value) in
  TrimSuffix (TrimPrefix (TrimSpace ((if bool_decide (prefix = "") then "gh-actions-cache" else prefix)
                                     +:+ "/" +:+ req_RepositoryFullName req)) "/") "/".

Abbreviation own_pull_request pull tr := (of_pull_request (req_RepositoryFullName req) st pull tr).
Abbreviation own_branch branch tr := (of_branch (req_RepositoryFullName req) st branch tr).

(** Writes are confined to a scope of this run, and to no other. *)
Definition confined (resource : string) (tr : trace) : Prop :=
  exists value, settings_of value tr /\
    let inside := under (TrimSpace (cv_Bucket value)) (directory value) in
    (exists scope, inside scope resource = true /\ writable digest (req_RepositoryFullName req) st scope tr) /\
    (forall n, (0 < n)%Z -> inside (scopeForPR n) resource = true -> exists pull, own_pull_request pull tr /\ pull_Number pull = n) /\
    (forall branch, inside (scopeForBranch digest branch) resource = true ->
       exists branch', own_branch branch' tr /\ scopeForBranch digest branch' = scopeForBranch digest branch).

Lemma confined_intro value scope resource tr : settings_of value tr ->
  under (TrimSpace (cv_Bucket value)) (directory value) scope resource = true ->
  writable digest (req_RepositoryFullName req) st scope tr -> confined resource tr.
Proof using digest_token.
  intros Hs Hu Hw. exists value. split; [done|]. split; [by exists scope|].
  destruct Hw as [(pull & Hp & ->)|(branch & Hb & ->)].
  - assert (Hn : (0 < pull_Number pull)%Z) by (destruct Hp as (? & ? & ? & _ & _ & _ & _ & ? & _); done).
    destruct (scopeForPR_component _ Hn) as [E C]. rewrite E in Hu. split.
    + intros n Hn' Hi. exists pull. split; [done|]. destruct (scopeForPR_component _ Hn') as [E' C']. rewrite E' in Hi.
      pose proof (under_unique _ _ _ _ _ C C' Hu Hi) as H. apply (f_equal bytes) in H. cbn in H. injection H as H.
      by apply (inj pretty), bytes_inj.
    + intros branch Hi. destruct (scopeForBranch_component digest branch) as (d & E' & C'); [done|]. rewrite E' in Hi.
      by pose proof (under_unique _ _ _ _ _ C C' Hu Hi).
  - destruct (scopeForBranch_component digest branch) as (d & E & C); [done|]. rewrite E in Hu. split.
    + intros n Hn Hi. destruct (scopeForPR_component _ Hn) as [E' C']. rewrite E' in Hi.
      by pose proof (under_unique _ _ _ _ _ C C' Hu Hi).
    + intros branch' Hi. destruct (scopeForBranch_component digest branch') as (d' & E' & C'); [done|]. rewrite E' in Hi.
      pose proof (under_unique _ _ _ _ _ C C' Hu Hi) as H. exists branch. split; [done|]. by rewrite E, E', H.
Qed.

(** ** Every request for credentials *)

Definition session_confined (tr : trace) (x : asked scall) : Prop :=
  match x with
  | Asked e =>
      match e with
      | SFederationToken rq => forall action resource listed, action ∈ writeActions ->
          allows (fed_Policy rq) action resource listed = true -> confined resource tr
      | _ => True
      end
  end.

Definition stored_at (value : accountCacheServicePreferenceValue) (storage : cacheS3) : Prop :=
  s3_bucket storage = TrimSpace (cv_Bucket value) /\
  directory value = TrimSuffix (TrimPrefix (TrimSpace (s3_prefix storage +:+ "/" +:+ req_RepositoryFullName req)) "/") "/".

Lemma newCacheS3_stored region value endpoint k s storage :
  newCacheS3 region (cv_Bucket value) (cv_Prefix value) endpoint k s = Ok storage -> stored_at value storage.
Proof using. unfold newCacheS3. destruct (_ || _); [done|]. by intros [= <-]. Qed.

Lemma storage_scope_vc scope url tr :
  scope = MkPreferenceScope AccountScopeTypeGitHubInstall (req_GitHubInstallationID req) \/
    (exists account, seen (qPersonal (req_GitHubInstallationID req)) (Ok (account, true)) tr /\
       scope = MkPreferenceScope AccountScopeTypeAccount account) ->
  vc session_confined (cacheStorageForScope regions decryptSecret decodeCache scope url)
    (fun r tr' => forall storage, r = Ok storage -> exists value, settings_of value tr' /\ stored_at value storage) tr.
Proof using.
  intros Hscope. unfold cacheStorageForScope, orNotConfigured. vc_steps; try (intros ? [=]; fail).
  destruct r as [preference|]; [|done]. injection Hcase as ->.
  intros storage H. apply result_bind_Ok in H as (key & _ & H). apply result_bind_Ok in H as (sec & _ & H).
  eexists. split; [|by eapply newCacheS3_stored]. exists scope. eexists. split; [|split; [eassumption|]].
  - in_trace.
  - destruct Hscope as [->|(account & Ha & ->)]; [by left|]. right. exists account. split; [in_trace|done].
Qed.

Lemma storage_vc url tr :
  vc session_confined (cacheStorageForInstallation regions decryptSecret decodeCache (req_GitHubInstallationID req) url)
    (fun r tr' => forall storage, r = Ok storage -> exists value, settings_of value tr' /\ stored_at value storage) tr.
Proof using.
  unfold cacheStorageForInstallation. destruct (_ <=? 0)%Z; [by intros ?|].
  eapply vc_seq; [by apply storage_scope_vc; left|]. intros [storage|e] tr' H; [by intros ? [= <-]; apply H|].
  destruct (negb _); [by intros ?|]. apply vc_perform; [exact I|]. intros [[account [|]]|e']; cbn [negb]; [|by intros ?|by intros ?].
  apply storage_scope_vc. right. exists account. split; [in_trace|done].
Qed.

Lemma settings_of_mono value tr tr' : settings_of value tr -> settings_of value (tr ++ tr').
Proof using.
  intros (scope & preference & H1 & H2 & H3). exists scope, preference. split_and!; [in_trace|done|].
  destruct H3 as [->|(account & Ha & ->)]; [by left|]. right. exists account. split; [in_trace|done].
Qed.

Lemma own_pull_request_mono pull tr tr' : own_pull_request pull tr -> own_pull_request pull (tr ++ tr').
Proof using.
  intros (run & first & rest & [H1 H2] & H3 & H4 & H5). exists run, first, rest.
  split_and!; [split; [in_trace|done]|done|in_trace|apply H5..].
Qed.

Lemma own_branch_mono branch tr tr' : own_branch branch tr -> own_branch branch (tr ++ tr').
Proof using. intros (run & event & [H1 H2] & H3). exists run, event. split; [split; [in_trace|done]|done]. Qed.

Lemma confined_mono resource tr tr' : confined resource tr -> confined resource (tr ++ tr').
Proof using.
  intros (value & Hv & (scope & Hs & Hw) & H1 & H2). exists value. split; [by apply settings_of_mono|]. split_and!.
  - exists scope. split; [done|]. destruct Hw as [(pull & Hp & ->)|(branch & Hb & ->)].
    + left. exists pull. split; [by apply own_pull_request_mono|done].
    + right. exists branch. split; [by apply own_branch_mono|done].
  - intros n Hn Hi. destruct (H1 n Hn Hi) as (pull & Hp & E). exists pull. split; [by apply own_pull_request_mono|done].
  - intros branch Hi. destruct (H2 branch Hi) as (b & Hb & E). exists b. split; [by apply own_branch_mono|done].
Qed.

Lemma request_confined storage value decision endpoint seconds rq tr :
  settings_of value tr -> stored_at value storage ->
  dec_WriteScope decision = "" \/ writable digest (req_RepositoryFullName req) st (dec_WriteScope decision) tr ->
  federationRequestFor (MkSTSConfig (s3_bucket storage) (s3_accessKeyID storage) (s3_secretKey storage))
    (s3_prefix storage +:+ "/" +:+ req_RepositoryFullName req) (dec_WriteScope decision) (dec_ReadScopes decision) endpoint seconds = Ok rq ->
  session_confined tr (Asked (SFederationToken rq)).
Proof using digest_token.
  intros Hs [Hb Hd] Hw H action resource listed Ha Hallow. unfold federationRequestFor in H. cbn [sts_Bucket] in H.
  rewrite Hb, <-Hd in H. rewrite TrimSpace_idem in H.
  destruct (validateCacheBucket _) eqn:Vb; [done|]. destruct (validateCachePrefix _) eqn:Vp; [done|].
  apply result_bind_Ok in H as (policy & Hp & H). destruct (_ <=? 0)%Z; [done|].
  destruct (bool_decide (_ = "")); [done|]. injection H as <-. cbn [fed_Policy] in Hallow.
  destruct (policy_writes _ _ _ _ policy (valid_bucket_plain _ Vb) (valid_prefix_plain _ Vp) Hp _ _ _ Ha Hallow) as [Hne Hu].
  destruct Hw as [E|Hw]; [by rewrite E in Hne|]. rewrite (writable_trimmed _ _ _ _ _ digest_token Hw) in Hu.
  by eapply confined_intro.
Qed.

Lemma start_confined endpoint timeout url tr :
  vc session_confined (cacheForStart regions decryptSecret decodeCache configured digest endpoint timeout req st url) (fun _ _ => True) tr.
Proof using digest_token.
  unfold cacheForStart. destruct (_ <=? 0)%Z; [done|].
  eapply vc_seq; [apply storage_vc|]. intros [storage|e] tr1 Hs; [|done].
  destruct (Hs storage eq_refl) as (value & Hv & Hstored).
  eapply vc_seq; [by apply scopes_vc|]. intros decision tr2 Hd. cbv beta zeta in *.
  eapply vc_seq with (Q' := fun _ _ => True); [|by intros [creds|e] tr3 _].
  unfold generateCacheSTS. destruct (federationRequestFor _ _ _ _ _ _) as [rq|e] eqn:E; [|done].
  apply vc_perform; [|intros r; by vc_steps].
  eapply request_confined; [by apply settings_of_mono|done|exact Hd|exact E].
Qed.
End start.

(** C10: Every object the credentials of a runner may upload, change or delete lies in the
    bucket and the repository's directory that the settings of its installation name, and
    there in a scope of its own run, as GitHub describes it: that of the pull request of a
    pull_request run into this repository, or that of the branch a trusted event of the
    repository itself ran on.  So no run writes the cache of a pull request other than its
    own, and none writes a branch's cache but a trusted run of that branch: what a pull
    request saves cannot reach the caches of the branches, whatever the names are. *)
Theorem cache_write_isolated regions decryptSecret decodeCache configured digest endpoint timeout req st url tr input rq response
    action resource listed :
  (forall s, token (digest s)) ->
  returns (cacheForStart regions decryptSecret decodeCache configured digest endpoint timeout req st url) tr input ->
  seen (SFederationToken rq) response tr -> action ∈ writeActions -> allows (fed_Policy rq) action resource listed = true ->
  confined decodeCache digest req st resource tr.
Proof.
  intros Hd H Hs Ha Hallow. apply list_elem_of_split in Hs as (tr1 & tr2 & ->).
  pose proof (start_confined regions decryptSecret decodeCache configured digest req st Hd endpoint timeout url []) as V.
  apply (vc_sound _ _ _ _ _ _ V) in H as [_ H]. apply confined_mono. exact (H tr1 _ tr2 eq_refl action resource listed Ha Hallow).
Qed.

(** ** A pull request of a fork *)

Definition ex_repository (name : string) : Repository :=
  MkRepository 70 name "app" "main" false (MkGitHubAccount 42 "Organization" "acme" "" "") None None.

Definition ex_pull : PullRequest :=
  MkPullRequest 7 "Speed up" (MkPullRequestRef "b" "speed" (ex_repository "bob/app")) (MkPullRequestRef "a" "main" (ex_repository "acme/app")).

Definition ex_run : WorkflowRun :=
  MkWorkflowRun 31 "ci" "pull_request" "speed" (ex_repository "bob/app") (ex_repository "acme/app") [ex_pull].

Definition ex_cache_tables : tables :=
  let secret kind := MkAccountSecret 0 AccountScopeTypeGitHubInstall 200 kind "sealed" 0 0 in
  let db := (or_else (UpsertAccountPreferenceAndSecrets
                        (MkAccountPreference 0 AccountScopeTypeGitHubInstall 200 "cache" "s3" "saved" 0 0)
                        [secret AccountSecretTypeCacheAccessKeyID; secret AccountSecretTypeCacheSecretAccessKey] 1 accountDB0)
               (accountDB0, MkAccountPreference 0 "" 0 "" "" "" 0 0)).1 in
  MkTables db sponsorDB0 ∅ ∅ ∅.

Definition ex_cache_handler (R : Type) (e : scall R) : R :=
  match e in scall R return R with
  | SWorkflowRun _ _ => Ok ex_run
  | SPullRequest _ _ => Ok ex_pull
  | SFederationToken _ => Ok (MkFederationResponse 0 "" "" (Some ("key", "secret", "token", Some 9%Z)))
  | e => frozen 5 ex_cache_tables (Err ErrNotFound) (fun _ => Err ErrNotFound) (Err ErrNotFound) (Err ErrNotFound) _ e
  end.

Definition ex_digest (branch : string) : string := "0a".

Definition ex_cache_start : sprog cacheInput :=
  cacheForStart [MkRegion "cn" "" "https://sandbox.example" "cn-east-1" "s3.example"] (fun s => Ok s) (fun _ => Ok (MkCacheValue "cache" ""))
    true ex_digest "sts.example" 0
    (ex_request <| req_GitHubInstallationID := 200%Z |> <| req_RepositoryFullName := "acme/app" |>)
    (zero_state <| st_WorkflowRunID := 31%Z |>) "https://sandbox.example/".

Definition ex_session : federationRequest :=
  let dir := "qrn:kodo:::bucket/cache/gh-actions-cache/acme/app/scopes/" in
  let prefix := "gh-actions-cache/acme/app/scopes/" in
  MkFederationRequest "https://sts.example/sts/federation/token" 3900
    [MkStatement listActions ["qrn:kodo:::bucket/cache"] (Some [prefix +:+ "pr-7/*"; prefix +:+ "branch-0a/*"]);
     MkStatement readActions [dir +:+ "pr-7/*"; dir +:+ "branch-0a/*"] None;
     MkStatement writeActions [dir +:+ "pr-7/*"] None] "sealed" "sealed".

Definition ex_cache_run := replay ex_cache_handler ex_cache_start.

Lemma cache_write_isolated_witness :
  confined (fun _ => Ok (MkCacheValue "cache" "")) ex_digest
    (ex_request <| req_GitHubInstallationID := 200%Z |> <| req_RepositoryFullName := "acme/app" |>)
    (zero_state <| st_WorkflowRunID := 31%Z |>)
    "qrn:kodo:::bucket/cache/gh-actions-cache/acme/app/scopes/pr-7/deps" ex_cache_run.1.
Proof.
  refine (cache_write_isolated _ _ _ _ ex_digest _ _ _ _ _ ex_cache_run.1 ex_cache_run.2 ex_session
    (Ok (MkFederationResponse 0 "" "" (Some ("key", "secret", "token", Some 9%Z)))) "kodo/upload" _ None _ _ _ _ _).
  - intros s. split; [done|]. intros c Hc. cbn in Hc. rewrite !elem_of_cons, elem_of_nil in Hc. by destruct Hc as [->|[->|[]]].
  - exact (replay_returns ex_cache_handler ex_cache_start).
  - apply (list_elem_of_lookup_2 _ 5). vm_compute. reflexivity.
  - left.
  - vm_compute. reflexivity.
Defined.
