(* ===== verification/Sessions.v ===== *)
(** * Sessions and sign-in (internal/server/server_auth.go, server_auth_helpers.go)

    A session is a JSON payload in a cookie, signed with the server's key; the role in it
    is replaced at every request by the role of the account.  The signature, base64, JSON
    and URL parsing are parameters.  A reply is the status, the cookies set, the headers the
    handlers set themselves and the body; the texts of error messages are left out. *)

From stdpp Require Import base gmap list strings.
From S2P Require Import Prelude GoStrings Rows RunnerModel RunnerQueries AccountModel AccountStore ServerCalls Program.
From Stdlib Require Import Ascii.

(** ** Requests and replies *)

Record http_request := MkRequest {
  http_cookie : string -> option string;
  http_query : string -> string;
  http_path : string -> string;
  http_body : string;
  http_host : string;
  http_TLS : bool;
  http_forwardedProto : string
}.

Record set_cookie := MkCookie { ck_Name : string; ck_Value : string; ck_Path : string; ck_Secure : bool; ck_MaxAge : Z }.

(** The body of a reply that encodes an [A] when it succeeds. *)
Inductive body (A : Type) :=
| BEmpty
| BError (code : string)
| BStatus
| BRedirect (target : string)
| BJSON (value : A).
Arguments BEmpty {A}.
Arguments BError {A} code.
Arguments BStatus {A}.
Arguments BRedirect {A} target.
Arguments BJSON {A} value.

Record reply (A : Type) := MkReply {
  rp_status : Z;
  rp_cookies : list set_cookie;
  rp_headers : list (string * string);
  rp_body : body A
}.
Arguments MkReply {A}.
Arguments rp_status {A}.
Arguments rp_cookies {A}.
Arguments rp_headers {A}.
Arguments rp_body {A}.

Section replies.
Context {A : Type}.

Definition writeErrorCode (status : Z) (code : string) : reply A := MkReply status [] [] (BError code).
Definition writeError (status : Z) : reply A := writeErrorCode status "".
Definition writeJSON (status : Z) (value : A) : reply A := MkReply status [] [] (BJSON value).
Definition writeOK : reply A := MkReply 200 [] [] BStatus.
Definition redirect (target : string) : reply A := MkReply 302 [] [] (BRedirect target).
Definition with_cookies (cookies : list set_cookie) (r : reply A) : reply A :=
  MkReply (rp_status r) (cookies ++ rp_cookies r) (rp_headers r) (rp_body r).
Definition with_headers (headers : list (string * string)) (r : reply A) : reply A :=
  MkReply (rp_status r) (rp_cookies r) (headers ++ rp_headers r) (rp_body r).
End replies.

Definition requestIsSecure (r : http_request) : bool := if http_TLS r then true else EqualFold (http_forwardedProto r) "https".

Definition clearCookie (name cookiePath : string) (secure : bool) : set_cookie := MkCookie name "" cookiePath secure (-1).

Definition oauthStateCookieName := "runnerd_oauth_state".
Definition oauthReturnToCookieName := "runnerd_oauth_return_to".
Definition githubAppSetupStateCookieName := "runnerd_github_app_setup_state".
Definition adminSessionCookieName := "runnerd_admin_session".

(** Seconds since 1970. *)
Definition Unix (t : Time) : Z := (t / Second - 62135596800)%Z.

(** A program that may have replied already. *)
Notation "'let*!' x := p 'in' q" := (tbind p (fun r => match r with inl answer => Done answer | inr x => q end))
  (at level 10, x pattern, p at level 100, q at level 200) : runner_scope.

(** ** Sessions *)

Record adminSession := MkSession {
  ses_Provider : string;
  ses_Subject : string;
  ses_Login : string;
  ses_Role : string;
  ses_AvatarURL : string;
  ses_ExpiresAt : Z
}.

#[export] Instance rebuild_adminSession : Rebuild adminSession := fun s =>
  MkSession (ses_Provider s) (ses_Subject s) (ses_Login s) (ses_Role s) (ses_AvatarURL s) (ses_ExpiresAt s).

Definition no_session : adminSession := MkSession "" "" "" "" "" 0.

(** The server's key in [signAdminSession], base64.RawURLEncoding and encoding/json. *)
Record session_codec := MkSessionCodec {
  signAdminSession : string -> string;
  encode64 : string -> string;
  decode64 : string -> result string;
  marshal : adminSession -> result string;
  unmarshal : string -> result adminSession
}.

(** [url.URL] and [url.Parse], [url.Values.Encode] and [url.PathEscape]. *)
Record parsedURL := MkParsedURL { url_Scheme : string; url_Host : string; url_String : string }.

Record url_codec := MkURLCodec {
  url_Parse : string -> option parsedURL;
  values_Encode : list (string * string) -> string;
  url_PathEscape : string -> string
}.

(** The settings the sign-in reads. *)
Record auth_config := MkAuthConfig {
  cfg_GitHubOAuthEnabled : bool;
  cfg_GitHubOAuthClientID : string;
  cfg_GitHubOAuthRedirectURL : string;
  cfg_AuthSessionTTL : Z;
  cfg_GitHubAppSlug : string
}.

Section sessions.
Context (codec : session_codec) (urls : url_codec) (cfg : auth_config).

Definition encodeAdminSession (session : adminSession) : result string :=
  let? payload := marshal codec session in
  let payloadValue := encode64 codec payload in
  Ok (payloadValue +:+ "." +:+ signAdminSession codec payloadValue).

Definition decodeAdminSession (value : string) : result adminSession :=
  let '(payloadValue, signature, ok) := Cut value "."%char in
  if negb ok || bool_decide (payloadValue = "") || bool_decide (signature = "") then Err (ErrText "malformed session") else
  if negb (bool_decide (signature = signAdminSession codec payloadValue)) then Err (ErrText "invalid signature") else
  let? payload := decode64 codec payloadValue in
  let? session := unmarshal codec payload in
  if bool_decide (TrimSpace (ses_Subject session) = "") then Err (ErrText "session missing subject") else
  if bool_decide (TrimSpace (ses_Role session) = "") then Err (ErrText "session missing role") else
  Ok session.

Definition providerOf (session : adminSession) : string :=
  let provider := TrimSpace (ses_Provider session) in if bool_decide (provider = "") then "github" else provider.

Definition sessionFromRequest (r : http_request) : sprog (option adminSession) :=
  match http_cookie r adminSessionCookieName with
  | None => Done None
  | Some cookie =>
      match decodeAdminSession cookie with
      | Err _ => Done None
      | Ok session =>
          let* now := perform SNow in
          if (ses_ExpiresAt session <? Unix now)%Z then Done None else
          let* found := perform (qAccountByIdentity (providerOf session) (ses_Subject session)) in
          match found with
          | Err _ => Done None
          | Ok (account, _) => Done (Some (session <| ses_Role := ac_Role account |>))
          end
      end
  end.

Definition adminSessionFromRequest (r : http_request) : sprog (option adminSession) :=
  let* found := sessionFromRequest r in
  match found with
  | None => Done None
  | Some session => Done (if bool_decide (ses_Role session = "admin") then Some session else None)
  end.

Definition requireAdminAuth (r : http_request) : sprog bool :=
  let* found := adminSessionFromRequest r in Done (bool_decide (found <> None)).

(** [inl] is the reply that refuses the request. *)
Definition requireUserSession {A} (r : http_request) : sprog (reply A + adminSession * Account) :=
  let* found := sessionFromRequest r in
  match found with
  | None => Done (inl (writeError 401))
  | Some session =>
      let* found := perform (qAccountByIdentity (providerOf session) (ses_Subject session)) in
      match found with
      | Err _ => Done (inl (writeError 401))
      | Ok (account, _) => Done (inr (session <| ses_Role := ac_Role account |>, account))
      end
  end.

Definition requireAdminAccount {A} (r : http_request) : sprog (reply A + adminSession * Account) :=
  let* found := requireUserSession r in
  match found with
  | inl refusal => Done (inl refusal)
  | inr (session, account) =>
      if negb (bool_decide (ses_Role session = "admin")) then Done (inl (writeError 401)) else Done (inr (session, account))
  end.

(** The body of GET /auth/session. *)
Record sessionResponse := MkSessionResponse { sr_authenticated : bool; sr_oauth_enabled : bool; sr_session : option adminSession }.

Definition handleAuthSession (r : http_request) : sprog (reply sessionResponse) :=
  let* found := sessionFromRequest r in
  Done (writeJSON 200 (MkSessionResponse (bool_decide (found <> None)) (cfg_GitHubOAuthEnabled cfg) found)).

(** ** The GitHub App *)

Definition githubAppInstallURL : string := if bool_decide (TrimSpace (cfg_GitHubAppSlug cfg) = "") then "" else "/github-app/install".

Definition githubAppInstallationURL (setupState : string) : string :=
  let slug := TrimSpace (cfg_GitHubAppSlug cfg) in
  if bool_decide (slug = "") then "" else
  let target := "https://github.com/apps/" +:+ url_PathEscape urls slug +:+ "/installations/new" in
  if bool_decide (TrimSpace setupState = "") then target
  else target +:+ "?" +:+ values_Encode urls [("state", TrimSpace setupState)].

Definition handleGitHubAppInstallRedirect (r : http_request) : sprog (reply Empty_set) :=
  let*! _ := requireUserSession r in
  if bool_decide (TrimSpace (cfg_GitHubAppSlug cfg) = "") then Done (writeError 400) else
  let* setupState := perform SNewID in
  Done (with_cookies [MkCookie githubAppSetupStateCookieName setupState "/" (requestIsSecure r) 600]
          (redirect (githubAppInstallationURL setupState))).

Definition validGitHubAppSetupState (r : http_request) (setupState : string) : bool :=
  let setupState := TrimSpace setupState in
  match http_cookie r githubAppSetupStateCookieName with
  | None => false
  | Some cookie => negb (bool_decide (setupState = "")) && negb (bool_decide (TrimSpace cookie = "")) && bool_decide (setupState = cookie)
  end.

(** The query values kept, in the order of the keys. *)
Definition setupValues (r : http_request) : list (string * string) :=
  omap (fun key => let value := TrimSpace (http_query r key) in if bool_decide (value = "") then None else Some (key, value))
    ["installation_id"; "setup_action"; "state"].

Definition handleGitHubAppSetupRedirect (r : http_request) : sprog (reply Empty_set) :=
  let*! _ := requireUserSession r in
  let values := setupValues r in
  let values :=
    match ParseInt (TrimSpace (http_query r "installation_id")) with
    | Some installationID =>
        if (0 <? installationID)%Z && negb (validGitHubAppSetupState r (http_query r "state"))
        then values ++ [("setup_error", "invalid_state")] else values
    | None => values
    end in
  let encoded := values_Encode urls values in
  Done (redirect (if bool_decide (encoded = "") then "/repositories" else "/repositories?" +:+ encoded)).

(** ** Sign-in *)

Definition sanitizeOAuthReturnTo (value : string) : string :=
  let value := TrimSpace value in
  if bool_decide (value = "") || negb (HasPrefix value "/") || HasPrefix value "//" || Contains value "\" then "" else
  match url_Parse urls value with
  | None => ""
  | Some parsed => if negb (bool_decide (url_Scheme parsed = "")) || negb (bool_decide (url_Host parsed = "")) then "" else value
  end.

Definition githubOAuthRedirectURL (r : http_request) : string :=
  let redirectURL := TrimSpace (cfg_GitHubOAuthRedirectURL cfg) in
  if negb (bool_decide (redirectURL = "")) then redirectURL
  else (if requestIsSecure r then "https" else "http") +:+ "://" +:+ http_host r +:+ "/auth/github/callback".

Definition oauthCookie (r : http_request) (name value : string) : set_cookie := MkCookie name value "/auth/github" (requestIsSecure r) 600.

Definition githubOAuthAuthorizeURL := "https://github.com/login/oauth/authorize".

Definition handleGitHubOAuthLogin (r : http_request) : sprog (reply Empty_set) :=
  if negb (cfg_GitHubOAuthEnabled cfg) then Done (MkReply 404 [] [] BEmpty) else
  let* stateToken := perform SNewID in
  let returnTo := sanitizeOAuthReturnTo (http_query r "return_to") in
  let redirectURL := githubOAuthRedirectURL r in
  Done (with_cookies
    [oauthCookie r oauthStateCookieName stateToken;
     if negb (bool_decide (returnTo = "")) then oauthCookie r oauthReturnToCookieName returnTo
     else clearCookie oauthReturnToCookieName "/auth/github" (requestIsSecure r)]
    (redirect (githubOAuthAuthorizeURL +:+ "?" +:+ values_Encode urls
       ([("client_id", cfg_GitHubOAuthClientID cfg); ("state", stateToken); ("allow_signup", "false")]
        ++ (if bool_decide (redirectURL = "") then [] else [("redirect_uri", redirectURL)]))))).

Definition Subject (u : githubOAuthUser) : string := if (ou_ID u <=? 0)%Z then "" else FormatInt (ou_ID u).

Definition exchangeGitHubOAuthCode (code redirectURL : string) : sprog (result string) :=
  let*? (status, decoded) := perform (SOAuthToken code redirectURL) in
  if (status <? 200)%Z || (299 <? status)%Z then
    let problem := match decoded with Some decoded => tok_Error decoded | None => "" end in
    Done (Err (ErrText ("github oauth token status " +:+ FormatInt status
                        +:+ (if bool_decide (problem = "") then "" else ": " +:+ problem)))) else
  match decoded with
  | None => Done (Err (ErrText "decode github oauth token response"))
  | Some decoded =>
      if negb (bool_decide (tok_Error decoded = "")) then Done (Err (ErrText ("github oauth token error: " +:+ tok_Error decoded))) else
      if bool_decide (TrimSpace (tok_AccessToken decoded) = "")
      then Done (Err (ErrText "github oauth token response missing access_token"))
      else Done (Ok (tok_AccessToken decoded))
  end.

Definition fetchGitHubOAuthUser (token : string) : sprog (result githubOAuthUser) :=
  let*? (status, decoded) := perform (SOAuthUser token) in
  if (status <? 200)%Z || (299 <? status)%Z then Done (Err (ErrText ("github user status " +:+ FormatInt status))) else
  match decoded with
  | None => Done (Err (ErrText "decode github user response"))
  | Some user =>
      if bool_decide (TrimSpace (ou_Login user) = "") then Done (Err (ErrText "github user response missing login")) else
      if (ou_ID user <=? 0)%Z then Done (Err (ErrText "github user response missing id")) else
      Done (Ok user)
  end.

Definition isGitHubAppSetupCallback (r : http_request) : bool := negb (bool_decide (TrimSpace (http_query r "installation_id") = "")).

Context (encryptSecret : string -> result string).

Definition wSecret (secret : AccountSecret) : scall (result AccountSecret) :=
  SWrite (onAccounts (UpsertAccountSecret secret)).

(** Everything after the state was checked. *)
Definition signIn (r : http_request) (code : string) : sprog (reply Empty_set) :=
  let refused := fun status => with_cookies [clearCookie oauthStateCookieName "/auth/github" (requestIsSecure r)] (writeError status) in
  let* found := exchangeGitHubOAuthCode code (githubOAuthRedirectURL r) in
  match found with
  | Err _ => Done (refused 401%Z)
  | Ok token =>
      let* found := fetchGitHubOAuthUser token in
      match found with
      | Err _ => Done (refused 401%Z)
      | Ok user =>
          let* found := perform (SEnsureAccount (MkOAuthIdentity 0 0 "github" (Subject user) (ou_Login user) 0 0) "user") in
          match found with
          | Err _ => Done (refused 500%Z)
          | Ok (account, _) =>
              match encryptSecret token with
              | Err _ => Done (refused 500%Z)
              | Ok encryptedToken =>
                  let* found := perform (wSecret (MkAccountSecret 0 AccountScopeTypeAccount (ac_ID account)
                                                    AccountSecretTypeGitHubOAuthToken encryptedToken 0 0)) in
                  match found with
                  | Err _ => Done (refused 500%Z)
                  | Ok _ =>
                      let* _ := perform (SInvalidate (ac_ID account)) in
                      let* now := perform SNow in
                      let session := MkSession "github" (Subject user) (ou_Login user) (ac_Role account) (ou_AvatarURL user)
                                       (Unix (now + cfg_AuthSessionTTL cfg)) in
                      match encodeAdminSession session with
                      | Err _ => Done (refused 500%Z)
                      | Ok value =>
                          let cookies := [clearCookie oauthStateCookieName "/auth/github" (requestIsSecure r);
                                          MkCookie adminSessionCookieName value "/" (requestIsSecure r)
                                            (Z.quot (cfg_AuthSessionTTL cfg) Second)] in
                          match http_cookie r oauthReturnToCookieName with
                          | None => Done (with_cookies cookies (redirect "/"))
                          | Some cookie =>
                              let sanitized := sanitizeOAuthReturnTo cookie in
                              Done (with_cookies (cookies ++ [clearCookie oauthReturnToCookieName "/auth/github" (requestIsSecure r)])
                                      (redirect (if bool_decide (sanitized = "") then "/" else sanitized)))
                          end
                      end
                  end
              end
          end
      end
  end.

Definition handleGitHubOAuthCallback (r : http_request) : sprog (reply Empty_set) :=
  if negb (cfg_GitHubOAuthEnabled cfg) then Done (MkReply 404 [] [] BEmpty) else
  if isGitHubAppSetupCallback r then handleGitHubAppSetupRedirect r else
  if negb (bool_decide (TrimSpace (http_query r "error") = "")) then Done (writeError 401) else
  let oauthState := http_query r "state" in
  let code := http_query r "code" in
  match http_cookie r oauthStateCookieName with
  | None => Done (writeError 401)
  | Some cookie =>
      if bool_decide (oauthState = "") || bool_decide (code = "") || negb (bool_decide (oauthState = cookie))
      then Done (writeError 401) else signIn r code
  end.

Definition handleAuthLogout (r : http_request) : sprog (reply Empty_set) :=
  Done (with_cookies [clearCookie adminSessionCookieName "/" (requestIsSecure r);
                      clearCookie oauthStateCookieName "/auth/github" (requestIsSecure r);
                      clearCookie oauthReturnToCookieName "/auth/github" (requestIsSecure r)] writeOK).
End sessions.
