(* ===== verification/SessionSafety.v ===== *)
(** * Sessions: what a cookie proves, and what a sign-in needs

    The signature makes the cookie of a session unforgeable as far as the key is secret; the
    state makes the callback of a sign-in belong to the browser that began it. *)

From Stdlib Require Import Ascii.
From stdpp Require Import base list strings.
From S2P Require Import Prelude GoStrings Rows RunnerModel RunnerStore AccountModel AccountStore Sponsorship Program Trace ServerCalls ServiceSelection ServiceSafety.
From S2P Require Import Sessions.

(** ** The cookie of a session *)

(** What the sessions rely on: encoding/json reads back the session it wrote (its strings are
    valid UTF-8), base64.RawURLEncoding reads back what it wrote in an alphabet without dot,
    and a digest is not empty. *)
Record faithful (codec : session_codec) (session : adminSession) : Prop := {
  reads_json : exists json, marshal codec session = Ok json /\ unmarshal codec json = Ok session /\ json <> "";
  reads_base64 : forall text, decode64 codec (encode64 codec text) = Ok text;
  plain_base64 : forall text, "."%char ∉ bytes (encode64 codec text);
  full_base64 : forall text, text <> "" -> encode64 codec text <> "";
  full_digest : forall text, signAdminSession codec text <> ""
}.

Section cookie.
Context (codec : session_codec).

Lemma decode_spec value session : decodeAdminSession codec value = Ok session <->
  exists payload json, value = payload +:+ "." +:+ signAdminSession codec payload /\
    ("."%char ∉ bytes payload) /\ payload <> "" /\ signAdminSession codec payload <> "" /\ decode64 codec payload = Ok json /\ unmarshal codec json = Ok session /\
    TrimSpace (ses_Subject session) <> "" /\ TrimSpace (ses_Role session) <> "".
Proof.
  unfold decodeAdminSession, Cut. split.
  - destruct (cut_bytes "." (bytes value)) as [[a b]|] eqn:E; [|done]. apply cut_bytes_spec in E as [E Hp]. cbn [negb orb].
    intros H. destruct (_ || _) eqn:E1; [done|]. destruct (negb _) eqn:E2; [done|].
    apply result_bind_Ok in H as (json & H1 & H). apply result_bind_Ok in H as (x & H2 & H).
    destruct (bool_decide (TrimSpace (ses_Subject x) = "")) eqn:E3; [done|].
    destruct (bool_decide (TrimSpace (ses_Role x) = "")) eqn:E4; [done|]. injection H as ->.
    bool_prop. exists (of_bytes a), json. rewrite <-E2, bytes_of_bytes. split_and!; try done.
    apply bytes_inj. rewrite !bytes_app, !bytes_of_bytes. exact E.
  - intros (p & json & -> & Hp & Hn & Hs & H1 & H2 & H3 & H4).
    rewrite (proj2 (cut_bytes_spec _ _ (bytes p) (bytes (signAdminSession codec p)))) by (split; [by rewrite !bytes_app|done]).
    rewrite !of_bytes_bytes. cbn [negb orb]. rewrite !bool_decide_false by done. rewrite bool_decide_true by done. cbn [negb orb].
    rewrite H1. cbn. rewrite H2. cbn. by rewrite !bool_decide_false by done.
Qed.

Lemma encode_decode session value : faithful codec session -> TrimSpace (ses_Subject session) <> "" -> TrimSpace (ses_Role session) <> "" ->
  encodeAdminSession codec session = Ok value -> decodeAdminSession codec value = Ok session.
Proof.
  intros [(json & Hm & Hu & Hj) Hd Hp Hf Hs] H1 H2 E. unfold encodeAdminSession in E. rewrite Hm in E. injection E as <-.
  apply decode_spec. exists (encode64 codec json), json. split_and!; auto.
Qed.
End cookie.

(** C28: A session round-trips through its cookie: whatever session the server encoded, the
    request that brings the cookie back not later than the second the session ends is the
    viewer's, with the role the account has now, and one second later it is not accepted any more, nor is
    it when its signature differs in anything from the server's. *)
Theorem session_round_trip codec session value r now account identity account' identity' :
  faithful codec session -> TrimSpace (ses_Subject session) <> "" -> TrimSpace (ses_Role session) <> "" ->
  encodeAdminSession codec session = Ok value -> http_cookie r adminSessionCookieName = Some value ->
  let q := qAccountByIdentity (providerOf session) (ses_Subject session) in
  ((Unix now <= ses_ExpiresAt session)%Z ->
     returns (requireUserSession (A:=Empty_set) codec r)
       [Answered SNow now; Answered q (Ok (account, identity)); Answered q (Ok (account', identity'))]
       (inr (session <| ses_Role := ac_Role account' |>, account'))) /\
  ((ses_ExpiresAt session < Unix now)%Z ->
     returns (requireUserSession (A:=Empty_set) codec r) [Answered SNow now] (inl (writeError 401))) /\
  (forall payload signature r', "."%char ∉ bytes payload -> signature <> signAdminSession codec payload ->
     http_cookie r' adminSessionCookieName = Some (payload +:+ "." +:+ signature) ->
     returns (requireUserSession (A:=Empty_set) codec r') [] (inl (writeError 401))).
Proof.
  intros Hf H1 H2 E Hc q. pose proof (encode_decode codec session value Hf H1 H2 E) as Hd.
  split_and!.
  - intros Hle. unfold requireUserSession, sessionFromRequest. rewrite Hc, Hd. cbn. eexists _, _. split; [done|].
    rewrite (proj2 (Z.ltb_ge _ _)) by done. cbn. eexists _, _. split; [done|]. cbn. by eexists _, _.
  - intros Hlt. unfold requireUserSession, sessionFromRequest. rewrite Hc, Hd. cbn. eexists _, _. split; [done|].
    by rewrite (proj2 (Z.ltb_lt _ _)) by done.
  - intros payload signature r' Hp Hs Hc'. unfold requireUserSession, sessionFromRequest. rewrite Hc'.
    destruct (decodeAdminSession codec (payload +:+ "." +:+ signature)) as [x|e] eqn:Ex; [|done].
    apply decode_spec in Ex as (p & json & Ev & Hp' & _ & _ & _). destruct Hs.
    assert (Eb : cut_bytes "." (bytes payload ++ "."%char :: bytes signature) = Some (bytes p, bytes (signAdminSession codec p))).
    { apply cut_bytes_spec. split; [|done]. apply (f_equal bytes) in Ev. by rewrite !bytes_app in Ev. }
    rewrite (proj2 (cut_bytes_spec _ _ (bytes payload) (bytes signature))) in Eb by done. injection Eb as E1 E2.
    apply bytes_inj in E1 as ->. by apply bytes_inj in E2.
Qed.

(** ** Signing in *)

Section sign_in.
Context (codec : session_codec) (urls : url_codec) (cfg : auth_config) (encryptSecret : string -> result string) (r : http_request).

(** The code is the one of a callback that carries the state this browser was given. *)
Definition own_callback (code : string) : Prop :=
  code = http_query r "code" /\ code <> "" /\ http_query r "state" <> "" /\ http_cookie r oauthStateCookieName = Some (http_query r "state").

(** GitHub exchanged the code for a token. *)
Definition token_answer (token : string) (answer : result (Z * option githubOAuthTokenResponse)) : Prop :=
  exists status decoded, answer = Ok (status, Some decoded) /\ (200 <= status <= 299)%Z /\ tok_Error decoded = "" /\
    token = tok_AccessToken decoded /\ TrimSpace token <> "".

(** GitHub names the user of the token. *)
Definition user_answer (user : githubOAuthUser) (answer : result (Z * option githubOAuthUser)) : Prop :=
  exists status, answer = Ok (status, Some user) /\ (200 <= status <= 299)%Z /\ (0 < ou_ID user)%Z /\ TrimSpace (ou_Login user) <> "".

Definition identityOf (user : githubOAuthUser) : OAuthIdentity := MkOAuthIdentity 0 0 "github" (FormatInt (ou_ID user)) (ou_Login user) 0 0.
Definition tokenSecret (account : Account) (sealed : string) : AccountSecret :=
  MkAccountSecret 0 AccountScopeTypeAccount (ac_ID account) AccountSecretTypeGitHubOAuthToken sealed 0 0.

(** What happened up to the answer about the user. *)
Inductive authenticated : trace -> string -> githubOAuthUser -> Prop :=
| authenticated_intro code token user a b : own_callback code -> token_answer token a -> user_answer user b ->
    authenticated [Answered (SOAuthToken code (githubOAuthRedirectURL cfg r)) a; Answered (SOAuthUser token) b] token user.

(** What a callback may do: it asks for a token only with the code of its own callback; it
    ensures the account of the user GitHub named, always in the role user; it stores the
    sealed token for that account. *)
Inductive callback_event (tr : trace) : asked scall -> Prop :=
| callback_now : callback_event tr (Asked SNow)
| callback_read {R} (q : tables -> result R) : callback_event tr (Asked (SRead q))
| callback_token code : own_callback code -> callback_event tr (Asked (SOAuthToken code (githubOAuthRedirectURL cfg r)))
| callback_user code token a : own_callback code -> token_answer token a ->
    tr = [Answered (SOAuthToken code (githubOAuthRedirectURL cfg r)) a] -> callback_event tr (Asked (SOAuthUser token))
| callback_account token user : authenticated tr token user -> callback_event tr (Asked (SEnsureAccount (identityOf user) "user"))
| callback_secret tr0 token user account identity sealed : authenticated tr0 token user ->
    tr = tr0 ++ [Answered (SEnsureAccount (identityOf user) "user") (Ok (account, identity))] -> encryptSecret token = Ok sealed ->
    callback_event tr (Asked (wSecret (tokenSecret account sealed)))
| callback_invalidate accountID : callback_event tr (Asked (SInvalidate accountID)).

(** The whole run of a sign-in, and the session it ends with. *)
Inductive signed_session : trace -> adminSession -> Prop :=
| signed_intro tr0 token user account identity sealed stored now :
    authenticated tr0 token user -> encryptSecret token = Ok sealed ->
    signed_session (tr0 ++ [Answered (SEnsureAccount (identityOf user) "user") (Ok (account, identity));
                            Answered (wSecret (tokenSecret account sealed)) (Ok stored);
                            Answered (SInvalidate (ac_ID account)) tt; Answered SNow now])
      (MkSession "github" (FormatInt (ou_ID user)) (ou_Login user) (ac_Role account) (ou_AvatarURL user)
         (Unix (now + cfg_AuthSessionTTL cfg))).

(** A path of this site: after its first slash comes neither a slash nor a backslash. *)
Definition local_path (target : string) : Prop :=
  exists rest, bytes target = "/"%char :: rest /\ head rest <> Some "/"%char /\ head rest <> Some "\"%char.

Definition sound_reply (answer : reply Empty_set) (tr : trace) : Prop :=
  (forall cookie, cookie ∈ rp_cookies answer -> ck_Name cookie = adminSessionCookieName ->
     exists session, signed_session tr session /\ encodeAdminSession codec session = Ok (ck_Value cookie) /\
       ck_MaxAge cookie = Z.quot (cfg_AuthSessionTTL cfg) Second) /\
  (forall target, rp_body answer = BRedirect target -> local_path target).

Lemma sanitize_local value : sanitizeOAuthReturnTo urls value <> "" -> local_path (sanitizeOAuthReturnTo urls value).
Proof.
  unfold sanitizeOAuthReturnTo. case_match eqn:E; [done|]. case_match; [|done]. case_match; [done|]. intros _. apply orb_false_iff in E as [[[_ H1]%orb_false_iff H2]%orb_false_iff H3].
  unfold HasPrefix, Contains in *. apply negb_false_iff, prefix_bytes_spec in H1 as [rest H1]. exists rest. split; [done|].
  cbn in H1. rewrite H1 in H2, H3. destruct rest as [|c rest]; [done|]. cbn [head].
  split; intros [= ->]; [by cbn in H2|]. revert H3. apply not_false_iff_true, contains_bytes_spec.
  exists ["/"%char], rest. done.
Qed.

Abbreviation callback_vc := (vc callback_event).

Lemma refusal_sound (answer : reply Empty_set) tr :
  (forall cookie, cookie ∈ rp_cookies answer -> ck_Name cookie <> adminSessionCookieName) ->
  (forall target, rp_body answer <> BRedirect target) -> sound_reply answer tr.
Proof. intros H1 H2. split; [intros c H%H1 E; by destruct H|intros t E; by destruct (H2 t)]. Qed.

(** A refusal clears at most the cookie of the state. *)
Ltac refusal := let H := fresh in apply refusal_sound; [intros ? H; cbn in H; by (apply list_elem_of_singleton in H as -> || apply elem_of_nil in H)|done].

Ltac callback_step := first [vc_step | apply vc_perform; [by econstructor|intros ?; cbv beta]].

Lemma setup_vc : callback_vc (handleGitHubAppSetupRedirect codec urls r) sound_reply [].
Proof.
  unfold handleGitHubAppSetupRedirect, requireUserSession, sessionFromRequest.
  repeat callback_step; try (by refusal).
  split; [by intros ? H%elem_of_nil|]. cbn [rp_body redirect]. intros target [= <-]. case_match; (eexists; split; [reflexivity|done]).
Qed.

Lemma exchange_vc code : own_callback code ->
  callback_vc (exchangeGitHubOAuthCode code (githubOAuthRedirectURL cfg r))
    (fun x tr => forall token, x = Ok token -> exists a, token_answer token a /\ tr = [Answered (SOAuthToken code (githubOAuthRedirectURL cfg r)) a]) [].
Proof.
  intros Hc. unfold exchangeGitHubOAuthCode. apply vc_perform; [by constructor|]. intros a. repeat vc_step; try done.
  intros token [= <-]. bool_prop. eexists. split; [|reflexivity]. eexists _, _. split_and!; [reflexivity|lia|lia|done|done|done].
Qed.

Lemma fetch_vc code token a : own_callback code -> token_answer token a ->
  callback_vc (fetchGitHubOAuthUser token) (fun x tr => forall user, x = Ok user -> authenticated tr token user)
    [Answered (SOAuthToken code (githubOAuthRedirectURL cfg r)) a].
Proof.
  intros Hc Ha. unfold fetchGitHubOAuthUser. apply vc_perform; [by econstructor|]. intros b. repeat vc_step; try done.
  intros user [= <-]. bool_prop. econstructor; [done|done|]. eexists. split_and!; [reflexivity|lia|lia|lia|done].
Qed.

(** The reply of a successful sign-in. *)
Lemma success_sound session value tr :
  signed_session tr session -> encodeAdminSession codec session = Ok value ->
  let cookies := [clearCookie oauthStateCookieName "/auth/github" (requestIsSecure r);
                  MkCookie adminSessionCookieName value "/" (requestIsSecure r) (Z.quot (cfg_AuthSessionTTL cfg) Second)] in
  sound_reply (match http_cookie r oauthReturnToCookieName with
               | None => with_cookies cookies (redirect "/")
               | Some cookie =>
                   with_cookies (cookies ++ [clearCookie oauthReturnToCookieName "/auth/github" (requestIsSecure r)])
                     (redirect (if bool_decide (sanitizeOAuthReturnTo urls cookie = "") then "/" else sanitizeOAuthReturnTo urls cookie))
               end) tr.
Proof.
  intros Hs He cookies. split.
  - intros c Hc Hn. exists session. assert (Hv : c = MkCookie adminSessionCookieName value "/" (requestIsSecure r) (Z.quot (cfg_AuthSessionTTL cfg) Second)).
    { destruct (http_cookie r oauthReturnToCookieName); cbn in Hc; rewrite !elem_of_cons, elem_of_nil in Hc; repeat destruct Hc as [->|Hc]; done. }
    by subst c.
  - assert (Hroot : local_path "/") by (exists []; done).
    destruct (http_cookie r oauthReturnToCookieName) as [c|]; cbn [rp_body with_cookies redirect]; intros target [= <-]; [|done].
    case_bool_decide; [done|]. by apply sanitize_local.
Qed.

Lemma sign_in_vc code : own_callback code -> callback_vc (signIn codec urls cfg encryptSecret r code) sound_reply [].
Proof.
  intros Hc. unfold signIn. eapply vc_seq; [by apply exchange_vc|]. intros [token|e] tr1 Ht; [|by refusal].
  destruct (Ht token eq_refl) as (a & Ha & E). rewrite app_nil_l in *. subst tr1. clear Ht.
  eapply vc_seq; [by eapply fetch_vc|]. intros [user|e] tr2 Hu; [|by refusal].
  specialize (Hu user eq_refl). revert Hu. generalize ([Answered (SOAuthToken code (githubOAuthRedirectURL cfg r)) a] ++ tr2). intros tr0 Hu.
  assert (Hid : Subject user = FormatInt (ou_ID user)).
  { destruct Hu as [code' token' user a' b' _ _ (st & _ & _ & Hpos & _)]. unfold Subject. rewrite (proj2 (Z.leb_gt _ _)); [done|lia]. }
  rewrite !Hid. apply vc_perform; [by econstructor|]. intros [[account identity]|e]; [|by refusal].
  destruct (encryptSecret token) as [sealed|e] eqn:Es; [|by refusal].
  apply vc_perform; [by econstructor|]. intros [stored|e]; [|by refusal].
  apply vc_perform; [by constructor|]. intros []. apply vc_perform; [by constructor|]. intros now. cbv zeta.
  destruct (encodeAdminSession codec _) as [value|e] eqn:Ee; [|by refusal].
  assert (V := success_sound _ value _ (signed_intro tr0 token user account identity sealed stored now Hu Es) Ee).
  rewrite <-!app_assoc in *. destruct (http_cookie r oauthReturnToCookieName); exact V.
Qed.

Lemma oauth_callback_vc : callback_vc (handleGitHubOAuthCallback codec urls cfg encryptSecret r) sound_reply [].
Proof.
  unfold handleGitHubOAuthCallback. case_match; [by refusal|]. case_match; [apply setup_vc|]. case_match; [by refusal|].
  destruct (http_cookie r oauthStateCookieName) as [cookie|] eqn:E; [|by refusal]. case_match eqn:Hb; [by refusal|].
  bool_prop. apply sign_in_vc. split_and!; [done..|]. congruence.
Qed.
End sign_in.

(** C13: A sign-in is sound.  The callback asks GitHub for a token only when it carries the
    very state this browser was given, it creates or refreshes only the account of the user
    GitHub names for that token, and only in the role user, and it stores the token only for
    that account.  It sets a session cookie only at the end of the complete sequence (token,
    user, account, sealed token stored, cached access of the account dropped), and that
    cookie is the encoding of a session for that user, with the account's role, that ends
    when the configured time is over.  It redirects only inside this site. *)
Theorem sign_in_sound codec urls cfg encryptSecret r tr answer :
  returns (handleGitHubOAuthCallback codec urls cfg encryptSecret r) tr answer ->
  sound_reply codec cfg encryptSecret r answer tr /\
  forall tr1 x tr2, tr = tr1 ++ x :: tr2 -> callback_event cfg encryptSecret r tr1 (ask_of x).
Proof. exact (vc_sound _ _ _ _ _ _ (oauth_callback_vc codec urls cfg encryptSecret r)). Qed.

(** ** Bob signs in *)

(** A text without dots that stands for any text: a minus escapes. *)
Definition escape (c : ascii) : list ascii :=
  if bool_decide (c = "."%char) then ["-"%char; "d"%char] else if bool_decide (c = "-"%char) then ["-"%char; "m"%char] else [c].

Fixpoint unescape (l : list ascii) : list ascii :=
  match l with
  | [] => []
  | c :: rest =>
      if bool_decide (c = "-"%char)
      then match rest with [] => [] | d :: rest => (if bool_decide (d = "d"%char) then "."%char else "-"%char) :: unescape rest end
      else c :: unescape rest
  end.

Lemma unescape_escape l : unescape (flat_map escape l) = l.
Proof.
  induction l as [|c l IH]; [done|]. cbn [flat_map]. unfold escape at 1. repeat case_bool_decide; subst; cbn; rewrite ?IH; [done|done|].
  by rewrite bool_decide_false by done.
Qed.

Lemma escape_plain l : "."%char ∉ flat_map escape l.
Proof.
  induction l as [|c l IH]; [by apply not_elem_of_nil|]. cbn [flat_map]. rewrite elem_of_app. intros [H|H]; [|done]. revert H. unfold escape.
  repeat case_bool_decide; rewrite ?elem_of_cons, ?elem_of_nil; intuition congruence.
Qed.

Definition ex_codec : session_codec :=
  MkSessionCodec (fun text => "s" +:+ text) (fun text => of_bytes (flat_map escape (bytes text)))
    (fun text => Ok (of_bytes (unescape (bytes text)))) (fun session => Ok (ses_Subject session))
    (fun json => Ok (MkSession "github" json "bob" "user" "" 100)).

Definition ex_bob : adminSession := MkSession "github" "9" "bob" "user" "" 100.

Lemma ex_faithful : faithful ex_codec ex_bob.
Proof.
  split; cbn.
  - by exists "9".
  - intros text. by rewrite bytes_of_bytes, unescape_escape, of_bytes_bytes.
  - intros text. rewrite bytes_of_bytes. apply escape_plain.
  - intros [|c text] H E; [done|]. apply (f_equal bytes) in E. rewrite bytes_of_bytes in E. cbn in E. unfold escape in E.
    by repeat case_bool_decide.
  - done.
Qed.

Definition ex_cookie (name value : string) : http_request :=
  MkRequest (fun n => if bool_decide (n = name) then Some value else None)
    (fun n => if bool_decide (n = "state") then "st1" else if bool_decide (n = "code") then "c0de" else "")
    (fun _ => "") "" "runner.example" true "".

(** The last second of the session, in the year 1970. *)
Definition ex_last_second : Time := ((62135596800 + 100) * Second)%Z.

Lemma session_round_trip_witness :
  returns (requireUserSession (A:=Empty_set) ex_codec (ex_cookie adminSessionCookieName "9.s9"))
    [Answered SNow ex_last_second; Answered (qAccountByIdentity "github" "9") (Ok (MkAccount 1 "user" 0 0, MkOAuthIdentity 1 1 "github" "9" "bob" 0 0));
     Answered (qAccountByIdentity "github" "9") (Ok (MkAccount 1 "admin" 0 0, MkOAuthIdentity 1 1 "github" "9" "bob" 0 0))]
    (inr (ex_bob <| ses_Role := "admin" |>, MkAccount 1 "admin" 0 0)).
Proof.
  refine (proj1 (session_round_trip ex_codec ex_bob "9.s9" (ex_cookie adminSessionCookieName "9.s9") ex_last_second _ _
    (MkAccount 1 "admin" 0 0) _ ex_faithful _ _ _ _) _).
  - vm_compute. discriminate.
  - vm_compute. discriminate.
  - vm_compute. reflexivity.
  - vm_compute. reflexivity.
  - vm_compute. discriminate.
Defined.

Definition ex_auth : auth_config := MkAuthConfig true "client" "" (3600 * Second) "app".
Definition ex_urls : url_codec := MkURLCodec (fun _ => None) (fun _ => "") id.

Definition ex_sign_in_answers (R : Type) (e : scall R) : R :=
  match e in scall R return R with
  | SOAuthToken code _ => Ok (200%Z, Some (MkTokenResponse ("token-" +:+ code) ""))
  | SOAuthUser _ => Ok (200%Z, Some (MkOAuthUser 9 "bob" ""))
  | SEnsureAccount identity role => Ok (MkAccount 1 role 0 0, identity)
  | e => frozen ex_last_second (MkTables accountDB0 sponsorDB0 ∅ ∅ ∅) (Err ErrNotFound) (fun _ => Err ErrNotFound) (Err ErrNotFound) (Ok []) _ e
  end.

Definition ex_callback := handleGitHubOAuthCallback ex_codec ex_urls ex_auth Ok (ex_cookie oauthStateCookieName "st1").
Definition ex_callback_run := replay ex_sign_in_answers ex_callback.

(** Another state is refused before GitHub is asked. *)
Example state_checked :
  rp_status ex_callback_run.2 = 302%Z /\ length ex_callback_run.1 = 6 /\
  replay ex_sign_in_answers (handleGitHubOAuthCallback ex_codec ex_urls ex_auth Ok (ex_cookie oauthStateCookieName "st2"))
    = ([], writeError 401).
Proof. vm_compute. done. Qed.

Lemma sign_in_sound_witness :
  (exists cookie, cookie ∈ rp_cookies ex_callback_run.2 /\ ck_Name cookie = adminSessionCookieName) /\
  sound_reply ex_codec ex_auth Ok (ex_cookie oauthStateCookieName "st1") ex_callback_run.2 ex_callback_run.1.
Proof.
  split; [eexists; split; [apply (list_elem_of_lookup_2 _ 1); vm_compute; reflexivity|reflexivity]|].
  exact (proj1 (sign_in_sound ex_codec ex_urls ex_auth Ok (ex_cookie oauthStateCookieName "st1") _ _
    (replay_returns ex_sign_in_answers ex_callback))).
Defined.
