(* ===== verification/RepoAccess.v ===== *)
(** * The repository access of a user (internal/server/server_user_authorization.go)

    The server caches, per account, the repositories GitHub lists for the account's token;
    an epoch per account makes loads that began before an invalidation lose.  The state
    under [userRepositoryAccessMu] and the critical sections on it are functions;
    requests, loads and background refreshes are [tree]s of events that interleave at
    every critical section and every call. *)

From stdpp Require Import base gmap list strings relations.
From S2P Require Import Prelude GoStrings RunnerQueries AccountModel GitHubErrors Program.

Abbreviation access := (list GitHubInstallationRepositoryAccess).

Definition errGitHubUserAccessTokenRequired : goerror := ErrSentinel "github user access token is required".

Definition maxUserRepositoryAccessCacheItems : nat := 512.
Definition userRepositoryAccessRefreshAfter : Z := 20 * Second.
Definition userRepositoryAccessCacheTTL : Z := 30 * Second.
Definition userRepositoryAccessRefreshRetry : Z := 5 * Second.

(** ** The cache *)

Record cachedUserRepositoryAccess := MkCached {
  cu_access : access;
  cu_refreshAfter : Time;
  cu_expiresAt : Time;
  cu_refreshing : bool
}.

#[export] Instance rebuild_cached : Rebuild cachedUserRepositoryAccess := fun r =>
  MkCached (cu_access r) (cu_refreshAfter r) (cu_expiresAt r) (cu_refreshing r).

Record cache := MkCache {
  userRepositoryAccessCache : gmap Z cachedUserRepositoryAccess;
  userRepositoryAccessEpoch : gmap Z Z
}.

#[export] Instance rebuild_cache : Rebuild cache := fun r =>
  MkCache (userRepositoryAccessCache r) (userRepositoryAccessEpoch r).

(** Reading a map that lacks the key gives the zero value. *)
Definition userRepositoryAccessEpochForRefresh (accountID : Z) (c : cache) : Z :=
  default 0%Z (userRepositoryAccessEpoch c !! accountID).

Definition userRepositoryAccessEpochMatches (accountID epoch : Z) (c : cache) : bool :=
  (userRepositoryAccessEpochForRefresh accountID c =? epoch)%Z.

(** The access, whether there is one, and whether the caller refreshes it. *)
Definition cachedUserRepositoryAccessForRequest (now : Time) (accountID : Z) (c : cache) : cache * option (access * bool) :=
  match userRepositoryAccessCache c !! accountID with
  | None => (c, None)
  | Some cached =>
      if negb (now <? cu_expiresAt cached)%Z then
        (c <| userRepositoryAccessCache := delete accountID (userRepositoryAccessCache c) |>, None)
      else
        let refresh := negb (now <? cu_refreshAfter cached)%Z && negb (cu_refreshing cached) in
        let c := if refresh
                 then c <| userRepositoryAccessCache := <[accountID := cached <| cu_refreshing := true |>]> (userRepositoryAccessCache c) |>
                 else c in
        (c, Some (cu_access cached, refresh))
  end.

(** The runtime picks the key to evict. *)
Definition evictOneUserRepositoryAccess (victim : Z) (m : gmap Z cachedUserRepositoryAccess) : gmap Z cachedUserRepositoryAccess :=
  delete victim m.

Definition cacheUserRepositoryAccessIfCurrent (victim : Z) (now : Time) (accountID epoch : Z) (a : access) (c : cache) : cache * bool :=
  if negb (userRepositoryAccessEpochForRefresh accountID c =? epoch)%Z then (c, false) else
  let m := userRepositoryAccessCache c in
  let m := if bool_decide (m !! accountID = None) && Nat.leb maxUserRepositoryAccessCacheItems (size m)
           then evictOneUserRepositoryAccess victim m else m in
  let entry := MkCached a (now + userRepositoryAccessRefreshAfter) (now + userRepositoryAccessCacheTTL) false in
  (c <| userRepositoryAccessCache := <[accountID := entry]> m |>, true).

Definition finishUserRepositoryAccessRefresh (now : Time) (accountID epoch : Z) (c : cache) : cache :=
  if negb (userRepositoryAccessEpochForRefresh accountID c =? epoch)%Z then c else
  match userRepositoryAccessCache c !! accountID with
  | None => c
  | Some cached =>
      let nextRefresh := (now + userRepositoryAccessRefreshRetry)%Z in
      let nextRefresh := if (cu_expiresAt cached <? nextRefresh)%Z then cu_expiresAt cached else nextRefresh in
      c <| userRepositoryAccessCache :=
             <[accountID := cached <| cu_refreshing := false |> <| cu_refreshAfter := nextRefresh |>]> (userRepositoryAccessCache c) |>
  end.

Definition invalidateUserRepositoryAccess (accountID : Z) (c : cache) : cache :=
  MkCache (delete accountID (userRepositoryAccessCache c))
    (<[accountID := wrapu64 (userRepositoryAccessEpochForRefresh accountID c + 1)]> (userRepositoryAccessEpoch c)).

Definition invalidateUserRepositoryAccessIfCurrent (accountID epoch : Z) (c : cache) : cache :=
  if negb (userRepositoryAccessEpochForRefresh accountID c =? epoch)%Z then c
  else invalidateUserRepositoryAccess accountID c.

(** ** Errors and answers *)

Definition isRejectedGitHubUserAccess (err : goerror) : bool :=
  if errors_is err errGitHubUserAccessTokenRequired then true
  else match ErrorStatus err with Some status => (status =? StatusUnauthorized)%Z | None => false end.

(** The status, the code and the Retry-After header of the response. *)
Definition writeUserRepositoryAuthorizationError (err : goerror) : Z * string * option string :=
  if errors_is err errGitHubUserAccessTokenRequired then (403%Z, "REAUTH_REQUIRED", None) else
  if IsRateLimitError err then (503%Z, "GITHUB_RATE_LIMITED", RateLimitRetryAfter err) else
  match ErrorStatus err with
  | Some status =>
      if (status =? StatusUnauthorized)%Z then (403%Z, "REAUTH_REQUIRED", None) else
      if (status =? StatusForbidden)%Z then (403%Z, "GITHUB_REPOSITORY_ACCESS_FORBIDDEN", None) else
      if (status =? StatusNotFound)%Z then (404%Z, "", None) else (502%Z, "", None)
  | None => (502%Z, "", None)
  end.

Definition hasRepositoryAccess (a : access) (installationID : Z) (repository : string) : bool :=
  let repository := TrimSpace repository in
  existsb (fun item => (acc_InstallationID item =? installationID)%Z
                       && existsb (fun candidate => EqualFold (TrimSpace candidate) repository) (acc_Repositories item)) a.

(** ** Events *)

(** What a request is answered: the access with the revision at its delivery, an error, or,
    for a request that still loops, the revision when it came. *)
Inductive outcome :=
| Served (n : Z) (a : access)
| Refused (err : goerror)
| Looping (n : Z).

(** [ARevision] reads the number of invalidations of the account so far, an auxiliary
    variable; [ATake], [ADoChan], [ADeliver] and [AAwait] are the singleflight group. *)
Inductive aevent : Type -> Type :=
| ARevision (accountID : Z) : aevent Z
| ANow : aevent Time
| ALookup (now : Time) (accountID : Z) : aevent (option (access * bool))
| AEpoch (accountID : Z) : aevent Z
| AMatches (accountID epoch : Z) : aevent bool
| ACache (accountID epoch : Z) (a : access) : aevent bool
| AFinish (accountID epoch : Z) : aevent unit
| AInvalidate (accountID : Z) : aevent unit
| AInvalidateIfCurrent (accountID epoch : Z) : aevent unit
| ADoChan (accountID epoch : Z) : aevent nat
| ATake : aevent (nat * Z * Z)
| ADeliver (call : nat) (r : result access) : aevent unit
| AAwait (call : nat) : aevent (goerror + result access)
| AInstallations (accountID : Z) : aevent (result (list GitHubInstallation))
| ASecret (accountID : Z) : aevent (result string)
| AList (token : string) (installationID : Z) : aevent (result (list string))
| AReply (accountID : Z) (o : outcome) : aevent unit.

Abbreviation aprog := (tree aevent).

(** ** Programs *)

(** [seen] of the loop over the repositories of an installation. *)
Fixpoint distinctRepositories (seen : list string) (items : list string) : list string :=
  match items with
  | [] => []
  | repository :: rest =>
      let repository := TrimSpace repository in
      let key := ToLower repository in
      if bool_decide (repository = "") || bool_decide (key ∈ seen) then distinctRepositories seen rest
      else repository :: distinctRepositories (key :: seen) rest
  end.

(** An installation that GitHub hides from the user is skipped. *)
Definition installationHidden (err : goerror) : bool :=
  match ErrorStatus err with
  | Some status => (status =? StatusNotFound)%Z || ((status =? StatusForbidden)%Z && negb (IsRateLimitError err))
  | None => false
  end.

Section programs.
(** [decryptSecret] under the configured key, and whether a GitHub client is configured. *)
Context (decryptSecret : string -> option string) (configured : bool).

(** The token in a stored secret. *)
Definition token_of (encrypted : string) : option string :=
  match decryptSecret encrypted with
  | None => None
  | Some token => let token := TrimSpace token in if bool_decide (token = "") then None else Some token
  end.

Definition githubUserAccessToken (accountID : Z) : aprog (result string) :=
  let* r := perform (ASecret accountID) in
  match r with
  | Err err => Done (Err (if errors_is err ErrNotFound then errGitHubUserAccessTokenRequired else err))
  | Ok encrypted =>
      match token_of encrypted with
      | None => Done (Err errGitHubUserAccessTokenRequired)
      | Some token => Done (Ok token)
      end
  end.

Fixpoint loadInstallations (token : string) (installations : list GitHubInstallation) (a : access) : aprog (result access) :=
  match installations with
  | [] => Done (Ok a)
  | installation :: rest =>
      let* r := perform (AList token (gi_InstallationID installation)) in
      match r with
      | Err err => if installationHidden err then loadInstallations token rest a else Done (Err err)
      | Ok items =>
          let repositories := distinctRepositories [] items in
          loadInstallations token rest
            (match repositories with [] => a | _ => a ++ [MkAccess (gi_InstallationID installation) repositories] end)
      end
  end.

Definition loadUserRepositoryAccess (accountID : Z) : aprog (result access) :=
  let* r := perform (AInstallations accountID) in
  match r with
  | Err err => Done (Err err)
  | Ok [] => Done (Ok [])
  | Ok installations =>
      if negb configured then Done (Err (ErrText "github client is not configured")) else
      let* t := githubUserAccessToken accountID in
      match t with
      | Err err => Done (Err err)
      | Ok token => loadInstallations token installations []
      end
  end.

(** The function given to the group, run by a goroutine of its own. *)
Definition call_body : aprog unit :=
  let* (call, accountID, epoch) := perform ATake in
  let* r := loadUserRepositoryAccess accountID in
  match r with
  | Err err =>
      let* _ := (if isRejectedGitHubUserAccess err then perform (AInvalidateIfCurrent accountID epoch)
                 else perform (AFinish accountID epoch)) in
      perform (ADeliver call (Err err))
  | Ok a =>
      let* _ := perform (ACache accountID epoch a) in
      perform (ADeliver call (Ok a))
  end.

(** The loop, [fuel] times; the revision read at the delivery is returned with the access. *)
Fixpoint refreshUserRepositoryAccess (fuel : nat) (accountID : Z) : aprog (option (result (Z * access))) :=
  match fuel with
  | O => Done None
  | S fuel =>
      let* epoch := perform (AEpoch accountID) in
      let* call := perform (ADoChan accountID epoch) in
      let* completed := perform (AAwait call) in
      match completed with
      | inl ctxErr => Done (Some (Err ctxErr))
      | inr (Err err) => Done (Some (Err err))
      | inr (Ok a) =>
          let* n := perform (ARevision accountID) in
          let* current := perform (AMatches accountID epoch) in
          if (current : bool) then Done (Some (Ok (n, a))) else refreshUserRepositoryAccess fuel accountID
      end
  end.

(** A request: the lookup, then the refresh; the background refresh that a hit may start is
    the entry point [background]. *)
Definition userAuthorizedRepositoryAccess (fuel : nat) (accountID : Z) : aprog outcome :=
  let* n := perform (ARevision accountID) in
  let* now := perform ANow in
  let* hit := perform (ALookup now accountID) in
  match hit with
  | Some (a, _) => Done (Served n a)
  | None =>
      let* r := refreshUserRepositoryAccess fuel accountID in
      Done (match r with
            | None => Looping n
            | Some (Err err) => Refused err
            | Some (Ok (n, a)) => Served n a
            end)
  end.

Definition request (fuel : nat) (accountID : Z) : aprog unit :=
  let* o := userAuthorizedRepositoryAccess fuel accountID in
  perform (AReply accountID o).

(** [refreshUserRepositoryAccessAsync]. *)
Definition background (fuel : nat) (accountID : Z) : aprog unit :=
  let* _ := refreshUserRepositoryAccess fuel accountID in Done tt.

(** The goroutines of the server that touch the cache. *)
Inductive access_entry (fuel : nat) : aprog unit -> Prop :=
| entry_request a : access_entry fuel (request fuel a)
| entry_background a : access_entry fuel (background fuel a)
| entry_call : access_entry fuel call_body
| entry_invalidate a : access_entry fuel (perform (AInvalidate a)).
End programs.
