(* ===== verification/RepoAccessSafety.v ===== *)
(** * Repository access: every interleaving

    The protocol of [RepoAccess]: the revision of an account is the number of its
    invalidations; what a goroutine knows are facts that stay true ([holds_mono]).  The
    singleflight group is taken at its documentation: a caller gets the result of one
    execution for its key, started by itself or by another caller with the same key. *)

From stdpp Require Import base gmap list strings relations.
From S2P Require Import Prelude GoStrings RunnerQueries AccountModel GitHubErrors Program RepoAccess.

Inductive call_state := Launched | Running | Finished (r : result access).

(** What was read and stored, with the revisions at that moment. *)
Inductive observation :=
| OSecret (accountID : Z) (encrypted : string) (revision : Z)
| OListing (token : string) (installationID : Z) (items : list string) (revisions : gmap Z Z)
| OStored (accountID : Z) (time : Time) (a : access) (revision : Z).

Record world := MkWorld {
  w_cache : cache;
  w_now : Time;
  w_revisions : gmap Z Z;
  w_calls : gmap nat (Z * Z * call_state);
  w_log : list observation;
  w_replies : list (Z * outcome)
}.

#[export] Instance rebuild_world : Rebuild world := fun r =>
  MkWorld (w_cache r) (w_now r) (w_revisions r) (w_calls r) (w_log r) (w_replies r).

Definition revision (revisions : gmap Z Z) (a : Z) : Z := default 0%Z (revisions !! a).

Definition invalidated (a : Z) (w : world) : world :=
  w <| w_cache := invalidateUserRepositoryAccess a (w_cache w) |>
    <| w_revisions := <[a := (revision (w_revisions w) a + 1)%Z]> (w_revisions w) |>.

Definition observed (o : observation) (w : world) : world := w <| w_log := w_log w ++ [o] |>.

(** The counters are exact in runs of fewer than 2^64 invalidations of an account. *)
Definition invalidates (a : Z) (w w' : world) : Prop := (revision (w_revisions w) a + 1 < 2 ^ 64)%Z /\ w' = invalidated a w.

Definition event_answers {R} (e : aevent R) (w : world) : R -> world -> Prop :=
  match e in aevent R return R -> world -> Prop with
  | ARevision a => fun r w' => r = revision (w_revisions w) a /\ w' = w
  | ANow => fun r w' => r = w_now w /\ w' = w
  | ALookup now a => fun r w' =>
      let '(c, hit) := cachedUserRepositoryAccessForRequest now a (w_cache w) in r = hit /\ w' = w <| w_cache := c |>
  | AEpoch a => fun r w' => r = userRepositoryAccessEpochForRefresh a (w_cache w) /\ w' = w
  | AMatches a e => fun r w' => r = userRepositoryAccessEpochMatches a e (w_cache w) /\ w' = w
  | ACache a e acc => fun r w' => exists victim,
      (is_Some (userRepositoryAccessCache (w_cache w) !! victim) \/ userRepositoryAccessCache (w_cache w) = ∅) /\
      let '(c, stored) := cacheUserRepositoryAccessIfCurrent victim (w_now w) a e acc (w_cache w) in
      r = stored /\
      w' = if stored then observed (OStored a (w_now w) acc (revision (w_revisions w) a)) (w <| w_cache := c |>) else w
  | AFinish a e => fun _ w' => w' = w <| w_cache := finishUserRepositoryAccessRefresh (w_now w) a e (w_cache w) |>
  | AInvalidate a => fun _ w' => invalidates a w w'
  | AInvalidateIfCurrent a e => fun _ w' =>
      if userRepositoryAccessEpochMatches a e (w_cache w) then invalidates a w w' else w' = w
  | ADoChan a e => fun call w' =>
      (w_calls w !! call = None /\ w' = w <| w_calls := <[call := (a, e, Launched)]> (w_calls w) |>) \/
      (exists st, w_calls w !! call = Some (a, e, st) /\ w' = w)
  | ATake => fun r w' => let '(call, a, e) := r in
      w_calls w !! call = Some (a, e, Launched) /\ w' = w <| w_calls := <[call := (a, e, Running)]> (w_calls w) |>
  | ADeliver call res => fun _ w' => exists a e,
      w_calls w !! call = Some (a, e, Running) /\ w' = w <| w_calls := <[call := (a, e, Finished res)]> (w_calls w) |>
  | AAwait call => fun r w' => w' = w /\
      match r with
      | inl _ => True
      | inr res => exists a e, w_calls w !! call = Some (a, e, Finished res)
      end
  | AInstallations a => fun _ w' => w' = w
  | ASecret a => fun r w' =>
      match r with
      | Ok encrypted => w' = observed (OSecret a encrypted (revision (w_revisions w) a)) w
      | Err _ => w' = w
      end
  | AList token installation => fun r w' =>
      match r with
      | Ok items => w' = observed (OListing token installation items (w_revisions w)) w
      | Err _ => w' = w
      end
  | AReply a o => fun _ w' => w' = w <| w_replies := w_replies w ++ [(a, o)] |>
  end.

(** Time passes. *)
Definition time_passes (w w' : world) : Prop := exists t, (w_now w <= t)%Z /\ w' = w <| w_now := t |>.

(** ** Knowledge *)

Inductive fact :=
| Reached (a n : Z)
| SecretRead (a n : Z) (encrypted : string)
| Listed (a n : Z) (token : string) (installationID : Z) (items : list string)
| CallOf (call : nat) (a e : Z)
| Fresh (a n : Z) (acc : access).

Section protocol.
Context (decryptSecret : string -> option string) (configured : bool) (fuel : nat).

(** Each item was listed with a token the account had stored, both read since revision [n]. *)
Definition backed (secret : string -> Prop) (listed : string -> Z -> list string -> Prop) (acc : access) : Prop :=
  forall item, item ∈ acc -> exists encrypted token items,
    secret encrypted /\ token_of decryptSecret encrypted = Some token /\ listed token (acc_InstallationID item) items /\
    forall r, r ∈ acc_Repositories item -> exists x, x ∈ items /\ r = TrimSpace x.

Definition secret_since (w : world) (a n : Z) (encrypted : string) : Prop :=
  exists m, OSecret a encrypted m ∈ w_log w /\ (n <= m)%Z.
Definition listed_since (w : world) (a n : Z) (token : string) (installation : Z) (items : list string) : Prop :=
  exists revisions, OListing token installation items revisions ∈ w_log w /\ (n <= revision revisions a)%Z.

Definition fresh (w : world) (a n : Z) (acc : access) : Prop := backed (secret_since w a n) (listed_since w a n) acc.

Definition holds (w : world) (f : fact) : Prop :=
  match f with
  | Reached a n => (n <= revision (w_revisions w) a)%Z
  | SecretRead a n encrypted => secret_since w a n encrypted
  | Listed a n token installation items => listed_since w a n token installation items
  | CallOf call a e => exists st, w_calls w !! call = Some (a, e, st)
  | Fresh a n acc => fresh w a n acc
  end.

Abbreviation knowledge := (list fact).

Definition supported (k : knowledge) (a n : Z) (acc : access) : Prop :=
  backed (fun encrypted => SecretRead a n encrypted ∈ k) (fun token installation items => Listed a n token installation items ∈ k) acc.

(** The revisions of an account a goroutine knows to be reached. *)
Definition reached (a : Z) (k : knowledge) : list Z :=
  omap (fun f => match f with Reached a' n => if (a' =? a)%Z then Some n else None | _ => None end) k.

Definition calls_known (call : nat) (k : knowledge) : list (Z * Z) :=
  omap (fun f => match f with CallOf c a e => if Nat.eqb c call then Some (a, e) else None | _ => None end) k.

Definition event_permitted {R} (e : aevent R) (k : knowledge) : Prop :=
  match e with
  | ADoChan a epoch => Reached a epoch ∈ k
  | ACache a epoch acc => supported k a epoch acc
  | ADeliver call (Ok acc) => exists a e, CallOf call a e ∈ k /\ supported k a e acc
  | ADeliver call _ => True
  | AReply a (Served n acc) => exists m, (n <= m)%Z /\ Fresh a m acc ∈ k
  | AReply a (Looping n) => exists m, (n + Z.of_nat fuel <= m)%Z /\ Reached a m ∈ k
  | _ => True
  end.

Definition event_expected {R} (e : aevent R) (k : knowledge) : R -> Prop :=
  match e in aevent R return R -> Prop with
  | AEpoch a | ARevision a => fun r => forall m, Reached a m ∈ k -> (m <= r)%Z
  | AMatches a epoch => fun r => r = true -> forall m, Reached a m ∈ k -> (m <= epoch)%Z
  | _ => fun _ => True
  end.

Definition news {R} (e : aevent R) (k : knowledge) : R -> list fact :=
  match e in aevent R return R -> list fact with
  | ARevision a => fun r => [Reached a r]
  | AEpoch a => fun r => [Reached a r]
  | AMatches a epoch => fun r => if r then [] else if bool_decide (epoch ∈ reached a k) then [Reached a (epoch + 1)] else []
  | ALookup _ a => fun r => match r with Some (acc, _) => (fun n => Fresh a n acc) <$> reached a k | None => [] end
  | ADoChan a epoch => fun call => [CallOf call a epoch]
  | ATake => fun r => let '(call, a, e) := r in [CallOf call a e; Reached a e]
  | AAwait call => fun r =>
      match r with inr (Ok acc) => (fun '(a, e) => Fresh a e acc) <$> calls_known call k | _ => [] end
  | ASecret a => fun r => match r with Ok encrypted => (fun n => SecretRead a n encrypted) <$> reached a k | Err _ => [] end
  | AList token installation => fun r =>
      match r with
      | Ok items => omap (fun f => match f with Reached a n => Some (Listed a n token installation items) | _ => None end) k
      | Err _ => []
      end
  | _ => fun _ => []
  end.

(** ** The invariant *)

Definition entry_ok (w : world) (a : Z) (cu : cachedUserRepositoryAccess) : Prop :=
  fresh w a (revision (w_revisions w) a) (cu_access cu) /\ (cu_refreshAfter cu <= cu_expiresAt cu)%Z /\
  exists t, (t <= w_now w)%Z /\ cu_expiresAt cu = (t + userRepositoryAccessCacheTTL)%Z /\
    OStored a t (cu_access cu) (revision (w_revisions w) a) ∈ w_log w.

Definition call_ok (w : world) (c : Z * Z * call_state) : Prop :=
  let '(a, e, st) := c in
  (e <= revision (w_revisions w) a)%Z /\ match st with Finished (Ok acc) => fresh w a e acc | _ => True end.

Definition reply_ok (w : world) (r : Z * outcome) : Prop :=
  match r with
  | (a, Served n acc) => fresh w a n acc
  | (a, Looping n) => (n + Z.of_nat fuel <= revision (w_revisions w) a)%Z
  | (_, Refused _) => True
  end.

Record world_ok (w : world) : Prop := {
  wo_epochs : forall a, (0 <= revision (w_revisions w) a < 2 ^ 64)%Z /\
    userRepositoryAccessEpochForRefresh a (w_cache w) = revision (w_revisions w) a;
  wo_size : size (userRepositoryAccessCache (w_cache w)) <= maxUserRepositoryAccessCacheItems;
  wo_entries : forall a cu, userRepositoryAccessCache (w_cache w) !! a = Some cu -> entry_ok w a cu;
  wo_calls : forall call c, w_calls w !! call = Some c -> call_ok w c;
  wo_replies : forall r, r ∈ w_replies w -> reply_ok w r
}.

Definition access_consistent (w : world) (ks : gmap nat knowledge) : Prop :=
  world_ok w /\ forall i k f, ks !! i = Some k -> f ∈ k -> holds w f.

(** ** What stays true *)

Record grows (w w' : world) : Prop := {
  gw_revisions : forall a, (revision (w_revisions w) a <= revision (w_revisions w') a)%Z;
  gw_log : forall o, o ∈ w_log w -> o ∈ w_log w';
  gw_calls : forall call a e st, w_calls w !! call = Some (a, e, st) -> exists st', w_calls w' !! call = Some (a, e, st')
}.

Lemma backed_mono (s s' : string -> Prop) (l l' : string -> Z -> list string -> Prop) acc :
  (forall x, s x -> s' x) -> (forall t i x, l t i x -> l' t i x) -> backed s l acc -> backed s' l' acc.
Proof.
  intros Hs Hl H item Hi. destruct (H item Hi) as (encrypted & token & items & H1 & H2 & H3 & H4).
  exists encrypted, token, items. auto.
Qed.

Lemma fresh_mono w w' a n n' acc : grows w w' -> (n' <= n)%Z -> fresh w a n acc -> fresh w' a n' acc.
Proof.
  intros G Hn. apply backed_mono.
  - intros x (m & H1 & H2). exists m. split; [by apply (gw_log _ _ G)|lia].
  - intros t i x (m & H1 & H2). exists m. split; [by apply (gw_log _ _ G)|lia].
Qed.

Lemma revisions_grow_refl w : grows w w.
Proof. split; [done|done|]. intros call a e st H. by exists st. Qed.

Lemma holds_mono w w' f : grows w w' -> holds w f -> holds w' f.
Proof.
  intros G. destruct f as [a n|a n x|a n t i x|call a e|a n acc]; simpl.
  - pose proof (gw_revisions _ _ G a). lia.
  - intros (m & H1 & H2). exists m. split; [by apply (gw_log _ _ G)|done].
  - intros (m & H1 & H2). exists m. split; [by apply (gw_log _ _ G)|done].
  - intros (st & H). by eapply gw_calls.
  - by apply fresh_mono.
Qed.

Lemma revision_insert m a n b : revision (<[a := n]> m) b = if (b =? a)%Z then n else revision m b.
Proof.
  unfold revision. destruct (b =? a)%Z eqn:E.
  - apply Z.eqb_eq in E as ->. by rewrite lookup_insert_eq.
  - rewrite lookup_insert_ne by lia. done.
Qed.

Lemma epoch_insert c m a n b : userRepositoryAccessEpochForRefresh b (MkCache m (<[a := n]> (userRepositoryAccessEpoch c)))
  = if (b =? a)%Z then n else userRepositoryAccessEpochForRefresh b c.
Proof.
  unfold userRepositoryAccessEpochForRefresh. cbn [userRepositoryAccessEpoch]. destruct (b =? a)%Z eqn:E.
  - apply Z.eqb_eq in E as ->. by rewrite lookup_insert_eq.
  - rewrite lookup_insert_ne by lia. done.
Qed.

(** The ways a world changes. *)
Lemma grows_log w o : grows w (observed o w).
Proof. split; [done| |]; [intros; cbn; apply elem_of_app; by left|]. intros call a e st H. by exists st. Qed.

Lemma grows_same w w' : w_revisions w' = w_revisions w -> w_log w' = w_log w -> w_calls w' = w_calls w -> grows w w'.
Proof. intros E1 E2 E3. split; rewrite ?E1, ?E2, ?E3; [done|done|]. intros call a e st H. by exists st. Qed.

Lemma grows_call w call a e st' : (forall c, w_calls w !! call = Some c -> exists st, c = (a, e, st)) ->
  grows w (w <| w_calls := <[call := (a, e, st')]> (w_calls w) |>).
Proof.
  intros H. split; [done|done|]. intros call' a' e' st E. cbn [w_calls field_update].
  destruct (decide (call' = call)) as [->|N].
  - destruct (H _ E) as (st'' & [= -> -> ->]). rewrite lookup_insert_eq. by eexists.
  - rewrite lookup_insert_ne by done. by eexists.
Qed.

Lemma grows_invalidated w a : grows w (invalidated a w).
Proof.
  split; [|done|by intros ? ? ? st H; exists st]. intros b. cbn [invalidated w_revisions field_update].
  rewrite revision_insert. destruct (b =? a)%Z eqn:E; [|lia]. apply Z.eqb_eq in E as ->. lia.
Qed.

Lemma answers_grow R (e : aevent R) w r w' : event_answers e w r w' -> grows w w'.
Proof.
  destruct e; cbn [event_answers]; intros H.
  - destruct H as [_ ->]. apply revisions_grow_refl.
  - destruct H as [_ ->]. apply revisions_grow_refl.
  - destruct (cachedUserRepositoryAccessForRequest _ _ _) as [c hit]. destruct H as [_ ->]. by apply grows_same.
  - destruct H as [_ ->]. apply revisions_grow_refl.
  - destruct H as [_ ->]. apply revisions_grow_refl.
  - destruct H as (victim & _ & H). destruct (cacheUserRepositoryAccessIfCurrent _ _ _ _ _ _) as [c [|]]; destruct H as [_ ->];
      [|apply revisions_grow_refl]. split; [done| |]; [intros; cbn; apply elem_of_app; by left|]. intros ? ? ? st E. by exists st.
  - subst w'. by apply grows_same.
  - destruct H as [_ ->]. apply grows_invalidated.
  - destruct (userRepositoryAccessEpochMatches _ _ _); [destruct H as [_ ->]; apply grows_invalidated|subst; apply revisions_grow_refl].
  - destruct H as [[H ->]|(st & _ & ->)]; [|apply revisions_grow_refl]. apply grows_call. intros c. by rewrite H.
  - destruct r as [[call a] e]. destruct H as [H ->]. apply grows_call. intros c E. rewrite E in H. injection H as ->. by eexists.
  - destruct H as (a & e & H & ->). apply grows_call. intros c E. rewrite E in H. injection H as ->. by eexists.
  - destruct H as [-> _]. apply revisions_grow_refl.
  - subst. apply revisions_grow_refl.
  - destruct r; subst; [apply grows_log|apply revisions_grow_refl].
  - destruct r; subst; [apply grows_log|apply revisions_grow_refl].
  - subst. by apply grows_same.
Qed.

(** ** What an event teaches *)

Lemma elem_of_reached a k n : n ∈ reached a k <-> Reached a n ∈ k.
Proof.
  unfold reached. rewrite list_elem_of_omap. split.
  - intros (f & Hf & E). destruct f; try discriminate E. destruct (a0 =? a)%Z eqn:Ea; [|discriminate E].
    injection E as ->. apply Z.eqb_eq in Ea as ->. done.
  - intros H. exists (Reached a n). split; [done|]. by rewrite Z.eqb_refl.
Qed.

Lemma elem_of_calls_known call k a e : (a, e) ∈ calls_known call k <-> CallOf call a e ∈ k.
Proof.
  unfold calls_known. rewrite list_elem_of_omap. split.
  - intros (f & Hf & E). destruct f; try discriminate E. destruct (Nat.eqb call0 call) eqn:Ea; [|discriminate E].
    injection E as -> ->. apply Nat.eqb_eq in Ea as ->. done.
  - intros H. exists (CallOf call a e). split; [done|]. by rewrite Nat.eqb_refl.
Qed.

Lemma supported_fresh w k a n acc : (forall f, f ∈ k -> holds w f) -> supported k a n acc -> fresh w a n acc.
Proof. intros Hk. apply backed_mono; intros; by apply (Hk _ H). Qed.

Lemma expected_ok R (e : aevent R) w k r w' : world_ok w -> (forall f, f ∈ k -> holds w f) ->
  event_answers e w r w' -> event_expected e k r.
Proof.
  intros Hw Hk. destruct e; cbn [event_answers event_expected]; try done.
  - intros [-> _] m Hm. exact (Hk _ Hm).
  - intros [-> _] m Hm. rewrite (proj2 (wo_epochs _ Hw accountID)). exact (Hk _ Hm).
  - intros [-> _] Hr m Hm. unfold userRepositoryAccessEpochMatches in Hr. apply Z.eqb_eq in Hr.
    rewrite (proj2 (wo_epochs _ Hw accountID)) in Hr. pose proof (Hk _ Hm) as H. simpl in H. lia.
Qed.

Lemma lookup_hit now a c c' acc refresh : cachedUserRepositoryAccessForRequest now a c = (c', Some (acc, refresh)) ->
  exists cu, userRepositoryAccessCache c !! a = Some cu /\ cu_access cu = acc /\ (now < cu_expiresAt cu)%Z.
Proof.
  unfold cachedUserRepositoryAccessForRequest. destruct (userRepositoryAccessCache c !! a) as [cu|]; [|done].
  destruct (now <? cu_expiresAt cu)%Z eqn:E; [|done]. intros [= _ <- _]. exists cu. split; [done|]. split; [done|lia].
Qed.

Lemma news_hold R (e : aevent R) w k r w' f : world_ok w -> (forall f, f ∈ k -> holds w f) ->
  event_answers e w r w' -> f ∈ news e k r -> holds w' f.
Proof.
  intros Hw Hk Ha Hf. pose proof (answers_grow _ _ _ _ _ Ha) as G.
  destruct e; cbn [event_answers news] in Ha, Hf; try by apply elem_of_nil in Hf.
  - destruct Ha as [-> ->]. apply list_elem_of_singleton in Hf as ->. simpl. lia.
  - destruct (cachedUserRepositoryAccessForRequest _ _ _) as [c hit] eqn:E. destruct Ha as [-> ->].
    destruct hit as [[acc refresh]|]; [|by apply elem_of_nil in Hf].
    apply list_elem_of_fmap in Hf as (n & -> & Hn%elem_of_reached%Hk). simpl in Hn.
    apply lookup_hit in E as (cu & Hc & <- & _). destruct (wo_entries _ Hw _ _ Hc) as [Hfr _].
    simpl. by eapply fresh_mono.
  - destruct Ha as [-> ->]. apply list_elem_of_singleton in Hf as ->. simpl.
    by rewrite (proj2 (wo_epochs _ Hw accountID)).
  - destruct Ha as [-> ->]. destruct (userRepositoryAccessEpochMatches _ _ _) eqn:E; [by apply elem_of_nil in Hf|].
    case_bool_decide as H; [|by apply elem_of_nil in Hf]. apply list_elem_of_singleton in Hf as ->.
    apply elem_of_reached, Hk in H. simpl in *. unfold userRepositoryAccessEpochMatches in E. apply Z.eqb_neq in E.
    rewrite (proj2 (wo_epochs _ Hw accountID)) in E. lia.
  - apply list_elem_of_singleton in Hf as ->. simpl. destruct Ha as [[_ ->]|(st & H & ->)]; [|by exists st].
    cbn. rewrite lookup_insert_eq. by eexists.
  - destruct r as [[call a] e]. destruct Ha as [H ->]. destruct (wo_calls _ Hw _ _ H) as [He _].
    apply elem_of_cons in Hf as [->| ->%list_elem_of_singleton]; simpl; [|done].
    rewrite lookup_insert_eq. by eexists.
  - destruct Ha as [-> Ha]. destruct r as [err|[acc|err]]; [by apply elem_of_nil in Hf| |by apply elem_of_nil in Hf].
    apply list_elem_of_fmap in Hf as ([a e] & -> & (st & Hc)%elem_of_calls_known%Hk).
    destruct Ha as (a' & e' & Hf). rewrite Hc in Hf. injection Hf as -> -> ->. by destruct (wo_calls _ Hw _ _ Hc).
  - destruct r as [encrypted|]; [|by apply elem_of_nil in Hf]. subst w'.
    apply list_elem_of_fmap in Hf as (n & -> & Hn%elem_of_reached%Hk). simpl in *. eexists. split; [|exact Hn].
    cbn. apply elem_of_app. right. by apply list_elem_of_singleton.
  - destruct r as [items|]; [|by apply elem_of_nil in Hf]. subst w'.
    apply list_elem_of_omap in Hf as ([a n| | | |] & Hn%Hk & E); try discriminate E. injection E as <-. simpl in *.
    eexists. split; [cbn; apply elem_of_app; right; by apply list_elem_of_singleton|done].
Qed.

(** ** The invariant is kept *)

Lemma call_ok_mono w w' c : grows w w' -> call_ok w c -> call_ok w' c.
Proof.
  intros G. destruct c as [[a e] st]. simpl. intros [H1 H2]. pose proof (gw_revisions _ _ G a). split; [lia|].
  destruct st as [| |[acc|]]; try done. eapply fresh_mono; [done| |exact H2]. lia.
Qed.

Lemma reply_ok_mono w w' r : grows w w' -> reply_ok w r -> reply_ok w' r.
Proof.
  intros G. destruct r as [a [n acc|err|n]]; simpl; [apply fresh_mono; [done|lia]|done|].
  pose proof (gw_revisions _ _ G a). lia.
Qed.

Lemma entry_ok_mono w w' a cu : grows w w' -> (w_now w <= w_now w')%Z ->
  revision (w_revisions w') a = revision (w_revisions w) a -> entry_ok w a cu -> entry_ok w' a cu.
Proof.
  intros G Hn Hr (H1 & H2 & t & H3 & H4 & H5). unfold entry_ok. rewrite Hr. split; [eapply fresh_mono; [done| |exact H1]; lia|].
  split; [done|]. exists t. split; [lia|]. split; [done|]. by apply (gw_log _ _ G).
Qed.

(** A world that changed in its calls and replies only. *)
Lemma world_ok_intro w w' : world_ok w -> grows w w' -> (w_now w <= w_now w')%Z ->
  (forall a, (0 <= revision (w_revisions w') a < 2 ^ 64)%Z /\
     userRepositoryAccessEpochForRefresh a (w_cache w') = revision (w_revisions w') a) ->
  size (userRepositoryAccessCache (w_cache w')) <= maxUserRepositoryAccessCacheItems ->
  (forall a cu, userRepositoryAccessCache (w_cache w') !! a = Some cu -> entry_ok w' a cu) ->
  (forall call c, w_calls w' !! call = Some c -> w_calls w !! call = Some c \/ call_ok w' c) ->
  (forall r, r ∈ w_replies w' -> r ∈ w_replies w \/ reply_ok w' r) -> world_ok w'.
Proof.
  intros Hw G Hn He Hs Hc Hcalls Hreplies. split; [done|done|done| |].
  - intros call c [H|H]%Hcalls; [|done]. eapply call_ok_mono; [done|]. by eapply wo_calls.
  - intros r [H|H]%Hreplies; [|done]. eapply reply_ok_mono; [done|]. by eapply wo_replies.
Qed.

(** The cache is unchanged, up to what the log and the clock add. *)
Lemma world_ok_same w w' : world_ok w -> grows w w' -> (w_now w <= w_now w')%Z ->
  w_cache w' = w_cache w -> w_revisions w' = w_revisions w ->
  (forall call c, w_calls w' !! call = Some c -> w_calls w !! call = Some c \/ call_ok w' c) ->
  (forall r, r ∈ w_replies w' -> r ∈ w_replies w \/ reply_ok w' r) -> world_ok w'.
Proof.
  intros Hw G Hn Ec Er Hcalls Hreplies. apply (world_ok_intro w); rewrite ?Ec, ?Er; try done.
  - apply (wo_epochs _ Hw).
  - apply (wo_size _ Hw).
  - intros a cu H%(wo_entries _ Hw). eapply entry_ok_mono; [done|done|by rewrite Er|done].
Qed.

(** Entries are only dropped, or rescheduled before their expiry. *)
Lemma world_ok_cache w c : world_ok w -> userRepositoryAccessEpoch c = userRepositoryAccessEpoch (w_cache w) ->
  size (userRepositoryAccessCache c) <= maxUserRepositoryAccessCacheItems ->
  (forall a cu, userRepositoryAccessCache c !! a = Some cu -> exists cu0, userRepositoryAccessCache (w_cache w) !! a = Some cu0 /\
     cu_access cu = cu_access cu0 /\ cu_expiresAt cu = cu_expiresAt cu0 /\ (cu_refreshAfter cu <= cu_expiresAt cu)%Z) ->
  world_ok (w <| w_cache := c |>).
Proof.
  intros Hw Ee Hs Hc. assert (G : grows w (w <| w_cache := c |>)) by by apply grows_same.
  apply (world_ok_intro w); [done|done|cbn; lia| |done| |by left|by left].
  - intros a. pose proof (wo_epochs _ Hw a) as H. unfold userRepositoryAccessEpochForRefresh in *.
    cbn [w_cache w_revisions field_update] in *. by rewrite Ee.
  - intros a cu H. destruct (Hc a cu H) as (cu0 & H0 & E1 & E2 & E3).
    destruct (wo_entries _ Hw _ _ H0) as (H1 & H2 & t & H3 & H4 & H5). unfold entry_ok. rewrite E1, E2.
    split; [eapply fresh_mono; [exact G| |exact H1]; cbn; lia|]. split; [lia|]. by exists t.
Qed.

Lemma size_insert_existing {V} (m : gmap Z V) k v : is_Some (m !! k) -> size (<[k := v]> m) = size m.
Proof. apply map_size_insert_Some. Qed.

Lemma size_delete_le {V} (m : gmap Z V) k : size (delete k m) <= size m.
Proof. rewrite map_size_delete. destruct (m !! k); unfold id; lia. Qed.

(** An entry that is not the one rescheduled. *)
Lemma entry_kept w a cu : world_ok w -> userRepositoryAccessCache (w_cache w) !! a = Some cu ->
  exists cu0, userRepositoryAccessCache (w_cache w) !! a = Some cu0 /\
     cu_access cu = cu_access cu0 /\ cu_expiresAt cu = cu_expiresAt cu0 /\ (cu_refreshAfter cu <= cu_expiresAt cu)%Z.
Proof. intros Hw H. exists cu. repeat split; [done|]. by destruct (wo_entries _ Hw _ _ H) as (_ & ? & _). Qed.

(** An entry is replaced by a rescheduled one. *)
Lemma world_ok_reschedule w a cu cu' : world_ok w -> userRepositoryAccessCache (w_cache w) !! a = Some cu ->
  cu_access cu' = cu_access cu -> cu_expiresAt cu' = cu_expiresAt cu -> (cu_refreshAfter cu' <= cu_expiresAt cu')%Z ->
  world_ok (w <| w_cache := (w_cache w) <| userRepositoryAccessCache := <[a := cu']> (userRepositoryAccessCache (w_cache w)) |> |>).
Proof.
  intros Hw H E1 E2 E3. apply world_ok_cache; [done|done| |].
  - cbn. rewrite size_insert_existing by (by eexists). apply (wo_size _ Hw).
  - cbn. intros b x Hx. destruct (decide (b = a)) as [->|N].
    + rewrite lookup_insert_eq in Hx. injection Hx as <-. by exists cu.
    + rewrite lookup_insert_ne in Hx by done. by apply entry_kept.
Qed.

Lemma world_ok_refl w : world_ok w -> world_ok (w <| w_cache := w_cache w |>).
Proof. by destruct w. Qed.

Lemma world_ok_lookup w now a : world_ok w ->
  world_ok (w <| w_cache := (cachedUserRepositoryAccessForRequest now a (w_cache w)).1 |>).
Proof.
  intros Hw. unfold cachedUserRepositoryAccessForRequest.
  destruct (userRepositoryAccessCache (w_cache w) !! a) as [cu|] eqn:E; [|by apply world_ok_refl].
  destruct (now <? cu_expiresAt cu)%Z; cbn [negb fst].
  - destruct (_ && _); [|by apply world_ok_refl]. eapply world_ok_reschedule; [done|exact E|done|done|].
    by destruct (wo_entries _ Hw _ _ E) as (_ & ? & _).
  - apply world_ok_cache; [done|done| |].
    + pose proof (size_delete_le (userRepositoryAccessCache (w_cache w)) a). pose proof (wo_size _ Hw). cbn. lia.
    + cbn. intros b x [_ Hx]%lookup_delete_Some. by apply entry_kept.
Qed.

Lemma world_ok_finish w now a e : world_ok w ->
  world_ok (w <| w_cache := finishUserRepositoryAccessRefresh now a e (w_cache w) |>).
Proof.
  intros Hw. unfold finishUserRepositoryAccessRefresh. destruct (negb _); [by apply world_ok_refl|].
  destruct (userRepositoryAccessCache (w_cache w) !! a) as [cu|] eqn:E; [|by apply world_ok_refl].
  eapply world_ok_reschedule; [done|exact E|done|done|]. cbn [cu_refreshAfter cu_expiresAt field_update].
  destruct (cu_expiresAt cu <? now + userRepositoryAccessRefreshRetry)%Z eqn:El; lia.
Qed.

Lemma world_ok_invalidated w a : world_ok w -> (revision (w_revisions w) a + 1 < 2 ^ 64)%Z -> world_ok (invalidated a w).
Proof.
  intros Hw Hb. pose proof (grows_invalidated w a) as G.
  apply (world_ok_intro w); [done|done|cbn; lia| | | |by left|by left].
  - intros b. cbn [invalidated w_cache w_revisions field_update]. unfold invalidateUserRepositoryAccess.
    rewrite revision_insert, epoch_insert. destruct (wo_epochs _ Hw b) as [H1 H2]. destruct (wo_epochs _ Hw a) as [H3 H4].
    destruct (b =? a)%Z; [|done]. rewrite H4. unfold wrapu64. split; [lia|]. apply Z.mod_small. lia.
  - cbn. pose proof (size_delete_le (userRepositoryAccessCache (w_cache w)) a). pose proof (wo_size _ Hw). lia.
  - intros b cu H. cbn in H. apply lookup_delete_Some in H as [N H]. eapply entry_ok_mono; [done|cbn; lia| |by eapply wo_entries].
    cbn [invalidated w_revisions field_update]. rewrite revision_insert. destruct (b =? a)%Z eqn:E; [lia|done].
Qed.

Lemma evicted_size (m : gmap Z cachedUserRepositoryAccess) victim a v :
  size m <= maxUserRepositoryAccessCacheItems -> (is_Some (m !! victim) \/ m = ∅) ->
  size (<[a := v]> (if bool_decide (m !! a = None) && Nat.leb maxUserRepositoryAccessCacheItems (size m)
                    then evictOneUserRepositoryAccess victim m else m)) <= maxUserRepositoryAccessCacheItems.
Proof.
  intros Hs Hv. case_bool_decide as E; cbn [andb].
  - destruct (Nat.leb _ _) eqn:El.
    + apply Nat.leb_le in El. destruct Hv as [[x Hv]| ->]; [|unfold maxUserRepositoryAccessCacheItems in El; rewrite map_size_empty in El; lia].
      unfold evictOneUserRepositoryAccess. rewrite map_size_insert, map_size_delete, Hv.
      unfold maxUserRepositoryAccessCacheItems in *. destruct (delete victim m !! a); unfold id; lia.
    + apply Nat.leb_gt in El. rewrite map_size_insert_None by done. lia.
  - rewrite size_insert_existing; [done|]. destruct (m !! a); [by eexists|done].
Qed.

Lemma world_ok_stored w victim a e acc c : world_ok w -> fresh w a e acc ->
  (is_Some (userRepositoryAccessCache (w_cache w) !! victim) \/ userRepositoryAccessCache (w_cache w) = ∅) ->
  cacheUserRepositoryAccessIfCurrent victim (w_now w) a e acc (w_cache w) = (c, true) ->
  world_ok (observed (OStored a (w_now w) acc (revision (w_revisions w) a)) (w <| w_cache := c |>)).
Proof.
  intros Hw Hf Hv H. set (w' := observed _ _). assert (G : grows w w').
  { split; [done| |]; [intros; cbn; apply elem_of_app; by left|]. intros ? ? ? st E. by exists st. }
  unfold cacheUserRepositoryAccessIfCurrent in H. destruct (_ =? e)%Z eqn:Ee; [|done]. cbn [negb] in H. injection H as <-.
  apply Z.eqb_eq in Ee. rewrite (proj2 (wo_epochs _ Hw a)) in Ee.
  apply (world_ok_intro w); [done|done|cbn; lia| | | |by left|by left].
  - exact (wo_epochs _ Hw).
  - apply evicted_size; [apply (wo_size _ Hw)|done].
  - intros b cu Hc. cbn in Hc. destruct (decide (b = a)) as [->|N].
    + rewrite lookup_insert_eq in Hc. injection Hc as <-. unfold entry_ok. cbn [cu_access cu_refreshAfter cu_expiresAt].
      split; [rewrite <-Ee in Hf; eapply fresh_mono; [exact G|apply Z.le_refl|exact Hf]|].
      split; [unfold userRepositoryAccessRefreshAfter, userRepositoryAccessCacheTTL, Second, Millisecond; lia|].
      exists (w_now w). split; [cbn; lia|]. split; [done|]. cbn. apply elem_of_app. right. by apply list_elem_of_singleton.
    + rewrite lookup_insert_ne in Hc by done. eapply entry_ok_mono; [exact G|cbn; lia|done|]. apply (wo_entries _ Hw).
      unfold evictOneUserRepositoryAccess in Hc. destruct (_ && _); [by apply lookup_delete_Some in Hc as [_ Hc]|done].
Qed.

Lemma world_ok_call w call c : world_ok w -> grows w (w <| w_calls := <[call := c]> (w_calls w) |>) ->
  call_ok w c -> world_ok (w <| w_calls := <[call := c]> (w_calls w) |>).
Proof.
  intros Hw G Hc. apply (world_ok_same w); [done|done|cbn; lia|done|done| |by left].
  intros call' c' H. cbn in H. destruct (decide (call' = call)) as [->|N].
  - rewrite lookup_insert_eq in H. injection H as <-. right. by eapply call_ok_mono.
  - rewrite lookup_insert_ne in H by done. by left.
Qed.

Lemma world_ok_event R (e : aevent R) w k r w' : world_ok w -> (forall f, f ∈ k -> holds w f) ->
  event_permitted e k -> event_answers e w r w' -> world_ok w'.
Proof.
  intros Hw Hk Hp Ha. pose proof (answers_grow _ _ _ _ _ Ha) as G.
  assert (Hlog : forall o, world_ok (observed o w)).
  { intros o. apply (world_ok_same w); [done|apply grows_log|cbn; lia|done|done|by left|by left]. }
  destruct e; cbn [event_answers event_permitted] in Ha, Hp.
  - by destruct Ha as [_ ->].
  - by destruct Ha as [_ ->].
  - pose proof (world_ok_lookup w now accountID Hw) as H.
    destruct (cachedUserRepositoryAccessForRequest _ _ _) as [c hit]. by destruct Ha as [_ ->].
  - by destruct Ha as [_ ->].
  - by destruct Ha as [_ ->].
  - destruct Ha as (victim & Hv & Ha). destruct (cacheUserRepositoryAccessIfCurrent _ _ _ _ _ _) as [c [|]] eqn:E;
      destruct Ha as [_ ->]; [|done]. eapply world_ok_stored; [done|by eapply supported_fresh|exact Hv|exact E].
  - subst w'. by apply world_ok_finish.
  - destruct Ha as [Hb ->]. by apply world_ok_invalidated.
  - destruct (userRepositoryAccessEpochMatches _ _ _); [|by subst]. destruct Ha as [Hb ->]. by apply world_ok_invalidated.
  - destruct Ha as [[_ ->]|(st & _ & ->)]; [|done]. apply world_ok_call; [done|done|]. split; [exact (Hk _ Hp)|done].
  - destruct r as [[call a] e]. destruct Ha as [Hc ->]. apply world_ok_call; [done|done|].
    by destruct (wo_calls _ Hw _ _ Hc).
  - destruct Ha as (a & e & Hc & ->). apply world_ok_call; [done|done|]. destruct (wo_calls _ Hw _ _ Hc) as [He _].
    split; [done|]. destruct r0 as [acc|]; [|done]. destruct Hp as (a' & e' & (st & Hk')%Hk & Hs).
    rewrite Hc in Hk'. injection Hk' as <- <- _. by eapply supported_fresh.
  - by destruct Ha as [-> _].
  - by subst.
  - destruct r as [x|]; subst w'; [apply Hlog|done].
  - destruct r as [x|]; subst w'; [apply Hlog|done].
  - subst w'. apply (world_ok_same w); [done|done|cbn; lia|done|done|by left|].
    cbn. intros x [Hx| ->%list_elem_of_singleton]%elem_of_app; [by left|]. right. destruct o as [n acc|err|n]; simpl.
    + destruct Hp as (m & Hm & Hf%Hk). simpl in Hf. eapply fresh_mono; [exact G|exact Hm|exact Hf].
    + done.
    + destruct Hp as (m & Hm & Hf%Hk). simpl in Hf. cbn. lia.
Qed.

(** ** The protocol *)

Lemma consistent_mono w w' ks : world_ok w' -> grows w w' -> access_consistent w ks -> access_consistent w' ks.
Proof. intros Hw G [_ H]. split; [done|]. intros i k f Hk Hf. eapply holds_mono; [done|by eapply H]. Qed.

Lemma time_ok w w' : world_ok w -> time_passes w w' -> world_ok w' /\ grows w w'.
Proof.
  intros Hw (t & Ht & ->). assert (G : grows w (w <| w_now := t |>)) by by apply grows_same.
  split; [|done]. apply (world_ok_same w); try done; by left.
Qed.

#[global] Instance access_protocol : Protocol aevent world knowledge.
Proof.
  refine {|
    answers := fun R e w r w' => event_answers e w r w';
    environment := fun _ => time_passes;
    permitted := fun R e k => event_permitted e k;
    expected := fun R e k r => event_expected e k r;
    learned := fun R e k r => news e k r ++ k;
    consistent := access_consistent;
    ignorance := []
  |}.
  - intros w ks i [Hw H] Hi. split; [done|]. intros j k f. destruct (decide (j = i)) as [->|N].
    + rewrite lookup_insert_eq. intros [= <-] ?%elem_of_nil. done.
    + rewrite lookup_insert_ne by done. intros Hj. exact (H _ _ _ Hj).
  - intros w ks i [Hw H]. split; [done|]. intros j k f [_ Hj]%lookup_delete_Some. exact (H _ _ _ Hj).
  - intros w w' ks Hc He. destruct (time_ok w w' (proj1 Hc) He) as [Hw' G]. by eapply consistent_mono.
  - intros R e w ks i k r w' [Hw H] Hk Hp Ha. pose proof (fun f => H i k f Hk) as Hf. split; [by eapply expected_ok|].
    split; [by eapply world_ok_event|]. pose proof (answers_grow _ _ _ _ _ Ha) as G.
    intros j k' f. destruct (decide (j = i)) as [->|N].
    + rewrite lookup_insert_eq. intros [= <-] [Hn|Hn]%elem_of_app; [by eapply news_hold|]. eapply holds_mono; [done|by apply Hf].
    + rewrite lookup_insert_ne by done. intros Hj Hin. eapply holds_mono; [done|exact (H _ _ _ Hj Hin)].
Defined.

(** ** The programs follow the protocol *)

Definition extends (k k' : knowledge) : Prop := forall f, f ∈ k -> f ∈ k'.

Lemma wp_aevent {R A} (e : aevent R) (f : R -> aprog A) (Q : A -> knowledge -> Prop) k :
  event_permitted e k -> (forall r, event_expected e k r -> wp (f r) Q (news e k r ++ k)) -> wp (tbind (perform e) f) Q k.
Proof. intros H1 H2. split; [exact H1|exact H2]. Qed.

Lemma wp_last {R} (e : aevent R) (Q : R -> knowledge -> Prop) k :
  event_permitted e k -> (forall r, event_expected e k r -> Q r (news e k r ++ k)) -> wp (perform e) Q k.
Proof. intros H1 H2. split; [exact H1|exact H2]. Qed.

Ltac known := apply elem_of_app; right; assumption.

Lemma supported_mono k k' a n acc : extends k k' -> supported k a n acc -> supported k' a n acc.
Proof. intros E. apply backed_mono; intros; by apply E. Qed.

Lemma extends_app (l k : knowledge) : extends k (l ++ k).
Proof. intros f Hf. apply elem_of_app. by right. Qed.

Lemma extends_trans (k1 k2 k3 : knowledge) : extends k1 k2 -> extends k2 k3 -> extends k1 k3.
Proof. intros H1 H2 f Hf. by apply H2, H1. Qed.

Lemma elem_of_distinctRepositories seen items r : r ∈ distinctRepositories seen items -> exists x, x ∈ items /\ r = TrimSpace x.
Proof.
  revert seen. induction items as [|x l IH]; intros seen; simpl; [by intros ?%elem_of_nil|].
  destruct (_ || _); [intros (y & Hy & ->)%IH; exists y; split; [by right|done]|].
  intros [->|(y & Hy & ->)%IH]%elem_of_cons; [exists x; split; [left|done]|exists y; split; [by right|done]].
Qed.

Lemma wp_loadInstallations a e encrypted token l acc k : Reached a e ∈ k -> SecretRead a e encrypted ∈ k ->
  token_of decryptSecret encrypted = Some token -> supported k a e acc ->
  wp (loadInstallations token l acc) (fun r k' => extends k k' /\ forall acc', r = Ok acc' -> supported k' a e acc') k.
Proof.
  revert acc k. induction l as [|i l IH]; intros acc k Hr Hs Ht Hacc; simpl loadInstallations.
  { split; [by intros f|]. by intros acc' [= <-]. }
  apply wp_aevent; [exact I|]. intros r _. set (k1 := news _ k r ++ k).
  assert (Hk1 : extends k k1) by apply extends_app.
  assert (Hrec : forall acc', supported k1 a e acc' ->
    wp (loadInstallations token l acc') (fun r k' => extends k k' /\ forall acc', r = Ok acc' -> supported k' a e acc') k1).
  { intros acc' Hacc'. eapply wp_conseq; [|apply IH; [by apply Hk1|by apply Hk1|done|done]].
    intros x k' [H1 H2]. split; [by eapply extends_trans|done]. }
  destruct r as [items|err]; [|destruct (installationHidden err); [apply Hrec; by eapply supported_mono|]].
  - apply Hrec. destruct (distinctRepositories [] items) as [|d ds] eqn:Ed; [by eapply supported_mono|].
    intros item [Hi| ->%list_elem_of_singleton]%elem_of_app; [by apply (supported_mono k k1 a e acc Hk1 Hacc item Hi)|].
    exists encrypted, token, items. split; [by apply Hk1|]. split; [done|]. split.
    + cbn [acc_InstallationID]. unfold k1. apply elem_of_app. left. apply list_elem_of_omap. by exists (Reached a e).
    + cbn [acc_Repositories]. rewrite <-Ed. intros x Hx. by eapply elem_of_distinctRepositories.
  - split; [done|]. by intros acc' [=].
Qed.

Lemma wp_token a e k : Reached a e ∈ k ->
  wp (githubUserAccessToken decryptSecret a) (fun r k' => extends k k' /\
    forall token, r = Ok token -> exists encrypted, SecretRead a e encrypted ∈ k' /\ token_of decryptSecret encrypted = Some token) k.
Proof.
  intros Hr. apply wp_aevent; [exact I|]. intros r _. set (k1 := news _ k r ++ k).
  assert (Hk1 : extends k k1) by apply extends_app.
  destruct r as [encrypted|err]; [|split; [done|by intros token [=]]].
  destruct (token_of decryptSecret encrypted) as [token|] eqn:E; (split; [done|]); [|by intros x [=]].
  intros x [= <-]. exists encrypted. split; [|done]. apply elem_of_app. left. apply list_elem_of_fmap. exists e.
  split; [done|]. by apply elem_of_reached.
Qed.

Lemma wp_load a e k : Reached a e ∈ k ->
  wp (loadUserRepositoryAccess decryptSecret configured a)
    (fun r k' => extends k k' /\ forall acc, r = Ok acc -> supported k' a e acc) k.
Proof.
  intros Hr. apply wp_aevent; [exact I|]. intros r _. cbn [news app].
  destruct r as [[|i l]|err]; [|destruct configured; cbn [negb]|].
  - split; [by intros f|]. intros acc [= <-] item ?%elem_of_nil. done.
  - eapply wp_seq; [by apply wp_token|]. intros t k1 [Hk1 Ht]. destruct t as [token|err].
    + destruct (Ht token eq_refl) as (encrypted & H1 & H2).
      eapply wp_conseq; [|apply (wp_loadInstallations a e encrypted); [by apply Hk1|done|done|by intros item ?%elem_of_nil]].
      intros x k' [H3 H4]. split; [by eapply extends_trans|done].
    + split; [done|]. by intros acc [=].
  - split; [by intros f|]. by intros acc [=].
  - split; [by intros f|]. by intros acc [=].
Qed.

Lemma wp_call_body : wp (call_body decryptSecret configured) (fun _ _ => True) [].
Proof.
  apply wp_aevent; [exact I|]. intros [[call a] e] _. cbn [news app].
  eapply wp_seq; [apply (wp_load a e); right; left|]. intros r k1 [Hk1 Hr].
  destruct r as [acc|err].
  - apply wp_aevent; [by apply Hr|]. intros stored _. cbn [news app]. apply wp_last; [|done].
    exists a, e. split; [apply Hk1; left|by apply Hr].
  - destruct (isRejectedGitHubUserAccess err); (apply wp_aevent; [exact I|]; intros u _; by apply wp_last).
Qed.

(** The loop: the access it returns is backed by revision [m], at least the one at its
    delivery; each lost round has seen another invalidation. *)
Definition known (a n : Z) (k : knowledge) : Prop := exists m, (n <= m)%Z /\ Reached a m ∈ k.

Lemma wp_refresh n0 a rounds k :
  wp (refreshUserRepositoryAccess rounds a)
    (fun r k' => match r with
       | None => known a n0 k -> known a (n0 + Z.of_nat rounds) k'
       | Some (Ok (n, acc)) => exists m, (n <= m)%Z /\ Fresh a m acc ∈ k'
       | Some (Err _) => True
       end) k.
Proof.
  revert n0 k. induction rounds as [|rounds IH]; intros n0 k; cbn [refreshUserRepositoryAccess].
  { intros (m & Hm & Hr). exists m. split; [lia|done]. }
  apply wp_aevent; [exact I|]. intros e He. cbn [news app].
  apply wp_aevent; [left|]. intros call _. cbn [news app]. apply wp_aevent; [exact I|]. intros res _.
  destruct res as [err|[acc|err]]; [done| |done].
  set (k1 := news (AAwait call) _ (inr (Ok acc)) ++ _).
  assert (Hf : Fresh a e acc ∈ k1).
  { apply elem_of_app. left. apply list_elem_of_fmap. exists (a, e). split; [done|].
    apply elem_of_calls_known. left. }
  assert (He1 : Reached a e ∈ k1) by (apply elem_of_app; right; right; left).
  apply wp_aevent; [exact I|]. intros n _. cbn [news app]. apply wp_aevent; [exact I|]. intros current Hc.
  destruct current.
  - exists e. split; [apply (Hc eq_refl); left|]. cbn [news app]. right. exact Hf.
  - eapply wp_conseq; [|apply (IH (n0 + 1)%Z)].
    intros [[[n' acc']|err]|] k'; [done|done|]. intros Hx (m & Hm & Hr).
    destruct Hx as (m' & H1 & H2); [|exists m'; split; [lia|done]].
    exists (e + 1)%Z. split; [specialize (He m Hr); lia|]. cbn [news].
    rewrite bool_decide_true by (apply elem_of_reached; right; exact He1). left.
Qed.

Lemma wp_request a : wp (request fuel a) (fun _ _ => True) [].
Proof.
  unfold request. eapply (wp_seq _ _ (fun o k => event_permitted (AReply a o) k)); [|intros o k H; by apply wp_last].
  apply wp_aevent; [exact I|]. intros n _. cbn [news app]. apply wp_aevent; [exact I|]. intros now _. cbn [news app].
  apply wp_aevent; [exact I|]. intros hit _. destruct hit as [[acc refresh]|].
  - exists n. split; [lia|]. apply elem_of_app. left. apply list_elem_of_fmap. exists n. split; [done|].
    apply elem_of_reached. left.
  - cbn [news app]. eapply wp_seq; [apply (wp_refresh n)|].
    intros [[[n' acc]|err]|] k' H; [exact H|exact I|]. apply H. exists n. split; [lia|left].
Qed.

Lemma access_entry_ok p : access_entry decryptSecret configured fuel p -> wp p (fun _ _ => True) [].
Proof.
  intros []; [apply wp_request| |apply wp_call_body|by apply wp_last].
  eapply wp_seq; [apply (wp_refresh 0)|]. intros. exact I.
Qed.

(** ** Every interleaving *)

Definition access_world0 : world := MkWorld (MkCache ∅ ∅) 0 ∅ ∅ [] [].

Definition access_system0 : @system aevent world knowledge := MkSystem access_world0 ∅.

Definition access_reachable (w : world) : Prop :=
  exists ts, rtc (step (access_entry decryptSecret configured fuel)) access_system0 (MkSystem w ts).

Lemma world_ok0 : world_ok access_world0.
Proof.
  split; [|apply Nat.le_0_l|done|done|by intros r ?%elem_of_nil].
  intros a. unfold userRepositoryAccessEpochForRefresh, revision. cbn. rewrite lookup_empty. cbn. lia.
Qed.

Lemma access_reachable_ok w : access_reachable w -> world_ok w.
Proof.
  intros (ts & H). eapply (protocol_sound (access_entry decryptSecret configured fuel)) in H.
  - by destruct H as [[H _] _].
  - intros p Hp. by apply access_entry_ok.
  - split; [split; [apply world_ok0|]|]; intros i k; cbn; [by rewrite fmap_empty, lookup_empty|].
    intros p. by rewrite lookup_empty.
Qed.

(** C8: Revocation is final, in every interleaving of requests, loads, background refreshes and
    invalidations (sign-ins and changes of the installations): an access that a request is
    answered with grants a repository only if GitHub listed it for a token that was read
    from the account's stored secret, and both the secret and the listing were read after
    every invalidation of the account that came before the request found or received the
    access.  An answer computed before an invalidation is never given after it. *)
Theorem revoked_access_never_served w a n acc installation repository :
  access_reachable w -> (a, Served n acc) ∈ w_replies w -> hasRepositoryAccess acc installation repository = true ->
  exists encrypted token items x m revisions,
    OSecret a encrypted m ∈ w_log w /\ (n <= m)%Z /\ token_of decryptSecret encrypted = Some token /\
    OListing token installation items revisions ∈ w_log w /\ (n <= revision revisions a)%Z /\
    x ∈ items /\ EqualFold (TrimSpace x) (TrimSpace repository) = true.
Proof.
  intros Hw Hr Hacc. apply access_reachable_ok in Hw. pose proof (wo_replies _ Hw _ Hr) as Hf. simpl in Hf.
  unfold hasRepositoryAccess in Hacc. apply existsb_exists in Hacc as (item & Hi & Hx). apply list_elem_of_In in Hi.
  apply andb_true_iff in Hx as [Hinst Hx]. apply Z.eqb_eq in Hinst.
  apply existsb_exists in Hx as (c & Hc & Hx). apply list_elem_of_In in Hc.
  destruct (Hf item Hi) as (encrypted & token & items & (m & H1 & H2) & H3 & (revisions & H4 & H5) & H6).
  destruct (H6 c Hc) as (x & Hin & ->). rewrite TrimSpace_idem in Hx. subst installation.
  by exists encrypted, token, items, x, m, revisions.
Qed.

(** C23: The cache is bounded and never stale: it holds at most 512 accounts, and a lookup that
    hits serves exactly what was stored for the account less than thirty seconds before
    the clock reading of the request, with no invalidation of the account since. *)
Theorem cached_access_current w now a c acc refresh :
  access_reachable w ->
  size (userRepositoryAccessCache (w_cache w)) <= 512 /\
  (cachedUserRepositoryAccessForRequest now a (w_cache w) = (c, Some (acc, refresh)) ->
   exists t, OStored a t acc (revision (w_revisions w) a) ∈ w_log w /\ (t <= w_now w)%Z /\ (now < t + 30 * Second)%Z).
Proof.
  intros Hw%access_reachable_ok. split; [apply (wo_size _ Hw)|]. intros (cu & Hc & <- & Hx)%lookup_hit.
  destruct (wo_entries _ Hw _ _ Hc) as (_ & _ & t & H1 & H2 & H3). exists t. split; [done|]. split; [done|].
  unfold userRepositoryAccessCacheTTL in H2. lia.
Qed.

(** C24: The refresh loop ends: a request that went [fuel] times around it without an answer saw
    at least [fuel] invalidations of its account since it came, so without further
    invalidations it is answered. *)
Theorem refresh_loop_ends w a n :
  access_reachable w -> (a, Looping n) ∈ w_replies w -> (n + Z.of_nat fuel <= revision (w_revisions w) a)%Z.
Proof. intros Hw%access_reachable_ok Hr. exact (wo_replies _ Hw _ Hr). Qed.
End protocol.

(** ** Witnesses: two runs *)

Definition ex_decrypt (s : string) : option string := Some s.
Definition ex_installation : GitHubInstallation := MkGitHubInstallation 1 7 42 9 "user" "alice" "" "" [] 0 0.

(** One event of thread [i] with the answer [r]. *)
Ltac advance i ans :=
  eapply rtc_l; [eapply (step_event _ _ _ i) with (r := ans); [reflexivity|cbn; repeat first [split|reflexivity|exists 0%Z|right]; try reflexivity]|].

Ltac start i p := eapply rtc_l; [apply (step_spawn _ _ _ i p); [reflexivity|constructor]|].

Definition ex_served : list GitHubInstallationRepositoryAccess := [MkAccess 42 ["alice/app"]].

Lemma ex_served_run : exists w, access_reachable ex_decrypt true 1 w /\ (7%Z, Served 0 ex_served) ∈ w_replies w.
Proof.
  eexists. split.
  - eexists. unfold access_system0, access_world0.
    start 0 (request 1 7). advance 0 0%Z. advance 0 0%Z. advance 0 (@None (access * bool)). advance 0 0%Z.
    eapply rtc_l; [eapply (step_event _ _ _ 0) with (r := 5); [reflexivity|cbn; left; split; reflexivity]|].
    start 1 (call_body ex_decrypt true). advance 1 (5, 7%Z, 0%Z).
    advance 1 (Ok [ex_installation]). advance 1 (Ok "token"). advance 1 (Ok [" alice/app"]). advance 1 true.
    eapply rtc_l; [eapply (step_event _ _ _ 1) with (r := tt); [reflexivity|cbn; eexists _, _; split; reflexivity]|].
    eapply rtc_l; [eapply (step_event _ _ _ 0) with (r := inr (Ok ex_served)); [reflexivity|cbn; split; [reflexivity|eexists _, _; reflexivity]]|].
    advance 0 0%Z. advance 0 true. advance 0 tt. apply rtc_refl.
  - cbn. left.
Qed.

Lemma revoked_access_never_served_witness :
  exists w, access_reachable ex_decrypt true 1 w /\ exists token items revisions,
    OListing token 42 items revisions ∈ w_log w /\ (0 <= revision revisions 7)%Z.
Proof.
  destruct ex_served_run as (w & Hw & Hr). exists w. split; [exact Hw|].
  destruct (revoked_access_never_served ex_decrypt true 1 w 7 0 ex_served 42 "Alice/App" Hw Hr eq_refl)
    as (encrypted & token & items & x & m & revisions & _ & _ & _ & H1 & H2 & _).
  exists token, items, revisions. split; [exact H1|exact H2].
Defined.

Lemma cached_access_current_witness :
  exists w, access_reachable ex_decrypt true 1 w /\ size (userRepositoryAccessCache (w_cache w)) <= 512.
Proof.
  destruct ex_served_run as (w & Hw & _). exists w. split; [exact Hw|].
  exact (proj1 (cached_access_current ex_decrypt true 1 w 0 7 (w_cache w) [] false Hw)).
Defined.

(** A request whose load is overtaken by an invalidation. *)
Lemma ex_looping_run : exists w, access_reachable ex_decrypt true 1 w /\ (7%Z, Looping 0) ∈ w_replies w.
Proof.
  eexists. split.
  - eexists. unfold access_system0, access_world0.
    start 0 (request 1 7). advance 0 0%Z. advance 0 0%Z. advance 0 (@None (access * bool)). advance 0 0%Z.
    eapply rtc_l; [eapply (step_event _ _ _ 0) with (r := 5); [reflexivity|cbn; left; split; reflexivity]|].
    start 1 (call_body ex_decrypt true). advance 1 (5, 7%Z, 0%Z). advance 1 (@Ok (list GitHubInstallation) []). advance 1 true.
    eapply rtc_l; [eapply (step_event _ _ _ 1) with (r := tt); [reflexivity|cbn; eexists _, _; split; reflexivity]|].
    start 2 (perform (AInvalidate 7)). advance 2 tt.
    eapply rtc_l; [eapply (step_event _ _ _ 0) with (r := inr (Ok [])); [reflexivity|cbn; split; [reflexivity|eexists _, _; reflexivity]]|].
    advance 0 1%Z. advance 0 false. advance 0 tt. apply rtc_refl.
  - cbn. left.
Qed.

Lemma refresh_loop_ends_witness : exists w, access_reachable ex_decrypt true 1 w /\ (1 <= revision (w_revisions w) 7)%Z.
Proof.
  destruct ex_looping_run as (w & Hw & Hr). exists w. split; [exact Hw|].
  exact (refresh_loop_ends ex_decrypt true 1 w 7 0 Hw Hr).
Defined.
