(* ===== verification/UserHandlers.v ===== *)
(** * The handlers of signed-in users (internal/server/server_user_handlers.go)

    Installations, runner lists, and the settings of the sandbox and cache services.  A
    handler is a tree of events that ends in a reply.  Every handler that changes the
    settings of a scope first finds that the viewer manages it: the viewer's own
    account, a personal installation of the viewer, or an organization GitHub says the
    viewer owns.  The parameters of the server are in [server]. *)

From stdpp Require Import base gmap list strings.
From S2P Require Import Prelude GoStrings Rows RunnerModel RunnerStore RunnerQueries AccountModel AccountStore Sponsorship Catalog Program ServerCalls.
From S2P Require Import ServiceSelection CacheScopes Sessions RepoAccess.
From Stdlib Require Import Ascii.

(** ** Inputs *)

Record upsertGitHubInstallationRequest := MkInstallationInput { ii_InstallationID : Z; ii_SetupState : string }.

Record upsertCacheConfigRequest := MkCacheConfigInput {
  ci_InputBucket : string;
  ci_InputPrefix : string;
  ci_InputAccessKeyID : string;
  ci_InputSecretAccessKey : string
}.

Record upsertSandboxConfigRequest := MkSandboxConfigInput {
  si_APIURL : string;
  si_APIKey : string;
  si_Mode : string;
  si_ReplaceInheritedSource : bool
}.

(** The values of an audit payload. *)
Inductive json_value :=
| JString (s : string)
| JBool (b : bool)
| JInt (n : Z)
| JStrings (l : list string)
| JTime (t : Time).

(** What the handlers use from elsewhere: the clients and keys of the server and the
    libraries that encode; [labelHash] is the digest of canonical labels, [parseTime] is
    [time.Parse] of RFC 3339 times. *)
Record server (Service : Type) := MkServer {
  srv_sessions : session_codec;
  srv_urls : url_codec;
  srv_auth : auth_config;
  srv_regions : list SandboxRegionConfig;
  srv_github : bool;
  encryptSecret : string -> result string;
  decryptSecret : string -> result string;
  newE2BService : string -> string -> result Service;
  decodeService : string -> result accountSandboxServicePreferenceValue;
  encodeService : accountSandboxServicePreferenceValue -> result string;
  decodeCache : string -> result accountCacheServicePreferenceValue;
  encodeCache : accountCacheServicePreferenceValue -> result string;
  marshalPayload : list (string * json_value) -> string;
  pageURL : http_request -> Z -> Z -> string;
  labelHash : list string -> string;
  parseTime : string -> option Time
}.
Arguments srv_sessions {Service}.
Arguments srv_urls {Service}.
Arguments srv_auth {Service}.
Arguments srv_regions {Service}.
Arguments srv_github {Service}.
Arguments encryptSecret {Service}.
Arguments decryptSecret {Service}.
Arguments newE2BService {Service}.
Arguments decodeService {Service}.
Arguments encodeService {Service}.
Arguments decodeCache {Service}.
Arguments encodeCache {Service}.
Arguments marshalPayload {Service}.
Arguments pageURL {Service}.
Arguments labelHash {Service}.
Arguments parseTime {Service}.

(** A sub-program whose refusal is the refusal of the whole. *)
Notation "'let*+' x := p 'in' q" := (tbind p (fun r => match r with inl answer => Done (inl answer) | inr x => q end))
  (at level 10, x pattern, p at level 100, q at level 200) : runner_scope.

(** ** Responses *)

Record accountSandboxPreference := MkSandboxPreference {
  sbp_Mode : string;
  sbp_ResolvedSource : string;
  sbp_APIURL : string;
  sbp_KeyConfigured : bool;
  sbp_KeyUpdatedAt : option Time;
  sbp_Manageable : bool;
  sbp_Inherited : bool;
  sbp_SourceAccountID : Z;
  sbp_SourceAccountLogin : string;
  sbp_SourceIsCurrentAccount : bool;
  sbp_SourceAvailable : bool
}.

#[export] Instance rebuild_sbp : Rebuild accountSandboxPreference := fun r =>
  MkSandboxPreference (sbp_Mode r) (sbp_ResolvedSource r) (sbp_APIURL r) (sbp_KeyConfigured r) (sbp_KeyUpdatedAt r)
    (sbp_Manageable r) (sbp_Inherited r) (sbp_SourceAccountID r) (sbp_SourceAccountLogin r) (sbp_SourceIsCurrentAccount r)
    (sbp_SourceAvailable r).

Record accountCachePreference := MkCachePreference {
  cap_Configured : bool;
  cap_Region : string;
  cap_Bucket : string;
  cap_Prefix : string;
  cap_Endpoint : string;
  cap_UpdatedAt : option Time
}.

#[export] Instance rebuild_cap : Rebuild accountCachePreference := fun r =>
  MkCachePreference (cap_Configured r) (cap_Region r) (cap_Bucket r) (cap_Prefix r) (cap_Endpoint r) (cap_UpdatedAt r).

Record accountPreferencesResponse := MkPreferences { pr_Sandbox : accountSandboxPreference; pr_Cache : accountCachePreference }.

#[export] Instance rebuild_pr : Rebuild accountPreferencesResponse := fun r => MkPreferences (pr_Sandbox r) (pr_Cache r).

Definition no_preferences : accountPreferencesResponse :=
  MkPreferences (MkSandboxPreference "" "" "" false None false false 0 "" false false) (MkCachePreference false "" "" "" "" None).

(** ** Audit *)

Section audit.
Context {Service : Type} (s : server Service).

Definition auditEventFor (actor action resourceType resourceID : string) (payload : option (list (string * json_value)))
    : sprog AuditEvent :=
  let* now := perform SNow in
  Done (MkAuditEvent 0 actor action resourceType resourceID
          (match payload with Some payload => marshalPayload s payload | None => "" end) now).

Definition recordAudit (actor action resourceType resourceID : string) (payload : option (list (string * json_value))) : sprog unit :=
  let* event := auditEventFor actor action resourceType resourceID payload in perform (SAudit event).

Definition applyMutationWithAudit {A} (actor action resourceType resourceID : string) (payload : option (list (string * json_value)))
    (mutation : Time -> tables -> result (tables * A)) : sprog (result A) :=
  let* event := auditEventFor actor action resourceType resourceID payload in perform (SMutate event mutation).
End audit.

Definition actorOf (session : adminSession) : string := "github:" +:+ ses_Subject session.

Definition authorizationRefusal {A} (err : goerror) : reply A :=
  let '(status, code, retryAfter) := writeUserRepositoryAuthorizationError err in
  with_headers (match retryAfter with Some value => [("Retry-After", value)] | None => [] end) (writeErrorCode status code).

Section handlers.
Context {Service : Type} (s : server Service).

Abbreviation sandboxServiceForScopeWithDefault :=
  (sandboxServiceForScopeWithDefault (srv_github s) (decryptSecret s) (newE2BService s) (decodeService s)).
Abbreviation cacheS3SettingsForSandboxAPIURL := (cacheS3SettingsForSandboxAPIURL (srv_regions s)).
Abbreviation session r := (requireUserSession (srv_sessions s) r).

(** ** Tokens *)

Definition userToken (encrypted : string) : option string :=
  token_of (fun c => match decryptSecret s c with Ok p => Some p | Err _ => None end) encrypted.

Definition userAccessToken (accountID : Z) : sprog (result string) :=
  let* r := perform (qSecret (MkPreferenceScope AccountScopeTypeAccount accountID) AccountSecretTypeGitHubOAuthToken) in
  match r with
  | Err err => Done (Err (if errors_is err ErrNotFound then errGitHubUserAccessTokenRequired else err))
  | Ok secret =>
      match userToken (as_EncryptedValue secret) with
      | None => Done (Err errGitHubUserAccessTokenRequired)
      | Some token => Done (Ok token)
      end
  end.

(** ** Scopes *)

Definition githubInstallationForAccount (accountID id : Z) : sprog (result (option GitHubInstallation)) :=
  let*? installations := perform (qInstallations accountID) in
  Done (Ok (List.find (fun installation => (gi_ID installation =? id)%Z) installations)).

Definition accountPreferenceScopeFromRequest (accountID : Z) (r : http_request) : sprog (result accountPreferenceScope) :=
  let installationIDText := TrimSpace (http_query r "installation_id") in
  if bool_decide (installationIDText = "") then Done (Ok (MkPreferenceScope AccountScopeTypeAccount accountID)) else
  match ParseInt installationIDText with
  | None => Done (Err (ErrText "invalid installation_id"))
  | Some installationID =>
      if (installationID <=? 0)%Z then Done (Err (ErrText "invalid installation_id")) else
      let*? found := githubInstallationForAccount accountID installationID in
      match found with
      | None => Done (Err (ErrText "github installation not found"))
      | Some installation => Done (Ok (MkPreferenceScope AccountScopeTypeGitHubInstall (gi_InstallationID installation)))
      end
  end.

Definition githubOrganizationOwnerRole := "admin".

(** A user's installation: the identity of the viewer, by id when there is one. *)
Definition ownedByIdentity (identity : OAuthIdentity) (owner : GitHubInstallationAccount) : bool :=
  EqualFold (TrimSpace (ga_AccountType owner)) "user"
  && (if (0 <? ga_GitHubAccountID owner)%Z
      then bool_decide (TrimSpace (oi_OAuthSubject identity) = FormatInt (ga_GitHubAccountID owner))
      else EqualFold (TrimSpace (oi_OAuthLogin identity)) (TrimSpace (ga_AccountLogin owner))).

(** An organization's installation: a membership of the viewer as an owner. *)
Definition ownedByMemberships (memberships : list OrganizationMembership) (owner : GitHubInstallationAccount) : bool :=
  let owned := List.filter (fun membership => EqualFold (TrimSpace (mb_Role membership)) githubOrganizationOwnerRole) memberships in
  if (0 <? ga_GitHubAccountID owner)%Z then existsb (fun membership => (mb_OrganizationID membership =? ga_GitHubAccountID owner)%Z) owned
  else existsb (fun membership => bool_decide (ToLower (TrimSpace (mb_OrganizationLogin membership)) = ToLower (TrimSpace (ga_AccountLogin owner)))) owned.

Definition has_type (t : string) (owner : GitHubInstallationAccount) : bool := bool_decide (ToLower (TrimSpace (ga_AccountType owner)) = t).

Definition githubInstallationAccountsManageable (viewerAccountID : Z) (owners : list GitHubInstallationAccount) : sprog (result (list bool)) :=
  let*? manageable :=
    if existsb (has_type "user") owners then
      let*? identity := perform (qIdentity viewerAccountID "github") in Done (Ok (ownedByIdentity identity <$> owners))
    else Done (Ok ((fun _ => false) <$> owners)) in
  if negb (existsb (has_type "organization") owners) then Done (Ok manageable) else
  if negb (srv_github s) then Done (Err (ErrText "github client is not configured")) else
  let*? token := userAccessToken viewerAccountID in
  let*? memberships := perform (SMemberships token) in
  Done (Ok (zip_with (fun owner known => if EqualFold (TrimSpace (ga_AccountType owner)) "organization"
                                         then ownedByMemberships memberships owner else known) owners manageable)).

(** The owner of an installation as it is recorded, or as the viewer's link has it. *)
Definition recordedOwner (viewerAccountID installationID : Z) : sprog (result GitHubInstallationAccount) :=
  let* r := perform (qInstallationAccount installationID) in
  match r with
  | Ok owner => Done (Ok owner)
  | Err err =>
      if negb (errors_is err ErrNotFound) then Done (Err err) else
      let*? installations := perform (qInstallations viewerAccountID) in
      Done (Ok (match List.find (fun installation => (gi_InstallationID installation =? installationID)%Z) installations with
                | Some installation => MkGitHubInstallationAccount (gi_GitHubAccountID installation) (gi_AccountType installation)
                                         (gi_AccountLogin installation) "" ""
                | None => MkGitHubInstallationAccount 0 "" "" "" ""
                end))
  end.

Definition accountPreferenceScopeManageable (viewerAccountID : Z) (scope : accountPreferenceScope) : sprog (result bool) :=
  if bool_decide (scope_Type scope = AccountScopeTypeAccount) then Done (Ok (scope_ID scope =? viewerAccountID)%Z) else
  if negb (bool_decide (scope_Type scope = AccountScopeTypeGitHubInstall)) then Done (Ok false) else
  let*? owner := recordedOwner viewerAccountID (scope_ID scope) in
  let*? manageable := githubInstallationAccountsManageable viewerAccountID [owner] in
  Done (Ok (match manageable with b :: _ => b | [] => false end)).

(** The beginning of every handler of settings: the session, the scope of the request and
    whether the viewer manages it. *)
Definition scopeOfRequest {A} (r : http_request) : sprog (reply A + adminSession * Account * accountPreferenceScope * bool) :=
  let*+ (session, account) := session r in
  let* scope := accountPreferenceScopeFromRequest (ac_ID account) r in
  match scope with
  | Err _ => Done (inl (writeError 400))
  | Ok scope =>
      let* manageable := accountPreferenceScopeManageable (ac_ID account) scope in
      match manageable with
      | Err err => Done (inl (authorizationRefusal err))
      | Ok manageable => Done (inr (session, account, scope, manageable))
      end
  end.

Definition requireManageable {A} (r : http_request) : sprog (reply A + adminSession * Account * accountPreferenceScope) :=
  let*+ (session, account, scope, manageable) := scopeOfRequest r in
  if negb (manageable : bool) then Done (inl (writeError 403)) else Done (inr (session, account, scope)).

(** ** The preferences of a scope *)

Definition fillSandboxResolvedSource (response : accountPreferencesResponse) (scope : accountPreferenceScope)
    : sprog (result accountPreferencesResponse) :=
  let* r := sandboxServiceForScopeWithDefault scope in
  let resolved source := response <| pr_Sandbox := (pr_Sandbox response) <| sbp_ResolvedSource := source |> |> in
  match r with
  | Err err => Done (if errors_is err errSandboxServiceNotConfigured then Ok (resolved "none") else Err err)
  | Ok (_, snapshot) =>
      Done (Ok (resolved (if bool_decide (snap_Source snapshot = sandboxConfigSourceInheritedAccount) then "inherited" else
                          if bool_decide (snap_Source snapshot = sandboxConfigSourceAdminDefault) then sandboxConfigSourceAdminDefault
                          else "custom")))
  end.

(** The address saved for the scope, when the response has none. *)
Definition fillAPIURL (response : accountPreferencesResponse) (scope : accountPreferenceScope)
    : sprog (result (option accountPreferencesResponse)) :=
  if negb (bool_decide (TrimSpace (sbp_APIURL (pr_Sandbox response)) = "")) then Done (Ok (Some response)) else
  let* r := perform (qPreference scope accountPreferenceNamespaceSandbox accountPreferenceKeySandboxService) in
  match r with
  | Err err => Done (if errors_is err ErrNotFound then Ok None else Err err)
  | Ok preference =>
      Done (let? value := decodeService s (ap_ValueJSON preference) in
            Ok (Some (response <| pr_Sandbox := (pr_Sandbox response) <| sbp_APIURL := sv_APIURL value |> |>)))
  end.

Definition fillSandboxResponseFromScope (response : accountPreferencesResponse) (scope : accountPreferenceScope)
    : sprog (result accountPreferencesResponse) :=
  let*? filled := fillAPIURL response scope in
  match filled with
  | None => Done (Ok response)
  | Some response =>
      let* r := perform (qSecret scope AccountSecretTypeSandboxAPIKey) in
      match r with
      | Err err => Done (if errors_is err ErrNotFound then Ok response else Err err)
      | Ok key =>
          Done (Ok (response <| pr_Sandbox := (pr_Sandbox response) <| sbp_KeyConfigured := true |>
                                 <| sbp_KeyUpdatedAt := Some (as_UpdatedAt key) |> |>))
      end
  end.

(** The settings an installation inherits. *)
Definition inheritedResponse (scope : accountPreferenceScope) (viewerAccountID sourceAccountID : Z)
    : sprog (result accountPreferencesResponse) :=
  let* identity := perform (qIdentity sourceAccountID "github") in
  match match identity with Ok identity => Ok (oi_OAuthLogin identity) | Err err => if errors_is err ErrNotFound then Ok "" else Err err end with
  | Err err => Done (Err err)
  | Ok login =>
      let*? available := githubInstallationLinkedToAccount sourceAccountID (scope_ID scope) in
      let response := no_preferences <| pr_Sandbox := MkSandboxPreference sandboxPreferenceModeInherit "" "" false None false true
        sourceAccountID login (sourceAccountID =? viewerAccountID)%Z available |> in
      if negb (available : bool) then fillSandboxResolvedSource response scope else
      let*? response := fillSandboxResponseFromScope response (MkPreferenceScope AccountScopeTypeAccount sourceAccountID) in
      fillSandboxResolvedSource response scope
  end.

Definition accountPreferencesResponseBase (scope : accountPreferenceScope) (viewerAccountID : Z) : sprog (result accountPreferencesResponse) :=
  let custom url := no_preferences <| pr_Sandbox := (pr_Sandbox no_preferences) <| sbp_Mode := sandboxPreferenceModeCustom |>
                                                      <| sbp_APIURL := url |> |> in
  let* r := perform (qPreference scope accountPreferenceNamespaceSandbox accountPreferenceKeySandboxService) in
  match r with
  | Err err => if errors_is err ErrNotFound then fillSandboxResolvedSource (custom "") scope else Done (Err err)
  | Ok preference =>
      match decodeService s (ap_ValueJSON preference) with
      | Err err => Done (Err err)
      | Ok value =>
          if bool_decide (normalizeSandboxPreferenceMode (sv_Mode value) scope = sandboxPreferenceModeInherit)
          then inheritedResponse scope viewerAccountID (sv_SourceAccountID value) else
          let*? response := fillSandboxResponseFromScope (custom (sv_APIURL value)) scope in
          fillSandboxResolvedSource response scope
      end
  end.

Definition accountReadinessResponse (scope : accountPreferenceScope) : sprog (result accountPreferencesResponse) :=
  fillSandboxResolvedSource
    (no_preferences <| pr_Sandbox := (pr_Sandbox no_preferences) <| sbp_Mode := sandboxPreferenceModeCustom |> |>) scope.

(** The region and endpoint of the scope's sandbox service. *)
Definition cacheMapping (scope : accountPreferenceScope) : sprog (string * string) :=
  let* r := sandboxServiceForScopeWithDefault scope in
  Done (match r with
        | Err _ => ("", "")
        | Ok (_, snapshot) => match cacheS3SettingsForSandboxAPIURL (snap_APIURL snapshot) with Some mapping => mapping | None => ("", "") end
        end).

Definition fillCachePreferenceResponse (response : accountPreferencesResponse) (scope : accountPreferenceScope)
    : sprog (result accountPreferencesResponse) :=
  let* (region, endpoint) := cacheMapping scope in
  let unconfigured := response <| pr_Cache := (pr_Cache response) <| cap_Region := region |> <| cap_Endpoint := endpoint |> |> in
  let* r := perform (qPreference scope accountPreferenceNamespaceCache accountPreferenceKeyCacheS3) in
  match r with
  | Err err => Done (if errors_is err ErrNotFound then Ok unconfigured else Err err)
  | Ok preference =>
      match decodeCache s (ap_ValueJSON preference) with
      | Err err => Done (Err err)
      | Ok value =>
          let* accessKey := perform (qSecret scope AccountSecretTypeCacheAccessKeyID) in
          let* secretKey := perform (qSecret scope AccountSecretTypeCacheSecretAccessKey) in
          let missing {A} (r : result A) := match r with Err err => errors_is err ErrNotFound | Ok _ => false end in
          if missing accessKey || missing secretKey then Done (Ok unconfigured) else
          match accessKey, secretKey with
          | Err err, _ => Done (Err err)
          | _, Err err => Done (Err err)
          | Ok accessKey, Ok _ =>
              Done (Ok (response <| pr_Cache := MkCachePreference true region (cv_Bucket value) (cv_Prefix value) endpoint
                                                  (Some (as_UpdatedAt accessKey)) |>))
          end
      end
  end.

Definition preferencesResponse (scope : accountPreferenceScope) (viewerAccountID : Z) : sprog (result accountPreferencesResponse) :=
  let*? response := accountPreferencesResponseBase scope viewerAccountID in fillCachePreferenceResponse response scope.

(** The end of the handlers of settings. *)
Definition managedReply (scope : accountPreferenceScope) (account : Account) : sprog (reply accountPreferencesResponse) :=
  let* r := preferencesResponse scope (ac_ID account) in
  Done (match r with
        | Err _ => writeError 500
        | Ok response => writeJSON 200 (response <| pr_Sandbox := (pr_Sandbox response) <| sbp_Manageable := true |> |>)
        end).

Definition handleUserPreferences (r : http_request) : sprog (reply accountPreferencesResponse) :=
  let*! (session, account, scope, manageable) := scopeOfRequest r in
  if negb (manageable : bool) then
    let* r := accountReadinessResponse scope in
    Done (match r with Err _ => writeError 500 | Ok response => writeJSON 200 response end)
  else managedReply scope account.

(** ** The cache service *)

Definition wPreferenceAndSecrets (preference : AccountPreference) (secrets : list AccountSecret) : scall (result AccountPreference) :=
  SWrite (onAccounts (UpsertAccountPreferenceAndSecrets preference secrets)).

Definition preferenceOf (scope : accountPreferenceScope) (namespace key valueJSON : string) : AccountPreference :=
  MkAccountPreference 0 (scope_Type scope) (scope_ID scope) namespace key valueJSON 0 0.
Definition secretOf (scope : accountPreferenceScope) (keyType encryptedValue : string) : AccountSecret :=
  MkAccountSecret 0 (scope_Type scope) (scope_ID scope) keyType encryptedValue 0 0.

(** A key of the request, or the stored one. *)
Definition givenOrStored (scope : accountPreferenceScope) (keyType given : string) : sprog (reply accountPreferencesResponse + string) :=
  if negb (bool_decide (given = "")) then Done (inr given) else
  let* r := perform (qSecret scope keyType) in
  match r with
  | Err _ => Done (inl (writeError 400))
  | Ok secret => Done (match decryptSecret s (as_EncryptedValue secret) with Err _ => inl (writeError 500) | Ok key => inr key end)
  end.

Definition cacheKeys (scope : accountPreferenceScope) (accessKeyID secretAccessKey : string)
    : sprog (reply accountPreferencesResponse + string * string) :=
  if negb (bool_decide (accessKeyID = "")) && negb (bool_decide (secretAccessKey = "")) then Done (inr (accessKeyID, secretAccessKey)) else
  let* r := perform (qPreference scope accountPreferenceNamespaceCache accountPreferenceKeyCacheS3) in
  match r with
  | Err _ => Done (inl (writeError 400))
  | Ok _ =>
      let*+ accessKeyID := givenOrStored scope AccountSecretTypeCacheAccessKeyID accessKeyID in
      let*+ secretAccessKey := givenOrStored scope AccountSecretTypeCacheSecretAccessKey secretAccessKey in
      Done (inr (accessKeyID, secretAccessKey))
  end.

(** The region and endpoint of the service the scope would use now. *)
Definition requiredCacheMapping (scope : accountPreferenceScope) : sprog (reply accountPreferencesResponse + string * string) :=
  let* r := sandboxServiceForScopeWithDefault scope in
  match r with
  | Err err => Done (inl (writeError (if errors_is err errSandboxServiceNotConfigured then 400 else 500)))
  | Ok (_, snapshot) =>
      match cacheS3SettingsForSandboxAPIURL (snap_APIURL snapshot) with
      | None => Done (inl (writeError 400))
      | Some (region, endpoint) =>
          Done (if bool_decide (region = "") || bool_decide (endpoint = "") then inl (writeError 400) else inr (region, endpoint))
      end
  end.

Definition handleUserSaveCacheConfig (decode : string -> option upsertCacheConfigRequest) (r : http_request)
    : sprog (reply accountPreferencesResponse) :=
  let*! (session, account, scope) := requireManageable r in
  match decode (http_body r) with
  | None => Done (writeError 400)
  | Some input =>
      let*! (region, endpoint) := requiredCacheMapping scope in
      let value := MkCacheValue (TrimSpace (ci_InputBucket input)) (trimSlashes (ci_InputPrefix input)) in
      if negb (bool_decide (cv_Prefix value = "")) && bool_decide (validateCachePrefix (cv_Prefix value) <> None) then Done (writeError 400) else
      if bool_decide (validateCacheBucket (cv_Bucket value) <> None) then Done (writeError 400) else
      let*! (accessKeyID, secretAccessKey) := cacheKeys scope (TrimSpace (ci_InputAccessKeyID input)) (TrimSpace (ci_InputSecretAccessKey input)) in
      match newCacheS3 region (cv_Bucket value) (cv_Prefix value) endpoint accessKeyID secretAccessKey with
      | Err _ => Done (writeError 400)
      | Ok _ =>
          match encodeCache s value, encryptSecret s accessKeyID, encryptSecret s secretAccessKey with
          | Ok valueJSON, Ok encryptedAccessKey, Ok encryptedSecretKey =>
              let* saved := perform (wPreferenceAndSecrets
                (preferenceOf scope accountPreferenceNamespaceCache accountPreferenceKeyCacheS3 valueJSON)
                [secretOf scope AccountSecretTypeCacheAccessKeyID encryptedAccessKey;
                 secretOf scope AccountSecretTypeCacheSecretAccessKey encryptedSecretKey]) in
              match saved with
              | Err _ => Done (writeError 500)
              | Ok _ =>
                  let* _ := recordAudit s (actorOf session) "cache.configure" (scope_Type scope) (FormatInt (scope_ID scope))
                    (Some [("region", JString region); ("bucket", JString (cv_Bucket value)); ("endpoint", JString endpoint)]) in
                  let* r := preferencesResponse scope (ac_ID account) in
                  Done (match r with
                        | Err _ => writeError 500
                        | Ok response => writeJSON 200 (response <| pr_Sandbox := (pr_Sandbox response) <| sbp_Manageable := true |> |>
                                                                  <| pr_Cache := (pr_Cache response) <| cap_Configured := true |> |>)
                        end)
              end
          | _, _, _ => Done (writeError 500)
          end
      end
  end.

(** A deletion in a transaction, where a missing row is no error. *)
Definition deleting (delete : accountDB -> result accountDB) (db : accountDB) : result accountDB :=
  match delete db with Ok db' => Ok db' | Err err => if errors_is err ErrNotFound then Ok db else Err err end.

Definition deleteCacheSettings (scope : accountPreferenceScope) (now : Time) (db : accountDB) : result (accountDB * unit) :=
  let? db := deleting (DeleteAccountSecret (scope_Type scope) (scope_ID scope) AccountSecretTypeCacheAccessKeyID) db in
  let? db := deleting (DeleteAccountSecret (scope_Type scope) (scope_ID scope) AccountSecretTypeCacheSecretAccessKey) db in
  let? db := deleting (DeleteAccountPreference (scope_Type scope) (scope_ID scope) accountPreferenceNamespaceCache accountPreferenceKeyCacheS3) db in
  Ok (db, tt).

Definition handleUserDeleteCacheConfig (r : http_request) : sprog (reply accountPreferencesResponse) :=
  let*! (session, account, scope) := requireManageable r in
  let* deleted := applyMutationWithAudit s (actorOf session) "cache.delete" (scope_Type scope) (FormatInt (scope_ID scope)) None
                    (onAccounts (deleteCacheSettings scope)) in
  match deleted with Err _ => Done (writeError 500) | Ok _ => managedReply scope account end.

(** ** The sandbox service *)

Definition normalizeHTTPURL (rawURL : string) : result string :=
  let value := TrimSpace rawURL in
  if bool_decide (value = "") then Err (ErrText "api_url is required") else
  match url_Parse (srv_urls s) value with
  | None => Err (ErrText "api_url must be an absolute URL")
  | Some parsed =>
      if bool_decide (url_Scheme parsed = "") || bool_decide (url_Host parsed = "") then Err (ErrText "api_url must be an absolute URL") else
      if negb (bool_decide (url_Scheme parsed = "http")) && negb (bool_decide (url_Scheme parsed = "https"))
      then Err (ErrText "api_url must use http or https") else
      Ok (url_String parsed)
  end.

Definition supportedSandboxRegionEndpoint (rawURL : string) : option string :=
  let normalized := TrimRight (TrimSpace rawURL) "/"%char in
  let endpoint region := TrimRight (TrimSpace (rg_SandboxAPIURL region)) "/"%char in
  endpoint <$> List.find (fun region => EqualFold normalized (endpoint region)) (srv_regions s).

Definition inheritedSandboxSourceAccountID (scope : accountPreferenceScope) (currentAccountID : Z) (replace : bool) : sprog (result Z) :=
  if replace then Done (Ok currentAccountID) else
  let* r := perform (qPreference scope accountPreferenceNamespaceSandbox accountPreferenceKeySandboxService) in
  match r with
  | Err err => Done (if errors_is err ErrNotFound then Ok currentAccountID else Err err)
  | Ok preference =>
      Done (let? value := decodeService s (ap_ValueJSON preference) in
            Ok (if bool_decide (normalizeSandboxPreferenceMode (sv_Mode value) scope = sandboxPreferenceModeInherit)
                   && (0 <? sv_SourceAccountID value)%Z then sv_SourceAccountID value else currentAccountID))
  end.

Definition sandboxSourceAccountConfigured (accountID : Z) : sprog (result bool) :=
  let scope := MkPreferenceScope AccountScopeTypeAccount accountID in
  let* r := perform (qPreference scope accountPreferenceNamespaceSandbox accountPreferenceKeySandboxService) in
  match r with
  | Err err => Done (if errors_is err ErrNotFound then Ok false else Err err)
  | Ok preference =>
      match decodeService s (ap_ValueJSON preference) with
      | Err err => Done (Err err)
      | Ok value =>
          if bool_decide (TrimSpace (sv_APIURL value) = "") then Done (Ok false) else
          let* r := perform (qSecret scope AccountSecretTypeSandboxAPIKey) in
          Done (match r with Ok _ => Ok true | Err err => if errors_is err ErrNotFound then Ok false else Err err end)
      end
  end.

(** The settings of a scope that inherits. *)
Definition inheritValue (scope : accountPreferenceScope) (account : Account) (replace : bool)
    : sprog (reply accountPreferencesResponse + accountSandboxServicePreferenceValue) :=
  if negb (bool_decide (scope_Type scope = AccountScopeTypeGitHubInstall)) then Done (inl (writeError 400)) else
  let* r := inheritedSandboxSourceAccountID scope (ac_ID account) replace in
  match r with
  | Err _ => Done (inl (writeError 500))
  | Ok sourceAccountID =>
      let value := MkSandboxValue sandboxPreferenceModeInherit "" sourceAccountID in
      if negb (sourceAccountID =? ac_ID account)%Z then Done (inr value) else
      let* r := sandboxSourceAccountConfigured (ac_ID account) in
      Done (match r with Err _ => inl (writeError 500) | Ok false => inl (writeError 400) | Ok true => inr value end)
  end.

(** The settings of a scope of its own, with the key when there is a new one. *)
Definition customValue (scope : accountPreferenceScope) (apiURL apiKey : string)
    : sprog (reply accountPreferencesResponse + accountSandboxServicePreferenceValue * option AccountSecret) :=
  match normalizeHTTPURL apiURL with
  | Err _ => Done (inl (writeError 400))
  | Ok apiURL =>
      match supportedSandboxRegionEndpoint apiURL with
      | None => Done (inl (writeError 400))
      | Some apiURL =>
          let* current := perform (qSecret scope AccountSecretTypeSandboxAPIKey) in
          let missing := match current with Err err => errors_is err ErrNotFound | Ok _ => false end in
          if bool_decide (apiKey = "") && missing then Done (inl (writeError 400)) else
          if negb missing && match current with Err _ => true | Ok _ => false end then Done (inl (writeError 500)) else
          let value := MkSandboxValue "" apiURL 0 in
          if bool_decide (apiKey = "") then Done (inr (value, None)) else
          Done (match encryptSecret s apiKey with
                | Err _ => inl (writeError 500)
                | Ok encryptedAPIKey => inr (value, Some (secretOf scope AccountSecretTypeSandboxAPIKey encryptedAPIKey))
                end)
      end
  end.

(** The transaction of the two modes. *)
Definition saveSandboxSettings (mode : string) (preference : AccountPreference) (scope : accountPreferenceScope) (secret : option AccountSecret)
    (now : Time) (db : accountDB) : result (accountDB * unit) :=
  if bool_decide (mode = sandboxPreferenceModeInherit)
  then let? (db, _) := UpsertAccountPreferenceAndDeleteSecret preference (secretOf scope AccountSecretTypeSandboxAPIKey "") now db in Ok (db, tt)
  else let? (db, _) := UpsertAccountPreferenceAndSecret preference secret now db in Ok (db, tt).

Definition handleUserSaveSandboxConfig (decode : string -> option upsertSandboxConfigRequest) (r : http_request)
    : sprog (reply accountPreferencesResponse) :=
  let*! (session, account, scope) := requireManageable r in
  match decode (http_body r) with
  | None => Done (writeError 400)
  | Some input =>
      let mode := normalizeSandboxPreferenceMode (si_Mode input) scope in
      let apiKey := TrimSpace (si_APIKey input) in
      let*! (value, secret) :=
        if bool_decide (mode = sandboxPreferenceModeInherit) then
          let*+ value := inheritValue scope account (si_ReplaceInheritedSource input) in Done (inr (value, None))
        else customValue scope (si_APIURL input) apiKey in
      match encodeService s value with
      | Err _ => Done (writeError 500)
      | Ok valueJSON =>
          let preference := preferenceOf scope accountPreferenceNamespaceSandbox accountPreferenceKeySandboxService valueJSON in
          let payload := [("mode", JString mode); ("api_url", JString (sv_APIURL value)); ("api_key_update", JBool (negb (bool_decide (apiKey = ""))))]
            ++ (if bool_decide (mode = sandboxPreferenceModeInherit) then [("source_account_id", JInt (sv_SourceAccountID value))] else []) in
          let* saved := applyMutationWithAudit s (actorOf session) "sandbox.configure" (scope_Type scope) (FormatInt (scope_ID scope))
                          (Some payload) (onAccounts (saveSandboxSettings mode preference scope secret)) in
          match saved with Err _ => Done (writeError 500) | Ok _ => managedReply scope account end
      end
  end.

Definition deleteSandboxKey (scope : accountPreferenceScope) (now : Time) (db : accountDB) : result (accountDB * unit) :=
  let? db := deleting (DeleteAccountSecret (scope_Type scope) (scope_ID scope) AccountSecretTypeSandboxAPIKey) db in Ok (db, tt).

Definition handleUserDeleteSandboxAPIKey (r : http_request) : sprog (reply accountPreferencesResponse) :=
  let*! (session, account, scope) := requireManageable r in
  let* deleted := applyMutationWithAudit s (actorOf session) "sandbox_api_key.delete" (scope_Type scope) (FormatInt (scope_ID scope)) None
                    (onAccounts (deleteSandboxKey scope)) in
  match deleted with Err _ => Done (writeError 500) | Ok _ => managedReply scope account end.

(** ** Installations *)

Record userGitHubAppResponse := MkAppResponse {
  gar_AppSlug : string;
  gar_InstallURL : string;
  gar_Installations : list GitHubInstallation;
  gar_Manageable : option (list bool)
}.

Definition ownerOfLink (installation : GitHubInstallation) : GitHubInstallationAccount :=
  MkGitHubInstallationAccount (gi_GitHubAccountID installation) (gi_AccountType installation) (gi_AccountLogin installation)
    (gi_AccountName installation) (gi_AccountAvatar installation).

Definition handleUserGitHubApp (r : http_request) : sprog (reply userGitHubAppResponse) :=
  let*! (session, account) := session r in
  let* listed := perform (qInstallations (ac_ID account)) in
  match listed with
  | Err _ => Done (writeError 500)
  | Ok installations =>
      let response := MkAppResponse (TrimSpace (cfg_GitHubAppSlug (srv_auth s))) (githubAppInstallURL (srv_auth s)) installations in
      if negb (bool_decide (http_query r "include" = "settings")) then Done (writeJSON 200 (response None)) else
      let* r := githubInstallationAccountsManageable (ac_ID account) (ownerOfLink <$> installations) in
      Done (match r with Err err => authorizationRefusal err | Ok manageable => writeJSON 200 (response (Some manageable)) end)
  end.

(** The link of an account to an installation as GitHub describes it. *)
Definition linkOf (accountID : Z) (installation : Installation) : GitHubInstallation :=
  MkGitHubInstallation 0 accountID (inst_ID installation) (inst_AccountID installation) (inst_AccountType installation)
    (inst_AccountLogin installation) (inst_AccountName installation) (inst_AccountAvatar installation) [] 0 0.

Definition wInstallation (link : GitHubInstallation) : scall (result GitHubInstallation) :=
  SWrite (onAccounts (UpsertGitHubInstallation link)).
Definition wDeleteInstallation (accountID id : Z) : scall (result unit) :=
  SWrite (onAccounts (fun _ db => let? db := DeleteGitHubInstallation accountID id db in Ok (db, tt))).

Definition syncGitHubInstallation (accountID installationID : Z) : sprog (result GitHubInstallation) :=
  if negb (srv_github s) then Done (Err (ErrText "github client is not configured")) else
  let*? installation := perform (SGetInstallation installationID) in
  perform (wInstallation (linkOf accountID installation)).

Definition handleUserSaveGitHubInstallation (decode : string -> option upsertGitHubInstallationRequest) (r : http_request)
    : sprog (reply GitHubInstallation) :=
  let*! (session, account) := session r in
  let cleared := clearCookie githubAppSetupStateCookieName "/" (requestIsSecure r) in
  match decode (http_body r) with
  | None => Done (writeError 400)
  | Some input =>
      if (ii_InstallationID input <=? 0)%Z then Done (writeError 400) else
      if negb (validGitHubAppSetupState r (ii_SetupState input)) then Done (with_cookies [cleared] (writeError 403)) else
      let* synced := syncGitHubInstallation (ac_ID account) (ii_InstallationID input) in
      match synced with
      | Err _ => Done (writeError 400)
      | Ok installation =>
          let* _ := perform (SInvalidate (ac_ID account)) in
          let* _ := recordAudit s (actorOf session) "github_app.configure" "github_installation" (FormatInt (gi_InstallationID installation))
                      (Some [("account_login", JString (gi_AccountLogin installation))]) in
          Done (with_cookies [cleared] (writeJSON 200 installation))
      end
  end.

(** A positive number of the path. *)
Definition pathID (value : string) : option Z :=
  match ParseInt value with Some id => if (id <=? 0)%Z then None else Some id | None => None end.

Definition handleUserDeleteGitHubInstallation (r : http_request) : sprog (reply Empty_set) :=
  let*! (session, account) := session r in
  match pathID (http_path r "id") with
  | None => Done (writeError 400)
  | Some id =>
      let* deleted := perform (wDeleteInstallation (ac_ID account) id) in
      match deleted with
      | Err err => Done (writeError (if errors_is err ErrNotFound then 404 else 500))
      | Ok _ =>
          let* _ := perform (SInvalidate (ac_ID account)) in
          let* _ := recordAudit s (actorOf session) "github_app.delete" "github_installation" (FormatInt id) None in
          Done writeOK
      end
  end.

(** The two loops of a synchronisation: the installations GitHub lists, then the links to
    the others. *)
Fixpoint saveInstallations (accountID : Z) (remote : list Installation) : sprog (result (list GitHubInstallation)) :=
  match remote with
  | [] => Done (Ok [])
  | installation :: rest =>
      let*? saved := perform (wInstallation (linkOf accountID installation)) in
      let*? synced := saveInstallations accountID rest in
      Done (Ok (saved :: synced))
  end.

Fixpoint removeInstallations (accountID : Z) (remoteIDs : list Z) (existing : list GitHubInstallation) : sprog (result Z) :=
  match existing with
  | [] => Done (Ok 0%Z)
  | link :: rest =>
      if bool_decide (gi_InstallationID link ∈ remoteIDs) then removeInstallations accountID remoteIDs rest else
      let*? _ := perform (wDeleteInstallation accountID (gi_ID link)) in
      let*? removed := removeInstallations accountID remoteIDs rest in
      Done (Ok (removed + 1)%Z)
  end.

Definition syncInstallations (session : adminSession) (account : Account) (remote : list Installation) (existing : list GitHubInstallation)
    : sprog (reply (list GitHubInstallation)) :=
  let* synced := saveInstallations (ac_ID account) remote in
  match synced with
  | Err _ => Done (writeError 500)
  | Ok synced =>
      let* removed := removeInstallations (ac_ID account) (inst_ID <$> remote) existing in
      match removed with
      | Err _ => Done (writeError 500)
      | Ok removed =>
          let* _ := recordAudit s (actorOf session) "github_app.sync" "account" (FormatInt (ac_ID account))
                      (Some [("count", JInt (Z.of_nat (length synced))); ("removed", JInt removed)]) in
          Done (writeJSON 200 synced)
      end
  end.

Definition handleUserSyncGitHubInstallations (r : http_request) : sprog (reply (list GitHubInstallation)) :=
  let*! (session, account) := session r in
  if negb (srv_github s) then Done (writeError 500) else
  let* token := userAccessToken (ac_ID account) in
  match token with
  | Err err => Done (if errors_is err errGitHubUserAccessTokenRequired then writeErrorCode 400 "REAUTH_REQUIRED" else writeError 500)
  | Ok token =>
      let* remote := perform (SUserInstallations token) in
      match remote with
      | Err err => Done (authorizationRefusal err)
      | Ok remote =>
          let* existing := perform (qInstallations (ac_ID account)) in
          match existing with
          | Err _ => Done (writeError 500)
          | Ok existing =>
              let* answer := syncInstallations session account remote existing in
              let* _ := perform (SInvalidate (ac_ID account)) in
              Done answer
          end
      end
  end.

Definition handleUserListGitHubInstallationRepositories (r : http_request) : sprog (reply (Z * list string)) :=
  let*! (session, account) := session r in
  match pathID (http_path r "id") with
  | None => Done (writeError 400)
  | Some id =>
      let* found := githubInstallationForAccount (ac_ID account) id in
      match found with
      | Err _ => Done (writeError 500)
      | Ok None => Done (writeError 404)
      | Ok (Some installation) =>
          if negb (srv_github s) then Done (writeError 500) else
          let* token := userAccessToken (ac_ID account) in
          match token with
          | Err err => Done (authorizationRefusal err)
          | Ok token =>
              let* listed := perform (SUserRepositories token (gi_InstallationID installation)) in
              Done (match listed with
                    | Err err => authorizationRefusal err
                    | Ok repositories => writeJSON 200 (gi_InstallationID installation, repositories)
                    end)
          end
      end
  end.

(** ** Lists of runners *)

Definition defaultRunnerRequestListLimit : Z := 100.
Definition maxRunnerRequestListLimit : Z := 500.
Definition maxUserRunnerHistoryWindow : Z := 500.

Definition parsePagination (r : http_request) (defaultLimit maxLimit : Z) : option (Z * Z) :=
  let raw := TrimSpace (http_query r "limit") in
  let limit := if bool_decide (raw = "") then Some defaultLimit else
               match ParseInt raw with Some parsed => if (parsed <=? 0)%Z then None else Some parsed | None => None end in
  match limit with
  | None => None
  | Some limit =>
      let limit := if (0 <? maxLimit)%Z && (maxLimit <? limit)%Z then maxLimit else limit in
      let raw := TrimSpace (http_query r "offset") in
      let offset := if bool_decide (raw = "") then Some 0%Z else
                    match ParseInt raw with Some parsed => if (parsed <? 0)%Z then None else Some parsed | None => None end in
      match offset with None => None | Some offset => Some (limit, offset) end
  end.

(** The limit and offset of the pages before and after, when there are such pages. *)
Definition previousPage (limit offset : Z) : option (Z * Z) :=
  if (0 <? offset)%Z then Some (limit, Z.max 0 (offset - limit)) else None.

Definition nextPage (total limit offset maxWindow : Z) : option (Z * Z) :=
  let linkTotal := if (0 <? maxWindow)%Z && (maxWindow <? total)%Z then maxWindow else total in
  let nextOffset := wrap64 (offset + limit) in
  if negb (nextOffset <? linkTotal)%Z then None else
  let nextLimit := if (0 <? maxWindow)%Z && (maxWindow <? wrap64 (nextOffset + limit))%Z then (maxWindow - nextOffset)%Z else limit in
  if (0 <? nextLimit)%Z then Some (nextLimit, nextOffset) else None.

Definition writePaginationHeadersWithinWindow (r : http_request) (total limit offset maxWindow : Z) : list (string * string) :=
  let link rel page := "<" +:+ pageURL s r (fst page) (snd page) +:+ ">; rel=" +:+ quote +:+ rel +:+ quote in
  let links := option_list (link "prev" <$> previousPage limit offset) ++ option_list (link "next" <$> nextPage total limit offset maxWindow) in
  [("X-Total-Count", FormatInt total); ("X-Limit", FormatInt limit); ("X-Offset", FormatInt offset)]
  ++ match links with [] => [] | _ => [("Link", String.concat ", " links)] end.

Definition handleUserListRunners (r : http_request) : sprog (reply (list RunnerState)) :=
  let*! (session, account) := session r in
  match parsePagination r defaultRunnerRequestListLimit maxRunnerRequestListLimit with
  | None => Done (writeError 400)
  | Some (limit, offset) =>
      if (maxUserRunnerHistoryWindow - limit <? offset)%Z then Done (writeError 400) else
      let* access := perform (SRepositoryAccess (ac_ID account)) in
      match access with
      | Err err => Done (authorizationRefusal err)
      | Ok access =>
          let* listed := perform (SRead (fun t => Ok (ListStatesForGitHubInstallationRepositories access limit offset (tb_requests t)))) in
          Done (match listed with
                | Err _ => writeError 500
                | Ok (states, total) =>
                    with_headers (writePaginationHeadersWithinWindow r (Z.of_nat total) limit offset maxUserRunnerHistoryWindow)
                      (writeJSON 200 states)
                end)
      end
  end.
End handlers.
