(* ===== verification/Onboarding.v ===== *)
(** * The product tour of a user (internal/server/server_user_onboarding.go)

    Whether a user has seen the product tour is a preference of the user's own account.  The
    JSON codec of the state is a parameter; a body is decoded strictly, [None] for anything
    else than one object of known fields. *)

From stdpp Require Import base gmap list strings.
From S2P Require Import Prelude GoStrings Rows AccountModel AccountStore Program ServerCalls Sessions UserHandlers.

Definition productTourOnboardingVersion : Z := 1.
Definition productTourOnboardingNamespace := "onboarding".
Definition productTourOnboardingKey := "product-tour".
Definition productTourOnboardingStatusPending := "pending".
Definition productTourOnboardingStatusCompleted := "completed".
Definition productTourOnboardingStatusSkipped := "skipped".

Record productTourOnboardingState := MkTour { tour_Version : Z; tour_Status : string; tour_TourSeen : bool }.

Definition pendingProductTourOnboardingState : productTourOnboardingState :=
  MkTour productTourOnboardingVersion productTourOnboardingStatusPending false.

Definition isTerminalProductTourOnboardingStatus (status : string) : bool :=
  bool_decide (status = productTourOnboardingStatusCompleted) || bool_decide (status = productTourOnboardingStatusSkipped).

Definition isSavedProductTourOnboardingState (value : productTourOnboardingState) : bool :=
  isTerminalProductTourOnboardingStatus (tour_Status value)
  || (bool_decide (tour_Status value = productTourOnboardingStatusPending) && tour_TourSeen value).

(** The state that is shown of a stored one; the tour counts as seen once it is over. *)
Definition shownTour (saved : productTourOnboardingState) : productTourOnboardingState :=
  if negb (tour_Version saved =? productTourOnboardingVersion)%Z || negb (isSavedProductTourOnboardingState saved)
  then pendingProductTourOnboardingState
  else if isTerminalProductTourOnboardingStatus (tour_Status saved) then MkTour (tour_Version saved) (tour_Status saved) true else saved.

Definition tourScope (account : Account) : accountPreferenceScope := MkPreferenceScope AccountScopeTypeAccount (ac_ID account).

Definition wTour (account : Account) (valueJSON : string) : scall (result AccountPreference) :=
  SWrite (onAccounts (UpsertAccountPreference
    (preferenceOf (tourScope account) productTourOnboardingNamespace productTourOnboardingKey valueJSON))).

Section onboarding.
Context {Service : Type} (s : server Service).
Context (decodeTour : string -> option productTourOnboardingState) (encodeTour : productTourOnboardingState -> result string).

Definition handleUserProductTourOnboarding (r : http_request) : sprog (reply productTourOnboardingState) :=
  let*! (_, account) := requireUserSession (srv_sessions s) r in
  let* preference := perform (qPreference (tourScope account) productTourOnboardingNamespace productTourOnboardingKey) in
  Done (match preference with
        | Err err => if errors_is err ErrNotFound then writeJSON 200 pendingProductTourOnboardingState else writeError 500
        | Ok preference =>
            match decodeTour (ap_ValueJSON preference) with
            | None => writeError 500
            | Some saved => writeJSON 200 (shownTour saved)
            end
        end).

Definition handleUserSaveProductTourOnboarding (decode : string -> option productTourOnboardingState) (r : http_request)
    : sprog (reply productTourOnboardingState) :=
  let*! (_, account) := requireUserSession (srv_sessions s) r in
  match decode (http_body r) with
  | None => Done (writeError 400)
  | Some input =>
      if negb (tour_Version input =? productTourOnboardingVersion)%Z || negb (isSavedProductTourOnboardingState input)
      then Done (writeError 400) else
      let input := if isTerminalProductTourOnboardingStatus (tour_Status input) then MkTour (tour_Version input) (tour_Status input) true else input in
      match encodeTour input with
      | Err _ => Done (writeError 500)
      | Ok valueJSON =>
          let* saved := perform (wTour account valueJSON) in
          Done (match saved with Err _ => writeError 500 | Ok _ => writeJSON 200 input end)
      end
  end.
End onboarding.

(** What is saved is what is shown. *)
Lemma tour_roundtrip input : (tour_Version input =? productTourOnboardingVersion)%Z = true -> isSavedProductTourOnboardingState input = true ->
  shownTour (if isTerminalProductTourOnboardingStatus (tour_Status input) then MkTour (tour_Version input) (tour_Status input) true else input)
  = (if isTerminalProductTourOnboardingStatus (tour_Status input) then MkTour (tour_Version input) (tour_Status input) true else input).
Proof.
  intros Hv Hs. unfold shownTour. destruct (isTerminalProductTourOnboardingStatus (tour_Status input)) eqn:E; cbn [tour_Version tour_Status].
  - rewrite Hv. unfold isSavedProductTourOnboardingState. cbn [tour_Status]. by rewrite E.
  - by rewrite Hv, Hs, E.
Qed.

(** A state that is shown is pending and unseen, or seen. *)
Lemma shown_tour_valid saved : shownTour saved = pendingProductTourOnboardingState \/
  (tour_TourSeen (shownTour saved) = true /\ isSavedProductTourOnboardingState (shownTour saved) = true).
Proof.
  unfold shownTour. destruct (_ || _) eqn:E; [by left|right]. bool_prop. destruct (isTerminalProductTourOnboardingStatus _) eqn:Et; cbn.
  - split; [done|]. unfold isSavedProductTourOnboardingState. cbn. by rewrite Et.
  - split; [|done]. unfold isSavedProductTourOnboardingState in *. rewrite Et in *. cbn in *. bool_prop. done.
Qed.
