(* ===== verification/Confinement.v ===== *)
(** * What an operation of the store may touch

    Frames of the tables: relations "[t'] differs from [t] only in ...", and for each
    operation the handlers of users perform, the frame it stays in. *)

From stdpp Require Import base gmap list strings.
From S2P Require Import Prelude GoStrings Rows AccountModel AccountStore AccountSafety Sponsorship Program ServerCalls UserHandlers Onboarding.

(** ** Frames *)

(** Only secrets and preferences of the scope change. *)
Record settings_only (scope : accountPreferenceScope) (db db' : accountDB) : Prop := {
  so_rest : db' = db <| ad_secrets := ad_secrets db' |> <| ad_preferences := ad_preferences db' |>;
  so_secrets ty id kind : (ty, id) <> (scope_Type scope, scope_ID scope) ->
    get_key (ty, id, kind) (ad_secrets db') = get_key (ty, id, kind) (ad_secrets db);
  so_preferences ty id namespace key : (ty, id) <> (scope_Type scope, scope_ID scope) ->
    get_key (ty, id, namespace, key) (ad_preferences db') = get_key (ty, id, namespace, key) (ad_preferences db)
}.

(** Only the recorded owner of the installation changes. *)
Definition owner_only (installationID : Z) (db db' : accountDB) : Prop :=
  db' = db <| ad_owners := ad_owners db' |> /\ forall i, i <> installationID -> ad_owners db' !! i = ad_owners db !! i.

(** Only the link of the account to the installation and the owner of the installation. *)
Record link_only (accountID installationID : Z) (db db' : accountDB) : Prop := {
  lo_rest : db' = db <| ad_installations := ad_installations db' |> <| ad_owners := ad_owners db' |>;
  lo_links a i : (a, i) <> (accountID, installationID) -> get_key (a, i) (ad_installations db') = get_key (a, i) (ad_installations db);
  lo_owners i : i <> installationID -> ad_owners db' !! i = ad_owners db !! i
}.

(** Only links of the account disappear. *)
Definition unlink_only (accountID : Z) (db db' : accountDB) : Prop :=
  db' = db <| ad_installations := ad_installations db' |> /\
  (forall a i, a <> accountID -> get_key (a, i) (ad_installations db') = get_key (a, i) (ad_installations db)) /\
  forall r, r ∈ rs_rows (ad_installations db') -> r ∈ rs_rows (ad_installations db).

(** Only policies and approvals of the sponsor change. *)
Definition sponsor_only (sponsor : Z) (db db' : sponsorDB) : Prop :=
  (forall source p, pol_SponsorInstallationID p <> sponsor -> sp_policies db' !! source = Some p <-> sp_policies db !! source = Some p) /\
  (forall key a, apr_SponsorInstallationID a <> sponsor -> sp_approvals db' !! key = Some a <-> sp_approvals db !! key = Some a).

(** An operation that stays in a frame of the tables of accounts, or of sponsorships. *)
Definition in_accounts {A} (frame : accountDB -> accountDB -> Prop) (op : Time -> tables -> result (tables * A)) : Prop :=
  forall now t t' a, op now t = Ok (t', a) -> t' = t <| tb_accounts := tb_accounts t' |> /\ frame (tb_accounts t) (tb_accounts t').
Definition in_sponsors {A} (frame : sponsorDB -> sponsorDB -> Prop) (op : Time -> tables -> result (tables * A)) : Prop :=
  forall now t t' a, op now t = Ok (t', a) -> t' = t <| tb_sponsors := tb_sponsors t' |> /\
    (sponsor_ok (tb_sponsors t) -> frame (tb_sponsors t) (tb_sponsors t')).

Lemma onAccounts_frame {A} frame (op : Time -> accountDB -> result (accountDB * A)) :
  (forall now db db' a, op now db = Ok (db', a) -> frame db db') -> in_accounts frame (onAccounts op).
Proof.
  intros H now t t' a E. apply result_bind_Ok in E as ([db x] & E1 & E2). injection E2 as <- <-. split; [done|]. by eapply H.
Qed.

Lemma onSponsors_frame {A} frame (op : Time -> sponsorDB -> result (sponsorDB * A)) :
  (forall now db db' a, sponsor_ok db -> op now db = Ok (db', a) -> frame db db') -> in_sponsors frame (onSponsors op).
Proof.
  intros H now t t' a E. apply result_bind_Ok in E as ([db x] & E1 & E2). injection E2 as <- <-. split; [done|]. intros Hok. by eapply H.
Qed.

(** ** Settings *)

Lemma settings_refl scope db : settings_only scope db db.
Proof. split; [by destruct db|done|done]. Qed.

Lemma settings_trans scope db1 db2 db3 : settings_only scope db1 db2 -> settings_only scope db2 db3 -> settings_only scope db1 db3.
Proof.
  intros [R1 S1 P1] [R2 S2 P2]. split.
  - rewrite R1 in R2. exact R2.
  - intros ty id kind H. by rewrite S2, S1.
  - intros ty id ns key H. by rewrite P2, P1.
Qed.

(** The types a scope can have are stored as they are. *)
Definition scope_ok (scope : accountPreferenceScope) : Prop :=
  scope_Type scope = AccountScopeTypeAccount \/ scope_Type scope = AccountScopeTypeGitHubInstall.

Lemma scope_type_stored scope : scope_ok scope -> normalizeAccountScopeType (scope_Type scope) = scope_Type scope.
Proof. by intros [->| ->]. Qed.

Section settings.
Context (scope : accountPreferenceScope) (Hscope : scope_ok scope).

Lemma upsertAccountSecret_settings s now db db' saved :
  as_ScopeType s = scope_Type scope -> as_ScopeID s = scope_ID scope ->
  upsertAccountSecret s now db = Ok (db', saved) -> settings_only scope db db'.
Proof using Hscope.
  intros Ht Hi H. unfold upsertAccountSecret in H. rewrite Ht, (scope_type_stored scope Hscope) in H.
  repeat (case_match; [done|]). destruct (upsert _ _ _) as [t x] eqn:E. injection H as <- <-.
  split; [done| |done]. intros ty id kind Hne. change (get_key (ty, id, kind) (t, x).1 = get_key (ty, id, kind) (ad_secrets db)).
  rewrite <-E. apply get_key_upsert_ne; [done|]. cbn. rewrite Hi. congruence.
Qed.

Lemma upsertAccountPreference_settings p now db db' saved :
  ap_ScopeType p = scope_Type scope -> ap_ScopeID p = scope_ID scope ->
  upsertAccountPreference p now db = Ok (db', saved) -> settings_only scope db db'.
Proof using Hscope.
  intros Ht Hi H. unfold upsertAccountPreference in H. rewrite Ht, (scope_type_stored scope Hscope) in H.
  repeat (case_match; [done|]). destruct (upsert _ _ _) as [t x] eqn:E. injection H as <- <-.
  split; [done|done|]. intros ty id ns key Hne. change (get_key (ty, id, ns, key) (t, x).1 = get_key (ty, id, ns, key) (ad_preferences db)).
  rewrite <-E. apply get_key_upsert_ne; [done|]. cbn. rewrite Hi. congruence.
Qed.

Lemma deleteAccountSecret_settings kind db db' :
  deleteAccountSecret (scope_Type scope) (scope_ID scope) kind db = Ok db' -> settings_only scope db db'.
Proof using Hscope.
  unfold deleteAccountSecret. rewrite (scope_type_stored scope Hscope). case_match; [done|].
  destruct (remove _ _) as [t n] eqn:E. case_match; [done|]. intros [= <-]. split; [done| |done].
  intros ty id k Hne. change (get_key (ty, id, k) (t, n).1 = get_key (ty, id, k) (ad_secrets db)).
  rewrite <-E. apply get_key_remove_ne. intros r Hr. apply bool_decide_eq_true in Hr. congruence.
Qed.

Lemma DeleteAccountPreference_settings ns key db db' :
  DeleteAccountPreference (scope_Type scope) (scope_ID scope) ns key db = Ok db' -> settings_only scope db db'.
Proof using Hscope.
  unfold DeleteAccountPreference. rewrite (scope_type_stored scope Hscope). case_match; [done|].
  destruct (remove _ _) as [t n] eqn:E. case_match; [done|]. intros [= <-]. split; [done|done|].
  intros ty id ns' k Hne. change (get_key (ty, id, ns', k) (t, n).1 = get_key (ty, id, ns', k) (ad_preferences db)).
  rewrite <-E. apply get_key_remove_ne. intros r Hr. apply bool_decide_eq_true in Hr. congruence.
Qed.

Lemma deleting_settings delete db db' : (forall db db', delete db = Ok db' -> settings_only scope db db') ->
  deleting delete db = Ok db' -> settings_only scope db db'.
Proof using.
  intros H E. unfold deleting in E. destruct (delete db) as [db1|e] eqn:E1; [injection E as <-; by apply H|].
  destruct (errors_is _ _); [|done]. injection E as <-. apply settings_refl.
Qed.

Lemma upsertAccountSecrets_settings secrets now db db' :
  Forall (fun s => as_ScopeType s = scope_Type scope /\ as_ScopeID s = scope_ID scope) secrets ->
  upsertAccountSecrets secrets now db = Ok db' -> settings_only scope db db'.
Proof using Hscope.
  intros H. revert db. induction H as [|s l [Ht Hi] _ IH]; intros db E.
  - injection E as <-. apply settings_refl.
  - apply result_bind_Ok in E as ([db1 x] & E1 & E2). eapply settings_trans; [exact (upsertAccountSecret_settings _ _ _ _ _ Ht Hi E1)|by apply IH].
Qed.

(** The operations of the handlers. *)
Lemma cache_settings_frame valueJSON k1 k2 :
  in_accounts (settings_only scope) (onAccounts (UpsertAccountPreferenceAndSecrets
    (preferenceOf scope accountPreferenceNamespaceCache accountPreferenceKeyCacheS3 valueJSON)
    [secretOf scope AccountSecretTypeCacheAccessKeyID k1; secretOf scope AccountSecretTypeCacheSecretAccessKey k2])).
Proof using Hscope.
  apply onAccounts_frame. intros now db db' a E. apply result_bind_Ok in E as ([db1 x] & E1 & E2).
  apply result_bind_Ok in E2 as (db2 & E2 & E3). injection E3 as <- <-.
  eapply settings_trans; [by apply upsertAccountPreference_settings in E1|]. eapply upsertAccountSecrets_settings; [|done]. by repeat constructor.
Qed.

Lemma preference_frame namespace key valueJSON :
  in_accounts (settings_only scope) (onAccounts (UpsertAccountPreference (preferenceOf scope namespace key valueJSON))).
Proof using Hscope. apply onAccounts_frame. intros now db db' a E. by apply upsertAccountPreference_settings in E. Qed.

Lemma delete_cache_frame : in_accounts (settings_only scope) (onAccounts (deleteCacheSettings scope)).
Proof using Hscope.
  apply onAccounts_frame. intros now db db' a E. apply result_bind_Ok in E as (db1 & E1 & E).
  apply result_bind_Ok in E as (db2 & E2 & E). apply result_bind_Ok in E as (db3 & E3 & E). injection E as <- <-.
  apply (settings_trans _ _ db1); [|apply (settings_trans _ _ db2)]; (eapply deleting_settings; [|eassumption]); intros ? ? H;
    first [by apply deleteAccountSecret_settings in H|by apply DeleteAccountPreference_settings in H].
Qed.

Lemma delete_key_frame : in_accounts (settings_only scope) (onAccounts (deleteSandboxKey scope)).
Proof using Hscope.
  apply onAccounts_frame. intros now db db' a E. apply result_bind_Ok in E as (db1 & E1 & E). injection E as <- <-.
  eapply deleting_settings; [|done]. intros ? ? H. by apply deleteAccountSecret_settings in H.
Qed.

Lemma sandbox_settings_frame mode valueJSON secret :
  (forall s, secret = Some s -> as_ScopeType s = scope_Type scope /\ as_ScopeID s = scope_ID scope) ->
  in_accounts (settings_only scope) (onAccounts (saveSandboxSettings mode
    (preferenceOf scope accountPreferenceNamespaceSandbox accountPreferenceKeySandboxService valueJSON) scope secret)).
Proof using Hscope.
  intros Hs. apply onAccounts_frame. intros now db db' a E. unfold saveSandboxSettings in E. case_match.
  - apply result_bind_Ok in E as ([db1 x] & E1 & E). injection E as <- <-. apply result_bind_Ok in E1 as ([db2 y] & E1 & E).
    eapply settings_trans; [by apply upsertAccountPreference_settings in E1|].
    destruct (deleteAccountSecret _ _ _ _) as [db3|e] eqn:E2; [injection E as <- <-; by eapply deleteAccountSecret_settings|].
    destruct e; try done. injection E as <- <-. apply settings_refl.
  - apply result_bind_Ok in E as ([db1 x] & E1 & E). injection E as <- <-. apply result_bind_Ok in E1 as ([db2 y] & E1 & E).
    eapply settings_trans; [by apply upsertAccountPreference_settings in E1|].
    destruct secret as [s|]; [|injection E as <- <-; apply settings_refl].
    apply result_bind_Ok in E as ([db3 z] & E2 & E). injection E as <- <-. destruct (Hs s eq_refl) as [Ht Hi].
    exact (upsertAccountSecret_settings _ _ _ _ _ Ht Hi E2).
Qed.
End settings.

(** ** Links and owners *)

Lemma owner_frame i owner : in_accounts (owner_only i) (onAccounts (UpsertGitHubInstallationOwner i owner)).
Proof.
  apply onAccounts_frame. intros now db db' a E. apply result_bind_Ok in E as ([db1 x] & E1 & E). injection E as <- <-.
  unfold upsertGitHubInstallationOwner in E1. repeat (case_match; [done|]). injection E1 as <- <-.
  split; [done|]. intros j Hj. change (ad_owners (db <| ad_owners := ?m |>)) with m. by rewrite lookup_insert_ne.
Qed.

Lemma link_frame link : in_accounts (link_only (gi_AccountID link) (gi_InstallationID link)) (onAccounts (UpsertGitHubInstallation link)).
Proof.
  apply onAccounts_frame. intros now db db' a E. unfold UpsertGitHubInstallation in E. repeat (case_match; [done|]).
  destruct (upsert _ _ _) as [t saved] eqn:U.
  assert (Hl : forall x i, (x, i) <> (gi_AccountID link, gi_InstallationID link) -> get_key (x, i) t = get_key (x, i) (ad_installations db)).
  { intros x i Hne. change t with (t, saved).1. rewrite <-U. by apply get_key_upsert_ne. }
  destruct (_ && _ && _) in E; [|injection E as <- <-; by split].
  apply result_bind_Ok in E as ([db1 o] & E1 & E). injection E as <- <-.
  unfold upsertGitHubInstallationOwner in E1. repeat (case_match; [done|]). injection E1 as <- <-.
  split; [done|exact Hl|]. intros i Hi. cbn [ad_owners field_update]. by rewrite lookup_insert_ne.
Qed.

Lemma unlink_frame accountID id :
  in_accounts (unlink_only accountID) (onAccounts (fun _ db => let? db := DeleteGitHubInstallation accountID id db in Ok (db, tt))).
Proof.
  apply onAccounts_frame. intros now db db' a E. apply result_bind_Ok in E as (db1 & E1 & E). injection E as <- <-.
  unfold DeleteGitHubInstallation in E1. case_match; [done|]. destruct (remove _ _) as [t n] eqn:U. case_match; [done|]. injection E1 as <-.
  split; [done|]. split.
  - intros x i Hne. change (get_key (x, i) (t, n).1 = get_key (x, i) (ad_installations db)). rewrite <-U.
    apply get_key_remove_ne. intros r Hr. bool_prop. cbn. intros [= ? ?]. lia.
  - intros r Hr. change (r ∈ rs_rows (t, n).1) in Hr. rewrite <-U in Hr. by apply elem_of_remove in Hr as [Hr _].
Qed.

(** ** Sponsorships *)

Lemma insert_own {K V} `{Countable K} (own : V -> Prop) (m : gmap K V) k v v0 x : own v -> (forall v0, m !! k = Some v0 -> own v0) ->
  ~ own v0 -> <[k := v]> m !! x = Some v0 <-> m !! x = Some v0.
Proof.
  intros Hv Hold Hn. destruct (decide (k = x)) as [<-|Hne]; [|by rewrite lookup_insert_ne].
  rewrite lookup_insert_eq. split; [intros [= ->]; done|intros H1; by apply Hold in H1].
Qed.

Section sponsors.
Context (sponsor : Z).

Lemma policy_save_frame (save : ForkSponsorshipPolicy -> Time -> sponsorDB -> result (sponsorDB * ForkSponsorshipPolicy)) policy :
  save = CreateForkSponsorshipPolicy \/ save = UpdateForkSponsorshipPolicy -> pol_SponsorInstallationID policy = sponsor ->
  in_sponsors (sponsor_only sponsor) (onSponsors (save policy)).
Proof.
  intros Hsave Hp. apply onSponsors_frame. intros now db db' a Hok E.
  assert (Hins : forall db1 record, db' = db <| sp_policies := <[pol_SourceRepositoryID policy := record]> (sp_policies db) |> ->
    db1 = db' -> pol_SponsorInstallationID record = sponsor ->
    (forall old, sp_policies db !! pol_SourceRepositoryID policy = Some old -> pol_SponsorInstallationID old = sponsor) ->
    sponsor_only sponsor db db').
  { intros db1 record -> _ Hr Hold. split; [|done]. intros source p Hne. cbn [sp_policies field_update].
    by apply (insert_own (fun p => pol_SponsorInstallationID p = sponsor)). }
  destruct Hsave as [-> | ->].
  - unfold CreateForkSponsorshipPolicy in E. case_match; [done|]. case_match eqn:El; [done|]. injection E as <- <-.
    eapply Hins; [done|done|done|]. intros old Ho. change (pol_SourceRepositoryID (trimmedPolicy policy)) with (pol_SourceRepositoryID policy) in El.
    congruence.
  - unfold UpdateForkSponsorshipPolicy in E. case_match; [done|]. case_match eqn:El; [|done].
    destruct (negb _) eqn:En in E; [done|]. injection E as <- <-.
    change (pol_SourceRepositoryID (trimmedPolicy policy)) with (pol_SourceRepositoryID policy) in *.
    change (pol_SponsorInstallationID (trimmedPolicy policy)) with (pol_SponsorInstallationID policy) in En. bool_prop.
    eapply Hins; [done|done| |]; [cbn; lia|]. intros old Ho. assert (old = f) as -> by congruence. lia.
Qed.

Lemma policy_delete_frame source :
  in_sponsors (sponsor_only sponsor) (onSponsors (fun _ db => let? db := DeleteForkSponsorshipPolicy sponsor source db in Ok (db, tt))).
Proof.
  apply onSponsors_frame. intros now db db' a Hok E. apply result_bind_Ok in E as (db1 & E1 & E). injection E as <- <-.
  apply result_bind_Ok in E1 as ([] & E1 & E). injection E as <-.
  apply result_bind_Ok in E1 as (p & E1 & _). unfold GetForkSponsorshipPolicy in E1. case_match eqn:El; [|done]. case_match eqn:Es; [|done].
  injection E1 as ->. bool_prop. split; cbn [sp_policies sp_approvals].
  - intros x q Hq. destruct (decide (source = x)) as [<-|Hne]; [|by rewrite lookup_delete_ne].
    rewrite lookup_delete_eq, El. split; [done|]. intros [= ->]. lia.
  - intros key q Hq. rewrite map_lookup_filter_Some. cbn. unfold of_policy.
    split; [by intros [? _]|]. intros H. split; [done|]. destruct (Z.eqb_spec (apr_SponsorInstallationID q) sponsor); [lia|done].
Qed.

Lemma approval_save_frame approval : apr_SponsorInstallationID approval = sponsor ->
  in_sponsors (sponsor_only sponsor) (onSponsors (UpsertForkSponsorshipApproval approval)).
Proof.
  intros Ha. apply onSponsors_frame. intros now db db' a Hok E. unfold UpsertForkSponsorshipApproval in E. case_match; [done|].
  apply result_bind_Ok in E as ([] & E1 & E). apply result_bind_Ok in E as (saved & _ & E). injection E as <- <-.
  apply result_bind_Ok in E1 as (p & E1 & _). unfold GetForkSponsorshipPolicy in E1. case_match eqn:El; [|done]. case_match eqn:Es; [|done].
  injection E1 as ->. bool_prop. split; [done|]. intros key q Hq. unfold upsertForkSponsorshipApprovalRecord. cbn [sp_approvals field_update].
  apply (insert_own (fun a => apr_SponsorInstallationID a = sponsor)); [by case_match| |done].
  intros old Ho. destruct Hok as [_ Hap]. specialize (Hap _ _ Ho) as (_ & _ & _ & _ & q' & Hpol & Hsp). cbn in *.
  rewrite El in Hpol. injection Hpol as ->. lia.
Qed.

Lemma approval_delete_frame source fork :
  in_sponsors (sponsor_only sponsor)
    (onSponsors (fun _ db => let? db := DeleteForkSponsorshipApproval sponsor source fork db in Ok (db, tt))).
Proof.
  apply onSponsors_frame. intros now db db' a Hok E. apply result_bind_Ok in E as (db1 & E1 & E). injection E as <- <-.
  unfold DeleteForkSponsorshipApproval in E1. case_match eqn:El; [|done]. case_match eqn:Es; [|done]. injection E1 as <-. bool_prop.
  split; [done|]. intros key q Hq. cbn [sp_approvals field_update]. destruct (decide ((source, fork) = key)) as [<-|Hne].
  - rewrite lookup_delete_eq, El. split; [done|]. intros [= ->]. lia.
  - by rewrite lookup_delete_ne.
Qed.
End sponsors.
