(* ===== verification/SponsorshipHandlers.v ===== *)
(** * The handlers of fork sponsorships (internal/server/server_user_fork_sponsorships.go)

    Owners of an organization manage the policies of its installation and the approvals of
    forks.  The lock around each mutation orders it with the starts of sponsored runners;
    the mutation itself is one transaction. *)

From stdpp Require Import base gmap list strings sorting.
From S2P Require Import Prelude GoStrings Query Rows RunnerModel RunnerStore RunnerQueries AccountModel AccountStore Sponsorship Catalog Program ServerCalls.
From S2P Require Import ServiceSelection CacheScopes Sessions RepoAccess UserHandlers.

Record userForkSponsorshipPolicyResponse := MkPolicyResponse { pres_Policy : ForkSponsorshipPolicy; pres_Approvals : list ForkSponsorshipApproval }.

Record userForkSponsorshipRepositoryResponse := MkRepositoryResponse { rres_ID : Z; rres_Name : string; rres_FullName : string }.

Record userForkSponsorshipPolicyInput := MkPolicyInput {
  pin_SourceRepositoryFullName : string;
  pin_Mode : string;
  pin_Enabled : bool;
  pin_MaxConcurrency : Z
}.

Record userForkSponsorshipApprovalInput := MkApprovalInput { ain_ForkRepositoryFullName : string }.

Section handlers.
Context {Service : Type} (s : server Service).

Abbreviation githubInstallationOwner := (githubInstallationOwner (srv_github s)).

Definition positivePathInt64 (value : string) : option Z := pathID (TrimSpace value).

(** The session, the account, the installation and its owner, an organization the viewer owns. *)
Definition userForkSponsorshipScope {A} (r : http_request)
    : sprog (reply A + adminSession * Account * Z * GitHubInstallationAccount) :=
  let*+ (session, account) := requireUserSession (srv_sessions s) r in
  let* scope := accountPreferenceScopeFromRequest (ac_ID account) r in
  match scope with
  | Err _ => Done (inl (writeErrorCode 400 "fork_sponsorship_scope_invalid"))
  | Ok scope =>
      if negb (bool_decide (scope_Type scope = AccountScopeTypeGitHubInstall))
      then Done (inl (writeErrorCode 400 "fork_sponsorship_scope_invalid")) else
      let* manageable := accountPreferenceScopeManageable s (ac_ID account) scope in
      match manageable with
      | Err err => Done (inl (authorizationRefusal err))
      | Ok false => Done (inl (writeErrorCode 403 "fork_sponsorship_scope_forbidden"))
      | Ok true =>
          let* owner := githubInstallationOwner (scope_ID scope) in
          match owner with
          | Err _ => Done (inl (writeError 502))
          | Ok owner =>
              if negb (EqualFold (TrimSpace (ga_AccountType owner)) "organization")
              then Done (inl (writeErrorCode 400 "fork_sponsorship_scope_invalid"))
              else Done (inr (session, account, scope_ID scope, owner))
          end
      end
  end.

(** ** Lists *)

Definition qPolicies (installationID : Z) : scall (result (list ForkSponsorshipPolicy)) :=
  SRead (fun t => Ok (ListForkSponsorshipPolicies installationID (tb_sponsors t))).
Definition qApprovals (installationID sourceRepositoryID : Z) : scall (result (list ForkSponsorshipApproval)) :=
  SRead (fun t => Ok (ListForkSponsorshipApprovals installationID sourceRepositoryID (tb_sponsors t))).

Fixpoint policyItems (installationID : Z) (policies : list ForkSponsorshipPolicy) : sprog (result (list userForkSponsorshipPolicyResponse)) :=
  match policies with
  | [] => Done (Ok [])
  | policy :: rest =>
      let*? approvals := perform (qApprovals installationID (pol_SourceRepositoryID policy)) in
      let*? items := policyItems installationID rest in
      Done (Ok (MkPolicyResponse policy approvals :: items))
  end.

Definition handleUserListForkSponsorshipPolicies (r : http_request) : sprog (reply (list userForkSponsorshipPolicyResponse)) :=
  let*! (_, _, installationID, _) := userForkSponsorshipScope r in
  let* policies := perform (qPolicies installationID) in
  match policies with
  | Err _ => Done (writeError 500)
  | Ok policies =>
      let* items := policyItems installationID policies in
      Done (match items with Err _ => writeError 500 | Ok items => writeJSON 200 items end)
  end.

(** The repositories of the organization itself that can be sponsored. *)
Definition sponsorable (owner : GitHubInstallationAccount) (repository : Repository) : option userForkSponsorshipRepositoryResponse :=
  if (repo_ID repository <=? 0)%Z || repo_Fork repository || negb (gha_ID (repo_Owner repository) =? ga_GitHubAccountID owner)%Z
     || negb (EqualFold (TrimSpace (gha_Login (repo_Owner repository))) (TrimSpace (ga_AccountLogin owner))) then None else
  let fullName := TrimSpace (repo_FullName repository) in
  let name := TrimSpace (repo_Name repository) in
  if bool_decide (fullName = "") || bool_decide (name = "") then None else Some (MkRepositoryResponse (repo_ID repository) name fullName).

(** [sort.Slice] by the lower-case name; the order of equal names is not specified. *)
Definition handleUserListForkSponsorshipRepositories (r : http_request) : sprog (reply (list userForkSponsorshipRepositoryResponse)) :=
  let*! (_, account, installationID, owner) := userForkSponsorshipScope r in
  if negb (srv_github s) then Done (writeError 500) else
  let* token := userAccessToken s (ac_ID account) in
  match token with
  | Err err => Done (authorizationRefusal err)
  | Ok token =>
      let* listed := perform (SUserRepositoryDetails token installationID) in
      Done (match listed with
            | Err err => authorizationRefusal err
            | Ok repositories =>
                writeJSON 200 (merge_sort (onle (fun i => ToLower (rres_FullName i)) String.le) (omap (M:=list) (sponsorable owner) repositories))
            end)
  end.

(** ** Policies *)

Definition validateForkSponsorshipSource (owner : GitHubInstallationAccount) (sourceRepositoryID : Z) (fullName : string)
    : sprog (result Repository) :=
  if negb (srv_github s) then Done (Err (ErrText "github client is not configured")) else
  let* r := perform (SGetRepository (TrimSpace fullName)) in
  match r with
  | Err err => Done (Err (ErrWrap "resolve source repository: " err ""))
  | Ok repository =>
      if negb (repo_ID repository =? sourceRepositoryID)%Z || repo_Fork repository || (gha_ID (repo_Owner repository) <=? 0)%Z
         || negb (gha_ID (repo_Owner repository) =? ga_GitHubAccountID owner)%Z
         || negb (EqualFold (TrimSpace (gha_Login (repo_Owner repository))) (TrimSpace (ga_AccountLogin owner)))
      then Done (Err (ErrText "repository identity does not match the organization installation")) else Done (Ok repository)
  end.

Definition policyOf (installationID : Z) (repository : Repository) (input : userForkSponsorshipPolicyInput) : ForkSponsorshipPolicy :=
  MkForkSponsorshipPolicy installationID (repo_ID repository) (repo_FullName repository) (TrimSpace (pin_Mode input)) (pin_Enabled input)
    (pin_MaxConcurrency input) 0 0.

Definition policyPayload (policy : ForkSponsorshipPolicy) : list (string * json_value) :=
  [("source_repository_full_name", JString (pol_SourceRepositoryFullName policy)); ("mode", JString (pol_Mode policy));
   ("enabled", JBool (pol_Enabled policy)); ("max_concurrency", JInt (pol_MaxConcurrency policy))].

Definition pairID (a b : Z) : string := FormatInt a +:+ ":" +:+ FormatInt b.

(** The source has no other sponsor. *)
Definition sourceIsFree (installationID sourceRepositoryID : Z) : sprog (reply ForkSponsorshipPolicy + unit) :=
  let* existing := perform (qPolicyBySource sourceRepositoryID) in
  Done (match existing with
        | Ok existing => if negb (pol_SponsorInstallationID existing =? installationID)%Z
                         then inl (writeErrorCode 409 "fork_sponsorship_source_conflict") else inr tt
        | Err err => if errors_is err ErrNotFound then inr tt else inl (writeError 500)
        end).

(** The transaction of an update or of a creation, with its audit record. *)
Definition savePolicy (session : adminSession) (action : string) (installationID : Z) (policy : ForkSponsorshipPolicy)
    (save : ForkSponsorshipPolicy -> Time -> sponsorDB -> result (sponsorDB * ForkSponsorshipPolicy)) : sprog (result ForkSponsorshipPolicy) :=
  applyMutationWithAudit s (actorOf session) action "fork_sponsorship_policy" (pairID installationID (pol_SourceRepositoryID policy))
    (Some (policyPayload policy)) (onSponsors (save policy)).

Definition handleUserPutForkSponsorshipPolicy (decode : string -> option userForkSponsorshipPolicyInput) (r : http_request)
    : sprog (reply ForkSponsorshipPolicy) :=
  let*! (session, _, installationID, owner) := userForkSponsorshipScope r in
  match positivePathInt64 (http_path r "sourceRepositoryID"), decode (http_body r) with
  | None, _ => Done (writeError 400)
  | _, None => Done (writeErrorCode 400 "invalid_fork_sponsorship_policy")
  | Some sourceRepositoryID, Some input =>
      let* repository := validateForkSponsorshipSource owner sourceRepositoryID (pin_SourceRepositoryFullName input) in
      match repository with
      | Err _ => Done (writeErrorCode 400 "invalid_fork_sponsorship_source")
      | Ok repository =>
          let*! _ := sourceIsFree installationID (repo_ID repository) in
          let* saved := savePolicy session "fork_sponsorship_policy.update" installationID (policyOf installationID repository input)
                          UpdateForkSponsorshipPolicy in
          Done (match saved with
                | Ok saved => writeJSON 200 saved
                | Err err =>
                    if errors_is err ErrConflict then writeErrorCode 409 "fork_sponsorship_source_conflict" else
                    if errors_is err ErrNotFound then writeError 404 else writeErrorCode 400 "invalid_fork_sponsorship_policy"
                end)
      end
  end.

Definition handleUserCreateForkSponsorshipPolicy (decode : string -> option userForkSponsorshipPolicyInput) (r : http_request)
    : sprog (reply ForkSponsorshipPolicy) :=
  let*! (session, _, installationID, owner) := userForkSponsorshipScope r in
  match decode (http_body r) with
  | None => Done (writeErrorCode 400 "invalid_fork_sponsorship_policy")
  | Some input =>
      if negb (srv_github s) then Done (writeError 500) else
      let* found := perform (SGetRepository (TrimSpace (pin_SourceRepositoryFullName input))) in
      match found with
      | Err _ => Done (writeErrorCode 400 "invalid_fork_sponsorship_source")
      | Ok found =>
          let* repository := validateForkSponsorshipSource owner (repo_ID found) (repo_FullName found) in
          match repository with
          | Err _ => Done (writeErrorCode 400 "invalid_fork_sponsorship_source")
          | Ok repository =>
              let*! _ := sourceIsFree installationID (repo_ID repository) in
              let* saved := savePolicy session "fork_sponsorship_policy.create" installationID (policyOf installationID repository input)
                              CreateForkSponsorshipPolicy in
              Done (match saved with
                    | Ok saved => writeJSON 201 saved
                    | Err err => if errors_is err ErrConflict then writeErrorCode 409 "fork_sponsorship_source_conflict"
                                 else writeErrorCode 400 "invalid_fork_sponsorship_policy"
                    end)
          end
      end
  end.

Definition handleUserDeleteForkSponsorshipPolicy (r : http_request) : sprog (reply Empty_set) :=
  let*! (session, _, installationID, _) := userForkSponsorshipScope r in
  match positivePathInt64 (http_path r "sourceRepositoryID") with
  | None => Done (writeError 400)
  | Some sourceRepositoryID =>
      let* deleted := applyMutationWithAudit s (actorOf session) "fork_sponsorship_policy.delete" "fork_sponsorship_policy"
        (pairID installationID sourceRepositoryID) None
        (onSponsors (fun _ db => let? db := DeleteForkSponsorshipPolicy installationID sourceRepositoryID db in Ok (db, tt))) in
      Done (match deleted with
            | Ok _ => MkReply 204 [] [] BEmpty
            | Err err => writeError (if errors_is err ErrNotFound then 404 else 500)
            end)
  end.

(** ** Approvals *)

(** The repository is a fork of the sponsored source. *)
Definition isForkOf (policy : ForkSponsorshipPolicy) (sourceRepositoryID : Z) (fork : Repository) : bool :=
  match repo_Source fork with
  | None => false
  | Some source =>
      repo_Fork fork && (0 <? repo_ID fork)%Z && (0 <? gha_ID (repo_Owner fork))%Z
      && negb (bool_decide (TrimSpace (gha_Login (repo_Owner fork)) = "")) && (repo_ID source =? sourceRepositoryID)%Z
      && EqualFold (TrimSpace (repo_FullName source)) (pol_SourceRepositoryFullName policy)
  end.

Definition handleUserAddForkSponsorshipApproval (decode : string -> option userForkSponsorshipApprovalInput) (r : http_request)
    : sprog (reply ForkSponsorshipApproval) :=
  let*! (session, _, installationID, _) := userForkSponsorshipScope r in
  if negb (srv_github s) then Done (writeError 500) else
  match positivePathInt64 (http_path r "sourceRepositoryID") with
  | None => Done (writeError 400)
  | Some sourceRepositoryID =>
      let* policy := perform (qPolicy installationID sourceRepositoryID) in
      match policy with
      | Err err => Done (writeError (if errors_is err ErrNotFound then 404 else 500))
      | Ok policy =>
          match decode (http_body r) with
          | None => Done (writeErrorCode 400 "invalid_fork_sponsorship_approval")
          | Some input =>
              let* fork := perform (SGetRepository (TrimSpace (ain_ForkRepositoryFullName input))) in
              match fork with
              | Err _ => Done (writeErrorCode 400 "invalid_fork_sponsorship_approval")
              | Ok fork =>
                  if negb (isForkOf policy sourceRepositoryID fork) then Done (writeErrorCode 400 "invalid_fork_sponsorship_approval") else
                  let approval := MkForkSponsorshipApproval installationID sourceRepositoryID (repo_ID fork) (repo_FullName fork)
                    (gha_ID (repo_Owner fork)) (gha_Login (repo_Owner fork)) 0 0 in
                  let* saved := applyMutationWithAudit s (actorOf session) "fork_sponsorship_approval.upsert" "fork_sponsorship_approval"
                    (pairID sourceRepositoryID (repo_ID fork))
                    (Some [("fork_repository_full_name", JString (repo_FullName fork)); ("fork_owner_login", JString (gha_Login (repo_Owner fork)))])
                    (onSponsors (UpsertForkSponsorshipApproval approval)) in
                  Done (match saved with Err _ => writeError 500 | Ok saved => writeJSON 200 saved end)
              end
          end
      end
  end.

Definition handleUserDeleteForkSponsorshipApproval (r : http_request) : sprog (reply Empty_set) :=
  let*! (session, _, installationID, _) := userForkSponsorshipScope r in
  match positivePathInt64 (http_path r "sourceRepositoryID"), positivePathInt64 (http_path r "forkRepositoryID") with
  | Some sourceRepositoryID, Some forkRepositoryID =>
      let* deleted := applyMutationWithAudit s (actorOf session) "fork_sponsorship_approval.delete" "fork_sponsorship_approval"
        (pairID sourceRepositoryID forkRepositoryID) None
        (onSponsors (fun _ db => let? db := DeleteForkSponsorshipApproval installationID sourceRepositoryID forkRepositoryID db in Ok (db, tt))) in
      Done (match deleted with
            | Ok _ => MkReply 204 [] [] BEmpty
            | Err err => writeError (if errors_is err ErrNotFound then 404 else 500)
            end)
  | _, _ => Done (writeError 400)
  end.
End handlers.
