(* ===== verification/SpecHandlers.v ===== *)
(** * The handlers of runner specs of a scope
    (internal/server/server_user_runner_specs.go, server_runner_groups.go)

    The owner of an account or of an installation keeps runner specs of its own.  A spec that
    active requests use may be enabled, disabled and limited, but not change what it runs.
    The lock around each mutation orders it with admissions; the check for active requests is
    repeated inside the transaction. *)

From stdpp Require Import base gmap list strings.
From S2P Require Import Prelude GoStrings GitHubErrors Rows RunnerModel RunnerStore RunnerQueries AccountModel AccountStore Sponsorship Catalog Templates Program ServerCalls.
From S2P Require Import ServiceSelection CacheScopes Sessions RepoAccess UserHandlers.
From Stdlib Require Import Ascii.

(** The scope of a catalog, and the scope of settings. *)
Abbreviation profile_Type := RunnerQueries.scope_Type.
Abbreviation profile_ID := RunnerQueries.scope_ID.

(** ** Inputs and replies *)

Record userRunnerSpecResponse := MkSpecResponse {
  us_Name : string;
  us_Source : string;
  us_Published : bool;
  us_WorkflowLabels : list string;
  us_TemplateID : string;
  us_DefaultTemplateName : string;
  us_RunnerGroup : string;
  us_Enabled : bool;
  us_MaxConcurrency : Z;
  us_OverridesGlobal : bool;
  us_UpdatedAt : Time
}.

Record userRunnerSpecListResponse := MkSpecList {
  sl_Scope : RunnerProfileScope;
  sl_SandboxSource : string;
  sl_SandboxRegion : string;
  sl_Items : list userRunnerSpecResponse
}.

Record userRunnerSpecMutationRequest := MkSpecInput {
  sm_Name : string;
  sm_WorkflowLabels : list string;
  sm_TemplateID : string;
  sm_RunnerGroup : string;
  sm_MaxConcurrency : Z;
  sm_Enabled : bool
}.

(** A field is [None] when the body has none. *)
Record userRunnerSpecPatchRequest := MkSpecPatch {
  pi_WorkflowLabels : option (list string);
  pi_TemplateID : option string;
  pi_RunnerGroup : option string;
  pi_MaxConcurrency : option Z;
  pi_Enabled : option bool;
  pi_ExpectedUpdatedAt : string
}.

Definition errRunnerSpecInUse : goerror := ErrSentinel "runner spec is in use".
Definition ErrTemplateNotFound : goerror := ErrSentinel "template not found".
Definition ErrTemplateNotReady : goerror := ErrSentinel "template is not ready".
Definition ErrTemplateStateUnavailable : goerror := ErrSentinel "template default build state cannot be confirmed".
Definition ErrContextCanceled : goerror := ErrSentinel "context.Canceled".

(** ** Runner groups *)

Definition errRunnerGroupScopeNotOrganization : goerror := ErrSentinel "organization scope is required for runner groups".
Definition ErrRunnerGroupNotFound : goerror := ErrSentinel "GitHub Runner group does not exist in the repository owner's organization".
Definition ErrRunnerGroupInherited : goerror := ErrSentinel "an inherited enterprise Runner group cannot register an organization Runner".
Definition ErrRunnerGroupRepositoryDenied : goerror := ErrSentinel "GitHub Runner group does not allow the target repository".

Definition interrupted (err : goerror) : bool := errors_is err ErrDeadlineExceeded || errors_is err ErrContextCanceled.

(** The status and the code of an error of runner groups. *)
Definition runnerGroupProblem (err : goerror) : Z * string :=
  let status := ErrorStatus err in
  if errors_is err errRunnerGroupScopeNotOrganization then (400, "runner_group_not_supported")%Z else
  if errors_is err ErrRunnerGroupNotFound || errors_is err ErrRunnerGroupInherited then (400, "runner_group_not_found")%Z else
  if errors_is err ErrRunnerGroupRepositoryDenied then (400, "runner_group_repository_denied")%Z else
  if interrupted err then (504, "runner_group_timeout")%Z else
  if IsRateLimitError err || bool_decide (status = Some StatusTooManyRequests) then (503, "runner_group_rate_limited")%Z else
  if bool_decide (status ∈ [Some StatusForbidden; Some StatusUnauthorized; Some StatusNotFound])
  then (502, "runner_group_permission_denied")%Z else (502, "runner_group_unavailable")%Z.

Definition writeRunnerGroupError {A} (err : goerror) : reply A :=
  let '(status, code) := runnerGroupProblem err in writeErrorCode status code.

Definition writeScopedTemplateValidationError {A} (err : goerror) : reply A :=
  if errors_is err errSandboxServiceNotConfigured then writeErrorCode 409 "sandbox_service_not_configured" else
  if errors_is err ErrTemplateNotFound then writeErrorCode 400 "template_not_found" else
  if errors_is err ErrTemplateNotReady then writeErrorCode 400 "template_not_ready" else
  if interrupted err then writeErrorCode 504 "template_validation_timeout"
  else writeErrorCode 502 "template_validation_unavailable".

Section handlers.
Context {Service : Type} (s : server Service).

Abbreviation githubInstallationOwner := (githubInstallationOwner (srv_github s)).
Abbreviation sandboxServiceForScope := (sandboxServiceForScope (decryptSecret s) (newE2BService s) (decodeService s)).
Abbreviation NormalizeWorkflowLabels := (NormalizeWorkflowLabels (labelHash s)).

Definition organizationRunnerGroups (scope : RunnerProfileScope) : sprog (result (string * list RunnerGroup)) :=
  if negb (bool_decide (profile_Type scope = AccountScopeTypeGitHubInstall)) then Done (Err errRunnerGroupScopeNotOrganization) else
  let*? owner := githubInstallationOwner (profile_ID scope) in
  if negb (EqualFold (ga_AccountType owner) "organization") then Done (Err errRunnerGroupScopeNotOrganization) else
  let*? groups := perform (SRunnerGroups (profile_ID scope) (ga_AccountLogin owner)) in
  Done (Ok (ga_AccountLogin owner, List.filter (fun group => negb (grp_Inherited group)) groups)).

Definition validateScopedRunnerGroup (scope : RunnerProfileScope) (name : string) : sprog (result unit) :=
  if bool_decide (TrimSpace name = "") then Done (Ok tt) else
  let*? (_, groups) := organizationRunnerGroups scope in
  Done (if existsb (fun group => EqualFold (grp_Name group) (TrimSpace name)) groups then Ok tt else Err ErrRunnerGroupNotFound).

(** ** The scope of a request *)

(** As [runnerProfileScopeForInstallation]. *)
Definition profileScopeOfInstallation (installationID : Z) : sprog (result (option RunnerProfileScope)) :=
  if (installationID <=? 0)%Z then Done (Ok None) else
  let*? (accountID, ok) := perform (qPersonal installationID) in
  if ok && (0 <? accountID)%Z then Done (Ok (Some (MkScope RunnerProfileScopeAccount accountID))) else
  let* owner := perform (qOwner installationID) in
  match owner with
  | Err err => Done (if errors_is err ErrNotFound then Ok None else Err err)
  | Ok owner =>
      Done (Ok (if bool_decide (ga_AccountType owner ∈ ["Organization"; "organization"])
                then Some (MkScope RunnerProfileScopeGitHubInstallation installationID) else None))
  end.

Definition userRunnerScope {A} (r : http_request) (accountID : Z) : sprog (reply A + RunnerProfileScope * accountPreferenceScope) :=
  let* prefScope := accountPreferenceScopeFromRequest accountID r in
  match prefScope with
  | Err _ => Done (inl (writeErrorCode 400 "runner_spec_scope_invalid"))
  | Ok prefScope =>
      let* manageable := accountPreferenceScopeManageable s accountID prefScope in
      match manageable with
      | Err err => Done (inl (authorizationRefusal err))
      | Ok false => Done (inl (writeErrorCode 403 "runner_spec_scope_forbidden"))
      | Ok true =>
          let own := (MkScope (scope_Type prefScope) (scope_ID prefScope), prefScope) in
          if negb (bool_decide (scope_Type prefScope = AccountScopeTypeGitHubInstall)) then Done (inr own) else
          let* canonical := profileScopeOfInstallation (scope_ID prefScope) in
          Done (match canonical with
                | Err _ => inl (writeError 500)
                | Ok None => inr own
                | Ok (Some canonical) =>
                    inr (canonical, if bool_decide (profile_Type canonical = RunnerProfileScopeAccount)
                                    then MkPreferenceScope AccountScopeTypeAccount (profile_ID canonical) else prefScope)
                end)
      end
  end.

(** The session, the account and the scope. *)
Definition specScope {A} (r : http_request) : sprog (reply A + adminSession * Account * RunnerProfileScope * accountPreferenceScope) :=
  let*+ (session, account) := requireUserSession (srv_sessions s) r in
  let*+ (scope, prefScope) := userRunnerScope r (ac_ID account) in
  Done (inr (session, account, scope, prefScope)).

Definition handleUserListGitHubRunnerGroups (r : http_request) : sprog (reply (string * list RunnerGroup)) :=
  let* answer :=
    let*! (_, _, scope, _) := specScope r in
    if negb (bool_decide (profile_Type scope = AccountScopeTypeGitHubInstall))
    then Done (writeRunnerGroupError errRunnerGroupScopeNotOrganization) else
    let* groups := organizationRunnerGroups scope in
    Done (match groups with Err err => writeRunnerGroupError err | Ok groups => writeJSON 200 groups end) in
  Done (with_headers [("Cache-Control", "no-store")] answer).

(** ** Lists *)

Definition sandboxRegionForAPIURL (rawURL : string) : string :=
  let normalized := TrimRight (TrimSpace rawURL) "/"%char in
  match List.find (fun region => EqualFold normalized (TrimRight (TrimSpace (rg_SandboxAPIURL region)) "/"%char)) (srv_regions s) with
  | Some region => TrimSpace (rg_ID region)
  | None => ""
  end.

Definition specItem (item : EffectiveRunnerProfile) : option userRunnerSpecResponse :=
  let profile := ep_Profile item in
  let scoped := bool_decide (ep_Source item = "scoped_custom") in
  if negb scoped && negb (p_Published profile) then None else
  Some (MkSpecResponse (p_Name profile) (ep_Source item) (p_Published profile) (ep_WorkflowLabels item)
          (if scoped then p_TemplateID profile else "") (p_DefaultTemplateName profile)
          (if scoped then p_RunnerGroup profile else "") (p_Enabled profile) (p_MaxConcurrency profile) (ep_OverridesGlobal item)
          (p_UpdatedAt profile)).

Definition qEffective (scope : RunnerProfileScope) : scall (result (list EffectiveRunnerProfile)) :=
  SRead (fun t => ListEffectiveProfiles (labelHash s) scope (tb_profiles t) (tb_scoped t)).

Definition writeUserRunnerSpecList (scope : RunnerProfileScope) (prefScope : accountPreferenceScope)
    : sprog (reply userRunnerSpecListResponse) :=
  let* items := perform (qEffective scope) in
  match items with
  | Err _ => Done (writeError 500)
  | Ok items =>
      let* service := sandboxServiceForScope prefScope in
      let '(source, region) :=
        match service with Ok (_, snapshot) => (snap_Source snapshot, sandboxRegionForAPIURL (snap_APIURL snapshot)) | Err _ => ("none", "") end in
      Done (writeJSON 200 (MkSpecList scope source region (omap (M:=list) specItem items)))
  end.

Definition handleUserListRunnerSpecs (r : http_request) : sprog (reply userRunnerSpecListResponse) :=
  let*! (_, _, scope, prefScope) := specScope r in writeUserRunnerSpecList scope prefScope.

(** ** Validation *)

Definition validUserRunnerSpecName (name : string) : bool :=
  negb (bool_decide (name = "")) && negb (Contains name "/") && negb (bool_decide (name = ".")) && negb (bool_decide (name = "..")).

(** [required] is true in all calls of this file, false for administrators. *)
Definition parseRunnerSpecRevision {A} (value : string) (required : bool) : reply A + Time :=
  let value := TrimSpace value in
  if bool_decide (value = "") then if required then inl (writeErrorCode 400 "invalid_runner_spec_revision") else inr 0%Z else
  match parseTime s value with
  | None => inl (writeErrorCode 400 "invalid_runner_spec_revision")
  | Some revision => inr revision
  end.

Definition validateScopedProfileTemplate (scope : accountPreferenceScope) (templateID : string) : sprog (result unit) :=
  let* selected := sandboxServiceForScope scope in
  match selected with
  | Err _ => Done (Err errSandboxServiceNotConfigured)
  | Ok (_, snapshot) =>
      match sandboxServiceForConfig (decryptSecret s) (newE2BService s) snapshot with
      | Err err => Done (Err err)
      | Ok service => perform (SValidateTemplate service (TrimSpace templateID))
      end
  end.

Definition specID (scope : RunnerProfileScope) (name : string) : string :=
  profile_Type scope +:+ ":" +:+ FormatInt (profile_ID scope) +:+ ":" +:+ name.

(** ** Creation *)

Definition saveSpec (profile : ScopedRunnerProfile) (expected : option Time) (now : Time) (t : tables)
    : result (tables * ScopedRunnerProfile) :=
  match UpsertScopedProfileIfUnchanged (labelHash s) profile expected now (tb_profiles t) (tb_scoped t) with
  | (scoped, Ok saved) => Ok (t <| tb_scoped := scoped |>, saved)
  | (_, Err err) => Err err
  end.

Definition specOf (scope : RunnerProfileScope) (name : string) (labels : list string) (input : userRunnerSpecMutationRequest) : ScopedRunnerProfile :=
  MkScopedRunnerProfile (profile_Type scope) (profile_ID scope) name labels "" (TrimSpace (sm_TemplateID input))
    (TrimSpace (sm_RunnerGroup input)) (sm_MaxConcurrency input) (sm_Enabled input) 0 0.

Definition handleUserCreateRunnerSpec (decode : string -> option userRunnerSpecMutationRequest) (r : http_request)
    : sprog (reply userRunnerSpecListResponse) :=
  let*! (session, _, scope, prefScope) := specScope r in
  match decode (http_body r) with
  | None => Done (writeErrorCode 400 "invalid_runner_spec")
  | Some input =>
      if bool_decide (profile_Type scope = AccountScopeTypeAccount) && negb (bool_decide (TrimSpace (sm_RunnerGroup input) = ""))
      then Done (writeErrorCode 400 "runner_group_not_supported") else
      let name := TrimSpace (sm_Name input) in
      match NormalizeWorkflowLabels (sm_WorkflowLabels input) with
      | Err _ => Done (writeErrorCode 400 "invalid_runner_spec")
      | Ok (labels, _) =>
          if negb (validUserRunnerSpecName name) || bool_decide (TrimSpace (sm_TemplateID input) = "") || (sm_MaxConcurrency input <? 0)%Z
          then Done (writeErrorCode 400 "invalid_runner_spec") else
          let* group := validateScopedRunnerGroup scope (sm_RunnerGroup input) in
          match group with
          | Err err => Done (writeRunnerGroupError err)
          | Ok _ =>
              let* template := validateScopedProfileTemplate prefScope (sm_TemplateID input) in
              match template with
              | Err err => Done (writeScopedTemplateValidationError err)
              | Ok _ =>
                  let profile := specOf scope name labels input in
                  let* saved := applyMutationWithAudit s (actorOf session) "user_runner_spec.create" "scoped_runner_profile" (specID scope name)
                    (Some [("template_id", JString (sp_TemplateID profile)); ("workflow_labels", JStrings labels)]) (saveSpec profile None) in
                  match saved with
                  | Ok _ => writeUserRunnerSpecList scope prefScope
                  | Err err =>
                      Done (if errors_is err ErrRunnerProfileNameConflict then writeErrorCode 409 "runner_spec_name_conflict" else
                            if errors_is err ErrRunnerProfileLabelsConflict then writeErrorCode 409 "runner_spec_labels_conflict" else
                            if errors_is err ErrConflict then writeErrorCode 409 "runner_spec_name_conflict" else writeError 500)
                  end
              end
          end
      end
  end.

(** ** Changes *)

(** The transaction fails when the spec is in use. *)
Definition unlessInUse {A} (check : bool) (scope : RunnerProfileScope) (name : string) (op : Time -> tables -> result (tables * A))
    (now : Time) (t : tables) : result (tables * A) :=
  if check then
    let? count := ActiveCountForProfileScope "scoped_custom" scope name (tb_requests t) in
    if bool_decide (0 < count) then Err errRunnerSpecInUse else op now t
  else op now t.

Definition qActive (scope : RunnerProfileScope) (name : string) : scall (result nat) :=
  SRead (fun t => ActiveCountForProfileScope "scoped_custom" scope name (tb_requests t)).
Definition qScopedProfile (scope : RunnerProfileScope) (name : string) : scall (result ScopedRunnerProfile) :=
  SRead (fun t => GetScopedProfile scope name (tb_scoped t)).

(** A changed spec must not be in use before the transaction either. *)
Definition refusedInUse {A} (check : bool) (scope : RunnerProfileScope) (name : string) : sprog (reply A + unit) :=
  if negb check then Done (inr tt) else
  let* count := perform (qActive scope name) in
  Done (match count with
        | Err _ => inl (writeError 500)
        | Ok count => if bool_decide (0 < count) then inl (writeErrorCode 409 "runner_spec_in_use") else inr tt
        end).

Definition sameStringSlice (a b : list string) : bool := bool_decide (a = b).

(** The labels and the runner group of the patch. *)
Definition patchedLabels {A} (input : userRunnerSpecPatchRequest) (current : ScopedRunnerProfile) : reply A + list string :=
  match pi_WorkflowLabels input with
  | None => inr (sp_WorkflowLabels current)
  | Some labels =>
      match NormalizeWorkflowLabels labels with
      | Err _ => inl (writeErrorCode 400 "invalid_runner_spec")
      | Ok (labels, _) => inr labels
      end
  end.

Definition patchedGroup {A} (scope : RunnerProfileScope) (input : userRunnerSpecPatchRequest) (current : ScopedRunnerProfile) : reply A + string :=
  match pi_RunnerGroup input with
  | None => inr (sp_RunnerGroup current)
  | Some group =>
      if bool_decide (profile_Type scope = AccountScopeTypeAccount) && negb (bool_decide (TrimSpace group = ""))
      then inl (writeErrorCode 400 "runner_group_not_supported") else inr (TrimSpace group)
  end.

Definition specConflict {A} (err : goerror) : reply A :=
  if errors_is err errRunnerSpecInUse then writeErrorCode 409 "runner_spec_in_use" else
  if errors_is err ErrRunnerProfileLabelsConflict then writeErrorCode 409 "runner_spec_labels_conflict" else
  if errors_is err ErrConflict then writeErrorCode 409 "runner_spec_conflict" else writeError 500.

(** What a patch does once its labels and its group are known. *)
Definition savePatch (session : adminSession) (scope : RunnerProfileScope) (prefScope : accountPreferenceScope) (name : string)
    (expected : Time) (input : userRunnerSpecPatchRequest) (current : ScopedRunnerProfile) (labels : list string) (group : string)
    : sprog (reply userRunnerSpecListResponse) :=
  let templateChanged := match pi_TemplateID input with None => false | Some id => negb (bool_decide (TrimSpace id = sp_TemplateID current)) end in
  let labelsChanged := negb (sameStringSlice labels (sp_WorkflowLabels current)) in
  let groupChanged := negb (bool_decide (group = sp_RunnerGroup current)) in
  let changed := labelsChanged || templateChanged || groupChanged in
  let*! _ := refusedInUse changed scope name in
  if match pi_MaxConcurrency input with Some n => (n <? 0)%Z | None => false end then Done (writeErrorCode 400 "invalid_runner_spec") else
  let enabling := match pi_Enabled input with Some enabled => enabled && negb (sp_Enabled current) | None => false end in
  let* valid := if groupChanged || enabling then validateScopedRunnerGroup scope group else Done (Ok tt) in
  match valid with
  | Err err => Done (writeRunnerGroupError err)
  | Ok _ =>
      let* valid := match pi_TemplateID input with
                    | Some id => if templateChanged then validateScopedProfileTemplate prefScope id else Done (Ok tt)
                    | None => Done (Ok tt)
                    end in
      match valid with
      | Err err => Done (writeScopedTemplateValidationError err)
      | Ok _ =>
          let templateID := match pi_TemplateID input with
                            | Some id => if templateChanged then TrimSpace id else sp_TemplateID current
                            | None => sp_TemplateID current
                            end in
          let patched := current <| sp_WorkflowLabels := labels |> <| sp_RunnerGroup := group |> <| sp_TemplateID := templateID |>
                           <| sp_MaxConcurrency := default (sp_MaxConcurrency current) (pi_MaxConcurrency input) |>
                           <| sp_Enabled := default (sp_Enabled current) (pi_Enabled input) |> in
          let* saved := applyMutationWithAudit s (actorOf session) "user_runner_spec.update" "scoped_runner_profile" (specID scope name)
            (Some [("template_id_changed", JBool templateChanged); ("workflow_labels_changed", JBool labelsChanged);
                   ("runner_group_changed", JBool groupChanged)])
            (unlessInUse changed scope name (saveSpec patched (Some expected))) in
          match saved with
          | Ok _ => writeUserRunnerSpecList scope prefScope
          | Err err => Done (specConflict err)
          end
      end
  end.

Definition handleUserPatchRunnerSpec (decode : string -> option userRunnerSpecPatchRequest) (r : http_request)
    : sprog (reply userRunnerSpecListResponse) :=
  let*! (session, _, scope, prefScope) := specScope r in
  match decode (http_body r) with
  | None => Done (writeErrorCode 400 "invalid_runner_spec")
  | Some input =>
      match parseRunnerSpecRevision (pi_ExpectedUpdatedAt input) true with
      | inl answer => Done answer
      | inr expected =>
          let name := TrimSpace (http_path r "name") in
          let* current := perform (qScopedProfile scope name) in
          match current with
          | Err err => Done (if errors_is err ErrNotFound then writeErrorCode 404 "runner_spec_not_found" else writeError 500)
          | Ok current =>
              match patchedLabels input current with
              | inl answer => Done answer
              | inr labels =>
                  match patchedGroup scope input current with
                  | inl answer => Done answer
                  | inr group => savePatch session scope prefScope name expected input current labels group
                  end
              end
          end
      end
  end.

(** ** Deletion *)

Definition deleteSpec (scope : RunnerProfileScope) (name : string) (expected : Time) (now : Time) (t : tables) : result (tables * unit) :=
  match DeleteScopedProfileIfUnchanged scope name (Some expected) (tb_scoped t) with
  | (scoped, None) => Ok (t <| tb_scoped := scoped |>, tt)
  | (_, Some err) => Err err
  end.

Definition handleUserDeleteRunnerSpec (r : http_request) : sprog (reply userRunnerSpecListResponse) :=
  let*! (session, _, scope, prefScope) := specScope r in
  match parseRunnerSpecRevision (http_query r "expected_updated_at") true with
  | inl answer => Done answer
  | inr expected =>
      let name := TrimSpace (http_path r "name") in
      let* current := perform (qScopedProfile scope name) in
      match current with
      | Err err => Done (if errors_is err ErrNotFound then writeErrorCode 404 "runner_spec_not_found" else writeError 500)
      | Ok _ =>
          let*! _ := refusedInUse true scope name in
          let* deleted := applyMutationWithAudit s (actorOf session) "user_runner_spec.delete" "scoped_runner_profile" (specID scope name) None
            (unlessInUse true scope name (deleteSpec scope name expected)) in
          match deleted with
          | Ok _ => writeUserRunnerSpecList scope prefScope
          | Err err =>
              Done (if errors_is err errRunnerSpecInUse then writeErrorCode 409 "runner_spec_in_use" else
                    if errors_is err ErrConflict then writeErrorCode 409 "runner_spec_conflict" else writeError 500)
          end
      end
  end.
End handlers.
