(* ===== verification/ProfileHandlers.v ===== *)
(** * The handlers of the platform's runner specs
    (internal/server/server_admin_handlers.go, server_profile_validation.go)

    Administrators keep the global catalog.  The template of a spec is checked with the
    administrator's sandbox service before the transaction; inside it, a spec that active
    requests use must not change its execution settings. *)

From stdpp Require Import base gmap list strings.
From S2P Require Import Prelude GoStrings Rows RunnerModel RunnerStore RunnerQueries AccountModel AccountStore Sponsorship Catalog Templates Program ServerCalls.
From S2P Require Import ServiceSelection CacheScopes Sessions RepoAccess UserHandlers SpecHandlers.

(** ** Inputs *)

Record createProfileRequest := MkCreateProfile {
  cp_TemplateSource : string;
  cp_DefaultTemplateName : string;
  cp_Published : bool;
  cp_Name : string;
  cp_Labels : list string;
  cp_RequiredLabels : list string;
  cp_TemplateID : string;
  cp_RunnerGroup : string;
  cp_MaxConcurrency : Z;
  cp_MinIdle : option Z;
  cp_Priority : option Z;
  cp_Enabled : option bool
}.

Record patchProfileRequest := MkPatchProfile {
  pp_TemplateSource : option string;
  pp_DefaultTemplateName : option string;
  pp_Published : option bool;
  pp_ExpectedUpdatedAt : string;
  pp_Labels : option (list string);
  pp_RequiredLabels : option (list string);
  pp_TemplateID : option string;
  pp_RunnerGroup : option string;
  pp_MaxConcurrency : option Z;
  pp_MinIdle : option Z;
  pp_Priority : option Z;
  pp_Enabled : option bool
}.

(** The body of a request: the names of its fields, and its typed content. *)
Record payload_codec (A : Type) := MkPayloadCodec { payload_fields : string -> option (list string); payload_decode : string -> option A }.
Arguments payload_fields {A}.
Arguments payload_decode {A}.

Definition containsAny (fields names : list string) : bool := existsb (fun field => existsb (EqualFold field) names) fields.

(** [readProfileRequestPayload], the fields clients must not set, and [decode]. *)
Definition readProfilePayload {A B} (codec : payload_codec A) (body : string) : reply B + A :=
  match payload_fields codec body with
  | None => inl (writeError 400)
  | Some fields =>
      if containsAny fields ["managed_by"; "catalog_revision"] then inl (writeError 400) else
      match payload_decode codec body with None => inl (writeError 400) | Some input => inr input end
  end.

(** The JSON of a profile. *)
Definition profilePayload (p : RunnerProfile) : list (string * json_value) :=
  let optional (field value : string) := if bool_decide (value = "") then [] else [(field, JString value)] in
  [("template_source", JString (p_TemplateSource p)); ("published", JBool (p_Published p)); ("name", JString (p_Name p));
   ("labels", JStrings (p_Labels p)); ("required_labels", JStrings (p_RequiredLabels p)); ("template_id", JString (p_TemplateID p))]
  ++ optional "default_template_name" (p_DefaultTemplateName p) ++ optional "runner_group" (p_RunnerGroup p)
  ++ [("max_concurrency", JInt (p_MaxConcurrency p)); ("min_idle", JInt (p_MinIdle p)); ("priority", JInt (p_Priority p));
      ("enabled", JBool (p_Enabled p))]
  ++ optional "managed_by" (p_ManagedBy p) ++ (if (p_CatalogRevision p =? 0)%Z then [] else [("catalog_revision", JInt (p_CatalogRevision p))])
  ++ [("created_at", JTime (p_CreatedAt p)); ("updated_at", JTime (p_UpdatedAt p))].

(** ** Errors *)

(** The status of an error of the sandbox API, which is an [ErrAPI] of operation "sandbox". *)
Definition sandboxAPIStatus (err : goerror) : option Z :=
  head (omap (fun e => match e with
                       | ErrAPI operation status _ _ _ => if bool_decide (operation = "sandbox") then Some status else None
                       | _ => None
                       end) (error_chain err)).

Definition writeAdminTemplateError {A} (err : goerror) : reply A :=
  if interrupted err then writeErrorCode 504 "template_validation_timeout" else
  if errors_is err ErrTemplateNotFound then writeErrorCode 400 "template_not_found" else
  if errors_is err ErrTemplateNotReady then writeErrorCode 400 "template_not_ready" else
  if errors_is err ErrTemplateStateUnavailable then writeErrorCode 502 "template_state_unavailable" else
  if bool_decide (sandboxAPIStatus err ∈ [Some 401%Z; Some 403%Z]) then writeErrorCode 502 "sandbox_template_access_denied"
  else writeErrorCode 502 "template_validation_unavailable".

Definition profileExecutionChanged (a b : RunnerProfile) : bool :=
  negb (sameStringSlice (p_Labels a) (p_Labels b)) || negb (sameStringSlice (p_RequiredLabels a) (p_RequiredLabels b))
  || negb (bool_decide (p_TemplateSource a = p_TemplateSource b)) || negb (bool_decide (p_TemplateID a = p_TemplateID b))
  || negb (bool_decide (p_DefaultTemplateName a = p_DefaultTemplateName b)) || negb (bool_decide (p_RunnerGroup a = p_RunnerGroup b)).

(** [writeProfileInUse], [writeProfileConflict], [writeMutationAuditError], or the status given. *)
Definition writeProfileError {A} (err : goerror) (otherwise : Z) : reply A :=
  if errors_is err errRunnerSpecInUse then writeErrorCode 409 "runner_spec_in_use" else
  if errors_is err ErrConflict then writeErrorCode 409 "runner_spec_conflict" else
  if errors_is err ErrAuditEventPersistence then writeError 500 else writeError otherwise.

Section handlers.
Context {Service : Type} (s : server Service).

(** ** Templates *)

Definition adminProfileTemplateService {A} : sprog (reply A + Service) :=
  let* found := perform qDefault in
  match found with
  | Err err => if errors_is err ErrNotFound then Done (inl (writeErrorCode 409 "sandbox_service_not_configured"))
               else Done (inl (writeErrorCode 500 "sandbox_service_config_error"))
  | Ok defaultConfig =>
      if bool_decide (TrimSpace (sd_APIURL defaultConfig) = "") || bool_decide (TrimSpace (sd_APIKeyEncrypted defaultConfig) = "")
      then Done (inl (writeErrorCode 409 "sandbox_service_not_configured")) else
      Done (match sandboxServiceForConfig (decryptSecret s) (newE2BService s)
                    (serviceSnapshot (sd_APIURL defaultConfig) (sd_APIKeyEncrypted defaultConfig) sandboxConfigSourceAdminDefault) with
            | Err _ => inl (writeErrorCode 500 "sandbox_service_config_error")
            | Ok service => inr service
            end)
  end.

(** A public template by its name. *)
Definition publicTemplate {A} (service : Service) (profile : RunnerProfile) (requireRunnable : bool) : sprog (reply A + unit) :=
  let* catalog := perform (STemplateCatalog service) in
  Done (match catalog with
        | None => inl (writeErrorCode 503 "public_template_catalog_unavailable")
        | Some (Err err) => inl (writeAdminTemplateError err)
        | Some (Ok templates) =>
            let valid := if requireRunnable then let? _ := resolveDefaultTemplateID (p_DefaultTemplateName profile) templates in Ok tt
                         else let? template := findDefaultTemplate (p_DefaultTemplateName profile) templates in
                              if negb (tpl_Public template)
                              then Err (newDefaultTemplateResolutionError (p_DefaultTemplateName profile) "private") else Ok tt in
            match valid with Err _ => inl (writeErrorCode 400 "public_template_invalid") | Ok _ => inr tt end
        end).

(** A published template by its id. *)
Definition publishedTemplate {A} (service : Service) (profile : RunnerProfile) (requireRunnable : bool) : sprog (reply A + unit) :=
  let* inspection := perform (SInspectTemplate service (p_TemplateID profile)) in
  Done (match inspection with
        | None => inl (writeErrorCode 503 "template_state_unavailable")
        | Some (Err err) => inl (writeAdminTemplateError err)
        | Some (Ok info) =>
            if negb (insp_Public info) then inl (writeErrorCode 400 "template_not_public") else
            if requireRunnable && negb (insp_Runnable info) then inl (writeAdminTemplateError ErrTemplateNotReady) else inr tt
        end).

Definition validateAdminProfileTemplateBinding {A} (profile : RunnerProfile) (requireRunnable : bool) : sprog (reply A + unit) :=
  let*+ service := adminProfileTemplateService in
  if bool_decide (p_TemplateSource profile = TemplateSourcePublic) then publicTemplate service profile requireRunnable else
  if p_Published profile then publishedTemplate service profile requireRunnable else
  let* valid := perform (SValidateTemplate service (p_TemplateID profile)) in
  Done (match valid with Err err => inl (writeAdminTemplateError err) | Ok _ => inr tt end).

(** ** Changes of the catalog *)

(** The transaction of a save: a row in use keeps its execution settings. *)
Definition saveProfileOp (changed : bool) (profile : RunnerProfile) (expected : option Time) (now : Time) (t : tables)
    : result (tables * RunnerProfile) :=
  if changed && bool_decide (0 < ActiveCountForProfile (p_Name profile) (tb_requests t)) then Err errRunnerSpecInUse else
  match UpsertProfileIfUnchanged profile expected now (tb_profiles t) with
  | (profiles, Ok saved) => Ok (t <| tb_profiles := profiles |>, saved)
  | (_, Err err) => Err err
  end.

(** The transaction of a deletion: the row must be the one read, or be missing as it was. *)
Definition deleteProfileOp (name : string) (current : option RunnerProfile) (now : Time) (t : tables) : result (tables * unit) :=
  if bool_decide (0 < ActiveCountForProfile name (tb_requests t)) then Err errRunnerSpecInUse else
  let deleted := Ok (t <| tb_profiles := DeleteProfile name (tb_profiles t) |>, tt) in
  match current, GetProfile name (tb_profiles t) with
  | Some current, Ok latest => if (p_UpdatedAt latest =? p_UpdatedAt current)%Z then deleted else Err ErrConflict
  | Some _, Err _ => Err ErrConflict
  | None, Ok _ => Err ErrConflict
  | None, Err err => if errors_is err ErrNotFound then deleted else Err err
  end.

Definition qProfile (name : string) : scall (result RunnerProfile) := SRead (fun t => GetProfile name (tb_profiles t)).

(** The profile a creation asks for. *)
Definition requestedProfile (input : createProfileRequest) : RunnerProfile :=
  NormalizeProfilePolicy
    (MkRunnerProfile (cp_TemplateSource input) (cp_Published input) (cp_Name input) (cp_Labels input) (cp_RequiredLabels input)
       (TrimSpace (cp_TemplateID input)) (TrimSpace (cp_DefaultTemplateName input)) (cp_RunnerGroup input) (cp_MaxConcurrency input)
       (default 0%Z (cp_MinIdle input)) (default 0%Z (cp_Priority input)) (default true (cp_Enabled input)) "" 0 0 0).

(** Administrators only. *)
Definition admin {A} (r : http_request) (handler : sprog (reply A)) : sprog (reply A) :=
  let* ok := requireAdminAuth (srv_sessions s) r in if negb (ok : bool) then Done (writeError 401) else handler.

Definition handleCreateProfile (codec : payload_codec createProfileRequest) (r : http_request) : sprog (reply RunnerProfile) :=
  admin r (
  match readProfilePayload codec (http_body r) with
  | inl answer => Done answer
  | inr input =>
      if negb (bool_decide (cp_TemplateSource input = TemplateSourcePublic)) && bool_decide (TrimSpace (cp_TemplateID input) = "")
      then Done (writeError 400) else
      let* existing := perform (qProfile (cp_Name input)) in
      match match existing with Ok existing => Ok (Some existing) | Err err => if errors_is err ErrNotFound then Ok None else Err err end with
      | Err _ => Done (writeError 500)
      | Ok existing =>
          let requested := requestedProfile input in
          match ValidateProfile requested with
          | Some _ => Done (writeError 400)
          | None =>
              let*! _ := validateAdminProfileTemplateBinding requested true in
              let changed := match existing with Some existing => profileExecutionChanged existing requested | None => false end in
              let* saved := applyMutationWithAudit s "admin_api" "profile.create" "runner_profile" (TrimSpace (p_Name requested))
                (Some (profilePayload requested)) (saveProfileOp changed requested (p_UpdatedAt <$> existing)) in
              Done (match saved with Ok saved => writeJSON 201 saved | Err err => writeProfileError err 400 end)
          end
      end
  end).

Definition handleGetProfile (r : http_request) : sprog (reply RunnerProfile) :=
  admin r (
  let* profile := perform (qProfile (http_path r "name")) in
  Done (match profile with Err _ => writeError 404 | Ok profile => writeJSON 200 profile end)).

Definition handleListProfiles (r : http_request) : sprog (reply (list RunnerProfile)) :=
  admin r (
  let* profiles := perform (SRead (fun t => Ok (ListProfiles (tb_profiles t)))) in
  Done (match profiles with Err _ => writeError 500 | Ok profiles => writeJSON 200 profiles end)).

(** The patched profile, before its name is trimmed by the store. *)
Definition patchedProfile (input : patchProfileRequest) (current : RunnerProfile) : RunnerProfile :=
  MkRunnerProfile (match pp_TemplateSource input with Some v => TrimSpace v | None => p_TemplateSource current end)
    (default (p_Published current) (pp_Published input)) (p_Name current)
    (default (p_Labels current) (pp_Labels input)) (default (p_RequiredLabels current) (pp_RequiredLabels input))
    (TrimSpace (default (p_TemplateID current) (pp_TemplateID input)))
    (match pp_DefaultTemplateName input with Some v => TrimSpace v | None => p_DefaultTemplateName current end)
    (default (p_RunnerGroup current) (pp_RunnerGroup input)) (default (p_MaxConcurrency current) (pp_MaxConcurrency input))
    (default (p_MinIdle current) (pp_MinIdle input)) (default (p_Priority current) (pp_Priority input))
    (default (p_Enabled current) (pp_Enabled input)) (p_ManagedBy current) (p_CatalogRevision current) (p_CreatedAt current)
    (p_UpdatedAt current).

(** The revision the client expects, when it names one, is the one read. *)
Definition expectedRevision {A} (input : patchProfileRequest) (current : RunnerProfile) : reply A + unit :=
  if bool_decide (pp_ExpectedUpdatedAt input = "") then inr tt else
  match parseRunnerSpecRevision s (pp_ExpectedUpdatedAt input) false with
  | inl answer => inl answer
  | inr expected => if (expected =? p_UpdatedAt current)%Z then inr tt else inl (writeErrorCode 409 "runner_spec_conflict")
  end.

Definition handlePatchProfile (codec : payload_codec patchProfileRequest) (r : http_request) : sprog (reply RunnerProfile) :=
  admin r (
  let* previous := perform (qProfile (http_path r "name")) in
  match previous with
  | Err _ => Done (writeError 404)
  | Ok previous =>
      match readProfilePayload codec (http_body r) with
      | inl answer => Done answer
      | inr input =>
          match expectedRevision input previous with
          | inl answer => Done answer
          | inr _ =>
              let current := patchedProfile input previous in
              if bool_decide (p_TemplateSource current = TemplateSourcePrivate) && bool_decide (p_TemplateID current = "")
              then Done (writeError 400) else
              match ValidateProfile current with
              | Some _ => Done (writeError 400)
              | None =>
                  let bindingChanged := negb (bool_decide (p_TemplateID current = p_TemplateID previous))
                    || negb (bool_decide (p_TemplateSource current = p_TemplateSource previous))
                    || negb (bool_decide (p_DefaultTemplateName current = p_DefaultTemplateName previous)) in
                  let requireRunnable := bindingChanged || (negb (p_Enabled previous) && p_Enabled current && p_Published current) in
                  let*! _ := if requireRunnable || (negb (p_Published previous) && p_Published current)
                             then validateAdminProfileTemplateBinding current requireRunnable else Done (inr tt) in
                  let* saved := applyMutationWithAudit s "admin_api" "profile.update" "runner_profile" (p_Name current)
                    (Some (profilePayload current))
                    (saveProfileOp (profileExecutionChanged previous current) current (Some (p_UpdatedAt current))) in
                  Done (match saved with Ok saved => writeJSON 200 saved | Err err => writeProfileError err 400 end)
              end
          end
      end
  end).

Definition handleDeleteProfile (r : http_request) : sprog (reply Empty_set) :=
  admin r (
  let name := http_path r "name" in
  let* current := perform (qProfile name) in
  match match current with Ok current => Ok (Some current) | Err err => if errors_is err ErrNotFound then Ok None else Err err end with
  | Err _ => Done (writeError 500)
  | Ok current =>
      let* deleted := applyMutationWithAudit s "admin_api" "profile.delete" "runner_profile" name
        (Some [("status", JString "deleted")]) (deleteProfileOp name current) in
      Done (match deleted with Ok _ => writeOK | Err err => writeProfileError err 500 end)
  end).

Record profileMatchRequest := MkMatchRequest { pmr_RepositoryFullName : string; pmr_Labels : list string }.

Definition handleMatchProfile (decode : string -> option profileMatchRequest) (r : http_request) : sprog (reply ProfileMatch) :=
  admin r (
  match decode (http_body r) with
  | None => Done (writeError 400)
  | Some input =>
      let* matched := perform (SRead (fun t => Ok (MatchProfile (pmr_RepositoryFullName input) (pmr_Labels input) (tb_profiles t)))) in
      Done (match matched with Err _ => writeError 500 | Ok matched => writeJSON 200 matched end)
  end).
End handlers.
