(* ===== verification/CatalogSafety.v ===== *)
(** * Runner specs in use

    Active requests refer to a runner spec by its name; its execution settings are read again
    when they start.  The transactions of the catalog keep these settings while there are
    such requests. *)

From stdpp Require Import base gmap list strings sorting.
From S2P Require Import Prelude GoStrings Query Rows RunnerModel RunnerStore RunnerQueries AccountModel AccountStore Sponsorship Catalog Templates Program Trace ServerCalls.
From S2P Require Import ServiceSelection ServiceSafety CacheScopes Sessions RepoAccess UserHandlers SpecHandlers ProfileHandlers.

(** ** Rows as they are stored *)

Section labels.
Context (h : list string -> string).

Lemma distinct_labels_trimmed seen labels : Forall (fun l => TrimSpace l = l /\ l <> "") (distinct_labels seen labels).
Proof.
  revert seen. induction labels as [|raw labels IH]; intros seen; cbn [distinct_labels]; [constructor|].
  case_bool_decide; [apply IH|]. case_bool_decide; [apply IH|]. constructor; [|apply IH]. split; [apply TrimSpace_idem|done].
Qed.

Lemma distinct_labels_id seen labels : Forall (fun l => TrimSpace l = l /\ l <> "") labels -> NoDup (map ToLower labels) ->
  (forall l, l ∈ labels -> ToLower l ∉ seen) -> distinct_labels seen labels = labels.
Proof.
  revert seen. induction labels as [|l labels IH]; intros seen Ht Hd Hs; [done|]. cbn [distinct_labels].
  apply Forall_cons in Ht as [[Ht Hne] Htl]. cbn [map] in Hd. apply NoDup_cons in Hd as [Hl Hd].
  rewrite Ht, bool_decide_false by done. rewrite bool_decide_false by (apply Hs; left). f_equal. apply IH; [done|done|].
  intros x Hx. rewrite not_elem_of_cons. split; [|apply Hs; by right].
  intros E. apply Hl. rewrite <-E. by apply list_elem_of_fmap_2.
Qed.

Lemma normalize_idempotent labels n k : NormalizeWorkflowLabels h labels = Ok (n, k) -> NormalizeWorkflowLabels h n = Ok (n, k).
Proof.
  unfold NormalizeWorkflowLabels. cbv zeta. case_bool_decide as E; [done|]. intros [= <- <-].
  set (n := merge_sort _ _) in *. assert (Hp : n ≡ₚ distinct_labels [] labels) by apply merge_sort_Permutation.
  assert (Hn : NoDup (map ToLower n)).
  { rewrite (Permutation_map ToLower Hp). apply distinct_labels_spec. }
  rewrite (distinct_labels_id [] n).
  - assert (Es : merge_sort (onle ToLower String.le) n = n); [|rewrite Es; by case_bool_decide].
    apply (StronglySorted_unique_strong (onle ToLower String.le)).
    + intros x y Hx Hy H1 H2. rewrite merge_sort_Permutation in Hx. assert (Ek : ToLower x = ToLower y) by by apply string_le_antisym.
      clear -Hn Hx Hy Ek. revert Hx Hy. induction n as [|a n IH]; [by intros ?%elem_of_nil|].
      cbn [map] in Hn. apply NoDup_cons in Hn as [Ha Hn]. rewrite !elem_of_cons. intros [->|Hx] [->|Hy]; [done| | |by apply IH].
      * destruct Ha. rewrite Ek. by apply list_elem_of_fmap_2.
      * destruct Ha. rewrite <-Ek. by apply list_elem_of_fmap_2.
    + apply StronglySorted_merge_sort; apply _.
    + apply StronglySorted_merge_sort; apply _.
    + apply merge_sort_Permutation.
  - rewrite Forall_forall. intros l Hl. rewrite Hp in Hl. by eapply Forall_forall in Hl; [|apply distinct_labels_trimmed].
  - done.
  - intros l _. apply not_elem_of_nil.
Qed.

(** A row of a scoped spec as a save leaves it. *)
Record stored_row (r : scopedRunnerProfileRecord) : Prop := {
  row_labels : NormalizeWorkflowLabels h (sr_WorkflowLabelsJSON r) = Ok (sr_WorkflowLabelsJSON r, sr_LabelKey r);
  row_template : TrimSpace (sr_TemplateID r) = sr_TemplateID r;
  row_group : TrimSpace (sr_RunnerGroup r) = sr_RunnerGroup r
}.
Definition stored_specs (t : scoped_table) : Prop := map_Forall (fun _ => stored_row) t.
End labels.

Definition spec_key (scope : RunnerProfileScope) (name : string) : string * Z * string :=
  (profile_Type scope, profile_ID scope, TrimSpace name).

(** A save that succeeds. *)
Lemma scoped_save_Ok h profile expected clock globals t t' saved :
  UpsertScopedProfileIfUnchanged h profile expected clock globals t = (t', Ok saved) ->
  let scope := MkScope (sp_ScopeType profile) (sp_ScopeID profile) in
  exists r, t' = <[spec_key scope (sp_Name profile) := r]> t /\ stored_row h r /\
    sr_UpdatedAt <$> t !! spec_key scope (sp_Name profile) = expected /\
    (exists key, NormalizeWorkflowLabels h (sp_WorkflowLabels profile) = Ok (sr_WorkflowLabelsJSON r, key)) /\
    sr_TemplateID r = TrimSpace (sp_TemplateID profile) /\ sr_RunnerGroup r = TrimSpace (sp_RunnerGroup profile).
Proof.
  intros H scope. unfold UpsertScopedProfileIfUnchanged in H. fold scope in H. cbv zeta in H. revert H.
  destruct (ValidateRunnerProfileScope scope); [done|]. destruct (_ || _); [done|].
  destruct (match GetProfile _ globals with Ok _ => _ | Err _ => _ end); [done|].
  destruct (NormalizeWorkflowLabels h (sp_WorkflowLabels profile)) as [[labels key]|e] eqn:En; [|done].
  change (profile_Type scope, profile_ID scope, TrimSpace (sp_Name profile)) with (spec_key scope (sp_Name profile)).
  assert (Hr : forall r, sr_WorkflowLabelsJSON r = labels -> sr_LabelKey r = key -> sr_TemplateID r = TrimSpace (sp_TemplateID profile) ->
    sr_RunnerGroup r = TrimSpace (sp_RunnerGroup profile) -> stored_row h r).
  { intros r E1 E2 E3 E4. split; [|by rewrite E3, TrimSpace_idem|by rewrite E4, TrimSpace_idem].
    rewrite E1, E2. by eapply normalize_idempotent. }
  destruct expected as [e|], (t !! spec_key scope (sp_Name profile)) as [old|] eqn:Eo; try done.
  - destruct (Z.eqb_spec (sr_UpdatedAt old) e) as [<-|]; [|done]. destruct (label_key_taken _ _ _ _); [done|].
    intros [= <- _]. eexists. split_and!; [reflexivity|by apply Hr|done|by exists key|done|done].
  - destruct (label_key_taken _ _ _ _); [done|]. intros [= <- _]. eexists. split_and!; [reflexivity|by apply Hr|done|by exists key|done|done].
Qed.

Lemma scoped_delete_Ok scope name expected t t' :
  DeleteScopedProfileIfUnchanged scope name (Some expected) t = (t', None) ->
  t' = delete (spec_key scope name) t /\ sr_UpdatedAt <$> t !! spec_key scope name = Some expected.
Proof.
  unfold DeleteScopedProfileIfUnchanged. destruct (ValidateRunnerProfileScope scope); [done|]. cbv zeta.
  change (profile_Type scope, profile_ID scope, TrimSpace name) with (spec_key scope name).
  destruct (t !! spec_key scope name) as [old|]; [|done]. destruct (Z.eqb_spec (sr_UpdatedAt old) expected) as [<-|]; [|done].
  by intros [= <-].
Qed.

(** ** Frames of the catalog *)

(** Only specs of the scope change. *)
Definition specs_only (scope : RunnerProfileScope) (t t' : tables) : Prop :=
  t' = t <| tb_scoped := tb_scoped t' |> /\
  forall ty id name, (ty, id) <> (profile_Type scope, profile_ID scope) -> tb_scoped t' !! (ty, id, name) = tb_scoped t !! (ty, id, name).

Definition within {A} (frame : tables -> tables -> Prop) (op : Time -> tables -> result (tables * A)) : Prop :=
  forall now t t' a, op now t = Ok (t', a) -> frame t t'.

Lemma unlessInUse_within {A} frame check scope name (op : Time -> tables -> result (tables * A)) :
  within frame op -> within frame (unlessInUse check scope name op).
Proof.
  intros Hop now t t' a. unfold unlessInUse. destruct check; [|apply Hop].
  intros H. apply result_bind_Ok in H as (n & _ & H). case_bool_decide; [done|]. by eapply Hop.
Qed.

Section specs.
Context {Service : Type} (s : server Service).

Lemma saveSpec_Ok profile expected now t t' saved : saveSpec s profile expected now t = Ok (t', saved) ->
  UpsertScopedProfileIfUnchanged (labelHash s) profile expected now (tb_profiles t) (tb_scoped t) = (tb_scoped t', Ok saved) /\
  t' = t <| tb_scoped := tb_scoped t' |>.
Proof. unfold saveSpec. destruct (UpsertScopedProfileIfUnchanged _ _ _ _ _ _) as [sc [x|e]]; [|done]. by intros [= <- <-]. Qed.

Lemma deleteSpec_Ok scope name expected now t t' u : deleteSpec scope name expected now t = Ok (t', u) ->
  DeleteScopedProfileIfUnchanged scope name (Some expected) (tb_scoped t) = (tb_scoped t', None) /\ t' = t <| tb_scoped := tb_scoped t' |>.
Proof. unfold deleteSpec. destruct (DeleteScopedProfileIfUnchanged _ _ _ _) as [sc [e|]]; [done|]. by intros [= <- <-]. Qed.

Lemma saveSpec_frame profile expected scope : scope = MkScope (sp_ScopeType profile) (sp_ScopeID profile) ->
  within (specs_only scope) (saveSpec s profile expected).
Proof.
  intros -> now t t' a H. apply saveSpec_Ok in H as [H E]. split; [done|]. apply scoped_save_Ok in H as (r & -> & _).
  intros ty id name Hne. rewrite lookup_insert_ne; [done|]. intros [= <- <- _]. by apply Hne.
Qed.

Lemma deleteSpec_frame scope name expected : within (specs_only scope) (deleteSpec scope name expected).
Proof.
  intros now t t' a H. apply deleteSpec_Ok in H as [H E]. split; [done|]. apply scoped_delete_Ok in H as [-> _].
  intros ty id n Hne. rewrite lookup_delete_ne; [done|]. intros [= <- <- _]. by apply Hne.
Qed.
End specs.

(** ** Specs in use keep what they run *)

Definition same_spec (r r' : scopedRunnerProfileRecord) : Prop :=
  sr_WorkflowLabelsJSON r' = sr_WorkflowLabelsJSON r /\ sr_TemplateID r' = sr_TemplateID r /\ sr_RunnerGroup r' = sr_RunnerGroup r.

Definition spec_in_use (scope : RunnerProfileScope) (name : string) (t : tables) : Prop :=
  exists n, ActiveCountForProfileScope "scoped_custom" scope name (tb_requests t) = Ok n /\ 0 < n.
Definition profile_in_use (name : string) (t : tables) : Prop := 0 < ActiveCountForProfile name (tb_requests t).

Record keeps_execution (t t' : tables) : Prop := {
  keep_requests : tb_requests t' = tb_requests t;
  keep_specs scope name row : spec_in_use scope name t -> tb_scoped t !! spec_key scope name = Some row ->
    exists row', tb_scoped t' !! spec_key scope name = Some row' /\ same_spec row row';
  keep_profiles name row : profile_in_use name t -> tb_profiles t !! TrimSpace name = Some row ->
    exists row', tb_profiles t' !! TrimSpace name = Some row' /\ profileExecutionChanged (recordToProfile row) (recordToProfile row') = false
}.

Lemma profile_unchanged p : profileExecutionChanged p p = false.
Proof. unfold profileExecutionChanged, sameStringSlice. by rewrite !bool_decide_true by done. Qed.

Lemma spec_in_use_key scope name scope' name' t : spec_key scope name = spec_key scope' name' ->
  spec_in_use scope name t -> spec_in_use scope' name' t.
Proof.
  destruct scope as [ty id], scope' as [ty' id']. intros [= -> -> E]. unfold spec_in_use, ActiveCountForProfileScope, countStatesForProfileScope.
  by rewrite E.
Qed.

(** A transaction on specs that leaves one row alone when it is in use. *)
Lemma keeps_specs scope name t t' :
  t' = t <| tb_scoped := tb_scoped t' |> -> (forall key, key <> spec_key scope name -> tb_scoped t' !! key = tb_scoped t !! key) ->
  (spec_in_use scope name t -> forall row, tb_scoped t !! spec_key scope name = Some row ->
     exists row', tb_scoped t' !! spec_key scope name = Some row' /\ same_spec row row') -> keeps_execution t t'.
Proof.
  intros E Hother Hsame. split.
  - by rewrite E.
  - intros scope' name' row Hu Hrow. destruct (decide (spec_key scope' name' = spec_key scope name)) as [Ek|Hk].
    + rewrite Ek in *. eapply Hsame; [|done]. by eapply spec_in_use_key.
    + rewrite Hother by done. by exists row.
  - intros name' row _ Hrow. rewrite E. cbn. exists row. split; [done|apply profile_unchanged].
Qed.

Lemma unlessInUse_Ok {A} check scope name (op : Time -> tables -> result (tables * A)) now t t' a :
  unlessInUse check scope name op now t = Ok (t', a) -> op now t = Ok (t', a) /\ (check = true -> ~ spec_in_use scope name t).
Proof.
  unfold unlessInUse. destruct check; [|done]. intros H. apply result_bind_Ok in H as (n & Hn & H).
  case_bool_decide as Hc; [done|]. split; [done|]. intros _ (n' & Hn' & Hpos). congruence.
Qed.

Section keeping.
Context {Service : Type} (s : server Service).

Lemma create_keeps profile now t t' a : saveSpec s profile None now t = Ok (t', a) -> keeps_execution t t'.
Proof.
  intros H. apply saveSpec_Ok in H as [H E]. apply scoped_save_Ok in H as (r & Ht & _ & Hn & _).
  eapply keeps_specs; [exact E| |].
  - intros key Hk. rewrite Ht. apply lookup_insert_ne. intros E'. by apply Hk.
  - intros _ row Hrow. by rewrite Hrow in Hn.
Qed.

Lemma delete_keeps scope name expected now t t' a :
  unlessInUse true scope name (deleteSpec scope name expected) now t = Ok (t', a) -> keeps_execution t t'.
Proof.
  intros H. apply unlessInUse_Ok in H as [H Hu]. apply deleteSpec_Ok in H as [H E]. apply scoped_delete_Ok in H as [Ht _].
  eapply keeps_specs; [exact E| |].
  - intros key Hk. rewrite Ht. apply lookup_delete_ne. intros E'. by apply Hk.
  - intros Hin. by destruct (Hu eq_refl).
Qed.

Lemma patch_keeps current patched expected changed scope name now t t' a :
  stored_specs (labelHash s) (tb_scoped t) ->
  spec_key (MkScope (sp_ScopeType patched) (sp_ScopeID patched)) (sp_Name patched) = spec_key scope name ->
  (changed = false -> sp_WorkflowLabels patched = sp_WorkflowLabels current /\ sp_TemplateID patched = sp_TemplateID current /\
     sp_RunnerGroup patched = sp_RunnerGroup current) ->
  (forall row, tb_scoped t !! spec_key scope name = Some row -> sr_UpdatedAt row = expected -> scopedProfileFromRecord row = current) ->
  unlessInUse changed scope name (saveSpec s patched (Some expected)) now t = Ok (t', a) -> keeps_execution t t'.
Proof.
  intros Hstored Hkey Hsame Hread H. apply unlessInUse_Ok in H as [H Hu]. apply saveSpec_Ok in H as [H E].
  apply scoped_save_Ok in H as (r & Ht & _ & Hn & (k & Hlabels) & Htpl & Hgrp). rewrite Hkey in *.
  eapply (keeps_specs scope name); [exact E| |].
  - intros key Hk. rewrite Ht. apply lookup_insert_ne. intros E'. by apply Hk.
  - intros Hin row Hrow. destruct changed; [by destruct (Hu eq_refl)|]. rewrite Hrow in Hn. injection Hn as Hn.
    specialize (Hread row Hrow Hn). destruct (Hstored _ _ Hrow) as [Hl Htr Hgr]. destruct (Hsame eq_refl) as (E1 & E2 & E3).
    exists r. rewrite Ht, lookup_insert_eq. split; [done|]. rewrite E1, <-Hread in Hlabels. cbn in Hlabels. rewrite Hl in Hlabels.
    injection Hlabels as Hlabels _. split_and!; [done| |].
    + rewrite Htpl, E2, <-Hread. exact Htr.
    + rewrite Hgrp, E3, <-Hread. exact Hgr.
Qed.
End keeping.

(** ** Global profiles *)

Lemma normalize_source p : p_TemplateSource p <> "" -> NormalizeProfilePolicy p = p.
Proof. intros H. unfold NormalizeProfilePolicy. by rewrite bool_decide_false. Qed.

Lemma normalized_source p : p_TemplateSource (NormalizeProfilePolicy p) <> "".
Proof. unfold NormalizeProfilePolicy. repeat case_match; bool_prop; done. Qed.

Lemma keeps_profiles name t t' :
  t' = t <| tb_profiles := tb_profiles t' |> -> (forall key, key <> TrimSpace name -> tb_profiles t' !! key = tb_profiles t !! key) ->
  (profile_in_use name t -> forall row, tb_profiles t !! TrimSpace name = Some row ->
     exists row', tb_profiles t' !! TrimSpace name = Some row' /\ profileExecutionChanged (recordToProfile row) (recordToProfile row') = false) ->
  keeps_execution t t'.
Proof.
  intros E Hother Hsame. split.
  - by rewrite E.
  - intros scope name' row _ Hrow. rewrite E. cbn. by exists row.
  - intros name' row Hu Hrow. destruct (decide (TrimSpace name' = TrimSpace name)) as [Ek|Hk].
    + rewrite Ek in *. eapply Hsame; [|done]. unfold profile_in_use, ActiveCountForProfile, countStatesForProfileSource in *. by rewrite <-Ek.
    + rewrite Hother by done. exists row. split; [done|apply profile_unchanged].
Qed.

Lemma normalize_name p : p_Name (NormalizeProfilePolicy p) = p_Name p.
Proof. unfold NormalizeProfilePolicy. by repeat case_match. Qed.

(** A conditional save that succeeds, and the profile it stores. *)
Lemma profile_save_Ok profile expected clock t t' saved :
  UpsertProfileIfUnchanged profile expected clock t = (t', Ok saved) ->
  exists r, t' = <[TrimSpace (p_Name profile) := r]> t /\ pr_UpdatedAt <$> t !! TrimSpace (p_Name profile) = expected /\
    profileExecutionChanged (NormalizeProfilePolicy profile) (recordToProfile r) = false.
Proof.
  intros H. unfold UpsertProfileIfUnchanged, saveProfile in H. cbv zeta in H. revert H.
  pose proof (normalized_source profile) as Hs. pose proof (normalize_name profile) as Hn. rewrite <-Hn. clear Hn.
  revert Hs. generalize (NormalizeProfilePolicy profile). clear profile. intros profile Hs.
  destruct (ValidateProfile _); [done|]. set (prof := profile <| p_Name := _ |>).
  change (pr_Name (profileInsertRecord prof _)) with (TrimSpace (p_Name profile)).
  assert (Hsame : forall r, pr_TemplateSource r = p_TemplateSource profile -> pr_LabelsJSON r = p_Labels profile ->
    pr_RequiredLabelsJSON r = Some (p_RequiredLabels profile) -> pr_TemplateID r = p_TemplateID profile ->
    pr_DefaultTemplateName r = p_DefaultTemplateName profile -> pr_RunnerGroup r = p_RunnerGroup profile ->
    profileExecutionChanged profile (recordToProfile r) = false).
  { intros r E1 E2 E3 E4 E5 E6. unfold recordToProfile. rewrite normalize_source by (cbn; by rewrite E1).
    unfold profileExecutionChanged, sameStringSlice. cbn. rewrite E1, E2, E3, E4, E5, E6. by rewrite !bool_decide_true by done. }
  destruct expected as [e|], (t !! TrimSpace (p_Name profile)) as [old|] eqn:Eo; try done.
  - destruct (Z.eqb_spec (pr_UpdatedAt old) e) as [<-|]; [|done]. intros [= <- _]. eexists. split_and!; [reflexivity|done|by apply Hsame].
  - intros [= <- _]. eexists. split_and!; [reflexivity|done|by apply Hsame].
Qed.

Lemma execution_trans a b c : profileExecutionChanged a b = false -> profileExecutionChanged b c = false -> profileExecutionChanged a c = false.
Proof.
  unfold profileExecutionChanged, sameStringSlice. rewrite !orb_false_iff, !negb_false_iff, !bool_decide_eq_true.
  intros (((((-> & ->) & ->) & ->) & ->) & ->). done.
Qed.

Lemma save_profile_keeps previous profile changed now t t' a :
  (changed = false -> forall prev, previous = Some prev -> p_TemplateSource prev <> "" /\ profileExecutionChanged prev profile = false) ->
  (forall row prev, previous = Some prev -> tb_profiles t !! TrimSpace (p_Name profile) = Some row -> pr_UpdatedAt row = p_UpdatedAt prev ->
     recordToProfile row = prev) ->
  saveProfileOp changed profile (p_UpdatedAt <$> previous) now t = Ok (t', a) -> keeps_execution t t'.
Proof.
  intros Hsame Hread H. unfold saveProfileOp in H. destruct (changed && _) eqn:Hu; [done|].
  destruct (UpsertProfileIfUnchanged _ _ _ _) as [pt [x|e]] eqn:Ep; [|done]. injection H as <- <-.
  apply profile_save_Ok in Ep as (r & -> & Hn & Hr).
  eapply (keeps_profiles (p_Name profile)); [done| |].
  - intros key Hk. apply lookup_insert_ne. intros E. by apply Hk.
  - intros Hin row Hrow. cbn. rewrite lookup_insert_eq. exists r. split; [done|]. rewrite Hrow in Hn.
    destruct previous as [prev|]; [|done]. injection Hn as Hn. rewrite (Hread row prev eq_refl Hrow Hn).
    destruct changed; [by rewrite bool_decide_true in Hu|]. destruct (Hsame eq_refl prev eq_refl) as [Hs Hp].
    eapply execution_trans; [exact Hp|]. rewrite normalize_source in Hr; [done|].
    intros E. apply Hs. revert Hp. unfold profileExecutionChanged. rewrite !orb_false_iff, !negb_false_iff, !bool_decide_eq_true.
    intros [[[[[_ _] Hp] _] _] _]. by rewrite Hp.
Qed.

Lemma delete_profile_keeps name current now t t' a : deleteProfileOp name current now t = Ok (t', a) -> keeps_execution t t'.
Proof.
  unfold deleteProfileOp. case_bool_decide as Hc; [done|]. intros H.
  assert (E : t' = t <| tb_profiles := DeleteProfile name (tb_profiles t) |>).
  { destruct current, (GetProfile name (tb_profiles t)) as [x|e]; try done; [destruct (_ =? _)%Z|destruct (errors_is _ _)]; try done; by injection H as <- _. }
  subst t'. eapply (keeps_profiles name); [done| |].
  - intros key Hk. cbn. unfold DeleteProfile. apply lookup_delete_ne. intros E. by apply Hk.
  - intros Hin. by destruct Hc.
Qed.

(** ** The runs of the handlers *)

Inductive catalog_route :=
| PostSpec (decode : string -> option userRunnerSpecMutationRequest)
| PatchSpec (decode : string -> option userRunnerSpecPatchRequest)
| DeleteSpec
| PostProfile (codec : payload_codec createProfileRequest)
| PatchProfile (codec : payload_codec patchProfileRequest)
| DeleteProfileRoute.

Section runs.
Context {Service : Type} (s : server Service) (route : catalog_route) (r : http_request).

Definition serveCatalog : sprog Z :=
  match route with
  | PostSpec decode => let* answer := handleUserCreateRunnerSpec s decode r in Done (rp_status answer)
  | PatchSpec decode => let* answer := handleUserPatchRunnerSpec s decode r in Done (rp_status answer)
  | DeleteSpec => let* answer := handleUserDeleteRunnerSpec s r in Done (rp_status answer)
  | PostProfile codec => let* answer := handleCreateProfile s codec r in Done (rp_status answer)
  | PatchProfile codec => let* answer := handlePatchProfile s codec r in Done (rp_status answer)
  | DeleteProfileRoute => let* answer := handleDeleteProfile s r in Done (rp_status answer)
  end.

(** The revision of a spec the request names. *)
Definition named_revision (e : Time) : Prop :=
  match route with
  | PatchSpec decode => exists input, decode (http_body r) = Some input /\ parseTime s (TrimSpace (pi_ExpectedUpdatedAt input)) = Some e
  | _ => False
  end.

(** What a transaction finds, against what the request read before: a row read under a key
    has that key; and a row with the revision that was read, or that the client has seen and
    names, is the row that was read, because every save gives a row a new revision.  Stored
    specs are in the form saves leave. *)
Record dependable (tr : trace) (t : tables) : Prop := {
  dep_stored : stored_specs (labelHash s) (tb_scoped t);
  dep_key scope name p : seen (qScopedProfile scope name) (Ok p) tr ->
    spec_key (MkScope (sp_ScopeType p) (sp_ScopeID p)) (sp_Name p) = spec_key scope name;
  dep_profile_key name p : seen (qProfile name) (Ok p) tr -> TrimSpace (p_Name p) = TrimSpace name /\ p_TemplateSource p <> "";
  dep_spec scope name p row : seen (qScopedProfile scope name) (Ok p) tr -> tb_scoped t !! spec_key scope name = Some row ->
    named_revision (sr_UpdatedAt row) -> scopedProfileFromRecord row = p;
  dep_profile name p row : seen (qProfile name) (Ok p) tr -> tb_profiles t !! TrimSpace name = Some row ->
    pr_UpdatedAt row = p_UpdatedAt p -> recordToProfile row = p
}.

Definition keeping (tr : trace) {A} (op : Time -> tables -> result (tables * A)) : Prop :=
  forall now t t' a, dependable tr t -> op now t = Ok (t', a) -> keeps_execution t t'.

Definition stable (tr : trace) (x : asked scall) : Prop :=
  match x with
  | Asked e =>
      match e with
      | SWrite op => keeping tr op
      | SMutate _ op => keeping tr op
      | _ => True
      end
  end.

Definition quiet {A} (p : sprog A) : Prop := forall tr, vc stable p (fun _ _ => True) tr.

Lemma quiet_bind {A B} (p : sprog A) (f : A -> sprog B) : quiet p -> (forall a, quiet (f a)) -> quiet (tbind p f).
Proof. intros Hp Hf tr. eapply vc_seq; [apply Hp|]. intros a tr' _. apply Hf. Qed.

Lemma quiet_perform {R} (e : scall R) : (forall tr, stable tr (Asked e)) -> quiet (perform e).
Proof. intros H tr. split; [apply H|done]. Qed.

Lemma quiet_vc {A B} (p : sprog A) (f : A -> sprog B) Q tr : quiet p -> (forall a tr', vc stable (f a) Q (tr ++ tr')) -> vc stable (tbind p f) Q tr.
Proof. intros Hp Hf. eapply vc_seq; [apply Hp|]. intros a tr' _. apply Hf. Qed.

Ltac quiet_step :=
  lazymatch goal with
  | |- quiet (Done _) => intros ?; exact I
  | |- quiet (perform _) => apply quiet_perform; intros ?; exact I
  | |- quiet (tbind _ _) => apply quiet_bind; [|intros ?]
  | |- quiet ((match ?x with _ => _ end) _) => destruct x
  | |- quiet (match ?x with _ => _ end) => first [is_var x; destruct x | let E := fresh "Hcase" in destruct x eqn:E]
  end.
Ltac quiet_steps := repeat quiet_step.

Lemma owner_quiet i : quiet (githubInstallationOwner (srv_github s) i).
Proof.
  unfold githubInstallationOwner. quiet_steps. apply quiet_perform. intros tr now t t' x _ H.
  apply result_bind_Ok in H as ([db y] & _ & H). injection H as <- <-. split; [done| |]; intros; eexists; (split; [eassumption|]);
    [done|apply profile_unchanged].
Qed.

Lemma session_quiet {A} : quiet (requireUserSession (A:=A) (srv_sessions s) r).
Proof. unfold requireUserSession, sessionFromRequest. quiet_steps. Qed.

Lemma admin_quiet : quiet (requireAdminAuth (srv_sessions s) r).
Proof. unfold requireAdminAuth, adminSessionFromRequest, sessionFromRequest. quiet_steps. Qed.

Lemma manageable_quiet a scope : quiet (accountPreferenceScopeManageable s a scope).
Proof. unfold accountPreferenceScopeManageable, recordedOwner, githubInstallationAccountsManageable, userAccessToken. quiet_steps. Qed.

Lemma scope_quiet {A} : quiet (specScope (A:=A) s r).
Proof.
  unfold specScope, userRunnerScope, profileScopeOfInstallation, accountPreferenceScopeFromRequest, githubInstallationForAccount.
  quiet_steps; [apply session_quiet|apply manageable_quiet].
Qed.

Lemma service_quiet fuel : forall scope,
  quiet (sandboxServiceForScopeFuel (decryptSecret s) (newE2BService s) (decodeService s) fuel scope).
Proof.
  induction fuel as [|fuel IH]; intros scope; cbn [sandboxServiceForScopeFuel]; [by intros ?|].
  unfold githubInstallationLinkedToAccount. quiet_steps. apply IH.
Qed.

Lemma list_quiet scope prefScope : quiet (writeUserRunnerSpecList s scope prefScope).
Proof. unfold writeUserRunnerSpecList, sandboxServiceForScope. quiet_steps. apply service_quiet. Qed.

Lemma group_quiet scope name : quiet (validateScopedRunnerGroup s scope name).
Proof. unfold validateScopedRunnerGroup, organizationRunnerGroups. quiet_steps. apply owner_quiet. Qed.

Lemma template_quiet scope id : quiet (validateScopedProfileTemplate s scope id).
Proof. unfold validateScopedProfileTemplate, sandboxServiceForScope. quiet_steps. apply service_quiet. Qed.

Lemma binding_quiet {A} profile b : quiet (validateAdminProfileTemplateBinding (A:=A) s profile b).
Proof. unfold validateAdminProfileTemplateBinding, adminProfileTemplateService, publicTemplate, publishedTemplate. quiet_steps. Qed.

Lemma in_use_quiet {A} check scope name : quiet (refusedInUse (A:=A) check scope name).
Proof. unfold refusedInUse. quiet_steps. Qed.

(** The transaction with its audit record. *)
Lemma mutate_vc {A B} actor action ty id payload (op : Time -> tables -> result (tables * A)) (f : result A -> sprog B) tr :
  (forall tr', keeping (tr ++ tr') op) -> (forall x, quiet (f x)) ->
  vc stable (tbind (applyMutationWithAudit s actor action ty id payload op) f) (fun _ _ => True) tr.
Proof.
  intros Hop Hf. apply vc_tbind. unfold applyMutationWithAudit, auditEventFor. apply vc_tbind, vc_perform; [exact I|]. intros now.
  cbn [tbind]. split; [apply Hop|]. intros x. cbn [vc]. apply Hf.
Qed.

(** A reply of the handler, and the list that ends the successful ones. *)
Ltac quiet_end := intros ?; quiet_steps; try apply list_quiet.

Lemma post_spec_vc decode tr : vc stable (handleUserCreateRunnerSpec s decode r) (fun _ _ => True) tr.
Proof.
  unfold handleUserCreateRunnerSpec. apply quiet_vc; [apply scope_quiet|]. intros [answer|[[[session account] scope] pref]] tr1; [exact I|].
  destruct (decode (http_body r)) as [input|]; [|exact I]. case_match; [exact I|]. cbv zeta. case_match; [|exact I]. case_match.
  case_match; [exact I|]. apply quiet_vc; [apply group_quiet|]. intros [u|e] tr2; [|exact I].
  apply quiet_vc; [apply template_quiet|]. intros [u'|e] tr3; [|exact I].
  apply mutate_vc; [|quiet_end]. intros tr4 now t t' x _ Hop. by eapply create_keeps.
Qed.

Lemma delete_spec_vc tr : vc stable (handleUserDeleteRunnerSpec s r) (fun _ _ => True) tr.
Proof.
  unfold handleUserDeleteRunnerSpec. apply quiet_vc; [apply scope_quiet|]. intros [answer|[[[session account] scope] pref]] tr1; [exact I|].
  case_match; [exact I|]. cbv zeta. apply vc_perform; [exact I|]. intros [current|e]; [|exact I].
  apply quiet_vc; [apply in_use_quiet|]. intros [answer|u] tr2; [exact I|].
  apply mutate_vc; [|quiet_end]. intros tr4 now t t' x _ Hop. by eapply delete_keeps.
Qed.

(** The patched settings are the current ones unless the check for active requests is on. *)
Lemma patch_spec_vc decode : route = PatchSpec decode -> forall tr, vc stable (handleUserPatchRunnerSpec s decode r) (fun _ _ => True) tr.
Proof.
  intros Hr tr. unfold handleUserPatchRunnerSpec. apply quiet_vc; [apply scope_quiet|]. intros [answer|[[[session account] scope] pref]] tr1; [exact I|].
  destruct (decode (http_body r)) as [input|] eqn:Ed; [|exact I].
  destruct (parseRunnerSpecRevision s (pi_ExpectedUpdatedAt input) true) as [answer|expected] eqn:Ee; [exact I|].
  assert (Hnamed : named_revision expected).
  { unfold named_revision. rewrite Hr. exists input. split; [done|]. unfold parseRunnerSpecRevision in Ee. case_bool_decide; [done|].
    destruct (parseTime s _); [by injection Ee as ->|done]. }
  cbv zeta. apply vc_perform; [exact I|]. intros [current|e]; [|exact I]. set (name := TrimSpace (http_path r "name")).
  destruct (patchedLabels s input current) as [answer|labels]; [exact I|]. destruct (patchedGroup scope input current) as [answer|group]; [exact I|].
  unfold savePatch. cbv zeta. set (changed := _ || _ || _) at 1 2. apply quiet_vc; [apply in_use_quiet|]. intros [answer|u] tr2; [exact I|].
  destruct (match pi_MaxConcurrency input with Some n => _ | None => _ end); [exact I|].
  apply quiet_vc; [case_match; [apply group_quiet|quiet_steps]|]. intros [u1|e] tr3; [|exact I].
  apply quiet_vc; [case_match; [case_match; [apply template_quiet|quiet_steps]|quiet_steps]|]. intros [u2|e] tr4; [|exact I].
  apply mutate_vc; [|quiet_end]. intros tr5 now t t' x Hd Hop.
  assert (Hseen : seen (qScopedProfile scope name) (Ok current) (((((tr ++ tr1) ++ [Answered (qScopedProfile scope name) (Ok current)]) ++ tr2) ++ tr3) ++ tr4 ++ tr5)) by in_trace.
  rewrite app_assoc in Hseen.
  eapply (patch_keeps s current _ expected _ scope name); [apply Hd| | | |exact Hop].
  - cbn. by apply (dep_key _ _ Hd).
  - unfold changed, sameStringSlice. rewrite !orb_false_iff, !negb_false_iff, !bool_decide_eq_true. intros [[E1 E2] E3]. cbn.
    split_and!; [done| |done]. destruct (pi_TemplateID input) as [id|]; [by rewrite E2|done].
  - intros row Hrow Hrev. eapply (dep_spec _ _ Hd); [exact Hseen|done|by rewrite Hrev].
Qed.

Lemma post_profile_vc codec tr : vc stable (handleCreateProfile s codec r) (fun _ _ => True) tr.
Proof.
  unfold handleCreateProfile, admin. apply quiet_vc; [apply admin_quiet|]. intros [] tr1; [|exact I]. cbn [negb].
  destruct (readProfilePayload codec (http_body r)) as [answer|input]; [exact I|]. case_match; [exact I|].
  apply vc_perform; [exact I|]. intros found.
  destruct (match found with Ok _ => _ | Err _ => _ end) as [existing|e] eqn:Ex; [|exact I].
  cbv zeta. destruct (ValidateProfile _); [exact I|]. apply quiet_vc; [apply binding_quiet|]. intros [answer|u] tr2; [exact I|].
  apply mutate_vc; [|quiet_end]. intros tr3 now t t' x Hd Hop. eapply (save_profile_keeps existing); [| |exact Hop].
  - intros Hc prev ->. split; [|exact Hc]. destruct found as [p|e]; [|by destruct (errors_is e _)]. injection Ex as ->.
    eapply (dep_profile_key _ _ Hd (cp_Name input)). in_trace.
  - intros row prev -> Hrow Hrev. destruct found as [p|e]; [|by destruct (errors_is e _)]. injection Ex as ->.
    eapply (dep_profile _ _ Hd (cp_Name input)); [in_trace| |done]. unfold requestedProfile in Hrow. by rewrite normalize_name in Hrow.
Qed.

Lemma patch_profile_vc codec tr : vc stable (handlePatchProfile s codec r) (fun _ _ => True) tr.
Proof.
  unfold handlePatchProfile, admin. apply quiet_vc; [apply admin_quiet|]. intros [] tr1; [|exact I]. cbn [negb].
  apply vc_perform; [exact I|]. intros [previous|e]; [|exact I].
  destruct (readProfilePayload codec (http_body r)) as [answer|input]; [exact I|]. case_match; [exact I|]. cbv zeta.
  case_match; [exact I|]. case_match; [exact I|].
  apply quiet_vc; [case_match; [apply binding_quiet|quiet_steps]|]. intros [answer|u'] tr2; [exact I|].
  apply mutate_vc; [|quiet_end]. intros tr3 now t t' x Hd Hop.
  eapply (save_profile_keeps (Some previous)); [| |exact Hop].
  - intros Hc prev [= <-]. split; [|exact Hc]. eapply (dep_profile_key _ _ Hd (http_path r "name")). in_trace.
  - intros row prev [= <-] Hrow Hrev. eapply (dep_profile _ _ Hd (http_path r "name")); [in_trace| |done].
    destruct (dep_profile_key _ _ Hd (http_path r "name") previous) as [<- _]; [in_trace|exact Hrow].
Qed.

Lemma delete_profile_vc tr : vc stable (handleDeleteProfile s r) (fun _ _ => True) tr.
Proof.
  unfold handleDeleteProfile, admin. apply quiet_vc; [apply admin_quiet|]. intros [] tr1; [|exact I]. cbn [negb]. cbv zeta.
  apply vc_perform; [exact I|]. intros found.
  destruct (match found with Ok _ => _ | Err _ => _ end) as [current|e]; [|exact I].
  apply mutate_vc; [|quiet_end]. intros tr3 now t t' x _ Hop. by eapply delete_profile_keeps.
Qed.

Lemma serve_catalog_vc tr : vc stable serveCatalog (fun _ _ => True) tr.
Proof.
  unfold serveCatalog. destruct route as [| decode | | | |] eqn:Er; (eapply vc_seq; [|intros ? ? _; exact I]).
  - apply post_spec_vc.
  - by apply patch_spec_vc.
  - apply delete_spec_vc.
  - apply post_profile_vc.
  - apply patch_profile_vc.
  - apply delete_profile_vc.
Qed.
End runs.

(** A runner spec that active requests use keeps what it runs.  Whatever the handlers of
    the catalogs (those of scopes and the platform's) read before, each of their transactions
    leaves every spec that an active request refers to in its place, with the same labels,
    template and runner group; a request to change or delete it fails inside the transaction,
    also when the request became active after the handler's first look.  The transaction may
    rely on the optimistic revision: a row with the revision that was read is the row read. *)
Theorem specs_in_use_kept {Service} (s : server Service) route r tr status :
  returns (serveCatalog s route r) tr status ->
  forall tr1 A event (op : Time -> tables -> result (tables * A)) x tr2 now t t' a,
    tr = tr1 ++ Answered (SMutate event op) x :: tr2 -> dependable s route r tr1 t -> op now t = Ok (t', a) -> keeps_execution t t'.
Proof.
  intros H tr1 A event op x tr2 now t t' a -> Hd Hop.
  destruct (vc_sound _ _ _ _ _ _ (serve_catalog_vc s route r []) H) as [_ Hall].
  specialize (Hall tr1 _ tr2 eq_refl). cbn in Hall. by eapply Hall.
Qed.
