(* ===== verification/UserSafety.v ===== *)
(** * The handlers of users: who may change what

    The theorems are about all runs of all the handlers, with arbitrary answers: every
    change of the tables stays in a frame that the signed-in viewer was, in the same run,
    found to be allowed to change. *)

From stdpp Require Import base gmap list strings.
From S2P Require Import Prelude GoStrings Rows RunnerModel RunnerStore RunnerQueries AccountModel AccountStore AccountSafety Sponsorship Catalog.
From S2P Require Import Program Trace ServerCalls ServiceSelection ServiceSafety CacheScopes Sessions RepoAccess UserHandlers Onboarding Confinement SponsorshipHandlers SpecHandlers CatalogSafety.

(** ** The routes *)

Inductive route :=
| GetPreferences
| PutCacheConfig (decode : string -> option upsertCacheConfigRequest)
| DeleteCacheConfig
| PutSandboxConfig (decode : string -> option upsertSandboxConfigRequest)
| DeleteSandboxAPIKey
| GetGitHubApp
| PutGitHubInstallation (decode : string -> option upsertGitHubInstallationRequest)
| DeleteInstallation
| SyncInstallations
| ListInstallationRepositories
| ListUserRunners
| ListSponsorshipPolicies
| ListSponsorshipRepositories
| PutSponsorshipPolicy (decode : string -> option userForkSponsorshipPolicyInput)
| PostSponsorshipPolicy (decode : string -> option userForkSponsorshipPolicyInput)
| DeleteSponsorshipPolicy
| PutSponsorshipApproval (decode : string -> option userForkSponsorshipApprovalInput)
| DeleteSponsorshipApproval
| ListSpecs
| ListRunnerGroups
| CreateSpec (decode : string -> option userRunnerSpecMutationRequest)
| ChangeSpec (decode : string -> option userRunnerSpecPatchRequest)
| RemoveSpec
| GetTour (decodeTour : string -> option productTourOnboardingState)
| PutTour (encodeTour : productTourOnboardingState -> result string) (decode : string -> option productTourOnboardingState).

(** The status of the reply. *)
Definition answering {A} (handler : sprog (reply A)) : sprog Z := let* answer := handler in Done (rp_status answer).

Definition serve {Service} (s : server Service) (route : route) (r : http_request) : sprog Z :=
  match route with
  | GetPreferences => answering (handleUserPreferences s r)
  | PutCacheConfig decode => answering (handleUserSaveCacheConfig s decode r)
  | DeleteCacheConfig => answering (handleUserDeleteCacheConfig s r)
  | PutSandboxConfig decode => answering (handleUserSaveSandboxConfig s decode r)
  | DeleteSandboxAPIKey => answering (handleUserDeleteSandboxAPIKey s r)
  | GetGitHubApp => answering (handleUserGitHubApp s r)
  | PutGitHubInstallation decode => answering (handleUserSaveGitHubInstallation s decode r)
  | DeleteInstallation => answering (handleUserDeleteGitHubInstallation s r)
  | SyncInstallations => answering (handleUserSyncGitHubInstallations s r)
  | ListInstallationRepositories => answering (handleUserListGitHubInstallationRepositories s r)
  | ListUserRunners => answering (handleUserListRunners s r)
  | ListSponsorshipPolicies => answering (handleUserListForkSponsorshipPolicies s r)
  | ListSponsorshipRepositories => answering (handleUserListForkSponsorshipRepositories s r)
  | PutSponsorshipPolicy decode => answering (handleUserPutForkSponsorshipPolicy s decode r)
  | PostSponsorshipPolicy decode => answering (handleUserCreateForkSponsorshipPolicy s decode r)
  | DeleteSponsorshipPolicy => answering (handleUserDeleteForkSponsorshipPolicy s r)
  | PutSponsorshipApproval decode => answering (handleUserAddForkSponsorshipApproval s decode r)
  | DeleteSponsorshipApproval => answering (handleUserDeleteForkSponsorshipApproval s r)
  | ListSpecs => answering (handleUserListRunnerSpecs s r)
  | ListRunnerGroups => answering (handleUserListGitHubRunnerGroups s r)
  | CreateSpec decode => answering (handleUserCreateRunnerSpec s decode r)
  | ChangeSpec decode => answering (handleUserPatchRunnerSpec s decode r)
  | RemoveSpec => answering (handleUserDeleteRunnerSpec s r)
  | GetTour decodeTour => answering (handleUserProductTourOnboarding s decodeTour r)
  | PutTour encodeTour decode => answering (handleUserSaveProductTourOnboarding s encodeTour decode r)
  end.

Section safety.
Context {Service : Type} (s : server Service) (r : http_request).

(** ** Evidence *)

(** The request carries a session the server signed, which was not expired, and the store
    had an account for its identity. *)
Definition signed_in (session : adminSession) (account : Account) (tr : trace) : Prop :=
  exists cookie decoded now identity,
    http_cookie r adminSessionCookieName = Some cookie /\ decodeAdminSession (srv_sessions s) cookie = Ok decoded /\
    ses_Subject session = ses_Subject decoded /\
    seen SNow now tr /\ (Unix now <= ses_ExpiresAt decoded)%Z /\
    seen (qAccountByIdentity (providerOf decoded) (ses_Subject decoded)) (Ok (account, identity)) tr.

(** The token is the one stored for the account. *)
Definition token_for (account : Account) (token : string) (tr : trace) : Prop :=
  exists secret, seen (qSecret (MkPreferenceScope AccountScopeTypeAccount (ac_ID account)) AccountSecretTypeGitHubOAuthToken) (Ok secret) tr /\
    userToken s (as_EncryptedValue secret) = Some token.

(** The owner of an installation: as recorded, or as the viewer's own link describes it. *)
Definition recorded_owner (account : Account) (installationID : Z) (owner : GitHubInstallationAccount) (tr : trace) : Prop :=
  seen (qInstallationAccount installationID) (Ok owner) tr \/
  exists links link, seen (qInstallations (ac_ID account)) (Ok links) tr /\ link ∈ links /\ gi_InstallationID link = installationID /\
    owner = MkGitHubInstallationAccount (gi_GitHubAccountID link) (gi_AccountType link) (gi_AccountLogin link) "" "".

(** The viewer is this GitHub user. *)
Definition is_user (account : Account) (owner : GitHubInstallationAccount) (tr : trace) : Prop :=
  exists identity, seen (qIdentity (ac_ID account) "github") (Ok identity) tr /\
    ((0 < ga_GitHubAccountID owner)%Z -> TrimSpace (oi_OAuthSubject identity) = FormatInt (ga_GitHubAccountID owner)) /\
    ((ga_GitHubAccountID owner <= 0)%Z -> EqualFold (TrimSpace (oi_OAuthLogin identity)) (TrimSpace (ga_AccountLogin owner)) = true).

(** GitHub lists the viewer, by the viewer's token, among the owners of this organization. *)
Definition owns_organization (account : Account) (owner : GitHubInstallationAccount) (tr : trace) : Prop :=
  exists token memberships m, token_for account token tr /\ seen (SMemberships token) (Ok memberships) tr /\ m ∈ memberships /\
    EqualFold (TrimSpace (mb_Role m)) "admin" = true /\
    ((0 < ga_GitHubAccountID owner)%Z -> mb_OrganizationID m = ga_GitHubAccountID owner) /\
    ((ga_GitHubAccountID owner <= 0)%Z -> ToLower (TrimSpace (mb_OrganizationLogin m)) = ToLower (TrimSpace (ga_AccountLogin owner))).

Definition manages (account : Account) (scope : accountPreferenceScope) (tr : trace) : Prop :=
  scope = MkPreferenceScope AccountScopeTypeAccount (ac_ID account) \/
  (scope_Type scope = AccountScopeTypeGitHubInstall /\ exists owner, recorded_owner account (scope_ID scope) owner tr /\
    ((EqualFold (TrimSpace (ga_AccountType owner)) "user" = true /\ is_user account owner tr) \/
     (EqualFold (TrimSpace (ga_AccountType owner)) "organization" = true /\ owns_organization account owner tr))).

(** GitHub described the installation, to the App or to the viewer's token. *)
Definition described (account : Account) (installation : Installation) (tr : trace) : Prop :=
  (exists i, seen (SGetInstallation i) (Ok installation) tr) \/
  (exists token listed, token_for account token tr /\ seen (SUserInstallations token) (Ok listed) tr /\ installation ∈ listed).

(** The catalog of a scope of settings: the scope's own, or, of a personal installation, that
    of the account the store names for it. *)
Definition catalog_of (pref : accountPreferenceScope) (scope : RunnerProfileScope) (tr : trace) : Prop :=
  scope = MkScope (scope_Type pref) (scope_ID pref) \/
  (scope_Type pref = AccountScopeTypeGitHubInstall /\
   exists accountID, seen (qPersonal (scope_ID pref)) (Ok (accountID, true)) tr /\ scope = MkScope RunnerProfileScopeAccount accountID).

(** The specs the store answered belong to the scope that was asked for. *)
Definition own_specs (tr : trace) : Prop :=
  forall scope name p, seen (qScopedProfile scope name) (Ok p) tr -> MkScope (sp_ScopeType p) (sp_ScopeID p) = scope.

(** ** Rightful changes *)

Inductive rightful (account : Account) (tr : trace) {A} (op : Time -> tables -> result (tables * A)) : Prop :=
| rightful_settings scope : manages account scope tr -> in_accounts (settings_only scope) op -> rightful account tr op
| rightful_sponsor i : manages account (MkPreferenceScope AccountScopeTypeGitHubInstall i) tr -> in_sponsors (sponsor_only i) op -> rightful account tr op
| rightful_specs pref scope : manages account pref tr -> catalog_of pref scope tr -> (own_specs tr -> within (specs_only scope) op) ->
    rightful account tr op
| rightful_link installation : described account installation tr ->
    in_accounts (link_only (ac_ID account) (inst_ID installation)) op -> rightful account tr op
| rightful_unlink : in_accounts (unlink_only (ac_ID account)) op -> rightful account tr op
| rightful_owner i installation : seen (SGetInstallation i) (Ok installation) tr -> in_accounts (owner_only i) op -> rightful account tr op.

(** Changes need a signed-in viewer with the right to them, and an audit record names the
    viewer; accounts and roles never change here. *)
Definition allowed (tr : trace) (x : asked scall) : Prop :=
  match x with
  | Asked e =>
      match e with
      | SWrite op => exists session account, signed_in session account tr /\ rightful account tr op
      | SMutate event op => exists session account, signed_in session account tr /\ rightful account tr op /\ ae_Actor event = actorOf session
      | SAudit event => exists session account, signed_in session account tr /\ ae_Actor event = actorOf session
      | SEnsureAccount _ _ | SUpdateRole _ => False
      | _ => True
      end
  end.

(** Evidence stays. *)
Ltac grows := repeat match goal with H : exists _, _ |- _ => destruct H | H : _ /\ _ |- _ => destruct H end.

Lemma signed_in_mono session account tr tr' : signed_in session account tr -> signed_in session account (tr ++ tr').
Proof. intros (c & d & now & i & H1 & H2 & H3 & H4 & H5 & H6). exists c, d, now, i. split_and!; try done; in_trace. Qed.

Lemma token_for_mono account token tr tr' : token_for account token tr -> token_for account token (tr ++ tr').
Proof. intros (secret & H1 & H2). exists secret. split; [in_trace|done]. Qed.

Lemma recorded_owner_mono account i owner tr tr' : recorded_owner account i owner tr -> recorded_owner account i owner (tr ++ tr').
Proof.
  intros [H|(links & link & H1 & H2)]; [left; in_trace|right]. exists links, link. split; [in_trace|done].
Qed.

Lemma manages_mono account scope tr tr' : manages account scope tr -> manages account scope (tr ++ tr').
Proof.
  intros [->|(Ht & owner & Ho & Hw)]; [by left|right]. split; [done|]. exists owner. split; [by apply recorded_owner_mono|].
  destruct Hw as [[Hty (i & H1 & H2)]|[Hty (token & ms & m & H1 & H2 & H3)]]; [left|right]; (split; [done|]).
  - exists i. split; [in_trace|done].
  - exists token, ms, m. split_and!; [by apply token_for_mono|in_trace|apply H3..].
Qed.

Lemma manages_scope_ok account scope tr : manages account scope tr -> scope_ok scope.
Proof. intros [->|[H _]]; [by left|by right]. Qed.

(** ** The session and the scope *)

(** A reply that refuses the request has no data. *)
Definition refusal {A} (answer : reply A) : Prop := exists code, rp_body answer = BError code.

Lemma authorization_refusal {A} e : refusal (authorizationRefusal (A:=A) e).
Proof. unfold authorizationRefusal. repeat case_match; by eexists. Qed.

Lemma session_vc {A} tr : vc allowed (requireUserSession (A:=A) (srv_sessions s) r)
  (fun x tr' => match x with inl answer => refusal answer | inr (session, account) => signed_in session account tr' end) tr.
Proof.
  unfold requireUserSession, sessionFromRequest. vc_steps; try (by eexists). bool_prop.
  eexists _, _, _, _. split_and!; [eassumption|eassumption|done|in_trace| |in_trace].
  lia.
Qed.

Lemma token_vc account tr : vc allowed (userAccessToken s (ac_ID account))
  (fun x tr' => forall token, x = Ok token -> token_for account token tr') tr.
Proof.
  unfold userAccessToken. apply vc_perform; [exact I|]. intros [secret|e]; [|by intros ?].
  destruct (userToken s (as_EncryptedValue secret)) as [t|] eqn:E; cbn [vc]; [|done]. intros token [= <-]. exists secret. split; [in_trace|done].
Qed.

Lemma fold_type t owner : ToLower t = t -> has_type t owner = EqualFold (TrimSpace (ga_AccountType owner)) t.
Proof. intros H. unfold has_type, EqualFold. by rewrite H. Qed.

Lemma manager_vc account owner tr : vc allowed (githubInstallationAccountsManageable s (ac_ID account) [owner])
  (fun x tr' => forall b rest, x = Ok (b :: rest) -> b = true ->
    (EqualFold (TrimSpace (ga_AccountType owner)) "user" = true /\ is_user account owner tr') \/
    (EqualFold (TrimSpace (ga_AccountType owner)) "organization" = true /\ owns_organization account owner tr')) tr.
Proof.
  unfold githubInstallationAccountsManageable. cbn [existsb]. rewrite !orb_false_r, !fold_type by done.
  eapply (vc_seq _ _ _ (fun x tr' => forall l, x = Ok l -> exists b, l = [b] /\
    (b = true -> EqualFold (TrimSpace (ga_AccountType owner)) "user" = true /\ is_user account owner tr'))).
  { destruct (EqualFold _ "user") eqn:Eu; [|cbn [vc]; intros l [= <-]; by exists false].
    apply vc_perform; [exact I|]. intros [identity|e]; [|done]. intros l [= <-]. eexists. split; [done|].
    unfold ownedByIdentity. rewrite Eu. cbn [andb]. intros Hb. split; [done|]. exists identity. split; [in_trace|].
    destruct (Z.ltb_spec 0 (ga_GitHubAccountID owner)); bool_prop; split; (intros ?; first [done|lia]). }
  intros [l|e] tr1 Hl; [|done]. destruct (Hl l eq_refl) as (b & -> & Hb).
  destruct (negb (EqualFold _ "organization")) eqn:Eo; [cbn [vc]; intros b' rest [= <- <-] Ht; left; by apply Hb|].
  destruct (negb (srv_github s)); [done|]. bool_prop.
  eapply vc_seq; [apply token_vc|]. intros [token|e] tr2 Ht; [|done]. apply vc_perform; [exact I|]. intros [ms|e]; [|done].
  intros b' rest E Hb'. cbn [zip_with] in E. rewrite Eo in E. injection E as E _. rewrite <-E in Hb'. clear E. right. split; [done|].
  unfold ownedByMemberships in Hb'.
  assert (Hm : forall m, m ∈ List.filter (fun m => EqualFold (TrimSpace (mb_Role m)) githubOrganizationOwnerRole) ms ->
    m ∈ ms /\ EqualFold (TrimSpace (mb_Role m)) "admin" = true) by (intros m [? ?]%list_elem_of_In%filter_In; split; [by apply list_elem_of_In|done]).
  destruct (Z.ltb_spec 0 (ga_GitHubAccountID owner)); apply existsb_exists in Hb' as (m & Hin%list_elem_of_In & Hid); bool_prop;
    destruct (Hm m Hin) as [H1 H2]; exists token, ms, m;
    (split_and!; [apply token_for_mono, Ht; done|in_trace|done|done|intros ?; first [done|lia]|intros ?; first [done|lia]]).
Qed.

Lemma manageable_vc account scope tr : vc allowed (accountPreferenceScopeManageable s (ac_ID account) scope)
  (fun x tr' => x = Ok true -> manages account scope tr') tr.
Proof.
  unfold accountPreferenceScopeManageable. destruct (bool_decide (scope_Type scope = AccountScopeTypeAccount)) eqn:E1.
  { cbn [vc]. intros [= E]. left. bool_prop. destruct scope as [ty id]. cbn in *. subst ty. f_equal. lia. }
  destruct (negb _) eqn:E2; [done|]. bool_prop.
  eapply (vc_seq _ _ _ (fun x tr' => forall owner, x = Ok owner -> recorded_owner account (scope_ID scope) owner tr' \/
    owner = MkGitHubInstallationAccount 0 "" "" "" "")).
  { unfold recordedOwner. apply vc_perform; [exact I|]. intros [owner|e]; [intros o [= <-]; left; left; in_trace|].
    destruct (negb _); [done|]. apply vc_perform; [exact I|]. intros [links|e']; [|done]. intros o [= <-].
    destruct (List.find _ links) as [link|] eqn:E; [|by right]. apply find_Some_in in E as [Hin Hid]. bool_prop.
    left. right. exists links, link. split_and!; [in_trace|done|lia|done]. }
  intros [owner|e] tr1 Ho; [|done]. eapply vc_seq; [apply manager_vc|]. intros [l|e] tr2 Hl; [|done]. cbn [vc].
  destruct l as [|b l]; [done|]. intros [= ->]. specialize (Hl true l eq_refl eq_refl).
  right. split; [done|]. exists owner. split; [|done]. destruct (Ho owner eq_refl) as [H| ->]; [by apply recorded_owner_mono|].
  by destruct Hl as [[H _]|[H _]].
Qed.

(** The scope the request names: the account's own, or that of one of its links. *)
Definition requested (account : Account) (scope : accountPreferenceScope) (tr : trace) : Prop :=
  (TrimSpace (http_query r "installation_id") = "" /\ scope = MkPreferenceScope AccountScopeTypeAccount (ac_ID account)) \/
  exists links link, seen (qInstallations (ac_ID account)) (Ok links) tr /\ link ∈ links /\
    ParseInt (TrimSpace (http_query r "installation_id")) = Some (gi_ID link) /\
    scope = MkPreferenceScope AccountScopeTypeGitHubInstall (gi_InstallationID link).

Lemma requested_mono account scope tr tr' : requested account scope tr -> requested account scope (tr ++ tr').
Proof. intros [H|(links & link & H1 & H2)]; [by left|right]. exists links, link. split; [in_trace|done]. Qed.

Lemma scope_from_request_vc account tr : vc allowed (accountPreferenceScopeFromRequest (ac_ID account) r)
  (fun x tr' => forall scope, x = Ok scope -> requested account scope tr') tr.
Proof.
  unfold accountPreferenceScopeFromRequest, githubInstallationForAccount. case_bool_decide as E.
  { cbn [vc]. intros scope [= <-]. by left. }
  destruct (ParseInt _) as [id|] eqn:Ep; [|done]. destruct (_ <=? 0)%Z; [done|]. apply vc_tbind, vc_perform; [exact I|].
  intros [links|e]; [|done]. cbn [vc tbind]. destruct (List.find _ links) as [link|] eqn:Ef; [|done].
  apply find_Some_in in Ef as [Hin Hid]. bool_prop. intros scope [= <-]. right. exists links, link.
  split_and!; [in_trace|done|rewrite Ep; f_equal; lia|done].
Qed.

Lemma scope_vc {A} tr : vc allowed (scopeOfRequest (A:=A) s r)
  (fun x tr' => match x with inl answer => refusal answer | inr (session, account, scope, manageable) =>
     signed_in session account tr' /\ requested account scope tr' /\ (manageable = true -> manages account scope tr') end) tr.
Proof.
  unfold scopeOfRequest. eapply vc_seq; [apply session_vc|]. intros [|[session account]] tr1 Hs; [done|].
  eapply vc_seq; [apply scope_from_request_vc|]. intros [scope|e] tr2 Hq; [|by eexists].
  eapply vc_seq; [apply manageable_vc|]. intros [b|e] tr3 Hm; [|apply authorization_refusal].
  split_and!; [by apply signed_in_mono, signed_in_mono|by apply requested_mono, Hq|]. intros ->. by apply Hm.
Qed.

Lemma manageable_scope_vc {A} tr : vc allowed (requireManageable (A:=A) s r)
  (fun x tr' => match x with inl _ => True | inr (session, account, scope) =>
     signed_in session account tr' /\ manages account scope tr' end) tr.
Proof.
  unfold requireManageable. eapply vc_seq; [apply scope_vc|]. intros [|[[[session account] scope] b]] tr1 H; [exact I|].
  destruct b; cbn [negb vc]; [|exact I]. destruct H as (H1 & _ & H2). split; [done|by apply H2].
Qed.

(** ** Safe programs

    A program is safe with evidence [P] when, started with it, it performs only allowed
    events; evidence grows with the trace. *)

Class Grows (P : trace -> Prop) : Prop := grows tr tr' : P tr -> P (tr ++ tr').

#[local] Instance grows_signed_in session account : Grows (signed_in session account).
Proof. intros tr tr'. apply signed_in_mono. Qed.
#[local] Instance grows_manages account scope : Grows (manages account scope).
Proof. intros tr tr'. apply manages_mono. Qed.
#[local] Instance grows_token account token : Grows (token_for account token).
Proof. intros tr tr'. apply token_for_mono. Qed.
#[local] Instance grows_seen {R} (e : scall R) x : Grows (seen e x).
Proof. intros tr tr' H. in_trace. Qed.
#[local] Instance grows_const (Q : Prop) : Grows (fun _ => Q) | 10.
Proof. by intros tr tr' H. Qed.
#[local] Instance grows_and P Q : Grows P -> Grows Q -> Grows (fun tr => P tr /\ Q tr).
Proof. intros HP HQ tr tr' [H1 H2]. split; [by apply HP|by apply HQ]. Qed.

Definition safe (P : trace -> Prop) {A} (p : sprog A) : Prop := forall tr, P tr -> vc allowed p (fun _ _ => True) tr.

Lemma safe_weaken (P P' : trace -> Prop) {A} (p : sprog A) : (forall tr, P' tr -> P tr) -> safe P p -> safe P' p.
Proof. intros H Hp tr HP. apply Hp, H, HP. Qed.

Lemma safe_done P {A} (a : A) : safe P (Done a).
Proof. done. Qed.

(** The evidence a part of a program ends with. *)
Lemma safe_post P `{!Grows P} {A B} (E : A -> trace -> Prop) (p : sprog A) (f : A -> sprog B) :
  (forall tr, P tr -> vc allowed p E tr) -> (forall a, safe (fun tr => P tr /\ E a tr) (f a)) -> safe P (tbind p f).
Proof. intros Hp Hf tr HP. eapply vc_seq; [by apply Hp|]. intros a tr' Ha. apply Hf. split; [by apply grows|done]. Qed.

Lemma safe_bind P `{!Grows P} {A B} (p : sprog A) (f : A -> sprog B) : safe P p -> (forall a, safe P (f a)) -> safe P (tbind p f).
Proof. intros Hp Hf. eapply safe_post; [done|exact Hp|]. intros a. eapply safe_weaken; [|apply Hf]. by intros tr [H _]. Qed.

Lemma safe_event P `{!Grows P} {R B} (e : scall R) (f : R -> sprog B) : (forall tr, P tr -> allowed tr (Asked e)) ->
  (forall x, safe (fun tr => P tr /\ seen e x tr) (f x)) -> safe P (tbind (perform e) f).
Proof.
  intros He Hf. apply (safe_post P (fun x tr => seen e x tr)); [|exact Hf]. intros tr HP. split; [by apply He|]. intros x. cbn [vc]. in_trace.
Qed.

Lemma safe_perform P {R} (e : scall R) : (forall tr, P tr -> allowed tr (Asked e)) -> safe P (perform e).
Proof. intros He tr HP. split; [by apply He|]. done. Qed.



(** Sequences, reads and case distinctions. *)
Ltac safe_step :=
  lazymatch goal with
  | |- safe _ (let _ := _ in _) => cbv zeta
  | |- safe _ (Done _) => apply safe_done
  | |- safe _ (tbind (perform _) _) => apply safe_event; [typeclasses eauto|intros ? ?; exact I|intros ?]
  | |- safe _ (tbind _ _) => apply safe_bind; [typeclasses eauto| |intros ?]
  | |- safe _ (perform _) => apply safe_perform; intros ? ?; exact I
  | |- safe _ ((match ?x with _ => _ end) _) => destruct x
  | |- safe _ (match ?x with _ => _ end) => first [is_var x; destruct x | let E := fresh "Hcase" in destruct x eqn:E]
  end.

Ltac safe_steps := repeat safe_step.

(** *** Reading the settings *)

Section viewer.
Context (P : trace -> Prop) `{!Grows P} (session : adminSession) (account : Account).
Context (P_signed : forall tr, P tr -> signed_in session account tr).

Lemma owner_safe i : safe P (githubInstallationOwner (srv_github s) i).
Proof using All.
  unfold githubInstallationOwner. safe_steps. apply safe_perform. intros tr [HP Hs]. exists session, account.
  split; [apply P_signed; tauto|]. eapply rightful_owner; [exact Hs|]. apply owner_frame.
Qed.
End viewer.

(** What is left of the evidence is a conjunction. *)
Ltac evident := intros; repeat match goal with H : _ /\ _ |- _ => destruct H end; eauto.
Ltac safe_owner := eapply owner_safe; [typeclasses eauto|evident].

Lemma linked_safe (P : trace -> Prop) `{!Grows P} a i : safe P (githubInstallationLinkedToAccount a i).
Proof. unfold githubInstallationLinkedToAccount. safe_steps. Qed.

Lemma service_safe fuel : forall (P : trace -> Prop) `{!Grows P} scope,
  safe P (sandboxServiceForScopeFuel (decryptSecret s) (newE2BService s) (decodeService s) fuel scope).
Proof.
  induction fuel as [|fuel IH]; intros P0 HG scope; cbn [sandboxServiceForScopeFuel]; [apply safe_done|].
  safe_steps. all: first [apply linked_safe; typeclasses eauto|apply IH; typeclasses eauto|idtac].
Qed.

Section reading.
Context (P : trace -> Prop) `{!Grows P} (session : adminSession) (account : Account).
Context (P_signed : forall tr, P tr -> signed_in session account tr).

Lemma default_safe resolve : (forall Q, Grows Q -> (forall tr, Q tr -> P tr) -> safe Q resolve) ->
  safe P (sandboxServiceForAdminDefault (decryptSecret s) (newE2BService s) resolve).
Proof using Grows0. intros H. unfold sandboxServiceForAdminDefault. safe_steps. all: apply H; [typeclasses eauto|evident]. Qed.

Lemma with_default_safe scope : safe P (sandboxServiceForScopeWithDefault (srv_github s) (decryptSecret s) (newE2BService s) (decodeService s) scope).
Proof using All.
  unfold sandboxServiceForScopeWithDefault, sandboxServiceForScope. safe_steps; [by apply service_safe|].
  apply default_safe. intros Q HQ HP. unfold sandboxDefaultAudienceOwnerForScope. safe_steps.
  eapply owner_safe; [done|intros tr Ht; by apply P_signed, HP].
Qed.
End reading.

(** ** The handlers *)

Section signed.
Context (P : trace -> Prop) `{!Grows P} (session : adminSession) (account : Account).
Context (P_signed : forall tr, P tr -> signed_in session account tr).

Lemma event_vc actor action ty id payload tr :
  vc allowed (auditEventFor s actor action ty id payload) (fun event _ => ae_Actor event = actor) tr.
Proof using. unfold auditEventFor. by vc_steps. Qed.

Lemma audit_safe action ty id payload : safe P (recordAudit s (actorOf session) action ty id payload).
Proof using All.
  unfold recordAudit. eapply safe_post; [done|intros tr _; apply event_vc|]. intros event. apply safe_perform.
  intros tr [HP Ha]. exists session, account. split; [by apply P_signed|done].
Qed.

Lemma mutate_safe {A} action ty id payload (op : Time -> tables -> result (tables * A)) :
  (forall tr, P tr -> rightful account tr op) -> safe P (applyMutationWithAudit s (actorOf session) action ty id payload op).
Proof using All.
  intros Hop. unfold applyMutationWithAudit. eapply safe_post; [done|intros tr _; apply event_vc|]. intros event. apply safe_perform.
  intros tr [HP Ha]. exists session, account. split_and!; [by apply P_signed|by apply Hop|done].
Qed.

Lemma resolved_safe response scope : safe P (fillSandboxResolvedSource s response scope).
Proof using All. unfold fillSandboxResolvedSource. safe_steps. by eapply with_default_safe. Qed.

Lemma sandbox_response_safe (Q : trace -> Prop) `{!Grows Q} response scope : safe Q (fillSandboxResponseFromScope s response scope).
Proof using. unfold fillSandboxResponseFromScope, fillAPIURL. safe_steps. Qed.
End signed.

Ltac safe_read :=
  first [apply linked_safe; typeclasses eauto | apply service_safe; typeclasses eauto | apply sandbox_response_safe; typeclasses eauto
        | eapply with_default_safe; [typeclasses eauto|evident] | eapply resolved_safe; [typeclasses eauto|evident]
        | eapply owner_safe; [typeclasses eauto|evident] | eapply audit_safe; [typeclasses eauto|evident]].

Section managed.
Context (P : trace -> Prop) `{!Grows P} (session : adminSession) (account : Account).
Context (P_signed : forall tr, P tr -> signed_in session account tr).

Lemma response_safe scope viewer : safe P (preferencesResponse s scope viewer).
Proof using All.
  unfold preferencesResponse, accountPreferencesResponseBase, inheritedResponse, fillCachePreferenceResponse, cacheMapping.
  safe_steps. all: safe_read.
Qed.

Lemma managed_reply_safe scope a : safe P (managedReply s scope a).
Proof using All. unfold managedReply. safe_steps. apply response_safe. Qed.
End managed.

(** A handler after the session, and after the scope was found manageable. *)
Definition viewer_evidence session account : trace -> Prop := signed_in session account.
Definition manager_evidence session account scope : trace -> Prop := fun tr => signed_in session account tr /\ manages account scope tr.

#[local] Instance grows_viewer session account : Grows (viewer_evidence session account).
Proof. apply grows_signed_in. Qed.
#[local] Instance grows_manager session account scope : Grows (manager_evidence session account scope).
Proof. typeclasses eauto. Qed.

Lemma viewer_signed session account tr : viewer_evidence session account tr -> signed_in session account tr.
Proof. done. Qed.
Lemma manager_signed session account scope tr : manager_evidence session account scope tr -> signed_in session account tr.
Proof. by intros [H _]. Qed.
Lemma manager_manages session account scope tr : manager_evidence session account scope tr -> manages account scope tr.
Proof. by intros [_ H]. Qed.

Hint Resolve viewer_signed manager_signed manager_manages : core.

Lemma after_session {A B} (f : reply A + adminSession * Account -> sprog B) tr :
  (forall answer, exists b, f (inl answer) = Done b) ->
  (forall session account, safe (viewer_evidence session account) (f (inr (session, account)))) ->
  vc allowed (tbind (requireUserSession (srv_sessions s) r) f) (fun _ _ => True) tr.
Proof.
  intros Hl Hf. eapply vc_seq; [apply session_vc|]. intros [answer|[session account]] tr1 H; [|by apply Hf].
  destruct (Hl answer) as [b ->]. exact I.
Qed.

Lemma after_manageable {A B} (f : reply A + adminSession * Account * accountPreferenceScope -> sprog B) tr :
  (forall answer, exists b, f (inl answer) = Done b) ->
  (forall session account scope, safe (manager_evidence session account scope) (f (inr (session, account, scope)))) ->
  vc allowed (tbind (requireManageable s r) f) (fun _ _ => True) tr.
Proof.
  intros Hl Hf. eapply vc_seq; [apply manageable_scope_vc|]. intros [answer|[[session account] scope]] tr1 H; [|by apply Hf].
  destruct (Hl answer) as [b ->]. exact I.
Qed.

Ltac safe_all := safe_steps; first [safe_read | eapply managed_reply_safe; [typeclasses eauto|evident]
  | eapply response_safe; [typeclasses eauto|evident] | idtac].

Lemma mutate_settings session account scope (P : trace -> Prop) `{!Grows P} {A} action ty id payload (op : Time -> tables -> result (tables * A)) :
  (forall tr, P tr -> manager_evidence session account scope tr) -> (scope_ok scope -> in_accounts (settings_only scope) op) ->
  safe P (applyMutationWithAudit s (actorOf session) action ty id payload op).
Proof.
  intros HP Hop. eapply mutate_safe; [done|intros tr Ht; eapply manager_signed, HP, Ht|]. intros tr Ht.
  apply HP, manager_manages in Ht. eapply rightful_settings; [exact Ht|]. by eapply Hop, manages_scope_ok.
Qed.

Lemma preferences_vc tr : vc allowed (handleUserPreferences s r) (fun _ _ => True) tr.
Proof.
  unfold handleUserPreferences. eapply vc_seq; [apply scope_vc|]. intros [answer|[[[session account] scope] b]] tr1 H; [exact I|].
  destruct H as [H _]. revert H. change (signed_in session account) with (viewer_evidence session account).
  generalize (tr ++ tr1). change (safe (viewer_evidence session account)
    (if negb b then let* x := accountReadinessResponse s scope in Done (match x with Err _ => writeError 500 | Ok response => writeJSON 200 response end)
     else managedReply s scope account)).
  destruct b; cbn [negb]; [eapply managed_reply_safe; [typeclasses eauto|evident]|]. unfold accountReadinessResponse. safe_all.
Qed.

Lemma delete_cache_vc tr : vc allowed (handleUserDeleteCacheConfig s r) (fun _ _ => True) tr.
Proof.
  apply after_manageable; [by eexists|]. intros session account scope. safe_all.
  - eapply mutate_settings; [typeclasses eauto|done|]. apply delete_cache_frame.
Qed.

Lemma delete_key_vc tr : vc allowed (handleUserDeleteSandboxAPIKey s r) (fun _ _ => True) tr.
Proof.
  apply after_manageable; [by eexists|]. intros session account scope. safe_all.
  eapply mutate_settings; [typeclasses eauto|done|]. apply delete_key_frame.
Qed.

Lemma save_cache_vc decode tr : vc allowed (handleUserSaveCacheConfig s decode r) (fun _ _ => True) tr.
Proof.
  apply after_manageable; [by eexists|]. intros session account scope.
  unfold requiredCacheMapping, cacheKeys, givenOrStored. safe_all.
  apply safe_event; [typeclasses eauto| |intros x; safe_all].
  intros tr1 Ht. exists session, account. split; [evident|]. eapply rightful_settings; [by eapply manager_manages|].
  by eapply cache_settings_frame, manages_scope_ok, manager_manages.
Qed.

Lemma custom_vc scope url key tr : vc allowed (customValue s scope url key)
  (fun x _ => forall value secret, x = inr (value, Some secret) -> as_ScopeType secret = scope_Type scope /\ as_ScopeID secret = scope_ID scope) tr.
Proof. unfold customValue. vc_steps; try (intros ? ? [=]; fail). intros ? ? E. destruct (encryptSecret s key); by simplify_eq. Qed.

Lemma inherit_safe (P : trace -> Prop) `{!Grows P} scope account replace : safe P (inheritValue s scope account replace).
Proof. unfold inheritValue, inheritedSandboxSourceAccountID, sandboxSourceAccountConfigured. safe_steps. Qed.

Lemma save_sandbox_vc decode tr : vc allowed (handleUserSaveSandboxConfig s decode r) (fun _ _ => True) tr.
Proof.
  apply after_manageable; [by eexists|]. intros session account scope. destruct (decode (http_body r)) as [input|]; [|apply safe_done].
  cbv zeta. apply (safe_post _ (fun x _ => forall value secret, x = inr (value, Some secret) ->
    as_ScopeType secret = scope_Type scope /\ as_ScopeID secret = scope_ID scope)).
  - intros tr1 Ht. destruct (bool_decide _); [|apply custom_vc]. eapply vc_seq; [exact (inherit_safe _ _ _ _ tr1 Ht)|].
    intros [answer|value] tr2 _; cbn [vc]; intros ? ? E; discriminate E.
  - intros [answer|[value secret]]; [apply safe_done|]. safe_all.
    eapply mutate_safe; [typeclasses eauto|evident|]. intros tr1 [Ht Hs]. eapply rightful_settings; [by eapply manager_manages|].
    eapply sandbox_settings_frame; [by eapply manages_scope_ok, manager_manages|]. intros sec ->. by eapply Hs.
Qed.

Lemma app_vc tr : vc allowed (handleUserGitHubApp s r) (fun _ _ => True) tr.
Proof.
  apply after_session; [by eexists|]. intros session account.
  unfold githubInstallationAccountsManageable, userAccessToken. safe_all.
Qed.

(** A link to an installation GitHub described. *)
Lemma link_allowed session account installation (P : trace -> Prop) tr :
  (forall tr, P tr -> signed_in session account tr) -> (forall tr, P tr -> described account installation tr) -> P tr ->
  allowed tr (Asked (wInstallation (linkOf (ac_ID account) installation))).
Proof.
  intros H1 H2 HP. exists session, account. split; [by apply H1|]. eapply rightful_link; [by apply H2|].
  apply (link_frame (linkOf (ac_ID account) installation)).
Qed.

Lemma unlink_allowed session account id tr : signed_in session account tr -> allowed tr (Asked (wDeleteInstallation (ac_ID account) id)).
Proof. intros H. exists session, account. split; [done|]. apply rightful_unlink, unlink_frame. Qed.

Lemma save_installation_vc decode tr : vc allowed (handleUserSaveGitHubInstallation s decode r) (fun _ _ => True) tr.
Proof.
  apply after_session; [by eexists|]. intros session account. unfold syncGitHubInstallation. safe_all.
  apply safe_perform. intros tr1 Ht. exists session, account. split; [by apply Ht|].
  eapply rightful_link; [left; eexists; exact (proj2 Ht)|]. apply (link_frame (linkOf (ac_ID account) _)).
Qed.

Lemma delete_installation_vc tr : vc allowed (handleUserDeleteGitHubInstallation s r) (fun _ _ => True) tr.
Proof.
  apply after_session; [by eexists|]. intros session account. safe_all.
  apply safe_event; [typeclasses eauto|intros tr1 Ht; by eapply unlink_allowed|]. intros x. safe_all.
Qed.

Section sync.
Context (session : adminSession) (account : Account) (token : string) (listed : list Installation).

Definition listing : trace -> Prop := fun tr =>
  signed_in session account tr /\ token_for account token tr /\ seen (SUserInstallations token) (Ok listed) tr.

#[local] Instance grows_listing : Grows listing.
Proof. intros tr tr' (H1 & H2 & H3). split_and!; [by apply signed_in_mono|by apply token_for_mono|in_trace]. Qed.

Lemma save_all_safe (P : trace -> Prop) `{!Grows P} remote : (forall tr, P tr -> listing tr) -> remote ⊆ listed ->
  safe P (saveInstallations (ac_ID account) remote).
Proof.
  revert P Grows0. induction remote as [|installation rest IH]; intros P HG HP Hin; cbn [saveInstallations]; [apply safe_done|].
  apply safe_event; [done| |].
  - intros tr Ht. apply (link_allowed session account installation P); [intros tr1 H1%HP; apply H1|intros tr1 H1%HP|done].
    right. exists token, listed. destruct H1 as (? & ? & ?). split_and!; [done|done|apply Hin; left].
  - intros [saved|e]; [|apply safe_done]. apply safe_bind; [typeclasses eauto| |intros ?; safe_all].
    apply IH; [typeclasses eauto|intros tr [H _]; by apply HP|]. intros x Hx. apply Hin. by right.
Qed.

Lemma remove_all_safe (P : trace -> Prop) `{!Grows P} ids existing : (forall tr, P tr -> signed_in session account tr) ->
  safe P (removeInstallations (ac_ID account) ids existing).
Proof.
  revert P Grows0. induction existing as [|link rest IH]; intros P HG HP; cbn [removeInstallations]; [apply safe_done|].
  destruct (bool_decide _); [by apply IH|]. apply safe_event; [done|intros tr Ht; eapply unlink_allowed, HP, Ht|].
  intros [x|e]; [|apply safe_done]. apply safe_bind; [typeclasses eauto| |intros ?; safe_all].
  apply IH; [typeclasses eauto|intros tr [H _]; by apply HP].
Qed.

Lemma sync_safe existing : safe listing (syncInstallations s session account listed existing).
Proof.
  unfold syncInstallations. safe_steps.
  - apply save_all_safe; [typeclasses eauto|done|done].
  - apply remove_all_safe; [typeclasses eauto|by intros tr [H _]].
  - eapply audit_safe; [typeclasses eauto|by intros tr [H _]].
Qed.
End sync.

Lemma sync_vc tr : vc allowed (handleUserSyncGitHubInstallations s r) (fun _ _ => True) tr.
Proof.
  apply after_session; [by eexists|]. intros session account. destruct (negb (srv_github s)); [apply safe_done|].
  eapply safe_post; [typeclasses eauto|intros tr1 _; apply token_vc|]. intros [token|e]; [|apply safe_done].
  apply safe_event; [|done|]. { intros tr1 tr2 [H1 H2]. split; [by apply signed_in_mono|]. intros t E. by apply token_for_mono, H2. }
  intros [remote|e]; [|apply safe_done]. eapply safe_weaken with (listing session account token remote).
  { intros tr1 [[H1 H2] H3]. split_and!; [done|by apply H2|done]. }
  safe_steps. eapply safe_weaken; [|apply sync_safe]. by intros tr1 [H _].
Qed.

Lemma repositories_vc tr : vc allowed (handleUserListGitHubInstallationRepositories s r) (fun _ _ => True) tr.
Proof. apply after_session; [by eexists|]. intros session account. unfold githubInstallationForAccount, userAccessToken. safe_all. Qed.

Lemma runners_vc tr : vc allowed (handleUserListRunners s r) (fun _ _ => True) tr.
Proof. apply after_session; [by eexists|]. intros session account. safe_all. Qed.

Lemma tour_vc decodeTour tr : vc allowed (handleUserProductTourOnboarding s decodeTour r) (fun _ _ => True) tr.
Proof. apply after_session; [by eexists|]. intros session account. safe_all. Qed.

Lemma save_tour_vc encodeTour decode tr : vc allowed (handleUserSaveProductTourOnboarding s encodeTour decode r) (fun _ _ => True) tr.
Proof.
  apply after_session; [by eexists|]. intros session account. safe_all.
  apply safe_event; [typeclasses eauto| |intros x; safe_all]. intros tr1 Ht. exists session, account. split; [evident|].
  apply (rightful_settings _ _ _ (tourScope account)); [by left|]. apply preference_frame. by left.
Qed.

(** ** Sponsorships *)

Definition sponsor_evidence session account i : trace -> Prop :=
  manager_evidence session account (MkPreferenceScope AccountScopeTypeGitHubInstall i).

#[local] Instance grows_sponsor session account i : Grows (sponsor_evidence session account i).
Proof. apply grows_manager. Qed.

Lemma sponsor_scope_vc {A} tr : vc allowed (userForkSponsorshipScope (A:=A) s r)
  (fun x tr' => match x with inl _ => True | inr (session, account, i, _) => sponsor_evidence session account i tr' end) tr.
Proof.
  unfold userForkSponsorshipScope. eapply vc_seq; [apply session_vc|]. intros [|[session account]] tr1 Hs; [exact I|].
  eapply vc_seq; [apply scope_from_request_vc|]. intros [[ty id]|e] tr2 _; [|exact I].
  cbn [scope_Type scope_ID]. destruct (negb _) eqn:E; [exact I|]. bool_prop. subst ty.
  eapply vc_seq; [apply manageable_vc|]. intros [[]|e] tr3 Hm; [|exact I..].
  assert (He : sponsor_evidence session account id (((tr ++ tr1) ++ tr2) ++ tr3)).
  { split; [by apply signed_in_mono, signed_in_mono|by apply Hm]. }
  eapply vc_seq; [refine (owner_safe _ session account _ id _ He); by intros ? [? _]|].
  intros [owner|e] tr4 _; [|exact I]. destruct (negb _); [exact I|]. cbn [vc]. by apply grows_sponsor.
Qed.

Lemma after_sponsor {A B} (f : reply A + adminSession * Account * Z * GitHubInstallationAccount -> sprog B) tr :
  (forall answer, exists b, f (inl answer) = Done b) ->
  (forall session account i owner, safe (sponsor_evidence session account i) (f (inr (session, account, i, owner)))) ->
  vc allowed (tbind (userForkSponsorshipScope s r) f) (fun _ _ => True) tr.
Proof.
  intros Hl Hf. eapply vc_seq; [apply sponsor_scope_vc|]. intros [answer|[[[session account] i] owner]] tr1 H; [|by eapply Hf].
  destruct (Hl answer) as [b ->]. exact I.
Qed.

Lemma mutate_sponsor session account i (P : trace -> Prop) `{!Grows P} {A} action ty id payload (op : Time -> tables -> result (tables * A)) :
  (forall tr, P tr -> sponsor_evidence session account i tr) -> in_sponsors (sponsor_only i) op ->
  safe P (applyMutationWithAudit s (actorOf session) action ty id payload op).
Proof.
  intros HP Hop. eapply mutate_safe; [done|intros tr Ht; eapply manager_signed, HP, Ht|]. intros tr Ht.
  eapply rightful_sponsor; [by eapply manager_manages, HP|done].
Qed.

Lemma policy_items_safe (P : trace -> Prop) `{!Grows P} i policies : safe P (policyItems i policies).
Proof.
  revert P Grows0. induction policies as [|policy rest IH]; intros P HG; cbn [policyItems]; [apply safe_done|].
  safe_steps. apply IH. typeclasses eauto.
Qed.

Lemma list_policies_vc tr : vc allowed (handleUserListForkSponsorshipPolicies s r) (fun _ _ => True) tr.
Proof. apply after_sponsor; [by eexists|]. intros session account i owner. safe_steps. apply policy_items_safe. typeclasses eauto. Qed.

Lemma list_sources_vc tr : vc allowed (handleUserListForkSponsorshipRepositories s r) (fun _ _ => True) tr.
Proof. apply after_sponsor; [by eexists|]. intros session account i owner. unfold userAccessToken. safe_all. Qed.

Lemma put_policy_vc decode tr : vc allowed (handleUserPutForkSponsorshipPolicy s decode r) (fun _ _ => True) tr.
Proof.
  apply after_sponsor; [by eexists|]. intros session account i owner. unfold validateForkSponsorshipSource, sourceIsFree, savePolicy.
  safe_all. eapply mutate_sponsor; [typeclasses eauto|evident|]. apply policy_save_frame; [by right|done].
Qed.

Lemma post_policy_vc decode tr : vc allowed (handleUserCreateForkSponsorshipPolicy s decode r) (fun _ _ => True) tr.
Proof.
  apply after_sponsor; [by eexists|]. intros session account i owner. unfold validateForkSponsorshipSource, sourceIsFree, savePolicy.
  safe_all. eapply mutate_sponsor; [typeclasses eauto|evident|]. apply policy_save_frame; [by left|done].
Qed.

Lemma delete_policy_vc tr : vc allowed (handleUserDeleteForkSponsorshipPolicy s r) (fun _ _ => True) tr.
Proof.
  apply after_sponsor; [by eexists|]. intros session account i owner. safe_all.
  eapply mutate_sponsor; [typeclasses eauto|evident|]. apply policy_delete_frame.
Qed.

Lemma add_approval_vc decode tr : vc allowed (handleUserAddForkSponsorshipApproval s decode r) (fun _ _ => True) tr.
Proof.
  apply after_sponsor; [by eexists|]. intros session account i owner. safe_all.
  eapply mutate_sponsor; [typeclasses eauto|evident|]. by apply approval_save_frame.
Qed.

Lemma delete_approval_vc tr : vc allowed (handleUserDeleteForkSponsorshipApproval s r) (fun _ _ => True) tr.
Proof.
  apply after_sponsor; [by eexists|]. intros session account i owner. safe_all.
  eapply mutate_sponsor; [typeclasses eauto|evident|]. apply approval_delete_frame.
Qed.

(** ** Specs *)

Definition spec_evidence session account scope : trace -> Prop := fun tr =>
  signed_in session account tr /\ exists pref, manages account pref tr /\ catalog_of pref scope tr.

#[local] Instance grows_spec session account scope : Grows (spec_evidence session account scope).
Proof.
  intros tr tr' (H1 & pref & H2 & H3). split; [by apply signed_in_mono|]. exists pref. split; [by apply manages_mono|].
  destruct H3 as [H3|(H3 & id & H4 & H5)]; [by left|right]. split; [done|]. exists id. split; [in_trace|done].
Qed.

Lemma spec_signed session account scope tr : spec_evidence session account scope tr -> signed_in session account tr.
Proof. by intros [H _]. Qed.
Hint Resolve spec_signed : core.

Lemma profile_scope_vc i tr : vc allowed (profileScopeOfInstallation i)
  (fun x tr' => forall scope, x = Ok (Some scope) -> catalog_of (MkPreferenceScope AccountScopeTypeGitHubInstall i) scope tr') tr.
Proof.
  unfold profileScopeOfInstallation. destruct (_ <=? 0)%Z; [done|]. apply vc_perform; [exact I|]. intros [[id ok]|e]; [|done].
  destruct (ok && _) eqn:E; [|].
  - bool_prop. subst ok. intros scope [= <-]. right. split; [done|]. exists id. split; [in_trace|done].
  - apply vc_perform; [exact I|]. intros [owner|e]; cbn [vc]; [|by destruct (errors_is e _)].
    case_bool_decide; [|done]. intros scope [= <-]. by left.
Qed.

Lemma spec_scope_vc {A} tr : vc allowed (specScope (A:=A) s r)
  (fun x tr' => match x with inl _ => True | inr (session, account, scope, _) => spec_evidence session account scope tr' end) tr.
Proof.
  unfold specScope. eapply vc_seq; [apply session_vc|]. intros [|[session account]] tr1 Hs; [exact I|].
  eapply (vc_seq _ _ _ (fun x tr' => match x with inl _ => True | inr (scope, _) =>
    exists pref, manages account pref tr' /\ catalog_of pref scope tr' end)).
  - unfold userRunnerScope. eapply vc_seq; [apply scope_from_request_vc|]. intros [pref|e] tr2 _; [|exact I].
    eapply vc_seq; [apply manageable_vc|]. intros [[]|e] tr3 Hm; [|exact I..]. specialize (Hm eq_refl). cbv zeta.
    destruct (negb _) eqn:E; [exists pref; split; [done|by left]|]. bool_prop.
    eapply vc_seq; [apply profile_scope_vc|]. intros [[canonical|]|e] tr4 Hc; cbn [vc]; [| |done].
    + exists pref. split; [by apply manages_mono|]. specialize (Hc canonical eq_refl). destruct pref as [ty id]. cbn in E. by subst ty.
    + exists pref. split; [by apply manages_mono|by left].
  - intros [|[scope pref]] tr2 H; [exact I|]. cbn [vc]. split; [by apply signed_in_mono|done].
Qed.

Lemma after_spec {A B} (f : reply A + adminSession * Account * RunnerProfileScope * accountPreferenceScope -> sprog B) tr :
  (forall answer, exists b, f (inl answer) = Done b) ->
  (forall session account scope pref, safe (spec_evidence session account scope) (f (inr (session, account, scope, pref)))) ->
  vc allowed (tbind (specScope s r) f) (fun _ _ => True) tr.
Proof.
  intros Hl Hf. eapply vc_seq; [apply spec_scope_vc|]. intros [answer|[[[session account] scope] pref]] tr1 H; [|by eapply Hf].
  destruct (Hl answer) as [b ->]. exact I.
Qed.

Section spec_steps.
Context (P : trace -> Prop) `{!Grows P} (session : adminSession) (account : Account).
Context (P_signed : forall tr, P tr -> signed_in session account tr).

Lemma groups_safe scope : safe P (organizationRunnerGroups s scope).
Proof using All. unfold organizationRunnerGroups. safe_steps. by eapply owner_safe. Qed.

Lemma group_safe scope name : safe P (validateScopedRunnerGroup s scope name).
Proof using All. unfold validateScopedRunnerGroup. safe_steps. apply groups_safe. Qed.

Lemma template_safe pref id : safe P (validateScopedProfileTemplate s pref id).
Proof using Grows0. unfold validateScopedProfileTemplate, sandboxServiceForScope. safe_steps. by apply service_safe. Qed.

Lemma spec_list_safe scope pref : safe P (writeUserRunnerSpecList s scope pref).
Proof using Grows0.
  unfold writeUserRunnerSpecList, sandboxServiceForScope. safe_steps. apply service_safe. typeclasses eauto.
Qed.

Lemma in_use_safe {A} check scope name : safe P (refusedInUse (A:=A) check scope name).
Proof using Grows0. unfold refusedInUse. safe_steps. Qed.

Lemma mutate_spec scope {A} action ty id payload (op : Time -> tables -> result (tables * A)) :
  (forall tr, P tr -> spec_evidence session account scope tr) -> (forall tr, P tr -> own_specs tr -> within (specs_only scope) op) ->
  safe P (applyMutationWithAudit s (actorOf session) action ty id payload op).
Proof using All.
  intros HP Hop. eapply mutate_safe; [done|done|]. intros tr Ht. destruct (HP tr Ht) as (_ & pref & Hm & Hc).
  eapply rightful_specs; [exact Hm|exact Hc|]. by apply Hop.
Qed.
End spec_steps.

Ltac safe_spec := first [eapply group_safe; [typeclasses eauto|evident] | apply template_safe; typeclasses eauto
  | apply spec_list_safe; typeclasses eauto | apply in_use_safe; typeclasses eauto | eapply groups_safe; [typeclasses eauto|evident]].

Lemma list_specs_vc tr : vc allowed (handleUserListRunnerSpecs s r) (fun _ _ => True) tr.
Proof. apply after_spec; [by eexists|]. intros session account scope pref. safe_spec. Qed.

Lemma list_groups_vc tr : vc allowed (handleUserListGitHubRunnerGroups s r) (fun _ _ => True) tr.
Proof.
  apply vc_tbind. eapply vc_conseq; [|apply after_spec; [by eexists|]]; [by intros|]. intros session account scope pref. safe_steps. safe_spec.
Qed.

Lemma create_spec_vc decode tr : vc allowed (handleUserCreateRunnerSpec s decode r) (fun _ _ => True) tr.
Proof.
  apply after_spec; [by eexists|]. intros session account scope pref. safe_steps; try safe_spec.
  eapply mutate_spec; [typeclasses eauto|evident|evident|]. intros tr1 _ _. apply saveSpec_frame. by destruct scope.
Qed.

Lemma remove_spec_vc tr : vc allowed (handleUserDeleteRunnerSpec s r) (fun _ _ => True) tr.
Proof.
  apply after_spec; [by eexists|]. intros session account scope pref. safe_steps; try safe_spec.
  eapply mutate_spec; [typeclasses eauto|evident|evident|]. intros tr1 _ _. apply unlessInUse_within, deleteSpec_frame.
Qed.

Lemma change_spec_vc decode tr : vc allowed (handleUserPatchRunnerSpec s decode r) (fun _ _ => True) tr.
Proof.
  apply after_spec; [by eexists|]. intros session account scope pref. unfold savePatch. safe_steps; try safe_spec.
  eapply mutate_spec; [typeclasses eauto|evident|evident|]. intros tr1 Ht Hown. apply unlessInUse_within, saveSpec_frame. cbn.
  symmetry. eapply Hown. evident.
Qed.

(** ** What a viewer is told *)

(** All a viewer learns who does not manage the scope: where its service comes from. *)
Definition redacted (source : string) : accountPreferencesResponse :=
  MkPreferences (MkSandboxPreference sandboxPreferenceModeCustom source "" false None false false 0 "" false false)
    (MkCachePreference false "" "" "" "" None).

Definition told (answer : reply accountPreferencesResponse) (tr : trace) : Prop :=
  forall response, rp_body answer = BJSON response -> exists session account scope, signed_in session account tr /\ requested account scope tr /\
    (manages account scope tr \/
     exists source, source ∈ ["none"; "inherited"; sandboxConfigSourceAdminDefault; "custom"] /\ response = redacted source).

Lemma safe_keeps (P : trace -> Prop) `{!Grows P} {A} (p : sprog A) tr : safe P p -> P tr -> vc allowed p (fun _ tr' => P tr') tr.
Proof. intros Hp HP. eapply vc_conseq; [|by apply Hp]. intros a tr' _. by apply grows. Qed.

Lemma preferences_told_vc tr : vc allowed (handleUserPreferences s r) told tr.
Proof.
  unfold handleUserPreferences. eapply vc_seq; [apply scope_vc|]. intros [answer|[[[session account] scope] b]] tr1 H.
  { intros response E. destruct H as [code H]. congruence. }
  destruct H as (Hs & Hq & Hm). destruct b; cbn [negb].
  - assert (Hk : safe (manager_evidence session account scope) (managedReply s scope account)).
    { eapply managed_reply_safe; [typeclasses eauto|evident]. }
    eapply vc_conseq; [|apply (safe_keeps _ _ _ Hk); split; [done|by apply Hm]].
    intros answer tr2 [H1 H2] response _. exists session, account, scope. split_and!; [done|by apply requested_mono|by left].
  - unfold accountReadinessResponse, fillSandboxResolvedSource. apply vc_tbind.
    eapply vc_seq; [apply (safe_keeps (viewer_evidence session account)), Hs; eapply with_default_safe; [typeclasses eauto|evident]|].
    intros x tr2 H2. apply (requested_mono _ _ _ tr2) in Hq. destruct x as [[service snapshot]|e]; cbn [vc].
    + intros response [= <-]. exists session, account, scope. split_and!; [done|done|right]. eexists. split; [|reflexivity].
      rewrite !elem_of_cons. repeat case_bool_decide; tauto.
    + destruct (errors_is e _); [|done]. intros response [= <-]. exists session, account, scope. split_and!; [done|done|right].
      exists "none". split; [left|reflexivity].
Qed.

Lemma answering_vc {A} (handler : sprog (reply A)) tr : vc allowed handler (fun _ _ => True) tr ->
  vc allowed (answering handler) (fun _ _ => True) tr.
Proof. intros H. eapply vc_seq; [exact H|]. done. Qed.

Hint Resolve preferences_vc save_cache_vc delete_cache_vc save_sandbox_vc delete_key_vc app_vc save_installation_vc delete_installation_vc
  sync_vc repositories_vc runners_vc list_policies_vc list_sources_vc put_policy_vc post_policy_vc delete_policy_vc add_approval_vc
  delete_approval_vc list_specs_vc list_groups_vc create_spec_vc change_spec_vc remove_spec_vc tour_vc save_tour_vc : core.

Lemma serve_vc route tr : vc allowed (serve s route r) (fun _ _ => True) tr.
Proof. destruct route; apply answering_vc; auto. Qed.
End safety.

(** C12: Whatever the database and GitHub answer, the modelled routes of the users (settings,
    GitHub App installations, the list of runners, fork sponsorships, runner specs and the
    product tour; deployments and terminals are other routes) change only what the viewer
    may change.  Every write, and every mutation with its audit record, is made after
    the request's cookie passed the signature check, had not expired and named an identity
    with an account; and it either stays inside the settings and secrets of one scope that
    the viewer was found to manage in this very request (the account's own, or an
    installation whose recorded owner is the viewer's GitHub user, or an organization of
    which GitHub, asked with the viewer's own token, says the viewer is an owner), or inside
    the sponsorships of such an installation, or inside the runner specs of the catalog of
    such a scope (when the store answered with specs of that catalog), or it links this
    account to an installation GitHub described or removes one of this account's links, or it
    records the owner of an installation GitHub described, which any viewer's request may do.
    No account, identity, role or administrator's setting is ever touched, and every audit
    record names the signed-in viewer. *)
Theorem user_writes_confined {Service} (s : server Service) route r tr status :
  returns (serve s route r) tr status ->
  forall tr1 x tr2, tr = tr1 ++ x :: tr2 -> allowed s r tr1 (ask_of x).
Proof. intros H. exact (proj2 (vc_sound _ _ _ _ _ _ (serve_vc s r route []) H)). Qed.

(** C27: The settings of a scope are shown only to those who may change them.  When the
    preferences are answered with data, the viewer was signed in, and the viewer either was
    found to manage the very scope the request names, or learns nothing of it but where its
    sandbox service comes from: no address, no state of the key, no account it inherits from,
    no bucket. *)
Theorem preferences_redacted {Service} (s : server Service) r tr answer :
  returns (handleUserPreferences s r) tr answer -> told s r answer tr.
Proof. intros H. exact (proj1 (vc_sound _ _ _ _ _ _ (preferences_told_vc s r []) H)). Qed.

(** ** An owner of an organization deletes its cache settings *)

Definition ex_user_tables : tables :=
  let db := (or_else (saveOAuthIdentityOnce "github" "9" "bob" "user" 1 false 0 1 accountDB0 accountDB0)
               (accountDB0, (MkAccount 0 "" 0 0, MkOAuthIdentity 0 0 "" "" "" 0 0))).1 in
  let db := (or_else (UpsertAccountSecret (MkAccountSecret 0 AccountScopeTypeAccount 1 AccountSecretTypeGitHubOAuthToken "token" 0 0) 1 db)
               (db, MkAccountSecret 0 "" 0 "" "" 0 0)).1 in
  let link := MkGitHubInstallation 0 1 200 42 "Organization" "acme" "" "" [] 0 0 in
  let db := (or_else (UpsertGitHubInstallation link 1 db) (db, link)).1 in
  let preference := MkAccountPreference 0 AccountScopeTypeGitHubInstall 200 "cache" "s3" "saved" 0 0 in
  let secret kind := MkAccountSecret 0 AccountScopeTypeGitHubInstall 200 kind "sealed" 0 0 in
  let db := (or_else (UpsertAccountPreferenceAndSecrets preference
                        [secret AccountSecretTypeCacheAccessKeyID; secret AccountSecretTypeCacheSecretAccessKey] 1 db)
               (db, preference)).1 in
  MkTables db sponsorDB0 ∅ ∅ ∅.

Definition ex_server : server string := {|
  srv_sessions := MkSessionCodec (fun payload => payload +:+ "!") id Ok (fun session => Ok (ses_Subject session))
                    (fun payload => Ok (MkSession "github" payload "bob" "user" "" 100));
  srv_urls := MkURLCodec (fun _ => None) (fun _ => "") id;
  srv_auth := MkAuthConfig true "client" "" 0 "app";
  srv_regions := [MkRegion "cn" "" "https://sandbox.example" "cn-east-1" "s3.example"];
  srv_github := true;
  encryptSecret := Ok;
  decryptSecret := Ok;
  newE2BService := fun key url => Ok url;
  decodeService := ex_decode;
  encodeService := fun _ => Ok "saved";
  decodeCache := fun _ => Ok (MkCacheValue "cache" "");
  encodeCache := fun _ => Ok "saved";
  marshalPayload := fun _ => "{}";
  pageURL := fun _ _ _ => "";
  labelHash := fun labels => String.concat "," labels;
  parseTime := fun _ => None
|}.

Definition ex_user_request : http_request :=
  MkRequest (fun name => if bool_decide (name = adminSessionCookieName) then Some "9.9!" else None)
    (fun name => if bool_decide (name = "installation_id") then "1" else "") (fun _ => "") "" "runner.example" true "".

(** The answer to the delete depends on the role GitHub reports. *)
Definition ex_user_run (role : string) :=
  replay (frozen 5 ex_user_tables (Err ErrNotFound) (fun _ => Err ErrNotFound) (Err ErrNotFound)
            (Ok [MkOrganizationMembership 42 "acme" "active" role])) (serve ex_server DeleteCacheConfig ex_user_request).

(** The mutations of a run. *)
Definition mutations (tr : list (answered scall)) : list nat :=
  (List.filter (fun p => match ask_of p.2 with Asked (SMutate _ _) => true | _ => false end) (zip (seq 0 (length tr)) tr)).*1.

(** The role decides: an owner's delete is the ninth thing that happens, a member is
    refused before anything changes. *)
Example role_decides :
  (ex_user_run "admin").2 = 200%Z /\ mutations (ex_user_run "admin").1 = [8] /\
  (ex_user_run "member").2 = 403%Z /\ mutations (ex_user_run "member").1 = [].
Proof. vm_compute. done. Qed.

Lemma user_writes_confined_witness :
  match (ex_user_run "admin").1 !! 8 with
  | Some x => allowed ex_server ex_user_request (take 8 (ex_user_run "admin").1) (ask_of x)
  | None => False
  end.
Proof.
  destruct ((ex_user_run "admin").1 !! 8) as [x|] eqn:E; [|vm_compute in E; discriminate E].
  refine (user_writes_confined ex_server DeleteCacheConfig ex_user_request _ _ (replay_returns _ _) _ x (drop 9 (ex_user_run "admin").1) _).
  symmetry. exact (take_drop_middle _ 8 x E).
Defined.

Definition ex_preferences_run (role : string) :=
  replay (frozen 5 ex_user_tables (Err ErrNotFound) (fun _ => Err ErrNotFound) (Err ErrNotFound)
            (Ok [MkOrganizationMembership 42 "acme" "active" role])) (handleUserPreferences ex_server ex_user_request).

(** The owner of acme sees its bucket, a member does not. *)
Lemma preferences_redacted_witness :
  told ex_server ex_user_request (ex_preferences_run "admin").2 (ex_preferences_run "admin").1 /\
  match rp_body (ex_preferences_run "admin").2 with BJSON response => cap_Bucket (pr_Cache response) = "cache" | _ => False end /\
  told ex_server ex_user_request (ex_preferences_run "member").2 (ex_preferences_run "member").1 /\
  rp_body (ex_preferences_run "member").2 = BJSON (redacted "none").
Proof.
  split_and!.
  - exact (preferences_redacted ex_server ex_user_request _ _ (replay_returns _ _)).
  - vm_compute. reflexivity.
  - exact (preferences_redacted ex_server ex_user_request _ _ (replay_returns _ _)).
  - vm_compute. reflexivity.
Defined.
