(* ===== verification/DeployWorker.v ===== *)
(** * The deployment worker
    (internal/deployment/worker/worker.go, internal/deployment/runtime/sandbox.go,
     internal/server/server_deployments_worker.go, server_deployments.go)

    The worker as programs over events: the operations of the deployment store, the
    clock, the calls of the sandbox provider's client and of deployd.  Contexts and
    their deadlines only show as errors among the answers.  [deploy.Apply] (deployd) is
    one event: it answers the callbacks it made, in order, and its result; the
    callbacks are then run one by one on the deployment they close over, which they
    change even when the store refuses it.  The texts of deployd's stages are a
    parameter. *)

From stdpp Require Import base gmap list strings pretty.
From S2P Require Import Prelude GoStrings Query DeployModel DeployStore DeployQueries Program.

(** ** Sentinel errors *)

Definition ErrCreatePending : goerror := ErrSentinel "runtime.ErrCreatePending".
Definition ErrDeploymentSandboxNotFound : goerror := ErrSentinel "runtime.ErrSandboxNotFound".
Definition ErrInvalidInput : goerror := ErrSentinel "deploy.ErrInvalidInput".
Definition ErrDeployConflict : goerror := ErrSentinel "deploy.ErrConflict".
Definition ErrRuntimeMismatch : goerror := ErrSentinel "deploy.ErrRuntimeMismatch".
Definition ErrProcessUnknown : goerror := ErrSentinel "deploy.ErrProcessUnknown".

(** ** Data *)

(** [runtime.Handle]; the id of its runtime is that of its box. *)
Record Handle := MkHandle { h_SandboxID : string; h_box : string; h_expiresAt : Time }.

(** [qnsandbox.ListedSandbox]: its id and, when it has metadata, the two keys read. *)
Record ListedSandbox := MkListed { ls_SandboxID : string; ls_Metadata : option (string * string) }.

(** [ctx.Err()] *)
Inductive ctxError := CtxCanceled | CtxDeadlineExceeded.
Definition ctx_error (c : ctxError) : goerror :=
  match c with CtxCanceled => ErrSentinel "context.Canceled" | CtxDeadlineExceeded => ErrDeadlineExceeded end.

(** Answers of the provider's client: a value, a 404, or another error, with the error of
    the context by then. *)
Inductive api (A : Type) := ApiOk (a : A) | ApiNotFound | ApiError (c : option ctxError).
Arguments ApiOk {A} _.
Arguments ApiNotFound {A}.
Arguments ApiError {A} _.

Definition providerOperationError (c : option ctxError) : goerror :=
  match c with Some c => ctx_error c | None => ErrText "sandbox operation failed" end.

(** [deploy.ProcessRef] *)
Record ProcessRef := MkRef { ref_RuntimeID : string; ref_ID : string; ref_Tag : string }.

(** [deploy.Stage] *)
Inductive Stage := Preparing | Cloning | Verifying | Installing | Starting | Probing | Ready | OtherStage (s : string).

(** A callback of [deploy.Apply]. *)
Inductive applyCall :=
| OnStage (stage : Stage)
| OnCheckpoint (process : ProcessRef) (intentTag : string)
| OnOutput (stage : Stage) (stream message : string).

(** Its result: an endpoint and a process, or an error with the stage it carries. *)
Inductive applyResult :=
| Applied (endpoint : string) (process : ProcessRef)
| ApplyFailed (stage : option Stage).

(** ** Events *)

Inductive devent : Type -> Type :=
(* the store *)
| DGet (id : string) : devent (result Deployment)
| DUpdate (d : Deployment) : devent (option goerror)
| DAppend (e : DeploymentEvent) : devent unit
| DListWork (kind afterID : string) (limit : Z) : devent (result (list Deployment * bool))
| DListActive : devent (result (list Deployment))
| DPrune (retention limit : Z) : devent (option goerror)
(* the clock and the context *)
| DNow : devent Time
| DCanceled : devent (option goerror)
(* the plan, the source and deployd *)
| DDecodeSpec (d : Deployment) : devent (result string)
| DSource (d : Deployment) : devent (option goerror)
| DRestore (d : Deployment) (spec : string) : devent (option goerror)
| DApply (d : Deployment) : devent (list applyCall * applyResult)
(* the sandbox service of a deployment and its templates *)
| DService (d : Deployment) : devent (result string)
| DPublicTemplate (template : string) : devent (result bool)
| DValidateTemplate (template : string) : devent (option goerror)
(* the provider's client *)
| XCreateAndWait (template : string) (seconds : Z) (operation : string) : devent (result (string * Time))
| XList (operation template : string) : devent (result (list ListedSandbox))
| XConnect (sandbox : string) (seconds : Z) : devent (api string)
| XGetInfo (box : string) : devent (result bool)
| XKill (box : string) : devent (api unit)
| XInspect (box : string) (ref : ProcessRef) : devent (result bool)
| XStopProcess (box : string) (ref : ProcessRef) : devent (option goerror).

Abbreviation dprog := (tree devent).

(** ** The runtime factory (internal/deployment/runtime/sandbox.go) *)

Definition defaultCreateTimeout : Z := 2 * Minute.

(** [int32(z)] *)
Definition wrap32 (z : Z) : Z := ((z + 2 ^ 31) mod 2 ^ 32 - 2 ^ 31)%Z.

Definition connectTimeout (remaining : Z) : Z :=
  Z.min (Z.max (Z.quot (remaining + Second - 1) Second) 1) 86400.

Definition closeHandle (h : Handle) : dprog (option goerror) :=
  let* r := perform (XKill (h_box h)) in
  Done (match r with ApiOk _ | ApiNotFound => None | ApiError c => Some (providerOperationError c) end).

(** The exact operation among the listed sandboxes; [None] when two match. *)
Fixpoint matchOperation (operationID : string) (found : option ListedSandbox) (items : list ListedSandbox)
    : option (option ListedSandbox) :=
  match items with
  | [] => Some found
  | item :: items =>
      if bool_decide (ls_Metadata item = Some ("qiniu-deployd", operationID)) then
        match found with Some _ => None | None => matchOperation operationID (Some item) items end
      else matchOperation operationID found items
  end.

Definition ReconcileCreate (templateID operationID : string) (timeout : Z) : dprog (option Handle * option goerror) :=
  let* r := perform (XList operationID (TrimSpace templateID)) in
  match r with
  | Err _ => Done (None, Some ErrCreatePending)
  | Ok items =>
      if (2 <=? Z.of_nat (length items))%Z then Done (None, Some ErrCreatePending)
      else
        match matchOperation operationID None items with
        | None => Done (None, Some ErrDeployConflict)
        | Some None => Done (None, None)
        | Some (Some m) =>
            let* c := perform (XConnect (ls_SandboxID m) (connectTimeout timeout)) in
            match c with
            | ApiNotFound | ApiError _ => Done (None, Some ErrCreatePending)
            | ApiOk box =>
                let handle := MkHandle (ls_SandboxID m) box 0 in
                let* info := perform (XGetInfo box) in
                Done (Some handle, match info with Ok true => None | _ => Some ErrCreatePending end)
            end
        end
  end.

Definition FactoryCreate (templateID : string) (timeout : Z) (operationID : string)
    : dprog (option Handle * option goerror) :=
  if bool_decide (TrimSpace templateID = "") || bool_decide (TrimSpace operationID = "")
  then Done (None, Some ErrInvalidInput)
  else
    let timeout := if (timeout =? 0)%Z then defaultCreateTimeout else timeout in
    if (timeout <? Second)%Z then Done (None, Some ErrInvalidInput)
    else
      let seconds := wrap32 (Z.quot timeout Second) in
      if (seconds <=? 0)%Z then Done (None, Some ErrInvalidInput)
      else
        let* r := perform (XCreateAndWait (TrimSpace templateID) seconds operationID) in
        match r with
        | Ok (box, endAt) => Done (Some (MkHandle box box endAt), None)
        | Err _ =>
            let* (recovered, recoverErr) := ReconcileCreate templateID operationID timeout in
            match recovered with
            | Some h => Done (Some h, recoverErr)
            | None => Done (None, Some ErrCreatePending)
            end
        end.

Definition FactoryConnect (sandboxID : string) (remaining : Z) : dprog (result Handle) :=
  if bool_decide (TrimSpace sandboxID = "") then Done (Err ErrInvalidInput)
  else
    let* r := perform (XConnect (TrimSpace sandboxID) (connectTimeout remaining)) in
    Done (match r with
          | ApiOk box => Ok (MkHandle box box 0)
          | ApiNotFound => Err ErrDeploymentSandboxNotFound
          | ApiError c => Err (providerOperationError c)
          end).

(** ** The server's factory (server_deployments_worker.go) *)

Definition formatAttempt (attempt : Z) : string := if (attempt <? 1)%Z then "1" else FormatInt attempt.

Definition operationID (id : string) (attempt : Z) : string := id +:+ "-" +:+ formatAttempt attempt.

(** [time.Until(d.ExpiresAt)] *)
Definition untilExpiry (d : Deployment) : dprog Z :=
  let* now := perform DNow in Done (d_ExpiresAt d - now)%Z.

Definition sandboxConfigSourceAdminDefault : string := "admin_default".

Section worker.
Context (templateID : string) (stageText : Stage -> string) (retention : Z).

Definition template (d : Deployment) : string :=
  let value := TrimSpace (d_DeploymentTemplateID d) in
  if bool_decide (value = "") then TrimSpace templateID else value.

Definition runtimeCreate (d : Deployment) (attempt : Z) : dprog (option Handle * string * option goerror) :=
  let* r := perform (DService d) in
  match r with
  | Err e => Done (None, "", Some e)
  | Ok source =>
      let t := template d in
      let* refused :=
        (if bool_decide (source = sandboxConfigSourceAdminDefault)
            && (bool_decide (TrimSpace (d_SandboxAPIURL d) = "") || bool_decide (TrimSpace (d_SandboxAPIKeyEncrypted d) = ""))
         then
           let* allowed := perform (DPublicTemplate t) in
           Done (match allowed with
                 | Err _ => Some (ErrText "public deployment template catalog is unavailable")
                 | Ok false => Some (ErrText "deployment template must be public when using the platform Sandbox service")
                 | Ok true => None
                 end)
         else
           let* err := perform (DValidateTemplate t) in
           Done (match err with Some _ => Some (ErrText "deployment template is unavailable") | None => None end)) in
      match refused with
      | Some e => Done (None, "", Some e)
      | None =>
          let* timeout := untilExpiry d in
          let* (handle, err) := FactoryCreate t timeout (operationID (d_ID d) attempt) in
          match err, handle with
          | Some e, None => Done (None, "", Some e)
          | _, Some h => Done (Some h, h_SandboxID h, err)
          | None, None => Done (None, "", None)
          end
      end
  end.

Definition runtimeConnect (d : Deployment) : dprog (result (option Handle)) :=
  let* r := perform (DService d) in
  match r with
  | Err e => Done (Err e)
  | Ok _ =>
      let* remaining := untilExpiry d in
      let* c := FactoryConnect (d_SandboxID d) remaining in
      Done (match c with
            | Ok h => Ok (Some h)
            | Err e => if errors_is e ErrDeploymentSandboxNotFound then Ok None else Err e
            end)
  end.

Definition runtimeReconcile (d : Deployment) : dprog (option Handle * string * option goerror) :=
  let* r := perform (DService d) in
  match r with
  | Err e => Done (None, "", Some e)
  | Ok _ =>
      let* remaining := untilExpiry d in
      let* (handle, err) := ReconcileCreate (template d) (operationID (d_ID d) (d_Attempt d)) remaining in
      match handle with
      | Some h => Done (Some h, h_SandboxID h, err)
      | None => Done (None, "", err)
      end
  end.

(** ** The worker (worker.go) *)

Definition expiryCleanupStage : string := "expiry_cleanup".

Definition emit (d : Deployment) (e : DeploymentEvent) : dprog unit :=
  let e := e <| ev_DeploymentID := d_ID d |> <| ev_RevisionNumber := d_RevisionNumber d |> in
  let e := if (ev_Attempt e =? 0)%Z then e <| ev_Attempt := d_Attempt d |> else e in
  perform (DAppend e).

Definition new_event (attempt : Z) (eventType stage stream message : string) : DeploymentEvent :=
  MkdeploymentEventRecord 0 0 "" attempt eventType stage stream message 0.

Definition persist (d : Deployment) : dprog (Deployment * option goerror) :=
  let* err := perform (DUpdate d) in
  match err with
  | Some e => Done (d, Some e)
  | None => Done (d <| d_Version := (d_Version d + 1)%Z |>, None)
  end.

(** The status of a deployment whose failure a cleanup keeps. *)
Definition keepsFailure (d : Deployment) : bool :=
  bool_decide (d_Status d = DeploymentStatusFailed)
  || (bool_decide (d_Status d = DeploymentStatusStopping) && negb (bool_decide (d_FailureReason d = ""))).

Definition transition (d : Deployment) (status : DeploymentStatus) (stage reason : string)
    : dprog (Deployment * option goerror) :=
  let d1 := if negb (bool_decide (status = DeploymentStatusStopping)) || negb (keepsFailure d)
            then d <| d_FailureStage := stage |> <| d_FailureReason := reason |> else d in
  let* (d2, err) := persist (d1 <| d_Status := status |>) in
  match err with
  | Some e => Done (d2, Some e)
  | None =>
      let* _ := emit d2 (new_event (d_Attempt d2) "lifecycle" stage "" ("status: " +:+ dstatus_text status)) in
      Done (d2, None)
  end.

Definition fail (d : Deployment) (stage reason : string) : dprog (Deployment * option goerror) :=
  let* (d1, err) := persist (d <| d_Status := DeploymentStatusFailed |> <| d_FailureStage := stage |>
                               <| d_FailureReason := reason |> <| d_Error := reason |>) in
  match err with
  | Some e => Done (d1, Some e)
  | None => let* _ := emit d1 (new_event (d_Attempt d1) "failure" stage "" reason) in Done (d1, None)
  end.

(** [return w.fail(&d, ...)] and [return w.transition(&d, ...)]: the error alone. *)
Definition err_of (p : dprog (Deployment * option goerror)) : dprog (option goerror) := let* (_, err) := p in Done err.

Definition closeAttempt (rt : option Handle) : dprog (option goerror) :=
  match rt with None => Done None | Some h => closeHandle h end.

Definition deploymentStageMessage (stage : Stage) : string :=
  match stage with
  | Preparing => "Preparing deployment workspace."
  | Cloning => "Cloning repository at the pinned Commit."
  | Verifying => "Verifying the checked-out Commit."
  | Installing => "Running installation command."
  | Starting => "Starting application."
  | Probing => "Checking application readiness."
  | _ => "Deployment stage: " +:+ stageText stage
  end.

(** A callback of [deploy.Apply], on the deployment it closes over. *)
Definition applyCallback (d : Deployment) (c : applyCall) : dprog Deployment :=
  match c with
  | OnStage Ready =>
      let* _ := emit d (new_event (d_Attempt d) "lifecycle" (stageText Ready) "" "deployment is ready") in Done d
  | OnStage stage =>
      let* _ := emit d (new_event (d_Attempt d) "lifecycle" (stageText stage) "" (deploymentStageMessage stage)) in
      let* (d, _) := transition d DeploymentStatusCreating (stageText stage) "" in Done d
  | OnCheckpoint process intentTag =>
      let d := if bool_decide (ref_RuntimeID process = "") then d
               else d <| d_RuntimeID := ref_RuntimeID process |> <| d_ProcessID := ref_ID process |>
                      <| d_ProcessTag := ref_Tag process |> in
      let d := if bool_decide (intentTag = "") then d else d <| d_ProcessTag := intentTag |> in
      let* (d, _) := persist d in Done d
  | OnOutput stage stream message =>
      let* _ := emit d (new_event (d_Attempt d) "output" (stageText stage) stream message) in Done d
  end.

(** [failCleanup] of [stop], then the error of the call that failed. *)
Definition failCleanup (expiryCleanup : bool) (d : Deployment) (cause : goerror) : dprog (option goerror) :=
  let* (_, err) := (if expiryCleanup then fail d expiryCleanupStage "deployment expired; cleanup is incomplete"
                    else fail d "cleanup" "deployment cleanup is incomplete") in
  Done (Some (default cause err)).

Definition terminal (d : Deployment) : bool := dstatus_in terminalDeploymentStatuses (d_Status d).

(** The lookup of an unrecorded sandbox; [inl] is the early return. *)
Definition reconcileStopped (d : Deployment) : dprog (option goerror + Deployment) :=
  let* (rt, sandboxID, lookupErr) := runtimeReconcile d in
  match lookupErr, rt with
  | Some e, None => Done (inl (Some e))
  | _, None =>
      let* now := perform DNow in
      if (now <? d_ExpiresAt d + 2 * Minute)%Z then Done (inl (Some ErrCreatePending)) else Done (inr d)
  | _, Some h =>
      if bool_decide (sandboxID = "") || bool_decide (h_box h = "") then Done (inl (Some ErrRuntimeMismatch))
      else
        let* (d, err) := persist (d <| d_SandboxID := sandboxID |> <| d_RuntimeID := h_box h |>) in
        match err with Some e => Done (inl (Some e)) | None => Done (inr d) end
  end.

(** Stopping the process and closing the sandbox; [Some] is the early return. *)
Definition releaseSandbox (expiryCleanup : bool) (d : Deployment) : dprog (option (option goerror)) :=
  if bool_decide (TrimSpace (d_SandboxID d) = "") then Done None
  else
    let* c := runtimeConnect d in
    match c with
    | Err e => let* r := failCleanup expiryCleanup d e in Done (Some r)
    | Ok None => Done None
    | Ok (Some h) =>
        let runtimeID := if bool_decide (d_RuntimeID d = "") then h_box h else d_RuntimeID d in
        let* stopErr :=
          (if bool_decide (d_ProcessID d = "") || bool_decide (d_ProcessTag d = "") then Done None
           else perform (XStopProcess (h_box h) (MkRef runtimeID (d_ProcessID d) (d_ProcessTag d)))) in
        match stopErr with
        | Some e =>
            if errors_is e ErrProcessUnknown then
              let* closeErr := closeHandle h in
              match closeErr with Some e => let* r := failCleanup expiryCleanup d e in Done (Some r) | None => Done None end
            else let* r := failCleanup expiryCleanup d e in Done (Some r)
        | None =>
            let* closeErr := closeHandle h in
            match closeErr with Some e => let* r := failCleanup expiryCleanup d e in Done (Some r) | None => Done None end
        end
    end.

(** The deployment [stop] writes when everything is released. *)
Definition stoppedDeployment (expired expiryCleanup preserveFailed : bool) (d : Deployment) : Deployment :=
  let status := if expired || expiryCleanup then DeploymentStatusExpired else DeploymentStatusCompleted in
  let status := if preserveFailed then DeploymentStatusFailed else status in
  let d := d <| d_Status := status |> in
  let d := if expiryCleanup then d <| d_FailureStage := "" |> <| d_FailureReason := "" |> <| d_Error := "" |> else d in
  d <| d_SandboxID := "" |> <| d_RuntimeID := "" |> <| d_ProcessID := "" |> <| d_ProcessTag := "" |>.

Definition stop (id : string) (expired : bool) (observed : option Deployment) : dprog (option goerror) :=
  let* r := perform (DGet (TrimSpace id)) in
  match r with
  | Err e => Done (Some e)
  | Ok d =>
      if match observed with Some o => negb (d_Version d =? d_Version o)%Z | None => false end
      then Done (Some ErrConflict)
      else
        let expiryCleanup := bool_decide (d_FailureStage d = expiryCleanupStage) in
        let preserveFailed := keepsFailure d && negb expiryCleanup in
        let expiryCleanup := expiryCleanup || (expired && negb preserveFailed) in
        if terminal d && bool_decide (TrimSpace (d_SandboxID d) = "") then Done None
        else
          let* rec :=
            (if bool_decide (d_SandboxID d = "") && (0 <? d_Attempt d)%Z
                && (bool_decide (d_Status d = DeploymentStatusCreating) || bool_decide (d_Status d = DeploymentStatusStopping))
             then reconcileStopped d else Done (inr d)) in
          match rec with
          | inl e => Done e
          | inr d =>
              let* (d, err) := transition d DeploymentStatusStopping "cleanup" "" in
              match err with
              | Some e => Done (Some e)
              | None =>
                  let* early := releaseSandbox expiryCleanup d in
                  match early with
                  | Some e => Done e
                  | None => err_of (persist (stoppedDeployment expired expiryCleanup preserveFailed d))
                  end
              end
          end
  end.

Definition Stop (id : string) (expired : bool) : dprog (option goerror) := stop id expired None.

(** The error path of [Process] after [Runtime.Create]. *)
Definition createFailed (d : Deployment) (rt : option Handle) (sandboxID : string) (e : goerror) : dprog (option goerror) :=
  let unknown := match rt with None => bool_decide (TrimSpace sandboxID = "") | Some _ => false end in
  if unknown && errors_is e ErrCreatePending then
    let* _ := emit d (new_event 0 "lifecycle" "sandbox_create" "" "creation outcome is unknown; reconciling the saved attempt") in
    Done (Some e)
  else if unknown then err_of (fail d "sandbox_create" "Sandbox creation failed")
  else
    let d := d <| d_SandboxID := TrimSpace sandboxID |> in
    let d := match rt with Some h => d <| d_RuntimeID := h_box h |> | None => d end in
    let* (d, persistErr) := persist d in
    match persistErr with
    | Some e => Done (Some e)
    | None =>
        let* cleanupErr := closeAttempt rt in
        match cleanupErr with
        | None => err_of (fail (d <| d_SandboxID := "" |> <| d_RuntimeID := "" |>) "sandbox_create" "Sandbox creation failed")
        | Some _ => err_of (fail d "sandbox_create" "Sandbox creation failed; cleanup is incomplete")
        end
    end.

(** The error path of [Process] after [deploy.Apply]. *)
Definition applyFailed (d : Deployment) (h : Handle) (stage : option Stage) : dprog (option goerror) :=
  let* cleanupErr := closeHandle h in
  let* now := perform DNow in
  match cleanupErr with
  | None =>
      let d := d <| d_SandboxID := "" |> <| d_RuntimeID := "" |> <| d_ProcessID := "" |> <| d_ProcessTag := "" |> in
      if negb (now <? d_ExpiresAt d)%Z then err_of (transition d DeploymentStatusExpired "cleanup" "")
      else err_of (fail d (stageText (default Preparing stage)) "deployment execution failed")
  | Some _ =>
      if negb (now <? d_ExpiresAt d)%Z then err_of (fail d expiryCleanupStage "deployment expired; cleanup is incomplete")
      else err_of (fail d (stageText (default Preparing stage)) "deployment execution failed; cleanup is incomplete")
  end.

(** [Process] once the sandbox is confirmed; the deferred cleanup follows its early returns. *)
Definition runAttempt (d : Deployment) (h : Handle) (sandboxID : string) : dprog (option goerror) :=
  let d := d <| d_SandboxID := TrimSpace sandboxID |> <| d_RuntimeID := h_box h |> in
  let d := if IsZero (h_expiresAt h) then d else d <| d_ExpiresAt := h_expiresAt h |> in
  let* (d, err) := persist d in
  match err with
  | Some e => let* _ := closeHandle h in Done (Some e)
  | None =>
      let* (calls, result) := perform (DApply d) in
      let* d := each applyCallback d calls in
      match result with
      | ApplyFailed stage => applyFailed d h stage
      | Applied endpoint process =>
          let d := d <| d_Endpoint := endpoint |> <| d_ProcessID := ref_ID process |> <| d_ProcessTag := ref_Tag process |>
                     <| d_RuntimeID := ref_RuntimeID process |> in
          let* (_, err) := transition d DeploymentStatusRunning "ready" "" in
          match err with
          | Some e => let* _ := closeHandle h in Done (Some e)
          | None => Done None
          end
      end
  end.

(** [Process] from the attempt on. *)
Definition startAttempt (d : Deployment) : dprog (option goerror) :=
  let d := d <| d_Attempt := (d_Attempt d + 1)%Z |> in
  let d := if bool_decide (TrimSpace (d_DeploymentTemplateID d) = "")
           then d <| d_DeploymentTemplateID := TrimSpace templateID |> else d in
  if bool_decide (d_DeploymentTemplateID d = "") then
    err_of (fail d "template" "no deployment template selected; create a deployment with an available Sandbox template")
  else
    let* (d, err) := transition d DeploymentStatusCreating "" "" in
    match err with
    | Some e => Done (Some e)
    | None =>
        let* (rt, sandboxID, err) := runtimeCreate d (d_Attempt d) in
        match err, rt with
        | Some e, _ => createFailed d rt sandboxID e
        | None, Some h =>
            if bool_decide (TrimSpace sandboxID = "") || bool_decide (TrimSpace (h_box h) = "") then
              let* _ := closeHandle h in
              err_of (fail d "sandbox_create" "Sandbox identity was not confirmed")
            else runAttempt d h sandboxID
        | None, None => err_of (fail d "sandbox_create" "Sandbox identity was not confirmed")
        end
    end.

Definition Process (id : string) : dprog (option goerror) :=
  let* r := perform (DGet (TrimSpace id)) in
  match r with
  | Err e => Done (Some e)
  | Ok d =>
      if negb (bool_decide (d_Status d = DeploymentStatusQueued)) then Done None
      else
        let* now := perform DNow in
        if negb (now <? d_ExpiresAt d)%Z then Stop (d_ID d) true
        else
          let* (d, err) := transition d DeploymentStatusPlanning "" "" in
          match err with
          | Some e => Done (Some e)
          | None =>
              let* spec := perform (DDecodeSpec d) in
              match spec with
              | Err _ => err_of (fail d "plan_restore" "persisted deployment plan is invalid")
              | Ok spec =>
                  let* source := perform (DSource d) in
                  match source with
                  | Some _ => err_of (fail d "source" "deployment source is unavailable")
                  | None =>
                      let* restored := perform (DRestore d spec) in
                      match restored with
                      | Some _ => err_of (fail d "plan_restore" "persisted deployment plan is invalid")
                      | None => startAttempt d
                      end
                  end
              end
          end
  end.

(** [recoverCreating] once the sandbox is recorded. *)
Definition failInterrupted (d : Deployment) : dprog (option goerror) :=
  let* (d, err) := fail d "recovery" "deployment execution was interrupted" in
  match err with
  | Some e => Done (Some e)
  | None => let* now := perform DNow in Stop (d_ID d) (negb (now <? d_ExpiresAt d)%Z)
  end.

Definition recoverCreating (d : Deployment) : dprog (option goerror) :=
  if negb (bool_decide (d_SandboxID d = "")) then failInterrupted d
  else
    let* (rt, id, err) := runtimeReconcile d in
    match rt with
    | None =>
        match err with
        | Some e => Done (Some e)
        | None =>
            let* now := perform DNow in
            if (now <? d_ExpiresAt d + 2 * Minute)%Z then Done (Some ErrCreatePending)
            else err_of (fail d "recovery" "interrupted creation has no remaining Sandbox")
        end
    | Some h =>
        if bool_decide (TrimSpace id = "") || bool_decide (TrimSpace (h_box h) = "") then Done (Some ErrRuntimeMismatch)
        else
          let* (d, err) := persist (d <| d_SandboxID := id |> <| d_RuntimeID := h_box h |>) in
          match err with
          | Some e => Done (Some e)
          | None => failInterrupted d
          end
    end.

(** Whether the process runs; [inl] is the early return. *)
Definition inspectRunning (d : Deployment) (rt : option Handle) : dprog (option goerror + bool) :=
  match rt with
  | None => Done (inr false)
  | Some h =>
      let* r := perform (XInspect (h_box h) (MkRef (d_RuntimeID d) (d_ProcessID d) (d_ProcessTag d))) in
      Done (match r with
            | Ok running => inr running
            | Err e => if errors_is e ErrProcessUnknown then inr false else inl (Some e)
            end)
  end.

Definition checkRunning (d : Deployment) : dprog (option goerror) :=
  let* c := runtimeConnect d in
  match c with
  | Err e => Done (Some e)
  | Ok rt =>
      let* i := inspectRunning d rt in
      match i with
      | inl e => Done e
      | inr running =>
          let* now := perform DNow in
          if negb (IsZero (d_ExpiresAt d)) && negb (now <? d_ExpiresAt d)%Z then stop (d_ID d) true (Some d)
          else if running then Done None
          else
            let* (d, err) := fail d "process_exit" "deployment process is no longer running" in
            match err with
            | Some e => Done (Some e)
            | None => Stop (d_ID d) false
            end
      end
  end.

Definition advance (item : Deployment) : dprog (option goerror) :=
  match d_Status item with
  | DeploymentStatusCreating => recoverCreating item
  | DeploymentStatusPlanning => err_of (transition item DeploymentStatusQueued "recovery" "")
  | _ =>
      let* now := perform DNow in
      if negb (IsZero (d_ExpiresAt item)) && negb (now <? d_ExpiresAt item)%Z then Stop (d_ID item) true
      else
        match d_Status item with
        | DeploymentStatusQueued => Process (d_ID item)
        | DeploymentStatusFailed =>
            if bool_decide (TrimSpace (d_SandboxID item) = "") then Done None else Stop (d_ID item) false
        | DeploymentStatusStopping => Stop (d_ID item) false
        | DeploymentStatusRunning => checkRunning item
        | _ => Done None
        end
  end.

(** One bounded batch. *)
Definition RunOnce : dprog (option goerror) :=
  let* pruneErr := (if (0 <? retention)%Z then perform (DPrune retention 100) else Done None) in
  match pruneErr with
  | Some e => Done (Some e)
  | None =>
      let* r := perform DListActive in
      match r with
      | Err e => Done (Some e)
      | Ok items =>
          (* the loop returns the error of a cancelled context at once *)
          let* (firstErr, canceled) := each (fun '(firstErr, canceled) item =>
            match canceled with
            | Some e => Done (firstErr, Some e)
            | None =>
                let* ctxErr := perform DCanceled in
                match ctxErr with
                | Some e => Done (firstErr, Some e)
                | None =>
                    let* itemErr := advance item in
                    Done (match firstErr with None => itemErr | Some _ => firstErr end, None)
                end
            end) (None, None) items in
          Done (match canceled with Some e => Some e | None => firstErr end)
      end
  end.

(** A job of the scheduler: one of the items of a page of a lane. *)
Definition laneJob (kind afterID : string) (limit : Z) (index : nat) : dprog (option goerror) :=
  let* r := perform (DListWork kind afterID limit) in
  match r with
  | Ok (items, _) => match items !! index with Some item => advance item | None => Done None end
  | Err e => Done (Some e)
  end.

(** The mutation and the cleanup of [handleUserStopDeployment], with a worker configured;
    [Some] is the status of an early answer. *)
Definition userStop (id : string) : dprog (option goerror) :=
  let* r := perform (DGet id) in
  match r with
  | Err e => Done (Some e)
  | Ok deployment =>
      let status :=
        if bool_decide (d_Status deployment = DeploymentStatusQueued) then DeploymentStatusCompleted
        else if bool_decide (d_Status deployment = DeploymentStatusFailed) then DeploymentStatusFailed
        else DeploymentStatusStopping in
      let* err := (if terminal deployment && bool_decide (d_SandboxID deployment = "") then Done None
                   else perform (DUpdate (deployment <| d_Status := status |>))) in
      match err with
      | Some e => Done (Some e)
      | None => Stop (d_ID deployment) false
      end
  end.
End worker.
