(* ===== verification/DeployProtocol.v ===== *)
(** * The protocol of the deployment workers

    The shared world of the workers, of the request handlers and of the provider; what
    each event of a worker may answer; and the rules a goroutine keeps: a row is written
    from the version and the values it was read at, a recorded sandbox is only dropped
    once it is known to be gone, and a sandbox is only created under a fresh attempt that
    this goroutine has recorded. *)

From stdpp Require Import base gmap list strings relations pretty.
From S2P Require Import Prelude GoStrings Query DeployModel DeployStore DeployLog DeployInvariant DeployPromises.
From S2P Require Import DeployQueries Program DeployWorker.
From Stdlib Require Import Ascii.

(** ** Views of rows *)

Record view := MkView {
  v_id : string;
  v_version : Z;
  v_status : DeploymentStatus;
  v_sandbox : string;
  v_attempt : Z
}.

#[export] Instance view_eq_dec : EqDecision view.
Proof. solve_decision. Defined.

Definition row_view (r : deploymentRecord) : view :=
  MkView (dr_ID r) (dr_Version r) (dr_Status r) (dr_SandboxID r) (dr_Attempt r).
Definition view_of (d : Deployment) : view :=
  MkView (d_ID d) (d_Version d) (d_Status d) (d_SandboxID d) (d_Attempt d).

(** The row an accepted update of [d] leaves. *)
Definition written (d : Deployment) : view :=
  MkView (TrimSpace (d_ID d)) (d_Version d + 1) (d_Status d) (TrimSpace (d_SandboxID d)) (d_Attempt d).

Definition occupied (status : DeploymentStatus) (sandbox : string) : bool :=
  dstatus_in activeDeploymentStatuses status
  || (bool_decide (status = DeploymentStatusFailed) && negb (bool_decide (sandbox = ""))).

(** The statuses in which no sandbox is recorded. *)
Definition unboxed (s : DeploymentStatus) : bool :=
  dstatus_in [DeploymentStatusQueued; DeploymentStatusPlanning; DeploymentStatusCompleted; DeploymentStatusExpired] s.

Record tidy (v : view) : Prop := {
  tidy_status : validDeploymentStatus (v_status v) = true;
  tidy_sandbox : unboxed (v_status v) = true -> v_sandbox v = "";
  tidy_trimmed : TrimSpace (v_sandbox v) = v_sandbox v;
  tidy_attempt : (0 <= v_attempt v)%Z
}.

(** The status machine of updates. *)
Definition edge (s s' : DeploymentStatus) : bool :=
  match s with
  | DeploymentStatusQueued =>
      dstatus_in [DeploymentStatusPlanning; DeploymentStatusStopping; DeploymentStatusCompleted] s'
  | DeploymentStatusPlanning =>
      dstatus_in [DeploymentStatusQueued; DeploymentStatusCreating; DeploymentStatusFailed; DeploymentStatusStopping] s'
  | DeploymentStatusCreating =>
      dstatus_in [DeploymentStatusCreating; DeploymentStatusRunning; DeploymentStatusFailed; DeploymentStatusExpired;
                  DeploymentStatusStopping] s'
  | DeploymentStatusRunning => dstatus_in [DeploymentStatusFailed; DeploymentStatusStopping] s'
  | DeploymentStatusStopping =>
      dstatus_in [DeploymentStatusStopping; DeploymentStatusCompleted; DeploymentStatusExpired; DeploymentStatusFailed] s'
  | DeploymentStatusFailed => dstatus_in [DeploymentStatusFailed; DeploymentStatusStopping] s'
  | _ => false
  end.

(** ** Knowledge *)

(** The rows a goroutine has read or written, the sandboxes it knows to be gone, and the
    operations it may still create a sandbox for. *)
Record knowledge := MkKnowledge {
  k_views : list view;
  k_released : gset string;
  k_ops : list string
}.

(** An update of a row last seen as [v] to a status, sandbox and attempt. *)
Record may_write (k : knowledge) (v : view) (status : DeploymentStatus) (sandbox : string) (attempt : Z) : Prop := {
  mw_edge : edge (v_status v) status = true;
  mw_place : occupied status sandbox = true -> occupied (v_status v) (v_sandbox v) = true;
  mw_sandbox : v_sandbox v = "" \/ sandbox = v_sandbox v \/ v_sandbox v ∈ k_released k;
  mw_unboxed : unboxed status = true -> sandbox = "";
  mw_attempt : attempt = v_attempt v \/ attempt = (v_attempt v + 1)%Z
}.

(** ** The world *)

(** A deployment was created under an id; an operation was sent to the provider's create
    call. *)
Inductive activity := Created (id : string) | Sent (operation : string).

(** The tables; the ids in use, those of the rows and those a goroutine may still refer
    to; the sandboxes reported gone; and the activities, the latest first. *)
Record dworld := MkWorld {
  w_db : deploymentDB;
  w_used : gset string;
  w_released : gset string;
  w_log : list activity
}.

#[export] Instance rebuild_dworld : Rebuild dworld := fun r =>
  MkWorld (w_db r) (w_used r) (w_released r) (w_log r).

(** [operation] is one of the attempts of the deployment [id]. *)
Definition operation_of (id operation : string) : Prop := exists n, (1 <= n)%Z /\ operation = operationID id n.

(** The operation was sent, and its deployment has not been created anew since. *)
Fixpoint current (log : list activity) (operation : string) : Prop :=
  match log with
  | [] => False
  | Sent o :: log => o = operation \/ current log operation
  | Created id :: log => current log operation /\ ~ operation_of id operation
  end.

(** No operation was sent while it was current. *)
Fixpoint sent_once (log : list activity) : Prop :=
  match log with
  | [] => True
  | Sent o :: log => ~ current log o /\ sent_once log
  | Created _ :: log => sent_once log
  end.

Definition event_answers {R} (e : devent R) (w : dworld) : R -> dworld -> Prop :=
  match e in devent R return R -> dworld -> Prop with
  | DGet id => fun r w' => w' = w /\ (r = GetDeployment id (w_db w) \/ exists x, r = Err x)
  | DUpdate d => fun r w' =>
      (exists now db', UpdateDeployment d now (w_db w) = Ok db' /\ w' = w <| w_db := db' |>) \/
      (w' = w /\ exists x, r = Some x)
  | DAppend ev => fun _ w' =>
      w' = w \/ exists now db', AppendDeploymentEvent ev now (w_db w) = Ok db' /\ w' = w <| w_db := db' |>
  | DListWork kind afterID limit => fun r w' =>
      w' = w /\ ((exists now, r = ListDeploymentWork kind afterID limit now (w_db w)) \/ exists x, r = Err x)
  | DListActive => fun r w' => w' = w /\ ((exists now, r = ListActiveDeployments now (w_db w)) \/ exists x, r = Err x)
  | DPrune _ _ => fun _ w' =>
      w' = w \/ exists before candidates, w' = w <| w_db := (pruneRecords before candidates (w_db w)).1 |>
  | XCreateAndWait _ _ operation => fun _ w' => w' = w <| w_log := Sent operation :: w_log w |>
  | XConnect sandbox _ => fun r w' =>
      match r with
      | ApiOk box => box = sandbox /\ w' = w
      | ApiNotFound => w' = w <| w_released := {[TrimSpace sandbox]} ∪ w_released w |>
      | ApiError _ => w' = w
      end
  | XKill box => fun r w' =>
      match r with
      | ApiError _ => w' = w
      | _ => w' = w <| w_released := {[TrimSpace box]} ∪ w_released w |>
      end
  | _ => fun _ w' => w' = w
  end.

(** What the request handlers, the scheduler and restarts do, given what the goroutines
    know.  An id is derived from the client's idempotency key, so that it may be given
    again once its row was pruned: it leaves the ids in use when no row has it and no
    goroutine has read or written a row under it.  (A row is pruned no sooner than the
    retention period, at least a day, after its last change.) *)
Inductive outside (limit : Z) (ks : gmap nat knowledge) : dworld -> dworld -> Prop :=
| out_create d now w db' x :
    TrimSpace (d_ID d) ∉ w_used w -> d_Status d = DeploymentStatusQueued -> d_SandboxID d = "" -> d_Attempt d = 0%Z ->
    CreateDeploymentWithScopeLimit d limit now (w_db w) = Ok (db', x) ->
    outside limit ks w (w <| w_db := db' |> <| w_used := {[TrimSpace (d_ID d)]} ∪ w_used w |>
                          <| w_log := Created (TrimSpace (d_ID d)) :: w_log w |>)
| out_forget id w :
    db_deployments (w_db w) !! id = None -> (forall i k v, ks !! i = Some k -> v ∈ k_views k -> v_id v <> id) ->
    outside limit ks w (w <| w_used := w_used w ∖ {[id]} |>)
| out_retry d expiresAt now w db' :
    (forall r, db_deployments (w_db w) !! d_ID d = Some r -> dr_ScopeType r = d_ScopeType d /\ dr_ScopeID r = d_ScopeID d) ->
    RetryDeploymentWithScopeLimit d expiresAt limit now (w_db w) = Ok db' -> outside limit ks w (w <| w_db := db' |>)
| out_fill id ref title w db' :
    FillDeploymentPullRequestTitle id ref title (w_db w) = Ok db' -> outside limit ks w (w <| w_db := db' |>)
| out_append e now w db' : AppendDeploymentEvent e now (w_db w) = Ok db' -> outside limit ks w (w <| w_db := db' |>)
| out_prune before candidates w : outside limit ks w (w <| w_db := (pruneRecords before candidates (w_db w)).1 |>)
| out_startup now w : outside limit ks w (w <| w_db := initializeStateBackfills now (w_db w) |>).

(** ** The rules *)

Definition event_permitted {R} (e : devent R) (k : knowledge) : Prop :=
  match e with
  | DUpdate d =>
      exists v, v ∈ k_views k /\ v_id v = TrimSpace (d_ID d) /\ v_version v = d_Version d /\
        may_write k v (d_Status d) (TrimSpace (d_SandboxID d)) (d_Attempt d)
  | XCreateAndWait _ _ operation => operation ∈ k_ops k
  | _ => True
  end.

(** A deployment as it is read: a row under its own trimmed id. *)
Definition fresh_read (d : Deployment) : Prop := tidy (view_of d) /\ TrimSpace (d_ID d) = d_ID d.

Definition event_expected {R} (e : devent R) (k : knowledge) : R -> Prop :=
  match e in devent R return R -> Prop with
  | DGet id => fun r => match r with Ok d => fresh_read d /\ d_ID d = TrimSpace id | Err _ => True end
  | DListWork _ _ _ => fun r => match r with Ok (items, _) => Forall fresh_read items | Err _ => True end
  | DListActive => fun r => match r with Ok items => Forall fresh_read items | Err _ => True end
  | XConnect sandbox _ => fun r => match r with ApiOk box => box = sandbox | _ => True end
  | _ => fun _ => True
  end.

(** The write that starts an attempt. *)
Definition starts_attempt (d : Deployment) (k : knowledge) : bool :=
  bool_decide (d_Status d = DeploymentStatusCreating)
  && existsb (fun v => bool_decide (v_id v = TrimSpace (d_ID d)) && (v_version v =? d_Version d)%Z
                       && (d_Attempt d =? v_attempt v + 1)%Z) (k_views k).

Definition add_views (l : list view) (k : knowledge) : knowledge := MkKnowledge (l ++ k_views k) (k_released k) (k_ops k).
Definition add_released (s : string) (k : knowledge) : knowledge :=
  MkKnowledge (k_views k) ({[TrimSpace s]} ∪ k_released k) (k_ops k).

Definition event_learned {R} (e : devent R) (k : knowledge) : R -> knowledge :=
  match e in devent R return R -> knowledge with
  | DGet _ => fun r => match r with Ok d => add_views [view_of d] k | Err _ => k end
  | DListWork _ _ _ => fun r => match r with Ok (items, _) => add_views (map view_of items) k | Err _ => k end
  | DListActive => fun r => match r with Ok items => add_views (map view_of items) k | Err _ => k end
  | DUpdate d => fun r =>
      match r with
      | Some _ => k
      | None => MkKnowledge (written d :: k_views k) (k_released k)
                  (if starts_attempt d k then operationID (TrimSpace (d_ID d)) (d_Attempt d) :: k_ops k else k_ops k)
      end
  | XCreateAndWait _ _ operation => fun _ =>
      MkKnowledge (k_views k) (k_released k) (List.filter (fun op => negb (bool_decide (op = operation))) (k_ops k))
  | XConnect sandbox _ => fun r => match r with ApiNotFound => add_released sandbox k | _ => k end
  | XKill box => fun r => match r with ApiError _ => k | _ => add_released box k end
  | _ => fun _ => k
  end.

(** ** The invariant *)

(** What a view still says about the tables. *)
Definition view_ok (w : dworld) (v : view) : Prop :=
  v_id v ∈ w_used w /\ tidy v /\
  forall r, db_deployments (w_db w) !! v_id v = Some r ->
    (v_version v <= dr_Version r)%Z /\ (dr_Version r = v_version v -> row_view r = v).

(** An operation belongs to an attempt that has been recorded. *)
Definition issued (w : dworld) (operation : string) : Prop :=
  exists id n, operation = operationID id n /\ (1 <= n)%Z /\
    forall r, db_deployments (w_db w) !! id = Some r -> (n <= dr_Attempt r)%Z.

Section invariant.
Context (limit : Z) (accounts installations : gset Z).

Record world_ok (w : dworld) (ks : gmap nat knowledge) : Prop := {
  ok_reach : server_reachable limit accounts installations (w_db w);
  ok_rows : forall id r, db_deployments (w_db w) !! id = Some r -> id ∈ w_used w /\ tidy (row_view r);
  ok_views : forall i k v, ks !! i = Some k -> v ∈ k_views k -> view_ok w v;
  ok_released : forall i k, ks !! i = Some k -> k_released k ⊆ w_released w;
  ok_once : sent_once (w_log w);
  ok_ops : forall i k, ks !! i = Some k -> NoDup (k_ops k) /\
    forall op, op ∈ k_ops k -> ~ current (w_log w) op /\ exists v, v ∈ k_views k /\ operation_of (v_id v) op;
  ok_disjoint : forall i j k k' op, i <> j -> ks !! i = Some k -> ks !! j = Some k' -> op ∈ k_ops k -> op ∈ k_ops k' -> False;
  ok_issued : forall op, current (w_log w) op \/ (exists i k, ks !! i = Some k /\ op ∈ k_ops k) -> issued w op;
  ok_named : forall op, Sent op ∈ w_log w -> exists id, operation_of id op
}.

(** ** How the tables evolve *)

(** Rows keep their view or move to a later version; new rows have an id that was not in
    use, and are logged. *)
Record evolves (w w' : dworld) : Prop := {
  evo_used : w_used w ⊆ w_used w';
  evo_released : w_released w ⊆ w_released w';
  evo_log : w_log w' = w_log w \/ exists id, (id ∉ w_used w) /\ w_log w' = Created id :: w_log w;
  evo_rows : forall id r', db_deployments (w_db w') !! id = Some r' ->
    id ∈ w_used w' /\ tidy (row_view r') /\
    ((exists r, db_deployments (w_db w) !! id = Some r /\
        (row_view r' = row_view r \/ ((dr_Version r < dr_Version r')%Z /\ (dr_Attempt r <= dr_Attempt r')%Z)))
     \/ ((id ∉ w_used w) /\ w_log w' = Created id :: w_log w))
}.

Lemma evolves_view w w' v : evolves w w' -> view_ok w v -> view_ok w' v.
Proof.
  intros [Hu _ _ Hr] (V1 & V2 & V3). split; [set_solver|]. split; [done|]. intros r' Hr'.
  destruct (Hr _ _ Hr') as (_ & _ & [(r & H1 & [E|[H2 _]])|[N _]]); [| |done].
  - destruct (V3 r H1) as [V4 V5]. injection E as E1 E2 E3 E4 E5. split; [lia|]. intros Hv.
    rewrite <- V5 by lia. unfold row_view. congruence.
  - destruct (V3 r H1) as [V4 _]. split; lia.
Qed.

Lemma evolves_current w w' op : evolves w w' -> current (w_log w') op -> current (w_log w) op.
Proof. intros He. destruct (evo_log _ _ He) as [->|(id & _ & ->)]; [done|]. by intros [? _]. Qed.

(** An operation whose deployment was not created just now stays issued. *)
Lemma evolves_issued w w' op :
  evolves w w' -> issued w op -> (forall id, w_log w' = Created id :: w_log w -> (id ∉ w_used w) -> ~ operation_of id op) ->
  issued w' op.
Proof.
  intros [Hu _ _ Hr] (id & n & -> & Hn & Ha) Hnew. exists id, n. split; [done|]. split; [done|].
  intros r' Hr'. destruct (Hr _ _ Hr') as (_ & _ & [(r & H1 & [E|[_ H2]])|[N El]]).
  - injection E as E1 E2 E3 E4 E5. specialize (Ha r H1). lia.
  - specialize (Ha r H1). lia.
  - destruct (Hnew id El N). by exists n.
Qed.

Lemma operationID_injective id1 id2 n1 n2 :
  (1 <= n1)%Z -> (1 <= n2)%Z -> operationID id1 n1 = operationID id2 n2 -> id1 = id2 /\ n1 = n2.
Proof.
  intros H1 H2. unfold operationID, formatAttempt.
  destruct (Z.ltb_spec n1 1); [lia|]. destruct (Z.ltb_spec n2 1); [lia|]. intros E.
  apply (joined_key_injective "" "-"%char); [lia|lia| |exact E].
  intros m. unfold pretty_N_char. by repeat case_match.
Qed.

Lemma operation_of_unique id id' op : operation_of id op -> operation_of id' op -> id = id'.
Proof. intros (n & Hn & ->) (n' & Hn' & E). by apply operationID_injective in E as [? _]. Qed.

Lemma evolves_ok w w' ks :
  world_ok w ks -> evolves w w' -> (w_db w' = w_db w \/ server_step limit (w_db w) (w_db w')) -> world_ok w' ks.
Proof.
  intros [O1 O2 O3 O4 O5 O6 O7 O8 O9] He Hs. split.
  - destruct Hs as [->|Hs]; [done|]. unfold server_reachable. eapply rtc_r; [exact O1|exact Hs].
  - intros id r' Hr'. destruct (evo_rows _ _ He id r' Hr') as (H1 & H2 & _). done.
  - intros i k v Hk Hv. eapply evolves_view; eauto.
  - intros i k Hk. pose proof (O4 i k Hk). pose proof (evo_released _ _ He). set_solver.
  - by destruct (evo_log _ _ He) as [->|(id & _ & ->)].
  - intros i k Hk. destruct (O6 i k Hk) as [H1 H2]. split; [done|]. intros op Hop.
    destruct (H2 op Hop) as [H3 H4]. split; [|done]. contradict H3. by eapply evolves_current.
  - exact O7.
  - intros op Hop. apply (evolves_issued w).
    + done.
    + apply O8. destruct Hop as [Hop|Hop]; [left; by eapply evolves_current|by right].
    + intros id El N Hof. destruct Hop as [Hop|(i & k & Hk & Hop)].
      * rewrite El in Hop. by destruct Hop.
      * destruct (O6 i k Hk) as [_ H2]. destruct (H2 op Hop) as (_ & v & Hv & Hov).
        destruct (O3 i k v Hk Hv) as [Hu _]. by rewrite (operation_of_unique _ _ _ Hof Hov) in N.
  - intros op Hop. apply O9. destruct (evo_log _ _ He) as [El|(id & _ & El)]; rewrite El in Hop; [done|].
    by apply elem_of_cons in Hop as [?|?].
Qed.

(** A change of the tables that leaves every row's view. *)
Lemma same_views_evolves w db' :
  (forall id r, db_deployments (w_db w) !! id = Some r -> id ∈ w_used w /\ tidy (row_view r)) ->
  (forall id r', db_deployments db' !! id = Some r' -> exists r, db_deployments (w_db w) !! id = Some r /\ row_view r' = row_view r) ->
  evolves w (w <| w_db := db' |>).
Proof.
  intros Ho Hr. split; [done|done|by left|]. cbn [w_db w_used field_update]. intros id r' Hr'.
  destruct (Hr id r' Hr') as (r & H1 & H2). destruct (Ho id r H1) as [H3 H4]. split; [done|]. split; [by rewrite H2|].
  left. exists r. split; [done|by left].
Qed.

Lemma append_views db e now db' :
  db_wf db -> AppendDeploymentEvent e now db = Ok db' -> db_deployments db' = db_deployments db.
Proof.
  intros W S. pose proof (AppendDeploymentEvent_eq e now db W) as A.
  destruct (normalizeDeploymentEvent e now) as [e1|]; [|congruence].
  destruct (db_deployments db !! _) as [owner|]; [|congruence]. cbv zeta in A. destruct (_ || _) in A; [|congruence].
  destruct A as (rv & events & _ & _ & _ & A). rewrite A in S. by injection S as <-.
Qed.

Lemma prune_views before candidates db id r' :
  db_deployments (pruneRecords before candidates db).1 !! id = Some r' -> db_deployments db !! id = Some r'.
Proof.
  intros Hr'. destruct (pruneRecords before candidates db) as [db1 n] eqn:E. cbn [fst] in Hr'.
  destruct (pruneRecords_spec _ _ _ _ _ E) as [_ H]. destruct (H id) as [[U _]|[[U _] _]]; congruence.
Qed.

Lemma fill_views id ref title db db' i r' :
  FillDeploymentPullRequestTitle id ref title db = Ok db' -> db_deployments db' !! i = Some r' ->
  exists r, db_deployments db !! i = Some r /\ row_view r' = row_view r.
Proof.
  unfold FillDeploymentPullRequestTitle. cbv zeta. intros S. inv_ok S. injection S as <-. cbn [db_deployments field_update].
  destruct (decide (i = TrimSpace id)) as [->|N]; [|rewrite lookup_alter_ne by done; intros; by exists r'].
  rewrite lookup_alter_eq. destruct (db_deployments db !! TrimSpace id) as [r|]; [|done]. intros [= <-].
  exists r. by destruct (_ && _).
Qed.

Lemma append_ok w ks e now db' :
  world_ok w ks -> AppendDeploymentEvent e now (w_db w) = Ok db' -> world_ok (w <| w_db := db' |>) ks.
Proof.
  intros Ho Ha. pose proof (server_reachable_wf _ _ _ _ (ok_reach _ _ Ho)) as W.
  apply (evolves_ok w); [done| |right; exact (srv_append _ _ _ _ _ Ha)].
  apply same_views_evolves; [apply (ok_rows _ _ Ho)|]. intros id r' Hr'.
  rewrite (append_views _ _ _ _ W Ha) in Hr'. by exists r'.
Qed.

Lemma prune_ok w ks before candidates :
  world_ok w ks -> world_ok (w <| w_db := (pruneRecords before candidates (w_db w)).1 |>) ks.
Proof.
  intros Ho. apply (evolves_ok w); [done| |right; apply srv_prune].
  apply same_views_evolves; [apply (ok_rows _ _ Ho)|]. intros id r' Hr'. apply prune_views in Hr'. by exists r'.
Qed.

(** An id that no row and no goroutine refers to leaves the ids in use. *)
Lemma forget_ok w ks id :
  world_ok w ks -> db_deployments (w_db w) !! id = None -> (forall i k v, ks !! i = Some k -> v ∈ k_views k -> v_id v <> id) ->
  world_ok (w <| w_used := w_used w ∖ {[id]} |>) ks.
Proof.
  intros [O1 O2 O3 O4 O5 O6 O7 O8 O9] Hnone Hks. split; cbn [w_db w_used w_released w_log field_update]; try done.
  - intros id' r Hr. destruct (O2 id' r Hr). split; [|done]. assert (id' <> id) by congruence. set_solver.
  - intros i k v Hk Hv. destruct (O3 i k v Hk Hv) as [V1 V2]. split; [|exact V2].
    pose proof (Hks i k v Hk Hv). cbn [w_used field_update]. set_solver.
Qed.

Lemma outside_ok w w' ks : world_ok w ks -> outside limit ks w w' -> world_ok w' ks.
Proof.
  intros Ho He. pose proof (server_reachable_wf _ _ _ _ (ok_reach _ _ Ho)) as W.
  destruct He as [d now w db' x Hn Hst Hsb Hat S|id w Hnone Hks|d ex now w db' Hsc S|id ref title w db' S|e now w db' S|before cand w|now w].
  - apply (evolves_ok w); [done| |right; exact (srv_create _ _ _ _ _ _ S)].
    apply result_bind_Ok in S as (u & _ & S).
    apply createDeployment_Ok in S as (d1 & rec & rv & H1 & Hrec & _ & _ & _ & _ & ->).
    apply normalizeDeployment_Ok in H1 as (N1 & _ & _ & _ & N5).
    assert (Ed : d_Status d1 = d_Status d /\ d_SandboxID d1 = d_SandboxID d /\ d_Attempt d1 = d_Attempt d /\
                 d_ID d1 = TrimSpace (d_ID d)) by (rewrite N5 at 1 2 3; by split_and!).
    destruct Ed as (E1 & E2 & E3 & E4). clear N5.
    destruct (createdRecord_fields d1 now) as (F1 & _ & _ & _ & F5 & _ & F7 & _). rewrite <- Hrec in *. cbv zeta in *.
    assert (F8 : dr_Attempt rec = d_Attempt d1) by (rewrite Hrec; apply createdRecord_attempt).
    split; cbn [w_db w_used w_released w_log field_update]; [set_solver|done|right; eauto|].
    intros id r' Hr'. cbn [db_deployments field_update] in Hr'. destruct (decide (id = dr_ID rec)) as [->|N].
    + rewrite lookup_insert_eq in Hr'. injection Hr' as <-. rewrite F1, E4. split; [set_solver|]. split; [|by right].
      rewrite E1, Hst in F7. split; cbn [row_view v_status v_sandbox v_attempt].
      * by rewrite F7.
      * intros _. congruence.
      * by rewrite F5, E2, Hsb.
      * rewrite F8, E3, Hat. done.
    + rewrite lookup_insert_ne in Hr' by done. destruct (ok_rows _ _ Ho id r' Hr') as [H1 H2].
      split; [set_solver|]. split; [done|]. left. exists r'. split; [done|by left].
  - by apply forget_ok.
  - apply (evolves_ok w); [done| |right; exact (srv_retry _ _ _ _ _ _ Hsc S)].
    apply result_bind_Ok in S as (u & _ & S).
    apply retryDeployment_Ok in S as (r & ex1 & Hr & Hv & _ & _ & S). apply insertRevision_Ok in S as [_ ->].
    destruct (retriedRecord_fields d ex1 now r) as (U1 & _ & U3 & _ & _ & U6 & _ & U8). cbv zeta in *.
    assert (U9 : dr_Attempt (retriedRecord d ex1 now r) = dr_Attempt r) by reflexivity.
    set (saved := retriedRecord d ex1 now r) in *. clearbody saved.
    destruct (ok_rows _ _ Ho _ _ Hr) as [R1 R2].
    split; [done|done|by left|]. cbn [w_db w_used field_update db_deployments]. intros id r' Hr'.
    destruct (decide (id = d_ID d)) as [->|N].
    + rewrite lookup_insert_eq in Hr'. injection Hr' as <-. split; [done|]. split.
      * split; cbn [row_view v_status v_sandbox v_attempt]; [by rewrite U3|by rewrite U6|by rewrite U6|].
        rewrite U9. exact (tidy_attempt _ R2).
      * left. exists r. split; [done|]. right. lia.
    + rewrite lookup_insert_ne in Hr' by done. destruct (ok_rows _ _ Ho id r' Hr') as [H1 H2].
      split; [done|]. split; [done|]. left. exists r'. split; [done|by left].
  - apply (evolves_ok w); [done| |right; exact (srv_fill _ _ _ _ _ _ S)].
    apply same_views_evolves; [apply (ok_rows _ _ Ho)|]. intros i r'. by eapply fill_views.
  - by eapply append_ok.
  - by apply prune_ok.
  - apply (evolves_ok w); [done| |right; apply srv_startup].
    apply same_views_evolves; [apply (ok_rows _ _ Ho)|]. intros i r' Hr'. unfold initializeStateBackfills in Hr'.
    rewrite backfill_id in Hr' by done. by exists r'.
Qed.

(** ** Events keep the invariant *)

(** A goroutine that learns only what holds. *)
Lemma learn_ok w ks i k k' :
  world_ok w ks -> ks !! i = Some k -> (forall v, v ∈ k_views k' -> view_ok w v) -> k_released k' ⊆ w_released w ->
  k_views k ⊆ k_views k' -> k_ops k' = k_ops k -> world_ok w (<[i := k']> ks).
Proof.
  intros [O1 O2 O3 O4 O5 O6 O7 O8 O9] Hi Hv Hr Hmore Ho.
  assert (Hl : forall j x, <[i := k']> ks !! j = Some x ->
    (x = k' /\ j = i) \/ (ks !! j = Some x /\ j <> i)).
  { intros j x. rewrite lookup_insert. case_decide; [intros [= <-]; by left|by right]. }
  assert (Hops : forall j x, <[i := k']> ks !! j = Some x ->
    exists x', ks !! j = Some x' /\ k_ops x = k_ops x' /\ k_views x' ⊆ k_views x).
  { intros j x [[-> ->]|[H _]]%Hl; eauto. }
  split; try done.
  - intros j x v [[-> ->]|[H _]]%Hl; eauto.
  - intros j x [[-> ->]|[H _]]%Hl; eauto.
  - intros j x (x' & H & -> & Hsub)%Hops. destruct (O6 j x' H) as [H1 H2]. split; [done|]. intros op Hop.
    destruct (H2 op Hop) as (H3 & v & H4 & H5). split; [done|]. exists v. auto.
  - intros a b x y op N (x' & H1 & -> & _)%Hops (y' & H2 & -> & _)%Hops. eauto.
  - intros op [H|(j & x & (x' & H1 & E & _)%Hops & Hop)]; [by apply O8; left|]. apply O8. right. exists j, x'. by rewrite <- E.
Qed.

Lemma keep_ok w ks i k : world_ok w ks -> ks !! i = Some k -> world_ok w (<[i := k]> ks).
Proof. intros H Hi. by rewrite insert_id. Qed.

Lemma row_fresh_read w ks id r :
  world_ok w ks -> db_deployments (w_db w) !! id = Some r ->
  fresh_read (deploymentFromRecord r) /\ d_ID (deploymentFromRecord r) = id /\ view_ok w (view_of (deploymentFromRecord r)).
Proof.
  intros Ho Hr. pose proof (server_reachable_wf _ _ _ _ (ok_reach _ _ Ho)) as W.
  destruct (ok_rows _ _ Ho _ _ Hr) as [H1 H2]. pose proof (dwf_id _ _ _ (wf_deployments _ W _ _ Hr)) as E.
  change (view_of (deploymentFromRecord r)) with (row_view r). change (d_ID (deploymentFromRecord r)) with (dr_ID r).
  split; [split; [done|]|].
  - change (TrimSpace (dr_ID r) = dr_ID r). rewrite E. exact (dwf_trimmed _ _ _ (wf_deployments _ W _ _ Hr)).
  - split; [done|]. split; [by rewrite <- E in H1|]. split; [done|].
    change (v_id (row_view r)) with (dr_ID r). rewrite E. intros r' Hr'. replace r' with r by congruence. cbn. split; [lia|done].
Qed.

Lemma reads_ok w ks i k rs :
  world_ok w ks -> ks !! i = Some k -> (forall r, r ∈ rs -> exists id, db_deployments (w_db w) !! id = Some r) ->
  Forall fresh_read (map deploymentFromRecord rs) /\
  world_ok w (<[i := add_views (map view_of (map deploymentFromRecord rs)) k]> ks).
Proof.
  intros Ho Hi Hrs. split.
  - apply Forall_forall. intros d (r & -> & Hr)%list_elem_of_fmap. destruct (Hrs r Hr) as [id Hid].
    by destruct (row_fresh_read w ks id r Ho Hid).
  - apply (learn_ok w ks i k); [done|done| |exact (ok_released _ _ Ho _ _ Hi)|by apply list_subseteq_app_r|done].
    intros v [Hv|Hv]%elem_of_app; [|exact (ok_views _ _ Ho _ _ _ Hi Hv)].
    apply list_elem_of_fmap in Hv as (d & -> & (r & -> & Hr)%list_elem_of_fmap). destruct (Hrs r Hr) as [id Hid].
    by destruct (row_fresh_read w ks id r Ho Hid) as (_ & _ & ?).
Qed.

(** The rows of a page. *)
Lemma work_rows kind afterID n now db items more :
  ListDeploymentWork kind afterID n now db = Ok (items, more) ->
  exists rs, items = map deploymentFromRecord rs /\ forall r, r ∈ rs -> exists id, db_deployments db !! id = Some r.
Proof.
  unfold ListDeploymentWork. destruct (_ || _); [done|]. destruct (workQuery _ _ _ _ _) as [p|]; [|done]. cbv zeta.
  set (L := select id_le _ (db_deployments db)). intros [= <- _]. eexists. split; [reflexivity|].
  assert (HL : forall r, r ∈ take (Z.to_nat (n + 1)) L -> exists id, db_deployments db !! id = Some r).
  { intros r Hr. apply elem_of_take in Hr as (j & Hj & _). apply list_elem_of_lookup_2 in Hj.
    by apply elem_of_select in Hj as [? _]. }
  destruct (_ <? _)%Z; [|exact HL]. intros r Hr. apply HL. apply elem_of_take in Hr as (j & Hj & _).
  by apply list_elem_of_lookup_2 in Hj.
Qed.

(** The row an accepted update replaces, and the one it leaves. *)
Lemma update_row d now db db' :
  UpdateDeployment d now db = Ok db' ->
  exists r saved, db_deployments db !! TrimSpace (d_ID d) = Some r /\ dr_Version r = d_Version d /\
    db_deployments db' = <[TrimSpace (d_ID d) := saved]> (db_deployments db) /\
    (dr_ID r = TrimSpace (d_ID d) -> row_view saved = written d) /\
    occupies (updatedRecord d now r) = occupied (d_Status d) (TrimSpace (d_SandboxID d)) /\
    (validDeploymentStatus (d_Status d) = true).
Proof.
  intros H. apply UpdateDeployment_Ok in H as (d1 & r & N & Hns & Hr & Hv & H).
  apply normalizeDeployment_Ok in N as (N1 & _ & _ & N4 & N5).
  assert (Ed : d_Version d1 = d_Version d /\ d_Status d1 = d_Status d /\ d_SandboxID d1 = d_SandboxID d /\ d_Attempt d1 = d_Attempt d)
    by (rewrite N5; by split_and!).
  destruct Ed as (E1 & E2 & E3 & E4). clear N5. rewrite N1 in *.
  destruct (updatedRecord_fields d1 now r) as (U1 & _ & _ & _ & U5 & U6 & U7).
  destruct (updatedRecord_lifecycle d1 now r) as (U8 & _).
  destruct (updatedRecord_fields d now r) as (_ & _ & _ & _ & V5 & _). destruct (updatedRecord_lifecycle d now r) as (V8 & _).
  cbv zeta in *. exists r, (updatedRecord d1 now r). split; [done|]. split; [lia|].
  apply updateCurrentDeploymentRevision_Ok in H as (c & c' & _ & -> & _). split; [reflexivity|]. split; [|split].
  - intros Hid. unfold row_view, written. rewrite U1, U5, U6, U7, U8. congruence.
  - unfold occupies, occupied. by rewrite V5, V8.
  - rewrite E2 in Hns. by destruct N4.
Qed.

(** A goroutine that takes up a new operation. *)
Lemma issue_ok w ks i k op :
  world_ok w ks -> ks !! i = Some k -> issued w op -> ~ current (w_log w) op ->
  (exists v, v ∈ k_views k /\ operation_of (v_id v) op) ->
  (forall j x, ks !! j = Some x -> op ∉ k_ops x) ->
  world_ok w (<[i := MkKnowledge (k_views k) (k_released k) (op :: k_ops k)]> ks).
Proof.
  intros [O1 O2 O3 O4 O5 O6 O7 O8 O9] Hi Hiss Hc Hview Hn.
  assert (Hl : forall j x, <[i := MkKnowledge (k_views k) (k_released k) (op :: k_ops k)]> ks !! j = Some x ->
    exists y, ks !! j = Some y /\ k_views x = k_views y /\ k_released x = k_released y /\
      (x = y /\ j <> i \/ k_ops x = op :: k_ops y /\ j = i)).
  { intros j x. rewrite lookup_insert. case_decide as E; [intros [= <-]; subst j|]; intros; eexists; split_and!; eauto. }
  split; try done.
  - intros j x v (y & H & Ev & _)%Hl. rewrite Ev. eauto.
  - intros j x (y & H & _ & Er & _)%Hl. rewrite Er. eauto.
  - intros j x (y & H & Ev & _ & [[-> _]|[E ->]])%Hl; [eauto|]. rewrite E, Ev. destruct (O6 _ _ H) as [H1 H2].
    split; [constructor; [exact (Hn _ _ H)|done]|].
    assert (y = k) as -> by congruence. intros o [->|Ho]%elem_of_cons; [done|by apply H2].
  - intros a b x y o N (x' & H1 & _ & _ & Hx)%Hl (y' & H2 & _ & _ & Hy)%Hl.
    destruct Hx as [[-> Na]|[Ex ->]], Hy as [[-> Nb]|[Ey ->]]; [eauto| | |done].
    + rewrite Ey. intros Ho [->|Ho']%elem_of_cons; [exact (Hn _ _ H1 Ho)|eauto].
    + rewrite Ex. intros [->|Ho]%elem_of_cons Ho'; [exact (Hn _ _ H2 Ho')|eauto].
  - intros o [Ho|(j & x & (y & H & _ & _ & [[-> _]|[E ->]])%Hl & Ho)]; [by apply O8; left|apply O8; right; eauto|].
    rewrite E in Ho. apply elem_of_cons in Ho as [->|Ho]; [done|]. apply O8. right. eauto.
Qed.

(** The operation of an attempt that the row has not reached is new. *)
Lemma fresh_operation w ks id r n :
  world_ok w ks -> db_deployments (w_db w) !! id = Some r -> (dr_Attempt r < n)%Z -> (1 <= n)%Z ->
  ~ current (w_log w) (operationID id n) /\ (forall j x, ks !! j = Some x -> operationID id n ∉ k_ops x).
Proof.
  intros Ho Hr Hn H1.
  assert (Hi : ~ issued w (operationID id n)).
  { intros (id' & n' & E & Hn' & Ha). apply operationID_injective in E as [<- <-]; [|done|done].
    specialize (Ha r Hr). lia. }
  split; [intros Hc; apply Hi, (ok_issued _ _ Ho); by left|].
  intros j x Hx Hop. apply Hi, (ok_issued _ _ Ho). right. eauto.
Qed.

(** An accepted update keeps the invariant whether or not it is reported as a failure. *)
Lemma update_event w ks i k d now db' :
  world_ok w ks -> ks !! i = Some k -> event_permitted (DUpdate d) k -> UpdateDeployment d now (w_db w) = Ok db' ->
  world_ok (w <| w_db := db' |>) ks /\
  world_ok (w <| w_db := db' |>) (<[i := event_learned (DUpdate d) k None]> ks).
Proof.
  intros Ho Hi (v & Hv & Ev1 & Ev2 & M) HU. pose proof (server_reachable_wf _ _ _ _ (ok_reach _ _ Ho)) as W.
  destruct (update_row _ _ _ _ HU) as (r & saved & Hr & Hver & Hdb' & Hsaved & Hocc & Hst).
  pose proof (dwf_id _ _ _ (wf_deployments _ W _ _ Hr)) as Hid. specialize (Hsaved Hid).
  destruct (ok_views _ _ Ho _ _ _ Hi Hv) as (_ & Tv & Vr). rewrite Ev1 in Vr. destruct (Vr r Hr) as [_ Vr'].
  specialize (Vr' ltac:(lia)). clear Vr. destruct (ok_rows _ _ Ho _ _ Hr) as [Hused Tr].
  assert (Ev3 : v_attempt v = dr_Attempt r) by (by rewrite <- Vr').
  injection Hsaved as S1 S2 S3 S4 S5.
  assert (Tw : tidy (written d)).
  { split; cbn [written v_status v_sandbox v_attempt]; [done|exact (mw_unboxed _ _ _ _ _ M)|apply TrimSpace_idem|].
    pose proof (tidy_attempt _ Tv). destruct (mw_attempt _ _ _ _ _ M); lia. }
  assert (Hevo : evolves w (w <| w_db := db' |>)).
  { split; [done|done|by left|]. cbn [w_db w_used field_update]. rewrite Hdb'. intros id x Hx.
    destruct (decide (id = TrimSpace (d_ID d))) as [->|N].
    - rewrite lookup_insert_eq in Hx. injection Hx as <-. split; [done|]. split.
      + replace (row_view saved) with (written d); [done|]. unfold row_view, written. congruence.
      + left. exists r. split; [done|]. right. destruct (mw_attempt _ _ _ _ _ M); lia.
    - rewrite lookup_insert_ne in Hx by done. destruct (ok_rows _ _ Ho id x Hx) as [H1 H2].
      split; [done|]. split; [done|]. left. exists x. split; [done|by left]. }
  assert (Ho' : world_ok (w <| w_db := db' |>) ks).
  { apply (evolves_ok w); [done|done|]. right. eapply srv_update; [|exact HU]. intros r0 Hr0 _ H.
    assert (r0 = r) as -> by congruence. rewrite Hocc in H. apply (mw_place _ _ _ _ _ M) in H. by rewrite <- Vr' in H. }
  assert (Hw : view_ok (w <| w_db := db' |>) (written d)).
  { split; [done|]. split; [done|]. cbn [w_db field_update written v_id v_version]. rewrite Hdb'. intros x.
    rewrite lookup_insert_eq. intros [= <-]. split; [lia|]. intros _. unfold row_view, written. congruence. }
  assert (Hk : world_ok (w <| w_db := db' |>) (<[i := MkKnowledge (written d :: k_views k) (k_released k) (k_ops k)]> ks)).
  { apply (learn_ok _ ks i k); [done|done| |exact (ok_released _ _ Ho' _ _ Hi)|set_solver|done].
    intros x [->|Hx]%elem_of_cons; [done|exact (ok_views _ _ Ho' _ _ _ Hi Hx)]. }
  split; [exact Ho'|]. cbn [event_learned]. destruct (starts_attempt d k) eqn:Es; [|exact Hk].
  unfold starts_attempt in Es. apply andb_true_iff in Es as [_ Es]. apply existsb_exists in Es as (u & Hu & Eu).
  apply list_elem_of_In in Hu. bool_prop. destruct (ok_views _ _ Ho _ _ _ Hi Hu) as (_ & _ & Ur).
  match goal with H : v_id u = _ |- _ => rewrite H in Ur end. destruct (Ur r Hr) as [_ Ur']. specialize (Ur' ltac:(lia)).
  assert (Ea : d_Attempt d = (dr_Attempt r + 1)%Z) by (assert (v_attempt u = dr_Attempt r) by (by rewrite <- Ur'); lia).
  pose proof (tidy_attempt _ Tr) as Ha. cbn in Ha.
  destruct (fresh_operation w ks _ r (d_Attempt d) Ho Hr) as [Fc Fk]; [lia|lia|].
  rewrite <- (insert_insert_eq ks i _ (MkKnowledge (written d :: k_views k) (k_released k) (k_ops k))).
  apply (issue_ok _ _ i (MkKnowledge (written d :: k_views k) (k_released k) (k_ops k))); [done|apply lookup_insert_eq| |done| |].
  - exists (TrimSpace (d_ID d)), (d_Attempt d). split; [done|]. split; [lia|].
    cbn [w_db field_update]. rewrite Hdb'. intros x. rewrite lookup_insert_eq. intros [= <-]. lia.
  - exists (written d). split; [left|]. exists (d_Attempt d). split; [lia|done].
  - intros j x. rewrite lookup_insert. case_decide as E; [intros [= <-]; cbn [k_ops]; by eapply Fk|by apply Fk].
Qed.

Lemma create_event w ks i k t n op r :
  world_ok w ks -> ks !! i = Some k -> op ∈ k_ops k ->
  world_ok (w <| w_log := Sent op :: w_log w |>) (<[i := event_learned (XCreateAndWait t n op) k r]> ks).
Proof.
  intros [O1 O2 O3 O4 O5 O6 O7 O8 O9] Hi Hop.
  set (k' := event_learned (XCreateAndWait t n op) k r).
  assert (Hk' : forall o, o ∈ k_ops k' <-> o ∈ k_ops k /\ o <> op).
  { intros o. unfold k'. cbn [event_learned k_ops]. rewrite elem_of_bfilter, negb_true_iff, bool_decide_eq_false. done. }
  assert (Hl : forall j x, <[i := k']> ks !! j = Some x -> (x = k' /\ j = i) \/ (ks !! j = Some x /\ j <> i)).
  { intros j x. rewrite lookup_insert. case_decide; [intros [= <-]; by left|by right]. }
  assert (Hin : forall j x o, <[i := k']> ks !! j = Some x -> o ∈ k_ops x -> exists y, ks !! j = Some y /\ o ∈ k_ops y /\ o <> op).
  { intros j x o [[-> ->]|[H N]]%Hl Ho; [apply Hk' in Ho as [? ?]; eauto|]. exists x. split_and!; try done.
    intros ->. by eapply (O7 i j). }
  assert (Hviews : forall j x, <[i := k']> ks !! j = Some x -> exists y, ks !! j = Some y /\ k_views x = k_views y).
  { intros j x [[-> ->]|[H _]]%Hl; eauto. }
  split; cbn [w_db w_used w_released w_log field_update]; try done.
  - intros j x v [[-> ->]|[H _]]%Hl Hv; [exact (O3 _ _ v Hi Hv)|exact (O3 _ _ v H Hv)].
  - intros j x [[-> ->]|[H _]]%Hl; [exact (O4 _ _ Hi)|exact (O4 _ _ H)].
  - split; [|done]. by apply (O6 _ _ Hi).
  - intros j x Hx. split.
    + apply Hl in Hx as [[-> ->]|[H _]]; [|by apply (O6 _ _ H)].
      apply NoDup_ListNoDup, List.NoDup_filter, NoDup_ListNoDup. by apply (O6 _ _ Hi).
    + intros o Ho. destruct (Hin j x o Hx Ho) as (y & Hy & Hoy & Hne). destruct (Hviews j x Hx) as (y' & Hy' & ->).
      assert (y' = y) as -> by congruence. destruct (O6 _ _ Hy) as [_ H2]. destruct (H2 o Hoy) as [H3 H4].
      split; [|done]. by intros [->|Hc].
  - intros a b x y o N Hx Hy Hox Hoy. destruct (Hin a x o Hx Hox) as (x' & ? & ? & _), (Hin b y o Hy Hoy) as (y' & ? & ? & _). eauto.
  - intros o [[->|Ho]|(j & x & Hx & Ho)]; [apply O8; right; eauto|by apply O8; left|].
    destruct (Hin j x o Hx Ho) as (y & ? & ? & _). apply O8. right. eauto.
  - intros o [[= ->]|Ho]%elem_of_cons; [|by apply O9]. destruct (O6 _ _ Hi) as [_ H2].
    destruct (H2 op Hop) as (_ & v & _ & Hv). by eexists.
Qed.

Lemma release_event w ks i k s :
  world_ok w ks -> ks !! i = Some k ->
  world_ok (w <| w_released := {[TrimSpace s]} ∪ w_released w |>) (<[i := add_released s k]> ks).
Proof.
  intros Ho Hi. assert (Ho' : world_ok (w <| w_released := {[TrimSpace s]} ∪ w_released w |>) ks).
  { apply (evolves_ok w); [done| |by left]. split; cbn [w_db w_used w_released field_update]; [done|set_solver|by left|].
    intros id r Hr. destruct (ok_rows _ _ Ho id r Hr). split; [done|]. split; [done|]. left. exists r. split; [done|by left]. }
  apply (learn_ok _ ks i k); [done|done| | |done|done].
  - intros v Hv. exact (ok_views _ _ Ho' _ _ _ Hi Hv).
  - cbn [add_released k_released w_released field_update]. pose proof (ok_released _ _ Ho _ _ Hi). set_solver.
Qed.

Lemma event_ok R (e : devent R) w ks i k r w' :
  world_ok w ks -> ks !! i = Some k -> event_permitted e k -> event_answers e w r w' ->
  event_expected e k r /\ world_ok w' (<[i := event_learned e k r]> ks).
Proof.
  intros Ho Hi Hp Ha. destruct e; cbn [event_answers] in Ha;
    try (subst w'; split; [done|by apply keep_ok]).
  - (* DGet *) destruct Ha as [-> [->|[x ->]]]; [|split; [done|by apply keep_ok]].
    unfold GetDeployment. destruct (db_deployments (w_db w) !! TrimSpace id) as [row|] eqn:E; [|split; [done|by apply keep_ok]].
    destruct (row_fresh_read w ks _ _ Ho E) as (F1 & F2 & _). split; [by split|].
    apply (reads_ok w ks i k [row] Ho Hi). intros x [->|Hx]%elem_of_cons; [by eexists|by apply not_elem_of_nil in Hx].
  - (* DUpdate *) destruct Ha as [(now & db' & HU & ->)|[-> [x ->]]]; (split; [done|]); [|by apply keep_ok].
    destruct (update_event _ _ _ _ _ _ _ Ho Hi Hp HU) as [H1 H2]. destruct r; [by apply keep_ok|exact H2].
  - (* DAppend *) split; [done|]. apply keep_ok; [|done]. destruct Ha as [->|(now & db' & H & ->)]; [done|by eapply append_ok].
  - (* DListWork *) destruct Ha as [-> [[now ->]|[x ->]]]; [|split; [done|by apply keep_ok]].
    destruct (ListDeploymentWork _ _ _ _ _) as [[items more]|] eqn:E; [|split; [done|by apply keep_ok]].
    destruct (work_rows _ _ _ _ _ _ _ E) as (rs & -> & Hrs). by apply reads_ok.
  - (* DListActive *) destruct Ha as [-> [[now ->]|[x ->]]]; [|split; [done|by apply keep_ok]].
    unfold ListActiveDeployments. destruct (ListDeploymentWork _ _ _ _ _) as [[items more]|] eqn:E; [|split; [done|by apply keep_ok]].
    destruct (work_rows _ _ _ _ _ _ _ E) as (rs & -> & Hrs). by apply reads_ok.
  - (* DPrune *) split; [done|]. apply keep_ok; [|done]. destruct Ha as [->|(before & cand & ->)]; [done|by apply prune_ok].
  - (* XCreateAndWait *) subst w'. split; [done|]. by apply create_event.
  - (* XConnect *) destruct r as [box| |c]; [destruct Ha as [-> ->]; split; [done|by apply keep_ok]| |];
      subst w'; (split; [done|]); [by apply release_event|by apply keep_ok].
  - (* XKill *) destruct r as [u| |c]; subst w'; (split; [done|]); [by apply release_event|by apply release_event|by apply keep_ok].
Qed.

Lemma spawn_ok w ks i : world_ok w ks -> ks !! i = None -> world_ok w (<[i := MkKnowledge [] ∅ []]> ks).
Proof.
  intros [O1 O2 O3 O4 O5 O6 O7 O8 O9] Hi.
  assert (Hl : forall j x, <[i := MkKnowledge [] ∅ []]> ks !! j = Some x -> x = MkKnowledge [] ∅ [] \/ ks !! j = Some x).
  { intros j x. rewrite lookup_insert. case_decide; [intros [= <-]; by left|by right]. }
  split; try done.
  - intros j x v [->|H]%Hl; [intros Hv; by apply not_elem_of_nil in Hv|eauto].
  - intros j x [->|H]%Hl; [cbn; set_solver|eauto].
  - intros j x [->|H]%Hl; [split; [constructor|intros op Hop; by apply not_elem_of_nil in Hop]|eauto].
  - intros a b x y op N [->|H1]%Hl [->|H2]%Hl; try solve [eauto]; intros Hx Hy; cbn in *;
      [by apply not_elem_of_nil in Hx|by apply not_elem_of_nil in Hx|by apply not_elem_of_nil in Hy].
  - intros op [H|(j & x & [->|Hx]%Hl & Hop)]; [by apply O8; left|by apply not_elem_of_nil in Hop|]. apply O8. right. eauto.
Qed.

Lemma exit_ok w ks i : world_ok w ks -> world_ok w (delete i ks).
Proof.
  intros [O1 O2 O3 O4 O5 O6 O7 O8 O9].
  assert (Hl : forall j x, delete i ks !! j = Some x -> ks !! j = Some x) by (intros j x [_ H]%lookup_delete_Some; done).
  split; try done.
  - intros j x v H%Hl; eauto.
  - intros j x H%Hl; eauto.
  - intros j x H%Hl; eauto.
  - intros a b x y op N H1%Hl H2%Hl; eauto.
  - intros op [H|(j & x & H%Hl & Hop)]; [by apply O8; left|apply O8; right; eauto].
Qed.

(** The protocol of a server with this limit. *)
Definition deploy_protocol : Protocol devent dworld knowledge := {|
  answers := @event_answers;
  environment := outside limit;
  permitted := @event_permitted;
  expected := @event_expected;
  learned := @event_learned;
  consistent := world_ok;
  ignorance := MkKnowledge [] ∅ [];
  consistent_spawn := spawn_ok;
  consistent_exit := exit_ok;
  consistent_environment := fun w w' ks H => outside_ok w w' ks H;
  consistent_event := event_ok
|}.
End invariant.
