(* ===== verification/DeploySafety.v ===== *)
(** * The deployment workers keep the protocol

    Each program of the worker keeps the rules of [DeployProtocol]: it writes a row only
    from the version it read, along the status machine, drops a recorded sandbox only
    when it is gone, and creates a sandbox only for an attempt it has recorded. *)

From stdpp Require Import base gmap list strings relations pretty.
From S2P Require Import Prelude GoStrings Query DeployModel DeployStore DeployLog DeployInvariant DeployPromises.
From S2P Require Import DeployQueries Program DeployWorker DeployProtocol.

Section safety.
Context (limit : Z) (accounts installations : gset Z).
Context (templateID : string) (stageText : Stage -> string) (retention : Z).

#[local] Instance worker_protocol : Protocol devent dworld knowledge := deploy_protocol limit accounts installations.

(** ** Rules for events *)

Lemma wp_event {R A} (e : devent R) (f : R -> dprog A) Q k :
  event_permitted e k -> (forall r, event_expected e k r -> wp (f r) Q (event_learned e k r)) ->
  wp (tbind (perform e) f) Q k.
Proof. by split. Qed.

(** An event without obligation and without news. *)
Lemma wp_quiet {R A} (e : devent R) (f : R -> dprog A) Q k :
  event_permitted e k -> (forall r, event_learned e k r = k) -> (forall r, wp (f r) Q k) -> wp (tbind (perform e) f) Q k.
Proof. intros Hp Hl Hf. apply wp_event; [done|]. intros r _. rewrite Hl. apply Hf. Qed.

Ltac quiet := apply wp_quiet; [exact I|reflexivity|intros].

Definition grows (k k' : knowledge) : Prop := k_views k ⊆ k_views k' /\ k_released k ⊆ k_released k'.

Lemma grows_refl k : grows k k.
Proof. done. Qed.

Lemma grows_trans k1 k2 k3 : grows k1 k2 -> grows k2 k3 -> grows k1 k3.
Proof. intros [A B] [C D]. split; set_solver. Qed.

Hint Resolve grows_refl : core.

(** The row of [d] was last seen as [v]. *)
Record tracks (k : knowledge) (v : view) (d : Deployment) : Prop := {
  tr_view : v ∈ k_views k;
  tr_id : v_id v = d_ID d;
  tr_version : v_version v = d_Version d;
  tr_trimmed : TrimSpace (d_ID d) = d_ID d;
  tr_tidy : tidy v
}.

Lemma tracks_grows k k' v d : grows k k' -> tracks k v d -> tracks k' v d.
Proof. intros [H _] [A B C D E]. split; try done. set_solver. Qed.

(** The fields a write does not decide. *)
Lemma tracks_fields k v d d' : tracks k v d -> d_ID d' = d_ID d -> d_Version d' = d_Version d -> tracks k v d'.
Proof. intros [A B C D E] E1 E2. split; congruence. Qed.

(** A deployment that was just read. *)
Lemma tracks_read k d : fresh_read d -> view_of d ∈ k_views k -> tracks k (view_of d) d.
Proof. intros [H1 H2] H3. by split. Qed.

(** ** Writes *)

Record same (d d' : Deployment) (st : DeploymentStatus) : Prop := {
  same_id : d_ID d' = d_ID d;
  same_sandbox : d_SandboxID d' = d_SandboxID d;
  same_attempt : d_Attempt d' = d_Attempt d;
  same_status : d_Status d' = st
}.

(** The row after an accepted write of [d] with status [st]. *)
Record saved (k : knowledge) (v : view) (d : Deployment) (st : DeploymentStatus) (d' : Deployment) (v' : view) : Prop := {
  sv_tracks : tracks k v' d';
  sv_status : v_status v' = st;
  sv_sandbox : v_sandbox v' = TrimSpace (d_SandboxID d);
  sv_attempt : v_attempt v' = d_Attempt d;
  sv_operation : st = DeploymentStatusCreating -> d_Attempt d = (v_attempt v + 1)%Z ->
    operationID (d_ID d) (d_Attempt d) ∈ k_ops k
}.

Definition wrote (k : knowledge) (v : view) (d : Deployment) (st : DeploymentStatus)
    (res : Deployment * option goerror) (k' : knowledge) : Prop :=
  grows k k' /\ same d res.1 st /\
  match res.2 with
  | Some _ => tracks k' v res.1
  | None => exists v', saved k' v d st res.1 v'
  end.

Lemma wp_persist_row k v d :
  tracks k v d -> may_write k v (d_Status d) (TrimSpace (d_SandboxID d)) (d_Attempt d) ->
  validDeploymentStatus (d_Status d) = true -> wp (persist d) (wrote k v d (d_Status d)) k.
Proof.
  intros T M Hs. apply wp_event.
  { exists v. destruct T as [A B C D E]. split_and!; [done|congruence|done|done]. }
  intros [e|] _; cbn [event_learned].
  - split; [done|]. split; [by split|done].
  - set (k' := MkKnowledge _ _ _). split; [split; cbn; set_solver|]. split; [by split|]. exists (written d).
    destruct T as [A B C D E]. split; [split| | | |]; cbn [written v_id v_version v_status v_sandbox v_attempt k' k_views]; try done.
    + left.
    + split; cbn [written v_status v_sandbox v_attempt]; [done|exact (mw_unboxed _ _ _ _ _ M)|apply TrimSpace_idem|].
      pose proof (tidy_attempt _ E). destruct (mw_attempt _ _ _ _ _ M); lia.
    + intros Est Ea. unfold k'. cbn [k_ops]. unfold starts_attempt. rewrite Est, bool_decide_eq_true_2 by done. cbn [andb].
      rewrite (proj2 (existsb_exists _ _)); [rewrite D; left|]. exists v. split; [by apply list_elem_of_In|].
      rewrite bool_decide_eq_true_2 by congruence. cbn [andb]. apply andb_true_iff. lia.
Qed.

Lemma wp_emit {A} d e (f : unit -> dprog A) Q k : wp (f tt) Q k -> wp (tbind (emit d e) f) Q k.
Proof. intros H. unfold emit. cbv zeta. destruct (_ =? 0)%Z; (apply wp_quiet; [exact I|done|by intros []]). Qed.

Lemma wp_transition k v d st stage reason :
  tracks k v d -> may_write k v st (TrimSpace (d_SandboxID d)) (d_Attempt d) -> validDeploymentStatus st = true ->
  wp (transition d st stage reason) (wrote k v d st) k.
Proof.
  intros T M Hs. unfold transition. cbv zeta.
  set (d1 := (if _ || _ then _ else d) <| d_Status := st |>).
  assert (E : d_ID d1 = d_ID d /\ d_Version d1 = d_Version d /\ d_SandboxID d1 = d_SandboxID d /\ d_Attempt d1 = d_Attempt d /\
              d_Status d1 = st) by (unfold d1; destruct (_ || _); by split_and!).
  destruct E as (E1 & E2 & E3 & E4 & E5). clearbody d1.
  eapply wp_seq; [apply (wp_persist_row k v d1); [by eapply tracks_fields|by rewrite E3, E4, E5|by rewrite E5]|].
  intros [d2 err] k' (G & [S1 S2 S3 S4] & H). cbn [fst snd] in *.
  assert (S : same d d2 st) by (split; congruence).
  destruct err as [e|]; [by split_and!|]. apply wp_emit. split; [done|]. split; [done|]. cbn [fst snd].
  destruct H as (v' & [T1 T2 T3 T4 T5]). exists v'. split; [done|congruence|congruence|congruence|].
  intros Hst Ha. rewrite E1, E4, E5 in T5. by apply T5.
Qed.

Lemma wp_fail k v d stage reason :
  tracks k v d -> may_write k v DeploymentStatusFailed (TrimSpace (d_SandboxID d)) (d_Attempt d) ->
  wp (fail d stage reason) (wrote k v d DeploymentStatusFailed) k.
Proof.
  intros T M. unfold fail. set (d1 := _ <| d_Error := reason |>).
  assert (E : d_ID d1 = d_ID d /\ d_Version d1 = d_Version d /\ d_SandboxID d1 = d_SandboxID d /\ d_Attempt d1 = d_Attempt d /\
              d_Status d1 = DeploymentStatusFailed) by (by split_and!).
  destruct E as (E1 & E2 & E3 & E4 & E5). clearbody d1.
  eapply wp_seq; [apply (wp_persist_row k v d1); [by eapply tracks_fields|by rewrite E3, E4, E5|by rewrite E5]|].
  intros [d2 err] k' (G & [S1 S2 S3 S4] & H). cbn [fst snd] in *.
  assert (S : same d d2 DeploymentStatusFailed) by (split; congruence).
  destruct err as [e|]; [by split_and!|]. apply wp_emit. split; [done|]. split; [done|]. cbn [fst snd].
  destruct H as (v' & [T1 T2 T3 T4 T5]). exists v'. split; [done|congruence..|done].
Qed.

Definition anything {A} (_ : A) (_ : knowledge) : Prop := True.

Lemma wp_err_of p Q k : wp p Q k -> wp (err_of p) anything k.
Proof. intros H. eapply wp_seq; [exact H|]. by intros [d err] k' _. Qed.

(** ** Permitted writes *)

(** A row in an active status, with its sandbox or without one that is still there. *)
Lemma may_write_active k v st sandbox attempt :
  edge (v_status v) st = true -> dstatus_in activeDeploymentStatuses (v_status v) = true ->
  (v_sandbox v = "" \/ sandbox = v_sandbox v \/ v_sandbox v ∈ k_released k) ->
  (unboxed st = true -> sandbox = "") ->
  (attempt = v_attempt v \/ attempt = (v_attempt v + 1)%Z) -> may_write k v st sandbox attempt.
Proof. intros He Ha Hs Hu Ht. split; try done. intros _. unfold occupied. by rewrite Ha. Qed.

(** The same row with another status that records a sandbox. *)
Lemma may_write_same k v d st :
  edge (v_status v) st = true -> dstatus_in activeDeploymentStatuses (v_status v) = true -> unboxed st = false ->
  v_sandbox v = TrimSpace (d_SandboxID d) -> v_attempt v = d_Attempt d ->
  may_write k v st (TrimSpace (d_SandboxID d)) (d_Attempt d).
Proof.
  intros He Ha Hu Hs Ht. apply may_write_active; [done|done|by right; left| |by left]. by rewrite Hu.
Qed.

(** ** The provider *)

(** Knowledge that only grows in sandboxes that are gone. *)
Definition provider (k k' : knowledge) : Prop := k_views k' = k_views k /\ k_ops k' = k_ops k /\ k_released k ⊆ k_released k'.

Lemma provider_refl k : provider k k.
Proof. done. Qed.
Lemma provider_trans k1 k2 k3 : provider k1 k2 -> provider k2 k3 -> provider k1 k3.
Proof. intros (A & B & C) (D & E & F). split_and!; [congruence|congruence|set_solver]. Qed.
Lemma provider_grows k k' : provider k k' -> grows k k'.
Proof. intros (A & _ & C). split; [by rewrite A|done]. Qed.
Lemma provider_released s k : provider k (add_released s k).
Proof. split_and!; [done|done|cbn; set_solver]. Qed.
Hint Resolve provider_refl provider_grows provider_released : core.

Lemma wp_closeHandle k h :
  wp (closeHandle h) (fun r k' => provider k k' /\ (r = None -> TrimSpace (h_box h) ∈ k_released k')) k.
Proof.
  apply wp_event; [done|]. intros [u| |c] _; cbn; (split; [auto|]); try done; intros _; set_solver.
Qed.

(** The handle of a created or reconciled sandbox is bound to it. *)
Definition bound (k : knowledge) (res : option Handle * option goerror) (k' : knowledge) : Prop :=
  k_views k' = k_views k /\ k_released k ⊆ k_released k' /\
  match res.1 with Some h => h_box h = h_SandboxID h | None => True end.

Lemma wp_ReconcileCreate k t op timeout : wp (ReconcileCreate t op timeout) (bound k) k.
Proof.
  unfold ReconcileCreate. quiet. destruct r as [items|]; [|by split_and!].
  destruct (2 <=? _)%Z; [by split_and!|]. destruct (matchOperation op None items) as [[m|]|]; [|by split_and!..].
  apply wp_event; [done|]. intros [box| |c] Hx; cbn [event_expected] in Hx; [|by split_and!; cbn; set_solver..].
  subst box. cbv zeta. quiet. by split_and!.
Qed.

Lemma wp_FactoryCreate k t timeout op : op ∈ k_ops k -> wp (FactoryCreate t timeout op) (bound k) k.
Proof.
  intros Hop. unfold FactoryCreate. destruct (_ || _); [by split_and!|]. cbv zeta.
  destruct (_ <? Second)%Z; [by split_and!|]. destruct (_ <=? 0)%Z; [by split_and!|].
  apply wp_event; [done|]. intros [[box endAt]|] _; [by split_and!|].
  eapply wp_seq; [apply wp_ReconcileCreate|]. intros [[h|] err] k' (A & B & C); by split_and!.
Qed.

(** What [Runtime.Create] and [Runtime.Reconcile] answer. *)
Definition runtime (k : knowledge) (res : option Handle * string * option goerror) (k' : knowledge) : Prop :=
  grows k k' /\
  match res.1.1 with Some h => res.1.2 = h_SandboxID h /\ h_box h = h_SandboxID h | None => res.1.2 = "" end.

Lemma bound_grows k res k' : bound k res k' -> grows k k'.
Proof. intros (A & B & _). split; [by rewrite A|done]. Qed.

Lemma wp_untilExpiry {A} d (f : Z -> dprog A) Q k : (forall z, wp (f z) Q k) -> wp (tbind (untilExpiry d) f) Q k.
Proof. intros H. apply wp_tbind. unfold untilExpiry. apply wp_quiet; [exact I|done|]. intros now. apply H. Qed.

Lemma wp_runtimeCreate k d n :
  operationID (d_ID d) n ∈ k_ops k -> wp (runtimeCreate templateID d n) (runtime k) k.
Proof.
  intros Hop. unfold runtimeCreate. quiet. destruct r as [source|]; [|by split_and!]. cbv zeta.
  eapply (wp_seq _ _ (fun _ k' => k' = k)).
  { destruct (_ && _); quiet; done. }
  intros [e|] k' ->; [by split_and!|]. apply wp_untilExpiry. intros z.
  eapply wp_seq; [by apply wp_FactoryCreate|]. intros [[h|] err] k' Hb; pose proof (bound_grows _ _ _ Hb) as G;
    destruct Hb as (_ & _ & C); destruct err; by split_and!.
Qed.

Lemma wp_runtimeReconcile k d : wp (runtimeReconcile templateID d) (runtime k) k.
Proof.
  unfold runtimeReconcile. quiet. destruct r as [source|]; [|by split_and!]. apply wp_untilExpiry. intros z.
  eapply wp_seq; [by apply wp_ReconcileCreate|]. intros [[h|] err] k' Hb; pose proof (bound_grows _ _ _ Hb) as G;
    destruct Hb as (_ & _ & C); by split_and!.
Qed.

Lemma wp_runtimeConnect k d :
  wp (runtimeConnect d) (fun res k' => provider k k' /\
    match res with
    | Ok (Some h) => h_box h = TrimSpace (d_SandboxID d)
    | Ok None => TrimSpace (d_SandboxID d) ∈ k_released k'
    | Err _ => True
    end) k.
Proof.
  unfold runtimeConnect. quiet. destruct r as [source|]; [|by split]. apply wp_untilExpiry. intros z.
  apply wp_tbind. unfold FactoryConnect. destruct (bool_decide _); [by split|].
  apply wp_event; [done|]. intros [box| |c] Hx; cbn [event_expected] in Hx.
  - subst box. by split.
  - cbn. split; [auto|]. rewrite TrimSpace_idem. set_solver.
  - by destruct c as [[]|]; split.
Qed.

(** ** Stop *)

(** A tracked row whose sandbox and attempt are those of [d]. *)
Record held (k : knowledge) (v : view) (d : Deployment) : Prop := {
  held_tracks : tracks k v d;
  held_sandbox : v_sandbox v = TrimSpace (d_SandboxID d);
  held_attempt : v_attempt v = d_Attempt d
}.

Lemma held_grows k k' v d : grows k k' -> held k v d -> held k' v d.
Proof. intros G [A B C]. split; [by eapply tracks_grows|done|done]. Qed.

(** Fields that no rule reads may change. *)
Lemma held_fields k v d d' :
  held k v d -> d_ID d' = d_ID d -> d_Version d' = d_Version d -> d_SandboxID d' = d_SandboxID d -> d_Attempt d' = d_Attempt d ->
  held k v d'.
Proof. intros [A B C] E1 E2 E3 E4. split; [by eapply tracks_fields|congruence|congruence]. Qed.

Lemma held_read k d : fresh_read d -> view_of d ∈ k_views k -> held k (view_of d) d.
Proof.
  intros [H1 H2] H3. split; [by apply tracks_read|symmetry; exact (tidy_trimmed _ H1)|done].
Qed.

(** After an accepted write. *)
Lemma saved_held k v d st d' v' : saved k v d st d' v' -> same d d' st -> held k v' d' /\ v_status v' = st.
Proof. intros [A B C D _] [E F G H]. split; [|done]. split; [done|congruence|congruence]. Qed.

(** Rows that [stop] works on. *)
Lemma stop_busy v :
  tidy v -> dstatus_in terminalDeploymentStatuses (v_status v) && bool_decide (v_sandbox v = "") = false ->
  edge (v_status v) DeploymentStatusStopping = true /\ occupied (v_status v) (v_sandbox v) = true.
Proof.
  intros [T1 T2 T3 T4] H. destruct (v_status v); try done.
  - rewrite T2 in H by done. by vm_compute in H.
  - rewrite T2 in H by done. by vm_compute in H.
  - split; [done|]. unfold occupied. destruct (bool_decide (v_sandbox v = "")); [by vm_compute in H|done].
Qed.

Lemma wp_failCleanup k v d b cause :
  held k v d -> v_status v = DeploymentStatusStopping -> wp (failCleanup b d cause) anything k.
Proof.
  intros [T S A] Hs. unfold failCleanup. apply (wp_seq _ _ (wrote k v d DeploymentStatusFailed)).
  - destruct b; (apply wp_fail; [done|]); apply may_write_same; try done; by rewrite Hs.
  - by intros [d' err] k' _.
Qed.

Lemma wp_reconcileStopped k v d :
  held k v d -> v_sandbox v = "" -> edge (v_status v) (v_status v) = true -> d_Status d = v_status v ->
  dstatus_in activeDeploymentStatuses (v_status v) = true -> unboxed (v_status v) = false ->
  wp (reconcileStopped templateID d) (fun res k' => grows k k' /\
    match res with inl _ => True | inr d' => exists v', held k' v' d' /\ v_status v' = v_status v end) k.
Proof.
  intros Hh Hsb He Hst Ha Hu. unfold reconcileStopped. eapply wp_seq; [apply wp_runtimeReconcile|].
  intros [[rt sandboxID] err] k' [G H]. cbn [fst snd] in H. pose proof (held_grows _ _ _ _ G Hh) as Hh'. destruct rt as [h|].
  - destruct H as [-> Hb]. assert (wp (if bool_decide (h_SandboxID h = "") || bool_decide (h_box h = "") then Done (inl (Some ErrRuntimeMismatch))
      else let* (d0, err) := persist (d <| d_SandboxID := h_SandboxID h |> <| d_RuntimeID := h_box h |>) in
        match err with Some e => Done (inl (Some e)) | None => Done (inr d0) end) (fun res k' => grows k k' /\
    match res with inl _ => True | inr d' => exists v', held k' v' d' /\ v_status v' = v_status v end) k').
    { destruct (_ || _); [by split|]. set (d1 := _ <| d_RuntimeID := h_box h |>). destruct Hh' as [T S A].
      eapply wp_seq; [apply (wp_persist_row k' v d1); [by eapply tracks_fields| |]|].
      - change (d_Status d1) with (d_Status d). rewrite Hst. apply may_write_active; [done|done|by left| |left; done].
        by rewrite Hu.
      - change (d_Status d1) with (d_Status d). rewrite Hst. exact (tidy_status _ (tr_tidy _ _ _ T)).
      - intros [d2 err2] k2 (G2 & S2 & W2). cbn [fst snd] in *. pose proof (grows_trans _ _ _ G G2) as G3.
        destruct err2; [by split|]. split; [done|]. destruct W2 as (v' & Hsv). exists v'.
        destruct (saved_held _ _ _ _ _ _ Hsv S2) as [H1 H2]. split; [done|]. by rewrite H2. }
    by destruct err.
  - destruct err as [e|]; [by split|]. quiet. destruct (_ <? _)%Z; [by split|]. split; [done|]. by exists v.
Qed.

Lemma wp_releaseSandbox k v d b :
  held k v d -> v_status v = DeploymentStatusStopping ->
  wp (releaseSandbox b d) (fun res k' => grows k k' /\ (res = None -> v_sandbox v = "" \/ v_sandbox v ∈ k_released k')) k.
Proof.
  intros Hh Hs. unfold releaseSandbox. pose proof (held_sandbox _ _ _ Hh) as Esb.
  destruct (bool_decide (TrimSpace (d_SandboxID d) = "")) eqn:Eb.
  { bool_prop. split; [done|]. intros _. left. congruence. }
  eapply wp_seq; [apply wp_runtimeConnect|]. intros c k1 [G1 H1]. pose proof (held_grows _ _ _ _ (provider_grows _ _ G1) Hh) as Hh1.
  assert (Hfail : forall k2 e, grows k k2 -> held k2 v d ->
    wp (let* r := failCleanup b d e in Done (Some r)) (fun res k' => grows k k' /\
      (res = None -> v_sandbox v = "" \/ v_sandbox v ∈ k_released k')) k2).
  { intros k2 e G2 Hh2. destruct Hh2 as [T S A].
    apply wp_tbind. unfold failCleanup. apply wp_tbind. eapply (wp_conseq _ (wrote k2 v d DeploymentStatusFailed)).
    - intros [d' err] k3 (G3 & _). split; [by eapply grows_trans|done].
    - destruct b; (apply wp_fail; [done|]); apply may_write_same; try done; by rewrite Hs. }
  assert (Hclose : forall h, h_box h = TrimSpace (d_SandboxID d) ->
    wp (let* closeErr := closeHandle h in
        match closeErr with Some e => let* r := failCleanup b d e in Done (Some r) | None => Done None end)
      (fun res k' => grows k k' /\ (res = None -> v_sandbox v = "" \/ v_sandbox v ∈ k_released k')) k1).
  { intros h Hb. eapply wp_seq; [apply wp_closeHandle|]. intros err k2 [G2 H2].
    pose proof (grows_trans _ _ _ (provider_grows _ _ G1) (provider_grows _ _ G2)) as G3.
    destruct err as [e|]; [apply Hfail; [done|by eapply held_grows; [|done]; eauto]|].
    split; [done|]. intros _. right. rewrite Esb. specialize (H2 eq_refl). by rewrite Hb, TrimSpace_idem in H2. }
  destruct c as [[h|]|e].
  - cbv zeta. destruct (_ || _).
    + cbn [tbind]. by apply Hclose.
    + quiet. destruct r as [e|]; [|by apply Hclose]. destruct (errors_is e ErrProcessUnknown); [by apply Hclose|].
      apply Hfail; [auto|done].
  - split; [auto|]. intros _. right. by rewrite Esb.
  - apply Hfail; [auto|done].
Qed.

Lemma wp_stop k id expired observed : wp (stop templateID id expired observed) anything k.
Proof.
  unfold stop. apply wp_event; [done|]. intros [d|e] Hx; [|done]. cbn [event_expected event_learned] in *. destruct Hx as [Hr _].
  set (k1 := add_views [view_of d] k).
  assert (Hh : held k1 (view_of d) d) by (apply held_read; [done|left]).
  destruct (match observed with Some _ => _ | None => _ end); [done|]. cbv zeta.
  destruct (terminal d && bool_decide (TrimSpace (d_SandboxID d) = "")) eqn:Et; [done|].
  destruct Hr as [Htidy _]. destruct (stop_busy (view_of d) Htidy) as [Hedge Hocc].
  { rewrite <- (held_sandbox _ _ _ Hh) in Et. exact Et. }
  set (v := view_of d) in *.
  assert (Hrec : wp (if bool_decide (d_SandboxID d = "") && (0 <? d_Attempt d)%Z
      && (bool_decide (d_Status d = DeploymentStatusCreating) || bool_decide (d_Status d = DeploymentStatusStopping))
      then reconcileStopped templateID d else Done (inr d))
    (fun res k' => grows k1 k' /\
      match res with
      | inl _ => True
      | inr d' => exists v', held k' v' d' /\ edge (v_status v') DeploymentStatusStopping = true /\
                             occupied (v_status v') (v_sandbox v') = true
      end) k1).
  { lazymatch goal with |- wp (if ?b then _ else _) _ _ => destruct b eqn:Ec end; [|split; [done|]; by exists v].
    assert (Hact : v_sandbox v = "" /\ (v_status v = DeploymentStatusCreating \/ v_status v = DeploymentStatusStopping)).
    { apply andb_true_iff in Ec as [Ec Est]. apply andb_true_iff in Ec as [Esb _]. apply orb_true_iff in Est.
      bool_prop. split; [done|]. destruct Est as [Est|Est]; bool_prop; [by left|by right]. }
    destruct Hact as [Hsb Hst].
    eapply wp_conseq; [|apply (wp_reconcileStopped k1 v d); try done; by destruct Hst as [->| ->]].
    intros [e|d'] k' [G H]; [done|]. destruct H as (v' & Hh' & Hs'). split; [done|]. exists v'. split; [done|].
    rewrite Hs'. split; [done|]. unfold occupied. by destruct Hst as [->| ->]. }
  eapply wp_seq; [exact Hrec|]. intros [e|d'] k2 [G2 H2]; [done|]. destruct H2 as (v' & Hh2 & He2 & Ho2).
  destruct Hh2 as [T2 S2 A2].
  eapply wp_seq; [apply (wp_transition k2 v' d'); [done| |done]|].
  { split; [done|done|right; left; congruence|done|by left]. }
  intros [d3 err] k3 (G3 & Sm & W3). cbn [fst snd] in *. destruct err as [e|]; [done|]. destruct W3 as (v3 & Hsv).
  destruct (saved_held _ _ _ _ _ _ Hsv Sm) as [Hh3 Hs3].
  eapply wp_seq; [by apply wp_releaseSandbox|]. intros [e|] k4 [G4 H4]; [done|]. specialize (H4 eq_refl).
  pose proof (held_grows _ _ _ _ G4 Hh3) as [T4 S4 A4].
  set (d5 := stoppedDeployment _ _ _ d3).
  assert (E5 : d_ID d5 = d_ID d3 /\ d_Version d5 = d_Version d3 /\ d_SandboxID d5 = "" /\ d_Attempt d5 = d_Attempt d3 /\
    (d_Status d5 = DeploymentStatusFailed \/ d_Status d5 = DeploymentStatusExpired \/ d_Status d5 = DeploymentStatusCompleted)).
  { unfold d5, stoppedDeployment. cbv zeta. repeat match goal with |- context [if ?b then _ else _] => destruct b end;
      split_and!; try done; auto. }
  destruct E5 as (E1 & E2 & E3 & E4 & E6). clearbody d5.
  apply (wp_err_of _ (wrote k4 v3 d5 (d_Status d5))), wp_persist_row; [by eapply tracks_fields| |by destruct E6 as [->|[->| ->]]].
  rewrite E3, E4. apply may_write_active; [rewrite Hs3; by destruct E6 as [->|[->| ->]]|by rewrite Hs3| |done|by left].
  destruct H4 as [H4|H4]; [by left|by right; right].
Qed.

Lemma wp_Stop k id expired : wp (Stop templateID id expired) anything k.
Proof. apply wp_stop. Qed.

(** ** Process *)

(** A held row whose status is also that of [d]. *)
Definition holds (st : DeploymentStatus) (k : knowledge) (v : view) (d : Deployment) : Prop :=
  held k v d /\ v_status v = st /\ d_Status d = st.

Lemma holds_grows st k k' v d : grows k k' -> holds st k v d -> holds st k' v d.
Proof. intros G (A & B & C). split; [by eapply held_grows|done]. Qed.

(** The next step after a write, when it was accepted. *)
Lemma wrote_holds k v d st d' k' : wrote k v d st (d', None) k' -> exists v', holds st k' v' d' /\ v_sandbox v' = TrimSpace (d_SandboxID d).
Proof.
  intros (G & S & v' & H). cbn [fst snd] in *. exists v'. destruct (saved_held _ _ _ _ _ _ H S) as [H1 H2].
  split; [split_and!; [done|done|exact (same_status _ _ _ S)]|exact (sv_sandbox _ _ _ _ _ _ H)].
Qed.

(** Failing an active row that keeps its sandbox. *)
Lemma wp_fail_end st k v d stage reason :
  held k v d -> v_status v = st -> edge st DeploymentStatusFailed = true -> dstatus_in activeDeploymentStatuses st = true ->
  wp (err_of (fail d stage reason)) anything k.
Proof.
  intros [T S A] <- He Ha. eapply wp_err_of, (wp_fail k v d); [done|]. by apply may_write_same.
Qed.

(** Failing an active row whose sandbox is gone or was never recorded. *)
Lemma wp_fail_released st k v d stage reason :
  tracks k v d -> v_status v = st -> v_attempt v = d_Attempt d -> d_SandboxID d = "" ->
  v_sandbox v = "" \/ v_sandbox v ∈ k_released k ->
  edge st DeploymentStatusFailed = true -> dstatus_in activeDeploymentStatuses st = true ->
  wp (err_of (fail d stage reason)) anything k.
Proof.
  intros T <- A Es Hs He Ha. eapply wp_err_of, (wp_fail k v d); [done|]. rewrite Es.
  apply may_write_active; [done|done|by destruct Hs; auto|done|by left].
Qed.

Lemma wp_createFailed k v d rt sandboxID e :
  holds DeploymentStatusCreating k v d -> v_sandbox v = "" ->
  match rt with Some h => sandboxID = h_SandboxID h /\ h_box h = h_SandboxID h | None => sandboxID = "" end ->
  wp (createFailed d rt sandboxID e) anything k.
Proof.
  intros (Hh & Hs & Hd) Hsb Hrt. unfold createFailed. cbv zeta. destruct rt as [h|].
  2: { rewrite Hrt. change (bool_decide (TrimSpace "" = "")) with true. cbn [andb].
       destruct (errors_is e ErrCreatePending); [by apply wp_emit|]. by eapply (wp_fail_end DeploymentStatusCreating). }
  destruct Hrt as [-> Hb]. cbn [andb]. set (d1 := _ <| d_RuntimeID := h_box h |>). destruct Hh as [T S A].
  assert (E1 : d_ID d1 = d_ID d /\ d_Version d1 = d_Version d /\ d_SandboxID d1 = TrimSpace (h_SandboxID h) /\
               d_Attempt d1 = d_Attempt d /\ d_Status d1 = d_Status d) by (by split_and!).
  destruct E1 as (E1 & E2 & E3 & E4 & E5). clearbody d1.
  eapply wp_seq; [apply (wp_persist_row k v d1); [by eapply tracks_fields| |by rewrite E5, Hd]|].
  { rewrite E4, E5, Hd. apply may_write_active; [by rewrite Hs|by rewrite Hs|by left|done|by left]. }
  intros [d2 err] k2 W2. destruct err as [x|]; [done|].
  rewrite E5, Hd in W2. destruct (wrote_holds _ _ _ _ _ _ W2) as (v2 & ([T2 S2 A2] & Hs2 & Hd2) & Hsb2).
  rewrite E3, TrimSpace_idem in Hsb2. eapply wp_seq; [apply wp_closeHandle|]. intros [x|] k3 [G3 H3].
  - eapply (wp_fail_end DeploymentStatusCreating); [|exact Hs2|done|done]. apply (held_grows k2); [auto|by split].
  - eapply (wp_fail_released DeploymentStatusCreating);
      [eapply tracks_fields; [eapply tracks_grows; [|exact T2]; auto|done|done]|done|done|done| |done|done].
    right. rewrite Hsb2, <- Hb. by apply H3.
Qed.

Lemma wp_applyCallback k v d c :
  holds DeploymentStatusCreating k v d ->
  wp (applyCallback stageText d c) (fun d' k' => grows k k' /\ exists v', holds DeploymentStatusCreating k' v' d' /\
    v_sandbox v' = v_sandbox v) k.
Proof.
  intros H. assert (Hkeep : forall k', grows k k' -> exists v', holds DeploymentStatusCreating k' v' d /\ v_sandbox v' = v_sandbox v).
  { intros k' G. exists v. split; [by eapply holds_grows|done]. }
  assert (Hwrite : forall d1 p, d_ID d1 = d_ID d -> d_Version d1 = d_Version d -> d_SandboxID d1 = d_SandboxID d ->
    d_Attempt d1 = d_Attempt d -> wp p (wrote k v d1 DeploymentStatusCreating) k ->
    wp (let* (d, _) := p in Done d) (fun d' k' => grows k k' /\ exists v', holds DeploymentStatusCreating k' v' d' /\
      v_sandbox v' = v_sandbox v) k).
  { intros d1 p E1 E2 E3 E4 Hp. eapply wp_seq; [exact Hp|]. intros [d2 err] k2 W2. destruct H as ([T S A] & Hs & Hd).
    split; [by destruct W2 as [? _]|]. destruct err as [e|].
    - destruct W2 as (G & [S1 S2 S3 S4] & W2). cbn [fst snd] in *. exists v. split; [|done].
      split; [split; [done|congruence|congruence]|done].
    - destruct (wrote_holds _ _ _ _ _ _ W2) as (v2 & H2 & Hsb2). exists v2. split; [done|]. congruence. }
  assert (Hstage : forall stage, wp (let* (d, _) := transition d DeploymentStatusCreating (stageText stage) "" in Done d)
    (fun d' k' => grows k k' /\ exists v', holds DeploymentStatusCreating k' v' d' /\ v_sandbox v' = v_sandbox v) k).
  { intros stage. apply (Hwrite d); try done. destruct H as ([T S A] & Hs & Hd).
    apply wp_transition; [done| |done]. apply may_write_same; [by rewrite Hs|by rewrite Hs|done..]. }
  destruct c as [stage|process tag|stage stream message]; cbn [applyCallback].
  - destruct stage; apply wp_emit; solve [apply Hstage|split; [done|by apply Hkeep]].
  - set (d1 := if bool_decide (tag = "") then _ else _).
    assert (E : d_ID d1 = d_ID d /\ d_Version d1 = d_Version d /\ d_SandboxID d1 = d_SandboxID d /\ d_Attempt d1 = d_Attempt d /\
                d_Status d1 = d_Status d) by (unfold d1; destruct (bool_decide (tag = "")), (bool_decide (ref_RuntimeID process = "")); by split_and!).
    destruct E as (E1 & E2 & E3 & E4 & E5). clearbody d1. apply (Hwrite d1); try done.
    destruct H as ([T S A] & Hs & Hd). rewrite <- Hd, <- E5. apply wp_persist_row; [by eapply tracks_fields| |by rewrite E5, Hd].
    rewrite E5, Hd. apply may_write_same; [by rewrite Hs|by rewrite Hs|done|congruence|congruence].
  - apply wp_emit. split; [done|by apply Hkeep].
Qed.

Lemma wp_applyFailed k v d h stage :
  holds DeploymentStatusCreating k v d -> v_sandbox v = TrimSpace (h_box h) ->
  wp (applyFailed stageText d h stage) anything k.
Proof.
  intros (Hh & Hs & Hd) Hsb. unfold applyFailed. eapply wp_seq; [apply wp_closeHandle|]. intros err k1 [G1 H1]. quiet.
  destruct err as [e|].
  - pose proof (held_grows _ _ _ _ (provider_grows _ _ G1) Hh) as Hh1.
    destruct (negb _); by eapply (wp_fail_end DeploymentStatusCreating).
  - cbv zeta. set (d1 := _ <| d_ProcessTag := "" |>). destruct Hh as [T S A].
    assert (T1 : tracks k1 v d1) by (eapply tracks_fields; [eapply tracks_grows; [|exact T]; auto|done|done]).
    assert (Hrel : v_sandbox v ∈ k_released k1) by (rewrite Hsb; by apply H1).
    change (d_ExpiresAt d1) with (d_ExpiresAt d). destruct (negb _).
    + eapply wp_err_of, (wp_transition k1 v d1); [done| |done]. change (d_SandboxID d1) with "".
      apply may_write_active; [by rewrite Hs|by rewrite Hs|by right; right|done|by left].
    + eapply (wp_fail_released DeploymentStatusCreating); [exact T1|done|done|done|by right|done|done].
Qed.

(** The writes of an active row that only change its status and fields no rule reads. *)
Lemma wp_closing k h (e : option goerror) : wp (let* _ := closeHandle h in Done e) anything k.
Proof. eapply wp_seq; [apply wp_closeHandle|]. done. Qed.

Lemma wp_runAttempt k v d h sandboxID :
  holds DeploymentStatusCreating k v d -> v_sandbox v = "" -> sandboxID = h_SandboxID h -> h_box h = h_SandboxID h ->
  wp (runAttempt stageText d h sandboxID) anything k.
Proof.
  intros ([T S A] & Hs & Hd) Hsb -> Hb. unfold runAttempt. cbv zeta. set (d1 := if IsZero _ then _ else _).
  assert (E1 : d_ID d1 = d_ID d /\ d_Version d1 = d_Version d /\ d_SandboxID d1 = TrimSpace (h_SandboxID h) /\
               d_Attempt d1 = d_Attempt d /\ d_Status d1 = DeploymentStatusCreating)
    by (unfold d1; destruct (IsZero _); split_and!; done).
  destruct E1 as (E1 & E2 & E3 & E4 & E5). clearbody d1.
  eapply wp_seq; [apply (wp_persist_row k v d1); [by eapply tracks_fields| |by rewrite E5]|].
  { rewrite E4, E5. apply may_write_active; [by rewrite Hs|by rewrite Hs|by left|done|by left]. }
  intros [d2 err] k2 W2. destruct err as [e|]; [apply wp_closing|].
  rewrite E5 in W2. destruct (wrote_holds _ _ _ _ _ _ W2) as (v2 & H2 & Hsb2). rewrite E3, TrimSpace_idem, <- Hb in Hsb2.
  quiet. destruct r as [calls res].
  eapply wp_seq.
  { apply (wp_each _ (fun d k => exists v, holds DeploymentStatusCreating k v d /\ v_sandbox v = TrimSpace (h_box h)));
      [|by exists v2].
    intros x c k3 _ (v3 & H3 & Hsb3). eapply wp_conseq; [|by apply wp_applyCallback].
    intros d' k4 (_ & v4 & H4 & E). exists v4. split; [done|congruence]. }
  intros d3 k3 (v3 & H3 & Hsb3). destruct res as [endpoint process|stage]; [|by eapply wp_applyFailed].
  destruct H3 as ([T3 S3 A3] & Hs3 & Hd3). set (d4 := d3 <| d_Endpoint := _ |> <| d_ProcessID := _ |> <| d_ProcessTag := _ |> <| d_RuntimeID := _ |>).
  eapply wp_seq; [apply (wp_transition k3 v3 d4); [by eapply tracks_fields| |done]|].
  { apply (may_write_same _ _ d4); [by rewrite Hs3|by rewrite Hs3|done..]. }
  intros [d5 err] k5 _. destruct err; [apply wp_closing|done].
Qed.

Lemma wp_startAttempt k v d :
  holds DeploymentStatusPlanning k v d -> wp (startAttempt templateID stageText d) anything k.
Proof.
  intros ([T S A] & Hs & Hd). unfold startAttempt. cbv zeta. set (d1 := if bool_decide (TrimSpace _ = "") then _ else _).
  assert (E1 : d_ID d1 = d_ID d /\ d_Version d1 = d_Version d /\ d_SandboxID d1 = d_SandboxID d /\
               d_Attempt d1 = (d_Attempt d + 1)%Z /\ d_Status d1 = d_Status d)
    by (unfold d1; destruct (bool_decide _); split_and!; done).
  destruct E1 as (E1 & E2 & E3 & E4 & E5). clearbody d1.
  assert (T1 : tracks k v d1) by (by eapply tracks_fields).
  assert (Hsb : v_sandbox v = "") by (apply (tidy_sandbox _ (tr_tidy _ _ _ T)); by rewrite Hs).
  assert (M : forall st, edge DeploymentStatusPlanning st = true -> unboxed st = false ->
    may_write k v st (TrimSpace (d_SandboxID d1)) (d_Attempt d1)).
  { intros st He Hu. apply may_write_active; [by rewrite Hs|by rewrite Hs|by left|by rewrite Hu|right; lia]. }
  destruct (bool_decide (d_DeploymentTemplateID d1 = "")).
  { eapply wp_err_of, (wp_fail k v d1); [done|by apply M]. }
  eapply wp_seq; [apply (wp_transition k v d1); [done|by apply M|done]|].
  intros [d2 err] k2 W2. destruct err as [e|]; [done|].
  assert (Hop : operationID (d_ID d2) (d_Attempt d2) ∈ k_ops k2).
  { destruct W2 as (_ & [Q1 _ Q3 _] & v' & V). cbn [fst snd] in *. rewrite Q1, Q3.
    apply (sv_operation _ _ _ _ _ _ V); [done|lia]. }
  destruct (wrote_holds _ _ _ _ _ _ W2) as (v2 & H2 & Hsb2).
  rewrite E3, <- S in Hsb2. rewrite Hsb in Hsb2.
  eapply wp_seq; [by apply wp_runtimeCreate|]. intros [[rt sandboxID] err] k3 [G3 H3]. cbn [fst snd] in H3.
  pose proof (holds_grows _ _ _ _ _ G3 H2) as H2'.
  destruct err as [e|]; [by eapply wp_createFailed; [exact H2'|done|destruct rt]|].
  assert (Hfail : forall k4, grows k3 k4 -> wp (err_of (fail d2 "sandbox_create" "Sandbox identity was not confirmed")) anything k4).
  { intros k4 G4. destruct (holds_grows _ _ _ _ _ G4 H2') as (Hh & Hst & _). by eapply (wp_fail_end DeploymentStatusCreating). }
  destruct rt as [h|]; [|by apply Hfail]. destruct (_ || _).
  - eapply wp_seq; [apply wp_closeHandle|]. intros err k4 [G4 _]. apply Hfail. auto.
  - destruct H3 as [E6 Hb]. by eapply wp_runAttempt.
Qed.

Lemma wp_Process k id : wp (Process templateID stageText id) anything k.
Proof.
  unfold Process. apply wp_event; [done|]. intros [d|e] Hx; [|done]. cbn [event_expected event_learned] in *. destruct Hx as [Hr _].
  set (k1 := add_views [view_of d] k).
  assert (Hh : held k1 (view_of d) d) by (apply held_read; [done|left]).
  destruct (bool_decide (d_Status d = DeploymentStatusQueued)) eqn:Eq; [|done]. bool_prop. cbn [negb].
  quiet. destruct (negb _); [apply wp_Stop|].
  destruct Hh as [T S A].
  assert (Hst : v_status (view_of d) = DeploymentStatusQueued) by done.
  assert (Hsb : v_sandbox (view_of d) = "") by (apply (tidy_sandbox _ (tr_tidy _ _ _ T)); by rewrite Hst).
  eapply wp_seq; [apply (wp_transition k1 (view_of d) d); [done| |done]|].
  { apply may_write_active; [by rewrite Hst|by rewrite Hst|by left|intros _; congruence|by left]. }
  intros [d2 err] k2 W2. destruct err as [e|]; [done|].
  destruct (wrote_holds _ _ _ _ _ _ W2) as (v2 & H2 & _).
  assert (Hfail : forall stage reason, wp (err_of (fail d2 stage reason)) anything k2).
  { intros stage reason. destruct H2 as (Hh2 & Hs2 & _). by eapply (wp_fail_end DeploymentStatusPlanning). }
  quiet. destruct r0 as [spec|]; [|apply Hfail]. quiet. destruct r0; [apply Hfail|]. quiet. destruct r0; [apply Hfail|].
  by eapply wp_startAttempt.
Qed.

(** ** Recovery and checks *)

Lemma wp_failInterrupted k v d :
  held k v d -> v_status v = DeploymentStatusCreating -> wp (failInterrupted templateID d) anything k.
Proof.
  intros [T S A] Hs. unfold failInterrupted. eapply wp_seq; [apply (wp_fail k v d); [done|]|].
  - apply may_write_same; [by rewrite Hs|by rewrite Hs|done..].
  - intros [d2 err] k2 _. destruct err; [done|]. quiet. apply wp_Stop.
Qed.

Lemma wp_recoverCreating k v d :
  holds DeploymentStatusCreating k v d -> wp (recoverCreating templateID d) anything k.
Proof.
  intros (Hh & Hs & Hd). unfold recoverCreating. destruct (bool_decide (d_SandboxID d = "")) eqn:Esb; cbn [negb];
    [|by eapply wp_failInterrupted]. bool_prop.
  assert (Hsb : v_sandbox v = "") by (rewrite (held_sandbox _ _ _ Hh); by rewrite Esb).
  eapply wp_seq; [apply wp_runtimeReconcile|]. intros [[rt id] err] k2 [G2 H2]. cbn [fst snd] in H2.
  pose proof (held_grows _ _ _ _ G2 Hh) as Hh2. destruct rt as [h|].
  - destruct (_ || _); [done|]. set (d1 := _ <| d_RuntimeID := h_box h |>). destruct Hh2 as [T S A].
    eapply wp_seq; [apply (wp_persist_row k2 v d1); [by eapply tracks_fields| |]|].
    + change (d_Status d1) with (d_Status d). rewrite Hd. apply may_write_active; [by rewrite Hs|by rewrite Hs|by left|done|by left].
    + change (d_Status d1) with (d_Status d). by rewrite Hd.
    + intros [d2 err2] k3 W3. destruct err2; [done|]. change (d_Status d1) with (d_Status d) in W3. rewrite Hd in W3.
      destruct (wrote_holds _ _ _ _ _ _ W3) as (v3 & (H3 & Hs3 & _) & _). by eapply wp_failInterrupted.
  - destruct err; [done|]. quiet. destruct (_ <? _)%Z; [done|]. by eapply (wp_fail_end DeploymentStatusCreating).
Qed.

Lemma wp_checkRunning k v d :
  holds DeploymentStatusRunning k v d -> wp (checkRunning templateID d) anything k.
Proof.
  intros (Hh & Hs & Hd). unfold checkRunning. eapply wp_seq; [apply wp_runtimeConnect|]. intros c k2 [G2 _].
  pose proof (held_grows _ _ _ _ (provider_grows _ _ G2) Hh) as Hh2. destruct c as [rt|]; [|done].
  eapply (wp_seq _ _ (fun _ k' => k' = k2)).
  { unfold inspectRunning. destruct rt; [|done]. quiet. done. }
  intros [e|running] k3 ->; [done|]. quiet.
  lazymatch goal with |- wp (if ?b then _ else _) _ _ => destruct b end; [apply wp_stop|]. destruct running; [done|].
  destruct Hh2 as [T S A]. eapply wp_seq; [apply (wp_fail k2 v d); [done|]|].
  - apply may_write_same; [by rewrite Hs|by rewrite Hs|done..].
  - intros [d2 err] k4 _. destruct err; [done|]. apply wp_Stop.
Qed.

Lemma wp_advance k item :
  fresh_read item -> view_of item ∈ k_views k -> wp (advance templateID stageText item) anything k.
Proof.
  intros Hr Hv. pose proof (held_read _ _ Hr Hv) as Hh. unfold advance.
  assert (Hst : forall st, d_Status item = st -> holds st k (view_of item) item) by (intros st <-; by split_and!).
  destruct (d_Status item) eqn:Es;
    try (by apply (wp_recoverCreating k (view_of item)), Hst);
    try (quiet; lazymatch goal with |- wp (if ?b then _ else _) _ _ => destruct b end;
         [by apply wp_Stop|solve [done|apply wp_Process|apply wp_Stop|by apply (wp_checkRunning k (view_of item)), Hst|
          destruct (bool_decide _); [done|apply wp_Stop]]]).
  destruct Hh as [T S A]. eapply wp_err_of, (wp_transition k (view_of item) item); [done| |done].
  assert (Hv' : v_status (view_of item) = DeploymentStatusPlanning) by done.
  apply may_write_active; [by rewrite Hv'|by rewrite Hv'|right; left; done| |by left].
  intros _. rewrite <- S. apply (tidy_sandbox _ (tr_tidy _ _ _ T)). by rewrite Hv'.
Qed.

(** No event makes a goroutine forget a row. *)
Lemma learned_views {R} (e : devent R) k r : k_views k ⊆ k_views (event_learned e k r).
Proof. destruct e; cbn [event_learned]; repeat case_match; cbn; set_solver. Qed.

Lemma wp_views {A} (p : dprog A) Q k : wp p Q k -> wp p (fun _ k' => k_views k ⊆ k_views k') k.
Proof.
  revert k. induction p as [a|R e c IH]; intros k; cbn [wp]; [done|]. intros [H1 H2]. split; [done|]. intros r Hr.
  eapply wp_conseq; [|apply IH, H2, Hr]. intros a k' H. pose proof (learned_views e k r). cbn in *. set_solver.
Qed.

Lemma wp_RunOnce k : wp (RunOnce templateID stageText retention) anything k.
Proof.
  unfold RunOnce. eapply (wp_seq _ _ (fun _ k' => k' = k)).
  { destruct (0 <? retention)%Z; [|done]. split; [exact I|]. by intros r _. }
  intros [e|] k' ->; [done|]. apply wp_event; [done|]. intros [items|e] Hx; [|done]. cbn [event_expected event_learned] in *.
  eapply wp_seq.
  { apply (wp_each _ (fun _ k' => forall d, d ∈ items -> view_of d ∈ k_views k')).
    2: { intros d Hd. cbn. apply elem_of_app. left. by apply list_elem_of_fmap_2. }
    intros [firstErr canceled] item k2 Hin Hk. destruct canceled; [done|]. quiet. destruct r; [done|].
    rewrite Forall_forall in Hx. eapply wp_seq; [eapply wp_views, wp_advance; [by apply Hx|by apply Hk]|].
    intros itemErr k3 G d Hd. apply G, Hk, Hd. }
  by intros [firstErr canceled] k2 _.
Qed.

Lemma wp_laneJob k kind afterID n index : wp (laneJob templateID stageText kind afterID n index) anything k.
Proof.
  unfold laneJob. apply wp_event; [done|]. intros [[items more]|e] Hx; [|done]. cbn [event_expected event_learned] in *.
  destruct (items !! index) as [item|] eqn:Ei; [|done]. apply list_elem_of_lookup_2 in Ei. rewrite Forall_forall in Hx.
  apply wp_advance; [by apply Hx|]. cbn. apply elem_of_app. left. by apply list_elem_of_fmap_2.
Qed.

Lemma wp_userStop k id : wp (userStop templateID id) anything k.
Proof.
  unfold userStop. apply wp_event; [done|]. intros [d|e] Hx; [|done]. cbn [event_expected event_learned] in *. destruct Hx as [Hr _].
  cbv zeta. set (st := if bool_decide (d_Status d = DeploymentStatusQueued) then _ else _).
  set (k1 := add_views [view_of d] k).
  assert (Hh : held k1 (view_of d) d) by (apply held_read; [done|left]).
  eapply (wp_seq _ _ anything); [|intros [e|] k2 _; [done|apply wp_Stop]].
  destruct (terminal d && bool_decide (d_SandboxID d = "")) eqn:Et; [done|].
  destruct (stop_busy (view_of d) (proj1 Hr) Et) as [He Ho]. destruct Hh as [T S A].
  assert (M : may_write k1 (view_of d) st (TrimSpace (d_SandboxID d)) (d_Attempt d)).
  { unfold st. clear st. destruct (bool_decide (d_Status d = DeploymentStatusQueued)) eqn:Eq; bool_prop.
    { assert (Hv : v_status (view_of d) = DeploymentStatusQueued) by done.
      apply may_write_active; [by rewrite Hv|by rewrite Hv|by right; left| |by left].
      intros _. rewrite <- S. apply (tidy_sandbox _ (proj1 Hr)). by rewrite Hv. }
    destruct (bool_decide (d_Status d = DeploymentStatusFailed)) eqn:Ef; bool_prop.
    - assert (Hv : v_status (view_of d) = DeploymentStatusFailed) by done.
      split; [by rewrite Hv|done|by right; left|done|by left].
    - split; [done|done|by right; left|done|by left]. }
  split; [|done]. exists (view_of d). destruct T as [T1 T2 T3 T4 T5]. split_and!; [done|symmetry; exact T4|done|done].
Qed.

End safety.
