(* ===== verification/DeployLifecycle.v ===== *)
(** * Every interleaving of the deployment workers

    The goroutines of the server over one world: jobs of the scheduler, batches of the
    maintenance loop, stop requests with their cleanup.  In every interleaving of them
    with one another, with the request handlers, retention and restarts, the scope quota
    holds, no operation is sent to the provider twice in the life of a deployment, and a
    deployment row only moves along the status machine and only loses a recorded sandbox that is gone.  A
    simulator runs the programs on concrete inputs. *)

From stdpp Require Import base gmap list strings relations pretty.
From S2P Require Import Prelude GoStrings Query DeployModel DeployStore DeployLog DeployInvariant DeployPromises.
From S2P Require Import DeployQueries Program DeployWorker DeployProtocol DeploySafety.

(** ** How a row moves *)

(** What one step may do to a row: nothing that a worker sees, an update along the status
    machine that keeps the sandbox, records the first one or drops one that is gone, or a
    retry of a terminal row. *)
Inductive moved (w' : dworld) (r r' : deploymentRecord) : Prop :=
| moved_not : row_view r' = row_view r -> moved w' r r'
| moved_update :
    dr_Version r' = (dr_Version r + 1)%Z -> edge (dr_Status r) (dr_Status r') = true ->
    (dr_SandboxID r = "" \/ dr_SandboxID r' = dr_SandboxID r \/ dr_SandboxID r ∈ w_released w') ->
    (dr_Attempt r <= dr_Attempt r' <= dr_Attempt r + 1)%Z -> moved w' r r'
| moved_retry :
    dr_Version r' = (dr_Version r + 1)%Z -> dstatus_in terminalDeploymentStatuses (dr_Status r) = true ->
    dr_Status r' = DeploymentStatusQueued -> dr_SandboxID r' = "" -> dr_Attempt r' = dr_Attempt r -> moved w' r r'.

Definition row_moves (w w' : dworld) (id : string) : Prop :=
  match db_deployments (w_db w) !! id, db_deployments (w_db w') !! id with
  | Some r, Some r' => moved w' r r'
  | Some r, None => dstatus_in terminalDeploymentStatuses (dr_Status r) = true /\ dr_SandboxID r = ""
  | None, Some r' => (id ∉ w_used w) /\ dr_Status r' = DeploymentStatusQueued /\ dr_SandboxID r' = "" /\ dr_Attempt r' = 0%Z
  | None, None => True
  end.

Lemma row_moves_same w w' id :
  db_deployments (w_db w') !! id = db_deployments (w_db w) !! id -> row_moves w w' id.
Proof. intros E. unfold row_moves. rewrite E. destruct (db_deployments (w_db w) !! id); [by apply moved_not|done]. Qed.

Section rows.
Context (limit : Z) (accounts installations : gset Z).

(** A write under one id. *)
Lemma row_moves_insert w db' w' i r r' id :
  w_db w' = db' -> db_deployments (w_db w) !! i = Some r ->
  db_deployments db' = <[i := r']> (db_deployments (w_db w)) -> moved w' r r' -> row_moves w w' id.
Proof.
  intros Ew Hr Hdb M. destruct (decide (id = i)) as [->|N].
  - unfold row_moves. by rewrite Ew, Hr, Hdb, lookup_insert_eq.
  - apply row_moves_same. by rewrite Ew, Hdb, lookup_insert_ne.
Qed.

Lemma prune_moves w before candidates id :
  row_moves w (w <| w_db := (pruneRecords before candidates (w_db w)).1 |>) id.
Proof.
  destruct (pruneRecords before candidates (w_db w)) as [db' n] eqn:E. cbn [fst].
  destruct (pruneRecords_spec _ _ _ _ _ E) as [_ H]. destruct (H id) as [[U _]|([U _] & r & c & Hr & Hp & _)].
  - by apply row_moves_same.
  - unfold row_moves. cbn [w_db field_update]. rewrite U, Hr. unfold prunable in Hp. bool_prop. done.
Qed.

Lemma append_moves w ks e now db' id :
  world_ok limit accounts installations w ks -> AppendDeploymentEvent e now (w_db w) = Ok db' -> row_moves w (w <| w_db := db' |>) id.
Proof.
  intros Ho Ha. apply row_moves_same. cbn [w_db field_update].
  by rewrite (append_views _ _ _ _ (server_reachable_wf _ _ _ _ (ok_reach _ _ _ _ _ Ho)) Ha).
Qed.

Lemma outside_moves w ks w' id :
  world_ok limit accounts installations w ks -> outside limit ks w w' -> row_moves w w' id.
Proof.
  intros Ho He. pose proof (server_reachable_wf _ _ _ _ (ok_reach _ _ _ _ _ Ho)) as W.
  destruct He as [d now w db' x Hn Hst Hsb Hat S|i w _ _|d ex now w db' Hsc S|i ref title w db' S|e now w db' S|before cand w|now w].
  - apply result_bind_Ok in S as (u & _ & S).
    apply createDeployment_Ok in S as (d1 & rec & rv & H1 & Hrec & _ & Hfree & _ & _ & ->).
    apply normalizeDeployment_Ok in H1 as (N1 & _ & _ & _ & N5).
    assert (Ed : d_Status d1 = d_Status d /\ d_SandboxID d1 = d_SandboxID d /\ d_Attempt d1 = d_Attempt d /\
                 d_ID d1 = TrimSpace (d_ID d)) by (rewrite N5 at 1 2 3; by split_and!).
    destruct Ed as (E1 & E2 & E3 & E4). clear N5.
    destruct (createdRecord_fields d1 now) as (F1 & _ & _ & _ & F5 & _ & F7 & _). rewrite <- Hrec in *. cbv zeta in *.
    assert (F8 : dr_Attempt rec = d_Attempt d1) by (rewrite Hrec; apply createdRecord_attempt).
    destruct (decide (id = dr_ID rec)) as [->|N].
    + unfold row_moves. cbn [w_db field_update db_deployments]. rewrite lookup_insert_eq.
      destruct (db_deployments (w_db w) !! dr_ID rec) as [r|] eqn:E.
      { destruct Hn. rewrite <- E4, <- F1. by apply (ok_rows _ _ _ _ _ Ho _ _ E). }
      rewrite F1, E4. split; [done|]. rewrite E1, Hst in F7. split; [exact F7|]. rewrite F5, F8, E2, E3, Hsb. done.
    + apply row_moves_same. cbn [w_db field_update db_deployments]. by rewrite lookup_insert_ne.
  - by apply row_moves_same.
  - apply result_bind_Ok in S as (u & _ & S).
    apply retryDeployment_Ok in S as (r & ex1 & Hr & Hv & Ht & _ & S). apply insertRevision_Ok in S as [_ ->].
    destruct (retriedRecord_fields d ex1 now r) as (U1 & _ & U3 & _ & _ & U6 & _ & U8). cbv zeta in *.
    assert (U9 : dr_Attempt (retriedRecord d ex1 now r) = dr_Attempt r) by reflexivity.
    set (saved := retriedRecord d ex1 now r) in *. clearbody saved.
    eapply row_moves_insert; [reflexivity|exact Hr|reflexivity|]. apply moved_retry; [lia|done..].
  - unfold row_moves. cbn [w_db field_update]. destruct (db_deployments db' !! id) as [r'|] eqn:E'.
    + destruct (fill_views _ _ _ _ _ _ _ S E') as (r & -> & Ev). by apply moved_not.
    + destruct (db_deployments (w_db w) !! id) as [r|] eqn:E; [|done]. exfalso.
      unfold FillDeploymentPullRequestTitle in S. cbv zeta in S. inv_ok S. injection S as <-. cbn [db_deployments field_update] in E'.
      revert E'. destruct (decide (id = TrimSpace i)) as [->|N]; [rewrite lookup_alter_eq, E|rewrite lookup_alter_ne, E]; done.
  - by eapply append_moves.
  - apply prune_moves.
  - apply row_moves_same. cbn [w_db field_update]. unfold initializeStateBackfills. by rewrite backfill_id.
Qed.

Lemma event_moves R (e : devent R) w ks i k r w' id :
  world_ok limit accounts installations w ks -> ks !! i = Some k -> event_permitted e k -> event_answers e w r w' -> row_moves w w' id.
Proof.
  intros Ho Hi Hp Ha. destruct e; cbn [event_answers] in Ha; try (subst w'; by apply row_moves_same).
  - destruct Ha as [-> _]. by apply row_moves_same.
  - destruct Ha as [(now & db' & HU & ->)|[-> _]]; [|by apply row_moves_same].
    destruct Hp as (v & Hv & Ev1 & Ev2 & M). pose proof (server_reachable_wf _ _ _ _ (ok_reach _ _ _ _ _ Ho)) as W.
    destruct (update_row _ _ _ _ HU) as (row & saved & Hr & Hver & Hdb' & Hsaved & _).
    specialize (Hsaved (dwf_id _ _ _ (wf_deployments _ W _ _ Hr))).
    destruct (ok_views _ _ _ _ _ Ho _ _ _ Hi Hv) as (_ & _ & Vr). rewrite Ev1 in Vr. destruct (Vr row Hr) as [_ Vr'].
    specialize (Vr' ltac:(lia)). subst v. injection Hsaved as S1 S2 S3 S4 S5. destruct M as [M1 _ M3 _ M5].
    cbn [row_view v_status v_sandbox v_attempt] in *.
    eapply row_moves_insert; [reflexivity|exact Hr|exact Hdb'|]. apply moved_update; [lia|congruence| |lia].
    pose proof (ok_released _ _ _ _ _ Ho _ _ Hi) as Hrel. rewrite S4.
    destruct M3 as [M3|[M3|M3]]; [by left|by right; left|right; right]. cbn [w_released field_update]. set_solver.
  - destruct Ha as [->|(now & db' & H & ->)]; [by apply row_moves_same|by eapply append_moves].
  - destruct Ha as [-> _]. by apply row_moves_same.
  - destruct Ha as [-> _]. by apply row_moves_same.
  - destruct Ha as [->|(before & cand & ->)]; [by apply row_moves_same|apply prune_moves].
  - destruct r as [box| |c]; [destruct Ha as [_ ->]|subst w'..]; by apply row_moves_same.
  - destruct r as [u| |c]; subst w'; by apply row_moves_same.
Qed.
End rows.

(** ** The server's goroutines *)

Abbreviation dsystem := (@system devent dworld knowledge).

Section lifecycle.
Context (limit : Z) (accounts installations : gset Z).
Context (templateID : string) (stageText : Stage -> string) (retention : Z).

#[local] Instance lifecycle_protocol : Protocol devent dworld knowledge := deploy_protocol limit accounts installations.

(** A job of the scheduler, a batch of the maintenance loop, a stop request with its
    cleanup, and a cleanup on its own. *)
Inductive goroutine : dprog unit -> Prop :=
| run_job kind afterID n index : goroutine (let* _ := laneJob templateID stageText kind afterID n index in Done tt)
| run_batch : goroutine (let* _ := RunOnce templateID stageText retention in Done tt)
| run_stop_request id : goroutine (let* _ := userStop templateID id in Done tt)
| run_cleanup id expired : goroutine (let* _ := Stop templateID id expired in Done tt).

Lemma goroutine_verified p : goroutine p -> wp p (fun _ _ => True) ignorance.
Proof.
  intros []; eapply wp_seq; try done; [apply wp_laneJob|apply wp_RunOnce|apply wp_userStop|apply wp_Stop].
Qed.

(** A fresh server over empty tables. *)
Definition start : dsystem := MkSystem (MkWorld (empty_db accounts installations) ∅ ∅ []) ∅.

Definition reachable (s : dsystem) : Prop := rtc (step goroutine) start s.

Lemma start_ok : world_ok limit accounts installations (sys_world start) ∅.
Proof.
  split; cbn [start sys_world w_db w_log]; try done.
  - apply rtc_refl.
  - intros op [H|(i & k & H & _)]; done.
  - intros op H. by apply not_elem_of_nil in H.
Qed.

Lemma reachable_governed s : reachable s -> governed s.
Proof.
  intros H. eapply protocol_sound; [exact goroutine_verified|exact H|]. split; [|by intros i k p ?].
  change (sys_threads start) with (∅ : gmap nat (knowledge * dprog unit)). rewrite fmap_empty. exact start_ok.
Qed.

(** What the log says of its parts. *)
Lemma sent_once_suffix log log' : sent_once (log ++ log') -> sent_once log'.
Proof. induction log as [|[id|op] log IH]; cbn; [done|done|]. intros [_ H]. auto. Qed.

Lemma sent_again op id between earlier :
  sent_once (Sent op :: between ++ Sent op :: earlier) -> operation_of id op -> Created id ∈ between.
Proof.
  intros [Hn _] Hid. induction between as [|[x|x] between IH]; cbn in *.
  - destruct Hn. by left.
  - destruct (decide (x = id)) as [->|N]; [left|right]. apply IH. contradict Hn. split; [done|].
    intros Hx. apply N. by eapply operation_of_unique.
  - right. apply IH. contradict Hn. by right.
Qed.

Lemma reachable_ok s : reachable s -> exists ks, world_ok limit accounts installations (sys_world s) ks.
Proof. intros H. apply reachable_governed in H as [H _]. by eexists. Qed.

(** C6: The scope quota under concurrency.  In every interleaving of the workers, the stop
    requests, creations, retries, retention and restarts, the deployments of a scope that
    hold a place (active, or failed with a sandbox still to be cleaned) never exceed the
    effective limit: no write of a worker takes a place that admission did not grant. *)
Theorem worker_quota s scopeType scopeID :
  reachable s -> (usage scopeType scopeID (w_db (sys_world s)) <= effectiveLimit limit)%Z.
Proof. intros [ks H]%reachable_ok. eapply scope_usage, (ok_reach _ _ _ _ _ H). Qed.

(** C7: One creation per attempt.  In every interleaving, crash and retry, an operation id
    is sent to the provider's create call at most once in the life of a deployment: when
    the same id was sent twice, then the deployment it names was created anew, under the
    id of a pruned row, in between. *)
Theorem create_once s later op between earlier :
  reachable s -> w_log (sys_world s) = later ++ Sent op :: between ++ Sent op :: earlier ->
  exists id, operation_of id op /\ Created id ∈ between.
Proof.
  intros [ks H]%reachable_ok Hlog. destruct (ok_named _ _ _ _ _ H op) as [id Hid]; [rewrite Hlog; set_solver|].
  exists id. split; [done|]. eapply sent_again; [|exact Hid]. pose proof (ok_once _ _ _ _ _ H) as Ho.
  rewrite Hlog in Ho. exact (sent_once_suffix _ _ Ho).
Qed.

(** C5: The life of a deployment row.  Every step of every interleaving leaves a row as the
    workers see it, or moves it along the status machine, one version up and by at most
    one attempt, keeping its sandbox unless the provider has reported it gone, or retries
    it from a terminal status.  Rows appear queued under an id that is not in use (neither
    by a row nor, since a pruned row, by a goroutine that has seen it) and disappear only
    terminal and without a sandbox. *)
Theorem deployment_lifecycle s s' id :
  reachable s -> step goroutine s s' -> row_moves (sys_world s) (sys_world s') id.
Proof.
  intros [Hok Hwp]%reachable_governed Hs.
  destruct Hs as [w ts i p _ _|w ts i k R e c r w' Hi Ha|w ts i k u _|w w' ts He]; cbn [sys_world sys_threads] in *;
    [by apply row_moves_same| |by apply row_moves_same|exact (outside_moves _ _ _ _ _ _ _ Hok He)].
  destruct (Hwp i k _ Hi) as [Hp _]. eapply event_moves; [exact Hok| |exact Hp|exact Ha]. by rewrite lookup_fmap, Hi.
Qed.

(** ** A simulator *)

(** Answers at a fixed time: the store's own, a provider that works, and an application
    that starts. *)
Definition simulate (now : Time) {R} (e : devent R) (w : dworld) : R * dworld :=
  match e in devent R return R * dworld with
  | DGet id => (GetDeployment id (w_db w), w)
  | DUpdate d => match UpdateDeployment d now (w_db w) with Ok db' => (None, w <| w_db := db' |>) | Err x => (Some x, w) end
  | DAppend ev => match AppendDeploymentEvent ev now (w_db w) with Ok db' => (tt, w <| w_db := db' |>) | Err x => (tt, w) end
  | DListWork kind afterID n => (ListDeploymentWork kind afterID n now (w_db w), w)
  | DListActive => (ListActiveDeployments now (w_db w), w)
  | DPrune _ _ => (None, w)
  | DNow => (now, w)
  | DCanceled => (None, w)
  | DDecodeSpec _ => (Ok "{}", w)
  | DSource _ => (None, w)
  | DRestore _ _ => (None, w)
  | DApply d =>
      (([OnStage Cloning; OnCheckpoint (MkRef (d_RuntimeID d) "p-1" "t-1") ""; OnOutput Starting "stdout" "listening"; OnStage Ready],
        Applied "https://web.example.com" (MkRef (d_RuntimeID d) "p-1" "t-1")), w)
  | DService _ => (Ok "user", w)
  | DPublicTemplate _ => (Ok true, w)
  | DValidateTemplate _ => (None, w)
  | XCreateAndWait _ _ operation => (Ok ("sb-" +:+ operation, 0%Z), w <| w_log := Sent operation :: w_log w |>)
  | XList _ _ => (Ok [], w)
  | XConnect sandbox _ => (ApiOk sandbox, w)
  | XGetInfo _ => (Ok true, w)
  | XKill box => (ApiOk tt, w <| w_released := {[TrimSpace box]} ∪ w_released w |>)
  | XInspect _ _ => (Ok true, w)
  | XStopProcess _ _ => (None, w)
  end.

Fixpoint simulation (now : Time) {A} (p : dprog A) (w : dworld) : dworld :=
  match p with
  | Done _ => w
  | Do e c => let '(r, w') := simulate now e w in simulation now (c r) w'
  end.

Lemma simulate_answers now R (e : devent R) w : event_answers e w (simulate now e w).1 (simulate now e w).2.
Proof.
  destruct e; cbn [simulate event_answers]; try done.
  - split; [done|by left].
  - destruct (UpdateDeployment d now (w_db w)) eqn:E; [left; eauto|right; eauto].
  - destruct (AppendDeploymentEvent e now (w_db w)) eqn:E; [right; eauto|by left].
  - split; [done|]. left. by eexists.
  - split; [done|]. left. by eexists.
  - by left.
Qed.

Lemma simulation_steps now p w i k ts :
  ts !! i = None -> rtc (step goroutine) (MkSystem w (<[i := (k, p)]> ts)) (MkSystem (simulation now p w) ts).
Proof.
  revert w k. induction p as [u|R e c IH]; intros w k Hi; cbn [simulation].
  - apply rtc_once. rewrite <- (delete_insert_id ts i (k, Done u)) at 2 by done.
    eapply step_exit. apply lookup_insert_eq.
  - pose proof (simulate_answers now R e w) as Ha. destruct (simulate now e w) as [r w']. cbn [fst snd] in Ha.
    eapply rtc_l; [eapply step_event; [apply lookup_insert_eq|exact Ha]|]. rewrite insert_insert_eq. by apply IH.
Qed.

(** A goroutine from its start to its end. *)
Lemma reachable_simulation now p w :
  goroutine p -> reachable (MkSystem w ∅) -> reachable (MkSystem (simulation now p w) ∅).
Proof.
  intros Hg Hr. unfold reachable. etransitivity; [exact Hr|].
  eapply rtc_l; [apply (step_spawn goroutine w ∅ 0 p); [done|exact Hg]|]. by apply simulation_steps.
Qed.

Lemma reachable_outside w w' : outside limit ∅ w w' -> reachable (MkSystem w ∅) -> reachable (MkSystem w' ∅).
Proof. intros Ho Hr. eapply rtc_r; [exact Hr|]. apply step_environment. by rewrite fmap_empty. Qed.
End lifecycle.

(** ** A concrete server *)

Definition sample_stage (s : Stage) : string :=
  match s with
  | Preparing => "preparing" | Cloning => "cloning" | Verifying => "verifying" | Installing => "installing"
  | Starting => "starting" | Probing => "probing" | Ready => "ready" | OtherStage s => s
  end.

Definition sample_worker (kind : string) : dprog unit := let* _ := laneJob "tpl" sample_stage kind "" 10 0 in Done tt.
Definition sample_stop : dprog unit := let* _ := userStop "tpl" "web-1" in Done tt.

Definition sample_request : Deployment :=
  sample_deployment <| d_Status := DeploymentStatusQueued |> <| d_ExpiresAt := 9000000000%Z |>.

(** Created, deployed, stopped, and deployed again after a retry. *)
Definition sample_created_world : dworld :=
  match CreateDeploymentWithScopeLimit sample_request 1 100 (empty_db {[7%Z]} ∅) with
  | Ok (db, _) => MkWorld db ({[TrimSpace (d_ID sample_request)]} ∪ ∅) ∅ [Created (TrimSpace (d_ID sample_request))]
  | Err _ => MkWorld (empty_db ∅ ∅) ∅ ∅ []
  end.
Definition sample_running_world : dworld := simulation 1000 (sample_worker "provision") sample_created_world.
Definition sample_stopped_world : dworld := simulation 2000 sample_stop sample_running_world.

Definition sample_retry : Deployment := default sample_request (result_option (GetDeployment "web-1" (w_db sample_stopped_world))).
Definition sample_requeued_world : dworld :=
  match RetryDeploymentWithScopeLimit sample_retry 9000000000 1 3000 (w_db sample_stopped_world) with
  | Ok db => sample_stopped_world <| w_db := db |>
  | Err _ => sample_stopped_world
  end.
Definition sample_again_world : dworld := simulation 4000 (sample_worker "provision") sample_requeued_world.

Definition row_in (db : deploymentDB) : option view := row_view <$> db_deployments db !! "web-1".
Definition row_of (w : dworld) : option view := row_in (w_db w).

Abbreviation sample_reaches := (reachable 1 {[7%Z]} ∅ "tpl" sample_stage 0).

Lemma sample_created_reaches : sample_reaches (MkSystem sample_created_world ∅).
Proof.
  eapply reachable_outside; [|apply rtc_refl].
  assert (E : exists db x, CreateDeploymentWithScopeLimit sample_request 1 100 (empty_db {[7%Z]} ∅) = Ok (db, x))
    by (eexists _, _; vm_compute; reflexivity).
  destruct E as (db & x & E). unfold sample_created_world. rewrite E.
  refine (out_create 1 ∅ sample_request 100 (MkWorld (empty_db {[7%Z]} ∅) ∅ ∅ []) db x _ _ _ _ E);
    [set_solver|reflexivity|reflexivity|reflexivity].
Qed.

Lemma sample_running_reaches : sample_reaches (MkSystem sample_running_world ∅).
Proof. apply reachable_simulation; [apply run_job|exact sample_created_reaches]. Qed.

Lemma sample_stopped_reaches : sample_reaches (MkSystem sample_stopped_world ∅).
Proof. apply reachable_simulation; [apply run_stop_request|exact sample_running_reaches]. Qed.

Lemma sample_requeue : outside 1 ∅ sample_stopped_world sample_requeued_world.
Proof.
  assert (E : exists db, RetryDeploymentWithScopeLimit sample_retry 9000000000 1 3000 (w_db sample_stopped_world) = Ok db)
    by (eexists; vm_compute; reflexivity).
  destruct E as (db & E). unfold sample_requeued_world. rewrite E.
  refine (out_retry 1 ∅ sample_retry 9000000000 3000 sample_stopped_world db _ E).
  clear E. intros r Hr. vm_compute in Hr. injection Hr as <-. split; vm_compute; reflexivity.
Qed.

Lemma sample_again_reaches : sample_reaches (MkSystem sample_again_world ∅).
Proof.
  apply reachable_simulation; [apply run_job|]. eapply reachable_outside; [exact sample_requeue|exact sample_stopped_reaches].
Qed.

(** The deployment runs, holds the only place of its scope, and the next one is refused. *)
Lemma worker_quota_witness :
  row_of sample_running_world = Some (MkView "web-1" 6 DeploymentStatusRunning "sb-web-1-1" 1) /\
  usage "account" 7 (w_db sample_running_world) = 1%Z /\
  (usage "account" 7 (w_db sample_running_world) <= effectiveLimit 1)%Z /\
  CreateDeploymentWithScopeLimit (sample_request <| d_ID := "web-2" |>) 1 1500 (w_db sample_running_world) = Err ErrDeploymentQuotaExceeded.
Proof.
  split; [vm_compute; reflexivity|]. split; [vm_compute; reflexivity|]. split; [|vm_compute; reflexivity].
  exact (worker_quota 1 {[7%Z]} ∅ "tpl" sample_stage 0 (MkSystem sample_running_world ∅) "account" 7 sample_running_reaches).
Defined.

(** The stopped deployment is pruned and created again under its id, and its first
    attempt is sent again. *)
Definition sample_pruned_world : dworld :=
  let ended := option_list (db_deployments (w_db sample_stopped_world) !! "web-1") in
  sample_stopped_world <| w_db := (pruneRecords 99999 ended (w_db sample_stopped_world)).1 |>.
Definition sample_forgotten_world : dworld :=
  sample_pruned_world <| w_used := w_used sample_pruned_world ∖ {["web-1"]} |>.
Definition sample_recreated_world : dworld :=
  match CreateDeploymentWithScopeLimit sample_request 1 5000 (w_db sample_forgotten_world) with
  | Ok (db, _) => sample_forgotten_world <| w_db := db |>
                    <| w_used := {[TrimSpace (d_ID sample_request)]} ∪ w_used sample_forgotten_world |>
                    <| w_log := Created (TrimSpace (d_ID sample_request)) :: w_log sample_forgotten_world |>
  | Err _ => sample_forgotten_world
  end.
Definition sample_resent_world : dworld := simulation 6000 (sample_worker "provision") sample_recreated_world.

Lemma sample_forgotten_reaches : sample_reaches (MkSystem sample_forgotten_world ∅).
Proof.
  eapply reachable_outside; [apply out_forget|].
  - vm_compute. reflexivity.
  - intros i k v Hk. discriminate Hk.
  - eapply reachable_outside; [apply out_prune|exact sample_stopped_reaches].
Qed.

Lemma sample_recreated_reaches : sample_reaches (MkSystem sample_recreated_world ∅).
Proof.
  eapply reachable_outside; [|exact sample_forgotten_reaches].
  assert (E : exists db x, CreateDeploymentWithScopeLimit sample_request 1 5000 (w_db sample_forgotten_world) = Ok (db, x))
    by (eexists _, _; vm_compute; reflexivity).
  destruct E as (db & x & E). unfold sample_recreated_world. rewrite E.
  refine (out_create 1 ∅ sample_request 5000 sample_forgotten_world db x _ _ _ _ E);
    [|reflexivity|reflexivity|reflexivity].
  change (w_used sample_forgotten_world) with (w_used sample_pruned_world ∖ {["web-1"]}).
  apply not_elem_of_difference. right. by apply elem_of_singleton_2.
Qed.

Lemma create_once_witness :
  w_log sample_again_world = [Sent "web-1-2"; Sent "web-1-1"; Created "web-1"] /\
  w_log sample_resent_world = [Sent "web-1-1"; Created "web-1"; Sent "web-1-1"; Created "web-1"] /\
  exists id, operation_of id "web-1-1" /\ Created id ∈ [Created "web-1"].
Proof.
  split; [vm_compute; reflexivity|].
  assert (E : w_log sample_resent_world = [Sent "web-1-1"; Created "web-1"; Sent "web-1-1"; Created "web-1"])
    by (vm_compute; reflexivity).
  split; [exact E|].
  apply (create_once 1 {[7%Z]} ∅ "tpl" sample_stage 0 (MkSystem sample_resent_world ∅) [] "web-1-1"
           [Created "web-1"] [Created "web-1"]).
  - apply reachable_simulation; [apply run_job|exact sample_recreated_reaches].
  - exact E.
Defined.

(** The retry of the stopped deployment. *)
Lemma deployment_lifecycle_witness :
  row_of sample_stopped_world = Some (MkView "web-1" 9 DeploymentStatusCompleted "" 1) /\
  row_of sample_requeued_world = Some (MkView "web-1" 10 DeploymentStatusQueued "" 1) /\
  row_moves sample_stopped_world sample_requeued_world "web-1".
Proof.
  split; [vm_compute; reflexivity|]. split; [vm_compute; reflexivity|].
  assert (Hs : @step devent dworld knowledge (deploy_protocol 1 {[7%Z]} ∅) (goroutine "tpl" sample_stage 0)
    (MkSystem sample_stopped_world ∅) (MkSystem sample_requeued_world ∅)).
  { apply step_environment. rewrite fmap_empty. exact sample_requeue. }
  pose proof (deployment_lifecycle 1 {[7%Z]} ∅ "tpl" sample_stage 0 _ _ "web-1" sample_stopped_reaches Hs) as H.
  cbn [sys_world] in H. exact H.
Defined.

(** ** The guard of a retry *)

(** A failed row that records a sandbox still to be cleaned: the value read from it is
    refused, and the same value with the sandbox blanked, as the handler of retries
    blanks it, is accepted and drops the recorded sandbox. *)
Definition sample_stuck : deploymentDB :=
  match GetDeployment "web-1" (w_db sample_running_world) with
  | Ok d => default (w_db sample_running_world)
              (result_option (UpdateDeployment (d <| d_Status := DeploymentStatusFailed |>) 5000 (w_db sample_running_world)))
  | Err _ => w_db sample_running_world
  end.

Definition sample_read : Deployment := default sample_request (result_option (GetDeployment "web-1" sample_stuck)).
Definition sample_blanked : Deployment :=
  sample_read <| d_SandboxID := "" |> <| d_RuntimeID := "" |> <| d_ProcessID := "" |> <| d_ProcessTag := "" |>.

Lemma retry_guard_blind :
  row_in sample_stuck = Some (MkView "web-1" 7 DeploymentStatusFailed "sb-web-1-1" 1) /\
  view_of sample_read = default (view_of sample_request) (row_in sample_stuck) /\
  RetryDeploymentWithScopeLimit sample_read 9000000000 1 6000 sample_stuck = Err ErrConflict /\
  (result_option (RetryDeploymentWithScopeLimit sample_blanked 9000000000 1 6000 sample_stuck) ≫= row_in)
    = Some (MkView "web-1" 8 DeploymentStatusQueued "" 1).
Proof. split; [|split; [|split]]; vm_compute; reflexivity. Qed.
