(* ===== verification/Scheduler.v ===== *)
(** * The deployment scheduler (internal/deployment/worker/scheduler.go)

    [Worker.Run]: three bounded lanes (provision, monitor, cleanup) over the pages of
    [ListDeploymentWork], the map of deployments in flight, the goroutines that advance
    them and the buffered channel on which they complete.  What [ListDeploymentWork] sees
    at each call is a [moment]: the tables and the clock by then, a database error, and
    whether the context is done. *)

From stdpp Require Import base gmap list strings relations.
From S2P Require Import Prelude GoStrings Query DeployModel DeployStore DeployInvariant DeployQueries DeployWorker.

(** ** State *)

(** [lane] of [Run]. *)
Record Lane := MkLane {
  l_kind : string;
  l_capacity : Z;
  l_active : Z;
  l_afterID : string;
  l_exhausted : bool
}.

#[export] Instance rebuild_Lane : Rebuild Lane := fun r =>
  MkLane (l_kind r) (l_capacity r) (l_active r) (l_afterID r) (l_exhausted r).

Definition lanes0 : list Lane :=
  [MkLane "provision" 4 0 "" false; MkLane "monitor" 8 0 "" false; MkLane "cleanup" 4 0 "" false].

(** A goroutine: the deployment it advances and the lane it was started for. *)
Abbreviation job := (string * nat)%type.

(** [completion] *)
Abbreviation completion := (string * nat * option goerror)%type.

(** What the lanes share: the keys of [inFlight], the running goroutines and the errors
    reported. *)
Record shared := MkShared {
  sh_inFlight : gset string;
  sh_jobs : list job;
  sh_reports : list goerror
}.

#[export] Instance rebuild_shared : Rebuild shared := fun r => MkShared (sh_inFlight r) (sh_jobs r) (sh_reports r).

(** [Run]: the lanes, what they share, the channel, and the goroutines that returned on a
    done context without completing. *)
Record scheduler := MkScheduler {
  sc_lanes : list Lane;
  sc_shared : shared;
  sc_completed : list completion;
  sc_abandoned : list job
}.

#[export] Instance rebuild_scheduler : Rebuild scheduler := fun r =>
  MkScheduler (sc_lanes r) (sc_shared r) (sc_completed r) (sc_abandoned r).

Definition scheduler0 : scheduler := MkScheduler lanes0 (MkShared ∅ [] []) [] [].

(** The size of the channel. *)
Definition completedCapacity : Z := foldr Z.add 0%Z (map l_capacity lanes0).

(** ** Operations *)

Record moment := MkMoment { mo_done : bool; mo_error : option goerror; mo_now : Time; mo_db : deploymentDB }.

Definition listWork (m : moment) (kind afterID : string) (limit : Z) : result (list Deployment * bool) :=
  match mo_error m with Some e => Err e | None => ListDeploymentWork kind afterID limit (mo_now m) (mo_db m) end.

Definition reportError (err : option goerror) (sh : shared) : shared :=
  match err with
  | Some e => if errors_is e (ErrSentinel "context.Canceled") then sh else sh <| sh_reports := sh_reports sh ++ [e] |>
  | None => sh
  end.

(** The loop over a page; the first component is [consumed]. *)
Fixpoint consume (i : nat) (items : list Deployment) (l : Lane) (sh : shared) : bool * Lane * shared :=
  match items with
  | [] => (true, l, sh)
  | item :: items =>
      if (l_active l =? l_capacity l)%Z then (false, l, sh)
      else
        let l := l <| l_afterID := d_ID item |> in
        if bool_decide (d_ID item ∈ sh_inFlight sh) then consume i items l sh
        else consume i items (l <| l_active := (l_active l + 1)%Z |>)
               (sh <| sh_inFlight := {[d_ID item]} ∪ sh_inFlight sh |> <| sh_jobs := sh_jobs sh ++ [(d_ID item, i)] |>)
  end.

Definition pageLimit (l : Lane) (sh : shared) : Z :=
  (l_capacity l - l_active l + Z.of_nat (size (sh_inFlight sh)))%Z.

(** [schedule]; [None] when the loop runs longer than [fuel]. *)
Fixpoint scheduleLoop (fuel : nat) (i : nat) (env : nat -> moment) (l : Lane) (sh : shared) : option (Lane * shared) :=
  match fuel with
  | O => None
  | S fuel =>
      if negb (l_exhausted l) && (l_active l <? l_capacity l)%Z && negb (mo_done (env 0)) then
        match listWork (env 0) (l_kind l) (l_afterID l) (pageLimit l sh) with
        | Err e => Some (l, reportError (Some e) sh)
        | Ok (items, more) =>
            let '(consumed, l, sh) := consume i items l sh in
            let l := if negb more && consumed then l <| l_exhausted := true |> <| l_afterID := "" |> else l in
            scheduleLoop fuel i (fun n => env (S n)) l sh
        end
      else Some (l, sh)
  end.

Definition schedule := scheduleLoop 2.

Definition visit (env : nat -> moment) (i : nat) (s : scheduler) : option scheduler :=
  match sc_lanes s !! i with
  | Some l =>
      '(l, sh) ← schedule i env l (sc_shared s);
      Some (s <| sc_lanes := <[i := l]> (sc_lanes s) |> <| sc_shared := sh |>)
  | None => None
  end.

Definition refresh (i : nat) (s : scheduler) : scheduler :=
  s <| sc_lanes := alter (fun l => l <| l_exhausted := false |>) i (sc_lanes s) |>.

(** [for _, l := range lanes] *)
Fixpoint visits (env : nat -> nat -> moment) (prepare : nat -> scheduler -> scheduler) (indices : list nat) (s : scheduler)
    : option scheduler :=
  match indices with
  | [] => Some s
  | i :: indices => s ← visit (env i) i (prepare i s); visits env prepare indices s
  end.

Definition tick (env : nat -> nat -> moment) (pruneErr : option goerror) (s : scheduler) : option scheduler :=
  visits env refresh [0; 1; 2] (s <| sc_shared := reportError pruneErr (sc_shared s) |>).

Definition notified (env : nat -> nat -> moment) (s : scheduler) : option scheduler :=
  visits env (fun _ s => s) [0; 1; 2] (refresh 0 s).

(** A completion: [None] also when its cancel function is missing, whose call panics. *)
Definition received (env : nat -> moment) (s : scheduler) : option scheduler :=
  match sc_completed s with
  | [] => None
  | ((id, i), err) :: rest =>
      if bool_decide (id ∈ sh_inFlight (sc_shared s)) then
        let sh := (sc_shared s) <| sh_inFlight := sh_inFlight (sc_shared s) ∖ {[id]} |> in
        visit env i (s <| sc_completed := rest |>
                       <| sc_lanes := alter (fun l => l <| l_active := (l_active l - 1)%Z |>) i (sc_lanes s) |>
                       <| sc_shared := reportError err sh |>)
      else None
  end.

(** The end of a goroutine: its completion, when the channel has room, or a done context. *)
Definition finished (n : nat) (err : option goerror) (s : scheduler) : option scheduler :=
  match sh_jobs (sc_shared s) !! n with
  | Some j =>
      if (Z.of_nat (length (sc_completed s)) <? completedCapacity)%Z then
        Some (s <| sc_completed := sc_completed s ++ [(j, err)] |>
                <| sc_shared := (sc_shared s) <| sh_jobs := delete n (sh_jobs (sc_shared s)) |> |>)
      else None
  | None => None
  end.

Definition abandoned (n : nat) (s : scheduler) : option scheduler :=
  match sh_jobs (sc_shared s) !! n with
  | Some j => Some (s <| sc_abandoned := sc_abandoned s ++ [j] |>
                      <| sc_shared := (sc_shared s) <| sh_jobs := delete n (sh_jobs (sc_shared s)) |> |>)
  | None => None
  end.

(** ** Runs *)

(** The tables and the clock that a call of the store may see. *)
Definition sane (m : moment) : Prop := db_wf (mo_db m) /\ mo_now m <> 0%Z.

Inductive run_step : scheduler -> scheduler -> Prop :=
| run_tick env pruneErr s s' : (forall i n, sane (env i n)) -> tick env pruneErr s = Some s' -> run_step s s'
| run_notify env s s' : (forall i n, sane (env i n)) -> notified env s = Some s' -> run_step s s'
| run_receive env s s' : (forall n, sane (env n)) -> received env s = Some s' -> run_step s s'
| run_finish n err s s' : finished n err s = Some s' -> run_step s s'
| run_abandon n s s' : abandoned n s = Some s' -> run_step s s'.

Definition run_reachable : scheduler -> Prop := rtc run_step scheduler0.

(** ** A page *)

(** The deployments of a page that [consume] starts. *)
Definition fresh (inFlight : gset string) (ids : list string) : list string :=
  List.filter (fun id => negb (bool_decide (id ∈ inFlight))) ids.

Lemma elem_of_fresh inFlight ids id : id ∈ fresh inFlight ids <-> id ∈ ids /\ id ∉ inFlight.
Proof. unfold fresh. rewrite elem_of_bfilter, negb_true_iff, bool_decide_eq_false. done. Qed.

Lemma NoDup_fresh inFlight ids : NoDup ids -> NoDup (fresh inFlight ids).
Proof. intros H. apply NoDup_ListNoDup, List.NoDup_filter, NoDup_ListNoDup, H. Qed.

(** The lane and the shared state after the items [ids] of a page. *)
Definition lane_after (ids : list string) (l : Lane) (sh : shared) : Lane :=
  l <| l_active := (l_active l + Z.of_nat (length (fresh (sh_inFlight sh) ids)))%Z |> <| l_afterID := default (l_afterID l) (last ids) |>.
Definition shared_after (i : nat) (ids : list string) (sh : shared) : shared :=
  sh <| sh_inFlight := list_to_set (fresh (sh_inFlight sh) ids) ∪ sh_inFlight sh |>
     <| sh_jobs := sh_jobs sh ++ map (fun id => (id, i)) (fresh (sh_inFlight sh) ids) |>.

Lemma fresh_extend inFlight id ids : id ∉ ids -> fresh ({[id]} ∪ inFlight) ids = fresh inFlight ids.
Proof.
  intros H. apply bfilter_ext. intros x Hx. f_equal. apply bool_decide_ext. set_solver.
Qed.

Lemma consume_spec i items l sh consumed l' sh' :
  NoDup (d_ID <$> items) -> (l_active l <= l_capacity l)%Z -> consume i items l sh = (consumed, l', sh') ->
  exists n, let ids := d_ID <$> take n items in
    l' = lane_after ids l sh /\ sh' = shared_after i ids sh /\ (l_active l' <= l_capacity l)%Z /\
    (if consumed then n = length items else l_active l' = l_capacity l).
Proof.
  revert l sh. induction items as [|x items IH]; intros l sh Hn Hl H; cbn [consume] in H.
  - injection H as <- <- <-. exists 0. cbn. unfold lane_after, shared_after. destruct l, sh. cbn.
    rewrite Z.add_0_r, app_nil_r, union_empty_l_L. split_and!; done.
  - destruct (_ =? _)%Z eqn:Ea.
    { injection H as <- <- <-. exists 0. cbn. unfold lane_after, shared_after. destruct l, sh. cbn in *.
      rewrite Z.add_0_r, app_nil_r, union_empty_l_L. split_and!; [done|done|done|lia]. }
    rewrite fmap_cons in Hn. apply NoDup_cons in Hn as [Hx Hn]. cbv zeta in H.
    destruct (bool_decide (d_ID x ∈ sh_inFlight sh)) eqn:Eb.
    + apply IH in H as (n & -> & -> & Hle & Hc); [|done|done]. exists (S n). cbv zeta.
      set (ids := d_ID <$> take n items) in *.
      assert (Ef : fresh (sh_inFlight sh) (d_ID <$> take (S n) (x :: items)) = fresh (sh_inFlight sh) ids)
        by (cbn [take fmap list_fmap]; unfold fresh; cbn [List.filter]; by rewrite Eb).
      assert (El : default (l_afterID l) (last (d_ID <$> take (S n) (x :: items))) = default (d_ID x) (last ids))
        by (cbn [take fmap list_fmap]; rewrite last_cons; fold ids; by destruct (last ids)).
      split; [unfold lane_after; rewrite Ef, El; by destruct l|]. split; [unfold shared_after; by rewrite Ef|].
      split; [exact Hle|]. destruct consumed; [cbn; lia|exact Hc].
    + apply IH in H as (n & -> & -> & Hle & Hc); [|done|cbn; lia]. exists (S n). cbv zeta.
      set (ids := d_ID <$> take n items) in *.
      assert (Ef : fresh (sh_inFlight sh) (d_ID <$> take (S n) (x :: items)) = d_ID x :: fresh (sh_inFlight sh) ids)
        by (cbn [take fmap list_fmap]; unfold fresh; cbn [List.filter]; by rewrite Eb).
      assert (El : default (l_afterID l) (last (d_ID <$> take (S n) (x :: items))) = default (d_ID x) (last ids))
        by (cbn [take fmap list_fmap]; rewrite last_cons; fold ids; by destruct (last ids)).
      assert (Ex : fresh ({[d_ID x]} ∪ sh_inFlight sh) ids = fresh (sh_inFlight sh) ids).
      { apply fresh_extend. intros Hin. apply Hx. unfold ids in Hin. apply list_elem_of_fmap in Hin as (y & E & Hy).
        apply list_elem_of_fmap. exists y. split; [done|]. rewrite <- (take_drop n items). apply elem_of_app. by left. }
      unfold lane_after, shared_after in *. cbn [sh_inFlight sh_jobs field_update] in *. rewrite Ex in *. rewrite Ef, El. cbn [length map list_to_set].
      rewrite Nat2Z.inj_succ in *.
      replace (l_active l + Z.succ (Z.of_nat (length (fresh (sh_inFlight sh) ids))))%Z
        with (l_active l + 1 + Z.of_nat (length (fresh (sh_inFlight sh) ids)))%Z by lia.
      split; [by destruct l|]. rewrite <- app_assoc.
      replace (list_to_set (fresh (sh_inFlight sh) ids) ∪ ({[d_ID x]} ∪ sh_inFlight sh))
        with ({[d_ID x]} ∪ list_to_set (fresh (sh_inFlight sh) ids) ∪ sh_inFlight sh) by set_solver.
      split; [by destruct sh|]. split; [exact Hle|]. destruct consumed; [cbn [length]; lia|exact Hc].
Qed.

Lemma length_fresh inFlight ids : NoDup ids -> length ids <= length (fresh inFlight ids) + size inFlight.
Proof.
  intros Hn. set (busy := List.filter (fun id => bool_decide (id ∈ inFlight)) ids).
  assert (Hb : NoDup busy) by (apply NoDup_ListNoDup, List.NoDup_filter, NoDup_ListNoDup, Hn).
  assert (Hs : length busy <= size inFlight).
  { rewrite <- (size_list_to_set (C := gset string) busy Hb). apply subseteq_size. intros id Hid.
    apply elem_of_list_to_set in Hid. unfold busy in Hid. apply elem_of_bfilter in Hid as [_ Hid]. by bool_prop. }
  pose proof (List.filter_length (fun id => bool_decide (id ∈ inFlight)) ids) as Hl. unfold fresh. fold busy in Hl. lia.
Qed.

(** The rows a lane still has to visit in its cycle. *)
Definition waiting (m : moment) (l : Lane) (p : deploymentRecord -> bool) : list deploymentRecord :=
  select id_le (fun r => p r && after (l_afterID l) r) (db_deployments (mo_db m)).

Lemma waiting_NoDup m l p : sane m -> NoDup (dr_ID <$> waiting m l p).
Proof.
  intros [W _]. apply (NoDup_select_key dr_ID). intros id r Hr. exact (dwf_id _ _ _ (wf_deployments _ W _ _ Hr)).
Qed.

(** What one call of [schedule] does: nothing, a report, or a prefix of the lane's waiting
    rows, all of them when the lane is then exhausted, and otherwise up to its capacity. *)
Inductive scheduled (i : nat) (m : moment) (p : deploymentRecord -> bool) (l : Lane) (sh : shared) : Lane -> shared -> Prop :=
| scheduled_idle : l_exhausted l = true \/ l_active l = l_capacity l \/ mo_done m = true -> scheduled i m p l sh l sh
| scheduled_error e : mo_error m = Some e -> scheduled i m p l sh l (reportError (Some e) sh)
| scheduled_all (ids : list string) :
    ids = dr_ID <$> waiting m l p -> (l_active (lane_after ids l sh) <= l_capacity l)%Z ->
    scheduled i m p l sh ((lane_after ids l sh) <| l_exhausted := true |> <| l_afterID := "" |>) (shared_after i ids sh)
| scheduled_full n (ids : list string) :
    ids = dr_ID <$> take n (waiting m l p) -> l_active (lane_after ids l sh) = l_capacity l ->
    scheduled i m p l sh (lane_after ids l sh) (shared_after i ids sh).

Lemma scheduleLoop_spec fuel i env l sh p :
  sane (env 0) -> lane (l_kind l) (mo_now (env 0)) = Some p -> (l_active l <= l_capacity l)%Z ->
  ((l_active l < l_capacity l)%Z -> (0 < pageLimit l sh <= 100)%Z) ->
  exists l' sh', scheduleLoop (S (S fuel)) i env l sh = Some (l', sh') /\ scheduled i (env 0) p l sh l' sh'.
Proof.
  intros Hm Hp Hl Hlim. cbn [scheduleLoop].
  lazymatch goal with |- context [if ?b then match listWork _ _ _ _ with _ => _ end else _] => destruct b eqn:Eb end.
  2: { exists l, sh. split; [done|]. apply scheduled_idle.
       destruct (l_exhausted l); [by left|]. destruct (mo_done (env 0)); [by right; right|]. right. left.
       cbn [negb andb] in Eb. rewrite andb_true_r in Eb. lia. }
  apply andb_true_iff in Eb as [Eb _]. apply andb_true_iff in Eb as [Ex Ea].
  assert (Hlt : (l_active l < l_capacity l)%Z) by lia. specialize (Hlim Hlt). unfold listWork.
  destruct (mo_error (env 0)) as [e|] eqn:Ee; [exists l, (reportError (Some e) sh); split; [done|by apply scheduled_error]|].
  destruct Hm as [W Hnow].
  rewrite (ListDeploymentWork_spec _ (l_afterID l) _ _ (mo_db (env 0)) p W Hlim Hnow Hp). fold (waiting (env 0) l p).
  set (L := waiting (env 0) l p).
  assert (HnL : NoDup (dr_ID <$> L)) by (by apply waiting_NoDup).
  set (items := map deploymentFromRecord (take (Z.to_nat (pageLimit l sh)) L)).
  assert (Hids : forall n, d_ID <$> take n items = dr_ID <$> take n (take (Z.to_nat (pageLimit l sh)) L)).
  { intros n. unfold items. change (map deploymentFromRecord) with (fmap (M := list) deploymentFromRecord).
    rewrite <- fmap_take, <- list_fmap_compose. done. }
  assert (Hnd : NoDup (d_ID <$> items)).
  { rewrite <- (take_ge items (length items)) by lia. rewrite Hids. by do 2 apply NoDup_fmap_take. }
  destruct (consume i items l sh) as [[consumed l1] sh1] eqn:Ec.
  destruct (consume_spec i items l sh consumed l1 sh1 Hnd Hl Ec) as (n & -> & -> & Hle & Hc). rewrite Hids in *.
  set (ids := dr_ID <$> take n (take _ L)) in *.
  assert (Hfull : (l_active (lane_after ids l sh) = l_capacity l)%Z ->
    exists l' sh', scheduleLoop (S fuel) i (fun k => env (S k)) (lane_after ids l sh) (shared_after i ids sh) = Some (l', sh') /\
      scheduled i (env 0) p l sh l' sh').
  { intros Ef. exists (lane_after ids l sh), (shared_after i ids sh). split.
    - cbn [scheduleLoop]. change (l_capacity (lane_after ids l sh)) with (l_capacity l).
      rewrite Ef, Z.ltb_irrefl, andb_false_r. done.
    - eapply scheduled_full; [|done]. unfold ids. by rewrite take_take. }
  destruct consumed; [|rewrite andb_false_r; by apply Hfull]. rewrite andb_true_r.
  assert (Elen : length items = Z.to_nat (pageLimit l sh) `min` length L) by (unfold items; by rewrite length_map, length_take).
  destruct (pageLimit l sh <? Z.of_nat (length L))%Z eqn:Em; cbn [negb].
  - apply Hfull. assert (Hn : length ids = Z.to_nat (pageLimit l sh)) by (unfold ids; rewrite length_fmap, !length_take; lia).
    assert (Hnid : NoDup ids) by (unfold ids; by do 2 apply NoDup_fmap_take).
    pose proof (length_fresh (sh_inFlight sh) ids Hnid) as Hf. unfold pageLimit in *.
    unfold lane_after in *. cbn [l_active field_update] in *. lia.
  - assert (Eids : ids = dr_ID <$> L) by (unfold ids; rewrite !take_ge by (rewrite ?length_take; lia); done).
    eexists _, _. split; [cbn [scheduleLoop l_exhausted field_update negb andb]; reflexivity|]. by apply scheduled_all.
Qed.

(** ** The invariant *)

Definition all_jobs (s : scheduler) : list job := sh_jobs (sc_shared s) ++ map fst (sc_completed s) ++ sc_abandoned s.

Definition jobs_of (i : nat) (js : list job) : list job := List.filter (fun j => j.2 =? i) js.

Definition shape (lanes : list Lane) : list (string * Z) := map (fun l => (l_kind l, l_capacity l)) lanes.

Record sched_ok (s : scheduler) : Prop := {
  so_shape : shape (sc_lanes s) = shape lanes0;
  so_active : forall i l, sc_lanes s !! i = Some l ->
    l_active l = Z.of_nat (length (jobs_of i (all_jobs s))) /\ (l_active l <= l_capacity l)%Z;
  so_ids : NoDup (fst <$> all_jobs s);
  so_inFlight : sh_inFlight (sc_shared s) = list_to_set (fst <$> all_jobs s);
  so_index : Forall (fun j => j.2 < 3) (all_jobs s)
}.

Lemma jobs_of_perm i js js' : js ≡ₚ js' -> length (jobs_of i js) = length (jobs_of i js').
Proof.
  unfold jobs_of. induction 1 as [|x l l' _ IH|x y l|? ? ? _ IH1 _ IH2]; cbn [List.filter]; [done| | |congruence].
  - destruct (x.2 =? i); cbn [length]; congruence.
  - by destruct (y.2 =? i), (x.2 =? i).
Qed.

Lemma jobs_split js : Forall (fun j : job => j.2 < 3) js ->
  length js = length (jobs_of 0 js) + length (jobs_of 1 js) + length (jobs_of 2 js).
Proof.
  induction 1 as [|[id i] js Hi _ IH]; [done|]. unfold jobs_of in *. cbn [snd List.filter length] in *.
  destruct i as [|[|[|i]]]; cbn [Nat.eqb length]; lia.
Qed.

Lemma shape_lookup s i l :
  shape (sc_lanes s) = shape lanes0 -> sc_lanes s !! i = Some l ->
  i < 3 /\ (1 <= l_capacity l <= 8)%Z /\ exists l0, lanes0 !! i = Some l0 /\ l_kind l = l_kind l0.
Proof.
  intros Hs Hl. assert (H : shape (sc_lanes s) !! i = Some (l_kind l, l_capacity l)).
  { unfold shape. change (map (fun l => (l_kind l, l_capacity l))) with (fmap (M := list) (fun l => (l_kind l, l_capacity l))).
    by rewrite list_lookup_fmap, Hl. }
  rewrite Hs in H. destruct i as [|[|[|i]]]; [injection H as E1 E2; rewrite <- E1, <- E2; split; [lia|split; [lia|by eexists]]..|done].
Qed.

Lemma lane_known s i l now : shape (sc_lanes s) = shape lanes0 -> sc_lanes s !! i = Some l -> exists p, lane (l_kind l) now = Some p.
Proof.
  intros Hs Hl. destruct (shape_lookup s i l Hs Hl) as (_ & _ & l0 & Hl0 & ->).
  destruct i as [|[|[|i]]]; [injection Hl0 as <-; by eexists..|done].
Qed.

Lemma lane_exists s i : shape (sc_lanes s) = shape lanes0 -> i < 3 -> exists l, sc_lanes s !! i = Some l.
Proof.
  intros Hs Hi. apply lookup_lt_is_Some. apply (f_equal length) in Hs. unfold shape in Hs. rewrite !length_map in Hs. cbn in Hs. lia.
Qed.

(** At most as many goroutines as the lanes have places. *)
Lemma jobs_bound s : sched_ok s -> (Z.of_nat (length (all_jobs s)) <= completedCapacity)%Z.
Proof.
  intros [H1 H2 _ _ H5]. rewrite (jobs_split _ H5).
  destruct (lane_exists s 0 H1) as [l0 E0]; [lia|]. destruct (lane_exists s 1 H1) as [l1 E1]; [lia|].
  destruct (lane_exists s 2 H1) as [l2 E2]; [lia|].
  assert (Hc : l_capacity l0 = 4%Z /\ l_capacity l1 = 8%Z /\ l_capacity l2 = 4%Z).
  { assert (Hl : forall i l, sc_lanes s !! i = Some l -> shape lanes0 !! i = Some (l_kind l, l_capacity l)).
    { intros i l Hl. rewrite <- H1. unfold shape. change (map (fun l => (l_kind l, l_capacity l))) with (fmap (M := list) (fun l => (l_kind l, l_capacity l))).
      by rewrite list_lookup_fmap, Hl. }
    apply Hl in E0, E1, E2. injection E0 as _ <-. injection E1 as _ <-. injection E2 as _ <-. done. }
  destruct (H2 _ _ E0), (H2 _ _ E1), (H2 _ _ E2). change completedCapacity with 16%Z. lia.
Qed.

Lemma size_inFlight s : sched_ok s -> size (sh_inFlight (sc_shared s)) = length (all_jobs s).
Proof. intros [_ _ H3 H4 _]. rewrite H4, size_list_to_set by done. by rewrite length_fmap. Qed.

Lemma page_bound s i l :
  sched_ok s -> sc_lanes s !! i = Some l -> (l_active l < l_capacity l)%Z -> (0 < pageLimit l (sc_shared s) <= 100)%Z.
Proof.
  intros Ho Hl Ha. pose proof (jobs_bound s Ho) as Hb. change completedCapacity with 16%Z in Hb.
  destruct (shape_lookup s i l (so_shape _ Ho) Hl) as (_ & Hc & _).
  destruct (so_active _ Ho i l Hl). unfold pageLimit. rewrite size_inFlight by done. lia.
Qed.

(** New goroutines of one lane. *)
Lemma started_ok s i l ids l' :
  sched_ok s -> sc_lanes s !! i = Some l -> NoDup ids ->
  l_kind l' = l_kind l -> l_capacity l' = l_capacity l -> l_active l' = l_active (lane_after ids l (sc_shared s)) ->
  (l_active l' <= l_capacity l)%Z ->
  sched_ok (s <| sc_lanes := <[i := l']> (sc_lanes s) |> <| sc_shared := shared_after i ids (sc_shared s) |>).
Proof.
  intros [H1 H2 H3 H4 H5] Hl Hn E1 E2 E3 Hle. set (new := fresh (sh_inFlight (sc_shared s)) ids) in *.
  set (s' := s <| sc_lanes := _ |> <| sc_shared := _ |>).
  assert (Hj : all_jobs s' ≡ₚ map (fun id => (id, i)) new ++ all_jobs s).
  { unfold all_jobs, s'. cbn [sc_shared sc_completed sc_abandoned field_update shared_after sh_jobs]. fold new.
    rewrite <- app_assoc. apply Permutation_app_swap_app. }
  assert (Hf : fst <$> map (fun id => (id, i)) new = new).
  { change (map (fun id => (id, i)) new) with ((fun id => (id, i)) <$> new). rewrite <- list_fmap_compose. apply list_fmap_id. }
  assert (Hi : i < 3) by (by apply (shape_lookup s i l H1 Hl)).
  assert (Hnew : forall k, length (jobs_of k (map (fun id => (id, i)) new)) = if k =? i then length new else 0).
  { intros k. unfold jobs_of. clear. induction new as [|x new IH]; cbn [map List.filter snd]; [by destruct (k =? i)|].
    rewrite (Nat.eqb_sym i k). destruct (k =? i); cbn [length]; lia. }
  split.
  - unfold s'. cbn [sc_lanes field_update]. rewrite <- H1. unfold shape.
    change (map (fun l => (l_kind l, l_capacity l))) with (fmap (M := list) (fun l => (l_kind l, l_capacity l))).
    rewrite list_fmap_insert, E1, E2. apply list_insert_id. by rewrite list_lookup_fmap, Hl.
  - intros k x Hx. rewrite (jobs_of_perm k _ _ Hj). unfold jobs_of at 1. rewrite List.filter_app, length_app.
    fold (jobs_of k (map (fun id => (id, i)) new)). fold (jobs_of k (all_jobs s)). rewrite Hnew.
    unfold s' in Hx. cbn [sc_lanes field_update] in Hx. apply list_lookup_insert_Some in Hx as [(-> & <- & _)|[N Hx]].
    + destruct (H2 _ _ Hl) as [A1 A2]. rewrite Nat.eqb_refl, E3. unfold lane_after. cbn [l_active field_update]. fold new.
      rewrite E3 in Hle. unfold lane_after in Hle. cbn [l_active field_update] in Hle. fold new in Hle. split; [lia|]. rewrite E2. lia.
    + destruct (H2 _ _ Hx) as [A1 A2]. rewrite (proj2 (Nat.eqb_neq k i)) by done. split; [lia|done].
  - rewrite Hj, fmap_app, Hf. apply NoDup_app. split; [by apply NoDup_fresh|]. split; [|done].
    intros id Hid Hin. apply elem_of_fresh in Hid as [_ Hid]. rewrite H4 in Hid. apply Hid. by apply elem_of_list_to_set.
  - unfold s'. cbn [sc_shared field_update shared_after sh_inFlight]. fold new. rewrite H4. apply set_eq. intros id.
    rewrite elem_of_union, !elem_of_list_to_set. fold s'. rewrite Hj, fmap_app, Hf, elem_of_app. done.
  - rewrite Hj. apply Forall_app. split; [|done]. apply Forall_forall. intros j Hin.
    apply list_elem_of_fmap in Hin as (id & -> & _). done.
Qed.

(** Changes that no part of the invariant sees. *)
Lemma sched_ok_ext s s' :
  sched_ok s -> shape (sc_lanes s') = shape (sc_lanes s) -> (l_active <$> sc_lanes s') = (l_active <$> sc_lanes s) ->
  sh_inFlight (sc_shared s') = sh_inFlight (sc_shared s) -> all_jobs s' ≡ₚ all_jobs s -> sched_ok s'.
Proof.
  intros [H1 H2 H3 H4 H5] E1 E2 E3 E4. split.
  - congruence.
  - intros i l Hl. rewrite (jobs_of_perm i _ _ E4).
    assert (Hs : exists l0, sc_lanes s !! i = Some l0 /\ l_active l = l_active l0 /\ l_capacity l = l_capacity l0).
    { destruct (lane_exists s i H1) as [l0 Hl0]; [by apply (shape_lookup s' i l ltac:(congruence) Hl)|].
      exists l0. split; [done|].
      pose proof (f_equal (fun x => x !! i) E2) as F2. pose proof (f_equal (fun x => x !! i) E1) as F1. cbv beta in *.
      unfold shape in F1. change (map (fun l => (l_kind l, l_capacity l))) with (fmap (M := list) (fun l => (l_kind l, l_capacity l))) in F1.
      rewrite !list_lookup_fmap, Hl, Hl0 in F1. rewrite !list_lookup_fmap, Hl, Hl0 in F2. injection F1 as _ F1. injection F2 as F2. done. }
    destruct Hs as (l0 & Hl0 & -> & ->). by apply H2.
  - by rewrite E4.
  - rewrite E3, H4. apply set_eq. intros id. rewrite !elem_of_list_to_set. by rewrite E4.
  - by rewrite E4.
Qed.

Lemma shape_alter f i lanes :
  (forall l, l_kind (f l) = l_kind l /\ l_capacity (f l) = l_capacity l) -> shape (alter f i lanes) = shape lanes.
Proof.
  intros Hf. revert i. induction lanes as [|l lanes IH]; intros [|i]; cbn; [done|done| |].
  - destruct (Hf l) as [-> ->]. done.
  - f_equal. apply IH.
Qed.

Lemma refresh_ok i s : sched_ok s -> sched_ok (refresh i s).
Proof.
  intros Ho. apply (sched_ok_ext s); [done| |  |done|done].
  - unfold refresh. cbn [sc_lanes field_update]. apply shape_alter. by intros [].
  - unfold refresh. cbn [sc_lanes field_update]. generalize (sc_lanes s). clear. intros lanes. revert i.
    induction lanes as [|l lanes IH]; intros [|i]; cbn; [done..|]. f_equal. apply IH.
Qed.

Lemma reportError_same err sh : sh_inFlight (reportError err sh) = sh_inFlight sh /\ sh_jobs (reportError err sh) = sh_jobs sh.
Proof. destruct err as [e|]; cbn [reportError]; [|done]. by destruct (errors_is e _). Qed.

Lemma report_ok err s : sched_ok s -> sched_ok (s <| sc_shared := reportError err (sc_shared s) |>).
Proof.
  intros Ho. destruct (reportError_same err (sc_shared s)) as [E1 E2]. apply (sched_ok_ext s); [done|done|done|done|].
  unfold all_jobs. cbn [sc_shared sc_completed sc_abandoned field_update]. by rewrite E2.
Qed.

Lemma visit_ok env i s :
  (forall n, sane (env n)) -> sched_ok s -> i < 3 -> exists s', visit env i s = Some s' /\ sched_ok s'.
Proof.
  intros He Ho Hi. destruct (lane_exists s i (so_shape _ Ho) Hi) as [l Hl].
  destruct (lane_known s i l (mo_now (env 0)) (so_shape _ Ho) Hl) as [p Hp].
  destruct (so_active _ Ho i l Hl) as [Ha Hle].
  destruct (scheduleLoop_spec 0 i env l (sc_shared s) p (He 0) Hp Hle) as (l' & sh' & E & S).
  { intros Hlt. by eapply page_bound. }
  unfold visit, schedule. rewrite Hl, E. cbn [mbind option_bind]. eexists. split; [reflexivity|].
  assert (Hw : forall n, NoDup (dr_ID <$> take n (waiting (env 0) l p))) by (intros n; by apply NoDup_fmap_take, waiting_NoDup).
  destruct S as [Hidle|e Hm|ids -> Hall|n ids -> Hfull].
  - apply (sched_ok_ext s); [done|by rewrite list_insert_id|by rewrite list_insert_id|done|done].
  - apply (sched_ok_ext (s <| sc_shared := reportError (Some e) (sc_shared s) |>)); [by apply report_ok|by rewrite list_insert_id|by rewrite list_insert_id|done|done].
  - eapply started_ok; [done|exact Hl|by apply waiting_NoDup|done|done|done|exact Hall].
  - eapply started_ok; [done|exact Hl|apply Hw|done|done|done|]. rewrite Hfull. done.
Qed.

Lemma visits_ok env prepare indices s :
  (forall i n, sane (env i n)) -> (forall i s, sched_ok s -> sched_ok (prepare i s)) ->
  (forall i, i ∈ indices -> i < 3) -> sched_ok s -> exists s', visits env prepare indices s = Some s' /\ sched_ok s'.
Proof.
  intros He Hp. revert s. induction indices as [|i indices IH]; intros s Hi Ho; [by exists s|]. cbn [visits].
  destruct (visit_ok (env i) i (prepare i s) (He i) (Hp i s Ho)) as (s1 & -> & H1); [apply Hi; left|].
  cbn [mbind option_bind]. apply IH; [|done]. intros j Hj. apply Hi. by right.
Qed.

Lemma all_three i : i ∈ [0; 1; 2] -> i < 3.
Proof. set_solver by lia. Qed.

Lemma tick_ok env pruneErr s : (forall i n, sane (env i n)) -> sched_ok s -> exists s', tick env pruneErr s = Some s' /\ sched_ok s'.
Proof. intros He Ho. apply visits_ok; [done|intros; by apply refresh_ok|exact all_three|by apply report_ok]. Qed.

Lemma notified_ok env s : (forall i n, sane (env i n)) -> sched_ok s -> exists s', notified env s = Some s' /\ sched_ok s'.
Proof. intros He Ho. apply visits_ok; [done|done|exact all_three|by apply refresh_ok]. Qed.

Lemma job_split {A} n (x : A) l : l !! n = Some x -> l ≡ₚ x :: delete n l.
Proof. intros H. by apply delete_Permutation. Qed.

Lemma finished_ok n err s j :
  sched_ok s -> sh_jobs (sc_shared s) !! n = Some j -> exists s', finished n err s = Some s' /\ sched_ok s'.
Proof.
  intros Ho Hj. unfold finished. rewrite Hj. pose proof (jobs_bound s Ho) as Hb.
  assert (Hlt : n < length (sh_jobs (sc_shared s))) by (by apply lookup_lt_Some in Hj).
  unfold all_jobs in Hb. rewrite !length_app, length_map in Hb.
  replace (Z.of_nat (length (sc_completed s)) <? completedCapacity)%Z with true by (symmetry; lia).
  eexists. split; [reflexivity|]. apply (sched_ok_ext s); [done|done|done|done|].
  unfold all_jobs. cbn [sc_shared sc_completed sc_abandoned sh_jobs field_update]. rewrite map_app. cbn [map fst].
  rewrite (job_split n j (sh_jobs (sc_shared s)) Hj) at 2. solve_Permutation.
Qed.

Lemma abandoned_ok n s j :
  sched_ok s -> sh_jobs (sc_shared s) !! n = Some j -> exists s', abandoned n s = Some s' /\ sched_ok s'.
Proof.
  intros Ho Hj. unfold abandoned. rewrite Hj. eexists. split; [reflexivity|]. apply (sched_ok_ext s); [done|done|done|done|].
  unfold all_jobs. cbn [sc_shared sc_completed sc_abandoned sh_jobs field_update].
  rewrite (job_split n j (sh_jobs (sc_shared s)) Hj) at 2. solve_Permutation.
Qed.

Lemma received_ok env s :
  (forall n, sane (env n)) -> sched_ok s -> sc_completed s <> [] -> exists s', received env s = Some s' /\ sched_ok s'.
Proof.
  intros He Ho Hc. unfold received. destruct (sc_completed s) as [|[[id i] err] rest] eqn:Ec; [done|].
  set (s1 := s <| sc_completed := rest |>
               <| sc_lanes := alter (fun l => l <| l_active := (l_active l - 1)%Z |>) i (sc_lanes s) |>
               <| sc_shared := (sc_shared s) <| sh_inFlight := sh_inFlight (sc_shared s) ∖ {[id]} |> |>).
  destruct Ho as [H1 H2 H3 H4 H5].
  assert (Hj : all_jobs s ≡ₚ (id, i) :: all_jobs s1).
  { unfold all_jobs, s1. cbn [sc_shared sc_completed sc_abandoned sh_jobs field_update]. rewrite Ec. cbn [map fst]. solve_Permutation. }
  assert (Hin : id ∈ sh_inFlight (sc_shared s)).
  { rewrite H4, elem_of_list_to_set, Hj. left. }
  rewrite bool_decide_eq_true_2 by done.
  assert (Hi : i < 3) by (rewrite Hj in H5; by apply Forall_cons in H5 as [? _]).
  assert (H3' : (id ∉ (fst <$> all_jobs s1)) /\ NoDup (fst <$> all_jobs s1)) by (rewrite Hj, fmap_cons in H3; by apply NoDup_cons in H3).
  destruct H3' as [Hid H3'].
  assert (Ho1 : sched_ok s1).
  { split; [|..|exact H3'| |].
    - unfold s1. cbn [sc_lanes field_update]. rewrite shape_alter; [done|by intros []].
    - intros k x Hx. assert (Hk : length (jobs_of k (all_jobs s)) = length (jobs_of k (all_jobs s1)) + if i =? k then 1 else 0).
      { rewrite (jobs_of_perm k _ _ Hj). unfold jobs_of. cbn [List.filter snd]. destruct (i =? k); cbn [length]; lia. }
      unfold s1 in Hx. cbn [sc_lanes field_update] in Hx. destruct (decide (k = i)) as [->|N].
      + rewrite list_lookup_alter_eq in Hx. destruct (sc_lanes s !! i) as [l|] eqn:El; [|done]. injection Hx as <-.
        destruct (H2 _ _ El) as [A1 A2]. cbn [l_active l_capacity field_update]. rewrite Nat.eqb_refl in Hk. lia.
      + rewrite list_lookup_alter_ne in Hx by done. destruct (H2 _ _ Hx) as [A1 A2].
        rewrite (proj2 (Nat.eqb_neq i k)) in Hk by done. lia.
    - unfold s1 at 1. cbn [sc_shared sh_inFlight field_update]. rewrite H4. apply set_eq. intros y.
      rewrite elem_of_difference, elem_of_singleton, !elem_of_list_to_set, Hj, fmap_cons, elem_of_cons. cbn [fst].
      split; [intros [[->|?] ?]; done|]. intros Hy. split; [by right|]. intros ->. done.
    - rewrite Hj in H5. by apply Forall_cons in H5 as [_ ?]. }
  apply visit_ok; [done| |done]. exact (report_ok err s1 Ho1).
Qed.

Lemma run_step_ok s s' : run_step s s' -> sched_ok s -> sched_ok s'.
Proof.
  intros [env e ? ? He H|env ? ? He H|env ? ? He H|n e ? ? H|n ? ? H] Ho.
  - destruct (tick_ok env e s0 He Ho) as (x & E & Hx). congruence.
  - destruct (notified_ok env s0 He Ho) as (x & E & Hx). congruence.
  - destruct (received_ok env s0 He Ho) as (x & E & Hx); [intros E; unfold received in H; by rewrite E in H|]. congruence.
  - destruct (sh_jobs (sc_shared s0) !! n) as [j|] eqn:Ej; [|unfold finished in H; by rewrite Ej in H].
    destruct (finished_ok n e s0 j Ho Ej) as (x & E & Hx). congruence.
  - destruct (sh_jobs (sc_shared s0) !! n) as [j|] eqn:Ej; [|unfold abandoned in H; by rewrite Ej in H].
    destruct (abandoned_ok n s0 j Ho Ej) as (x & E & Hx). congruence.
Qed.

Lemma scheduler0_ok : sched_ok scheduler0.
Proof.
  split; [done| |constructor|done|constructor]. intros i l Hl.
  destruct i as [|[|[|i]]]; [injection Hl as <-; split; cbn; lia..|done].
Qed.

Lemma reachable_sched_ok s : run_reachable s -> sched_ok s.
Proof.
  unfold run_reachable. intros H. assert (Hi : forall a b, rtc run_step a b -> sched_ok a -> sched_ok b).
  { induction 1; [done|]. eauto using run_step_ok. }
  exact (Hi _ _ H scheduler0_ok).
Qed.

(** C19: The scheduler.  Whatever the order of ticks, notifications, completions and exits,
    every lane runs at most its capacity, [active] counts its goroutines, no deployment has
    two goroutines, [inFlight] holds exactly theirs, and none of the goroutines can block on
    the channel.  Every handler of the loop returns, listing at most one page per lane with a
    limit the store accepts, and finds the cancel function of what completed. *)
Theorem scheduler_invariant s :
  run_reachable s ->
  sched_ok s /\
  (forall env err, (forall i n, sane (env i n)) -> is_Some (tick env err s) /\ is_Some (notified env s)) /\
  (forall env, (forall n, sane (env n)) -> sc_completed s <> [] -> is_Some (received env s)) /\
  (forall n err, n < length (sh_jobs (sc_shared s)) -> is_Some (finished n err s)) /\
  (forall i l, sc_lanes s !! i = Some l -> (l_active l < l_capacity l)%Z -> (0 < pageLimit l (sc_shared s) <= 100)%Z).
Proof.
  intros Ho%reachable_sched_ok. split; [done|]. split; [|split; [|split]].
  - intros env err He. destruct (tick_ok env err s He Ho) as (x & -> & _), (notified_ok env s He Ho) as (y & -> & _). done.
  - intros env He Hc. by destruct (received_ok env s He Ho Hc) as (x & -> & _).
  - intros n err Hn. apply lookup_lt_is_Some in Hn as [j Hj]. by destruct (finished_ok n err s j Ho Hj) as (x & -> & _).
  - intros i l Hl Ha. by eapply page_bound.
Qed.

Lemma elem_of_waiting m l p r :
  r ∈ waiting m l p <-> (exists id, db_deployments (mo_db m) !! id = Some r) /\ p r = true /\ after (l_afterID l) r = true.
Proof. unfold waiting. by rewrite elem_of_select, andb_true_iff. Qed.

(** The rows that the cursor has passed are in the visited prefix. *)
Lemma passed m l p n r :
  sane m -> r ∈ waiting m l p -> after (default (l_afterID l) (last (dr_ID <$> take n (waiting m l p)))) r = false ->
  r ∈ take n (waiting m l p).
Proof.
  intros [W _] Hr Ha. rewrite fmap_last in Ha. destruct (last (take n (waiting m l p))) as [x|] eqn:Ex; cbn in Ha.
  - pose proof (after_prefix (mo_db m) p (l_afterID l) n x W Ex) as Hd. rewrite <- (take_drop n (waiting m l p)) in Hr.
    apply elem_of_app in Hr as [Hr|Hr]; [done|]. unfold waiting in Hr. rewrite <- Hd in Hr.
    apply elem_of_select in Hr as [_ Hr]. apply andb_true_iff in Hr as [_ Hr]. congruence.
  - apply elem_of_waiting in Hr as (_ & _ & Hr). congruence.
Qed.

(** What [shared_after] has in flight. *)
Lemma started_rows i m l p n sh :
  sane m ->
  let ids := dr_ID <$> take n (waiting m l p) in
  (forall id, id ∈ fresh (sh_inFlight sh) ids ->
     (id ∉ sh_inFlight sh) /\ exists r, db_deployments (mo_db m) !! id = Some r /\ p r = true) /\
  (forall id r, db_deployments (mo_db m) !! id = Some r -> r ∈ take n (waiting m l p) -> id ∈ sh_inFlight (shared_after i ids sh)).
Proof.
  intros [W _] ids. split.
  - intros id [Hid Hn]%elem_of_fresh. split; [done|]. apply list_elem_of_fmap in Hid as (r & -> & Hr).
    assert (Hw : r ∈ waiting m l p) by (rewrite <- (take_drop n (waiting m l p)); apply elem_of_app; by left).
    apply elem_of_waiting in Hw as ((id & Hid) & Hp & _). exists r. split; [|done].
    by rewrite (dwf_id _ _ _ (wf_deployments _ W _ _ Hid)).
  - intros id r Hid Hr. unfold shared_after. cbn [sh_inFlight field_update]. apply elem_of_union.
    destruct (decide (id ∈ sh_inFlight sh)) as [H|H]; [by right|left]. apply elem_of_list_to_set, elem_of_fresh. split; [|done].
    unfold ids. apply list_elem_of_fmap. exists r. by rewrite (dwf_id _ _ _ (wf_deployments _ W _ _ Hid)).
Qed.

(** C37: A visit of a lane skips nobody.  After [schedule], every row of the lane beyond the
    old cursor that the new cursor has passed, and every one of them when the lane is
    exhausted, is in flight; only rows of the lane are started; and the loop does the same
    whatever the fuel beyond two iterations. *)
Theorem schedule_covers s env i l p fuel :
  run_reachable s -> (forall n, sane (env n)) -> sc_lanes s !! i = Some l -> lane (l_kind l) (mo_now (env 0)) = Some p ->
  exists l' sh' started,
    scheduleLoop (S (S fuel)) i env l (sc_shared s) = Some (l', sh') /\
    sh_jobs sh' = sh_jobs (sc_shared s) ++ map (fun id => (id, i)) started /\
    (forall id, id ∈ started -> (id ∉ sh_inFlight (sc_shared s)) /\ exists r, db_deployments (mo_db (env 0)) !! id = Some r /\ p r = true) /\
    (mo_error (env 0) = None -> mo_done (env 0) = false -> l_exhausted l = false -> (l_active l < l_capacity l)%Z ->
     forall id r, db_deployments (mo_db (env 0)) !! id = Some r -> p r = true -> after (l_afterID l) r = true ->
       l_exhausted l' = true \/ after (l_afterID l') r = false -> id ∈ sh_inFlight sh').
Proof.
  intros Ho%reachable_sched_ok He Hl Hp. destruct (so_active _ Ho i l Hl) as [_ Hle].
  destruct (scheduleLoop_spec fuel i env l (sc_shared s) p (He 0) Hp Hle) as (l' & sh' & E & S);
    [intros Hlt; by eapply page_bound|].
  exists l', sh'. pose proof (started_rows i (env 0) l p) as Hst.
  destruct S as [Hidle|e Hm|ids Hids Hall|n ids Hids Hfull].
  - exists []. split; [done|]. split; [by rewrite app_nil_r|]. split; [set_solver|].
    intros Hm Hd Hx Ha. destruct Hidle as [H|[H|H]]; [congruence|lia|congruence].
  - exists []. split; [done|]. destruct (reportError_same (Some e) (sc_shared s)) as [_ ->]. split; [by rewrite app_nil_r|].
    split; [set_solver|]. congruence.
  - destruct (Hst (length (waiting (env 0) l p)) (sc_shared s) (He 0)) as [H1 H2]. rewrite take_ge in H1, H2 by lia.
    rewrite <- Hids in H1, H2. eexists. split; [exact E|]. split; [reflexivity|]. split; [exact H1|].
    intros _ _ _ _ id r Hid Hr Haf _. apply (H2 id r Hid), elem_of_waiting. eauto.
  - destruct (Hst n (sc_shared s) (He 0)) as [H1 H2]. rewrite <- Hids in H1, H2.
    eexists. split; [exact E|]. split; [reflexivity|]. split; [exact H1|].
    intros _ _ Hx _ id r Hid Hr Haf [H|H]; [change (l_exhausted l = true) in H; congruence|].
    apply (H2 id r Hid). apply passed; [done|apply elem_of_waiting; eauto|]. rewrite <- Hids. exact H.
Qed.

(** ** A concrete run *)

Definition sample_moment : moment := MkMoment false None 500 sample_db.

Lemma sample_sane : sane sample_moment.
Proof. split; [exact (db_reachable_wf _ _ _ sample_reachable)|done]. Qed.

Definition sample_ticked : scheduler := default scheduler0 (tick (fun _ _ => sample_moment) None scheduler0).

Lemma sample_tick : run_reachable sample_ticked.
Proof.
  apply rtc_once. apply (run_tick (fun _ _ => sample_moment) None); [intros; exact sample_sane|]. vm_compute. reflexivity.
Qed.

(** The queued deployment is in flight on the provision lane, and its goroutine can complete. *)
Lemma scheduler_invariant_witness :
  sh_jobs (sc_shared sample_ticked) = [("web-1", 0)] /\ sched_ok sample_ticked /\ is_Some (finished 0 None sample_ticked).
Proof.
  split; [vm_compute; reflexivity|]. destruct (scheduler_invariant sample_ticked sample_tick) as (H1 & _ & _ & H4 & _).
  split; [exact H1|]. apply H4. vm_compute. lia.
Defined.

(** The first visit of the provision lane starts it. *)
Lemma schedule_covers_witness :
  exists l' sh', schedule 0 (fun _ => sample_moment) (MkLane "provision" 4 0 "" false) (sc_shared scheduler0) = Some (l', sh') /\
    (l_exhausted l' = true -> "web-1" ∈ sh_inFlight sh').
Proof.
  destruct (schedule_covers scheduler0 (fun _ => sample_moment) 0 (MkLane "provision" 4 0 "" false) (provision_work 500) 0)
    as (l' & sh' & started & E & _ & _ & H); [apply rtc_refl|intros; exact sample_sane|reflexivity|reflexivity|].
  exists l', sh'. split; [exact E|]. intros Hx.
  assert (Hr : exists r, db_deployments sample_db !! "web-1" = Some r /\ provision_work 500 r = true /\ after "" r = true).
  { eexists. split; [vm_compute; reflexivity|]. split; vm_compute; reflexivity. }
  destruct Hr as (r & Hr & Hp & Ha). exact (H eq_refl eq_refl eq_refl eq_refl "web-1" r Hr Hp Ha (or_introl Hx)).
Defined.
