(* ===== verification/Effects.v ===== *)
(** * Effectful handlers and their interleavings

    The lifecycle code of internal/server is a set of goroutines that read and
    write runner rows and call GitHub and the sandbox service.  A handler is
    a [prog]: a tree of events with one continuation per answer.  Store events
    are answered by the operations of [RunnerStore] and [RunnerQueries] on the
    shared table (or by a database error); calls to other systems are answered
    arbitrarily.  Goroutines interleave at every event, so what is proved here
    does not rely on the per-request mutexes of the code.

    [wp] is a weakest precondition over what a handler knows: the views of rows
    it has read or written and the sandboxes it has seen stopped.  Its adequacy
    (below) turns a proof about one handler into a fact about every
    interleaving, because a write only succeeds on the version it is based on. *)

From stdpp Require Import base gmap list strings.
From S2P Require Import Prelude GoStrings Query RunnerModel RunnerStore RunnerQueries Catalog Retry AccountModel Templates.

(** ** Answers of other systems *)

(** [sandboxrunner.StartResult] and [RecoverResult]. *)
Record SandboxResult := MkSandboxResult {
  res_SandboxID : string;
  res_PID : Z;
  res_ResolvedTemplateID : string;
  res_TemplateVersion : string;
  res_RunnerVersion : string
}.

(** [github.RunnerJITConfig]. *)
Record RunnerJITConfig := MkJIT {
  jit_CleanupRequired : bool;
  jit_RunnerName : string;
  jit_RunnerID : Z
}.

(** What [runnerGroupError] distinguishes in an error of [ValidateRunnerGroup]. *)
Inductive group_error :=
| GroupNotOrganization
| GroupNotFound
| GroupRepositoryDenied
| GroupTimeout
| GroupRateLimited
| GroupForbidden
| GroupUnavailable.

(** Calls that do not touch the runner_requests table: the clock, the wake-up
    channel of the worker, GitHub, the sandbox service, the capacity ledger and
    the other tables of the store. *)
Inductive call : Type -> Type :=
| Now : call Time
| SignalQueue : call unit
| AcquireSlot : call bool
| GetWorkflowJob (repository : string) (job : Z) : call (result WorkflowJob)
| ListWorkflowRunJobs (repository : string) (run : Z) : call (result (list WorkflowJob))
| RunnerURL (repository group : string) : call (option goerror)
| RemoveRunnerByName (repository group name : string) : call (result bool)
| RemoveRunner (repository group : string) (id : Z) : call (option goerror)
| ListRunners (repository group : string) : call (result (list (string * bool)))
| ValidateRunnerGroup (installation : Z) (repository group : string) : call (option group_error)
| ListRunnerApplications (repository group : string) (windows : bool) : call (result bool)
| CreateRegistrationToken (repository group : string) : call (option goerror)
| CreateRunnerJITConfig (repository group name : string) (labels : list string)
    : call (RunnerJITConfig * option goerror)
| SandboxServiceFor (req : RunnerRequest) : call (result SandboxSnapshot)
| ListDefaultTemplates : call (option (result (list CatalogTemplate)))
| StartRunner (req : RunnerRequest) (template : string) : call (result SandboxResult)
| RecoverRunner (st : RunnerState) (timeout : Z) : call (SandboxResult * option goerror)
| SandboxRegion (url : string) : call string
| GetProfileC (name : string) : call (result RunnerProfile)
| GetScopedProfileC (scope : RunnerProfileScope) (name : string) : call (result ScopedRunnerProfile)
| MatchProfileC (repository : string) (labels : list string) : call (result ProfileMatch)
| MatchProfileForScopeC (scope : RunnerProfileScope) (repository : string) (labels : list string)
    : call (result ProfileMatch)
| AccountScopeForPersonalGitHubInstallation (installation : Z) : call (result (option Z))
| GetGitHubInstallationOwner (installation : Z) : call (result string)
| GetForkSponsorshipPolicy (installation repository : Z) : call (result ForkSponsorshipPolicy)
| GetForkSponsorshipApproval (repository fork : Z) : call (result ForkSponsorshipApproval)
| ReserveCapacity (req : RunnerRequest) (p : RunnerProfile) : call (bool * string * option goerror)
| ReleaseCapacity (req : RunnerRequest) : call unit
| RepositoryAllowed (repository : string) : call bool
| ReadControlLog (id : string) : call (result string).

(** ** Programs *)

(** The store operations on the table; stopping a sandbox, whose answer is the
    error of resolving the sandbox service or of [StopRunner]; any other call. *)
Inductive event : Type -> Type :=
| EReadState (id : string) : event (result RunnerState)
| EReadRequest (id : string) : event (result RunnerRequest)
| EWriteState (st : RunnerState) : event (option goerror)
| EReleaseLease (id workerID : string) : event unit
| ECreate (req : RunnerRequest) (payload : githubPayload) : event (bool * RunnerState * option goerror)
| ECreateRejected (req : RunnerRequest) (payload : githubPayload) (reason : string)
    : event (bool * RunnerState * option goerror)
| EClaim (workerID : string) (leaseTTL : Z) : event (result (option (RunnerRequest * RunnerState)))
| ERetry (id : string) : event (result RunnerState)
| ECountSponsored (installation repository : Z) : event (result Z)
| EListActive : event (result (list RunnerState))
| EListMismatched (limit : Z) : event (result (list RunnerState))
| EListFailed (limit : Z) : event (result (list RunnerState))
| EStopSandbox (req : RunnerRequest) (sandboxID : string) (pid : Z) : event (option goerror)
| ECall {R} (c : call R) : event R.

Inductive prog (A : Type) : Type :=
| Ret (a : A)
| Vis {R : Type} (e : event R) (k : R -> prog A).
Arguments Ret {A} _.
Arguments Vis {A R} _ _.

Fixpoint bind {A B} (p : prog A) (f : A -> prog B) : prog B :=
  match p with
  | Ret a => f a
  | Vis e k => Vis e (fun r => bind (k r) f)
  end.

Definition trigger {R} (e : event R) : prog R := Vis e Ret.

Definition ask {R} (c : call R) : prog R := Vis (ECall c) Ret.

Notation "'let!' x := p 'in' q" := (bind p (fun x => q))
  (at level 10, x pattern, p at level 100, q at level 200) : runner_scope.
Notation "p ;; q" := (bind p (fun _ => q)) (at level 100, right associativity) : runner_scope.

(** [for _, x := range l { body }] *)
Fixpoint for_each {A} (l : list A) (body : A -> prog unit) : prog unit :=
  match l with
  | [] => Ret tt
  | x :: l => body x ;; for_each l body
  end.

(** ** Answers *)

(** Any store call can fail in the database, with an error whose text is not
    that of a vanished sandbox. *)
Definition db_answer {A} (m : result A) (r : result A) : Prop :=
  r = m \/ exists e, isSandboxGone e = false /\ r = Err e.

(** [InFlightCountForForkSponsorship]. *)
Definition sponsored (installation repository : Z) (r : runnerRequestRecord) : bool :=
  (rec_SponsorInstallationID r =? installation)%Z && (rec_SponsorSourceRepositoryID r =? repository)%Z
  && isInFlight (rec_Status r).

(** [answers e t r t']: the event [e] on table [t] may answer [r] and leave [t'].
    A write whose answer is an error may still have been committed. *)
Definition answers {R} (e : event R) (t : table) : R -> table -> Prop :=
  match e in event R return R -> table -> Prop with
  | EReadState id => fun r t' => t' = t /\ db_answer (ReadState id t) r
  | EReadRequest id => fun r t' => t' = t /\ db_answer (ReadRequest id t) r
  | EWriteState st => fun r t' => exists now, now <> 0%Z /\
      match WriteState st now t with
      | Ok t1 => (r = None /\ t' = t1) \/ ((exists e, r = Some e) /\ (t' = t \/ t' = t1))
      | Err _ => (exists e, r = Some e) /\ t' = t
      end
  | EReleaseLease id w => fun r t' => t' = t \/ exists now, t' = ReleaseLease id w now t
  | ECreate req payload => fun r t' => exists now, now <> 0%Z /\
      ((t', r) = CreateRequest req payload now t
       \/ (exists e, r.2 = Some e) /\ (t' = t \/ t' = (CreateRequest req payload now t).1))
  | ECreateRejected req payload reason => fun r t' => exists now, now <> 0%Z /\
      ((t', r) = CreateRejectedRequest req payload reason now t
       \/ (exists e, r.2 = Some e) /\ (t' = t \/ t' = (CreateRejectedRequest req payload reason now t).1))
  | EClaim w ttl => fun r t' => exists now, now <> 0%Z /\
      match ClaimNextRunnable w now ttl t with
      | Ok (t1, c) => r = Ok c /\ t' = t1 \/ (exists e, r = Err e) /\ (t' = t \/ t' = t1)
      | Err _ => (exists e, r = Err e) /\ t' = t
      end
  | ERetry id => fun r t' => exists now, now <> 0%Z /\
      match RetryRequest id now t with
      | Ok (t1, st) => r = Ok st /\ t' = t1 \/ (exists e, r = Err e) /\ (t' = t \/ t' = t1)
      | Err e => r = Err e /\ t' = t \/ (exists e, r = Err e) /\ t' = t
      end
  | ECountSponsored i j => fun r t' => t' = t /\ db_answer (Ok (Z.of_nat (Count (sponsored i j) t))) r
  | EListActive => fun r t' => t' = t /\ db_answer (Ok (ListActiveStates t)) r
  | EListMismatched n => fun r t' => t' = t /\ db_answer (Ok (ListMismatchedCompletedStates n t)) r
  | EListFailed n => fun r t' => t' = t /\ db_answer (Ok (ListFailedWorkflowJobStates n t)) r
  | EStopSandbox _ _ _ => fun _ t' => t' = t
  | ECall _ => fun _ t' => t' = t
  end.

Lemma createRequest_step req payload status fs fr em now t t' r :
  now <> 0%Z -> status = StatusQueued \/ status = StatusFailed ->
  (t', r) = createRequest req payload status fs fr em now t -> store_step t t'.
Proof.
  intros Hn Hs H. change t' with ((t', r).1). rewrite H. by apply step_create.
Qed.

Lemma answers_step {R} (e : event R) t r t' : answers e t r t' -> t' = t \/ store_step t t'.
Proof.
  destruct e; cbn [answers]; try (intros [-> _]; by left); try (intros ->; by left).
  - intros (now & Hn & H). destruct (WriteState st now t) as [t1|] eqn:E.
    + destruct H as [[_ ->]|[_ [->| ->]]]; [right|by left|right]; by eapply step_write.
    + left. apply H.
  - intros [->|[now ->]]; [by left|right; constructor].
  - intros (now & Hn & [H|[_ [->| ->]]]); [right|by left|right].
    + eapply createRequest_step; [done|by left|exact H].
    + eapply createRequest_step; [done|by left|symmetry; apply surjective_pairing].
  - intros (now & Hn & [H|[_ [->| ->]]]); [right|by left|right].
    + eapply createRequest_step; [done|by right|exact H].
    + eapply createRequest_step; [done|by right|symmetry; apply surjective_pairing].
  - intros (now & Hn & H). destruct (ClaimNextRunnable workerID now leaseTTL t) as [[t1 c]|] eqn:E.
    + destruct H as [[_ ->]|[_ [->| ->]]]; [right|by left|right]; by eapply step_claim.
    + left. apply H.
  - intros (now & Hn & H). destruct (RetryRequest id now t) as [[t1 c]|] eqn:E.
    + destruct H as [[_ ->]|[_ [->| ->]]]; [right|by left|right]; by eapply step_retry.
    + left. by destruct H as [[_ ->]|[_ ->]].
Qed.

(** ** What a handler knows of a row *)

Record view := MkView {
  v_id : string;
  v_version : Z;
  v_status : Status;
  v_sandbox : string
}.

Definition view_of (st : RunnerState) : view :=
  MkView (st_ID st) (st_Version st) (st_Status st) (st_SandboxID st).

Definition row_view (r : runnerRequestRecord) : view :=
  MkView (rec_ID r) (rec_Version r) (rec_Status r) (rec_SandboxID r).

(** A row of the table is as the view says. *)
Definition shows (t : table) (v : view) : Prop := exists r, t !! v_id v = Some r /\ row_view r = v.

(** What remains of that later: the row is still so unless its version has grown. *)
Definition known (t : table) (v : view) : Prop :=
  exists r, t !! v_id v = Some r /\ ((v_version v < rec_Version r)%Z \/ row_view r = v).

Lemma shows_known t v : shows t v -> known t v.
Proof. intros (r & Hr & Hv). exists r. auto. Qed.

Lemma shows_row t id r : table_wf t -> t !! id = Some r -> shows t (row_view r).
Proof. intros Hwf Hr. exists r. split; [|done]. cbn. by rewrite (wf_keyed t Hwf id r Hr). Qed.

Lemma view_of_row r : view_of (recordToState r) = row_view r.
Proof. done. Qed.

Lemma row_view_lease r r' : lease_eq r r' -> row_view r' = row_view r.
Proof. unfold lease_eq. intros ->. done. Qed.

Lemma known_step t t' v : table_wf t -> store_step t t' -> known t v -> known t' v.
Proof.
  intros Hwf Hs (r & Hr & Hv). destruct (step_row _ _ _ _ Hwf Hs Hr) as (r' & Hr' & He & _).
  exists r'. split; [done|]. destruct He as [He|He].
  - left. destruct Hv as [Hv|<-]; simpl; lia.
  - rewrite (lease_eq_version _ _ He), (row_view_lease _ _ He). done.
Qed.

(** ** The status machine *)

(** The status changes the lifecycle makes. *)
Definition status_step (s s' : Status) : bool :=
  bool_decide (s = s') ||
  match s, s' with
  | StatusQueued, (StatusCreating | StatusStopping | StatusCompleted | StatusFailed) => true
  | StatusCreating, (StatusQueued | StatusRunning | StatusStopping | StatusCompleted | StatusFailed) => true
  | StatusRunning, (StatusQueued | StatusStopping | StatusFailed) => true
  | StatusStopping, (StatusQueued | StatusCompleted | StatusFailed) => true
  | StatusCompleted, (StatusQueued | StatusStopping) => true
  | StatusFailed, (StatusQueued | StatusStopping | StatusCompleted) => true
  | _, _ => false
  end.

Definition known_status (s : Status) : Prop := match s with StatusOther _ => False | _ => True end.

(** The invariant of a row: one of the six statuses, and no sandbox before running. *)
Definition view_ok (v : view) : Prop :=
  known_status (v_status v) /\
  (v_status v = StatusQueued \/ v_status v = StatusCreating -> v_sandbox v = "").

(** How careful a handler is with sandboxes: a [Careful] one stops only the sandbox
    of a row it has persisted as stopping; a [Careful] or [Releasing] one forgets
    the sandbox of a row, or completes the row, only once that sandbox is
    reported stopped or gone. *)
Inductive care := Careful | Releasing | Plain.

(** [stopped] are the sandboxes reported stopped or gone.  A row that keeps
    running names the sandbox in which its runner was found again. *)
Definition released (stopped : string -> Prop) (v v' : view) : Prop :=
  v_sandbox v <> "" ->
  (v_sandbox v' = "" /\ v_status v' <> StatusRunning)
    \/ (v_status v' = StatusCompleted /\ v_status v <> StatusCompleted) ->
  stopped (v_sandbox v).

Definition transition_ok (c : care) (stopped : string -> Prop) (v v' : view) : Prop :=
  status_step (v_status v) (v_status v') = true /\ view_ok v' /\
  (c <> Plain -> released stopped v v').

(** ** Weakest preconditions *)

(** [S]: sandboxes reported stopped or gone; [K]: views the handler knows. *)
Definition post (A : Type) := A -> list string -> list view -> Prop.

Definition write_allowed (c : care) (S : list string) (K : list view) (st : RunnerState) : Prop :=
  exists v, v ∈ K /\ v_id v = sanitizeID (st_ID st) /\ v_version v = st_Version st /\
    transition_ok c (fun x => x ∈ S) v (view_of st).

(** The view of the row a successful write leaves. *)
Definition bump (st : RunnerState) : view :=
  MkView (sanitizeID (st_ID st)) (st_Version st + 1) (st_Status st) (st_SandboxID st).

Definition gone (r : option goerror) : bool :=
  match r with None => true | Some e => isSandboxGone e end.

Definition wp_event {R} (c : care) (S : list string) (K : list view) (e : event R) : post R -> Prop :=
  match e in event R return post R -> Prop with
  | EReadState id => fun Q => (forall er, Q (Err er) S K) /\
      (forall st, sanitizeID (st_ID st) = st_ID st -> view_ok (view_of st) -> Q (Ok st) S (view_of st :: K))
  | EWriteState st => fun Q => write_allowed c S K st /\
      (forall er, Q (Some er) S K) /\ Q None S (bump st :: K)
  | EReadRequest id => fun Q => (forall er, isSandboxGone er = false -> Q (Err er) S K) /\
      (forall req, Q (Ok req) S K)
  | ERetry id => fun Q => c = Plain /\ forall r, Q r S K
  | EStopSandbox req sb pid => fun Q =>
      (c = Careful -> exists v, v ∈ K /\ v_status v = StatusStopping /\ v_sandbox v = sb) /\
      (forall r, gone r = true -> Q r (sb :: S) K) /\ (forall r, gone r = false -> Q r S K)
  | _ => fun Q => forall r, Q r S K
  end.

Fixpoint wp {A} (c : care) (S : list string) (K : list view) (p : prog A) (Q : post A) : Prop :=
  match p with
  | Ret a => Q a S K
  | Vis e k => wp_event c S K e (fun r S' K' => wp c S' K' (k r) Q)
  end.

(** ** The interleaved system *)

Record thread := MkProc { th_care : care; th_prog : prog unit }.

Record system := MkSys {
  sys_table : table;
  sys_stopped : list string;
  sys_threads : gmap nat thread
}.

(** A stop that succeeds, or fails because the sandbox is gone, is recorded. *)
Definition stopped_after {R} (e : event R) : R -> list string -> list string :=
  match e in event R return R -> list string -> list string with
  | EStopSandbox _ sb _ => fun r S => if gone r then sb :: S else S
  | _ => fun _ S => S
  end.

Section interleaving.
(** The handlers goroutines run, each with its care. *)
Context (entry : care -> prog unit -> Prop).

(** The label is the care of the goroutine that moved. *)
Inductive sys_step : option care -> system -> system -> Prop :=
| sys_spawn i c p t S ths :
    ths !! i = None -> entry c p ->
    sys_step None (MkSys t S ths) (MkSys t S (<[i := MkProc c p]> ths))
| sys_event i c R (e : event R) k r t t' S ths :
    ths !! i = Some (MkProc c (Vis e k)) -> answers e t r t' ->
    sys_step (Some c) (MkSys t S ths)
      (MkSys t' (stopped_after e r S) (<[i := MkProc c (k r)]> ths))
| sys_return i c t S ths :
    ths !! i = Some (MkProc c (Ret tt)) ->
    sys_step None (MkSys t S ths) (MkSys t S (delete i ths)).

Definition sys_steps : system -> system -> Prop := rtc (fun s s' => exists l, sys_step l s s').

Definition sys_reachable (s : system) : Prop := sys_steps (MkSys ∅ [] ∅) s.

(** At some point of a run that leads to [s], a row was as the view says. *)
Definition held (s : system) (v : view) : Prop :=
  exists s0, sys_reachable s0 /\ sys_steps s0 s /\ shows (sys_table s0) v.
End interleaving.

(** ** Adequacy *)

Definition any {A} : post A := fun _ _ _ => True.

Definition rows_ok (t : table) : Prop := forall id r, t !! id = Some r -> view_ok (row_view r).

(** [past]: the views rows have had.  What a goroutine knows is among them. *)
Definition thread_ok (past : view -> Prop) (t : table) (S : list string) (th : thread) : Prop :=
  exists S0 K, (forall x, x ∈ S0 -> x ∈ S) /\ (forall v, v ∈ K -> past v /\ known t v) /\
    wp (th_care th) S0 K (th_prog th) any.

Definition sys_ok (past : view -> Prop) (s : system) : Prop :=
  table_wf (sys_table s) /\ rows_ok (sys_table s) /\
  forall i th, sys_threads s !! i = Some th -> thread_ok past (sys_table s) (sys_stopped s) th.

(** Rows keep to the allowed transitions; new rows satisfy the invariant. *)
Definition table_moves (c : care) (stopped : string -> Prop) (t t' : table) : Prop :=
  (forall id r r', t !! id = Some r -> t' !! id = Some r' ->
     transition_ok c stopped (row_view r) (row_view r')) /\
  (forall id r', t !! id = None -> t' !! id = Some r' -> view_ok (row_view r')).

Lemma status_step_refl s : status_step s s = true.
Proof. unfold status_step. by rewrite bool_decide_eq_true_2. Qed.

Lemma transition_ok_refl c P v : view_ok v -> transition_ok c P v v.
Proof. intros Hv. split; [apply status_step_refl|]. split; [done|]. intros _ Hne [[H _]|[? ?]]; done. Qed.

Lemma table_moves_refl c P t : rows_ok t -> table_moves c P t t.
Proof.
  intros H. split; [|intros; simplify_eq]. intros id r r' Hr Hr'. simplify_eq.
  by eapply transition_ok_refl, H.
Qed.

Lemma table_moves_insert c P t id r r' :
  rows_ok t -> t !! id = Some r -> transition_ok c P (row_view r) (row_view r') ->
  table_moves c P t (<[id := r']> t).
Proof.
  intros Hok Hr Ht. split.
  - intros k s s' Hs. rewrite lookup_insert. case_decide; intros; simplify_eq; [done|].
    by eapply transition_ok_refl, Hok.
  - intros k s' Hs. rewrite lookup_insert. case_decide; intros; simplify_eq.
Qed.

Lemma table_moves_rows c P t t' : rows_ok t -> table_moves c P t t' -> rows_ok t'.
Proof.
  intros Hok [H1 H2] id r' Hr'. destruct (t !! id) as [r|] eqn:Hr; [|by eapply H2].
  by destruct (H1 _ _ _ Hr Hr') as (_ & ? & _).
Qed.

Lemma newRecord_view req payload status fs fr em now :
  row_view (newRecord req payload status fs fr em now) = MkView (req_ID req) 0 status "".
Proof. done. Qed.

Lemma create_moves c P req payload status fs fr em now t :
  rows_ok t -> status = StatusQueued \/ status = StatusFailed ->
  table_moves c P t (createRequest req payload status fs fr em now t).1.
Proof.
  intros Hok Hs. unfold createRequest. case_bool_decide; [by apply table_moves_refl|]. cbv zeta.
  set (rec := newRecord _ _ _ _ _ _ _). destruct (insert_conflicts rec t) eqn:Ec.
  { destruct (ReadState _ t); [by apply table_moves_refl|].
    destruct (_ && _); [destruct (First _ _ t)|]; by apply table_moves_refl. }
  apply insert_conflicts_false in Ec as [Hnone _]. cbn [fst]. split.
  - intros k s s' Hk. rewrite lookup_insert_ne by congruence. intros; simplify_eq.
    by eapply transition_ok_refl, Hok.
  - intros k s' Hk. rewrite lookup_insert. case_decide; intros; simplify_eq.
    all: rewrite newRecord_view; split; [by destruct Hs as [->| ->]|done].
Qed.

Lemma CreateRequest_moves c P req payload now t :
  rows_ok t -> table_moves c P t (CreateRequest req payload now t).1.
Proof. intros H. unfold CreateRequest. by apply create_moves; [|left]. Qed.

Lemma CreateRejectedRequest_moves c P req payload reason now t :
  rows_ok t -> table_moves c P t (CreateRejectedRequest req payload reason now t).1.
Proof. intros H. unfold CreateRejectedRequest. by apply create_moves; [|right]. Qed.

Lemma write_moves c S K st now t t1 :
  table_wf t -> rows_ok t -> (forall v, v ∈ K -> known t v) -> write_allowed c S K st ->
  WriteState st now t = Ok t1 -> table_moves c (fun x => x ∈ S) t t1 /\ shows t1 (bump st).
Proof.
  intros Hwf Hok HK (v & Hv & Hid & Hver & Ht) Hw.
  apply WriteState_Ok in Hw as (r & Hr & Hrv & ->).
  destruct (HK v Hv) as (r0 & Hr0 & Hcase). rewrite Hid, Hr in Hr0. injection Hr0 as <-.
  destruct Hcase as [Hlt|Hview]; [lia|]. 
  assert (Hnew : row_view (updateRecord (written st now) r) = bump st).
  { unfold row_view, bump. rewrite updateRecord_version.
    assert (rec_ID r = sanitizeID (st_ID st)) by (by apply (wf_keyed t Hwf)).
    f_equal; [done| |].
    - change (st_Status (written st now) = st_Status st). unfold written.
      by rewrite applyStateTimestamps_status.
    - change (st_SandboxID (written st now) = st_SandboxID st). unfold written.
      by rewrite applyStateTimestamps_field. }
  split.
  - eapply table_moves_insert; [done|done|]. rewrite Hview, Hnew.
    destruct Ht as (Hs & Ho & Hrel). split; [done|]. split; [done|]. exact Hrel.
  - exists (updateRecord (written st now) r). unfold bump at 1. cbn [v_id].
    by rewrite lookup_insert, decide_True by done.
Qed.

Lemma release_moves c P id w now t : rows_ok t -> table_moves c P t (ReleaseLease id w now t).
Proof.
  intros Hok. unfold ReleaseLease. destruct (t !! sanitizeID id) as [r|] eqn:Hr; [|by apply table_moves_refl].
  case_bool_decide; [|by apply table_moves_refl].
  eapply table_moves_insert; [done|done|]. exact (transition_ok_refl c P (row_view r) (Hok _ _ Hr)).
Qed.

Lemma claim_moves c P w now ttl t t1 x :
  table_wf t -> rows_ok t -> ClaimNextRunnable w now ttl t = Ok (t1, x) -> table_moves c P t t1.
Proof.
  intros Hwf Hok H. destruct x as [[rq st]|].
  - apply ClaimNextRunnable_Some in H as (r & _ & Hr & -> & _); [|by apply wf_keyed].
    eapply table_moves_insert; [done|done|]. pose proof (Hok _ _ Hr) as Hv.
    change (row_view (leaseRecord (TrimSpace w) now (now + ttl) r r))
      with (MkView (rec_ID r) (rec_Version r + 1) (rec_Status r) (rec_SandboxID r)).
    split; [apply status_step_refl|]. split; [exact Hv|]. intros _ Hne [[? _]|[? ?]]; done.
  - apply ClaimNextRunnable_None in H as ->; [by apply table_moves_refl|by apply wf_keyed].
Qed.

Lemma retry_moves P id now t t1 st :
  rows_ok t -> RetryRequest id now t = Ok (t1, st) -> table_moves Plain P t t1.
Proof.
  intros Hok H. unfold RetryRequest in H. cbv zeta in H.
  destruct (t !! sanitizeID id) as [r|] eqn:Hr; [|done].
  destruct (retryAllowed r) eqn:Ha; [|done]. injection H as <- _.
  eapply table_moves_insert; [done|done|].
  change (row_view (retryRecord r now)) with (MkView (rec_ID r) (rec_Version r + 1) StatusQueued "").
  split; [|split; [done|done]]. unfold retryAllowed in Ha. cbn [row_view v_status].
  by destruct (rec_Status r).
Qed.

(** One event of a goroutine: the table moves as allowed, and what the goroutine
    learns is of a row as it is then. *)
Lemma wp_event_adequate {R} c S S0 K (e : event R) Q t r t' :
  table_wf t -> rows_ok t -> (forall x, x ∈ S0 -> x ∈ S) -> (forall v, v ∈ K -> known t v) ->
  wp_event c S0 K e Q -> answers e t r t' ->
  table_moves c (fun x => x ∈ S) t t' /\
  exists S1 K1, (forall x, x ∈ S1 -> x ∈ stopped_after e r S) /\
    (forall v, v ∈ K1 -> v ∈ K \/ shows t' v) /\ Q r S1 K1.
Proof.
  intros Hwf Hok HS HK Hwp Ha.
  assert (HK' : forall v, v ∈ K -> v ∈ K \/ shows t' v) by auto.
  assert (Hmono : forall t1, table_moves c (fun x => x ∈ S0) t t1 -> table_moves c (fun x => x ∈ S) t t1).
  { intros t1 [H1 H2]. split; [|done]. intros id r0 r1 Hr0 Hr1.
    destruct (H1 _ _ _ Hr0 Hr1) as (? & ? & Hrel). split; [done|]. split; [done|].
    intros Hc Hne Hd. apply HS. by apply Hrel. }
  destruct e; cbn [answers wp_event stopped_after] in *.
  - destruct Ha as [-> Ha]. split; [by apply table_moves_refl|]. destruct Hwp as [He Hok'].
    destruct Ha as [->|(er & _ & ->)]; [|by exists S0, K].
    unfold ReadState, readRecord. destruct (t !! sanitizeID id) as [rw|] eqn:Hr; [|by exists S0, K].
    exists S0, (row_view rw :: K). split; [done|].
    pose proof (wf_rows t Hwf _ _ Hr) as Hrow. split.
    + intros v. rewrite elem_of_cons. intros [->|Hv]; [right|by left]. by eapply shows_row.
    + apply (Hok' (recordToState rw)).
      * change (st_ID (recordToState rw)) with (rec_ID rw). rewrite (wf_key _ _ Hrow). apply Hrow.
      * by eapply Hok.
  - destruct Ha as [-> Ha]. split; [by apply table_moves_refl|]. destruct Hwp as [He Hrq].
    exists S0, K. split; [done|]. split; [done|]. destruct Ha as [->|(er & Her & ->)]; [|by apply He].
    unfold ReadRequest, readRecord. by destruct (t !! sanitizeID id); [apply Hrq|apply He].
  - destruct Hwp as (Hall & Her & Hno). destruct Ha as (now & Hn & Ha).
    destruct (WriteState st now t) as [t1|] eqn:Hw.
    + destruct (write_moves c S0 K st now t t1) as [Hmv Hkn]; [done..|].
      destruct Ha as [[-> ->]|[[er ->] [->| ->]]].
      * split; [by apply Hmono|]. exists S0, (bump st :: K). split; [done|]. split; [|done].
        intros v. rewrite elem_of_cons. intros [->|Hv]; auto.
      * split; [by apply table_moves_refl|by exists S0, K].
      * split; [by apply Hmono|by exists S0, K].
    + destruct Ha as [[er ->] ->]. split; [by apply table_moves_refl|by exists S0, K].
  - split; [|by exists S0, K]. destruct Ha as [->|[now ->]]; [by apply table_moves_refl|by apply release_moves].
  - split; [|exists S0, K; by split; [|split; [|apply Hwp]]]. destruct Ha as (now & Hn & [Ha|[_ [->| ->]]]).
    + change t' with ((t', r).1). rewrite Ha. by apply CreateRequest_moves.
    + by apply table_moves_refl.
    + by apply CreateRequest_moves.
  - split; [|exists S0, K; by split; [|split; [|apply Hwp]]]. destruct Ha as (now & Hn & [Ha|[_ [->| ->]]]).
    + change t' with ((t', r).1). rewrite Ha. by apply CreateRejectedRequest_moves.
    + by apply table_moves_refl.
    + by apply CreateRejectedRequest_moves.
  - split; [|by exists S0, K]. destruct Ha as (now & Hn & Ha).
    destruct (ClaimNextRunnable workerID now leaseTTL t) as [[t1 x]|] eqn:Hc.
    + destruct Ha as [[_ ->]|[_ [->| ->]]]; [|by apply table_moves_refl|]; by eapply claim_moves.
    + destruct Ha as [_ ->]. by apply table_moves_refl.
  - destruct Hwp as [-> HQ]. split; [|by exists S0, K]. destruct Ha as (now & Hn & Ha).
    destruct (RetryRequest id now t) as [[t1 x]|] eqn:Hc.
    + destruct Ha as [[_ ->]|[_ [->| ->]]]; [|by apply table_moves_refl|]; by eapply retry_moves.
    + destruct Ha as [[_ ->]|[_ ->]]; by apply table_moves_refl.
  - destruct Ha as [-> _]. split; [by apply table_moves_refl|by exists S0, K].
  - destruct Ha as [-> _]. split; [by apply table_moves_refl|by exists S0, K].
  - destruct Ha as [-> _]. split; [by apply table_moves_refl|by exists S0, K].
  - destruct Ha as [-> _]. split; [by apply table_moves_refl|by exists S0, K].
  - subst t'. split; [by apply table_moves_refl|]. destruct Hwp as (_ & Hg & Hng).
    destruct (gone r) eqn:E; [|by exists S0, K; auto].
    exists (sandboxID :: S0), K. split; [|by auto].
    intros x. rewrite !elem_of_cons. intros [->|Hx]; auto.
  - subst t'. split; [by apply table_moves_refl|by exists S0, K].
Qed.

Lemma stopped_after_mono {R} (e : event R) r S x : x ∈ S -> x ∈ stopped_after e r S.
Proof. intros H. destruct e; cbn [stopped_after]; try done. destruct (gone r); [by right|done]. Qed.

Section adequacy.
Context (entry : care -> prog unit -> Prop).
Context (Hentry : forall c p, entry c p -> wp c [] [] p any).

(** What a step does to the table, by the care of the goroutine that moved. *)
Definition step_moves (l : option care) (s s' : system) : Prop :=
  match l with
  | Some c => table_moves c (fun x => x ∈ sys_stopped s) (sys_table s) (sys_table s')
  | None => sys_table s' = sys_table s
  end.

Lemma sys_step_ok past past' l s s' :
  (forall v, past v -> past' v) -> (forall v, shows (sys_table s') v -> past' v) ->
  sys_ok past s -> sys_step entry l s s' -> sys_ok past' s' /\ step_moves l s s'.
Proof.
  intros Hp Hnew (Hwf & Hok & Hth) Hs.
  assert (Hkeep : forall t' S' th, (t' = sys_table s \/ store_step (sys_table s) t') ->
    (forall x, x ∈ sys_stopped s -> x ∈ S') ->
    thread_ok past (sys_table s) (sys_stopped s) th -> thread_ok past' t' S' th).
  { intros t' S' th Ht HS' (S2 & K2 & HS2 & HK2 & Hwp2). exists S2, K2. split; [auto|]. split; [|done].
    intros v Hv. destruct (HK2 v Hv) as [Hpv Hkn]. split; [auto|].
    destruct Ht as [->|Ht]; [done|by eapply known_step]. }
  destruct Hs as [i c p t S ths Hi He|i c R e k r t t' S ths Hi Ha|i c t S ths Hi]; cbn in *.
  - split; [|done]. split; [done|]. split; [done|]. cbn. intros j th. rewrite lookup_insert.
    case_decide; [|intros Hj; by apply Hkeep; [left|..|eapply Hth]]. intros [= <-]. exists [], [].
    split; [by intros x ?%elem_of_nil|]. split; [by intros x ?%elem_of_nil|]. by apply Hentry.
  - destruct (Hth _ _ Hi) as (S0 & K & HS & HK & Hwp).
    assert (HK0 : forall v, v ∈ K -> known t v) by (intros v Hv; by apply HK).
    destruct (wp_event_adequate c S S0 K e _ t r t' Hwf Hok HS HK0 Hwp Ha) as [Hmv (S1 & K1 & HS1 & HK1 & Hwp1)].
    pose proof (answers_step e t r t' Ha) as Hst.
    split; [|exact Hmv]. split; [destruct Hst as [->|Hst]; [done|by eapply step_wf]|].
    split; [by eapply table_moves_rows|]. cbn. intros j th. rewrite lookup_insert.
    case_decide; intros Hj; [|apply Hkeep; [done|apply stopped_after_mono|by eapply Hth]].
    injection Hj as <-. exists S1, K1. split; [done|]. split; [|done]. intros v Hv.
    destruct (HK1 v Hv) as [Hold|Hsh]; [|split; [by apply Hnew|by apply shows_known]].
    destruct (HK v Hold) as [Hpv Hkn]. split; [auto|].
    destruct Hst as [->|Hst]; [done|by eapply known_step].
  - split; [|done]. split; [done|]. split; [done|]. cbn. intros j th Hj.
    apply lookup_delete_Some in Hj as [_ Hj]. by apply Hkeep; [left|..|eapply Hth].
Qed.

Lemma sys_ok_empty past : sys_ok past (MkSys ∅ [] ∅).
Proof.
  split; [apply table_wf_empty|]. split; [intros id r; cbn; by rewrite lookup_empty|].
  intros i th. cbn. by rewrite lookup_empty.
Qed.

Lemma held_step l s s' v : sys_step entry l s s' -> held entry s v -> held entry s' v.
Proof. intros Hs (s0 & H0 & H1 & Hv). exists s0. split; [done|]. split; [eapply rtc_r; eauto|done]. Qed.

Lemma sys_next_ok l s s' :
  sys_reachable entry s -> sys_ok (held entry s) s -> sys_step entry l s s' ->
  sys_ok (held entry s') s' /\ step_moves l s s'.
Proof.
  intros Hr Hok Hs. apply (sys_step_ok (held entry s)); [|..|done|done].
  - intros v. by eapply held_step.
  - intros v Hv. exists s'. split; [eapply rtc_r; eauto|]. split; [apply rtc_refl|done].
Qed.

Lemma sys_reachable_ok s : sys_reachable entry s -> sys_ok (held entry s) s.
Proof.
  revert s. apply (rtc_ind_r (fun s => sys_ok (held entry s) s)); [apply sys_ok_empty|].
  intros s1 s2 H01 [l H12] IH. by destruct (sys_next_ok l s1 s2 H01 IH H12).
Qed.

Lemma sys_moves l s s' : sys_reachable entry s -> sys_step entry l s s' -> step_moves l s s'.
Proof. intros Hr Hs. by destruct (sys_next_ok l s s' Hr (sys_reachable_ok s Hr) Hs). Qed.
End adequacy.

(** ** Rules *)

Lemma wp_event_mono {R} c S K (e : event R) (Q Q' : post R) :
  (forall r S' K', Q r S' K' -> Q' r S' K') -> wp_event c S K e Q -> wp_event c S K e Q'.
Proof.
  intros HQ. destruct e; cbn [wp_event]; try (intros H r; by apply HQ).
  - intros [H1 H2]. split; intros; apply HQ; by auto.
  - intros [H1 H2]. split; intros; apply HQ; by auto.
  - intros (H0 & H1 & H2). split; [done|]. split; intros; apply HQ; by auto.
  - intros [H1 H2]. split; intros; [done|]. apply HQ; by auto.
  - intros (H0 & H1 & H2). split; [done|]. split; intros; apply HQ; by auto.
Qed.

Lemma wp_bind {A B} c S K (p : prog A) (f : A -> prog B) Q :
  wp c S K p (fun a S' K' => wp c S' K' (f a) Q) -> wp c S K (bind p f) Q.
Proof.
  revert S K. induction p as [a|R e k IH]; intros S K; [done|]. cbn [wp bind].
  apply wp_event_mono. intros r S' K'. apply IH.
Qed.

Lemma wp_mono {A} c S K (p : prog A) (Q Q' : post A) :
  (forall a S' K', Q a S' K' -> Q' a S' K') -> wp c S K p Q -> wp c S K p Q'.
Proof.
  intros HQ. revert S K. induction p as [a|R e k IH]; intros S K; [apply HQ|]. cbn [wp].
  apply wp_event_mono. intros r S' K'. apply IH.
Qed.

(** A stricter care implies a weaker one. *)
Definition stricter (c c' : care) : Prop := (c' <> Plain -> c <> Plain) /\ (c' = Careful -> c = Careful).

Lemma wp_weaken {A} c c' S K (p : prog A) Q : stricter c c' -> wp c S K p Q -> wp c' S K p Q.
Proof.
  intros [Hp Hc]. revert S K. induction p as [a|R e k IH]; intros S K; [done|]. cbn [wp].
  assert (Ht : forall P v v', transition_ok c P v v' -> transition_ok c' P v v').
  { intros P v v' (? & ? & Hr). split; [done|]. split; [done|]. intros ?. by apply Hr, Hp. }
  destruct e; cbn [wp_event]; try (intros H r; by apply IH).
  - intros [H1 H2]. split; intros; by auto.
  - intros [H1 H2]. split; intros; by auto.
  - intros ((v & Hv1 & Hv2 & Hv3 & Hv4) & H1 & H2). split; [exists v; by auto|]. split; intros; by auto.
  - intros [-> H2]. split; [|intros; by auto]. destruct c'; [by specialize (Hc eq_refl)| |done].
    exfalso. by apply Hp.
  - intros (H0 & H1 & H2). split; [by auto|]. split; intros; by auto.
Qed.
