(* ===== verification/Interp.v ===== *)
(** * A deterministic interpreter of handlers

    Runs a handler alone, with a working database, a fixed clock for the store
    and an oracle for all other systems.  It is used to state what a handler
    achieves when nothing fails, and to build concrete runs of the interleaved
    system. *)

From stdpp Require Import base gmap list strings.
From S2P Require Import Prelude GoStrings Query RunnerModel RunnerStore RunnerQueries Catalog Retry Effects.

(** The other systems: answers to calls, and to stopping a sandbox. *)
Record oracle := MkOracle {
  or_call : forall R, call R -> R;
  or_stop : string -> option goerror
}.

Section interp.
Context (o : oracle) (now : Time).

Definition answer {R} (e : event R) (t : table) : R * table :=
  match e in event R return R * table with
  | EReadState id => (ReadState id t, t)
  | EReadRequest id => (ReadRequest id t, t)
  | EWriteState st => match WriteState st now t with Ok t1 => (None, t1) | Err e => (Some e, t) end
  | EReleaseLease id w => (tt, ReleaseLease id w now t)
  | ECreate req payload => let '(t1, r) := CreateRequest req payload now t in (r, t1)
  | ECreateRejected req payload reason => let '(t1, r) := CreateRejectedRequest req payload reason now t in (r, t1)
  | EClaim w ttl => match ClaimNextRunnable w now ttl t with Ok (t1, c) => (Ok c, t1) | Err e => (Err e, t) end
  | ERetry id => match RetryRequest id now t with Ok (t1, st) => (Ok st, t1) | Err e => (Err e, t) end
  | ECountSponsored i j => (Ok (Z.of_nat (Count (sponsored i j) t)), t)
  | EListActive => (Ok (ListActiveStates t), t)
  | EListMismatched n => (Ok (ListMismatchedCompletedStates n t), t)
  | EListFailed n => (Ok (ListFailedWorkflowJobStates n t), t)
  | EStopSandbox _ sb _ => (or_stop o sb, t)
  | ECall c => (or_call o _ c, t)
  end.

(** A whole run: the result, the table and the sandboxes reported stopped. *)
Fixpoint run {A} (p : prog A) (t : table) (S : list string) : A * table * list string :=
  match p with
  | Ret a => (a, t, S)
  | Vis e k => let '(r, t1) := answer e t in run (k r) t1 (stopped_after e r S)
  end.

(** The first [n] events of a run. *)
Fixpoint run_n {A} (n : nat) (p : prog A) (t : table) (S : list string) : prog A * table * list string :=
  match n, p with
  | S n, Vis e k => let '(r, t1) := answer e t in run_n n (k r) t1 (stopped_after e r S)
  | _, _ => (p, t, S)
  end.

Lemma run_bind {A B} (p : prog A) (f : A -> prog B) t S :
  run (bind p f) t S = let '(a, t1, S1) := run p t S in run (f a) t1 S1.
Proof.
  revert t S. induction p as [a|R e k IH]; intros t S; [done|]. cbn [bind run].
  destruct (answer e t) as [r t1]. apply IH.
Qed.

Lemma answer_answers {R} (e : event R) t : now <> 0%Z -> answers e t (answer e t).1 (answer e t).2.
Proof.
  intros Hn. destruct e; cbn [answer answers fst snd]; try done; try (split; [done|by left]).
  - exists now. split; [done|]. destruct (WriteState st now t); [by left|]. split; [by eexists|done].
  - right. by exists now.
  - exists now. split; [done|]. left. by destruct (CreateRequest req payload now t).
  - exists now. split; [done|]. left. by destruct (CreateRejectedRequest req payload reason now t).
  - exists now. split; [done|]. destruct (ClaimNextRunnable _ _ _ _) as [[? ?]|]; [by left|].
    split; [by eexists|done].
  - exists now. split; [done|]. destruct (RetryRequest _ _ _) as [[? ?]|]; [by left|by left].
Qed.

(** A goroutine that runs alone is a run of the system. *)
Lemma run_n_reachable entry n i c p t S ths :
  now <> 0%Z -> sys_reachable entry (MkSys t S ths) -> ths !! i = Some (MkProc c p) ->
  let '(p1, t1, S1) := run_n n p t S in sys_reachable entry (MkSys t1 S1 (<[i := MkProc c p1]> ths)).
Proof.
  intros Hn. revert p t S ths. induction n as [|n IH]; intros p t S ths Hr Hi.
  { cbn [run_n]. by rewrite insert_id. }
  destruct p as [a|R e k]; cbn [run_n]; [by rewrite insert_id|].
  destruct (answer e t) as [r t1] eqn:Ea.
  assert (Hans : answers e t r t1) by (pose proof (answer_answers e t Hn) as H; by rewrite Ea in H).
  specialize (IH (k r) t1 (stopped_after e r S) (<[i := MkProc c (k r)]> ths)).
  destruct (run_n n (k r) t1 (stopped_after e r S)) as [[p2 t2] S2].
  rewrite insert_insert in IH. rewrite decide_True in IH by done. apply IH.
  - unfold sys_reachable. eapply rtc_r; [exact Hr|]. exists (Some c). by eapply sys_event.
  - by rewrite lookup_insert, decide_True.
Qed.

(** Enough events finish a run. *)
Lemma run_n_run {A} (p : prog A) t S : exists n, run_n n p t S = (Ret (run p t S).1.1, (run p t S).1.2, (run p t S).2).
Proof.
  revert t S. induction p as [a|R e k IH]; intros t S; [by exists 0|]. cbn [run].
  destruct (answer e t) as [r t1] eqn:Ea. destruct (IH r t1 (stopped_after e r S)) as [n Hn].
  exists (Datatypes.S n). cbn [run_n]. by rewrite Ea.
Qed.

(** Handlers that run one after the other are a run of the system. *)
Lemma run_reachable entry c (p : prog unit) t S :
  now <> 0%Z -> sys_reachable entry (MkSys t S ∅) -> entry c p ->
  sys_reachable entry (MkSys (run p t S).1.2 (run p t S).2 ∅).
Proof.
  intros Hn Hr He. destruct (run_n_run p t S) as [n Hrun].
  assert (Hsp : sys_reachable entry (MkSys t S (<[0 := MkProc c p]> ∅))).
  { eapply rtc_r; [exact Hr|]. exists None. constructor; [apply lookup_empty|done]. }
  pose proof (run_n_reachable entry n 0 c p t S _ Hn Hsp (lookup_insert_eq _ _ _)) as H.
  rewrite Hrun, insert_insert, decide_True in H by done. eapply rtc_r; [exact H|]. exists None.
  destruct ((run p t S).1.1). erewrite <- (delete_insert_id ∅ 0); [|apply lookup_empty].
  eapply sys_return. apply lookup_insert_eq.
Qed.

(** The next event of the goroutine. *)
Lemma run_n_step entry i c R (e : event R) k t S ths :
  now <> 0%Z -> ths !! i = Some (MkProc c (Vis e k)) ->
  sys_step entry (Some c) (MkSys t S ths)
    (MkSys (answer e t).2 (stopped_after e (answer e t).1 S) (<[i := MkProc c (k (answer e t).1)]> ths)).
Proof. intros Hn Hi. eapply sys_event; [exact Hi|by apply answer_answers]. Qed.

Lemma spawn_reachable (entry : care -> prog unit -> Prop) i c p t S ths :
  sys_reachable entry (MkSys t S ths) -> ths !! i = None -> entry c p ->
  sys_reachable entry (MkSys t S (<[i := MkProc c p]> ths)).
Proof. intros Hr Hi He. eapply rtc_r; [exact Hr|]. exists None. by constructor. Qed.
End interp.
