(* ===== verification/Lifecycle.v ===== *)
(** * The runner lifecycle
    (internal/server/server_runner_lifecycle.go)

    The handlers that stop, fail, finish and recover runners, as event trees.
    Log lines, metrics, traces, timeouts of contexts and the per-request locks
    are left out; everything that reads or writes a row or calls GitHub or the
    sandbox service is kept, in the order of the code.  The functions of the
    code that mutate a [*state.RunnerState] return the new state. *)

From stdpp Require Import base list strings.
From S2P Require Import Prelude GoStrings RunnerModel RunnerStore Retry Effects.

(** ** Attempts *)

Record runnerAttemptIdentity := MkAttempt { att_sandboxID : string; att_processPID : Z }.

Definition specified (a : runnerAttemptIdentity) : bool :=
  negb (bool_decide (TrimSpace (att_sandboxID a) = "")) || negb (att_processPID a =? 0)%Z.

Definition attempt_matches (a : runnerAttemptIdentity) (st : RunnerState) : bool :=
  negb (bool_decide (TrimSpace (att_sandboxID a) = "")) && negb (att_processPID a =? 0)%Z
  && bool_decide (att_sandboxID a = st_SandboxID st) && (att_processPID a =? st_ProcessPID st)%Z.

(** [sandboxrunner.PlatformForLabels(labels) == PlatformWindows] *)
Definition PlatformForLabels (labels : list string) : bool :=
  existsb (fun label => EqualFold (TrimSpace label) "windows") labels.

Definition is_status (st : RunnerState) (s : Status) : bool := status_is (st_Status st) s.

(** creating or running *)
Definition is_live (st : RunnerState) : bool := is_status st StatusCreating || is_status st StatusRunning.

Section lifecycle.
Context (cfg : server_config).

(** ** Shared steps *)

Definition read_state (id : string) : prog (result RunnerState) := trigger (EReadState id).
Definition write_state (st : RunnerState) : prog (option goerror) := trigger (EWriteState st).

Definition bump_version (st : RunnerState) : RunnerState := st <| st_Version := (st_Version st + 1)%Z |>.

Definition writeStateOrLog (st : RunnerState) : prog unit := write_state st ;; Ret tt.

Definition stopSandboxWithTimeout (id sandboxID : string) (pid : Z) : prog (option goerror) :=
  let! rq := trigger (EReadRequest id) in
  match rq with
  | Err e => Ret (Some (ErrWrap "read runner request for sandbox service: " e ""))
  | Ok req => trigger (EStopSandbox req sandboxID pid)
  end.

Definition cleanupGitHubRunner (st : RunnerState) : prog (option goerror) :=
  if bool_decide (TrimSpace (st_RunnerName st) = "") then Ret None
  else if bool_decide (TrimSpace (st_RepositoryFullName st) = "") then Ret None
  else
    let! r := ask (RemoveRunnerByName (st_RepositoryFullName st) (st_RunnerGroup st) (st_RunnerName st)) in
    Ret (match r with Ok _ => None | Err e => Some e end).

Definition githubRunnerBusy (st : RunnerState) : prog (result bool) :=
  let runnerName := TrimSpace (st_RunnerName st) in
  if bool_decide (runnerName = "") || bool_decide (TrimSpace (st_RepositoryFullName st) = "") then Ret (Ok false)
  else
    let! r := ask (ListRunners (st_RepositoryFullName st) (st_RunnerGroup st)) in
    Ret (match r with
         | Err e => Err e
         | Ok runners =>
             Ok (match find (fun x => bool_decide (x.1 = runnerName)) runners with
                 | Some (_, busy) => busy
                 | None => false
                 end)
         end).

Definition originalWorkflowJobQueued (st : RunnerState) : prog (result bool) :=
  if (st_WorkflowJobID st =? 0)%Z || bool_decide (TrimSpace (st_RepositoryFullName st) = "") then Ret (Ok false)
  else
    let! r := ask (GetWorkflowJob (st_RepositoryFullName st) (st_WorkflowJobID st)) in
    Ret (match r with
         | Err e => Err e
         | Ok job => Ok (EqualFold (TrimSpace (job_Status job)) "queued")
         end).

(** Returns the error and the state the caller goes on with. *)
Definition writeRunnerCleanupStart (st : RunnerState) (startedAt : Time) : prog (option goerror * RunnerState) :=
  let st := markRunnerCleanupStarted st startedAt in
  let! err := write_state st in
  match err with
  | Some e => Ret (Some e, st)
  | None => Ret (None, bump_version st)
  end.

Definition cleanupSandboxAfterExit (id : string) (st : RunnerState) : prog (option goerror) :=
  if bool_decide (st_SandboxID st = "") then Ret None
  else
    let! err := stopSandboxWithTimeout id (st_SandboxID st) (st_ProcessPID st) in
    Ret (match err with
         | Some e => if isSandboxGone e then None else Some e
         | None => None
         end).

(** ** A runner process that ended *)

Definition retryRunnerExitedWithoutJob (st : RunnerState) : prog RunnerState :=
  if (st_WorkflowJobID st =? 0)%Z || negb (st_AssignedJobID st =? 0)%Z
     || negb (bool_decide (st_AssignedJobName st = "")) then Ret st
  else
    let err := if bool_decide (st_Error st = "") then ErrRunnerExitedWithoutJob
               else ErrWrap "" ErrRunnerExitedWithoutJob (": " +:+ st_Error st) in
    let! now := ask Now in
    let '(st, _) := applyFailure cfg st "runner_exit" err true now in
    Ret (if is_status st StatusQueued
         then st <| st_TerminationSource := "" |> <| st_RunnerExitCode := None |> else st).

Definition recordLateRunnerExitEvidence (st : RunnerState) (attempt : runnerAttemptIdentity)
    (result : ExitResult) (err : option goerror) : prog unit :=
  if negb (attempt_matches attempt st)
     || (negb (is_status st StatusStopping) && negb (isTerminalRunnerStatus (st_Status st))) then Ret tt
  else
    let effectiveVersion := TrimSpace (exit_EffectiveRunnerVersion result) in
    let versionChanged := bool_decide (st_EffectiveRunnerVersion st = "")
                          && negb (bool_decide (effectiveVersion = "")) in
    let st := if versionChanged then st <| st_EffectiveRunnerVersion := effectiveVersion |> else st in
    match err, st_RunnerExitCode st with
    | None, None => write_state (st <| st_RunnerExitCode := Some (exit_ExitCode result) |>) ;; Ret tt
    | _, _ => if versionChanged then write_state st ;; Ret tt else Ret tt
    end.

Definition retainWorkflowJobResultAfterRunnerExit (id : string) : prog unit :=
  let settled st := is_status st StatusStopping || isTerminalRunnerStatus (st_Status st) in
  let! r := read_state id in
  match r with
  | Err _ => Ret tt
  | Ok st =>
      if negb (settled st) || (st_WorkflowJobID st =? 0)%Z
         || bool_decide (TrimSpace (st_RepositoryFullName st) = "")
         || negb (IsZero (st_GitHubJobObservedAt st)) then Ret tt
      else
        let! j := ask (GetWorkflowJob (st_RepositoryFullName st) (st_WorkflowJobID st)) in
        match j with
        | Err _ => Ret tt
        | Ok job =>
            let! r := read_state id in
            match r with
            | Err _ => Ret tt
            | Ok latest =>
                if negb (st_WorkflowJobID latest =? st_WorkflowJobID st)%Z
                   || negb (bool_decide (st_RepositoryFullName latest = st_RepositoryFullName st))
                   || negb (settled latest) || negb (IsZero (st_GitHubJobObservedAt latest)) then Ret tt
                else
                  let! now := ask Now in
                  let '(latest, changed) := retainWorkflowJobResult latest job now in
                  if changed then write_state latest ;; Ret tt else Ret tt
            end
        end
  end.

(** The last write of an exit: a failed attempt that never got a job is retried. *)
Definition finishExit (retry : bool) (st : RunnerState) : prog unit :=
  let! st := (if retry then retryRunnerExitedWithoutJob st else Ret st) in
  writeStateOrLog st ;;
  if is_status st StatusQueued then ask SignalQueue else Ret tt.

(** The process could not be watched to its end. *)
Definition exitWithError (id : string) (st : RunnerState) (err : goerror) : prog unit :=
  let st := st <| st_Status := StatusFailed |> <| st_Error := error_text err |>
               <| st_FailureStage := "runner_exit" |> <| st_FailureReason := "process_error" |> in
  let! now := ask Now in
  let! (writeErr, st) := writeRunnerCleanupStart st now in
  match writeErr with
  | Some _ => Ret tt
  | None =>
      let! sandboxErr := cleanupSandboxAfterExit id st in
      let st := match sandboxErr with
                | Some e => st <| st_Error := st_Error st +:+ "; cleanup sandbox: " +:+ error_text e |>
                | None => st
                end in
      let! githubErr := cleanupGitHubRunner st in
      match githubErr with
      | Some e =>
          let! now := ask Now in
          let '(scheduled, st') := scheduleCleanupRetry cfg st e now in
          if scheduled then writeStateOrLog st'
          else
            finishExit false (st <| st_Error := appendError (st_Error st) ("github runner cleanup: " +:+ error_text e) |>
                                 <| st_Status := StatusFailed |>)
      | None => finishExit (match sandboxErr with None => true | Some _ => false end)
                  (st <| st_Status := StatusFailed |>)
      end
  end.

(** The process ended with an exit code. *)
Definition exitWithCode (id : string) (st : RunnerState) (result : ExitResult) : prog unit :=
  let st := st <| st_RunnerExitCode := Some (exit_ExitCode result) |> in
  let st := if (exit_ExitCode result =? 0)%Z then st
            else st <| st_Status := StatusFailed |> <| st_Error := runnerExitMessage result |>
                    <| st_FailureStage := "runner_exit" |>
                    <| st_FailureReason := FormatInt (exit_ExitCode result) |> in
  let runnerFailed := is_status st StatusFailed in
  let! now := ask Now in
  let! (writeErr, st) := writeRunnerCleanupStart st now in
  match writeErr with
  | Some _ => Ret tt
  | None =>
      let! sandboxErr := cleanupSandboxAfterExit id st in
      let! now := ask Now in
      let st := match sandboxErr with
                | Some e => st <| st_Status := StatusFailed |>
                               <| st_Error := "cleanup sandbox after runner exit: " +:+ error_text e |>
                | None => if runnerFailed then st <| st_Status := StatusFailed |>
                          else st <| st_Status := StatusCompleted |> <| st_CompletedAt := now |>
                end in
      let! githubErr := cleanupGitHubRunner st in
      let finish st :=
        finishExit (is_status st StatusCompleted
                    || (match sandboxErr with None => true | Some _ => false end
                        && bool_decide (st_FailureStage st = "runner_exit"))) st in
      match githubErr with
      | Some e =>
          let! now := ask Now in
          let '(scheduled, st') := scheduleCleanupRetry cfg st e now in
          if scheduled then writeStateOrLog st'
          else
            finish (st <| st_Status := StatusFailed |> <| st_FailureStage := "cleanup" |>
                       <| st_FailureReason := "github_runner_cleanup_failed" |>
                       <| st_Error := appendError (st_Error st) ("github runner cleanup: " +:+ error_text e) |>)
      | None => finish st
      end
  end.

(** From the termination source on; the deferred result retention comes last. *)
Definition finishRunnerExit (id : string) (st : RunnerState) (result : ExitResult) (err : option goerror)
    : prog unit :=
  let st := setTerminationSource st TerminationSourceProcessExit in
  match err with
  | Some e => exitWithError id st e
  | None => exitWithCode id st result
  end ;;
  retainWorkflowJobResultAfterRunnerExit id.

Definition noteEffectiveVersion (st : RunnerState) (result : ExitResult) : RunnerState :=
  if bool_decide (st_EffectiveRunnerVersion st = "")
  then st <| st_EffectiveRunnerVersion := TrimSpace (exit_EffectiveRunnerVersion result) |> else st.

(** The stream ended while GitHub reports the runner busy: keep it running. *)
Definition busyState (st : RunnerState) (result : ExitResult) (err : option goerror) : RunnerState :=
  let message := "runner process stream ended while GitHub still reports the runner is busy"
    +:+ ": " +:+ (match err with Some e => error_text e | None => runnerExitMessage result end) in
  let st := st <| st_Status := StatusRunning |> <| st_LastErrorCode := "github_runner_busy" |>
               <| st_LastErrorMessage := message |> <| st_LastErrorRetryable := true |>
               <| st_Error := message |> in
  if bool_decide (st_AssignedJobName st = "") then st <| st_AssignedJobName := runnerJobStartedMarker |> else st.

Definition runnerExitedForAttempt (id : string) (attempt : runnerAttemptIdentity) (result : ExitResult)
    (err : option goerror) : prog unit :=
  let! r := read_state id in
  match r with
  | Err _ => Ret tt
  | Ok st =>
      if specified attempt && negb (attempt_matches attempt st) then Ret tt
      else if negb (is_live st) then recordLateRunnerExitEvidence st attempt result err
      else
        let st := noteEffectiveVersion st result in
        if negb (shouldCheckGitHubBusyAfterRunnerExit result err) then finishRunnerExit id st result err
        else
          let! busy := githubRunnerBusy st in
          let! r := read_state id in
          match r with
          | Err _ => Ret tt
          | Ok st =>
              if negb (attempt_matches attempt st) then Ret tt
              else if negb (is_live st) then recordLateRunnerExitEvidence st attempt result err
              else
                let st := noteEffectiveVersion st result in
                match busy with
                | Ok true =>
                    let! w := write_state (busyState st result err) in
                    match w with
                    | None => Ret tt
                    | Some _ =>
                        let! r := read_state id in
                        match r with
                        | Err _ => Ret tt
                        | Ok st =>
                            if negb (attempt_matches attempt st) || negb (is_live st) then Ret tt
                            else finishRunnerExit id st result err
                        end
                    end
                | _ => finishRunnerExit id st result err
                end
          end
  end.

(** ** Stopping a runner *)

Abbreviation stop_result := (RunnerState * bool * option goerror)%type.

(** [return state.RunnerState{}, false, err] *)
Definition stop_error (e : goerror) : prog stop_result := Ret (zero_state, false, Some e).

Definition clearLastError (st : RunnerState) : RunnerState :=
  st <| st_LastErrorCode := "" |> <| st_LastErrorMessage := "" |> <| st_LastErrorRetryable := false |>.

Definition clearFailure (st : RunnerState) : RunnerState :=
  st <| st_Error := "" |> <| st_FailureStage := "" |> <| st_FailureReason := "" |>.

(** The state of a request whose original job GitHub still has queued. *)
Definition mismatchRequeueState (st : RunnerState) : RunnerState :=
  let st := clearRunnerEnvironmentSnapshot (st <| st_Status := StatusQueued |> <| st_SandboxID := "" |>) in
  let st := st <| st_ProcessPID := 0%Z |> <| st_AssignedJobID := 0%Z |> <| st_AssignedJobName := "" |>
               <| st_TerminationSource := "" |> <| st_RunnerExitCode := None |> in
  let st := clearLastError (clearFailure st) in
  let st := st <| st_LeaseOwner := "" |> <| st_LeaseExpiresAt := 0%Z |> <| st_NextRetryAt := 0%Z |>
               <| st_CreatingAt := 0%Z |> <| st_RunningAt := 0%Z |> <| st_StoppingAt := 0%Z |>
               <| st_CompletedAt := 0%Z |> <| st_FailedAt := 0%Z |> in
  let st := st <| st_GitHubJobName := "" |> <| st_GitHubJobStatus := "" |> <| st_GitHubJobConclusion := "" |>
               <| st_GitHubJobRunnerName := "" |> <| st_GitHubJobObservedAt := 0%Z |> in
  clearSandboxServiceSnapshot st.

Definition requeueMismatchedWorkflowJob (st : RunnerState) (queued : bool) : prog (result (bool * RunnerState)) :=
  if negb queued then
    let next := st <| st_AssignedJobID := 0%Z |> <| st_AssignedJobName := "" |> in
    let! w := write_state next in
    match w with
    | Some e => Ret (Err (ErrWrap "write mismatched workflow job inspection: " e ""))
    | None => Ret (Ok (false, bump_version next))
    end
  else
    let next := mismatchRequeueState st in
    let! w := write_state next in
    match w with
    | Some e => Ret (Err (ErrWrap "write mismatched workflow job requeue: " e ""))
    | None => ask SignalQueue ;; Ret (Ok (true, bump_version next))
    end.

(** The outcome of a stop whose sandbox and GitHub runner are gone. *)
Definition settledState (st : RunnerState) (now : Time) : RunnerState :=
  let st := if negb (bool_decide (st_FailureStage st = "")) && negb (bool_decide (st_FailureStage st = "cleanup"))
            then st <| st_Status := StatusFailed |> <| st_FailedAt := now |>
            else clearFailure (st <| st_Status := StatusCompleted |> <| st_CompletedAt := now |>) in
  clearLastError (st <| st_NextRetryAt := 0%Z |>).

Definition stopSettle (st : RunnerState) : prog stop_result :=
  let! now := ask Now in
  let st := settledState st now in
  let! w := write_state st in
  match w with
  | Some e => stop_error e
  | None => Ret (st, true, None)
  end.

(** A Windows registration left to clean up is gone: fail, requeue or settle. *)
Definition stopJITCleanup (st : RunnerState) : prog stop_result :=
  if (st_WorkflowJobID st =? 0)%Z then
    let! now := ask Now in
    let st := clearLastError (st <| st_FailureStage := "github_registration" |>
                <| st_FailureReason := "jit_cleanup_pending" |> <| st_Status := StatusFailed |>
                <| st_FailedAt := now |> <| st_NextRetryAt := 0%Z |>) in
    let! w := write_state st in
    match w with
    | Some e => stop_error e
    | None => Ret (bump_version st, false, None)
    end
  else
    let! q := originalWorkflowJobQueued st in
    if match q with Ok b => b | Err _ => true end then
      let st := clearLastError (clearFailure (st <| st_Status := StatusQueued |> <| st_SandboxID := "" |>
                  <| st_ProcessPID := 0%Z |>)) in
      let st := st <| st_LeaseOwner := "" |> <| st_LeaseExpiresAt := 0%Z |> <| st_NextRetryAt := 0%Z |>
                   <| st_StoppingAt := 0%Z |> in
      let! w := write_state st in
      match w with
      | Some e => stop_error e
      | None => ask SignalQueue ;; Ret (bump_version st, false, None)
      end
    else stopSettle (clearFailure st).

(** The runner executed another job than the one that asked for it. *)
Definition stopMismatched (st : RunnerState) : prog stop_result :=
  let! q := originalWorkflowJobQueued st in
  let! r := requeueMismatchedWorkflowJob st (match q with Ok b => b | Err _ => true end) in
  match r with
  | Err e => stop_error e
  | Ok (true, next) => Ret (next, false, None)
  | Ok (false, next) =>
      let! now := ask Now in
      let st := clearFailure (clearLastError (next <| st_Status := StatusCompleted |> <| st_CompletedAt := now |>
                  <| st_NextRetryAt := 0%Z |>)) in
      let! w := write_state st in
      match w with
      | Some e => stop_error e
      | None => Ret (st, false, None)
      end
  end.

Definition stopGitHubRunner (st : RunnerState) (job : WorkflowJob) : prog stop_result :=
  let! cleanupErr := cleanupGitHubRunner st in
  match cleanupErr with
  | Some e =>
      let! now := ask Now in
      let '(scheduled, st') := scheduleCleanupRetry cfg st e now in
      if scheduled then
        let! w := write_state st' in
        match w with
        | Some we => stop_error (ErrWrap ("schedule github runner cleanup retry: " +:+ error_text e
                                          +:+ "; write stopping state: ") we "")
        | None => Ret (bump_version st', false, None)
        end
      else
        let st := st <| st_Status := StatusFailed |> <| st_FailureStage := "cleanup" |>
                     <| st_FailureReason := "github_runner_cleanup_failed" |> <| st_Error := error_text e |> in
        let! w := write_state st in
        match w with
        | Some we => stop_error (ErrWrap ("cleanup github runner: " +:+ error_text e
                                          +:+ "; write failed state: ") we "")
        | None => Ret (st, false, Some e)
        end
  | None =>
      if workflowJobMismatch st job then stopMismatched st
      else if bool_decide (st_FailureReason st = "jit_cleanup_pending") then stopJITCleanup st
      else stopSettle st
  end.

Definition stopFailed (st : RunnerState) (e : goerror) : prog stop_result :=
  let! now := ask Now in
  let '(scheduled, st') := scheduleStopRetry cfg st e now in
  if scheduled then
    let! w := write_state st' in
    match w with
    | Some we => stop_error (ErrWrap ("schedule stop retry: " +:+ error_text e
                                      +:+ "; write stopping state: ") we "")
    | None => Ret (bump_version st', false, None)
    end
  else
    let st := st <| st_Status := StatusFailed |> <| st_FailureStage := "stop" |>
                 <| st_FailureReason := "stop_failed" |> <| st_Error := error_text e |> in
    let! w := write_state st in
    match w with
    | Some we => stop_error (ErrWrap ("stop sandbox: " +:+ error_text e +:+ "; write failed state: ") we "")
    | None => Ret (st, false, Some e)
    end.

(** From the first write of the stopping state on. *)
Definition stopActive (id : string) (st : RunnerState) (job : WorkflowJob) (source : string) : prog stop_result :=
  let st := setTerminationSource (recordAssignedJob st job) source in
  let! now := ask Now in
  let st := markRunnerCleanupStarted st now in
  let! w := write_state st in
  match w with
  | Some e => stop_error (ErrWrap "write stopping state: " e "")
  | None =>
      let st := bump_version st in
      if bool_decide (st_SandboxID st = "") then stopGitHubRunner st job
      else
        let! err := stopSandboxWithTimeout id (st_SandboxID st) (st_ProcessPID st) in
        match err with
        | Some e => if isSandboxGone e then stopGitHubRunner st job else stopFailed st e
        | None => stopGitHubRunner st job
        end
  end.

(** From the state that was read on. *)
Definition stopRead (id : string) (st : RunnerState) (job : WorkflowJob) (source : string) : prog stop_result :=
  let! now := ask Now in
  let '(st, resultChanged) := retainWorkflowJobResult st job now in
  if workflowJobStopConflictsWithAssignment st job then
    if resultChanged then
      let! w := write_state st in
      match w with
      | Some e => stop_error (ErrWrap "write completed github job result: " e "")
      | None => Ret (st, false, None)
      end
    else Ret (st, false, None)
  else if is_status st StatusCompleted then
    let recorded := shouldRecordAssignedJob st job in
    let st := recordAssignedJob st job in
    if resultChanged || recorded then
      let! w := write_state st in
      match w with
      | Some e => stop_error (ErrWrap "write completed job result: " e "")
      | None => Ret (st, recorded, None)
      end
    else Ret (st, recorded, None)
  else stopActive id st job source.

Definition stopRunner (id : string) (job : WorkflowJob) (source : string) : prog stop_result :=
  let! r := read_state id in
  match r with
  | Err e => stop_error e
  | Ok st => stopRead id st job source
  end.

Definition stopIfExists (id : string) (job : WorkflowJob) (source : string) : prog unit :=
  let! r := read_state id in
  match r with
  | Err _ => Ret tt
  | Ok _ => stopRunner id job source ;; Ret tt
  end.

(** ** A forced stop *)

Definition failAndStopRunnerVersion (id : string) (expectedVersion : Z) (stage reason message : string)
    : prog unit :=
  let! r := read_state id in
  match r with
  | Err _ => Ret tt
  | Ok st =>
      if negb (expectedVersion =? 0)%Z && negb (st_Version st =? expectedVersion)%Z then Ret tt
      else if is_status st StatusCompleted || is_status st StatusFailed then Ret tt
      else
        let! now := ask Now in
        let st := setTerminationSource (markRunnerCleanupStarted st now) TerminationSourceFailureCleanup in
        let st := st <| st_FailureStage := stage |> <| st_FailureReason := reason |> <| st_Error := message |> in
        let! w := write_state st in
        match w with
        | Some _ => Ret tt
        | None =>
            let st := bump_version st in
            let! err := (if bool_decide (st_SandboxID st = "") then Ret None
                         else stopSandboxWithTimeout id (st_SandboxID st) (st_ProcessPID st)) in
            if match err with Some e => negb (isSandboxGone e) | None => false end then
              writeStateOrLog (st <| st_Status := StatusFailed |> <| st_FailureStage := "stop" |>
                <| st_FailureReason := "stop_failed" |>
                <| st_Error := "forced stop failed after " +:+ stage +:+ ": "
                     +:+ match err with Some e => error_text e | None => "" end |>)
            else
              let! cleanupErr := cleanupGitHubRunner st in
              let! now := ask Now in
              let finish st :=
                let st := st <| st_Status := StatusFailed |> <| st_FailedAt := now |> in
                let st := if bool_decide (st_FailureStage st = "") then st <| st_FailureStage := stage |> else st in
                let st := if bool_decide (st_FailureReason st = "") then st <| st_FailureReason := reason |> else st in
                let st := if bool_decide (st_Error st = "") then st <| st_Error := message |> else st in
                writeStateOrLog (st <| st_LeaseOwner := "" |> <| st_LeaseExpiresAt := 0%Z |>) in
              match cleanupErr with
              | Some e =>
                  let '(scheduled, st') := scheduleCleanupRetry cfg st e now in
                  if scheduled then writeStateOrLog st'
                  else finish (st <| st_FailureStage := "cleanup" |>
                                  <| st_FailureReason := "github_runner_cleanup_failed" |>
                                  <| st_Error := appendError message ("github runner cleanup: " +:+ error_text e) |>)
              | None => finish st
              end
        end
  end.

Definition failAndStopRunner (id stage reason message : string) : prog unit :=
  failAndStopRunnerVersion id 0 stage reason message.

(** ** Recovery after a restart *)

Definition writeWindowsJITCleanupPending (st : RunnerState) : prog (option goerror) :=
  let! now := ask Now in
  let st := setTerminationSource (markRunnerCleanupStarted st now) TerminationSourceFailureCleanup in
  write_state (st <| st_FailureStage := "cleanup" |> <| st_FailureReason := "jit_cleanup_pending" |>
                  <| st_Error := "JIT Runner cleanup pending" |> <| st_LeaseOwner := "" |>
                  <| st_LeaseExpiresAt := 0%Z |> <| st_NextRetryAt := nextRetryAt cfg 1 now |>).

Definition retainWindowsJITCleanup (id : string) : prog unit :=
  let! r := read_state id in
  match r with
  | Err _ => Ret tt
  | Ok current =>
      if is_status current StatusCreating
         || (is_status current StatusRunning && negb (bool_decide (st_SandboxID current = ""))) then Ret tt
      else writeWindowsJITCleanupPending current ;; Ret tt
  end.

Definition interruptedRequeueState (st : RunnerState) : RunnerState :=
  let st := clearLastError (clearFailure (st <| st_Status := StatusQueued |> <| st_SandboxID := "" |>
              <| st_ProcessPID := 0%Z |>)) in
  clearSandboxServiceSnapshot (clearRunnerEnvironmentSnapshot
    (st <| st_LeaseOwner := "" |> <| st_LeaseExpiresAt := 0%Z |> <| st_NextRetryAt := 0%Z |>
        <| st_CreatingAt := 0%Z |> <| st_RunningAt := 0%Z |> <| st_StoppingAt := 0%Z |>)).

Definition requeueInterruptedCreation (id : string) (stateVersion : Z) : prog (option goerror) :=
  let! r := read_state id in
  match r with
  | Err e => Ret (Some e)
  | Ok st =>
      if negb (st_Version st =? stateVersion)%Z || negb (is_status st StatusCreating) then Ret None
      else
        let! rq := trigger (EReadRequest id) in
        match rq with
        | Err e => Ret (Some (ErrWrap "read interrupted runner request: " e ""))
        | Ok req =>
            let! cleanupErr := (if PlatformForLabels (req_Labels req) then cleanupGitHubRunner st else Ret None) in
            match cleanupErr with
            | Some e =>
                let! w := writeWindowsJITCleanupPending st in
                match w with
                | Some we => Ret (Some (ErrWrap "retain interrupted JIT cleanup: " we ""))
                | None => Ret (Some (ErrWrap "cleanup interrupted JIT Runner: " e ""))
                end
            | None =>
                let! w := write_state (interruptedRequeueState st) in
                match w with
                | Some we => Ret (Some (ErrWrap "requeue interrupted runner creation: " we ""))
                | None => ask SignalQueue ;; Ret None
                end
            end
        end
  end.

(** No job, or a lookup error, is [None]. *)
Definition workflowJobForRecovery (st : RunnerState) : prog (option WorkflowJob) :=
  if (st_WorkflowJobID st =? 0)%Z || bool_decide (TrimSpace (st_RepositoryFullName st) = "") then Ret None
  else
    let! r := ask (GetWorkflowJob (st_RepositoryFullName st) (st_WorkflowJobID st)) in
    Ret (match r with Ok job => Some job | Err _ => None end).

(** The row of a runner that was found again. *)
Definition reconnectedState (latest : RunnerState) (result : SandboxResult) (region : string) : RunnerState :=
  let latest := latest <| st_Status := StatusRunning |> <| st_SandboxID := res_SandboxID result |> in
  let latest := if bool_decide (st_SandboxRegion latest = "") then latest <| st_SandboxRegion := region |> else latest in
  let latest := if bool_decide (st_ResolvedTemplateID latest = "") && negb (bool_decide (res_ResolvedTemplateID result = ""))
                then latest <| st_ResolvedTemplateID := TrimSpace (res_ResolvedTemplateID result) |> else latest in
  let latest := if bool_decide (st_TemplateVersion latest = "") && negb (bool_decide (res_TemplateVersion result = ""))
                then latest <| st_TemplateVersion := TrimSpace (res_TemplateVersion result) |> else latest in
  let latest := if bool_decide (st_RunnerVersion latest = "") && negb (bool_decide (res_RunnerVersion result = ""))
                then latest <| st_RunnerVersion := TrimSpace (res_RunnerVersion result) |> else latest in
  clearLastError (clearFailure (latest <| st_ProcessPID := res_PID result |> <| st_LeaseOwner := "" |>
    <| st_LeaseExpiresAt := 0%Z |>)).

(** What to do when [RecoverRunner] failed. *)
Definition recoverFailed (st : RunnerState) (stateVersion : Z) (job : option WorkflowJob) (result : SandboxResult)
    (err : goerror) : prog (option goerror) :=
  let jobStatus := match job with Some j => job_Status j | None => "" end in
  let preserve := Ret (Some (ErrWrap "reconnect runner: " err "")) in
  let notFound := errors_is err ErrSandboxNotFound in
  if is_status st StatusRunning && notFound then
    failAndStopRunnerVersion (st_ID st) stateVersion "recovery" "sandbox_not_found"
      "runner sandbox no longer exists after restart" ;; Ret None
  else if negb (is_status st StatusCreating) then preserve
  else if notFound && (match job with None => true | Some _ => false end
                       || bool_decide (jobStatus = "queued") || isWorkflowJobWaiting jobStatus) then
    requeueInterruptedCreation (st_ID st) stateVersion
  else if notFound && EqualFold (TrimSpace jobStatus) "in_progress" then
    failAndStopRunnerVersion (st_ID st) stateVersion "recovery" "sandbox_not_found"
      "runner sandbox no longer exists after interrupted creation" ;; Ret None
  else if errors_is err ErrRunnerNotFound && negb (bool_decide (res_SandboxID result = "")) then
    let! stopErr := stopSandboxWithTimeout (st_ID st) (res_SandboxID result) 0 in
    match stopErr with
    | Some e => if isSandboxGone e then requeueInterruptedCreation (st_ID st) stateVersion
                else Ret (Some (ErrWrap "stop sandbox without runner before requeue: " e ""))
    | None => requeueInterruptedCreation (st_ID st) stateVersion
    end
  else preserve.

(** From the timeout check on. *)
Definition recoverSandbox (st : RunnerState) (stateVersion : Z) (job : option WorkflowJob) : prog (option goerror) :=
  let! now := ask Now in
  let timeout := remainingSandboxTimeout cfg st now in
  if (timeout <=? 0)%Z then
    failAndStopRunnerVersion (st_ID st) stateVersion "sandbox_timeout" "timeout"
      "runner exceeded sandbox timeout during recovery" ;; Ret None
  else
    let! rq := trigger (EReadRequest (st_ID st)) in
    match rq with
    | Err e => Ret (Some (ErrWrap "read runner request for recovery: " e ""))
    | Ok req =>
        let! svc := ask (SandboxServiceFor req) in
        match svc with
        | Err e => Ret (Some (ErrWrap "resolve sandbox service for recovery: " e ""))
        | Ok _ =>
            let! (result, err) := ask (RecoverRunner st timeout) in
            match err with
            | Some e => recoverFailed st stateVersion job result e
            | None =>
                let! r := read_state (st_ID st) in
                match r with
                | Err e => Ret (Some e)
                | Ok latest =>
                    if negb (st_Version latest =? stateVersion)%Z || negb (is_live latest) then Ret None
                    else
                      let! region := ask (SandboxRegion (req_SandboxAPIURL req)) in
                      let! w := write_state (reconnectedState latest result region) in
                      match w with
                      | Some e => Ret (Some (ErrWrap "write recovered runner state: " e ""))
                      | None => Ret None
                      end
                end
            end
        end
    end.

Definition recoverActiveRunner (st : RunnerState) (stateVersion : Z) : prog (option goerror) :=
  let! job := workflowJobForRecovery st in
  match job with
  | Some j =>
      if EqualFold (TrimSpace (job_Status j)) "completed" then
        let! (latest, _, err) := stopRunner (st_ID st) j TerminationSourceRecoveryCleanup in
        match err with
        | Some e => Ret (Some e)
        | None => if negb (is_live latest) then Ret None
                  else recoverSandbox latest (st_Version latest) job
        end
      else recoverSandbox st stateVersion job
  | None => recoverSandbox st stateVersion job
  end.

Definition recoverRunner (id : string) : prog (option goerror) :=
  let! r := read_state id in
  match r with
  | Err e => Ret (Some e)
  | Ok st =>
      match st_Status st with
      | StatusQueued =>
          let! w := write_state (st <| st_LeaseOwner := "" |> <| st_LeaseExpiresAt := 0%Z |>) in
          match w with
          | Some e => Ret (Some (ErrWrap "clear queued runner lease: " e ""))
          | None => ask SignalQueue ;; Ret None
          end
      | StatusStopping =>
          let! (_, _, err) := stopRunner id no_job TerminationSourceRecoveryCleanup in
          Ret err
      | StatusCreating | StatusRunning => recoverActiveRunner st (st_Version st)
      | _ => Ret None
      end
  end.

End lifecycle.
