(* ===== verification/LifecycleSafety.v ===== *)
(** * The stop, exit and recovery handlers keep to the status machine *)

From stdpp Require Import base list strings.
From S2P Require Import Prelude GoStrings RunnerModel RunnerStore Retry Effects Lifecycle.

(** ** Rules for the store events *)

(** [w], the view of a local copy, is based on the row last seen as [v]. *)
Record based (K : list view) (v w : view) : Prop := {
  based_in : v ∈ K;
  based_clean : sanitizeID (v_id v) = v_id v;
  based_id : v_id w = v_id v;
  based_version : v_version w = v_version v
}.

Lemma based_set K v i n s b s' b' : based K v (MkView i n s b) -> based K v (MkView i n s' b').
Proof. intros []. by split. Qed.

Lemma based_same K v w w' : based K v w -> v_id w' = v_id w -> v_version w' = v_version w -> based K v w'.
Proof. intros [? ? H1 H2] E1 E2. split; [done|done|by rewrite E1|by rewrite E2]. Qed.

(** The copy has been edited, but not its id or version. *)
Ltac same_row Hb := eapply based_same; [exact Hb|reflexivity|reflexivity].

Lemma based_cons K v w x : based K v w -> based (x :: K) v w.
Proof. intros []. split; [by right|done..]. Qed.

(** After a successful write the code increments the version of its copy. *)
Lemma view_bump st : view_of (bump_version st) =
  MkView (st_ID st) (st_Version st + 1) (st_Status st) (st_SandboxID st).
Proof. done. Qed.

Lemma based_bump K v st :
  based K v (view_of st) -> bump st = view_of (bump_version st) /\
  based (bump st :: K) (view_of (bump_version st)) (view_of (bump_version st)).
Proof.
  intros [_ Hc Hi _]. cbn in Hi.
  assert (E : bump st = view_of (bump_version st)).
  { rewrite view_bump. unfold bump. by rewrite Hi, Hc. }
  split; [done|]. rewrite E. split; [left| |done|done].
  change (sanitizeID (st_ID st) = st_ID st). by rewrite Hi, Hc.
Qed.

Lemma wp_read c S K id Q :
  (forall er, Q (Err er) S K) ->
  (forall st, view_ok (view_of st) -> based (view_of st :: K) (view_of st) (view_of st) ->
     Q (Ok st) S (view_of st :: K)) ->
  wp c S K (read_state id) Q.
Proof.
  intros H1 H2. split; [done|]. intros st Hc Hv. apply H2; [done|]. split; [left|done..].
Qed.

Lemma wp_read_request c S K id Q :
  (forall er, isSandboxGone er = false -> Q (Err er) S K) -> (forall req, Q (Ok req) S K) ->
  wp c S K (trigger (EReadRequest id)) Q.
Proof. intros H1 H2. split; [exact H1|exact H2]. Qed.

Lemma wp_ask {R} c S K (q : call R) Q : (forall r, Q r S K) -> wp c S K (ask q) Q.
Proof. intros H r. apply H. Qed.

Lemma wp_write c S K v st Q :
  based K v (view_of st) -> transition_ok c (fun x => x ∈ S) v (view_of st) ->
  (forall er, Q (Some er) S K) ->
  (based (view_of (bump_version st) :: K) (view_of (bump_version st)) (view_of (bump_version st)) ->
   Q None S (view_of (bump_version st) :: K)) ->
  wp c S K (write_state st) Q.
Proof.
  intros Hb Ht H1 H2. destruct (based_bump K v st Hb) as [E Hb']. destruct Hb as [Hin Hc Hi Hv].
  split; [|split; [done|]].
  - exists v. split; [done|]. cbn in Hi, Hv. split; [by rewrite Hi, Hc|]. split; [done|]. exact Ht.
  - cbn [wp]. rewrite E in Hb' |- *. by apply H2.
Qed.

(** ** Statuses every handler may write *)

Lemma to_queued s : known_status s -> status_step s StatusQueued = true.
Proof. by destruct s. Qed.

Lemma to_stopping s : known_status s -> status_step s StatusStopping = true.
Proof. by destruct s. Qed.

Lemma to_failed s : known_status s -> s <> StatusCompleted -> status_step s StatusFailed = true.
Proof. by destruct s. Qed.

Lemma to_completed s : known_status s -> s <> StatusRunning -> status_step s StatusCompleted = true.
Proof. by destruct s. Qed.

Lemma to_running s : s = StatusCreating \/ s = StatusRunning -> status_step s StatusRunning = true.
Proof. by intros [->| ->]. Qed.

(** A change of neither status nor sandbox. *)
Lemma transition_same c P v v' :
  view_ok v -> v_status v' = v_status v -> v_sandbox v' = v_sandbox v -> transition_ok c P v v'.
Proof.
  intros Hv Hs Hb. unfold transition_ok. rewrite Hs. split; [apply status_step_refl|].
  split; [unfold view_ok; by rewrite Hs, Hb|]. intros _ Hne [[H _]|[? ?]]; congruence.
Qed.

(** Keeping the sandbox and not completing: nothing to release. *)
Lemma transition_keep c P v v' :
  status_step (v_status v) (v_status v') = true -> view_ok v' ->
  v_sandbox v' = v_sandbox v -> v_status v' <> StatusCompleted -> transition_ok c P v v'.
Proof. intros Hs Hv Hb Hc. split; [done|]. split; [done|]. intros _ Hne [[? _]|[? ?]]; congruence. Qed.

(** Forgetting or completing once the sandbox is gone. *)
Lemma transition_release c (P : string -> Prop) v v' :
  status_step (v_status v) (v_status v') = true -> view_ok v' ->
  (v_sandbox v = "" \/ P (v_sandbox v)) -> transition_ok c P v v'.
Proof. intros Hs Hv Hb. split; [done|]. split; [done|]. intros _ Hne _. by destruct Hb. Qed.

Lemma view_ok_status v : view_ok v -> known_status (v_status v).
Proof. by intros []. Qed.

(** A row that is neither queued nor creating satisfies the invariant. *)
Lemma view_ok_other i n s b : known_status s -> s <> StatusQueued -> s <> StatusCreating -> view_ok (MkView i n s b).
Proof. intros Hs Hq Hc. split; [done|]. cbn. intros [?|?]; congruence. Qed.

Lemma view_ok_empty i n s : known_status s -> view_ok (MkView i n s "").
Proof. done. Qed.

(** ** Views of the states the pure steps build *)

Lemma view_retain st job now : view_of (retainWorkflowJobResult st job now).1 = view_of st.
Proof. unfold retainWorkflowJobResult. repeat case_match; done. Qed.

Lemma view_assigned st job : view_of (recordAssignedJob st job) = view_of st.
Proof. unfold recordAssignedJob. by case_match. Qed.

Lemma view_termination st source : view_of (setTerminationSource st source) = view_of st.
Proof. unfold setTerminationSource. by case_match. Qed.

Lemma view_cleanup_started st now :
  view_of (markRunnerCleanupStarted st now) = MkView (st_ID st) (st_Version st) StatusStopping (st_SandboxID st).
Proof. unfold markRunnerCleanupStarted. by case_match. Qed.

Lemma view_effective st result : view_of (noteEffectiveVersion st result) = view_of st.
Proof. unfold noteEffectiveVersion. by case_match. Qed.

Lemma view_stop_retry cfg st e now st' :
  scheduleStopRetry cfg st e now = (true, st') ->
  view_of st' = MkView (st_ID st) (st_Version st) StatusStopping (st_SandboxID st).
Proof. unfold scheduleStopRetry. repeat case_match; intros; by simplify_eq. Qed.

Lemma view_cleanup_retry cfg st e now st' :
  scheduleCleanupRetry cfg st e now = (true, st') ->
  view_of st' = MkView (st_ID st) (st_Version st) StatusStopping (st_SandboxID st).
Proof.
  unfold scheduleCleanupRetry. destruct (classifyRetryableError _ _) as [code r]. cbv zeta.
  destruct (negb r); [done|]. destruct (_ && _); [done|]. intros [= <-].
  by destruct (bool_decide _).
Qed.

Lemma view_failure cfg st stage err allow now :
  exists s, (s = StatusQueued \/ s = StatusFailed) /\
  view_of (applyFailure cfg st stage err allow now).1 = MkView (st_ID st) (st_Version st) s "".
Proof.
  pose proof (applyFailure_eq cfg st stage err allow now) as H. cbv zeta in H. rewrite H.
  destruct (retries _ _ _ _ _); [by exists StatusQueued; auto|by exists StatusFailed; auto].
Qed.

Lemma view_settled st now :
  exists s, (s = StatusFailed \/ s = StatusCompleted) /\
  view_of (settledState st now) = MkView (st_ID st) (st_Version st) s (st_SandboxID st).
Proof.
  unfold settledState. destruct (_ && _); [by exists StatusFailed; auto|by exists StatusCompleted; auto].
Qed.

Lemma view_busy st result err :
  view_of (busyState st result err) = MkView (st_ID st) (st_Version st) StatusRunning (st_SandboxID st).
Proof. unfold busyState. cbv zeta. by destruct (bool_decide (st_AssignedJobName _ = "")). Qed.

Lemma view_reconnected st result region :
  view_of (reconnectedState st result region) =
    MkView (st_ID st) (st_Version st) StatusRunning (res_SandboxID result).
Proof.
  unfold reconnectedState. cbv zeta.
  by repeat match goal with |- context [if ?b then _ else _] => destruct b end.
Qed.

(** ** Stopping a sandbox *)

Lemma wrapped_read_error e :
  isSandboxGone (ErrWrap "read runner request for sandbox service: " e "") = isSandboxGone e.
Proof.
  unfold isSandboxGone. cbn [error_text].
  assert (H : forall s : string, s +:+ "" = s) by (induction s as [|a s IH]; [done|exact (f_equal (String a) IH)]).
  rewrite H. generalize (error_text e). intros s. unfold Contains, bytes.
  reflexivity.
Qed.

Lemma wp_stop_sandbox c S K id sb pid Q :
  (c = Careful -> exists v, v ∈ K /\ v_status v = StatusStopping /\ v_sandbox v = sb) ->
  (forall r, gone r = true -> Q r (sb :: S) K) -> (forall e, isSandboxGone e = false -> Q (Some e) S K) ->
  wp c S K (stopSandboxWithTimeout id sb pid) Q.
Proof.
  intros Hc Hg He. apply wp_bind, wp_read_request.
  - intros er Her. cbn [wp]. apply He. by rewrite wrapped_read_error.
  - intros req. split; [done|]. split; [done|]. intros [e|] Hr; [by apply He|done].
Qed.

(** Calls that neither read nor write a row leave no trace. *)
Lemma wp_cleanup_github c S K st Q : (forall r, Q r S K) -> wp c S K (cleanupGitHubRunner st) Q.
Proof.
  intros H. unfold cleanupGitHubRunner. do 2 (case_bool_decide; [apply H|]).
  apply wp_bind, wp_ask. intros r. apply H.
Qed.

Lemma wp_github_busy c S K st Q : (forall r, Q r S K) -> wp c S K (githubRunnerBusy st) Q.
Proof.
  intros H. unfold githubRunnerBusy. cbv zeta. destruct (_ || _); [apply H|].
  apply wp_bind, wp_ask. intros r. apply H.
Qed.

Lemma wp_original_queued c S K st Q : (forall r, Q r S K) -> wp c S K (originalWorkflowJobQueued st) Q.
Proof.
  intros H. unfold originalWorkflowJobQueued. destruct (_ || _); [apply H|].
  apply wp_bind, wp_ask. intros r. apply H.
Qed.

(** A handler that ignores the outcome of its last write. *)
Lemma wp_write_or_log c S K v st Q :
  based K v (view_of st) -> transition_ok c (fun x => x ∈ S) v (view_of st) ->
  (forall S' K', Q tt S' K') -> wp c S K (writeStateOrLog st) Q.
Proof. intros Hb Ht HQ. apply wp_bind. eapply wp_write; [done|done|..]; intros; apply HQ. Qed.

(** A write whose outcome only decides the result. *)
Lemma wp_write_last {A} c S K v st (f : option goerror -> prog A) Q :
  based K v (view_of st) -> transition_ok c (fun x => x ∈ S) v (view_of st) ->
  (forall r S' K', wp c S' K' (f r) Q) -> wp c S K (bind (write_state st) f) Q.
Proof. intros Hb Ht HQ. apply wp_bind. eapply wp_write; [done|done|..]; intros; apply HQ. Qed.

(** ** The end of a stop *)

(** The sandbox of a stopping row is gone. *)
Definition sandbox_done (S : list string) (v : view) : Prop := v_sandbox v = "" \/ v_sandbox v ∈ S.

Section stop.
Context (cfg : server_config) (c : care).

(** The copy of a row persisted as stopping. *)
Definition stopping_copy (K : list view) (st : RunnerState) : Prop :=
  st_Status st = StatusStopping /\ based K (view_of st) (view_of st).

Lemma wp_stop_error S K e Q : (forall r S' K', Q r S' K') -> wp c S K (stop_error e) Q.
Proof. intros H. apply H. Qed.

(** What may be written over a stopping row. *)
Lemma stopping_keep P v w :
  v_status v = StatusStopping -> v_sandbox w = v_sandbox v ->
  v_status w = StatusStopping \/ v_status w = StatusFailed ->
  transition_ok c P v w.
Proof.
  intros Hs Hb Hw. destruct w as [i n s b]. cbn in *. subst b.
  apply transition_keep; cbn; rewrite ?Hs; [by destruct Hw as [->| ->]| |done|by destruct Hw as [->| ->]].
  by apply view_ok_other; destruct Hw as [->| ->].
Qed.

Lemma stopping_release S v w :
  v_status v = StatusStopping -> sandbox_done S v ->
  known_status (v_status w) -> v_status w <> StatusRunning -> v_status w <> StatusCreating ->
  (v_status w = StatusQueued -> v_sandbox w = "") ->
  transition_ok c (fun x => x ∈ S) v w.
Proof.
  intros Hs Hd Hk Hr Hc Hq. apply transition_release; [|split; [done|intros [?|?]; [by apply Hq|done]]|exact Hd].
  rewrite Hs. by destruct (v_status w).
Qed.

Lemma wp_stop_settle S K st Q :
  stopping_copy K st -> sandbox_done S (view_of st) -> (forall r S' K', Q r S' K') ->
  wp c S K (stopSettle st) Q.
Proof.
  intros [Hs Hb] Hd HQ. apply wp_bind, wp_ask. intros now.
  destruct (view_settled st now) as (s & Hs' & Hv).
  eapply wp_write_last; [rewrite Hv; by eapply based_set| |intros [e|] S' K'; apply HQ].
  rewrite Hv. apply stopping_release; cbn; try done; by destruct Hs' as [->| ->].
Qed.

Lemma wp_stop_jit S K st Q :
  stopping_copy K st -> sandbox_done S (view_of st) -> (forall r S' K', Q r S' K') ->
  wp c S K (stopJITCleanup st) Q.
Proof.
  intros [Hs Hb] Hd HQ. unfold stopJITCleanup. destruct (st_WorkflowJobID st =? 0)%Z.
  - apply wp_bind, wp_ask. intros now.
    eapply wp_write_last; [same_row Hb| |intros [e|] S' K'; apply HQ].
    by apply stopping_keep; [|done|right].
  - apply wp_bind, wp_original_queued. intros q. destruct (match q with Ok b => b | Err _ => true end).
    + eapply wp_write_last; [same_row Hb| |].
      { by apply stopping_release. }
      intros [e|] S' K'; [apply HQ|]. apply wp_bind, wp_ask. intros ?. apply HQ.
    + by apply wp_stop_settle.
Qed.

Lemma wp_requeue_mismatched S K st queued (Q : post (result (bool * RunnerState))) :
  stopping_copy K st -> sandbox_done S (view_of st) ->
  (forall e S' K', Q (Err e) S' K') -> (forall next S' K', Q (Ok (true, next)) S' K') ->
  (forall next K', stopping_copy K' next -> st_SandboxID next = st_SandboxID st -> Q (Ok (false, next)) S K') ->
  wp c S K (requeueMismatchedWorkflowJob st queued) Q.
Proof.
  intros [Hs Hb] Hd HE HT HF. unfold requeueMismatchedWorkflowJob. destruct queued; cbn [negb].
  - eapply wp_write_last; [same_row Hb| |].
    { by apply stopping_release. }
    intros [e|] S' K'; [apply HE|]. apply wp_bind, wp_ask. intros ?. apply HT.
  - apply wp_bind. eapply wp_write; [same_row Hb| |intros er; apply HE|].
    { by apply stopping_keep; [|done|left]. }
    intros Hb'. by apply HF.
Qed.

Lemma wp_stop_mismatched S K st Q :
  stopping_copy K st -> sandbox_done S (view_of st) -> (forall r S' K', Q r S' K') ->
  wp c S K (stopMismatched st) Q.
Proof.
  intros Hst Hd HQ. apply wp_bind, wp_original_queued. intros q.
  apply wp_bind, wp_requeue_mismatched; [done|done|intros; apply HQ|intros; apply HQ|].
  intros next K' [Hs Hb] Hsb. apply wp_bind, wp_ask. intros now.
  eapply wp_write_last; [same_row Hb| |intros [e|] S'' K''; apply HQ].
  apply stopping_release; try done. unfold sandbox_done in *. cbn in *. by rewrite Hsb.
Qed.

Lemma wp_stop_github S K st job Q :
  stopping_copy K st -> sandbox_done S (view_of st) -> (forall r S' K', Q r S' K') ->
  wp c S K (stopGitHubRunner cfg st job) Q.
Proof.
  intros Hst Hd HQ. pose proof Hst as [Hs Hb]. apply wp_bind, wp_cleanup_github. intros [e|].
  - apply wp_bind, wp_ask. intros now. destruct (scheduleCleanupRetry cfg st e now) as [[] st'] eqn:E.
    + apply view_cleanup_retry in E.
      eapply wp_write_last; [rewrite E; by eapply based_set| |intros [?|] S' K'; apply HQ].
      rewrite E. by apply stopping_keep; [|done|left].
    + eapply wp_write_last; [same_row Hb| |intros [?|] S' K'; apply HQ].
      by apply stopping_keep; [|done|right].
  - destruct (workflowJobMismatch st job); [by apply wp_stop_mismatched|].
    case_bool_decide; [by apply wp_stop_jit|by apply wp_stop_settle].
Qed.

Lemma wp_stop_failed S K st e Q :
  stopping_copy K st -> (forall r S' K', Q r S' K') -> wp c S K (stopFailed cfg st e) Q.
Proof.
  intros [Hs Hb] HQ. apply wp_bind, wp_ask. intros now.
  destruct (scheduleStopRetry cfg st e now) as [[] st'] eqn:E.
  - apply view_stop_retry in E.
    eapply wp_write_last; [rewrite E; by eapply based_set| |intros [?|] S' K'; apply HQ].
    rewrite E. by apply stopping_keep; [|done|left].
  - eapply wp_write_last; [same_row Hb| |intros [?|] S' K'; apply HQ].
    by apply stopping_keep; [|done|right].
Qed.

(** Persisting the stopping state of any row. *)
Lemma wp_to_stopping S K v st Q :
  view_ok v -> based K v (view_of st) -> v_sandbox v = st_SandboxID st -> st_Status st = StatusStopping ->
  (forall e, Q (Some e) S K) ->
  (forall K', stopping_copy K' (bump_version st) -> Q None S K') -> wp c S K (write_state st) Q.
Proof.
  intros Hv Hb Hsb Hs HE HN. eapply wp_write; [same_row Hb| |done|].
  - apply transition_keep; cbn; rewrite ?Hs; [by apply to_stopping, view_ok_status| |done|done].
    unfold view_of. rewrite Hs. by apply view_ok_other.
  - intros Hb'. by apply HN.
Qed.

(** Stopping the sandbox of a persisted stopping row, whatever comes next. *)
Lemma wp_stop_row_sandbox S K id st pid (Q : post (option goerror)) :
  stopping_copy K st ->
  (forall r S', gone r = true -> st_SandboxID st ∈ S' -> Q r S' K) ->
  (forall e, isSandboxGone e = false -> Q (Some e) S K) ->
  wp c S K (stopSandboxWithTimeout id (st_SandboxID st) pid) Q.
Proof.
  intros [Hs Hb] Hg He. apply wp_stop_sandbox; [|intros r Hr; apply Hg; [done|left]|done].
  intros _. exists (view_of st). split; [apply Hb|done].
Qed.

Lemma wp_stop_active S K id st job source Q :
  view_ok (view_of st) -> based K (view_of st) (view_of st) -> (forall r S' K', Q r S' K') ->
  wp c S K (stopActive cfg id st job source) Q.
Proof.
  intros Hv Hb HQ. unfold stopActive. cbv zeta. apply wp_bind, wp_ask. intros now.
  set (st1 := setTerminationSource _ _).
  assert (H1 : view_of st1 = view_of st) by (unfold st1; by rewrite view_termination, view_assigned).
  clearbody st1. pose proof (view_cleanup_started st1 now) as H2.
  set (st2 := markRunnerCleanupStarted st1 now) in *. clearbody st2.
  apply wp_bind. injection H1 as Hi Hn Hst Hsb. injection H2 as Hi2 Hn2 Hs2 Hb2.
  eapply (wp_to_stopping _ _ (view_of st)); [done| | |done|intros e; apply HQ|].
  { destruct Hb. split; [done..|by cbn; rewrite Hi2, Hi|by cbn; rewrite Hn2, Hn]. }
  { cbn. by rewrite Hb2, Hsb. }
  intros K' Hcopy. set (st3 := bump_version st2) in *. clearbody st3.
  case_bool_decide as E; [apply wp_stop_github; [done|by left|done]|].
  apply wp_bind, wp_stop_row_sandbox; [done| |].
  - intros [e|] S' Hr Hin; [cbn in Hr; rewrite Hr|]; apply wp_stop_github; try done; by right.
  - intros e He. rewrite He. by apply wp_stop_failed.
Qed.

Lemma wp_stop_read S K id st job source Q :
  view_ok (view_of st) -> based K (view_of st) (view_of st) -> (forall r S' K', Q r S' K') ->
  wp c S K (stopRead cfg id st job source) Q.
Proof.
  intros Hv Hb HQ. apply wp_bind, wp_ask. intros now.
  pose proof (view_retain st job now) as Hview.
  destruct (retainWorkflowJobResult st job now) as [st1 changed]. cbn [fst] in Hview.
  rewrite <- Hview in Hv, Hb.
  destruct (workflowJobStopConflictsWithAssignment st1 job).
  { destruct changed; [|apply HQ].
    eapply wp_write_last; [exact Hb|by apply transition_same|intros [?|] S' K'; apply HQ]. }
  destruct (is_status st1 StatusCompleted); [|by apply wp_stop_active].
  cbv zeta. destruct (changed || shouldRecordAssignedJob st1 job); [|apply HQ].
  eapply wp_write_last; [rewrite view_assigned; exact Hb| |intros [?|] S' K'; apply HQ].
  rewrite view_assigned. by apply transition_same.
Qed.

Lemma wp_stop_runner S K id job source Q :
  (forall r S' K', Q r S' K') -> wp c S K (stopRunner cfg id job source) Q.
Proof.
  intros HQ. apply wp_bind, wp_read; [intros er; apply HQ|]. intros st Hv Hb. by apply wp_stop_read.
Qed.

Lemma wp_stop_if_exists S K id job source Q :
  (forall S' K', Q tt S' K') -> wp c S K (stopIfExists cfg id job source) Q.
Proof.
  intros HQ. apply wp_bind, wp_read; [intros er; apply HQ|]. intros st Hv Hb.
  apply wp_bind, wp_stop_runner. intros r S' K'. apply HQ.
Qed.
End stop.

(** ** The end of a runner process *)

Section exit.
Context (cfg : server_config) (c : care).

(** A local copy based on the stopping row [v], with its sandbox. *)
Record exit_copy (K : list view) (v : view) (st : RunnerState) : Prop := {
  ec_stopping : v_status v = StatusStopping;
  ec_based : based K v (view_of st);
  ec_sandbox : st_SandboxID st = v_sandbox v
}.

Lemma exit_copy_set K v st st' :
  exit_copy K v st -> st_ID st' = st_ID st -> st_Version st' = st_Version st ->
  st_SandboxID st' = st_SandboxID st -> exit_copy K v st'.
Proof.
  intros [H1 H2 H3] Hi Hn Hs. split; [done| |by rewrite Hs].
  eapply based_same; [exact H2|exact Hi|exact Hn].
Qed.

Lemma wp_finish_exit S K v st retry Q :
  exit_copy K v st -> st_Status st = StatusFailed \/ (st_Status st = StatusCompleted /\ sandbox_done S v) ->
  (retry = true -> sandbox_done S v) -> (forall S' K', Q tt S' K') ->
  wp c S K (finishExit cfg retry st) Q.
Proof.
  intros [Hv Hb Hsb] Hst Hretry HQ.
  assert (Hkeep : forall f : bool, wp c S K (bind (writeStateOrLog st) (fun _ => if f then ask SignalQueue else Ret tt)) Q).
  { intros f. apply wp_bind. eapply wp_write_or_log; [exact Hb| |].
    - destruct Hst as [Hs|[Hs Hd]]; [apply stopping_keep; [done|exact Hsb|by right]|].
      apply stopping_release; cbn; rewrite ?Hs; done.
    - intros S' K'. destruct f; [apply wp_ask; intros []|]; apply HQ. }
  apply wp_bind. destruct retry; [|apply Hkeep]. specialize (Hretry eq_refl).
  unfold retryRunnerExitedWithoutJob. destruct (_ || _ || _); [apply Hkeep|].
  apply wp_bind, wp_ask. intros now. cbv zeta.
  destruct (view_failure cfg st "runner_exit"
    (if bool_decide (st_Error st = "") then ErrRunnerExitedWithoutJob
     else ErrWrap "" ErrRunnerExitedWithoutJob (": " +:+ st_Error st)) true now) as (s & Hs & Hview).
  destruct (applyFailure _ _ _ _ _ _) as [st1 o]. cbn [fst] in Hview.
  assert (Hview2 : view_of (if is_status st1 StatusQueued
    then st1 <| st_TerminationSource := "" |> <| st_RunnerExitCode := None |> else st1) = view_of st1)
    by (by destruct (is_status st1 StatusQueued)).
  rewrite Hview in Hview2. cbn [wp]. set (st2 := if is_status st1 StatusQueued then _ else _) in *.
  clearbody st2. apply wp_bind. eapply wp_write_or_log; rewrite ?Hview2.
  - eapply based_same; [exact Hb|done|done].
  - apply stopping_release; cbn; try done; by destruct Hs as [->| ->].
  - intros S' K'. destruct (is_status st2 StatusQueued); [apply wp_ask; intros []|]; apply HQ.
Qed.

(** The row a live runner's exit is based on. *)
Lemma wp_cleanup_start S K v st now (Q : post (option goerror * RunnerState)) :
  view_ok v -> based K v (view_of st) -> v_sandbox v = st_SandboxID st ->
  (forall e st' S' K', Q (Some e, st') S' K') ->
  (forall st' K', exit_copy K' (view_of st') st' -> st_FailureStage st' = st_FailureStage st -> Q (None, st') S K') ->
  wp c S K (writeRunnerCleanupStart st now) Q.
Proof.
  intros Hv Hb Hsb HE HN. unfold writeRunnerCleanupStart. cbv zeta. apply wp_bind.
  pose proof (view_cleanup_started st now) as H2.
  assert (Hf : st_FailureStage (markRunnerCleanupStarted st now) = st_FailureStage st)
    by (unfold markRunnerCleanupStarted; by case_match).
  set (st2 := markRunnerCleanupStarted st now) in *. clearbody st2. injection H2 as Hi2 Hn2 Hs2 Hb2.
  eapply (wp_to_stopping c S K v); [done| | |done|intros e; apply HE|].
  { eapply based_same; [exact Hb|by cbn; rewrite Hi2|by cbn; rewrite Hn2]. }
  { by rewrite Hb2. }
  intros K' [Hs Hb']. apply HN; [by split|done].
Qed.

Lemma wp_cleanup_sandbox S K v id st (Q : post (option goerror)) :
  exit_copy K v st -> (forall S', sandbox_done S' v -> Q None S' K) -> (forall e, Q (Some e) S K) ->
  wp c S K (cleanupSandboxAfterExit id st) Q.
Proof.
  intros [Hs Hb Hsb] HN HE. unfold cleanupSandboxAfterExit. case_bool_decide as E.
  { apply HN. left. by rewrite <- Hsb. }
  apply wp_bind, wp_stop_sandbox.
  - intros _. exists v. split; [apply Hb|]. by rewrite Hsb.
  - intros r Hr. assert (Hd : sandbox_done (st_SandboxID st :: S) v) by (right; rewrite Hsb; left).
    destruct r as [e|]; cbn [gone] in Hr; cbn [wp]; [rewrite Hr|]; by apply HN.
  - intros e He. cbn [wp]. rewrite He. apply HE.
Qed.

Lemma wp_exit_error S K v id st err Q :
  view_ok v -> based K v (view_of st) -> v_sandbox v = st_SandboxID st -> (forall S' K', Q tt S' K') ->
  wp c S K (exitWithError cfg id st err) Q.
Proof.
  intros Hv Hb Hsb HQ. unfold exitWithError. cbv zeta. apply wp_bind, wp_ask. intros now.
  apply wp_bind. eapply wp_cleanup_start; [exact Hv|same_row Hb|done|intros; apply HQ|].
  intros st1 K1 Hc1 _. set (v1 := view_of st1) in *. clearbody v1.
  assert (Htail : forall S1 st2 (b : bool), exit_copy K1 v1 st2 -> (b = true -> sandbox_done S1 v1) ->
    wp c S1 K1 (let! githubErr := cleanupGitHubRunner st2 in
      match githubErr with
      | Some e =>
          let! now := ask Now in
          let '(scheduled, st') := scheduleCleanupRetry cfg st2 e now in
          if scheduled then writeStateOrLog st'
          else finishExit cfg false
            (st2 <| st_Error := appendError (st_Error st2) ("github runner cleanup: " +:+ error_text e) |>
                 <| st_Status := StatusFailed |>)
      | None => finishExit cfg b (st2 <| st_Status := StatusFailed |>)
      end) Q).
  { intros S1 st2 b Hc2 Hb2. apply wp_bind, wp_cleanup_github. intros [e|].
    - apply wp_bind, wp_ask. intros now2. destruct (scheduleCleanupRetry cfg st2 e now2) as [[] st3] eqn:E.
      + apply view_cleanup_retry in E. destruct Hc2 as [Hs2 Hb3 Hsb2].
        eapply wp_write_or_log; rewrite ?E; [same_row Hb3| |done]. by apply stopping_keep; [|done|left].
      + eapply wp_finish_exit; [eapply exit_copy_set; [exact Hc2|done..]|by left|done|done].
    - eapply wp_finish_exit; [eapply exit_copy_set; [exact Hc2|done..]|by left|done|done]. }
  apply wp_bind. eapply wp_cleanup_sandbox; [exact Hc1| |]; cbn [wp].
  - intros S1 Hd. by apply Htail.
  - intros e0. apply Htail; [|done]. eapply exit_copy_set; [exact Hc1|done..].
Qed.

Lemma wp_exit_code S K v id st result Q :
  view_ok v -> based K v (view_of st) -> v_sandbox v = st_SandboxID st -> (forall S' K', Q tt S' K') ->
  wp c S K (exitWithCode cfg id st result) Q.
Proof.
  intros Hv Hb Hsb HQ. unfold exitWithCode. cbv zeta.
  set (st0 := if (exit_ExitCode result =? 0)%Z then _ else _).
  assert (H0 : based K v (view_of st0) /\ v_sandbox v = st_SandboxID st0).
  { unfold st0. destruct (_ =? 0)%Z; (split; [same_row Hb|done]). }
  clearbody st0. destruct H0 as [Hb0 Hsb0].
  apply wp_bind, wp_ask. intros now. apply wp_bind.
  eapply wp_cleanup_start; [exact Hv|exact Hb0|done|intros; apply HQ|].
  intros st1 K1 Hc1 _. set (v1 := view_of st1) in *. clearbody v1.
  apply wp_bind. eapply wp_cleanup_sandbox; [exact Hc1| |]; cbn [wp].
  - intros S1 Hd. apply wp_bind, wp_ask. intros now1.
    set (st2 := if is_status st0 StatusFailed then _ else _).
    assert (Hc2 : exit_copy K1 v1 st2)
      by (unfold st2; destruct (is_status _ _); (eapply exit_copy_set; [exact Hc1|done..])).
    assert (Hs2 : st_Status st2 = StatusFailed \/ st_Status st2 = StatusCompleted /\ sandbox_done S1 v1)
      by (unfold st2; destruct (is_status _ _); auto).
    clearbody st2. apply wp_bind, wp_cleanup_github. intros [e|]; [|by eapply wp_finish_exit].
    apply wp_bind, wp_ask. intros now2. destruct (scheduleCleanupRetry cfg st2 e now2) as [[] st3] eqn:E.
    + apply view_cleanup_retry in E. destruct Hc2 as [Hs3 Hb3 Hsb3].
      eapply wp_write_or_log; rewrite ?E; [same_row Hb3| |done]. by apply stopping_keep; [|done|left].
    + eapply wp_finish_exit; [eapply exit_copy_set; [exact Hc2|done..]|by left|done|done].
  - intros e0. apply wp_bind, wp_ask. intros now1.
    set (st2 := st1 <| st_Status := _ |> <| st_Error := _ |>).
    assert (Hc2 : exit_copy K1 v1 st2) by (eapply exit_copy_set; [exact Hc1|done..]).
    assert (Hs2 : st_Status st2 = StatusFailed) by done. clearbody st2.
    apply wp_bind, wp_cleanup_github. intros [e|].
    + apply wp_bind, wp_ask. intros now2. destruct (scheduleCleanupRetry cfg st2 e now2) as [[] st3] eqn:E.
      * apply view_cleanup_retry in E. destruct Hc2 as [Hs3 Hb3 Hsb3].
        eapply wp_write_or_log; rewrite ?E; [same_row Hb3| |done]. by apply stopping_keep; [|done|left].
      * eapply wp_finish_exit; [eapply exit_copy_set; [exact Hc2|done..]|by left| |done].
        intros Hf. exfalso. by cbn in Hf.
    + eapply wp_finish_exit; [exact Hc2|by left| |done].
      unfold is_status. rewrite Hs2. done.
Qed.

(** Writes that leave status and sandbox alone. *)
Lemma wp_write_same S K v st Q :
  view_ok v -> based K v (view_of st) -> st_Status st = v_status v -> st_SandboxID st = v_sandbox v ->
  (forall r S' K', Q r S' K') -> wp c S K (write_state st) Q.
Proof.
  intros Hv Hb Hs Hsb HQ. eapply wp_write; [exact Hb|by apply transition_same|..]; intros; apply HQ.
Qed.

Lemma wp_late_evidence S K st attempt result err Q :
  view_ok (view_of st) -> based K (view_of st) (view_of st) -> (forall S' K', Q tt S' K') ->
  wp c S K (recordLateRunnerExitEvidence st attempt result err) Q.
Proof.
  intros Hv Hb HQ. unfold recordLateRunnerExitEvidence. destruct (_ || _); [apply HQ|]. cbv zeta.
  set (ch := _ && _). set (st1 := if ch then st <| st_EffectiveRunnerVersion := _ |> else st).
  assert (H1 : view_of st1 = view_of st) by (unfold st1; by destruct ch). clearbody st1 ch.
  assert (Hw : forall st', view_of st' = view_of st -> wp c S K (write_state st' ;; Ret tt) Q).
  { intros st' E. injection E as Hi Hn Hs Hsb. apply wp_bind.
    eapply wp_write_same; [exact Hv| |exact Hs|exact Hsb|intros; apply HQ].
    eapply based_same; [exact Hb|exact Hi|exact Hn]. }
  destruct err; [destruct ch; [by apply Hw|apply HQ]|].
  destruct (st_RunnerExitCode st1); [destruct ch; [by apply Hw|apply HQ]|]. by apply Hw.
Qed.

Lemma wp_retain_after_exit S K id Q :
  (forall S' K', Q tt S' K') -> wp c S K (retainWorkflowJobResultAfterRunnerExit id) Q.
Proof.
  intros HQ. unfold retainWorkflowJobResultAfterRunnerExit. cbv zeta.
  apply wp_bind, wp_read; [intros er; apply HQ|]. intros st _ _.
  destruct (_ || _ || _ || _); [apply HQ|]. apply wp_bind, wp_ask. intros [job|]; [|apply HQ].
  apply wp_bind, wp_read; [intros er; apply HQ|]. intros latest Hv Hb.
  destruct (_ || _ || _ || _); [apply HQ|]. apply wp_bind, wp_ask. intros now.
  pose proof (view_retain latest job now) as Hview.
  destruct (retainWorkflowJobResult latest job now) as [st1 ch]. cbn [fst] in Hview.
  destruct ch; [|apply HQ]. injection Hview as Hi Hn Hs Hsb. apply wp_bind.
  eapply wp_write_same; [exact Hv| |exact Hs|exact Hsb|intros; apply HQ].
  eapply based_same; [exact Hb|exact Hi|exact Hn].
Qed.

Lemma wp_finish_runner_exit S K v id st result err Q :
  view_ok v -> based K v (view_of st) -> v_sandbox v = st_SandboxID st -> (forall S' K', Q tt S' K') ->
  wp c S K (finishRunnerExit cfg id st result err) Q.
Proof.
  intros Hv Hb Hsb HQ. unfold finishRunnerExit. cbv zeta.
  pose proof (view_termination st TerminationSourceProcessExit) as H1.
  set (st1 := setTerminationSource _ _) in *. clearbody st1.
  assert (Hb1 : based K v (view_of st1)) by (by rewrite H1).
  assert (Hsb1 : v_sandbox v = st_SandboxID st1) by (injection H1 as _ _ _ ->; done).
  apply wp_bind. destruct err; [eapply wp_exit_error|eapply wp_exit_code]; try done;
    intros S' K'; by apply wp_retain_after_exit.
Qed.

Lemma is_live_cases st : is_live st = true -> st_Status st = StatusCreating \/ st_Status st = StatusRunning.
Proof. unfold is_live, is_status, status_is. intros H. bool_prop. destruct H as [H|H]; bool_prop; auto. Qed.

Lemma wp_runner_exited S K id attempt result err Q :
  (forall S' K', Q tt S' K') -> wp c S K (runnerExitedForAttempt cfg id attempt result err) Q.
Proof.
  intros HQ. unfold runnerExitedForAttempt. apply wp_bind, wp_read; [intros er; apply HQ|].
  intros st Hv Hb. destruct (_ && _); [apply HQ|]. destruct (is_live st) eqn:Hl; cbn [negb];
    [|by apply wp_late_evidence].
  assert (Hfin : forall K2 st2, view_ok (view_of st2) -> based K2 (view_of st2) (view_of st2) ->
    wp c S K2 (finishRunnerExit cfg id (noteEffectiveVersion st2 result) result err) Q).
  { intros K2 st2 Hv2 Hb2. pose proof (view_effective st2 result) as E.
    eapply (wp_finish_runner_exit S K2 (view_of st2)); [done|by rewrite E| |done].
    by injection E as _ _ _ ->. }
  cbv zeta. destruct (shouldCheckGitHubBusyAfterRunnerExit result err); cbn [negb]; [|by apply Hfin].
  apply wp_bind, wp_github_busy. intros busy. apply wp_bind, wp_read; [intros er; apply HQ|].
  generalize (view_of st :: K). clear st Hv Hb Hl. intros K0 st Hv Hb. destruct (attempt_matches attempt st); cbn [negb]; [|apply HQ].
  destruct (is_live st) eqn:Hl; cbn [negb]; [|by apply wp_late_evidence].
  destruct busy as [[]|]; [|by apply Hfin..]. apply wp_bind.
  pose proof (view_busy (noteEffectiveVersion st result) result err) as E.
  pose proof (view_effective st result) as E2. injection E2 as Hi Hn Hs Hsb.
  rewrite Hi, Hn, Hsb in E. eapply wp_write.
  - rewrite E. same_row Hb.
  - rewrite E. apply transition_keep; cbn; [by apply to_running, is_live_cases| |done|done].
    by apply view_ok_other.
  - intros er. apply wp_bind, wp_read; [intros er'; apply HQ|]. intros st2 Hv2 Hb2.
    destruct (_ || _); [apply HQ|]. by eapply wp_finish_runner_exit.
  - intros _. apply HQ.
Qed.

(** ** A forced stop *)

Lemma wp_fail_and_stop S K id ver stage reason message Q :
  (forall S' K', Q tt S' K') -> wp c S K (failAndStopRunnerVersion cfg id ver stage reason message) Q.
Proof.
  intros HQ. unfold failAndStopRunnerVersion. apply wp_bind, wp_read; [intros er; apply HQ|].
  intros st Hv Hb. do 2 (destruct (_ && _ || _) || destruct (_ && _) || destruct (_ || _); [apply HQ|]).
  apply wp_bind, wp_ask. intros now. cbv zeta.
  set (st1 := setTerminationSource _ _).
  assert (H1 : view_of st1 = MkView (st_ID st) (st_Version st) StatusStopping (st_SandboxID st))
    by (unfold st1; by rewrite view_termination, view_cleanup_started).
  clearbody st1. set (st2 := st1 <| st_FailureStage := _ |> <| st_FailureReason := _ |> <| st_Error := _ |>).
  assert (H2 : view_of st2 = view_of st1) by done. clearbody st2. rewrite H1 in H2.
  injection H2 as Hi Hn Hs Hsb. clear st1 H1. apply wp_bind.
  eapply (wp_to_stopping c S _ (view_of st)); [done| |by rewrite Hsb|done|intros; apply HQ|].
  { eapply based_same; [exact Hb|exact Hi|exact Hn]. }
  intros K1 Hcopy. set (st3 := bump_version st2) in *. clearbody st3. pose proof Hcopy as [Hs3 Hb3].
  assert (Htail : forall S1, sandbox_done S1 (view_of st3) -> wp c S1 K1
    (let! cleanupErr := cleanupGitHubRunner st3 in
     let! now := ask Now in
     let finish st :=
       let st := st <| st_Status := StatusFailed |> <| st_FailedAt := now |> in
       let st := if bool_decide (st_FailureStage st = "") then st <| st_FailureStage := stage |> else st in
       let st := if bool_decide (st_FailureReason st = "") then st <| st_FailureReason := reason |> else st in
       let st := if bool_decide (st_Error st = "") then st <| st_Error := message |> else st in
       writeStateOrLog (st <| st_LeaseOwner := "" |> <| st_LeaseExpiresAt := 0%Z |>) in
     match cleanupErr with
     | Some e =>
         let '(scheduled, st') := scheduleCleanupRetry cfg st3 e now in
         if scheduled then writeStateOrLog st'
         else finish (st3 <| st_FailureStage := "cleanup" |>
                         <| st_FailureReason := "github_runner_cleanup_failed" |>
                         <| st_Error := appendError message ("github runner cleanup: " +:+ error_text e) |>)
     | None => finish st3
     end) Q).
  { intros S1 Hd. apply wp_bind, wp_cleanup_github. intros ce. apply wp_bind, wp_ask. intros now2. cbv zeta.
    assert (Hfin : forall st', view_of st' = MkView (st_ID st3) (st_Version st3) StatusFailed (st_SandboxID st3) ->
      wp c S1 K1 (writeStateOrLog st') Q).
    { intros st' E. eapply wp_write_or_log; rewrite ?E; [same_row Hb3| |done].
      by apply stopping_keep; [|done|right]. }
    destruct ce as [e|].
    - destruct (scheduleCleanupRetry cfg st3 e now2) as [[] st4] eqn:E.
      + apply view_cleanup_retry in E. eapply wp_write_or_log; rewrite ?E; [same_row Hb3| |done].
        by apply stopping_keep; [|done|left].
      + apply Hfin. by repeat match goal with |- context [if ?b then _ else _] => destruct b end.
    - apply Hfin. by repeat match goal with |- context [if ?b then _ else _] => destruct b end. }
  apply wp_bind. case_bool_decide as Esb.
  { cbn [wp]. apply Htail. by left. }
  eapply wp_stop_row_sandbox; [exact Hcopy| |].
  - intros r S1 Hr Hin. destruct r as [e|]; cbn [gone] in Hr; [rewrite Hr|]; cbn [negb]; apply Htail; by right.
  - intros e He. rewrite He. cbn [negb]. eapply wp_write_or_log; [same_row Hb3| |done].
    by apply stopping_keep; [|done|right].
Qed.
End exit.

(** ** Recovery *)

Section recovery.
Context (cfg : server_config) (c : care).

Lemma wp_jit_pending S K st Q :
  view_ok (view_of st) -> based K (view_of st) (view_of st) -> (forall r S' K', Q r S' K') ->
  wp c S K (writeWindowsJITCleanupPending cfg st) Q.
Proof.
  intros Hv Hb HQ. unfold writeWindowsJITCleanupPending. apply wp_bind, wp_ask. intros now. cbv zeta.
  set (st1 := setTerminationSource _ _).
  assert (H1 : view_of st1 = MkView (st_ID st) (st_Version st) StatusStopping (st_SandboxID st))
    by (unfold st1; by rewrite view_termination, view_cleanup_started).
  clearbody st1. injection H1 as Hi Hn Hs Hsb.
  eapply (wp_to_stopping c S K (view_of st)); [done| |done|done|intros; apply HQ|intros; apply HQ].
  eapply based_same; [exact Hb|exact Hi|exact Hn].
Qed.

Lemma wp_retain_jit S K id Q :
  (forall S' K', Q tt S' K') -> wp c S K (retainWindowsJITCleanup cfg id) Q.
Proof.
  intros HQ. apply wp_bind, wp_read; [intros er; apply HQ|]. intros st Hv Hb.
  destruct (_ || _); [apply HQ|]. apply wp_bind, wp_jit_pending; [done|done|]. intros r S' K'. apply HQ.
Qed.

Lemma view_interrupted st : view_of (interruptedRequeueState st) = MkView (st_ID st) (st_Version st) StatusQueued "".
Proof. done. Qed.

Lemma is_status_true st s : is_status st s = true -> st_Status st = s.
Proof. unfold is_status, status_is. apply bool_decide_eq_true. Qed.

Lemma wp_requeue_interrupted S K id ver Q :
  (forall r S' K', Q r S' K') -> wp c S K (requeueInterruptedCreation cfg id ver) Q.
Proof.
  intros HQ. apply wp_bind, wp_read; [intros er; apply HQ|]. intros st Hv Hb.
  destruct (negb (st_Version st =? ver)%Z); cbn [orb]; [apply HQ|].
  destruct (is_status st StatusCreating) eqn:Hs; cbn [negb]; [|apply HQ]. apply is_status_true in Hs.
  apply wp_bind, wp_read_request; [intros; apply HQ|]. intros req. apply wp_bind.
  assert (Htail : forall ce, wp c S (view_of st :: K)
    (match ce with
     | Some e =>
         let! w := writeWindowsJITCleanupPending cfg st in
         match w with
         | Some we => Ret (Some (ErrWrap "retain interrupted JIT cleanup: " we ""))
         | None => Ret (Some (ErrWrap "cleanup interrupted JIT Runner: " e ""))
         end
     | None =>
         let! w := write_state (interruptedRequeueState st) in
         match w with
         | Some we => Ret (Some (ErrWrap "requeue interrupted runner creation: " we ""))
         | None => ask SignalQueue ;; Ret None
         end
     end) Q).
  { intros [e|].
    - apply wp_bind, wp_jit_pending; [done|done|]. intros [?|] S' K'; apply HQ.
    - pose proof (view_interrupted st) as E. set (st' := interruptedRequeueState st) in *. clearbody st'.
      eapply wp_write_last; [rewrite E; same_row Hb| |].
      + rewrite E. apply transition_release; [cbn; by rewrite Hs|by apply view_ok_empty|].
        left. apply Hv. by right.
      + intros [?|] S' K'; [apply HQ|]. apply wp_bind, wp_ask. intros ?. apply HQ. }
  destruct (PlatformForLabels _); [apply wp_cleanup_github; intros ce|]; apply Htail.
Qed.

Context (Hc : c <> Careful).

Lemma wp_recover_failed S K st ver job result err Q :
  (forall r S' K', Q r S' K') -> wp c S K (recoverFailed cfg st ver job result err) Q.
Proof.
  intros HQ. unfold recoverFailed. cbv zeta.
  destruct (_ && _); [apply wp_bind, wp_fail_and_stop; intros; apply HQ|].
  destruct (negb _); [apply HQ|]. destruct (_ && _); [by apply wp_requeue_interrupted|].
  destruct (_ && _); [apply wp_bind, wp_fail_and_stop; intros; apply HQ|].
  destruct (_ && _); [|apply HQ]. apply wp_bind, wp_stop_sandbox; [done|..].
  - intros [e|] Hr; cbn [gone] in Hr; [rewrite Hr|]; by apply wp_requeue_interrupted.
  - intros e He. rewrite He. apply HQ.
Qed.

Lemma wp_recover_sandbox S K st ver job Q :
  (forall r S' K', Q r S' K') -> wp c S K (recoverSandbox cfg st ver job) Q.
Proof.
  intros HQ. unfold recoverSandbox. apply wp_bind, wp_ask. intros now. cbv zeta.
  destruct (_ <=? _)%Z; [apply wp_bind, wp_fail_and_stop; intros; apply HQ|].
  apply wp_bind, wp_read_request; [intros; apply HQ|]. intros req.
  apply wp_bind, wp_ask. intros [snap|]; [|apply HQ].
  apply wp_bind, wp_ask. intros [res [e|]]; [by apply wp_recover_failed|].
  apply wp_bind, wp_read; [intros; apply HQ|]. intros latest Hv Hb.
  destruct (negb (st_Version latest =? ver)%Z); cbn [orb]; [apply HQ|].
  destruct (is_live latest) eqn:Hl; cbn [negb]; [|apply HQ]. apply is_live_cases in Hl.
  apply wp_bind, wp_ask. intros region. pose proof (view_reconnected latest res region) as E.
  eapply wp_write_last; [rewrite E; same_row Hb| |intros [?|] S' K'; apply HQ].
  rewrite E. split; [by apply to_running|]. split; [by apply view_ok_other|].
  intros _ Hne [[_ Hr]|[? _]]; done.
Qed.

Lemma wp_job_for_recovery S K st Q : (forall r, Q r S K) -> wp c S K (workflowJobForRecovery st) Q.
Proof.
  intros HQ. unfold workflowJobForRecovery. destruct (_ || _); [apply HQ|].
  apply wp_bind, wp_ask. intros r. apply HQ.
Qed.

Lemma wp_recover_active S K st ver Q :
  (forall r S' K', Q r S' K') -> wp c S K (recoverActiveRunner cfg st ver) Q.
Proof.
  intros HQ. unfold recoverActiveRunner. apply wp_bind, wp_job_for_recovery. intros [j|];
    [|by apply wp_recover_sandbox].
  destruct (EqualFold _ _); [|by apply wp_recover_sandbox].
  apply wp_bind, wp_stop_runner. intros [[latest b] [e|]] S' K'; [apply HQ|].
  destruct (negb (is_live latest)); [apply HQ|by apply wp_recover_sandbox].
Qed.

Lemma wp_recover_runner S K id Q :
  (forall r S' K', Q r S' K') -> wp c S K (recoverRunner cfg id) Q.
Proof.
  intros HQ. apply wp_bind, wp_read; [intros; apply HQ|]. intros st Hv Hb.
  destruct (st_Status st) eqn:Hs; try apply HQ.
  - eapply wp_write_last; [same_row Hb|by apply transition_same|].
    intros [?|] S' K'; [apply HQ|]. apply wp_bind, wp_ask. intros ?. apply HQ.
  - by apply wp_recover_active.
  - by apply wp_recover_active.
  - apply wp_bind, wp_stop_runner. intros [[? ?] err] S' K'. apply HQ.
Qed.
End recovery.
