(* ===== verification/Handlers.v ===== *)
(** * Start, queue, background loops and webhooks
    (internal/server/server_runner_lifecycle.go, server_workflow_job_queue.go,
    server_loops.go, server_webhooks.go, server_sandbox_service.go,
    server_default_templates.go, server_runner_profile_scope.go)

    The remaining handlers of runner requests, as event trees.  Log lines,
    metrics, audit records, cache credentials and locks are left out.  The
    callbacks of a started runner (its output and its exit) are handlers of
    their own: [appendRunnerStdout] and [runnerExitedForAttempt]. *)

From stdpp Require Import base list strings.
From S2P Require Import Prelude GoStrings RunnerModel RunnerStore RunnerQueries Catalog Retry AccountModel Templates Effects Lifecycle.
From Stdlib Require Import Ascii.

(** ** Texts *)

Definition workflowJobWaitCode := "github_job_waiting".
Definition workflowJobStatusCodePrefix := "github_job_status_".
Definition historicalWorkflowJobWaitingSkip := "runner skipped before sandbox start: workflow job is waiting".

(** [state.RunnerRequest{}] *)
Definition zero_request : RunnerRequest := {|
  req_ID := ""; req_Source := ""; req_JobID := 0; req_PullRequestNumber := 0; req_GitHubInstallationID := 0;
  req_RepositoryFullName := ""; req_RequestedLabels := []; req_Labels := []; req_ProfileName := "";
  req_ProfileSource := ""; req_ProfileScopeType := ""; req_ProfileScopeID := 0; req_RunnerGroup := "";
  req_RunnerName := ""; req_SandboxAPIURL := ""; req_SandboxAPIKeyEncrypted := ""; req_SandboxConfigSource := "";
  req_SponsorInstallationID := 0; req_SponsorSourceRepositoryID := 0; req_SponsorSourceRepositoryFullName := "";
  req_SponsorAuthorizationReason := ""; req_CreatedAt := 0
|}.

(** ** Runner groups, profiles and templates *)

Definition runnerGroupError (err : group_error) : string * string :=
  match err with
  | GroupNotOrganization => ("runner_group_not_supported", "Runner groups are available only for organization scopes")
  | GroupNotFound => ("runner_group_not_found",
      "Select an existing organization Runner group that accepts organization runners")
  | GroupRepositoryDenied => ("runner_group_repository_denied",
      "The GitHub Runner group does not allow the target repository; check repository access in GitHub")
  | GroupTimeout => ("runner_group_timeout", "GitHub Runner group lookup timed out; try again")
  | GroupRateLimited => ("runner_group_rate_limited", "GitHub rate limit reached; try again later")
  | GroupForbidden => ("runner_group_permission_denied",
      "Cannot access GitHub Runner groups; check the App installation and organization Self-hosted runners permission")
  | GroupUnavailable => ("runner_group_unavailable", "Could not query GitHub Runner groups; try again")
  end.

Definition newRunnerGroupValidationFailure (err : group_error) : goerror :=
  let '(code, message) := runnerGroupError err in
  ErrRunnerGroupValidation code
    (bool_decide (code ∈ ["runner_group_timeout"; "runner_group_rate_limited"; "runner_group_unavailable"])) message.

Definition validateRequestedProfile (profile : RunnerProfile) (requestedLabels : list string) : option goerror :=
  if negb (p_Enabled profile) then Some (ErrText ("profile " +:+ quoted (p_Name profile) +:+ " is disabled"))
  else if match requestedLabels with [] => false | _ => true end
          && (negb (Match (p_RequiredLabels profile) requestedLabels) || negb (Match requestedLabels (p_Labels profile)))
  then Some (ErrText ("requested labels do not satisfy profile " +:+ quoted (p_Name profile)))
  else None.

Definition profileForRunnerRequest (req : RunnerRequest) : prog (result RunnerProfile) :=
  let source := req_ProfileSource req in
  if bool_decide (source = "") || bool_decide (source = "global") then ask (GetProfileC (req_ProfileName req))
  else if bool_decide (source = "scoped_custom") && negb (bool_decide (req_ProfileScopeType req = ""))
          && (0 <? req_ProfileScopeID req)%Z then
    let! r := ask (GetScopedProfileC (MkScope (req_ProfileScopeType req) (req_ProfileScopeID req)) (req_ProfileName req)) in
    Ret (match r with
         | Err e => Err e
         | Ok p => Ok {| p_TemplateSource := ""; p_Published := false; p_Name := sp_Name p;
                         p_Labels := sp_WorkflowLabels p; p_RequiredLabels := sp_WorkflowLabels p;
                         p_TemplateID := sp_TemplateID p; p_DefaultTemplateName := "";
                         p_RunnerGroup := sp_RunnerGroup p; p_MaxConcurrency := sp_MaxConcurrency p;
                         p_MinIdle := 0; p_Priority := 0; p_Enabled := sp_Enabled p; p_ManagedBy := "";
                         p_CatalogRevision := 0; p_CreatedAt := sp_CreatedAt p; p_UpdatedAt := sp_UpdatedAt p |}
         end)
  else Ret (Err ErrNotFound).

(** A service without a catalog answers [None]. *)
Definition resolveRunnerTemplate (profile : RunnerProfile) : prog (result string) :=
  if negb (bool_decide (p_TemplateSource profile = TemplateSourcePublic)) then Ret (Ok (p_TemplateID profile))
  else
    let! c := ask ListDefaultTemplates in
    Ret (match c with
         | None => Err (newDefaultTemplateResolutionError (TrimSpace (p_DefaultTemplateName profile)) "catalog_unavailable")
         | Some (Err e) => Err (ErrWrap ("list default templates for " +:+ quoted (TrimSpace (p_DefaultTemplateName profile))
                                         +:+ ": ") e "")
         | Some (Ok templates) => resolveDefaultTemplateID (p_DefaultTemplateName profile) templates
         end).

(** ** Admission *)

Definition runnerProfileScopeForInstallation (installationID : Z) : prog (result (option RunnerProfileScope)) :=
  if (installationID <=? 0)%Z then Ret (Ok None)
  else
    let! a := ask (AccountScopeForPersonalGitHubInstallation installationID) in
    let organization :=
      let! o := ask (GetGitHubInstallationOwner installationID) in
      Ret (match o with
           | Err e => if errors_is e ErrNotFound then Ok None else Err e
           | Ok accountType =>
               if bool_decide (accountType = "Organization") || bool_decide (accountType = "organization")
               then Ok (Some (MkScope "github_installation" installationID)) else Ok None
           end) in
    match a with
    | Err e => Ret (Err e)
    | Ok (Some accountID) => if (0 <? accountID)%Z then Ret (Ok (Some (MkScope "account" accountID))) else organization
    | Ok None => organization
    end.

Definition matchProfileForAdmission (repository : string) (installationID : Z) (labels : list string)
    : prog (result ProfileMatch) :=
  let! s := runnerProfileScopeForInstallation installationID in
  match s with
  | Err e => Ret (Err e)
  | Ok (Some scope) => ask (MatchProfileForScopeC scope repository labels)
  | Ok None => ask (MatchProfileC repository labels)
  end.

(** Returns the state and the error. *)
Definition wakeWaitingWorkflowJob (req : RunnerRequest) (fallback : RunnerState)
    : prog (RunnerState * option goerror) :=
  if (req_JobID req =? 0)%Z then Ret (fallback, None)
  else
    let! r := read_state (req_ID req) in
    match r with
    | Err e => Ret (fallback, Some e)
    | Ok st =>
        if negb (is_status st StatusQueued) || negb (bool_decide (st_LastErrorCode st = workflowJobWaitCode))
           || negb (bool_decide (st_LeaseOwner st = "")) || negb (bool_decide (st_SandboxID st = ""))
           || negb (st_ProcessPID st =? 0)%Z || negb (st_WorkflowJobID st =? req_JobID req)%Z
           || negb (bool_decide (st_RepositoryFullName st = req_RepositoryFullName req))
           || negb (st_GitHubInstallationID st =? req_GitHubInstallationID req)%Z || IsZero (st_NextRetryAt st)
        then Ret (st, None)
        else
          let st := st <| st_NextRetryAt := 0%Z |> in
          let! w := write_state st in
          match w with
          | Some e =>
              if errors_is e ErrConflict then
                let! r := read_state (req_ID req) in
                match r with Ok st => Ret (st, None) | Err e => Ret (zero_state, Some e) end
              else Ret (st, Some e)
          | None => ask SignalQueue ;; Ret (st, None)
          end
    end.

Definition enqueueRunnerRequestLocked (req : RunnerRequest) (payload : githubPayload)
    : prog (RunnerState * bool * option goerror) :=
  let! r := read_state (req_ID req) in
  match r with
  | Ok st =>
      let! (st, err) := wakeWaitingWorkflowJob req st in
      Ret (st, false, err)
  | Err _ =>
      let! (created, st, err) := trigger (ECreate req payload) in
      match err with
      | Some e => Ret (zero_state, false, Some e)
      | None => (if (created : bool) then ask SignalQueue else Ret tt) ;; Ret (st, created, None)
      end
  end.

Definition rejectAdmission (req : RunnerRequest) (payload : githubPayload) (reason : string)
    : prog (RunnerState * option goerror) :=
  let! (created, st, err) := trigger (ECreateRejected req payload reason) in
  match err with
  | Some e => Ret (zero_state, Some e)
  | None => Ret (st, None)
  end.

Definition workflowJobPullRequestNumber (pulls : list Z) : Z := match pulls with [] => 0%Z | n :: _ => n end.

Definition enqueueWorkflowJob (repositoryFullName : string) (githubInstallationID : Z) (job : WorkflowJob)
    (payload : githubPayload) : prog (RunnerState * bool * option goerror) :=
  let id := FormatInt (job_ID job) in
  let req := zero_request <| req_ID := id |> <| req_Source := "github_webhook" |> <| req_JobID := job_ID job |>
    <| req_PullRequestNumber := workflowJobPullRequestNumber (job_PullRequests job) |>
    <| req_GitHubInstallationID := githubInstallationID |> <| req_RepositoryFullName := repositoryFullName |>
    <| req_RequestedLabels := job_Labels job |> <| req_Labels := job_Labels job |>
    <| req_RunnerName := "e2b-" +:+ id |> in
  let! allowed := ask (RepositoryAllowed repositoryFullName) in
  if negb (allowed : bool) then
    let! (st, err) := rejectAdmission req payload "repository_not_allowed" in Ret (st, false, err)
  else
    let! m := matchProfileForAdmission repositoryFullName githubInstallationID (job_Labels job) in
    match m with
    | Err e => Ret (zero_state, false, Some e)
    | Ok m =>
        let req := req <| req_ProfileSource := pm_Source m |> <| req_ProfileScopeType := pm_ScopeType m |>
                       <| req_ProfileScopeID := pm_ScopeID m |> in
        match pm_Profile m with
        | None => let! (st, err) := rejectAdmission req payload (pm_Reason m) in Ret (st, false, err)
        | Some p =>
            enqueueRunnerRequestLocked (req <| req_ProfileName := p_Name p |> <| req_RunnerGroup := p_RunnerGroup p |>
              <| req_Labels := p_Labels p |>) payload
        end
    end.

(** ** Job events of a running request *)

(** Returns the state, whether a start is to be counted, and the error. *)
Definition markWorkflowJobInProgress (id : string) (job : WorkflowJob) : prog (RunnerState * bool * option goerror) :=
  let! r := read_state id in
  match r with
  | Err e => Ret (zero_state, false, Some e)
  | Ok st =>
      if is_status st StatusCompleted || is_status st StatusStopping then Ret (st, false, None)
      else if shouldRecordAssignedJob st job then
        let mismatched := workflowJobMismatch st job in
        let recordMetric := (st_AssignedJobID st =? 0)%Z && negb (bool_decide (st_AssignedJobName st = job_Name job)) in
        let st := recordAssignedJob st job in
        let! w := write_state st in
        match w with
        | Some e => Ret (zero_state, false, Some e)
        | None => Ret (st, if mismatched then false else recordMetric, None)
        end
      else Ret (st, false, None)
  end.

Definition markRunnerJobStarted (id : string) : prog unit :=
  let! r := read_state id in
  match r with
  | Err _ => Ret tt
  | Ok st =>
      if negb (st_AssignedJobID st =? 0)%Z || bool_decide (st_AssignedJobName st = runnerJobStartedMarker)
         || is_status st StatusCompleted || is_status st StatusStopping then Ret tt
      else write_state (st <| st_AssignedJobName := runnerJobStartedMarker |>) ;; Ret tt
  end.

Definition appendRunnerStdout (id : string) (text : string) : prog unit :=
  if Contains text "Running job:" || Contains text "RUNNERD_JOB_STARTED" then markRunnerJobStarted id else Ret tt.

(** ** Starting a runner *)

Section start.
Context (cfg : server_config).
(** [s.workerID] *)
Context (serverWorkerID : string).

Definition completeWithoutSandbox (id : string) (job : WorkflowJob) : prog (option goerror) :=
  let! r := read_state id in
  match r with
  | Err e => Ret (Some (ErrWrap "read runner state for skip: " e ""))
  | Ok st =>
      if is_status st StatusCompleted || is_status st StatusStopping || is_status st StatusRunning then Ret None
      else
        let! now := ask Now in
        let st := (retainWorkflowJobResult (recordAssignedJob st job) job now).1 in
        let! now := ask Now in
        let st := clearFailure (st <| st_Status := StatusCompleted |> <| st_CompletedAt := now |>) in
        let st := st <| st_LeaseOwner := "" |> <| st_LeaseExpiresAt := 0%Z |> <| st_NextRetryAt := 0%Z |> in
        let! w := write_state st in
        Ret (match w with Some e => Some (ErrWrap "write skipped runner state: " e "") | None => None end)
  end.

(** The code and message of a request that must wait, whether the status was
    recognised and whether the lookup was rate limited. *)
Definition waitingReason (stale : bool) (lookup : result WorkflowJob) : bool * bool * string * string :=
  if stale then (true, false, workflowJobWaitCode, "workflow job changed during status lookup; recheck required")
  else
    match lookup with
    | Ok job =>
        if isWorkflowJobWaiting (job_Status job) || bool_decide (job_Status job = "in_progress")
        then (true, false, workflowJobWaitCode, "workflow job is " +:+ job_Status job)
        else (false, false, workflowJobStatusCodePrefix +:+ "unknown", "unrecognized workflow job status")
    | Err e =>
        let errorCode := (classifyRetryableError "github_job_status" e).1 in
        if bool_decide (errorCode = "http_rate_limited") || bool_decide (errorCode = "github_secondary_rate_limit")
        then (false, true, workflowJobStatusCodePrefix +:+ "rate_limited", "workflow job status lookup rate limited")
        else (false, false, workflowJobStatusCodePrefix +:+ "unavailable", "workflow job status lookup failed")
    end.

(** Back to the queue, or failed once the budget for unknown answers is spent. *)
Definition waitingState (st : RunnerState) (reason : bool * bool * string * string) (now : Time) : RunnerState :=
  let '(known, rateLimited, code, message) := reason in
  let st := clearFailure (st <| st_LeaseOwner := "" |> <| st_LeaseExpiresAt := 0%Z |> <| st_Status := StatusQueued |>
                             <| st_CreatingAt := 0%Z |>) in
  let st := st <| st_LastErrorCode := code |> <| st_LastErrorMessage := message |> <| st_LastErrorRetryable := true |> in
  if negb known && negb rateLimited && (cfg_RetryMaxAttempts cfg <=? st_RetryCount st)%Z then
    st <| st_Status := StatusFailed |> <| st_Error := message |> <| st_FailureStage := "github_job_status" |>
       <| st_FailureReason := code |> <| st_NextRetryAt := 0%Z |>
  else if known then st <| st_NextRetryAt := waitingRetryAt cfg (st_CreatedAt st) now |>
  else
    let count := next_count cfg (st_RetryCount st) in
    st <| st_RetryCount := count |> <| st_NextRetryAt := nextRetryAt cfg (Z.max count 1) now |>.

Definition ensureWorkflowJobStillQueued (req : RunnerRequest) (workerID : string) : prog (result bool) :=
  if (req_JobID req =? 0)%Z then Ret (Ok true)
  else
    let! b := read_state (req_ID req) in
    match b with
    | Err e => Ret (Err e)
    | Ok before =>
        let! j := ask (GetWorkflowJob (req_RepositoryFullName req) (req_JobID req)) in
        let! r := read_state (req_ID req) in
        match r with
        | Err e => Ret (Err e)
        | Ok st =>
            if negb (is_status st StatusCreating) || negb (bool_decide (st_LeaseOwner st = workerID))
               || negb (bool_decide (st_SandboxID st = "")) || negb (st_ProcessPID st =? 0)%Z
               || negb (st_LastAttemptAt st =? st_LastAttemptAt before)%Z
               || negb (st_CreatingAt st =? st_CreatingAt before)%Z then Ret (Ok false)
            else
              let stale := negb (st_Version st =? st_Version before)%Z in
              let lookup := match j with
                            | Ok job => if (job_ID job =? req_JobID req)%Z then Ok job
                                        else Err (ErrText "workflow job lookup returned a different job")
                            | Err e => Err e
                            end in
              let wait :=
                let! now := ask Now in
                let! w := write_state (waitingState st (waitingReason stale lookup) now) in
                match w with
                | Some e => Ret (Err e)
                | None => ask SignalQueue ;; Ret (Ok false)
                end in
              match stale, lookup with
              | false, Ok job =>
                  if bool_decide (job_Status job = "queued") then
                    if bool_decide (st_LastErrorCode st = workflowJobWaitCode)
                       || HasPrefix (st_LastErrorCode st) workflowJobStatusCodePrefix then
                      let! w := write_state (clearLastError (clearFailure (st <| st_NextRetryAt := 0%Z |>))) in
                      match w with Some e => Ret (Err e) | None => Ret (Ok true) end
                    else Ret (Ok true)
                  else if bool_decide (job_Status job = "completed") then
                    let! err := completeWithoutSandbox (req_ID req) job in
                    match err with Some e => Ret (Err e) | None => Ret (Ok false) end
                  else wait
              | _, _ => wait
              end
        end
    end.

Definition failStartForAttempt (id : string) (st : RunnerState) (stage : string) (err : goerror)
    (attemptAt : option Time) : prog unit :=
  let! r := read_state id in
  if match attemptAt with
     | Some a => match r with
                 | Ok current => negb (st_LastAttemptAt current =? a)%Z || negb (is_status current StatusCreating)
                 | Err _ => true
                 end
     | None => false
     end then Ret tt
  else if match r with
          | Ok current => is_status current StatusCompleted || is_status current StatusStopping
          | Err _ => false
          end then trigger (EReleaseLease id serverWorkerID)
  else
    let st := match r with Ok current => current | Err _ => st end in
    let! now := ask Now in
    let st := (applyFailure cfg st stage err true now).1 in
    write_state st ;;
    if is_status st StatusQueued then ask SignalQueue else Ret tt.

Definition retryOrFail (id stage : string) (err : goerror) : prog unit :=
  let! r := read_state id in
  match r with
  | Err _ => Ret tt
  | Ok current =>
      if is_status current StatusCompleted || is_status current StatusFailed then Ret tt
      else
        let! now := ask Now in
        let current := (applyFailure cfg current stage err true now).1 in
        let! w := write_state current in
        match w with
        | Some _ => Ret tt
        | None => if is_status current StatusQueued then ask SignalQueue else Ret tt
        end
  end.

Definition deferQueuedRequest (id workerID : string) (nextAttempt : Time) (capacityStage : string) : prog unit :=
  let! r := read_state id in
  match r with
  | Err _ => trigger (EReleaseLease id workerID)
  | Ok st =>
      if negb (is_status st StatusQueued) || negb (bool_decide (st_LeaseOwner st = workerID))
      then trigger (EReleaseLease id workerID)
      else
        let dimension := TrimSuffix capacityStage "_capacity_check" in
        let st := st <| st_LastErrorCode := "runner_capacity_" +:+ dimension |>
                     <| st_LastErrorMessage := "Waiting for " +:+ dimension +:+ " Runner concurrency capacity" |>
                     <| st_LastErrorRetryable := true |> <| st_LeaseOwner := "" |> <| st_LeaseExpiresAt := 0%Z |>
                     <| st_NextRetryAt := nextAttempt |> in
        let! w := write_state (clearSandboxServiceSnapshot st) in
        match w with
        | Some _ => trigger (EReleaseLease id workerID)
        | None => Ret tt
        end
  end.

Definition deferCreatingRequest (id workerID : string) (nextAttempt : Time) : prog unit :=
  let! r := read_state id in
  match r with
  | Err _ => trigger (EReleaseLease id workerID)
  | Ok st =>
      if negb (is_status st StatusCreating) || negb (bool_decide (st_LeaseOwner st = workerID))
         || negb (bool_decide (st_SandboxID st = "")) then Ret tt
      else
        let st := st <| st_Status := StatusQueued |> <| st_CreatingAt := 0%Z |> <| st_LeaseOwner := "" |>
                     <| st_LeaseExpiresAt := 0%Z |> <| st_NextRetryAt := nextAttempt |> in
        write_state (clearSandboxServiceSnapshot (clearRunnerEnvironmentSnapshot st)) ;; Ret tt
  end.

(** The checks of a sponsored configuration against the current policy. *)
Definition sponsorshipStillGranted (snapshot : SandboxSnapshot) : prog (option goerror) :=
  let! p := ask (GetForkSponsorshipPolicy (snap_SponsorInstallationID snapshot) (snap_SponsorSourceRepositoryID snapshot)) in
  match p with
  | Err _ => Ret (Some ErrForkSponsorshipPolicyChanged)
  | Ok policy =>
      if negb (pol_Enabled policy) || negb (bool_decide (pol_Mode policy = snap_SponsorAuthorizationReason snapshot))
         || negb (EqualFold (pol_SourceRepositoryFullName policy) (snap_SponsorSourceRepositoryFullName snapshot))
      then Ret (Some ErrForkSponsorshipPolicyChanged)
      else
        let! approved :=
          (if bool_decide (pol_Mode policy = "approval_required") then
             let! a := ask (GetForkSponsorshipApproval (pol_SourceRepositoryID policy) (snap_ForkRepositoryID snapshot)) in
             Ret (match a with
                  | Err _ => false
                  | Ok approval =>
                      (apr_SponsorInstallationID approval =? pol_SponsorInstallationID policy)%Z
                      && (apr_ForkOwnerID approval =? snap_ForkOwnerID snapshot)%Z
                      && EqualFold (apr_ForkRepositoryFullName approval) (snap_ForkRepositoryFullName snapshot)
                      && EqualFold (apr_ForkOwnerLogin approval) (snap_ForkOwnerLogin snapshot)
                  end)
           else Ret true) in
        if negb approved then Ret (Some ErrForkSponsorshipPolicyChanged)
        else
          let! n := trigger (ECountSponsored (pol_SponsorInstallationID policy) (pol_SourceRepositoryID policy)) in
          match n with
          | Err e => Ret (Some e)
          | Ok inFlight => Ret (if (pol_MaxConcurrency policy <=? inFlight)%Z then Some ErrForkSponsorshipAtCapacity else None)
          end
  end.

Definition snapshotState (st : RunnerState) (snapshot : SandboxSnapshot) : RunnerState :=
  st <| st_SandboxAPIURL := snap_APIURL snapshot |> <| st_SandboxAPIKeyEncrypted := snap_EncryptedAPIKey snapshot |>
     <| st_SandboxConfigSource := snap_Source snapshot |>
     <| st_SponsorInstallationID := snap_SponsorInstallationID snapshot |>
     <| st_SponsorSourceRepositoryID := snap_SponsorSourceRepositoryID snapshot |>
     <| st_SponsorSourceRepositoryFullName := snap_SponsorSourceRepositoryFullName snapshot |>
     <| st_SponsorAuthorizationReason := snap_SponsorAuthorizationReason snapshot |>.

Definition persistSandboxServiceSnapshot (id : string) (snapshot : SandboxSnapshot) : prog (option goerror) :=
  if bool_decide (snap_APIURL snapshot = "") && bool_decide (snap_EncryptedAPIKey snapshot = "") then Ret None
  else
    let! denied := (if bool_decide (snap_Source snapshot = "organization_sponsorship")
                    then sponsorshipStillGranted snapshot else Ret None) in
    match denied with
    | Some e => Ret (Some e)
    | None =>
        let! r := read_state id in
        match r with
        | Err e => Ret (Some (ErrWrap "read state for sandbox config snapshot: " e ""))
        | Ok current =>
            let! w := write_state (snapshotState current snapshot) in
            Ret (match w with Some e => Some (ErrWrap "write sandbox config snapshot: " e "") | None => None end)
        end
    end.

Definition cleanupStartedSandbox (id : string) (result : SandboxResult) : prog unit :=
  if bool_decide (res_SandboxID result = "") then Ret tt
  else stopSandboxWithTimeout id (res_SandboxID result) (res_PID result) ;; Ret tt.

(** *** Windows registrations *)

(** [time.Time.Truncate(time.Millisecond)] *)
Definition truncate_ms (t : Time) : Time := (t - t mod Millisecond)%Z.

(** A new attempt time, later than the last one. *)
Definition nextAttemptAt (now last : Time) : Time :=
  let attemptAt := truncate_ms now in
  if (attemptAt <=? last)%Z then (truncate_ms last + Millisecond)%Z else attemptAt.

Definition no_jit : RunnerJITConfig := MkJIT false "" 0.

Definition prepareWindowsJIT (req : RunnerRequest) (attemptAt : Time) : prog (RunnerJITConfig * option goerror) :=
  let! r := read_state (req_ID req) in
  match r with
  | Err e => Ret (no_jit, Some e)
  | Ok current =>
      if negb (is_status current StatusCreating) || negb (st_LastAttemptAt current =? attemptAt)%Z
      then Ret (no_jit, Some ErrRunnerCreationSuperseded)
      else
        let! err := cleanupGitHubRunner current in
        match err with
        | Some e => Ret (no_jit, Some e)
        | None => ask (CreateRunnerJITConfig (req_RepositoryFullName req) (req_RunnerGroup req) (req_RunnerName req)
                         (req_Labels req))
        end
  end.

Definition cleanupWindowsJIT (req : RunnerRequest) (attemptAt : Time) (runnerID : Z) : prog (option goerror) :=
  if (0 <? runnerID)%Z then ask (RemoveRunner (req_RepositoryFullName req) (req_RunnerGroup req) runnerID)
  else
    let! r := read_state (req_ID req) in
    match r with
    | Err e => Ret (Some e)
    | Ok current =>
        if negb (st_LastAttemptAt current =? attemptAt)%Z then Ret None
        else
          let! r := ask (RemoveRunnerByName (req_RepositoryFullName req) (req_RunnerGroup req) (req_RunnerName req)) in
          Ret (match r with Ok _ => None | Err e => Some e end)
    end.

(** The registration of an attempt: [None] for one that needs no cleanup. *)
Abbreviation jit_handle := (option (Time * Z)).

(** The closure [cleanupJIT] of [startRunner]; returns what is left to clean up. *)
Definition cleanupJIT (req : RunnerRequest) (jit : jit_handle) : prog jit_handle :=
  match jit with
  | None => Ret None
  | Some (attemptAt, runnerID) =>
      let! err := cleanupWindowsJIT req attemptAt runnerID in
      match err with
      | Some _ => retainWindowsJITCleanup cfg (req_ID req) ;; Ret jit
      | None => Ret None
      end
  end.

(** *** The start itself *)

Definition runningState (st : RunnerState) (result : SandboxResult) (templateID region : string) : RunnerState :=
  let resolved := TrimSpace (res_ResolvedTemplateID result) in
  st <| st_Status := StatusRunning |> <| st_SandboxID := res_SandboxID result |> <| st_SandboxRegion := region |>
     <| st_ResolvedTemplateID := if bool_decide (resolved = "") then TrimSpace templateID else resolved |>
     <| st_TemplateVersion := TrimSpace (res_TemplateVersion result) |>
     <| st_RunnerVersion := TrimSpace (res_RunnerVersion result) |> <| st_ProcessPID := res_PID result |>
     <| st_Error := "" |> <| st_LeaseOwner := "" |> <| st_LeaseExpiresAt := 0%Z |>.

(** From the call that starts the sandbox on; [failStart] is the closure of the code. *)
Definition startSandbox (failStart : string -> goerror -> prog unit) (req : RunnerRequest) (attempt : option Time)
    (snapshot : SandboxSnapshot) (templateID : string) (jit : jit_handle) : prog unit :=
  let id := req_ID req in
  let! url := ask (RunnerURL (req_RepositoryFullName req) (req_RunnerGroup req)) in
  let! (stage, started) :=
    (match url with
     | Some e => Ret ("github_runner_url", Err e)
     | None => let! r := ask (StartRunner req templateID) in Ret ("sandbox_start", r)
     end) in
  match started with
  | Err e =>
      let! jit := cleanupJIT req jit in
      failStart stage e ;;
      cleanupJIT req jit ;; Ret tt
  | Ok result =>
      let abandon := cleanupStartedSandbox id result ;; cleanupJIT req jit ;; Ret tt in
      let! r := read_state id in
      match r with
      | Err _ => abandon
      | Ok current =>
          if negb (is_status current StatusCreating)
             || match attempt with Some a => negb (st_LastAttemptAt current =? a)%Z | None => false end
          then abandon
          else
            let url := TrimSpace (snap_APIURL snapshot) in
            let! region := ask (SandboxRegion (if bool_decide (url = "") then TrimSpace (req_SandboxAPIURL req) else url)) in
            let! w := write_state (runningState current result templateID region) in
            match w with
            | Some _ => abandon
            | None => Ret tt
            end
      end
  end.

(** Registration with GitHub: a one-time configuration on Windows, a token otherwise. *)
Definition registerAndStart (failStart : string -> goerror -> prog unit) (req : RunnerRequest) (attempt : option Time)
    (snapshot : SandboxSnapshot) (templateID : string) : prog unit :=
  match attempt with
  | Some attemptAt =>
      let! (jit, err) := prepareWindowsJIT req attemptAt in
      if match err with Some e => errors_is e ErrRunnerCreationSuperseded | None => false end then Ret tt
      else
        let handle := if jit_CleanupRequired jit
                      then Some (attemptAt, if bool_decide (jit_RunnerName jit = req_RunnerName req)
                                            then jit_RunnerID jit else 0%Z)
                      else None in
        match err with
        | Some e =>
            let! handle := cleanupJIT req handle in
            failStart "github_registration" e ;;
            cleanupJIT req handle ;; Ret tt
        | None => startSandbox failStart req attempt snapshot templateID handle
        end
  | None =>
      let! err := ask (CreateRegistrationToken (req_RepositoryFullName req) (req_RunnerGroup req)) in
      match err with
      | Some e => failStart "github_registration" e
      | None => startSandbox failStart req attempt snapshot templateID None
      end
  end.

(** From the job check on, once the creating state is persisted. *)
Definition startCreated (failStart : string -> goerror -> prog unit) (req : RunnerRequest) (profile : RunnerProfile)
    (workerID : string) (attempt : option Time) : prog unit :=
  let id := req_ID req in
  let! s := ensureWorkflowJobStillQueued req workerID in
  match s with
  | Err e => failStart "github_job_status" e
  | Ok false => Ret tt
  | Ok true =>
  let! g := (if bool_decide (TrimSpace (req_RunnerGroup req) = "") then Ret None
             else ask (ValidateRunnerGroup (req_GitHubInstallationID req) (req_RepositoryFullName req)
                         (req_RunnerGroup req))) in
  match g with
  | Some e => failStart "github_runner_group" (newRunnerGroupValidationFailure e)
  | None =>
  let! c := ask (SandboxServiceFor req) in
  match c with
  | Err e => failStart "sandbox_config" e
  | Ok snapshot =>
  let! err := persistSandboxServiceSnapshot id snapshot in
  match err with
  | Some e =>
      if errors_is e ErrForkSponsorshipAtCapacity || errors_is e ErrForkSponsorshipPolicyChanged then
        let! now := ask Now in
        deferCreatingRequest id workerID (now + 5 * Second) ;; ask SignalQueue
      else failStart "sandbox_config" e
  | None =>
  let! t := resolveRunnerTemplate profile in
  match t with
  | Err e => failStart "template_resolution" e
  | Ok templateID =>
  let windows := PlatformForLabels (req_Labels req) in
  let! a := (if bool_decide (p_TemplateSource profile = TemplateSourcePublic) then Ret (Ok true)
             else ask (ListRunnerApplications (req_RepositoryFullName req) (req_RunnerGroup req) windows)) in
  match a with
  | Err e => failStart "github_runner_downloads" e
  | Ok false => failStart "github_runner_downloads"
      (ErrWrap "" ErrRunnerApplicationMissing (" for platform " +:+ if windows then "windows" else "linux"))
  | Ok true => registerAndStart failStart req attempt snapshot templateID
  end end end end end end.

Definition startRunner (id workerID : string) : prog unit :=
  let! rq := trigger (EReadRequest id) in
  match rq with
  | Err _ => Ret tt
  | Ok req =>
  let! r := read_state id in
  match r with
  | Err _ => Ret tt
  | Ok st =>
  if negb (is_status st StatusQueued) then Ret tt
  else
  let! p := profileForRunnerRequest req in
  match p with
  | Err e => failStartForAttempt id st "profile_lookup"
               (ErrWrap ("load profile " +:+ quoted (req_ProfileName req) +:+ ": ") e "") None
  | Ok profile =>
  match validateRequestedProfile profile (req_RequestedLabels req) with
  | Some e => failStartForAttempt id st "profile_validation" e None
  | None =>
  let! (reserved, stage, err) := ask (ReserveCapacity req profile) in
  match err with
  | Some _ => trigger (EReleaseLease id workerID)
  | None =>
  if negb (reserved : bool) then
    let! now := ask Now in
    deferQueuedRequest id workerID (now + 5 * Second) stage ;; ask SignalQueue
  else
  let st := if HasPrefix (st_LastErrorCode st) "runner_capacity_"
            then clearLastError st <| st_NextRetryAt := 0%Z |> else st in
  let! now := ask Now in
  let attempt := if PlatformForLabels (req_Labels req) then Some (nextAttemptAt now (st_LastAttemptAt st)) else None in
  let st := st <| st_Status := StatusCreating |> in
  let st := match attempt with Some a => st <| st_LastAttemptAt := a |> | None => st end in
  let! now := ask Now in
  let st := st <| st_LeaseOwner := workerID |> <| st_LeaseExpiresAt := (now + cfg_WorkerLeaseTTL cfg)%Z |> in
  let! w := write_state st in
  ask (ReleaseCapacity req) ;;
  match w with
  | Some _ => trigger (EReleaseLease id workerID)
  | None => startCreated (fun stage e => failStartForAttempt id st stage e attempt) req profile workerID attempt
  end
  end end end end end.

(** ** Background loops *)

(** One pass of the worker; each claimed request is started in a goroutine of its
    own.  [fuel] bounds the passes of the loop; it returns the claimed ids. *)
Fixpoint processQueuedRequests (fuel : nat) : prog (list string) :=
  match fuel with
  | O => Ret []
  | S fuel =>
      let! slot := ask AcquireSlot in
      if negb (slot : bool) then Ret []
      else
        let! c := trigger (EClaim serverWorkerID (cfg_WorkerLeaseTTL cfg)) in
        match c with
        | Ok (Some (req, _)) => let! ids := processQueuedRequests fuel in Ret (req_ID req :: ids)
        | _ => Ret []
        end
  end.

(** The first loop of the sweeper; returns the ids of the running requests it stopped. *)
Fixpoint sweepTimeouts (now : Time) (states : list RunnerState) : prog (list string) :=
  match states with
  | [] => Ret []
  | st :: rest =>
      match st_Status st with
      | StatusCreating =>
          (if negb (IsZero (st_CreatingAt st)) && (cfg_SandboxCreateTimeout cfg <? now - st_CreatingAt st)%Z
           then retryOrFail (st_ID st) "sweeper_create_timeout" (ErrText "runner create timed out") else Ret tt) ;;
          sweepTimeouts now rest
      | StatusRunning =>
          if negb (IsZero (st_RunningAt st)) && (cfg_SandboxTimeout cfg <? now - st_RunningAt st)%Z then
            failAndStopRunner cfg (st_ID st) "sandbox_timeout" "timeout" "runner exceeded sandbox timeout" ;;
            let! ids := sweepTimeouts now rest in Ret (st_ID st :: ids)
          else sweepTimeouts now rest
      | StatusStopping =>
          (if negb (IsZero (st_NextRetryAt st)) && (now <? st_NextRetryAt st)%Z then Ret tt
           else if negb (IsZero (st_StoppingAt st)) && (cfg_SandboxStopTimeout cfg <? now - st_StoppingAt st)%Z
           then stopIfExists cfg (st_ID st) no_job TerminationSourceRecoveryCleanup else Ret tt) ;;
          sweepTimeouts now rest
      | _ => sweepTimeouts now rest
      end
  end.

(** One request of the second loop: a runner that never got a job. *)
Definition sweepIdle (now : Time) (stoppedRunning : list string) (st : RunnerState) : prog unit :=
  if negb (is_status st StatusRunning) || negb (shouldStopIdleRunner cfg st now) then Ret tt
  else if bool_decide (st_ID st ∈ stoppedRunning) then Ret tt
  else
    let! q := originalWorkflowJobQueued st in
    match q with
    | Err _ | Ok true => Ret tt
    | Ok false =>
        let! b := githubRunnerBusy st in
        match b with
        | Err _ => Ret tt
        | Ok true => markRunnerJobStarted (st_ID st)
        | Ok false => stopIfExists cfg (st_ID st) no_job TerminationSourceIdleCleanup
        end
    end.

Definition sweepOnce : prog unit :=
  let! l := trigger EListActive in
  match l with
  | Err _ => Ret tt
  | Ok states =>
      let! now := ask Now in
      let! stoppedRunning := sweepTimeouts now states in
      for_each states (sweepIdle now stoppedRunning)
  end.

(** One completed request whose runner executed another job. *)
Definition reconcileMismatched (id : string) : prog unit :=
  let! r := read_state id in
  match r with
  | Err _ => Ret tt
  | Ok current =>
      if negb (is_status current StatusCompleted) || (st_WorkflowJobID current =? 0)%Z
         || (st_AssignedJobID current =? 0)%Z || (st_WorkflowJobID current =? st_AssignedJobID current)%Z then Ret tt
      else
        let! q := originalWorkflowJobQueued current in
        let! r := read_state (st_ID current) in
        match r with
        | Err _ => Ret tt
        | Ok latest =>
            if negb (is_status latest StatusCompleted)
               || negb (st_WorkflowJobID latest =? st_WorkflowJobID current)%Z
               || negb (st_AssignedJobID latest =? st_AssignedJobID current)%Z then Ret tt
            else requeueMismatchedWorkflowJob latest (match q with Ok b => b | Err _ => true end) ;; Ret tt
        end
  end.

Definition reconcileMismatchedCompletedJobs : prog unit :=
  let! l := trigger (EListMismatched 50) in
  match l with
  | Err _ => Ret tt
  | Ok states => for_each states (fun st => reconcileMismatched (st_ID st))
  end.

Definition reconcilable (st : RunnerState) : bool :=
  is_status st StatusFailed
  && (bool_decide (st_FailureStage st = "recovery") || bool_decide (st_FailureStage st = "cleanup")).

Definition completeIfWorkflowJobCompleted (id : string) : prog (option goerror) :=
  let! r := read_state id in
  match r with
  | Err e => Ret (Some e)
  | Ok st =>
      if (st_WorkflowJobID st =? 0)%Z || bool_decide (st_RepositoryFullName st = "") then Ret None
      else if negb (reconcilable st) then Ret None
      else
        let! j := ask (GetWorkflowJob (st_RepositoryFullName st) (st_WorkflowJobID st)) in
        match j with
        | Err e => Ret (Some e)
        | Ok job =>
            if negb (EqualFold (TrimSpace (job_Status job)) "completed") then Ret None
            else
              let! r := read_state id in
              match r with
              | Err e => Ret (Some e)
              | Ok latest =>
                  if negb (st_Version latest =? st_Version st)%Z
                     || negb (st_WorkflowJobID latest =? st_WorkflowJobID st)%Z
                     || negb (bool_decide (st_RepositoryFullName latest = st_RepositoryFullName st)) then Ret None
                  else if negb (reconcilable latest) then Ret None
                  else
                    let latest := clearLastError (clearFailure (latest <| st_Status := StatusCompleted |>
                      <| st_AssignedJobID := 0%Z |> <| st_AssignedJobName := "" |>)) in
                    let latest := latest <| st_NextRetryAt := 0%Z |> <| st_LeaseOwner := "" |>
                                         <| st_LeaseExpiresAt := 0%Z |> in
                    let! completedAt := ask Now in
                    let latest := (retainWorkflowJobResult latest job completedAt).1 in
                    write_state (latest <| st_CompletedAt := completedAt |>)
              end
        end
  end.

Definition reconcileCompletedWorkflowJobs : prog unit :=
  let! l := trigger (EListFailed 50) in
  match l with
  | Err _ => Ret tt
  | Ok states => for_each states (fun st => completeIfWorkflowJobCompleted (st_ID st) ;; Ret tt)
  end.

(** One active request of a reconciliation pass. *)
Definition reconcileActive (st : RunnerState) : prog unit :=
  match st_Status st with
  | StatusQueued => ask SignalQueue
  | StatusStopping =>
      let! now := ask Now in
      if negb (IsZero (st_NextRetryAt st)) && (now <? st_NextRetryAt st)%Z then Ret tt
      else if negb (IsZero (st_StoppingAt st)) && (cfg_SandboxStopTimeout cfg <? now - st_StoppingAt st)%Z
      then stopIfExists cfg (st_ID st) no_job TerminationSourceRecoveryCleanup else Ret tt
  | _ => Ret tt
  end.

Definition reconcileOnce (fuel : nat) : prog unit :=
  processQueuedRequests fuel ;;
  let! l := trigger EListActive in
  match l with
  | Err _ => Ret tt
  | Ok states =>
      for_each states reconcileActive ;;
      reconcileMismatchedCompletedJobs ;;
      reconcileCompletedWorkflowJobs
  end.

(** ** Webhooks and the admin API *)

(** The request a job event belongs to, if any. *)
Definition completedWorkflowJobStopID (job : WorkflowJob) : prog string :=
  if HasPrefix (job_RunnerName job) "e2b-" then Ret (TrimPrefix (job_RunnerName job) "e2b-")
  else if (job_ID job =? 0)%Z then Ret ""
  else
    let id := FormatInt (job_ID job) in
    let! r := read_state id in
    Ret (match r with Ok _ => id | Err _ => "" end).

(** A verified and decoded workflow_job event; returns the HTTP status. *)
Definition handleWorkflowJobEvent (action repository : string) (installation : Z) (job : WorkflowJob)
    (payload : githubPayload) : prog Z :=
  if bool_decide (action = "queued") then
    let! (st, created, err) := enqueueWorkflowJob repository installation job payload in
    Ret (match err with
         | Some _ => 500%Z
         | None => if created || (is_status st StatusFailed && bool_decide (st_FailureStage st = "admission"))
                   then 202%Z else 200%Z
         end)
  else if bool_decide (action = "in_progress") then
    let! id := completedWorkflowJobStopID job in
    if bool_decide (id = "") then Ret 202%Z
    else
      let! (_, _, err) := markWorkflowJobInProgress id job in
      Ret (match err with Some _ => 500%Z | None => 202%Z end)
  else if bool_decide (action = "completed") then
    let! id := completedWorkflowJobStopID job in
    if bool_decide (id = "") then Ret 202%Z
    else
      let! (_, _, err) := stopRunner cfg id job TerminationSourceWorkflowJobWebhook in
      Ret (match err with Some _ => 500%Z | None => 202%Z end)
  else Ret 202%Z.

(** The loop over the jobs of a workflow run: created, existing, skipped, failed. *)
Fixpoint enqueueRunJobs (repository : string) (installation : Z) (jobs : list WorkflowJob) (payload : githubPayload)
    (counts : Z * Z * Z * Z) : prog (Z * Z * Z * Z) :=
  match jobs with
  | [] => Ret counts
  | job :: rest =>
      let '(created, existing, skipped, failed) := counts in
      if (job_ID job =? 0)%Z || negb (bool_decide (job_Status job = "queued")) then
        enqueueRunJobs repository installation rest payload (created, existing, (skipped + 1)%Z, failed)
      else
        let! (st, wasCreated, err) := enqueueWorkflowJob repository installation job payload in
        enqueueRunJobs repository installation rest payload
          (match err with
           | Some _ => (created, existing, skipped, (failed + 1)%Z)
           | None =>
               if (wasCreated : bool) then ((created + 1)%Z, existing, skipped, failed)
               else if is_status st StatusFailed && bool_decide (st_FailureStage st = "admission")
               then (created, existing, (skipped + 1)%Z, failed)
               else (created, (existing + 1)%Z, skipped, failed)
           end)
  end.

(** A decoded workflow_run event; returns the HTTP status. *)
Definition handleWorkflowRunWebhook (action repository : string) (installation run : Z) (payload : githubPayload)
    : prog Z :=
  if negb (bool_decide (action ∈ ["requested"; "in_progress"])) then Ret 202%Z
  else
    let! l := ask (ListWorkflowRunJobs repository run) in
    match l with
    | Err _ => Ret 502%Z
    | Ok jobs =>
        let! (_, _, _, failed) := enqueueRunJobs repository installation jobs payload (0, 0, 0, 0)%Z in
        Ret (if (0 <? failed)%Z then 502%Z else 202%Z)
    end.

(** [s.cfg.RepositoryAllowed] and the stored control log are calls. *)
Definition retryHistoricalWaitingJob (id : string) : prog (RunnerState * option goerror) :=
  let! r := read_state id in
  match r with
  | Err e => Ret (zero_state, Some e)
  | Ok st =>
      let refuse := Ret (st, Some ErrRetryNotAllowed) in
      if negb (is_status st StatusCompleted) || (st_WorkflowJobID st =? 0)%Z
         || negb (bool_decide (st_SandboxID st = "")) || negb (st_ProcessPID st =? 0)%Z
         || negb (IsZero (st_RunningAt st)) || negb (IsZero (st_StoppingAt st))
         || negb (bool_decide (st_TerminationSource st = "")) || negb (bool_decide (st_RunnerExitCode st = None))
         || negb (bool_decide (st_GitHubJobStatus st = "")) || negb (bool_decide (st_GitHubJobConclusion st = ""))
         || negb (IsZero (st_GitHubJobObservedAt st)) then refuse
      else
        let! log := ask (ReadControlLog id) in
        if match log with Ok text => negb (HasSuffix (TrimSpace text) historicalWorkflowJobWaitingSkip) | Err _ => true end
        then refuse
        else
          let! rq := trigger (EReadRequest id) in
          match rq with
          | Err e => Ret (st, Some e)
          | Ok req =>
              let! allowed := ask (RepositoryAllowed (req_RepositoryFullName req)) in
              if negb (bool_decide (req_Source req = "github_webhook")) || negb allowed then refuse
              else
                let! j := ask (GetWorkflowJob (req_RepositoryFullName req) (req_JobID req)) in
                if match j with
                   | Err _ => true
                   | Ok job => negb (job_ID job =? req_JobID req)%Z || negb (bool_decide (job_Status job = "queued"))
                               || negb (bool_decide (job_RunnerName job = "")) || negb (bool_decide (job_Conclusion job = ""))
                   end then refuse
                else
                  let! p := profileForRunnerRequest req in
                  if match p with
                     | Err _ => true
                     | Ok profile => match validateRequestedProfile profile (req_RequestedLabels req) with
                                     | Some _ => true | None => false end
                     end then refuse
                  else
                    let st' := clearLastError (clearFailure (st <| st_Status := StatusQueued |>
                      <| st_CompletedAt := 0%Z |> <| st_CreatingAt := 0%Z |> <| st_FailedAt := 0%Z |>
                      <| st_NextRetryAt := 0%Z |> <| st_LeaseOwner := "" |> <| st_LeaseExpiresAt := 0%Z |>
                      <| st_AssignedJobID := 0%Z |> <| st_AssignedJobName := "" |> <| st_RetryCount := 0%Z |>)) in
                    let st' := clearSandboxServiceSnapshot (clearRunnerEnvironmentSnapshot st') in
                    let! w := write_state st' in
                    match w with
                    | Some _ => Ret (st', Some ErrRetryNotAllowed)
                    | None => ask SignalQueue ;; Ret (st', None)
                    end
          end
  end.

(** An administrator's retry; returns the HTTP status. *)
Definition handleRetryRunner (id : string) : prog Z :=
  let! r := trigger (ERetry id) in
  let! err := (match r with
               | Ok _ => Ret None
               | Err e => if errors_is e ErrRetryNotAllowed
                          then let! (_, err) := retryHistoricalWaitingJob id in Ret err
                          else Ret (Some e)
               end) in
  Ret (match err with
       | None => 202%Z
       | Some e => if errors_is e ErrRetryNotAllowed then 409%Z else 500%Z
       end).
End start.
