(* ===== verification/HandlersSafety.v ===== *)
(** * Every handler keeps to the status machine

    Weakest-precondition proofs for the handlers of [Handlers], the list of all
    entry points, and the theorems about every interleaving of them. *)

From stdpp Require Import base gmap list strings.
From S2P Require Import Prelude GoStrings Query RunnerModel RunnerStore RunnerQueries Catalog Retry AccountModel Effects.
From S2P Require Import Lifecycle LifecycleSafety Handlers.

(** ** Handlers that only look *)

Lemma wp_profile_for c S K req Q : (forall r, Q r S K) -> wp c S K (profileForRunnerRequest req) Q.
Proof.
  intros HQ. unfold profileForRunnerRequest. cbv zeta. destruct (_ || _); [by apply wp_ask|].
  destruct (_ && _ && _); [|apply HQ]. apply wp_bind, wp_ask. intros r. apply HQ.
Qed.

Lemma wp_resolve_template c S K p Q : (forall r, Q r S K) -> wp c S K (resolveRunnerTemplate p) Q.
Proof.
  intros HQ. unfold resolveRunnerTemplate. destruct (negb _); [apply HQ|].
  apply wp_bind, wp_ask. intros r. apply HQ.
Qed.

Lemma wp_match_profile c S K repo inst labels Q :
  (forall r, Q r S K) -> wp c S K (matchProfileForAdmission repo inst labels) Q.
Proof.
  intros HQ. unfold matchProfileForAdmission, runnerProfileScopeForInstallation. apply wp_bind.
  assert (H : forall r : result (option RunnerProfileScope), wp c S K
    (match r with
     | Err e => Ret (Err e)
     | Ok (Some scope) => ask (MatchProfileForScopeC scope repo labels)
     | Ok None => ask (MatchProfileC repo labels)
     end) Q) by (intros [[]|]; try apply wp_ask; intros; apply HQ).
  destruct (_ <=? _)%Z; [apply (H (Ok None))|]. apply wp_bind, wp_ask. cbv zeta.
  assert (Ho : wp c S K (let! o := ask (GetGitHubInstallationOwner inst) in
      Ret (match o with
           | Err e => if errors_is e ErrNotFound then Ok None else Err e
           | Ok accountType =>
               if bool_decide (accountType = "Organization") || bool_decide (accountType = "organization")
               then Ok (Some (MkScope "github_installation" inst)) else Ok None
           end))
      (fun a S' K' => wp c S' K'
         (match a with
          | Err e => Ret (Err e)
          | Ok (Some scope) => ask (MatchProfileForScopeC scope repo labels)
          | Ok None => ask (MatchProfileC repo labels)
          end) Q)) by (apply wp_bind, wp_ask; intros o; apply H).
  intros [[a|]|e]; [|exact Ho|apply (H (Err e))].
  destruct (0 <? a)%Z; [apply (H (Ok (Some (MkScope "account" a))))|exact Ho].
Qed.

Lemma wp_sponsorship c S K snap Q : (forall r, Q r S K) -> wp c S K (sponsorshipStillGranted snap) Q.
Proof.
  intros HQ. apply wp_bind, wp_ask. intros [policy|]; [|apply HQ]. destruct (_ || _ || _); [apply HQ|].
  apply wp_bind.
  assert (H : forall b : bool, wp c S K
    (if negb b then Ret (Some ErrForkSponsorshipPolicyChanged)
     else
       let! n := trigger (ECountSponsored (pol_SponsorInstallationID policy) (pol_SourceRepositoryID policy)) in
       match n with
       | Err e => Ret (Some e)
       | Ok inFlight => Ret (if (pol_MaxConcurrency policy <=? inFlight)%Z
                             then Some ErrForkSponsorshipAtCapacity else None)
       end) Q).
  { intros []; [|apply HQ]. apply wp_bind. intros [?|]; apply HQ. }
  case_bool_decide; [apply wp_bind, wp_ask; intros a|]; apply H.
Qed.

(** ** Admission and job events *)

(** A copy edited outside the fields of its view. *)
Lemma view_eq_based K v st st' : based K v (view_of st) -> view_of st' = view_of st -> based K v (view_of st').
Proof. intros H E. by rewrite E. Qed.

Section any_care.
Context (cfg : server_config) (worker : string) (c : care).

Lemma wp_write_edit {A} S K st st' (f : option goerror -> prog A) Q :
  view_ok (view_of st) -> based K (view_of st) (view_of st) -> view_of st' = view_of st ->
  (forall r S' K', wp c S' K' (f r) Q) -> wp c S K (bind (write_state st') f) Q.
Proof.
  intros Hv Hb E HQ. eapply wp_write_last; [by rewrite E| |done]. rewrite E. by apply transition_ok_refl.
Qed.

Lemma wp_wake S K req fb Q : (forall r S' K', Q r S' K') -> wp c S K (wakeWaitingWorkflowJob req fb) Q.
Proof.
  intros HQ. unfold wakeWaitingWorkflowJob. destruct (_ =? _)%Z; [apply HQ|].
  apply wp_bind, wp_read; [intros; apply HQ|]. intros st Hv Hb.
  destruct (_ || _ || _ || _ || _ || _ || _ || _ || _); [apply HQ|]. cbv zeta.
  eapply wp_write_edit; [exact Hv|exact Hb|done|]. intros [e|] S' K'.
  - destruct (errors_is e ErrConflict); [|apply HQ].
    apply wp_bind, wp_read; intros; apply HQ.
  - apply wp_bind, wp_ask. intros ?. apply HQ.
Qed.

Lemma wp_enqueue S K req payload Q :
  (forall r S' K', Q r S' K') -> wp c S K (enqueueRunnerRequestLocked req payload) Q.
Proof.
  intros HQ. apply wp_bind, wp_read.
  - intros er. apply wp_bind. intros [[created st] [e|]]; [apply HQ|]. apply wp_bind.
    destruct created; [apply wp_ask; intros ?|]; apply HQ.
  - intros st Hv Hb. apply wp_bind, wp_wake. intros [st' err] S' K'. apply HQ.
Qed.

Lemma wp_reject S K req payload reason Q :
  (forall r S' K', Q r S' K') -> wp c S K (rejectAdmission req payload reason) Q.
Proof. intros HQ. apply wp_bind. intros [[created st] [e|]]; apply HQ. Qed.

Lemma wp_enqueue_job S K repo inst job payload Q :
  (forall r S' K', Q r S' K') -> wp c S K (enqueueWorkflowJob repo inst job payload) Q.
Proof.
  intros HQ. unfold enqueueWorkflowJob. cbv zeta. apply wp_bind, wp_ask. intros []; cbn [negb].
  2: { apply wp_bind, wp_reject. intros [? ?] S' K'. apply HQ. }
  apply wp_bind, wp_match_profile. intros [m|]; [|apply HQ].
  destruct (pm_Profile m); [by apply wp_enqueue|]. apply wp_bind, wp_reject. intros [? ?] S' K'. apply HQ.
Qed.

Lemma wp_mark_in_progress S K id job Q :
  (forall r S' K', Q r S' K') -> wp c S K (markWorkflowJobInProgress id job) Q.
Proof.
  intros HQ. apply wp_bind, wp_read; [intros; apply HQ|]. intros st Hv Hb.
  destruct (_ || _); [apply HQ|]. destruct (shouldRecordAssignedJob st job); [|apply HQ]. cbv zeta.
  eapply wp_write_edit; [exact Hv|exact Hb|apply view_assigned|]. intros [e|] S' K'; apply HQ.
Qed.

Lemma wp_mark_started S K id Q : (forall S' K', Q tt S' K') -> wp c S K (markRunnerJobStarted id) Q.
Proof.
  intros HQ. apply wp_bind, wp_read; [intros; apply HQ|]. intros st Hv Hb.
  destruct (_ || _ || _ || _); [apply HQ|].
  eapply wp_write_edit; [exact Hv|exact Hb|done|]. intros ? S' K'. apply HQ.
Qed.

Lemma wp_stdout S K id text Q : (forall S' K', Q tt S' K') -> wp c S K (appendRunnerStdout id text) Q.
Proof. intros HQ. unfold appendRunnerStdout. destruct (_ || _); [by apply wp_mark_started|apply HQ]. Qed.

Lemma wp_stop_id S K job Q : (forall r S' K', Q r S' K') -> wp c S K (completedWorkflowJobStopID job) Q.
Proof.
  intros HQ. unfold completedWorkflowJobStopID. destruct (HasPrefix _ _); [apply HQ|].
  destruct (_ =? _)%Z; [apply HQ|]. apply wp_bind, wp_read; intros; apply HQ.
Qed.

Lemma wp_job_event S K action repo inst job payload Q :
  (forall r S' K', Q r S' K') -> wp c S K (handleWorkflowJobEvent cfg action repo inst job payload) Q.
Proof.
  intros HQ. unfold handleWorkflowJobEvent.
  case_bool_decide. { apply wp_bind, wp_enqueue_job. intros [[st created] err] S' K'. apply HQ. }
  case_bool_decide.
  { apply wp_bind, wp_stop_id. intros id S1 K1. case_bool_decide; [apply HQ|].
    apply wp_bind, wp_mark_in_progress. intros [[? ?] err] S' K'. apply HQ. }
  case_bool_decide; [|apply HQ].
  apply wp_bind, wp_stop_id. intros id S1 K1. case_bool_decide; [apply HQ|].
  apply wp_bind, wp_stop_runner. intros [[? ?] err] S' K'. apply HQ.
Qed.

Lemma wp_run_event S K action repo inst run payload Q :
  (forall r S' K', Q r S' K') -> wp c S K (handleWorkflowRunWebhook action repo inst run payload) Q.
Proof.
  intros HQ. unfold handleWorkflowRunWebhook. destruct (negb _); [apply HQ|].
  apply wp_bind, wp_ask. intros [jobs|]; [|apply HQ]. apply wp_bind.
  generalize (0, 0, 0, 0)%Z. revert S K. induction jobs as [|job jobs IH]; intros S K [[[n1 n2] n3] n4]; [apply HQ|].
  cbn [enqueueRunJobs]. destruct (_ || _); [apply IH|].
  apply wp_bind, wp_enqueue_job. intros [[st created] err] S' K'. apply IH.
Qed.

Lemma wp_process fuel S K Q : (forall r S' K', Q r S' K') -> wp c S K (processQueuedRequests cfg worker fuel) Q.
Proof.
  revert S K Q. induction fuel as [|fuel IH]; intros S K Q HQ; [apply HQ|]. cbn [processQueuedRequests].
  apply wp_bind, wp_ask. intros []; [|apply HQ]. apply wp_bind. intros [[[req st]|]|]; [|apply HQ..].
  apply wp_bind, IH. intros ids S' K'. apply HQ.
Qed.

Lemma wp_for_each {A} S K (l : list A) body Q :
  (forall x S' K' Q', (forall S'' K'', Q' tt S'' K'') -> wp c S' K' (body x) Q') ->
  (forall S' K', Q tt S' K') -> wp c S K (for_each l body) Q.
Proof.
  intros Hb HQ. revert S K. induction l as [|x l IH]; intros S K; [apply HQ|].
  apply wp_bind, Hb. intros S' K'. apply IH.
Qed.
End any_care.

(** ** Starting *)

Lemma view_waiting cfg st reason now :
  exists s, (s = StatusQueued \/ s = StatusFailed) /\
  view_of (waitingState cfg st reason now) = MkView (st_ID st) (st_Version st) s (st_SandboxID st).
Proof.
  destruct reason as [[[known rl] code] message]. unfold waitingState. cbv zeta.
  destruct (_ && _ && _); [by exists StatusFailed; auto|]. destruct known; by exists StatusQueued; auto.
Qed.

Lemma wp_signal_if c S K (b : bool) Q :
  (forall S' K', Q tt S' K') -> wp c S K (if b then ask SignalQueue else Ret tt) Q.
Proof. intros HQ. destruct b; [apply wp_ask; intros []|]; apply HQ. Qed.

Lemma is_status_false st s : is_status st s = false -> st_Status st <> s.
Proof. unfold is_status, status_is. apply bool_decide_eq_false. Qed.

Section plain.
Context (cfg : server_config) (worker : string).
Abbreviation wpp := (wp Plain).

(** A plain transition only follows the status machine and the invariant. *)
Lemma plain_ok P v w : status_step (v_status v) (v_status w) = true -> view_ok w -> transition_ok Plain P v w.
Proof. intros. split; [done|]. by split. Qed.

Lemma wp_complete_without S K id job Q :
  (forall r S' K', Q r S' K') -> wpp S K (completeWithoutSandbox id job) Q.
Proof.
  intros HQ. apply wp_bind, wp_read; [intros; apply HQ|]. intros st Hv Hb.
  destruct (is_status st StatusCompleted) eqn:H1; cbn [orb]; [apply HQ|].
  destruct (is_status st StatusStopping) eqn:H2; cbn [orb]; [apply HQ|].
  destruct (is_status st StatusRunning) eqn:H3; [apply HQ|]. apply is_status_false in H3.
  apply wp_bind, wp_ask. intros now. apply wp_bind, wp_ask. intros now2. cbv zeta.
  pose proof (view_retain (recordAssignedJob st job) job now) as E. rewrite view_assigned in E.
  set (st1 := (retainWorkflowJobResult _ _ _).1) in *. clearbody st1. injection E as Hi Hn Hs Hsb.
  eapply wp_write_last; [|apply plain_ok|intros ? S' K'; apply HQ].
  - eapply based_same; [exact Hb|exact Hi|exact Hn].
  - apply to_completed; [apply Hv|done].
  - by apply view_ok_other.
Qed.

Lemma wp_ensure S K req w Q :
  (forall r S' K', Q r S' K') -> wpp S K (ensureWorkflowJobStillQueued cfg req w) Q.
Proof.
  intros HQ. unfold ensureWorkflowJobStillQueued. destruct (_ =? _)%Z; [apply HQ|].
  apply wp_bind, wp_read; [intros; apply HQ|]. intros before _ _. apply wp_bind, wp_ask. intros j.
  apply wp_bind, wp_read; [intros; apply HQ|]. generalize (view_of before :: K). intros K0 st Hv Hb.
  destruct (is_status st StatusCreating) eqn:Hs; cbn [negb orb]; [|apply HQ]. apply is_status_true in Hs.
  destruct (_ || _ || _ || _ || _); [apply HQ|]. cbv zeta.
  set (lookup := match j with Ok _ => _ | Err _ => _ end). clearbody lookup.
  set (stale := negb (st_Version st =? st_Version before)%Z). clearbody stale.
  assert (Hwait : wpp S (view_of st :: K0)
    (let! now := ask Now in
     let! w := write_state (waitingState cfg st (waitingReason stale lookup) now) in
     match w with
     | Some e => Ret (Err e)
     | None => ask SignalQueue ;; Ret (Ok false)
     end) Q).
  { apply wp_bind, wp_ask. intros now.
    destruct (view_waiting cfg st (waitingReason stale lookup) now) as (s & Hs' & E).
    assert (Hsb : st_SandboxID st = "") by (apply Hv; by right).
    eapply wp_write_last; [rewrite E; same_row Hb|rewrite E; apply plain_ok|].
    - cbn. rewrite Hs. by destruct Hs' as [->| ->].
    - rewrite Hsb. apply view_ok_empty. by destruct Hs' as [->| ->].
    - intros [e|] S' K'; [apply HQ|]. apply wp_bind, wp_ask. intros ?. apply HQ. }
  destruct stale; [exact Hwait|]. destruct lookup as [job|]; [|exact Hwait].
  case_bool_decide.
  { destruct (_ || _); [|apply HQ].
    eapply wp_write_edit; [exact Hv|exact Hb|done|]. intros [e|] S' K'; apply HQ. }
  case_bool_decide; [|exact Hwait].
  apply wp_bind, wp_complete_without. intros [e|] S' K'; apply HQ.
Qed.

(** A copy that [applyFailure] turns into a queued or failed one. *)
Lemma wp_write_failure {A} S K v st stage err now (f : option goerror -> prog A) Q :
  based K v (view_of st) -> known_status (v_status v) -> v_status v <> StatusCompleted ->
  (forall r S' K', wpp S' K' (f r) Q) ->
  wpp S K (bind (write_state (applyFailure cfg st stage err true now).1) f) Q.
Proof.
  intros Hb Hk Hc HQ. destruct (view_failure cfg st stage err true now) as (s & Hs & E).
  eapply wp_write_last; [rewrite E; same_row Hb|rewrite E; apply plain_ok|done].
  - cbn. by destruct Hs as [->| ->]; [apply to_queued|apply to_failed].
  - apply view_ok_empty. by destruct Hs as [->| ->].
Qed.

Lemma wp_fail_start S K v id st stage err attempt Q :
  based K v (view_of st) -> known_status (v_status v) -> v_status v <> StatusCompleted ->
  (forall S' K', Q tt S' K') -> wpp S K (failStartForAttempt cfg worker id st stage err attempt) Q.
Proof.
  intros Hb Hk Hc HQ. apply wp_bind, wp_read.
  - intros er. destruct (match attempt with Some _ => true | None => false end) eqn:Ea.
    { destruct attempt; [apply HQ|done]. }
    destruct attempt; [done|]. apply wp_bind, wp_ask. intros now. cbv zeta.
    eapply wp_write_failure; [exact Hb|done|done|]. intros ? S' K'.
    by apply wp_signal_if.
  - intros cur Hv Hbc.
    destruct (match attempt with Some a => _ | None => false end); [apply HQ|].
    destruct (is_status cur StatusCompleted) eqn:H1; cbn [orb]; [intros []; apply HQ|].
    destruct (is_status cur StatusStopping) eqn:H2; [intros []; apply HQ|].
    apply is_status_false in H1. apply wp_bind, wp_ask. intros now. cbv zeta.
    eapply wp_write_failure; [exact Hbc|apply Hv|done|]. intros ? S' K'.
    by apply wp_signal_if.
Qed.

Lemma wp_retry_or_fail S K id stage err Q :
  (forall S' K', Q tt S' K') -> wpp S K (retryOrFail cfg id stage err) Q.
Proof.
  intros HQ. apply wp_bind, wp_read; [intros; apply HQ|]. intros st Hv Hb.
  destruct (is_status st StatusCompleted) eqn:H1; cbn [orb]; [apply HQ|]. apply is_status_false in H1.
  destruct (is_status st StatusFailed); [apply HQ|]. apply wp_bind, wp_ask. intros now. cbv zeta.
  eapply wp_write_failure; [exact Hb|apply Hv|done|]. intros [e|] S' K'; [apply HQ|].
  by apply wp_signal_if.
Qed.

Lemma wp_defer_queued c S K id w next stage Q :
  (forall S' K', Q tt S' K') -> wp c S K (deferQueuedRequest id w next stage) Q.
Proof.
  intros HQ. apply wp_bind, wp_read; [intros er []; apply HQ|]. intros st Hv Hb.
  destruct (_ || _); [intros []; apply HQ|]. cbv zeta.
  eapply wp_write_edit; [exact Hv|exact Hb|done|]. intros [e|] S' K'; [intros []|]; apply HQ.
Qed.

Lemma wp_defer_creating c S K id w next Q :
  (forall S' K', Q tt S' K') -> wp c S K (deferCreatingRequest id w next) Q.
Proof.
  intros HQ. apply wp_bind, wp_read; [intros er []; apply HQ|]. intros st Hv Hb.
  destruct (is_status st StatusCreating) eqn:Hs; cbn [negb orb]; [|apply HQ]. apply is_status_true in Hs.
  destruct (_ || _); [apply HQ|]. cbv zeta.
  assert (Hsb : st_SandboxID st = "") by (apply Hv; by right).
  eapply wp_write_last; [same_row Hb|apply transition_release|intros ? S' K'; apply HQ].
  - cbn. by rewrite Hs.
  - split; [done|]. intros _. exact Hsb.
  - left. exact Hsb.
Qed.

Lemma wp_persist c S K id snap Q :
  (forall r S' K', Q r S' K') -> wp c S K (persistSandboxServiceSnapshot id snap) Q.
Proof.
  intros HQ. unfold persistSandboxServiceSnapshot. destruct (_ && _); [apply HQ|]. apply wp_bind.
  assert (H : forall d : option goerror, wp c S K
    (match d with
     | Some e => Ret (Some e)
     | None =>
         let! r := read_state id in
         match r with
         | Err e => Ret (Some (ErrWrap "read state for sandbox config snapshot: " e ""))
         | Ok current =>
             let! w := write_state (snapshotState current snap) in
             Ret (match w with Some e => Some (ErrWrap "write sandbox config snapshot: " e "") | None => None end)
         end
     end) Q).
  { intros [e|]; [apply HQ|]. apply wp_bind, wp_read; [intros; apply HQ|]. intros st Hv Hb.
    eapply wp_write_edit; [exact Hv|exact Hb|done|]. intros ? S' K'. apply HQ. }
  case_bool_decide; [apply wp_sponsorship; intros d|]; apply H.
Qed.

Lemma wp_cleanup_started c S K id res Q :
  c <> Careful -> (forall S' K', Q tt S' K') -> wp c S K (cleanupStartedSandbox id res) Q.
Proof.
  intros Hc HQ. unfold cleanupStartedSandbox. case_bool_decide; [apply HQ|].
  apply wp_bind, wp_stop_sandbox; [done|intros; apply HQ|intros; apply HQ].
Qed.

Lemma wp_prepare_jit c S K req a Q :
  (forall r S' K', Q r S' K') -> wp c S K (prepareWindowsJIT req a) Q.
Proof.
  intros HQ. apply wp_bind, wp_read; [intros; apply HQ|]. intros st _ _.
  destruct (_ || _); [apply HQ|]. apply wp_bind, wp_cleanup_github. intros [e|]; [apply HQ|].
  apply wp_ask. intros r. apply HQ.
Qed.

Lemma wp_cleanup_jit c S K req jit Q :
  (forall r S' K', Q r S' K') -> wp c S K (cleanupJIT cfg req jit) Q.
Proof.
  intros HQ. destruct jit as [[a n]|]; [|apply HQ]. cbn [cleanupJIT]. apply wp_bind.
  assert (H : forall (err : option goerror) S' K', wp c S' K'
    (match err with
     | Some _ => retainWindowsJITCleanup cfg (req_ID req) ;; Ret (Some (a, n))
     | None => Ret None
     end) Q).
  { intros [e|] S' K'; [|apply HQ]. apply wp_bind, wp_retain_jit. intros; apply HQ. }
  unfold cleanupWindowsJIT. destruct (_ <? _)%Z; [apply wp_ask; intros r; apply H|].
  apply wp_bind, wp_read; [intros er; apply (H (Some er))|]. intros st _ _.
  destruct (negb _); [apply (H None)|]. apply wp_bind, wp_ask. intros r. apply H.
Qed.

(** What [startRunner] asks of its closure [failStart]. *)
Definition fails_well (K : list view) (fs : string -> goerror -> prog unit) : Prop :=
  forall S K' stage e Q, (forall x, x ∈ K -> x ∈ K') -> (forall S' K', Q tt S' K') -> wpp S K' (fs stage e) Q.

(** The knowledge of a handler only grows. *)
Lemma wp_grow {A} c S K (p : prog A) (Q : post A) :
  wp c S K p (fun a S' K' => (forall x, x ∈ K -> x ∈ K') -> Q a S' K') -> wp c S K p Q.
Proof.
  revert S K Q. induction p as [a|R e k IH]; intros S K Q; [intros H; by apply H|].
  cbn [wp]. destruct e; cbn [wp_event].
  - intros [H1 H2]. split; [intros er; by apply IH|]. intros st Hc Hv. apply IH.
    eapply wp_mono; [|by apply H2]. cbv beta. intros a S' K' H Hx. apply H. intros x Hin. apply Hx. by right.
  - intros [H1 H2]. split; intros; apply IH; by auto.
  - intros (H0 & H1 & H2). split; [done|]. split; [intros er; by apply IH|]. apply IH.
    eapply wp_mono; [|exact H2]. cbv beta. intros a S' K' H Hx. apply H. intros x Hin. apply Hx. by right.
  - intros H r. by apply IH.
  - intros H r. by apply IH.
  - intros H r. by apply IH.
  - intros H r. by apply IH.
  - intros [H0 H]. split; [done|]. intros r. by apply IH.
  - intros H r. by apply IH.
  - intros H r. by apply IH.
  - intros H r. by apply IH.
  - intros H r. by apply IH.
  - intros (H0 & H1 & H2). split; [done|]. split; intros; apply IH; by auto.
  - intros H r. by apply IH.
Qed.

Section creating.
Context (K0 : list view) (fs : string -> goerror -> prog unit).
Context (Hfs : fails_well K0 fs).

Lemma wp_start_sandbox S K req attempt snap tpl jit Q :
  (forall x, x ∈ K0 -> x ∈ K) -> (forall S' K', Q tt S' K') ->
  wpp S K (startSandbox cfg fs req attempt snap tpl jit) Q.
Proof.
  intros HK HQ. unfold startSandbox. cbv zeta. apply wp_bind, wp_ask. intros url. apply wp_bind.
  assert (Hend : forall jit S' K', wpp S' K' (cleanupJIT cfg req jit ;; Ret tt) Q).
  { intros j S' K'. apply wp_bind, wp_cleanup_jit. intros; apply HQ. }
  assert (Habandon : forall res S' K', wpp S' K' (cleanupStartedSandbox (req_ID req) res ;; cleanupJIT cfg req jit ;; Ret tt) Q).
  { intros res S' K'. apply wp_bind, wp_cleanup_started; [done|]. intros; apply Hend. }
  assert (Hstart : forall stage (started : result SandboxResult), wpp S K
    (match started with
     | Err e =>
         let! jit := cleanupJIT cfg req jit in
         fs stage e ;; cleanupJIT cfg req jit ;; Ret tt
     | Ok result =>
         let abandon := cleanupStartedSandbox (req_ID req) result ;; cleanupJIT cfg req jit ;; Ret tt in
         let! r := read_state (req_ID req) in
         match r with
         | Err _ => abandon
         | Ok current =>
             if negb (is_status current StatusCreating)
                || match attempt with Some a => negb (st_LastAttemptAt current =? a)%Z | None => false end
             then abandon
             else
               let url := TrimSpace (snap_APIURL snap) in
               let! region := ask (SandboxRegion (if bool_decide (url = "") then TrimSpace (req_SandboxAPIURL req) else url)) in
               let! w := write_state (runningState current result tpl region) in
               match w with
               | Some _ => abandon
               | None => Ret tt
               end
         end
     end) Q).
  { intros stage [res|e].
    - cbv zeta. apply wp_bind, wp_read; [intros er; apply Habandon|]. intros st Hv Hb.
      destruct (is_status st StatusCreating) eqn:Hs; cbn [negb orb]; [|apply Habandon].
      apply is_status_true in Hs. destruct (match attempt with Some _ => _ | None => _ end); [apply Habandon|].
      apply wp_bind, wp_ask. intros region.
      eapply wp_write_last; [same_row Hb|apply plain_ok|intros [e|] S' K'; [apply Habandon|apply HQ]].
      + cbn. by rewrite Hs.
      + by apply view_ok_other.
    - apply wp_bind, wp_grow, wp_cleanup_jit. intros j S' K' Hg.
      apply wp_bind, Hfs; [by auto|]. intros; apply Hend. }
  destruct url as [e|]; [apply (Hstart _ (Err e))|]. apply wp_bind, wp_ask. intros r. apply Hstart.
Qed.

Lemma wp_register S K req attempt snap tpl Q :
  (forall x, x ∈ K0 -> x ∈ K) -> (forall S' K', Q tt S' K') ->
  wpp S K (registerAndStart cfg fs req attempt snap tpl) Q.
Proof.
  intros HK HQ. unfold registerAndStart. destruct attempt as [a|].
  - apply wp_bind, wp_grow, wp_prepare_jit. intros [jit err] S1 K1 Hg1.
    destruct (match err with Some _ => _ | None => _ end); [apply HQ|]. cbv zeta.
    destruct err as [e|]; [|apply wp_start_sandbox; by auto].
    apply wp_bind, wp_grow, wp_cleanup_jit. intros h S2 K2 Hg2.
    apply wp_bind, Hfs; [by auto|]. intros S3 K3. apply wp_bind, wp_cleanup_jit. intros; apply HQ.
  - apply wp_bind, wp_ask. intros [e|]; [by apply Hfs|by apply wp_start_sandbox].
Qed.

Lemma wp_start_created S K req profile w attempt Q :
  (forall x, x ∈ K0 -> x ∈ K) -> (forall S' K', Q tt S' K') ->
  wpp S K (startCreated cfg fs req profile w attempt) Q.
Proof.
  intros HK HQ. unfold startCreated. cbv zeta.
  apply wp_bind, wp_grow, wp_ensure. intros [[]|e] S1 K1 Hg1; [|apply HQ|apply Hfs; by auto].
  apply wp_bind.
  assert (Hrest : wpp S1 K1
    (let! c := ask (SandboxServiceFor req) in
     match c with
     | Err e => fs "sandbox_config" e
     | Ok snapshot =>
       let! err := persistSandboxServiceSnapshot (req_ID req) snapshot in
       match err with
       | Some e =>
           if errors_is e ErrForkSponsorshipAtCapacity || errors_is e ErrForkSponsorshipPolicyChanged then
             let! now := ask Now in
             deferCreatingRequest (req_ID req) w (now + 5 * Second) ;; ask SignalQueue
           else fs "sandbox_config" e
       | None =>
         let! t := resolveRunnerTemplate profile in
         match t with
         | Err e => fs "template_resolution" e
         | Ok templateID =>
           let windows := PlatformForLabels (req_Labels req) in
           let! a := (if bool_decide (p_TemplateSource profile = TemplateSourcePublic) then Ret (Ok true)
                      else ask (ListRunnerApplications (req_RepositoryFullName req) (req_RunnerGroup req) windows)) in
           match a with
           | Err e => fs "github_runner_downloads" e
           | Ok false => fs "github_runner_downloads"
               (ErrWrap "" ErrRunnerApplicationMissing (" for platform " +:+ if windows then "windows" else "linux"))
           | Ok true => registerAndStart cfg fs req attempt snapshot templateID
           end
         end
       end
     end) Q).
  { apply wp_bind, wp_ask. intros [snap|e]; [|apply Hfs; by auto].
    apply wp_bind, wp_grow, wp_persist. intros [e|] S2 K2 Hg2.
    { destruct (_ || _); [|apply Hfs; by auto]. apply wp_bind, wp_ask. intros now.
      apply wp_bind, wp_defer_creating. intros S3 K3. apply wp_ask. intros []. apply HQ. }
    apply wp_bind, wp_resolve_template. intros [tpl|e]; [|apply Hfs; by auto]. cbv zeta.
    apply wp_bind.
    assert (Ha : forall a : result bool, wpp S2 K2
      (match a with
       | Err e => fs "github_runner_downloads" e
       | Ok false => fs "github_runner_downloads"
           (ErrWrap "" ErrRunnerApplicationMissing
              (" for platform " +:+ if PlatformForLabels (req_Labels req) then "windows" else "linux"))
       | Ok true => registerAndStart cfg fs req attempt snap tpl
       end) Q).
    { intros [[]|e]; [apply wp_register|apply Hfs|apply Hfs]; by auto. }
    case_bool_decide; [apply (Ha (Ok true))|]. apply wp_ask. intros a. apply Ha. }
  destruct (bool_decide (TrimSpace (req_RunnerGroup req) = "")); [exact Hrest|]. apply wp_ask. intros [g|]; [apply Hfs; by auto|exact Hrest].
Qed.
End creating.

(** The row was queued when the start read it. *)
Lemma fails_well_queued K st st' id attempt :
  view_of st ∈ K -> sanitizeID (st_ID st) = st_ID st -> st_Status st = StatusQueued ->
  st_ID st' = st_ID st -> st_Version st' = st_Version st ->
  fails_well K (fun stage e => failStartForAttempt cfg worker id st' stage e attempt).
Proof.
  intros Hin Hc Hs Hi Hn S K' stage e Q HK HQ.
  apply (wp_fail_start S K' (view_of st)); [|cbn; by rewrite Hs|cbn; by rewrite Hs|done].
  split; [by apply HK|done|exact Hi|exact Hn].
Qed.

Lemma wp_start_runner S K id w Q :
  (forall S' K', Q tt S' K') -> wpp S K (startRunner cfg worker id w) Q.
Proof.
  intros HQ. unfold startRunner. apply wp_bind, wp_read_request; [intros; apply HQ|]. intros req.
  apply wp_bind, wp_read; [intros; apply HQ|]. intros st Hv Hb.
  destruct (is_status st StatusQueued) eqn:Hs; cbn [negb]; [|apply HQ]. apply is_status_true in Hs.
  assert (Hfs : forall st' attempt, st_ID st' = st_ID st -> st_Version st' = st_Version st ->
    fails_well (view_of st :: K) (fun stage e => failStartForAttempt cfg worker id st' stage e attempt)).
  { intros. eapply (fails_well_queued _ st); [left|apply Hb|done..]. }
  apply wp_bind, wp_profile_for. intros [profile|e]; [|by apply (Hfs st None)].
  destruct (validateRequestedProfile _ _) as [e|]; [by apply (Hfs st None)|].
  apply wp_bind, wp_ask. intros [[reserved stage] [e|]]; [intros []; apply HQ|].
  destruct reserved; cbn [negb].
  2: { apply wp_bind, wp_ask. intros now. apply wp_bind, wp_defer_queued. intros S' K'.
       apply wp_ask. intros []. apply HQ. }
  cbv zeta. set (st1 := if HasPrefix _ _ then _ else _).
  assert (E1 : view_of st1 = view_of st) by (unfold st1; by destruct (HasPrefix _ _)). clearbody st1.
  apply wp_bind, wp_ask. intros now. apply wp_bind, wp_ask. intros now2.
  set (attempt := if PlatformForLabels _ then _ else _). clearbody attempt.
  set (st2 := (match attempt with Some _ => _ | None => _ end) <| st_LeaseOwner := _ |> <| st_LeaseExpiresAt := _ |>).
  assert (E2 : view_of st2 = MkView (st_ID st1) (st_Version st1) StatusCreating (st_SandboxID st1))
    by (unfold st2; by destruct attempt). clearbody st2.
  injection E1 as Hi Hn _ Hsb. rewrite Hi, Hn, Hsb in E2. injection E2 as Hi2 Hn2 Hs2 Hsb2.
  assert (E2 : view_of st2 = MkView (st_ID st) (st_Version st) StatusCreating (st_SandboxID st))
    by (unfold view_of; congruence).
  assert (Hempty : st_SandboxID st = "") by (apply Hv; by left).
  apply wp_bind. eapply wp_write; [rewrite E2; same_row Hb|rewrite E2; apply plain_ok| |].
  - cbn. by rewrite Hs.
  - rewrite Hempty. by apply view_ok_empty.
  - intros er. apply wp_bind, wp_ask. intros ? []. apply HQ.
  - intros _. apply wp_bind, wp_ask. intros ?.
    eapply wp_start_created; [by apply (Hfs st2)| |done]. intros x Hx. by right.
Qed.

(** ** Loops and the admin API *)

Lemma view_mismatch st : view_of (mismatchRequeueState st) = MkView (st_ID st) (st_Version st) StatusQueued "".
Proof. done. Qed.

Lemma wp_reconcile_mismatched S K id Q :
  (forall S' K', Q tt S' K') -> wpp S K (reconcileMismatched id) Q.
Proof.
  intros HQ. apply wp_bind, wp_read; [intros; apply HQ|]. intros cur _ _.
  destruct (_ || _ || _ || _); [apply HQ|]. apply wp_bind, wp_original_queued. intros q.
  apply wp_bind, wp_read; [intros; apply HQ|]. intros st Hv Hb.
  destruct (is_status st StatusCompleted) eqn:Hs; cbn [negb orb]; [|apply HQ]. apply is_status_true in Hs.
  destruct (_ || _); [apply HQ|]. apply wp_bind. unfold requeueMismatchedWorkflowJob.
  destruct (negb _).
  - eapply wp_write_edit; [exact Hv|exact Hb|done|]. intros [e|] S' K'; apply HQ.
  - pose proof (view_mismatch st) as E. cbv zeta. set (st' := mismatchRequeueState st) in *. clearbody st'.
    eapply wp_write_last; [rewrite E; same_row Hb|rewrite E; apply plain_ok|].
    + apply to_queued, Hv.
    + by apply view_ok_empty.
    + intros [e|] S' K'; [apply HQ|]. apply wp_bind, wp_ask. intros ?. apply HQ.
Qed.

Lemma reconcilable_failed st : reconcilable st = true -> st_Status st = StatusFailed.
Proof. unfold reconcilable. intros H. bool_prop. by apply is_status_true. Qed.

Lemma wp_complete_if S K id Q :
  (forall r S' K', Q r S' K') -> wpp S K (completeIfWorkflowJobCompleted id) Q.
Proof.
  intros HQ. apply wp_bind, wp_read; [intros; apply HQ|]. intros cur _ _.
  destruct (_ || _); [apply HQ|]. destruct (negb (reconcilable cur)); [apply HQ|].
  apply wp_bind, wp_ask. intros [job|]; [|apply HQ]. destruct (negb _); [apply HQ|].
  apply wp_bind, wp_read; [intros; apply HQ|]. intros st Hv Hb. destruct (_ || _ || _); [apply HQ|].
  destruct (reconcilable st) eqn:Hr; cbn [negb]; [|apply HQ]. apply reconcilable_failed in Hr.
  apply wp_bind, wp_ask. intros now. cbv zeta.
  match goal with |- context [retainWorkflowJobResult ?x job now] =>
    pose proof (view_retain x job now) as E; set (st1 := (retainWorkflowJobResult x job now).1) in * end.
  clearbody st1. injection E as Hi Hn Hs Hsb.
  eapply wp_write; [|apply plain_ok|intros; apply HQ|intros; apply HQ].
  - eapply based_same; [exact Hb|exact Hi|exact Hn].
  - change (status_step (st_Status st) (st_Status st1) = true). rewrite Hs, Hr. done.
  - change (view_ok (view_of st1)). unfold view_of. rewrite Hs. by apply view_ok_other.
Qed.

Lemma wp_sweep S K Q : (forall S' K', Q tt S' K') -> wpp S K (sweepOnce cfg) Q.
Proof.
  intros HQ. apply wp_bind. intros [states|]; [|apply HQ]. apply wp_bind, wp_ask. intros now. apply wp_bind.
  assert (H : forall l S K (Q : post (list string)), (forall r S' K', Q r S' K') ->
    wpp S K (sweepTimeouts cfg now l) Q).
  { clear S K Q HQ. induction l as [|st l IH]; intros S K Q HQ; [apply HQ|]. cbn [sweepTimeouts].
    destruct (st_Status st); try (by apply IH).
    - apply wp_bind. destruct (_ && _); [apply wp_retry_or_fail; intros|]; by apply IH.
    - destruct (_ && _); [|by apply IH]. apply wp_bind, wp_fail_and_stop. intros S' K'.
      apply wp_bind, IH. intros; apply HQ.
    - apply wp_bind. destruct (_ && _); [by apply IH|].
      destruct (_ && _); [apply wp_stop_if_exists; intros|]; by apply IH. }
  apply H. intros ids S' K'. apply wp_for_each; [|done]. clear. intros st S K Q HQ. unfold sweepIdle.
  destruct (_ || _); [apply HQ|]. case_bool_decide; [apply HQ|].
  apply wp_bind, wp_original_queued. intros [[]|]; try apply HQ.
  apply wp_bind, wp_github_busy. intros [[]|]; [by apply wp_mark_started|by apply wp_stop_if_exists|apply HQ].
Qed.

Lemma wp_reconcile fuel S K Q : (forall S' K', Q tt S' K') -> wpp S K (reconcileOnce cfg worker fuel) Q.
Proof.
  intros HQ. apply wp_bind, wp_process. intros _ S1 K1. apply wp_bind. intros [states|]; [|apply HQ].
  apply wp_bind, wp_for_each.
  { clear. intros st S K Q HQ. unfold reconcileActive. destruct (st_Status st); try apply HQ.
    - apply wp_ask. intros []. apply HQ.
    - apply wp_bind, wp_ask. intros now. destruct (_ && _); [apply HQ|].
      destruct (_ && _); [by apply wp_stop_if_exists|apply HQ]. }
  intros S2 K2. apply wp_bind. apply wp_bind. intros [l|].
  - apply wp_for_each; [intros; by apply wp_reconcile_mismatched|]. intros S3 K3.
    apply wp_bind. intros [l2|]; [|apply HQ]. apply wp_for_each; [|done].
    intros st S4 K4 Q4 HQ4. apply wp_bind, wp_complete_if. intros; apply HQ4.
  - apply wp_bind. intros [l2|]; [|apply HQ]. apply wp_for_each; [|done].
    intros st S4 K4 Q4 HQ4. apply wp_bind, wp_complete_if. intros; apply HQ4.
Qed.

Lemma wp_retry_historical S K id Q :
  (forall r S' K', Q r S' K') -> wpp S K (retryHistoricalWaitingJob id) Q.
Proof.
  intros HQ. apply wp_bind, wp_read; [intros; apply HQ|]. intros st Hv Hb. cbv zeta.
  destruct (bool_decide (st_SandboxID st = "")) eqn:Hsb;
    [apply bool_decide_eq_true in Hsb|rewrite orb_true_r; cbn [orb]; apply HQ].
  destruct (_ || _ || _ || _ || _ || _ || _ || _ || _ || _ || _); [apply HQ|].
  apply wp_bind, wp_ask. intros log. destruct (match log with Ok _ => _ | Err _ => _ end); [apply HQ|].
  apply wp_bind, wp_read_request; [intros; apply HQ|]. intros req. apply wp_bind, wp_ask. intros allowed.
  destruct (_ || _); [apply HQ|]. apply wp_bind, wp_ask. intros j.
  destruct (match j with Ok _ => _ | Err _ => _ end); [apply HQ|]. apply wp_bind, wp_profile_for. intros p.
  destruct (match p with Ok _ => _ | Err _ => _ end); [apply HQ|].
  set (st' := clearSandboxServiceSnapshot _).
  assert (E : view_of st' = MkView (st_ID st) (st_Version st) StatusQueued (st_SandboxID st)) by done.
  clearbody st'. eapply wp_write_last; [rewrite E; same_row Hb|rewrite E; apply plain_ok|].
  - apply to_queued, Hv.
  - split; [done|]. intros _. exact Hsb.
  - intros [e|] S' K'; [apply HQ|]. apply wp_bind, wp_ask. intros ?. apply HQ.
Qed.

Lemma wp_retry_handler S K id Q : (forall r S' K', Q r S' K') -> wpp S K (handleRetryRunner id) Q.
Proof.
  intros HQ. apply wp_bind. split; [done|]. intros [st|e]; [apply wp_bind, HQ|]. apply wp_bind.
  destruct (errors_is e ErrRetryNotAllowed); [|apply HQ].
  apply wp_bind, wp_retry_historical. intros [st err] S' K'. apply HQ.
Qed.

End plain.

(** ** All entry points *)

Definition discard {A} (p : prog A) : prog unit := p ;; Ret tt.

Section system.
Context (cfg : server_config) (worker : string).

(** Every goroutine the server runs on runner requests: webhooks, the API, the
    callbacks of a runner, recovery after a restart, the worker, the sweeper and
    the reconciler. *)
Inductive runner_entry : care -> prog unit -> Prop :=
| entry_job action repo inst job payload :
    runner_entry Careful (discard (handleWorkflowJobEvent cfg action repo inst job payload))
| entry_run action repo inst run payload :
    runner_entry Careful (discard (handleWorkflowRunWebhook action repo inst run payload))
| entry_create req payload : runner_entry Careful (discard (enqueueRunnerRequestLocked req payload))
| entry_delete id : runner_entry Careful (discard (stopRunner cfg id no_job TerminationSourceManualStop))
| entry_exit id attempt result err : runner_entry Careful (runnerExitedForAttempt cfg id attempt result err)
| entry_stdout id text : runner_entry Careful (appendRunnerStdout id text)
| entry_process fuel : runner_entry Careful (discard (processQueuedRequests cfg worker fuel))
| entry_recover id : runner_entry Releasing (discard (recoverRunner cfg id))
| entry_start id w : runner_entry Plain (startRunner cfg worker id w)
| entry_sweep : runner_entry Plain (sweepOnce cfg)
| entry_reconcile fuel : runner_entry Plain (reconcileOnce cfg worker fuel)
| entry_retry id : runner_entry Plain (discard (handleRetryRunner id)).

Lemma entry_ok c p : runner_entry c p -> wp c [] [] p any.
Proof.
  intros [].
  - by apply wp_bind, wp_job_event.
  - by apply wp_bind, wp_run_event.
  - by apply wp_bind, wp_enqueue.
  - by apply wp_bind, wp_stop_runner.
  - by apply wp_runner_exited.
  - by apply wp_stdout.
  - by apply wp_bind, wp_process.
  - by apply wp_bind, wp_recover_runner.
  - by apply wp_start_runner.
  - by apply wp_sweep.
  - by apply wp_reconcile.
  - by apply wp_bind, wp_retry_handler.
Qed.

Definition runner_reachable : system -> Prop := sys_reachable runner_entry.
Definition runner_steps : system -> system -> Prop := sys_steps runner_entry.
Definition runner_step : option care -> system -> system -> Prop := sys_step runner_entry.

Lemma runner_moves l s s' : runner_reachable s -> runner_step l s s' -> step_moves l s s'.
Proof. apply sys_moves, entry_ok. Qed.

Lemma runner_ok s : runner_reachable s -> sys_ok (held runner_entry s) s.
Proof. apply sys_reachable_ok, entry_ok. Qed.

(** C2: The status machine. However webhooks, API calls, runner callbacks, recovery,
    the worker, the sweeper and the reconciler interleave, and whatever GitHub, the
    sandbox service and the database answer, every change of a request's status is
    one of the allowed ones; in particular a request becomes creating only from
    queued and running only from creating, a stopping or failed one never runs
    again without being requeued, and a completed one never fails. *)
Theorem status_machine l s s' id r r' :
  runner_reachable s -> runner_step l s s' ->
  sys_table s !! id = Some r -> sys_table s' !! id = Some r' ->
  status_step (rec_Status r) (rec_Status r') = true.
Proof.
  intros Hr Hs Hrow Hrow'. pose proof (runner_moves l s s' Hr Hs) as H. destruct l as [c|]; cbn in H.
  - destruct H as [H _]. by destruct (H _ _ _ Hrow Hrow').
  - rewrite H, Hrow in Hrow'. injection Hrow' as <-. apply status_step_refl.
Qed.

(** C31: No sandbox before running. In every reachable table each row has one of the six
    statuses, and a queued or creating row names no sandbox. *)
Theorem no_sandbox_before_running s id r :
  runner_reachable s -> sys_table s !! id = Some r ->
  known_status (rec_Status r) /\
  (rec_Status r = StatusQueued \/ rec_Status r = StatusCreating -> rec_SandboxID r = "").
Proof. intros Hr Hrow. destruct (runner_ok s Hr) as (_ & Hok & _). exact (Hok _ _ Hrow). Qed.

(** C3: Sandboxes are released before they are forgotten. When a webhook, an API stop, a
    runner exit or the recovery after a restart erases the sandbox of a request or
    completes the request, that sandbox has been reported stopped or gone before,
    in every interleaving with all other handlers. *)
Theorem sandbox_released c s s' id r r' :
  runner_reachable s -> runner_step (Some c) s s' -> c <> Plain ->
  sys_table s !! id = Some r -> sys_table s' !! id = Some r' -> rec_SandboxID r <> "" ->
  (rec_SandboxID r' = "" /\ rec_Status r' <> StatusRunning)
    \/ (rec_Status r' = StatusCompleted /\ rec_Status r <> StatusCompleted) ->
  rec_SandboxID r ∈ sys_stopped s.
Proof.
  intros Hr Hs Hc Hrow Hrow' Hne Hf. destruct (runner_moves (Some c) s s' Hr Hs) as [H _].
  destruct (H _ _ _ Hrow Hrow') as (_ & _ & Hrel). exact (Hrel Hc Hne Hf).
Qed.

(** C16: Stop intent is durable. When a webhook, an API stop or a runner exit asks for a
    sandbox to be stopped, then at some earlier point of the same run a row of the
    table was persisted as stopping with exactly that sandbox; the row exists still,
    and it is still stopping with that sandbox unless its version has grown since: a
    crash in between leaves a row that recovery stops again. *)
Theorem stop_intent_durable s i req sb pid k :
  runner_reachable s -> sys_threads s !! i = Some (MkProc Careful (Vis (EStopSandbox req sb pid) k)) ->
  exists s0 id r0 r, runner_reachable s0 /\ runner_steps s0 s /\
    sys_table s0 !! id = Some r0 /\ rec_Status r0 = StatusStopping /\ rec_SandboxID r0 = sb /\
    sys_table s !! id = Some r /\
    ((rec_Version r0 < rec_Version r)%Z \/
     rec_Version r = rec_Version r0 /\ rec_Status r = StatusStopping /\ rec_SandboxID r = sb).
Proof.
  intros Hr Hi. destruct (runner_ok s Hr) as (_ & _ & Hth).
  destruct (Hth _ _ Hi) as (S0 & K & _ & HK & [Hw _]).
  destruct (Hw eq_refl) as (v & Hv & Hs & Hsb).
  destruct (HK v Hv) as [(s0 & Hr0 & Hs0 & r0 & Hrow0 & <-) (r & Hrow & Hcase)].
  exists s0, (rec_ID r0), r0, r. repeat (split; [done|]). destruct Hcase as [Hlt|Heq]; [by left|right].
  injection Heq as _ Hv' Hs' Hsb'. cbn in Hs, Hsb. by rewrite Hv', Hs', Hsb'.
Qed.
End system.
