(* ===== verification/Scenario.v ===== *)
(** * A concrete history of one request

    A request is admitted, started in a sandbox and stopped, with GitHub and the
    sandbox service answering well.  The history is a run of the interleaved
    system; it shows that the hypotheses of the theorems of [HandlersSafety] hold
    on real states. *)

From stdpp Require Import base gmap list strings.
From S2P Require Import Prelude AccountModel GoStrings Query RunnerModel RunnerStore RunnerQueries Catalog Retry Effects Interp.
From S2P Require Import Lifecycle Handlers HandlersSafety.

Definition ex_config : server_config := MkServerConfig 3 (10 * Second) (300 * Second) (3600 * Second) (600 * Second)
  (120 * Second) (300 * Second) (60 * Second).

Definition ex_profile : RunnerProfile := {|
  p_TemplateSource := "custom"; p_Published := true; p_Name := "linux"; p_Labels := ["qiniu"; "ubuntu-24.04"];
  p_RequiredLabels := ["qiniu"]; p_TemplateID := "tpl-1"; p_DefaultTemplateName := ""; p_RunnerGroup := "";
  p_MaxConcurrency := 2; p_MinIdle := 0; p_Priority := 0; p_Enabled := true; p_ManagedBy := ""; p_CatalogRevision := 0;
  p_CreatedAt := 1; p_UpdatedAt := 1
|}.

(** Every other system works. *)
Definition ex_call (R : Type) (c : call R) : R :=
  match c in call R return R with
  | Now => (2000 * Second)%Z
  | SignalQueue => tt
  | AcquireSlot => true
  | GetWorkflowJob _ job => Ok (MkWorkflowJob job "build" "queued" "" "" [] [])
  | ListWorkflowRunJobs _ _ => Ok []
  | RunnerURL _ _ => None
  | RemoveRunnerByName _ _ _ => Ok true
  | RemoveRunner _ _ _ => None
  | ListRunners _ _ => Ok []
  | ValidateRunnerGroup _ _ _ => None
  | ListRunnerApplications _ _ _ => Ok true
  | CreateRegistrationToken _ _ => None
  | CreateRunnerJITConfig _ _ name _ => (MkJIT true name 5, None)
  | SandboxServiceFor _ => Ok (MkSnapshot "https://sandbox.example" "key" "global" 0 0 "" "" 0 "" 0 "")
  | ListDefaultTemplates => None
  | StartRunner _ template => Ok (MkSandboxResult "sb-1" 42 template "v1" "2.330.0")
  | RecoverRunner st _ => (MkSandboxResult (st_SandboxID st) (st_ProcessPID st) "" "" "", None)
  | SandboxRegion _ => "cn"
  | GetProfileC _ => Ok ex_profile
  | GetScopedProfileC _ _ => Err ErrNotFound
  | MatchProfileC _ _ => Err ErrNotFound
  | MatchProfileForScopeC _ _ _ => Err ErrNotFound
  | AccountScopeForPersonalGitHubInstallation _ => Ok None
  | GetGitHubInstallationOwner _ => Ok "acme"
  | GetForkSponsorshipPolicy _ _ => Err ErrNotFound
  | GetForkSponsorshipApproval _ _ => Err ErrNotFound
  | ReserveCapacity _ _ => (true, "", None)
  | ReleaseCapacity _ => tt
  | RepositoryAllowed _ => true
  | ReadControlLog _ => Ok ""
  end.

Definition ex_oracle : oracle := MkOracle ex_call (fun _ => None).
Definition ex_now : Time := (2000 * Second)%Z.

(** The three handlers. *)
Definition ex_create : prog unit := discard (enqueueRunnerRequestLocked ex_request empty_payload).
Definition ex_start : prog unit := startRunner ex_config "worker" "101" "worker".
Definition ex_stop : prog unit := discard (stopRunner ex_config "101" no_job TerminationSourceManualStop).

Definition ex_created : table := (run ex_oracle ex_now ex_create ∅ []).1.2.
Definition ex_running : table := (run ex_oracle ex_now ex_start ex_created []).1.2.

(** The stop after [n] events. *)
Definition ex_stopping (n : nat) : prog unit * table * list string := run_n ex_oracle ex_now n ex_stop ex_running [].

Definition ex_reachable : system -> Prop := runner_reachable ex_config "worker".

Lemma ex_now_nonzero : ex_now <> 0%Z.
Proof. done. Qed.


(** The request is admitted and running: a reachable table with no goroutine left. *)
Lemma ex_created_reachable : ex_reachable (MkSys ex_created [] ∅).
Proof.
  assert (H : ex_reachable (MkSys ∅ [] ∅)) by apply rtc_refl.
  exact (run_reachable ex_oracle ex_now _ Careful ex_create ∅ [] ex_now_nonzero H (entry_create _ _ _ _)).
Qed.

Lemma ex_running_reachable : ex_reachable (MkSys ex_running [] ∅).
Proof.
  exact (run_reachable ex_oracle ex_now _ Plain ex_start ex_created [] ex_now_nonzero ex_created_reachable
           (entry_start _ _ _ _)).
Qed.

Definition ex_system (n : nat) : system :=
  let '(p, t, stopped) := ex_stopping n in MkSys t stopped (<[0 := MkProc Careful p]> ∅).

Lemma ex_system_reachable n : ex_reachable (ex_system n).
Proof.
  assert (H : ex_reachable (MkSys ex_running [] (<[0 := MkProc Careful ex_stop]> ∅))).
  { eapply spawn_reachable; [apply ex_running_reachable|apply lookup_empty|apply entry_delete]. }
  pose proof (run_n_reachable ex_oracle ex_now _ n 0 Careful ex_stop ex_running [] _ ex_now_nonzero H
                (lookup_insert_eq _ _ _)) as Hn.
  unfold ex_system, ex_stopping. destruct (run_n _ _ _ _ _ _) as [[p t] stopped].
  by rewrite insert_insert, decide_True in Hn.
Qed.

Lemma run_n_succ {A} o now n (p : prog A) t stopped :
  run_n o now (S n) p t stopped =
    let '(p1, t1, stopped1) := run_n o now n p t stopped in
    match p1 with
    | Ret a => (Ret a, t1, stopped1)
    | Vis e k => (k (answer o now e t1).1, (answer o now e t1).2, stopped_after e (answer o now e t1).1 stopped1)
    end.
Proof.
  revert p t stopped. induction n as [|n IH]; intros p t stopped.
  - destruct p as [a|R e k]; [done|]. cbn [run_n]. by destruct (answer o now e t).
  - destruct p as [a|R e k]; [done|]. cbn [run_n]. destruct (answer o now e t) as [r t1]. apply IH.
Qed.

(** One event of the stop, as a step of the system. *)
Lemma ex_system_step n :
  match (ex_stopping n).1.1 with Vis _ _ => true | Ret _ => false end = true ->
  runner_step ex_config "worker" (Some Careful) (ex_system n) (ex_system (S n)).
Proof.
  unfold ex_system, ex_stopping. rewrite run_n_succ.
  destruct (run_n _ _ n _ _ _) as [[p t] stopped]. cbn [fst]. destruct p as [a|R e k]; [done|]. intros _.
  pose proof (run_n_step ex_oracle ex_now (runner_entry ex_config "worker") 0 Careful R e k t stopped
                (<[0 := MkProc Careful (Vis e k)]> ∅) ex_now_nonzero (lookup_insert_eq _ _ _)) as H.
  by rewrite insert_insert, decide_True in H.
Qed.

Definition ex_row_at (s : system) : runnerRequestRecord := default ex_row (sys_table s !! "101").

(** The running request becomes stopping. *)
Lemma status_machine_witness :
  rec_Status (ex_row_at (ex_system 3)) = StatusRunning /\
  rec_Status (ex_row_at (ex_system 4)) = StatusStopping /\
  status_step (rec_Status (ex_row_at (ex_system 3))) (rec_Status (ex_row_at (ex_system 4))) = true.
Proof.
  split; [vm_compute; reflexivity|]. split; [vm_compute; reflexivity|].
  apply (status_machine ex_config "worker" (Some Careful) (ex_system 3) (ex_system 4) "101").
  - apply ex_system_reachable.
  - apply ex_system_step. vm_compute. reflexivity.
  - vm_compute. reflexivity.
  - vm_compute. reflexivity.
Defined.

(** The admitted request names no sandbox. *)
Lemma no_sandbox_before_running_witness :
  exists r, ex_created !! "101" = Some r /\ rec_Status r = StatusQueued /\ rec_SandboxID r = "".
Proof.
  eexists. split; [vm_compute; reflexivity|]. split; [reflexivity|].
  apply (no_sandbox_before_running ex_config "worker" (MkSys ex_created [] ∅) "101").
  - apply ex_created_reachable.
  - vm_compute. reflexivity.
  - left. reflexivity.
Defined.

(** The last write of the stop completes the request, whose sandbox was stopped. *)
Lemma sandbox_released_witness :
  rec_SandboxID (ex_row_at (ex_system 8)) = "sb-1" /\
  rec_Status (ex_row_at (ex_system 9)) = StatusCompleted /\
  rec_SandboxID (ex_row_at (ex_system 8)) ∈ sys_stopped (ex_system 8).
Proof.
  split; [vm_compute; reflexivity|]. split; [vm_compute; reflexivity|].
  apply (sandbox_released ex_config "worker" Careful (ex_system 8) (ex_system 9) "101" _ (ex_row_at (ex_system 9))).
  - apply ex_system_reachable.
  - apply ex_system_step. vm_compute. reflexivity.
  - discriminate.
  - vm_compute. reflexivity.
  - vm_compute. reflexivity.
  - vm_compute. discriminate.
  - right. split; vm_compute; [reflexivity|discriminate].
Defined.

(** The sandbox a goroutine is about to stop. *)
Definition next_stop (p : prog unit) : option (RunnerRequest * string * Z) :=
  match p with
  | Vis (EStopSandbox req sb pid) _ => Some (req, sb, pid)
  | _ => None
  end.

Lemma next_stop_Some p req sb pid :
  next_stop p = Some (req, sb, pid) -> exists k, p = Vis (EStopSandbox req sb pid) k.
Proof. destruct p as [|R [] k]; try done. intros [= -> -> ->]. by eexists. Qed.

Lemma ex_system_thread n : sys_threads (ex_system n) !! 0 = Some (MkProc Careful (ex_stopping n).1.1).
Proof. unfold ex_system. destruct (ex_stopping n) as [[p t] stopped]. apply lookup_insert_eq. Qed.

(** The goroutine is about to stop the sandbox; its row is persisted as stopping. *)
Lemma stop_intent_durable_witness :
  exists s0 id r0 r, runner_reachable ex_config "worker" s0 /\ runner_steps ex_config "worker" s0 (ex_system 5) /\
    sys_table s0 !! id = Some r0 /\ rec_Status r0 = StatusStopping /\ rec_SandboxID r0 = "sb-1" /\
    sys_table (ex_system 5) !! id = Some r /\
    ((rec_Version r0 < rec_Version r)%Z \/
     rec_Version r = rec_Version r0 /\ rec_Status r = StatusStopping /\ rec_SandboxID r = "sb-1").
Proof.
  destruct (next_stop (ex_stopping 5).1.1) as [[[req sb] pid]|] eqn:Hstop; [|vm_compute in Hstop; discriminate].
  assert (Hsb : sb = "sb-1") by (vm_compute in Hstop; congruence).
  destruct (next_stop_Some _ _ _ _ Hstop) as [k Hk]. rewrite <- Hsb.
  apply (stop_intent_durable ex_config "worker" (ex_system 5) 0 req sb pid k).
  - apply ex_system_reachable.
  - rewrite ex_system_thread, Hk. reflexivity.
Defined.
