(* ===== verification/StopOutcome.v ===== *)
(** * What a stop achieves when the other systems answer

    Runs of [stopRunner] (internal/server/server_runner_lifecycle.go) with a
    working database: which row it leaves, and that it leaves all others alone. *)

From stdpp Require Import base gmap list strings.
From S2P Require Import Prelude GoStrings Query RunnerModel RunnerStore RunnerQueries Catalog Retry Effects Interp.
From S2P Require Import Lifecycle LifecycleSafety Handlers HandlersSafety Scenario.

Section stop.
Context (cfg : server_config) (o : oracle) (now : Time).

(** A field that ignores the observed job result is not changed by recording it. *)
Lemma retain_field {A} (f : RunnerState -> A) st job at_ :
  (forall s v, f (s <| st_GitHubJobName := v |>) = f s) -> (forall s v, f (s <| st_GitHubJobStatus := v |>) = f s) ->
  (forall s v, f (s <| st_GitHubJobConclusion := v |>) = f s) ->
  (forall s v, f (s <| st_GitHubJobRunnerName := v |>) = f s) ->
  (forall s v, f (s <| st_GitHubJobObservedAt := v |>) = f s) ->
  f (retainWorkflowJobResult st job at_).1 = f st.
Proof.
  intros H1 H2 H3 H4 H5. unfold retainWorkflowJobResult. destruct (_ || _ || _); [done|]. cbv zeta.
  destruct (negb (EqualFold _ _ || _)); [done|].
  repeat match goal with |- context [if ?b then _ <| _ := _ |> else _] => destruct b end.
  all: repeat match goal with |- context [if ?b then _ else _] => destruct b end; cbn [fst].
  all: by rewrite ?H5, ?H4, ?H3, ?H2, ?H1.
Qed.

(** A write based on the current row succeeds and replaces that row. *)
Lemma run_write st t S r :
  sanitizeID (st_ID st) = st_ID st -> st_ID st <> "" -> t !! st_ID st = Some r -> rec_Version r = st_Version st ->
  run o now (write_state st) t S = (None, <[st_ID st := updateRecord (written st now) r]> t, S).
Proof.
  intros Hc Hne Hr Hv. unfold write_state, trigger. cbn [run answer].
  rewrite WriteState_spec, Hc, Hr, Hv, Z.eqb_refl by congruence. done.
Qed.

Lemma run_ask {R A} (c : call R) (k : R -> prog A) t S :
  run o now (bind (ask c) k) t S = run o now (k (or_call o R c)) t S.
Proof. done. Qed.

(** The row a stop leaves: settled, one version on, the sandbox and the identity kept. *)
Definition settled_row (r r' : runnerRequestRecord) : Prop :=
  rec_Status r' = (if negb (bool_decide (rec_FailureStage r = "")) && negb (bool_decide (rec_FailureStage r = "cleanup"))
                   then StatusFailed else StatusCompleted) /\
  rec_FailureStage r' = (if bool_decide (rec_FailureStage r = "cleanup") then "" else rec_FailureStage r) /\
  rec_NextRetryAt r' = None /\ rec_SandboxID r' = rec_SandboxID r /\ rec_ID r' = rec_ID r.

Lemma row_of_written st r :
  rec_Status (updateRecord (written st now) r) = st_Status st /\
  rec_FailureStage (updateRecord (written st now) r) = st_FailureStage st /\
  rec_SandboxID (updateRecord (written st now) r) = st_SandboxID st /\
  rec_Version (updateRecord (written st now) r) = (st_Version st + 1)%Z /\
  rec_NextRetryAt (updateRecord (written st now) r) = zeroTimeToPointer (st_NextRetryAt st) /\
  rec_ID (updateRecord (written st now) r) = rec_ID r.
Proof.
  unfold written. set (x := st <| st_ID := _ |> <| st_UpdatedAt := _ |>).
  split; [exact (applyStateTimestamps_status x now)|].
  split; [by apply (applyStateTimestamps_field st_FailureStage x now)|].
  split; [by apply (applyStateTimestamps_field st_SandboxID x now)|].
  split; [exact (f_equal (fun v => (v + 1)%Z) (applyStateTimestamps_version x now))|].
  split; [|done]. apply (f_equal zeroTimeToPointer). by apply (applyStateTimestamps_field st_NextRetryAt x now).
Qed.

Lemma run_settle st t S r :
  sanitizeID (st_ID st) = st_ID st -> st_ID st <> "" -> t !! st_ID st = Some r -> rec_Version r = st_Version st ->
  rec_FailureStage r = st_FailureStage st -> rec_SandboxID r = st_SandboxID st ->
  exists st' r', run o now (stopSettle st) t S = ((st', true, None), <[st_ID st := r']> t, S) /\
    settled_row r r' /\ rec_Version r' = (rec_Version r + 1)%Z.
Proof.
  intros Hc Hne Hr Hv Hfs Hsb. unfold stopSettle. rewrite run_ask, run_bind.
  set (at_ := or_call o Time Now). clearbody at_. cbv zeta. set (st1 := settledState st at_).
  assert (Hid : st_ID st1 = st_ID st /\ st_Version st1 = st_Version st /\ st_SandboxID st1 = st_SandboxID st).
  { unfold st1, settledState. by destruct (_ && _). }
  assert (Hst : st_Status st1 = (if negb (bool_decide (st_FailureStage st = "")) &&
                                    negb (bool_decide (st_FailureStage st = "cleanup"))
                                 then StatusFailed else StatusCompleted) /\
                st_FailureStage st1 = (if bool_decide (st_FailureStage st = "cleanup") then "" else st_FailureStage st) /\
                st_NextRetryAt st1 = 0%Z).
  { unfold st1, settledState. cbv zeta. do 2 case_bool_decide; cbn [negb andb]; (split; [done|]; split; [|done]); first [done | by symmetry]. }
  destruct Hid as (Hi & Hn & Hs). destruct Hst as (Hst & Hf & Ht). clearbody st1.
  rewrite (run_write st1 t S r) by congruence. exists st1, (updateRecord (written st1 now) r).
  destruct (row_of_written st1 r) as (E1 & E2 & E3 & E4 & E5 & E6).
  split; [by rewrite Hi|]. split; [|lia]. unfold settled_row. rewrite E1, E2, E3, E5, E6, Hst, Hf, Ht, Hfs, Hsb, Hs. repeat split; done.
Qed.

(** GitHub removes the runner. *)
Definition removes : Prop := forall a b c, exists x, or_call o _ (RemoveRunnerByName a b c) = Ok x.

Lemma run_github st job t S :
  removes -> workflowJobMismatch st job = false -> st_FailureReason st <> "jit_cleanup_pending" ->
  run o now (stopGitHubRunner cfg st job) t S = run o now (stopSettle st) t S.
Proof.
  intros Hrm Hmm Hj. unfold stopGitHubRunner. rewrite run_bind.
  assert (H : run o now (cleanupGitHubRunner st) t S = (None, t, S)).
  { unfold cleanupGitHubRunner. do 2 (case_bool_decide; [done|]). rewrite run_ask.
    destruct (Hrm (st_RepositoryFullName st) (st_RunnerGroup st) (st_RunnerName st)) as [x ->]. done. }
  rewrite H, Hmm, bool_decide_eq_false_2 by done. done.
Qed.

(** The request of a stored row is readable, so stopping its sandbox reaches the service. *)
Lemma run_stop_sandbox id sb pid t S r :
  t !! sanitizeID id = Some r ->
  run o now (stopSandboxWithTimeout id sb pid) t S
    = (or_stop o sb, t, if gone (or_stop o sb) then sb :: S else S).
Proof.
  intros Hr. unfold stopSandboxWithTimeout, trigger. cbn [bind run answer].
  unfold ReadRequest, readRecord. rewrite Hr. done.
Qed.

(** What the stop changes before its first write. *)
Lemma stopping_fields st job source at_ :
  let st1 := markRunnerCleanupStarted (setTerminationSource (recordAssignedJob st job) source) at_ in
  st_ID st1 = st_ID st /\ st_Version st1 = st_Version st /\ st_SandboxID st1 = st_SandboxID st /\
  st_FailureStage st1 = st_FailureStage st /\ st_FailureReason st1 = st_FailureReason st /\
  st_WorkflowJobID st1 = st_WorkflowJobID st /\ st_RetryCount st1 = st_RetryCount st.
Proof.
  unfold markRunnerCleanupStarted, setTerminationSource, recordAssignedJob. cbv zeta.
  destruct (shouldRecordAssignedJob st job), (negb _), (IsZero _); done.
Qed.

(** What the state and the row that agree with it share. *)
Definition agrees (st : RunnerState) (r : runnerRequestRecord) : Prop :=
  st_ID st = rec_ID r /\ st_Version st = rec_Version r /\ st_SandboxID st = rec_SandboxID r /\
  st_FailureStage st = rec_FailureStage r.

(** The first write of a stop: the row is stopping, the rest goes on from it. *)
Lemma run_active_first id st job source t S r :
  sanitizeID id = id -> rec_ID r = id -> id <> "" -> t !! id = Some r -> agrees st r ->
  exists st2 r2,
    run o now (stopActive cfg id st job source) t S =
    run o now (if bool_decide (st_SandboxID st2 = "") then stopGitHubRunner cfg st2 job
               else let! err := stopSandboxWithTimeout id (st_SandboxID st2) (st_ProcessPID st2) in
                    match err with
                    | Some e => if isSandboxGone e then stopGitHubRunner cfg st2 job else stopFailed cfg st2 e
                    | None => stopGitHubRunner cfg st2 job
                    end) (<[id := r2]> t) S /\
    agrees st2 r2 /\ rec_ID r2 = id /\ rec_Version r2 = (rec_Version r + 1)%Z /\ rec_SandboxID r2 = rec_SandboxID r /\
    rec_FailureStage r2 = rec_FailureStage r /\ st_FailureReason st2 = st_FailureReason st /\
    st_WorkflowJobID st2 = st_WorkflowJobID st /\ st_RetryCount st2 = st_RetryCount st.
Proof.
  intros Hc Hid Hne Hr (A1 & A2 & A3 & A4). unfold stopActive. cbv zeta. rewrite run_ask.
  destruct (stopping_fields st job source (or_call o Time Now)) as (F1 & F2 & F3 & F4 & F5 & F6 & F7).
  set (st1 := markRunnerCleanupStarted _ _) in *. clearbody st1. rewrite run_bind.
  rewrite (run_write st1 t S r) by congruence. rewrite F1, A1, Hid.
  exists (bump_version st1), (updateRecord (written st1 now) r).
  destruct (row_of_written st1 r) as (E1 & E2 & E3 & E4 & E5 & E6).
  split; [done|]. rewrite E2, E3, E4, E6, F2, F3, F4, A2, A3, A4.
  unfold agrees. rewrite E2, E3, E4, E6.
  split; [by rewrite <- A1, <- F1|]. do 4 (split; [done|]).
  split; [exact F5|]. split; [exact F6|exact F7].
Qed.

Lemma run_active id st job source t S r :
  sanitizeID id = id -> rec_ID r = id -> id <> "" -> t !! id = Some r -> agrees st r ->
  removes -> gone (or_stop o (rec_SandboxID r)) = true -> workflowJobMismatch st job = false ->
  st_FailureReason st <> "jit_cleanup_pending" ->
  exists st' r' S', run o now (stopActive cfg id st job source) t S = ((st', true, None), <[id := r']> t, S') /\
    settled_row r r' /\ rec_Version r' = (rec_Version r + 2)%Z /\
    (rec_SandboxID r <> "" -> rec_SandboxID r ∈ S').
Proof.
  intros Hc Hid Hne Hr Ha Hrm Hgone Hmm Hj.
  destruct (run_active_first id st job source t S r Hc Hid Hne Hr Ha)
    as (st2 & r2 & Hrun1 & (B1 & B2 & B3 & B4) & Hid2 & Hv2 & Hsb2 & Hfs2 & Hre & Hw & _).
  assert (Hmm2 : workflowJobMismatch st2 job = false) by (revert Hmm; unfold workflowJobMismatch; by rewrite Hw).
  assert (Hj2 : st_FailureReason st2 <> "jit_cleanup_pending") by congruence.
  assert (Hlook : <[id := r2]> t !! st_ID st2 = Some r2) by (rewrite B1, Hid2; apply lookup_insert_eq).
  destruct (run_settle st2 (<[id := r2]> t)
              (if bool_decide (st_SandboxID st2 = "") then S else st_SandboxID st2 :: S) r2)
    as (st' & r' & Hrun & Hset & Hver); [congruence..|].
  rewrite B1, Hid2, insert_insert, decide_True in Hrun by done.
  exists st', r', (if bool_decide (st_SandboxID st2 = "") then S else st_SandboxID st2 :: S).
  split; [|split; [|split; [lia|]]].
  - rewrite Hrun1. case_bool_decide; [by rewrite run_github|]. rewrite run_bind.
    rewrite (run_stop_sandbox id _ _ _ S r2) by (rewrite Hc; apply lookup_insert_eq).
    rewrite B3, Hsb2, Hgone in *. destruct (or_stop o (rec_SandboxID r)) as [e|]; [|by rewrite run_github].
    cbn [gone] in Hgone. by rewrite Hgone, run_github.
  - destruct Hset as (G1 & G2 & G3 & G4 & G5). unfold settled_row. rewrite G1, G2, G3, G4, G5, Hfs2, Hsb2. by rewrite Hid2.
  - intros Hns. rewrite bool_decide_eq_false_2 by congruence. rewrite B3, Hsb2. left.
Qed.

Lemma run_read_state id t S r A (k : result RunnerState -> prog A) :
  sanitizeID id = id -> t !! id = Some r ->
  run o now (bind (read_state id) k) t S = run o now (k (Ok (recordToState r))) t S.
Proof. intros Hc Hr. unfold read_state, trigger. cbn [bind run answer]. unfold ReadState, readRecord. by rewrite Hc, Hr. Qed.

(** The fields of the state that decide a stop are not those a job result changes. *)
Lemma retain_decisions st job at_ :
  let st1 := (retainWorkflowJobResult st job at_).1 in
  st_ID st1 = st_ID st /\ st_Version st1 = st_Version st /\ st_Status st1 = st_Status st /\
  st_SandboxID st1 = st_SandboxID st /\ st_FailureStage st1 = st_FailureStage st /\
  st_FailureReason st1 = st_FailureReason st /\
  workflowJobMismatch st1 job = workflowJobMismatch st job /\
  workflowJobStopConflictsWithAssignment st1 job = workflowJobStopConflictsWithAssignment st job /\
  st_RetryCount st1 = st_RetryCount st.
Proof.
  cbv zeta. split; [by apply (retain_field st_ID)|]. split; [by apply (retain_field st_Version)|].
  split; [by apply (retain_field st_Status)|]. split; [by apply (retain_field st_SandboxID)|].
  split; [by apply (retain_field st_FailureStage)|]. split; [by apply (retain_field st_FailureReason)|].
  split; [by apply (retain_field (fun s => workflowJobMismatch s job))|].
  split; [by apply (retain_field (fun s => workflowJobStopConflictsWithAssignment s job))|].
  by apply (retain_field st_RetryCount).
Qed.

(** A stop of a request that is not completed, without a conflict, is an active stop. *)
Lemma run_stop_active id job source t S r :
  rec_ID r = id -> sanitizeID id = id -> t !! id = Some r -> rec_Status r <> StatusCompleted ->
  workflowJobStopConflictsWithAssignment (recordToState r) job = false ->
  exists st1, run o now (stopRunner cfg id job source) t S = run o now (stopActive cfg id st1 job source) t S /\
    agrees st1 r /\ workflowJobMismatch st1 job = workflowJobMismatch (recordToState r) job /\
    st_FailureReason st1 = rec_FailureReason r /\ st_RetryCount st1 = rec_RetryCount r.
Proof.
  intros Hk Hc Hr Hst Hcf. unfold stopRunner. rewrite (run_read_state id t S r) by done.
  unfold stopRead. rewrite run_ask.
  pose proof (retain_decisions (recordToState r) job (or_call o Time Now)) as F.
  destruct (retainWorkflowJobResult _ _ _) as [st1 changed]. cbn [fst] in F.
  destruct F as (F1 & F2 & F3 & F4 & F5 & F6 & F7 & F8 & F9). rewrite F8, Hcf.
  unfold is_status, status_is. rewrite bool_decide_eq_false_2 by (rewrite F3; exact Hst).
  exists st1. split; [done|]. split; [unfold agrees; rewrite F1, F2, F4, F5; done|]. done.
Qed.

(** C15: A stop settles. When GitHub removes the runner and the sandbox service stops the
    sandbox or reports it gone, stopping a request that is not completed, for
    a job that neither conflicts with the recorded assignment nor differs from the
    request's own, and whose failure reason is not that a clean-up of its JIT runner is
    pending, returns without an error, stops the sandbox, leaves the row
    completed (or failed, when it carries a failure other than a failed clean-up)
    with no pending retry, two versions on, and touches no other row. *)
Theorem stop_settles id job source t S r :
  table_wf t -> t !! id = Some r -> rec_Status r <> StatusCompleted ->
  removes -> gone (or_stop o (rec_SandboxID r)) = true ->
  workflowJobStopConflictsWithAssignment (recordToState r) job = false ->
  workflowJobMismatch (recordToState r) job = false -> rec_FailureReason r <> "jit_cleanup_pending" ->
  exists st r' S', run o now (stopRunner cfg id job source) t S = ((st, true, None), <[id := r']> t, S') /\
    settled_row r r' /\ rec_Version r' = (rec_Version r + 2)%Z /\
    (rec_SandboxID r <> "" -> rec_SandboxID r ∈ S').
Proof.
  intros Hwf Hr Hst Hrm Hgone Hcf Hmm Hj. destruct (wf_rows t Hwf _ _ Hr) as [Hk Hc Hne _ _ _ _].
  destruct (run_stop_active id job source t S r Hk Hc Hr Hst Hcf) as (st1 & Hrun & Ha & Hm1 & Hf1 & _).
  rewrite Hrun. apply run_active; try done; [by rewrite Hm1|by rewrite Hf1].
Qed.

(** The row after a failed stop: retried while the budget lasts, failed otherwise; the
    sandbox stays on the row either way. *)
Definition unstopped_row (e : goerror) (r r' : runnerRequestRecord) : Prop :=
  rec_SandboxID r' = rec_SandboxID r /\ rec_FailureStage r' = "stop" /\
  (if (classifyRetryableError "stop" e).2 && (rec_RetryCount r <? cfg_RetryMaxAttempts cfg)%Z
   then rec_Status r' = StatusStopping /\
        rec_NextRetryAt r' = zeroTimeToPointer (nextRetryAt cfg (rec_RetryCount r + 1) (or_call o Time Now))
   else rec_Status r' = StatusFailed).

Lemma run_failed id st e t S r :
  sanitizeID id = id -> rec_ID r = id -> id <> "" -> t !! id = Some r -> agrees st r ->
  exists st' err r', run o now (stopFailed cfg st e) t S = ((st', false, err), <[id := r']> t, S) /\
    rec_SandboxID r' = rec_SandboxID r /\ rec_FailureStage r' = "stop" /\ rec_Version r' = (rec_Version r + 1)%Z /\
    if (classifyRetryableError "stop" e).2 && (st_RetryCount st <? cfg_RetryMaxAttempts cfg)%Z
    then err = None /\ rec_Status r' = StatusStopping /\
         rec_NextRetryAt r' = zeroTimeToPointer (nextRetryAt cfg (st_RetryCount st + 1) (or_call o Time Now))
    else err = Some e /\ rec_Status r' = StatusFailed.
Proof.
  intros Hc Hid Hne Hr (A1 & A2 & A3 & A4). unfold stopFailed. rewrite run_ask.
  unfold scheduleStopRetry. destruct (classifyRetryableError "stop" e) as [code retryable]. cbn [snd].
  rewrite Z.leb_antisym.
  destruct retryable, (st_RetryCount st <? cfg_RetryMaxAttempts cfg)%Z; cbn [negb orb andb]; cbv zeta; rewrite run_bind.
  all: match goal with |- context [write_state ?x] => set (st1 := x) end.
  all: assert (B : st_ID st1 = st_ID st /\ st_Version st1 = st_Version st /\ st_SandboxID st1 = st_SandboxID st /\
         st_FailureStage st1 = "stop") by done.
  1: assert (B' : st_Status st1 = StatusStopping /\ st_NextRetryAt st1 = nextRetryAt cfg (st_RetryCount st + 1) (or_call o Time Now)) by done.
  2-4: assert (B' : st_Status st1 = StatusFailed) by done.
  all: destruct B as (B1 & B2 & B3 & B4); clearbody st1; rewrite (run_write st1 t S r) by congruence.
  all: destruct (row_of_written st1 r) as (E1 & E2 & E3 & E4 & E5 & E6); rewrite B1, A1, Hid.
  all: eexists _, _, (updateRecord (written st1 now) r); split; [done|].
  all: rewrite E1, E2, E3, E4, ?E5, B2, B3, B4, A2, A3; do 3 (split; [done|]); split; [done|].
  - destruct B' as [-> ->]. done.
  - done.
  - done.
  - done.
Qed.

(** C34: A failed stop keeps its sandbox. When the sandbox service answers a stop with an
    error other than that the sandbox is gone, the row still names the sandbox; with
    a retryable error and retries left it stays stopping, with the next attempt
    scheduled by the backoff, and otherwise it is failed at stage stop and the
    error is reported. No other row changes and no sandbox is taken for stopped. *)
Theorem stop_failure_keeps_sandbox id job source t S r e :
  table_wf t -> t !! id = Some r -> rec_Status r <> StatusCompleted -> rec_SandboxID r <> "" ->
  or_stop o (rec_SandboxID r) = Some e -> isSandboxGone e = false ->
  workflowJobStopConflictsWithAssignment (recordToState r) job = false ->
  exists st err r', run o now (stopRunner cfg id job source) t S = ((st, false, err), <[id := r']> t, S) /\
    unstopped_row e r r' /\ rec_Version r' = (rec_Version r + 2)%Z /\
    (err = None <-> rec_Status r' = StatusStopping).
Proof.
  intros Hwf Hr Hst Hns Hstop Hng Hcf. destruct (wf_rows t Hwf _ _ Hr) as [Hk Hc Hne _ _ _ _].
  destruct (run_stop_active id job source t S r Hk Hc Hr Hst Hcf) as (st1 & Hrun & Ha & _ & _ & Hrc).
  destruct (run_active_first id st1 job source t S r Hc Hk Hne Hr Ha)
    as (st2 & r2 & Hrun1 & Ha2 & Hid2 & Hv2 & Hsb2 & _ & _ & _ & Hrc2).
  destruct (run_failed id st2 e (<[id := r2]> t) S r2) as (st' & err & r' & Hf & G1 & G2 & G3 & G4);
    [done|done|done|apply lookup_insert_eq|done|].
  rewrite insert_insert, decide_True in Hf by done. exists st', err, r'. rewrite Hrc2, Hrc in G4. split; [|split; [|split; [lia|]]].
  - rewrite Hrun, Hrun1. destruct Ha2 as (_ & _ & B3 & _).
    rewrite bool_decide_eq_false_2 by congruence. rewrite run_bind.
    rewrite (run_stop_sandbox id _ _ _ S r2) by (rewrite Hc; apply lookup_insert_eq).
    rewrite B3, Hsb2, Hstop. cbn [gone]. by rewrite Hng.
  - split; [congruence|]. split; [done|]. destruct (_ && _); [apply G4|apply G4].
  - destruct (_ && _); destruct G4 as [-> G4]; [destruct G4 as [-> _]|rewrite G4]; done.
Qed.

(** A run that writes at most one state of the row. *)
Definition defers_to (id : string) (t : table) (r : runnerRequestRecord) (st : RunnerState) (t' : table) : Prop :=
  (t' = t /\ st_Version st = rec_Version r) \/
  (exists r', t' = <[id := r']> t /\ rec_Status r' = rec_Status r /\ rec_SandboxID r' = rec_SandboxID r /\
     rec_FailureStage r' = rec_FailureStage r /\ rec_Version r' = (rec_Version r + 1)%Z /\
     st_Version st = rec_Version r).

Lemma run_record id st (b : bool) (res : bool) f t S r :
  sanitizeID id = id -> rec_ID r = id -> id <> "" -> t !! id = Some r -> agrees st r -> st_Status st = rec_Status r ->
  exists t', run o now (if b then let! w := write_state st in
                                  match w with Some e => stop_error (f e) | None => Ret (st, res, None) end
                        else Ret (st, res, None)) t S = ((st, res, None), t', S) /\
    defers_to id t r st t'.
Proof.
  intros Hc Hid Hne Hr (A1 & A2 & A3 & A4) Hst. destruct b; [|exists t; by split; [|left]].
  rewrite run_bind, (run_write st t S r) by congruence. rewrite A1, Hid. cbn [run].
  exists (<[id := updateRecord (written st now) r]> t). split; [done|]. right.
  destruct (row_of_written st r) as (E1 & E2 & E3 & E4 & _).
  exists (updateRecord (written st now) r). rewrite E1, E2, E3, E4, Hst, A2, A3, A4. done.
Qed.

(** C35: A stop that must not stop. A completed job that is not the one the runner was
    assigned, or any stop of a completed request, stops no sandbox and
    changes neither the status nor the sandbox of the row; at most the job's
    result and assignment are recorded, in one write. The returned state carries the version that was
    read, also when that write advanced the row: a caller that goes on with it
    (as recovery does) holds a stale version. *)
Theorem stop_defers id job source t S r :
  table_wf t -> t !! id = Some r ->
  workflowJobStopConflictsWithAssignment (recordToState r) job = true \/ rec_Status r = StatusCompleted ->
  exists st res t', run o now (stopRunner cfg id job source) t S = ((st, res, None), t', S) /\ defers_to id t r st t'.
Proof.
  intros Hwf Hr Hor. destruct (wf_rows t Hwf _ _ Hr) as [Hk Hc Hne _ _ _ _].
  unfold stopRunner. rewrite (run_read_state id t S r) by done. unfold stopRead. rewrite run_ask.
  pose proof (retain_decisions (recordToState r) job (or_call o Time Now)) as F.
  destruct (retainWorkflowJobResult _ _ _) as [st1 changed]. cbn [fst] in F.
  destruct F as (F1 & F2 & F3 & F4 & F5 & _ & _ & F8 & _). rewrite F8.
  assert (Ha : agrees st1 r) by (unfold agrees; rewrite F1, F2, F4, F5; done).
  destruct (workflowJobStopConflictsWithAssignment (recordToState r) job) eqn:Hcf.
  - destruct (run_record id st1 changed false (fun e => ErrWrap "write completed github job result: " e "") t S r)
      as (t' & H & Hd); [done..|]. by exists st1, false, t'.
  - destruct Hor as [?|Hst]; [done|]. unfold is_status, status_is. rewrite bool_decide_eq_true_2 by (by rewrite F3).
    cbv zeta. set (st2 := recordAssignedJob st1 job). set (rec := shouldRecordAssignedJob st1 job).
    assert (Ha2 : agrees st2 r /\ st_Status st2 = rec_Status r).
    { unfold st2, recordAssignedJob. rewrite <- (F3 : _ = rec_Status r). by destruct (shouldRecordAssignedJob st1 job). }
    destruct Ha2 as [Ha2 Hs2]. clearbody st2 rec.
    destruct (run_record id st2 (changed || rec) rec (fun e => ErrWrap "write completed job result: " e "") t S r)
      as (t' & H & Hd); [done..|]. by exists st2, rec, t'.
Qed.

(** The row has lost its sandbox and is queued or failed. *)
Definition forgotten_row (r r' : runnerRequestRecord) : Prop :=
  (rec_Status r' = StatusQueued \/ rec_Status r' = StatusFailed) /\ rec_SandboxID r' = "" /\
  rec_ID r' = rec_ID r /\ rec_Version r' = (rec_Version r + 1)%Z.

(** C40: A timed out creation may lose a sandbox. The sweeper's create-timeout path only
    checks that the row it re-reads is neither completed nor failed: when the
    request became running since it was listed, the row is requeued or failed, its
    sandbox id is erased, and no sandbox has been stopped. *)
Theorem create_timeout_forgets_sandbox id stage err t S r :
  table_wf t -> t !! id = Some r -> rec_Status r = StatusRunning ->
  exists r', run o now (retryOrFail cfg id stage err) t S = (tt, <[id := r']> t, S) /\ forgotten_row r r'.
Proof.
  intros Hwf Hr Hst. destruct (wf_rows t Hwf _ _ Hr) as [Hk Hc Hne _ _ _ _].
  unfold retryOrFail. rewrite (run_read_state id t S r) by done.
  assert (Hr' : is_status (recordToState r) StatusCompleted || is_status (recordToState r) StatusFailed = false).
  { unfold is_status, status_is. change (st_Status (recordToState r)) with (rec_Status r). by rewrite Hst. }
  rewrite Hr', run_ask, run_bind. cbv zeta.
  destruct (view_failure cfg (recordToState r) stage err true (or_call o Time Now)) as (s & Hs & E).
  set (st1 := (applyFailure _ _ _ _ _ _).1) in *. clearbody st1. injection E as E1 E2 E3 E4.
  assert (Hv : rec_Version r = st_Version st1) by (by rewrite E2).
  assert (Hid : st_ID st1 = id) by (by rewrite E1).
  rewrite (run_write st1 t S r) by congruence. rewrite Hid. exists (updateRecord (written st1 now) r).
  destruct (row_of_written st1 r) as (G1 & _ & G3 & G4 & _ & G6). unfold forgotten_row. rewrite G1, G3, G4, G6, E3, E4, Hv.
  split; [|done]. destruct (is_status st1 StatusQueued); [|done]. cbn. by destruct (or_call o () SignalQueue).
Qed.
End stop.

(** The running request of the scenario. *)
Lemma ex_running_wf : table_wf ex_running.
Proof. exact (proj1 (runner_ok ex_config "worker" (MkSys ex_running [] ∅) ex_running_reachable)). Qed.

Lemma ex_removes : removes ex_oracle.
Proof. intros a b c. exists true. reflexivity. Qed.

Lemma stop_settles_witness : exists r r',
  ex_running !! "101" = Some r /\ settled_row r r' /\ rec_Version r' = 5%Z.
Proof.
  destruct (ex_running !! "101") as [r|] eqn:Hr; [|vm_compute in Hr; discriminate].
  destruct (stop_settles ex_config ex_oracle ex_now "101" no_job TerminationSourceManualStop ex_running [] r)
    as (st & r' & S' & _ & H1 & H2 & _).
  - apply ex_running_wf.
  - exact Hr.
  - vm_compute in Hr. injection Hr as <-. discriminate.
  - apply ex_removes.
  - reflexivity.
  - vm_compute in Hr. injection Hr as <-. vm_compute. reflexivity.
  - vm_compute in Hr. injection Hr as <-. vm_compute. reflexivity.
  - vm_compute in Hr. injection Hr as <-. discriminate.
  - exists r, r'. split; [reflexivity|]. split; [exact H1|].
    rewrite H2. vm_compute in Hr. injection Hr as <-. reflexivity.
Defined.

(** A sandbox service that is overloaded. *)
Definition ex_stuck : oracle := MkOracle ex_call (fun _ => Some (ErrText "stop sandbox: status 503")).

Lemma stop_failure_keeps_sandbox_witness : exists r r',
  ex_running !! "101" = Some r /\ unstopped_row ex_config ex_stuck (ErrText "stop sandbox: status 503") r r' /\
  rec_Status r' = StatusStopping.
Proof.
  destruct (ex_running !! "101") as [r|] eqn:Hr; [|vm_compute in Hr; discriminate].
  destruct (stop_failure_keeps_sandbox ex_config ex_stuck ex_now "101" no_job TerminationSourceManualStop ex_running [] r
              (ErrText "stop sandbox: status 503")) as (st & err & r' & _ & H1 & _ & _).
  - apply ex_running_wf.
  - exact Hr.
  - vm_compute in Hr. injection Hr as <-. discriminate.
  - vm_compute in Hr. injection Hr as <-. discriminate.
  - reflexivity.
  - vm_compute. reflexivity.
  - vm_compute in Hr. injection Hr as <-. vm_compute. reflexivity.
  - exists r, r'. split; [reflexivity|]. split; [exact H1|]. destruct H1 as (_ & _ & H1).
    assert (Hb : (classifyRetryableError "stop" (ErrText "stop sandbox: status 503")).2
                 && (rec_RetryCount r <? cfg_RetryMaxAttempts ex_config)%Z = true)
      by (vm_compute in Hr; injection Hr as <-; vm_compute; reflexivity).
    rewrite Hb in H1. exact (proj1 H1).
Defined.

(** The running request, once its runner reported that it executes another job. *)
Definition ex_assign : prog unit := discard (handleWorkflowJobEvent ex_config "in_progress" "acme/app" 7
  (MkWorkflowJob 999 "lint" "in_progress" "" "e2b-101" [] []) empty_payload).
Definition ex_assigned : table := (run ex_oracle ex_now ex_assign ex_running []).1.2.
Definition ex_own_job : WorkflowJob := MkWorkflowJob 101 "build" "completed" "cancelled" "" [] [].

Lemma ex_assigned_wf : table_wf ex_assigned.
Proof.
  assert (H : ex_reachable (MkSys ex_assigned (run ex_oracle ex_now ex_assign ex_running []).2 ∅)).
  { exact (run_reachable ex_oracle ex_now _ Careful ex_assign ex_running [] ex_now_nonzero ex_running_reachable
             (entry_job _ _ _ _ _ _ _)). }
  exact (proj1 (runner_ok ex_config "worker" _ H)).
Qed.

(** The request's own job is cancelled while its runner executes another: the runner goes on. *)
Lemma stop_defers_witness : exists r st res t',
  ex_assigned !! "101" = Some r /\ rec_Status r = StatusRunning /\
  run ex_oracle ex_now (stopRunner ex_config "101" ex_own_job TerminationSourceWorkflowJobWebhook) ex_assigned []
    = ((st, res, None), t', []) /\ defers_to "101" ex_assigned r st t'.
Proof.
  destruct (ex_assigned !! "101") as [r|] eqn:Hr; [|vm_compute in Hr; discriminate].
  destruct (stop_defers ex_config ex_oracle ex_now "101" ex_own_job TerminationSourceWorkflowJobWebhook ex_assigned [] r)
    as (st & res & t' & H1 & H2).
  - apply ex_assigned_wf.
  - exact Hr.
  - left. vm_compute in Hr. injection Hr as <-. vm_compute. reflexivity.
  - exists r, st, res, t'. split; [reflexivity|]. split; [|split; [exact H1|exact H2]].
    vm_compute in Hr. injection Hr as <-. reflexivity.
Defined.

Lemma create_timeout_forgets_sandbox_witness : exists r r',
  ex_running !! "101" = Some r /\ rec_SandboxID r = "sb-1" /\ rec_SandboxID r' = "" /\
  run ex_oracle ex_now (retryOrFail ex_config "101" "sweeper_create_timeout" (ErrText "runner create timed out"))
    ex_running [] = (tt, <["101" := r']> ex_running, []).
Proof.
  destruct (ex_running !! "101") as [r|] eqn:Hr; [|vm_compute in Hr; discriminate].
  destruct (create_timeout_forgets_sandbox ex_config ex_oracle ex_now "101" "sweeper_create_timeout"
              (ErrText "runner create timed out") ex_running [] r) as (r' & H1 & _ & H2 & _).
  - apply ex_running_wf.
  - exact Hr.
  - vm_compute in Hr. injection Hr as <-. reflexivity.
  - exists r, r'. split; [reflexivity|]. split; [vm_compute in Hr; injection Hr as <-; reflexivity|].
    split; [exact H2|exact H1].
Defined.
